(* ===== verification/_CoqProject ===== *)
-Q . S2P
Prelude.v
Dicts.v
Dates.v
Decimal.v
Cgt.v
Ledger.v
Transactions.v
Adjustments.v
TaxSimulator.v
PortfolioSummary.v
Purification.v
PyText.v
PyFloat.v
FloatRange.v
Payments.v
Gateways.v
Billing.v
Redis.v
Session.v
Auth.v
AuthCorrect.v
Watchlist.v
Portfolios.v
Benchmark.v
BenchmarkCorrect.v
Curriculum.v
Lessons.v
Risk.v
Json.v
Indicators.v
IndicatorsCorrect.v
Backtest.v
StrategyBuilder.v
CustomStrategies.v
Owned.v
Market.v
Calendar.v
Regex.v
PyRepr.v
Announcements.v
ActionIngest.v
AdjustTotal.v
ActionsCorrect.v
Macro.v
Ingest.v
IngestCorrect.v
IndicatorService.v
BacktestTrades.v
BacktestService.v
NewsTables.v
Alerts.v
Goals.v
Notifications.v
NewsText.v
News.v
NewsCorrect.v
NewsService.v
Features.v
Ensemble.v
Inference.v
Predictions.v
Routes.v
RoutesCorrect.v
