(* ===== verification/Prelude.v ===== *)
(** * A verification of the PSX trading-intelligence backend

    The repository is a Python back end for the Pakistan Stock Exchange:
    [src/psx-api] (a FastAPI service: portfolios and taxes, billing, accounts,
    watchlists, goals, lessons, alerts, strategies, predictions, news),
    [src/psx-ingest] (Celery jobs that fill the price, news and macro tables and
    compute derived ones), [src/psx-inference] (model inference) and a web front
    end.  The library models the services and the jobs, and proves what makes them
    correct.

    ** The pieces and the code they model

    Shared vocabulary
    - [Prelude]: exceptions ([exn]) and results ([res], with [let!]), stable
      sorting ([sort_by], for [sorted] and ORDER BY), integer sums, tactics.
    - [Dicts]: dicts as association lists.  [Dates], [Calendar]: [datetime.date]
      as ordinals, its constructor and [strptime].  [Decimal]: [decimal.Decimal] in
      the 28-digit context.  [PyText], [PyRepr], [Regex], [Json]: [str], [int] and
      [Decimal] of text, [repr], the engine of [re], JSON values.  [PyFloat],
      [FloatRange]: binary64 [float], and how far its results can be.
    - [Redis]: the store as an interface with laws, and the monad over it that does
      not roll back.  [Session]: a transaction that an error aborts, and the loops
      of the ingestion tasks through it.
    - [Ledger], [Owned], [Market], [NewsTables]: the tables that several components
      read.

    Money
    - [Cgt] ([psx_api/tax/cgt.py]): bracket lookup and FIFO capital-gains tax.
    - [Transactions] ([services/transaction_service.py]): preview, saving a trade,
      the holdings snapshot recomputed from the history.
    - [TaxSimulator], [PortfolioSummary], [Purification] (the services of the same
      names, and [purification/calculator.py]): reports over the ledger.
    - [Portfolios] ([services/portfolio_service.py]): portfolios, one default.
    - [Payments], [Gateways] ([services/payments/*]): the gateway contract, the
      seven adapters and their registry.  [Billing] ([services/billing_service.py],
      [routers/billing.py]): plans, subscriptions, payment intents, callbacks.

    Market data
    - [Ingest], [IngestCorrect] ([scrapers/dps.py], [tasks/ohlcv.py],
      [tasks/backfill.py], [backfill.py]): end-of-day prices.
    - [Announcements], [ActionIngest], [ActionsCorrect] ([scrapers/pucars.py],
      [tasks/corporate_actions.py]): corporate actions.
    - [Adjustments], [AdjustTotal] ([psx_ingest/adjustments.py],
      [tasks/adjust_prices.py]): prices adjusted for splits and dividends.
    - [Macro] ([psx_ingest/macro/], [tasks/macro.py], [services/macro_service.py]):
      rates and currencies, from the pages to the API.
    - [NewsText], [News], [NewsCorrect], [NewsService] ([psx_ingest/news/],
      [tasks/news.py], [psx_api/news/], [services/news_service.py]): articles, the
      companies they mention, their sentiment, and the pulse of a company.

    Access and personal data
    - [Auth], [AuthCorrect] ([services/auth_service.py], [services/rate_limiter.py],
      [services/email_service.py], [routers/auth.py]).
    - [Benchmark], [BenchmarkCorrect] ([psx_ingest/benchmark/aggregate.py],
      [psx_api/benchmark/buckets.py], [services/benchmark_service.py]).
    - [Watchlist], [Notifications], [Curriculum] and [Lessons], [Risk], [Goals]
      ([services/watchlist_service.py], [notification_service.py],
      [lesson_service.py], [goal_service.py]; [learning/curriculum.py],
      [risk/profile.py], [goals/tvm.py], [goals/allocation.py]).
    - [Routes], [RoutesCorrect] ([routers/portfolios.py], [watchlist.py], [goals.py],
      [alerts.py], [community.py]): the authenticated routes over all of these.

    Signals and strategies
    - [Indicators], [IndicatorsCorrect] ([indicators/compute.py]) and
      [IndicatorService] ([indicators/interpret.py], [services/indicator_service.py],
      [cache.py]).
    - [Backtest] ([backtest/engine.py], [strategies.py], [metrics.py]),
      [BacktestTrades], [BacktestService] ([services/backtest_service.py],
      [backtest/narrate.py]).
    - [StrategyBuilder] ([strategy_builder/parse.py]): strategies from JSON rules,
      and [CustomStrategies] ([services/custom_strategy_service.py]), their table.
    - [Alerts] ([alerts/pump_dump.py], [services/alert_service.py]).
    - [Features], [Ensemble], [Predictions] ([predictions/features.py],
      [predictions/ensemble.py], [services/prediction_service.py]) and [Inference]
      ([psx_inference/inference.py], [routers/predict.py]).

    ** How code becomes definitions

    A service method is a function from the tables to a [res] of the new tables
    and its answer; an exception leaves the tables alone, because the request's
    session rolls back.  The jobs catch exceptions inside a transaction: they are
    computations over a [session], where a refused statement makes the server refuse
    the following ones and the commit store nothing.  A table is a list of rows in
    insertion order, a query a filter, a flush checks the unique constraints of the
    schema and raises [IntegrityError].  Identifiers, tokens, the clock and the
    server's timestamps are arguments; dates are ordinals, instants seconds or
    microseconds.  Where SQL leaves an order open, rows keep the order of the table.
    Texts are ASCII where case, white space or a pattern matters.

    What is not in the repository is a parameter: hash functions, HMAC, pyotp, the
    mail server and JSON serialization are members of the classes [Runtime] and
    [AuthRuntime], the C library's [pow], [exp] and [log] of [LibM] and [LibMExp]
    (nothing is assumed of them, or the hypothesis is in the statement), Redis is the
    class [Redis] with [RedisLaws], which [ttl_map] satisfies.  Web sites are
    functions from a request to what the parser of HTML made of the answer
    ([Server], [Site], [Scraper], [document]), trained models functions of features.

    The components meet as in the code: [Transactions], [PortfolioSummary] and
    [TaxSimulator] call [Cgt] on the lots that [Ledger.open_lots] computes;
    [Billing] runs any gateway [Gateways.get_gateway] returns, through the
    contract of [Payments]; [Auth] and its limiter, the news scrapers and the
    indicator cache run over the interface of [Redis]; [Benchmark] reads what
    [PortfolioSummary] and [Auth] store; the rules [CustomStrategies] stores become
    strategies [Backtest.run] takes, which [BacktestService] runs on the rows of
    [Market]; [Adjustments] reads the rows [ActionIngest] writes; [News],
    [ActionIngest] and [Macro] write through [Session.batch_refines]; [Routes]
    dispatches requests of several users to the services.

    ** What the theorems show

    - FIFO tax and trades: [match_fifo] refines integer first-in-first-out
      allocation, branch by branch, and agrees with [calculate_cgt] on one lot;
      saving a trade is correct on every branch, ends, and keeps the ledger's
      invariant; the snapshot accounts for every share and rupee.
    - Reports: the simulator's comparison, the liquidation and the purification
      amounts are exact within their stated ranges.
    - Billing: what a callback does on every branch, that repeating it changes
      nothing, that a configured gateway accepts only signed callbacks, and the
      invariant of the tables over any history.
    - Market data: a range of days is asked for once and ends; what a night leaves
      of each symbol's prices whatever happens to the others; a run over news or
      announcements commits the fold of its items or nothing; what was known of a
      corporate action stays known; the adjusted series equals a row-by-row
      reference, and whatever was announced the adjustment returns; the API's macro
      series are the points of the run over what was there; the pulse of a company
      stays in its range and has the sign of its headlines.
    - Accounts: log-in, sessions and lock-out, as histories of requests over the laws
      of the store, and the invariant of the tables.
    - Users: whatever requests are served, nobody changes another user's
      rows; reordering, defaults, goals and their projections, each against a closed
      description of the result.
    - Benchmark: a run writes the buckets of five or more opted-in users from
      their data alone.
    - Strategies and signals: the engine does not look ahead, with every preset and
      every custom strategy; when a custom strategy is long; indicator series are
      aligned with their closes, their readings follow the values, and the cache
      answers what was computed less than an hour ago; alerts and predictions against
      their rules, on every branch.
    - Behaviour that contradicts the documentation or the intention is proved as it
      is, or shown by an example that the findings name.

    ** Bounds and fuel

    Decimal results are exact only while a coefficient fits 28 digits: theorems
    over money take a bound on prices and volumes ([ledger_ok], [capacity]) under
    which no operation rounds but the ones written as rounding.  The selling loop
    of the walk runs with two steps of fuel more than it has lots
    ([create_terminates]); printing and parsing of numbers with as many steps as
    the number has binary digits; the loop over a range of days with as many as
    there are days; the shortest text of a float with seventeen digits at most.
    Quiz scores are exact up to thirty-nine questions ([percentage_exact]),
    questionnaire means up to five.

    ** Not modelled

    BeautifulSoup, the wire, and the parsing of news pages, which are third-party
    code or selectors of a site; the archive of the price history, whose failure
    changes nothing; the pages of securities and sectors; the training of the
    anomaly model and of the inference models (numeric libraries); the list of
    seeded companies; settings, worker schedules, migrations (their constraints are
    part of the operations), schemas without behaviour of their own, logging,
    cookies, and the web front end.  Concurrency of requests is not modelled, except
    that a callback may arrive any number of times.  Infinities and NaNs of
    [Decimal] appear where a gateway or a page may send them; a signalling NaN is
    taken for a quiet one. *)

From Stdlib Require Export ZArith Lia Sorting.Sorted Sorting.Permutation.
From stdpp Require Export base list gmap strings option.

#[export] Set Default Proof Using "Type".
#[export] Set Warnings "-clear-no-such-hyp,-register-all".
Open Scope Z_scope.

(** ** Python exceptions and the error monad

    A Python call either returns or raises.  [exn] lists the exceptions the
    modelled code raises or catches by name. *)

Inductive exn : Type :=
| ValueError                      (* a built-in ValueError *)
| KeyError                        (* dict lookup of a missing key *)
| IndexError                      (* list index out of range *)
| TypeError
| ZeroDivisionError               (* float or Decimal division by zero *)
| InvalidOperation                (* decimal.InvalidOperation *)
| NoApplicableTaxRuleError
| InsufficientLotsError
| InvalidAnswersError
| InvalidStrategyError
| IntegrityError                  (* sqlalchemy.exc.IntegrityError *)
| MultipleResultsFound            (* scalar_one_or_none on two rows *)
| AttributeError                  (* a method the value does not have *)
| OverflowError                   (* int() of an infinite float *)
| DataError                       (* sqlalchemy.exc.DataError: value too large for its column *)
| StatementError                  (* sqlalchemy.exc.StatementError: value its column cannot bind *)
| ResponseError                   (* redis.exceptions.ResponseError *)
| MissingGreenlet                 (* an attribute that is not loaded, read outside of the async session *)
| HTTPError                       (* httpx.HTTPError: a refused request, or no answer *)
| ValidationError                 (* scrapers.dps.ValidationError *)
| SMTPException                   (* the mail server refused *)
| DBAPIError                      (* sqlalchemy.exc.DBAPIError: any other error of the server *)
| HTTPException422                (* pydantic refused the request body *)
| ServiceError (status_code : Z). (* the services' own errors, with their HTTP status *)

#[export] Instance exn_eq_dec : EqDecision exn.
Proof. solve_decision. Defined.

Inductive res (A : Type) : Type :=
| Ok (a : A)
| Exn (e : exn).
Arguments Ok {A} a.
Arguments Exn {A} e.

Declare Scope psx_scope.
Delimit Scope psx_scope with psx.
Notation "'let!' x := m 'in' k" := (match m with Ok x => k | Exn err => Exn err end)
  (at level 10, x pattern, m at level 100, k at level 200) : psx_scope.
Open Scope psx_scope.

Definition is_ok {A} (r : res A) : bool := match r with Ok _ => true | Exn _ => false end.

(** [mapM] over [res]: a Python loop that raises at the first failing element. *)
Fixpoint map_res {A B} (f : A -> res B) (l : list A) : res (list B) :=
  match l with
  | [] => Ok []
  | x :: xs => let! y := f x in let! ys := map_res f xs in Ok (y :: ys)
  end.

Fixpoint fold_res {A S} (f : S -> A -> res S) (s : S) (l : list A) : res S :=
  match l with
  | [] => Ok s
  | x :: xs => let! s' := f s x in fold_res f s' xs
  end.

(** ** Tactics *)

(** Case analysis on the scrutinee of the first [match] of the goal. *)
Ltac split_match :=
  match goal with
  | |- context [match ?x with _ => _ end] => destruct x eqn:?
  end.

Ltac split_match_in H :=
  match type of H with
  | context [match ?x with _ => _ end] => destruct x eqn:?
  end.

(** Turn boolean comparisons on [Z] into propositions. *)
Ltac zbool :=
  repeat match goal with
  | H : (_ =? _) = true |- _ => apply Z.eqb_eq in H
  | H : (_ =? _) = false |- _ => apply Z.eqb_neq in H
  | H : (_ <? _) = true |- _ => apply Z.ltb_lt in H
  | H : (_ <? _) = false |- _ => apply Z.ltb_ge in H
  | H : (_ <=? _) = true |- _ => apply Z.leb_le in H
  | H : (_ <=? _) = false |- _ => apply Z.leb_gt in H
  | H : (_ && _)%bool = true |- _ => apply andb_true_iff in H; destruct H
  | H : (_ || _)%bool = false |- _ => apply orb_false_iff in H; destruct H
  | H : negb _ = true |- _ => apply negb_true_iff in H
  | H : negb _ = false |- _ => apply negb_false_iff in H
  end.

(** Invert equations between results. *)
Ltac inv_res :=
  repeat match goal with
  | H : Ok _ = Ok _ |- _ => injection H as H; subst
  | H : Exn _ = Exn _ |- _ => injection H as H; subst
  | H : Ok _ = Exn _ |- _ => discriminate H
  | H : Exn _ = Ok _ |- _ => discriminate H
  end.

(** Peel the binds of a computation known to succeed. *)
Ltac res_step H :=
  let E := fresh "E" in
  match type of H with
  | (match ?m with Ok _ => _ | Exn _ => _ end) = _ => destruct m eqn:E; [| discriminate H]
  end.

Create HintDb psx.

(** ** Lemmas on results *)

Lemma map_res_length {A B} (f : A -> res B) l l' :
  map_res f l = Ok l' -> length l' = length l.
Proof.
  revert l'; induction l as [|x xs IH]; simpl; intros l' H; [by inv_res|].
  res_step H. res_step H. inv_res. simpl. f_equal. eauto.
Qed.

Lemma map_res_ok {A B} (f : A -> res B) (g : A -> B) l :
  (forall x, x ∈ l -> f x = Ok (g x)) -> map_res f l = Ok (map g l).
Proof.
  induction l as [|x xs IH]; intros H; simpl; [done|].
  rewrite (H x) by set_solver. rewrite IH; [done|]. intros; apply H; set_solver.
Qed.

Lemma map_res_Forall2 {A B} (f : A -> res B) l l' :
  map_res f l = Ok l' -> Forall2 (fun a b => f a = Ok b) l l'.
Proof.
  revert l'; induction l as [|x xs IH]; simpl; intros l' H; [by inv_res; constructor|].
  res_step H. res_step H. inv_res. constructor; eauto.
Qed.

Lemma fold_res_app {A S} (f : S -> A -> res S) s l1 l2 :
  fold_res f s (l1 ++ l2) = (let! s' := fold_res f s l1 in fold_res f s' l2).
Proof.
  revert s; induction l1 as [|x xs IH]; intros s; simpl; [done|].
  destruct (f s x); [apply IH|done].
Qed.

(** ** Lemmas on lists *)

Lemma NoDup_snoc {A} (l : list A) x : NoDup l -> x ∉ l -> NoDup (l ++ [x]).
Proof.
  intros Hl Hx. apply list.NoDup_app. split_and!; [done| |apply NoDup_singleton].
  intros y Hy Hy'. apply list_elem_of_singleton in Hy' as ->. by apply Hx.
Qed.

Lemma elem_of_lfilter {A} (f : A -> bool) l x : x ∈ List.filter f l <-> x ∈ l /\ f x = true.
Proof. by rewrite !list_elem_of_In, filter_In. Qed.

Lemma elem_of_flat_map {A B} (f : A -> list B) l y : y ∈ flat_map f l <-> exists x, x ∈ l /\ y ∈ f x.
Proof. rewrite list_elem_of_In, in_flat_map. setoid_rewrite list_elem_of_In. done. Qed.

Lemma lfilter_swap {A} (f g : A -> bool) l : List.filter f (List.filter g l) = List.filter g (List.filter f l).
Proof. induction l as [|x l IH]; [done|]. cbn. destruct (f x) eqn:Ef, (g x) eqn:Eg; cbn; rewrite ?Ef, ?Eg, IH; done. Qed.

Lemma lfilter_all {A} (f : A -> bool) l : (forall x, x ∈ l -> f x = true) -> List.filter f l = l.
Proof.
  induction l as [|x xs IH]; intros Hf; cbn; [done|]. rewrite (Hf x) by (by constructor).
  rewrite IH; [done|]. intros; apply Hf; by constructor.
Qed.

Lemma lfilter_perm {A} (f : A -> bool) l l' : l ≡ₚ l' -> List.filter f l ≡ₚ List.filter f l'.
Proof.
  induction 1 as [|x l l' Hp IH|x y l|l1 l2 l3 H1 IH1 H2 IH2]; cbn [List.filter]; [done| | |by etransitivity].
  - destruct (f x); [by constructor|done].
  - destruct (f x), (f y); try done. constructor.
Qed.

Lemma elem_of_take_in {A} k (l : list A) x : x ∈ take k l -> x ∈ l.
Proof. intros H. rewrite <- (take_drop k l). apply elem_of_app. by left. Qed.

Lemma mem_text s l : existsb (String.eqb s) l = true <-> s ∈ l.
Proof.
  rewrite existsb_exists, list_elem_of_In. split; [by intros (x & Hx & ->%String.eqb_eq)|].
  intros H. exists s. by rewrite String.eqb_refl.
Qed.

(** ** Stable sorting

    Python's [sorted] and [list.sort] are stable; [sort_by le] is the stable
    insertion sort for the total preorder [le] (["x <= y" on the keys]).  The
    same function models [ORDER BY], whose ties SQL leaves open: rows with equal
    keys keep the order of the table. *)

Section sorting.
Context {A : Type} (le : A -> A -> bool).

Fixpoint insert_by (x : A) (l : list A) : list A :=
  match l with
  | [] => [x]
  | y :: ys => if le x y then x :: y :: ys else y :: insert_by x ys
  end.

Fixpoint sort_by (l : list A) : list A :=
  match l with
  | [] => []
  | x :: xs => insert_by x (sort_by xs)
  end.

Lemma insert_by_perm x l : insert_by x l ≡ₚ x :: l.
Proof.
  induction l as [|y ys IH]; simpl; [done|].
  case_match; [done|]. rewrite IH. apply Permutation_swap.
Qed.

Lemma sort_by_perm l : sort_by l ≡ₚ l.
Proof.
  induction l as [|x xs IH]; simpl; [done|]. by rewrite insert_by_perm, IH.
Qed.

Lemma sort_by_length l : length (sort_by l) = length l.
Proof. apply Permutation_length, sort_by_perm. Qed.

Lemma elem_of_sort_by x l : x ∈ sort_by l <-> x ∈ l.
Proof. by rewrite sort_by_perm. Qed.

Lemma Forall_sort_by (P : A -> Prop) l : Forall P l -> Forall P (sort_by l).
Proof. by rewrite sort_by_perm. Qed.

(** A list already in order is unchanged. *)
Lemma sort_by_id l :
  StronglySorted (fun x y => le x y = true) l -> sort_by l = l.
Proof.
  induction 1 as [|x xs Hs IH Hx]; simpl; [done|].
  rewrite IH. destruct xs as [|y ys]; simpl; [done|].
  inversion Hx as [|? ? Hxy]; subst. by rewrite Hxy.
Qed.

Context (le_total : forall x y, le x y = true \/ le y x = true).
Context (le_trans : forall x y z, le x y = true -> le y z = true -> le x z = true).

Lemma insert_by_sorted x l :
  StronglySorted (fun x y => le x y = true) l ->
  StronglySorted (fun x y => le x y = true) (insert_by x l).
Proof using le_total le_trans.
  induction 1 as [|y ys Hs IH Hy]; simpl; [repeat constructor|].
  destruct (le x y) eqn:E.
  - repeat constructor; [done..|].
    eapply Forall_impl; [|exact Hy]. intros; simpl; eauto.
  - constructor; [done|]. rewrite insert_by_perm. constructor; [|done].
    destruct (le_total x y); congruence.
Qed.

Lemma sort_by_sorted l : StronglySorted (fun x y => le x y = true) (sort_by l).
Proof using le_total le_trans.
  induction l; simpl; [constructor|]. by apply insert_by_sorted.
Qed.

(** The head of the sorted list is a minimum of the list. *)
Lemma sort_by_head x xs l :
  sort_by l = x :: xs -> forall y, y ∈ l -> le x y = true.
Proof using le_total le_trans.
  intros E y Hy. pose proof (sort_by_sorted l) as Hs. rewrite E in Hs.
  rewrite <- (elem_of_sort_by y l), E in Hy.
  apply StronglySorted_inv in Hs as [_ Hall].
  apply elem_of_cons in Hy as [->|Hy].
  - destruct (le_total x x); auto.
  - rewrite Forall_forall in Hall. apply Hall. by apply list_elem_of_In.
Qed.
End sorting.

#[export] Hint Resolve Forall_sort_by : psx.

(** When the order is total on the elements of the list only. *)
Lemma sort_by_sorted_on {A} (le : A -> A -> bool) (P : A -> Prop) l :
  (forall x y, P x -> P y -> le x y = true \/ le y x = true) ->
  (forall x y z, le x y = true -> le y z = true -> le x z = true) ->
  Forall P l -> StronglySorted (fun x y => le x y = true) (sort_by le l).
Proof.
  intros Htot Htr. induction 1 as [|x l Hx Hl IH]; cbn [sort_by]; [constructor|].
  apply (Forall_sort_by le) in Hl. revert Hl. induction IH as [|y ys Hs IH Hy]; intros Hl; cbn [insert_by]; [repeat constructor|].
  inversion_clear Hl as [|? ? Py Pys]. destruct (le x y) eqn:E.
  - repeat constructor; [done..|]. eapply Forall_impl; [|exact Hy]; intros z; by apply Htr.
  - constructor; [by apply IH|]. rewrite insert_by_perm. constructor; [|done]. destruct (Htot x y); congruence.
Qed.

(** What is before in a sorted list is not after what follows. *)
Lemma sorted_take_drop {A} (R : A -> A -> Prop) k l x y :
  StronglySorted R l -> x ∈ take k l -> y ∈ drop k l -> R x y.
Proof.
  intros Hs. revert k. induction Hs as [|z l Hl IH Hz]; intros [|k] Hx Hy; cbn [take drop] in *;
    try (by apply not_elem_of_nil in Hx).
  apply elem_of_cons in Hx as [->|Hx]; [|by apply (IH k)].
  rewrite Forall_forall in Hz. apply Hz, list_elem_of_In. rewrite <- (take_drop k l). apply elem_of_app. by right.
Qed.

(** ** Sums of integers *)

Definition zsum (l : list Z) : Z := fold_right Z.add 0 l.

Lemma zsum_app l1 l2 : zsum (l1 ++ l2) = zsum l1 + zsum l2.
Proof. unfold zsum. induction l1; simpl in *; lia. Qed.

Lemma zsum_nonneg l : Forall (fun x => 0 <= x) l -> 0 <= zsum l.
Proof. unfold zsum. induction 1; simpl in *; lia. Qed.

Lemma zsum_perm l1 l2 : l1 ≡ₚ l2 -> zsum l1 = zsum l2.
Proof. unfold zsum. induction 1; simpl in *; lia. Qed.

Lemma zsum_map_add {A} (f g : A -> Z) l :
  zsum (map (fun x => f x + g x) l) = zsum (map f l) + zsum (map g l).
Proof. unfold zsum. induction l; simpl in *; lia. Qed.

Lemma zsum_fold_left l a : fold_left Z.add l a = a + zsum l.
Proof. unfold zsum. revert a; induction l; intros; simpl in *; [lia|]. rewrite IHl. lia. Qed.

Lemma zsum_abs_le l : Z.abs (zsum l) <= zsum (map Z.abs l).
Proof. unfold zsum. induction l; simpl; lia. Qed.

(** A bound on a key over a list. *)
Lemma key_bound {A} (g : A -> Z) (l : list A) : exists d, forall x, In x l -> g x <= d.
Proof.
  induction l as [|y ys [d IH]]; [by exists 0|]. exists (Z.max d (g y)).
  intros x [->|Hin]; [lia|]. specialize (IH x Hin). lia.
Qed.

(** ** Lists in strictly increasing order of a key *)

Definition increasing {A} (key : A -> Z) : list A -> Prop := StronglySorted (fun x y => key x < key y).

(** There is one such list of given elements. *)
Lemma increasing_unique {A} (key : A -> Z) l1 l2 :
  increasing key l1 -> increasing key l2 -> l1 ≡ₚ l2 -> l1 = l2.
Proof.
  revert l2; induction l1 as [|x xs IH]; intros l2 H1 H2 Hp.
  - by apply Permutation_nil in Hp as ->.
  - destruct l2 as [|y ys]; [symmetry in Hp; by apply Permutation_nil in Hp|].
    apply StronglySorted_inv in H1 as [H1 Hx]. apply StronglySorted_inv in H2 as [H2 Hy].
    assert (x = y) as <-.
    { assert (Hxin : x ∈ y :: ys) by (rewrite <- Hp; by constructor).
      assert (Hyin : y ∈ x :: xs) by (rewrite Hp; by constructor).
      apply elem_of_cons in Hxin as [->|Hxin]; [done|]. apply elem_of_cons in Hyin as [->|Hyin]; [done|].
      rewrite Forall_forall in Hx, Hy. specialize (Hx y). specialize (Hy x).
      rewrite <- list_elem_of_In in Hx, Hy. specialize (Hx Hyin). specialize (Hy Hxin). lia. }
    f_equal. apply IH; [done..|]. by apply Permutation_cons_inv in Hp.
Qed.

Lemma sorted_increasing {A} (key : A -> Z) (le : A -> A -> bool) l :
  (forall x y, le x y = true -> key x <= key y) ->
  StronglySorted (fun x y => le x y = true) l -> NoDup (map key l) -> increasing key l.
Proof.
  intros Hle Hs. induction Hs as [|x xs Hs IH Hx]; intros Hnd; [constructor|].
  cbn [map] in Hnd. apply list.NoDup_cons in Hnd as [Hn Hnd]. constructor; [by apply IH|].
  rewrite Forall_forall in *. intros y Hy. specialize (Hle x y (Hx y Hy)).
  assert (key x <> key y); [|lia]. intros E. apply Hn. rewrite E. apply list_elem_of_fmap_2. by apply list_elem_of_In.
Qed.

(** Sorting when no two keys are equal, with any order that refines the keys'. *)
Lemma sort_by_increasing {A} (key : A -> Z) (le : A -> A -> bool) l :
  (forall x y, le x y = true \/ le y x = true) ->
  (forall x y z, le x y = true -> le y z = true -> le x z = true) ->
  (forall x y, le x y = true -> key x <= key y) ->
  NoDup (map key l) -> increasing key (sort_by le l).
Proof.
  intros H1 H2 H3 Hnd. apply (sorted_increasing key le); [done|by apply sort_by_sorted|].
  eapply NoDup_Permutation_proper; [|exact Hnd]. apply Permutation_map, sort_by_perm.
Qed.

Lemma increasing_filter {A} (key : A -> Z) (f : A -> bool) l :
  increasing key l -> increasing key (List.filter f l).
Proof.
  induction 1 as [|x xs Hs IH Hx]; cbn [List.filter]; [constructor|].
  destruct (f x); [|done]. constructor; [done|]. rewrite Forall_forall in *.
  intros y Hy. apply filter_In in Hy as [Hy _]. auto.
Qed.

(** Sorting by a component. *)
Lemma map_sort_by {A B} (f : A -> B) (le : B -> B -> bool) l :
  map f (sort_by (fun a b => le (f a) (f b)) l) = sort_by le (map f l).
Proof.
  assert (Hi : forall x l, map f (insert_by (fun a b => le (f a) (f b)) x l) = insert_by le (f x) (map f l)).
  { intros x l'. induction l' as [|y ys IH]; cbn [insert_by map]; [done|].
    destruct (le (f x) (f y)); cbn [map]; [done|]. by rewrite IH. }
  induction l as [|x xs IH]; cbn [sort_by map]; [done|]. by rewrite Hi, IH.
Qed.

Lemma increasing_map {A B} (key : B -> Z) (f : A -> B) l :
  increasing (fun x => key (f x)) l -> increasing key (map f l).
Proof.
  induction 1 as [|x xs Hs IH Hx]; cbn [map]; constructor; [done|].
  rewrite Forall_forall in *. intros y Hy. apply in_map_iff in Hy as (z & <- & Hz). auto.
Qed.

Lemma increasing_nodup {A} (key : A -> Z) l : increasing key l -> NoDup (map key l).
Proof.
  induction 1 as [|x xs Hs IH Hx]; cbn [map]; constructor; [|done].
  rewrite Forall_forall in Hx. intros (y & E & Hy)%list_elem_of_fmap.
  specialize (Hx y (proj1 (list_elem_of_In _ _) Hy)). lia.
Qed.

Lemma increasing_ext {A} (f g : A -> Z) l :
  (forall x, x ∈ l -> f x = g x) -> increasing g l -> increasing f l.
Proof.
  intros Heq Hs. induction Hs as [|x xs Hs IH Hx]; [constructor|].
  constructor; [apply IH; intros; apply Heq; by constructor|].
  rewrite Forall_forall in *. intros y Hy.
  rewrite (Heq x) by (by constructor). rewrite (Heq y) by (constructor; by apply list_elem_of_In). by apply Hx.
Qed.

(** Sorting and filtering commute: the sort is stable. *)
Lemma filter_sort_by {A} (le : A -> A -> bool) (f : A -> bool) l :
  (forall x y, le x y = true \/ le y x = true) ->
  (forall x y z, le x y = true -> le y z = true -> le x z = true) ->
  List.filter f (sort_by le l) = sort_by le (List.filter f l).
Proof.
  intros Htot Htr.
  assert (Hfront : forall x l, (forall z, In z l -> le x z = true) -> insert_by le x l = x :: l).
  { intros x [|y ys] Hz; cbn [insert_by]; [done|]. by rewrite (Hz y) by (by left). }
  assert (Hins : forall x l, StronglySorted (fun x y => le x y = true) l ->
    List.filter f (insert_by le x l) = if f x then insert_by le x (List.filter f l) else List.filter f l).
  { intros x l' Hs. induction Hs as [|y ys Hs IH Hy]; cbn [insert_by List.filter]; [by destruct (f x)|].
    rewrite Forall_forall in Hy. destruct (le x y) eqn:E; cbn [List.filter].
    - destruct (f x); [|done]. rewrite Hfront; [done|]. intros z Hz.
      assert (Hz' : In z (y :: ys)) by (destruct (f y); [destruct Hz as [->|Hz]; [by left|]|]; right; apply filter_In in Hz as [Hz _]; exact Hz).
      destruct Hz' as [<-|Hz']; [done|]. eapply Htr; [done|]. by apply Hy.
    - rewrite IH. destruct (f x), (f y); cbn [insert_by]; by rewrite ?E. }
  induction l as [|x xs IH]; cbn [sort_by List.filter]; [done|].
  rewrite Hins by (by apply sort_by_sorted). rewrite IH. by destruct (f x).
Qed.
