(* ===== verification/Dicts.v ===== *)
(** * Dicts: Python dictionaries

    A dictionary in insertion order, as the list of its entries: a new key goes
    to the end, an old one keeps its place. *)

From S2P Require Import Prelude.

(** [d[k] = f(d.get(k))] for a key that is new or old. *)
Fixpoint dict_alter {K V} `{EqDecision K} (f : option V -> V) (k : K) (d : list (K * V)) : list (K * V) :=
  match d with
  | [] => [(k, f None)]
  | (k', v) :: rest => if decide (k' = k) then (k', f (Some v)) :: rest else (k', v) :: dict_alter f k rest
  end.

Section dict.
Context {K V : Type} `{EqDecision K}.

Definition dict_get (k : K) (d : list (K * V)) : option V :=
  option_map snd (List.find (fun p => bool_decide (p.1 = k)) d).

(** [d.get(k, v)], [d[k] = v] *)
Definition dict_get_or (v : V) (k : K) (d : list (K * V)) : V := default v (dict_get k d).
Definition dict_set (k : K) (v : V) (d : list (K * V)) : list (K * V) := dict_alter (fun _ => v) k d.

Lemma dict_get_cons k k' v (d : list (K * V)) :
  dict_get k ((k', v) :: d) = if decide (k' = k) then Some v else dict_get k d.
Proof.
  unfold dict_get. cbn [List.find fst].
  case_bool_decide; destruct (decide (k' = k)); (done || contradiction).
Qed.

Lemma dict_alter_get (f : option V -> V) (k : K) d (k' : K) :
  dict_get k' (dict_alter f k d) = if decide (k' = k) then Some (f (dict_get k d)) else dict_get k' d.
Proof.
  induction d as [|[k0 v] d IH]; cbn [dict_alter].
  - rewrite dict_get_cons. destruct (decide (k = k')), (decide (k' = k)); (done || congruence).
  - rewrite !dict_get_cons. destruct (decide (k0 = k)) as [->|]; rewrite !dict_get_cons.
    + destruct (decide (k = k')), (decide (k' = k)); congruence.
    + rewrite IH. destruct (decide (k0 = k')), (decide (k' = k)); congruence.
Qed.

Lemma dict_alter_keys (f : option V -> V) (k : K) (d : list (K * V)) :
  map fst (dict_alter f k d) = if decide (k ∈ map fst d) then map fst d else (map fst d ++ [k])%list.
Proof.
  induction d as [|[k0 v] d IH]; cbn [dict_alter map].
  - rewrite decide_False by apply not_elem_of_nil. done.
  - destruct (decide (k0 = k)) as [->|Hne]; cbn [map fst].
    + rewrite decide_True by constructor. done.
    + rewrite IH. destruct (decide (k ∈ map fst d)).
      * rewrite decide_True by (by constructor). done.
      * rewrite decide_False; [done|]. rewrite elem_of_cons. intros [->|]; done.
Qed.

Lemma dict_alter_nodup (f : option V -> V) (k : K) (d : list (K * V)) : NoDup (map fst d) -> NoDup (map fst (dict_alter f k d)).
Proof. intros Hd. rewrite dict_alter_keys. destruct (decide _); [done|]. by apply NoDup_snoc. Qed.

Lemma dict_get_elem (k : K) (v : V) d : NoDup (map fst d) -> dict_get k d = Some v <-> (k, v) ∈ d.
Proof.
  induction d as [|[k0 v0] d IH]; cbn [map fst]; intros Hnd; [split; [done|by intros ?%not_elem_of_nil]|].
  apply list.NoDup_cons in Hnd as [Hk Hnd]. rewrite dict_get_cons, elem_of_cons.
  destruct (decide (k0 = k)) as [->|Hne].
  - split; [intros [= ->]; by left|]. intros [[= ->]|Hin]; [done|].
    exfalso. apply Hk. by apply (list_elem_of_fmap_2 fst) in Hin.
  - rewrite IH by done. split; [by right|]. intros [[= -> ->]|]; done.
Qed.
End dict.
