(* ===== verification/Dates.v ===== *)
(** * Dates: proleptic ordinals of [datetime.date]

    A date is its ordinal ([date.toordinal()], 1 for 1 January of year 1).  The
    calendar arithmetic is the one of Python's [datetime] module, as far as the
    services use it: the year of a date and the first day of a year. *)

From S2P Require Import Prelude.

(** [lia] with quotients and remainders, in this file. *)
#[local] Ltac Zify.zify_post_hook ::= Z.to_euclidean_division_equations.

(** [_days_before_year] *)
Definition days_before_year (y : Z) : Z :=
  let y := y - 1 in y * 365 + y / 4 - y / 100 + y / 400.

(** [date(y, 1, 1)] *)
Definition first_of_year (y : Z) : Z := days_before_year y + 1.

(** [date.fromordinal(n).year], as [_ord2ymd] computes it. *)
Definition year_of (ord : Z) : Z :=
  let n := ord - 1 in
  let n400 := n / 146097 in
  let n := n mod 146097 in
  let n100 := n / 36524 in
  let n := n mod 36524 in
  let n4 := n / 1461 in
  let n := n mod 1461 in
  let n1 := n / 365 in
  let year := n400 * 400 + 1 + n100 * 100 + n4 * 4 + n1 in
  if ((n1 =? 4) || (n100 =? 4))%bool then year - 1 else year.

Example year_of_leap_day : year_of (days_before_year 2024 + 60) = 2024.
Proof. reflexivity. Qed.
Example year_of_new_year : map (fun k => year_of (first_of_year 2025 + k)) [-1; 0; 364; 365] = [2024; 2025; 2025; 2026].
Proof. reflexivity. Qed.

(** The year contains the date. *)
Lemma year_of_spec ord :
  1 <= ord -> days_before_year (year_of ord) < ord <= days_before_year (year_of ord + 1).
Proof.
  intros H. unfold year_of, days_before_year.
  set (n := ord - 1). set (n400 := n / 146097). set (m := n mod 146097).
  set (n100 := m / 36524). set (m1 := m mod 36524).
  set (n4 := m1 / 1461). set (m2 := m1 mod 1461). set (n1 := m2 / 365).
  assert (E0 : n = 146097 * n400 + m /\ 0 <= m < 146097) by (subst n400 m; lia).
  assert (E1 : m = 36524 * n100 + m1 /\ 0 <= m1 < 36524) by (subst n100 m1; lia).
  assert (E2 : m1 = 1461 * n4 + m2 /\ 0 <= m2 < 1461) by (subst n4 m2; lia).
  assert (E3 : 365 * n1 <= m2 < 365 * n1 + 365) by (subst n1; lia).
  clearbody n400 m n100 m1 n4 m2 n1. subst n.
  assert (B100 : 0 <= n100 <= 4) by lia. assert (B4 : 0 <= n4 <= 24) by lia.
  assert (B1 : 0 <= n1 <= 4) by lia.
  assert (Hdiv : forall q r d, 0 < d -> 0 <= r < d -> (d * q + r) / d = q).
  { intros q r d Hd Hr. rewrite Z.mul_comm, Z.div_add_l by lia. rewrite Z.div_small by lia. lia. }
  destruct ((n1 =? 4) || (n100 =? 4))%bool eqn:E.
  - apply orb_true_iff in E as [E|E]; zbool; subst.
    + assert (n100 <> 4) by lia.
      replace (n400 * 400 + 1 + n100 * 100 + n4 * 4 + 4 - 1 - 1)
        with (400 * n400 + 100 * n100 + 4 * n4 + 3) by ring.
      replace (n400 * 400 + 1 + n100 * 100 + n4 * 4 + 4 - 1 + 1 - 1)
        with (400 * n400 + 100 * n100 + 4 * n4 + 4) by ring. lia.
    + lia.
  - apply orb_false_iff in E as [E Ex]; zbool. lia.
Qed.

Lemma year_of_first y : 1 <= y -> year_of (first_of_year y) = y.
Proof.
  intros H. pose proof (year_of_spec (first_of_year y)) as Hs. unfold first_of_year in *.
  assert (Hmono : forall a b, a < b -> days_before_year a + 365 <= days_before_year b)
    by (intros a b Hab; unfold days_before_year; lia).
  assert (1 <= days_before_year y + 1) by (unfold days_before_year; lia).
  specialize (Hs ltac:(lia)). set (w := year_of _) in *. clearbody w.
  destruct (Z.lt_trichotomy w y) as [Hlt|[->|Hgt]]; [|done|].
  - destruct (decide (w + 1 = y)) as [<-|Hne]; [lia|]. specialize (Hmono (w + 1) y ltac:(lia)). lia.
  - specialize (Hmono y w ltac:(lia)). lia.
Qed.

(** A date is in year [y] exactly between its first day and the next's. *)
Lemma year_of_iff ord y :
  1 <= ord -> year_of ord = y <-> first_of_year y <= ord < first_of_year (y + 1).
Proof.
  intros H. pose proof (year_of_spec ord H) as Hs. unfold first_of_year.
  assert (Hmono : forall a b, a < b -> days_before_year a + 365 <= days_before_year b)
    by (intros a b Hab; unfold days_before_year; lia).
  split; [intros <-; lia|]. intros Hy. set (w := year_of ord) in *. clearbody w.
  destruct (Z.lt_trichotomy w y) as [Hlt|[->|Hgt]]; [|done|].
  - destruct (decide (w + 1 = y)) as [<-|Hne]; [lia|]. specialize (Hmono (w + 1) y ltac:(lia)). lia.
  - destruct (decide (y + 1 = w)) as [<-|Hne]; [lia|]. specialize (Hmono (y + 1) w ltac:(lia)). lia.
Qed.

(** ** Month and day, clock time

    [date.month] and [date.day], and the timestamp formats the payment
    gateways ask for; an instant is its Unix time in seconds. *)

Definition is_leap (y : Z) : bool :=
  ((y mod 4 =? 0) && (negb (y mod 100 =? 0) || (y mod 400 =? 0)))%bool.

Definition days_in_month (y m : Z) : Z :=
  if m =? 2 then (if is_leap y then 29 else 28)
  else if ((m =? 4) || (m =? 6) || (m =? 9) || (m =? 11))%bool then 30 else 31.

Fixpoint month_day (fuel : nat) (y m day : Z) : Z * Z :=
  match fuel with
  | O => (m, day)
  | S f => if day <=? days_in_month y m then (m, day)
           else month_day f y (m + 1) (day - days_in_month y m)
  end.

(** Year, month and day of an ordinal. *)
Definition ymd_of (ord : Z) : Z * Z * Z :=
  let y := year_of ord in
  let '(m, d) := month_day 11 y 1 (ord - days_before_year y) in (y, m, d).

(** The ordinal of the UTC day an instant falls on (1 January 1970 is 719163). *)
Definition ordinal_of_unix (t : Z) : Z := 719163 + t / 86400.

Example ymd_of_ex : map ymd_of [719163; 738945; 738945 + 365; 738946 + 364; 739312]
  = [(1970, 1, 1); (2024, 2, 29); (2025, 2, 28); (2025, 2, 28); (2025, 3, 2)].
Proof. vm_compute. reflexivity. Qed.

(** ** The order of dates *)

Lemma month_day_mono fuel y m d d' :
  d < d' ->
  let '(m1, d1) := month_day fuel y m d in
  let '(m2, d2) := month_day fuel y m d' in m <= m1 <= m2 /\ m2 <= m + Z.of_nat fuel /\ (m1 = m2 -> d1 < d2).
Proof.
  revert m d d'. induction fuel as [|f IH]; intros m d d' Hd; [cbn; lia|]. cbn [month_day].
  destruct (d <=? _) eqn:E1; destruct (d' <=? _) eqn:E2; zbool; try lia.
  - specialize (IH (m + 1) (d' - days_in_month y m - 1) (d' - days_in_month y m) ltac:(lia)).
    destruct (month_day f y (m + 1) (d' - days_in_month y m - 1)), (month_day f y (m + 1) (d' - days_in_month y m)). lia.
  - specialize (IH (m + 1) (d - days_in_month y m) (d' - days_in_month y m) ltac:(lia)).
    destruct (month_day _ _ _ (d - _)), (month_day _ _ _ (d' - _)). lia.
Qed.

Lemma year_of_mono a b : 1 <= a <= b -> year_of a <= year_of b.
Proof.
  intros H. pose proof (year_of_spec a ltac:(lia)). pose proof (year_of_spec b ltac:(lia)).
  destruct (Z.le_gt_cases (year_of a) (year_of b)) as [|Hgt]; [done|].
  assert (days_before_year (year_of b + 1) <= days_before_year (year_of a)) by (unfold days_before_year; lia). lia.
Qed.

(** The months since year zero order dates, and within a month the days do. *)
Lemma ymd_of_mono a b :
  1 <= a < b ->
  let '(y1, m1, d1) := ymd_of a in
  let '(y2, m2, d2) := ymd_of b in y1 * 12 + m1 < y2 * 12 + m2 \/ (y1 * 12 + m1 = y2 * 12 + m2 /\ d1 < d2).
Proof.
  intros H. pose proof (year_of_mono a b ltac:(lia)) as Hy. unfold ymd_of.
  set (y1 := year_of a) in *. set (y2 := year_of b) in *.
  pose proof (month_day_mono 11 y1 1 (a - days_before_year y1) (a - days_before_year y1 + 1) ltac:(lia)) as Ha.
  pose proof (month_day_mono 11 y2 1 (b - days_before_year y2 - 1) (b - days_before_year y2) ltac:(lia)) as Hb.
  destruct (Z.eq_dec y1 y2) as [E|].
  - rewrite E in *. pose proof (month_day_mono 11 y2 1 (a - days_before_year y2) (b - days_before_year y2) ltac:(lia)) as Hm.
    destruct (month_day _ _ _ (a - _)), (month_day _ _ _ (b - days_before_year y2)). lia.
  - destruct (month_day 11 y1 1 (a - _)), (month_day 11 y2 1 (b - days_before_year y2)), (month_day 11 y1 1 _),
      (month_day 11 y2 1 _). lia.
Qed.
