(* ===== verification/Decimal.v ===== *)
(** * Decimal: Python's [decimal.Decimal] arithmetic

    A finite decimal is a coefficient and a power-of-ten exponent.  [dadd],
    [dsub], [dmul] and [ddiv] compute the exact result and round it to the 28
    significant digits of Python's default context with ROUND_HALF_EVEN;
    [dquantize] fixes the exponent with the caller's rounding mode and raises
    [InvalidOperation] when the result needs more than 28 digits.  Comparisons
    are exact.  Infinities, NaNs, the sign of zero and the exponent limits
    (10^6) are left out: the values come from NUMERIC columns and validated
    request bodies, and no modelled code branches on them.

    [repr s d z] is the simulation relation the other files use: the decimal
    [d] denotes the integer [z] of units 10^-s.  The lemmas below say that each
    operation computes on those integers as long as results stay below 10^28
    units, that is, as long as the context never has to round. *)

From S2P Require Import Prelude.

Record dec := mkdec { coef : Z; expo : Z }.

#[export] Instance dec_eq_dec : EqDecision dec.
Proof. solve_decision. Defined.

Definition prec : Z := 28.

(** Number of decimal digits of a positive integer ([len(str(n))]). *)
Fixpoint ndigits_fuel (fuel : nat) (n : Z) : Z :=
  match fuel with
  | O => 1
  | S f => if n <? 10 then 1 else 1 + ndigits_fuel f (n / 10)
  end.
Definition ndigits (n : Z) : Z := ndigits_fuel (Z.to_nat (Z.log2 (Z.abs n))) (Z.abs n).

(** ** Rounding of a quotient [n / d], [d > 0] *)

Definition div_half_even (n d : Z) : Z :=
  let q := n / d in
  let r := n mod d in
  if 2 * r <? d then q
  else if d <? 2 * r then q + 1
  else if Z.even q then q else q + 1.

(** ROUND_HALF_UP: ties go away from zero. *)
Definition div_half_up (n d : Z) : Z :=
  Z.sgn n * ((2 * Z.abs n + d) / (2 * d)).

Inductive rounding := ROUND_HALF_EVEN | ROUND_HALF_UP.

Definition div_round (rm : rounding) : Z -> Z -> Z :=
  match rm with ROUND_HALF_EVEN => div_half_even | ROUND_HALF_UP => div_half_up end.

(** [Decimal._fix] in the default context. *)
Definition dfix (d : dec) : dec :=
  let n := ndigits (coef d) in
  if n <=? prec then d
  else
    let k := n - prec in
    let c := div_half_even (coef d) (10 ^ k) in
    if ndigits c <=? prec then mkdec c (expo d + k)
    else mkdec (c / 10) (expo d + k + 1).

(** ** Arithmetic *)

Definition dadd (a b : dec) : dec :=
  let e := Z.min (expo a) (expo b) in
  dfix (mkdec (coef a * 10 ^ (expo a - e) + coef b * 10 ^ (expo b - e)) e).

Definition dopp (a : dec) : dec := mkdec (- coef a) (expo a).
Definition dneg (a : dec) : dec := dfix (dopp a).
Definition dabs (a : dec) : dec := dfix (mkdec (Z.abs (coef a)) (expo a)).
Definition dsub (a b : dec) : dec := dadd a (dopp b).
Definition dmul (a b : dec) : dec := dfix (mkdec (coef a * coef b) (expo a + expo b)).

(** Strip trailing zeros of an exact quotient down to the ideal exponent. *)
Fixpoint strip_zeros (fuel : nat) (c e ideal : Z) : Z * Z :=
  match fuel with
  | O => (c, e)
  | S f => if (e <? ideal) && (c mod 10 =? 0)
           then strip_zeros f (c / 10) (e + 1) ideal
           else (c, e)
  end.

Definition ddiv (a b : dec) : res dec :=
  if coef b =? 0 then Exn ZeroDivisionError
  else if coef a =? 0 then Ok (mkdec 0 (expo a - expo b))
  else
    let shift := ndigits (coef b) - ndigits (coef a) + prec + 1 in
    let e := expo a - expo b - shift in
    let ca := Z.abs (coef a) in
    let cb := Z.abs (coef b) in
    let num := if 0 <=? shift then ca * 10 ^ shift else ca in
    let den := if 0 <=? shift then cb else cb * 10 ^ (- shift) in
    let q := num / den in
    let r := num mod den in
    let sg := Z.sgn (coef a) * Z.sgn (coef b) in
    if r =? 0 then
      let '(c, e') := strip_zeros (Z.to_nat (expo a - expo b - e)) q e (expo a - expo b) in
      Ok (dfix (mkdec (sg * c) e'))
    else
      let c := if q mod 5 =? 0 then q + 1 else q in
      Ok (dfix (mkdec (sg * c) e)).

(** [d.quantize(Decimal(10) ** -p, rounding=rm)] *)
Definition dquantize (rm : rounding) (p : Z) (d : dec) : res dec :=
  let c := if - p <=? expo d then coef d * 10 ^ (expo d + p)
           else div_round rm (coef d) (10 ^ (- p - expo d)) in
  if ndigits c <=? prec then Ok (mkdec c (- p)) else Exn InvalidOperation.

(** ** Comparison: exact *)

Definition dcompare (a b : dec) : comparison :=
  let e := Z.min (expo a) (expo b) in
  (coef a * 10 ^ (expo a - e)) ?= (coef b * 10 ^ (expo b - e)).

Definition dltb a b : bool := match dcompare a b with Lt => true | _ => false end.
Definition dleb a b : bool := match dcompare a b with Gt => false | _ => true end.
Definition deqb a b : bool := match dcompare a b with Eq => true | _ => false end.

(** Python's [min]/[max] return the first argument on ties. *)
Definition dmin (a b : dec) : dec := if dltb b a then b else a.
Definition dmax (a b : dec) : dec := if dltb a b then b else a.

(** [sum(l, Decimal("0"))] *)
Definition dzero : dec := mkdec 0 0.
Definition dsum (l : list dec) : dec := fold_left dadd l dzero.

(** [Decimal(n)] for a Python integer. *)
Definition dec_of_Z (n : Z) : dec := mkdec n 0.

Declare Scope dec_scope.
Delimit Scope dec_scope with dec.
Bind Scope dec_scope with dec.
Infix "+" := dadd : dec_scope.
Infix "-" := dsub : dec_scope.
Infix "*" := dmul : dec_scope.
Infix "<?" := dltb : dec_scope.
Infix "<=?" := dleb : dec_scope.
Infix "=?" := deqb : dec_scope.

Example ddiv_third : ddiv (mkdec 1 0) (mkdec 3 0) = Ok (mkdec 3333333333333333333333333333 (-28)).
Proof. vm_compute. reflexivity. Qed.
Example ddiv_exact_ex : ddiv (mkdec 12345 (-2)) (mkdec 100 0) = Ok (mkdec 12345 (-4)).
Proof. vm_compute. reflexivity. Qed.
Example dquantize_ex : dquantize ROUND_HALF_UP 2 (mkdec (-12345) (-3)) = Ok (mkdec (-1235) (-2)).
Proof. vm_compute. reflexivity. Qed.
Example dquantize_even : dquantize ROUND_HALF_EVEN 2 (mkdec 12345 (-3)) = Ok (mkdec 1234 (-2)).
Proof. vm_compute. reflexivity. Qed.

(** ** Digits *)

Lemma pow10_pos k : 0 <= k -> 0 < 10 ^ k.
Proof. intros. apply Z.pow_pos_nonneg; lia. Qed.

Lemma pow10_split a b : 0 <= a -> 0 <= b -> 10 ^ (a + b) = 10 ^ a * 10 ^ b.
Proof. intros. apply Z.pow_add_r; lia. Qed.

Lemma ndigits_fuel_spec fuel n :
  0 < n < 2 ^ (Z.of_nat fuel + 1) ->
  1 <= ndigits_fuel fuel n /\
  10 ^ (ndigits_fuel fuel n - 1) <= n < 10 ^ ndigits_fuel fuel n.
Proof.
  revert n; induction fuel as [|f IH]; intros n Hn; cbn [ndigits_fuel].
  - change (2 ^ (Z.of_nat 0 + 1)) with 2 in Hn. simpl. lia.
  - destruct (n <? 10) eqn:E; zbool; [simpl; lia|].
    assert (Hq : 0 < n / 10 < 2 ^ (Z.of_nat f + 1)).
    { split; [apply Z.div_str_pos; lia|].
      apply Z.div_lt_upper_bound; [lia|].
      replace (Z.of_nat (S f) + 1) with (1 + (Z.of_nat f + 1)) in Hn by lia.
      rewrite Z.pow_add_r in Hn by lia.
      pose proof (Z.pow_pos_nonneg 2 (Z.of_nat f + 1)). lia. }
    apply IH in Hq as (H1 & H2 & H3).
    set (m := ndigits_fuel f (n / 10)) in *.
    replace (1 + m - 1) with (1 + (m - 1)) by lia.
    rewrite !pow10_split by lia. change (10 ^ 1) with 10.
    pose proof (Z.div_mod n 10). pose proof (Z.mod_pos_bound n 10). lia.
Qed.

Lemma ndigits_spec n :
  n <> 0 -> 1 <= ndigits n /\ 10 ^ (ndigits n - 1) <= Z.abs n < 10 ^ ndigits n.
Proof.
  intros Hn. apply ndigits_fuel_spec.
  pose proof (Z.log2_nonneg (Z.abs n)). rewrite Z2Nat.id by lia.
  split; [lia|]. rewrite Z.add_1_r. apply Z.log2_spec. lia.
Qed.

Lemma ndigits_0 : ndigits 0 = 1. Proof. reflexivity. Qed.

Lemma ndigits_le n k : 1 <= k -> Z.abs n < 10 ^ k -> ndigits n <= k.
Proof.
  intros Hk H. destruct (decide (n = 0)) as [->|Hn]; [rewrite ndigits_0; lia|].
  destruct (ndigits_spec n Hn) as (H1 & H2 & _).
  destruct (Z.le_gt_cases (ndigits n) k); [done|].
  assert (10 ^ k <= 10 ^ (ndigits n - 1)) by (apply Z.pow_le_mono_r; lia). lia.
Qed.

Lemma ndigits_gt n k : 0 <= k -> k < ndigits n -> 1 <= k -> 10 ^ k <= Z.abs n.
Proof.
  intros Hk H ?. destruct (decide (n = 0)) as [->|Hn]; [rewrite ndigits_0 in H; lia|].
  destruct (ndigits_spec n Hn) as (H1 & H2 & _).
  etransitivity; [|exact H2]. apply Z.pow_le_mono_r; lia.
Qed.

(** ** Rounding lemmas *)

Lemma div_half_even_exact z d : 0 < d -> div_half_even (z * d) d = z.
Proof.
  intros Hd. unfold div_half_even.
  rewrite Z.mod_mul, Z.div_mul by lia. change (2 * 0) with 0.
  by rewrite (proj2 (Z.ltb_lt 0 d) Hd).
Qed.

Lemma div_half_up_exact z d : 0 < d -> div_half_up (z * d) d = z.
Proof.
  intros Hd. unfold div_half_up.
  rewrite Z.sgn_mul, (Z.sgn_pos d), Z.mul_1_r, Z.abs_mul, (Z.abs_eq d) by lia.
  replace (2 * (Z.abs z * d) + d) with (d + Z.abs z * (2 * d)) by ring.
  rewrite Z.div_add, Z.div_small by lia. rewrite Z.add_0_l, Z.mul_comm. apply Z.abs_sgn.
Qed.

Lemma div_round_exact rm z d : 0 < d -> div_round rm (z * d) d = z.
Proof. destruct rm; [apply div_half_even_exact|apply div_half_up_exact]. Qed.

(** Nearest: the rounded quotient is within half a unit. *)
Lemma div_half_even_near n d :
  0 < d -> - d <= 2 * (n - d * div_half_even n d) <= d.
Proof.
  intros Hd. unfold div_half_even.
  pose proof (Z.div_mod n d ltac:(lia)). pose proof (Z.mod_pos_bound n d Hd).
  destruct (2 * (n mod d) <? d) eqn:E1, (d <? 2 * (n mod d)) eqn:E2; zbool;
    try destruct (Z.even (n / d)); lia.
Qed.

Lemma div_half_up_near n d :
  0 < d -> - d <= 2 * (n - d * div_half_up n d) <= d.
Proof.
  intros Hd. unfold div_half_up.
  pose proof (Z.div_mod (2 * Z.abs n + d) (2 * d)).
  pose proof (Z.mod_pos_bound (2 * Z.abs n + d) (2 * d)).
  destruct (Z.lt_trichotomy n 0) as [?|[->|?]].
  - rewrite Z.sgn_neg, Z.abs_neq in * by lia. nia.
  - simpl. lia.
  - rewrite Z.sgn_pos, Z.abs_eq in * by lia. nia.
Qed.

Lemma div_round_near rm n d :
  0 < d -> - d <= 2 * (n - d * div_round rm n d) <= d.
Proof. destruct rm; [apply div_half_even_near|apply div_half_up_near]. Qed.

Lemma div_half_up_mono n m d : 0 < d -> n <= m -> div_half_up n d <= div_half_up m d.
Proof.
  intros Hd H. unfold div_half_up.
  assert (Hpos : forall a b, 0 <= a -> a <= b -> (2 * a + d) / (2 * d) <= (2 * b + d) / (2 * d))
    by (intros; apply Z.div_le_mono; lia).
  assert (Hge : forall a, 0 <= a -> 0 <= (2 * a + d) / (2 * d)) by (intros; apply Z.div_pos; lia).
  destruct (Z.lt_trichotomy n 0) as [?|[->|?]], (Z.lt_trichotomy m 0) as [?|[->|?]]; try lia;
    repeat first [rewrite Z.sgn_neg by lia | rewrite Z.sgn_pos by lia
                 | rewrite Z.abs_neq by lia | rewrite Z.abs_eq by lia];
    change (Z.sgn 0) with 0;
    repeat match goal with
    | |- context [(2 * ?a + d) / (2 * d)] =>
        lazymatch goal with
        | _ : 0 <= (2 * a + d) / (2 * d) |- _ => fail
        | _ => pose proof (Hge a ltac:(lia))
        end
    end; try lia.
  - pose proof (Hpos (- m) (- n)). lia.
  - pose proof (Hpos n m). lia.
Qed.

Lemma div_half_up_nonneg n d : 0 < d -> 0 <= n -> 0 <= div_half_up n d.
Proof.
  intros. change 0 with (div_half_up 0 d) at 1. by apply div_half_up_mono.
Qed.

(** ** The simulation relation

    [repr s d z]: the value of [d] is exactly [z * 10^-s]. *)

Definition repr (s : Z) (d : dec) (z : Z) : Prop :=
  coef d * 10 ^ Z.max 0 (expo d + s) = z * 10 ^ Z.max 0 (- (expo d + s)).

(** The largest number of units an unrounded result may have. *)
Definition exact_bound : Z := 10 ^ prec.

Lemma repr_K K s d z :
  0 <= K -> 0 <= K + expo d + s ->
  repr s d z <-> coef d * 10 ^ (K + expo d + s) = z * 10 ^ K.
Proof.
  intros HK HK'. unfold repr.
  destruct (Z.le_gt_cases 0 (expo d + s)).
  - rewrite Z.max_r, Z.max_l by lia. change (10 ^ 0) with 1.
    replace (K + expo d + s) with (K + (expo d + s)) by lia.
    rewrite (pow10_split K (expo d + s)) by lia. pose proof (pow10_pos K HK). nia.
  - rewrite Z.max_l, Z.max_r by lia. change (10 ^ 0) with 1.
    replace K with ((K + expo d + s) + - (expo d + s)) at 2 by lia.
    rewrite (pow10_split (K + expo d + s) (- (expo d + s))) by lia.
    pose proof (pow10_pos (K + expo d + s) HK'). nia.
Qed.

Lemma repr_fun s d z1 z2 : repr s d z1 -> repr s d z2 -> z1 = z2.
Proof.
  set (K := Z.abs (expo d + s)).
  intros H1%(repr_K K) H2%(repr_K K); [|lia..].
  pose proof (pow10_pos K). nia.
Qed.

Lemma repr_refl c e : repr (- e) (mkdec c e) c.
Proof. unfold repr; simpl. by replace (e + - e) with 0 by lia. Qed.

Lemma repr_of_Z n : repr 0 (dec_of_Z n) n.
Proof. apply (repr_refl n 0). Qed.

Lemma repr_zero s : repr s dzero 0.
Proof. unfold repr; simpl. lia. Qed.

(** Moving to a finer scale. *)
Lemma repr_finer s k d z : 0 <= k -> repr s d z -> repr (s + k) d (z * 10 ^ k).
Proof.
  intros Hk H. set (K := Z.abs (expo d + s)).
  apply (repr_K K) in H; [|lia..]. apply (repr_K K); [lia..|].
  replace (K + expo d + (s + k)) with ((K + expo d + s) + k) by lia.
  rewrite (pow10_split (K + expo d + s) k) by lia. pose proof (pow10_pos k). nia.
Qed.

(** Rounding to 28 digits does nothing below the bound. *)
Lemma dfix_repr s d z :
  repr s d z -> Z.abs z < exact_bound -> repr s (dfix d) z.
Proof.
  unfold exact_bound, prec. intros H Hz. unfold dfix, prec.
  destruct (ndigits (coef d) <=? 28) eqn:E; zbool; [done|].
  set (n := ndigits (coef d)) in *. set (c := coef d) in *.
  assert (Hc : c <> 0) by (intros Hc; subst n; rewrite Hc, ndigits_0 in E; lia).
  destruct (ndigits_spec c Hc) as (_ & Hlo & Hhi). fold n in Hlo, Hhi.
  assert (Hbig : 10 ^ 28 <= Z.abs c)
    by (etransitivity; [|exact Hlo]; apply Z.pow_le_mono_r; lia).
  unfold repr in H. fold c in H.
  destruct (Z.le_gt_cases 0 (expo d + s)).
  - rewrite Z.max_r, Z.max_l in H by lia. change (10 ^ 0) with 1 in H.
    pose proof (pow10_pos (expo d + s)). nia.
  - rewrite Z.max_l, Z.max_r in H by lia. change (10 ^ 0) with 1 in H.
    set (m := - (expo d + s)) in *. rewrite Z.mul_1_r in H.
    assert (Hk : n - 28 <= m).
    { destruct (Z.le_gt_cases (n - 28) m); [done|].
      assert (Hp : 10 ^ (28 + m) <= 10 ^ (n - 1)) by (apply Z.pow_le_mono_r; lia).
      rewrite pow10_split in Hp by lia.
      pose proof (pow10_pos m). rewrite H, Z.abs_mul, (Z.abs_eq (10 ^ m)) in Hlo by lia. nia. }
    set (k := n - 28) in *.
    assert (Hc' : c = z * 10 ^ (m - k) * 10 ^ k).
    { rewrite <- Z.mul_assoc, <- pow10_split by lia. by replace (m - k + k) with m by lia. }
    pose proof (pow10_pos k ltac:(lia)).
    rewrite Hc' at 1. rewrite div_half_even_exact by done.
    set (c2 := z * 10 ^ (m - k)) in *.
    assert (Hd : ndigits c2 <= 28).
    { apply ndigits_le; [lia|].
      rewrite Hc', Z.abs_mul, (Z.abs_eq (10 ^ k)) in Hhi by lia.
      replace n with (28 + k) in Hhi by lia. rewrite pow10_split in Hhi by lia. nia. }
    replace (div_half_even c (10 ^ k)) with c2 by (rewrite Hc'; by rewrite div_half_even_exact).
    rewrite (proj2 (Z.leb_le _ _) Hd).
    unfold repr; simpl. rewrite Z.max_l, Z.max_r by lia. change (10 ^ 0) with 1.
    rewrite Z.mul_1_r. unfold c2. f_equal. f_equal. lia.
Qed.

Lemma dopp_repr s a za : repr s a za -> repr s (dopp a) (- za).
Proof. unfold repr, dopp; simpl. lia. Qed.

Lemma dneg_repr s a za :
  repr s a za -> Z.abs za < exact_bound -> repr s (dneg a) (- za).
Proof. intros. apply dfix_repr; [by apply dopp_repr|lia]. Qed.

Lemma dadd_repr s a b za zb :
  repr s a za -> repr s b zb -> Z.abs (za + zb) < exact_bound ->
  repr s (dadd a b) (za + zb).
Proof.
  intros Ha Hb Hz. apply dfix_repr; [|done].
  set (e := Z.min (expo a) (expo b)).
  set (K := Z.abs (expo a) + Z.abs (expo b) + Z.abs s).
  apply (repr_K K) in Ha; [|lia..]. apply (repr_K K) in Hb; [|lia..].
  apply (repr_K K); simpl; [lia..|].
  rewrite Z.mul_add_distr_r.
  rewrite <- !Z.mul_assoc, <- !pow10_split by lia.
  replace (expo a - e + (K + e + s)) with (K + expo a + s) by lia.
  replace (expo b - e + (K + e + s)) with (K + expo b + s) by lia.
  rewrite Ha, Hb. ring.
Qed.

Lemma dsub_repr s a b za zb :
  repr s a za -> repr s b zb -> Z.abs (za - zb) < exact_bound ->
  repr s (dsub a b) (za - zb).
Proof. intros. apply dadd_repr; [done|by apply dopp_repr|done]. Qed.

Lemma dmul_repr s t a b za zb :
  repr s a za -> repr t b zb -> Z.abs (za * zb) < exact_bound ->
  repr (s + t) (dmul a b) (za * zb).
Proof.
  intros Ha Hb Hz. apply dfix_repr; [|done].
  set (K := Z.abs (expo a) + Z.abs (expo b) + Z.abs s + Z.abs t).
  apply (repr_K K) in Ha; [|lia..]. apply (repr_K K) in Hb; [|lia..].
  apply (repr_K (K + K)); simpl; [lia..|].
  replace (K + K + (expo a + expo b) + (s + t))
    with ((K + expo a + s) + (K + expo b + t)) by lia.
  rewrite (pow10_split (K + expo a + s)), (pow10_split K K) by lia.
  transitivity ((coef a * 10 ^ (K + expo a + s)) * (coef b * 10 ^ (K + expo b + t))); [ring|].
  rewrite Ha, Hb. ring.
Qed.

(** Comparisons read off the units. *)
Lemma dcompare_repr s a b za zb :
  repr s a za -> repr s b zb -> dcompare a b = (za ?= zb).
Proof.
  intros Ha Hb. unfold dcompare. set (e := Z.min (expo a) (expo b)).
  set (K := Z.abs (expo a) + Z.abs (expo b) + Z.abs s).
  apply (repr_K K) in Ha; [|lia..]. apply (repr_K K) in Hb; [|lia..].
  pose proof (pow10_pos (K + e + s) ltac:(lia)). pose proof (pow10_pos K ltac:(lia)).
  rewrite (Zmult_compare_compat_r _ _ (10 ^ (K + e + s))) by lia.
  rewrite (Zmult_compare_compat_r za zb (10 ^ K)) by lia.
  rewrite <- Ha, <- Hb, <- !Z.mul_assoc, <- !pow10_split by lia.
  f_equal; do 2 f_equal; lia.
Qed.

Lemma dltb_repr s a b za zb : repr s a za -> repr s b zb -> dltb a b = (za <? zb).
Proof. intros Ha Hb. unfold dltb. by rewrite (dcompare_repr s a b za zb). Qed.
Lemma dleb_repr s a b za zb : repr s a za -> repr s b zb -> dleb a b = (za <=? zb).
Proof. intros Ha Hb. unfold dleb. by rewrite (dcompare_repr s a b za zb). Qed.
Lemma deqb_repr s a b za zb : repr s a za -> repr s b zb -> deqb a b = (za =? zb).
Proof.
  intros Ha Hb. unfold deqb. rewrite (dcompare_repr s a b za zb) by done.
  destruct (Z.compare_spec za zb); destruct (Z.eqb_spec za zb); lia || done.
Qed.

Lemma dmin_repr s a b za zb : repr s a za -> repr s b zb -> repr s (dmin a b) (Z.min za zb).
Proof.
  intros Ha Hb. unfold dmin. rewrite (dltb_repr s b a zb za) by done.
  destruct (zb <? za) eqn:E; zbool; [by rewrite Z.min_r by lia|by rewrite Z.min_l by lia].
Qed.

Lemma dmax_repr s a b za zb : repr s a za -> repr s b zb -> repr s (dmax a b) (Z.max za zb).
Proof.
  intros Ha Hb. unfold dmax. rewrite (dltb_repr s a b za zb) by done.
  destruct (za <? zb) eqn:E; zbool; [by rewrite Z.max_r by lia|by rewrite Z.max_l by lia].
Qed.

(** ** Quantisation *)

Lemma div_half_even_scale n d k : 0 < d -> 0 < k -> div_half_even (n * k) (d * k) = div_half_even n d.
Proof.
  intros. unfold div_half_even.
  rewrite Z.div_mul_cancel_r, Z.mul_mod_distr_r by lia.
  replace (2 * (n mod d * k) <? d * k) with (2 * (n mod d) <? d)
    by (apply eq_true_iff_eq; rewrite !Z.ltb_lt; nia).
  replace (d * k <? 2 * (n mod d * k)) with (d <? 2 * (n mod d))
    by (apply eq_true_iff_eq; rewrite !Z.ltb_lt; nia).
  done.
Qed.

Lemma div_half_up_scale n d k : 0 < d -> 0 < k -> div_half_up (n * k) (d * k) = div_half_up n d.
Proof.
  intros. unfold div_half_up.
  rewrite Z.sgn_mul, (Z.sgn_pos k), Z.mul_1_r, Z.abs_mul, (Z.abs_eq k) by lia.
  replace (2 * (Z.abs n * k) + d * k) with ((2 * Z.abs n + d) * k) by ring.
  replace (2 * (d * k)) with (2 * d * k) by ring.
  by rewrite Z.div_mul_cancel_r by lia.
Qed.

Lemma div_round_scale rm n d k :
  0 < d -> 0 < k -> div_round rm (n * k) (d * k) = div_round rm n d.
Proof. destruct rm; [apply div_half_even_scale|apply div_half_up_scale]. Qed.

(** The integer [dquantize] computes, whatever its size. *)
Definition quantized (rm : rounding) (p : Z) (d : dec) : Z :=
  if - p <=? expo d then coef d * 10 ^ (expo d + p)
  else div_round rm (coef d) (10 ^ (- p - expo d)).

Lemma quantized_repr rm p s d z :
  p <= s -> repr s d z -> quantized rm p d = div_round rm z (10 ^ (s - p)).
Proof.
  intros Hps H. unfold quantized. set (K := Z.abs (expo d) + Z.abs s + Z.abs p).
  apply (repr_K K) in H; [|lia..].
  pose proof (pow10_pos (K + expo d + s) ltac:(lia)). pose proof (pow10_pos K ltac:(lia)).
  pose proof (pow10_pos (s - p) ltac:(lia)).
  rewrite <- (div_round_scale rm z (10 ^ (s - p)) (10 ^ K)) by done.
  rewrite <- H, <- pow10_split by lia.
  destruct (- p <=? expo d) eqn:E; zbool.
  - replace (K + expo d + s) with ((expo d + p) + (s - p + K)) by lia.
    rewrite (pow10_split (expo d + p)) by lia. rewrite Z.mul_assoc.
    by rewrite div_round_exact by (apply pow10_pos; lia).
  - replace (s - p + K) with ((- p - expo d) + (K + expo d + s)) by lia.
    rewrite (pow10_split (- p - expo d)) by lia.
    by rewrite div_round_scale by (done || apply pow10_pos; lia).
Qed.

Lemma dquantize_ok rm p d :
  Z.abs (quantized rm p d) < exact_bound ->
  dquantize rm p d = Ok (mkdec (quantized rm p d) (- p)) /\
  repr p (mkdec (quantized rm p d) (- p)) (quantized rm p d).
Proof.
  intros H. unfold dquantize. fold (quantized rm p d).
  apply ndigits_le in H; [|unfold prec; lia]. rewrite (proj2 (Z.leb_le _ _) H).
  split; [done|]. replace p with (- - p) at 1 by lia. apply repr_refl.
Qed.

Lemma dquantize_inv rm p d q :
  dquantize rm p d = Ok q ->
  q = mkdec (quantized rm p d) (- p) /\ repr p q (quantized rm p d).
Proof.
  unfold dquantize. fold (quantized rm p d). intros H. case_match; inv_res.
  split; [done|]. replace p with (- - p) at 1 by lia. apply repr_refl.
Qed.

Lemma dquantize_repr rm p s d z :
  p <= s -> repr s d z -> Z.abs (div_round rm z (10 ^ (s - p))) < exact_bound ->
  exists q, dquantize rm p d = Ok q /\ repr p q (div_round rm z (10 ^ (s - p))).
Proof.
  intros Hps H Hz. rewrite <- (quantized_repr rm p s d z) in * by done.
  destruct (dquantize_ok rm p d Hz). eauto.
Qed.

(** Every decimal is an integer at a scale fine enough. *)
Lemma repr_exists k d : exists s z, k <= s /\ repr s d z.
Proof.
  exists (Z.max k (- expo d)), (coef d * 10 ^ (expo d + Z.max k (- expo d))).
  split; [lia|]. unfold repr. rewrite Z.max_r, (Z.max_l 0) by lia. simpl. lia.
Qed.

(** ** Division *)

Lemma strip_zeros_repr fuel u sg c e ideal z :
  repr u (mkdec (sg * c) e) z ->
  let '(c', e') := strip_zeros fuel c e ideal in repr u (mkdec (sg * c') e') z.
Proof.
  revert c e; induction fuel as [|f IH]; intros c e H; cbn [strip_zeros]; [done|].
  destruct ((e <? ideal) && (c mod 10 =? 0))%bool eqn:E; [|done].
  apply andb_true_iff in E as [_ E1%Z.eqb_eq].
  apply IH. set (K := Z.abs e + Z.abs u + 1).
  apply (repr_K K) in H; simpl in *; [|lia..]. apply (repr_K K); simpl; [lia..|].
  rewrite <- H. replace (K + e + u) with (K + (e + 1) + u - 1) by lia.
  replace (K + (e + 1) + u) with (1 + (K + (e + 1) + u - 1)) at 1 by lia.
  rewrite (pow10_split 1) by lia. change (10 ^ 1) with 10.
  rewrite (Z.div_mod c 10) at 2 by lia. rewrite E1. ring.
Qed.

Lemma ndigits_abs n : ndigits (Z.abs n) = ndigits n.
Proof. unfold ndigits. by rewrite Z.abs_idemp. Qed.

Lemma pow_balance s K :
  0 <= K ->
  10 ^ Z.max 0 s * 10 ^ (K + Z.abs s) = 10 ^ Z.max 0 (- s) * 10 ^ (K + Z.abs s + s).
Proof. intros. rewrite <- !pow10_split by lia. f_equal. lia. Qed.

(** The first 29 or more digits of an exact quotient below 10^28 contain it. *)
Lemma long_division_big ca cb :
  0 < ca -> 0 < cb ->
  let shift := ndigits cb - ndigits ca + prec + 1 in
  10 ^ 28 * (cb * 10 ^ Z.max 0 (- shift)) < ca * 10 ^ Z.max 0 shift.
Proof.
  intros Hca Hcb shift.
  destruct (ndigits_spec ca ltac:(lia)) as (Hna1 & Hna & _).
  destruct (ndigits_spec cb ltac:(lia)) as (Hnb1 & _ & Hnb).
  rewrite Z.abs_eq in Hna, Hnb by lia.
  set (P := 10 ^ Z.max 0 shift). set (N := 10 ^ Z.max 0 (- shift)).
  assert (HP : 0 < P) by (apply pow10_pos; lia).
  assert (HN : 0 < N) by (apply pow10_pos; lia).
  assert (Hs : 10 ^ (ndigits ca - 1) * P = 10 ^ 28 * 10 ^ ndigits cb * N).
  { subst P N. rewrite <- !pow10_split by lia. f_equal. unfold shift, prec in *. lia. }
  apply (Z.lt_le_trans _ (10 ^ 28 * 10 ^ ndigits cb * N)).
  - rewrite Z.mul_assoc. apply Z.mul_lt_mono_pos_r; [done|].
    apply Z.mul_lt_mono_pos_l; [apply pow10_pos; lia|exact Hnb].
  - rewrite <- Hs. apply Z.mul_le_mono_nonneg_r; [lia|exact Hna].
Qed.

Lemma long_division_exact ca cb z j K :
  0 < ca -> 0 < cb -> 0 <= z < 10 ^ 28 -> 0 <= K -> 0 <= K + j ->
  ca * 10 ^ (K + j) = z * cb * 10 ^ K ->
  let shift := ndigits cb - ndigits ca + prec + 1 in
  0 < shift - j /\
  ca * 10 ^ Z.max 0 shift = z * 10 ^ (shift - j) * (cb * 10 ^ Z.max 0 (- shift)).
Proof.
  intros Hca Hcb Hz HK HKj Heq shift.
  pose proof (long_division_big ca cb Hca Hcb) as Hbig. cbv zeta in Hbig. fold shift in Hbig.
  pose proof (pow_balance shift (K + K + Z.abs j) ltac:(lia)) as HPN.
  assert (HN : 0 < 10 ^ Z.max 0 (- shift)) by (apply pow10_pos; lia).
  set (P := 10 ^ Z.max 0 shift) in *. set (N := 10 ^ Z.max 0 (- shift)) in *.
  clearbody shift P N.
  set (M := K + K + Z.abs j + Z.abs shift) in *.
  pose proof (pow10_pos M ltac:(lia)) as HM.
  assert (Hval : ca * P * 10 ^ M * 10 ^ K = z * cb * N * 10 ^ K * 10 ^ (M + shift - j)).
  { rewrite <- (Z.mul_assoc ca P), HPN.
    replace (ca * (N * 10 ^ (M + shift)) * 10 ^ K) with (ca * 10 ^ (K + j) * N * 10 ^ (M + shift - j)).
    - rewrite Heq. ring.
    - transitivity (ca * N * (10 ^ (K + j) * 10 ^ (M + shift - j))); [ring|].
      transitivity (ca * N * (10 ^ (M + shift) * 10 ^ K)); [|ring].
      rewrite <- !pow10_split by lia. do 2 f_equal. lia. }
  pose proof (pow10_pos K HK) as HKpos.
  assert (Hval' : ca * P * 10 ^ M = z * cb * N * 10 ^ (M + shift - j)) by nia.
  assert (Hlt : 0 < shift - j).
  { destruct (Z.lt_ge_cases 0 (shift - j)) as [?|Hge]; [done|exfalso].
    assert (ca * P * 10 ^ M <= z * cb * N * 10 ^ M).
    { rewrite Hval'. apply Z.mul_le_mono_nonneg_l; [nia|]. apply Z.pow_le_mono_r; lia. }
    assert (Hle : ca * P <= z * (cb * N)).
    { rewrite Z.mul_assoc. by apply Z.mul_le_mono_pos_r in H. }
    apply (Z.lt_irrefl (10 ^ 28 * (cb * N))).
    apply (Z.lt_le_trans _ _ _ Hbig). apply (Z.le_trans _ _ _ Hle).
    apply Z.mul_le_mono_nonneg_r; [apply Z.lt_le_incl, Z.mul_pos_pos; done|lia]. }
  split; [done|]. apply (Z.mul_reg_r _ _ (10 ^ M)); [lia|].
  rewrite Hval'. replace (M + shift - j) with (M + (shift - j)) by lia.
  rewrite (pow10_split M) by lia. ring.
Qed.

Lemma quotient_coefs s t u a b za zb zq K :
  repr s a za -> repr t b zb ->
  za * 10 ^ Z.max 0 (u + t - s) = zq * zb * 10 ^ Z.max 0 (s - t - u) ->
  Z.abs (expo a) + Z.abs (expo b) + Z.abs s + Z.abs t + Z.abs u <= K ->
  coef a * 10 ^ (K + (expo a - expo b + u)) = zq * coef b * 10 ^ K.
Proof.
  intros Ha Hb Heq HK.
  apply (repr_K K) in Ha; [|lia..]. apply (repr_K K) in Hb; [|lia..].
  set (ea := expo a) in *. set (eb := expo b) in *. clearbody ea eb.
  pose proof (pow10_pos (K + eb + t) ltac:(lia)). pose proof (pow10_pos K ltac:(lia)).
  apply (Z.mul_reg_r _ _ (10 ^ (K + eb + t))); [lia|].
  replace (coef a * 10 ^ (K + (ea - eb + u)) * 10 ^ (K + eb + t))
    with (coef a * 10 ^ (K + ea + s) * 10 ^ (K + u + t - s)).
  2:{ rewrite <- !Z.mul_assoc, <- !pow10_split by lia. do 2 f_equal. lia. }
  rewrite Ha. replace (zq * coef b * 10 ^ K * 10 ^ (K + eb + t))
    with (zq * (coef b * 10 ^ (K + eb + t)) * 10 ^ K) by ring.
  rewrite Hb.
  destruct (Z.le_gt_cases 0 (u + t - s)).
  - rewrite Z.max_r, Z.max_l in Heq by lia. change (10 ^ 0) with 1 in Heq.
    replace (K + u + t - s) with (K + (u + t - s)) by lia.
    rewrite (pow10_split K (u + t - s)) by lia.
    transitivity (za * 10 ^ (u + t - s) * (10 ^ K * 10 ^ K)); [ring|]. rewrite Heq. ring.
  - rewrite Z.max_l, Z.max_r in Heq by lia. change (10 ^ 0) with 1 in Heq.
    rewrite Z.mul_1_r in Heq. rewrite Heq.
    assert (10 ^ K = 10 ^ (K + u + t - s) * 10 ^ (s - t - u)) as HKs
      by (rewrite <- pow10_split by lia; f_equal; lia).
    rewrite HKs at 2. ring.
Qed.

Lemma common_shift ea eb s t u :
  exists K, Z.abs ea + Z.abs eb + Z.abs s + Z.abs t + Z.abs u <= K /\
            0 <= K /\ 0 <= K + (ea - eb + u) /\ 0 <= K + eb + t.
Proof. exists (Z.abs ea + Z.abs eb + Z.abs s + Z.abs t + Z.abs u). lia. Qed.

(** When the exact quotient fits in 28 digits, division returns it. *)
Lemma ddiv_repr s t u a b za zb zq :
  repr s a za -> repr t b zb -> zb <> 0 ->
  za * 10 ^ Z.max 0 (u + t - s) = zq * zb * 10 ^ Z.max 0 (s - t - u) ->
  Z.abs zq < exact_bound ->
  exists q, ddiv a b = Ok q /\ repr u q zq.
Proof.
  intros Ha Hb Hzb Heq Hbd. unfold exact_bound, prec in Hbd.
  destruct (common_shift (expo a) (expo b) s t u) as (K & HK & HK0 & HKj & HKt).
  pose proof (quotient_coefs s t u a b za zb zq K Ha Hb Heq HK) as Hq. clear HK.
  assert (Hcb : coef b <> 0).
  { intros E. apply (repr_K K) in Hb; [|done..]. rewrite E, Z.mul_0_l in Hb.
    symmetry in Hb. apply Z.mul_eq_0 in Hb as [?|Hb]; [done|].
    pose proof (pow10_pos K HK0). lia. }
  pose proof (pow10_pos K HK0) as HKp. clear Heq Ha Hb HKt.
  unfold ddiv. rewrite (proj2 (Z.eqb_neq _ _) Hcb).
  destruct (coef a =? 0) eqn:Ea; zbool.
  { eexists; split; [done|]. assert (zq = 0) as ->.
    { rewrite Ea, Z.mul_0_l in Hq. symmetry in Hq.
      apply Z.mul_eq_0 in Hq as [Hq|?]; [|lia]. apply Z.mul_eq_0 in Hq as [?|?]; done. }
    unfold repr; simpl. lia. }
  set (ea := expo a) in *. set (eb := expo b) in *. clearbody ea eb.
  assert (Hqa : Z.abs (coef a) * 10 ^ (K + (ea - eb + u)) = Z.abs zq * Z.abs (coef b) * 10 ^ K).
  { apply (f_equal Z.abs) in Hq. rewrite !Z.abs_mul in Hq.
    rewrite !(Z.abs_eq (10 ^ _)) in Hq by (apply Z.pow_nonneg; lia). done. }
  assert (Hsg : Z.sgn (coef a) * Z.sgn (coef b) * Z.abs zq = zq).
  { apply (f_equal Z.sgn) in Hq. rewrite !Z.sgn_mul in Hq.
    rewrite !(Z.sgn_pos (10 ^ _)) in Hq by (apply pow10_pos; lia).
    destruct (Z.sgn_spec (coef b)) as [[? R]|[[? R]|[? R]]]; rewrite R in *; lia. }
  destruct (long_division_exact (Z.abs (coef a)) (Z.abs (coef b)) (Z.abs zq) (ea - eb + u) K
              ltac:(lia) ltac:(lia) (conj (Z.abs_nonneg zq) Hbd) HK0 HKj Hqa) as [Hpos Hnum].
  rewrite !ndigits_abs in Hpos, Hnum.
  set (shift := ndigits (coef b) - ndigits (coef a) + prec + 1) in *.
  replace (if 0 <=? shift then Z.abs (coef a) * 10 ^ shift else Z.abs (coef a))
    with (Z.abs (coef a) * 10 ^ Z.max 0 shift).
  2:{ destruct (0 <=? shift) eqn:E; zbool;
        [by rewrite Z.max_r by done|].
      rewrite Z.max_l by (by apply Z.lt_le_incl). change (10 ^ 0) with 1. by rewrite Z.mul_1_r. }
  replace (if 0 <=? shift then Z.abs (coef b) else Z.abs (coef b) * 10 ^ (- shift))
    with (Z.abs (coef b) * 10 ^ Z.max 0 (- shift)).
  2:{ destruct (0 <=? shift) eqn:E; zbool;
        [rewrite Z.max_l by lia; lia|by rewrite Z.max_r by lia]. }
  assert (0 < Z.abs (coef b) * 10 ^ Z.max 0 (- shift))
    by (apply Z.mul_pos_pos; [lia|apply pow10_pos; lia]).
  rewrite Hnum, Z.mod_mul, Z.div_mul by lia. change (0 =? 0) with true. cbv iota.
  clearbody shift.
  match goal with |- context [strip_zeros ?f ?c ?e ?i] =>
    pose proof (strip_zeros_repr f u (Z.sgn (coef a) * Z.sgn (coef b)) c e i zq) as Hst;
    destruct (strip_zeros f c e i) as [c' e'] end.
  eexists; split; [done|]. apply dfix_repr; [|done]. apply Hst.
  unfold repr; simpl. rewrite Z.max_l, Z.max_r by lia. change (10 ^ 0) with 1.
  rewrite Z.mul_assoc, Hsg, Z.mul_1_r. do 2 f_equal. lia.
Qed.

(** ** Accuracy of inexact operations *)

(** [dfix] has relative error at most 10^-27 (in fact half of it). *)
Lemma dfix_near d :
  expo d <= expo (dfix d) /\
  2 * Z.abs (coef (dfix d) * 10 ^ (expo (dfix d) - expo d) - coef d) * 10 ^ 27 <= Z.abs (coef d).
Proof.
  unfold dfix, prec. destruct (ndigits (coef d) <=? 28) eqn:E; zbool.
  { split; [lia|]. rewrite Z.sub_diag, Z.mul_1_r, Z.sub_diag. simpl. lia. }
  set (k := ndigits (coef d) - 28). set (c := div_half_even (coef d) (10 ^ k)).
  assert (Hk : 0 < 10 ^ k) by (apply pow10_pos; lia).
  assert (Hc0 : coef d <> 0) by (intros H; rewrite H, ndigits_0 in E; lia).
  destruct (ndigits_spec _ Hc0) as (_ & Hlo & Hhi).
  replace (ndigits (coef d) - 1) with (27 + k) in Hlo by lia.
  replace (ndigits (coef d)) with (28 + k) in Hhi by lia.
  rewrite pow10_split in Hlo, Hhi by lia.
  pose proof (div_half_even_near (coef d) (10 ^ k) Hk) as Hnear. fold c in Hnear.
  assert (Herr : 2 * Z.abs (c * 10 ^ k - coef d) * 10 ^ 27 <= Z.abs (coef d)).
  { rewrite Z.mul_comm in Hnear. lia. }
  destruct (ndigits c <=? 28) eqn:E2; zbool; simpl.
  - split; [lia|]. by replace (expo d + k - expo d) with k by lia.
  - split; [lia|]. replace (expo d + k + 1 - expo d) with (1 + k) by lia.
    rewrite pow10_split by lia. change (10 ^ 1) with 10.
    assert (Hc28 : Z.abs c = 10 ^ 28).
    { apply Z.le_antisymm; [|apply ndigits_gt; lia].
      assert (Z.abs c * 10 ^ k * 2 < (10 ^ 28 + 1) * 10 ^ k * 2) by lia. nia. }
    replace (c / 10 * (10 * 10 ^ k)) with (c * 10 ^ k); [done|].
    destruct (Z.abs_or_opp_abs c) as [Hcc|Hcc]; rewrite Hc28 in Hcc; rewrite Hcc.
    + change (10 ^ 28 / 10) with (10 ^ 27). ring.
    + change (- 10 ^ 28 / 10) with (- 10 ^ 27). ring.
Qed.

Lemma strip_zeros_le fuel c e ideal :
  0 <= c ->
  let '(c', e') := strip_zeros fuel c e ideal in
  e <= e' /\ c' * 10 ^ (e' - e) = c.
Proof.
  revert c e; induction fuel as [|f IH]; intros c e Hc; cbn [strip_zeros].
  { rewrite Z.sub_diag. lia. }
  destruct ((e <? ideal) && (c mod 10 =? 0))%bool eqn:E; [|rewrite Z.sub_diag; lia].
  apply andb_true_iff in E as [_ E1%Z.eqb_eq].
  specialize (IH (c / 10) (e + 1) ltac:(apply Z.div_pos; lia)).
  destruct (strip_zeros f (c / 10) (e + 1) ideal) as [c' e'].
  destruct IH as [He IH]. split; [lia|].
  replace (e' - e) with (1 + (e' - (e + 1))) by lia. rewrite pow10_split by lia.
  rewrite (Z.div_mod c 10) by lia. rewrite E1, <- IH. ring.
Qed.

(** The quotient before the last rounding: [c * 10^e] is the exact quotient
    [num / den] up to 10^-28 of it. *)
Lemma sticky_near num den :
  0 < den -> 10 ^ 28 * den < num ->
  let c := if num mod den =? 0 then num / den
           else if (num / den) mod 5 =? 0 then num / den + 1 else num / den in
  0 <= c /\ Z.abs (c * den - num) * 10 ^ 28 <= num.
Proof.
  intros Hd Hbig c. subst c.
  pose proof (Z.div_mod num den ltac:(lia)). pose proof (Z.mod_pos_bound num den Hd).
  pose proof (Z.div_pos num den ltac:(lia) Hd).
  destruct (num mod den =? 0) eqn:E; zbool; [|destruct ((num / den) mod 5 =? 0)];
    split; try lia; nia.
Qed.

Lemma two_roundings X sg c den num :
  sg = 1 \/ sg = -1 -> 0 < den -> 0 <= c ->
  2 * Z.abs (X - sg * c) * 10 ^ 27 <= c ->
  Z.abs (c * den - num) * 10 ^ 28 <= num ->
  Z.abs (X * den - sg * num) * 10 ^ 27 <= num.
Proof.
  intros Hsg Hd Hc H1 H2.
  assert (Hsum : Z.abs (X * den - sg * num) <= Z.abs (X - sg * c) * den + Z.abs (c * den - num)).
  { replace (X * den - sg * num) with ((X - sg * c) * den + sg * (c * den - num)) by ring.
    etransitivity; [apply Z.abs_triangle|]. rewrite !Z.abs_mul, (Z.abs_eq den) by lia.
    destruct Hsg as [-> | ->]; simpl; lia. }
  assert (Hd1 : 2 * Z.abs (X - sg * c) * 10 ^ 27 * den <= c * den)
    by (apply Z.mul_le_mono_nonneg_r; lia).
  assert (Hd2 : 2 * (Z.abs (X - sg * c) * den) * 10 ^ 27 <= c * den)
    by (etransitivity; [|exact Hd1]; apply Z.eq_le_incl; ring).
  clear Hd1 H1. lia.
Qed.

Lemma sgn_mul_cases a b : a <> 0 -> b <> 0 -> Z.sgn a * Z.sgn b = 1 \/ Z.sgn a * Z.sgn b = -1.
Proof. intros. destruct a, b; simpl; auto; lia. Qed.

Lemma sgn_swap X den num sa sb :
  sb = 1 \/ sb = -1 -> Z.abs (X * (sb * den) - sa * num) = Z.abs (X * den - sa * sb * num).
Proof.
  intros [-> | ->]; [f_equal; ring|]. rewrite <- Z.abs_opp. f_equal. ring.
Qed.

Lemma ddiv_near a b :
  coef b <> 0 ->
  exists q e, ddiv a b = Ok q /\ e <= expo q /\ e <= expo a - expo b /\
    Z.abs (coef q * coef b * 10 ^ (expo q - e) - coef a * 10 ^ (expo a - expo b - e)) * 10 ^ 27
      <= Z.abs (coef a) * 10 ^ (expo a - expo b - e).
Proof.
  intros Hb. unfold ddiv. rewrite (proj2 (Z.eqb_neq _ _) Hb).
  destruct (coef a =? 0) eqn:Ea; zbool.
  { do 2 eexists; split; [done|]. simpl. split; [|split]; [apply Z.le_refl..|].
    rewrite Ea. simpl. lia. }
  pose proof (long_division_big (Z.abs (coef a)) (Z.abs (coef b)) ltac:(lia) ltac:(lia)) as Hbig.
  rewrite !ndigits_abs in Hbig. cbv zeta in Hbig.
  set (shift := ndigits (coef b) - ndigits (coef a) + prec + 1) in *. clearbody shift.
  set (e0 := expo a - expo b - shift).
  replace (if 0 <=? shift then Z.abs (coef a) * 10 ^ shift else Z.abs (coef a))
    with (Z.abs (coef a) * 10 ^ Z.max 0 shift).
  2:{ destruct (0 <=? shift) eqn:E; zbool;
        [by rewrite Z.max_r by done|].
      rewrite Z.max_l by (by apply Z.lt_le_incl). change (10 ^ 0) with 1. by rewrite Z.mul_1_r. }
  replace (if 0 <=? shift then Z.abs (coef b) else Z.abs (coef b) * 10 ^ (- shift))
    with (Z.abs (coef b) * 10 ^ Z.max 0 (- shift)).
  2:{ destruct (0 <=? shift) eqn:E; zbool;
        [|by rewrite Z.max_r by lia].
      rewrite Z.max_l by (by apply Z.opp_nonpos_nonneg). change (10 ^ 0) with 1. by rewrite Z.mul_1_r. }
  assert (HP : 10 ^ Z.max 0 shift = 10 ^ (expo a - expo b - (e0 - Z.max 0 (- shift))))
    by (f_equal; unfold e0; lia).
  assert (HN0 : 0 < 10 ^ Z.max 0 (- shift)) by (apply pow10_pos; lia).
  set (num := Z.abs (coef a) * 10 ^ Z.max 0 shift) in *.
  set (den := Z.abs (coef b) * 10 ^ Z.max 0 (- shift)) in *.
  assert (Hden : 0 < den) by (apply Z.mul_pos_pos; lia).
  pose proof (sticky_near num den Hden Hbig) as Hst. cbv zeta in Hst.
  pose proof (sgn_mul_cases _ _ Ea Hb) as Hsg. set (sg := Z.sgn (coef a) * Z.sgn (coef b)) in *.
  (* whatever branch was taken, the result is within the two rounding errors *)
  assert (Hgen : forall c c' e', 0 <= c -> Z.abs (c * den - num) * 10 ^ 28 <= num ->
      e0 <= e' -> c' * 10 ^ (e' - e0) = c ->
      let q := dfix (mkdec (sg * c') e') in
      exists e, e <= expo q /\ e <= expo a - expo b /\
        Z.abs (coef q * coef b * 10 ^ (expo q - e) - coef a * 10 ^ (expo a - expo b - e)) * 10 ^ 27
        <= Z.abs (coef a) * 10 ^ (expo a - expo b - e)).
  { intros c c' e' Hc Hcn He Hcc q. exists (e0 - Z.max 0 (- shift)).
    destruct (dfix_near (mkdec (sg * c') e')) as [Hq1 Hq2]. fold q in Hq1, Hq2. simpl in Hq1, Hq2.
    split; [lia|]. split; [unfold e0; lia|]. rewrite <- HP. fold num.
    set (X := coef q * 10 ^ (expo q - e0)).
    replace (coef q * coef b * 10 ^ (expo q - (e0 - Z.max 0 (- shift))))
      with (X * (Z.sgn (coef b) * den)).
    2:{ unfold X, den. replace (expo q - (e0 - Z.max 0 (- shift)))
          with ((expo q - e0) + Z.max 0 (- shift)) by lia.
        rewrite pow10_split by lia. rewrite <- (Z.abs_sgn (coef b)) at 3. ring. }
    replace (coef a * 10 ^ Z.max 0 shift) with (Z.sgn (coef a) * num).
    2:{ unfold num. rewrite <- (Z.abs_sgn (coef a)) at 3. ring. }
    replace (Z.abs (X * (Z.sgn (coef b) * den) - Z.sgn (coef a) * num))
      with (Z.abs (X * den - sg * num)).
    2:{ symmetry. apply sgn_swap. clear -Hb. destruct (coef b); simpl; auto; lia. }
    apply (two_roundings X sg c den num); try done.
    pose proof (pow10_pos (e' - e0) ltac:(lia)) as Hpe.
    unfold X. rewrite <- Hcc.
    replace (expo q - e0) with ((expo q - e') + (e' - e0)) by lia. rewrite pow10_split by lia.
    replace (coef q * (10 ^ (expo q - e') * 10 ^ (e' - e0)) - sg * (c' * 10 ^ (e' - e0)))
      with ((coef q * 10 ^ (expo q - e') - sg * c') * 10 ^ (e' - e0)) by ring.
    rewrite Z.abs_mul, (Z.abs_eq (10 ^ (e' - e0))) by lia.
    assert (Habs : Z.abs (sg * c') = c').
    { assert (0 <= c') by (clear -Hc Hcc Hpe; nia). clear -Hsg H. destruct Hsg as [-> | ->]; lia. }
    rewrite Habs in Hq2.
    etransitivity; [|apply Z.mul_le_mono_nonneg_r; [lia|exact Hq2]].
    apply Z.eq_le_incl. ring. }
  destruct (num mod den =? 0) eqn:Er.
  - destruct Hst as [Hc Hcn]. fold e0.
    pose proof (strip_zeros_le (Z.to_nat (expo a - expo b - e0)) (num / den) e0 (expo a - expo b) Hc) as Hs.
    destruct (strip_zeros _ _ _ _) as [c' e']. destruct Hs as [He Hs].
    destruct (Hgen _ c' e' Hc Hcn He Hs) as (e & H1 & H2 & H3). do 2 eexists. split; [done|].
    split; [exact H1|]. split; [exact H2|exact H3].
  - fold e0. match goal with |- context [mkdec (sg * ?c) e0] =>
      destruct (Hgen c c e0) as (e & H1 & H2 & H3); [apply Hst|apply Hst|lia|rewrite Z.sub_diag; lia|] end.
    do 2 eexists. split; [done|]. split; [exact H1|]. split; [exact H2|exact H3].
Qed.

Lemma quantized_near rm p d K :
  0 <= K -> 0 <= K + expo d + p ->
  2 * Z.abs (coef d * 10 ^ (expo d + K + p) - quantized rm p d * 10 ^ K) <= 10 ^ K.
Proof.
  intros HK HK'. unfold quantized. pose proof (pow10_pos K HK).
  destruct (- p <=? expo d) eqn:E; zbool.
  - rewrite <- Z.mul_assoc, <- pow10_split by lia.
    replace (expo d + p + K) with (expo d + K + p) by lia. rewrite Z.sub_diag. simpl. lia.
  - set (m := 10 ^ (- p - expo d)). assert (Hm : 0 < m) by (apply pow10_pos; lia).
    pose proof (div_round_near rm (coef d) m Hm) as Hn.
    assert (HKm : 10 ^ K = m * 10 ^ (expo d + K + p))
      by (unfold m; rewrite <- pow10_split by lia; f_equal; lia).
    pose proof (pow10_pos (expo d + K + p) ltac:(lia)) as Hx.
    rewrite HKm. set (x := 10 ^ (expo d + K + p)) in *.
    replace (coef d * x - div_round rm (coef d) m * (m * x))
      with ((coef d - m * div_round rm (coef d) m) * x) by ring.
    rewrite Z.abs_mul, (Z.abs_eq x) by lia. rewrite Z.mul_assoc.
    apply Z.mul_le_mono_nonneg_r; lia.
Qed.

(** [(a / b).quantize(10^-p)] is within half a unit (plus 10^-27 of the value)
    of the true quotient, and does not raise. *)
Lemma ddiv_near_repr s t a b za zb :
  repr s a za -> repr t b zb -> zb <> 0 ->
  exists q, ddiv a b = Ok q /\
    forall K, 0 <= K + expo q + s - t -> 0 <= K ->
      Z.abs (coef q * 10 ^ (K + expo q + s - t) * zb - za * 10 ^ K) * 10 ^ 27 <= Z.abs za * 10 ^ K.
Proof.
  intros Ha Hb Hzb.
  assert (Hcb : coef b <> 0).
  { intros E. unfold repr in Hb. rewrite E, Z.mul_0_l in Hb. symmetry in Hb.
    apply Z.mul_eq_0 in Hb as [?|Hb]; [done|].
    pose proof (pow10_pos (Z.max 0 (- (expo b + t))) ltac:(lia)). lia. }
  destruct (ddiv_near a b Hcb) as (q & e & Hq & He1 & He2 & Hn).
  exists q. split; [done|]. intros K HK1 HK2.
  remember (Z.abs (expo a) + Z.abs (expo b) + Z.abs s + Z.abs t + Z.abs e) as L eqn:HL.
  assert (HaL : coef a * 10 ^ (L + expo a + s) = za * 10 ^ L) by (apply repr_K; [lia..|done]).
  assert (HbL : coef b * 10 ^ (L + expo b + t) = zb * 10 ^ L) by (apply repr_K; [lia..|done]).
  assert (HLp : 0 <= L + L + K + e + expo b + s) by lia.
  assert (H0 : 0 <= L) by lia. assert (H1 : 0 <= L + expo a + s) by lia.
  assert (H2 : 0 <= L + expo b + t) by lia.
  clear HL Ha Hb Hq.
  pose proof (pow10_pos _ HLp) as HM. set (M := 10 ^ (L + L + K + e + expo b + s)) in *.
  set (X := coef q * 10 ^ (K + expo q + s - t) * zb).
  assert (E1 : coef q * coef b * 10 ^ (expo q - e) * M = X * (10 ^ L * 10 ^ L)).
  { unfold X, M. transitivity (coef q * 10 ^ (K + expo q + s - t) * (zb * 10 ^ L) * 10 ^ L); [|ring].
    rewrite <- HbL.
    transitivity (coef q * coef b * (10 ^ (expo q - e) * 10 ^ (L + L + K + e + expo b + s))); [ring|].
    transitivity (coef q * coef b * (10 ^ (K + expo q + s - t) * 10 ^ (L + expo b + t) * 10 ^ L)); [|ring].
    rewrite <- !pow10_split by lia. do 2 f_equal. lia. }
  assert (E2 : forall c : Z, c * 10 ^ (L + expo a + s) = za * 10 ^ L ->
            c * 10 ^ (expo a - expo b - e) * M = za * 10 ^ K * (10 ^ L * 10 ^ L)).
  { intros c Hc. unfold M.
    transitivity (c * (10 ^ (expo a - expo b - e) * 10 ^ (L + L + K + e + expo b + s))); [ring|].
    transitivity (za * 10 ^ L * 10 ^ (K + L)); [|rewrite pow10_split by lia; ring].
    rewrite <- Hc. transitivity (c * (10 ^ (L + expo a + s) * 10 ^ (K + L))); [|ring].
    rewrite <- !pow10_split by lia. do 2 f_equal. lia. }
  pose proof (E2 _ HaL) as E3. clear E2.
  pose proof (pow10_pos L H0) as HLL.
  assert (HLL2 : 0 < 10 ^ L * 10 ^ L) by (apply Z.mul_pos_pos; done).
  apply (Z.mul_le_mono_pos_r _ _ (10 ^ L * 10 ^ L)); [done|].
  apply (Z.mul_le_mono_nonneg_r _ _ M) in Hn; [|lia].
  replace (Z.abs (X - za * 10 ^ K) * 10 ^ 27 * (10 ^ L * 10 ^ L))
    with (Z.abs ((coef q * coef b * 10 ^ (expo q - e) - coef a * 10 ^ (expo a - expo b - e)) * M) * 10 ^ 27).
  2:{ rewrite Z.mul_sub_distr_r, E1, E3, <- Z.mul_sub_distr_r, Z.abs_mul.
      rewrite (Z.abs_eq (10 ^ L * 10 ^ L)) by lia. ring. }
  replace (Z.abs za * 10 ^ K * (10 ^ L * 10 ^ L))
    with (Z.abs (coef a) * 10 ^ (expo a - expo b - e) * M).
  2:{ rewrite <- (Z.abs_eq (10 ^ (expo a - expo b - e))), <- Z.abs_mul by (apply Z.pow_nonneg; lia).
      rewrite <- (Z.abs_eq M) at 1 by lia. rewrite <- Z.abs_mul, E3, !Z.abs_mul.
      rewrite (Z.abs_eq (10 ^ K)) by (apply Z.pow_nonneg; lia).
      rewrite (Z.abs_eq (10 ^ L)) by lia. ring. }
  rewrite Z.abs_mul, (Z.abs_eq M) by lia.
  etransitivity; [|exact Hn]. apply Z.eq_le_incl. ring.
Qed.

Lemma ddiv_quantize_near rm p s t d a b za zb :
  repr s a za -> repr t b zb -> 0 < zb -> p + t = s + d -> 0 <= d ->
  Z.abs za * 10 ^ d < zb * 10 ^ 27 ->
  exists q r zr, ddiv a b = Ok q /\ dquantize rm p q = Ok r /\ repr p r zr /\
    2 * Z.abs (zr * zb - za * 10 ^ d) * 10 ^ 27 <= zb * 10 ^ 27 + 2 * (Z.abs za * 10 ^ d).
Proof.
  intros Ha Hb Hzb Hpts Hd Hmag.
  destruct (ddiv_near_repr s t a b za zb Ha Hb ltac:(lia)) as (q & Hq & Hn).
  set (zr := quantized rm p q).
  assert (exists K, 0 <= K /\ 0 <= K + expo q + p) as (K & HK & HKp)
    by (exists (Z.abs (expo q) + Z.abs p); lia).
  pose proof (quantized_near rm p q K HK HKp) as Hqn. fold zr in Hqn.
  specialize (Hn (K + d) ltac:(lia) ltac:(lia)).
  replace (K + d + expo q + s - t) with (expo q + K + p) in Hn by lia.
  rewrite (pow10_split K d) in Hn by lia.
  pose proof (pow10_pos K HK) as HKpos. pose proof (pow10_pos d Hd) as Hdpos.
  set (X := coef q * 10 ^ (expo q + K + p)) in *. set (T := 10 ^ K) in *.
  set (A := za * 10 ^ d). assert (HA : Z.abs za * 10 ^ d = Z.abs A)
    by (unfold A; rewrite Z.abs_mul, (Z.abs_eq (10 ^ d)); lia).
  rewrite HA in *. replace (za * (T * 10 ^ d)) with (A * T) in Hn by (unfold A; ring).
  replace (Z.abs za * (T * 10 ^ d)) with (Z.abs A * T) in Hn by (rewrite <- HA; ring).
  assert (Hfin : 2 * Z.abs (zr * zb - A) * 10 ^ 27 <= zb * 10 ^ 27 + 2 * Z.abs A).
  { apply (Z.mul_le_mono_pos_r _ _ T); [done|].
    assert (Htri : Z.abs (zr * zb - A) * T <= Z.abs (X - zr * T) * zb + Z.abs (X * zb - A * T)).
    { rewrite <- (Z.abs_eq T) at 1 by lia. rewrite <- (Z.abs_eq zb) at 2 by lia.
      rewrite <- !Z.abs_mul.
      replace ((zr * zb - A) * T) with (- ((X - zr * T) * zb) + (X * zb - A * T)) by ring.
      etransitivity; [apply Z.abs_triangle|]. rewrite Z.abs_opp. lia. }
    assert (2 * Z.abs (X - zr * T) * zb <= T * zb) by (apply Z.mul_le_mono_nonneg_r; lia).
    clear -Hn Htri H. rewrite Z.mul_add_distr_r.
    replace (2 * Z.abs (zr * zb - A) * 10 ^ 27 * T) with (2 * (Z.abs (zr * zb - A) * T) * 10 ^ 27) by ring.
    replace (zb * 10 ^ 27 * T) with (T * zb * 10 ^ 27) by ring.
    replace (2 * Z.abs A * T) with (2 * (Z.abs A * T)) by ring.
    replace (2 * Z.abs (X - zr * T) * zb) with (2 * (Z.abs (X - zr * T) * zb)) in H by ring.
    lia. }
  assert (Hsz : Z.abs zr < exact_bound).
  { unfold exact_bound, prec.
    assert (Z.abs zr * zb <= Z.abs (zr * zb - A) + Z.abs A).
    { rewrite <- (Z.abs_eq zb) at 1 by lia. rewrite <- Z.abs_mul.
      replace (zr * zb) with ((zr * zb - A) + A) at 1 by ring. apply Z.abs_triangle. }
    clear -H Hfin Hmag Hzb. apply (Z.mul_lt_mono_pos_r zb); [done|].
    apply (Z.le_lt_trans _ _ _ H). lia. }
  destruct (dquantize_ok rm p q Hsz) as [H1 H2]. fold zr in H1, H2.
  exists q, (mkdec zr (- p)), zr. done.
Qed.

(** ** Sums and grids *)

Lemma dadd_fold_repr s l zs a za :
  Forall2 (repr s) l zs -> repr s a za -> Z.abs za + zsum (map Z.abs zs) < exact_bound ->
  repr s (fold_left dadd l a) (za + zsum zs).
Proof.
  intros H. revert a za; induction H as [|d z l zs Hd _ IH]; intros a za Ha Hb; simpl in *.
  - by rewrite Z.add_0_r.
  - assert (0 <= zsum (map Z.abs zs)) by (apply zsum_nonneg, Forall_map, Forall_true; intros; simpl; lia).
    change (zsum (Z.abs z :: map Z.abs zs)) with (Z.abs z + zsum (map Z.abs zs)) in Hb.
    change (zsum (z :: zs)) with (z + zsum zs). rewrite Z.add_assoc.
    apply IH; [apply dadd_repr; [done..|]; lia|lia].
Qed.

Lemma dsum_repr s l zs :
  Forall2 (repr s) l zs -> zsum (map Z.abs zs) < exact_bound -> repr s (dsum l) (zsum zs).
Proof. intros. apply (dadd_fold_repr s l zs dzero 0); [done|apply repr_zero|simpl; lia]. Qed.

(** The units of a decimal at scale [s], and whether it has no finer digits. *)
Definition units (s : Z) (d : dec) : Z :=
  if 0 <=? expo d + s then coef d * 10 ^ (expo d + s) else coef d / 10 ^ (- (expo d + s)).
Definition on_grid (s : Z) (d : dec) : Prop := repr s d (units s d).

Lemma repr_units s d z : repr s d z -> units s d = z.
Proof.
  unfold repr, units. intros H. destruct (0 <=? expo d + s) eqn:E; zbool.
  - rewrite Z.max_r, Z.max_l in H by lia. change (10 ^ 0) with 1 in H. lia.
  - rewrite Z.max_l, Z.max_r in H by lia. change (10 ^ 0) with 1 in H.
    rewrite Z.mul_1_r in H. rewrite H. apply Z.div_mul.
    pose proof (pow10_pos (- (expo d + s))). lia.
Qed.

Lemma repr_on_grid s d z : repr s d z -> on_grid s d.
Proof. intros H. unfold on_grid. by rewrite (repr_units s d z H). Qed.

#[export] Instance repr_dec s d z : Decision (repr s d z).
Proof. unfold repr. apply _. Defined.
#[export] Instance on_grid_dec s d : Decision (on_grid s d).
Proof. unfold on_grid. apply _. Defined.

#[export] Hint Resolve repr_zero repr_of_Z : psx.

(** ** Magnitudes

    A coarse bound on the value of a decimal, for the operations whose result
    is rounded: [mag_le d M] says |d| <= M. *)
Definition mag_le (d : dec) (M : Z) : Prop :=
  Z.abs (coef d) * 10 ^ Z.max 0 (expo d) <= M * 10 ^ Z.max 0 (- expo d).

Lemma mag_K K d M :
  0 <= K -> 0 <= K + expo d ->
  mag_le d M <-> Z.abs (coef d) * 10 ^ (K + expo d) <= M * 10 ^ K.
Proof.
  intros HK HK'. unfold mag_le. destruct (Z.le_gt_cases 0 (expo d)).
  - rewrite Z.max_r, Z.max_l by lia. change (10 ^ 0) with 1.
    rewrite pow10_split by lia. pose proof (pow10_pos K HK).
    rewrite Z.mul_1_r, (Z.mul_comm (10 ^ K)), Z.mul_assoc.
    apply Z.mul_le_mono_pos_r. done.
  - rewrite Z.max_l, Z.max_r by lia. change (10 ^ 0) with 1. rewrite Z.mul_1_r.
    replace (10 ^ K) with (10 ^ (- expo d) * 10 ^ (K + expo d))
      by (rewrite <- pow10_split by lia; f_equal; lia).
    pose proof (pow10_pos (K + expo d) HK'). rewrite Z.mul_assoc.
    apply Z.mul_le_mono_pos_r. done.
Qed.

Lemma mag_le_weaken d M N : M <= N -> mag_le d M -> mag_le d N.
Proof.
  unfold mag_le. intros H Hd. etransitivity; [exact Hd|].
  apply Z.mul_le_mono_nonneg_r; [|done]. apply Z.pow_nonneg. lia.
Qed.

Lemma repr_mag s d z M : 0 <= s -> repr s d z -> Z.abs z <= M * 10 ^ s -> mag_le d M.
Proof.
  intros Hs H Hz. set (K := Z.abs (expo d)).
  apply (repr_K K) in H; [|lia..]. apply (mag_K K); [lia..|].
  pose proof (pow10_pos s Hs). pose proof (pow10_pos K ltac:(lia)).
  replace (K + expo d + s) with ((K + expo d) + s) in H by lia.
  rewrite (pow10_split (K + expo d) s) in H by lia.
  apply (Z.mul_le_mono_pos_r _ _ (10 ^ s)); [done|].
  replace (Z.abs (coef d) * 10 ^ (K + expo d) * 10 ^ s)
    with (Z.abs (coef d * (10 ^ (K + expo d) * 10 ^ s))).
  - rewrite H, Z.abs_mul, (Z.abs_eq (10 ^ K)) by lia.
    replace (M * 10 ^ K * 10 ^ s) with (M * 10 ^ s * 10 ^ K) by ring.
    apply Z.mul_le_mono_nonneg_r; lia.
  - pose proof (pow10_pos (K + expo d) ltac:(lia)).
    rewrite Z.abs_mul, (Z.abs_eq (_ * _)) by nia. ring.
Qed.

Lemma dfix_mag d M : mag_le d M -> mag_le (dfix d) (2 * M).
Proof.
  intros H. destruct (dfix_near d) as [He Hn]. set (d' := dfix d) in *.
  set (K := Z.abs (expo d) + Z.abs (expo d')).
  apply (mag_K K) in H; [|lia..]. apply (mag_K K); [lia..|].
  replace (K + expo d') with ((expo d' - expo d) + (K + expo d)) by lia.
  rewrite (pow10_split (expo d' - expo d)) by lia.
  pose proof (pow10_pos (K + expo d) ltac:(lia)) as Hp.
  pose proof (pow10_pos (expo d' - expo d) ltac:(lia)) as Hp2.
  assert (Hc : Z.abs (coef d') * 10 ^ (expo d' - expo d) <= 2 * Z.abs (coef d)).
  { replace (Z.abs (coef d') * 10 ^ (expo d' - expo d))
      with (Z.abs (coef d' * 10 ^ (expo d' - expo d))) by (rewrite Z.abs_mul; lia).
    clear -Hn. lia. }
  rewrite Z.mul_assoc.
  transitivity (2 * Z.abs (coef d) * 10 ^ (K + expo d)); [|lia].
  apply Z.mul_le_mono_nonneg_r; lia.
Qed.

Lemma dmul_mag a b M N : 0 <= M -> 0 <= N -> mag_le a M -> mag_le b N -> mag_le (dmul a b) (2 * (M * N)).
Proof.
  intros HM HN Ha Hb. apply dfix_mag. set (K := Z.abs (expo a) + Z.abs (expo b)).
  apply (mag_K K) in Ha; [|lia..]. apply (mag_K K) in Hb; [|lia..].
  apply (mag_K (K + K)); [simpl; lia..|]. cbn [coef expo].
  replace (K + K + (expo a + expo b)) with ((K + expo a) + (K + expo b)) by lia.
  rewrite (pow10_split (K + expo a) (K + expo b)), (pow10_split K K), Z.abs_mul by lia.
  pose proof (pow10_pos (K + expo a) ltac:(lia)). pose proof (pow10_pos (K + expo b) ltac:(lia)).
  replace (Z.abs (coef a) * Z.abs (coef b) * (10 ^ (K + expo a) * 10 ^ (K + expo b)))
    with ((Z.abs (coef a) * 10 ^ (K + expo a)) * (Z.abs (coef b) * 10 ^ (K + expo b))) by ring.
  replace (M * N * (10 ^ K * 10 ^ K)) with ((M * 10 ^ K) * (N * 10 ^ K)) by ring.
  apply Z.mul_le_mono_nonneg; [|exact Ha| |exact Hb]; apply Z.mul_nonneg_nonneg; lia.
Qed.

Lemma ddiv_mag s t a b za zb M :
  repr s a za -> repr t b zb -> 0 < zb -> 0 <= s -> 0 <= t -> 0 <= M ->
  Z.abs za * 10 ^ t <= M * zb * 10 ^ s ->
  exists q, ddiv a b = Ok q /\ mag_le q (2 * M).
Proof.
  intros Ha Hb Hzb Hs Ht HM Hmag.
  destruct (ddiv_near_repr s t a b za zb Ha Hb ltac:(lia)) as (q & E & Hn).
  exists q. split; [done|]. set (K := Z.abs (expo q) + s + t).
  specialize (Hn K ltac:(lia) ltac:(lia)).
  pose proof (pow10_pos K ltac:(lia)) as HpK. pose proof (pow10_pos s Hs) as Hps.
  pose proof (pow10_pos t Ht) as Hpt.
  set (X := coef q * 10 ^ (K + expo q + s - t)) in *.
  assert (HX : Z.abs X * zb <= 2 * (Z.abs za * 10 ^ K)).
  { rewrite <- (Z.abs_eq zb) by lia. rewrite <- Z.abs_mul.
    assert (0 <= Z.abs za * 10 ^ K) by nia. rewrite <- (Z.abs_eq (10 ^ K)) by lia.
    rewrite <- Z.abs_mul. rewrite <- (Z.abs_eq (10 ^ K)), <- Z.abs_mul in H, Hn by lia.
    clear -Hn. rewrite (Z.abs_eq (10 ^ K)) in * by (apply Z.pow_nonneg; lia). lia. }
  apply (mag_K K); [lia..|].
  assert (Hpow : 10 ^ (K + expo q + s - t) * 10 ^ t = 10 ^ (K + expo q) * 10 ^ s)
    by (rewrite <- !pow10_split by lia; f_equal; lia).
  assert (HXt : Z.abs X * 10 ^ t = Z.abs (coef q) * 10 ^ (K + expo q) * 10 ^ s).
  { unfold X. pose proof (pow10_pos (K + expo q + s - t) ltac:(lia)).
    rewrite Z.abs_mul, (Z.abs_eq (10 ^ _)), <- Z.mul_assoc, Hpow by lia. ring. }
  apply (Z.mul_le_mono_pos_r _ _ (10 ^ s)); [done|]. rewrite <- HXt.
  apply (Z.mul_le_mono_pos_r _ _ zb); [done|].
  replace (Z.abs X * 10 ^ t * zb) with (Z.abs X * zb * 10 ^ t) by ring.
  transitivity (2 * (Z.abs za * 10 ^ K) * 10 ^ t); [apply Z.mul_le_mono_nonneg_r; lia|].
  replace (2 * (Z.abs za * 10 ^ K) * 10 ^ t) with (Z.abs za * 10 ^ t * (2 * 10 ^ K)) by ring.
  replace (2 * M * 10 ^ K * 10 ^ s * zb) with (M * zb * 10 ^ s * (2 * 10 ^ K)) by ring.
  apply Z.mul_le_mono_nonneg_r; lia.
Qed.

Lemma dquantize_mag rm p d M :
  mag_le d M -> 0 <= p -> M * 10 ^ p + 1 < exact_bound ->
  exists q, dquantize rm p d = Ok q /\ Z.abs (units p q) <= M * 10 ^ p + 1.
Proof.
  intros Hd Hp HM. set (K := Z.abs (expo d)).
  pose proof (quantized_near rm p d K ltac:(lia) ltac:(lia)) as Hn.
  apply (mag_K K) in Hd; [|lia..].
  pose proof (pow10_pos K ltac:(lia)) as HpK. pose proof (pow10_pos p Hp) as Hpp.
  set (c := quantized rm p d) in *.
  assert (Hcd : Z.abs (coef d * 10 ^ (expo d + K + p)) <= M * 10 ^ K * 10 ^ p).
  { replace (expo d + K + p) with ((K + expo d) + p) by lia.
    rewrite (pow10_split (K + expo d)) by lia. pose proof (pow10_pos (K + expo d) ltac:(lia)).
    rewrite Z.abs_mul, (Z.abs_eq (_ * _)) by nia. rewrite Z.mul_assoc.
    apply Z.mul_le_mono_nonneg_r; lia. }
  assert (Hc : Z.abs c <= M * 10 ^ p + 1).
  { apply Z.lt_succ_r. apply (Z.mul_lt_mono_pos_r (10 ^ K)); [done|].
    replace (Z.abs c * 10 ^ K) with (Z.abs (c * 10 ^ K)) by (rewrite Z.abs_mul; lia).
    clear -Hn Hcd HpK. nia. }
  destruct (dquantize_ok rm p d) as [E R]; [fold c; lia|]. fold c in E, R.
  eexists. split; [exact E|]. rewrite (repr_units _ _ _ R). done.
Qed.
