(* ===== verification/Cgt.v ===== *)
(** * Cgt: the capital-gains engine, [psx_api/tax/cgt.py]

    [TaxBracket], [BuyLot], [MatchedLot] and [CgtResult] are the dataclasses of
    the module; [find_bracket], [calculate_cgt] and [match_fifo] its functions,
    with [fifo_step] the body of the matching loop.  Dates are proleptic
    ordinals ([date.toordinal()]), so [(d1 - d2).days] is a subtraction.

    The theorems give the bracket lookup (a minimal matching bracket, or the
    error exactly when none matches), the refinement of [match_fifo] to integer
    FIFO allocation, branch by branch, and the agreement of the two entry
    points on a single lot. *)

From S2P Require Import Prelude Decimal.

Record TaxBracket := mkTaxBracket {
  effective_from : Z;
  effective_to : option Z;
  is_filer : bool;
  min_holding_days : Z;
  max_holding_days : option Z;
  rate_pct : dec;
}.

Record BuyLot := mkBuyLot {
  lot_transaction_id : string;
  lot_buy_date : Z;
  lot_quantity : dec;
  lot_price : dec;
}.

Record MatchedLot := mkMatchedLot {
  m_transaction_id : string;
  m_buy_date : Z;
  m_sell_date : Z;
  m_quantity : dec;
  m_buy_price : dec;
  m_sell_price : dec;
  m_holding_period_days : Z;
  m_gross_gain_pkr : dec;
  m_cgt_rate_pct : dec;
  m_cgt_pkr : dec;
}.

Record CgtResult := mkCgtResult {
  matched : list MatchedLot;
  total_gross_gain_pkr : dec;
  total_cgt_pkr : dec;
  weighted_avg_buy_price : dec;
}.

(** [Decimal("0.00")] and [Decimal("100")] *)
Definition d0_00 : dec := mkdec 0 (-2).
Definition d100 : dec := mkdec 100 0.

Definition _quantize (value : dec) : res dec := dquantize ROUND_HALF_UP 2 value.

(** ** Bracket lookup *)

Definition _bracket_matches (bracket : TaxBracket) (sell_date : Z) (filer : bool)
    (holding_days : Z) : bool :=
  if negb (Bool.eqb (is_filer bracket) filer) then false
  else if sell_date <? effective_from bracket then false
  else if match effective_to bracket with Some t => t <? sell_date | None => false end then false
  else if holding_days <? min_holding_days bracket then false
  else if match max_holding_days bracket with Some m => m <? holding_days | None => false end
       then false
  else true.

Definition _specificity (b : TaxBracket) : Z * Z :=
  (match max_holding_days b with Some m => m - min_holding_days b | None => 10 ^ 9 end,
   match effective_to b with Some t => t - effective_from b | None => 10 ^ 9 end).

(** Tuple order of the sort key. *)
Definition key_le (k1 k2 : Z * Z) : bool :=
  ((k1.1 <? k2.1) || ((k1.1 =? k2.1) && (k1.2 <=? k2.2)))%bool.

Definition specificity_le (b1 b2 : TaxBracket) : bool := key_le (_specificity b1) (_specificity b2).

Definition find_bracket (brackets : list TaxBracket) (sell_date : Z) (filer : bool)
    (holding_period_days : Z) : res TaxBracket :=
  let candidates :=
    List.filter (fun b => _bracket_matches b sell_date filer holding_period_days) brackets in
  match sort_by specificity_le candidates with
  | [] => Exn NoApplicableTaxRuleError
  | b :: _ => Ok b
  end.

(** ** CGT of one matched pair *)

Definition calculate_cgt (buy_price sell_price quantity : dec) (holding_period_days : Z)
    (filer : bool) (sell_date : Z) (brackets : list TaxBracket) : res dec :=
  if (quantity <=? dzero)%dec then Exn ValueError
  else
    let gross_gain := ((sell_price - buy_price) * quantity)%dec in
    if (gross_gain <=? dzero)%dec then Ok d0_00
    else
      let! bracket := find_bracket brackets sell_date filer holding_period_days in
      let! cgt := ddiv (gross_gain * rate_pct bracket)%dec d100 in
      _quantize cgt.

(** ** FIFO matching *)

(** Sort key [(lo.buy_date, lo.transaction_id)]. *)
Definition lot_le (l1 l2 : BuyLot) : bool :=
  ((lot_buy_date l1 <? lot_buy_date l2)
   || ((lot_buy_date l1 =? lot_buy_date l2)
       && String.leb (lot_transaction_id l1) (lot_transaction_id l2)))%bool.

Record fifo_state := mkFifo {
  f_remaining : dec;
  f_matched : list MatchedLot;
  f_total_qty : dec;
  f_weighted_cost : dec;
}.

Section match_fifo.
Context (sell_price : dec) (sell_date : Z) (filer : bool) (brackets : list TaxBracket).

(** Rate and tax of one matched quantity. *)
Definition lot_tax (gross_gain : dec) (holding_days : Z) : res (dec * dec) :=
  if (dzero <? gross_gain)%dec then
    let! bracket := find_bracket brackets sell_date filer holding_days in
    let! raw := ddiv (gross_gain * rate_pct bracket)%dec d100 in
    let! cgt := _quantize raw in
    Ok (cgt, rate_pct bracket)
  else Ok (d0_00, dzero).

(** The loop body after the guards: match [take] shares of [lot]. *)
Definition take_lot (st : fifo_state) (lot : BuyLot) (take : dec) : res fifo_state :=
  let holding_days := (sell_date - lot_buy_date lot)%Z in
  let gross_gain := ((sell_price - lot_price lot) * take)%dec in
  let! (cgt, rate) := lot_tax gross_gain holding_days in
  let! gross_q := _quantize gross_gain in
  Ok (mkFifo (f_remaining st - take)%dec
        (f_matched st ++
           [mkMatchedLot (lot_transaction_id lot) (lot_buy_date lot) sell_date take
              (lot_price lot) sell_price holding_days gross_q rate cgt])
        (f_total_qty st + take)%dec
        (f_weighted_cost st + lot_price lot * take)%dec).

Fixpoint fifo_loop (lots : list BuyLot) (st : fifo_state) : res fifo_state :=
  match lots with
  | [] => Ok st
  | lot :: rest =>
      if (f_remaining st <=? dzero)%dec then Ok st
      else if (lot_quantity lot <=? dzero)%dec then fifo_loop rest st
      else
        let take := dmin (lot_quantity lot) (f_remaining st) in
        if (take <=? dzero)%dec then fifo_loop rest st
        else
          let! st' := take_lot st lot take in
          fifo_loop rest st'
  end.

Definition match_fifo (lots : list BuyLot) (sell_quantity : dec) : res CgtResult :=
  if (sell_quantity <=? dzero)%dec then Exn ValueError
  else
    let sorted_lots := sort_by lot_le lots in
    let! st := fifo_loop sorted_lots (mkFifo sell_quantity [] dzero dzero) in
    if (dzero <? f_remaining st)%dec then Exn InsufficientLotsError
    else
      let total_gross := dsum (map m_gross_gain_pkr (f_matched st)) in
      let total_cgt := dsum (map m_cgt_pkr (f_matched st)) in
      let! avg_buy :=
        if (dzero <? f_total_qty st)%dec then
          let! q := ddiv (f_weighted_cost st) (f_total_qty st) in
          dquantize ROUND_HALF_UP 4 q
        else Ok dzero in
      let! g := _quantize total_gross in
      let! c := _quantize total_cgt in
      Ok (mkCgtResult (f_matched st) g c avg_buy).
End match_fifo.

(** ** The bracket lookup *)

Lemma key_le_total k1 k2 : key_le k1 k2 = true \/ key_le k2 k1 = true.
Proof.
  unfold key_le. destruct k1 as [a b], k2 as [c d]; simpl.
  destruct (Z.ltb_spec a c), (Z.ltb_spec c a), (Z.eqb_spec a c), (Z.eqb_spec c a); simpl; auto; try lia;
    destruct (Z.leb_spec b d), (Z.leb_spec d b); auto; lia.
Qed.

Lemma key_le_trans k1 k2 k3 : key_le k1 k2 = true -> key_le k2 k3 = true -> key_le k1 k3 = true.
Proof.
  unfold key_le. rewrite !orb_true_iff, !andb_true_iff, !Z.ltb_lt, !Z.eqb_eq, !Z.leb_le. lia.
Qed.

Lemma find_bracket_cases brackets d f h :
  match find_bracket brackets d f h with
  | Ok b => b ∈ brackets /\ _bracket_matches b d f h = true /\
            forall b', b' ∈ brackets -> _bracket_matches b' d f h = true ->
                       specificity_le b b' = true
  | Exn e => e = NoApplicableTaxRuleError /\
             forall b', b' ∈ brackets -> _bracket_matches b' d f h = false
  end.
Proof.
  unfold find_bracket.
  set (P := fun b => _bracket_matches b d f h). set (c := List.filter P brackets).
  assert (Hc : forall b, b ∈ c <-> b ∈ brackets /\ P b = true).
  { intros b. unfold c. rewrite !list_elem_of_In. apply filter_In. }
  destruct (sort_by specificity_le c) as [|b bs] eqn:E.
  - split; [done|]. intros b' Hb'. destruct (_bracket_matches b' d f h) eqn:Em; [|done].
    assert (b' ∈ c) as Hin by (apply Hc; done).
    apply (elem_of_sort_by specificity_le) in Hin. rewrite E in Hin. by apply elem_of_nil in Hin.
  - assert (b ∈ c) as Hin by (apply (elem_of_sort_by specificity_le); rewrite E; left).
    apply Hc in Hin as [Hin Hm]. split; [done|]. split; [done|].
    intros b' Hb' Hm'. eapply sort_by_head; [..|exact E|by apply Hc].
    + intros; apply key_le_total.
    + intros; eapply key_le_trans; eauto.
Qed.

(** ** FIFO matching against the integer allocation

    Quantities and prices are on the four-decimal grid of the columns, so they
    are integers of 10^-4; gains are integers of 10^-8 and amounts in rupees
    integers of 10^-2.  [fifo_takes] is the allocation in integers. *)

Fixpoint fifo_takes (lots : list BuyLot) (need : Z) : list (BuyLot * Z) :=
  match lots with
  | [] => []
  | lot :: rest =>
      if need <=? 0 then []
      else
        let q := units 4 (lot_quantity lot) in
        if q <=? 0 then fifo_takes rest need
        else (lot, Z.min q need) :: fifo_takes rest (need - Z.min q need)
  end.

Definition open_quantity (lots : list BuyLot) : Z :=
  zsum (map (fun l => Z.max 0 (units 4 (lot_quantity l))) lots).

Definition taken (ps : list (BuyLot * Z)) : Z := zsum (map snd ps).

Lemma fifo_takes_taken lots need :
  0 <= need -> taken (fifo_takes lots need) = Z.min need (open_quantity lots).
Proof.
  unfold taken, open_quantity. revert need.
  induction lots as [|l ls IH]; intros need Hn; simpl; [lia|].
  assert (0 <= zsum (map (fun l => Z.max 0 (units 4 (lot_quantity l))) ls))
    by (apply zsum_nonneg, Forall_map, Forall_true; intros; simpl; lia).
  destruct (need <=? 0) eqn:E; zbool; [simpl; lia|].
  destruct (units 4 (lot_quantity l) <=? 0) eqn:E2; zbool.
  - rewrite IH by lia. unfold zsum in *; simpl. lia.
  - simpl. specialize (IH (need - Z.min (units 4 (lot_quantity l)) need) ltac:(lia)).
    unfold zsum in *; simpl. lia.
Qed.

Lemma fifo_takes_pos lots need : Forall (fun p => 0 < p.2) (fifo_takes lots need).
Proof.
  revert need; induction lots as [|l ls IH]; intros need; simpl; [constructor|].
  destruct (need <=? 0) eqn:E; [constructor|].
  destruct (units 4 (lot_quantity l) <=? 0) eqn:E2; [apply IH|].
  zbool. constructor; simpl; [lia|apply IH].
Qed.

Lemma fifo_takes_subset lots need p : p ∈ fifo_takes lots need -> p.1 ∈ lots.
Proof.
  revert need; induction lots as [|l ls IH]; intros need; simpl; [by intros ?%elem_of_nil|].
  destruct (need <=? 0); [by intros ?%elem_of_nil|].
  destruct (units 4 (lot_quantity l) <=? 0); [intros H; right; eauto|].
  intros [->|H]%elem_of_cons; [left|right; eauto].
Qed.

(** Lots, brackets and sale on the columns' grids, with prices at most [P]. *)
Definition price_ok (P : Z) (d : dec) : Prop := on_grid 4 d /\ 0 <= units 4 d <= P.
Definition lot_ok (P : Z) (l : BuyLot) : Prop :=
  on_grid 4 (lot_quantity l) /\ price_ok P (lot_price l).
Definition bracket_ok (b : TaxBracket) : Prop :=
  on_grid 4 (rate_pct b) /\ 0 <= units 4 (rate_pct b) <= 10 ^ 6.

Lemma div_half_up_abs_le n d : 0 < d -> Z.abs (div_half_up n d) <= Z.abs n.
Proof.
  intros Hd. unfold div_half_up.
  destruct (decide (n = 0)) as [->|Hn]; [simpl; lia|].
  rewrite Z.abs_mul. replace (Z.abs (Z.sgn n)) with 1 by lia.
  rewrite Z.mul_1_l, Z.abs_eq by (apply Z.div_pos; lia).
  apply Z.lt_succ_r. apply Z.div_lt_upper_bound; [lia|]. nia.
Qed.

Section lines.
Context (sell_price : dec) (sell_date : Z) (filer : bool) (brackets : list TaxBracket).

Definition line_gain (p : BuyLot * Z) : Z :=
  (units 4 sell_price - units 4 (lot_price p.1)) * p.2.
Definition line_cost (p : BuyLot * Z) : Z := units 4 (lot_price p.1) * p.2.

(** The tax due on a line, in paisa, at its rate. *)
Definition gain_tax (gain rate : Z) : Z := div_half_up (gain * rate) (10 ^ 12).
Definition gain_paisa (gain : Z) : Z := div_half_up gain (10 ^ 6).

Definition line_bracket (p : BuyLot * Z) : res TaxBracket :=
  find_bracket brackets sell_date filer (sell_date - lot_buy_date p.1).

Definition line_rate (p : BuyLot * Z) : Z :=
  if 0 <? line_gain p then
    match line_bracket p with Ok b => units 4 (rate_pct b) | Exn _ => 0 end
  else 0.

Definition line_ok (p : BuyLot * Z) (m : MatchedLot) : Prop :=
  m_transaction_id m = lot_transaction_id p.1 /\
  m_buy_date m = lot_buy_date p.1 /\
  m_sell_date m = sell_date /\
  repr 4 (m_quantity m) p.2 /\
  m_buy_price m = lot_price p.1 /\
  m_sell_price m = sell_price /\
  m_holding_period_days m = sell_date - lot_buy_date p.1 /\
  repr 2 (m_gross_gain_pkr m) (gain_paisa (line_gain p)) /\
  repr 4 (m_cgt_rate_pct m) (line_rate p) /\
  repr 2 (m_cgt_pkr m) (gain_tax (line_gain p) (line_rate p)).

Definition line_taxable (p : BuyLot * Z) : Prop :=
  0 < line_gain p -> is_ok (line_bracket p) = true.

Context (P : Z) (Hsp : price_ok P sell_price) (Hbr : Forall bracket_ok brackets).

Lemma line_bracket_ok p b : line_bracket p = Ok b -> bracket_ok b.
Proof using Hbr.
  unfold line_bracket. intros E.
  pose proof (find_bracket_cases brackets sell_date filer (sell_date - lot_buy_date p.1)) as H.
  rewrite E in H. destruct H as [Hin _]. rewrite Forall_forall in Hbr.
  apply Hbr. by apply list_elem_of_In.
Qed.

Lemma line_rate_bound p : 0 <= line_rate p <= 10 ^ 6.
Proof using Hbr.
  unfold line_rate. destruct (0 <? line_gain p); [|lia].
  destruct (line_bracket p) eqn:E; [|lia].
  apply line_bracket_ok in E as [_ ?]. lia.
Qed.

Lemma line_gain_bound p :
  price_ok P (lot_price p.1) -> 0 <= p.2 -> Z.abs (line_gain p) <= P * p.2.
Proof using Hsp.
  intros [_ H] Hp. destruct Hsp as [_ H']. unfold line_gain.
  rewrite Z.abs_mul, (Z.abs_eq p.2) by lia. apply Z.mul_le_mono_nonneg_r; lia.
Qed.

Lemma gain_tax_bound gain rate :
  0 <= rate <= 10 ^ 6 -> Z.abs (gain_tax gain rate) <= Z.abs gain.
Proof using Type.
  intros Hr. unfold gain_tax.
  assert (Hs : forall g, 0 <= g -> 0 <= div_half_up (g * rate) (10 ^ 12) <= g).
  { intros g Hg. split; [apply div_half_up_nonneg; nia|].
    transitivity (div_half_up g (10 ^ 6)).
    - rewrite <- (div_half_up_scale g (10 ^ 6) (10 ^ 6)) by lia. apply div_half_up_mono; nia.
    - pose proof (div_half_up_abs_le g (10 ^ 6) ltac:(lia)).
      pose proof (div_half_up_nonneg g (10 ^ 6) ltac:(lia) Hg). lia. }
  destruct (Z.le_gt_cases 0 gain) as [Hg|Hg]; [specialize (Hs gain Hg); lia|].
  specialize (Hs (- gain) ltac:(lia)).
  replace (div_half_up (gain * rate) (10 ^ 12)) with (- div_half_up (- gain * rate) (10 ^ 12)); [lia|].
  unfold div_half_up. rewrite Z.mul_opp_l, Z.sgn_opp, Z.abs_opp. lia.
Qed.

(** [gain * rate / 100], rounded to paisa. *)
Lemma tax_repr g zg r zr :
  repr 8 g zg -> repr 4 r zr -> 0 <= zr <= 10 ^ 6 -> Z.abs zg < 10 ^ 22 ->
  exists raw q, ddiv (g * r)%dec d100 = Ok raw /\ _quantize raw = Ok q /\
                repr 2 q (gain_tax zg zr).
Proof using Type.
  intros Hg Hr Hb Hm.
  assert (Hlt : Z.abs (zg * zr) < exact_bound).
  { unfold exact_bound, prec. rewrite Z.abs_mul, (Z.abs_eq zr) by lia.
    apply Z.le_lt_trans with (Z.abs zg * 10 ^ 6); [apply Z.mul_le_mono_nonneg_l; lia|lia]. }
  destruct (ddiv_repr 12 0 14 (g * r)%dec d100 (zg * zr) 100 (zg * zr)) as (raw & E1 & R1);
    [exact (dmul_repr 8 4 g r zg zr Hg Hr Hlt)|reflexivity|lia| |done|].
  { change (Z.max 0 (14 + 0 - 12)) with 2. change (Z.max 0 (12 - 0 - 14)) with 0. lia. }
  destruct (dquantize_repr ROUND_HALF_UP 2 14 raw (zg * zr)) as (q & E2 & R2); [lia|done| |].
  { pose proof (gain_tax_bound zg zr Hb) as Hgt. unfold gain_tax in Hgt.
    apply (Z.le_lt_trans _ _ _ Hgt). unfold exact_bound, prec. lia. }
  exists raw, q. done.
Qed.

Lemma gross_repr g zg :
  repr 8 g zg -> Z.abs zg < 10 ^ 22 ->
  exists q, _quantize g = Ok q /\ repr 2 q (gain_paisa zg).
Proof using Type.
  intros Hg Hm. apply (dquantize_repr ROUND_HALF_UP 2 8 g zg); [lia|done|].
  apply (Z.le_lt_trans _ _ _ (div_half_up_abs_le zg (10 ^ 6) ltac:(lia))).
  unfold exact_bound, prec. lia.
Qed.

Lemma lot_tax_spec p g :
  repr 8 g (line_gain p) -> Z.abs (line_gain p) < 10 ^ 22 ->
  match lot_tax sell_date filer brackets g (sell_date - lot_buy_date p.1) with
  | Ok (cgt, rate) =>
      line_taxable p /\ repr 4 rate (line_rate p) /\
      repr 2 cgt (gain_tax (line_gain p) (line_rate p))
  | Exn e => e = NoApplicableTaxRuleError /\ ~ line_taxable p
  end.
Proof using Hbr.
  intros Hg Hm. unfold lot_tax, line_taxable, line_rate.
  rewrite (dltb_repr 8 dzero g 0 (line_gain p)) by (done || apply repr_zero).
  destruct (0 <? line_gain p) eqn:E; zbool.
  - pose proof (find_bracket_cases brackets sell_date filer (sell_date - lot_buy_date p.1)) as Hf.
    pose proof (line_bracket_ok p) as Hb. unfold line_bracket in *.
    destruct (find_bracket _ _ _ _) as [b|e].
    + destruct (Hb b eq_refl) as [Hgr Hrange].
      destruct (tax_repr g (line_gain p) (rate_pct b) (units 4 (rate_pct b)))
        as (raw & q & -> & -> & Hq); [done..|]. done.
    + destruct Hf as [-> _]. split; [done|]. intros H. specialize (H E). done.
  - split; [lia|]. split; [apply repr_zero|].
    unfold gain_tax. rewrite Z.mul_0_r. done.
Qed.

(** One matched quantity: the state and the line it appends. *)
Lemma take_lot_spec st lot q take rem done_ cost :
  lot_ok P lot -> 0 < q -> repr 4 take q ->
  repr 4 (f_remaining st) rem -> repr 4 (f_total_qty st) done_ ->
  repr 8 (f_weighted_cost st) cost ->
  0 <= rem - q -> 0 <= done_ -> 0 <= cost <= P * done_ -> P * (done_ + rem) < 10 ^ 22 ->
  Z.abs rem < 10 ^ 22 -> done_ + rem < 10 ^ 22 ->
  match take_lot sell_price sell_date filer brackets st lot take with
  | Ok st' => exists m,
      f_matched st' = f_matched st ++ [m] /\ line_ok (lot, q) m /\ line_taxable (lot, q) /\
      repr 4 (f_remaining st') (rem - q) /\ repr 4 (f_total_qty st') (done_ + q) /\
      repr 8 (f_weighted_cost st') (cost + line_cost (lot, q))
  | Exn e => e = NoApplicableTaxRuleError /\ ~ line_taxable (lot, q)
  end.
Proof using Hbr Hsp.
  intros [Hlq Hlp] Hq Htake Hrem Hdone Hcost Hrq Hd Hc HP Hr1 Hr2.
  pose proof (line_gain_bound (lot, q) Hlp ltac:(simpl; lia)) as Hgb. cbn [fst snd] in Hgb, Hlp.
  destruct Hlp as [Hlg Hlb]. destruct Hsp as [Hsg Hsb].
  assert (HPq : P * q < 10 ^ 22) by nia.
  assert (Hgain : repr 8 ((sell_price - lot_price lot) * take)%dec (line_gain (lot, q))).
  { apply (dmul_repr 4 4); [apply dsub_repr; try done|done|].
    - unfold exact_bound, prec. cbn [fst]. assert (P < 10 ^ 22) by nia. lia.
    - unfold exact_bound, prec.
      unfold line_gain in Hgb; cbn [fst snd] in Hgb |- *. lia. }
  assert (Hcst : repr 8 (lot_price lot * take)%dec (line_cost (lot, q))).
  { apply (dmul_repr 4 4); [done..|]. unfold exact_bound, prec.
    cbn [fst snd]. rewrite Z.abs_eq by nia.
    assert (units 4 (lot_price lot) * q <= P * q) by nia. lia. }
  unfold take_lot.
  pose proof (lot_tax_spec (lot, q) _ Hgain ltac:(lia)) as Ht. simpl fst in Ht.
  destruct (lot_tax _ _ _ _ _) as [[cgt rate]|e]; [|done].
  destruct Ht as (Htx & Hrate & Hcgt).
  destruct (gross_repr _ _ Hgain ltac:(lia)) as (gq & -> & Hgq).
  eexists. split; [reflexivity|]. split; [repeat split; done|]. split; [done|]. simpl.
  assert (units 4 (lot_price lot) * q <= P * q) by nia.
  split; [apply dsub_repr; try done; unfold exact_bound, prec; lia|].
  split; [apply dadd_repr; try done; unfold exact_bound, prec; lia|].
  apply dadd_repr; try done. unfold exact_bound, prec, line_cost; simpl.
  rewrite Z.abs_eq by nia. nia.
Qed.

(** The loop: what it appends is the integer allocation, line by line. *)
Lemma fifo_loop_spec lots st rem done_ cost :
  Forall (lot_ok P) lots ->
  repr 4 (f_remaining st) rem -> repr 4 (f_total_qty st) done_ ->
  repr 8 (f_weighted_cost st) cost ->
  0 <= rem -> 0 <= done_ -> 0 <= cost <= P * done_ -> P * (done_ + rem) < 10 ^ 22 ->
  done_ + rem < 10 ^ 22 ->
  let ps := fifo_takes lots rem in
  match fifo_loop sell_price sell_date filer brackets lots st with
  | Ok st' => exists ms,
      f_matched st' = f_matched st ++ ms /\ Forall2 line_ok ps ms /\ Forall line_taxable ps /\
      repr 4 (f_remaining st') (rem - taken ps) /\
      repr 4 (f_total_qty st') (done_ + taken ps) /\
      repr 8 (f_weighted_cost st') (cost + zsum (map line_cost ps))
  | Exn e => e = NoApplicableTaxRuleError /\ Exists (fun p => ~ line_taxable p) ps
  end.
Proof using Hbr Hsp.
  intros Hlots. revert st rem done_ cost.
  induction Hlots as [|lot lots Hlot Hlots IH]; intros st rem done_ cost Hrem Hdone Hcost
    Hr Hd Hc HP Hq; cbn [fifo_loop fifo_takes].
  { exists []. rewrite app_nil_r. unfold taken; simpl. rewrite Z.sub_0_r, !Z.add_0_r.
    repeat split; done || constructor. }
  rewrite (dleb_repr 4 _ dzero rem 0) by (done || apply repr_zero).
  destruct (rem <=? 0) eqn:E; zbool.
  { exists []. rewrite app_nil_r. unfold taken; simpl. rewrite Z.sub_0_r, !Z.add_0_r.
    repeat split; done || constructor. }
  destruct Hlot as [Hlq Hlp].
  rewrite (dleb_repr 4 _ dzero (units 4 (lot_quantity lot)) 0) by (done || apply repr_zero).
  destruct (units 4 (lot_quantity lot) <=? 0) eqn:E2; zbool; [by apply IH|].
  set (q := Z.min (units 4 (lot_quantity lot)) rem).
  assert (Htake : repr 4 (dmin (lot_quantity lot) (f_remaining st)) q) by (by apply dmin_repr).
  rewrite (dleb_repr 4 _ dzero q 0) by (done || apply repr_zero).
  destruct (q <=? 0) eqn:E3; zbool; [lia|].
  pose proof (take_lot_spec st lot q _ rem done_ cost (conj Hlq Hlp) E3 Htake Hrem Hdone Hcost
                ltac:(lia) Hd Hc HP ltac:(lia) Hq) as Ht.
  destruct (take_lot _ _ _ _ _ _ _) as [st'|e].
  2: { destruct Ht as [-> Ht]. split; [done|]. by left. }
  destruct Ht as (m & Hm & Hok & Htx & Hrem' & Hdone' & Hcost').
  destruct Hlp as [_ Hlb].
  assert (Hle : 0 <= line_cost (lot, q) <= P * q) by (unfold line_cost; simpl; nia).
  specialize (IH st' (rem - q) (done_ + q) (cost + line_cost (lot, q)) Hrem' Hdone' Hcost'
                ltac:(lia) ltac:(lia) ltac:(lia)).
  specialize (IH ltac:(replace (done_ + q + (rem - q)) with (done_ + rem) by lia; done)
                 ltac:(lia)). simpl in IH.
  destruct (fifo_loop _ _ _ _ lots st') as [st''|e].
  2: { destruct IH as [-> IH]. split; [done|]. by right. }
  destruct IH as (ms & Hms & Hoks & Htxs & HA & HB & HC).
  exists (m :: ms). unfold taken in *; simpl.
  split; [by rewrite Hms, Hm, <- app_assoc|].
  split; [by constructor|]. split; [by constructor|].
  unfold zsum in *; simpl.
  rewrite <- Z.sub_add_distr in HA. rewrite <- Z.add_assoc in HB, HC. done.
Qed.
End lines.

(** Pointwise bounds on lines add up to bounds on the totals. *)
Lemma zsum_lines_bound P (f : BuyLot * Z -> Z) ps :
  Forall (fun p => Z.abs (f p) <= P * p.2) ps -> zsum (map Z.abs (map f ps)) <= P * taken ps.
Proof. unfold taken, zsum. induction 1; simpl in *; nia. Qed.

Lemma line_costs_bound P ps :
  Forall (fun p => 0 <= units 4 (lot_price p.1) <= P /\ 0 < p.2) ps ->
  0 <= zsum (map line_cost ps) <= P * taken ps.
Proof. unfold taken, zsum, line_cost. induction 1 as [|p ps [? ?]]; simpl in *; nia. Qed.

(** [quantize] of an amount that already has two decimals changes nothing. *)
Lemma quantize_paisa d z :
  repr 2 d z -> Z.abs z < exact_bound -> exists q, _quantize d = Ok q /\ repr 2 q z.
Proof.
  intros H Hz. destruct (dquantize_repr ROUND_HALF_UP 2 2 d z) as (q & E & R); [lia|done| |].
  - change (10 ^ (2 - 2)) with 1. rewrite <- (Z.mul_1_r z) at 1. by rewrite div_round_exact by lia.
  - change (10 ^ (2 - 2)) with 1 in R. rewrite <- (Z.mul_1_r z) in R.
    rewrite div_round_exact in R by lia. rewrite ?Z.mul_1_r in R. eauto.
Qed.

Lemma Forall2_line_fields sp sd filer br ps ms :
  Forall2 (line_ok sp sd filer br) ps ms ->
  Forall2 (repr 2) (map m_gross_gain_pkr ms) (map (fun p => gain_paisa (line_gain sp p)) ps) /\
  Forall2 (repr 2) (map m_cgt_pkr ms)
    (map (fun p => gain_tax (line_gain sp p) (line_rate sp sd filer br p)) ps).
Proof.
  induction 1 as [|p m ps ms H _ [IH1 IH2]]; simpl; [split; constructor|].
  destruct H as (_ & _ & _ & _ & _ & _ & _ & ? & _ & ?). split; constructor; done.
Qed.

(** The average buy price, a nearest multiple of 10^-4. *)
Lemma average_price wc tq cost qty :
  repr 8 wc cost -> repr 4 tq qty -> 0 < qty -> 0 <= cost < 10 ^ 22 ->
  exists raw q avg, ddiv wc tq = Ok raw /\ dquantize ROUND_HALF_UP 4 raw = Ok q /\
                    repr 4 q avg /\ 2 * Z.abs (avg * qty - cost) <= qty.
Proof.
  intros Hc Hq Hpos Hb.
  destruct (ddiv_quantize_near ROUND_HALF_UP 4 8 4 0 wc tq cost qty)
    as (raw & q & avg & E1 & E2 & R & Hn); [done|done|lia..| |].
  - rewrite Z.pow_0_r. clear -Hb Hpos. lia.
  - exists raw, q, avg. do 3 (split; [done|]). rewrite Z.pow_0_r, !Z.mul_1_r in Hn.
    clear -Hn Hb Hpos. lia.
Qed.

(** The two totals of the lines are exact sums of the lines' amounts. *)
Lemma line_totals P sp sd filer br ps ms :
  price_ok P sp -> Forall bracket_ok br ->
  Forall (fun p => price_ok P (lot_price p.1) /\ 0 < p.2) ps ->
  Forall2 (line_ok sp sd filer br) ps ms -> P * taken ps < 10 ^ 22 ->
  exists g c, _quantize (dsum (map m_gross_gain_pkr ms)) = Ok g /\
              _quantize (dsum (map m_cgt_pkr ms)) = Ok c /\
              repr 2 g (zsum (map (fun p => gain_paisa (line_gain sp p)) ps)) /\
              repr 2 c (zsum (map (fun p => gain_tax (line_gain sp p)
                                              (line_rate sp sd filer br p)) ps)).
Proof.
  intros Hsp Hbr Hps Hok HP.
  destruct (Forall2_line_fields _ _ _ _ _ _ Hok) as [F1 F2].
  assert (Hsum : forall f ds, Forall2 (repr 2) ds (map f ps) ->
            (forall p, Z.abs (f p) <= Z.abs (line_gain sp p)) ->
            exists q, _quantize (dsum ds) = Ok q /\ repr 2 q (zsum (map f ps))).
  { intros f ds Hds Hf.
    assert (B : zsum (map Z.abs (map f ps)) <= P * taken ps).
    { apply zsum_lines_bound. eapply Forall_impl; [|exact Hps]. intros p [H1 H2].
      etransitivity; [apply Hf|]. apply line_gain_bound; [done..|lia]. }
    apply quantize_paisa.
    - apply dsum_repr; [done|]. unfold exact_bound, prec. lia.
    - eapply Z.le_lt_trans; [apply zsum_abs_le|]. unfold exact_bound, prec. lia. }
  destruct (Hsum _ _ F1) as (g & Eg & Rg); [intros; apply div_half_up_abs_le; lia|].
  destruct (Hsum _ _ F2) as (c & Ec & Rc); [intros; by apply gain_tax_bound, line_rate_bound|].
  eauto 10.
Qed.

(** The contract of [match_fifo], as a case statement on its result: on success
    the lines are the integer allocation over the lots in [(buy_date,
    transaction_id)] order and the totals are the sums of the lines; each error
    is raised in exactly its case. *)
Definition match_fifo_contract sell_price sell_date filer brackets lots sell_quantity
    (out : res CgtResult) : Prop :=
  let need := units 4 sell_quantity in
  let ps := fifo_takes (sort_by lot_le lots) need in
  let gain := line_gain sell_price in
  let rate := line_rate sell_price sell_date filer brackets in
  let taxable := line_taxable sell_price sell_date filer brackets in
  match out with
  | Ok r =>
      0 < need <= open_quantity lots /\ taken ps = need /\ Forall taxable ps /\
      Forall2 (line_ok sell_price sell_date filer brackets) ps (matched r) /\
      repr 2 (total_gross_gain_pkr r) (zsum (map (fun p => gain_paisa (gain p)) ps)) /\
      repr 2 (total_cgt_pkr r) (zsum (map (fun p => gain_tax (gain p) (rate p)) ps)) /\
      exists avg, repr 4 (weighted_avg_buy_price r) avg /\
                  2 * Z.abs (avg * need - zsum (map line_cost ps)) <= need
  | Exn ValueError => need <= 0
  | Exn InsufficientLotsError => 0 < need /\ open_quantity lots < need /\ Forall taxable ps
  | Exn NoApplicableTaxRuleError => 0 < need /\ Exists (fun p => ~ taxable p) ps
  | Exn _ => False
  end.

Lemma open_quantity_perm l1 l2 : l1 ≡ₚ l2 -> open_quantity l1 = open_quantity l2.
Proof. intros H. unfold open_quantity. apply zsum_perm. by rewrite H. Qed.

Lemma match_fifo_refines P sell_price sell_date filer brackets lots sell_quantity :
  Forall (lot_ok P) lots -> price_ok P sell_price -> Forall bracket_ok brackets ->
  on_grid 4 sell_quantity -> units 4 sell_quantity < 10 ^ 22 ->
  P * units 4 sell_quantity < 10 ^ 22 ->
  match_fifo_contract sell_price sell_date filer brackets lots sell_quantity
    (match_fifo sell_price sell_date filer brackets lots sell_quantity).
Proof.
  intros Hlots Hsp Hbr Hsq Hq HP. unfold match_fifo_contract, match_fifo. cbv zeta.
  rewrite (dleb_repr 4 _ dzero (units 4 sell_quantity) 0) by (done || apply repr_zero).
  set (need := units 4 sell_quantity) in *. set (sorted := sort_by lot_le lots).
  destruct (need <=? 0) eqn:E; zbool; [done|].
  assert (Hsl : Forall (lot_ok P) sorted) by (by apply Forall_sort_by).
  assert (Hop : open_quantity sorted = open_quantity lots)
    by (apply open_quantity_perm, sort_by_perm).
  pose proof (fifo_loop_spec sell_price sell_date filer brackets P Hsp Hbr sorted
    (mkFifo sell_quantity [] dzero dzero) need 0 0 Hsl Hsq (repr_zero 4) (repr_zero 8)
    ltac:(lia) ltac:(lia) ltac:(lia) HP Hq) as HL. cbv zeta in HL.
  pose proof (fifo_takes_taken sorted need ltac:(lia)) as Ht. rewrite Hop in Ht.
  set (ps := fifo_takes sorted need) in *.
  destruct (fifo_loop _ _ _ _ _ _) as [st|e]; [|destruct HL as [-> ?]; done].
  destruct HL as (ms & Hms & Hok & Htx & Hrem & Htot & Hwc). simpl in Hms. subst ms.
  rewrite (dltb_repr 4 dzero (f_remaining st) 0 (need - taken ps)) by (done || apply repr_zero).
  destruct (0 <? need - taken ps) eqn:E1; zbool; [split; [lia|split; [lia|done]]|].
  assert (Htk : taken ps = need) by lia. rewrite Htk in *.
  rewrite (dltb_repr 4 dzero (f_total_qty st) 0 need) by (done || apply repr_zero).
  rewrite (proj2 (Z.ltb_lt 0 need)) by lia.
  assert (Hps : Forall (fun p => price_ok P (lot_price p.1) /\ 0 < p.2) ps).
  { apply Forall_forall. intros p Hp%list_elem_of_In. split.
    - apply fifo_takes_subset in Hp. rewrite Forall_forall in Hsl.
      apply (Hsl p.1). by apply list_elem_of_In.
    - pose proof (fifo_takes_pos sorted need) as Hf. rewrite Forall_forall in Hf.
      apply Hf. by apply list_elem_of_In. }
  destruct (line_costs_bound P ps) as [Hc0 Hc1].
  { eapply Forall_impl; [|exact Hps]. intros p [[_ ?] ?]; done. }
  rewrite Htk in Hc1.
  destruct (average_price _ _ _ _ Hwc Htot ltac:(lia) ltac:(lia)) as (raw & aq & avg & -> & -> & Ra & Hna).
  destruct (line_totals P sell_price sell_date filer brackets ps _ Hsp Hbr Hps Hok)
    as (g & c & -> & -> & Hg & Hcg); [rewrite Htk; lia|].
  split; [lia|]. do 5 (split; [done|]). eauto.
Qed.

(** [calculate_cgt] on a pair is the tax of the line of that pair. *)
Lemma calculate_cgt_spec P sell_price sell_date filer brackets lot quantity :
  lot_ok P lot -> price_ok P sell_price -> Forall bracket_ok brackets -> on_grid 4 quantity ->
  0 < units 4 quantity -> P * units 4 quantity < 10 ^ 22 ->
  let p := (lot, units 4 quantity) in
  match calculate_cgt (lot_price lot) sell_price quantity (sell_date - lot_buy_date lot)
          filer sell_date brackets with
  | Ok c => line_taxable sell_price sell_date filer brackets p /\
            repr 2 c (gain_tax (line_gain sell_price p)
                        (line_rate sell_price sell_date filer brackets p))
  | Exn e => e = NoApplicableTaxRuleError /\ ~ line_taxable sell_price sell_date filer brackets p
  end.
Proof.
  intros [Hlq Hlp] Hsp Hbr Hq Hpos HP p. unfold calculate_cgt.
  rewrite (dleb_repr 4 _ dzero (units 4 quantity) 0) by (done || apply repr_zero).
  rewrite (proj2 (Z.leb_gt _ _) Hpos).
  pose proof (line_gain_bound sell_price P Hsp p Hlp ltac:(simpl; lia)) as Hgb.
  assert (Hgain : repr 8 ((sell_price - lot_price lot) * quantity)%dec (line_gain sell_price p)).
  { destruct Hlp as [? ?], Hsp as [? ?]. unfold p, line_gain in Hgb |- *. cbn [fst snd] in Hgb |- *.
    apply (dmul_repr 4 4); [apply dsub_repr; try done|done|]; unfold exact_bound, prec; [|lia].
    assert (P < 10 ^ 22) by nia. lia. }
  rewrite (dleb_repr 8 _ dzero (line_gain sell_price p) 0) by (done || apply repr_zero).
  unfold line_taxable, line_rate.
  destruct (line_gain sell_price p <=? 0) eqn:E; zbool.
  - rewrite (proj2 (Z.ltb_ge _ _) E). split; [lia|]. unfold gain_tax. rewrite Z.mul_0_r. done.
  - rewrite (proj2 (Z.ltb_lt _ _) E).
    pose proof (line_bracket_ok sell_date filer brackets Hbr p) as Hb.
    pose proof (find_bracket_cases brackets sell_date filer (sell_date - lot_buy_date lot)) as Hf.
    unfold line_bracket in *. subst p; cbn [fst snd] in *.
    destruct (find_bracket _ _ _ _) as [b|e].
    + destruct (Hb b eq_refl) as [Hgr Hrange].
      destruct (tax_repr _ _ (rate_pct b) _ Hgain Hgr Hrange) as (raw & q & -> & -> & Hq'); [lia|].
      done.
    + destruct Hf as [-> _]. split; [done|]. intros H. specialize (H E). done.
Qed.

(** The tax of a line is between zero and its gain; a line at a loss pays none. *)
Lemma gain_tax_le_gain gain rate :
  0 <= rate <= 10 ^ 6 -> (0 < gain \/ rate = 0) ->
  0 <= gain_tax gain rate <= Z.max 0 (gain_paisa gain).
Proof.
  intros Hr [Hg| ->]; [|unfold gain_tax; rewrite Z.mul_0_r; change (div_half_up 0 (10 ^ 12)) with 0; lia].
  unfold gain_tax, gain_paisa. split; [apply div_half_up_nonneg; nia|].
  etransitivity; [|apply Z.le_max_r].
  rewrite <- (div_half_up_scale gain (10 ^ 6) (10 ^ 6)) by lia. apply div_half_up_mono; nia.
Qed.

Lemma line_tax_bounds sell_price sell_date filer brackets p m :
  Forall bracket_ok brackets -> line_ok sell_price sell_date filer brackets p m ->
  0 <= units 2 (m_cgt_pkr m) <= Z.max 0 (units 2 (m_gross_gain_pkr m)).
Proof.
  intros Hbr (_ & _ & _ & _ & _ & _ & _ & Hg & _ & Hc).
  rewrite (repr_units _ _ _ Hg), (repr_units _ _ _ Hc).
  apply gain_tax_le_gain; [by apply line_rate_bound|].
  unfold line_rate. destruct (0 <? line_gain sell_price p) eqn:E; zbool; auto.
Qed.

(** The total tax of a sale is between zero and the value of what is sold. *)
Lemma total_tax_bounds P sell_price sell_date filer brackets lots need :
  Forall (lot_ok P) lots -> price_ok P sell_price -> Forall bracket_ok brackets -> 0 <= P ->
  let ps := fifo_takes lots need in
  0 <= zsum (map (fun p => gain_tax (line_gain sell_price p)
                             (line_rate sell_price sell_date filer brackets p)) ps) <= P * taken ps.
Proof.
  intros Hlots Hsp Hbr HP ps.
  assert (H : Forall (fun p => 0 <= gain_tax (line_gain sell_price p)
                (line_rate sell_price sell_date filer brackets p) <= P * p.2) ps).
  { apply Forall_forall. intros p Hp%list_elem_of_In.
    pose proof (fifo_takes_pos lots need) as Hpos. rewrite list.Forall_forall in Hpos.
    specialize (Hpos p Hp). apply fifo_takes_subset in Hp.
    rewrite list.Forall_forall in Hlots. destruct (Hlots _ Hp) as [_ Hpr].
    pose proof (line_gain_bound sell_price P Hsp p Hpr ltac:(lia)) as Hg.
    pose proof (line_rate_bound sell_price sell_date filer brackets Hbr p) as Hr.
    pose proof (gain_tax_bound (line_gain sell_price p) _ Hr).
    pose proof (gain_tax_le_gain (line_gain sell_price p) _ Hr) as Hle.
    unfold line_rate in *. destruct (0 <? line_gain sell_price p) eqn:E; zbool; lia. }
  unfold taken, zsum. clear -H HP. induction H; simpl; lia.
Qed.

(** ** Properties *)

(** C1: [match_fifo] implements the integer FIFO allocation.  For lots, prices
    and quantities on the grid of the columns, it returns [Ok] exactly when the
    open lots cover the sale and every gaining line has a bracket; the lines are
    then the allocation over the lots in [(buy_date, transaction_id)] order,
    each with its gain and tax rounded half up to paisa, the totals are exact
    sums of the lines, and the average buy price is a nearest multiple of
    10^-4.  [InsufficientLotsError] means that the open lots fall short,
    [NoApplicableTaxRuleError] that some gaining line has no bracket,
    [ValueError] a non-positive quantity; nothing else is raised. *)
Theorem match_fifo_correct P sell_price sell_date filer brackets lots sell_quantity :
  Forall (lot_ok P) lots -> price_ok P sell_price -> Forall bracket_ok brackets ->
  on_grid 4 sell_quantity -> units 4 sell_quantity < 10 ^ 22 ->
  P * units 4 sell_quantity < 10 ^ 22 ->
  match_fifo_contract sell_price sell_date filer brackets lots sell_quantity
    (match_fifo sell_price sell_date filer brackets lots sell_quantity).
Proof. apply match_fifo_refines. Qed.

(** A filer selling 150 of two lots of 100 bought at 10.50 and 12.25. *)
Definition ex_brackets : list TaxBracket :=
  [mkTaxBracket 0 None true 0 (Some 365) (mkdec 150000 (-4));
   mkTaxBracket 0 None true 366 None (mkdec 125000 (-4))].
Definition ex_lots : list BuyLot :=
  [mkBuyLot "b" 20 (mkdec 1000000 (-4)) (mkdec 122500 (-4));
   mkBuyLot "a" 10 (mkdec 1000000 (-4)) (mkdec 105000 (-4))].

Lemma match_fifo_correct_witness :
  match_fifo_contract (mkdec 150000 (-4)) 400 true ex_brackets ex_lots (mkdec 1500000 (-4))
    (match_fifo (mkdec 150000 (-4)) 400 true ex_brackets ex_lots (mkdec 1500000 (-4))).
Proof.
  apply (match_fifo_correct 1000000).
  - repeat constructor; vm_compute; congruence.
  - repeat split; vm_compute; congruence.
  - repeat constructor; vm_compute; congruence.
  - reflexivity.
  - reflexivity.
  - reflexivity.
Defined.

(** [find_bracket] returns a matching bracket that no matching bracket is
    more specific than, and raises exactly when no bracket matches. *)
Theorem find_bracket_spec brackets sell_date filer holding :
  match find_bracket brackets sell_date filer holding with
  | Ok b => b ∈ brackets /\ _bracket_matches b sell_date filer holding = true /\
            forall b', b' ∈ brackets -> _bracket_matches b' sell_date filer holding = true ->
                       key_le (_specificity b) (_specificity b') = true
  | Exn e => e = NoApplicableTaxRuleError /\
             forall b', b' ∈ brackets -> _bracket_matches b' sell_date filer holding = false
  end.
Proof. apply find_bracket_cases. Qed.

(** On a single open lot that covers the sale, the two entry points agree:
    [match_fifo] charges the tax [calculate_cgt] computes for the pair, or both
    raise the same error. *)
Theorem calculate_cgt_match_fifo P sell_price sell_date filer brackets lot quantity :
  lot_ok P lot -> price_ok P sell_price -> Forall bracket_ok brackets ->
  on_grid 4 quantity -> units 4 quantity <= units 4 (lot_quantity lot) ->
  units 4 quantity < 10 ^ 22 -> P * units 4 quantity < 10 ^ 22 ->
  match calculate_cgt (lot_price lot) sell_price quantity (sell_date - lot_buy_date lot)
          filer sell_date brackets,
        match_fifo sell_price sell_date filer brackets [lot] quantity with
  | Ok c, Ok r => units 2 c = units 2 (total_cgt_pkr r)
  | Exn e, Exn e' => e = e'
  | _, _ => False
  end.
Proof.
  intros Hl Hsp Hbr Hq Hle Hlt HP.
  pose proof (match_fifo_refines P sell_price sell_date filer brackets [lot] quantity
                ltac:(by constructor) Hsp Hbr Hq Hlt HP) as HC.
  unfold match_fifo_contract in HC. simpl sort_by in HC.
  destruct (Z.le_gt_cases (units 4 quantity) 0) as [Hz|Hz].
  - unfold calculate_cgt, match_fifo.
    rewrite (dleb_repr 4 quantity dzero (units 4 quantity) 0) by (done || apply repr_zero).
    by rewrite (proj2 (Z.leb_le _ _) Hz).
  - pose proof (calculate_cgt_spec P sell_price sell_date filer brackets lot quantity
                  Hl Hsp Hbr Hq Hz HP) as HS.
    cbn [fifo_takes] in HC.
    rewrite (proj2 (Z.leb_gt _ _) Hz) in HC.
    rewrite (proj2 (Z.leb_gt (units 4 (lot_quantity lot)) 0)) in HC by lia.
    rewrite Z.min_r in HC by lia. cbv zeta in HS, HC.
    destruct (calculate_cgt _ _ _ _ _ _ _) as [c|e], (match_fifo _ _ _ _ _ _) as [r|e'].
    + destruct HS as [_ Hc]. destruct HC as (_ & _ & _ & _ & _ & Hr & _).
      unfold zsum in Hr. cbn [map fold_right] in Hr. rewrite Z.add_0_r in Hr.
      by rewrite (repr_units _ _ _ Hc), (repr_units _ _ _ Hr).
    + destruct HS as [Ht _]. destruct e'; try done; [lia|..].
      * destruct HC as [_ Hex]. inversion Hex as [? ? Hn|? ? Hn]; subst; [done|inversion Hn].
      * unfold open_quantity, zsum in HC. cbn [map fold_right] in HC. lia.
    + destruct HS as [_ Hn]. destruct HC as (_ & _ & Hf & _). by inversion Hf.
    + destruct HS as [-> Hn]. destruct e'; try done; [lia|].
      destruct HC as (_ & _ & Hf). by inversion Hf.
Qed.

Lemma calculate_cgt_match_fifo_witness :
  match calculate_cgt (mkdec 105000 (-4)) (mkdec 150000 (-4)) (mkdec 1000000 (-4)) 390
          true 400 ex_brackets,
        match_fifo (mkdec 150000 (-4)) 400 true ex_brackets
          [mkBuyLot "a" 10 (mkdec 1000000 (-4)) (mkdec 105000 (-4))] (mkdec 1000000 (-4)) with
  | Ok c, Ok r => units 2 c = units 2 (total_cgt_pkr r)
  | Exn e, Exn e' => e = e'
  | _, _ => False
  end.
Proof.
  apply (calculate_cgt_match_fifo 1000000 (mkdec 150000 (-4)) 400 true ex_brackets
           (mkBuyLot "a" 10 (mkdec 1000000 (-4)) (mkdec 105000 (-4))) (mkdec 1000000 (-4)));
    repeat constructor; vm_compute; congruence.
Defined.
