(* ===== verification/Ledger.v ===== *)
(** * Ledger: the tables of the portfolio services and their shared queries

    Rows of [psx_api/models] ([Portfolio], [Transaction], [HoldingsSnapshot],
    [Security], [TaxRule], [OhlcvDaily]) as records, a database state as one
    list per table, and what [TransactionService], [PortfolioSummaryService]
    and [TaxSimulatorService] share: the chronological query, the FIFO
    reduction of open quantities by past sells, and
    [TaxRuleRepository.load_cgt_brackets].

    Dates and timestamps are integers (ordinals).  A table keeps its rows in
    insertion order; primary keys are hypotheses ([NoDup]) where a theorem
    needs them. *)

From S2P Require Import Prelude Decimal Cgt.

Inductive TransactionType := BUY | SELL | DIVIDEND | BONUS | RIGHTS.

#[export] Instance TransactionType_eq_dec : EqDecision TransactionType.
Proof. solve_decision. Defined.

Record Portfolio := mkPortfolio {
  p_id : string;
  p_user_id : string;
  p_name : string;
  p_description : option string;
  p_base_currency : string;
  p_is_default : bool;
  p_created_at : Z;
}.

Record Transaction := mkTransaction {
  t_id : string;
  t_portfolio_id : string;
  t_symbol : string;
  t_type : TransactionType;
  t_date : Z;
  t_quantity : dec;
  t_price : dec;
  t_brokerage : dec;
  t_fed : dec;
  t_cvt : dec;
  t_cgt : dec;
  t_notes : option string;
  t_created_at : Z;
}.

Record HoldingsSnapshot := mkHolding {
  h_portfolio_id : string;
  h_symbol : string;
  h_quantity : dec;
  h_avg_cost : dec;
  h_total_invested : dec;
  h_realized_pnl : dec;
  h_total_dividends : dec;
}.

(** The columns of [Security] the services read. *)
Record Security := mkSecurity {
  s_symbol : string;
  s_company_name : string;
  s_sector : string;
  s_is_kmi_compliant : bool;
}.

Record TaxRule := mkTaxRule {
  r_rule_type : string;
  r_effective_from : Z;
  r_effective_to : option Z;
  r_is_filer : bool;
  r_min_holding_days : Z;
  r_max_holding_days : option Z;
  r_rate_pct : dec;
}.

Record OhlcvDaily := mkOhlcv {
  o_symbol : string;
  o_date : Z;
  o_close : option dec;
}.

Record database := mkDb {
  portfolios : list Portfolio;
  transactions : list Transaction;
  holdings : list HoldingsSnapshot;
  securities : list Security;
  tax_rules : list TaxRule;
  ohlcv : list OhlcvDaily;
}.

(** [Result.scalar_one_or_none()] *)
Definition scalar_one_or_none {A} (rows : list A) : res (option A) :=
  match rows with
  | [] => Ok None
  | [x] => Ok (Some x)
  | _ => Exn MultipleResultsFound
  end.

Definition is_acquisition (t : Transaction) : bool :=
  match t_type t with BUY | BONUS | RIGHTS => true | _ => false end.
Definition is_sell (t : Transaction) : bool := bool_decide (t_type t = SELL).

(** [ORDER BY transaction_date, created_at] *)
Definition txn_le (a b : Transaction) : bool :=
  ((t_date a <? t_date b)
   || ((t_date a =? t_date b) && (t_created_at a <=? t_created_at b)))%bool.

(** Transactions of one portfolio and symbol satisfying [f], chronologically. *)
Definition select_txns (db : database) (pid symbol : string) (f : Transaction -> bool)
    : list Transaction :=
  sort_by txn_le
    (List.filter (fun t => (String.eqb (t_portfolio_id t) pid && String.eqb (t_symbol t) symbol
                            && f t)%bool) (transactions db)).

(** [TaxRuleRepository.load_cgt_brackets] *)
Definition load_cgt_brackets (db : database) : list TaxBracket :=
  map (fun r => mkTaxBracket (r_effective_from r) (r_effective_to r) (r_is_filer r)
                  (r_min_holding_days r) (r_max_holding_days r) (r_rate_pct r))
    (sort_by (fun a b => r_effective_from a <=? r_effective_from b)
       (List.filter (fun r => String.eqb (r_rule_type r) "cgt") (tax_rules db))).

(** ** Open quantities after past sells *)

(** [{b.id: b.quantity for b in buys}] *)
Definition initial_open (buys : list Transaction) : gmap string dec :=
  fold_left (fun m b => <[t_id b := t_quantity b]> m) buys ∅.

(** The loop that reduces [open_qty] by [sell_remaining]; a missing key is the
    [KeyError] of [open_qty[b.id]]. *)
Fixpoint reduce_open (buys : list Transaction) (open_qty : gmap string dec) (sell_remaining : dec)
    : res (gmap string dec) :=
  match buys with
  | [] => Ok open_qty
  | b :: rest =>
      if (sell_remaining <=? dzero)%dec then Ok open_qty
      else
        match open_qty !! t_id b with
        | None => Exn KeyError
        | Some q =>
            let take := dmin q sell_remaining in
            reduce_open rest (<[t_id b := (q - take)%dec]> open_qty) (sell_remaining - take)%dec
        end
  end.

(** The [BuyLot]s of the buys that remain open. *)
Fixpoint lots_of (buys : list Transaction) (open_qty : gmap string dec) : res (list BuyLot) :=
  match buys with
  | [] => Ok []
  | b :: rest =>
      match open_qty !! t_id b with
      | None => Exn KeyError
      | Some q =>
          let! ls := lots_of rest open_qty in
          Ok (if (dzero <? q)%dec then mkBuyLot (t_id b) (t_date b) q (t_price b) :: ls else ls)
      end
  end.

Definition open_lots (buys : list Transaction) (sell_remaining : dec) : res (list BuyLot) :=
  let! open_qty := reduce_open buys (initial_open buys) sell_remaining in
  lots_of buys open_qty.

(** ** Integer reference of the reduction *)

(** What FIFO consumption of [s] leaves of the quantities [qs]. *)
Fixpoint residuals (qs : list Z) (s : Z) : list Z :=
  match qs with
  | [] => []
  | q :: rest => (q - Z.min q s) :: residuals rest (s - Z.min q s)
  end.

Lemma residuals_0 qs : Forall (fun q => 0 <= q) qs -> residuals qs 0 = qs.
Proof.
  induction 1 as [|q qs Hq _ IH]; simpl; [done|].
  rewrite Z.min_r by lia. rewrite !Z.sub_0_r, IH. done.
Qed.

Lemma residuals_length qs s : length (residuals qs s) = length qs.
Proof. revert s; induction qs; intros; simpl; auto. Qed.

Lemma residuals_bounds qs s :
  0 <= s -> Forall (fun q => 0 <= q) qs ->
  Forall2 (fun q r => 0 <= r <= q) qs (residuals qs s).
Proof.
  intros Hs H. revert s Hs; induction H; intros; simpl; constructor; [lia|]. apply IHForall. lia.
Qed.

Lemma residuals_sum qs s :
  0 <= s -> Forall (fun q => 0 <= q) qs ->
  zsum (residuals qs s) = Z.max 0 (zsum qs - s).
Proof.
  intros Hs H. revert s Hs; induction H as [|q qs Hq Hqs IH]; intros s Hs; simpl; [lia|].
  pose proof (zsum_nonneg qs Hqs). specialize (IH (s - Z.min q s) ltac:(lia)).
  unfold zsum in *; simpl. lia.
Qed.

(** Rows with quantities and prices on the grid of the columns. *)
Definition txn_ok (P : Z) (t : Transaction) : Prop :=
  on_grid 4 (t_quantity t) /\ 0 < units 4 (t_quantity t) /\ price_ok P (t_price t).

Definition qty (t : Transaction) : Z := units 4 (t_quantity t).
Definition volume (ts : list Transaction) : Z := zsum (map qty ts).

Lemma volume_nonneg P ts : Forall (txn_ok P) ts -> 0 <= volume ts.
Proof.
  intros H. apply zsum_nonneg, Forall_map. eapply Forall_impl; [|exact H].
  intros t (_ & ? & _); unfold qty; simpl; lia.
Qed.

Lemma volume_perm l1 l2 : l1 ≡ₚ l2 -> volume l1 = volume l2.
Proof. intros H. unfold volume. apply zsum_perm. by rewrite H. Qed.

Lemma volume_cons t ts : volume (t :: ts) = qty t + volume ts.
Proof. done. Qed.

(** The dictionary agrees with a list of open quantities. *)
Definition open_repr (buys : list Transaction) (m : gmap string dec) (zs : list Z) : Prop :=
  Forall2 (fun b z => exists q, m !! t_id b = Some q /\ repr 4 q z) buys zs.

Lemma open_repr_insert buys (m : gmap string dec) zs k q :
  k ∉ map t_id buys -> open_repr buys m zs -> open_repr buys (<[k := q]> m) zs.
Proof.
  intros Hk H. unfold open_repr in *. induction H as [|b z bs zs (q' & Hq & Hr) _ IH]; constructor.
  - exists q'. split; [|done]. rewrite lookup_insert_ne; [done|]. simpl in Hk. set_solver.
  - apply IH. simpl in Hk. set_solver.
Qed.

Lemma initial_open_other buys (m : gmap string dec) k :
  k ∉ map t_id buys ->
  fold_left (fun m b => <[t_id b := t_quantity b]> m) buys m !! k = m !! k.
Proof.
  revert m; induction buys as [|b bs IH]; intros m Hk; simpl in *; [done|].
  rewrite IH by set_solver. apply lookup_insert_ne. set_solver.
Qed.

Lemma initial_open_repr P buys :
  NoDup (map t_id buys) -> Forall (txn_ok P) buys ->
  open_repr buys (initial_open buys) (map qty buys).
Proof.
  unfold initial_open. generalize (∅ : gmap string dec).
  induction buys as [|b bs IH]; intros m Hnd Hok; simpl; [constructor|].
  apply list.NoDup_cons in Hnd as [Hb Hnd]. inversion_clear Hok as [|? ? [Hg _] Hoks].
  constructor; [|by apply IH].
  exists (t_quantity b). split; [|done]. rewrite initial_open_other by done.
  apply lookup_insert_eq.
Qed.

Lemma reduce_open_other buys (m : gmap string dec) s m' k :
  reduce_open buys m s = Ok m' -> k ∉ map t_id buys -> m' !! k = m !! k.
Proof.
  revert m s; induction buys as [|b bs IH]; intros m s H Hk; simpl in *; [by inv_res|].
  destruct (s <=? dzero)%dec; [by inv_res|].
  destruct (m !! t_id b); [|discriminate H].
  apply IH in H as ->; [|set_solver]. apply lookup_insert_ne. set_solver.
Qed.

Lemma reduce_open_spec buys m zs s zs_rem :
  NoDup (map t_id buys) -> open_repr buys m zs ->
  Forall (fun z => 0 <= z < 10 ^ 22) zs -> repr 4 s zs_rem -> Z.abs zs_rem < 10 ^ 22 ->
  exists m', reduce_open buys m s = Ok m' /\ open_repr buys m' (residuals zs (Z.max 0 zs_rem)).
Proof.
  intros Hnd. revert m zs s zs_rem.
  induction buys as [|b bs IH]; intros m zs s r Hm Hz Hs Hr; inversion Hm as [|? z ? zs' Hb Hbs];
    subst; simpl; [exists m; split; [done|constructor]|].
  rewrite (dleb_repr 4 s dzero r 0) by (done || apply repr_zero).
  apply list.NoDup_cons in Hnd as [Hnb Hnd]. inversion_clear Hz as [|? ? Hz0 Hzs].
  destruct (r <=? 0) eqn:E; zbool.
  { exists m. split; [done|]. rewrite Z.max_l by lia.
    rewrite Z.min_r by lia. rewrite !Z.sub_0_r, residuals_0; [done|].
    eapply Forall_impl; [|exact Hzs]. simpl; intros; lia. }
  destruct Hb as (q & Hq & Hqr). rewrite Hq.
  assert (Hmin : repr 4 (dmin q s) (Z.min z r)) by (by apply dmin_repr).
  destruct (IH Hnd (<[t_id b := (q - dmin q s)%dec]> m) zs' (s - dmin q s)%dec (r - Z.min z r))
    as (m' & E' & Hm').
  - by apply open_repr_insert.
  - done.
  - apply dsub_repr; [done..|]. unfold exact_bound, prec. lia.
  - lia.
  - exists m'. rewrite E'. split; [done|]. rewrite (Z.max_r 0 r) by lia. rewrite (Z.max_r 0) in Hm' by lia.
    constructor; [|done]. exists (q - dmin q s)%dec. split.
    + rewrite (reduce_open_other _ _ _ _ _ E' Hnb). apply lookup_insert_eq.
    + apply dsub_repr; [done..|]. unfold exact_bound, prec. lia.
Qed.

(** A lot built from a buy with [z] units open. *)
Definition lot_of (p : Transaction * Z) (l : BuyLot) : Prop :=
  lot_transaction_id l = t_id p.1 /\ lot_buy_date l = t_date p.1 /\
  lot_price l = t_price p.1 /\ repr 4 (lot_quantity l) p.2.

Definition open_pairs (buys : list Transaction) (zs : list Z) : list (Transaction * Z) :=
  List.filter (fun p => 0 <? p.2) (combine buys zs).

Lemma lots_of_spec buys m zs :
  open_repr buys m zs ->
  exists ls, lots_of buys m = Ok ls /\ Forall2 lot_of (open_pairs buys zs) ls.
Proof.
  unfold open_pairs. induction 1 as [|b z bs zs (q & Hq & Hr) _ (ls & Hls & IH)]; simpl.
  { exists []. split; [done|constructor]. }
  rewrite Hq, Hls. rewrite (dltb_repr 4 dzero q 0 z) by (done || apply repr_zero).
  destruct (0 <? z); eexists; (split; [reflexivity|]); [|done]. constructor; [|done].
  repeat split; done.
Qed.

(** The lots that remain after past sells of [s] units: one per buy with a
    positive FIFO residual, in the order of the buys. *)
Lemma open_lots_spec P buys s zs :
  NoDup (map t_id buys) -> Forall (txn_ok P) buys -> volume buys < 10 ^ 22 ->
  repr 4 s zs -> 0 <= zs < 10 ^ 22 ->
  exists ls, open_lots buys s = Ok ls /\
             Forall2 lot_of (open_pairs buys (residuals (map qty buys) zs)) ls.
Proof.
  intros Hnd Hok Hv Hs Hz. unfold open_lots.
  assert (Hb : Forall (fun z => 0 <= z < 10 ^ 22) (map qty buys)).
  { clear -Hok Hv. induction Hok as [|t ts (_ & Ht & _) Hts IH]; simpl; constructor.
    - rewrite volume_cons in Hv. pose proof (volume_nonneg P ts Hts). unfold qty in *. lia.
    - apply IH. rewrite volume_cons in Hv. unfold qty in *. lia. }
  destruct (reduce_open_spec buys (initial_open buys) (map qty buys) s zs)
    as (m & -> & Hm); [done|by eapply initial_open_repr|done|done|lia|].
  rewrite Z.max_r in Hm by lia. apply lots_of_spec, Hm.
Qed.

Lemma lot_of_open_quantity ps ls :
  Forall2 lot_of ps ls -> open_quantity ls = zsum (map (fun p => Z.max 0 p.2) ps).
Proof.
  unfold open_quantity. induction 1 as [|p l ps ls (_ & _ & _ & Hr) _ IH]; [done|].
  unfold zsum in *; simpl. rewrite IH. by rewrite (repr_units _ _ _ Hr).
Qed.

Lemma open_pairs_sum buys zs :
  length zs = length buys -> Forall (fun z => 0 <= z) zs ->
  zsum (map (fun p => Z.max 0 p.2) (open_pairs buys zs)) = zsum zs.
Proof.
  unfold open_pairs, zsum. revert zs; induction buys as [|b bs IH]; intros [|z zs] Hl Hz;
    simpl in *; try done.
  inversion_clear Hz. destruct (0 <? z) eqn:E; zbool; simpl; rewrite IH by (auto || lia); lia.
Qed.

(** The open quantity is what was bought less what was sold. *)
Lemma open_lots_quantity P buys s zs ls :
  NoDup (map t_id buys) -> Forall (txn_ok P) buys -> volume buys < 10 ^ 22 ->
  repr 4 s zs -> 0 <= zs < 10 ^ 22 -> open_lots buys s = Ok ls ->
  open_quantity ls = Z.max 0 (volume buys - zs).
Proof.
  intros Hnd Hok Hv Hs Hz E.
  destruct (open_lots_spec P buys s zs Hnd Hok Hv Hs Hz) as (ls' & E' & Hf).
  rewrite E in E'; inv_res. rewrite (lot_of_open_quantity _ _ Hf).
  assert (Hq : Forall (fun q => 0 <= q) (map qty buys)).
  { apply Forall_map. eapply Forall_impl; [|exact Hok].
    intros t (_ & ? & _); unfold qty; simpl; lia. }
  assert (Hr : Forall (fun z => 0 <= z) (residuals (map qty buys) zs)).
  { pose proof (residuals_bounds _ zs ltac:(lia) Hq) as H.
    clear -H. induction H; constructor; [lia|done]. }
  rewrite open_pairs_sum; [|by rewrite residuals_length, length_map|done].
  rewrite residuals_sum by (done || lia). done.
Qed.

Lemma open_lots_ok P buys s zs ls :
  NoDup (map t_id buys) -> Forall (txn_ok P) buys -> volume buys < 10 ^ 22 ->
  repr 4 s zs -> 0 <= zs < 10 ^ 22 -> open_lots buys s = Ok ls -> Forall (lot_ok P) ls.
Proof.
  intros Hnd Hok Hv Hs Hz E.
  destruct (open_lots_spec P buys s zs Hnd Hok Hv Hs Hz) as (ls' & E' & Hf).
  rewrite E in E'; inv_res. apply Forall_forall. intros l Hl%list_elem_of_In.
  apply list_elem_of_lookup in Hl as [i Hi].
  apply (Forall2_lookup_r _ _ _ _ _ Hf) in Hi as ([t z] & Hp & (_ & _ & Hpr & Hr)).
  simpl in *. apply list_elem_of_lookup_2, list_elem_of_In in Hp.
  unfold open_pairs in Hp. apply filter_In in Hp as [Hp _]. apply in_combine_l in Hp.
  rewrite Forall_forall in Hok. destruct (Hok t Hp) as (_ & _ & Hprice).
  split; [by eapply repr_on_grid|]. by rewrite Hpr.
Qed.

Lemma NoDup_map_filter {A B} (f : A -> B) (g : A -> bool) l :
  NoDup (map f l) -> NoDup (map f (List.filter g l)).
Proof.
  induction l as [|x xs IH]; simpl; [done|].
  intros [Hx Hxs]%list.NoDup_cons. destruct (g x); simpl; [|auto].
  apply list.NoDup_cons. split; [|auto]. intros Hin. apply Hx.
  apply list_elem_of_In, in_map_iff in Hin as (y & <- & Hy).
  apply filter_In in Hy as [Hy _]. apply list_elem_of_In. by apply in_map.
Qed.

Lemma Forall_list_filter {A} (P : A -> Prop) (g : A -> bool) l :
  Forall P l -> Forall P (List.filter g l).
Proof. induction 1; simpl; [done|]. destruct (g x); auto. Qed.

Lemma volume_filter P g ts : Forall (txn_ok P) ts -> volume (List.filter g ts) <= volume ts.
Proof.
  induction 1 as [|t ts (_ & Ht & _) _ IH]; simpl; [done|].
  fold (qty t) in Ht. destruct (g t); rewrite ?volume_cons; lia.
Qed.

Lemma select_ok P db pid symbol f :
  NoDup (map t_id (transactions db)) -> Forall (txn_ok P) (transactions db) ->
  NoDup (map t_id (select_txns db pid symbol f)) /\
  Forall (txn_ok P) (select_txns db pid symbol f) /\
  0 <= volume (select_txns db pid symbol f) <= volume (transactions db).
Proof.
  intros Hnd Hok. unfold select_txns. set (g := fun t => _).
  assert (Hf : Forall (txn_ok P) (List.filter g (transactions db))) by (by apply Forall_list_filter).
  split; [|split].
  - eapply (NoDup_Permutation_proper (A := string)); [|by apply (NoDup_map_filter t_id g)].
    apply Permutation_map, sort_by_perm.
  - by apply Forall_sort_by.
  - rewrite (volume_perm _ _ (sort_by_perm txn_le _)).
    split; [by eapply volume_nonneg|by eapply volume_filter].
Qed.

Lemma dsum_volume P ts :
  Forall (txn_ok P) ts -> volume ts < 10 ^ 22 -> repr 4 (dsum (map t_quantity ts)) (volume ts).
Proof.
  intros Hok Hv. apply dsum_repr.
  - clear Hv. induction Hok as [|t ts [Hg _] _ IH]; simpl; constructor; done.
  - replace (zsum (map Z.abs (map qty ts))) with (volume ts); [unfold exact_bound, prec; lia|].
    clear Hv. unfold volume, zsum. induction Hok as [|t ts (_ & Ht & _) _ IH]; simpl; [done|].
    fold (qty t) in Ht. lia.
Qed.

(** ** Dictionaries of decimal totals

    [d[k] = d.get(k, Decimal("0")) + v], keys in insertion order. *)

Fixpoint dict_add (k : string) (v : dec) (d : list (string * dec)) : list (string * dec) :=
  match d with
  | [] => [(k, (dzero + v)%dec)]
  | (k', v') :: rest =>
      if String.eqb k' k then (k', (v' + v)%dec) :: rest else (k', v') :: dict_add k v rest
  end.

Lemma dict_add_keys k v d x : x ∈ map fst (dict_add k v d) <-> x = k \/ x ∈ map fst d.
Proof.
  induction d as [|[k' v'] d IH]; simpl; [rewrite list_elem_of_singleton, elem_of_nil; tauto|].
  destruct (String.eqb_spec k' k); simpl; rewrite !elem_of_cons; [subst; tauto|].
  rewrite IH. tauto.
Qed.

Lemma dict_add_NoDup k v d : NoDup (map fst d) -> NoDup (map fst (dict_add k v d)).
Proof.
  induction d as [|[k' v'] d IH]; simpl; [intros; apply NoDup_singleton|].
  intros [Hk Hd]%list.NoDup_cons. destruct (String.eqb_spec k' k); simpl;
    apply list.NoDup_cons; [done|]. split; [|auto]. rewrite dict_add_keys. intros [?|?]; auto.
Qed.

(** Adding [z] units under [k] to a dict whose entries are [f]. *)
Lemma dict_add_repr sc k v z d (f : string -> Z) :
  NoDup (map fst d) -> Forall (fun p => repr sc p.2 (f p.1)) d -> repr sc v z ->
  (forall s, Z.abs (f s) + Z.abs z < 10 ^ 27) -> (k ∉ map fst d -> f k = 0) ->
  Forall (fun p => repr sc p.2 (if String.eqb p.1 k then f p.1 + z else f p.1)) (dict_add k v d).
Proof.
  intros Hnd Hd Hv Hb Hk.
  induction Hd as [|[k' v'] d Hp Hd IH]; simpl in *.
  - constructor; [|constructor]. simpl. rewrite String.eqb_refl, Hk by apply not_elem_of_nil.
    apply dadd_repr; [apply repr_zero|done|]. specialize (Hb k). unfold exact_bound, prec. lia.
  - apply list.NoDup_cons in Hnd as [Hk' Hnd].
    destruct (String.eqb_spec k' k) as [->|Hne].
    + constructor; simpl.
      * rewrite String.eqb_refl. apply dadd_repr; [done..|].
        specialize (Hb k). unfold exact_bound, prec. lia.
      * apply list.Forall_forall. intros [s w] Hs. rewrite list.Forall_forall in Hd.
        specialize (Hd _ Hs). simpl in *. destruct (String.eqb_spec s k) as [->|]; [|done].
        exfalso. apply Hk'. apply (list_elem_of_fmap_2 fst) in Hs. done.
    + constructor; simpl.
      * destruct (String.eqb_spec k' k); [done|done].
      * apply IH; [done|]. intros Hn. apply Hk. rewrite elem_of_cons. intros [->|?]; auto.
Qed.

(** The total of a key over a list of keyed integers. *)
Definition key_total (s : string) (l : list (string * Z)) : Z :=
  zsum (map (fun p => if String.eqb p.1 s then p.2 else 0) l).

Lemma key_total_abs s l : Z.abs (key_total s l) <= zsum (map (fun p => Z.abs p.2) l).
Proof. unfold key_total, zsum. induction l as [|p l IH]; simpl; [lia|]. case_match; lia. Qed.

Lemma key_total_snoc s l p :
  key_total s (l ++ [p]) = key_total s l + (if String.eqb p.1 s then p.2 else 0).
Proof. unfold key_total. rewrite map_app, zsum_app. unfold zsum at 2. simpl. lia. Qed.

Lemma key_total_absent s l : s ∉ map fst l -> key_total s l = 0.
Proof.
  unfold key_total, zsum. induction l as [|p l IH]; simpl; [done|].
  rewrite elem_of_cons. intros H. destruct (String.eqb_spec p.1 s) as [<-|]; [tauto|].
  rewrite IH by tauto. lia.
Qed.

(** A grouping loop leaves one entry per key, with the key's total. *)
Lemma dict_fold_spec sc (items : list (string * dec)) (zs : list (string * Z)) :
  Forall2 (fun i z => i.1 = z.1 /\ repr sc i.2 z.2) items zs ->
  zsum (map (fun p => Z.abs p.2) zs) < 10 ^ 26 ->
  let d := fold_left (fun d i => dict_add i.1 i.2 d) items [] in
  NoDup (map fst d) /\ (forall s, s ∈ map fst d <-> s ∈ map fst items) /\
  Forall (fun p => repr sc p.2 (key_total p.1 zs)) d.
Proof.
  intros H Hb d. subst d. revert zs H Hb.
  induction items as [|i items IH] using rev_ind; intros zs H Hb.
  { inversion H; subst. simpl. split; [apply NoDup_nil_2|]. split; [done|constructor]. }
  apply Forall2_app_inv_l in H as (zs1 & zs2 & H1 & H2 & ->).
  inversion H2 as [|? z ? ? [Hk Hz] H3]; subst. inversion H3; subst. clear H2 H3.
  rewrite map_app, zsum_app in Hb. unfold zsum at 2 in Hb. simpl in Hb.
  destruct (IH zs1 H1 ltac:(lia)) as (Hnd & Hkeys & Hd).
  rewrite fold_left_app, map_app. simpl. set (d := fold_left _ items []) in *.
  split; [by apply dict_add_NoDup|]. split.
  - intros s. rewrite dict_add_keys, Hkeys, elem_of_app, list_elem_of_singleton. tauto.
  - eapply list.Forall_impl; [apply (dict_add_repr sc i.1 i.2 z.2 d (fun s => key_total s zs1))|];
      [done..| | |].
    + intros s. pose proof (key_total_abs s zs1). lia.
    + rewrite Hkeys. intros Hn. apply key_total_absent. intros Hin. apply Hn.
      clear -H1 Hin. induction H1 as [|a b l l' [E _] _ IHl]; simpl in *; [done|].
      rewrite elem_of_cons in *. rewrite E. destruct Hin; auto.
    + intros [s w]; simpl. rewrite key_total_snoc, <- Hk, (String.eqb_sym i.1).
      destruct (String.eqb s i.1); [done|]. by rewrite Z.add_0_r.
Qed.

(** ** Queries by a key column *)

Lemma existsb_filter {A} (f : A -> bool) l : existsb f l = false <-> List.filter f l = [].
Proof.
  induction l as [|x xs IH]; cbn; [done|]. destruct (f x); cbn; [split; discriminate|exact IH].
Qed.

Lemma scalar_one_some {A} (l : list A) x : scalar_one_or_none l = Ok (Some x) -> l = [x].
Proof. destruct l as [|y [|z l]]; cbn; congruence. Qed.

Lemma filter_one_elem {A} (f : A -> bool) l x : List.filter f l = [x] -> x ∈ l /\ f x = true.
Proof.
  intros E. assert (Hin : In x (List.filter f l)) by (rewrite E; by left).
  apply filter_In in Hin as [Hin Hf]. split; [by apply list_elem_of_In|done].
Qed.

Lemma nodup_id_inj {A K} (f : A -> K) l x y :
  NoDup (map f l) -> x ∈ l -> y ∈ l -> f x = f y -> x = y.
Proof.
  induction l as [|z zs IH]; cbn [map]; intros Hnd Hx Hy E; [by apply not_elem_of_nil in Hx|].
  apply list.NoDup_cons in Hnd as [Hz Hnd].
  apply elem_of_cons in Hx as [->|Hx], Hy as [->|Hy]; [done| | |by apply IH].
  - destruct Hz. rewrite E. by apply list_elem_of_fmap_2.
  - destruct Hz. rewrite <- E. by apply list_elem_of_fmap_2.
Qed.

Lemma filter_unique {A} (f : A -> string) l x :
  NoDup (map f l) -> x ∈ l -> List.filter (fun y => String.eqb (f y) (f x)) l = [x].
Proof.
  induction l as [|y ys IH]; cbn [map List.filter]; intros Hnd Hx; [by apply not_elem_of_nil in Hx|].
  apply list.NoDup_cons in Hnd as [Hy Hnd].
  apply elem_of_cons in Hx as [->|Hx].
  - rewrite String.eqb_refl. f_equal. apply existsb_filter. apply not_true_iff_false. intros E.
    apply existsb_exists in E as (z & Hz & E%String.eqb_eq). apply Hy. rewrite <- E.
    apply list_elem_of_fmap_2. by apply list_elem_of_In.
  - destruct (String.eqb_spec (f y) (f x)) as [E|]; [|by apply IH].
    destruct Hy. rewrite E. by apply list_elem_of_fmap_2.
Qed.

Lemma filter_and {A} (f g : A -> bool) l :
  List.filter (fun x => (f x && g x)%bool) l = List.filter g (List.filter f l).
Proof.
  induction l as [|x xs IH]; cbn [List.filter]; [done|]. destruct (f x); cbn [andb List.filter]; rewrite IH; done.
Qed.

Lemma scalar_one_none {A} (l : list A) : scalar_one_or_none l = Ok None -> l = [].
Proof. destruct l as [|y [|z l]]; cbn; congruence. Qed.

Lemma filter_nil_iff {A} (f : A -> bool) l : List.filter f l = [] <-> forall x, x ∈ l -> f x = false.
Proof.
  rewrite <- existsb_filter. rewrite <- not_true_iff_false, existsb_exists. split.
  - intros Hn x Hx. apply not_true_iff_false. intros Hf. apply Hn. exists x. split; [by apply list_elem_of_In|done].
  - intros Hn (x & Hx & Hf). rewrite (Hn x) in Hf by (by apply list_elem_of_In). discriminate Hf.
Qed.

(** A key that is unique in the table selects one row or none. *)
Lemma scalar_by_key {A} (f : A -> string) l k :
  NoDup (map f l) ->
  (exists x, x ∈ l /\ f x = k /\ scalar_one_or_none (List.filter (fun y => String.eqb (f y) k) l) = Ok (Some x))
  \/ ((forall x, x ∈ l -> f x <> k) /\ scalar_one_or_none (List.filter (fun y => String.eqb (f y) k) l) = Ok None).
Proof.
  intros Hnd. destruct (List.filter (fun y => String.eqb (f y) k) l) as [|x xs] eqn:E.
  - right. split; [|done]. intros x Hx Hk. rewrite filter_nil_iff in E. specialize (E x Hx).
    by rewrite Hk, String.eqb_refl in E.
  - left. assert (Hin : x ∈ l /\ String.eqb (f x) k = true)
      by (apply (elem_of_lfilter (fun y => String.eqb (f y) k)); rewrite E; by constructor).
    destruct Hin as [Hin Hk%String.eqb_eq]. exists x. split; [done|]. split; [done|].
    rewrite <- E, <- Hk. by rewrite (filter_unique f l x).
Qed.

Lemma scalar_key_some {A} (f : A -> string) l k x :
  scalar_one_or_none (List.filter (fun y => String.eqb (f y) k) l) = Ok (Some x) -> x ∈ l /\ f x = k.
Proof. intros [Hin Hk%String.eqb_eq]%scalar_one_some%filter_one_elem. done. Qed.

(** ** UPDATE of the row with a primary key *)

Section put_row.
Context {A : Type} (key : A -> string).

Definition put_row (x : A) (l : list A) : list A :=
  map (fun y => if String.eqb (key y) (key x) then x else y) l.

Lemma put_row_keys x l : map key (put_row x l) = map key l.
Proof.
  unfold put_row. induction l as [|y ys IH]; cbn [map]; [done|].
  destruct (String.eqb_spec (key y) (key x)); f_equal; congruence.
Qed.

(** A column the new row did not change. *)
Lemma put_row_column {B} (f : A -> B) x x0 l :
  NoDup (map key l) -> x0 ∈ l -> key x = key x0 -> f x = f x0 -> map f (put_row x l) = map f l.
Proof.
  intros Hnd Hin Hk Hf. unfold put_row. rewrite map_map. apply map_ext_in. intros y Hy%list_elem_of_In.
  destruct (String.eqb_spec (key y) (key x)) as [E|]; [|done].
  rewrite Hf. f_equal. symmetry. eapply nodup_id_inj; [done..|congruence].
Qed.

Lemma elem_of_put_row x l y :
  y ∈ put_row x l -> (y = x /\ key x ∈ map key l) \/ (y ∈ l /\ key y <> key x).
Proof.
  unfold put_row. rewrite list_elem_of_In, in_map_iff. intros (z & E & Hin%list_elem_of_In).
  destruct (String.eqb_spec (key z) (key x)) as [Ez|Ez]; subst.
  - left. split; [done|]. rewrite <- Ez. by apply list_elem_of_fmap_2.
  - by right.
Qed.

Lemma elem_of_put_row_same x l : key x ∈ map key l -> x ∈ put_row x l.
Proof.
  unfold put_row. rewrite !list_elem_of_In, !in_map_iff. intros (y & E & Hin).
  exists y. by rewrite E, String.eqb_refl.
Qed.

Lemma elem_of_put_row_other x l y : y ∈ l -> key y <> key x -> y ∈ put_row x l.
Proof.
  unfold put_row. rewrite !list_elem_of_In, in_map_iff. intros Hin Hne.
  exists y. by rewrite (proj2 (String.eqb_neq _ _) Hne).
Qed.

(** A condition that holds of the old and the new row alike. *)
Lemma filter_put_row (f : A -> bool) x x0 l :
  NoDup (map key l) -> x0 ∈ l -> key x = key x0 -> f x = f x0 ->
  List.filter f (put_row x l) = put_row x (List.filter f l).
Proof.
  intros Hnd Hi Hk Hf. unfold put_row.
  assert (Hall : forall y, In y l -> f (if String.eqb (key y) (key x) then x else y) = f y).
  { intros y Hy. destruct (String.eqb_spec (key y) (key x)) as [E|]; [|done].
    rewrite Hf. f_equal. eapply nodup_id_inj; [done|done|by apply list_elem_of_In|congruence]. }
  clear Hnd Hi. induction l as [|y ys IH]; cbn [map List.filter]; [done|].
  rewrite (Hall y) by (by left). rewrite IH by (intros; apply Hall; by right).
  by destruct (f y).
Qed.

(** The new row is found by its key, the others as before. *)
Lemma find_put_row x l k :
  NoDup (map key l) -> key x ∈ map key l ->
  scalar_one_or_none (List.filter (fun y => String.eqb (key y) k) (put_row x l))
  = if String.eqb (key x) k then Ok (Some x)
    else scalar_one_or_none (List.filter (fun y => String.eqb (key y) k) l).
Proof.
  intros Hnd Hin. destruct (String.eqb_spec (key x) k) as [<-|Hne].
  - rewrite (filter_unique key _ x); [done|by rewrite put_row_keys|by apply elem_of_put_row_same].
  - f_equal. unfold put_row. clear Hnd Hin. induction l as [|y ys IH]; cbn [map List.filter]; [done|].
    rewrite IH. destruct (String.eqb_spec (key y) (key x)) as [E|]; [|done].
    rewrite E. by rewrite (proj2 (String.eqb_neq _ _) Hne).
Qed.
End put_row.

Lemma NoDup_lfilter {A} (f : A -> bool) l : NoDup l -> NoDup (List.filter f l).
Proof. rewrite <- (map_id l) at 1. intros H. rewrite <- (map_id (List.filter f l)). by apply NoDup_map_filter. Qed.

(** Changing a row is removing it and adding it changed. *)
Lemma put_row_perm {A} (key : A -> string) p p0 l :
  NoDup (map key l) -> p0 ∈ l -> key p0 = key p ->
  put_row key p l ≡ₚ p :: List.filter (fun q => negb (String.eqb (key q) (key p))) l.
Proof.
  induction l as [|q qs IH]; cbn [map]; intros Hnd Hin Hid; [by apply not_elem_of_nil in Hin|].
  apply list.NoDup_cons in Hnd as [Hq Hnd]. unfold put_row in *. cbn [map List.filter].
  destruct (String.eqb_spec (key q) (key p)) as [E|E]; cbn [negb].
  - constructor. rewrite lfilter_all.
    + rewrite <- (map_id qs) at 2. erewrite map_ext_in; [done|]. intros r Hr. cbn.
      destruct (String.eqb_spec (key r) (key p)) as [Er|]; [|done].
      exfalso. apply Hq. rewrite E, <- Er. apply list_elem_of_fmap_2. by apply list_elem_of_In.
    + intros r Hr. apply negb_true_iff, String.eqb_neq. intros Er. apply Hq. rewrite E, <- Er.
      by apply list_elem_of_fmap_2.
  - apply elem_of_cons in Hin as [->|Hin]; [done|]. rewrite IH by done. constructor.
Qed.
