(* ===== verification/Transactions.v ===== *)
(** * Transactions: [psx_api/services/transaction_service.py]

    [preview] computes the charges and the FIFO tax of a trade, [create] saves
    it and recomputes the holdings row of its symbol by walking the full
    history ([walk_step], [sell_loop]).  The database is the state; [create]
    returns the new one, and an exception leaves the old one (the request's
    transaction is rolled back).  The row's id and timestamp, which the server
    generates, are arguments.

    A warning of the preview is kept as the exception whose text it is. *)

From S2P Require Import Prelude Decimal Cgt Ledger.

Record TransactionCreate := mkBody {
  b_symbol : string;
  b_type : TransactionType;
  b_date : Z;
  b_quantity : dec;
  b_price : dec;
  b_brokerage : dec;
  b_fed : dec;
  b_cvt : dec;
  b_notes : option string;
}.

Record MatchedLotPreview := mkLotPreview {
  lp_transaction_id : string;
  lp_buy_date : Z;
  lp_quantity : dec;
  lp_buy_price : dec;
  lp_holding_period_days : Z;
  lp_gross_gain : dec;
  lp_cgt_rate_pct : dec;
  lp_cgt : dec;
}.

Record TransactionPreview := mkPreview {
  pv_type : TransactionType;
  pv_symbol : string;
  pv_quantity : dec;
  pv_price : dec;
  pv_gross : dec;
  pv_brokerage : dec;
  pv_fed : dec;
  pv_cvt : dec;
  pv_cgt : dec;
  pv_total_charges : dec;
  pv_net_cash_impact : dec;
  pv_matched_lots : list MatchedLotPreview;
  pv_warnings : list exn;
}.

(** [value.quantize(_TWO_PLACES)]: the context's ROUND_HALF_EVEN. *)
Definition two_places (d : dec) : res dec := dquantize ROUND_HALF_EVEN 2 d.

(** ** Listing *)

Definition list_for_portfolio (db : database) (pid : string) (limit : nat) : list Transaction :=
  take limit
    (sort_by (fun a b => ((t_date b <? t_date a)
                          || ((t_date a =? t_date b) && (t_created_at b <=? t_created_at a)))%bool)
       (List.filter (fun t => String.eqb (t_portfolio_id t) pid) (transactions db))).

(** ** Preview *)

Definition _validate_symbol (db : database) (symbol : string) : res unit :=
  let! row := scalar_one_or_none
                (List.filter (fun s => String.eqb (s_symbol s) symbol) (securities db)) in
  match row with
  | None => Exn (ServiceError 404)
  | Some _ => Ok tt
  end.

Definition lot_preview (m : MatchedLot) : MatchedLotPreview :=
  mkLotPreview (m_transaction_id m) (m_buy_date m) (m_quantity m) (m_buy_price m)
    (m_holding_period_days m) (m_gross_gain_pkr m) (m_cgt_rate_pct m) (m_cgt_pkr m).

Definition _compute_sell_cgt (db : database) (pid : string) (body : TransactionCreate)
    (user_is_filer : bool) : res (dec * list MatchedLotPreview) :=
  let buys := select_txns db pid (b_symbol body) is_acquisition in
  let prior_sells := select_txns db pid (b_symbol body) is_sell in
  let sell_remaining := dsum (map t_quantity prior_sells) in
  let! lots := open_lots buys sell_remaining in
  let! result := match_fifo (b_price body) (b_date body) user_is_filer (load_cgt_brackets db)
                   lots (b_quantity body) in
  Ok (total_cgt_pkr result, map lot_preview (matched result)).

(** The [try]/[except] around [_compute_sell_cgt]. *)
Definition sell_cgt_or_warning (r : res (dec * list MatchedLotPreview))
    : res (dec * list MatchedLotPreview * list exn) :=
  match r with
  | Ok (cgt, lots) => Ok (cgt, lots, [])
  | Exn InsufficientLotsError => Ok (dzero, [], [InsufficientLotsError])
  | Exn NoApplicableTaxRuleError => Ok (dzero, [], [NoApplicableTaxRuleError])
  | Exn e => Exn e
  end.

Definition net_cash_impact (body : TransactionCreate) (gross cgt : dec) : dec :=
  match b_type body with
  | BUY => dneg (gross + b_brokerage body + b_fed body + b_cvt body)%dec
  | SELL => (gross - b_brokerage body - b_fed body - b_cvt body - cgt)%dec
  | DIVIDEND => (gross - b_brokerage body - b_fed body - b_cvt body)%dec
  | BONUS | RIGHTS => dneg (b_brokerage body + b_fed body + b_cvt body)%dec
  end.

(** The tail of [preview]: charges, net cash and the response. *)
Definition preview_result (body : TransactionCreate) (gross cgt : dec)
    (matched_lots : list MatchedLotPreview) (warnings : list exn) : res TransactionPreview :=
  let! total_charges := two_places (b_brokerage body + b_fed body + b_cvt body + cgt)%dec in
  let! net := two_places (net_cash_impact body gross cgt) in
  Ok (mkPreview (b_type body) (b_symbol body) (b_quantity body) (b_price body) gross
        (b_brokerage body) (b_fed body) (b_cvt body) cgt total_charges net
        matched_lots warnings).

Definition preview (db : database) (pid : string) (body : TransactionCreate)
    (user_is_filer : bool) : res TransactionPreview :=
  let! _ := _validate_symbol db (b_symbol body) in
  let! gross := two_places (b_quantity body * b_price body)%dec in
  let! (cgt, matched_lots, warnings) :=
    match b_type body with
    | SELL => sell_cgt_or_warning (_compute_sell_cgt db pid body user_is_filer)
    | _ => Ok (dzero, [], [])
    end in
  preview_result body gross cgt matched_lots warnings.

(** ** The holdings snapshot *)

(** State of the walk: lots are [[qty, price]] pairs, oldest first. *)
Record walk_state := mkWalk {
  w_lots : list (dec * dec);
  w_realized : dec;
  w_dividends : dec;
  w_invested : dec;
}.

(** [while remaining > 0 and lots: ...]; [None] would be running out of fuel. *)
Fixpoint sell_loop (fuel : nat) (lots : list (dec * dec)) (realized remaining price : dec)
    : option (list (dec * dec) * dec) :=
  match fuel with
  | O => None
  | S f =>
      match lots with
      | [] => Some ([], realized)
      | (q, p) :: rest =>
          if (dzero <? remaining)%dec then
            let take := dmin q remaining in
            let realized' := (realized + (price - p) * take)%dec in
            let q' := (q - take)%dec in
            let remaining' := (remaining - take)%dec in
            sell_loop f (if (q' =? dzero)%dec then rest else (q', p) :: rest)
              realized' remaining' price
          else Some (lots, realized)
      end
  end.

(** The body of [for t in txns]. *)
Definition walk_step (w : walk_state) (t : Transaction) : option walk_state :=
  match t_type t with
  | BUY | BONUS | RIGHTS =>
      Some (mkWalk (w_lots w ++ [(t_quantity t, t_price t)]) (w_realized w) (w_dividends w)
              (w_invested w + t_quantity t * t_price t)%dec)
  | SELL =>
      match sell_loop (S (S (length (w_lots w)))) (w_lots w) (w_realized w) (t_quantity t)
              (t_price t) with
      | Some (lots, realized) => Some (mkWalk lots realized (w_dividends w) (w_invested w))
      | None => None
      end
  | DIVIDEND =>
      Some (mkWalk (w_lots w) (w_realized w) (w_dividends w + t_quantity t * t_price t)%dec
              (w_invested w))
  end.

Fixpoint walk (w : walk_state) (txns : list Transaction) : option walk_state :=
  match txns with
  | [] => Some w
  | t :: rest => match walk_step w t with Some w' => walk w' rest | None => None end
  end.

Definition walk_init : walk_state := mkWalk [] dzero dzero dzero.

(** The four stored columns, or [None] when the row is to be removed. *)
Definition snapshot_row (pid symbol : string) (w : walk_state) : res (option HoldingsSnapshot) :=
  let open_qty := dsum (map fst (w_lots w)) in
  let weighted_cost := dsum (map (fun l => (l.1 * l.2)%dec) (w_lots w)) in
  let! avg_cost := if (dzero <? open_qty)%dec then ddiv weighted_cost open_qty else Ok dzero in
  if ((open_qty =? dzero)%dec && (w_dividends w =? dzero)%dec && (w_realized w =? dzero)%dec)%bool
  then Ok None
  else
    let! avg := dquantize ROUND_HALF_EVEN 4 avg_cost in
    let! inv := two_places (w_invested w) in
    let! pnl := two_places (w_realized w) in
    let! div := two_places (w_dividends w) in
    Ok (Some (mkHolding pid symbol open_qty avg inv pnl div)).

Definition holding_key (pid symbol : string) (h : HoldingsSnapshot) : bool :=
  (String.eqb (h_portfolio_id h) pid && String.eqb (h_symbol h) symbol)%bool.

(** Delete, update in place or append the row of [(pid, symbol)]. *)
Definition store_holding (pid symbol : string) (row : option HoldingsSnapshot)
    (hs : list HoldingsSnapshot) : res (list HoldingsSnapshot) :=
  let! existing := scalar_one_or_none (List.filter (holding_key pid symbol) hs) in
  Ok (match row, existing with
      | None, Some _ => List.filter (fun h => negb (holding_key pid symbol h)) hs
      | None, None => hs
      | Some r, None => hs ++ [r]
      | Some r, Some _ => map (fun h => if holding_key pid symbol h then r else h) hs
      end).

Definition with_holdings (db : database) (hs : list HoldingsSnapshot) : database :=
  mkDb (portfolios db) (transactions db) hs (securities db) (tax_rules db) (ohlcv db).
Definition with_transactions (db : database) (ts : list Transaction) : database :=
  mkDb (portfolios db) ts (holdings db) (securities db) (tax_rules db) (ohlcv db).

(** [None] is a loop that did not end; [walk_total] shows it cannot occur. *)
Definition _refresh_holdings_snapshot (db : database) (pid symbol : string)
    : option (res database) :=
  match walk walk_init (select_txns db pid symbol (fun _ => true)) with
  | None => None
  | Some w =>
      Some (let! row := snapshot_row pid symbol w in
            let! hs := store_holding pid symbol row (holdings db) in
            Ok (with_holdings db hs))
  end.

(** ** Create *)

Definition new_transaction (pid : string) (body : TransactionCreate) (cgt : dec)
    (new_id : string) (now : Z) : Transaction :=
  mkTransaction new_id pid (b_symbol body) (b_type body) (b_date body) (b_quantity body)
    (b_price body) (b_brokerage body) (b_fed body) (b_cvt body) cgt (b_notes body) now.

Definition create (db : database) (pid : string) (body : TransactionCreate)
    (user_is_filer : bool) (new_id : string) (now : Z)
    : option (res (database * Transaction * TransactionPreview)) :=
  match preview db pid body user_is_filer with
  | Exn e => Some (Exn e)
  | Ok pv =>
      match pv_warnings pv with
      | _ :: _ => Some (Exn (ServiceError 400))
      | [] =>
          let txn := new_transaction pid body (pv_cgt pv) new_id now in
          let db1 := with_transactions db (transactions db ++ [txn]) in
          match _refresh_holdings_snapshot db1 pid (b_symbol body) with
          | None => None
          | Some (Exn e) => Some (Exn e)
          | Some (Ok db2) => Some (Ok (db2, txn, pv))
          end
      end
  end.

(** ** The loops end *)

Lemma dsub_self d : repr 0 (d - d)%dec 0.
Proof.
  apply dfix_repr; [|done]. unfold repr. cbn [coef expo dopp].
  rewrite Z.min_id, Z.sub_diag. replace (coef d * 10 ^ 0 + - coef d * 10 ^ 0) with 0 by ring. done.
Qed.

Lemma dsub_self_zero d : (d - d =? dzero)%dec = true /\ (dzero <? d - d)%dec = false.
Proof.
  pose proof (dsub_self d) as H. split.
  - by rewrite (deqb_repr 0 _ _ 0 0 H (repr_zero 0)).
  - by rewrite (dltb_repr 0 _ _ 0 0 (repr_zero 0) H).
Qed.

Lemma sell_loop_total fuel lots realized remaining price :
  (length lots + 2 <= fuel)%nat -> sell_loop fuel lots realized remaining price <> None.
Proof.
  revert lots realized remaining; induction fuel as [|f IH]; intros lots g rem Hf; [lia|].
  destruct lots as [|[q p] rest]; simpl in *; [done|].
  destruct (dzero <? rem)%dec; [|done].
  unfold dmin. destruct (rem <? q)%dec.
  - destruct (q - rem =? dzero)%dec; [apply IH; lia|].
    destruct f as [|f']; [lia|]. simpl. by rewrite (proj2 (dsub_self_zero rem)).
  - rewrite (proj1 (dsub_self_zero q)). apply IH. lia.
Qed.

Lemma walk_total txns w : walk w txns <> None.
Proof.
  revert w; induction txns as [|t ts IH]; intros w; simpl; [done|].
  unfold walk_step. destruct (t_type t); try apply IH.
  destruct (sell_loop _ _ _ _ _) as [[l g]|] eqn:E; [apply IH|].
  apply sell_loop_total in E; [done|lia].
Qed.

Lemma create_total db pid body filer new_id now : create db pid body filer new_id now <> None.
Proof.
  unfold create. destruct (preview _ _ _ _) as [pv|e]; [|done].
  destruct (pv_warnings pv); [|done]. unfold _refresh_holdings_snapshot.
  destruct (walk _ _) as [w|] eqn:E; [|by apply walk_total in E].
  by destruct (snapshot_row _ _ _) as [row|]; [destruct (store_holding _ _ _ _)|].
Qed.

(** ** The walk over integers

    [zstate] is the same walk on integers: quantities and prices of 10^-4,
    amounts of 10^-8; [z_proceeds] accumulates what the matched shares of the
    sells were sold for. *)

Record zstate := mkZ {
  z_lots : list (Z * Z);
  z_realized : Z;
  z_dividends : Z;
  z_invested : Z;
  z_proceeds : Z;
}.

(** Lots left and gain after selling [rem]. *)
Fixpoint zsell (lots : list (Z * Z)) (rem price : Z) : list (Z * Z) * Z :=
  match lots with
  | [] => ([], 0)
  | (q, p) :: rest =>
      if 0 <? rem then
        let take := Z.min q rem in
        if q - take =? 0 then
          let '(l, g) := zsell rest (rem - take) price in (l, (price - p) * take + g)
        else ((q - take, p) :: rest, (price - p) * take)
      else (lots, 0)
  end.

Definition zlots_qty (lots : list (Z * Z)) : Z := zsum (map fst lots).
Definition zlots_cost (lots : list (Z * Z)) : Z := zsum (map (fun l => l.1 * l.2) lots).
Definition prc (t : Transaction) : Z := units 4 (t_price t).

Definition zstep (z : zstate) (t : Transaction) : zstate :=
  match t_type t with
  | BUY | BONUS | RIGHTS =>
      mkZ (z_lots z ++ [(qty t, prc t)]) (z_realized z) (z_dividends z)
        (z_invested z + qty t * prc t) (z_proceeds z)
  | SELL =>
      let '(l, g) := zsell (z_lots z) (qty t) (prc t) in
      mkZ l (z_realized z + g) (z_dividends z) (z_invested z)
        (z_proceeds z + prc t * Z.min (qty t) (zlots_qty (z_lots z)))
  | DIVIDEND =>
      mkZ (z_lots z) (z_realized z) (z_dividends z + qty t * prc t) (z_invested z) (z_proceeds z)
  end.

Definition zinit : zstate := mkZ [] 0 0 0 0.
Definition zwalk (z : zstate) (ts : list Transaction) : zstate := fold_left zstep ts z.

(** Lots have positive quantities and prices in [0, P]. *)
Definition zlots_ok (P : Z) (lots : list (Z * Z)) : Prop :=
  Forall (fun l => 0 < l.1 /\ 0 <= l.2 <= P) lots.

Lemma zlots_qty_nonneg P lots : zlots_ok P lots -> 0 <= zlots_qty lots.
Proof.
  intros H. apply zsum_nonneg, Forall_map. eapply Forall_impl; [|exact H]. simpl; lia.
Qed.

Lemma zlots_cost_bound P lots : zlots_ok P lots -> 0 <= zlots_cost lots <= P * zlots_qty lots.
Proof. unfold zlots_cost, zlots_qty, zsum. induction 1 as [|[q p] ls H _ IH]; simpl in *; nia. Qed.

(** A sale: quantities, cost basis and gain. *)
Lemma zsell_spec P lots rem price :
  zlots_ok P lots -> 0 <= rem -> 0 <= price <= P ->
  let '(l, g) := zsell lots rem price in
  let sold := Z.min rem (zlots_qty lots) in
  zlots_ok P l /\ zlots_qty l = zlots_qty lots - sold /\
  g = price * sold - (zlots_cost lots - zlots_cost l) /\ Z.abs g <= P * sold.
Proof.
  intros H. revert rem; induction H as [|[q p] ls Hqp Hls IH]; intros rem Hr Hp.
  { unfold zlots_qty, zlots_cost, zsum. cbn [zsell map fold_right].
    rewrite Z.min_r by lia. repeat split; [constructor|lia..]. }
  cbn [zsell]. pose proof (zlots_qty_nonneg P ls Hls) as Hnn.
  simpl in Hqp. unfold zlots_qty, zlots_cost, zsum in *. cbn [map fold_right fst snd] in *.
  destruct (0 <? rem) eqn:E; zbool.
  2: { assert (rem = 0) as -> by lia. rewrite Z.min_l by lia. split; [by constructor|]. cbn [map fold_right fst snd]. lia. }
  destruct (q - Z.min q rem =? 0) eqn:E2; zbool.
  - specialize (IH (rem - q) ltac:(lia) Hp). replace (Z.min q rem) with q by lia.
    destruct (zsell ls (rem - q) price) as [l g]. destruct IH as (H1 & H2 & H3 & H4).
    set (S := fold_right Z.add 0 (map fst ls)) in *.
    replace (Z.min rem (q + S)) with (q + Z.min (rem - q) S) by lia.
    split; [done|]. split; [lia|]. split; [rewrite H3; ring|].
    assert (Z.abs ((price - p) * q) <= P * q) by nia. lia.
  - replace (Z.min q rem) with rem by lia.
    set (S := fold_right Z.add 0 (map fst ls)) in *.
    replace (Z.min rem (q + S)) with rem by lia. cbn [map fold_right fst snd]. fold S.
    split; [constructor; [simpl; lia|done]|]. split; [lia|]. split; [ring|]. nia.
Qed.

(** What [u] units of traded volume bound. *)
Definition zinv (P u : Z) (z : zstate) : Prop :=
  zlots_ok P (z_lots z) /\ zlots_qty (z_lots z) <= u /\
  Z.abs (z_realized z) <= P * u /\ 0 <= z_dividends z <= P * u /\ 0 <= z_invested z <= P * u.

Lemma zlots_qty_app l1 l2 : zlots_qty (l1 ++ l2) = zlots_qty l1 + zlots_qty l2.
Proof. unfold zlots_qty. by rewrite map_app, zsum_app. Qed.

Lemma zlots_cost_app l1 l2 : zlots_cost (l1 ++ l2) = zlots_cost l1 + zlots_cost l2.
Proof. unfold zlots_cost. by rewrite map_app, zsum_app. Qed.

Lemma zlots_qty_single q p : zlots_qty [(q, p)] = q.
Proof. unfold zlots_qty, zsum; simpl; lia. Qed.

Lemma zstep_inv P u z t : txn_ok P t -> zinv P u z -> zinv P (u + qty t) (zstep z t).
Proof.
  intros (_ & Hq & _ & Hp) (Hl & Hlu & Hr & Hd & Hi). unfold zstep.
  fold (qty t) in Hq. fold (prc t) in Hp.
  assert (Hqp : 0 <= qty t * prc t <= P * qty t) by nia.
  destruct (t_type t).
  2: { pose proof (zsell_spec P (z_lots z) (qty t) (prc t) Hl ltac:(lia) Hp) as Hs.
       pose proof (zlots_qty_nonneg P _ Hl) as Hnn.
       destruct (zsell _ _ _) as [l g]. destruct Hs as (H1 & H2 & _ & H4).
       assert (P * Z.min (qty t) (zlots_qty (z_lots z)) <= P * qty t)
         by (apply Z.mul_le_mono_nonneg_l; lia).
       unfold zinv; simpl. split; [done|]. split; [lia|]. rewrite Z.mul_add_distr_l. lia. }
  2: { unfold zinv; simpl. split; [done|]. rewrite Z.mul_add_distr_l. lia. }
  all: unfold zinv; simpl; rewrite zlots_qty_app, zlots_qty_single, Z.mul_add_distr_l;
    split; [apply list.Forall_app; split; [done|constructor; [simpl; lia|constructor]]|lia].
Qed.

Definition lots_repr (ls : list (dec * dec)) (zl : list (Z * Z)) : Prop :=
  Forall2 (fun l z => repr 4 l.1 z.1 /\ repr 4 l.2 z.2) ls zl.

Definition walk_repr (w : walk_state) (z : zstate) : Prop :=
  lots_repr (w_lots w) (z_lots z) /\ repr 8 (w_realized w) (z_realized z) /\
  repr 8 (w_dividends w) (z_dividends z) /\ repr 8 (w_invested w) (z_invested z).

Lemma sell_loop_stop fuel lots realized rem price :
  (dzero <? rem)%dec = false -> sell_loop (S fuel) lots realized rem price = Some (lots, realized).
Proof. intros H. simpl. destruct lots as [|[q p] rest]; [done|]. by rewrite H. Qed.

Lemma sell_loop_repr P fuel ls zl realized zr rem zrem price zp out :
  zlots_ok P zl -> lots_repr ls zl -> repr 8 realized zr -> repr 4 rem zrem -> repr 4 price zp ->
  0 <= zrem < 10 ^ 22 -> 0 <= zp <= P -> zlots_qty zl < 10 ^ 22 -> P < 10 ^ 22 ->
  Z.abs zr + P * Z.min zrem (zlots_qty zl) < 10 ^ 22 ->
  sell_loop fuel ls realized rem price = Some out ->
  lots_repr out.1 (zsell zl zrem zp).1 /\ repr 8 out.2 (zr + (zsell zl zrem zp).2).
Proof.
  intros Hok Hls. revert fuel realized zr rem zrem.
  induction Hls as [|[q p] [zq zpr] ls zl [Hq Hpr] Hls IH];
    intros fuel realized zr rem zrem Hr Hrem Hp Hb1 Hb2 Hb3 HP Hb4 E.
  { destruct fuel; [done|]. injection E as <-. simpl. rewrite Z.add_0_r. split; [constructor|done]. }
  destruct fuel as [|f]; [done|]. cbn [sell_loop zsell] in E |- *.
  apply list.Forall_cons in Hok as [Hqp Hok]. cbn [fst snd] in *.
  rewrite (dltb_repr 4 dzero rem 0 zrem) in E by (done || apply repr_zero).
  pose proof (zlots_qty_nonneg P zl Hok) as Hnn.
  assert (Hcons : zlots_qty ((zq, zpr) :: zl) = zq + zlots_qty zl) by done. rewrite Hcons in *.
  destruct (0 <? zrem) eqn:E0; zbool.
  2: { injection E as <-. simpl. rewrite Z.add_0_r. split; [constructor; done|done]. }
  assert (Ht : repr 4 (dmin q rem) (Z.min zq zrem)) by (by apply dmin_repr).
  assert (Hg : Z.abs ((zp - zpr) * Z.min zq zrem) <= P * Z.min zq zrem) by nia.
  assert (Hm : P * Z.min zq zrem <= P * Z.min zrem (zq + zlots_qty zl))
    by (apply Z.mul_le_mono_nonneg_l; lia).
  assert (Hr' : repr 8 (realized + (price - p) * dmin q rem)%dec
                  (zr + (zp - zpr) * Z.min zq zrem)).
  { apply dadd_repr; [done| |unfold exact_bound, prec; lia].
    apply (dmul_repr 4 4); [apply dsub_repr; [done..|]|done|]; unfold exact_bound, prec; lia. }
  assert (Hq' : repr 4 (q - dmin q rem)%dec (zq - Z.min zq zrem))
    by (apply dsub_repr; [done..|unfold exact_bound, prec; lia]).
  assert (Hrem' : repr 4 (rem - dmin q rem)%dec (zrem - Z.min zq zrem))
    by (apply dsub_repr; [done..|unfold exact_bound, prec; lia]).
  rewrite (deqb_repr 4 _ dzero (zq - Z.min zq zrem) 0) in E by (done || apply repr_zero).
  destruct (zq - Z.min zq zrem =? 0) eqn:E1; zbool.
  - apply (IH Hok f _ (zr + (zp - zpr) * Z.min zq zrem) _ (zrem - Z.min zq zrem)) in E;
      [|done..|lia|lia|lia|lia|].
    + destruct (zsell zl _ zp) as [l g]. simpl in *. by rewrite Z.add_assoc.
    + replace (Z.min zrem (zq + zlots_qty zl))
        with (Z.min zq zrem + Z.min (zrem - Z.min zq zrem) (zlots_qty zl)) in Hb4 by lia.
      rewrite Z.mul_add_distr_l in Hb4. lia.
  - destruct f as [|f]; [done|]. rewrite sell_loop_stop in E.
    + injection E as <-. split; [|done]. constructor; done.
    + rewrite (dltb_repr 4 dzero _ 0 (zrem - Z.min zq zrem)) by (done || apply repr_zero).
      apply Z.ltb_ge. lia.
Qed.

Lemma walk_step_repr P u w z t w' :
  txn_ok P t -> zinv P u z -> u + qty t < 10 ^ 22 -> P * (u + qty t) < 10 ^ 22 -> 0 <= u ->
  walk_repr w z -> walk_step w t = Some w' -> walk_repr w' (zstep z t).
Proof.
  intros (Hqg & Hq & Hpg & Hp) (Hl & Hlu & Hr & Hd & Hi) Hu HPu Hu0 (Wl & Wr & Wd & Wi) E.
  fold (qty t) in Hq. fold (prc t) in Hp.
  assert (Hqp : 0 <= qty t * prc t <= P * qty t) by nia.
  rewrite Z.mul_add_distr_l in HPu.
  assert (Hmul : repr 8 (t_quantity t * t_price t)%dec (qty t * prc t)).
  { apply (dmul_repr 4 4); [done..|]. unfold exact_bound, prec. lia. }
  assert (HP : P < 10 ^ 22) by nia.
  unfold walk_step in E. unfold zstep. destruct (t_type t).
  2: { destruct (sell_loop _ _ _ _ _) as [[l g]|] eqn:Es; [|done]. injection E as <-.
       eapply (sell_loop_repr P _ _ (z_lots z) _ (z_realized z) _ (qty t) _ (prc t)) in Es;
         [|done..|lia|done|lia|done|].
       - destruct (zsell _ _ _) as [zl zg]. simpl in Es. destruct Es as [? ?].
         repeat split; done.
       - assert (P * Z.min (qty t) (zlots_qty (z_lots z)) <= P * qty t)
           by (apply Z.mul_le_mono_nonneg_l; lia). lia. }
  2: { injection E as <-. repeat split; try done. simpl.
       apply dadd_repr; [done..|]. unfold exact_bound, prec. lia. }
  all: injection E as <-; repeat split; simpl; try done;
    [apply Forall2_app; [done|repeat constructor; done]
    |apply dadd_repr; [done..|unfold exact_bound, prec; lia]].
Qed.

Lemma walk_repr_walk P txns u w z w' :
  Forall (txn_ok P) txns -> zinv P u z -> u + volume txns < 10 ^ 22 ->
  P * (u + volume txns) < 10 ^ 22 -> 0 <= u -> 0 <= P ->
  walk_repr w z -> walk w txns = Some w' ->
  walk_repr w' (zwalk z txns) /\ zinv P (u + volume txns) (zwalk z txns).
Proof.
  intros H. revert u w z; induction H as [|t ts Ht Hts IH]; intros u w z Hz Hu HP Hu0 HP0 Hw E.
  { injection E as <-. change (volume []) with 0. rewrite Z.add_0_r. done. }
  simpl in E. destruct (walk_step w t) as [w1|] eqn:Es; [|done].
  rewrite volume_cons in *. rewrite Z.add_assoc in *.
  pose proof (volume_nonneg P ts Hts) as Hnn.
  assert (Hq : 0 < qty t) by apply Ht.
  apply (IH (u + qty t) w1 (zstep z t)); [by apply zstep_inv|done..|lia|done| |done].
  eapply (walk_step_repr P u); [done..|lia|nia|lia|done|done].
Qed.

(** ** The stored row *)

(** The row the integer walk prescribes: open quantity, average cost to the
    nearest 10^-4, amounts rounded half to even to paisa; no row when nothing
    is open and nothing was earned. *)
Definition row_spec (pid symbol : string) (z : zstate) (row : option HoldingsSnapshot) : Prop :=
  let open := zlots_qty (z_lots z) in
  match row with
  | None => open = 0 /\ z_dividends z = 0 /\ z_realized z = 0
  | Some h =>
      ~ (open = 0 /\ z_dividends z = 0 /\ z_realized z = 0) /\
      h_portfolio_id h = pid /\ h_symbol h = symbol /\ repr 4 (h_quantity h) open /\
      (exists avg, repr 4 (h_avg_cost h) avg /\
                   2 * Z.abs (avg * open - zlots_cost (z_lots z)) <= open) /\
      repr 2 (h_total_invested h) (div_half_even (z_invested z) (10 ^ 6)) /\
      repr 2 (h_realized_pnl h) (div_half_even (z_realized z) (10 ^ 6)) /\
      repr 2 (h_total_dividends h) (div_half_even (z_dividends z) (10 ^ 6))
  end.

Lemma div_half_even_abs_le n d : 0 < d -> Z.abs (div_half_even n d) <= Z.abs n + 1.
Proof. intros Hd. pose proof (div_half_even_near n d Hd). nia. Qed.

Lemma two_places_repr s d z :
  2 <= s -> repr s d z -> Z.abs z < 10 ^ 27 ->
  exists q, two_places d = Ok q /\ repr 2 q (div_half_even z (10 ^ (s - 2))).
Proof.
  intros Hs H Hz. apply (dquantize_repr ROUND_HALF_EVEN 2 s d z Hs H).
  pose proof (div_half_even_abs_le z (10 ^ (s - 2)) (pow10_pos (s - 2) ltac:(lia))) as Hle.
  cbn [div_round]. unfold exact_bound, prec. lia.
Qed.

Lemma lots_repr_qty P ls zl :
  lots_repr ls zl -> zlots_ok P zl -> zlots_qty zl < 10 ^ 22 ->
  repr 4 (dsum (map fst ls)) (zlots_qty zl).
Proof.
  intros H Hok Hb. apply dsum_repr.
  - induction H as [|l z ls zl [? _] _ IH]; simpl; constructor; [done|].
    inversion_clear Hok as [|? ? Hz Hzs]. apply IH; [done|].
    unfold zlots_qty, zsum in *; simpl in *. lia.
  - replace (zsum (map Z.abs (map fst zl))) with (zlots_qty zl);
      [unfold exact_bound, prec; lia|].
    clear -Hok. unfold zlots_qty, zsum.
    induction Hok as [|[q p] zl [Hq _] _ IH]; simpl in *; lia.
Qed.

Lemma lots_repr_cost P ls zl :
  lots_repr ls zl -> zlots_ok P zl -> P * zlots_qty zl < 10 ^ 22 ->
  repr 8 (dsum (map (fun l => (l.1 * l.2)%dec) ls)) (zlots_cost zl).
Proof.
  intros H Hok Hb. apply dsum_repr.
  - induction H as [|l z ls zl [H1 H2] _ IH]; simpl; constructor.
    + apply (dmul_repr 4 4); [done..|]. inversion_clear Hok as [|? ? Hz Hzs].
      pose proof (zlots_qty_nonneg P zl Hzs) as Hn. unfold zlots_qty, zsum in *; simpl in *.
      unfold exact_bound, prec. nia.
    + inversion_clear Hok as [|? ? Hz Hzs]. apply IH; [done|].
      unfold zlots_qty, zsum in *; simpl in *. nia.
  - replace (zsum (map Z.abs (map (fun l => l.1 * l.2) zl))) with (zlots_cost zl).
    + pose proof (zlots_cost_bound P zl Hok). unfold exact_bound, prec. lia.
    + clear -Hok. unfold zlots_cost, zsum.
      induction Hok as [|[q p] zl [Hq Hp] _ IH]; simpl in *; nia.
Qed.

(** The average cost, before it is rounded for storage. *)
Lemma average_cost wc oq cost open :
  repr 8 wc cost -> repr 4 oq open -> 0 <= open -> 0 <= cost < 10 ^ 22 ->
  (open = 0 -> cost = 0) ->
  exists raw q avg,
    (if (dzero <? oq)%dec then ddiv wc oq else Ok dzero) = Ok raw /\
    dquantize ROUND_HALF_EVEN 4 raw = Ok q /\ repr 4 q avg /\
    2 * Z.abs (avg * open - cost) <= open.
Proof.
  intros Hc Hq Hpos Hb H0. rewrite (dltb_repr 4 dzero oq 0 open) by (done || apply repr_zero).
  destruct (0 <? open) eqn:E; zbool.
  - destruct (ddiv_quantize_near ROUND_HALF_EVEN 4 8 4 0 wc oq cost open)
      as (raw & q & avg & E1 & E2 & R & Hn); [done|done|lia..| |].
    + rewrite Z.pow_0_r. clear -Hb E. lia.
    + exists raw, q, avg. do 3 (split; [done|]). rewrite Z.pow_0_r, !Z.mul_1_r in Hn.
      clear -Hn Hb E. lia.
  - assert (open = 0) by lia. exists dzero, (mkdec 0 (-4)), 0. split; [done|]. split; [done|].
    split; [done|]. rewrite (H0 ltac:(lia)). lia.
Qed.

Lemma snapshot_row_spec P u pid symbol w z :
  walk_repr w z -> zinv P u z -> 0 <= P -> 0 <= u < 10 ^ 22 -> P * u < 10 ^ 22 ->
  exists row, snapshot_row pid symbol w = Ok row /\ row_spec pid symbol z row.
Proof.
  intros (Wl & Wr & Wd & Wi) (Hl & Hlu & Hr & Hd & Hi) HP0 Hu HPu.
  pose proof (zlots_qty_nonneg P _ Hl) as Hn. pose proof (zlots_cost_bound P _ Hl) as Hc.
  assert (Hpo : P * zlots_qty (z_lots z) <= P * u) by (apply Z.mul_le_mono_nonneg_l; lia).
  pose proof (lots_repr_qty P _ _ Wl Hl ltac:(lia)) as Hoq.
  pose proof (lots_repr_cost P _ _ Wl Hl ltac:(lia)) as Hwc.
  unfold snapshot_row.
  destruct (average_cost _ _ _ _ Hwc Hoq Hn ltac:(lia)) as (raw & q & avg & -> & E2 & Ra & Hna).
  { intros E0. rewrite E0 in Hc. lia. }
  rewrite (deqb_repr 4 _ dzero (zlots_qty (z_lots z)) 0) by (done || apply repr_zero).
  rewrite (deqb_repr 8 _ dzero (z_dividends z) 0) by (done || apply repr_zero).
  rewrite (deqb_repr 8 _ dzero (z_realized z) 0) by (done || apply repr_zero).
  destruct (_ && _ && _)%bool eqn:E.
  { exists None. split; [done|]. apply andb_true_iff in E as [[E3 E4]%andb_true_iff E5].
    zbool. done. }
  rewrite E2.
  destruct (two_places_repr 8 _ _ ltac:(lia) Wi ltac:(lia)) as (i & -> & Ri).
  destruct (two_places_repr 8 _ _ ltac:(lia) Wr ltac:(lia)) as (r & -> & Rr).
  destruct (two_places_repr 8 _ _ ltac:(lia) Wd ltac:(lia)) as (d & -> & Rd).
  eexists. split; [reflexivity|]. unfold row_spec; simpl. split.
  - intros (H1 & H2 & H3). rewrite H1, H2, H3 in E. discriminate E.
  - repeat split; try done. eauto.
Qed.

(** The row for the history of [(pid, symbol)]. *)
Lemma history_row_spec P pid symbol txns :
  0 <= P -> Forall (txn_ok P) txns -> volume txns < 10 ^ 22 -> P * volume txns < 10 ^ 22 ->
  exists w row, walk walk_init txns = Some w /\ snapshot_row pid symbol w = Ok row /\
                row_spec pid symbol (zwalk zinit txns) row.
Proof.
  intros HP Hok Hv HPv. destruct (walk walk_init txns) as [w|] eqn:E; [|by apply walk_total in E].
  assert (Hz : zinv P 0 zinit) by (unfold zinv; cbn; repeat split; try lia; constructor).
  assert (Hw : walk_repr walk_init zinit) by (repeat split; constructor).
  pose proof (volume_nonneg P txns Hok) as Hn.
  destruct (walk_repr_walk P txns 0 walk_init zinit w) as [Hwr Hzi]; [done..|lia|lia|lia|done|done|done|].
  rewrite Z.add_0_l in Hzi.
  destruct (snapshot_row_spec P (volume txns) pid symbol w _ Hwr Hzi HP ltac:(lia) HPv)
    as (row & Hrow & Hs). eauto 10.
Qed.

(** ** The preview *)

Definition body_ok (P : Z) (b : TransactionCreate) : Prop :=
  on_grid 4 (b_quantity b) /\ 0 < units 4 (b_quantity b) /\ price_ok P (b_price b) /\
  price_ok P (b_brokerage b) /\ price_ok P (b_fed b) /\ price_ok P (b_cvt b).

Definition b_qty (b : TransactionCreate) : Z := units 4 (b_quantity b).
Definition b_fees (b : TransactionCreate) : Z :=
  units 4 (b_brokerage b) + units 4 (b_fed b) + units 4 (b_cvt b).
Definition b_gross (b : TransactionCreate) : Z :=
  div_half_even (b_qty b * units 4 (b_price b)) (10 ^ 6).

(** Net cash in 10^-4 rupees, from gross and tax in paisa. *)
Definition b_net (b : TransactionCreate) (zcgt : Z) : Z :=
  match b_type b with
  | BUY => - (100 * b_gross b + b_fees b)
  | SELL => 100 * b_gross b - b_fees b - 100 * zcgt
  | DIVIDEND => 100 * b_gross b - b_fees b
  | BONUS | RIGHTS => - b_fees b
  end.

Definition preview_amounts (b : TransactionCreate) (pv : TransactionPreview) (zcgt : Z) : Prop :=
  repr 2 (pv_gross pv) (b_gross b) /\ repr 2 (pv_cgt pv) zcgt /\
  repr 2 (pv_total_charges pv) (div_half_even (b_fees b + 100 * zcgt) 100) /\
  repr 2 (pv_net_cash_impact pv) (div_half_even (b_net b zcgt) 100).

Lemma gross_amount P b :
  body_ok P b -> P * b_qty b < 10 ^ 22 ->
  exists g, two_places (b_quantity b * b_price b)%dec = Ok g /\ repr 2 g (b_gross b) /\
            0 <= b_gross b < 10 ^ 23.
Proof.
  intros (Hq & Hq0 & [Hp Hpb] & _) HP. fold (b_qty b) in Hq0.
  assert (Hb : 0 <= b_qty b * units 4 (b_price b) <= P * b_qty b) by nia.
  destruct (two_places_repr 8 (b_quantity b * b_price b)%dec (b_qty b * units 4 (b_price b)))
    as (g & E & R); [lia|apply (dmul_repr 4 4); [done..|unfold exact_bound, prec; lia]|lia|].
  exists g. split; [done|]. split; [done|]. unfold b_gross.
  pose proof (div_half_even_near (b_qty b * units 4 (b_price b)) (10 ^ 6) ltac:(lia)).
  clear -Hb HP H. lia.
Qed.

Lemma fees_repr P b :
  body_ok P b -> P < 10 ^ 22 ->
  repr 4 (b_brokerage b + b_fed b + b_cvt b)%dec (b_fees b) /\ 0 <= b_fees b <= 3 * P.
Proof.
  intros (_ & _ & _ & [Hb ?] & [Hf ?] & [Hc ?]) HP. unfold b_fees. split; [|lia].
  apply dadd_repr; [apply dadd_repr|..]; try done; unfold exact_bound, prec; lia.
Qed.

Lemma preview_amounts_ok P b g cgt zcgt :
  body_ok P b -> P < 10 ^ 22 -> 0 <= b_gross b < 10 ^ 23 ->
  repr 2 g (b_gross b) -> repr 2 cgt zcgt -> 0 <= zcgt < 10 ^ 23 ->
  exists tc net,
    two_places (b_brokerage b + b_fed b + b_cvt b + cgt)%dec = Ok tc /\
    two_places (net_cash_impact b g cgt) = Ok net /\
    repr 2 tc (div_half_even (b_fees b + 100 * zcgt) 100) /\
    repr 2 net (div_half_even (b_net b zcgt) 100).
Proof.
  intros Hb HP Hgb Hg Hc Hcb. destruct (fees_repr P b Hb HP) as [Hf Hfb].
  apply (repr_finer 2 2) in Hg, Hc; [|lia..].
  change (2 + 2) with 4 in Hg, Hc. change (10 ^ 2) with 100 in Hg, Hc.
  rewrite Z.mul_comm in Hg, Hc.
  assert (Htc : repr 4 (b_brokerage b + b_fed b + b_cvt b + cgt)%dec (b_fees b + 100 * zcgt))
    by (apply dadd_repr; [done..|unfold exact_bound, prec; lia]).
  assert (Hnet : repr 4 (net_cash_impact b g cgt) (b_net b zcgt) /\ Z.abs (b_net b zcgt) < 10 ^ 27).
  { destruct Hb as (_ & _ & _ & [Hb1 ?] & [Hb2 ?] & [Hb3 ?]).
    unfold net_cash_impact, b_net, b_fees in *. destruct (b_type b); (split; [|lia]).
    - apply dneg_repr; [|unfold exact_bound, prec; lia]. rewrite !Z.add_assoc.
      repeat (apply dadd_repr); try done; unfold exact_bound, prec; lia.
    - rewrite !Z.sub_add_distr.
      repeat (apply dsub_repr); try done; unfold exact_bound, prec; lia.
    - rewrite !Z.sub_add_distr.
      repeat (apply dsub_repr); try done; unfold exact_bound, prec; lia.
    - apply dneg_repr; [done|unfold exact_bound, prec; lia].
    - apply dneg_repr; [done|unfold exact_bound, prec; lia]. }
  destruct Hnet as [Hnet Hnb].
  destruct (two_places_repr 4 _ _ ltac:(lia) Htc ltac:(lia)) as (tc & E1 & R1).
  destruct (two_places_repr 4 _ _ ltac:(lia) Hnet Hnb) as (net & E2 & R2).
  exists tc, net. done.
Qed.

(** ** The ledger invariant *)

Definition hkey (h : HoldingsSnapshot) : string * string := (h_portfolio_id h, h_symbol h).
Definition rows_at (db : database) (pid symbol : string) : list HoldingsSnapshot :=
  List.filter (holding_key pid symbol) (holdings db).

(** Primary keys, columns on their grids, and every holdings row equal to the
    integer walk of its history. *)
Record ledger_ok (P : Z) (db : database) : Prop := {
  lo_ids : NoDup (map t_id (transactions db));
  lo_txns : Forall (txn_ok P) (transactions db);
  lo_brackets : Forall bracket_ok (load_cgt_brackets db);
  lo_symbols : NoDup (map s_symbol (securities db));
  lo_hkeys : NoDup (map hkey (holdings db));
  lo_rows : forall pid symbol,
    row_spec pid symbol (zwalk zinit (select_txns db pid symbol (fun _ => true)))
      (head (rows_at db pid symbol));
}.

(** Room for [q] more units within the exact range of the arithmetic. *)
Definition capacity (P : Z) (db : database) (q : Z) : Prop :=
  0 <= P < 10 ^ 22 /\ volume (transactions db) + q < 10 ^ 22 /\
  P * (volume (transactions db) + q) < 10 ^ 22.

Definition bought (db : database) (pid symbol : string) : Z :=
  volume (select_txns db pid symbol is_acquisition).
Definition sold (db : database) (pid symbol : string) : Z :=
  volume (select_txns db pid symbol is_sell).

(** The tax of a sale and its errors, in terms of the ledger. *)
Definition sell_cgt_contract (db : database) (pid : string) (body : TransactionCreate)
    (filer : bool) (out : res (dec * list MatchedLotPreview)) : Prop :=
  let buys := select_txns db pid (b_symbol body) is_acquisition in
  let brackets := load_cgt_brackets db in
  let available := Z.max 0 (bought db pid (b_symbol body) - sold db pid (b_symbol body)) in
  exists lots,
    Forall2 lot_of (open_pairs buys (residuals (map qty buys) (sold db pid (b_symbol body)))) lots /\
    let ps := fifo_takes (sort_by lot_le lots) (b_qty body) in
    let taxable := line_taxable (b_price body) (b_date body) filer brackets in
    match out with
    | Ok (cgt, _) =>
        b_qty body <= available /\ Forall taxable ps /\
        repr 2 cgt (zsum (map (fun p => gain_tax (line_gain (b_price body) p)
                      (line_rate (b_price body) (b_date body) filer brackets p)) ps))
    | Exn InsufficientLotsError => available < b_qty body
    | Exn NoApplicableTaxRuleError => Exists (fun p => ~ taxable p) ps
    | Exn _ => False
    end.

Lemma sell_cgt_spec P db pid body filer :
  ledger_ok P db -> body_ok P body -> capacity P db (b_qty body) ->
  sell_cgt_contract db pid body filer (_compute_sell_cgt db pid body filer) /\
  forall c ls, _compute_sell_cgt db pid body filer = Ok (c, ls) ->
    exists zc, repr 2 c zc /\ 0 <= zc < 10 ^ 23.
Proof.
  intros Hl Hb (HP & Hv & HPv). pose proof (lo_brackets _ _ Hl) as Hbr.
  destruct Hb as (Hq & Hq0 & Hpr & _). fold (b_qty body) in Hq0.
  destruct (select_ok P db pid (b_symbol body) is_acquisition (lo_ids _ _ Hl) (lo_txns _ _ Hl))
    as (Hnd & Hbok & Hbv).
  destruct (select_ok P db pid (b_symbol body) is_sell (lo_ids _ _ Hl) (lo_txns _ _ Hl))
    as (_ & Hsok & Hsv).
  pose proof (dsum_volume P _ Hsok ltac:(lia)) as Hsum.
  destruct (open_lots_spec P _ _ _ Hnd Hbok ltac:(lia) Hsum ltac:(lia)) as (lots & E & Hlots).
  pose proof (open_lots_ok P _ _ _ lots Hnd Hbok ltac:(lia) Hsum ltac:(lia) E) as Hlok.
  pose proof (open_lots_quantity P _ _ _ lots Hnd Hbok ltac:(lia) Hsum ltac:(lia) E) as Hopen.
  pose proof (match_fifo_refines P (b_price body) (b_date body) filer (load_cgt_brackets db) lots
    (b_quantity body) Hlok Hpr Hbr Hq ltac:(unfold b_qty in *; lia)
    ltac:(unfold b_qty in *; nia)) as HC.
  unfold match_fifo_contract in HC. fold (b_qty body) in HC. cbv zeta in HC.
  fold (bought db pid (b_symbol body)) (sold db pid (b_symbol body)) in *.
  unfold _compute_sell_cgt. rewrite E.
  destruct (match_fifo _ _ _ _ _ _) as [r|e].
  - destruct HC as (HA & Htk & Htx & _ & _ & Hc & _). split.
    + exists lots. split; [done|]. cbv zeta. split; [lia|]. done.
    + intros c ls [= <- <-]. eexists. split; [exact Hc|].
      pose proof (total_tax_bounds P (b_price body) (b_date body) filer (load_cgt_brackets db)
        (sort_by lot_le lots) (b_qty body) ltac:(by apply Forall_sort_by) Hpr Hbr ltac:(lia)) as Hb.
      cbv zeta in Hb. rewrite Htk in Hb. nia.
  - split; [|done]. exists lots. split; [done|]. cbv zeta. destruct e; try done; [lia|..].
    + by destruct HC as [_ HC].
    + destruct HC as (_ & HC & _). lia.
Qed.

(** ** Writing the holdings row *)

Lemma holding_key_hkey pid symbol h : holding_key pid symbol h = true <-> hkey h = (pid, symbol).
Proof.
  unfold holding_key, hkey. rewrite andb_true_iff, !String.eqb_eq. split; [by intros [-> ->]|].
  by intros [= -> ->].
Qed.

Lemma unique_rows pid symbol hs :
  NoDup (map hkey hs) ->
  List.filter (holding_key pid symbol) hs = [] \/
  exists h, List.filter (holding_key pid symbol) hs = [h].
Proof.
  induction hs as [|h hs IH]; simpl; [auto|].
  intros [Hh Hnd]%list.NoDup_cons. destruct (holding_key pid symbol h) eqn:E; [|auto].
  right. exists h. f_equal. apply holding_key_hkey in E.
  destruct (List.filter (holding_key pid symbol) hs) as [|h' l] eqn:E'; [done|].
  exfalso. apply Hh. rewrite E.
  assert (In h' (List.filter (holding_key pid symbol) hs)) as [Hin Hk]%filter_In
    by (rewrite E'; by left).
  apply holding_key_hkey in Hk. rewrite <- Hk. apply list_elem_of_In. by apply in_map.
Qed.

Lemma filter_negb_other {A} (f g : A -> bool) l :
  (forall x, g x = true -> f x = false) ->
  List.filter g (List.filter (fun x => negb (f x)) l) = List.filter g l.
Proof.
  intros H. induction l as [|x xs IH]; simpl; [done|].
  destruct (f x) eqn:Ef; simpl; [|by rewrite IH].
  destruct (g x) eqn:Eg; [by rewrite (H x Eg) in Ef|done].
Qed.

Lemma filter_negb_same {A} (f : A -> bool) l :
  List.filter f (List.filter (fun x => negb (f x)) l) = [].
Proof. induction l as [|x xs IH]; simpl; [done|]. destruct (f x) eqn:E; simpl; rewrite ?E; done. Qed.

Section replace_rows.
Context (pid symbol : string) (r : HoldingsSnapshot) (Hr : hkey r = (pid, symbol)).
Let upd h := if holding_key pid symbol h then r else h.

Lemma replace_hkeys hs : map hkey (map upd hs) = map hkey hs.
Proof using Hr.
induction hs as [|h hs IH]; simpl; [done|]. rewrite IH. f_equal. unfold upd.
destruct (holding_key pid symbol h) eqn:E; [|done]. apply holding_key_hkey in E. congruence.
Qed.

Lemma replace_same hs h :
List.filter (holding_key pid symbol) hs = [h] ->
List.filter (holding_key pid symbol) (map upd hs) = [r].
Proof using Hr.
assert (Hk : holding_key pid symbol r = true) by (by apply holding_key_hkey).
assert (Hgen : forall hs, List.filter (holding_key pid symbol) (map upd hs)
                          = map (fun _ => r) (List.filter (holding_key pid symbol) hs)).
{ clear -Hk. intros hs. induction hs as [|x xs IH]; simpl; [done|]. unfold upd at 1.
  destruct (holding_key pid symbol x) eqn:E; simpl; rewrite ?Hk, ?E; [|exact IH].
  rewrite IH. unfold upd. by rewrite E. }
intros E. by rewrite Hgen, E.
Qed.

Lemma replace_other pid' symbol' hs :
(pid', symbol') <> (pid, symbol) ->
List.filter (holding_key pid' symbol') (map upd hs) = List.filter (holding_key pid' symbol') hs.
Proof using Hr.
intros Hne. induction hs as [|h hs IH]; simpl; [done|]. rewrite IH. unfold upd.
destruct (holding_key pid symbol h) eqn:E; [|done]. apply holding_key_hkey in E.
destruct (holding_key pid' symbol' r) eqn:E1;
  [apply holding_key_hkey in E1; congruence|].
destruct (holding_key pid' symbol' h) eqn:E2; [apply holding_key_hkey in E2; congruence|done].
Qed.
End replace_rows.

Lemma store_holding_spec pid symbol row hs :
  NoDup (map hkey hs) -> (forall r, row = Some r -> hkey r = (pid, symbol)) ->
  exists hs', store_holding pid symbol row hs = Ok hs' /\ NoDup (map hkey hs') /\
    head (List.filter (holding_key pid symbol) hs') = row /\
    forall pid' symbol', (pid', symbol') <> (pid, symbol) ->
      List.filter (holding_key pid' symbol') hs' = List.filter (holding_key pid' symbol') hs.
Proof.
  intros Hnd Hrow. unfold store_holding.
  assert (Hother : forall p s x, (p, s) <> (pid, symbol) -> holding_key p s x = true ->
                                 holding_key pid symbol x = false).
  { intros p s x Hne Hx. destruct (holding_key pid symbol x) eqn:E; [|done].
    apply holding_key_hkey in E, Hx. congruence. }
  destruct (unique_rows pid symbol hs Hnd) as [E|[h E]]; rewrite E; simpl; destruct row as [r|];
    (eexists; split; [reflexivity|]).
  - pose proof (Hrow r eq_refl) as Hr. split.
    + rewrite map_app. simpl. apply list.NoDup_app. split; [done|]. split; [|apply NoDup_singleton].
      intros k Hk ->%list_elem_of_singleton.
      apply list_elem_of_In, in_map_iff in Hk as (h & Hh & Hin).
      assert (In h (List.filter (holding_key pid symbol) hs)) as Habs.
      { apply filter_In. split; [done|]. apply holding_key_hkey. congruence. }
      by rewrite E in Habs.
    + split.
      * rewrite filter_app, E. simpl. by rewrite (proj2 (holding_key_hkey pid symbol r) Hr).
      * intros p s Hne. rewrite filter_app. simpl. destruct (holding_key p s r) eqn:E2.
        -- apply holding_key_hkey in E2. congruence.
        -- by rewrite app_nil_r.
  - split; [done|]. split; [by rewrite E|done].
  - pose proof (Hrow r eq_refl) as Hr. split; [by rewrite replace_hkeys|].
    split; [by erewrite replace_same|]. intros p s Hne. by apply replace_other.
  - split; [by apply NoDup_map_filter|]. split; [by rewrite filter_negb_same|].
    intros p s Hne. apply filter_negb_other. eauto.
Qed.

(** ** Create *)

Lemma select_txns_snoc_other db t pid symbol f :
  (pid, symbol) <> (t_portfolio_id t, t_symbol t) ->
  select_txns (with_transactions db (transactions db ++ [t])) pid symbol f
  = select_txns db pid symbol f.
Proof.
  intros Hne. unfold select_txns. simpl. rewrite filter_app. simpl.
  destruct (String.eqb_spec (t_portfolio_id t) pid), (String.eqb_spec (t_symbol t) symbol);
    simpl; rewrite ?app_nil_r; congruence.
Qed.

(** Appending a row and refreshing its holdings keeps the invariant. *)
Lemma refresh_ok P db t :
  ledger_ok P db -> txn_ok P t -> t_id t ∉ map t_id (transactions db) ->
  capacity P db (qty t) ->
  let db1 := with_transactions db (transactions db ++ [t]) in
  exists hs, _refresh_holdings_snapshot db1 (t_portfolio_id t) (t_symbol t)
             = Some (Ok (with_holdings db1 hs)) /\
             ledger_ok P (with_holdings db1 hs).
Proof.
  intros Hl Ht Hid (HP & Hv & HPv) db1.
  set (pid := t_portfolio_id t). set (symbol := t_symbol t).
  assert (Hids : NoDup (map t_id (transactions db1))).
  { simpl. rewrite map_app. simpl. apply list.NoDup_app. split; [apply (lo_ids _ _ Hl)|].
    split; [|apply NoDup_singleton]. by intros k Hk ->%list_elem_of_singleton. }
  assert (Htx : Forall (txn_ok P) (transactions db1)).
  { simpl. apply list.Forall_app. split; [apply (lo_txns _ _ Hl)|by constructor]. }
  assert (Hvol : volume (transactions db1) = volume (transactions db) + qty t).
  { simpl. unfold volume. rewrite map_app, zsum_app. unfold zsum at 2. simpl. lia. }
  destruct (select_ok P db1 pid symbol (fun _ => true) Hids Htx) as (_ & Hs & Hsv).
  destruct (history_row_spec P pid symbol (select_txns db1 pid symbol (fun _ => true)))
    as (w & row & Ew & Er & Hrow); [lia|done|lia|nia|].
  destruct (store_holding_spec pid symbol row (holdings db)) as (hs & Eh & Hnd & Hsame & Hoth).
  { apply (lo_hkeys _ _ Hl). }
  { intros r ->. destruct Hrow as (_ & H1 & H2 & _). unfold hkey. by rewrite H1, H2. }
  exists hs. split.
  { unfold _refresh_holdings_snapshot. rewrite Ew, Er. simpl holdings. by rewrite Eh. }
  constructor; try done; [apply (lo_brackets _ _ Hl)|apply (lo_symbols _ _ Hl)|].
  intros p s. change (rows_at (with_holdings db1 hs) p s) with (List.filter (holding_key p s) hs).
  change (select_txns (with_holdings db1 hs) p s (fun _ => true))
    with (select_txns db1 p s (fun _ => true)).
  destruct (decide ((p, s) = (pid, symbol))) as [[= -> ->]|Hne]; [by rewrite Hsame|].
  rewrite Hoth by done. unfold db1. rewrite select_txns_snoc_other by done.
  apply (lo_rows _ _ Hl).
Qed.

Lemma validate_symbol_spec P db symbol :
  ledger_ok P db ->
  _validate_symbol db symbol =
    if bool_decide (symbol ∈ map s_symbol (securities db)) then Ok tt else Exn (ServiceError 404).
Proof.
  intros Hl. pose proof (lo_symbols _ _ Hl) as Hnd. unfold _validate_symbol.
  induction (securities db) as [|s ss IH]; simpl; [done|].
  simpl in Hnd. apply list.NoDup_cons in Hnd as [Hs Hnd].
  destruct (String.eqb_spec (s_symbol s) symbol) as [Heq|Hne].
  - assert (Hnil : List.filter (fun s => String.eqb (s_symbol s) symbol) ss = []).
    { destruct (List.filter _ ss) as [|s' l] eqn:E; [done|].
      assert (In s' (List.filter (fun s => String.eqb (s_symbol s) symbol) ss)) as [Hin Hk]%filter_In
        by (rewrite E; by left).
      apply String.eqb_eq in Hk. exfalso. apply Hs.
      rewrite Heq, <- Hk. apply list_elem_of_In. by apply in_map. }
    rewrite Hnil. simpl. rewrite bool_decide_eq_true_2; [done|]. rewrite Heq. by left.
  - rewrite IH by done. erewrite (bool_decide_ext (symbol ∈ map s_symbol ss)); [done|].
    rewrite elem_of_cons. naive_solver.
Qed.

Lemma preview_result_ok P b g cgt zcgt lots ws :
  body_ok P b -> P < 10 ^ 22 -> 0 <= b_gross b < 10 ^ 23 ->
  repr 2 g (b_gross b) -> repr 2 cgt zcgt -> 0 <= zcgt < 10 ^ 23 ->
  exists pv, preview_result b g cgt lots ws = Ok pv /\ preview_amounts b pv zcgt /\
             pv_cgt pv = cgt /\ pv_matched_lots pv = lots /\ pv_warnings pv = ws.
Proof.
  intros Hb HP Hgb Hg Hc Hcb.
  destruct (preview_amounts_ok P b g cgt zcgt Hb HP Hgb Hg Hc Hcb)
    as (tc & net & E1 & E2 & Htc & Hnet).
  unfold preview_result. rewrite E1, E2. by eexists.
Qed.

Lemma capacity_body P db q : 0 <= volume (transactions db) -> capacity P db q -> P * q < 10 ^ 22.
Proof.
  intros Hn (HP & _ & HPv). rewrite Z.mul_add_distr_l in HPv.
  assert (0 <= P * volume (transactions db)) by (apply Z.mul_nonneg_nonneg; lia). lia.
Qed.

(** Every branch of [preview]. *)
Lemma preview_spec P db pid body filer :
  ledger_ok P db -> body_ok P body -> capacity P db (b_qty body) ->
  match preview db pid body filer with
  | Ok pv =>
      b_symbol body ∈ map s_symbol (securities db) /\
      (exists zcgt, preview_amounts body pv zcgt) /\
      match b_type body with
      | SELL =>
          match _compute_sell_cgt db pid body filer with
          | Ok (cgt, lots) => pv_cgt pv = cgt /\ pv_matched_lots pv = lots /\ pv_warnings pv = []
          | Exn e => pv_cgt pv = dzero /\ pv_matched_lots pv = [] /\ pv_warnings pv = [e]
          end
      | _ => pv_cgt pv = dzero /\ pv_matched_lots pv = [] /\ pv_warnings pv = []
      end
  | Exn e => e = ServiceError 404 /\ b_symbol body ∉ map s_symbol (securities db)
  end.
Proof.
  intros Hl Hb Hcap. unfold preview. rewrite (validate_symbol_spec P) by done.
  destruct (bool_decide_reflect (b_symbol body ∈ map s_symbol (securities db))) as [Hin|Hnin];
    [|done].
  destruct (gross_amount P body Hb) as (g & -> & Hg & Hgb);
    [eapply capacity_body; [exact (volume_nonneg P _ (lo_txns _ _ Hl))|done]|].
  assert (HP : P < 10 ^ 22) by apply Hcap.
  pose proof (preview_result_ok P body g dzero 0 [] [] Hb HP Hgb Hg (repr_zero 2) ltac:(lia))
    as (pv0 & E0 & HA0 & H0).
  destruct (b_type body) eqn:Et.
  2: { destruct (sell_cgt_spec P db pid body filer Hl Hb Hcap) as [HC Hbd].
       destruct (_compute_sell_cgt db pid body filer) as [[cgt ls]|e].
       - destruct (Hbd cgt ls eq_refl) as (zc & Hc & Hcb). cbn [sell_cgt_or_warning].
         destruct (preview_result_ok P body g cgt zc ls [] Hb HP Hgb Hg Hc Hcb)
           as (pv & -> & HA & ?). eauto 10.
       - destruct HC as (lots & _ & HC). destruct e; try (exfalso; exact HC);
           cbn [sell_cgt_or_warning].
         + destruct (preview_result_ok P body g dzero 0 [] [NoApplicableTaxRuleError] Hb HP Hgb Hg
             (repr_zero 2) ltac:(lia)) as (pv & -> & HA & ?). eauto 10.
         + destruct (preview_result_ok P body g dzero 0 [] [InsufficientLotsError] Hb HP Hgb Hg
             (repr_zero 2) ltac:(lia)) as (pv & -> & HA & ?). eauto 10. }
  all: rewrite E0; eauto 10.
Qed.

Lemma new_transaction_ok P pid body cgt new_id now :
  body_ok P body -> txn_ok P (new_transaction pid body cgt new_id now).
Proof. by intros (? & ? & ? & _). Qed.

(** Every branch of [create]: a saved trade extends the table by one row, keeps
    the invariant and never oversells; a refusal is a 404 for an unknown symbol
    or a 400 for a sale that the engine warns about. *)
Definition create_contract (P : Z) (db : database) (pid : string) (body : TransactionCreate)
    (filer : bool) (new_id : string) (now : Z)
    (out : option (res (database * Transaction * TransactionPreview))) : Prop :=
  let available := bought db pid (b_symbol body) - sold db pid (b_symbol body) in
  match out with
  | Some (Ok (db', t, pv)) =>
      t = new_transaction pid body (pv_cgt pv) new_id now /\
      transactions db' = transactions db ++ [t] /\ ledger_ok P db' /\
      portfolios db' = portfolios db /\ securities db' = securities db /\
      tax_rules db' = tax_rules db /\ ohlcv db' = ohlcv db /\
      (forall p s, (p, s) <> (pid, b_symbol body) -> rows_at db' p s = rows_at db p s) /\
      (exists zcgt, preview_amounts body pv zcgt) /\
      (b_type body = SELL -> b_qty body <= available) /\
      (b_type body <> SELL -> pv_cgt pv = dzero)
  | Some (Exn (ServiceError 404)) => b_symbol body ∉ map s_symbol (securities db)
  | Some (Exn (ServiceError 400)) =>
      b_type body = SELL /\
      (_compute_sell_cgt db pid body filer = Exn InsufficientLotsError /\
         available < b_qty body \/
       _compute_sell_cgt db pid body filer = Exn NoApplicableTaxRuleError)
  | _ => False
  end.

Lemma snapshot_row_key pid symbol w r : snapshot_row pid symbol w = Ok (Some r) -> hkey r = (pid, symbol).
Proof.
  unfold snapshot_row. intros H. res_step H. destruct (_ && _)%bool; [by inv_res|].
  repeat res_step H. inv_res. done.
Qed.

Lemma create_spec P db pid body filer new_id now :
  ledger_ok P db -> body_ok P body -> capacity P db (b_qty body) ->
  new_id ∉ map t_id (transactions db) ->
  create_contract P db pid body filer new_id now (create db pid body filer new_id now).
Proof.
  intros Hl Hb Hcap Hid. unfold create.
  pose proof (preview_spec P db pid body filer Hl Hb Hcap) as Hpv.
  pose proof (sell_cgt_spec P db pid body filer Hl Hb Hcap) as [HC _].
  destruct (preview db pid body filer) as [pv|e]; [|destruct Hpv as [-> ?]; done].
  destruct Hpv as (Hsym & Ham & Hcase).
  destruct (select_ok P db pid (b_symbol body) is_acquisition (lo_ids _ _ Hl) (lo_txns _ _ Hl))
    as (_ & _ & Hbv). fold (bought db pid (b_symbol body)) in Hbv.
  assert (Hqp : 0 < b_qty body) by apply Hb.
  destruct HC as (lots & _ & HC). cbv zeta in HC.
  destruct (pv_warnings pv) as [|w ws] eqn:Ew.
  - pose proof (new_transaction_ok P pid body (pv_cgt pv) new_id now Hb) as Ht.
    destruct (refresh_ok P db _ Hl Ht Hid Hcap) as (hs & E & Hok).
    cbn [t_portfolio_id t_symbol new_transaction] in E. rewrite E.
    cbn [create_contract]. do 7 (split; [done|]). split; [|split; [done|split]].
    + intros p s Hne. unfold _refresh_holdings_snapshot in E.
      destruct (walk _ _) as [w|]; [|done]. destruct (snapshot_row _ _ _) as [row|] eqn:Er; [|done].
      destruct (store_holding pid (b_symbol body) row _) as [hs'|] eqn:Es; [|done].
      injection E as E. subst hs'.
      destruct (store_holding_spec pid (b_symbol body) row (holdings db)) as (hs' & Es' & _ & _ & Ho).
      { apply (lo_hkeys _ _ Hl). }
      { intros r ->. by apply snapshot_row_key in Er. }
      cbn [holdings with_transactions] in Es. rewrite Es in Es'. injection Es' as <-. by apply Ho.
    + intros Et. rewrite Et in Hcase.
      destruct (_compute_sell_cgt db pid body filer) as [[cgt ls]|e].
      * destruct HC as (? & _). lia.
      * by destruct Hcase as (_ & _ & ?).
    + intros Et. destruct (b_type body); try exact (proj1 Hcase). by destruct Et.
  - cbn [create_contract]. destruct (b_type body);
      try (destruct Hcase as (_ & _ & Hbad); discriminate Hbad).
    split; [done|]. destruct (_compute_sell_cgt db pid body filer) as [[cgt ls]|e].
    + destruct Hcase as (_ & _ & Hbad). discriminate Hbad.
    + destruct e; try (exfalso; exact HC); [by right|]. left. split; [done|]. lia.
Qed.

(** ** Accounting of the walk *)

Definition gross_value (ts : list Transaction) : Z := zsum (map (fun t => qty t * prc t) ts).
Definition acquisitions (ts : list Transaction) : list Transaction := List.filter is_acquisition ts.
Definition sells (ts : list Transaction) : list Transaction := List.filter is_sell ts.

(** Every sell is covered by what is open when it happens. *)
Fixpoint covered (open : Z) (ts : list Transaction) : Prop :=
  match ts with
  | [] => True
  | t :: rest =>
      match t_type t with
      | BUY | BONUS | RIGHTS => covered (open + qty t) rest
      | SELL => qty t <= open /\ covered (open - qty t) rest
      | DIVIDEND => covered open rest
      end
  end.

Lemma zlots_cost_single q p : zlots_cost [(q, p)] = q * p.
Proof. unfold zlots_cost, zsum; simpl; lia. Qed.

(** Cost basis is neither created nor lost: open cost and proceeds account for
    what was invested and realised. *)
Definition balanced (z : zstate) : Prop :=
  z_realized z + z_invested z = zlots_cost (z_lots z) + z_proceeds z.

Lemma zstep_balanced P z t :
  txn_ok P t -> zlots_ok P (z_lots z) -> balanced z -> balanced (zstep z t).
Proof.
  intros (_ & Hq & _ & Hp) Hl Hb. fold (qty t) in Hq. fold (prc t) in Hp.
  unfold balanced, zstep in *. destruct (t_type t); simpl;
    rewrite ?zlots_cost_app, ?zlots_cost_single; try lia.
  pose proof (zsell_spec P (z_lots z) (qty t) (prc t) Hl ltac:(lia) Hp) as Hs.
  destruct (zsell _ _ _) as [l g]. destruct Hs as (_ & _ & -> & _). simpl. lia.
Qed.

Lemma zstep_lots_ok P z t : txn_ok P t -> zlots_ok P (z_lots z) -> zlots_ok P (z_lots (zstep z t)).
Proof.
  intros (_ & Hq & _ & Hp) Hl. fold (qty t) in Hq. fold (prc t) in Hp.
  unfold zstep. destruct (t_type t); simpl; try done;
    try (apply list.Forall_app; split; [done|constructor; [simpl; lia|constructor]]).
  pose proof (zsell_spec P (z_lots z) (qty t) (prc t) Hl ltac:(lia) Hp) as Hs.
  destruct (zsell _ _ _) as [l g]. apply Hs.
Qed.

Lemma zwalk_balanced P z ts :
  Forall (txn_ok P) ts -> zlots_ok P (z_lots z) -> balanced z -> balanced (zwalk z ts).
Proof.
  intros H. revert z; induction H as [|t ts Ht _ IH]; intros z Hl Hb; simpl; [done|].
  apply IH; [by apply zstep_lots_ok|by eapply zstep_balanced].
Qed.

Lemma zwalk_totals P z ts :
  Forall (txn_ok P) ts -> zlots_ok P (z_lots z) -> covered (zlots_qty (z_lots z)) ts ->
  zlots_qty (z_lots (zwalk z ts))
    = zlots_qty (z_lots z) + volume (acquisitions ts) - volume (sells ts) /\
  z_invested (zwalk z ts) = z_invested z + gross_value (acquisitions ts) /\
  z_proceeds (zwalk z ts) = z_proceeds z + gross_value (sells ts).
Proof.
  intros H. revert z; induction H as [|t ts Ht _ IH]; intros z Hl Hc.
  { cbn. unfold volume, gross_value, zsum. simpl. lia. }
  assert (Hl' : zlots_ok P (z_lots (zstep z t))) by (by apply zstep_lots_ok).
  specialize (IH (zstep z t) Hl'). destruct Ht as (_ & Hq & _ & Hp).
  fold (qty t) in Hq. fold (prc t) in Hp.
  unfold gross_value, acquisitions, sells, is_acquisition, is_sell in *.
  cbn [zwalk fold_left covered List.filter] in *. fold (zwalk (zstep z t) ts).
  unfold zstep in *. destruct (t_type t);
    rewrite ?bool_decide_eq_true_2, ?bool_decide_eq_false_2 by done;
    unfold volume, zsum in *; cbn [map fold_right z_lots z_invested z_proceeds] in *;
    try (rewrite zlots_qty_app, zlots_qty_single in IH; specialize (IH Hc); lia);
    try (specialize (IH Hc); lia).
  destruct Hc as [Hle Hc].
  pose proof (zsell_spec P (z_lots z) (qty t) (prc t) Hl ltac:(lia) Hp) as Hs.
  destruct (zsell _ _ _) as [l g]. destruct Hs as (_ & Hlq & _ & _).
  cbn [z_lots z_invested z_proceeds] in *.
  rewrite Z.min_l in Hlq by lia. rewrite Hlq in IH. specialize (IH Hc).
  rewrite Z.min_l in IH |- * by lia. lia.
Qed.

Lemma select_split db pid symbol f :
  volume (List.filter f (select_txns db pid symbol (fun _ => true)))
  = volume (select_txns db pid symbol f).
Proof.
  unfold select_txns. rewrite (volume_perm (sort_by _ (List.filter _ _)) _ (sort_by_perm _ _)).
  assert (Hp : forall l, volume (List.filter f (sort_by txn_le l)) = volume (List.filter f l)).
  { intros l. apply volume_perm. pose proof (sort_by_perm txn_le l) as H.
    induction H; simpl; repeat case_match; eauto using Permutation. }
  rewrite Hp. induction (transactions db) as [|t ts IH]; simpl; [done|].
  destruct (String.eqb (t_portfolio_id t) pid && String.eqb (t_symbol t) symbol)%bool; simpl; [|done].
  destruct (f t); simpl; rewrite ?volume_cons, ?IH; done.
Qed.

Lemma volume_app l1 l2 : volume (l1 ++ l2) = volume l1 + volume l2.
Proof. unfold volume. by rewrite map_app, zsum_app. Qed.

Lemma covered_snoc open ts t :
  covered open ts ->
  (t_type t = SELL -> qty t <= open + volume (acquisitions ts) - volume (sells ts)) ->
  covered open (ts ++ [t]).
Proof.
  revert open; induction ts as [|x xs IH]; intros open Hc Ht.
  { simpl. change (volume (acquisitions [])) with 0 in Ht. change (volume (sells [])) with 0 in Ht.
    destruct (t_type t); try done. split; [|done]. specialize (Ht eq_refl). lia. }
  cbn [covered app] in *. unfold acquisitions, sells, is_acquisition, is_sell in *.
  cbn [List.filter] in Ht.
  destruct (t_type x);
    rewrite ?bool_decide_eq_true_2, ?bool_decide_eq_false_2 in Ht by done;
    rewrite ?volume_cons in Ht;
    try (apply IH; [done|]; intros Ht'; specialize (Ht Ht'); lia).
  destruct Hc as [Hle Hc]. split; [done|]. apply IH; [done|].
  intros Ht'; specialize (Ht Ht'); lia.
Qed.

(** A row that is not before any other goes last. *)
Lemma sort_by_snoc {A} (le : A -> A -> bool) l x :
  (forall y, y ∈ l -> le y x = true) -> sort_by le (l ++ [x]) = sort_by le l ++ [x].
Proof.
  induction l as [|y ys IH]; intros H; simpl; [done|].
  rewrite IH by (intros; apply H; by right).
  assert (Hy : le y x = true) by (apply H; by left).
  generalize (sort_by le ys). intros s. induction s as [|z zs IHs]; simpl; [by rewrite Hy|].
  destruct (le y z); simpl; [done|by rewrite IHs].
Qed.

Lemma select_txns_snoc db t :
  (forall x, x ∈ transactions db -> t_portfolio_id x = t_portfolio_id t ->
             t_symbol x = t_symbol t -> txn_le x t = true) ->
  select_txns (with_transactions db (transactions db ++ [t])) (t_portfolio_id t) (t_symbol t)
    (fun _ => true)
  = select_txns db (t_portfolio_id t) (t_symbol t) (fun _ => true) ++ [t].
Proof.
  intros H. unfold select_txns. cbn [transactions with_transactions].
  rewrite filter_app. cbn [List.filter]. rewrite !String.eqb_refl. simpl.
  apply sort_by_snoc. intros y Hy%list_elem_of_In. apply filter_In in Hy as [Hin Hk].
  rewrite andb_true_r in Hk. apply andb_true_iff in Hk as [H1%String.eqb_eq H2%String.eqb_eq].
  apply H; [by apply list_elem_of_In|done..].
Qed.

(** ** Properties *)


(** A ledger with one purchase of 100 at 10.00 on day 20. *)
Definition ex_buy : Transaction :=
  mkTransaction "t1" "p1" "OGDC" BUY 20 (mkdec 1000000 (-4)) (mkdec 100000 (-4))
    dzero dzero dzero dzero None 1000.
Definition ex_holding : HoldingsSnapshot :=
  mkHolding "p1" "OGDC" (mkdec 1000000 (-4)) (mkdec 100000 (-4)) (mkdec 100000 (-2))
    (mkdec 0 (-2)) (mkdec 0 (-2)).
Definition ex_rule (filer : bool) (rate : Z) : TaxRule :=
  mkTaxRule "cgt" 0 None filer 0 None (mkdec rate (-4)).
Definition ex_db : database :=
  mkDb [mkPortfolio "p1" "u1" "Main" None "PKR" true 0] [ex_buy] [ex_holding]
    [mkSecurity "OGDC" "Oil and Gas Development" "Energy" true]
    [ex_rule true 150000; ex_rule false 300000] [].
Definition ex_sell (day quantity : Z) : TransactionCreate :=
  mkBody "OGDC" SELL day (mkdec quantity (-4)) (mkdec 150000 (-4))
    (mkdec 10000 (-4)) dzero dzero None.

Lemma ex_ledger_ok : ledger_ok 1000000 ex_db.
Proof.
  constructor.
  - apply NoDup_singleton.
  - repeat constructor; vm_compute; congruence.
  - repeat constructor; vm_compute; congruence.
  - apply NoDup_singleton.
  - apply NoDup_singleton.
  - intros pid symbol. unfold select_txns, rows_at, holding_key.
    cbn [transactions holdings ex_db List.filter t_portfolio_id t_symbol ex_buy
         h_portfolio_id h_symbol ex_holding].
    destruct (String.eqb_spec "p1" pid) as [<-|]; cbn [andb]; [|repeat split].
    destruct (String.eqb_spec "OGDC" symbol) as [<-|]; cbn [andb]; [|repeat split].
    split; [by vm_compute; intros [? _]|].
    do 3 (split; [done|]). split; [exists 100000; split; [done|vm_compute; congruence]|done].
Defined.


(** The tax of a sale.  [_compute_sell_cgt] charges the sum of the exactly
    rounded taxes of the FIFO lines over what past sells left of each purchase,
    and fails exactly when the open quantity is short or a line has no
    bracket. *)
Theorem compute_sell_cgt_correct P db pid body filer :
  ledger_ok P db -> body_ok P body -> capacity P db (b_qty body) ->
  sell_cgt_contract db pid body filer (_compute_sell_cgt db pid body filer).
Proof. intros Hl Hb Hc. by apply (sell_cgt_spec P). Qed.

Lemma compute_sell_cgt_correct_witness :
  sell_cgt_contract ex_db "p1" (ex_sell 400 400000) true
    (_compute_sell_cgt ex_db "p1" (ex_sell 400 400000) true).
Proof.
  apply (compute_sell_cgt_correct 1000000).
  - apply ex_ledger_ok.
  - repeat split; vm_compute; congruence.
  - repeat split; vm_compute; congruence.
Defined.

(** C3: accounting of the holdings walk.  The loops end; on a history whose
    sells are covered when they happen, the open quantity is what was bought
    less what was sold, realised gain plus invested amount equals open cost plus
    sale proceeds, exactly, and the stored row is the rounding of these. *)
Theorem snapshot_accounting P pid symbol txns :
  0 <= P -> Forall (txn_ok P) txns -> volume txns < 10 ^ 22 -> P * volume txns < 10 ^ 22 ->
  covered 0 txns ->
  exists w row cost realized,
    walk walk_init txns = Some w /\ snapshot_row pid symbol w = Ok row /\
    row_spec pid symbol (zwalk zinit txns) row /\
    repr 4 (dsum (map fst (w_lots w))) (volume (acquisitions txns) - volume (sells txns)) /\
    repr 8 (dsum (map (fun l => (l.1 * l.2)%dec) (w_lots w))) cost /\
    repr 8 (w_realized w) realized /\
    repr 8 (w_invested w) (gross_value (acquisitions txns)) /\
    realized + gross_value (acquisitions txns) = cost + gross_value (sells txns).
Proof.
  intros HP Hok Hv HPv Hc.
  destruct (history_row_spec P pid symbol txns HP Hok Hv HPv) as (w & row & Ew & Er & Hr).
  assert (Hz : zinv P 0 zinit) by (unfold zinv; cbn; repeat split; try lia; constructor).
  assert (Hw : walk_repr walk_init zinit) by (repeat split; constructor).
  pose proof (volume_nonneg P txns Hok) as Hn.
  destruct (walk_repr_walk P txns 0 walk_init zinit w) as [(Wl & Wr & _ & Wi) (Hl & Hlu & _)];
    [done..|lia|lia|lia|done|done|done|].
  destruct (zwalk_totals P zinit txns Hok ltac:(constructor) Hc) as (T1 & T2 & T3).
  pose proof (zwalk_balanced P zinit txns Hok ltac:(constructor) eq_refl) as Hb.
  pose proof (zlots_qty_nonneg P _ Hl) as Hqn.
  rewrite Z.add_0_l in Hlu.
  exists w, row, (zlots_cost (z_lots (zwalk zinit txns))), (z_realized (zwalk zinit txns)).
  unfold balanced in Hb. change (zlots_qty (z_lots zinit)) with 0 in T1.
  change (z_invested zinit) with 0 in T2. change (z_proceeds zinit) with 0 in T3.
  rewrite Z.add_0_l in T1, T2, T3.
  repeat match goal with |- _ /\ _ => split end; try done; [| |by rewrite <- T2|lia].
  - rewrite <- T1. eapply lots_repr_qty; [done..|lia].
  - eapply lots_repr_cost; [done..|].
    eapply Z.le_lt_trans; [apply Z.mul_le_mono_nonneg_l; [done|exact Hlu]|done].
Qed.

Lemma snapshot_accounting_witness :
  exists w row cost realized,
    walk walk_init [ex_buy] = Some w /\ snapshot_row "p1" "OGDC" w = Ok row /\
    row_spec "p1" "OGDC" (zwalk zinit [ex_buy]) row /\
    repr 4 (dsum (map fst (w_lots w))) (volume (acquisitions [ex_buy]) - volume (sells [ex_buy])) /\
    repr 8 (dsum (map (fun l => (l.1 * l.2)%dec) (w_lots w))) cost /\
    repr 8 (w_realized w) realized /\
    repr 8 (w_invested w) (gross_value (acquisitions [ex_buy])) /\
    realized + gross_value (acquisitions [ex_buy]) = cost + gross_value (sells [ex_buy]).
Proof.
  apply (snapshot_accounting 1000000); [lia| |reflexivity|reflexivity|exact I].
  repeat constructor; vm_compute; congruence.
Defined.

(** C4: a trade entered in chronological order keeps the history covered, and
    the holdings row then shows exactly what was bought less what was sold. *)
Theorem create_keeps_covered P db pid body filer new_id now db' t pv :
  ledger_ok P db -> body_ok P body -> capacity P db (b_qty body) ->
  new_id ∉ map t_id (transactions db) ->
  covered 0 (select_txns db pid (b_symbol body) (fun _ => true)) ->
  (forall x, x ∈ transactions db -> t_portfolio_id x = pid -> t_symbol x = b_symbol body ->
             txn_le x (new_transaction pid body dzero new_id now) = true) ->
  create db pid body filer new_id now = Some (Ok (db', t, pv)) ->
  covered 0 (select_txns db' pid (b_symbol body) (fun _ => true)) /\
  match head (rows_at db' pid (b_symbol body)) with
  | Some h => repr 4 (h_quantity h)
                (bought db' pid (b_symbol body) - sold db' pid (b_symbol body))
  | None => bought db' pid (b_symbol body) = sold db' pid (b_symbol body)
  end.
Proof.
  intros Hl Hb Hcap Hid Hcov Hord E.
  pose proof (create_spec P db pid body filer new_id now Hl Hb Hcap Hid) as HC. rewrite E in HC.
  destruct HC as (Ht & Htx & Hl' & _ & _ & _ & _ & _ & _ & Hsell & _).
  set (h := select_txns db pid (b_symbol body) (fun _ => true)) in *.
  assert (Hsel : select_txns db' pid (b_symbol body) (fun _ => true) = h ++ [t]).
  { transitivity (select_txns (with_transactions db (transactions db ++ [t])) pid (b_symbol body)
                    (fun _ => true)); [unfold select_txns; by rewrite Htx|].
    subst t. apply select_txns_snoc. intros x Hx Hp Hs. by apply Hord. }
  assert (Hcov' : covered 0 (h ++ [t])).
  { apply covered_snoc; [done|]. intros Hty. unfold acquisitions, sells, h.
    rewrite !select_split. fold (bought db pid (b_symbol body)) (sold db pid (b_symbol body)).
    rewrite Z.add_0_l. subst t. by apply Hsell. }
  rewrite Hsel. split; [done|].
  pose proof (lo_rows _ _ Hl' pid (b_symbol body)) as Hrow. rewrite Hsel in Hrow.
  destruct (select_ok P db' pid (b_symbol body) (fun _ => true) (lo_ids _ _ Hl') (lo_txns _ _ Hl'))
    as (_ & Hok & _). rewrite Hsel in Hok.
  destruct (zwalk_totals P zinit (h ++ [t]) Hok ltac:(constructor) Hcov') as (T1 & _).
  unfold acquisitions, sells in T1. rewrite <- Hsel, !select_split in T1.
  fold (bought db' pid (b_symbol body)) (sold db' pid (b_symbol body)) in T1.
  change (zlots_qty (z_lots zinit)) with 0 in T1. rewrite Z.add_0_l in T1. rewrite Hsel in T1.
  unfold row_spec in Hrow. rewrite T1 in Hrow.
  destruct (head _) as [hd|]; [apply Hrow|lia].
Qed.

Lemma create_keeps_covered_witness :
  match create ex_db "p1" (ex_sell 400 400000) true "t2" 2000 with
  | Some (Ok (db', _, _)) => covered 0 (select_txns db' "p1" "OGDC" (fun _ => true))
  | _ => False
  end.
Proof.
  destruct (create ex_db "p1" (ex_sell 400 400000) true "t2" 2000)
    as [[[[db' t] pv]|e]|] eqn:E; [|vm_compute in E; discriminate E..].
  refine (proj1 (create_keeps_covered 1000000 ex_db "p1" (ex_sell 400 400000) true "t2" 2000
                   db' t pv ex_ledger_ok _ _ _ _ _ E)).
  - repeat split; vm_compute; congruence.
  - repeat split; vm_compute; congruence.
  - change ("t2" ∉ ["t1"]). rewrite list_elem_of_singleton. discriminate.
  - exact I.
  - intros x Hx _ _. change (x ∈ [ex_buy]) in Hx. apply list_elem_of_singleton in Hx. subst. reflexivity.
Defined.

(** A sale at a loss dated before the only purchase is accepted although nothing
    was open on its date: the engine looks at quantities only (a gaining sale
    would fail on its negative holding period), while the holdings walk is
    chronological and drops the sale, so the row still shows 100 shares of which
    none are left. *)
Theorem create_accepts_backdated_sell :
  match create ex_db "p1"
          (mkBody "OGDC" SELL 10 (mkdec 1000000 (-4)) (mkdec 90000 (-4)) dzero dzero dzero None)
          true "t2" 2000 with
  | Some (Ok (db', _, _)) =>
      bought db' "p1" "OGDC" - sold db' "p1" "OGDC" = 0 /\
      map (fun h => units 4 (h_quantity h)) (rows_at db' "p1" "OGDC") = [1000000]
  | _ => False
  end.
Proof. vm_compute. done. Qed.

(** Recording a trade always ends: for every database, even one that breaks
    the ledger's invariants, and every body, the walk of [create] finishes the
    selling loop of each sale within two steps more than it has lots. *)
Theorem create_terminates db pid body filer new_id now :
  (exists r, create db pid body filer new_id now = Some r) /\
  forall txns w, exists w', walk txns w = Some w'.
Proof.
  split.
  - destruct (create db pid body filer new_id now) eqn:E; [by eexists|]. by apply create_total in E.
  - intros txns w. destruct (walk txns w) eqn:E; [by eexists|]. by apply walk_total in E.
Qed.

(** ** Other portfolios *)

Lemma store_holding_frame pid symbol row hs hs' :
  (forall r, row = Some r -> h_portfolio_id r = pid) -> store_holding pid symbol row hs = Ok hs' ->
  (forall h, h ∈ hs' -> h ∈ hs \/ h_portfolio_id h = pid) /\
  (forall f, (forall h, h_portfolio_id h = pid -> f h = false) -> List.filter f hs' = List.filter f hs).
Proof.
  intros Hr H. unfold store_holding in H. res_step H. injection H as <-.
  assert (Hkey : forall h, holding_key pid symbol h = true -> h_portfolio_id h = pid).
  { intros h Hh. unfold holding_key in Hh. by apply andb_true_iff in Hh as [Hh%String.eqb_eq _]. }
  destruct row as [r|], a as [x|].
  - split.
    + intros h (y & -> & Hy)%list_elem_of_fmap. destruct (holding_key pid symbol y); [right; by apply Hr|by left].
    + intros f Hf. clear E. induction hs as [|y l IH]; [done|]. cbn [map List.filter]. rewrite IH.
      destruct (holding_key pid symbol y) eqn:Ek; [|done]. by rewrite (Hf r (Hr r eq_refl)), (Hf y (Hkey y Ek)).
  - split.
    + intros h [Hh| ->%list_elem_of_singleton]%elem_of_app; [by left|right; by apply Hr].
    + intros f Hf. rewrite List.filter_app. cbn [List.filter]. by rewrite (Hf r (Hr r eq_refl)), app_nil_r.
  - split.
    + intros h [Hh _]%elem_of_lfilter. by left.
    + intros f Hf. rewrite lfilter_swap. apply lfilter_all. intros h [_ Hh]%elem_of_lfilter.
      apply negb_true_iff, not_true_iff_false. intros Hk%Hkey%Hf. congruence.
  - split; [by left|done].
Qed.

(** A trade adds its own row and touches the holdings of its own portfolio. *)
Lemma create_frame db pid body filer new_id now db' t pv :
  create db pid body filer new_id now = Some (Ok (db', t, pv)) ->
  exists hs, db' = with_holdings (with_transactions db (transactions db ++ [t])) hs /\ t_portfolio_id t = pid /\
    t_id t = new_id /\
    (forall h, h ∈ hs -> h ∈ holdings db \/ h_portfolio_id h = pid) /\
    (forall f, (forall h, h_portfolio_id h = pid -> f h = false) -> List.filter f hs = List.filter f (holdings db)).
Proof.
  unfold create. destruct (preview db pid body filer) as [p|]; [|discriminate]. destruct (pv_warnings p); [|discriminate].
  set (db1 := with_transactions _ _). unfold _refresh_holdings_snapshot.
  destruct (walk _ _) as [w|]; [|discriminate]. destruct (snapshot_row _ _ _) as [row|] eqn:Er; [|discriminate].
  destruct (store_holding _ _ _ _) as [hs|] eqn:Es; [|discriminate]. intros [= <- <- <-]. exists hs.
  split_and!; [done|done|done|..].
  all: apply store_holding_frame in Es as [H1 H2]; [done|intros r ->; apply snapshot_row_key in Er; by injection Er].
Qed.
