(* ===== verification/Adjustments.v ===== *)
(** * Adjustments: split- and dividend-adjusted closes

    [psx_ingest/adjustments.py] and the Celery task
    [psx_ingest/tasks/adjust_prices.py] that applies it to the tables.

    [compute_adjusted_prices] is the single backward pass with a pointer into
    the events ([skip_events] is its inner loop); [reference_adjusted] adjusts
    each row on its own from the events after it.  The task is a function of the
    [ohlcv_daily] and [corporate_actions] tables. *)

From S2P Require Import Prelude Decimal.

Record CorporateEvent := mkEvent {
  ex_date : Z;
  action_type : string;
  amount_per_share : option dec;
  ratio_numerator : option Z;
  ratio_denominator : option Z;
}.

Record PriceRow := mkPriceRow {
  pr_date : Z;
  pr_close : dec;
  pr_adjusted : option dec;
}.

(** Truth value of an optional integer or decimal. *)
Definition truthy_int (o : option Z) : bool := match o with Some n => negb (n =? 0) | None => false end.
Definition truthy_dec (o : option dec) : bool :=
  match o with Some d => negb (d =? dzero)%dec | None => false end.

Definition d_one : dec := dec_of_Z 1.
Definition min_price : dec := mkdec 1 (-2).

Definition _event_to_adjustment (event : CorporateEvent) : res (dec * dec) :=
  let action := action_type event in
  if bool_decide (action ∈ ["split"; "bonus"; "rights"]) then
    match ratio_numerator event, ratio_denominator event with
    | Some num, Some den =>
        if (negb (num =? 0) && negb (den =? 0) && (0 <? den))%bool then
          let! multiplier := ddiv (dec_of_Z den) (dec_of_Z (den + num)) in
          Ok (multiplier, dzero)
        else Ok (d_one, dzero)
    | _, _ => Ok (d_one, dzero)
    end
  else if String.eqb action "dividend_cash" then
    Ok (d_one, match amount_per_share event with Some a => a | None => dzero end)
  else Ok (d_one, dzero).

(** [(ex_date, multiplier, addend)] *)
Definition adjustment : Type := Z * (dec * dec).

Definition to_adjustment (event : CorporateEvent) : res adjustment :=
  let! ma := _event_to_adjustment event in Ok (ex_date event, ma).

(** The [while adj_idx < len(adjustments)] loop: the events after [d] are
    folded into the factors, the rest is what the pointer still has ahead. *)
Fixpoint skip_events (d : Z) (factors : dec * dec) (ahead : list adjustment)
    : (dec * dec) * list adjustment :=
  match ahead with
  | [] => (factors, [])
  | (ex, (mult, addend)) :: rest =>
      if d <? ex then
        skip_events d ((factors.1 * mult)%dec, (factors.2 * mult + addend)%dec) rest
      else (factors, ahead)
  end.

Definition adjust_row (factors : dec * dec) (row : PriceRow) : res PriceRow :=
  let adj_close := (pr_close row * factors.1 - factors.2)%dec in
  let adj_close := dmax adj_close min_price in
  let! adj_close := dquantize ROUND_HALF_UP 4 adj_close in
  Ok (mkPriceRow (pr_date row) (pr_close row) (Some adj_close)).

(** The backward pass over the rows, newest first. *)
Fixpoint backward_pass (rows : list PriceRow) (factors : dec * dec) (ahead : list adjustment)
    : res (list PriceRow) :=
  match rows with
  | [] => Ok []
  | row :: rest =>
      let '(factors', ahead') := skip_events (pr_date row) factors ahead in
      let! r := adjust_row factors' row in
      let! rs := backward_pass rest factors' ahead' in
      Ok (r :: rs)
  end.

Definition date_le (a b : PriceRow) : bool := pr_date a <=? pr_date b.
Definition newest_first (a b : CorporateEvent) : bool := ex_date b <=? ex_date a.

Definition compute_adjusted_prices (prices : list PriceRow) (events : list CorporateEvent)
    : res (list PriceRow) :=
  match prices with
  | [] => Ok prices
  | _ =>
      let sorted_prices := sort_by date_le prices in
      let sorted_events := sort_by newest_first events in
      let! adjustments := map_res to_adjustment sorted_events in
      let! result := backward_pass (rev sorted_prices) (d_one, dzero) adjustments in
      Ok (rev result)
  end.

(** ** The task *)

(** A row of [ohlcv_daily] and of [corporate_actions], as far as the task reads
    them. *)
Record OhlcvRow := mkOhlcvRow {
  oh_symbol : string;
  oh_date : Z;
  oh_close : option dec;
  oh_adjusted_close : option dec;
}.

Record CorporateAction := mkAction {
  ca_symbol : string;
  ca_action_type : string;
  ca_announcement_date : option Z;
  ca_ex_date : option Z;
  ca_amount_per_share : option dec;
  ca_ratio_numerator : option Z;
  ca_ratio_denominator : option Z;
}.

(** [ORDER BY date ASC] of the rows of [symbol] with a close. *)
Definition _fetch_prices (ohlcv : list OhlcvRow) (symbol : string) : list PriceRow :=
  sort_by date_le
    (omap (fun r => if String.eqb (oh_symbol r) symbol
                    then option_map (fun c => mkPriceRow (oh_date r) c None) (oh_close r)
                    else None) ohlcv).

Definition relevant_action (symbol : string) (a : CorporateAction) : option CorporateEvent :=
  if (String.eqb (ca_symbol a) symbol
      && bool_decide (ca_action_type a ∈ ["split"; "bonus"; "rights"; "dividend_cash"]))%bool
  then
    match (match ca_ex_date a with Some d => Some d | None => ca_announcement_date a end) with
    | Some d =>
        Some (mkEvent d (ca_action_type a)
                (if truthy_dec (ca_amount_per_share a) then ca_amount_per_share a else None)
                (if truthy_int (ca_ratio_numerator a) then ca_ratio_numerator a else None)
                (if truthy_int (ca_ratio_denominator a) then ca_ratio_denominator a else None))
    | None => None
    end
  else None.

(** [ORDER BY COALESCE(ex_date, announcement_date) ASC] *)
Definition _fetch_events (actions : list CorporateAction) (symbol : string) : list CorporateEvent :=
  sort_by (fun a b => ex_date a <=? ex_date b) (omap (relevant_action symbol) actions).

(** [UPDATE ohlcv_daily SET adjusted_close = ... WHERE symbol = ... AND date = ...] *)
Definition update_adjusted (symbol : string) (ohlcv : list OhlcvRow) (row : PriceRow)
    : list OhlcvRow :=
  match pr_adjusted row with
  | None => ohlcv
  | Some a =>
      map (fun r => if (String.eqb (oh_symbol r) symbol && (oh_date r =? pr_date row))%bool
                    then mkOhlcvRow (oh_symbol r) (oh_date r) (oh_close r) (Some a) else r) ohlcv
  end.

Definition _write_adjusted_prices (ohlcv : list OhlcvRow) (symbol : string) (rows : list PriceRow)
    : list OhlcvRow * Z :=
  (fold_left (update_adjusted symbol) rows ohlcv, Z.of_nat (length rows)).

Definition _recompute_symbol (actions : list CorporateAction) (ohlcv : list OhlcvRow)
    (symbol : string) : res (list OhlcvRow * Z) :=
  let prices := _fetch_prices ohlcv symbol in
  let events := _fetch_events actions symbol in
  match prices with
  | [] => Ok (ohlcv, 0)
  | _ =>
      let! adjusted := compute_adjusted_prices prices events in
      Ok (_write_adjusted_prices ohlcv symbol adjusted)
  end.

Record recompute_summary := mkSummary {
  symbols_ok : Z;
  symbols_err : Z;
  rows_updated : Z;
}.

(** The [for symbol in target] loop: a failing symbol is counted and skipped. *)
Definition recompute_step (actions : list CorporateAction)
    (st : list OhlcvRow * recompute_summary) (symbol : string)
    : list OhlcvRow * recompute_summary :=
  let '(ohlcv, s) := st in
  match _recompute_symbol actions ohlcv symbol with
  | Ok (ohlcv', count) =>
      (ohlcv', mkSummary (symbols_ok s + 1) (symbols_err s) (rows_updated s + count))
  | Exn _ => (ohlcv, mkSummary (symbols_ok s) (symbols_err s + 1) (rows_updated s))
  end.

Definition _run_recompute (actions : list CorporateAction) (ohlcv : list OhlcvRow)
    (target : list string) : list OhlcvRow * recompute_summary :=
  fold_left (recompute_step actions) target (ohlcv, mkSummary 0 0 0).

(** ** The reference: each row on its own *)

Definition compose_factors (factors : dec * dec) (a : adjustment) : dec * dec :=
  ((factors.1 * a.2.1)%dec, (factors.2 * a.2.1 + a.2.2)%dec).

(** The factors of a date, from all the events after it. *)
Definition factors_at (adjustments : list adjustment) (d : Z) : dec * dec :=
  fold_left compose_factors (List.filter (fun a : adjustment => d <? a.1) adjustments) (d_one, dzero).

Definition reference_adjusted (prices : list PriceRow) (events : list CorporateEvent)
    : res (list PriceRow) :=
  let! adjustments := map_res to_adjustment (sort_by newest_first events) in
  let! result := map_res (fun row => adjust_row (factors_at adjustments (pr_date row)) row)
                   (rev (sort_by date_le prices)) in
  Ok (rev result).

(** [skip_events] is a prefix fold. *)
Lemma skip_events_spec d factors ahead :
  StronglySorted (fun a b : adjustment => b.1 <= a.1) ahead ->
  let '(factors', ahead') := skip_events d factors ahead in
  factors' = fold_left compose_factors (List.filter (fun a : adjustment => d <? a.1) ahead) factors /\
  ahead' = List.filter (fun a : adjustment => negb (d <? a.1)) ahead.
Proof.
  intros H. revert factors; induction H as [|[ex [m a]] l Hs IH Hall]; intros factors; [done|].
  cbn [skip_events List.filter fst snd]. destruct (d <? ex) eqn:E; cbn [negb].
  - apply IH.
  - assert (Hno : forall x, In x l -> (d <? x.1) = false).
    { intros x Hx. rewrite List.Forall_forall in Hall. specialize (Hall x Hx). simpl in Hall.
      zbool. apply Z.ltb_ge. lia. }
    clear -Hno. split; [|f_equal].
    + induction l as [|x xs IHl]; simpl; [done|].
      rewrite (Hno x) by (by left). apply IHl. intros; apply Hno; by right.
    + induction l as [|x xs IHl]; simpl; [done|].
      rewrite (Hno x) by (by left). simpl. f_equal. apply IHl. intros; apply Hno; by right.
Qed.

Lemma filter_filter {A} (f g : A -> bool) l :
  List.filter f (List.filter g l) = List.filter (fun x => (g x && f x)%bool) l.
Proof.
  induction l as [|x xs IH]; simpl; [done|].
  destruct (g x); simpl; [|done]. by destruct (f x); rewrite IH.
Qed.

Lemma StronglySorted_filter {A} (R : A -> A -> Prop) f l :
  StronglySorted R l -> StronglySorted R (List.filter f l).
Proof.
  induction 1 as [|x xs Hs IH Hx]; simpl; [constructor|]. destruct (f x); [|done].
  constructor; [done|]. clear -Hx. induction Hx; simpl; [done|]. destruct (f x0); auto.
Qed.

(** Sorted newest first, the events after an older date start with those after
    a newer one. *)
Lemma filter_after_split (l : list adjustment) d1 d2 :
  d2 <= d1 -> StronglySorted (fun a b : adjustment => b.1 <= a.1) l ->
  List.filter (fun a : adjustment => d2 <? a.1) l
  = List.filter (fun a : adjustment => d1 <? a.1) l
    ++ List.filter (fun a : adjustment => d2 <? a.1) (List.filter (fun a : adjustment => negb (d1 <? a.1)) l).
Proof.
  intros Hd. induction 1 as [|a l Hs IH Hall]; simpl; [done|].
  destruct (d1 <? a.1) eqn:E1; simpl.
  - assert ((d2 <? a.1) = true) as -> by (zbool; apply Z.ltb_lt; lia). by rewrite IH.
  - assert (Hnil : List.filter (fun a : adjustment => d1 <? a.1) l = []).
    { clear IH. induction Hall as [|x xs Hx _ IHl]; simpl; [done|].
      inversion_clear Hs. zbool. rewrite (proj2 (Z.ltb_ge _ _)) by lia. auto. }
    rewrite Hnil in *. simpl in *. by destruct (d2 <? a.1); [rewrite IH|].
Qed.

Lemma backward_pass_spec adjustments rows d0 :
  StronglySorted (fun a b : adjustment => b.1 <= a.1) adjustments ->
  StronglySorted (fun a b => pr_date b <= pr_date a) rows ->
  Forall (fun r => pr_date r <= d0) rows ->
  backward_pass rows (factors_at adjustments d0)
    (List.filter (fun a : adjustment => negb (d0 <? a.1)) adjustments)
  = map_res (fun row => adjust_row (factors_at adjustments (pr_date row)) row) rows.
Proof.
  intros Ha Hr. revert d0; induction Hr as [|r rs Hs IH Hall]; intros d0 Hd; [done|].
  apply list.Forall_cons in Hd as [Hd _]. cbn [backward_pass map_res].
  pose proof (skip_events_spec (pr_date r) (factors_at adjustments d0) _
                (StronglySorted_filter _ (fun a : adjustment => negb (d0 <? a.1)) _ Ha)) as Hk.
  destruct (skip_events _ _ _) as [f' a']. destruct Hk as [-> ->].
  assert (Hf : fold_left compose_factors
                 (List.filter (fun a : adjustment => pr_date r <? a.1)
                    (List.filter (fun a : adjustment => negb (d0 <? a.1)) adjustments))
                 (factors_at adjustments d0)
               = factors_at adjustments (pr_date r)).
  { unfold factors_at. rewrite (filter_after_split adjustments d0 (pr_date r)) by done.
    by rewrite fold_left_app. }
  rewrite Hf, filter_filter.
  rewrite (List.filter_ext (fun x : adjustment => (negb (d0 <? x.1) && negb (pr_date r <? x.1))%bool)
             (fun x : adjustment => negb (pr_date r <? x.1))).
  2: { intros x. destruct (Z.ltb_spec d0 x.1), (Z.ltb_spec (pr_date r) x.1); simpl; lia || done. }
  by rewrite IH.
Qed.

Lemma StronglySorted_rev {A} (R : A -> A -> Prop) l :
  StronglySorted R l -> StronglySorted (fun a b => R b a) (rev l).
Proof.
  induction 1 as [|x xs Hs IH Hx]; simpl; [constructor|].
  assert (Hr : Forall (fun y => R x y) (rev xs)) by (by apply List.Forall_rev).
  clear -IH Hr. induction IH as [|y ys Hs IH Hy]; simpl; [repeat constructor|].
  apply list.Forall_cons in Hr as [Hxy Hr]. constructor; [auto|].
  apply list.Forall_app. split; [done|repeat constructor; done].
Qed.

Lemma sorted_adjustments events adjustments :
  map_res to_adjustment (sort_by newest_first events) = Ok adjustments ->
  StronglySorted (fun a b : adjustment => b.1 <= a.1) adjustments.
Proof.
  intros H. apply map_res_Forall2 in H.
  assert (Hs : StronglySorted (fun a b => newest_first a b = true) (sort_by newest_first events)).
  { apply sort_by_sorted; unfold newest_first; intros *; rewrite ?Z.leb_le; lia. }
  revert adjustments H. induction Hs as [|e es Hs IH He]; intros adjs H;
    inversion H as [|? a ? l Ha Hl]; subst; [constructor|].
  constructor; [auto|]. clear IH H Hs. unfold to_adjustment in Ha. res_step Ha. inv_res.
  induction Hl as [|e' a' es l Ha' _ IH]; [constructor|].
  apply list.Forall_cons in He as [He1 He]. constructor; [|auto].
  unfold to_adjustment in Ha'. res_step Ha'. inv_res. simpl.
  unfold newest_first in He1. zbool. lia.
Qed.

Lemma compute_adjusted_reference prices events :
  prices <> [] -> compute_adjusted_prices prices events = reference_adjusted prices events.
Proof.
  intros Hne. unfold compute_adjusted_prices, reference_adjusted.
  destruct prices as [|p ps]; [done|]. set (prices := p :: ps) in *.
  destruct (map_res to_adjustment _) as [adjs|e] eqn:E; [|done].
  pose proof (sorted_adjustments events adjs E) as Ha.
  assert (Hs : StronglySorted (fun a b => pr_date b <= pr_date a) (rev (sort_by date_le prices))).
  { apply StronglySorted_rev.
    assert (Hs : StronglySorted (fun a b => date_le a b = true) (sort_by date_le prices))
      by (apply sort_by_sorted; unfold date_le; intros *; rewrite ?Z.leb_le; lia).
    clear -Hs. induction Hs as [|x xs Hs IH Hx]; constructor; [done|].
    eapply List.Forall_impl; [|exact Hx]. unfold date_le. intros ? ?; zbool; done. }
  destruct (key_bound (fun a : adjustment => a.1) adjs) as [d1 H1].
  destruct (key_bound pr_date (rev (sort_by date_le prices))) as [d2 H2].
  set (d0 := Z.max d1 d2).
  assert (Hev : List.filter (fun a : adjustment => d0 <? a.1) adjs = [] /\
                List.filter (fun a : adjustment => negb (d0 <? a.1)) adjs = adjs).
  { assert (Hall : forall a, In a adjs -> (d0 <? a.1) = false)
      by (intros a Hin; apply Z.ltb_ge; specialize (H1 a Hin); lia).
    clearbody d0. clear -Hall. induction adjs as [|a l IH]; simpl; [done|].
    rewrite (Hall a) by (by left). simpl.
    destruct IH as [-> ->]; [intros; apply Hall; by right|done]. }
  pose proof (backward_pass_spec adjs (rev (sort_by date_le prices)) d0 Ha Hs) as Hb.
  destruct Hev as [E1 E2].
  assert (factors_at adjs d0 = (d_one, dzero)) as E0 by (unfold factors_at; by rewrite E1).
  rewrite E0, E2 in Hb.
  rewrite Hb; [done|]. apply List.Forall_forall. intros r Hin. specialize (H2 r Hin). lia.
Qed.

(** ** Well-formed output *)

Lemma dmax_ge_r a b : (b <=? dmax a b)%dec = true.
Proof.
  destruct (repr_exists 0 a) as (s1 & z1 & H1 & R1), (repr_exists 0 b) as (s2 & z2 & H2 & R2).
  apply (repr_finer s1 s2) in R1; [|lia]. apply (repr_finer s2 s1) in R2; [|lia].
  rewrite (Z.add_comm s2 s1) in R2.
  rewrite (dleb_repr _ _ _ _ _ R2 (dmax_repr _ _ _ _ _ R1 R2)). apply Z.leb_le. lia.
Qed.

(** Rounding to four places does not go below 0.01. *)
Lemma quantize_ge_min d q :
  (min_price <=? d)%dec = true -> dquantize ROUND_HALF_UP 4 d = Ok q ->
  repr 4 q (units 4 q) /\ 100 <= units 4 q.
Proof.
  intros Hge Hq. apply dquantize_inv in Hq as [_ Hr].
  rewrite (repr_units _ _ _ Hr). split; [done|].
  destruct (repr_exists 4 d) as (s & z & Hs & Hz).
  rewrite (quantized_repr ROUND_HALF_UP 4 s d z) by done.
  assert (Hm : repr s min_price (100 * 10 ^ (s - 4))).
  { replace s with (4 + (s - 4)) at 1 by lia. apply repr_finer; [lia|done]. }
  rewrite (dleb_repr s _ _ _ _ Hm Hz) in Hge. apply Z.leb_le in Hge. cbn [div_round].
  pose proof (pow10_pos (s - 4) ltac:(lia)).
  rewrite <- (div_half_up_exact 100 (10 ^ (s - 4))) by done. by apply div_half_up_mono.
Qed.

(** A row keeps its date and raw close and gets an adjusted close of at least
    0.01, on the four-decimal grid. *)
Definition row_adjusted (raw out : PriceRow) : Prop :=
  pr_date out = pr_date raw /\ pr_close out = pr_close raw /\
  exists a, pr_adjusted out = Some a /\ on_grid 4 a /\ 100 <= units 4 a.

Lemma adjust_row_wf factors row out : adjust_row factors row = Ok out -> row_adjusted row out.
Proof.
  unfold adjust_row. intros H. res_step H. inv_res. split; [done|]. split; [done|].
  eexists. split; [done|]. eapply quantize_ge_min; [|exact E]. apply dmax_ge_r.
Qed.

Lemma Forall2_rev {A B} (R : A -> B -> Prop) l k : Forall2 R l k -> Forall2 R (rev l) (rev k).
Proof. induction 1; simpl; [constructor|]. by apply Forall2_app; [|constructor]. Qed.

Lemma compute_adjusted_wf prices events out :
  compute_adjusted_prices prices events = Ok out ->
  Forall2 row_adjusted (sort_by date_le prices) out.
Proof.
  intros H. destruct prices as [|p ps]; [simpl in H; inv_res; constructor|].
  rewrite compute_adjusted_reference in H by done. unfold reference_adjusted in H.
  res_step H. res_step H. inv_res. apply map_res_Forall2 in E0.
  rewrite <- (rev_involutive (sort_by date_le (p :: ps))). apply Forall2_rev.
  eapply list.Forall2_impl; [exact E0|]. intros r o Hr. exact (adjust_row_wf _ _ _ Hr).
Qed.

(** ** The task *)

Lemma update_adjusted_other symbol row ohlcv :
  Forall2 (fun r r' => oh_symbol r' = oh_symbol r /\ oh_date r' = oh_date r /\
                       oh_close r' = oh_close r /\
                       (oh_symbol r <> symbol -> r' = r))
    ohlcv (update_adjusted symbol ohlcv row).
Proof.
  unfold update_adjusted. destruct (pr_adjusted row).
  - induction ohlcv as [|r rs IH]; simpl; constructor; [|done].
    destruct (String.eqb_spec (oh_symbol r) symbol); simpl; [case_match|]; done.
  - induction ohlcv; constructor; done.
Qed.

Definition only_adjusted (touched : string -> Prop) (r r' : OhlcvRow) : Prop :=
  oh_symbol r' = oh_symbol r /\ oh_date r' = oh_date r /\ oh_close r' = oh_close r /\
  (~ touched (oh_symbol r) -> r' = r).

Lemma only_adjusted_refl touched l : Forall2 (only_adjusted touched) l l.
Proof. induction l; constructor; [by repeat split|done]. Qed.

Lemma only_adjusted_trans touched l1 l2 l3 :
  Forall2 (only_adjusted touched) l1 l2 -> Forall2 (only_adjusted touched) l2 l3 ->
  Forall2 (only_adjusted touched) l1 l3.
Proof.
  intros H. revert l3; induction H as [|a b l1 l2 (H1 & H2 & H3 & H4) _ IH]; intros l3 H';
    inversion H' as [|? c ? l (G1 & G2 & G3 & G4) Hl]; subst; constructor; [|by apply IH].
  repeat split; try congruence. intros Ht. rewrite G4; [by apply H4|]. congruence.
Qed.

Lemma write_adjusted_only (touched : string -> Prop) symbol rows ohlcv :
  touched symbol -> Forall2 (only_adjusted touched) ohlcv (_write_adjusted_prices ohlcv symbol rows).1.
Proof.
  intros Ht. unfold _write_adjusted_prices; simpl.
  revert ohlcv; induction rows as [|r rs IH]; intros ohlcv; simpl; [apply only_adjusted_refl|].
  eapply only_adjusted_trans; [|apply IH].
  eapply list.Forall2_impl; [apply (update_adjusted_other symbol r)|].
  intros a b (H1 & H2 & H3 & H4). repeat split; try done. intros Hn. apply H4. congruence.
Qed.

Lemma recompute_symbol_only (touched : string -> Prop) actions ohlcv symbol out :
  touched symbol -> _recompute_symbol actions ohlcv symbol = Ok out ->
  Forall2 (only_adjusted touched) ohlcv out.1 /\
  out.2 = Z.of_nat (length (_fetch_prices ohlcv symbol)).
Proof.
  intros Ht. unfold _recompute_symbol. destruct (_fetch_prices ohlcv symbol) as [|p ps] eqn:E.
  - intros H; inv_res. split; [apply only_adjusted_refl|done].
  - intros H. res_step H. inv_res. split; [by apply write_adjusted_only|]. simpl.
    apply compute_adjusted_wf in E0. apply Forall2_length in E0.
    rewrite sort_by_length in E0. by rewrite <- E0.
Qed.

Lemma run_recompute_inv actions ohlcv target st s0 :
  let touched := fun x => x ∈ target in
  fold_left (recompute_step actions) target (ohlcv, s0) = st ->
  Forall2 (only_adjusted touched) ohlcv st.1 /\
  symbols_ok st.2 + symbols_err st.2
    = symbols_ok s0 + symbols_err s0 + Z.of_nat (length target).
Proof.
  revert ohlcv s0. induction target as [|x xs IH]; intros ohlcv s0 touched E; cbn [fold_left] in E.
  { subst st. simpl. split; [apply only_adjusted_refl|lia]. }
  assert (Hweak : forall l l', Forall2 (only_adjusted (fun y => y ∈ xs)) l l' ->
                               Forall2 (only_adjusted touched) l l').
  { intros l l' H. eapply list.Forall2_impl; [exact H|]. intros a b (H1 & H2 & H3 & H4).
    repeat split; try done. intros Hn. apply H4. intros Hx. apply Hn. by right. }
  destruct (recompute_step actions (ohlcv, s0) x) as [o1 s1] eqn:Es.
  destruct (IH _ _ E) as [H1 H2]. unfold recompute_step in Es.
  destruct (_recompute_symbol actions ohlcv x) as [[o' c]|e] eqn:Er; injection Es as <- <-;
    cbn [symbols_ok symbols_err length] in *.
  - apply (recompute_symbol_only touched) in Er as [Ho _]; [|by left].
    split; [|lia]. eapply only_adjusted_trans; [exact Ho|by apply Hweak].
  - split; [by apply Hweak|lia].
Qed.

(** ** Properties *)

(** C5: the single backward pass with its event pointer computes, for any prices
    and events in any order, what adjusting each row on its own from all the
    events after its date gives, errors included. *)
Theorem compute_adjusted_prices_correct prices events :
  prices <> [] -> compute_adjusted_prices prices events = reference_adjusted prices events.
Proof. apply compute_adjusted_reference. Qed.

Definition ex_prices : list PriceRow :=
  [mkPriceRow 1 (dec_of_Z 200) None; mkPriceRow 3 (dec_of_Z 190) None;
   mkPriceRow 5 (dec_of_Z 95) None].
Definition ex_events : list CorporateEvent :=
  [mkEvent 2 "dividend_cash" (Some (dec_of_Z 10)) None None;
   mkEvent 4 "split" None (Some 1) (Some 1)].

Lemma compute_adjusted_prices_correct_witness :
  compute_adjusted_prices ex_prices ex_events = reference_adjusted ex_prices ex_events.
Proof. apply compute_adjusted_prices_correct. discriminate. Defined.

(** whatever the events, a result has one row per price in date order, with
    the dates and raw closes unchanged and every adjusted close at least 0.01
    with four decimals. *)
Theorem adjusted_rows_wf prices events out :
  compute_adjusted_prices prices events = Ok out ->
  Forall2 row_adjusted (sort_by date_le prices) out.
Proof. apply compute_adjusted_wf. Qed.

Lemma adjusted_rows_wf_witness :
  match compute_adjusted_prices ex_prices ex_events with
  | Ok out => Forall2 row_adjusted (sort_by date_le ex_prices) out
  | Exn _ => False
  end.
Proof.
  destruct (compute_adjusted_prices ex_prices ex_events) as [out|e] eqn:E;
    [|vm_compute in E; discriminate E].
  exact (adjusted_rows_wf ex_prices ex_events out E).
Defined.

(** A dividend before a later split is subtracted at full size from prices
    that the split halves: 200 before a dividend of 10 and a 1:1 split becomes
    90, though 200 less the dividend is 190, which the split makes 95 (as the
    close of 190 after the dividend does). *)
Theorem dividend_before_split_composed_wrongly :
  map_res (fun r => match pr_adjusted r with Some a => Ok (units 4 a) | None => Exn TypeError end)
    (match compute_adjusted_prices ex_prices ex_events with Ok l => l | Exn _ => [] end)
  = Ok [900000; 950000; 950000].
Proof. vm_compute. reflexivity. Qed.

(** The task changes nothing but [adjusted_close], only on rows of the
    symbols asked for, leaves a failing symbol's rows as they were, and counts
    every symbol once. *)
Theorem run_recompute_frame actions ohlcv target :
  let '(ohlcv', summary) := _run_recompute actions ohlcv target in
  Forall2 (only_adjusted (fun x => x ∈ target)) ohlcv ohlcv' /\
  symbols_ok summary + symbols_err summary = Z.of_nat (length target).
Proof.
  destruct (_run_recompute actions ohlcv target) as [o s] eqn:E.
  destruct (run_recompute_inv actions ohlcv target (o, s) (mkSummary 0 0 0) E) as [H1 H2].
  split; [done|]. simpl in H2. lia.
Qed.
