(* ===== verification/TaxSimulator.v ===== *)
(** * TaxSimulator: [psx_api/services/tax_simulator_service.py]

    [sim_step] is the body of the transaction loop of [_simulate_portfolio]: the
    live lots per symbol are a map, the totals a record.  [simulate] sums the
    portfolios of a user.  The theorems compare the two filer statuses on the
    same history. *)

From S2P Require Import Prelude Decimal Cgt Ledger.

Record sim_totals := mkSim {
  st_cgt_filer : dec;
  st_cgt_nonfiler : dec;
  st_gross_gain : dec;
  st_brokerage : dec;
  st_fed : dec;
  st_cvt : dec;
  st_count : Z;
}.

Definition sim_zero : sim_totals := mkSim dzero dzero dzero dzero dzero dzero 0.

Abbreviation lots_map := (gmap string (list BuyLot)).

(** [for lot in lots_by_symbol[t.symbol]: ...] *)
Fixpoint consume_lots (lots : list BuyLot) (remaining : dec) : list BuyLot :=
  match lots with
  | [] => []
  | lot :: rest =>
      if (remaining <=? dzero)%dec then lots
      else
        let take := dmin (lot_quantity lot) remaining in
        mkBuyLot (lot_transaction_id lot) (lot_buy_date lot) (lot_quantity lot - take)%dec
          (lot_price lot) :: consume_lots rest (remaining - take)%dec
  end.

(** The two runs of [match_fifo] inside the [try]. *)
Definition both_results (brackets : list TaxBracket) (lots : list BuyLot) (t : Transaction)
    : res (CgtResult * CgtResult) :=
  let! filer_result := match_fifo (t_price t) (t_date t) true brackets lots (t_quantity t) in
  let! nonfiler_result := match_fifo (t_price t) (t_date t) false brackets lots (t_quantity t) in
  Ok (filer_result, nonfiler_result).

Definition add_sell (s : sim_totals) (t : Transaction) (r : CgtResult * CgtResult) : sim_totals :=
  mkSim (st_cgt_filer s + total_cgt_pkr r.1)%dec (st_cgt_nonfiler s + total_cgt_pkr r.2)%dec
    (st_gross_gain s + total_gross_gain_pkr r.1)%dec (st_brokerage s + t_brokerage t)%dec
    (st_fed s + t_fed t)%dec (st_cvt s + t_cvt t)%dec (st_count s + 1).

Definition sim_step (brackets : list TaxBracket) (date_from date_to : Z)
    (st : lots_map * sim_totals) (t : Transaction) : res (lots_map * sim_totals) :=
  let '(lots_by_symbol, s) := st in
  let tracked := default [] (lots_by_symbol !! t_symbol t) in
  match t_type t with
  | BUY | BONUS | RIGHTS =>
      Ok (<[t_symbol t := tracked ++ [mkBuyLot (t_id t) (t_date t) (t_quantity t) (t_price t)]]>
            lots_by_symbol, s)
  | SELL =>
      let lots := List.filter (fun lot => (dzero <? lot_quantity lot)%dec) tracked in
      match lots with
      | [] => Ok st
      | _ =>
          match both_results brackets lots t with
          | Exn NoApplicableTaxRuleError => Ok st
          | Exn e => Exn e
          | Ok r =>
              let s' := if ((date_from <=? t_date t) && (t_date t <=? date_to))%bool
                        then add_sell s t r else s in
              Ok (<[t_symbol t := consume_lots tracked (t_quantity t)]> lots_by_symbol, s')
          end
      end
  | DIVIDEND => Ok st
  end.

Definition _simulate_portfolio (db : database) (brackets : list TaxBracket)
    (date_from date_to : Z) (portfolio_id : string) : res sim_totals :=
  let txns := sort_by txn_le
                (List.filter (fun t => String.eqb (t_portfolio_id t) portfolio_id)
                   (transactions db)) in
  let! st := fold_res (sim_step brackets date_from date_to) (∅, sim_zero) txns in
  Ok st.2.

Definition add_totals (a b : sim_totals) : sim_totals :=
  mkSim (st_cgt_filer a + st_cgt_filer b)%dec (st_cgt_nonfiler a + st_cgt_nonfiler b)%dec
    (st_gross_gain a + st_gross_gain b)%dec (st_brokerage a + st_brokerage b)%dec
    (st_fed a + st_fed b)%dec (st_cvt a + st_cvt b)%dec (st_count a + st_count b).

(** The three texts of [_narrative] and the one of [_empty_result]. *)
Inductive narrative_kind :=
| NoActivity
| NoSells
| NoDifference (sells : Z)
| FilerSaves (savings : dec) (sells : Z).

Definition _narrative (savings : dec) (sells_processed : Z) : narrative_kind :=
  if sells_processed =? 0 then NoSells
  else if (savings <=? dzero)%dec then NoDifference sells_processed
  else FilerSaves savings sells_processed.

Record SimulationResult := mkSimResult {
  sr_date_from : Z;
  sr_date_to : Z;
  sr_sells_processed : Z;
  sr_total_gross_gain : dec;
  sr_total_brokerage : dec;
  sr_total_fed : dec;
  sr_total_cvt : dec;
  sr_filer_cgt : dec;
  sr_filer_net : dec;
  sr_nonfiler_cgt : dec;
  sr_nonfiler_net : dec;
  sr_savings : dec;
  sr_savings_pct : dec;
  sr_narrative : narrative_kind;
}.

Definition _empty_result (date_from date_to : Z) : SimulationResult :=
  mkSimResult date_from date_to 0 dzero dzero dzero dzero dzero dzero dzero dzero dzero dzero
    NoActivity.

Definition two_dp (d : dec) : res dec := dquantize ROUND_HALF_EVEN 2 d.

(** The rollup of [simulate] once the portfolios are summed. *)
Definition sim_result (date_from date_to : Z) (s : sim_totals) : res SimulationResult :=
  let non_cgt_charges := (st_brokerage s + st_fed s + st_cvt s)%dec in
  let net_filer := (st_gross_gain s - non_cgt_charges - st_cgt_filer s)%dec in
  let net_nonfiler := (st_gross_gain s - non_cgt_charges - st_cgt_nonfiler s)%dec in
  let savings := (st_cgt_nonfiler s - st_cgt_filer s)%dec in
  let! gg := two_dp (st_gross_gain s) in
  let! br := two_dp (st_brokerage s) in
  let! fe := two_dp (st_fed s) in
  let! cv := two_dp (st_cvt s) in
  let! cf := two_dp (st_cgt_filer s) in
  let! nf := two_dp net_filer in
  let! cn := two_dp (st_cgt_nonfiler s) in
  let! nn := two_dp net_nonfiler in
  let! sv := two_dp savings in
  let! pct :=
    if (dzero <? st_cgt_nonfiler s)%dec then
      let! q := ddiv savings (st_cgt_nonfiler s) in two_dp (q * d100)%dec
    else Ok dzero in
  Ok (mkSimResult date_from date_to (st_count s) gg br fe cv cf nf cn nn sv pct
        (_narrative savings (st_count s))).

Definition simulate (db : database) (user_id : string) (date_from date_to : option Z) (today : Z)
    : res SimulationResult :=
  let date_to := default today date_to in
  let date_from := default (date_to - 365) date_from in
  match List.filter (fun p => String.eqb (p_user_id p) user_id) (portfolios db) with
  | [] => Ok (_empty_result date_from date_to)
  | ps =>
      let brackets := load_cgt_brackets db in
      let! s := fold_res (fun s p =>
                  let! r := _simulate_portfolio db brackets date_from date_to (p_id p) in
                  Ok (add_totals s r)) sim_zero ps in
      sim_result date_from date_to s
  end.

(** ** One sale under the two statuses *)

(** The brackets never charge a filer more. *)
Definition filer_favoured (brackets : list TaxBracket) : Prop :=
  forall d h bf bn, find_bracket brackets d true h = Ok bf -> find_bracket brackets d false h = Ok bn ->
                    units 4 (rate_pct bf) <= units 4 (rate_pct bn).

Lemma line_tax_mono brackets sp d p :
  filer_favoured brackets -> line_taxable sp d true brackets p ->
  line_taxable sp d false brackets p ->
  gain_tax (line_gain sp p) (line_rate sp d true brackets p)
    <= gain_tax (line_gain sp p) (line_rate sp d false brackets p).
Proof.
  intros Hf H1 H2. unfold line_taxable, line_rate, line_bracket in *.
  destruct (0 <? line_gain sp p) eqn:E; zbool; [|lia]. specialize (H1 E). specialize (H2 E).
  destruct (find_bracket brackets d true _) as [bf|] eqn:E1; [|discriminate H1].
  destruct (find_bracket brackets d false _) as [bn|] eqn:E2; [|discriminate H2].
  specialize (Hf _ _ _ _ E1 E2). apply div_half_up_mono; nia.
Qed.

Lemma zsum_map_le {A} (f g : A -> Z) l :
  Forall (fun x => f x <= g x) l -> zsum (map f l) <= zsum (map g l).
Proof. unfold zsum. induction 1; simpl; lia. Qed.

Lemma gross_total_bound P sp lots need :
  Forall (lot_ok P) lots -> price_ok P sp ->
  let ps := fifo_takes lots need in
  Z.abs (zsum (map (fun p => gain_paisa (line_gain sp p)) ps)) <= P * taken ps.
Proof.
  intros Hl Hsp ps. etransitivity; [apply zsum_abs_le|]. apply zsum_lines_bound.
  apply list.Forall_forall. intros p Hp.
  pose proof (fifo_takes_pos lots need) as Hpos. rewrite list.Forall_forall in Hpos.
  specialize (Hpos p Hp). apply fifo_takes_subset in Hp. rewrite list.Forall_forall in Hl.
  destruct (Hl _ Hp) as [_ Hpr]. etransitivity; [apply div_half_up_abs_le; lia|].
  by apply line_gain_bound; [..|lia].
Qed.

(** What the two runs add to the totals, in paisa. *)
Definition sale_totals (P : Z) (brackets : list TaxBracket) (t : Transaction)
    (r : CgtResult * CgtResult) : Prop :=
  exists zf zn zg,
    repr 2 (total_cgt_pkr r.1) zf /\ repr 2 (total_cgt_pkr r.2) zn /\
    repr 2 (total_gross_gain_pkr r.1) zg /\ repr 2 (total_gross_gain_pkr r.2) zg /\
    0 <= zf <= P * qty t /\ 0 <= zn <= P * qty t /\ Z.abs zg <= P * qty t /\
    (filer_favoured brackets -> zf <= zn).

Lemma both_results_spec P brackets lots t :
  Forall (lot_ok P) lots -> Forall bracket_ok brackets -> txn_ok P t -> 0 <= P ->
  qty t < 10 ^ 22 -> P * qty t < 10 ^ 22 ->
  match both_results brackets lots t with
  | Ok r => sale_totals P brackets t r
  | Exn e => e = NoApplicableTaxRuleError \/ e = InsufficientLotsError
  end.
Proof.
  intros Hl Hb (Hg & Hq & Hpr) HP Hq2 HPq. unfold qty in *. unfold both_results.
  pose proof (fun f => match_fifo_refines P (t_price t) (t_date t) f brackets lots (t_quantity t)
                Hl Hpr Hb Hg Hq2 HPq) as HC.
  assert (Hs : Forall (lot_ok P) (sort_by lot_le lots)) by (by apply Forall_sort_by).
  pose proof (fun f => total_tax_bounds P (t_price t) (t_date t) f brackets
                (sort_by lot_le lots) (units 4 (t_quantity t)) Hs Hpr Hb HP) as HT.
  pose proof (gross_total_bound P (t_price t) _ (units 4 (t_quantity t)) Hs Hpr) as HG.
  pose proof (HC true) as C1. pose proof (HC false) as C2.
  pose proof (HT true) as T1. pose proof (HT false) as T2. clear HC HT.
  unfold match_fifo_contract in C1, C2. cbv zeta in *.
  destruct (match_fifo _ _ true _ _ _) as [rf|e]; [|destruct e; auto; lia].
  destruct (match_fifo _ _ false _ _ _) as [rn|e]; [|destruct e; auto; lia].
  destruct C1 as (_ & Htk & Tx1 & _ & G1 & F1 & _). destruct C2 as (_ & _ & Tx2 & _ & G2 & F2 & _).
  rewrite Htk in *. unfold sale_totals, qty. do 3 eexists. repeat (split; [eassumption|]).
  intros Hf. apply zsum_map_le. apply list.Forall_forall. intros p Hp.
  rewrite list.Forall_forall in Tx1, Tx2. apply line_tax_mono; auto.
Qed.

(** ** The walk over a history *)

Definition charges_ok (P : Z) (t : Transaction) : Prop :=
  price_ok P (t_brokerage t) /\ price_ok P (t_fed t) /\ price_ok P (t_cvt t).

(** Totals after [u] units of traded volume. *)
Definition totals_ok (P u : Z) (brackets : list TaxBracket) (s : sim_totals) : Prop :=
  (exists zf zn zg,
    repr 2 (st_cgt_filer s) zf /\ repr 2 (st_cgt_nonfiler s) zn /\ repr 2 (st_gross_gain s) zg /\
    0 <= zf <= P * u /\ 0 <= zn <= P * u /\ Z.abs zg <= P * u /\
    (filer_favoured brackets -> zf <= zn)) /\
  (exists zb zfe zc,
    repr 4 (st_brokerage s) zb /\ repr 4 (st_fed s) zfe /\ repr 4 (st_cvt s) zc /\
    0 <= zb <= P * u /\ 0 <= zfe <= P * u /\ 0 <= zc <= P * u) /\
  0 <= st_count s.

Lemma totals_ok_zero P brackets : totals_ok P 0 brackets sim_zero.
Proof.
  split; [|split; [|simpl; lia]]; exists 0, 0, 0; rewrite Z.mul_0_r;
    repeat (split; [apply repr_zero|]); lia.
Qed.

Lemma totals_ok_weaken P u u' brackets s :
  0 <= P -> u <= u' -> totals_ok P u brackets s -> totals_ok P u' brackets s.
Proof.
  intros HP Hu [(zf & zn & zg & H1 & H2 & H3 & H4 & H5 & H6 & H7)
               [(zb & zfe & zc & G1 & G2 & G3 & G4) Hc]].
  assert (P * u <= P * u') by (apply Z.mul_le_mono_nonneg_l; lia).
  split; [|split; [|done]]; do 3 eexists; repeat (split; [eassumption|]); [|lia].
  repeat (split; [lia|]). done.
Qed.

(** Sums of totals stay exact within the bound. *)
Lemma add_totals_ok P u v brackets a b :
  totals_ok P u brackets a -> totals_ok P v brackets b -> P * (u + v) < 10 ^ 22 ->
  totals_ok P (u + v) brackets (add_totals a b).
Proof.
  intros [(zf & zn & zg & H1 & H2 & H3 & H4 & H5 & H6 & H7) [(zb & zfe & zc & G1 & G2 & G3 & G4) Hc]]
    [(zf' & zn' & zg' & H1' & H2' & H3' & H4' & H5' & H6' & H7')
       [(zb' & zfe' & zc' & G1' & G2' & G3' & G4') Hc']] HP.
  rewrite Z.mul_add_distr_l in HP. unfold totals_ok. rewrite Z.mul_add_distr_l.
  split; [|split; [|simpl; lia]].
  - exists (zf + zf'), (zn + zn'), (zg + zg'). unfold add_totals; simpl.
    repeat (split; [apply dadd_repr; try done; unfold exact_bound, prec; lia|]).
    do 3 (split; [lia|]). intros Hf. specialize (H7 Hf). specialize (H7' Hf). lia.
  - exists (zb + zb'), (zfe + zfe'), (zc + zc'). unfold add_totals; simpl.
    repeat (split; [apply dadd_repr; try done; unfold exact_bound, prec; lia|]). lia.
Qed.

Lemma add_sell_ok P u brackets s t r :
  totals_ok P u brackets s -> sale_totals P brackets t r -> charges_ok P t -> 0 < qty t ->
  0 <= P -> P * (u + qty t) < 10 ^ 22 -> totals_ok P (u + qty t) brackets (add_sell s t r).
Proof.
  intros Hs (zf & zn & zg & H1 & H2 & H3 & _ & H4 & H5 & H6 & H7) [[B1 B2] [[F1 F2] [V1 V2]]] Hq HP0 HP.
  change (add_sell s t r) with (add_totals s
    (mkSim (total_cgt_pkr r.1) (total_cgt_pkr r.2) (total_gross_gain_pkr r.1)
       (t_brokerage t) (t_fed t) (t_cvt t) 1)).
  apply add_totals_ok; [done| |done]. assert (P <= P * qty t) by nia.
  split; [|split; [|simpl; lia]]; do 3 eexists; simpl; repeat (split; [eassumption|]); [done|lia].
Qed.

Definition live_lot_ok (P : Z) (l : BuyLot) : Prop :=
  lot_ok P l /\ 0 <= units 4 (lot_quantity l) < 10 ^ 22.
Definition lots_map_ok (P : Z) (m : lots_map) : Prop :=
  forall symbol lots, m !! symbol = Some lots -> Forall (live_lot_ok P) lots.

Lemma tracked_ok P m symbol :
  lots_map_ok P m -> Forall (live_lot_ok P) (default [] (m !! symbol)).
Proof. intros H. destruct (m !! symbol) eqn:E; simpl; [by eapply H|constructor]. Qed.

Lemma lots_map_insert P m symbol lots :
  lots_map_ok P m -> Forall (live_lot_ok P) lots -> lots_map_ok P (<[symbol := lots]> m).
Proof. intros H Hl s l [[<- <-]|[_ Hs]]%lookup_insert_Some; [done|by eapply H]. Qed.

Lemma consume_lots_ok P lots r zr :
  Forall (live_lot_ok P) lots -> repr 4 r zr -> Z.abs zr < 10 ^ 22 ->
  Forall (live_lot_ok P) (consume_lots lots r).
Proof.
  intros H. revert r zr; induction H as [|l ls [[Hg Hp] Hb] Hls IH]; intros r zr Hr Hz; simpl;
    [done|].
  rewrite (dleb_repr 4 r dzero zr 0) by (done || apply repr_zero).
  destruct (zr <=? 0) eqn:E; zbool; [by constructor|].
  assert (Hm : repr 4 (dmin (lot_quantity l) r) (Z.min (units 4 (lot_quantity l)) zr))
    by (by apply dmin_repr).
  assert (Hq : repr 4 (lot_quantity l - dmin (lot_quantity l) r)%dec
                 (units 4 (lot_quantity l) - Z.min (units 4 (lot_quantity l)) zr))
    by (apply dsub_repr; [done..|unfold exact_bound, prec; lia]).
  constructor.
  - split; [split; [by eapply repr_on_grid|done]|]. simpl. rewrite (repr_units _ _ _ Hq). lia.
  - eapply IH; [apply dsub_repr; [done..|]|]; unfold exact_bound, prec; lia.
Qed.

Definition sim_state_ok (P u : Z) (brackets : list TaxBracket) (st : lots_map * sim_totals) : Prop :=
  lots_map_ok P st.1 /\ totals_ok P u brackets st.2.

Lemma sim_step_spec P u brackets d1 d2 st t :
  sim_state_ok P u brackets st -> Forall bracket_ok brackets -> txn_ok P t -> charges_ok P t ->
  0 <= P -> 0 <= u -> u + qty t < 10 ^ 22 -> P * (u + qty t) < 10 ^ 22 ->
  match sim_step brackets d1 d2 st t with
  | Ok st' => sim_state_ok P (u + qty t) brackets st'
  | Exn e => e = InsufficientLotsError
  end.
Proof.
  destruct st as [m s]. intros [Hm Hs] Hb Ht Hch HP Hu Hv HPv. cbn [fst snd] in *.
  pose proof Ht as (Hg & Hq & Hpr). fold (qty t) in Hq.
  pose proof (tracked_ok P m (t_symbol t) Hm) as Htr.
  assert (Hw : totals_ok P (u + qty t) brackets s) by (eapply totals_ok_weaken; [..|done]; lia).
  assert (Hbuy : sim_state_ok P (u + qty t) brackets
    (<[t_symbol t := default [] (m !! t_symbol t) ++
         [mkBuyLot (t_id t) (t_date t) (t_quantity t) (t_price t)]]> m, s)).
  { split; [|done]. apply lots_map_insert; [done|]. apply list.Forall_app. split; [done|].
    constructor; [|constructor]. split; [by split|]. fold (qty t). simpl. unfold qty in *. lia. }
  unfold sim_step. destruct (t_type t); try done.
  destruct (List.filter _ _) as [|l ls] eqn:El; [done|].
  assert (Hlots : Forall (lot_ok P) (l :: ls)).
  { rewrite <- El. apply list.Forall_forall. intros x Hx%list_elem_of_In.
    apply filter_In in Hx as [Hx _]. rewrite List.Forall_forall in Htr. by apply Htr. }
  pose proof (both_results_spec P brackets (l :: ls) t Hlots Hb Ht HP ltac:(lia) ltac:(nia)) as HC.
  destruct (both_results brackets (l :: ls) t) as [r|e].
  - split; cbn [fst snd].
    + apply lots_map_insert; [done|]. eapply consume_lots_ok; [done|exact Hg|]. unfold qty in *. lia.
    + destruct (_ && _)%bool; [|done]. by apply add_sell_ok.
  - destruct HC as [-> | ->]; [by split|done].
Qed.

Lemma sim_walk_spec P u brackets d1 d2 txns st :
  sim_state_ok P u brackets st -> Forall bracket_ok brackets ->
  Forall (fun t => txn_ok P t /\ charges_ok P t) txns ->
  0 <= P -> 0 <= u -> u + volume txns < 10 ^ 22 -> P * (u + volume txns) < 10 ^ 22 ->
  match fold_res (sim_step brackets d1 d2) st txns with
  | Ok st' => sim_state_ok P (u + volume txns) brackets st'
  | Exn e => e = InsufficientLotsError
  end.
Proof.
  intros Hst Hb Ht HP. revert u st Hst; induction Ht as [|t ts [Ht Hch] Hts IH];
    intros u st Hst Hu Hv HPv; cbn [fold_res].
  { change (volume []) with 0. by rewrite Z.add_0_r. }
  rewrite volume_cons, Z.add_assoc in *.
  assert (Hn : 0 <= volume ts).
  { eapply (volume_nonneg P), list.Forall_impl; [exact Hts|]. by intros ? [? _]. }
  assert (Hq : 0 < qty t) by apply Ht.
  pose proof (sim_step_spec P u brackets d1 d2 st t Hst Hb Ht Hch HP Hu ltac:(lia)
                ltac:(nia)) as Hs.
  destruct (sim_step _ _ _ _ _) as [st'|e]; [|done]. apply IH; [done|lia..].
Qed.

(** The volume a user's portfolios traded. *)
Definition portfolio_txns (db : database) (pid : string) : list Transaction :=
  sort_by txn_le (List.filter (fun t => String.eqb (t_portfolio_id t) pid) (transactions db)).
Definition user_portfolios (db : database) (user_id : string) : list Portfolio :=
  List.filter (fun p => String.eqb (p_user_id p) user_id) (portfolios db).
Definition user_volume (db : database) (ps : list Portfolio) : Z :=
  zsum (map (fun p => volume (portfolio_txns db (p_id p))) ps).

Lemma portfolio_txns_ok P db pid :
  Forall (fun t => txn_ok P t /\ charges_ok P t) (transactions db) ->
  Forall (fun t => txn_ok P t /\ charges_ok P t) (portfolio_txns db pid) /\
  0 <= volume (portfolio_txns db pid).
Proof.
  intros H. assert (Hf : Forall (fun t => txn_ok P t /\ charges_ok P t) (portfolio_txns db pid)).
  { apply Forall_sort_by, list.Forall_forall. intros x Hx%list_elem_of_In.
    apply filter_In in Hx as [Hx _]. rewrite List.Forall_forall in H. by apply H. }
  split; [done|]. eapply (volume_nonneg P), list.Forall_impl; [exact Hf|]. by intros ? [? _].
Qed.

Lemma sim_init_ok P brackets : sim_state_ok P 0 brackets (∅, sim_zero).
Proof.
  split; [|apply totals_ok_zero]. intros symbol lots H. simpl in H. by rewrite lookup_empty in H.
Qed.

Lemma sim_portfolios_spec P u db d1 d2 ps s :
  let brackets := load_cgt_brackets db in
  totals_ok P u brackets s -> Forall bracket_ok brackets ->
  Forall (fun t => txn_ok P t /\ charges_ok P t) (transactions db) ->
  0 <= P -> 0 <= u -> u + user_volume db ps < 10 ^ 22 -> P * (u + user_volume db ps) < 10 ^ 22 ->
  match fold_res (fun s p => let! r := _simulate_portfolio db brackets d1 d2 (p_id p) in
                             Ok (add_totals s r)) s ps with
  | Ok s' => totals_ok P (u + user_volume db ps) brackets s'
  | Exn e => e = InsufficientLotsError
  end.
Proof.
  intros brackets Hs Hb Hts HP. revert u s Hs; induction ps as [|p ps IH]; intros u s Hs Hu Hv HPv.
  { cbn [fold_res]. change (user_volume db []) with 0. by rewrite Z.add_0_r. }
  cbn [fold_res]. destruct (portfolio_txns_ok P db (p_id p) Hts) as [Hpt Hpv].
  change (user_volume db (p :: ps)) with (volume (portfolio_txns db (p_id p)) + user_volume db ps) in *.
  assert (Hn : 0 <= user_volume db ps).
  { apply zsum_nonneg, Forall_map, Forall_true. intros x. by apply (portfolio_txns_ok P). }
  rewrite Z.add_assoc in *.
  unfold _simulate_portfolio at 1. fold (portfolio_txns db (p_id p)).
  pose proof (sim_walk_spec P 0 brackets d1 d2 (portfolio_txns db (p_id p)) (∅, sim_zero)
    (sim_init_ok P brackets) Hb Hpt HP ltac:(lia) ltac:(lia) ltac:(nia)) as Hw.
  destruct (fold_res (sim_step brackets d1 d2) _ _) as [st|e]; [|done].
  apply IH; [|lia..]. apply add_totals_ok; [done|apply Hw|nia].
Qed.

(** ** The rollup *)

Lemma two_dp_paisa d z :
  repr 2 d z -> Z.abs z < 10 ^ 27 -> exists q, two_dp d = Ok q /\ repr 2 q z.
Proof.
  intros H Hz. destruct (dquantize_repr ROUND_HALF_EVEN 2 2 d z) as (q & E & R); [lia|done| |];
    change (10 ^ (2 - 2)) with 1 in *; cbn [div_round] in *;
    rewrite <- (Z.mul_1_r z) in *; rewrite div_half_even_exact in * by lia;
    rewrite ?Z.mul_1_r in *; [unfold exact_bound, prec; lia|eauto].
Qed.

Lemma two_dp_repr d z :
  repr 4 d z -> Z.abs z < 10 ^ 27 -> exists q, two_dp d = Ok q /\ repr 2 q (div_half_even z 100).
Proof.
  intros H Hz. apply (dquantize_repr ROUND_HALF_EVEN 2 4 d z); [lia|done|].
  pose proof (div_half_even_near z (10 ^ (4 - 2)) ltac:(lia)). cbn [div_round].
  change (10 ^ (4 - 2)) with 100 in *. unfold exact_bound, prec. lia.
Qed.

(** The amounts of the response: tax under each status and their difference are
    exact in paisa, and the two net amounts differ by the same up to one paisa
    of rounding. *)
Definition comparison_ok (brackets : list TaxBracket) (r : SimulationResult) : Prop :=
  exists zf zn,
    repr 2 (sr_filer_cgt r) zf /\ repr 2 (sr_nonfiler_cgt r) zn /\ 0 <= zf /\ 0 <= zn /\
    repr 2 (sr_savings r) (zn - zf) /\
    Z.abs (units 2 (sr_filer_net r) - units 2 (sr_nonfiler_net r) - (zn - zf)) <= 1 /\
    (filer_favoured brackets -> 0 <= zn - zf).

Lemma savings_pct_ok savings cn zs zn :
  repr 2 savings zs -> repr 2 cn zn -> Z.abs zs < 10 ^ 22 ->
  exists pct, (if (dzero <? cn)%dec then
                 let! q := ddiv savings cn in two_dp (q * d100)%dec
               else Ok dzero) = Ok pct.
Proof.
  intros Hs Hn Hb. rewrite (dltb_repr 2 dzero cn 0 zn) by (done || apply repr_zero).
  destruct (0 <? zn) eqn:E; zbool; [|eauto].
  destruct (ddiv_mag 2 2 savings cn zs zn (10 ^ 22)) as (q & -> & Hq); try done; [lia|].
  assert (H100 : mag_le d100 100) by (by vm_compute).
  pose proof (dmul_mag q d100 (2 * 10 ^ 22) 100 ltac:(lia) ltac:(lia) Hq H100) as Hm.
  destruct (dquantize_mag ROUND_HALF_EVEN 2 _ _ Hm) as (pct & Ep & _); [lia|done|].
  exists pct. exact Ep.
Qed.

(** Rounding two amounts that differ by [k] paisa moves the difference by at
    most one paisa. *)
Lemma round_paisa_diff x k :
  Z.abs (div_half_even x 100 - div_half_even (x - 100 * k) 100 - k) <= 1.
Proof.
  pose proof (div_half_even_near x 100 ltac:(lia)).
  pose proof (div_half_even_near (x - 100 * k) 100 ltac:(lia)). lia.
Qed.

Lemma sim_result_spec P u brackets d1 d2 s :
  totals_ok P u brackets s -> P * u < 10 ^ 22 ->
  exists r, sim_result d1 d2 s = Ok r /\ comparison_ok brackets r.
Proof.
  intros [(zf & zn & zg & H1 & H2 & H3 & H4 & H5 & H6 & H7)
            [(zb & zfe & zc & G1 & G2 & G3 & G4) Hc]] HP.
  assert (Hch : repr 4 (st_brokerage s + st_fed s + st_cvt s)%dec (zb + zfe + zc))
    by (repeat (apply dadd_repr); try done; unfold exact_bound, prec; lia).
  assert (F : forall d z, repr 2 d z -> repr 4 d (z * 100)) by (intros d z Hd; by apply (repr_finer 2 2)).
  assert (Hnf : repr 4 (st_gross_gain s - (st_brokerage s + st_fed s + st_cvt s)
                        - st_cgt_filer s)%dec (zg * 100 - (zb + zfe + zc) - zf * 100)).
  { repeat (apply dsub_repr); auto; unfold exact_bound, prec; lia. }
  assert (Hnn : repr 4 (st_gross_gain s - (st_brokerage s + st_fed s + st_cvt s)
                        - st_cgt_nonfiler s)%dec (zg * 100 - (zb + zfe + zc) - zn * 100)).
  { repeat (apply dsub_repr); auto; unfold exact_bound, prec; lia. }
  assert (Hsv : repr 2 (st_cgt_nonfiler s - st_cgt_filer s)%dec (zn - zf))
    by (apply dsub_repr; [done..|unfold exact_bound, prec; lia]).
  destruct (two_dp_paisa _ _ H3 ltac:(lia)) as (gg & E1 & _).
  destruct (two_dp_repr _ _ G1 ltac:(lia)) as (br & E2 & _).
  destruct (two_dp_repr _ _ G2 ltac:(lia)) as (fe & E3 & _).
  destruct (two_dp_repr _ _ G3 ltac:(lia)) as (cv & E4 & _).
  destruct (two_dp_paisa _ _ H1 ltac:(lia)) as (cf & E5 & R5).
  destruct (two_dp_repr _ _ Hnf ltac:(lia)) as (nf & E6 & R6).
  destruct (two_dp_paisa _ _ H2 ltac:(lia)) as (cn & E7 & R7).
  destruct (two_dp_repr _ _ Hnn ltac:(lia)) as (nn & E8 & R8).
  destruct (two_dp_paisa _ _ Hsv ltac:(lia)) as (sv & E9 & R9).
  destruct (savings_pct_ok _ _ _ _ Hsv H2 ltac:(lia)) as (pct & E10).
  unfold sim_result. rewrite E1, E2, E3, E4, E5, E6, E7, E8, E9, E10.
  eexists. split; [reflexivity|]. exists zf, zn. simpl.
  do 2 (split; [done|]). do 2 (split; [lia|]). split; [done|].
  rewrite (repr_units _ _ _ R6), (repr_units _ _ _ R8). split.
  - replace (zg * 100 - (zb + zfe + zc) - zn * 100)
      with (zg * 100 - (zb + zfe + zc) - zf * 100 - 100 * (zn - zf)) by ring.
    apply round_paisa_diff.
  - intros Hf. specialize (H7 Hf). lia.
Qed.

(** ** Properties *)


Definition ex_history : list Transaction :=
  [mkTransaction "t1" "p1" "OGDC" BUY 20 (mkdec 1000000 (-4)) (mkdec 100000 (-4))
     dzero dzero dzero dzero None 1000;
   mkTransaction "t2" "p1" "OGDC" SELL 400 (mkdec 400000 (-4)) (mkdec 150000 (-4))
     (mkdec 250000 (-4)) dzero dzero dzero None 2000].
Definition ex_sim_db : database :=
  mkDb [mkPortfolio "p1" "u1" "Main" None "PKR" true 0] ex_history [] []
    [mkTaxRule "cgt" 0 None true 0 None (mkdec 150000 (-4));
     mkTaxRule "cgt" 0 None false 0 None (mkdec 300000 (-4))] [].

