(* ===== verification/PortfolioSummary.v ===== *)
(** * PortfolioSummary: [psx_api/services/portfolio_summary_service.py]

    The dashboard rollup.  [holdings_with_market] joins the holdings with the
    last two closes, [after_tax_unrealized] prices a liquidation of every open
    lot through the tax engine, [sector_allocation] groups market values.
    [None]-able columns are options; [today] is an argument.

    SQL's [SUM] over numeric columns is exact, so it is a sum without the
    decimal context ([sql_sum]). *)

From S2P Require Import Prelude Dates Decimal Cgt Ledger.

Record HoldingDashboardRow := mkRow {
  hd_symbol : string;
  hd_company_name : string;
  hd_sector : string;
  hd_is_kmi_compliant : bool;
  hd_quantity : dec;
  hd_avg_cost : dec;
  hd_total_invested : dec;
  hd_last_close : option dec;
  hd_last_close_date : option Z;
  hd_market_value : option dec;
  hd_unrealized : option dec;
  hd_unrealized_pct : option dec;
  hd_day_change_pct : option dec;
  hd_realized : dec;
  hd_dividends : dec;
}.

Record SectorAllocationRow := mkSector {
  sa_sector : string;
  sa_value : dec;
  sa_pct : dec;
}.

Definition two (d : dec) : res dec := dquantize ROUND_HALF_EVEN 2 d.

(** [(a / b * 100).quantize(_TWO)] *)
Definition percent_of (a b : dec) : res dec := let! q := ddiv a b in two (q * d100)%dec.

(** ** Holdings and market data *)

Definition latest_closes (db : database) (symbol : string) : list OhlcvDaily :=
  take 2 (sort_by (fun a b => o_date b <=? o_date a)
            (List.filter (fun o => String.eqb (o_symbol o) symbol) (ohlcv db))).

Definition option_res {A} (o : option (res A)) : res (option A) :=
  match o with None => Ok None | Some (Ok a) => Ok (Some a) | Some (Exn e) => Exn e end.

Definition holding_row (db : database) (h : HoldingsSnapshot) (sec : Security)
    : res HoldingDashboardRow :=
  let rows := latest_closes db (h_symbol h) in
  let last_dt := match rows with r :: _ => Some (o_date r) | [] => None end in
  let last_close := match rows with r :: _ => o_close r | [] => None end in
  let prev := match rows with _ :: r :: _ => o_close r | _ => None end in
  let mv := option_map (fun c => (c * h_quantity h)%dec) last_close in
  let unrealized := option_map (fun c => ((c - h_avg_cost h) * h_quantity h)%dec) last_close in
  let! unrealized_pct :=
    option_res (match unrealized with
                | Some u => if (dzero <? h_total_invested h)%dec
                            then Some (percent_of u (h_total_invested h)) else None
                | None => None
                end) in
  let! day_change_pct :=
    option_res (match last_close, prev with
                | Some c, Some p => if (p =? dzero)%dec then None else Some (percent_of (c - p)%dec p)
                | _, _ => None
                end) in
  Ok (mkRow (h_symbol h) (s_company_name sec) (s_sector sec) (s_is_kmi_compliant sec)
        (h_quantity h) (h_avg_cost h) (h_total_invested h) last_close last_dt mv unrealized
        unrealized_pct day_change_pct (h_realized_pnl h) (h_total_dividends h)).

(** Holdings of the portfolio joined with their securities, by symbol. *)
Definition joined_holdings (db : database) (pid : string) : list (HoldingsSnapshot * Security) :=
  sort_by (fun a b => String.leb (h_symbol a.1) (h_symbol b.1))
    (flat_map (fun h => map (fun s => (h, s))
                          (List.filter (fun s => String.eqb (h_symbol h) (s_symbol s)) (securities db)))
       (List.filter (fun h => String.eqb (h_portfolio_id h) pid) (holdings db))).

Definition _holdings_with_market (db : database) (pid : string) : res (list HoldingDashboardRow) :=
  map_res (fun p => holding_row db p.1 p.2) (joined_holdings db pid).

(** ** After-tax unrealized P&L *)

Definition eligible_row (h : HoldingDashboardRow) : bool :=
  match hd_last_close h with Some _ => (dzero <? hd_quantity h)%dec | None => false end.

Definition or_zero (o : option dec) : dec := default dzero o.

(** Transactions of the portfolio the liquidation walks: no dividends. *)
Definition liquidation_txns (db : database) (pid symbol : string) : list Transaction :=
  select_txns db pid symbol (fun t => (is_acquisition t || is_sell t)%bool).

(** [sells_qty_by_symbol[symbol]], accumulated in date order. *)
Definition sells_qty (txns : list Transaction) : dec :=
  fold_left (fun acc t => (acc + t_quantity t)%dec) (List.filter is_sell txns) dzero.

(** Tax of liquidating one holding; [None] when the loop skips it. *)
Definition liquidation_cgt (db : database) (pid : string) (is_filer : bool) (today : Z)
    (brackets : list TaxBracket) (symbol : string) (last_close : dec) : res (option dec) :=
  let txns := liquidation_txns db pid symbol in
  match List.filter is_acquisition txns with
  | [] => Ok None
  | buys =>
      let! lots := open_lots buys (sells_qty txns) in
      match lots with
      | [] => Ok None
      | _ =>
          match match_fifo last_close today is_filer brackets lots
                  (dsum (map lot_quantity lots)) with
          | Ok result => Ok (Some (total_cgt_pkr result))
          | Exn NoApplicableTaxRuleError => Ok None
          | Exn e => Exn e
          end
      end
  end.

Definition liquidation_step (db : database) (pid : string) (is_filer : bool) (today : Z)
    (brackets : list TaxBracket) (total_cgt : dec) (h : HoldingDashboardRow) : res dec :=
  match hd_last_close h with
  | None => Ok total_cgt
  | Some c =>
      let! cgt := liquidation_cgt db pid is_filer today brackets (hd_symbol h) c in
      Ok (match cgt with Some x => (total_cgt + x)%dec | None => total_cgt end)
  end.

(** [(cgt_if_sold_pkr, after_tax_pkr)] *)
Definition _after_tax_unrealized (db : database) (pid : string) (is_filer : bool) (today : Z)
    (hs : list HoldingDashboardRow) : res (dec * dec) :=
  match List.filter eligible_row hs with
  | [] => Ok (dzero, dzero)
  | eligible =>
      let gross_unrealized := dsum (map (fun h => or_zero (hd_unrealized h)) eligible) in
      let brackets := load_cgt_brackets db in
      let! total_cgt :=
        fold_res (liquidation_step db pid is_filer today brackets) dzero eligible in
      Ok (total_cgt, (gross_unrealized - total_cgt)%dec)
  end.

(** ** Year-to-date aggregates *)

(** Exact numeric arithmetic of the database. *)
Definition sql_add (a b : dec) : dec :=
  let e := Z.min (expo a) (expo b) in
  mkdec (coef a * 10 ^ (expo a - e) + coef b * 10 ^ (expo b - e)) e.
Definition sql_mul (a b : dec) : dec := mkdec (coef a * coef b) (expo a + expo b).
Definition sql_sum (l : list dec) : dec := fold_left sql_add l dzero.

Record ytd := mkYtd { ytd_realized : dec; ytd_dividends : dec; ytd_fees : dec }.

Definition _ytd_aggregates (db : database) (pid : string) (today : Z) : ytd :=
  let ytd_start := first_of_year (year_of today) in
  let mine := List.filter (fun t => String.eqb (t_portfolio_id t) pid) (transactions db) in
  mkYtd
    (sql_sum (map h_realized_pnl
                (List.filter (fun h => String.eqb (h_portfolio_id h) pid) (holdings db))))
    (sql_sum (map (fun t => sql_mul (t_quantity t) (t_price t))
                (List.filter (fun t => (bool_decide (t_type t = DIVIDEND) && (ytd_start <=? t_date t))%bool)
                   mine)))
    (sql_sum (map (fun t => sql_add (sql_add (sql_add (t_brokerage t) (t_fed t)) (t_cvt t)) (t_cgt t))
                (List.filter (fun t => ytd_start <=? t_date t) mine))).

(** ** Sector allocation *)

Definition sector_step (st : list (string * dec) * dec) (h : HoldingDashboardRow)
    : list (string * dec) * dec :=
  match hd_market_value h with
  | None => st
  | Some mv => (dict_add (hd_sector h) mv st.1, (st.2 + mv)%dec)
  end.

Definition sector_row (total : dec) (p : string * dec) : res SectorAllocationRow :=
  let! value := two p.2 in
  let! pct := percent_of p.2 total in
  Ok (mkSector p.1 value pct).

Definition _sector_allocation (hs : list HoldingDashboardRow) : res (list SectorAllocationRow) :=
  let '(by_sector, total) := fold_left sector_step hs ([], dzero) in
  if (total =? dzero)%dec then Ok []
  else
    let! rows := map_res (sector_row total) by_sector in
    Ok (sort_by (fun a b => (sa_value b <=? sa_value a)%dec) rows).

(** ** Summary *)

Record PortfolioSummaryT := mkSummaryT {
  ps_portfolio_id : string;
  ps_total_invested : dec;
  ps_current_value : dec;
  ps_unrealized : dec;
  ps_unrealized_pct : dec;
  ps_after_tax : dec;
  ps_liquidation_cgt : dec;
  ps_realized_ytd : dec;
  ps_dividends_ytd : dec;
  ps_fees_ytd : dec;
  ps_holding_count : Z;
  ps_holdings : list HoldingDashboardRow;
  ps_sectors : list SectorAllocationRow;
}.

Definition summary (db : database) (pid : string) (is_filer : bool) (today : Z)
    : res PortfolioSummaryT :=
  let! hs := _holdings_with_market db pid in
  let y := _ytd_aggregates db pid today in
  let! after_tax := _after_tax_unrealized db pid is_filer today hs in
  let total_invested := dsum (map hd_total_invested hs) in
  let current_value := dsum (map (fun h => or_zero (hd_market_value h)) hs) in
  let unrealized := (current_value - total_invested)%dec in
  let! unrealized_pct :=
    if (dzero <? total_invested)%dec then percent_of unrealized total_invested else Ok dzero in
  let! ti := two total_invested in
  let! cv := two current_value in
  let! un := two unrealized in
  let! at_ := two after_tax.2 in
  let! lc := two after_tax.1 in
  let! ry := two (ytd_realized y) in
  let! dy := two (ytd_dividends y) in
  let! fy := two (ytd_fees y) in
  let! sectors := _sector_allocation hs in
  Ok (mkSummaryT pid ti cv un unrealized_pct at_ lc ry dy fy (Z.of_nat (length hs)) hs sectors).

(** ** Liquidation never fails *)

Lemma lots_quantity_sum P lots :
  Forall (lot_ok P) lots -> Forall (fun l => 0 < units 4 (lot_quantity l)) lots ->
  open_quantity lots < 10 ^ 22 -> repr 4 (dsum (map lot_quantity lots)) (open_quantity lots).
Proof.
  intros Hok Hpos Hb.
  assert (E : open_quantity lots = zsum (map (fun l => units 4 (lot_quantity l)) lots)).
  { unfold open_quantity. clear -Hpos. unfold zsum. induction Hpos; simpl; lia. }
  rewrite E in *. apply dsum_repr.
  - clear -Hok. induction Hok as [|l ls [Hg _] _ IH]; simpl; constructor; done.
  - replace (zsum (map Z.abs (map (fun l => units 4 (lot_quantity l)) lots)))
      with (zsum (map (fun l => units 4 (lot_quantity l)) lots)); [unfold exact_bound, prec; lia|].
    clear -Hpos. unfold zsum. induction Hpos; simpl; lia.
Qed.

Lemma open_pairs_pos buys zs : Forall (fun p => 0 < p.2) (open_pairs buys zs).
Proof.
  unfold open_pairs. apply list.Forall_forall. intros p Hp%list_elem_of_In.
  apply filter_In in Hp as [_ Hp]. by zbool.
Qed.

Lemma lot_of_pos ps ls :
  Forall2 lot_of ps ls -> Forall (fun p => 0 < p.2) ps ->
  Forall (fun l => 0 < units 4 (lot_quantity l)) ls.
Proof.
  induction 1 as [|p l ps ls (_ & _ & _ & Hr) _ IH]; intros H; [constructor|].
  apply list.Forall_cons in H as [Hp H]. constructor; [|auto]. by rewrite (repr_units _ _ _ Hr).
Qed.

Lemma sells_qty_repr P txns :
  Forall (txn_ok P) txns -> volume (List.filter is_sell txns) < 10 ^ 22 ->
  repr 4 (sells_qty txns) (volume (List.filter is_sell txns)).
Proof.
  intros H Hv. unfold sells_qty.
  pose proof (dsum_volume P _ (Forall_list_filter _ is_sell _ H) Hv) as Hd.
  unfold dsum in Hd. generalize dependent dzero. intros d0 Hd.
  replace (fold_left (fun acc t => (acc + t_quantity t)%dec) (List.filter is_sell txns) d0)
    with (fold_left dadd (map t_quantity (List.filter is_sell txns)) d0); [done|].
  clear. revert d0; induction (List.filter is_sell txns); intros; simpl; [done|]. apply IHl.
Qed.

Lemma liquidation_cgt_ok P db pid is_filer today symbol last_close :
  NoDup (map t_id (transactions db)) -> Forall (txn_ok P) (transactions db) ->
  Forall bracket_ok (load_cgt_brackets db) -> price_ok P last_close -> 0 <= P ->
  volume (transactions db) < 10 ^ 22 -> P * volume (transactions db) < 10 ^ 22 ->
  exists o, liquidation_cgt db pid is_filer today (load_cgt_brackets db) symbol last_close = Ok o /\
    match o with
    | Some c => exists z, repr 2 c z /\ 0 <= z <= P * volume (liquidation_txns db pid symbol)
    | None => True
    end.
Proof.
  intros Hnd Hok Hbr Hp HP Hv HPv. unfold liquidation_cgt.
  destruct (select_ok P db pid symbol (fun t => (is_acquisition t || is_sell t)%bool) Hnd Hok)
    as (Hsnd & Hsok & Hsv). fold (liquidation_txns db pid symbol) in *.
  set (txns := liquidation_txns db pid symbol) in *.
  pose proof (NoDup_map_filter t_id is_acquisition txns Hsnd) as Hbnd.
  pose proof (Forall_list_filter _ is_acquisition _ Hsok) as Hbok.
  pose proof (volume_filter P is_acquisition txns Hsok) as Hbv.
  pose proof (volume_filter P is_sell txns Hsok) as Hslv.
  pose proof (volume_nonneg P _ (Forall_list_filter _ is_sell _ Hsok)) as Hsl0.
  destruct (List.filter is_acquisition txns) as [|b0 bs]; [by exists None|].
  set (buys := b0 :: bs) in *.
  pose proof (sells_qty_repr P txns Hsok ltac:(lia)) as Hsum.
  destruct (open_lots_spec P buys _ _ Hbnd Hbok ltac:(lia) Hsum ltac:(lia)) as (lots & E & Hlots).
  pose proof (open_lots_ok P _ _ _ lots Hbnd Hbok ltac:(lia) Hsum ltac:(lia) E) as Hlok.
  pose proof (open_lots_quantity P _ _ _ lots Hbnd Hbok ltac:(lia) Hsum ltac:(lia) E) as Hopen.
  pose proof (lot_of_pos _ _ Hlots (open_pairs_pos _ _)) as Hpos.
  rewrite E. destruct lots as [|l0 ls] eqn:El; [by exists None|]. rewrite <- El in *.
  assert (Hlt : open_quantity lots < 10 ^ 22) by lia.
  pose proof (lots_quantity_sum P lots Hlok Hpos Hlt) as Hq.
  assert (Hq0 : 0 < open_quantity lots).
  { subst lots. apply list.Forall_cons in Hpos as [Hl0 _]. unfold open_quantity, zsum. simpl.
    assert (0 <= zsum (map (fun l => Z.max 0 (units 4 (lot_quantity l))) ls))
      by (apply zsum_nonneg, Forall_map, Forall_true; intros; simpl; lia).
    unfold zsum in *. lia. }
  assert (Hle : open_quantity lots <= volume txns) by lia.
  assert (HPo : P * open_quantity lots <= P * volume txns) by (apply Z.mul_le_mono_nonneg_l; lia).
  assert (HPt : P * volume txns <= P * volume (transactions db)) by (apply Z.mul_le_mono_nonneg_l; lia).
  pose proof (match_fifo_refines P last_close today is_filer (load_cgt_brackets db) lots
    (dsum (map lot_quantity lots)) Hlok Hp Hbr) as HC.
  rewrite <- (repr_units _ _ _ Hq) in Hq.
  specialize (HC Hq). unfold match_fifo_contract in HC.
  pose proof (lots_quantity_sum P lots Hlok Hpos Hlt) as Hq'.
  rewrite (repr_units _ _ _ Hq') in HC. specialize (HC Hlt ltac:(lia)). cbv zeta in HC.
  destruct (match_fifo _ _ _ _ _ _) as [r|e].
  - destruct HC as (_ & Htk & _ & _ & _ & Hc & _). eexists. split; [reflexivity|].
    eexists. split; [exact Hc|].
    pose proof (total_tax_bounds P last_close today is_filer (load_cgt_brackets db)
      (sort_by lot_le lots) (open_quantity lots) ltac:(by apply Forall_sort_by) Hp Hbr HP) as Hb.
    cbv zeta in Hb. rewrite Htk in Hb. lia.
  - destruct e; try (exfalso; exact HC); [lia|by exists None|lia].
Qed.

(** Bounds over the eligible holdings. *)
Definition eligible_volume (db : database) (pid : string) (hs : list HoldingDashboardRow) : Z :=
  zsum (map (fun h => volume (liquidation_txns db pid (hd_symbol h))) hs).

Definition ledger_clean (P : Z) (db : database) : Prop :=
  NoDup (map t_id (transactions db)) /\ Forall (txn_ok P) (transactions db) /\
  Forall bracket_ok (load_cgt_brackets db) /\ 0 <= P /\
  volume (transactions db) < 10 ^ 22 /\ P * volume (transactions db) < 10 ^ 22.

Definition closes_ok (P : Z) (hs : list HoldingDashboardRow) : Prop :=
  Forall (fun h => forall c, hd_last_close h = Some c -> price_ok P c) hs.

Lemma liquidation_fold_ok P db pid is_filer today hs total zt :
  ledger_clean P db -> closes_ok P hs -> repr 2 total zt -> 0 <= zt ->
  zt + P * eligible_volume db pid hs < 10 ^ 27 ->
  exists total' zt',
    fold_res (liquidation_step db pid is_filer today (load_cgt_brackets db)) total hs = Ok total' /\
    repr 2 total' zt' /\ zt <= zt' <= zt + P * eligible_volume db pid hs.
Proof.
  intros Hc Hcl. pose proof Hc as (Hnd & Hok & Hbr & HP & Hv & HPv).
  revert total zt; induction Hcl as [|h hs Hh Hhs IH]; intros total zt Ht Hz Hb.
  { exists total, zt. cbn [fold_res]. unfold eligible_volume, zsum; simpl. split; [done|].
    split; [done|lia]. }
  assert (Hev : eligible_volume db pid (h :: hs)
                = volume (liquidation_txns db pid (hd_symbol h)) + eligible_volume db pid hs) by done.
  rewrite Hev, Z.mul_add_distr_l in *.
  destruct (select_ok P db pid (hd_symbol h) (fun t => (is_acquisition t || is_sell t)%bool) Hnd Hok)
    as (_ & _ & Hsv). fold (liquidation_txns db pid (hd_symbol h)) in Hsv.
  assert (H0 : 0 <= P * volume (liquidation_txns db pid (hd_symbol h)))
    by (apply Z.mul_nonneg_nonneg; lia).
  cbn [fold_res]. unfold liquidation_step at 1. destruct (hd_last_close h) as [c|].
  - destruct (liquidation_cgt_ok P db pid is_filer today (hd_symbol h) c Hnd Hok Hbr
                (Hh c eq_refl) HP Hv HPv) as (o & -> & Ho).
    destruct o as [x|].
    + destruct Ho as (z & Hx & Hzb).
      assert (0 <= eligible_volume db pid hs).
      { apply zsum_nonneg, Forall_map, Forall_true. intros x'.
        by apply (select_ok P db pid (hd_symbol x')
                    (fun t => (is_acquisition t || is_sell t)%bool) Hnd Hok). }
      assert (0 <= P * eligible_volume db pid hs) by (apply Z.mul_nonneg_nonneg; lia).
      destruct (IH (total + x)%dec (zt + z)) as (t' & z' & E & R & B);
        [apply dadd_repr; [done..|unfold exact_bound, prec; lia]|lia|lia|].
      exists t', z'. split; [done|]. split; [done|lia].
    + destruct (IH total zt) as (t' & z' & E & R & B); [done|lia|lia|].
      exists t', z'. split; [done|]. split; [done|lia].
  - destruct (IH total zt) as (t' & z' & E & R & B); [done|lia|lia|].
    exists t', z'. split; [done|]. split; [done|lia].
Qed.

(** ** Sector allocation *)

(** Market values of the priced holdings, paired with their integers. *)
Definition priced (p : HoldingDashboardRow * Z) : Prop :=
  match hd_market_value p.1 with Some mv => repr 8 mv p.2 /\ 0 <= p.2 | None => p.2 = 0 end.
Definition sector_total (s : string) (hz : list (HoldingDashboardRow * Z)) : Z :=
  zsum (map (fun p => if String.eqb (hd_sector p.1) s then p.2 else 0) hz).
Definition value_total (hz : list (HoldingDashboardRow * Z)) : Z := zsum (map snd hz).
Definition has_priced (s : string) (hz : list (HoldingDashboardRow * Z)) : Prop :=
  exists p, p ∈ hz /\ hd_sector p.1 = s /\ hd_market_value p.1 <> None.

Lemma sector_total_snoc s hz p :
  sector_total s (hz ++ [p]) = sector_total s hz + (if String.eqb (hd_sector p.1) s then p.2 else 0).
Proof. unfold sector_total. rewrite map_app, zsum_app. unfold zsum at 2. simpl. lia. Qed.

Lemma value_total_snoc hz p : value_total (hz ++ [p]) = value_total hz + p.2.
Proof. unfold value_total. rewrite map_app, zsum_app. unfold zsum at 2. simpl. lia. Qed.

Lemma priced_nonneg p : priced p -> 0 <= p.2.
Proof. unfold priced. destruct (hd_market_value p.1); lia. Qed.

Lemma sector_total_bounds s hz :
  Forall priced hz -> 0 <= sector_total s hz <= value_total hz.
Proof.
  unfold sector_total, value_total, zsum. induction 1 as [|p hz Hp _ IH]; simpl; [lia|].
  apply priced_nonneg in Hp. destruct (String.eqb _ _); lia.
Qed.

Lemma sector_fold_spec hz :
  Forall priced hz -> value_total hz < 10 ^ 26 ->
  let '(d, total) := fold_left sector_step (map fst hz) ([], dzero) in
  NoDup (map fst d) /\ (forall s, s ∈ map fst d <-> has_priced s hz) /\
  Forall (fun p => repr 8 p.2 (sector_total p.1 hz)) d /\ repr 8 total (value_total hz).
Proof.
  induction hz as [|p hz IH] using rev_ind; intros Hp Hb.
  { simpl. split; [apply NoDup_nil_2|]. split; [|split; [constructor|apply repr_zero]].
    intros s. split; [by intros ?%elem_of_nil|by intros (p & ?%elem_of_nil & _)]. }
  apply list.Forall_app in Hp as [Hhz Hp]. apply list.Forall_cons in Hp as [Hp _].
  rewrite value_total_snoc in *. pose proof (priced_nonneg p Hp) as Hp0.
  specialize (IH Hhz ltac:(lia)). rewrite map_app, fold_left_app. simpl.
  destruct (fold_left sector_step (map fst hz) _) as [d total].
  destruct IH as (Hnd & Hkeys & Hd & Ht). unfold sector_step. unfold priced in Hp.
  assert (Hsp : forall s, has_priced s (hz ++ [p]) <->
                          (hd_sector p.1 = s /\ hd_market_value p.1 <> None) \/ has_priced s hz).
  { intros s. unfold has_priced. split.
    - intros (q & [Hq|Hq%list_elem_of_singleton]%elem_of_app & H1 & H2); [right; eauto|subst; auto].
    - intros [[H1 H2]|(q & Hq & H)]; [exists p|exists q]; (split; [apply elem_of_app|done]);
        [right; by apply list_elem_of_singleton|by left]. }
  destruct (hd_market_value p.1) as [mv|] eqn:Em; simpl.
  - destruct Hp as [Hmv _]. split; [by apply dict_add_NoDup|]. split; [|split].
    + intros s. rewrite dict_add_keys, Hkeys, Hsp. naive_solver.
    + pose proof (dict_add_repr 8 (hd_sector p.1) mv p.2 d (fun s => sector_total s hz)) as H.
      eapply list.Forall_impl; [apply H; [done..| |]|].
      * intros s. pose proof (sector_total_bounds s hz Hhz). lia.
      * intros Hn. unfold sector_total, zsum. rewrite Hkeys in Hn. clear -Hn Hhz.
        induction Hhz as [|q hz Hq _ IH]; simpl; [done|].
        rewrite IH by (intros (x & Hx & H); apply Hn; exists x; split; [by right|done]).
        destruct (String.eqb_spec (hd_sector q.1) (hd_sector p.1)) as [E|]; [|done].
        unfold priced in Hq. destruct (hd_market_value q.1) eqn:Eq; [|lia].
        exfalso. apply Hn. exists q. split; [by left|]. by rewrite Eq.
      * intros [s w]; simpl. rewrite sector_total_snoc, (String.eqb_sym (hd_sector p.1)).
        destruct (String.eqb s (hd_sector p.1)); [done|]. by rewrite Z.add_0_r.
    + apply dadd_repr; [done..|]. pose proof (sector_total_bounds "" hz Hhz).
      unfold exact_bound, prec. lia.
  - rewrite Hp, Z.add_0_r. split; [done|]. split; [|split; [|done]].
    + intros s. rewrite Hkeys, Hsp. naive_solver.
    + eapply list.Forall_impl; [exact Hd|]. intros [s w]; simpl. rewrite sector_total_snoc, Hp.
      by case_match; rewrite Z.add_0_r.
Qed.

(** A share of a total is a percentage: the division and rounding succeed. *)
Lemma percent_of_ok s a b za zb :
  0 <= s -> repr s a za -> repr s b zb -> 0 <= za <= zb -> 0 < zb ->
  exists pct, percent_of a b = Ok pct /\ Z.abs (units 2 pct) <= 40001.
Proof.
  intros Hs Ha Hb Hab Hz. unfold percent_of.
  pose proof (pow10_pos s Hs).
  destruct (ddiv_mag s s a b za zb 1) as (q & -> & Hq); [done..|lia| |].
  { rewrite Z.abs_eq by lia. apply Z.mul_le_mono_nonneg_r; lia. }
  assert (H100 : mag_le d100 100) by (by vm_compute).
  pose proof (dmul_mag q d100 (2 * 1) 100 ltac:(lia) ltac:(lia) Hq H100) as Hm.
  exact (dquantize_mag ROUND_HALF_EVEN 2 _ _ Hm ltac:(lia) eq_refl).
Qed.

Lemma sector_row_ok total k v zv zt :
  repr 8 total zt -> repr 8 v zv -> 0 <= zv <= zt -> 0 < zt < 10 ^ 26 ->
  exists r, sector_row total (k, v) = Ok r /\ sa_sector r = k /\
            repr 2 (sa_value r) (div_half_even zv (10 ^ 6)).
Proof.
  intros Ht Hv Hle Hpos. unfold sector_row.
  destruct (dquantize_repr ROUND_HALF_EVEN 2 8 v zv) as (q & E & R); [lia|done| |].
  { pose proof (div_half_even_near zv (10 ^ (8 - 2)) ltac:(lia)). cbn [div_round].
    unfold exact_bound, prec. change (10 ^ (8 - 2)) with 1000000 in *. lia. }
  unfold two. cbn [snd]. rewrite E.
  destruct (percent_of_ok 8 v total zv zt) as (pct & -> & _); [lia|done..|lia|].
  eexists. split; [reflexivity|]. done.
Qed.

Lemma sector_rows_ok hz total d :
  Forall priced hz -> 0 < value_total hz < 10 ^ 26 -> repr 8 total (value_total hz) ->
  Forall (fun p => repr 8 p.2 (sector_total p.1 hz)) d ->
  exists rows, map_res (sector_row total) d = Ok rows /\
    map sa_sector rows = map fst d /\
    Forall (fun r => repr 2 (sa_value r) (div_half_even (sector_total (sa_sector r) hz) (10 ^ 6))) rows.
Proof.
  intros Hhz Hb Ht. induction 1 as [|[k v] d Hp _ (rows & E & Hk & Hr)]; simpl.
  { exists []. repeat split. constructor. }
  destruct (sector_row_ok total k v (sector_total k hz) (value_total hz)) as (r & Er & Hrk & Hv);
    [done|done|by apply sector_total_bounds|done|].
  rewrite Er, E. eexists. split; [reflexivity|]. simpl. rewrite Hrk, Hk.
  split; [done|]. constructor; [by rewrite Hrk|done].
Qed.

Lemma dleb_total a b : (a <=? b)%dec = true \/ (b <=? a)%dec = true.
Proof.
  destruct (repr_exists 0 a) as (s1 & z1 & H1 & R1), (repr_exists 0 b) as (s2 & z2 & H2 & R2).
  apply (repr_finer s1 s2) in R1; [|lia]. apply (repr_finer s2 s1) in R2; [|lia].
  rewrite (Z.add_comm s2 s1) in R2.
  rewrite (dleb_repr _ _ _ _ _ R1 R2), (dleb_repr _ _ _ _ _ R2 R1), !Z.leb_le. lia.
Qed.

Lemma dleb_trans a b c : (a <=? b)%dec = true -> (b <=? c)%dec = true -> (a <=? c)%dec = true.
Proof.
  destruct (repr_exists 0 a) as (s1 & z1 & H1 & R1), (repr_exists 0 b) as (s2 & z2 & H2 & R2),
    (repr_exists 0 c) as (s3 & z3 & H3 & R3).
  apply (repr_finer _ (s2 + s3)) in R1; [|lia]. apply (repr_finer _ (s1 + s3)) in R2; [|lia].
  apply (repr_finer _ (s1 + s2)) in R3; [|lia].
  replace (s2 + (s1 + s3)) with (s1 + (s2 + s3)) in R2 by lia.
  replace (s3 + (s1 + s2)) with (s1 + (s2 + s3)) in R3 by lia.
  rewrite (dleb_repr _ _ _ _ _ R1 R2), (dleb_repr _ _ _ _ _ R2 R3), (dleb_repr _ _ _ _ _ R1 R3).
  rewrite !Z.leb_le. lia.
Qed.

Lemma sector_allocation_spec hz :
  Forall priced hz -> value_total hz < 10 ^ 26 ->
  exists rows, _sector_allocation (map fst hz) = Ok rows /\
    (value_total hz = 0 -> rows = []) /\
    (0 < value_total hz ->
       NoDup (map sa_sector rows) /\ (forall s, s ∈ map sa_sector rows <-> has_priced s hz) /\
       StronglySorted (fun a b => (sa_value b <=? sa_value a)%dec = true) rows /\
       Forall (fun r => repr 2 (sa_value r)
                          (div_half_even (sector_total (sa_sector r) hz) (10 ^ 6))) rows).
Proof.
  intros Hhz Hb. pose proof (sector_fold_spec hz Hhz Hb) as HF. unfold _sector_allocation.
  pose proof (sector_total_bounds "" hz Hhz) as Hnn.
  destruct (fold_left sector_step _ _) as [d total]. destruct HF as (Hnd & Hkeys & Hd & Ht).
  rewrite (deqb_repr 8 total dzero (value_total hz) 0) by (done || apply repr_zero).
  destruct (value_total hz =? 0) eqn:E; zbool; [exists []; repeat split; lia|].
  destruct (sector_rows_ok hz total d Hhz ltac:(lia) Ht Hd) as (rows & -> & Hk & Hv).
  eexists. split; [reflexivity|]. split; [lia|]. intros _.
  set (le := fun a b => (sa_value b <=? sa_value a)%dec).
  assert (Hpk : map sa_sector (sort_by le rows) ≡ₚ map fst d)
    by (rewrite <- Hk; apply Permutation_map, sort_by_perm).
  split; [by rewrite Hpk|]. split; [intros s; by rewrite Hpk|]. split; [|by apply Forall_sort_by].
  apply sort_by_sorted; unfold le.
  - intros x y. apply dleb_total.
  - intros x y z H1 H2. by eapply dleb_trans.
Qed.

(** ** Properties *)

(** C7: pricing a liquidation never fails.  For clean tables and closes on the
    grid, [_after_tax_unrealized] returns: the sale of each holding is exactly
    its open quantity, a holding without a bracket is skipped, the tax is a
    non-negative amount in paisa and the after-tax figure is the gross
    unrealized of the eligible holdings less that tax, exactly. *)
Theorem after_tax_unrealized_total P db pid is_filer today hs zs :
  let eligible := List.filter eligible_row hs in
  ledger_clean P db -> closes_ok P eligible ->
  P * eligible_volume db pid eligible < 10 ^ 21 ->
  Forall2 (fun h z => repr 8 (or_zero (hd_unrealized h)) z) eligible zs ->
  zsum (map Z.abs zs) < 10 ^ 26 ->
  exists cgt after zt, _after_tax_unrealized db pid is_filer today hs = Ok (cgt, after) /\
    repr 2 cgt zt /\ 0 <= zt <= P * eligible_volume db pid eligible /\
    repr 8 after (zsum zs - zt * 10 ^ 6).
Proof.
  intros eligible Hc Hcl Hev Hz Hzb. unfold _after_tax_unrealized. fold eligible.
  destruct eligible as [|h hs'] eqn:Ee.
  { inversion Hz; subst. exists dzero, dzero, 0. split; [done|]. split; [apply repr_zero|].
    unfold eligible_volume, zsum; simpl. split; [lia|apply repr_zero]. }
  rewrite <- Ee in *. clear Ee.
  destruct (liquidation_fold_ok P db pid is_filer today eligible dzero 0 Hc Hcl (repr_zero 2))
    as (cgt & zt & -> & Hcgt & Hb); [lia|lia|].
  exists cgt, (dsum (map (fun h => or_zero (hd_unrealized h)) eligible) - cgt)%dec, zt.
  split; [done|]. split; [done|]. split; [lia|]. pose proof (zsum_abs_le zs) as Habs.
  apply dsub_repr.
  - apply dsum_repr; [|unfold exact_bound, prec; lia].
    clear -Hz. induction Hz; simpl; constructor; done.
  - exact (repr_finer 2 6 cgt zt ltac:(lia) Hcgt).
  - unfold exact_bound, prec. lia.
Qed.

(** One holding of 60 OGDC at a close of 15.00, bought at 10.00. *)
Definition ex_sum_db : database :=
  mkDb [mkPortfolio "p1" "u1" "Main" None "PKR" true 0]
    [mkTransaction "t1" "p1" "OGDC" BUY 20 (mkdec 1000000 (-4)) (mkdec 100000 (-4))
       dzero dzero dzero dzero None 1000;
     mkTransaction "t2" "p1" "OGDC" SELL 400 (mkdec 400000 (-4)) (mkdec 150000 (-4))
       dzero dzero dzero dzero None 2000]
    [mkHolding "p1" "OGDC" (mkdec 600000 (-4)) (mkdec 100000 (-4)) (mkdec 100000 (-2))
       (mkdec 20000 (-2)) (mkdec 0 (-2))]
    [mkSecurity "OGDC" "Oil and Gas Development" "Energy" true]
    [mkTaxRule "cgt" 0 None true 0 None (mkdec 150000 (-4))]
    [mkOhlcv "OGDC" 500 (Some (mkdec 150000 (-4)))].
Definition ex_row : HoldingDashboardRow :=
  mkRow "OGDC" "Oil and Gas Development" "Energy" true (mkdec 600000 (-4)) (mkdec 100000 (-4))
    (mkdec 100000 (-2)) (Some (mkdec 150000 (-4))) (Some 500)
    (Some (mkdec 90000000000 (-8))) (Some (mkdec 30000000000 (-8)))
    (Some (mkdec 3000 (-2))) None (mkdec 20000 (-2)) (mkdec 0 (-2)).
Example ex_row_computed : _holdings_with_market ex_sum_db "p1" = Ok [ex_row].
Proof. vm_compute. reflexivity. Qed.

Lemma after_tax_unrealized_total_witness :
  exists cgt after zt,
    _after_tax_unrealized ex_sum_db "p1" true 500 [ex_row] = Ok (cgt, after) /\
    repr 2 cgt zt /\
    0 <= zt <= 1000000 * eligible_volume ex_sum_db "p1" (List.filter eligible_row [ex_row]) /\
    repr 8 after (zsum [30000000000] - zt * 10 ^ 6).
Proof.
  apply (after_tax_unrealized_total 1000000).
  - split; [|split; [|split; [|split; [|split]]]].
    + change (NoDup ["t1"; "t2"]). apply list.NoDup_cons.
      rewrite list_elem_of_singleton. split; [discriminate|apply NoDup_singleton].
    + repeat constructor; vm_compute; congruence.
    + repeat constructor; vm_compute; congruence.
    + lia.
    + reflexivity.
    + reflexivity.
  - change (closes_ok 1000000 [ex_row]). constructor; [|constructor].
    intros c [= <-]. repeat split; vm_compute; congruence.
  - vm_compute. reflexivity.
  - change (List.filter eligible_row [ex_row]) with [ex_row].
    constructor; [reflexivity|constructor].
  - reflexivity.
Defined.

(** The sector allocation.  For non-negative market values it returns one
    row per sector that has a priced holding, without repetition, largest value
    first, each value the exact sum of the sector's market values rounded half
    to even to paisa; nothing is listed when the total is zero. *)
Theorem sector_allocation_correct hz :
  Forall priced hz -> value_total hz < 10 ^ 26 ->
  exists rows, _sector_allocation (map fst hz) = Ok rows /\
    (value_total hz = 0 -> rows = []) /\
    (0 < value_total hz ->
       NoDup (map sa_sector rows) /\ (forall s, s ∈ map sa_sector rows <-> has_priced s hz) /\
       StronglySorted (fun a b => (sa_value b <=? sa_value a)%dec = true) rows /\
       Forall (fun r => repr 2 (sa_value r)
                          (div_half_even (sector_total (sa_sector r) hz) (10 ^ 6))) rows).
Proof. apply sector_allocation_spec. Qed.

Lemma sector_allocation_correct_witness :
  exists rows, _sector_allocation [ex_row] = Ok rows /\
    Forall (fun r => repr 2 (sa_value r)
      (div_half_even (sector_total (sa_sector r) (combine [ex_row] [90000000000])) (10 ^ 6))) rows.
Proof.
  destruct (sector_allocation_correct (combine [ex_row] [90000000000])) as (rows & E & _ & H).
  - constructor; [split; [reflexivity|cbn; lia]|constructor].
  - vm_compute. reflexivity.
  - exists rows. split; [|apply H; vm_compute; reflexivity].
    exact E.
Defined.
