(* ===== verification/Purification.v ===== *)
(** * Purification: dividend purification

    [psx_api/purification/calculator.py] ([compute_report]) and
    [psx_api/services/purification_service.py] ([report], [mark_donated]) on the
    tables of [Ledger] and [purification_records]. *)

From S2P Require Import Prelude Dates Decimal Cgt Ledger.

Record DividendRecord := mkDividend {
  dr_symbol : string;
  dr_date : Z;
  dr_amount : dec;
}.

Record PurificationLine := mkLine {
  pl_symbol : string;
  pl_dividends : dec;
  pl_pct : dec;
  pl_amount : dec;
}.

Record PurificationReport := mkReport {
  rp_fiscal_year : Z;
  rp_total_dividends : dec;
  rp_total_purification : dec;
  rp_lines : list PurificationLine;
  rp_pct : dec;
}.

Definition DEFAULT_PURIFICATION_PCT : dec := mkdec 50 (-1).

Definition quantize_two (d : dec) : res dec := dquantize ROUND_HALF_EVEN 2 d.

Definition group_by_symbol (fiscal_year : Z) (dividends : list DividendRecord) : list (string * dec) :=
  fold_left (fun d r => if year_of (dr_date r) =? fiscal_year
                        then dict_add (dr_symbol r) (dr_amount r) d else d) dividends [].

Definition purification_line (pct multiplier : dec) (p : string * dec) : res PurificationLine :=
  let! dividends := quantize_two p.2 in
  let! amount := quantize_two (p.2 * multiplier)%dec in
  Ok (mkLine p.1 dividends pct amount).

(** [sorted(by_symbol.items())]: the keys are distinct, so they decide. *)
Definition symbol_le (a b : string * dec) : bool := String.leb a.1 b.1.

Definition compute_report (dividends : list DividendRecord) (fiscal_year : Z)
    (purification_pct : option dec) : res PurificationReport :=
  let pct := default DEFAULT_PURIFICATION_PCT purification_pct in
  let! multiplier := ddiv pct d100 in
  let by_symbol := group_by_symbol fiscal_year dividends in
  let! lines := map_res (purification_line pct multiplier) (sort_by symbol_le by_symbol) in
  let! total_div := quantize_two (dsum (map pl_dividends lines)) in
  let! total_pur := quantize_two (dsum (map pl_amount lines)) in
  Ok (mkReport fiscal_year total_div total_pur lines pct).

(** ** The service *)

Record PurificationRecord := mkRecord {
  pu_user_id : string;
  pu_fiscal_year : Z;
  pu_symbol : string;
  pu_dividends : dec;
  pu_pct : dec;
  pu_amount : dec;
  pu_marked_donated_at : option Z;
}.

(** Dividends of the user's portfolios in KMI-compliant securities. *)
Definition compliant_dividends (db : database) (user_id : string) : list DividendRecord :=
  flat_map (fun t =>
    flat_map (fun p =>
      omap (fun s => if (String.eqb (s_symbol s) (t_symbol t) && s_is_kmi_compliant s)%bool
                     then Some (mkDividend (t_symbol t) (t_date t) (t_quantity t * t_price t)%dec)
                     else None) (securities db))
      (List.filter (fun p => (String.eqb (p_id p) (t_portfolio_id t)
                              && String.eqb (p_user_id p) user_id)%bool) (portfolios db)))
    (List.filter (fun t => bool_decide (t_type t = DIVIDEND)) (transactions db)).

Definition record_key (user_id : string) (fiscal_year : Z) (r : PurificationRecord) : bool :=
  (String.eqb (pu_user_id r) user_id && (pu_fiscal_year r =? fiscal_year))%bool.

Definition marked_set (records : list PurificationRecord) (user_id : string) (fiscal_year : Z)
    : list string :=
  omap (fun r => match pu_marked_donated_at r with Some _ => Some (pu_symbol r) | None => None end)
    (List.filter (record_key user_id fiscal_year) records).

(** The report and, per line, whether it is marked as donated.  A percentage of
    zero is falsy, so it counts as not given. *)
Definition report (db : database) (records : list PurificationRecord) (user_id : string)
    (fiscal_year : option Z) (purification_pct : option dec) (today : Z)
    : res (PurificationReport * list bool) :=
  let fiscal_year := match fiscal_year with
                     | Some y => if y =? 0 then year_of today else y
                     | None => year_of today
                     end in
  let pct := match purification_pct with
             | Some p => if (p =? dzero)%dec then DEFAULT_PURIFICATION_PCT else p
             | None => DEFAULT_PURIFICATION_PCT
             end in
  let! r := compute_report (compliant_dividends db user_id) fiscal_year (Some pct) in
  let marked := marked_set records user_id fiscal_year in
  Ok (r, map (fun ln => bool_decide (pl_symbol ln ∈ marked)) (rp_lines r)).

Definition record_match (user_id : string) (fiscal_year : Z) (symbol : string)
    (r : PurificationRecord) : bool :=
  (record_key user_id fiscal_year r && String.eqb (pu_symbol r) symbol)%bool.

Definition set_mark (mark : option Z) (r : PurificationRecord) : PurificationRecord :=
  mkRecord (pu_user_id r) (pu_fiscal_year r) (pu_symbol r) (pu_dividends r) (pu_pct r)
    (pu_amount r) mark.

(** [mark_donated], without the race that the unique key would catch. *)
Definition mark_donated (db : database) (records : list PurificationRecord) (user_id : string)
    (fiscal_year : Z) (symbol : string) (donated : bool) (now today : Z)
    : res (list PurificationRecord) :=
  let mark := if donated then Some now else None in
  let! existing := scalar_one_or_none (List.filter (record_match user_id fiscal_year symbol) records) in
  match existing with
  | Some _ =>
      Ok (map (fun r => if record_match user_id fiscal_year symbol r then set_mark mark r else r)
            records)
  | None =>
      let! rep := report db records user_id (Some fiscal_year) None today in
      match List.find (fun ln => String.eqb (pl_symbol ln) symbol) (rp_lines rep.1) with
      | None => Ok records
      | Some line =>
          Ok (records ++ [mkRecord user_id fiscal_year symbol (pl_dividends line) (pl_pct line)
                            (pl_amount line) mark])
      end
  end.

(** ** The annual report *)

(** The dividends of the year, by symbol, in integers of 10^-8. *)
Definition in_year (fiscal_year : Z) (r : DividendRecord) : bool := year_of (dr_date r) =? fiscal_year.

Definition year_amounts (fiscal_year : Z) (dividends : list DividendRecord) : list (string * Z) :=
  map (fun r => (dr_symbol r, units 8 (dr_amount r)))
    (List.filter (in_year fiscal_year) dividends).

Lemma group_by_symbol_fold fiscal_year dividends :
  group_by_symbol fiscal_year dividends
  = fold_left (fun d i => dict_add i.1 i.2 d)
      (map (fun r => (dr_symbol r, dr_amount r)) (List.filter (in_year fiscal_year) dividends)) [].
Proof.
  unfold group_by_symbol. change (fun d r => if year_of (dr_date r) =? fiscal_year then _ else d)
    with (fun d r => if in_year fiscal_year r then dict_add (dr_symbol r) (dr_amount r) d else d).
  generalize (@nil (string * dec)).
  induction dividends as [|r rs IH]; intros d; simpl; [done|].
  destruct (in_year fiscal_year r); simpl; apply IH.
Qed.

Definition dividend_ok (r : DividendRecord) : Prop :=
  on_grid 8 (dr_amount r) /\ 0 <= units 8 (dr_amount r).
Definition pct_ok (pct : dec) : Prop := on_grid 4 pct /\ 0 <= units 4 pct <= 10 ^ 6.

(** A line: the year's dividends and their purification share, rounded. *)
Definition line_spec (zpct : Z) (amounts : list (string * Z)) (l : PurificationLine) : Prop :=
  repr 2 (pl_dividends l) (div_half_even (key_total (pl_symbol l) amounts) (10 ^ 6)) /\
  repr 2 (pl_amount l) (div_half_even (key_total (pl_symbol l) amounts * zpct) (10 ^ 12)).

Lemma multiplier_ok pct :
  pct_ok pct -> exists m, ddiv pct d100 = Ok m /\ repr 6 m (units 4 pct).
Proof.
  intros [Hg Hb]. apply (ddiv_repr 4 0 6 pct d100 (units 4 pct) 100); [done|done|lia| |].
  { change (Z.max 0 (6 + 0 - 4)) with 2. change (Z.max 0 (4 - 0 - 6)) with 0. lia. }
  unfold exact_bound, prec. lia.
Qed.

Lemma quantize_two_repr s d z :
  2 <= s -> repr s d z -> Z.abs z < 10 ^ 27 ->
  exists q, quantize_two d = Ok q /\ repr 2 q (div_half_even z (10 ^ (s - 2))).
Proof.
  intros Hs H Hz. apply (dquantize_repr ROUND_HALF_EVEN 2 s d z); [done..|].
  pose proof (div_half_even_near z (10 ^ (s - 2)) (pow10_pos (s - 2) ltac:(lia))) as Hn.
  pose proof (pow10_pos (s - 2) ltac:(lia)). cbn [div_round]. unfold exact_bound, prec.
  set (k := 10 ^ (s - 2)) in *. clearbody k. set (q := div_half_even z k) in *. clearbody q.
  assert (Z.abs q <= Z.abs z + 1) by nia. lia.
Qed.

Lemma quantize_two_id d z :
  repr 2 d z -> Z.abs z < 10 ^ 27 -> exists q, quantize_two d = Ok q /\ repr 2 q z.
Proof.
  intros H Hz. destruct (quantize_two_repr 2 d z ltac:(lia) H Hz) as (q & E & R).
  change (10 ^ (2 - 2)) with 1 in R. rewrite <- (Z.mul_1_r z) in R at 1.
  rewrite div_half_even_exact in R by lia. eauto.
Qed.

Lemma purification_line_ok pct m k v amounts :
  pct_ok pct -> repr 6 m (units 4 pct) -> repr 8 v (key_total k amounts) ->
  0 <= key_total k amounts < 10 ^ 21 ->
  exists l, purification_line pct m (k, v) = Ok l /\ pl_symbol l = k /\ pl_pct l = pct /\
            line_spec (units 4 pct) amounts l.
Proof.
  intros [_ Hp] Hm Hv Hb. unfold purification_line. cbn [fst snd].
  assert (Hprod : 0 <= key_total k amounts * units 4 pct <= key_total k amounts * 10 ^ 6) by nia.
  destruct (quantize_two_repr 8 v _ ltac:(lia) Hv ltac:(lia)) as (q1 & -> & R1).
  destruct (quantize_two_repr 14 (v * m)%dec (key_total k amounts * units 4 pct))
    as (q2 & -> & R2); [lia|apply (dmul_repr 8 6); [done..|unfold exact_bound, prec; lia]|lia|].
  eexists. split; [reflexivity|]. done.
Qed.

Lemma key_total_nonneg s l : Forall (fun p => 0 <= p.2) l -> 0 <= key_total s l.
Proof.
  intros H. apply zsum_nonneg, Forall_map. eapply list.Forall_impl; [exact H|].
  intros p Hp; simpl in *. case_match; lia.
Qed.

Lemma year_amounts_nonneg y ds :
  Forall dividend_ok ds -> Forall (fun p => 0 <= p.2) (year_amounts y ds).
Proof.
  intros H. unfold year_amounts. apply Forall_map. apply Forall_list_filter.
  eapply list.Forall_impl; [exact H|]. by intros r [_ ?].
Qed.

Lemma zsum_abs_nonneg (l : list (string * Z)) :
  Forall (fun p => 0 <= p.2) l -> zsum (map (fun p => Z.abs p.2) l) = zsum (map snd l).
Proof. unfold zsum. induction 1; simpl; lia. Qed.

Lemma purification_lines_ok pct m amounts d :
  pct_ok pct -> repr 6 m (units 4 pct) -> Forall (fun p => 0 <= p.2) amounts ->
  zsum (map snd amounts) < 10 ^ 21 ->
  Forall (fun p => repr 8 p.2 (key_total p.1 amounts)) d ->
  exists lines, map_res (purification_line pct m) d = Ok lines /\
    map pl_symbol lines = map fst d /\
    Forall (fun l => pl_pct l = pct /\ line_spec (units 4 pct) amounts l) lines.
Proof.
  intros Hp Hm Hnn Hb. induction 1 as [|[k v] d Hv _ (ls & E & Hk & Hl)]; simpl.
  { exists []. repeat split. constructor. }
  pose proof (key_total_abs k amounts). pose proof (key_total_nonneg k amounts Hnn).
  rewrite zsum_abs_nonneg in * by done.
  destruct (purification_line_ok pct m k v amounts Hp Hm Hv ltac:(lia)) as (l & El & Hlk & Hlp & Hls).
  rewrite El, E. eexists. split; [reflexivity|]. simpl. rewrite Hlk, Hk.
  split; [done|]. by constructor.
Qed.

(** Distinct keys: the totals per key add up to at most the whole. *)
Lemma key_totals_sum ks amounts :
  NoDup ks -> Forall (fun p => 0 <= p.2) amounts ->
  zsum (map (fun k => key_total k amounts) ks) <= zsum (map snd amounts).
Proof.
  intros Hk. induction 1 as [|p l Hp _ IH].
  { unfold key_total, zsum; simpl. clear Hk. induction ks; simpl in *; lia. }
  replace (zsum (map (fun k => key_total k (p :: l)) ks))
    with (zsum (map (fun k => if String.eqb p.1 k then p.2 else 0) ks)
          + zsum (map (fun k => key_total k l) ks)).
  2: { rewrite <- zsum_map_add. f_equal. }
  assert (Hone : zsum (map (fun k => if String.eqb p.1 k then p.2 else 0) ks) <= p.2).
  { clear IH. unfold zsum. induction Hk as [|k ks Hnk _ IHk]; simpl; [lia|].
    destruct (String.eqb_spec p.1 k) as [<-|]; [|lia].
    assert (Hz : fold_right Z.add 0 (map (fun k => if String.eqb p.1 k then p.2 else 0) ks) = 0).
    { clear IHk. induction ks as [|k ks IHz]; simpl; [done|].
      rewrite elem_of_cons in Hnk. destruct (String.eqb_spec p.1 k) as [Heq|]; [exfalso; apply Hnk; by left|].
      apply IHz. tauto. }
    lia. }
  unfold zsum in *. simpl. lia.
Qed.

Lemma symbol_le_total (a b : string * dec) : symbol_le a b = true \/ symbol_le b a = true.
Proof. unfold symbol_le. apply String.leb_total. Qed.

(** What [compute_report] promises. *)
Definition report_spec (fiscal_year : Z) (pct : dec) (dividends : list DividendRecord)
    (r : PurificationReport) : Prop :=
  let amounts := year_amounts fiscal_year dividends in
  rp_fiscal_year r = fiscal_year /\ rp_pct r = pct /\
  NoDup (map pl_symbol (rp_lines r)) /\
  (forall s, s ∈ map pl_symbol (rp_lines r) <-> s ∈ map fst amounts) /\
  Forall (fun l => pl_pct l = pct /\ line_spec (units 4 pct) amounts l) (rp_lines r) /\
  repr 2 (rp_total_dividends r) (zsum (map (fun l => units 2 (pl_dividends l)) (rp_lines r))) /\
  repr 2 (rp_total_purification r) (zsum (map (fun l => units 2 (pl_amount l)) (rp_lines r))).

Lemma half_even_shrink z d : 0 < d -> 0 <= z -> 0 <= div_half_even z d <= z + 1.
Proof. intros Hd Hz. pose proof (div_half_even_near z d Hd). nia. Qed.

(** A total over lines is exact: each amount is bounded by its key's total. *)
Lemma line_sum_ok (f : PurificationLine -> dec) amounts lines :
  NoDup (map pl_symbol lines) -> Forall (fun p => 0 <= p.2) amounts ->
  zsum (map snd amounts) < 10 ^ 21 -> Z.of_nat (length lines) < 10 ^ 21 ->
  Forall (fun l => exists z, repr 2 (f l) z /\ 0 <= z <= key_total (pl_symbol l) amounts + 1) lines ->
  exists q, quantize_two (dsum (map f lines)) = Ok q /\
            repr 2 q (zsum (map (fun l => units 2 (f l)) lines)).
Proof.
  intros Hnd Hnn Hb Hlen Hl.
  assert (Hle : zsum (map Z.abs (map (fun l => units 2 (f l)) lines))
                <= zsum (map (fun k => key_total k amounts) (map pl_symbol lines))
                   + Z.of_nat (length lines)).
  { clear -Hl. induction Hl as [|l ls (z & Hz & Hb) _ IH]; [done|].
    unfold zsum in *. cbn [map fold_right length]. rewrite (repr_units _ _ _ Hz). lia. }
  pose proof (key_totals_sum _ amounts Hnd Hnn).
  pose proof (zsum_abs_le (map (fun l => units 2 (f l)) lines)).
  apply quantize_two_id; [|lia]. apply dsum_repr; [|unfold exact_bound, prec; lia].
  clear -Hl. induction Hl as [|l ls (z & Hz & _) _ IH]; simpl; constructor; [|done].
  by rewrite (repr_units _ _ _ Hz).
Qed.

Lemma compute_report_ok dividends fiscal_year purification_pct :
  let pct := default DEFAULT_PURIFICATION_PCT purification_pct in
  let amounts := year_amounts fiscal_year dividends in
  pct_ok pct -> Forall dividend_ok dividends -> zsum (map snd amounts) < 10 ^ 21 ->
  Z.of_nat (length dividends) < 10 ^ 21 ->
  exists r, compute_report dividends fiscal_year purification_pct = Ok r /\
            report_spec fiscal_year pct dividends r.
Proof.
  intros pct amounts Hp Hd Hb Hlen. unfold compute_report. fold pct.
  destruct (multiplier_ok pct Hp) as (m & -> & Hm).
  pose proof (year_amounts_nonneg fiscal_year dividends Hd) as Hnn. fold amounts in Hnn.
  rewrite group_by_symbol_fold.
  destruct (dict_fold_spec 8
    (map (fun r => (dr_symbol r, dr_amount r)) (List.filter (in_year fiscal_year) dividends)) amounts)
    as (Hnd & Hkeys & Hv).
  { unfold amounts, year_amounts. clear -Hd.
    induction Hd as [|r rs [Hg _] _ IH]; simpl; [constructor|].
    destruct (in_year fiscal_year r); [|done]. simpl. by constructor. }
  { rewrite zsum_abs_nonneg by done. lia. }
  set (d := fold_left _ _ []) in *. set (sd := sort_by symbol_le d).
  assert (Hpd : sd ≡ₚ d) by apply sort_by_perm.
  destruct (purification_lines_ok pct m amounts sd Hp Hm Hnn Hb) as (lines & -> & Hsy & Hls);
    [by rewrite Hpd|].
  assert (Hnd' : NoDup (map pl_symbol lines)) by (rewrite Hsy, Hpd; done).
  assert (Hlen' : Z.of_nat (length lines) < 10 ^ 21).
  { replace (length lines) with (length (map fst d))
      by (rewrite <- Hpd, <- Hsy; by rewrite length_map).
    assert (Hsub : map fst d ⊆+ map fst amounts).
    { apply NoDup_submseteq; [done|]. intros s Hs. apply Hkeys in Hs.
      unfold amounts, year_amounts. rewrite map_map in Hs |- *. done. }
    apply submseteq_length in Hsub. unfold amounts, year_amounts in Hsub.
    rewrite !length_map in Hsub. pose proof (filter_length_le (in_year fiscal_year) dividends).
    rewrite length_map. lia. }
  assert (Hf : forall l, l ∈ lines -> 0 <= key_total (pl_symbol l) amounts < 10 ^ 21).
  { intros l _. pose proof (key_total_abs (pl_symbol l) amounts).
    pose proof (key_total_nonneg (pl_symbol l) amounts Hnn). rewrite zsum_abs_nonneg in * by done. lia. }
  rewrite list.Forall_forall in Hls.
  destruct (line_sum_ok pl_dividends amounts lines Hnd' Hnn Hb Hlen') as (td & -> & Htd).
  { apply list.Forall_forall. intros l Hl. specialize (Hf l Hl). destruct (Hls l Hl) as [_ [R _]].
    eexists. split; [exact R|]. pose proof (half_even_shrink _ (10 ^ 6) ltac:(lia) (proj1 Hf)). lia. }
  destruct (line_sum_ok pl_amount amounts lines Hnd' Hnn Hb Hlen') as (tp & -> & Htp).
  { apply list.Forall_forall. intros l Hl. specialize (Hf l Hl). destruct (Hls l Hl) as [_ [_ R]].
    eexists. split; [exact R|]. destruct Hp as [_ Hp].
    pose proof (half_even_shrink (key_total (pl_symbol l) amounts * units 4 pct) (10 ^ 12)
                  ltac:(lia) ltac:(nia)) as [H0 H1].
    split; [done|]. destruct Hf as [Hf0 Hf1].
    pose proof (div_half_even_near (key_total (pl_symbol l) amounts * units 4 pct) (10 ^ 12) ltac:(lia)).
    assert (key_total (pl_symbol l) amounts * units 4 pct <= key_total (pl_symbol l) amounts * 10 ^ 6)
      by (apply Z.mul_le_mono_nonneg_l; lia). lia. }
  eexists. split; [reflexivity|]. unfold report_spec; cbn [rp_fiscal_year rp_pct rp_lines
    rp_total_dividends rp_total_purification]. fold amounts.
  split; [done|]. split; [done|]. split; [done|]. split; [|split; [by apply list.Forall_forall|done]].
  intros s. rewrite Hsy, Hpd, Hkeys. unfold amounts, year_amounts. by rewrite !map_map.
Qed.

(** ** Donation marks *)

Definition pkey (r : PurificationRecord) : string * Z * string :=
  (pu_user_id r, pu_fiscal_year r, pu_symbol r).

Lemma record_match_pkey u y s r : record_match u y s r = true <-> pkey r = (u, y, s).
Proof.
  unfold record_match, record_key, pkey. rewrite !andb_true_iff, !String.eqb_eq, Z.eqb_eq.
  split; [by intros [[-> ->] ->]|by intros [= -> -> ->]].
Qed.

Lemma marked_set_spec rs u y s :
  s ∈ marked_set rs u y <->
  exists r, r ∈ rs /\ pkey r = (u, y, s) /\ pu_marked_donated_at r <> None.
Proof.
  unfold marked_set. rewrite list_elem_of_omap. split.
  - intros (r & Hr & Hm). apply list_elem_of_In, filter_In in Hr as [Hr Hk].
    destruct (pu_marked_donated_at r) eqn:E; [|done]. injection Hm as <-.
    exists r. split; [by apply list_elem_of_In|]. split; [|congruence].
    apply record_match_pkey. unfold record_match. by rewrite Hk, String.eqb_refl.
  - intros (r & Hr & Hk & Hm). exists r. apply record_match_pkey in Hk.
    unfold record_match in Hk. apply andb_true_iff in Hk as [Hk Hs%String.eqb_eq].
    split; [apply list_elem_of_In, filter_In; split; [by apply list_elem_of_In|done]|].
    destruct (pu_marked_donated_at r); [by rewrite Hs|done].
Qed.

(** The effect of a mark on every (user, year, symbol). *)
Definition mark_effect (rs rs' : list PurificationRecord) (key : string * Z * string)
    (donated : bool) : Prop :=
  NoDup (map pkey rs') /\
  forall u y s, s ∈ marked_set rs' u y <->
    (if decide ((u, y, s) = key) then donated = true else s ∈ marked_set rs u y).

Lemma mark_existing_effect rs u y s donated now :
  let mark := if (donated : bool) then Some now else None in
  NoDup (map pkey rs) -> (exists r, r ∈ rs /\ pkey r = (u, y, s)) ->
  mark_effect rs (map (fun r => if record_match u y s r then set_mark mark r else r) rs)
    (u, y, s) donated.
Proof.
  intros mark Hnd (r0 & Hr0 & Hk0).
  assert (Hkey : forall r, pkey (if record_match u y s r then set_mark mark r else r) = pkey r)
    by (intros r; by case_match).
  split.
  { rewrite map_map. by rewrite (map_ext _ pkey) by exact Hkey. }
  intros u' y' s'. rewrite marked_set_spec. destruct (decide _) as [[= -> -> ->]|Hne].
  - split.
    + intros (r & Hr & Hk & Hm). apply list_elem_of_In, in_map_iff in Hr as (x & <- & Hx).
      rewrite Hkey in Hk. apply record_match_pkey in Hk. rewrite Hk in Hm. simpl in Hm.
      unfold mark in Hm. by destruct donated.
    + intros ->. exists (set_mark mark r0). split; [|split; [exact Hk0|discriminate]].
      apply list_elem_of_In, in_map_iff. exists r0. split; [|by apply list_elem_of_In].
      apply record_match_pkey in Hk0. by rewrite Hk0.
  - assert (Hno : forall r, pkey r = (u', y', s') -> record_match u y s r = false).
    { intros r Hk. destruct (record_match u y s r) eqn:E; [|done].
      apply record_match_pkey in E. congruence. }
    rewrite marked_set_spec. split; intros (r & Hr & Hk & Hm).
    + apply list_elem_of_In, in_map_iff in Hr as (x & <- & Hx). rewrite Hkey in Hk.
      rewrite (Hno x Hk) in Hm. exists x. split; [by apply list_elem_of_In|done].
    + exists r. split; [|done]. apply list_elem_of_In, in_map_iff. exists r.
      split; [by rewrite (Hno r Hk)|by apply list_elem_of_In].
Qed.

Lemma mark_new_effect rs u y s donated now rec :
  NoDup (map pkey rs) -> (forall r, r ∈ rs -> pkey r <> (u, y, s)) -> pkey rec = (u, y, s) ->
  pu_marked_donated_at rec = (if (donated : bool) then Some now else None) ->
  mark_effect rs (rs ++ [rec]) (u, y, s) donated.
Proof.
  intros Hnd Hno Hk Hm. split.
  { rewrite map_app. simpl. apply list.NoDup_app. split; [done|].
    split; [|apply NoDup_singleton]. intros k Hin ->%list_elem_of_singleton.
    apply list_elem_of_In, in_map_iff in Hin as (x & Hx & Hin). apply (Hno x);
      [by apply list_elem_of_In|congruence]. }
  intros u' y' s'. rewrite marked_set_spec. destruct (decide _) as [[= -> -> ->]|Hne].
  - split.
    + intros (r & [Hr|Hr%list_elem_of_singleton]%elem_of_app & Hkr & Hmr);
        [by apply Hno in Hr|subst r]. rewrite Hm in Hmr. by destruct donated.
    + intros ->. exists rec. split; [apply elem_of_app; right; by apply list_elem_of_singleton|].
      by rewrite Hm.
  - rewrite marked_set_spec. split; intros (r & Hr & Hkr & Hmr).
    + apply elem_of_app in Hr as [Hr|Hr%list_elem_of_singleton]; [eauto|congruence].
    + exists r. split; [apply elem_of_app; by left|done].
Qed.

(** ** Properties *)

(** C8: the purification report.  For dividends and a percentage on the grid of
    the columns, [compute_report] returns one line per symbol with dividends in
    the fiscal year and no other, each line the exact total of the year and its
    exact percentage rounded half to even to paisa, and the two report totals
    are the sums of the lines. *)
Theorem compute_report_correct dividends fiscal_year purification_pct :
  let pct := default DEFAULT_PURIFICATION_PCT purification_pct in
  pct_ok pct -> Forall dividend_ok dividends ->
  zsum (map snd (year_amounts fiscal_year dividends)) < 10 ^ 21 ->
  Z.of_nat (length dividends) < 10 ^ 21 ->
  exists r, compute_report dividends fiscal_year purification_pct = Ok r /\
            report_spec fiscal_year pct dividends r.
Proof. apply compute_report_ok. Qed.

Definition ex_dividends : list DividendRecord :=
  [mkDividend "MEBL" (first_of_year 2025 + 100) (mkdec 123456780000 (-8));
   mkDividend "OGDC" (first_of_year 2025 + 10) (mkdec 50000000000 (-8));
   mkDividend "MEBL" (first_of_year 2024 + 10) (mkdec 70000000000 (-8))].

Lemma compute_report_correct_witness :
  exists r, compute_report ex_dividends 2025 None = Ok r /\
            report_spec 2025 DEFAULT_PURIFICATION_PCT ex_dividends r.
Proof.
  apply (compute_report_correct ex_dividends 2025 None).
  - split; [reflexivity|vm_compute; split; congruence].
  - repeat constructor; vm_compute; congruence.
  - reflexivity.
  - reflexivity.
Defined.

(** marking a donation.  Whatever the tables, a successful [mark_donated]
    keeps the key (user, year, symbol) unique; it either finds nothing to mark
    (no record and no line in the report) and changes nothing, or makes exactly
    the mark of its key equal to [donated]. *)
Theorem mark_donated_correct db records user_id fiscal_year symbol donated now today records' :
  NoDup (map pkey records) ->
  mark_donated db records user_id fiscal_year symbol donated now today = Ok records' ->
  records' = records \/ mark_effect records records' (user_id, fiscal_year, symbol) donated.
Proof.
  intros Hnd E. unfold mark_donated in E.
  destruct (List.filter _ records) as [|r0 l] eqn:Ef.
  - assert (Hno : forall r, r ∈ records -> pkey r <> (user_id, fiscal_year, symbol)).
    { intros r Hr Hk. apply record_match_pkey in Hk.
      assert (In r []) as []. rewrite <- Ef. apply filter_In.
      split; [by apply list_elem_of_In|done]. }
    cbn [scalar_one_or_none] in E. destruct (report _ _ _ _ _ _) as [rep|]; [|discriminate E].
    destruct (List.find _ _) as [line|]; inv_res; [right|by left].
    by eapply mark_new_effect.
  - destruct l; [|discriminate E]. cbn [scalar_one_or_none] in E. inv_res. right.
    apply mark_existing_effect; [done|]. exists r0.
    assert (In r0 [r0]) as Hin by (by left). rewrite <- Ef in Hin.
    apply filter_In in Hin as [Hin Hk]. split; [by apply list_elem_of_In|].
    by apply record_match_pkey.
Qed.

Definition ex_records : list PurificationRecord :=
  [mkRecord "u1" 2025 "OGDC" (mkdec 50000 (-2)) (mkdec 5 0) (mkdec 2500 (-2)) None].
Definition ex_empty_db : database := mkDb [] [] [] [] [] [].

Lemma mark_donated_correct_witness :
  match mark_donated ex_empty_db ex_records "u1" 2025 "OGDC" true 7 700000 with
  | Ok records' =>
      records' = ex_records \/ mark_effect ex_records records' ("u1", 2025, "OGDC"%string) true
  | Exn _ => False
  end.
Proof.
  destruct (mark_donated ex_empty_db ex_records "u1" 2025 "OGDC" true 7 700000) as [rs|e] eqn:E;
    [|vm_compute in E; discriminate E].
  refine (mark_donated_correct ex_empty_db ex_records "u1" 2025 "OGDC" true 7 700000 rs _ E).
  apply NoDup_singleton.
Defined.
