(* ===== verification/PyText.v ===== *)
(** * PyText: the text conversions of Python the payment code uses

    [str(int)], [int(str)], [Decimal(str)], [str(Decimal)], [f"{d:.2f}"] and the
    string methods [strip], [lower], [upper], [rstrip("/")], [isdigit] and
    slicing, with the round trips of printing and parsing.

    A string is a sequence of 8-bit code points; digits, white space and case
    are the ASCII ones.  [Decimal(str)] also yields the infinities and NaN,
    which [xdec] adds to the finite decimals. *)

From Stdlib Require Import Ascii.
From S2P Require Import Prelude Decimal.

(** ** Characters *)

Definition chars := Stdlib.Strings.String.list_ascii_of_string.
Definition text := Stdlib.Strings.String.string_of_list_ascii.
Definition code (c : ascii) : Z := Z.of_nat (nat_of_ascii c).
Definition chr (n : Z) : ascii := ascii_of_nat (Z.to_nat n).

Definition is_digit (c : ascii) : bool := ((48 <=? code c) && (code c <=? 57))%bool.
Definition is_letter (c : ascii) : bool :=
  (((65 <=? code c) && (code c <=? 90)) || ((97 <=? code c) && (code c <=? 122)))%bool.
(** [\w] *)
Definition is_word (c : ascii) : bool := (is_letter c || is_digit c || Ascii.eqb c "_")%bool.
Definition is_space (c : ascii) : bool :=
  ((code c =? 32) || ((9 <=? code c) && (code c <=? 13)) || ((28 <=? code c) && (code c <=? 31)))%bool.
Definition lower_char (c : ascii) : ascii :=
  if ((65 <=? code c) && (code c <=? 90))%bool then chr (code c + 32) else c.
Definition upper_char (c : ascii) : ascii :=
  if ((97 <=? code c) && (code c <=? 122))%bool then chr (code c - 32) else c.

Definition lower (s : string) : string := text (map lower_char (chars s)).
Definition upper (s : string) : string := text (map upper_char (chars s)).
Definition is_ascii (s : string) : bool := forallb (fun c => code c <? 128) (chars s).
(** [s.isdigit()] *)
Definition isdigit (s : string) : bool :=
  match chars s with [] => false | l => forallb is_digit l end.

Fixpoint drop_while (f : ascii -> bool) (l : list ascii) : list ascii :=
  match l with
  | [] => []
  | c :: cs => if f c then drop_while f cs else l
  end.
Definition rstrip_by (f : ascii -> bool) (l : list ascii) : list ascii :=
  rev (drop_while f (rev l)).
Definition strip_chars (l : list ascii) : list ascii := rstrip_by is_space (drop_while is_space l).
(** [s.strip()] *)
Definition strip (s : string) : string := text (strip_chars (chars s)).
Fixpoint take_while (f : ascii -> bool) (l : list ascii) : list ascii :=
  match l with
  | [] => []
  | c :: l => if f c then c :: take_while f l else []
  end.
(** [s.rstrip("/")] *)
Definition rstrip_slash (s : string) : string :=
  text (rstrip_by (fun c => Ascii.eqb c "/") (chars s)).
(** [s[:n]] *)
Definition slice_to (n : nat) (s : string) : string := text (take n (chars s)).
Definition nonempty (s : string) : bool := match s with EmptyString => false | _ => true end.

(** ** Integers *)

Fixpoint digits_fuel (fuel : nat) (n : Z) (acc : list ascii) : list ascii :=
  match fuel with
  | O => chr (48 + n mod 10) :: acc
  | S f => if n <? 10 then chr (48 + n) :: acc
           else digits_fuel f (n / 10) (chr (48 + n mod 10) :: acc)
  end.
(** Decimal digits of a non-negative integer. *)
Definition digits (n : Z) : list ascii := digits_fuel (Z.to_nat (Z.log2 n)) n [].
(** [str(n)] *)
Definition str_int (n : Z) : string :=
  text (if n <? 0 then "-"%char :: digits (- n) else digits n).

(** Digits with single underscores between them. *)
Fixpoint int_body (l : list ascii) (after_digit : bool) (acc : Z) : option Z :=
  match l with
  | [] => if after_digit then Some acc else None
  | c :: cs =>
      if is_digit c then int_body cs true (10 * acc + (code c - 48))
      else if (Ascii.eqb c "_" && after_digit)%bool then int_body cs false acc
      else None
  end.
Definition take_sign (l : list ascii) : bool * list ascii :=
  match l with
  | c :: cs => if Ascii.eqb c "-" then (true, cs)
               else if Ascii.eqb c "+" then (false, cs) else (false, l)
  | [] => (false, [])
  end.
(** [int(s)] *)
Definition int_of_str (s : string) : res Z :=
  let '(neg, body) := take_sign (strip_chars (chars s)) in
  match int_body body false 0 with
  | Some n => Ok (if neg then - n else n)
  | None => Exn ValueError
  end.

(** ** Decimals *)

Inductive xdec := Fin (d : dec) | Inf (neg : bool) | NaN.

(** Leading digits: their value, their number, and what follows. *)
Fixpoint span_digits (l : list ascii) (acc : Z) (n : Z) : Z * Z * list ascii :=
  match l with
  | c :: cs => if is_digit c then span_digits cs (10 * acc + (code c - 48)) (n + 1) else (acc, n, l)
  | [] => (acc, n, [])
  end.

(** [E[sign]digits] or nothing. *)
Definition exponent_part (l : list ascii) : option Z :=
  match l with
  | [] => Some 0
  | c :: cs =>
      if Ascii.eqb (lower_char c) "e" then
        let '(neg, body) := take_sign cs in
        match span_digits body 0 0 with
        | (v, n, []) => if n =? 0 then None else Some (if neg then - v else v)
        | _ => None
        end
      else None
  end.

Definition finite_part (l : list ascii) : option dec :=
  let '(ip, ni, rest) := span_digits l 0 0 in
  let '(c, nf, rest) :=
    match rest with
    | dot :: rest' => if Ascii.eqb dot "." then span_digits rest' ip 0 else (ip, 0, rest)
    | [] => (ip, 0, [])
    end in
  if ni + nf =? 0 then None
  else match exponent_part rest with
       | Some e => Some (mkdec c (e - nf))
       | None => None
       end.

Definition is_nan (l : list ascii) : bool :=
  match map lower_char l with
  | a :: b :: c :: ds =>
      (String.eqb (text [a; b; c]) "nan" && forallb is_digit ds)%bool
  | _ => false
  end.

(** [Decimal(s)] *)
Definition decimal_of_str (s : string) : res xdec :=
  let '(neg, body) :=
    take_sign (List.filter (fun c => negb (Ascii.eqb c "_")) (strip_chars (chars s))) in
  let low := text (map lower_char body) in
  if (String.eqb low "inf" || String.eqb low "infinity")%bool then Ok (Inf neg)
  else if (is_nan body || match body with c :: cs => Ascii.eqb (lower_char c) "s" && is_nan cs | [] => false end)%bool
  then Ok NaN
  else match finite_part body with
       | Some d => Ok (Fin (if neg then dopp d else d))
       | None => Exn InvalidOperation
       end.

Definition zeros (n : Z) : list ascii := repeat "0"%char (Z.to_nat n).

(** [Decimal.__str__] *)
Definition str_dec (d : dec) : string :=
  let ds := digits (Z.abs (coef d)) in
  let len := Z.of_nat (length ds) in
  let leftdigits := expo d + len in
  let dotplace := if (expo d <=? 0) && (-6 <? leftdigits) then leftdigits else 1 in
  let body :=
    if dotplace <=? 0 then "0"%char :: "."%char :: zeros (- dotplace) ++ ds
    else if len <=? dotplace then ds ++ zeros (dotplace - len)
    else take (Z.to_nat dotplace) ds ++ "."%char :: drop (Z.to_nat dotplace) ds in
  let ex := leftdigits - dotplace in
  let exponent :=
    if ex =? 0 then []
    else "E"%char :: (if ex <? 0 then "-"%char else "+"%char) :: digits (Z.abs ex) in
  text ((if coef d <? 0 then ["-"%char] else []) ++ body ++ exponent).

(** [f"{d:.2f}"] *)
Definition format_2f (d : dec) : string :=
  let c := quantized ROUND_HALF_EVEN 2 d in
  text ((if c <? 0 then ["-"%char] else [])
        ++ digits (Z.abs c / 100) ++ "."%char :: chr (48 + Z.abs c / 10 mod 10)
        :: [chr (48 + Z.abs c mod 10)]).

(** [int(d)] truncates. *)
Definition int_of_dec (d : dec) : Z :=
  if 0 <=? expo d then coef d * 10 ^ expo d else Z.quot (coef d) (10 ^ (- expo d)).

(** [%04d], [%02d] *)
Definition pad (width : Z) (n : Z) : string :=
  let ds := digits n in text (zeros (width - Z.of_nat (length ds)) ++ ds).

(** ** Examples *)

Example str_int_ex : map str_int [0; 7; 10; -42; 90000] = ["0"; "7"; "10"; "-42"; "90000"]%string.
Proof. vm_compute. reflexivity. Qed.
Example int_of_str_ex :
  map int_of_str [" 1_000 "; "-7"; "1__0"; "_1"; ""; "9.5"]%string
  = [Ok 1000; Ok (-7); Exn ValueError; Exn ValueError; Exn ValueError; Exn ValueError].
Proof. vm_compute. reflexivity. Qed.
Example decimal_of_str_ex :
  map decimal_of_str ["900.00"; " .5"; "1e3"; "-1.2E-1"; "nan"; "-Infinity"; "sNaN1"; "12,5"; ""]%string
  = [Ok (Fin (mkdec 90000 (-2))); Ok (Fin (mkdec 5 (-1))); Ok (Fin (mkdec 1 3));
     Ok (Fin (mkdec (-12) (-2))); Ok NaN; Ok (Inf true); Ok NaN;
     Exn InvalidOperation; Exn InvalidOperation].
Proof. vm_compute. reflexivity. Qed.
Example str_dec_ex :
  map str_dec [mkdec 90000 (-2); mkdec 5 (-3); mkdec 1 3; mkdec (-12) 0; mkdec 123 (-9); mkdec 5 (-2)]
  = ["900.00"; "0.005"; "1E+3"; "-12"; "1.23E-7"; "0.05"]%string.
Proof. vm_compute. reflexivity. Qed.
Example format_2f_ex :
  map format_2f [mkdec 90000 (-2); mkdec 5 (-3); mkdec 15 (-3); mkdec 12 0]
  = ["900.00"; "0.00"; "0.02"; "12.00"]%string.
Proof. vm_compute. reflexivity. Qed.

(** ** Characters and digits *)

Lemma chars_text l : chars (text l) = l.
Proof. apply Stdlib.Strings.String.list_ascii_of_string_of_list_ascii. Qed.

Lemma chars_append s t : chars (s +:+ t)%string = (chars s ++ chars t)%list.
Proof. induction s as [|c s IH]; [done|]. change (c :: chars (s +:+ t)%string = c :: (chars s ++ chars t))%list. by rewrite IH. Qed.

Lemma length_append s t : String.length (s +:+ t)%string = (String.length s + String.length t)%nat.
Proof. induction s as [|c s IH]; [done|]. cbn. by rewrite <- IH. Qed.

Lemma code_chr n : 0 <= n < 256 -> code (chr n) = n.
Proof.
  intros H. unfold code, chr. rewrite nat_ascii_embedding by lia. lia.
Qed.

Lemma is_digit_chr d : 0 <= d < 10 -> is_digit (chr (48 + d)) = true.
Proof.
  intros H. unfold is_digit. rewrite code_chr by lia.
  apply andb_true_iff; split; apply Z.leb_le; lia.
Qed.

(** Facts about a character decided by its code. *)
Lemma eqb_code c k : code c <> code k -> Ascii.eqb c k = false.
Proof. intros H. apply Ascii.eqb_neq. congruence. Qed.

Lemma is_digit_code c : is_digit c = true -> 48 <= code c <= 57.
Proof. unfold is_digit. intros H. zbool. lia. Qed.

Lemma digit_not_space c : is_digit c = true -> is_space c = false.
Proof.
  intros H%is_digit_code. unfold is_space.
  apply orb_false_iff; split; [apply orb_false_iff; split|]; apply not_true_iff_false; intros E;
    zbool; lia.
Qed.

Lemma lower_digit c : is_digit c = true -> lower_char c = c.
Proof.
  intros H%is_digit_code. unfold lower_char.
  destruct ((65 <=? code c) && _)%bool eqn:E; [zbool; lia|done].
Qed.

(** Value of a digit sequence. *)
Definition dvalue (acc : Z) (l : list ascii) : Z :=
  fold_left (fun a c => 10 * a + (code c - 48)) l acc.

Lemma dvalue_app acc l1 l2 : dvalue acc (l1 ++ l2) = dvalue (dvalue acc l1) l2.
Proof. apply fold_left_app. Qed.

Lemma digits_fuel_spec fuel n acc :
  0 <= n < 2 ^ (Z.of_nat fuel + 1) ->
  exists ds, digits_fuel fuel n acc = ds ++ acc /\ Forall (fun c => is_digit c = true) ds
             /\ ds <> [] /\ dvalue 0 ds = n.
Proof.
  revert n acc; induction fuel as [|f IH]; intros n acc Hn; cbn [digits_fuel].
  - change (2 ^ (Z.of_nat 0 + 1)) with 2 in Hn. exists [chr (48 + n mod 10)].
    rewrite Z.mod_small by lia. split_and!; [done| |done|].
    + repeat constructor. apply is_digit_chr. lia.
    + unfold dvalue. cbn [fold_left]. rewrite code_chr by lia. lia.
  - destruct (n <? 10) eqn:E; zbool.
    + exists [chr (48 + n)]. split_and!; [done| |done|].
      * repeat constructor. apply is_digit_chr. lia.
      * unfold dvalue. cbn [fold_left]. rewrite code_chr by lia. lia.
    + assert (Hp : 2 ^ (Z.of_nat (S f) + 1) = 2 * 2 ^ (Z.of_nat f + 1)).
      { rewrite <- Z.pow_succ_r by lia. f_equal. lia. }
      pose proof (Z.mod_pos_bound n 10 ltac:(lia)). pose proof (Z.div_mod n 10 ltac:(lia)).
      destruct (IH (n / 10) (chr (48 + n mod 10) :: acc) ltac:(lia)) as (ds & E1 & Hd & Hne & Hv).
      exists (ds ++ [chr (48 + n mod 10)]). rewrite E1, <- app_assoc. split_and!; [done| | |].
      * apply Forall_app. split; [done|]. repeat constructor. apply is_digit_chr. lia.
      * by destruct ds.
      * rewrite dvalue_app, Hv. unfold dvalue. cbn [fold_left]. rewrite code_chr by lia. lia.
Qed.

Lemma digits_spec n :
  0 <= n -> Forall (fun c => is_digit c = true) (digits n) /\ digits n <> [] /\ dvalue 0 (digits n) = n.
Proof.
  intros Hn. unfold digits.
  destruct (digits_fuel_spec (Z.to_nat (Z.log2 n)) n []) as (ds & E & H).
  - pose proof (Z.log2_nonneg n). rewrite Z2Nat.id by lia. split; [lia|].
    destruct (Z.eq_dec n 0) as [->|]; [reflexivity|].
    destruct (Z.log2_spec n ltac:(lia)) as [_ Hhi]. lia.
  - rewrite E, app_nil_r. exact H.
Qed.

(** The first character of a printed number, and stripping, do nothing. *)
Lemma digits_cons n : 0 <= n -> exists c cs, digits n = c :: cs /\ is_digit c = true.
Proof.
  intros Hn. destruct (digits_spec n Hn) as (Hd & Hne & _).
  destruct (digits n) as [|c cs]; [done|]. inversion Hd; eauto.
Qed.

Lemma drop_while_none f l : Forall (fun c => f c = false) l -> drop_while f l = l.
Proof. destruct 1 as [|c cs Hc]; simpl; [done|]. by rewrite Hc. Qed.

Lemma strip_chars_none l : Forall (fun c => is_space c = false) l -> strip_chars l = l.
Proof.
  intros H. unfold strip_chars, rstrip_by. rewrite (drop_while_none _ l) by done.
  rewrite drop_while_none, rev_involutive; [done|]. by apply Forall_rev.
Qed.

Lemma take_sign_none c cs : code c <> 45 -> code c <> 43 -> take_sign (c :: cs) = (false, c :: cs).
Proof. intros H1 H2. unfold take_sign. by rewrite !eqb_code. Qed.

(** ** Printing and parsing integers *)

Lemma int_body_digits l b acc :
  Forall (fun c => is_digit c = true) l -> l <> [] -> int_body l b acc = Some (dvalue acc l).
Proof.
  intros H Hne. assert (Hg : forall b acc, int_body l b acc = if (b || nonempty (text l))%bool then Some (dvalue acc l) else None).
  { clear Hne b acc. induction H as [|c cs Hc Hcs IH]; intros b acc; cbn [int_body].
    - simpl. by destruct b.
    - rewrite Hc, IH. rewrite !orb_true_r. done. }
  rewrite Hg. destruct l; [done|]. by rewrite orb_true_r.
Qed.

Lemma int_of_str_int n : int_of_str (str_int n) = Ok n.
Proof.
  unfold int_of_str, str_int. rewrite chars_text.
  destruct (n <? 0) eqn:E; zbool.
  - destruct (digits_spec (- n) ltac:(lia)) as (Hd & Hne & Hv).
    rewrite strip_chars_none.
    + cbn [take_sign]. rewrite Ascii.eqb_refl. rewrite int_body_digits by done. f_equal. lia.
    + constructor; [done|]. eapply list.Forall_impl; [exact Hd|]. intros. by apply digit_not_space.
  - destruct (digits_spec n ltac:(lia)) as (Hd & Hne & Hv).
    rewrite strip_chars_none.
    + destruct (digits_cons n ltac:(lia)) as (c & cs & E1 & Hc%is_digit_code).
      rewrite E1, take_sign_none, <- E1 by lia. by rewrite int_body_digits, Hv.
    + eapply list.Forall_impl; [exact Hd|]. intros. by apply digit_not_space.
Qed.

Lemma isdigit_str_int n : 0 <= n -> isdigit (str_int n) = true.
Proof.
  intros Hn. unfold isdigit, str_int. rewrite (proj2 (Z.ltb_ge n 0)) by lia. rewrite chars_text.
  destruct (digits_spec n Hn) as (Hd & Hne & _). destruct (digits n) as [|c cs] eqn:E; [done|].
  apply forallb_forall. intros x Hx. rewrite list.Forall_forall in Hd. apply Hd. by apply list_elem_of_In.
Qed.

Lemma str_int_nonempty n : nonempty (str_int n) = true.
Proof.
  unfold str_int. destruct (n <? 0) eqn:E; zbool; [done|].
  destruct (digits_cons n ltac:(lia)) as (c & cs & E1 & _). by rewrite E1.
Qed.

(** ** Printing and parsing decimals *)

Definition plain_char (c : ascii) : Prop := is_digit c = true \/ c = "."%char.

Lemma plain_not_space c : plain_char c -> is_space c = false.
Proof. intros [H| ->]; [by apply digit_not_space|reflexivity]. Qed.

Lemma plain_not_underscore c : plain_char c -> Ascii.eqb c "_" = false.
Proof.
  intros [H%is_digit_code| ->]; [|reflexivity]. apply eqb_code. change (code "_") with 95. lia.
Qed.

Lemma filter_underscore l :
  Forall plain_char l -> List.filter (fun c => negb (Ascii.eqb c "_")) l = l.
Proof.
  induction 1 as [|c cs Hc Hcs IH]; simpl; [done|].
  by rewrite (plain_not_underscore c Hc), IH.
Qed.

Lemma text_eqb_head c cs a as' : code c <> code a -> String.eqb (text (c :: cs)) (String a as') = false.
Proof.
  intros H. apply String.eqb_neq. intros E. apply H. cbn in E. congruence.
Qed.

(** A text of digits and points that starts with a digit is read as a number. *)
Lemma decimal_of_plain c cs :
  is_digit c = true -> Forall plain_char cs ->
  decimal_of_str (text (c :: cs)) =
  match finite_part (c :: cs) with Some d => Ok (Fin d) | None => Exn InvalidOperation end.
Proof.
  intros Hc Hcs. pose proof (is_digit_code c Hc) as Hr. unfold decimal_of_str. rewrite chars_text.
  rewrite strip_chars_none, filter_underscore, take_sign_none;
    [|lia|lia|constructor; [by left|done]|].
  2:{ constructor; [by apply digit_not_space|].
      eapply list.Forall_impl; [exact Hcs|]. apply plain_not_space. }
  cbn [map]. rewrite (lower_digit c Hc). rewrite !text_eqb_head by (change (code "i") with 105; lia). cbn [orb].
  assert (Hn : is_nan (c :: cs) = false).
  { unfold is_nan. cbn [map]. rewrite (lower_digit c Hc).
    destruct (map lower_char cs) as [|b [|d ds]]; [done..|].
    rewrite text_eqb_head; [done|]. change (code "n") with 110. lia. }
  rewrite Hn, eqb_code; [done|]. change (code "s") with 115. lia.
Qed.

Lemma span_digits_app l rest acc n :
  Forall (fun c => is_digit c = true) l ->
  match rest with [] => True | c :: _ => is_digit c = false end ->
  span_digits (l ++ rest) acc n = (dvalue acc l, n + Z.of_nat (length l), rest).
Proof.
  intros H Hr. revert acc n. induction H as [|c cs Hc Hcs IH]; intros acc n; cbn [app span_digits].
  - change (Z.of_nat (length [])) with 0. rewrite Z.add_0_r.
    destruct rest as [|c cs]; cbn [span_digits]; [done|by rewrite Hr].
  - rewrite Hc, IH. change (dvalue acc (c :: cs)) with (dvalue (10 * acc + (code c - 48)) cs).
    cbn [length]. by replace (n + 1 + Z.of_nat (length cs)) with (n + Z.of_nat (S (length cs))) by lia.
Qed.

(** Integer digits, a point, fraction digits. *)
Lemma finite_part_point ip fp :
  Forall (fun c => is_digit c = true) ip -> Forall (fun c => is_digit c = true) fp -> ip <> [] ->
  finite_part (ip ++ "."%char :: fp) =
  Some (mkdec (dvalue 0 (ip ++ fp)) (- Z.of_nat (length fp))).
Proof.
  intros Hi Hf Hne. unfold finite_part. rewrite (span_digits_app ip) by done.
  cbn [Ascii.eqb Bool.eqb]. rewrite <- (app_nil_r fp) at 1. rewrite (span_digits_app fp) by done.
  assert (0 < Z.of_nat (length ip)) by (destruct ip; [done|cbn [length]; lia]).
  rewrite (proj2 (Z.eqb_neq _ 0)) by lia. cbn [exponent_part]. rewrite dvalue_app.
  done.
Qed.

Lemma digits_plain l : Forall (fun c => is_digit c = true) l -> Forall plain_char l.
Proof. intros H. eapply list.Forall_impl; [exact H|]. by left. Qed.

(** An amount with two places prints as digits, a point and two digits. *)
Lemma str_dec_cents z :
  0 <= z ->
  exists ip fp, str_dec (mkdec z (-2)) = text (ip ++ "."%char :: fp) /\ ip <> []
    /\ Forall (fun c => is_digit c = true) ip /\ Forall (fun c => is_digit c = true) fp
    /\ length fp = 2%nat /\ dvalue 0 (ip ++ fp) = z.
Proof.
  intros Hz. unfold str_dec. cbn [coef expo]. rewrite Z.abs_eq by done.
  destruct (digits_spec z Hz) as (Hd & Hne & Hv). set (ds := digits z) in *.
  assert (Hlen : 0 < Z.of_nat (length ds)) by (destruct ds; [done|cbn [length]; lia]).
  set (len := Z.of_nat (length ds)) in *.
  assert (El : ((-2 <=? 0) && (-6 <? -2 + len))%bool = true)
    by (apply andb_true_iff; split; [apply Z.leb_le|apply Z.ltb_lt]; lia).
  rewrite El, Z.sub_diag, Z.eqb_refl, (proj2 (Z.ltb_ge z 0)), app_nil_r by done. cbn [app].
  assert (Hz0 : Forall (fun c => is_digit c = true) (["0"%char])) by (repeat constructor).
  destruct (-2 + len <=? 0) eqn:E; zbool.
  - destruct (Z.eq_dec len 1) as [H1|H1].
    + exists ["0"%char], ("0"%char :: ds). rewrite H1. cbn [Z.add Z.opp].
      change (zeros (- (-2 + 1))) with ["0"%char].
      split_and!; [done|done|done|by constructor|cbn [length]; lia|exact Hv].
    + assert (len = 2) as H2 by lia. exists ["0"%char], ds. rewrite H2.
      change (zeros (- (-2 + 2))) with (@nil ascii).
      split_and!; [done|done|done|done|lia|exact Hv].
  - rewrite (proj2 (Z.leb_gt len _)) by lia.
    exists (take (Z.to_nat (-2 + len)) ds), (drop (Z.to_nat (-2 + len)) ds).
    split_and!; [done| |by apply Forall_take|by apply Forall_drop| |by rewrite take_drop].
    + intros E1%(f_equal length). rewrite length_take in E1. cbn [length] in E1. lia.
    + rewrite length_drop. lia.
Qed.

(** [Decimal(str(amount))] is the amount. *)
Lemma decimal_of_str_dec z :
  0 <= z -> decimal_of_str (str_dec (mkdec z (-2))) = Ok (Fin (mkdec z (-2))).
Proof.
  intros Hz. destruct (str_dec_cents z Hz) as (ip & fp & E & Hne & Hi & Hf & Hl & Hv).
  rewrite E. destruct ip as [|c cs]; [done|]. pose proof Hi as Hi'. inversion Hi' as [|? ? Hc Hcs]; subst.
  cbn [app]. rewrite decimal_of_plain; [|done|].
  - change (c :: cs ++ "."%char :: fp) with ((c :: cs) ++ "."%char :: fp).
    rewrite finite_part_point by done. rewrite Hl. done.
  - apply Forall_app. split; [by apply digits_plain|]. constructor; [by right|by apply digits_plain].
Qed.

Lemma str_dec_nonempty z : 0 <= z -> nonempty (str_dec (mkdec z (-2))) = true.
Proof.
  intros Hz. destruct (str_dec_cents z Hz) as ([|c cs] & fp & E & Hne & _); [done|]. by rewrite E.
Qed.

(** ** Lengths and amounts *)

Lemma text_length l : String.length (text l) = length l.
Proof. unfold text. induction l as [|c cs IH]; cbn; [done|]. by rewrite IH. Qed.

Lemma chars_length s : length (chars s) = String.length s.
Proof. unfold chars. induction s as [|c s IH]; cbn; [done|]. by rewrite IH. Qed.

Lemma upper_length s : String.length (upper s) = String.length s.
Proof. unfold upper. by rewrite text_length, length_map, chars_length. Qed.

(** [int(amount * 100)] of an amount of [z] paisas. *)
Lemma paisas_repr d z :
  repr 2 d z -> Z.abs z < 10 ^ 20 -> int_of_dec (d * dec_of_Z 100)%dec = z.
Proof.
  intros Hd Hz.
  assert (Hm : repr (2 + 0) (d * dec_of_Z 100)%dec (z * 100)).
  { apply dmul_repr; [done|apply repr_of_Z|]. unfold exact_bound, prec. lia. }
  unfold int_of_dec, repr in *. change (2 + 0) with 2 in Hm.
  set (m := (d * dec_of_Z 100)%dec) in *. clearbody m. destruct (0 <=? expo m) eqn:E; zbool.
  - rewrite Z.max_r, Z.max_l in Hm by lia. rewrite (pow10_split (expo m) 2) in Hm by lia.
    change (10 ^ 0) with 1 in Hm. change (10 ^ 2) with 100 in Hm. lia.
  - destruct (Z.le_gt_cases 0 (expo m + 2)).
    + rewrite Z.max_r, Z.max_l in Hm by lia. change (10 ^ 0) with 1 in Hm. rewrite Z.mul_1_r in Hm.
      assert (He : expo m = -1 \/ expo m = -2) by lia.
      destruct He as [He|He]; rewrite He in *; cbn in Hm |- *; symmetry.
      * apply Z.quot_unique_exact; lia.
      * apply Z.quot_unique_exact; lia.
    + rewrite Z.max_l, Z.max_r in Hm by lia. change (10 ^ 0) with 1 in Hm. rewrite Z.mul_1_r in Hm.
      symmetry. apply Z.quot_unique_exact; [pose proof (pow10_pos (- expo m) ltac:(lia)); lia|].
      rewrite Hm. replace (- expo m) with (2 + - (expo m + 2)) by lia.
      rewrite (pow10_split 2) by lia. change (10 ^ 2) with 100. ring.
Qed.
