(* ===== verification/PyFloat.v ===== *)
(** * PyFloat: Python's [float]

    IEEE 754 binary64 as the Standard Library specifies it ([SpecFloat], 53
    bits of precision, exponent limit 1024), with what Python adds: [/] raises
    on a zero divisor, [float(Decimal)] rounds correctly, [round(x, n)] and
    [round(x)] round the exact binary value half to even, [int(x)] truncates and
    raises on infinities and NaN.  Everything evaluates; no axiom is used. *)

From Stdlib Require Import Ascii.
From Stdlib Require Export Floats.SpecFloat.
From S2P Require Import Prelude Decimal PyText.

Abbreviation float := spec_float.

Definition fadd : float -> float -> float := SFadd 53 1024.
Definition fsub : float -> float -> float := SFsub 53 1024.
Definition fmul : float -> float -> float := SFmul 53 1024.
Definition fdiv_ieee : float -> float -> float := SFdiv 53 1024.
Definition fsqrt_ieee : float -> float := SFsqrt 53 1024.
Definition fopp : float -> float := SFopp.
Definition fabs : float -> float := SFabs.

Definition fltb : float -> float -> bool := SFltb.
Definition fleb : float -> float -> bool := SFleb.
Definition feqb : float -> float -> bool := SFeqb.

Definition fzero : float := S754_zero false.

(** [x / y] *)
Definition fdiv (x y : float) : res float :=
  match y with S754_zero _ => Exn ZeroDivisionError | _ => Ok (fdiv_ieee x y) end.

(** [float(n)] of an integer below 2^1024. *)
Definition float_of_Z (n : Z) : float := binary_normalize 53 1024 n 0 false.

(** [float(d)]: the nearest float, ties to even. *)
Definition float_of_dec (d : dec) : float :=
  match coef d with
  | Z0 => fzero
  | Zpos m =>
      if 0 <=? expo d then float_of_Z (coef d * 10 ^ expo d)
      else fdiv_ieee (S754_finite false m 0) (S754_finite false (Z.to_pos (10 ^ (- expo d))) 0)
  | Zneg m =>
      if 0 <=? expo d then float_of_Z (coef d * 10 ^ expo d)
      else fdiv_ieee (S754_finite true m 0) (S754_finite false (Z.to_pos (10 ^ (- expo d))) 0)
  end.

(** The integer nearest to [|x| * 10^p], ties to even, for a finite [x] given
    by its mantissa and binary exponent. *)
Definition scaled (p : Z) (m : positive) (e : Z) : Z :=
  if 0 <=? e then Zpos m * 2 ^ e * 10 ^ p else div_half_even (Zpos m * 10 ^ p) (2 ^ (- e)).

Definition sign (s : bool) (z : Z) : Z := if s then - z else z.

(** [round(x, p)], [0 <= p] *)
Definition fround (p : Z) (x : float) : float :=
  match x with
  | S754_finite s m e =>
      match scaled p m e with
      | Z0 => S754_zero s
      | k => float_of_dec (mkdec (sign s k) (- p))
      end
  | _ => x
  end.

(** [round(x)] *)
Definition round_int (x : float) : res Z :=
  match x with
  | S754_zero _ => Ok 0
  | S754_infinity _ => Exn OverflowError
  | S754_nan => Exn ValueError
  | S754_finite s m e => Ok (sign s (scaled 0 m e))
  end.

(** [int(x)] *)
Definition int_of_float (x : float) : res Z :=
  match x with
  | S754_zero _ => Ok 0
  | S754_infinity _ => Exn OverflowError
  | S754_nan => Exn ValueError
  | S754_finite s m e => Ok (sign s (if 0 <=? e then Zpos m * 2 ^ e else Zpos m / 2 ^ (- e)))
  end.

(** [f"{x:.pf}"], [0 < p] *)
Definition format_f (p : Z) (x : float) : string :=
  let digits_of s k := ((if s : bool then "-" else "") +:+ str_int (k / 10 ^ p) +:+ "." +:+ pad p (k mod 10 ^ p))%string in
  match x with
  | S754_nan => "nan"
  | S754_infinity s => if s then "-inf" else "inf"
  | S754_zero s => digits_of s 0
  | S754_finite s m e => digits_of s (scaled p m e)
  end.

(** [f"{x:.0f}"] *)
Definition format_0f (x : float) : string :=
  match x with
  | S754_nan => "nan"
  | S754_infinity s => if s then "-inf" else "inf"
  | S754_zero s => if s then "-0" else "0"
  | S754_finite s m e => ((if s then "-" else "") +:+ str_int (scaled 0 m e))%string
  end.

(** Thousands separators in a list of digits, the last digit first. *)
Fixpoint commas_rev (l : list ascii) : list ascii :=
  match l with
  | a :: b :: c :: ((_ :: _) as rest) => a :: b :: c :: ","%char :: commas_rev rest
  | _ => l
  end.

(** [f"{x:,.0f}"] *)
Definition format_comma_0f (x : float) : string :=
  let grouped s k := ((if s : bool then "-" else "") +:+ text (rev (commas_rev (rev (digits k)))))%string in
  match x with
  | S754_nan => "nan"
  | S754_infinity s => if s then "-inf" else "inf"
  | S754_zero s => grouped s 0
  | S754_finite s m e => grouped s (scaled 0 m e)
  end.

(** A float stored in a NUMERIC(p, s) column: rounded to the scale, and refused
    when it needs more than [p] digits, or has none.  PostgreSQL rounds the
    shortest decimal text of the float, which is the same number whenever the
    value was rounded to [s] places before. *)
Definition numeric_of_float (p s : Z) (x : float) : res dec :=
  match x with
  | S754_zero _ => Ok (mkdec 0 (- s))
  | S754_finite sg m e =>
      let k := scaled s m e in
      if k <? 10 ^ p then Ok (mkdec (sign sg k) (- s)) else Exn DataError
  | _ => Exn DataError
  end.

(** [sum(l)]: from the integer zero, which the first addition converts.  The API
    runs on Python 3.11, whose [sum] adds floats one by one. *)
Definition fsum (l : list float) : float := fold_left fadd l fzero.

(** The C library's [pow]. *)
Class LibM := { libm_pow : float -> float -> float }.

Definition finite (x : float) : bool := match x with S754_zero _ | S754_finite _ _ _ => true | _ => false end.

(** [x ** y] for [x >= 0], [y > 0], or [y = 2]: an infinite power of finite
    numbers is an [OverflowError]. *)
Definition fpow `{LibM} (x y : float) : res float :=
  match libm_pow x y with
  | S754_infinity s => if (finite x && finite y)%bool then Exn OverflowError else Ok (S754_infinity s)
  | r => Ok r
  end.

(** The C library's [exp] and [log]. *)
Class LibMExp := { libm_exp : float -> float; libm_log : float -> float }.

(** [math.log(x)] *)
Definition flog `{LibMExp} (x : float) : res float :=
  if fleb x fzero then Exn ValueError else Ok (libm_log x).

(** [math.exp(x)] *)
Definition fexp `{LibMExp} (x : float) : res float :=
  match libm_exp x with
  | S754_infinity s => if finite x then Exn OverflowError else Ok (S754_infinity s)
  | r => Ok r
  end.

(** [max] and [min] keep the first of equal arguments. *)
Definition fmax (a b : float) : float := if fltb a b then b else a.
Definition fmin (a b : float) : float := if fltb b a then b else a.

Declare Scope float_scope.
Delimit Scope float_scope with float.
Bind Scope float_scope with spec_float.
Infix "+" := fadd : float_scope.
Infix "-" := fsub : float_scope.
Infix "*" := fmul : float_scope.
Infix "<?" := fltb : float_scope.
Infix "<=?" := fleb : float_scope.
Infix "=?" := feqb : float_scope.

(** A float literal, from its decimal text. *)
Abbreviation lit c e := (float_of_dec (mkdec c e)).

Example tenth : lit 1 (-1) = S754_finite false 7205759403792794 (-56).
Proof. reflexivity. Qed.
Example tenth_sum : (lit 1 (-1) + lit 2 (-1))%float = lit 30000000000000004 (-17).
Proof. reflexivity. Qed.
Example round_half_down : fround 2 (lit 2675 (-3)) = lit 267 (-2).
Proof. reflexivity. Qed.
Example round_half_even : map round_int [lit 5 (-1); lit 15 (-1); lit 25 (-1); lit (-25) (-1)]
  = [Ok 0; Ok 2; Ok 2; Ok (-2)].
Proof. reflexivity. Qed.
Example int_truncates : map int_of_float [lit 39 (-1); lit (-39) (-1); lit 12 20] = [Ok 3; Ok (-3); Ok 1200000000000000000000].
Proof. reflexivity. Qed.
Example float_of_dec_subnormal : float_of_dec (mkdec 5 (-324)) = S754_finite false 1 (-1074).
Proof. vm_compute. reflexivity. Qed.
Example formatted : map (format_f 1) [lit 2845 (-2); lit 25 (-2); lit (-5) (-2); lit 7 0] = ["28.4"; "0.2"; "-0.1"; "7.0"]%string.
Proof. vm_compute. reflexivity. Qed.
Example thousands : map format_comma_0f [lit 1234567 0; lit (-100000) 0; lit 999 0; lit 5 (-1); lit 15 (-1)]
  = ["1,234,567"; "-100,000"; "999"; "0"; "2"]%string.
Proof. vm_compute. reflexivity. Qed.
Example numeric_column : numeric_of_float 10 4 (fround 4 (lit 12345678 (-6))) = Ok (mkdec 123457 (-4)).
Proof. vm_compute. reflexivity. Qed.

(** ** Order *)

Definition float_nan (x : float) : bool := match x with S754_nan => true | _ => false end.

(** A key whose lexicographic order is [SFcompare] on canonical floats: the
    class and sign, the exponent, the mantissa. *)
Definition float_key (x : float) : Z * Z * Z :=
  match x with
  | S754_nan => (3, 0, 0)
  | S754_infinity true => (-2, 0, 0)
  | S754_finite true m e => (-1, - e, Zneg m)
  | S754_zero _ => (0, 0, 0)
  | S754_finite false m e => (1, e, Zpos m)
  | S754_infinity false => (2, 0, 0)
  end.

Definition key_le (a b : Z * Z * Z) : Prop :=
  a.1.1 < b.1.1 \/ (a.1.1 = b.1.1 /\ (a.1.2 < b.1.2 \/ (a.1.2 = b.1.2 /\ a.2 <= b.2))).

Lemma fleb_key x y : float_nan x = false -> float_nan y = false -> fleb x y = true <-> key_le (float_key x) (float_key y).
Proof.
  assert (Hpos : forall m n, Pos.compare_cont Eq m n = (Zpos m ?= Zpos n)) by done.
  unfold fleb, SFleb, SFcompare, key_le.
  destruct x as [sx|[]| |[] mx ex], y as [sy|[]| |[] my ey]; intros Hx Hy; try discriminate;
    cbn [float_key fst snd];
    try (split; [intros; (done || lia)|intros; (done || lia)]).
  - rewrite Hpos. destruct (Z.compare_spec ex ey); [|split; intros; (done || lia)|split; intros; (done || lia)].
    destruct (Z.compare_spec (Zpos mx) (Zpos my)); cbn [CompOpp]; split; intros; (done || lia).
  - rewrite Hpos. destruct (Z.compare_spec ex ey); [|split; intros; (done || lia)|split; intros; (done || lia)].
    destruct (Z.compare_spec (Zpos mx) (Zpos my)); split; intros; (done || lia).
Qed.

(** Apart from NaN, floats are totally preordered. *)
Lemma fleb_total x y : float_nan x = false -> float_nan y = false -> fleb x y = true \/ fleb y x = true.
Proof. intros Hx Hy. rewrite !fleb_key by done. unfold key_le. lia. Qed.

Lemma fleb_nan x y : fleb x y = true -> float_nan x = false /\ float_nan y = false.
Proof. destruct x, y; done. Qed.

Lemma fleb_trans x y z : fleb x y = true -> fleb y z = true -> fleb x z = true.
Proof.
  intros H1 H2. destruct (fleb_nan _ _ H1), (fleb_nan _ _ H2). rewrite fleb_key in H1, H2 |- * by done.
  unfold key_le in *. lia.
Qed.

Lemma fltb_nlt x y : float_nan x = false -> float_nan y = false -> fltb x y = negb (fleb y x).
Proof.
  unfold fltb, fleb, SFltb, SFleb. intros Hx Hy.
  assert (Hc : SFcompare y x = option_map CompOpp (SFcompare x y)).
  { destruct x as [sx|[]| |[] mx ex], y as [sy|[]| |[] my ey]; try done; cbn [SFcompare option_map CompOpp];
      rewrite (Z.compare_antisym ex ey); destruct (ex ?= ey) eqn:E; cbn [CompOpp]; try done;
      change (Pos.compare_cont Eq my mx) with (Pos.compare my mx);
      change (Pos.compare_cont Eq mx my) with (Pos.compare mx my);
      rewrite (Pos.compare_antisym mx my); by destruct (Pos.compare mx my). }
  rewrite Hc. destruct (SFcompare x y) as [[]|] eqn:E; try done.
  exfalso. destruct x as [sx|[]| |[] mx ex], y as [sy|[]| |[] my ey]; discriminate.
Qed.

Lemma fltb_asym x y : fltb x y = true -> fltb y x = false.
Proof.
  intros H. assert (Hn : float_nan x = false /\ float_nan y = false) by (by destruct x, y). destruct Hn as [Hx Hy].
  rewrite fltb_nlt in H by done. apply negb_true_iff in H. rewrite fltb_nlt by done. apply negb_false_iff.
  by destruct (fleb_total x y Hx Hy) as [|E]; [|congruence].
Qed.

Lemma fltb_fleb x y : fltb x y = true -> fleb x y = true.
Proof. unfold fltb, fleb, SFltb, SFleb. by destruct (SFcompare x y) as [[]|]. Qed.

(** A value cut to an interval is in it, a NaN is its upper end. *)
Lemma clamp_range lo hi x :
  fleb lo hi = true -> fleb lo lo = true -> fleb hi hi = true ->
  fleb lo (fmax lo (fmin hi x)) = true /\ fleb (fmax lo (fmin hi x)) hi = true.
Proof.
  intros H1 H2 H3. unfold fmax, fmin. destruct (fltb x hi) eqn:E1; case_match eqn:E2;
    split; try done; by apply fltb_fleb.
Qed.

Lemma fmax_lower lo x : fleb lo lo = true -> fleb lo (fmax lo x) = true.
Proof. intros H. unfold fmax. case_match eqn:E; [by apply fltb_fleb|done]. Qed.

(** ** Integer values *)

Lemma int_of_abs x n : int_of_float (fabs x) = Ok n -> 0 <= n.
Proof.
  destruct x as [s|s| |s m e]; cbn [fabs SFabs int_of_float sign]; intros H; inv_res; try lia.
  destruct (Z.leb_spec 0 e).
  - pose proof (Z.pow_nonneg 2 e). nia.
  - apply Z.div_pos; [lia|]. apply Z.pow_pos_nonneg; lia.
Qed.
