(* ===== verification/FloatRange.v ===== *)
(** * FloatRange: how far a rounded float can be

    The mantissa of a float that an operation returns has 53 bits ([small]), so the
    order on floats is the order of their values, and a value between two bounds
    stays between them when it is rounded to a number of decimals
    ([fround_range]). *)

From S2P Require Import Prelude Decimal PyFloat.

(** ** The mantissas of the results *)

Lemma digits2_bound m : Zpos m < 2 ^ Zpos (digits2_pos m).
Proof.
  induction m as [m IH|m IH|]; cbn [digits2_pos]; [..|done];
    rewrite Pos2Z.inj_succ, Z.pow_succ_r by lia; lia.
Qed.

Lemma shr_1_half r : 0 <= shr_m r -> shr_m (shr_1 r) = shr_m r / 2.
Proof.
  destruct r as [m rb sb]. cbn [shr_m]. intros Hm. destruct m as [|[p|p|]|p]; try lia; try done; cbn [shr_1 shr_m].
  - apply (Z.div_unique_pos _ _ _ 1); lia.
  - apply (Z.div_unique_pos _ _ _ 0); lia.
Qed.

Lemma iter_shr p r : 0 <= shr_m r -> shr_m (iter_pos shr_1 p r) = shr_m r / 2 ^ Zpos p.
Proof.
  revert r. induction p as [p IH|p IH|]; intros r Hr; cbn [iter_pos].
  - assert (H1 : 0 <= shr_m (shr_1 r)) by (rewrite shr_1_half by done; apply Z.div_pos; lia).
    assert (H2 : 0 <= shr_m (iter_pos shr_1 p (shr_1 r))) by (rewrite IH by done; apply Z.div_pos; lia).
    rewrite IH by done. rewrite IH by done. rewrite shr_1_half by done.
    rewrite !Z.div_div by lia. f_equal. rewrite (Pos2Z.inj_xI p), Z.pow_add_r, Z.mul_comm by lia.
    replace (2 * Zpos p) with (Zpos p + Zpos p) by lia. rewrite Z.pow_add_r by lia. lia.
  - assert (H2 : 0 <= shr_m (iter_pos shr_1 p r)) by (rewrite IH by done; apply Z.div_pos; lia).
    rewrite IH by done. rewrite IH by done. rewrite Z.div_div by lia. f_equal.
    rewrite <- Z.pow_add_r by lia. f_equal. lia.
  - by apply shr_1_half.
Qed.

Lemma shr_fexp_bound m e l :
  0 <= m -> 0 <= shr_m (fst (shr_fexp 53 1024 m e l)) < 2 ^ 53.
Proof.
  intros Hm. unfold shr_fexp, shr.
  assert (Hr : shr_m (shr_record_of_loc m l) = m) by (by destruct l as [|[]]).
  assert (Hd : m < 2 ^ Zdigits2 m) by (destruct m as [|m|m]; [done| apply digits2_bound|lia]).
  assert (Hn : Zdigits2 m - 53 <= SpecFloat.fexp 53 1024 (Zdigits2 m + e) - e) by (unfold SpecFloat.fexp; lia).
  assert (Hd0 : 0 <= Zdigits2 m) by (by destruct m).
  destruct (SpecFloat.fexp 53 1024 (Zdigits2 m + e) - e) as [|p|p]; cbn [fst]; rewrite ?Hr.
  - split; [done|]. eapply Z.lt_le_trans; [exact Hd|]. apply Z.pow_le_mono_r; lia.
  - rewrite iter_shr, Hr by (rewrite Hr; lia). split; [apply Z.div_pos; lia|].
    apply Z.div_lt_upper_bound; [lia|]. rewrite <- Z.pow_add_r by lia.
    eapply Z.lt_le_trans; [exact Hd|]. apply Z.pow_le_mono_r; lia.
  - split; [done|]. eapply Z.lt_le_trans; [exact Hd|]. apply Z.pow_le_mono_r; lia.
Qed.

Definition small (x : float) : Prop := match x with S754_finite _ m _ => Zpos m < 2 ^ 53 | _ => True end.

Lemma small_round s m e l : 0 <= m -> small (binary_round_aux 53 1024 s m e l).
Proof.
  intros Hm. unfold binary_round_aux. pose proof (shr_fexp_bound m e l Hm) as H1.
  destruct (shr_fexp 53 1024 m e l) as [r1 e1]. cbn [fst] in H1.
  set (m2 := round_nearest_even _ _).
  assert (H2 : 0 <= m2).
  { unfold m2, round_nearest_even. repeat case_match; lia. }
  pose proof (shr_fexp_bound m2 e1 loc_Exact H2) as H3.
  destruct (shr_fexp 53 1024 m2 e1 loc_Exact) as [r2 e2]. cbn [fst] in H3.
  destruct (shr_m r2) as [|m'|m']; [done| |done]. destruct (e2 <=? _); cbn [small]; [lia|done].
Qed.

Lemma small_fmul x y : small (fmul x y).
Proof.
  unfold fmul, SFmul. destruct x as [s|s| |s m e], y as [s'|s'| |s' m' e']; try done. by apply small_round.
Qed.

Lemma small_fdiv x y : small (fdiv_ieee x y).
Proof.
  unfold fdiv_ieee, SFdiv. destruct x as [s|s| |s m e], y as [s'|s'| |s' m' e']; try done.
  unfold SFdiv_core_binary. set (n := match _ with Z0 => _ | _ => _ end).
  assert (Hn : 0 <= n). { unfold n. case_match; [done| |done]. rewrite Z.shiftl_nonneg. lia. }
  pose proof (Z_div_mod n (Zpos m') ltac:(lia)) as Hq. destruct (Z.div_eucl n (Zpos m')) as [q r].
  apply small_round. nia.
Qed.

Lemma small_fmax x y : small x -> small y -> small (fmax x y).
Proof. unfold fmax. by case_match. Qed.

Lemma small_fmin x y : small x -> small y -> small (fmin x y).
Proof. unfold fmin. by case_match. Qed.

(** ** Rounding between bounds *)

Lemma div_half_even_le n d k : 0 < d -> n <= k * d -> div_half_even n d <= k.
Proof. intros Hd Hn. pose proof (div_half_even_near n d Hd). nia. Qed.

Lemma div_half_even_nonneg n d : 0 < d -> 0 <= n -> 0 <= div_half_even n d.
Proof. intros Hd Hn. pose proof (div_half_even_near n d Hd). nia. Qed.

Lemma scaled_nonneg p m e : 0 <= p -> 0 <= scaled p m e.
Proof.
  intros Hp. unfold scaled. pose proof (Z.pow_nonneg 10 p). destruct (Z.leb_spec 0 e).
  - pose proof (Z.pow_nonneg 2 e). nia.
  - apply div_half_even_nonneg; [apply Z.pow_pos_nonneg; lia|nia].
Qed.

(** [mb * 2 ^ eb] is the float [n]. *)
Definition float_int (n : Z) (mb : positive) (eb : Z) : Prop :=
  eb < 0 /\ 2 ^ 52 <= Zpos mb /\ Zpos mb = n * 2 ^ (- eb).

Lemma scaled_range n mb eb p m e :
  float_int n mb eb -> 0 <= p -> Zpos m < 2 ^ 53 -> e < eb \/ (e = eb /\ Zpos m <= Zpos mb) ->
  scaled p m e <= n * 10 ^ p.
Proof.
  intros (He & Hmb & Hn) Hp Hm Hle. unfold scaled. rewrite (proj2 (Z.leb_gt 0 e)) by lia.
  pose proof (Z.pow_pos_nonneg 2 (- e)). pose proof (Z.pow_pos_nonneg 10 p ltac:(lia) Hp).
  apply div_half_even_le; [lia|]. replace (n * 10 ^ p * 2 ^ (- e)) with (n * 2 ^ (- e) * 10 ^ p) by lia.
  apply Z.mul_le_mono_nonneg_r; [lia|]. destruct Hle as [Hlt|[-> Hle]]; [|lia].
  replace (- e) with (- eb + 1 + (eb - 1 - e)) by lia. rewrite !Z.pow_add_r by lia.
  pose proof (Z.pow_pos_nonneg 2 (eb - 1 - e) ltac:(lia)). change (2 ^ 1) with 2. rewrite !Z.mul_assoc, <- Hn.
  change (2 ^ 53) with (2 * 2 ^ 52) in Hm. nia.
Qed.

(** The decimals of a value between [-n] and [n]. *)
Lemma fround_range n mb eb p x :
  float_int n mb eb -> 0 <= p -> small x ->
  fleb (S754_finite true mb eb) x = true -> fleb x (S754_finite false mb eb) = true ->
  exists k, Z.abs k <= n * 10 ^ p
    /\ (fround p x = float_of_dec (mkdec k (- p)) \/ (k = 0 /\ exists s, fround p x = S754_zero s)).
Proof.
  intros Hn Hp Hx Hlo Hhi. assert (Hpos : 0 <= n * 10 ^ p).
  { destruct Hn as (? & ? & ?). pose proof (Z.pow_pos_nonneg 10 p). pose proof (Z.pow_pos_nonneg 2 (- eb)). nia. }
  destruct (fleb_nan _ _ Hlo) as [_ Hnan]. rewrite fleb_key in Hlo, Hhi by done.
  destruct x as [s|s| |s m e]; [|by destruct s; unfold key_le in *; cbn [float_key fst snd] in *; lia|done|].
  - exists 0. split; [lia|]. right. split; [done|]. by exists s.
  - assert (Hk : scaled p m e <= n * 10 ^ p).
    { apply (scaled_range n mb eb); [done..|]. unfold key_le in *. destruct s; cbn [float_key fst snd] in *; lia. }
    pose proof (scaled_nonneg p m e Hp) as Hk0. cbn [fround]. destruct (scaled p m e) as [|k|k] eqn:E.
    + exists 0. split; [lia|]. right. split; [done|]. by exists s.
    + exists (sign s (Zpos k)). split; [destruct s; cbn [sign]; lia|by left].
    + lia.
Qed.

(** ** Signs *)

(** Zero, or of the sign [s] (negative for [true]). *)
Definition has_sign (s : bool) (x : float) : Prop :=
  match x with
  | S754_zero _ => True
  | S754_infinity s' => s' = s
  | S754_nan => False
  | S754_finite s' _ _ => s' = s
  end.

Lemma sign_round_aux s m e l : 0 <= m -> has_sign s (binary_round_aux 53 1024 s m e l).
Proof.
  intros Hm. unfold binary_round_aux. pose proof (shr_fexp_bound m e l Hm) as H1.
  destruct (shr_fexp 53 1024 m e l) as [r1 e1]. cbn [fst] in H1. set (m2 := round_nearest_even _ _).
  assert (H2 : 0 <= m2) by (unfold m2, round_nearest_even; repeat case_match; lia).
  pose proof (shr_fexp_bound m2 e1 loc_Exact H2) as H3. destruct (shr_fexp 53 1024 m2 e1 loc_Exact) as [r2 e2]. cbn [fst] in H3.
  destruct (shr_m r2) as [|m'|m']; [done| |lia]. by destruct (e2 <=? _).
Qed.

Lemma sign_round s m e : has_sign s (binary_round 53 1024 s m e).
Proof. unfold binary_round. destruct (shl_align _ _ _) as [m' e']. by apply sign_round_aux. Qed.

Lemma sign_fadd s x y : has_sign s x -> has_sign s y -> has_sign s (fadd x y).
Proof.
  unfold fadd, SFadd. destruct x as [sx|sx| |sx mx ex], y as [sy|sy| |sy my ey]; cbn [has_sign]; intros; subst; try done.
  - by destruct sx, sy.
  - by destruct s.
  - set (a := fst (shl_align mx ex _)). set (b := fst (shl_align my ey _)).
    destruct s; cbn [cond_Zopp Z.opp Z.add binary_normalize]; apply sign_round.
Qed.

Lemma sign_fmul s t x y : has_sign s x -> has_sign t y -> finite x = true -> finite y = true -> has_sign (xorb s t) (fmul x y).
Proof.
  unfold fmul, SFmul. destruct x as [sx|sx| |sx mx ex], y as [sy|sy| |sy my ey]; cbn [has_sign finite]; intros; subst; try done.
  by apply sign_round_aux.
Qed.

Lemma sign_fdiv_pos s x m e : has_sign s x -> has_sign s (fdiv_ieee x (S754_finite false m e)).
Proof.
  unfold fdiv_ieee, SFdiv. destruct x as [sx|sx| |sx mx ex]; cbn [has_sign]; intros; subst; rewrite ?xorb_false_r; try done.
  unfold SFdiv_core_binary. set (n := match _ with Z0 => _ | _ => _ end).
  assert (Hn : 0 <= n). { unfold n. case_match; [done| |done]. rewrite Z.shiftl_nonneg. lia. }
  pose proof (Z_div_mod n (Zpos m) ltac:(lia)) as Hq. destruct (Z.div_eucl n (Zpos m)) as [q r].
  apply sign_round_aux. nia.
Qed.

Lemma sign_fmul_pos s x m e : has_sign s x -> has_sign s (fmul x (S754_finite false m e)).
Proof.
  unfold fmul, SFmul. destruct x as [sx|sx| |sx mx ex]; cbn [has_sign]; intros; subst; rewrite ?xorb_false_r; try done.
  by apply sign_round_aux.
Qed.

(** Cutting to [-b] and [b], and rounding, keep the sign. *)
Lemma sign_clamp s x m e :
  has_sign s x -> has_sign s (fmax (S754_finite true m e) (fmin (S754_finite false m e) x)).
Proof.
  intros Hx. unfold fmin. destruct (fltb x (S754_finite false m e)) eqn:E; unfold fmax.
  - destruct (fltb (S754_finite true m e) x) eqn:E'; [done|]. destruct s; [done|].
    destruct x as [sx|sx| |sx mx ex]; cbn [has_sign] in Hx; subst; done.
  - destruct x as [sx|sx| |sx mx ex]; cbn [has_sign] in Hx; subst; [done| |done|]; destruct s; done.
Qed.

Lemma sign_fround s p x : 0 < p -> has_sign s x -> has_sign s (fround p x).
Proof.
  intros Hp Hx. destruct x as [sx|sx| |sx m e]; cbn [fround]; try done. cbn [has_sign] in Hx. subst sx.
  pose proof (scaled_nonneg p m e ltac:(lia)) as H0. destruct (scaled p m e) as [|k|k]; [done| |lia].
  unfold float_of_dec. cbn [coef expo sign]. rewrite (proj2 (Z.leb_gt 0 (- p))) by lia.
  destruct s; cbn [sign Z.opp]; by apply sign_fdiv_pos.
Qed.

Lemma float_of_dec_sign s d : (if s : bool then coef d <= 0 else 0 <= coef d) -> has_sign s (float_of_dec d).
Proof.
  intros Hd. unfold float_of_dec. destruct (coef d) as [|m|m] eqn:Ec; [done|..]; destruct s; try lia.
  all: destruct (0 <=? expo d) eqn:E; [|by apply sign_fdiv_pos].
  all: unfold float_of_Z, binary_normalize; zbool; pose proof (pow10_pos (expo d) E).
  - destruct (Zpos m * 10 ^ expo d) as [|k|k] eqn:Ek; [done|apply sign_round|lia].
  - destruct (Zneg m * 10 ^ expo d) as [|k|k] eqn:Ek; [done|lia|apply sign_round].
Qed.
