(* ===== verification/Payments.v ===== *)
(** * Payments: [psx_api/services/payments]

    The gateway contract of [base.py], the seven adapters and the registry of
    [__init__.py].  A gateway is a record of its two operations
    ([PaymentGateway], the [Protocol] class); each adapter is built from the
    settings and the clock, as its constructor reads [settings].

    A callback payload is what the router hands over: a dictionary of the values
    of a JSON document or of a form.  HMAC, SHA-256, the JSON serializer and the
    [str()] of containers, floats and bytes are the members of [Runtime]; no
    property assumes anything about them. *)

From S2P Require Import Prelude Dates Decimal PyText.

Inductive value :=
| VNone
| VBool (b : bool)
| VInt (n : Z)
| VFloat (repr_text : string) (truncated : option Z)  (* [None] for nan and the infinities *)
| VStr (s : string)
| VBytes (s : string)
| VList (l : list value)
| VObj (fields : list (string * value)).

Definition payload := list (string * value).

(** What the adapters use of the Python runtime besides the language. *)
Class Runtime := {
  hmac_sha256_hex : string -> string -> string;   (* key, message -> hexdigest() *)
  hmac_sha256_b64 : string -> string -> string;   (* key, message -> base64 of digest() *)
  sha256_hex : string -> string;
  json_dumps : payload -> res string;             (* compact separators *)
  repr_of : value -> string;                      (* str() of bytes, lists and dicts *)
}.

(** ** Values *)

Definition truthy (v : value) : bool :=
  match v with
  | VNone => false
  | VBool b => b
  | VInt n => negb (n =? 0)
  | VFloat t _ => negb (String.eqb t "0.0" || String.eqb t "-0.0")
  | VStr s | VBytes s => nonempty s
  | VList l => match l with [] => false | _ => true end
  | VObj fs => match fs with [] => false | _ => true end
  end.

(** [a or b] *)
Definition value_or (a b : value) : value := if truthy a then a else b.

Definition py_str `{Runtime} (v : value) : string :=
  match v with
  | VNone => "None"
  | VBool b => if b then "True" else "False"
  | VInt n => str_int n
  | VFloat t _ => t
  | VStr s => s
  | VBytes _ | VList _ | VObj _ => repr_of v
  end.

Definition py_int (v : value) : res Z :=
  match v with
  | VBool b => Ok (if b then 1 else 0)
  | VInt n => Ok n
  | VFloat t (Some n) => Ok n
  | VFloat t None => if String.eqb t "nan" then Exn ValueError else Exn OverflowError
  | VStr s | VBytes s => int_of_str s
  | VNone | VList _ | VObj _ => Exn TypeError
  end.

(** [payload.get(k)] *)
Fixpoint get (k : string) (p : payload) : value :=
  match p with
  | [] => VNone
  | (k', v) :: p' => if String.eqb k k' then v else get k p'
  end.
(** The dictionary after [payload.pop(k, ...)]. *)
Definition remove (k : string) (p : payload) : payload :=
  List.filter (fun kv => negb (String.eqb kv.1 k)) p.
(** [v.get(k)] on a value that may not be a dictionary. *)
Definition get_of (v : value) (k : string) : res value :=
  match v with VObj fs => Ok (get k fs) | _ => Exn AttributeError end.

(** [str(v or "")] *)
Definition str_or_empty `{Runtime} (v : value) : string :=
  if truthy v then py_str v else "".
(** [str(v or "") or None] *)
Definition str_or_none `{Runtime} (v : value) : option string :=
  let s := str_or_empty v in if nonempty s then Some s else None.
(** [s or default] on texts. *)
Definition text_or (s default : string) : string := if nonempty s then s else default.
Definition phone_or_empty (p : option string) : string := match p with Some s => s | None => "" end.

(** [hmac.compare_digest] on texts: only ASCII ones can be compared. *)
Definition compare_digest (a b : string) : res bool :=
  if (is_ascii a && is_ascii b)%bool then Ok (String.eqb a b) else Exn TypeError.

(** ** The contract of base.py *)

Record CheckoutContext := mkContext {
  cx_merchant_txn_ref : string;
  cx_amount_pkr : dec;
  cx_description : string;
  cx_customer_email : string;
  cx_customer_name : option string;
  cx_customer_phone : option string;
  cx_return_url : string;
  cx_callback_url : string;
  cx_expires_at_unix : Z;
}.

Record CheckoutResult := mkCheckout {
  co_checkout_url : string;
  co_is_sandbox : bool;
  co_request_payload : payload;
  co_gateway_txn_id : option string;
  co_instructions : option string;
}.

Inductive CallbackStatus := cb_paid | cb_failed | cb_canceled | cb_pending.
#[export] Instance CallbackStatus_eq_dec : EqDecision CallbackStatus.
Proof. solve_decision. Defined.

Record CallbackResult := mkCallback {
  cr_merchant_txn_ref : string;
  cr_status : CallbackStatus;
  cr_gateway_txn_id : option string;
  cr_amount_pkr : option xdec;
  cr_failure_reason : option string;
  cr_raw_payload : payload;
}.

(** The [Protocol]; a [GatewayError] is a [ServiceError] with its status code. *)
Record PaymentGateway := mkGateway {
  gw_slug : string;
  gw_display_name : string;
  create_intent : CheckoutContext -> res CheckoutResult;
  verify_callback : payload -> res CallbackResult;
}.

(** The settings the adapters and the billing service read. *)
Record Settings := mkSettings {
  environment : string;
  payments_base_url : string;
  payments_return_url : string;
  jazzcash_merchant_id : string;
  jazzcash_password : string;
  jazzcash_integrity_salt : string;
  jazzcash_environment : string;
  easypaisa_store_id : string;
  easypaisa_hash_key : string;
  easypaisa_environment : string;
  meezan_merchant_id : string;
  meezan_secret_key : string;
  meezan_environment : string;
  payfast_merchant_id : string;
  payfast_secret_key : string;
  payfast_environment : string;
  safepay_api_key : string;
  safepay_webhook_secret : string;
  safepay_environment : string;
  nayapay_api_key : string;
  nayapay_webhook_secret : string;
  nayapay_environment : string;
}.

Definition is_live (environment : string) : bool := String.eqb environment "live".

(** [_local_sandbox_url] *)
Definition local_sandbox_url (cfg : Settings) (ctx : CheckoutContext) (provider : string) : string :=
  rstrip_slash (payments_return_url cfg) +:+ "/sandbox?provider=" +:+ provider
  +:+ "&ref=" +:+ cx_merchant_txn_ref ctx +:+ "&amount=" +:+ str_dec (cx_amount_pkr ctx).

(** The checkout every hosted gateway answers with. *)
Definition hosted_checkout (cfg : Settings) (ctx : CheckoutContext) (slug : string)
    (configured : bool) (live : bool) (url : string) (p : payload) : CheckoutResult :=
  if configured then mkCheckout url (negb live) p None None
  else mkCheckout (local_sandbox_url cfg ctx slug) true p None None.

(** [if self._is_configured and not hmac.compare_digest(...): raise GatewayError] *)
Definition check_signature (configured : bool) (sent expected : string) : res unit :=
  if configured then
    let! same := compare_digest sent expected in
    if same then Ok tt else Exn (ServiceError 400)
  else Ok tt.

Definition texts (p : list (string * string)) : payload := map (fun kv => (kv.1, VStr kv.2)) p.

(** [{k: ("" if v is None else str(v)) for k, v in payload.items() if k != skip}] *)
Definition flat_fields `{Runtime} (skip : string) (p : payload) : list (string * string) :=
  map (fun kv => (kv.1, match kv.2 with VNone => "" | v => py_str v end)) (remove skip p).

Definition by_key (l : list (string * string)) : list (string * string) :=
  sort_by (fun a b => String.leb a.1 b.1) l.

Definition key_value (kv : string * string) : string := kv.1 +:+ "=" +:+ kv.2.
Definition joined (l : list (string * string)) : string :=
  String.concat "&" (map key_value (List.filter (fun kv => nonempty kv.2) l)).

(** Pakistan time: [%Y%m%d%H%M%S] and [%d-%m-%Y %H:%M:%S] of an instant. *)
Definition hms (t : Z) : Z * Z * Z := (t / 3600 mod 24, t / 60 mod 60, t mod 60).
Definition stamp_compact (instant : Z) : string :=
  let t := instant + 5 * 3600 in
  let '(y, m, d) := ymd_of (ordinal_of_unix t) in
  let '(h, mi, s) := hms t in
  pad 4 y +:+ pad 2 m +:+ pad 2 d +:+ pad 2 h +:+ pad 2 mi +:+ pad 2 s.
Definition stamp_dashed (instant : Z) : string :=
  let t := instant + 5 * 3600 in
  let '(y, m, d) := ymd_of (ordinal_of_unix t) in
  let '(h, mi, s) := hms t in
  pad 2 d +:+ "-" +:+ pad 2 m +:+ "-" +:+ pad 4 y +:+ " "
  +:+ pad 2 h +:+ ":" +:+ pad 2 mi +:+ ":" +:+ pad 2 s.

Example stamps :
  (stamp_compact 1747324799, stamp_dashed 1747324799)
  = ("20250515205959", "15-05-2025 20:59:59")%string.
Proof. vm_compute. reflexivity. Qed.
