(* ===== verification/Gateways.v ===== *)
(** * Gateways: the adapters of [psx_api/services/payments] and their registry

    One [create_intent] and one [verify_callback] per provider, the field
    dictionaries written out, the signature texts built as the adapter builds
    them.  Assigning [payload["x"]] to a fresh key appends it.

    Results: a configured adapter accepts a callback only if it carries the
    signature of the merchant secret ([verified_callback_is_signed]); an adapter
    without credentials, and the manual one, accept any. *)

From S2P Require Import Prelude Dates Decimal PyText Payments.

Section gateways.
Context `{Runtime}.
Variable cfg : Settings.
Variable now : Z.

(** ** JazzCash *)

Definition jazzcash_configured : bool :=
  (nonempty (jazzcash_merchant_id cfg) && nonempty (jazzcash_password cfg)
   && nonempty (jazzcash_integrity_salt cfg))%bool.

(** [_compute_hash]: values in key order, without the empty ones. *)
Definition jazzcash_compute_hash (fields : list (string * string)) : string :=
  let salt := jazzcash_integrity_salt cfg in
  let ordered := List.filter nonempty (map snd (by_key fields)) in
  let message := match ordered with [] => salt | _ => salt +:+ "&" +:+ String.concat "&" ordered end in
  upper (hmac_sha256_hex salt message).

(** [_truncate_ref] *)
Definition truncate_ref (ref : string) : string :=
  slice_to 20 (if String.prefix "T" ref then ref else "T" +:+ ref).

Definition jazzcash_create_intent (ctx : CheckoutContext) : res CheckoutResult :=
  let! amount := dquantize ROUND_HALF_EVEN 0 (cx_amount_pkr ctx * dec_of_Z 100)%dec in
  let fields :=
    [("pp_Version", "1.1");
     ("pp_TxnType", "MWALLET");
     ("pp_Language", "EN");
     ("pp_MerchantID", text_or (jazzcash_merchant_id cfg) "MC00000");
     ("pp_Password", text_or (jazzcash_password cfg) "sandbox");
     ("pp_TxnRefNo", truncate_ref (cx_merchant_txn_ref ctx));
     ("pp_Amount", str_int (int_of_dec amount));
     ("pp_TxnCurrency", "PKR");
     ("pp_TxnDateTime", stamp_compact now);
     ("pp_BillReference", "psxai_subscription");
     ("pp_Description", slice_to 60 (cx_description ctx));
     ("pp_TxnExpiryDateTime", stamp_compact (now + 3600));
     ("pp_ReturnURL", cx_callback_url ctx);
     ("ppmpf_1", cx_customer_email ctx);
     ("ppmpf_2", phone_or_empty (cx_customer_phone ctx))]%string in
  let signed := (fields ++ [("pp_SecureHash"%string, jazzcash_compute_hash fields)])%list in
  let live := is_live (jazzcash_environment cfg) in
  Ok (hosted_checkout cfg ctx "jazzcash" jazzcash_configured live
        (if live
         then "https://payments.jazzcash.com.pk/CustomerPortal/transactionmanagement/merchantform"
         else "https://sandbox.jazzcash.com.pk/CustomerPortal/transactionmanagement/merchantform")
        (texts signed)).

Definition jazzcash_verify_callback (p : payload) : res CallbackResult :=
  let sent_hash := str_or_empty (get "pp_SecureHash" p) in
  let expected := jazzcash_compute_hash (flat_fields "pp_SecureHash" p) in
  let! _ := check_signature jazzcash_configured (lower sent_hash) (lower expected) in
  let is_paid := String.eqb (str_or_empty (get "pp_ResponseCode" p)) "000" in
  let! amount :=
    match get "pp_Amount" p with
    | VNone => Ok None
    | v => let! n := py_int v in let! d := ddiv (dec_of_Z n) (dec_of_Z 100) in Ok (Some (Fin d))
    end in
  Ok (mkCallback (str_or_empty (get "pp_TxnRefNo" p)) (if is_paid then cb_paid else cb_failed)
        (str_or_none (get "pp_RetreivalReferenceNo" p)) amount
        (if is_paid then None else Some (str_or_empty (get "pp_ResponseMessage" p))) p).

(** ** Easypaisa *)

Definition easypaisa_configured : bool :=
  (nonempty (easypaisa_store_id cfg) && nonempty (easypaisa_hash_key cfg))%bool.

(** [_REQUEST_HASH_ORDER] *)
Definition request_hash_order : list string :=
  ["amount"; "autoRedirect"; "emailAddr"; "expiryDate"; "mobileNum"; "orderRefNum";
   "paymentMethod"; "postBackURL"; "storeId"; "merchantPaymentMethod"]%string.

Fixpoint field (k : string) (fields : list (string * string)) : string :=
  match fields with
  | [] => ""
  | (k', v) :: fs => if String.eqb k k' then v else field k fs
  end.

Definition easypaisa_compute_hash (fields : list (string * string)) (order : list string) : string :=
  let message := joined (map (fun k => (k, field k fields)) order) in
  hmac_sha256_b64 (easypaisa_hash_key cfg) message.

Definition easypaisa_create_intent (ctx : CheckoutContext) : res CheckoutResult :=
  let fields :=
    [("storeId", text_or (easypaisa_store_id cfg) "12345");
     ("orderRefNum", cx_merchant_txn_ref ctx);
     ("amount", format_2f (cx_amount_pkr ctx));
     ("paymentMethod", "CC_PAYMENT_METHOD");
     ("merchantPaymentMethod", "OTC_PAYMENT_METHOD");
     ("emailAddr", cx_customer_email ctx);
     ("mobileNum", phone_or_empty (cx_customer_phone ctx));
     ("postBackURL", cx_callback_url ctx);
     ("autoRedirect", "1");
     ("expiryDate", stamp_dashed (now + 3600))]%string in
  let signed :=
    (fields ++ [("merchantHashedReq"%string, easypaisa_compute_hash fields request_hash_order)])%list in
  let live := is_live (easypaisa_environment cfg) in
  Ok (hosted_checkout cfg ctx "easypaisa" easypaisa_configured live
        (if live then "https://easypay.easypaisa.com.pk/easypay/Index.jsf"
         else "https://easypaystg.easypaisa.com.pk/easypay/Index.jsf")
        (texts signed)).

Definition easypaisa_verify_callback (p : payload) : res CallbackResult :=
  let flat := flat_fields "merchantHashedReq" p in
  let sent_hash := str_or_empty (get "merchantHashedReq" p) in
  let expected := easypaisa_compute_hash flat (sort_by String.leb (map fst flat)) in
  let! _ := check_signature easypaisa_configured sent_hash expected in
  let is_paid :=
    String.eqb (str_or_empty (value_or (get "status" p) (get "responseCode" p))) "0000" in
  let! amount :=
    match value_or (get "amount" p) (get "transactionAmount" p) with
    | VNone => Ok None
    | v => let! d := decimal_of_str (py_str v) in Ok (Some d)
    end in
  Ok (mkCallback (str_or_empty (get "orderRefNum" p)) (if is_paid then cb_paid else cb_failed)
        (str_or_none (get "paymentToken" p)) amount
        (if is_paid then None else Some (str_or_empty (get "responseDesc" p))) p).

(** ** Meezan *)

Definition meezan_configured : bool :=
  (nonempty (meezan_merchant_id cfg) && nonempty (meezan_secret_key cfg))%bool.

Definition meezan_create_intent (ctx : CheckoutContext) : res CheckoutResult :=
  let amount := format_2f (cx_amount_pkr ctx) in
  let hash_input :=
    String.concat "|" [meezan_secret_key cfg; meezan_merchant_id cfg; cx_merchant_txn_ref ctx;
                       amount; "PKR"%string; cx_callback_url ctx] in
  let fields :=
    [("MerchantID", text_or (meezan_merchant_id cfg) "TEST_MEEZAN");
     ("OrderId", cx_merchant_txn_ref ctx);
     ("Amount", amount);
     ("Currency", "PKR");
     ("CustomerEmail", cx_customer_email ctx);
     ("CustomerMobile", phone_or_empty (cx_customer_phone ctx));
     ("Description", slice_to 100 (cx_description ctx));
     ("ReturnURL", cx_callback_url ctx);
     ("Hash", sha256_hex hash_input)]%string in
  let live := is_live (meezan_environment cfg) in
  Ok (hosted_checkout cfg ctx "meezan" meezan_configured live
        (if live then "https://ipg.meezanbank.com/IPGGenericIntegration/Index.jsf"
         else "https://ipgtest.meezanbank.com/IPGGenericIntegration/Index.jsf")
        (texts fields)).

Definition meezan_verify_callback (p : payload) : res CallbackResult :=
  let order_id := str_or_empty (get "OrderId" p) in
  let amount := str_or_empty (get "Amount" p) in
  let rc := str_or_empty (get "RC" p) in
  let tid := str_or_empty (get "TID" p) in
  let sent_hash := str_or_empty (get "Hash" p) in
  let expected :=
    sha256_hex (String.concat "|" [meezan_secret_key cfg; meezan_merchant_id cfg; order_id; amount; rc; tid]) in
  let! _ := check_signature meezan_configured (lower sent_hash) (lower expected) in
  let is_paid := String.eqb rc "00" in
  let! amount_pkr :=
    if nonempty amount then let! d := decimal_of_str amount in Ok (Some d) else Ok None in
  Ok (mkCallback order_id (if is_paid then cb_paid else cb_failed)
        (if nonempty tid then Some tid else None) amount_pkr
        (if is_paid then None
         else Some (py_str (value_or (get "ResponseDescription" p) (VStr rc)))) p).

(** ** 1LINK PayFast *)

Definition payfast_configured : bool :=
  (nonempty (payfast_merchant_id cfg) && nonempty (payfast_secret_key cfg))%bool.

(** [_sign] *)
Definition payfast_sign (fields : list (string * string)) : string :=
  upper (hmac_sha256_hex (payfast_secret_key cfg) (joined (by_key fields))).

Definition payfast_create_intent (ctx : CheckoutContext) : res CheckoutResult :=
  let fields :=
    [("MERCHANT_ID", text_or (payfast_merchant_id cfg) "MERCHANT123");
     ("TRANSACTION_ID", cx_merchant_txn_ref ctx);
     ("TRANSACTION_AMOUNT", format_2f (cx_amount_pkr ctx));
     ("TRANSACTION_CURRENCY", "PKR");
     ("TRANSACTION_DATETIME", stamp_compact now);
     ("PRODUCT_DESCRIPTION", slice_to 100 (cx_description ctx));
     ("CUSTOMER_EMAIL_ADDRESS", cx_customer_email ctx);
     ("CUSTOMER_MOBILE_NO", phone_or_empty (cx_customer_phone ctx));
     ("RESPONSE_URL", cx_callback_url ctx);
     ("VERSION", "1.0")]%string in
  let signed := (fields ++ [("SIGNATURE"%string, payfast_sign fields)])%list in
  let live := is_live (payfast_environment cfg) in
  Ok (hosted_checkout cfg ctx "allied_payfast" payfast_configured live
        (if live then "https://payfast.1link.net.pk/PayFast/Checkout"
         else "https://payfaststg.1link.net.pk/PayFast/Checkout")
        (texts signed)).

Definition payfast_verify_callback (p : payload) : res CallbackResult :=
  let sent := str_or_empty (get "SIGNATURE" p) in
  let expected := payfast_sign (flat_fields "SIGNATURE" p) in
  let! _ := check_signature payfast_configured (lower sent) (lower expected) in
  let rc := str_or_empty (get "RESPONSE_CODE" p) in
  let is_paid := String.eqb rc "00" in
  let amount := get "TRANSACTION_AMOUNT" p in
  let! amount_pkr :=
    if truthy amount then let! d := decimal_of_str (py_str amount) in Ok (Some d) else Ok None in
  Ok (mkCallback (str_or_empty (get "TRANSACTION_ID" p)) (if is_paid then cb_paid else cb_failed)
        (str_or_none (get "REFERENCE_NUMBER" p)) amount_pkr
        (if is_paid then None
         else Some (py_str (value_or (get "RESPONSE_MESSAGE" p) (VStr rc)))) p).

(** ** The signed body of the webhook gateways

    [payload.pop("_signature")], [payload.pop("_raw_body")] and the bytes the
    signature covers: the raw body, or the payload dumped again. *)
Definition webhook_parts (p : payload) : res (string * string * payload) :=
  let signature := str_or_empty (get "_signature" p) in
  let p1 := remove "_signature" p in
  let p2 := remove "_raw_body" p1 in
  let! body := match get "_raw_body" p1 with
               | VBytes b => Ok b
               | _ => json_dumps p2
               end in
  Ok (signature, body, p2).

(** ** SafePay *)

Definition safepay_configured : bool :=
  (nonempty (safepay_api_key cfg) && nonempty (safepay_webhook_secret cfg))%bool.

Definition safepay_create_intent (ctx : CheckoutContext) : res CheckoutResult :=
  let ref := cx_merchant_txn_ref ctx in
  let p :=
    [("amount", VInt (int_of_dec (cx_amount_pkr ctx * dec_of_Z 100)%dec));
     ("currency", VStr "PKR");
     ("order_id", VStr ref);
     ("customer_email", VStr (cx_customer_email ctx));
     ("customer_phone", VStr (phone_or_empty (cx_customer_phone ctx)));
     ("redirect_url", VStr (cx_return_url ctx));
     ("cancel_url", VStr (cx_return_url ctx +:+ "?canceled=1"));
     ("webhook_url", VStr (cx_callback_url ctx));
     ("description", VStr (cx_description ctx))]%string in
  let live := is_live (safepay_environment cfg) in
  let base := if live then "https://getsafepay.com/checkout/pay"%string
              else "https://sandbox.api.getsafepay.com/checkout/pay"%string in
  let env_param := if live then "production"%string else "sandbox"%string in
  Ok (hosted_checkout cfg ctx "safepay" safepay_configured live
        (base +:+ "?env=" +:+ env_param +:+ "&order_id=" +:+ ref +:+ "&source=custom") p).

(** [state] or [status] of a webhook *)
Definition safepay_status (status_raw : string) : CallbackStatus :=
  let raw_is := String.eqb status_raw in
  if (raw_is "paid" || raw_is "succeeded" || raw_is "tracker_paid")%bool then cb_paid
  else if (raw_is "canceled" || raw_is "cancelled" || raw_is "tracker_canceled")%bool then cb_canceled
  else if (raw_is "pending" || raw_is "tracker_pending")%bool then cb_pending
  else cb_failed.

(** Paisas when the amount is all digits, rupees otherwise. *)
Definition safepay_amount (amount : value) : res (option xdec) :=
  let numeric := match amount with VBool _ | VInt _ | VFloat _ _ | VStr _ => true | _ => false end in
  if (numeric && isdigit (py_str amount))%bool then
    let! n := py_int amount in
    let! d := ddiv (dec_of_Z n) (dec_of_Z 100) in Ok (Some (Fin d))
  else if truthy amount then let! d := decimal_of_str (py_str amount) in Ok (Some d)
  else Ok None.

Definition safepay_verify_callback (p : payload) : res CallbackResult :=
  let! parts := webhook_parts p in
  let '(signature, body, p) := parts in
  let expected := hmac_sha256_hex (safepay_webhook_secret cfg) body in
  let! _ := check_signature safepay_configured (lower signature) (lower expected) in
  let data := value_or (get "data" p) (VObj p) in
  let! state := get_of data "state" in
  let! status_value := if truthy state then Ok state else get_of data "status" in
  let status := safepay_status (lower (str_or_empty status_value)) in
  let! a := get_of data "amount" in
  let! amount := if truthy a then Ok a else get_of data "amount_paid" in
  let! amount_pkr := safepay_amount amount in
  let! order_id := get_of data "order_id" in
  let! token := get_of data "token" in
  let! tracker := if truthy token then Ok token else get_of data "tracker" in
  let! error := get_of data "error" in
  Ok (mkCallback (str_or_empty order_id) status (str_or_none tracker) amount_pkr
        (if bool_decide (status = cb_failed) then Some (str_or_empty error) else None) p).

(** ** NayaPay *)

Definition nayapay_configured : bool :=
  (nonempty (nayapay_api_key cfg) && nonempty (nayapay_webhook_secret cfg))%bool.

Definition nayapay_create_intent (ctx : CheckoutContext) : res CheckoutResult :=
  let email := cx_customer_email ctx in
  let p :=
    [("amount_paisas", VInt (int_of_dec (cx_amount_pkr ctx * dec_of_Z 100)%dec));
     ("currency", VStr "PKR");
     ("merchant_reference", VStr (cx_merchant_txn_ref ctx));
     ("customer",
       VObj [("email", VStr email);
             ("phone", VStr (phone_or_empty (cx_customer_phone ctx)));
             ("name", VStr (text_or (phone_or_empty (cx_customer_name ctx)) email))]);
     ("callbacks",
       VObj [("success_url", VStr (cx_return_url ctx));
             ("cancel_url", VStr (cx_return_url ctx +:+ "?canceled=1"));
             ("webhook_url", VStr (cx_callback_url ctx))]);
     ("description", VStr (cx_description ctx))]%string in
  let live := is_live (nayapay_environment cfg) in
  let base := if live then "https://api.nayapay.com/checkout/v1/pay"%string
              else "https://sandbox.nayapay.com/checkout/v1/pay"%string in
  Ok (hosted_checkout cfg ctx "nayapay" nayapay_configured live
        (base +:+ "?ref=" +:+ cx_merchant_txn_ref ctx) p).

Definition nayapay_status (status_raw : string) : CallbackStatus :=
  if String.eqb status_raw "completed" then cb_paid
  else if String.eqb status_raw "cancelled" then cb_canceled
  else if String.eqb status_raw "pending" then cb_pending
  else cb_failed.

Definition nayapay_verify_callback (p : payload) : res CallbackResult :=
  let! parts := webhook_parts p in
  let '(signature, body, p) := parts in
  let expected := hmac_sha256_hex (nayapay_webhook_secret cfg) body in
  let! _ := check_signature nayapay_configured (lower signature) (lower expected) in
  let status := nayapay_status (lower (str_or_empty (get "status" p))) in
  let! amount :=
    match get "amount_paisas" p with
    | VNone => Ok None
    | v => let! n := py_int v in let! d := ddiv (dec_of_Z n) (dec_of_Z 100) in Ok (Some (Fin d))
    end in
  Ok (mkCallback (str_or_empty (get "merchant_reference" p)) status
        (str_or_none (get "transaction_id" p)) amount
        (if bool_decide (status = cb_failed) then Some (str_or_empty (get "error_message" p)) else None) p).

(** ** Manual bank transfer *)

(** [_INSTRUCTIONS_TEMPLATE.format(amount=..., ref=...)] *)
Definition newline : string := String (Ascii.ascii_of_nat 10) "".
Definition manual_instructions (amount ref : string) : string :=
  String.concat newline
    ["Please transfer **PKR " +:+ amount +:+ "** to the following account and email";
     "your receipt + this reference number to **hello@psxai.example**:";
     "";
     "    Bank: Meezan Bank Limited";
     "    Account title: PSX AI (Pvt) Ltd";
     "    Account #: [PLACEHOLDER — to be filled by ops]";
     "    IBAN: [PLACEHOLDER]";
     "";
     "    Reference: " +:+ ref;
     "";
     "We typically activate accounts within 4 business hours after receipt."]%string.

Definition manual_create_intent (ctx : CheckoutContext) : res CheckoutResult :=
  let ref := cx_merchant_txn_ref ctx in
  Ok (mkCheckout (cx_return_url ctx +:+ "?manual=1&ref=" +:+ ref) false
        [("amount_pkr", VStr (str_dec (cx_amount_pkr ctx))); ("merchant_txn_ref", VStr ref)]%string
        None (Some (manual_instructions (format_2f (cx_amount_pkr ctx)) ref))).

Definition manual_verify_callback (p : payload) : res CallbackResult :=
  let amount := get "amount_pkr" p in
  let! amount_pkr :=
    if truthy amount then let! d := decimal_of_str (py_str amount) in Ok (Some d) else Ok None in
  Ok (mkCallback (str_or_empty (get "merchant_txn_ref" p)) cb_paid
        (str_or_none (get "bank_ref" p)) amount_pkr None p).

(** ** The registry of __init__.py *)

Definition registry : list (string * PaymentGateway) :=
  [("jazzcash", mkGateway "jazzcash" "JazzCash" jazzcash_create_intent jazzcash_verify_callback);
   ("easypaisa", mkGateway "easypaisa" "Easypaisa" easypaisa_create_intent easypaisa_verify_callback);
   ("meezan", mkGateway "meezan" "Meezan Bank IPG" meezan_create_intent meezan_verify_callback);
   ("allied_payfast", mkGateway "allied_payfast" "Allied / HBL / UBL / Alfalah (via 1LINK PayFast)"
                        payfast_create_intent payfast_verify_callback);
   ("safepay", mkGateway "safepay" "SafePay (Card)" safepay_create_intent safepay_verify_callback);
   ("nayapay", mkGateway "nayapay" "NayaPay" nayapay_create_intent nayapay_verify_callback);
   ("manual", mkGateway "manual" "Bank transfer (manual)" manual_create_intent manual_verify_callback)]%string.

Fixpoint assoc {A} (k : string) (l : list (string * A)) : option A :=
  match l with
  | [] => None
  | (k', a) :: l' => if String.eqb k k' then Some a else assoc k l'
  end.

Definition get_gateway (provider : string) : res PaymentGateway :=
  match assoc provider registry with
  | Some g => Ok g
  | None => Exn (ServiceError 400)
  end.
End gateways.

(** [supported_providers]: slug, name, category, description and logo. *)
Record Provider := mkProvider {
  pv_slug : string; pv_name : string; pv_category : string; pv_description : string; pv_logo : string;
}.

Definition supported_providers : list Provider :=
  [mkProvider "jazzcash" "JazzCash" "wallet"
     "Pay with your JazzCash mobile wallet or linked card." "jazzcash";
   mkProvider "easypaisa" "Easypaisa" "wallet"
     "Pay with your Easypaisa account or OTC at any agent." "easypaisa";
   mkProvider "meezan" "Meezan Bank" "bank"
     "Direct bank checkout via Meezan IPG (Islamic banking)." "meezan";
   mkProvider "allied_payfast" "Allied / HBL / UBL / Alfalah (via 1LINK)" "bank"
     "Pay with any 1LINK-enabled Pakistani bank card via PayFast." "1link";
   mkProvider "safepay" "SafePay (Card)" "card"
     "Visa / Mastercard processing via SafePay." "safepay";
   mkProvider "nayapay" "NayaPay" "wallet" "Pay with your NayaPay wallet." "nayapay";
   mkProvider "manual" "Bank transfer (manual)" "manual"
     "Email-based bank transfer. Activation within 24h on confirmation." "bank"].

(** Whether the provider's merchant credentials are set. *)
Definition provider_configured (cfg : Settings) (provider : string) : bool :=
  match assoc provider
    [("jazzcash", jazzcash_configured cfg); ("easypaisa", easypaisa_configured cfg);
     ("meezan", meezan_configured cfg); ("allied_payfast", payfast_configured cfg);
     ("safepay", safepay_configured cfg); ("nayapay", nayapay_configured cfg);
     ("manual", false)]%string with
  | Some b => b
  | None => false
  end.

(** ** What an accepted callback proves *)

Lemma check_signature_ok configured sent expected u :
  check_signature configured sent expected = Ok u -> configured = true -> sent = expected.
Proof.
  unfold check_signature, compare_digest. intros H ->.
  destruct (is_ascii sent && is_ascii expected)%bool; [|discriminate H].
  destruct (String.eqb sent expected) eqn:E; [by apply String.eqb_eq|discriminate H].
Qed.

Lemma check_signature_off sent expected : check_signature false sent expected = Ok tt.
Proof. reflexivity. Qed.

(** The signature the payload carries and the one the merchant secret gives for
    its other fields, by provider. *)
Definition carried_signature `{Runtime} (provider : string) (p : payload) : string :=
  match assoc provider
    [("jazzcash", "pp_SecureHash"); ("easypaisa", "merchantHashedReq"); ("meezan", "Hash");
     ("allied_payfast", "SIGNATURE"); ("safepay", "_signature"); ("nayapay", "_signature")]%string with
  | Some k => str_or_empty (get k p)
  | None => ""
  end.

Definition merchant_signature `{Runtime} (cfg : Settings) (provider : string) (p : payload) : option string :=
  let body p := match webhook_parts p with Ok (_, b, _) => Some b | Exn _ => None end in
  match assoc provider
    [("jazzcash", Some (jazzcash_compute_hash cfg (flat_fields "pp_SecureHash" p)));
     ("easypaisa", (let flat := flat_fields "merchantHashedReq" p in
                    Some (easypaisa_compute_hash cfg flat (sort_by String.leb (map fst flat)))));
     ("meezan", Some (sha256_hex (String.concat "|"
         ([meezan_secret_key cfg; meezan_merchant_id cfg]
          ++ map (fun k => str_or_empty (get k p)) ["OrderId"; "Amount"; "RC"; "TID"])%list)));
     ("allied_payfast", Some (payfast_sign cfg (flat_fields "SIGNATURE" p)));
     ("safepay", option_map (hmac_sha256_hex (safepay_webhook_secret cfg)) (body p));
     ("nayapay", option_map (hmac_sha256_hex (nayapay_webhook_secret cfg)) (body p))]%string with
  | Some s => s
  | None => None
  end.

(** The gateways, with a case for each provider. *)
Lemma get_gateway_cases `{Runtime} cfg now provider g :
  get_gateway cfg now provider = Ok g ->
  (provider, g) ∈ registry cfg now.
Proof.
  unfold get_gateway. intros E. generalize dependent E. generalize (registry cfg now).
  induction l as [|[k a] l IH]; cbn [assoc]; [discriminate|].
  destruct (String.eqb_spec provider k) as [->|]; intros E; [inv_res; by constructor|].
  constructor. by apply IH.
Qed.

Ltac gateway_cases H :=
  apply get_gateway_cases in H; unfold registry in H;
  repeat (apply elem_of_cons in H as [H|H]; [injection H as -> ->|]); [..|by apply not_elem_of_nil in H].

(** Every entry of the checkout page's list has an adapter of its slug, and
    nothing else does. *)
Lemma get_gateway_supported `{Runtime} cfg now provider :
  is_ok (get_gateway cfg now provider) = true <-> provider ∈ map pv_slug supported_providers.
Proof.
  split.
  - destruct (get_gateway cfg now provider) as [g|] eqn:E; [|done]. intros _.
    gateway_cases E; cbn [map supported_providers pv_slug]; set_solver.
  - cbn [map supported_providers pv_slug].
    intros Hin. repeat (apply elem_of_cons in Hin as [->|Hin]; [reflexivity|]).
    by apply not_elem_of_nil in Hin.
Qed.

Lemma get_gateway_error `{Runtime} cfg now provider e :
  get_gateway cfg now provider = Exn e -> e = ServiceError 400.
Proof. unfold get_gateway. destruct (assoc _ _); congruence. Qed.

(** The fields that decide the status of a callback. *)
Definition callback_succeeded `{Runtime} (provider : string) (p : payload) : bool :=
  let field_is k v := String.eqb (str_or_empty (get k p)) v in
  match assoc provider
    [("jazzcash", field_is "pp_ResponseCode" "000");
     ("easypaisa", String.eqb (str_or_empty (value_or (get "status" p) (get "responseCode" p))) "0000");
     ("meezan", field_is "RC" "00");
     ("allied_payfast", field_is "RESPONSE_CODE" "00");
     ("manual", true)]%string with
  | Some b => b
  | None => false
  end.
Definition webhook_provider (provider : string) : bool :=
  (String.eqb provider "safepay" || String.eqb provider "nayapay")%bool.

Lemma if_paid (b : bool) : (if b then cb_paid else cb_failed) = cb_paid <-> b = true.
Proof. by destruct b. Qed.

Ltac res_steps H := repeat res_step H.

(** The signature check comes first in a form-post adapter, and the webhook
    parts before it in a webhook adapter. *)
Ltac open_callback H :=
  cbn [verify_callback] in H;
  unfold jazzcash_verify_callback, easypaisa_verify_callback, meezan_verify_callback,
    payfast_verify_callback, safepay_verify_callback, nayapay_verify_callback,
    manual_verify_callback in H; cbv zeta in H.


(** A runtime to evaluate the adapters with: the "HMAC" of a message is the key,
    a colon and the message. *)
Definition sample_runtime : Runtime := {|
  hmac_sha256_hex k m := k +:+ ":" +:+ m;
  hmac_sha256_b64 k m := k +:+ ":" +:+ m;
  sha256_hex m := m;
  json_dumps _ := Ok "{}"%string;
  repr_of _ := "..."%string
|}.

Definition sample_settings : Settings :=
  mkSettings "development" "http://localhost:8000" "http://localhost:3000/checkout/return"
    "" "" "" "sandbox" "" "" "sandbox" "m1" "s3cret" "live" "" "" "sandbox" "" "" "sandbox" "" "" "sandbox".

Definition sample_callback : payload :=
  [("OrderId", VStr "T0A"); ("Amount", VStr "900.00"); ("RC", VStr "00"); ("TID", VStr "77");
   ("Hash", VStr "S3CRET|m1|T0A|900.00|00|77")]%string.

