(* ===== verification/Billing.v ===== *)
(** * Billing: [psx_api/services/billing_service.py] and [psx_api/routers/billing.py]

    Plans, subscriptions and payment intents as tables; the service methods and
    the routes that change them.  An instant is a Unix time in seconds, a date
    an ordinal; random tokens and generated primary keys are arguments.  A
    method that raises leaves the tables alone: the session rolls back.

    A flush writes the changed rows before the new ones, and checks what the
    schema checks: the unique merchant reference, one current subscription per
    user (migration 0013), column widths, and that a payload is JSON. *)

From S2P Require Import Prelude Dates Decimal Ledger PyText Payments Gateways.

(** ** Rows *)

Inductive SubStatus := sub_active | sub_past_due | sub_canceled | sub_trialing | sub_incomplete.
#[export] Instance SubStatus_eq_dec : EqDecision SubStatus.
Proof. solve_decision. Defined.

Inductive IntentStatus :=
  intent_pending | intent_redirected | intent_paid | intent_failed | intent_canceled | intent_expired.
#[export] Instance IntentStatus_eq_dec : EqDecision IntentStatus.
Proof. solve_decision. Defined.

Record SubscriptionPlan := mkPlan {
  pl_id : Z;
  pl_slug : string;
  pl_name : string;
  pl_tagline : string;
  pl_price_pkr_monthly : dec;
  pl_price_pkr_annual : option dec;
  pl_features : list string;
  pl_display_order : Z;
  pl_is_active : bool;
  pl_created_at : Z;
}.

Record UserSubscription := mkSub {
  us_id : string;
  us_user_id : string;
  us_plan_id : Z;
  us_status : SubStatus;
  us_provider : option string;
  us_provider_subscription_id : option string;
  us_period_start : Z;
  us_period_end : Z;
  us_cancel_at_period_end : bool;
  us_created_at : Z;
  us_updated_at : Z;
}.

Record PaymentIntent := mkIntent {
  pi_id : string;
  pi_user_id : string;
  pi_plan_id : Z;
  pi_provider : string;
  pi_billing_cycle : string;
  pi_amount_pkr : dec;
  pi_status : IntentStatus;
  pi_merchant_txn_ref : string;
  pi_gateway_txn_id : option string;
  pi_request_payload : payload;
  pi_response_payload : option payload;
  pi_checkout_url : option string;
  pi_failure_reason : option string;
  pi_returned_at : option Z;
  pi_expires_at : Z;
  pi_created_at : Z;
  pi_updated_at : Z;
}.

Record billing_db := mkBilling {
  plans : list SubscriptionPlan;
  subscriptions : list UserSubscription;
  intents : list PaymentIntent;
}.

(** ** What a flush checks *)

(** The value has a JSON text; NaN and the infinities have none in JSONB. *)
Fixpoint bindable (v : value) : bool :=
  match v with
  | VBytes _ => false
  | VList l => forallb bindable l
  | VObj fs => forallb (fun kv => bindable kv.2) fs
  | _ => true
  end.
Fixpoint jsonb_value (v : value) : bool :=
  match v with
  | VFloat _ None => false
  | VList l => forallb jsonb_value l
  | VObj fs => forallb (fun kv => jsonb_value kv.2) fs
  | _ => true
  end.

(** [Numeric(10, 2)] *)
Definition numeric_10_2 (d : dec) : res dec :=
  let q := quantized ROUND_HALF_UP 2 d in
  if Z.abs q <? 10 ^ 10 then Ok (mkdec q (-2)) else Exn DataError.

Definition fits (width : Z) (s : option string) : bool :=
  match s with None => true | Some s => Z.of_nat (String.length s) <=? width end.

(** Binding and storing one intent row. *)
Definition flush_intent (i : PaymentIntent) : res unit :=
  let response := match pi_response_payload i with Some p => VObj p | None => VNone end in
  let request := VObj (pi_request_payload i) in
  if negb (bindable request && bindable response) then Exn StatementError
  else if (jsonb_value request && jsonb_value response && fits 120 (pi_gateway_txn_id i)
           && fits 60 (Some (pi_merchant_txn_ref i)))%bool
  then Ok tt else Exn DataError.

Definition is_current (s : UserSubscription) : bool :=
  match us_status s with sub_active | sub_trialing => true | _ => false end.
Definition current_of (user_id : string) (s : UserSubscription) : bool :=
  (String.eqb (us_user_id s) user_id && is_current s)%bool.

(** INSERT under the partial unique index [uq_user_subscriptions_user_active]. *)
Definition insert_subscription (subs : list UserSubscription) (s : UserSubscription)
    : res (list UserSubscription) :=
  if (is_current s && existsb (current_of (us_user_id s)) subs)%bool then Exn IntegrityError
  else Ok (subs ++ [s])%list.

(** INSERT under [uq_payment_intents_merchant_ref]. *)
Definition insert_intent (l : list PaymentIntent) (i : PaymentIntent) : res (list PaymentIntent) :=
  if existsb (fun j => String.eqb (pi_merchant_txn_ref j) (pi_merchant_txn_ref i)) l
  then Exn IntegrityError else Ok (l ++ [i])%list.

(** UPDATE of the row with this primary key. *)
Definition update_intent (l : list PaymentIntent) (i : PaymentIntent) : list PaymentIntent :=
  put_row pi_id i l.

(** ** Plans and current subscription *)

Definition list_plans (db : billing_db) : list SubscriptionPlan :=
  sort_by (fun a b => pl_display_order a <=? pl_display_order b)
    (List.filter pl_is_active (plans db)).

Definition get_plan_by_slug (db : billing_db) (slug : string) : res (option SubscriptionPlan) :=
  scalar_one_or_none (List.filter (fun p => String.eqb (pl_slug p) slug) (plans db)).

(** The user's current subscriptions with their plans, the latest first. *)
Definition current_rows (db : billing_db) (user_id : string)
    : list (UserSubscription * SubscriptionPlan) :=
  sort_by (fun a b => us_created_at b.1 <=? us_created_at a.1)
    (flat_map (fun s => map (fun p => (s, p))
                          (List.filter (fun p => pl_id p =? us_plan_id s) (plans db)))
       (List.filter (current_of user_id) (subscriptions db))).

Definition current_subscription (db : billing_db) (user_id : string)
    : res (option UserSubscription * option SubscriptionPlan) :=
  match current_rows db user_id with
  | [] => let! free_plan := get_plan_by_slug db "free" in Ok (None, free_plan)
  | (sub, plan) :: _ => Ok (Some sub, Some plan)
  end.

(** [status = "canceled"; cancel_at_period_end = True] on a loaded row. *)
Definition cancel_sub (now : Z) (s : UserSubscription) : UserSubscription :=
  mkSub (us_id s) (us_user_id s) (us_plan_id s) sub_canceled (us_provider s)
    (us_provider_subscription_id s) (us_period_start s) (us_period_end s) true
    (us_created_at s) now.

(** The loop over the user's current subscriptions. *)
Definition cancel_current (now : Z) (user_id : string) (subs : list UserSubscription)
    : list UserSubscription :=
  map (fun s => if current_of user_id s then cancel_sub now s else s) subs.

(** [today_pkt()] *)
Definition today_pkt (now : Z) : Z := ordinal_of_unix (now + 5 * 3600).

Definition subscribe_free (db : billing_db) (now : Z) (new_id user_id : string)
    : res (billing_db * UserSubscription) :=
  let! plan := get_plan_by_slug db "free" in
  match plan with
  | None => Exn (ServiceError 500)
  | Some plan =>
      let today := today_pkt now in
      let sub := mkSub new_id user_id (pl_id plan) sub_active None None today (today + 3650)
                   false now now in
      let! subs := insert_subscription (cancel_current now user_id (subscriptions db)) sub in
      Ok (mkBilling (plans db) subs (intents db), sub)
  end.

(** ** Checkout *)

(** [_PROVIDERS_REQUIRING_CHECKOUT] *)
Definition providers_requiring_checkout : list string :=
  ["jazzcash"; "easypaisa"; "meezan"; "allied_payfast"; "safepay"; "nayapay"]%string.

Definition mem (s : string) (l : list string) : bool := existsb (String.eqb s) l.

(** The price of a plan for a billing cycle. *)
Definition plan_amount (plan : SubscriptionPlan) (billing_cycle : string) : dec :=
  if String.eqb billing_cycle "annual" then
    match pl_price_pkr_annual plan with
    | Some a => if coef a =? 0 then (pl_price_pkr_monthly plan * dec_of_Z 12)%dec else a
    | None => (pl_price_pkr_monthly plan * dec_of_Z 12)%dec
    end
  else pl_price_pkr_monthly plan.

Record CheckoutResponse := mkResponse {
  rs_intent_id : string;
  rs_provider : string;
  rs_checkout_url : string;
  rs_is_sandbox : bool;
  rs_instructions : option string;
  rs_request_payload : payload;
  rs_amount_pkr : string;
  rs_expires_at : Z;
}.

Section service.
Context `{Runtime}.
Variable cfg : Settings.
Variable now : Z.

(** [token] is [secrets.token_hex(8)]. *)
Definition begin_paid_subscription (db : billing_db) (new_id token : string)
    (user_id user_email : string) (user_name user_phone : option string)
    (plan_slug provider billing_cycle : string) : res (billing_db * CheckoutResponse) :=
  if negb (mem billing_cycle ["monthly"; "annual"]%string) then Exn (ServiceError 400) else
  let! plan := get_plan_by_slug db plan_slug in
  match plan with
  | None => Exn (ServiceError 404)
  | Some plan =>
      if String.eqb (pl_slug plan) "free" then Exn (ServiceError 400) else
      let amount := plan_amount plan billing_cycle in
      if (amount <=? dzero)%dec then Exn (ServiceError 500) else
      let! gateway := get_gateway cfg now provider in
      let merchant_ref := ("T" +:+ upper token)%string in
      let expires_at := now + 3600 in
      let callback_url :=
        (rstrip_slash (payments_base_url cfg) +:+ "/api/v1/billing/callback/" +:+ provider)%string in
      let return_url :=
        (rstrip_slash (payments_return_url cfg) +:+ "?ref=" +:+ merchant_ref)%string in
      let ctx :=
        mkContext merchant_ref amount
          ("PSX AI " +:+ pl_name plan +:+ " (" +:+ billing_cycle +:+ ")")%string
          user_email user_name user_phone return_url callback_url expires_at in
      let! result := create_intent gateway ctx in
      let! stored_amount := numeric_10_2 amount in
      let intent :=
        mkIntent new_id user_id (pl_id plan) provider billing_cycle stored_amount
          (if mem provider providers_requiring_checkout then intent_redirected else intent_pending)
          merchant_ref (co_gateway_txn_id result) (co_request_payload result) None
          (Some (co_checkout_url result)) None None expires_at now now in
      let! _ := flush_intent intent in
      let! rows := insert_intent (intents db) intent in
      Ok (mkBilling (plans db) (subscriptions db) rows,
          mkResponse new_id provider (co_checkout_url result) (co_is_sandbox result)
            (co_instructions result) (co_request_payload result) (str_dec stored_amount) expires_at)
  end.

(** ** Confirmation *)

(** [a or b] on optional texts *)
Definition text_option_or (a b : option string) : option string :=
  match a with Some s => if nonempty s then a else b | None => b end.

(** The columns every accepted callback updates. *)
Definition callback_received (r : CallbackResult) (i : PaymentIntent) : PaymentIntent :=
  mkIntent (pi_id i) (pi_user_id i) (pi_plan_id i) (pi_provider i) (pi_billing_cycle i)
    (pi_amount_pkr i) (pi_status i) (pi_merchant_txn_ref i)
    (text_option_or (cr_gateway_txn_id r) (pi_gateway_txn_id i))
    (pi_request_payload i) (Some (cr_raw_payload r)) (pi_checkout_url i) (pi_failure_reason i)
    (Some now) (pi_expires_at i) (pi_created_at i) now.

Definition set_intent_status (st : IntentStatus) (reason : option string) (i : PaymentIntent)
    : PaymentIntent :=
  mkIntent (pi_id i) (pi_user_id i) (pi_plan_id i) (pi_provider i) (pi_billing_cycle i)
    (pi_amount_pkr i) st (pi_merchant_txn_ref i) (pi_gateway_txn_id i)
    (pi_request_payload i) (pi_response_payload i) (pi_checkout_url i) reason
    (pi_returned_at i) (pi_expires_at i) (pi_created_at i) (pi_updated_at i).

Definition str_xdec (x : xdec) : string :=
  match x with
  | Fin d => str_dec d
  | Inf neg => if neg then "-Infinity" else "Infinity"
  | NaN => "NaN"
  end.

(** [abs(sent - billed) > Decimal("0.01")]; ordering a NaN raises. *)
Definition amount_mismatch (sent : xdec) (billed : dec) : res bool :=
  match sent with
  | Fin d => Ok (mkdec 1 (-2) <? dabs (d - billed))%dec
  | Inf _ => Ok true
  | NaN => Exn InvalidOperation
  end.

(** [_activate_subscription]; its flush also writes the intent. *)
Definition activate_subscription (subs : list UserSubscription) (new_id : string) (intent : PaymentIntent)
    : res (list UserSubscription) :=
  let today := today_pkt now in
  let period_end := today + (if String.eqb (pi_billing_cycle intent) "annual" then 365 else 30) in
  let sub :=
    mkSub new_id (pi_user_id intent) (pi_plan_id intent) sub_active (Some (pi_provider intent))
      (text_option_or (pi_gateway_txn_id intent) (Some (pi_merchant_txn_ref intent)))
      today period_end false now now in
  let! _ := flush_intent intent in
  insert_subscription (cancel_current now (pi_user_id intent) subs) sub.

(** The intent a callback is about. *)
Definition find_intent (db : billing_db) (ref provider : string) : res (option PaymentIntent) :=
  scalar_one_or_none
    (List.filter (fun i => (String.eqb (pi_merchant_txn_ref i) ref && String.eqb (pi_provider i) provider)%bool)
       (intents db)).

(** Writing back the intent, at a flush or at the commit that ends the request. *)
Definition store_intent (db : billing_db) (i : PaymentIntent) : res (billing_db * PaymentIntent) :=
  let! _ := flush_intent i in
  Ok (mkBilling (plans db) (subscriptions db) (update_intent (intents db) i), i).

Definition confirm_payment (db : billing_db) (new_id provider : string) (p : payload)
    : res (billing_db * PaymentIntent) :=
  let! gateway := get_gateway cfg now provider in
  let! result := verify_callback gateway p in
  let! found := find_intent db (cr_merchant_txn_ref result) provider in
  match found with
  | None => Exn (ServiceError 404)
  | Some intent =>
      let intent := callback_received result intent in
      if bool_decide (pi_status intent = intent_paid) then store_intent db intent else
      match cr_status result with
      | cb_paid =>
          let! mismatch := match cr_amount_pkr result with
                           | Some sent => amount_mismatch sent (pi_amount_pkr intent)
                           | None => Ok false
                           end in
          if mismatch then
            let sent := match cr_amount_pkr result with Some x => str_xdec x | None => "None"%string end in
            store_intent db
              (set_intent_status intent_failed
                 (Some ("Amount mismatch: expected " +:+ str_dec (pi_amount_pkr intent)
                        +:+ ", gateway sent " +:+ sent)%string) intent)
          else
            let intent := set_intent_status intent_paid (pi_failure_reason intent) intent in
            let! subs := activate_subscription (subscriptions db) new_id intent in
            Ok (mkBilling (plans db) subs (update_intent (intents db) intent), intent)
      | cb_canceled => store_intent db (set_intent_status intent_canceled (cr_failure_reason result) intent)
      | cb_pending => store_intent db (set_intent_status intent_redirected (pi_failure_reason intent) intent)
      | cb_failed => store_intent db (set_intent_status intent_failed (cr_failure_reason result) intent)
      end
  end.

(** ** Routes *)

(** The body of a callback request: a JSON text ([None] when it does not parse)
    with the two signature headers and the raw bytes, or a form. *)
Inductive callback_request :=
| JsonBody (document : option value) (x_sfpy_signature x_np_signature : option string) (raw_body : string)
| FormBody (fields : payload).

Definition dict_set (k : string) (v : value) (p : payload) : payload :=
  if existsb (fun kv => String.eqb kv.1 k) p
  then map (fun kv => if String.eqb kv.1 k then (k, v) else kv) p
  else (p ++ [(k, v)])%list.

Definition callback_payload (req : callback_request) : res payload :=
  match req with
  | FormBody fields => Ok fields
  | JsonBody None _ _ _ => Exn (ServiceError 400)
  | JsonBody (Some (VObj fields)) h1 h2 raw =>
      let signature := match text_option_or h1 h2 with Some s => s | None => "" end in
      Ok (dict_set "_raw_body" (VBytes raw) (dict_set "_signature" (VStr signature) fields))
  | JsonBody (Some _) _ _ _ => Exn TypeError
  end.

(** [POST /callback/{provider}]: no session is asked for. *)
Definition gateway_callback (db : billing_db) (new_id provider : string) (req : callback_request)
    : res (billing_db * PaymentIntent) :=
  let! p := callback_payload req in
  confirm_payment db new_id provider p.

Definition intent_by_id (db : billing_db) (intent_id : string) : res (option PaymentIntent) :=
  scalar_one_or_none (List.filter (fun i => String.eqb (pi_id i) intent_id) (intents db)).

(** [int(amount * 100)] *)
Definition paisas (amount : dec) : Z := int_of_dec (amount * dec_of_Z 100)%dec.

(** The synthetic "paid" payload of [sandbox_confirm]. *)
Definition sandbox_payload (i : PaymentIntent) : payload :=
  let ref := pi_merchant_txn_ref i in
  let amount := str_dec (pi_amount_pkr i) in
  let receipt := ("SANDBOX_" +:+ ref)%string in
  let base := [("merchant_txn_ref", VStr ref); ("amount_pkr", VStr amount)]%string in
  if String.eqb (pi_provider i) "jazzcash" then
    (base ++ [("pp_TxnRefNo", VStr ref); ("pp_ResponseCode", VStr "000");
              ("pp_Amount", VStr (str_int (paisas (pi_amount_pkr i))));
              ("pp_RetreivalReferenceNo", VStr receipt)]%string)%list
  else if String.eqb (pi_provider i) "easypaisa" then
    (base ++ [("orderRefNum", VStr ref); ("status", VStr "0000"); ("paymentToken", VStr receipt);
              ("amount", VStr amount)]%string)%list
  else if String.eqb (pi_provider i) "meezan" then
    (base ++ [("OrderId", VStr ref); ("RC", VStr "00"); ("TID", VStr receipt);
              ("Amount", VStr amount)]%string)%list
  else if String.eqb (pi_provider i) "allied_payfast" then
    (base ++ [("TRANSACTION_ID", VStr ref); ("RESPONSE_CODE", VStr "00");
              ("TRANSACTION_AMOUNT", VStr amount); ("REFERENCE_NUMBER", VStr receipt)]%string)%list
  else if String.eqb (pi_provider i) "safepay" then
    [("data", VObj [("order_id", VStr ref); ("state", VStr "paid");
                    ("amount", VInt (paisas (pi_amount_pkr i))); ("tracker", VStr receipt)])]%string
  else if String.eqb (pi_provider i) "nayapay" then
    [("merchant_reference", VStr ref); ("status", VStr "completed");
     ("amount_paisas", VInt (paisas (pi_amount_pkr i))); ("transaction_id", VStr receipt)]%string
  else base.

(** [POST /sandbox-confirm/{intent_id}] for the session's user. *)
Definition sandbox_confirm (db : billing_db) (new_id intent_id user_id : string)
    : res (billing_db * PaymentIntent) :=
  let! intent := intent_by_id db intent_id in
  match intent with
  | None => Exn (ServiceError 404)
  | Some i =>
      if negb (String.eqb (pi_user_id i) user_id) then Exn (ServiceError 404)
      else if String.eqb (environment cfg) "production" then Exn (ServiceError 403)
      else confirm_payment db new_id (pi_provider i) (sandbox_payload i)
  end.
End service.

(** [GET /intent/{intent_id}]: the status of one's own intent. *)
Definition get_intent_status (db : billing_db) (intent_id user_id : string)
    : res (PaymentIntent * SubscriptionPlan) :=
  match flat_map (fun i => map (fun p => (i, p)) (List.filter (fun p => pl_id p =? pi_plan_id i) (plans db)))
          (List.filter (fun i => String.eqb (pi_id i) intent_id) (intents db)) with
  | [] => Exn (ServiceError 404)
  | (i, p) :: _ => if String.eqb (pi_user_id i) user_id then Ok (i, p) else Exn (ServiceError 404)
  end.

(** [GET /me]: the plan in force and the subscription's status, if there is one. *)
Definition my_subscription (db : billing_db) (user_id : string)
    : res (SubscriptionPlan * option UserSubscription) :=
  let! current := current_subscription db user_id in
  match current with
  | (_, None) => Exn (ServiceError 500)
  | (sub, Some plan) => Ok (plan, sub)
  end.

(** ** An evaluation *)

Definition sample_plans : list SubscriptionPlan :=
  [mkPlan 1 "free" "Free" "" (mkdec 0 (-2)) (Some (mkdec 0 (-2))) [] 1 true 0;
   mkPlan 2 "pro" "Pro" "" (mkdec 90000 (-2)) (Some (mkdec 900000 (-2))) [] 2 true 0].
Definition sample_billing : billing_db := mkBilling sample_plans [] [].

(** Checkout of [pro] with [provider], then the sandbox confirmation. *)
Definition sample_purchase (provider : string) : res (list (string * SubStatus) * IntentStatus) :=
  let! r := begin_paid_subscription (H := sample_runtime) sample_settings 1747324799 sample_billing
              "i1" "0123456789abcdef" "u1" "u1@x.pk" None None "pro" provider "annual" in
  let! r2 := sandbox_confirm (H := sample_runtime) sample_settings 1747324800 r.1 "s1" "i1" "u1" in
  Ok (map (fun s => (us_id s, us_status s)) (subscriptions r2.1), pi_status r2.2).

Example sample_purchases :
  map sample_purchase ["jazzcash"; "easypaisa"; "allied_payfast"; "safepay"; "nayapay"; "manual"]%string
  = repeat (Ok ([("s1"%string, sub_active)], intent_paid)) 6.
Proof. vm_compute. reflexivity. Qed.
Example sample_purchase_configured : sample_purchase "meezan" = Exn (ServiceError 400).
Proof. vm_compute. reflexivity. Qed.

(** ** Current subscriptions *)

Definition currents (user_id : string) (subs : list UserSubscription) : list UserSubscription :=
  List.filter (current_of user_id) subs.

Lemma current_cancel now u s : current_of u (cancel_sub now s) = false.
Proof. unfold current_of, is_current, cancel_sub; cbn. apply andb_false_r. Qed.

Lemma currents_cancel now u subs : currents u (cancel_current now u subs) = [].
Proof.
  induction subs as [|s ss IH]; cbn [currents cancel_current map List.filter]; [done|].
  destruct (current_of u s) eqn:E; [rewrite current_cancel|rewrite E]; exact IH.
Qed.

Lemma currents_cancel_other now u v subs :
  v <> u -> currents v (cancel_current now u subs) = currents v subs.
Proof.
  intros Hne. induction subs as [|s ss IH]; cbn [currents cancel_current map List.filter]; [done|].
  fold (currents v ss). fold (cancel_current now u ss). fold (currents v (cancel_current now u ss)).
  destruct (current_of u s) eqn:E.
  - rewrite current_cancel, IH. destruct (current_of v s) eqn:E'; [|done].
    unfold current_of in E, E'. zbool. apply String.eqb_eq in H, H1. congruence.
  - by rewrite IH.
Qed.

(** Rows of other users are not touched. *)
Lemma cancel_other_rows now u subs s :
  us_user_id s <> u -> s ∈ cancel_current now u subs <-> s ∈ subs.
Proof.
  intros Hne. unfold cancel_current. rewrite !list_elem_of_In, in_map_iff. split.
  - intros (x & Hx & Hin). destruct (current_of u x) eqn:E; [|by subst].
    subst s. unfold current_of in E. zbool. apply String.eqb_eq in H. by cbn in Hne.
  - intros Hin. exists s. split; [|done]. unfold current_of.
    rewrite (proj2 (String.eqb_neq _ _) Hne). done.
Qed.

(** After the cancellation the insert respects the index. *)
Lemma insert_after_cancel now u subs s :
  us_user_id s = u ->
  insert_subscription (cancel_current now u subs) s = Ok (cancel_current now u subs ++ [s])%list.
Proof.
  intros <-. unfold insert_subscription.
  rewrite (proj2 (existsb_filter _ _)); [|apply currents_cancel]. by rewrite andb_false_r.
Qed.

Lemma currents_app u l1 l2 : currents u (l1 ++ l2) = (currents u l1 ++ currents u l2)%list.
Proof. apply List.filter_app. Qed.

(** One current subscription: the new one for its user, as before for others. *)
Lemma currents_replaced now subs s v :
  is_current s = true ->
  currents v (cancel_current now (us_user_id s) subs ++ [s]) =
  if String.eqb (us_user_id s) v then [s] else currents v subs.
Proof.
  intros Hs. rewrite currents_app. unfold currents at 2. cbn [List.filter]. unfold current_of at 1.
  rewrite Hs, andb_true_r. destruct (String.eqb_spec (us_user_id s) v) as [<-|Hne].
  - by rewrite currents_cancel.
  - by rewrite currents_cancel_other, app_nil_r.
Qed.

(** ** Intents by reference *)

Lemma find_intent_spec db ref provider i :
  find_intent db ref provider = Ok (Some i) ->
  i ∈ intents db /\ pi_merchant_txn_ref i = ref /\ pi_provider i = provider.
Proof.
  intros H%scalar_one_some%filter_one_elem. destruct H as [Hin Hf]. zbool.
  by repeat match goal with H : String.eqb _ _ = true |- _ => apply String.eqb_eq in H end.
Qed.

(** Storing an updated row: the queries by a column it did not change find it. *)
Lemma filter_update {l : list PaymentIntent} {f : PaymentIntent -> bool} {i i'} :
  NoDup (map pi_id l) -> i ∈ l -> pi_id i' = pi_id i -> f i' = f i ->
  List.filter f (update_intent l i') = update_intent (List.filter f l) i'.
Proof. intros. by apply (filter_put_row pi_id f i' i). Qed.

Lemma find_intent_update db ref provider i i' subs :
  NoDup (map pi_id (intents db)) -> find_intent db ref provider = Ok (Some i) ->
  pi_id i' = pi_id i -> pi_merchant_txn_ref i' = pi_merchant_txn_ref i -> pi_provider i' = pi_provider i ->
  find_intent (mkBilling (plans db) subs (update_intent (intents db) i')) ref provider = Ok (Some i').
Proof.
  intros Hnd Hf Hid Href Hprov. destruct (find_intent_spec _ _ _ _ Hf) as (Hin & _ & _).
  unfold find_intent in *. cbn [intents].
  rewrite (filter_update Hnd Hin Hid); [|by rewrite Href, Hprov].
  apply scalar_one_some in Hf. rewrite Hf. unfold update_intent, put_row. cbn [map].
  by rewrite Hid, String.eqb_refl.
Qed.

Lemma update_intent_ids l i : map pi_id (update_intent l i) = map pi_id l.
Proof. apply put_row_keys. Qed.

Lemma elem_of_update l i j :
  NoDup (map pi_id l) -> j ∈ update_intent l i -> (j = i /\ pi_id i ∈ map pi_id l) \/ (j ∈ l /\ pi_id j <> pi_id i).
Proof. intros _. apply elem_of_put_row. Qed.

Lemma elem_of_update_same l i : pi_id i ∈ map pi_id l -> i ∈ update_intent l i.
Proof. apply elem_of_put_row_same. Qed.

Lemma elem_of_update_other l i j : j ∈ l -> pi_id j <> pi_id i -> j ∈ update_intent l i.
Proof. apply elem_of_put_row_other. Qed.

(** ** Confirming a payment *)

(** The columns no callback changes. *)
Definition same_checkout (i i' : PaymentIntent) : Prop :=
  (pi_id i', pi_user_id i', pi_plan_id i', pi_provider i', pi_billing_cycle i', pi_amount_pkr i',
   pi_merchant_txn_ref i', pi_request_payload i', pi_expires_at i', pi_created_at i') =
  (pi_id i, pi_user_id i, pi_plan_id i, pi_provider i, pi_billing_cycle i, pi_amount_pkr i,
   pi_merchant_txn_ref i, pi_request_payload i, pi_expires_at i, pi_created_at i).

(** The subscription a paid intent buys. *)
Definition bought (now : Z) (new_id : string) (i : PaymentIntent) : UserSubscription :=
  mkSub new_id (pi_user_id i) (pi_plan_id i) sub_active (Some (pi_provider i))
    (text_option_or (pi_gateway_txn_id i) (Some (pi_merchant_txn_ref i)))
    (today_pkt now) (today_pkt now + (if String.eqb (pi_billing_cycle i) "annual" then 365 else 30))
    false now now.

(** What may change hands: the amount sent is the amount billed, to a paisa. *)
Definition amount_accepted (r : CallbackResult) (i : PaymentIntent) : Prop :=
  match cr_amount_pkr r with
  | None => True
  | Some sent => amount_mismatch sent (pi_amount_pkr i) = Ok false
  end.

Lemma activate_ok now subs new_id i :
  flush_intent i = Ok tt ->
  activate_subscription now subs new_id i
  = Ok (cancel_current now (pi_user_id i) subs ++ [bought now new_id i])%list.
Proof.
  intros Hf. unfold activate_subscription. rewrite Hf. by rewrite insert_after_cancel.
Qed.

Lemma activate_inv now subs new_id i subs' :
  activate_subscription now subs new_id i = Ok subs' ->
  flush_intent i = Ok tt /\ subs' = (cancel_current now (pi_user_id i) subs ++ [bought now new_id i])%list.
Proof.
  intros Ha. assert (Hf : flush_intent i = Ok tt).
  { unfold activate_subscription in Ha. destruct (flush_intent i) as [[]|]; [done|discriminate Ha]. }
  split; [done|]. rewrite (activate_ok _ _ _ _ Hf) in Ha. by inv_res.
Qed.

Lemma store_intent_inv db i db' i' :
  store_intent db i = Ok (db', i') ->
  i' = i /\ flush_intent i = Ok tt /\ db' = mkBilling (plans db) (subscriptions db) (update_intent (intents db) i).
Proof. unfold store_intent. destruct (flush_intent i) as [[]|]; [|done]. intros; by inv_res. Qed.

Lemma set_status_same i : i = set_intent_status (pi_status i) (pi_failure_reason i) i.
Proof. by destruct i. Qed.

Section confirm.
Context `{Runtime}.
Variables (cfg : Settings) (now : Z).

(** The outcomes of [confirm_payment] that return. *)
Lemma confirm_payment_inv db new_id provider p db' i' :
  confirm_payment cfg now db new_id provider p = Ok (db', i') ->
  exists g r i,
    get_gateway cfg now provider = Ok g /\ verify_callback g p = Ok r /\
    find_intent db (cr_merchant_txn_ref r) provider = Ok (Some i) /\
    flush_intent i' = Ok tt /\ plans db' = plans db /\ intents db' = update_intent (intents db) i' /\
    ((exists st reason, i' = set_intent_status st reason (callback_received now r i)
                        /\ subscriptions db' = subscriptions db
                        /\ (pi_status i = intent_paid -> st = intent_paid)
                        /\ (pi_status i <> intent_paid -> st <> intent_paid))
     \/ (pi_status i <> intent_paid /\ cr_status r = cb_paid /\ amount_accepted r i
         /\ i' = set_intent_status intent_paid (pi_failure_reason i) (callback_received now r i)
         /\ subscriptions db'
            = (cancel_current now (pi_user_id i') (subscriptions db) ++ [bought now new_id i'])%list)).
Proof.
  unfold confirm_payment. intros Hc. res_step Hc. res_step Hc. res_step Hc.
  destruct a1 as [i|]; [|discriminate Hc]. cbv zeta in Hc.
  exists a, a0, i. split; [done|]. split; [done|]. split; [done|].
  assert (Hstore : forall st reason,
    store_intent db (set_intent_status st reason (callback_received now a0 i)) = Ok (db', i') ->
    (pi_status i = intent_paid -> st = intent_paid) -> (pi_status i <> intent_paid -> st <> intent_paid) ->
    flush_intent i' = Ok tt /\ plans db' = plans db /\ intents db' = update_intent (intents db) i' /\
    exists st reason, i' = set_intent_status st reason (callback_received now a0 i)
                      /\ subscriptions db' = subscriptions db
                      /\ (pi_status i = intent_paid -> st = intent_paid)
                      /\ (pi_status i <> intent_paid -> st <> intent_paid)).
  { intros st reason (-> & Hf & ->)%store_intent_inv H1 H2. eauto 10. }
  change (pi_status (callback_received now a0 i)) with (pi_status i) in Hc.
  case_bool_decide as Hp.
  - rewrite (set_status_same (callback_received now a0 i)) in Hc.
    change (pi_status (callback_received now a0 i)) with (pi_status i) in Hc.
    apply Hstore in Hc as (? & ? & ? & ?); [tauto|done|done].
  - destruct (cr_status a0) eqn:Es; [|apply Hstore in Hc as (? & ? & ? & ?); [tauto|done|done]..].
    res_step Hc. destruct a1.
    { apply Hstore in Hc as (? & ? & ? & ?); [tauto|done|done]. }
    res_step Hc. apply activate_inv in E3 as [Hf ->]. inv_res.
    split_and!; [done..|]. right. split_and!; [done|done| |done|done].
    unfold amount_accepted. by destruct (cr_amount_pkr a0).
Qed.

Lemma received_same r st reason i :
  same_checkout i (set_intent_status st reason (callback_received now r i)).
Proof. reflexivity. Qed.

(** C9: A callback that [confirm_payment] accepts is about one recorded intent of
    its provider, and changes no other intent and nothing of its checkout.  An
    intent that is paid stays paid.  Subscriptions change exactly when the intent
    becomes paid, and only if the gateway's verification said paid and the
    amount, if sent, is the billed one to a paisa; then the subscription the
    intent pays for is the user's only current one, and the current
    subscriptions of everybody else are what they were. *)
Theorem confirm_payment_correct db new_id provider p db' i' :
  NoDup (map pi_id (intents db)) ->
  confirm_payment cfg now db new_id provider p = Ok (db', i') ->
  exists g r i,
    get_gateway cfg now provider = Ok g /\ verify_callback g p = Ok r /\
    i ∈ intents db /\ pi_merchant_txn_ref i = cr_merchant_txn_ref r /\ pi_provider i = provider /\
    same_checkout i i' /\ intents db' = update_intent (intents db) i' /\ i' ∈ intents db' /\
    (pi_status i = intent_paid -> pi_status i' = intent_paid) /\
    (pi_status i = intent_paid \/ pi_status i' <> intent_paid -> subscriptions db' = subscriptions db) /\
    (pi_status i <> intent_paid -> pi_status i' = intent_paid ->
     cr_status r = cb_paid /\ amount_accepted r i /\
     forall v, currents v (subscriptions db') =
               if String.eqb (pi_user_id i) v then [bought now new_id i'] else currents v (subscriptions db)).
Proof.
  intros Hnd Hc. apply confirm_payment_inv in Hc as (g & r & i & Hg & Hv & Hf & _ & _ & Hint & Hcase).
  destruct (find_intent_spec _ _ _ _ Hf) as (Hin & Href & Hprov).
  assert (Hid : pi_id i' = pi_id i) by (destruct Hcase as [(st & rs & -> & _)|(_ & _ & _ & -> & _)]; done).
  exists g, r, i. do 5 (split; [done|]).
  split; [destruct Hcase as [(st & rs & -> & _)|(_ & _ & _ & -> & _)]; apply received_same|].
  split; [done|]. split.
  { rewrite Hint. apply elem_of_update_same. rewrite Hid. by apply list_elem_of_fmap_2. }
  destruct Hcase as [(st & rs & -> & Hs & H1 & H2)|(Hp & Hr & Ha & -> & Hs)]; cbn [set_intent_status pi_status].
  - split_and!; [done|done|]. intros Hp Hst. by destruct (H2 Hp).
  - split_and!; [done|by intros [?|?]|]. intros _ _. split_and!; [done|done|]. intros v. rewrite Hs.
    exact (currents_replaced now (subscriptions db)
             (bought now new_id (set_intent_status intent_paid (pi_failure_reason i) (callback_received now r i)))
             v eq_refl).
Qed.

(** The verification of a gateway does not read the clock. *)
Lemma get_gateway_clock now' provider g :
  get_gateway cfg now provider = Ok g ->
  exists g', get_gateway cfg now' provider = Ok g' /\ verify_callback g' = verify_callback g.
Proof.
  intros Hg. gateway_cases Hg; (eexists; split; [reflexivity|reflexivity]).
Qed.

Lemma text_option_or_idem a b : text_option_or a (text_option_or a b) = text_option_or a b.
Proof. destruct a as [s|]; cbn; [|done]. by destruct (nonempty s). Qed.

(** C12: A callback delivered twice changes the subscriptions once: the second
    delivery, at any later time, returns, finds the intent paid and leaves the
    subscriptions alone. *)
Theorem confirm_payment_idempotent now' id1 id2 db provider p db1 i1 :
  NoDup (map pi_id (intents db)) ->
  confirm_payment cfg now db id1 provider p = Ok (db1, i1) -> pi_status i1 = intent_paid ->
  exists db2 i2,
    confirm_payment cfg now' db1 id2 provider p = Ok (db2, i2) /\
    pi_status i2 = intent_paid /\ same_checkout i1 i2 /\ subscriptions db2 = subscriptions db1 /\
    intents db2 = update_intent (intents db1) i2.
Proof.
  intros Hnd Hc Hpaid. apply confirm_payment_inv in Hc as (g & r & i & Hg & Hv & Hf & Hfl & Hpl & Hint & Hcase).
  destruct (get_gateway_clock now' provider g Hg) as (g' & Hg' & Ev).
  assert (Hi1 : exists rs, i1 = set_intent_status (pi_status i1) rs (callback_received now r i))
    by (destruct Hcase as [(st & rs & -> & _)|(_ & _ & _ & -> & _)]; eauto).
  destruct Hi1 as [rs Hi1]. rewrite Hpaid in Hi1.
  assert (Hf' : find_intent db1 (cr_merchant_txn_ref r) provider = Ok (Some i1)).
  { pose proof (find_intent_update db _ provider i i1 (subscriptions db1) Hnd Hf) as Hu.
    rewrite Hi1 in Hu at 1 2 3. specialize (Hu eq_refl eq_refl eq_refl).
    rewrite <- Hpl, <- Hint in Hu. by destruct db1. }
  set (i2 := callback_received now' r i1).
  assert (Hfl2 : flush_intent i2 = Ok tt).
  { rewrite <- Hfl. unfold i2. rewrite Hi1. unfold flush_intent. cbn.
    by rewrite text_option_or_idem. }
  assert (Hst2 : pi_status i2 = intent_paid) by (unfold i2; cbn; done).
  eexists _, i2. split.
  - unfold confirm_payment. rewrite Hg', Ev, Hv, Hf'. cbv zeta.
    fold i2. rewrite bool_decide_true by done. unfold store_intent. by rewrite Hfl2.
  - done.
Qed.
End confirm.

(** ** Checkout *)

Lemma texts_storable fs :
  forallb (fun kv => bindable kv.2) (texts fs) = true /\ forallb (fun kv => jsonb_value kv.2) (texts fs) = true.
Proof. unfold texts. induction fs; cbn; tauto. Qed.

(** A result the checkout can store: no gateway identifier yet, a JSON request. *)
Definition storable (co : CheckoutResult) : Prop :=
  co_gateway_txn_id co = None /\
  forallb (fun kv => bindable kv.2) (co_request_payload co) = true /\
  forallb (fun kv => jsonb_value kv.2) (co_request_payload co) = true.

Lemma hosted_storable cfg ctx slug configured live url p :
  forallb (fun kv => bindable kv.2) p = true -> forallb (fun kv => jsonb_value kv.2) p = true ->
  storable (hosted_checkout cfg ctx slug configured live url p).
Proof. unfold hosted_checkout. by destruct configured. Qed.

(** Every adapter answers a checkout of a storable amount. *)
Lemma create_intent_ok `{Runtime} cfg now provider g ctx z :
  get_gateway cfg now provider = Ok g -> repr 2 (cx_amount_pkr ctx) z -> Z.abs z < 10 ^ 10 ->
  exists co, create_intent g ctx = Ok co /\ storable co.
Proof.
  intros Hg Hz Hb.
  assert (Hq : exists q, dquantize ROUND_HALF_EVEN 0 (cx_amount_pkr ctx * dec_of_Z 100)%dec = Ok q).
  { assert (Hm : repr (2 + 0) (cx_amount_pkr ctx * dec_of_Z 100)%dec (z * 100)).
    { apply dmul_repr; [done|apply repr_of_Z|]. unfold exact_bound, prec. lia. }
    destruct (dquantize_repr ROUND_HALF_EVEN 0 (2 + 0) _ _ ltac:(lia) Hm) as (q & Hq & _); [|eauto].
    change (10 ^ (2 + 0 - 0)) with 100. rewrite div_round_exact by lia. unfold exact_bound, prec. lia. }
  gateway_cases Hg; cbn [create_intent].
  - unfold jazzcash_create_intent. destruct Hq as [q ->]. cbv zeta.
    eexists; split; [reflexivity|]. apply hosted_storable; apply texts_storable.
  - eexists; split; [reflexivity|]. apply hosted_storable; apply texts_storable.
  - eexists; split; [reflexivity|]. apply hosted_storable; apply texts_storable.
  - eexists; split; [reflexivity|]. apply hosted_storable; apply texts_storable.
  - eexists; split; [reflexivity|]. by apply hosted_storable.
  - eexists; split; [reflexivity|]. by apply hosted_storable.
  - eexists; split; [reflexivity|]. done.
Qed.

Lemma numeric_exact d z : repr 2 d z -> Z.abs z < 10 ^ 10 -> numeric_10_2 d = Ok (mkdec z (-2)).
Proof.
  intros Hd Hz. unfold numeric_10_2. rewrite (quantized_repr _ 2 2 d z) by (lia || done).
  replace (10 ^ (2 - 2)) with 1 by reflexivity.
  replace (div_round ROUND_HALF_UP z 1) with z
    by (rewrite <- (Z.mul_1_r z) at 2; by rewrite div_round_exact).
  by rewrite (proj2 (Z.ltb_lt _ _) Hz).
Qed.

(** The price of the plan in paisas: the monthly price, or for a year the annual
    price if one is set and not zero, else twelve monthly ones. *)
Definition price (monthly : Z) (annual : option Z) (cycle : string) : Z :=
  if String.eqb cycle "annual" then
    match annual with Some a => if a =? 0 then 12 * monthly else a | None => 12 * monthly end
  else monthly.

Definition priced (plan : SubscriptionPlan) (monthly : Z) (annual : option Z) : Prop :=
  pl_price_pkr_monthly plan = mkdec monthly (-2) /\
  pl_price_pkr_annual plan = option_map (fun a => mkdec a (-2)) annual.

Lemma plan_amount_price plan monthly annual cycle :
  priced plan monthly annual -> Z.abs monthly < 10 ^ 10 ->
  repr 2 (plan_amount plan cycle) (price monthly annual cycle).
Proof.
  intros [Hm Ha] Hb. unfold plan_amount, price. rewrite Hm, Ha.
  assert (H12 : repr 2 (mkdec monthly (-2) * dec_of_Z 12)%dec (12 * monthly)).
  { rewrite Z.mul_comm. change 2 with (2 + 0) at 1.
    apply dmul_repr; [apply (repr_refl monthly (-2))|apply repr_of_Z|]. unfold exact_bound, prec. lia. }
  destruct (String.eqb cycle "annual"); [|apply (repr_refl monthly (-2))].
  destruct annual as [a|]; cbn [option_map]; [|exact H12]. cbn [coef].
  destruct (a =? 0); [exact H12|apply (repr_refl a (-2))].
Qed.

Lemma ref_fits token : String.length token = 16%nat -> fits 60 (Some ("T" +:+ upper token)%string) = true.
Proof.
  intros Ht. unfold fits. change (String.length ("T" +:+ upper token)) with (S (String.length (upper token))).
  by rewrite upper_length, Ht.
Qed.

(** A checkout of a priced plan with a supported provider always succeeds
    and records one new intent: of the caller, for that plan, over exactly the
    plan's price for the cycle, unpaid, under a fresh reference, valid for an
    hour.  No subscription changes.  The amount returned is the amount recorded. *)
Theorem begin_paid_subscription_correct `{Runtime} cfg now db new_id token uid email name phone slug provider cycle plan monthly annual :
  get_plan_by_slug db slug = Ok (Some plan) -> pl_slug plan <> "free"%string ->
  cycle = "monthly"%string \/ cycle = "annual"%string ->
  priced plan monthly annual -> 0 < monthly < 10 ^ 10 -> 0 < price monthly annual cycle < 10 ^ 10 ->
  provider ∈ map pv_slug supported_providers ->
  String.length token = 16%nat ->
  Forall (fun j => pi_merchant_txn_ref j <> ("T" +:+ upper token)%string) (intents db) ->
  exists i resp,
    begin_paid_subscription cfg now db new_id token uid email name phone slug provider cycle
    = Ok (mkBilling (plans db) (subscriptions db) (intents db ++ [i]), resp) /\
    (pi_id i, pi_user_id i, pi_plan_id i, pi_provider i, pi_billing_cycle i)
    = (new_id, uid, pl_id plan, provider, cycle) /\
    pi_amount_pkr i = mkdec (price monthly annual cycle) (-2) /\
    pi_status i = (if String.eqb provider "manual" then intent_pending else intent_redirected) /\
    pi_merchant_txn_ref i = ("T" +:+ upper token)%string /\ pi_expires_at i = now + 3600 /\
    flush_intent i = Ok tt /\
    rs_intent_id resp = new_id /\ rs_amount_pkr resp = str_dec (pi_amount_pkr i).
Proof.
  intros Hplan Hfree Hcyc Hpr Hm Hz Hprov Htok Hfresh. set (z := price monthly annual cycle) in *.
  assert (Ha : repr 2 (plan_amount plan cycle) z) by (apply plan_amount_price; [done|lia]).
  unfold begin_paid_subscription.
  assert (Hc : mem cycle ["monthly"; "annual"]%string = true) by (destruct Hcyc as [->| ->]; reflexivity).
  rewrite Hc, Hplan. cbn [negb]. rewrite (proj2 (String.eqb_neq _ _) Hfree). cbv zeta.
  rewrite (dleb_repr 2 _ dzero z 0) by (done || apply repr_zero).
  rewrite (proj2 (Z.leb_gt z 0)) by lia.
  pose proof (get_gateway_supported cfg now provider) as Hs.
  destruct (get_gateway cfg now provider) as [g|] eqn:Hg; [|by apply Hs in Hprov].
  match goal with |- context [create_intent g ?c] => set (ctx := c) end.
  destruct (create_intent_ok cfg now provider g ctx z Hg Ha ltac:(lia)) as (co & Hco & Hgt & Hb & Hj).
  rewrite Hco, (numeric_exact _ z) by (done || lia).
  match goal with |- context [flush_intent ?j] => set (i := j) end.
  assert (Hfl : flush_intent i = Ok tt).
  { unfold flush_intent, i. cbn [pi_response_payload pi_request_payload pi_gateway_txn_id pi_merchant_txn_ref bindable jsonb_value].
    rewrite Hb, Hj, Hgt, (ref_fits token Htok). reflexivity. }
  rewrite Hfl. unfold insert_intent.
  destruct (existsb _ (intents db)) eqn:E.
  { apply existsb_exists in E as (j & Hj' & E%String.eqb_eq). rewrite list.Forall_forall in Hfresh.
    by destruct (Hfresh j (proj2 (list_elem_of_In _ _) Hj')). }
  eexists i, _. split; [reflexivity|]. cbn [rs_intent_id rs_amount_pkr]. split_and!; try done.
  apply Hs in Hprov. unfold i. cbn [pi_status]. clear -Hg. gateway_cases Hg; reflexivity.
Qed.

(** ** The sandbox and the manual transfer *)

Lemma same_amount d amt z :
  repr 2 d z -> repr 2 amt z -> amount_mismatch (Fin d) amt = Ok false.
Proof.
  intros Hd Ha. unfold amount_mismatch.
  assert (Hs : repr 2 (d - amt)%dec (z - z)) by (apply dsub_repr; [done..|]; unfold exact_bound, prec; lia).
  rewrite Z.sub_diag in Hs.
  assert (H0 : repr 2 (dabs (d - amt)%dec) 0).
  { apply dfix_repr; [|unfold exact_bound, prec; lia]. unfold repr in *. cbn [coef expo].
    pose proof (pow10_pos (Z.max 0 (expo (d - amt)%dec + 2)) ltac:(lia)). nia. }
  rewrite (dltb_repr 2 _ _ 1 0); [done|apply (repr_refl 1 (-2))|done].
Qed.

(** Accepted as paid, for the billed amount: the intent is paid and active. *)
Lemma confirm_pays `{Runtime} cfg now db new_id provider g p r i :
  get_gateway cfg now provider = Ok g -> verify_callback g p = Ok r -> cr_status r = cb_paid ->
  find_intent db (cr_merchant_txn_ref r) provider = Ok (Some i) ->
  pi_status i <> intent_paid -> amount_accepted r i ->
  flush_intent (callback_received now r i) = Ok tt ->
  let i' := set_intent_status intent_paid (pi_failure_reason i) (callback_received now r i) in
  confirm_payment cfg now db new_id provider p
  = Ok (mkBilling (plans db)
          (cancel_current now (pi_user_id i) (subscriptions db) ++ [bought now new_id i'])
          (update_intent (intents db) i'), i').
Proof.
  intros Hg Hv Hr Hf Hp Ha Hfl i'. unfold confirm_payment. rewrite Hg, Hv, Hf. cbv zeta.
  change (pi_status (callback_received now r i)) with (pi_status i).
  rewrite bool_decide_false by done. rewrite Hr. unfold amount_accepted in Ha.
  change (pi_amount_pkr (callback_received now r i)) with (pi_amount_pkr i).
  assert (Hm : match cr_amount_pkr r with Some sent => amount_mismatch sent (pi_amount_pkr i) | None => Ok false end = Ok false)
    by (by destruct (cr_amount_pkr r)).
  rewrite Hm. fold i'. rewrite activate_ok; [done|]. exact Hfl.
Qed.

Lemma ddiv_100 n : Z.abs n < exact_bound -> exists d, ddiv (dec_of_Z n) (dec_of_Z 100) = Ok d /\ repr 2 d n.
Proof.
  intros Hn. apply (ddiv_repr 0 0 2 _ _ n 100); [apply repr_of_Z|apply repr_of_Z|lia| |done].
  change (10 ^ Z.max 0 (2 + 0 - 0)) with 100. change (10 ^ Z.max 0 (0 - 0 - 2)) with 1. lia.
Qed.

Definition receipt_ok (i : PaymentIntent) : Prop :=
  (0 < String.length (pi_merchant_txn_ref i) <= 60)%nat.

Lemma nonempty_ref i : receipt_ok i -> nonempty (pi_merchant_txn_ref i) = true.
Proof. unfold receipt_ok. destruct (pi_merchant_txn_ref i); cbn; [lia|done]. Qed.

(** Evaluate an adapter without credentials on a payload with known keys. *)
Ltac eval_callback Hcfg :=
  cbn [verify_callback String.eqb Ascii.eqb Bool.eqb app];
  unfold jazzcash_verify_callback, easypaisa_verify_callback, meezan_verify_callback,
    payfast_verify_callback, safepay_verify_callback, nayapay_verify_callback,
    manual_verify_callback, webhook_parts, value_or, str_or_none, str_or_empty, get_of,
    safepay_amount, remove;
  cbv zeta; try rewrite Hcfg; cbn [check_signature];
  cbn [get List.filter fst snd negb String.eqb Ascii.eqb Bool.eqb truthy py_str nonempty].

(** [json.dumps] fails only on values that are not JSON. *)
Definition json_dumps_total `{Runtime} : Prop :=
  forall p : payload, forallb (fun kv => bindable kv.2) p = true -> is_ok (json_dumps p) = true.

(** An unconfigured adapter accepts the synthetic payload as the paid amount. *)
Lemma sandbox_verified `{Runtime} cfg now g i z :
  json_dumps_total ->
  get_gateway cfg now (pi_provider i) = Ok g -> provider_configured cfg (pi_provider i) = false ->
  pi_amount_pkr i = mkdec z (-2) -> 0 < z < 10 ^ 10 -> receipt_ok i ->
  exists r d, verify_callback g (sandbox_payload i) = Ok r /\ cr_status r = cb_paid /\
    cr_merchant_txn_ref r = pi_merchant_txn_ref i /\ cr_amount_pkr r = Some (Fin d) /\ repr 2 d z /\
    (cr_gateway_txn_id r = None \/ cr_gateway_txn_id r = Some ("SANDBOX_" +:+ pi_merchant_txn_ref i)%string) /\
    cr_raw_payload r = sandbox_payload i.
Proof.
  intros Hdump Hg Hcfg Hamt Hz Href. apply nonempty_ref in Href as Hne.
  assert (Hp : paisas (pi_amount_pkr i) = z).
  { unfold paisas. rewrite Hamt. apply paisas_repr; [apply (repr_refl z (-2))|lia]. }
  assert (Hd : decimal_of_str (str_dec (pi_amount_pkr i)) = Ok (Fin (mkdec z (-2))))
    by (rewrite Hamt; apply decimal_of_str_dec; lia).
  assert (Hsn : nonempty (str_dec (pi_amount_pkr i)) = true) by (rewrite Hamt; apply str_dec_nonempty; lia).
  destruct (ddiv_100 z) as (q & Hq & Hqz); [unfold exact_bound, prec; lia|].
  assert (Hrz : repr 2 (mkdec z (-2)) z) by apply (repr_refl z (-2)).
  unfold sandbox_payload. set (s := str_dec (pi_amount_pkr i)) in *. set (rc := ("SANDBOX_" +:+ pi_merchant_txn_ref i)%string).
  assert (Hrc : nonempty rc = true) by reflexivity. clearbody s rc.
  set (ref := pi_merchant_txn_ref i) in *. clearbody ref.
  set (pv := pi_provider i) in *. clearbody pv. gateway_cases Hg; cbn in Hcfg.
  - eval_callback Hcfg. rewrite Hp, Hne, Hrc. cbn [py_int]. rewrite int_of_str_int, Hq, Hrc.
    eexists _, q. split; [reflexivity|]. cbn. split_and!; auto.
  - eval_callback Hcfg. rewrite Hne, Hsn, Hrc, Hd, Hrc.
    eexists _, (mkdec z (-2)). split; [reflexivity|]. cbn. split_and!; auto.
  - eval_callback Hcfg. rewrite Hne, Hsn, Hrc, Hsn, Hd, Hrc.
    eexists _, (mkdec z (-2)). split; [reflexivity|]. cbn. split_and!; auto.
  - eval_callback Hcfg. rewrite Hne, Hsn, Hrc, Hd, Hrc.
    eexists _, (mkdec z (-2)). split; [reflexivity|]. cbn. split_and!; auto.
  - eval_callback Hcfg.
    match goal with |- context [json_dumps ?p] => specialize (Hdump p eq_refl); destruct (json_dumps p) as [b|]; [|done] end.
    cbn [check_signature get String.eqb Ascii.eqb Bool.eqb truthy py_str nonempty andb].
    rewrite Hp, (proj2 (Z.eqb_neq z 0)) by lia. cbn [negb py_str andb py_int].
    rewrite isdigit_str_int, Hq, Hne, Hrc, Hrc by lia.
    eexists _, q. split; [reflexivity|]. cbn. split_and!; auto.
  - eval_callback Hcfg.
    match goal with |- context [json_dumps ?p] => specialize (Hdump p eq_refl); destruct (json_dumps p) as [b|]; [|done] end.
    cbn [check_signature get String.eqb Ascii.eqb Bool.eqb py_int truthy py_str nonempty].
    rewrite Hp, Hq, Hne, Hrc, Hrc. eexists _, q. split; [reflexivity|]. cbn. split_and!; auto.
  - eval_callback Hcfg. rewrite Hne, Hsn, Hd. eexists _, (mkdec z (-2)). split; [reflexivity|].
    cbn. split_and!; auto.
Qed.

(** References are unique: the intent is found by its own. *)
Lemma find_intent_own db i :
  NoDup (map pi_merchant_txn_ref (intents db)) -> i ∈ intents db ->
  find_intent db (pi_merchant_txn_ref i) (pi_provider i) = Ok (Some i).
Proof.
  intros Hnd Hin. unfold find_intent. rewrite filter_and, (filter_unique pi_merchant_txn_ref _ i) by done.
  cbn [List.filter]. by rewrite String.eqb_refl.
Qed.

Lemma flush_intent_inv i :
  flush_intent i = Ok tt ->
  bindable (VObj (pi_request_payload i)) = true /\ jsonb_value (VObj (pi_request_payload i)) = true /\
  fits 120 (pi_gateway_txn_id i) = true /\ fits 60 (Some (pi_merchant_txn_ref i)) = true.
Proof.
  unfold flush_intent. cbv zeta. intros E.
  match type of E with (if ?a then _ else if ?b then _ else _) = _ => destruct a eqn:Ea; [discriminate E|destruct b eqn:Eb; [|discriminate E]] end.
  zbool. done.
Qed.

Lemma flush_received now r i :
  flush_intent i = Ok tt -> bindable (VObj (cr_raw_payload r)) = true ->
  jsonb_value (VObj (cr_raw_payload r)) = true -> fits 120 (cr_gateway_txn_id r) = true ->
  flush_intent (callback_received now r i) = Ok tt.
Proof.
  intros (H1 & H2 & H3 & H4)%flush_intent_inv Hb Hj Hg. unfold flush_intent, callback_received.
  cbn [pi_response_payload pi_request_payload pi_gateway_txn_id pi_merchant_txn_ref].
  rewrite H1, H2, Hb, Hj, H4. cbn [negb andb].
  assert (Hf : fits 120 (text_option_or (cr_gateway_txn_id r) (pi_gateway_txn_id i)) = true).
  { unfold text_option_or. destruct (cr_gateway_txn_id r) as [s|]; [|done]. by destruct (nonempty s). }
  by rewrite Hf.
Qed.

Lemma sandbox_payload_storable i :
  bindable (VObj (sandbox_payload i)) = true /\ jsonb_value (VObj (sandbox_payload i)) = true.
Proof.
  unfold sandbox_payload. cbv zeta.
  repeat match goal with |- context [if ?b then _ else _] => destruct b; [done|] end. done.
Qed.

(** The outcome of a payment accepted for intent [i]: it is paid, and its user's
    one current subscription is the one it buys. *)
Definition purchase_done (now : Z) (db : billing_db) (new_id : string) (i : PaymentIntent)
    (db' : billing_db) (i' : PaymentIntent) : Prop :=
  pi_status i' = intent_paid /\ same_checkout i i' /\
  intents db' = update_intent (intents db) i' /\
  forall v, currents v (subscriptions db') =
            if String.eqb (pi_user_id i) v then [bought now new_id i'] else currents v (subscriptions db).

Lemma confirm_purchase `{Runtime} cfg now db new_id provider g p r i :
  get_gateway cfg now provider = Ok g -> verify_callback g p = Ok r -> cr_status r = cb_paid ->
  find_intent db (cr_merchant_txn_ref r) provider = Ok (Some i) ->
  pi_status i <> intent_paid -> amount_accepted r i ->
  flush_intent (callback_received now r i) = Ok tt ->
  exists db' i', confirm_payment cfg now db new_id provider p = Ok (db', i')
                 /\ purchase_done now db new_id i db' i'.
Proof.
  intros Hg Hv Hr Hf Hp Ha Hfl. eexists _, _. split; [by eapply confirm_pays|].
  split_and!; [done|done|done|]. intros v. cbn [subscriptions].
  exact (currents_replaced now (subscriptions db)
           (bought now new_id (set_intent_status intent_paid (pi_failure_reason i) (callback_received now r i)))
           v eq_refl).
Qed.

(** C13: [sandbox_confirm] is refused to everybody but the intent's user, and in
    production.  Outside production it completes the purchase of an unpaid intent
    with any provider that has no merchant credentials: the payload it makes up
    for the provider is accepted as payment of exactly the billed amount. *)
Theorem sandbox_confirm_correct `{Runtime} cfg now db new_id uid i z :
  json_dumps_total ->
  NoDup (map pi_id (intents db)) -> NoDup (map pi_merchant_txn_ref (intents db)) -> i ∈ intents db ->
  pi_provider i ∈ map pv_slug supported_providers -> provider_configured cfg (pi_provider i) = false ->
  pi_amount_pkr i = mkdec z (-2) -> 0 < z < 10 ^ 10 -> receipt_ok i ->
  pi_status i <> intent_paid -> flush_intent i = Ok tt ->
  (uid <> pi_user_id i ->
   sandbox_confirm cfg now db new_id (pi_id i) uid = Exn (ServiceError 404)) /\
  (environment cfg = "production"%string ->
   sandbox_confirm cfg now db new_id (pi_id i) (pi_user_id i) = Exn (ServiceError 403)) /\
  (environment cfg <> "production"%string ->
   exists db' i',
     sandbox_confirm cfg now db new_id (pi_id i) (pi_user_id i) = Ok (db', i')
     /\ purchase_done now db new_id i db' i').
Proof.
  intros Hdump Hids Hrefs Hin Hsup Hcfg Hamt Hz Href Hp Hfl.
  assert (Hby : intent_by_id db (pi_id i) = Ok (Some i))
    by (unfold intent_by_id; by rewrite (filter_unique pi_id _ i)).
  unfold sandbox_confirm. rewrite Hby, String.eqb_refl. cbn [negb]. split_and!.
  - intros Hne. by rewrite (proj2 (String.eqb_neq (pi_user_id i) uid)).
  - by intros ->.
  - intros Henv. rewrite (proj2 (String.eqb_neq _ _) Henv).
    pose proof (get_gateway_supported cfg now (pi_provider i)) as Hs.
    destruct (get_gateway cfg now (pi_provider i)) as [g|] eqn:Hg; [|by apply Hs in Hsup].
    destruct (sandbox_verified cfg now g i z Hdump Hg Hcfg Hamt Hz Href)
      as (r & d & Hv & Hr & Er & Ea & Hd & Hgt & Hraw).
    destruct (sandbox_payload_storable i) as [Hb Hj].
    eapply confirm_purchase; [done|done|done|rewrite Er; by apply find_intent_own|done| |].
    + unfold amount_accepted. rewrite Ea, Hamt. apply (same_amount d _ z); [done|apply (repr_refl z (-2))].
    + apply flush_received; [done|by rewrite Hraw|by rewrite Hraw|].
      destruct Hgt as [->| ->]; [done|]. unfold receipt_ok in Href. unfold fits. apply Z.leb_le.
      change (String.length ("SANDBOX_" +:+ pi_merchant_txn_ref i)) with
        (8 + String.length (pi_merchant_txn_ref i))%nat. lia.
Qed.

(** The callback route takes anybody's word for a manual bank transfer: in
    every environment, a form with nothing but the reference of an unpaid manual
    intent, which its buyer knows from the checkout, completes the purchase. *)
Theorem manual_callback_trusted `{Runtime} cfg now db new_id i :
  NoDup (map pi_merchant_txn_ref (intents db)) -> i ∈ intents db ->
  pi_provider i = "manual"%string -> receipt_ok i -> pi_status i <> intent_paid ->
  flush_intent i = Ok tt ->
  exists db' i',
    gateway_callback cfg now db new_id "manual"
      (FormBody [("merchant_txn_ref"%string, VStr (pi_merchant_txn_ref i))]) = Ok (db', i')
    /\ purchase_done now db new_id i db' i'.
Proof.
  intros Hrefs Hin Hprov Href Hp Hfl. unfold gateway_callback. cbn [callback_payload].
  set (p := [_]).
  assert (Hv : manual_verify_callback p
    = Ok (mkCallback (pi_merchant_txn_ref i) cb_paid None None None p)).
  { unfold manual_verify_callback, str_or_none, str_or_empty, p. cbn. by rewrite nonempty_ref. }
  eapply confirm_purchase; [reflexivity|exact Hv|done| |done|done|].
  - cbn [cr_merchant_txn_ref]. rewrite <- Hprov. by apply find_intent_own.
  - apply flush_received; done.
Qed.

(** ** The tables over any history *)

Record billing_ok (db : billing_db) : Prop := mkBillingOk {
  ok_ids : NoDup (map pi_id (intents db));
  ok_refs : NoDup (map pi_merchant_txn_ref (intents db));
  ok_current : forall u, (length (currents u (subscriptions db)) <= 1)%nat;
  ok_backed : forall s p, s ∈ subscriptions db -> us_provider s = Some p ->
    exists i, i ∈ intents db /\ pi_status i = intent_paid /\ pi_user_id i = us_user_id s
              /\ pi_plan_id i = us_plan_id s /\ pi_provider i = p;
}.

(** One request that changes the tables; a new intent gets a fresh primary key. *)
Inductive billing_step `{Runtime} (cfg : Settings) : billing_db -> billing_db -> Prop :=
| step_free db now new_id uid db' sub :
    subscribe_free db now new_id uid = Ok (db', sub) -> billing_step cfg db db'
| step_checkout db now new_id token uid email name phone slug provider cycle db' resp :
    new_id ∉ map pi_id (intents db) ->
    begin_paid_subscription cfg now db new_id token uid email name phone slug provider cycle = Ok (db', resp) ->
    billing_step cfg db db'
| step_callback db now new_id provider req db' i :
    gateway_callback cfg now db new_id provider req = Ok (db', i) -> billing_step cfg db db'
| step_sandbox db now new_id intent_id uid db' i :
    sandbox_confirm cfg now db new_id intent_id uid = Ok (db', i) -> billing_step cfg db db'.

Lemma currents_le_replaced now subs s v :
  is_current s = true -> (length (currents v subs) <= 1)%nat ->
  (length (currents v (cancel_current now (us_user_id s) subs ++ [s])) <= 1)%nat.
Proof.
  intros Hs Hl. rewrite currents_replaced by done. destruct (String.eqb (us_user_id s) v); [done|exact Hl].
Qed.

(** A cancelled row is backed by what backed it before. *)
Lemma cancel_current_elem now u subs s :
  s ∈ cancel_current now u subs ->
  exists s0, s0 ∈ subs /\ us_provider s0 = us_provider s /\ us_user_id s0 = us_user_id s
             /\ us_plan_id s0 = us_plan_id s.
Proof.
  unfold cancel_current. rewrite list_elem_of_In, in_map_iff. intros (x & <- & Hin%list_elem_of_In).
  exists x. by destruct (current_of u x).
Qed.

Lemma subscribe_free_ok db now new_id uid db' sub :
  billing_ok db -> subscribe_free db now new_id uid = Ok (db', sub) -> billing_ok db'.
Proof.
  intros [Hi Hr Hc Hb] Hs. unfold subscribe_free in Hs. res_step Hs. destruct a as [plan|]; [|discriminate Hs].
  cbv zeta in Hs. rewrite insert_after_cancel in Hs by done. inv_res.
  split; cbn [intents subscriptions]; [done|done| |].
  - intros u. match goal with |- context [[?x]] => exact (currents_le_replaced now _ x u eq_refl (Hc u)) end.
  - intros s p [Hin|Hin]%elem_of_app Hp.
    + apply cancel_current_elem in Hin as (s0 & Hin & E1 & <- & <-). apply (Hb s0); congruence.
    + apply list_elem_of_singleton in Hin as ->. discriminate Hp.
Qed.

Lemma begin_paid_inv `{Runtime} cfg now db new_id token uid email name phone slug provider cycle db' resp :
  begin_paid_subscription cfg now db new_id token uid email name phone slug provider cycle = Ok (db', resp) ->
  exists i, db' = mkBilling (plans db) (subscriptions db) (intents db ++ [i]) /\ pi_id i = new_id
            /\ pi_merchant_txn_ref i ∉ map pi_merchant_txn_ref (intents db).
Proof.
  unfold begin_paid_subscription. intros Hs. case_match; [discriminate Hs|].
  res_step Hs. destruct a as [plan|]; [|discriminate Hs]. case_match; [discriminate Hs|].
  cbv zeta in Hs. case_match; [discriminate Hs|]. res_steps Hs. inv_res.
  unfold insert_intent in *. case_match; [done|]. inv_res. eexists. split; [reflexivity|]. split; [done|].
  intros Hin%list_elem_of_fmap. destruct Hin as (j & Ej & Hin%list_elem_of_In).
  match goal with H : existsb ?f _ = false |- _ => apply not_true_iff_false in H; apply H; apply existsb_exists end.
  exists j. split; [done|]. apply String.eqb_eq. symmetry. exact Ej.
Qed.

Lemma update_intent_refs l i i' :
  NoDup (map pi_id l) -> i ∈ l -> pi_id i' = pi_id i -> pi_merchant_txn_ref i' = pi_merchant_txn_ref i ->
  map pi_merchant_txn_ref (update_intent l i') = map pi_merchant_txn_ref l.
Proof. intros. by apply (put_row_column pi_id pi_merchant_txn_ref i' i). Qed.

(** A paid intent that backs a subscription is still there and paid afterwards. *)
Lemma update_keeps_paid l i i' j :
  NoDup (map pi_id l) -> i ∈ l -> same_checkout i i' ->
  (pi_status i = intent_paid -> pi_status i' = intent_paid) -> j ∈ l -> pi_status j = intent_paid ->
  exists j', j' ∈ update_intent l i' /\ pi_status j' = intent_paid /\ pi_user_id j' = pi_user_id j
             /\ pi_plan_id j' = pi_plan_id j /\ pi_provider j' = pi_provider j.
Proof.
  intros Hnd Hi Hsame Hpaid Hj Hst. unfold same_checkout in Hsame.
  destruct (String.eqb_spec (pi_id j) (pi_id i)) as [E|Hne].
  - assert (j = i) as -> by (eapply nodup_id_inj; done). exists i'. simplify_eq.
    split_and!; [apply elem_of_update_same|by apply Hpaid|congruence..].
    replace (pi_id i') with (pi_id i) by congruence. by apply list_elem_of_fmap_2.
  - exists j. split_and!; [apply elem_of_update_other; [done|congruence]|done..].
Qed.

Lemma confirm_payment_ok `{Runtime} cfg now db new_id provider p db' i' :
  billing_ok db -> confirm_payment cfg now db new_id provider p = Ok (db', i') -> billing_ok db'.
Proof.
  intros [Hi Hr Hc Hb] Hcp.
  apply confirm_payment_inv in Hcp as (g & r & i & _ & _ & Hf & _ & _ & Hint & Hcase).
  destruct (find_intent_spec _ _ _ _ Hf) as (Hin & _ & _).
  assert (Hs : same_checkout i i' /\ (pi_status i = intent_paid -> pi_status i' = intent_paid)).
  { destruct Hcase as [(st & rs & -> & _ & Hp & _)|(Hp & _ & _ & -> & _)]; (split; [apply received_same|]); [exact Hp|done]. }
  destruct Hs as [Hsame Hpaid]. pose proof Hsame as Hs2. unfold same_checkout in Hs2.
  assert (Hid : pi_id i' = pi_id i) by congruence.
  assert (Hb' : forall s q, s ∈ subscriptions db -> us_provider s = Some q ->
    exists j, j ∈ intents db' /\ pi_status j = intent_paid /\ pi_user_id j = us_user_id s
              /\ pi_plan_id j = us_plan_id s /\ pi_provider j = q).
  { intros s q Hsin Hq. destruct (Hb s q Hsin Hq) as (j & Hj & Hst & E1 & E2 & E3). rewrite Hint.
    destruct (update_keeps_paid _ _ _ j Hi Hin Hsame Hpaid Hj Hst) as (j' & ? & ? & ? & ? & ?).
    exists j'. split_and!; [done|done|congruence..]. }
  split; try rewrite Hint.
  - by rewrite update_intent_ids.
  - rewrite (update_intent_refs _ i) by (done || congruence). done.
  - destruct Hcase as [(st & rs & _ & -> & _)|(_ & _ & _ & _ & ->)]; [done|]. intros u.
    exact (currents_le_replaced now _ (bought now new_id i') u eq_refl (Hc u)).
  - rewrite <- Hint. destruct Hcase as [(st & rs & _ & -> & _)|(_ & _ & _ & Ei & ->)]; [done|].
    intros s q [Hsin|Hsin]%elem_of_app Hq.
    + apply cancel_current_elem in Hsin as (s0 & Hsin & E1 & <- & <-). apply Hb'; [done|congruence].
    + apply list_elem_of_singleton in Hsin as ->. cbn in Hq. exists i'.
      split_and!; [rewrite Hint; apply elem_of_update_same; rewrite Hid; by apply list_elem_of_fmap_2
                  |by rewrite Ei|done|done|congruence].
Qed.

(** C10: In every state the requests can reach, primary keys and references of
    intents are unique, a user has at most one current subscription, and every
    subscription bought through a provider is backed by a paid intent of the same
    user, plan and provider. *)
Theorem billing_reachable_ok `{Runtime} cfg pls db :
  rtc (billing_step cfg) (mkBilling pls [] []) db -> billing_ok db.
Proof.
  intros Hr. assert (H0 : billing_ok (mkBilling pls [] [])).
  { split; cbn; [constructor|constructor|intros; lia|]. intros s p Hin. by apply not_elem_of_nil in Hin. }
  revert H0. induction Hr as [|db1 db2 db3 Hstep _ IH]; [done|]. intros Hok. apply IH.
  destruct Hstep as [db now id u db' sub Hs|db now id tok u e n ph sl pr cy db' resp Hfresh Hs
                    |db now id pr req db' i Hs|db now id iid u db' i Hs].
  - by eapply subscribe_free_ok.
  - apply begin_paid_inv in Hs as (i & -> & Hid & Href). destruct Hok as [Hi Hrf Hc Hb].
    split; cbn [intents subscriptions]; [| |done|].
    + rewrite map_app. apply NoDup_snoc; [done|by rewrite <- Hid in Hfresh].
    + rewrite map_app. by apply NoDup_snoc.
    + intros s p Hin Hp. destruct (Hb s p Hin Hp) as (j & Hj & ?). exists j. split; [by apply elem_of_app; left|done].
  - unfold gateway_callback in Hs. res_step Hs. by eapply confirm_payment_ok.
  - unfold sandbox_confirm in Hs. res_step Hs. destruct a as [j|]; [|discriminate Hs].
    case_match; [discriminate Hs|]. case_match; [discriminate Hs|]. by eapply confirm_payment_ok.
Qed.

(** ** The theorems at concrete tables *)

Definition sample_intent (provider : string) : PaymentIntent :=
  mkIntent "i1" "u1" 2 provider "annual" (mkdec 900000 (-2)) intent_redirected "T0123456789ABCDEF"
    None [] None None None None 1747328399 1747324799 1747324799.
Definition sample_sub : UserSubscription :=
  mkSub "s0" "u1" 1 sub_active None None 739000 742650 false 1740000000 1740000000.
Definition sample_state (provider : string) : billing_db :=
  mkBilling sample_plans [sample_sub] [sample_intent provider].

Lemma sample_state_keys provider :
  NoDup (map pi_id (intents (sample_state provider)))
  /\ NoDup (map pi_merchant_txn_ref (intents (sample_state provider))).
Proof. split; apply NoDup_singleton. Qed.

Definition sample_form : payload :=
  [("orderRefNum", VStr "T0123456789ABCDEF"); ("status", VStr "0000"); ("amount", VStr "9000.00")]%string.

Definition sample_confirmed : res (billing_db * PaymentIntent) :=
  confirm_payment (H := sample_runtime) sample_settings 1747324900 (sample_state "easypaisa") "s1" "easypaisa" sample_form.

Lemma confirm_payment_correct_witness :
  match sample_confirmed with
  | Ok (db', i') =>
      exists g r i,
        get_gateway (H := sample_runtime) sample_settings 1747324900 "easypaisa" = Ok g /\
        verify_callback g sample_form = Ok r /\
        i ∈ intents (sample_state "easypaisa") /\ pi_merchant_txn_ref i = cr_merchant_txn_ref r /\
        pi_provider i = "easypaisa"%string /\
        same_checkout i i' /\ intents db' = update_intent (intents (sample_state "easypaisa")) i' /\ i' ∈ intents db' /\
        (pi_status i = intent_paid -> pi_status i' = intent_paid) /\
        (pi_status i = intent_paid \/ pi_status i' <> intent_paid ->
         subscriptions db' = subscriptions (sample_state "easypaisa")) /\
        (pi_status i <> intent_paid -> pi_status i' = intent_paid ->
         cr_status r = cb_paid /\ amount_accepted r i /\
         forall v, currents v (subscriptions db') =
                   if String.eqb (pi_user_id i) v then [bought 1747324900 "s1" i']
                   else currents v (subscriptions (sample_state "easypaisa")))
  | Exn _ => False
  end.
Proof.
  destruct sample_confirmed as [[db' i']|] eqn:E; [|vm_compute in E; discriminate E].
  exact (confirm_payment_correct (H := sample_runtime) sample_settings 1747324900 _ "s1" "easypaisa" sample_form
           db' i' (proj1 (sample_state_keys "easypaisa")) E).
Defined.

Lemma confirm_payment_idempotent_witness :
  match sample_confirmed with
  | Ok (db1, i1) =>
      exists db2 i2,
        confirm_payment (H := sample_runtime) sample_settings 1747400000 db1 "s2" "easypaisa" sample_form = Ok (db2, i2) /\
        pi_status i2 = intent_paid /\ same_checkout i1 i2 /\ subscriptions db2 = subscriptions db1 /\
        intents db2 = update_intent (intents db1) i2
  | Exn _ => False
  end.
Proof.
  destruct sample_confirmed as [[db1 i1]|] eqn:E; [|vm_compute in E; discriminate E].
  apply (confirm_payment_idempotent (H := sample_runtime) sample_settings 1747324900 1747400000 "s1" "s2"
           (sample_state "easypaisa") "easypaisa" sample_form db1 i1
           (proj1 (sample_state_keys "easypaisa")) E).
  vm_compute in E. injection E as <- <-. reflexivity.
Defined.

Lemma begin_paid_subscription_correct_witness :
  exists i resp,
    begin_paid_subscription (H := sample_runtime) sample_settings 1747324799 sample_billing
      "i1" "0123456789abcdef" "u1" "u1@x.pk" None None "pro" "safepay" "annual"
    = Ok (mkBilling (plans sample_billing) (subscriptions sample_billing) (intents sample_billing ++ [i]), resp) /\
    (pi_id i, pi_user_id i, pi_plan_id i, pi_provider i, pi_billing_cycle i)
    = ("i1", "u1", 2, "safepay", "annual")%string /\
    pi_amount_pkr i = mkdec 900000 (-2) /\ pi_status i = intent_redirected /\
    pi_merchant_txn_ref i = ("T" +:+ upper "0123456789abcdef")%string /\ pi_expires_at i = 1747328399 /\
    flush_intent i = Ok tt /\
    rs_intent_id resp = "i1"%string /\ rs_amount_pkr resp = str_dec (pi_amount_pkr i).
Proof.
  apply (begin_paid_subscription_correct (H := sample_runtime) sample_settings 1747324799 sample_billing
           "i1" "0123456789abcdef" "u1" "u1@x.pk" None None "pro" "safepay" "annual"
           (mkPlan 2 "pro" "Pro" "" (mkdec 90000 (-2)) (Some (mkdec 900000 (-2))) [] 2 true 0)
           90000 (Some 900000)).
  - reflexivity.
  - discriminate.
  - by right.
  - done.
  - lia.
  - unfold price. cbn. lia.
  - cbn. set_solver.
  - reflexivity.
  - constructor.
Defined.

Lemma sandbox_confirm_correct_witness :
  exists db' i',
    sandbox_confirm (H := sample_runtime) sample_settings 1747324900 (sample_state "nayapay") "s1" "i1" "u1" = Ok (db', i')
    /\ purchase_done 1747324900 (sample_state "nayapay") "s1" (sample_intent "nayapay") db' i'.
Proof.
  refine (proj2 (proj2 (sandbox_confirm_correct (H := sample_runtime) sample_settings 1747324900
           (sample_state "nayapay") "s1" "u1" (sample_intent "nayapay") 900000 _
           (proj1 (sample_state_keys "nayapay")) (proj2 (sample_state_keys "nayapay")) _ _ _ _ _ _ _ _)) _).
  - intros p _. reflexivity.
  - by apply list_elem_of_singleton.
  - cbn. set_solver.
  - reflexivity.
  - reflexivity.
  - lia.
  - unfold receipt_ok. cbn. lia.
  - discriminate.
  - reflexivity.
  - discriminate.
Defined.

Lemma manual_callback_trusted_witness :
  exists db' i',
    gateway_callback (H := sample_runtime) sample_settings 1747324900 (sample_state "manual") "s1" "manual"
      (FormBody [("merchant_txn_ref"%string, VStr "T0123456789ABCDEF")]) = Ok (db', i')
    /\ purchase_done 1747324900 (sample_state "manual") "s1" (sample_intent "manual") db' i'.
Proof.
  apply (manual_callback_trusted (H := sample_runtime) sample_settings 1747324900 (sample_state "manual") "s1"
           (sample_intent "manual")).
  - exact (proj2 (sample_state_keys "manual")).
  - by apply list_elem_of_singleton.
  - reflexivity.
  - unfold receipt_ok. cbn. lia.
  - discriminate.
  - reflexivity.
Defined.

Lemma billing_reachable_ok_witness :
  match subscribe_free sample_billing 1747324800 "s0" "u1" with
  | Ok (db, _) => billing_ok db
  | Exn _ => False
  end.
Proof.
  destruct (subscribe_free _ _ _ _) as [[db sub]|] eqn:E; [|vm_compute in E; discriminate E].
  apply (billing_reachable_ok (H := sample_runtime) sample_settings sample_plans db).
  eapply rtc_l; [by eapply step_free|apply rtc_refl].
Defined.
