(* ===== verification/Redis.v ===== *)
(** * Redis: the key-value store of [psx_api/redis_client.py]

    Redis is a service the code calls: [Redis] is the interface the services use
    (GET, SETEX, SET NX EX, INCR, EXPIRE, DEL at an instant), [RedisLaws] its
    documented behaviour, observed through [live]: the value of a key and the
    instant it expires, if it does.  [ttl_map] is a store with these laws, to
    evaluate examples with.

    Unlike the database session, the store does not roll back: a computation
    over it ([M]) returns the store also when it raises. *)

From S2P Require Import Prelude Decimal PyText.

Class Redis (R : Type) := {
  live : Z -> string -> R -> option (string * option Z);
  redis_get : Z -> string -> R -> option string;
  redis_setex : Z -> string -> Z -> string -> R -> R;
  redis_set_nx_ex : Z -> string -> string -> Z -> R -> bool * R;
  redis_incr : Z -> string -> R -> R * res Z;
  redis_expire : Z -> string -> Z -> R -> R;
  redis_delete : string -> R -> R;
}.

(** What is left at [t] of an entry. *)
Definition at_time (t : Z) (e : option (string * option Z)) : option (string * option Z) :=
  match e with
  | Some (v, Some x) => if t <? x then Some (v, Some x) else None
  | _ => e
  end.

Class RedisLaws (R : Type) `{Redis R} := {
  live_later : forall now t k r, now <= t -> live t k r = at_time t (live now k r);
  get_live : forall now k r, redis_get now k r = option_map fst (live now k r);
  live_setex : forall now k ttl v r k', 0 < ttl ->
    live now k' (redis_setex now k ttl v r)
    = if String.eqb k k' then Some (v, Some (now + ttl)) else live now k' r;
  set_nx_result : forall now k v ttl r,
    redis_set_nx_ex now k v ttl r
    = match live now k r with
      | Some _ => (false, r)
      | None => (true, redis_setex now k ttl v r)
      end;
  incr_new : forall now k r, live now k r = None ->
    exists r', redis_incr now k r = (r', Ok 1)
      /\ forall k', live now k' r' = if String.eqb k k' then Some ("1"%string, None) else live now k' r;
  incr_old : forall now k r v e n, live now k r = Some (v, e) -> int_of_str v = Ok n ->
    exists r', redis_incr now k r = (r', Ok (n + 1))
      /\ forall k', live now k' r' = if String.eqb k k' then Some (str_int (n + 1), e) else live now k' r;
  live_expire : forall now k ttl r k', 0 < ttl ->
    live now k' (redis_expire now k ttl r)
    = if String.eqb k k' then option_map (fun e => (e.1, Some (now + ttl))) (live now k r) else live now k' r;
  live_delete : forall now k r k',
    live now k' (redis_delete k r) = if String.eqb k k' then None else live now k' r;
}.

(** ** Computations over the store *)

Definition M (R A : Type) : Type := R -> R * res A.

Definition lift {R A} (a : res A) : M R A := fun r => (r, a).
Definition mret {R A} (a : A) : M R A := lift (Ok a).
Definition raise {R A} (e : exn) : M R A := lift (Exn e).
Definition bindM {R A B} (m : M R A) (k : A -> M R B) : M R B :=
  fun r => match m r with (r', Ok a) => k a r' | (r', Exn e) => (r', Exn e) end.
Definition update {R} (f : R -> R) : M R unit := fun r => (f r, Ok tt).
Definition ask {R A} (f : R -> A) : M R A := fun r => (r, Ok (f r)).

Notation "'let*' x := m 'in' k" := (bindM m (fun x => k))
  (at level 10, x pattern, m at level 100, k at level 200) : psx_scope.

Lemma bind_lift {R A B} (a : res A) (k : A -> M R B) r :
  bindM (lift a) k r = match a with Ok x => k x r | Exn e => (r, Exn e) end.
Proof. unfold bindM, lift. by destruct a. Qed.
Lemma bind_ret {R A B} (a : A) (k : A -> M R B) r : bindM (mret a) k r = k a r.
Proof. reflexivity. Qed.
Lemma bind_ask {R A B} (f : R -> A) (k : A -> M R B) r : bindM (ask f) k r = k (f r) r.
Proof. reflexivity. Qed.
Lemma bind_update {R B} (f : R -> R) (k : unit -> M R B) r : bindM (update f) k r = k tt (f r).
Proof. reflexivity. Qed.

(** ** A store *)

Definition ttl_map : Type := gmap string (string * option Z).
Definition ttl_live (now : Z) (k : string) (m : ttl_map) : option (string * option Z) :=
  at_time now (m !! k).

#[export] Instance ttl_redis : Redis ttl_map := {|
  live := ttl_live;
  redis_get now k m := option_map fst (ttl_live now k m);
  redis_setex now k ttl v m := <[k := (v, Some (now + ttl))]> m;
  redis_set_nx_ex now k v ttl m :=
    match ttl_live now k m with Some _ => (false, m) | None => (true, <[k := (v, Some (now + ttl))]> m) end;
  redis_incr now k m :=
    match ttl_live now k m with
    | None => (<[k := ("1"%string, None)]> m, Ok 1)
    | Some (v, e) =>
        match int_of_str v with
        | Ok n => (<[k := (str_int (n + 1), e)]> m, Ok (n + 1))
        | Exn _ => (m, Exn ResponseError)
        end
    end;
  redis_expire now k ttl m :=
    match ttl_live now k m with Some (v, _) => <[k := (v, Some (now + ttl))]> m | None => m end;
  redis_delete k m := delete k m
|}.

Lemma lookup_insert_eqb (m : ttl_map) k k' v :
  <[k := v]> m !! k' = if String.eqb k k' then Some v else m !! k'.
Proof.
  destruct (String.eqb_spec k k') as [->|Hne]; [apply lookup_insert_eq|by apply lookup_insert_ne].
Qed.

Lemma lookup_delete_eqb (m : ttl_map) k k' :
  delete k m !! k' = if String.eqb k k' then None else m !! k'.
Proof.
  destruct (String.eqb_spec k k') as [->|Hne]; [apply lookup_delete_eq|by apply lookup_delete_ne].
Qed.

Lemma at_time_later now t e : now <= t -> at_time t e = at_time t (at_time now e).
Proof.
  intros Ht. destruct e as [[v [x|]]|]; cbn; [|done..].
  destruct (now <? x) eqn:E; zbool; cbn; [done|]. by rewrite (proj2 (Z.ltb_ge t x)) by lia.
Qed.

#[export] Instance ttl_laws : RedisLaws ttl_map.
Proof.
  split; cbn [live redis_get redis_setex redis_set_nx_ex redis_incr redis_expire redis_delete ttl_redis];
    unfold ttl_live.
  - intros. by apply at_time_later.
  - done.
  - intros now k ttl v m k' Ht. rewrite lookup_insert_eqb. destruct (String.eqb k k'); [|done].
    cbn. by rewrite (proj2 (Z.ltb_lt now (now + ttl))) by lia.
  - intros. by destruct (at_time now (r !! k)).
  - intros now k m E. rewrite E. eexists. split; [done|]. intros k'. rewrite lookup_insert_eqb.
    by destruct (String.eqb k k').
  - intros now k m v e n E Hn. rewrite E, Hn. eexists. split; [done|]. intros k'. rewrite lookup_insert_eqb.
    destruct (String.eqb k k'); [|done]. destruct e as [x|]; [|done]. cbn.
    destruct (m !! k) as [[w [y|]]|]; cbn in E; [|congruence..].
    destruct (now <? y) eqn:Ey; [|discriminate E]. injection E as -> ->. by rewrite Ey.
  - intros now k ttl m k' Ht. destruct (at_time now (m !! k)) as [[v e]|] eqn:E.
    + rewrite lookup_insert_eqb. destruct (String.eqb k k'); [|done]. cbn.
      by rewrite (proj2 (Z.ltb_lt now (now + ttl))) by lia.
    + destruct (String.eqb_spec k k') as [<-|]; [by rewrite E|done].
  - intros now k m k'. rewrite lookup_delete_eqb. by destruct (String.eqb k k').
Qed.
