(* ===== verification/Session.v ===== *)
(** * Session: a database transaction and the loops that write through it

    What the ingestion tasks of [psx_ingest] share.  A session is the transaction's
    view of the tables and whether the server has aborted it: after a statement that
    failed, PostgreSQL refuses every other one until the transaction ends, and its
    COMMIT stores nothing.  The tasks catch the exception of an item, count it, and
    go on with the next one in the same transaction ([for_each]).

    [batch_refines]: such a loop commits the fold of its steps, or nothing. *)

From Stdlib Require Import Ascii.
From S2P Require Import Prelude PyText Redis.

(** A text a column takes: no NUL character, and at most [n] characters. *)
Definition storable (s : string) : bool := forallb (fun c => negb (Ascii.eqb c (ascii_of_nat 0))) (chars s).
Definition varchar (n : nat) (s : string) : bool := (Nat.leb (String.length s) n && storable s)%bool.

Section session.
Context {D : Type}.

Record session := mkSession { view : D; aborted : bool }.

(** A statement the server runs or refuses. *)
Definition execute {A} (f : D -> res (D * A)) : M session A := fun s =>
  if aborted s then (s, Exn DBAPIError) else
  match f (view s) with
  | Ok (db, a) => (mkSession db false, Ok a)
  | Exn e => (mkSession (view s) true, Exn e)
  end.

Definition begin_session (db : D) : session := mkSession db false.

(** COMMIT of an aborted transaction is a ROLLBACK. *)
Definition commit (db : D) (s : session) : D := if aborted s then db else view s.

Lemma execute_ok {A} (f : D -> res (D * A)) db db' a :
  f db = Ok (db', a) -> execute f (mkSession db false) = (mkSession db' false, Ok a).
Proof. unfold execute. cbn [aborted view]. by intros ->. Qed.

Lemma execute_refused {A} (f : D -> res (D * A)) db e :
  f db = Exn e -> execute f (mkSession db false) = (mkSession db true, Exn e).
Proof. unfold execute. cbn [aborted view]. by intros ->. Qed.

(** *** A session and the counters of a task

    They change together, and stay changed when an item raises. *)

Context {S : Type}.

Record ingest := mkIngest { in_session : session; in_summary : S }.

Definition on_session {A} (m : M session A) : M ingest A := fun st =>
  let '(s, a) := m (in_session st) in (mkIngest s (in_summary st), a).
Definition tally (f : S -> S) : M ingest unit := update (fun st => mkIngest (in_session st) (f (in_summary st))).

(** [try: m except Exception: handler] *)
Definition catching (m handler : M ingest unit) : M ingest unit := fun st =>
  match m st with (st, Ok _) => (st, Ok tt) | (st, Exn _) => handler st end.

(** *** A loop over items that each return normally *)

Fixpoint for_each {A} (f : A -> M ingest unit) (items : list A) : M ingest unit :=
  match items with
  | [] => mret tt
  | a :: items => let* _ := f a in for_each f items
  end.

Section batch.
Context {A : Type} (f : A -> M ingest unit) (step : D * S -> A -> res (D * S)) (ok : D -> Prop) (failed : S -> S -> Prop).

(** With a clean session an item is its step, or aborts; *)
Hypothesis clean : forall db s a, ok db ->
  exists st, f a (mkIngest (begin_session db) s) = (st, Ok tt) /\
    match step (db, s) a with
    | Ok (db', s') => st = mkIngest (begin_session db') s' /\ ok db'
    | Exn _ => aborted (in_session st) = true /\ failed s (in_summary st)
    end.
(** with an aborted one it fails. *)
Hypothesis refused : forall st a, aborted (in_session st) = true ->
  exists st', f a st = (st', Ok tt) /\ aborted (in_session st') = true /\ failed (in_summary st) (in_summary st').

Lemma for_each_refused items : forall st,
  aborted (in_session st) = true ->
  exists st', for_each f items st = (st', Ok tt) /\ aborted (in_session st') = true
    /\ nsteps failed (length items) (in_summary st) (in_summary st').
Proof using refused.
  induction items as [|a items IH]; intros st Ha; cbn [for_each length]; [exists st; by repeat constructor|].
  destruct (refused st a Ha) as (st1 & E & Ha1 & Hf). destruct (IH st1 Ha1) as (st' & E' & Ha' & Hs).
  exists st'. unfold bindM. rewrite E. split; [done|]. split; [done|]. by econstructor.
Qed.

(** A loop commits the fold of its steps, or nothing: then an item failed, and so
    did every later one. *)
Lemma batch_refines items : forall db s,
  ok db ->
  exists st, for_each f items (mkIngest (begin_session db) s) = (st, Ok tt) /\
    match fold_res step (db, s) items with
    | Ok (db', s') => st = mkIngest (begin_session db') s' /\ ok db'
    | Exn _ => aborted (in_session st) = true
        /\ exists done a later db1 s1 s2, items = (done ++ a :: later)%list /\ fold_res step (db, s) done = Ok (db1, s1)
             /\ failed s1 s2 /\ nsteps failed (length later) s2 (in_summary st)
    end.
Proof using All.
  induction items as [|a items IH]; intros db s Hok; cbn [for_each fold_res].
  - eexists. split; [reflexivity|]. done.
  - destruct (clean db s a Hok) as (st1 & E & H1). unfold bindM. rewrite E. destruct (step (db, s) a) as [[db1 s1]|] eqn:Es.
    + destruct H1 as [-> Hok1]. destruct (IH db1 s1 Hok1) as (st & E' & H'). exists st. split; [exact E'|].
      destruct (fold_res step (db1, s1) items) as [[db' s']|]; [done|]. destruct H' as (Ha & pre & b & later & db2 & s2 & s3 & -> & Hd & H').
      split; [done|]. exists (a :: pre), b, later, db2, s2, s3. split; [done|]. cbn [fold_res]. rewrite Es. done.
    + destruct H1 as [Ha Hf]. destruct (for_each_refused items st1 Ha) as (st & E' & Ha' & Hr).
      exists st. split; [exact E'|]. split; [done|]. by exists [], a, items, db, s, (in_summary st1).
Qed.
End batch.
End session.

Arguments session : clear implicits.
Arguments ingest : clear implicits.
