(* ===== verification/Auth.v ===== *)
(** * Auth: [services/auth_service.py], [services/rate_limiter.py], [services/email_service.py]
      and the login and session routes of [routers/auth.py]

    Users and sessions as tables, one-time tokens and counters in Redis.  An
    instant is a number of seconds; tokens, salts and primary keys are arguments.
    SHA-256, argon2, pyotp and the SMTP server are the members of [AuthRuntime].

    The database rolls back when a request raises, Redis does not: a method is a
    computation over the store that returns the new tables or an exception. *)

From S2P Require Import Prelude Decimal Ledger PyText Redis.

Class AuthRuntime := {
  sha256 : string -> string;                     (* hashlib.sha256(token).hexdigest() *)
  ph_hash : string -> string -> string;          (* salt, password *)
  ph_verify : string -> string -> bool;          (* hash, password *)
  ph_needs_rehash : string -> bool;
  totp_verify : string -> string -> Z -> bool;   (* secret, code, instant; one step either side *)
  provisioning_uri : string -> string -> string; (* secret, account *)
  smtp_send : string -> string -> string -> res unit; (* to, subject, body *)
}.

Record MailSettings := mkMail { frontend_url : string; smtp_host : string }.

(** ** Rows *)

Record User := mkUser {
  u_id : string;
  u_email : string;
  u_email_verified_at : option Z;
  u_password_hash : option string;
  u_full_name : option string;
  u_phone : option string;
  u_cnic_last4 : option string;
  u_is_filer : bool;
  u_shariah_mode : bool;
  u_risk_archetype : option string;
  u_risk_tolerance_score : option Z;
  u_time_horizon_score : option Z;
  u_knowledge_score : option Z;
  u_risk_profile_completed_at : option Z;
  u_share_anonymously : bool;
  u_date_of_birth : option Z;
  u_totp_secret : option string;
  u_totp_enabled : bool;
  u_notification_prefs : gmap string bool;
  u_created_at : Z;
}.

Record UserSession := mkSession {
  ss_id : string;
  ss_user_id : string;
  ss_token_hash : string;
  ss_expires_at : Z;
  ss_created_at : Z;
  ss_user_agent : option string;
  ss_ip_address : option string;
}.

Record auth_db := mkAuth { users : list User; sessions : list UserSession }.

(** The server default of [notification_prefs]. *)
Definition default_prefs : gmap string bool :=
  list_to_map [("pump_dump", true); ("kmi_delisting", true); ("goal_milestone", true);
               ("payment_events", true); ("weekly_summary", true); ("system", true)]%string.

Definition VERIFY_TTL : Z := 86400.
Definition RESET_TTL : Z := 3600.
Definition SESSION_TTL_DAYS : Z := 30.

(** Writing to the columns the service assigns. *)
Definition with_verified (t : Z) (u : User) : User :=
  mkUser (u_id u) (u_email u) (Some t) (u_password_hash u) (u_full_name u) (u_phone u) (u_cnic_last4 u)
    (u_is_filer u) (u_shariah_mode u) (u_risk_archetype u) (u_risk_tolerance_score u)
    (u_time_horizon_score u) (u_knowledge_score u) (u_risk_profile_completed_at u)
    (u_share_anonymously u) (u_date_of_birth u) (u_totp_secret u) (u_totp_enabled u)
    (u_notification_prefs u) (u_created_at u).
Definition with_password (h : string) (u : User) : User :=
  mkUser (u_id u) (u_email u) (u_email_verified_at u) (Some h) (u_full_name u) (u_phone u) (u_cnic_last4 u)
    (u_is_filer u) (u_shariah_mode u) (u_risk_archetype u) (u_risk_tolerance_score u)
    (u_time_horizon_score u) (u_knowledge_score u) (u_risk_profile_completed_at u)
    (u_share_anonymously u) (u_date_of_birth u) (u_totp_secret u) (u_totp_enabled u)
    (u_notification_prefs u) (u_created_at u).
Definition with_totp (secret : option string) (enabled : bool) (u : User) : User :=
  mkUser (u_id u) (u_email u) (u_email_verified_at u) (u_password_hash u) (u_full_name u) (u_phone u)
    (u_cnic_last4 u) (u_is_filer u) (u_shariah_mode u) (u_risk_archetype u) (u_risk_tolerance_score u)
    (u_time_horizon_score u) (u_knowledge_score u) (u_risk_profile_completed_at u)
    (u_share_anonymously u) (u_date_of_birth u) secret enabled
    (u_notification_prefs u) (u_created_at u).

(** UPDATE of the row with this primary key. *)
Definition put_user (u : User) (l : list User) : list User :=
  put_row u_id u l.

Definition user_by_email (db : auth_db) (email : string) : res (option User) :=
  scalar_one_or_none (List.filter (fun u => String.eqb (u_email u) email) (users db)).
Definition user_by_id (db : auth_db) (id : string) : res (option User) :=
  scalar_one_or_none (List.filter (fun u => String.eqb (u_id u) id) (users db)).

(** INSERTs under the unique indexes on [email] and [token_hash]. *)
Definition insert_user (u : User) (l : list User) : res (list User) :=
  if existsb (fun v => String.eqb (u_email v) (u_email u)) l then Exn IntegrityError else Ok (l ++ [u])%list.
Definition insert_session (s : UserSession) (l : list UserSession) : res (list UserSession) :=
  if existsb (fun v => String.eqb (ss_token_hash v) (ss_token_hash s)) l
  then Exn IntegrityError else Ok (l ++ [s])%list.

Section service.
Context `{AuthRuntime} {R : Type} `{Redis R}.
Variable mail : MailSettings.

(** ** Mail *)

Definition nl : string := String (Ascii.ascii_of_nat 10) "".

(** [_send]: without a server the mail is only logged. *)
Definition send_mail (to subject body : string) : res unit :=
  if nonempty (smtp_host mail) then smtp_send to subject body else Ok tt.

Definition send_verification_email (email token : string) : res unit :=
  let link := (frontend_url mail +:+ "/verify-email?token=" +:+ token)%string in
  send_mail email "Verify your PSX AI account"
    ("Hi," +:+ nl +:+ nl +:+ "Please verify your email address by clicking the link below:" +:+ nl +:+ nl
     +:+ link +:+ nl +:+ nl +:+ "This link expires in 24 hours." +:+ nl +:+ nl
     +:+ "PSX AI Trading Intelligence")%string.

Definition send_password_reset_email (email token : string) : res unit :=
  let link := (frontend_url mail +:+ "/reset-password?token=" +:+ token)%string in
  send_mail email "Reset your PSX AI password"
    ("Hi," +:+ nl +:+ nl +:+ "Click the link below to reset your password:" +:+ nl +:+ nl
     +:+ link +:+ nl +:+ nl
     +:+ "This link expires in 1 hour. If you did not request this, ignore it." +:+ nl +:+ nl
     +:+ "PSX AI Trading Intelligence")%string.

Definition verify_key (token : string) : string := ("email_verify:" +:+ sha256 token)%string.
Definition reset_key (token : string) : string := ("password_reset:" +:+ sha256 token)%string.

(** ** Signup and verification *)

Definition signup (db : auth_db) (now : Z) (new_id salt token email password : string)
    (full_name : option string) : M R (auth_db * User) :=
  let* existing := lift (user_by_email db (lower email)) in
  match existing with
  | Some _ => raise (ServiceError 409)
  | None =>
      let user :=
        mkUser new_id (lower email) None (Some (ph_hash salt password)) full_name None None false false
          None None None None None false None None false default_prefs now in
      let* rows := lift (insert_user user (users db)) in
      let* _ := update (redis_setex now (verify_key token) VERIFY_TTL (u_id user)) in
      let* _ := lift (send_verification_email email token) in
      mret (mkAuth rows (sessions db), user)
  end.

Definition verify_email (db : auth_db) (now : Z) (token : string) : M R (auth_db * User) :=
  let* user_id := ask (redis_get now (verify_key token)) in
  match user_id with
  | None | Some EmptyString => raise (ServiceError 400)
  | Some user_id =>
      let* user := lift (user_by_id db user_id) in
      match user with
      | None => raise (ServiceError 404)
      | Some user =>
          let user := with_verified now user in
          let* _ := update (redis_delete (verify_key token)) in
          mret (mkAuth (put_user user (users db)) (sessions db), user)
      end
  end.

Definition resend_verification_email (now : Z) (token : string) (user : User) : M R unit :=
  match u_email_verified_at user with
  | Some _ => raise (ServiceError 400)
  | None =>
      let* acquired :=
        (fun r => let '(b, r') := redis_set_nx_ex now ("email_verify_cooldown:" +:+ u_id user) "1" 300 r in
                  (r', Ok b)) in
      if negb acquired then raise (ServiceError 429)
      else
        let* _ := update (redis_setex now (verify_key token) VERIFY_TTL (u_id user)) in
        lift (send_verification_email (u_email user) token)
  end.

(** ** Login and sessions *)

(** [token] is the new raw session token. *)
Definition login (db : auth_db) (now : Z) (new_id salt token email password : string)
    (totp_code user_agent ip_address : option string) : res (auth_db * User * string) :=
  let! found := user_by_email db (lower email) in
  match found with
  | None => Exn (ServiceError 401)
  | Some user =>
      match u_password_hash user with
      | None | Some EmptyString => Exn (ServiceError 401)
      | Some hash =>
          if negb (ph_verify hash password) then Exn (ServiceError 401) else
          let user := if ph_needs_rehash hash then with_password (ph_hash salt password) user else user in
          let! _ :=
            if u_totp_enabled user then
              match totp_code with
              | None | Some EmptyString => Exn (ServiceError 401)
              | Some code =>
                  match u_totp_secret user with
                  | None | Some EmptyString => Exn (ServiceError 401)
                  | Some secret => if totp_verify secret code now then Ok tt else Exn (ServiceError 401)
                  end
              end
            else Ok tt in
          let session :=
            mkSession new_id (u_id user) (sha256 token) (now + SESSION_TTL_DAYS * 86400) now
              user_agent ip_address in
          let! rows := insert_session session (sessions db) in
          Ok (mkAuth (put_user user (users db)) rows, user, token)
      end
  end.

Definition sessions_by_hash (db : auth_db) (h : string) : list UserSession :=
  List.filter (fun s => String.eqb (ss_token_hash s) h) (sessions db).

Definition get_session_user (db : auth_db) (now : Z) (raw_token : string) : res (option User) :=
  let! session :=
    scalar_one_or_none
      (List.filter (fun s => now <? ss_expires_at s) (sessions_by_hash db (sha256 raw_token))) in
  match session with
  | None => Ok None
  | Some s => user_by_id db (ss_user_id s)
  end.

(** DELETE of the row with this primary key. *)
Definition delete_session (id : string) (l : list UserSession) : list UserSession :=
  List.filter (fun s => negb (String.eqb (ss_id s) id)) l.

Definition logout (db : auth_db) (raw_token : string) : res auth_db :=
  let! session := scalar_one_or_none (sessions_by_hash db (sha256 raw_token)) in
  match session with
  | None => Ok db
  | Some s => Ok (mkAuth (users db) (delete_session (ss_id s) (sessions db)))
  end.

(** [_sha256(t) if t else None]; no hash equals [None]. *)
Definition current_hash (current_raw_token : option string) : option string :=
  match current_raw_token with Some t => if nonempty t then Some (sha256 t) else None | None => None end.
Definition is_hash (h : option string) (s : UserSession) : bool :=
  match h with Some h => String.eqb (ss_token_hash s) h | None => false end.

(** Live sessions, the latest first, each with its [is_current] flag. *)
Definition list_sessions (db : auth_db) (now : Z) (user : User) (current_raw_token : option string)
    : list (UserSession * bool) :=
  map (fun s => (s, is_hash (current_hash current_raw_token) s))
    (sort_by (fun a b => ss_created_at b <=? ss_created_at a)
       (List.filter (fun s => (String.eqb (ss_user_id s) (u_id user) && (now <? ss_expires_at s))%bool)
          (sessions db))).

Definition revoke_session (db : auth_db) (user : User) (session_id : string)
    (current_raw_token : option string) : res (auth_db * (bool * bool)) :=
  let! found := scalar_one_or_none (List.filter (fun s => String.eqb (ss_id s) session_id) (sessions db)) in
  match found with
  | None => Ok (db, (false, false))
  | Some s =>
      if negb (String.eqb (ss_user_id s) (u_id user)) then Ok (db, (false, false))
      else Ok (mkAuth (users db) (delete_session (ss_id s) (sessions db)),
               (true, is_hash (current_hash current_raw_token) s))
  end.

(** The loop: every session of the user but the current one is deleted. *)
Definition revoke_other_sessions (db : auth_db) (user : User) (current_raw_token : option string)
    : auth_db * Z :=
  let rows := List.filter (fun s => String.eqb (ss_user_id s) (u_id user)) (sessions db) in
  let doomed := List.filter (fun s => negb (is_hash (current_hash current_raw_token) s)) rows in
  (mkAuth (users db) (fold_left (fun l s => delete_session (ss_id s) l) doomed (sessions db)),
   Z.of_nat (length doomed)).

(** ** Password reset *)

Definition forgot_password (db : auth_db) (now : Z) (token email : string) : M R unit :=
  let* found := lift (user_by_email db (lower email)) in
  match found with
  | None => mret tt
  | Some user =>
      let* _ := update (redis_setex now (reset_key token) RESET_TTL (u_id user)) in
      lift (send_password_reset_email email token)
  end.

Definition reset_password (db : auth_db) (now : Z) (salt token new_password : string) : M R auth_db :=
  let* user_id := ask (redis_get now (reset_key token)) in
  match user_id with
  | None | Some EmptyString => raise (ServiceError 400)
  | Some user_id =>
      let* found := lift (user_by_id db user_id) in
      match found with
      | None => raise (ServiceError 404)
      | Some user =>
          let user := with_password (ph_hash salt new_password) user in
          let* _ := update (redis_delete (reset_key token)) in
          mret (mkAuth (put_user user (users db))
                  (List.filter (fun s => negb (String.eqb (ss_user_id s) (u_id user))) (sessions db)))
      end
  end.

(** ** Second factor *)

Definition totp_key (user : User) : string := ("totp_pending:" +:+ u_id user)%string.

(** [secret] is [pyotp.random_base32()]. *)
Definition totp_setup (now : Z) (secret : string) (user : User) : M R (string * string) :=
  let uri := provisioning_uri secret (u_email user) in
  let* _ := update (redis_setex now (totp_key user) 600 secret) in
  mret (secret, uri).

Definition totp_confirm (db : auth_db) (now : Z) (user : User) (totp_code : string) : M R auth_db :=
  let* pending := ask (redis_get now (totp_key user)) in
  match pending with
  | None | Some EmptyString => raise (ServiceError 400)
  | Some secret =>
      if negb (totp_verify secret totp_code now) then raise (ServiceError 400)
      else
        let* _ := update (redis_delete (totp_key user)) in
        mret (mkAuth (put_user (with_totp (Some secret) true user) (users db)) (sessions db))
  end.

Definition totp_disable (db : auth_db) (now : Z) (user : User) (totp_code : string) : res auth_db :=
  match u_totp_enabled user, u_totp_secret user with
  | true, Some (String c s) =>
      if negb (totp_verify (String c s) totp_code now) then Exn (ServiceError 400)
      else Ok (mkAuth (put_user (with_totp None false user) (users db)) (sessions db))
  | _, _ => Exn (ServiceError 400)
  end.

(** ** The login rate limiter *)

Definition MAX_ATTEMPTS : Z := 5.
Definition WINDOW_SECONDS : Z := 3600.
Definition limit_key (ip : string) : string := ("rate_limit:login:" +:+ ip)%string.

Definition is_blocked (now : Z) (ip : string) (r : R) : res bool :=
  match redis_get now (limit_key ip) r with
  | None => Ok false
  | Some count_raw => let! n := int_of_str count_raw in Ok (MAX_ATTEMPTS <=? n)
  end.

Definition record_failure (now : Z) (ip : string) : M R Z :=
  let* count := redis_incr now (limit_key ip) in
  let* _ := if count =? 1 then update (redis_expire now (limit_key ip) WINDOW_SECONDS) else mret tt in
  mret count.

Definition clear (ip : string) : M R unit := update (redis_delete (limit_key ip)).

(** ** Routes *)

(** [POST /login]: only the service's own errors count as failures. *)
Definition login_route (db : auth_db) (now : Z) (new_id salt token email password : string)
    (totp_code user_agent : option string) (ip : string) : M R (auth_db * User * string) :=
  let* blocked := (fun r => lift (is_blocked now ip r) r) in
  if blocked then raise (ServiceError 429)
  else match login db now new_id salt token email password totp_code user_agent (Some ip) with
       | Ok result => let* _ := clear ip in mret result
       | Exn (ServiceError code) => let* _ := record_failure now ip in raise (ServiceError code)
       | Exn e => raise e
       end.

(** [_get_current_user] *)
Definition current_user (db : auth_db) (now : Z) (psx_session : option string) : res User :=
  match psx_session with
  | None | Some EmptyString => Exn (ServiceError 401)
  | Some token =>
      let! user := get_session_user db now token in
      match user with Some u => Ok u | None => Exn (ServiceError 401) end
  end.

(** [DELETE /sessions/{session_id}]: the new tables and whether the cookie goes. *)
Definition revoke_session_route (db : auth_db) (now : Z) (psx_session : option string) (session_id : string)
    : res (auth_db * bool) :=
  let! user := current_user db now psx_session in
  let! r := revoke_session db user session_id psx_session in
  let '(db', (revoked, was_current)) := r in
  if revoked then Ok (db', was_current) else Exn (ServiceError 404).

(** [POST /sessions/revoke-others] *)
Definition revoke_others_route (db : auth_db) (now : Z) (psx_session : option string) : res (auth_db * Z) :=
  let! user := current_user db now psx_session in
  Ok (revoke_other_sessions db user psx_session).

(** [PATCH /me]: the fields sent, the preferences merged key by key.  The date is
    the value [date.fromisoformat] gives, [Some None] when it raises. *)
Record UserSettingsUpdate := mkUpdate {
  up_shariah_mode : option bool;
  up_is_filer : option bool;
  up_full_name : option string;
  up_share_anonymously : option bool;
  up_date_of_birth : option (option Z);
  up_notification_prefs : option (gmap string bool);
}.

Definition given {A} (o : option A) (old : A) : A := match o with Some a => a | None => old end.

Definition update_me (db : auth_db) (user : User) (body : UserSettingsUpdate) : res (auth_db * User) :=
  let! dob := match up_date_of_birth body with
              | None => Ok (u_date_of_birth user)
              | Some (Some d) => Ok (Some d)
              | Some None => Exn (ServiceError 400)
              end in
  let user' :=
    mkUser (u_id user) (u_email user) (u_email_verified_at user) (u_password_hash user)
      (match up_full_name body with Some n => Some n | None => u_full_name user end)
      (u_phone user) (u_cnic_last4 user)
      (given (up_is_filer body) (u_is_filer user)) (given (up_shariah_mode body) (u_shariah_mode user))
      (u_risk_archetype user) (u_risk_tolerance_score user) (u_time_horizon_score user)
      (u_knowledge_score user) (u_risk_profile_completed_at user)
      (given (up_share_anonymously body) (u_share_anonymously user)) dob
      (u_totp_secret user) (u_totp_enabled user)
      (match up_notification_prefs body with
       | Some p => p ∪ u_notification_prefs user
       | None => u_notification_prefs user
       end) (u_created_at user) in
  Ok (mkAuth (put_user user' (users db)) (sessions db), user').
End service.
