(* ===== verification/AuthCorrect.v ===== *)
(** * AuthCorrect: what the auth service promises

    Proved against the laws of the store ([RedisLaws]) and for any hash, password
    hash and TOTP function: the limiter's lock-out, one-time tokens and their
    expiry, the life of a session, and the invariant of the tables over any
    history of requests. *)

From S2P Require Import Prelude Decimal Ledger PyText Redis Auth.

#[local] Set Default Proof Using "All".

(** ** The store *)

Section store.
Context {R : Type} `{RedisLaws R}.

Lemma get_later now t k r : now <= t -> redis_get t k r = option_map fst (at_time t (live now k r)).
Proof. intros Ht. by rewrite get_live, (live_later now t) by done. Qed.

Lemma get_setex_later now t k ttl v r k' :
  0 < ttl -> now <= t ->
  redis_get t k' (redis_setex now k ttl v r)
  = if String.eqb k k' then (if t <? now + ttl then Some v else None) else redis_get t k' r.
Proof.
  intros Hp Ht. rewrite (get_later now) by done. rewrite live_setex by done.
  destruct (String.eqb k k'); [cbn; by destruct (t <? now + ttl)|]. by rewrite <- (get_later now).
Qed.

Lemma get_delete now k r k' : redis_get now k' (redis_delete k r) = if String.eqb k k' then None else redis_get now k' r.
Proof. rewrite !get_live, live_delete. by destruct (String.eqb k k'). Qed.
End store.

(** ** The rate limiter *)

Section limiter.
Context {R : Type} `{RedisLaws R}.

(** The store after failures at the given instants. *)
Fixpoint failures (ip : string) (ts : list Z) (r : R) : R :=
  match ts with
  | [] => r
  | t :: ts => failures ip ts (record_failure t ip r).1
  end.

(** Each instant at least the one before, from [t] on. *)
Fixpoint ascending (t : Z) (ts : list Z) : Prop :=
  match ts with [] => True | t' :: ts' => t <= t' /\ ascending t' ts' end.
Fixpoint latest (t : Z) (ts : list Z) : Z :=
  match ts with [] => t | t' :: ts' => latest t' ts' end.

Lemma record_failure_first now ip r :
  live now (limit_key ip) r = None ->
  exists r', record_failure now ip r = (r', Ok 1)
    /\ forall k, live now k r' = if String.eqb (limit_key ip) k then Some ("1"%string, Some (now + WINDOW_SECONDS))
                                 else live now k r.
Proof.
  intros Hn. destruct (incr_new now (limit_key ip) r Hn) as (r1 & Hi & Hl).
  unfold record_failure, bindM. rewrite Hi. cbn. eexists. split; [reflexivity|]. intros k.
  rewrite live_expire by (unfold WINDOW_SECONDS; lia). rewrite !Hl, String.eqb_refl. cbn.
  by destruct (String.eqb (limit_key ip) k).
Qed.

Lemma record_failure_next now ip r n e :
  live now (limit_key ip) r = Some (str_int n, e) -> 0 < n ->
  exists r', record_failure now ip r = (r', Ok (n + 1))
    /\ forall k, live now k r' = if String.eqb (limit_key ip) k then Some (str_int (n + 1), e) else live now k r.
Proof.
  intros Hn Hp. destruct (incr_old now (limit_key ip) r _ e n Hn (int_of_str_int n)) as (r1 & Hi & Hl).
  unfold record_failure, bindM. rewrite Hi. rewrite (proj2 (Z.eqb_neq (n + 1) 1)) by lia. cbn. eauto.
Qed.

(** Further failures in the window only count up; no other key moves. *)
Lemma failures_count ip t0 t ts r n :
  live t (limit_key ip) r = Some (str_int n, Some (t0 + WINDOW_SECONDS)) -> 0 < n ->
  ascending t ts -> latest t ts < t0 + WINDOW_SECONDS ->
  live (latest t ts) (limit_key ip) (failures ip ts r)
  = Some (str_int (n + Z.of_nat (length ts)), Some (t0 + WINDOW_SECONDS))
  /\ forall k, limit_key ip <> k -> live (latest t ts) k (failures ip ts r) = live (latest t ts) k r.
Proof.
  revert t r n; induction ts as [|t' ts IH]; intros t r n Hl Hn Ha Hlast; cbn [failures latest length] in *.
  - by rewrite Z.add_0_r.
  - destruct Ha as [Ht Ha].
    assert (Hlast' : t' < t0 + WINDOW_SECONDS).
    { assert (t' <= latest t' ts); [|lia]. clear -Ha. revert t' Ha.
      induction ts as [|x xs IH]; cbn; intros t' Ha; [lia|]. destruct Ha as [? Ha]. specialize (IH x Ha). lia. }
    assert (Hl' : live t' (limit_key ip) r = Some (str_int n, Some (t0 + WINDOW_SECONDS))).
    { rewrite (live_later t t'), Hl by done. cbn. by rewrite (proj2 (Z.ltb_lt _ _) Hlast'). }
    destruct (record_failure_next t' ip r n _ Hl' Hn) as (r' & E & Hk). rewrite E. cbn [fst].
    destruct (IH t' r' (n + 1)) as [H1 H2]; [by rewrite Hk, String.eqb_refl|lia|done|done|].
    split; [rewrite H1; do 3 f_equal; lia|].
    intros k Hne. rewrite H2 by done.
    assert (Hle : t' <= latest t' ts).
    { clear -Ha. revert t' Ha. induction ts as [|x xs IH]; cbn; intros t' Ha; [lia|].
      destruct Ha as [? Ha]. specialize (IH x Ha). lia. }
    rewrite (live_later t' _ k r'), (live_later t' _ k r), Hk by done.
    by rewrite (proj2 (String.eqb_neq _ _) Hne).
Qed.

Lemma latest_ge t ts : ascending t ts -> t <= latest t ts.
Proof.
  revert t; induction ts as [|x xs IH]; cbn; intros t Ha; [lia|]. destruct Ha as [? Ha]. specialize (IH x Ha). lia.
Qed.

(** C15: Failed logins of an address are counted from the first one on: within
    the hour that follows it the address is blocked exactly from the fifth
    failure, and when the hour is over it is free again, however many there
    were.  The failures never touch the count of another address, and a
    successful login resets the address at once. *)
Theorem limiter_lockout ip t0 ts now r :
  live t0 (limit_key ip) r = None -> ascending t0 ts -> latest t0 ts < t0 + WINDOW_SECONDS ->
  latest t0 ts <= now ->
  is_blocked now ip (failures ip (t0 :: ts) r)
  = Ok (bool_decide (now < t0 + WINDOW_SECONDS /\ 5 <= Z.of_nat (length (t0 :: ts)))) /\
  (forall ip', ip' <> ip -> is_blocked now ip' (failures ip (t0 :: ts) r) = is_blocked now ip' r) /\
  is_blocked now ip (clear ip (failures ip (t0 :: ts) r)).1 = Ok false.
Proof.
  intros Hn Ha Hlast Hnow. cbn [failures].
  destruct (record_failure_first t0 ip r Hn) as (r1 & E & Hk). rewrite E. cbn [fst].
  destruct (failures_count ip t0 t0 ts r1 1) as [Hc Ho]; [by rewrite Hk, String.eqb_refl|lia|done|done|].
  split_and!.
  - unfold is_blocked. rewrite (get_later (latest t0 ts)), Hc by done. cbn [at_time].
    destruct (now <? t0 + WINDOW_SECONDS) eqn:Ew; zbool; cbn [option_map fst].
    + rewrite int_of_str_int. unfold MAX_ATTEMPTS. cbn [length]. f_equal.
      destruct (5 <=? 1 + Z.of_nat (length ts)) eqn:E5; zbool; symmetry;
        [apply bool_decide_eq_true|apply bool_decide_eq_false]; lia.
    + symmetry. f_equal. apply bool_decide_eq_false. lia.
  - intros ip' Hne. assert (Hkey : limit_key ip <> limit_key ip').
    { unfold limit_key. intros Eq. apply Hne. by apply (inj (String.append "rate_limit:login:")). }
    unfold is_blocked. rewrite !(get_later (latest t0 ts)) by done. rewrite Ho by done.
    rewrite (live_later t0 _ _ r1), (live_later t0 _ _ r) by (by apply latest_ge).
    by rewrite Hk, (proj2 (String.eqb_neq _ _) Hkey).
  - unfold is_blocked, clear, update. cbn [fst]. by rewrite get_delete, String.eqb_refl.
Qed.
End limiter.

Lemma limiter_lockout_witness :
  is_blocked (R := ttl_map) 3000 "1.2.3.4" (failures "1.2.3.4" [100; 200; 300; 400; 500] ∅) = Ok true /\
  is_blocked (R := ttl_map) 3700 "1.2.3.4" (failures "1.2.3.4" [100; 200; 300; 400; 500] ∅) = Ok false.
Proof.
  split.
  - exact (proj1 (limiter_lockout (R := ttl_map) "1.2.3.4" 100 [200; 300; 400; 500] 3000 ∅
                    eq_refl ltac:(cbn; lia) ltac:(cbn; unfold WINDOW_SECONDS; lia) ltac:(cbn; lia))).
  - exact (proj1 (limiter_lockout (R := ttl_map) "1.2.3.4" 100 [200; 300; 400; 500] 3700 ∅
                    eq_refl ltac:(cbn; lia) ltac:(cbn; unfold WINDOW_SECONDS; lia) ltac:(cbn; lia))).
Defined.

(** ** Users and sessions *)

Section tables.
Context `{AuthRuntime} {R : Type} `{RedisLaws R}.
Variable mail : MailSettings.

Lemma user_by_id_some db id u : user_by_id db id = Ok (Some u) -> u ∈ users db /\ u_id u = id.
Proof. apply scalar_key_some. Qed.
Lemma user_by_email_some db e u : user_by_email db e = Ok (Some u) -> u ∈ users db /\ u_email u = e.
Proof. apply scalar_key_some. Qed.

Lemma user_by_id_of db u : NoDup (map u_id (users db)) -> u ∈ users db -> user_by_id db (u_id u) = Ok (Some u).
Proof. intros Hnd Hin. unfold user_by_id. by rewrite (filter_unique u_id _ u). Qed.
Lemma user_by_email_of db u :
  NoDup (map u_email (users db)) -> u ∈ users db -> user_by_email db (u_email u) = Ok (Some u).
Proof. intros Hnd Hin. unfold user_by_email. by rewrite (filter_unique u_email _ u). Qed.

(** Who a raw token authenticates: the owner of the one live session with its hash. *)
Lemma get_session_user_some db t raw u :
  get_session_user db t raw = Ok (Some u) ->
  exists s, s ∈ sessions db /\ ss_token_hash s = sha256 raw /\ t < ss_expires_at s
            /\ u ∈ users db /\ u_id u = ss_user_id s.
Proof.
  unfold get_session_user. intros E. res_step E. destruct a as [s|]; [|discriminate E].
  apply scalar_one_some, filter_one_elem in E0 as [Hin Hlt]. zbool.
  apply elem_of_lfilter in Hin as [Hin Hh%String.eqb_eq]. apply user_by_id_some in E as [Hu Hid]. eauto 10.
Qed.

Lemma get_session_user_of db t s raw :
  NoDup (map ss_token_hash (sessions db)) -> s ∈ sessions db -> ss_token_hash s = sha256 raw ->
  get_session_user db t raw = if t <? ss_expires_at s then user_by_id db (ss_user_id s) else Ok None.
Proof.
  intros Hnd Hin Hh. unfold get_session_user, sessions_by_hash. rewrite <- Hh.
  rewrite (filter_unique ss_token_hash _ s) by done. cbn [List.filter].
  by destruct (t <? ss_expires_at s).
Qed.

Lemma get_session_user_none db t raw :
  (forall s, s ∈ sessions db -> ss_token_hash s <> sha256 raw) -> get_session_user db t raw = Ok None.
Proof.
  intros Hn. unfold get_session_user, sessions_by_hash.
  rewrite (proj2 (filter_nil_iff _ (sessions db))); [done|].
  intros s Hs. apply String.eqb_neq. by apply Hn.
Qed.

(** ** Password reset *)

(** The one-time key after it is spent. *)
Lemma spent_key now t k r : now <= t -> redis_get t k (redis_delete k r) = None.
Proof. intros Ht. rewrite (get_later now), live_delete, String.eqb_refl by done. reflexivity. Qed.

(** What a successful reset does to the tables. *)
Definition reset_done (db : auth_db) (salt password : string) (u : User) (db' : auth_db) : Prop :=
  users db' = put_user (with_password (ph_hash salt password) u) (users db) /\
  (forall s, s ∈ sessions db' <-> s ∈ sessions db /\ ss_user_id s <> u_id u) /\
  (forall t raw v, get_session_user db' t raw = Ok (Some v) -> u_id v <> u_id u).

Lemma reset_password_live db now salt token password u r :
  NoDup (map u_id (users db)) -> u ∈ users db -> u_id u <> ""%string ->
  redis_get now (reset_key token) r = Some (u_id u) ->
  exists db', reset_password db now salt token password r = (redis_delete (reset_key token) r, Ok db')
              /\ reset_done db salt password u db'.
Proof.
  intros Hnd Hin Hne Hk. unfold reset_password. rewrite bind_ask, Hk.
  destruct (u_id u) as [|c cs] eqn:Eu; [done|]. rewrite bind_lift, <- Eu, user_by_id_of by done.
  rewrite bind_update. eexists. split; [reflexivity|].
  assert (Hs : forall s, s ∈ List.filter (fun s => negb (String.eqb (ss_user_id s) (u_id (with_password (ph_hash salt password) u)))) (sessions db)
               <-> s ∈ sessions db /\ ss_user_id s <> u_id u).
  { intros s. rewrite elem_of_lfilter, negb_true_iff, String.eqb_neq. done. }
  split_and!; [done|exact Hs|]. intros t raw v Hv.
  apply get_session_user_some in Hv as (s & Hin' & _ & _ & _ & Hv). cbn [sessions] in Hin'.
  apply Hs in Hin' as [_ Hs']. congruence.
Qed.

Lemma reset_password_dead db now salt token password r :
  redis_get now (reset_key token) r = None -> reset_password db now salt token password r = (r, Exn (ServiceError 400)).
Proof. intros Hk. unfold reset_password. by rewrite bind_ask, Hk. Qed.

(** A reset link lives one hour and works once.  For an account's address,
    within the hour after [forgot_password] the link sets the new password for
    that user alone and ends every session of the user, so that no token
    authenticates as them any more; after that, or after the hour, it is refused
    with 400.  For an unknown address the answer is the same and nothing
    happens. *)
Theorem password_reset_flow db t0 token email r r1 :
  NoDup (map u_id (users db)) -> Forall (fun u => u_id u <> ""%string) (users db) ->
  forgot_password mail db t0 token email r = (r1, Ok tt) ->
  (forall u, user_by_email db (lower email) = Ok (Some u) ->
     (forall t salt password, t0 <= t < t0 + RESET_TTL ->
        exists db' r2,
          reset_password db t salt token password r1 = (r2, Ok db') /\ reset_done db salt password u db' /\
          forall t' db2 salt' password', t <= t' ->
            reset_password db2 t' salt' token password' r2 = (r2, Exn (ServiceError 400))) /\
     (forall t salt password, t0 + RESET_TTL <= t ->
        reset_password db t salt token password r1 = (r1, Exn (ServiceError 400)))) /\
  (user_by_email db (lower email) = Ok None -> r1 = r).
Proof.
  intros Hnd Hids Hf. unfold forgot_password in Hf. rewrite bind_lift in Hf.
  destruct (user_by_email db (lower email)) as [[u|]|e] eqn:Eu; [| |discriminate Hf].
  - rewrite bind_update in Hf. unfold lift in Hf. injection Hf as Er _. subst r1.
    split; [|discriminate]. intros u' Hu'. injection Hu' as <-.
    apply user_by_email_some in Eu as [Hin _].
    assert (Hne : u_id u <> ""%string) by (rewrite list.Forall_forall in Hids; by apply Hids).
    split.
    + intros t salt password Ht.
      assert (Hk : redis_get t (reset_key token) (redis_setex t0 (reset_key token) RESET_TTL (u_id u) r) = Some (u_id u)).
      { rewrite (get_setex_later t0) by (unfold RESET_TTL; lia). rewrite String.eqb_refl.
        by rewrite (proj2 (Z.ltb_lt t _)) by lia. }
      destruct (reset_password_live db t salt token password u _ Hnd Hin Hne Hk) as (db' & E & Hd).
      eexists db', _. split; [exact E|]. split; [done|]. intros t' db2 salt' password' Ht'.
      apply reset_password_dead. by apply (spent_key t).
    + intros t salt password Ht. apply reset_password_dead.
      rewrite (get_setex_later t0) by (unfold RESET_TTL in *; lia). rewrite String.eqb_refl.
      by rewrite (proj2 (Z.ltb_ge t _)) by lia.
  - injection Hf as ->. split; [discriminate|done].
Qed.

(** ** Login *)

Definition password_ok (u : User) (password : string) : bool :=
  match u_password_hash u with Some h => nonempty h && ph_verify h password | None => false end.
Definition second_factor_ok (u : User) (code : option string) (now : Z) : bool :=
  negb (u_totp_enabled u)
  || match code, u_totp_secret u with
     | Some c, Some s => nonempty c && nonempty s && totp_verify s c now
     | _, _ => false
     end.
Definition authenticates (u : User) (password : string) (code : option string) (now : Z) : bool :=
  password_ok u password && second_factor_ok u code now.

(** The columns a login keeps. *)
Definition same_account (u u' : User) : Prop :=
  u_id u' = u_id u /\ u_email u' = u_email u /\ u_totp_secret u' = u_totp_secret u
  /\ u_totp_enabled u' = u_totp_enabled u.

Lemma login_inv db now new_id salt token email password code ua ip :
  NoDup (map u_email (users db)) ->
  match user_by_email db (lower email) with
  | Ok (Some u) =>
      if authenticates u password code now then
        exists u', same_account u u' /\
          login db now new_id salt token email password code ua ip =
          (let! rows := insert_session (mkSession new_id (u_id u) (sha256 token) (now + 2592000) now ua ip) (sessions db) in
           Ok (mkAuth (put_user u' (users db)) rows, u', token))
      else login db now new_id salt token email password code ua ip = Exn (ServiceError 401)
  | Ok None => login db now new_id salt token email password code ua ip = Exn (ServiceError 401)
  | Exn _ => False
  end.
Proof.
  intros Hnd. unfold login. destruct (scalar_by_key u_email (users db) (lower email) Hnd) as [(u & Hu & He & E)|[_ E]];
    unfold user_by_email; rewrite E; [|done].
  unfold authenticates, password_ok, second_factor_ok.
  destruct (u_password_hash u) as [[|c cs]|]; [done| |done]. cbn [nonempty andb].
  destruct (ph_verify (String c cs) password); [|done]. cbn [negb andb].
  set (u' := if ph_needs_rehash _ then _ else u).
  assert (Ht : u_totp_enabled u' = u_totp_enabled u /\ u_totp_secret u' = u_totp_secret u /\ same_account u u')
    by (unfold u', same_account; by destruct (ph_needs_rehash _)).
  destruct Ht as (-> & -> & Hs).
  assert (Hid : u_id u' = u_id u) by apply Hs. rewrite Hid.
  destruct (u_totp_enabled u); cbn [negb orb]; [|eauto].
  destruct code as [[|d ds]|]; [by destruct (u_totp_secret u)| |done].
  destruct (u_totp_secret u) as [[|e es]|]; [done| |done]. cbn [nonempty andb].
  destruct (totp_verify _ _ _); [eauto|done].
Qed.

(** C14: [login] succeeds for an account exactly with its password and, if the
    second factor is on, a valid code; anything else is 401.  The session it
    opens authenticates the account with the returned token for thirty days and
    not a second longer, and no existing session is touched. *)
Theorem login_correct db now new_id salt token email password code ua ip :
  NoDup (map u_id (users db)) -> NoDup (map u_email (users db)) ->
  NoDup (map ss_token_hash (sessions db)) ->
  (forall s, s ∈ sessions db -> ss_token_hash s <> sha256 token) ->
  (forall u, u ∈ users db -> u_email u = lower email -> authenticates u password code now = true ->
     exists db' u' s,
       login db now new_id salt token email password code ua ip = Ok (db', u', token) /\
       same_account u u' /\ users db' = put_user u' (users db) /\
       sessions db' = (sessions db ++ [s])%list /\
       forall t, get_session_user db' t token = Ok (if t <? now + 30 * 86400 then Some u' else None)) /\
  ((forall u, u ∈ users db -> u_email u = lower email -> authenticates u password code now = false) ->
   login db now new_id salt token email password code ua ip = Exn (ServiceError 401)).
Proof.
  intros Hids Hem Hhs Hfresh. pose proof (login_inv db now new_id salt token email password code ua ip Hem) as Hl.
  split.
  - intros u Hu He Ha. rewrite <- He, user_by_email_of, Ha in Hl by done.
    destruct Hl as (u' & Hs & Hl). unfold insert_session in Hl.
    set (s := mkSession _ _ _ _ _ _ _) in Hl.
    assert (Hno : existsb (fun v => String.eqb (ss_token_hash v) (ss_token_hash s)) (sessions db) = false).
    { apply existsb_filter, filter_nil_iff. intros v Hv. apply String.eqb_neq. by apply Hfresh. }
    rewrite Hno in Hl. exists (mkAuth (put_user u' (users db)) (sessions db ++ [s])), u', s.
    split_and!; [exact Hl|done|done|done|]. intros t.
    assert (Hnd' : NoDup (map ss_token_hash (sessions db ++ [s]))).
    { rewrite map_app. apply NoDup_snoc; [done|]. intros (v & E & Hv)%list_elem_of_fmap. by apply (Hfresh v). }
    rewrite (get_session_user_of _ t s token); [|exact Hnd'|apply elem_of_app; right; by constructor|done].
    change (ss_expires_at s) with (now + 2592000). change (30 * 86400) with 2592000.
    destruct (t <? now + 2592000); [|done]. unfold user_by_id, put_user. cbn [users].
    change (ss_user_id s) with (u_id u). destruct Hs as (Hid & _). rewrite find_put_row; [|done|].
    + by rewrite Hid, String.eqb_refl.
    + rewrite Hid. by apply list_elem_of_fmap_2.
  - intros Hno. destruct (user_by_email db (lower email)) as [[u|]|] eqn:Eu; [|exact Hl|done].
    apply user_by_email_some in Eu as [Hu He]. by rewrite (Hno u Hu He) in Hl.
Qed.

(** ** Ending sessions *)

(** Two rows with the same key are the same row. *)
Ltac same_row key := eapply (nodup_id_inj key); [eassumption|done|done|congruence].

Lemma delete_all doomed l :
  fold_left (fun l s => delete_session (ss_id s) l) doomed l
  = List.filter (fun s => negb (existsb (fun d => String.eqb (ss_id s) (ss_id d)) doomed)) l.
Proof.
  revert l; induction doomed as [|d ds IH]; intros l; cbn [fold_left existsb].
  - cbn. induction l as [|s ss IH]; cbn; [done|]. by rewrite <- IH.
  - rewrite IH. unfold delete_session. rewrite <- filter_and. apply List.filter_ext. intros s.
    by rewrite negb_orb.
Qed.

Lemma filter_partition {A} (f : A -> bool) l :
  length l = (length (List.filter f l) + length (List.filter (fun x => negb (f x)) l))%nat.
Proof. induction l as [|x xs IH]; cbn; [done|]. destruct (f x); cbn; lia. Qed.

Section removal.
Variables (db : auth_db) (user : User).
Hypothesis Hids : NoDup (map ss_id (sessions db)).

Lemma logout_removes raw :
  NoDup (map ss_token_hash (sessions db)) ->
  exists db', logout db raw = Ok db' /\ users db' = users db /\
    (forall s, s ∈ sessions db' <-> s ∈ sessions db /\ ss_token_hash s <> sha256 raw) /\
    forall t, get_session_user db' t raw = Ok None.
Proof using All.
  intros Hhs. unfold logout, sessions_by_hash.
  destruct (scalar_by_key ss_token_hash (sessions db) (sha256 raw) Hhs) as [(s & Hs & Hh & E)|[Hno E]]; rewrite E.
  + eexists. split; [done|]. split; [done|].
    assert (Hmem : forall x, x ∈ delete_session (ss_id s) (sessions db) <-> x ∈ sessions db /\ ss_token_hash x <> sha256 raw).
    { intros x. unfold delete_session. rewrite elem_of_lfilter, negb_true_iff, String.eqb_neq. split; intros [Hx Hne]; (split; [done|]).
      - intros Ex. apply Hne. f_equal. same_row ss_token_hash.
      - intros Ex. apply Hne. replace x with s; [done|]. same_row ss_id. }
    split; [exact Hmem|]. intros t. apply get_session_user_none. intros x Hx. apply Hmem in Hx as [_ Hx]. done.
  + exists db. split_and!; [done|done| |].
    * intros s. split; [intros Hs; split; [done|by apply Hno]|by intros [? _]].
    * intros t. by apply get_session_user_none.
Qed.

Lemma revoke_removes sid current :
  exists db' revoked was_current, revoke_session db user sid current = Ok (db', (revoked, was_current)) /\
    users db' = users db /\
    (revoked = true <-> exists s, s ∈ sessions db /\ ss_id s = sid /\ ss_user_id s = u_id user) /\
    forall s, s ∈ sessions db' <-> s ∈ sessions db /\ ~ (ss_id s = sid /\ ss_user_id s = u_id user).
Proof using All.
  unfold revoke_session. destruct (scalar_by_key ss_id (sessions db) sid Hids) as [(s & Hs & Hid & E)|[Hno E]]; rewrite E.
  + destruct (String.eqb_spec (ss_user_id s) (u_id user)) as [Hu|Hu]; cbn [negb]; eexists _, _, _;
      (split; [reflexivity|]); (split; [done|]); (split; [split|]).
    * intros _. by exists s.
    * done.
    * intros x. cbn [sessions]. unfold delete_session. rewrite elem_of_lfilter, negb_true_iff, String.eqb_neq, Hid.
      split; intros [Hx Hne]; (split; [done|]); [by intros [? _]|]. intros Ex. apply Hne. split; [done|].
      replace x with s; [done|]. same_row ss_id.
    * done.
    * intros (x & Hx & Ex & Hxu). exfalso. apply Hu. replace s with x; [done|]. same_row ss_id.
    * intros x. split; [|by intros [? _]]. intros Hx. split; [done|]. intros [Ex Hxu]. apply Hu.
      replace s with x; [done|]. same_row ss_id.
  + exists db, false, false. split_and!; [done|done| |].
    * split; [done|]. intros (s & Hs & Hid & _). by destruct (Hno s Hs).
    * intros s. split; [|by intros [? _]]. intros Hs. split; [done|]. intros [Hid _]. by apply (Hno s).
Qed.

Lemma revoke_other_removes current :
  exists db' n, revoke_other_sessions db user current = (db', n) /\ users db' = users db /\
    Z.of_nat (length (sessions db)) = Z.of_nat (length (sessions db')) + n /\
    forall s, s ∈ sessions db' <->
              s ∈ sessions db /\ (ss_user_id s = u_id user -> is_hash (current_hash current) s = true).
Proof using All.
  unfold revoke_other_sessions. eexists _, _. split; [reflexivity|]. split; [done|]. cbn [sessions].
  rewrite delete_all, <- filter_and. set (doomed := fun x => (_ && _)%bool).
  assert (Hd : forall x, x ∈ sessions db ->
    negb (existsb (fun d => String.eqb (ss_id x) (ss_id d)) (List.filter doomed (sessions db))) = negb (doomed x)).
  { intros x Hx. f_equal. destruct (doomed x) eqn:Ex.
    - apply existsb_exists. exists x. split; [|apply String.eqb_refl]. apply filter_In.
      split; [by apply list_elem_of_In|done].
    - apply existsb_filter, filter_nil_iff. intros d [Hd Hdd]%elem_of_lfilter. apply String.eqb_neq. intros Exd.
      assert (x = d) by (same_row ss_id). congruence. }
  rewrite (List.filter_ext_in _ (fun x => negb (doomed x))) by (intros; apply Hd; by apply list_elem_of_In).
  split; [rewrite (filter_partition doomed (sessions db)); lia|].
  intros s. rewrite elem_of_lfilter. unfold doomed. rewrite negb_andb, negb_involutive, orb_true_iff, negb_true_iff, String.eqb_neq.
  destruct (is_hash (current_hash current) s); [naive_solver|]. destruct (decide (ss_user_id s = u_id user)); naive_solver.
Qed.
End removal.

(** What ends a session, and nothing else does: [logout] deletes the session
    of the token it is given, so that the token never authenticates again;
    [revoke_session] a session of the caller, and nothing when the identifier is
    unknown or somebody else's; [revoke_other_sessions] every session of the
    caller but the current one, and returns how many. *)
Theorem session_removal_correct db user raw sid current :
  NoDup (map ss_id (sessions db)) -> NoDup (map ss_token_hash (sessions db)) ->
  (exists db', logout db raw = Ok db' /\ users db' = users db /\
     (forall s, s ∈ sessions db' <-> s ∈ sessions db /\ ss_token_hash s <> sha256 raw) /\
     forall t, get_session_user db' t raw = Ok None) /\
  (exists db' revoked was_current, revoke_session db user sid current = Ok (db', (revoked, was_current)) /\
     users db' = users db /\
     (revoked = true <-> exists s, s ∈ sessions db /\ ss_id s = sid /\ ss_user_id s = u_id user) /\
     forall s, s ∈ sessions db' <-> s ∈ sessions db /\ ~ (ss_id s = sid /\ ss_user_id s = u_id user)) /\
  (exists db' n, revoke_other_sessions db user current = (db', n) /\ users db' = users db /\
     Z.of_nat (length (sessions db)) = Z.of_nat (length (sessions db')) + n /\
     forall s, s ∈ sessions db' <->
               s ∈ sessions db /\ (ss_user_id s = u_id user -> is_hash (current_hash current) s = true)).
Proof.
  intros Hids Hhs. split; [by apply logout_removes|]. split; [by apply revoke_removes|by apply revoke_other_removes].
Qed.

(** ** The tables over any history *)

Definition totp_ok (u : User) : Prop :=
  u_totp_enabled u = true -> exists c s, u_totp_secret u = Some (String c s).

Record auth_ok (db : auth_db) : Prop := mkAuthOk {
  ok_user_ids : NoDup (map u_id (users db));
  ok_emails : NoDup (map u_email (users db));
  ok_named : forall u, u ∈ users db -> u_id u <> ""%string;
  ok_totp : forall u, u ∈ users db -> totp_ok u;
  ok_session_ids : NoDup (map ss_id (sessions db));
  ok_hashes : NoDup (map ss_token_hash (sessions db));
  ok_owners : forall s, s ∈ sessions db -> ss_user_id s ∈ map u_id (users db);
}.

(** The tables and the store after a request: a request that raises keeps the
    tables, not the store. *)
Definition after {A} (db : auth_db) (tables : A -> auth_db) (x : R * res A) : auth_db * R :=
  match x with (r, Ok a) => (tables a, r) | (r, Exn _) => (db, r) end.
Definition after_db {A} (db : auth_db) (r : R) (tables : A -> auth_db) (x : res A) : auth_db * R :=
  after db tables (r, x).

(** One request.  The routes pass the user their session authenticates. *)
Inductive auth_step : auth_db * R -> auth_db * R -> Prop :=
| step_signup db r now new_id salt token email password name :
    new_id ∉ map u_id (users db) -> new_id <> ""%string ->
    auth_step (db, r) (after db fst (signup mail db now new_id salt token email password name r))
| step_verify db r now token :
    auth_step (db, r) (after db fst (verify_email db now token r))
| step_resend db r now token user :
    auth_step (db, r) (after db (fun _ => db) (resend_verification_email mail now token user r))
| step_login db r now new_id salt token email password code ua ip :
    new_id ∉ map ss_id (sessions db) ->
    auth_step (db, r) (after db (fun x => x.1.1) (login_route db now new_id salt token email password code ua ip r))
| step_logout db r raw :
    auth_step (db, r) (after_db db r id (logout db raw))
| step_revoke db r now cookie sid :
    auth_step (db, r) (after_db db r fst (revoke_session_route db now cookie sid))
| step_revoke_others db r now cookie :
    auth_step (db, r) (after_db db r fst (revoke_others_route db now cookie))
| step_forgot db r now token email :
    auth_step (db, r) (after db (fun _ => db) (forgot_password mail db now token email r))
| step_reset db r now salt token password :
    auth_step (db, r) (after db id (reset_password db now salt token password r))
| step_totp_setup db r now secret user :
    auth_step (db, r) (after db (fun _ => db) (totp_setup now secret user r))
| step_totp_confirm db r now user code :
    user ∈ users db -> auth_step (db, r) (after db id (totp_confirm db now user code r))
| step_totp_disable db r now user code :
    user ∈ users db -> auth_step (db, r) (after_db db r id (totp_disable db now user code))
| step_update_me db r user body :
    user ∈ users db -> auth_step (db, r) (after_db db r fst (update_me db user body)).

Lemma put_user_ok db u u' :
  auth_ok db -> u ∈ users db -> u_id u' = u_id u -> u_email u' = u_email u -> totp_ok u' ->
  auth_ok (mkAuth (put_user u' (users db)) (sessions db)).
Proof.
  intros [H1' H2' H3 H4 H5 H6 H7] Hin Hid Hem Ht. unfold put_user.
  split; cbn [users sessions]; try done.
  - by rewrite put_row_keys.
  - by rewrite (put_row_column u_id u_email u' u).
  - intros v [[-> _]|[Hv _]]%elem_of_put_row; [rewrite Hid; auto|auto].
  - intros v [[-> _]|[Hv _]]%elem_of_put_row; auto.
  - intros s Hs. rewrite put_row_keys. auto.
Qed.

Lemma filter_sessions_ok db f :
  auth_ok db -> auth_ok (mkAuth (users db) (List.filter f (sessions db))).
Proof.
  intros [H1' H2' H3 H4 H5 H6 H7]. split; cbn [users sessions]; try done; [by apply NoDup_map_filter..|].
  intros s [Hs _]%elem_of_lfilter. auto.
Qed.

Lemma insert_session_ok db s rows :
  auth_ok db -> insert_session s (sessions db) = Ok rows -> ss_id s ∉ map ss_id (sessions db) ->
  ss_user_id s ∈ map u_id (users db) -> auth_ok (mkAuth (users db) rows).
Proof.
  intros [H1' H2' H3 H4 H5 H6 H7] Hi Hid Ho. unfold insert_session in Hi. case_match eqn:E; [done|]. inv_res.
  split; cbn [users sessions]; try done.
  - rewrite map_app. by apply NoDup_snoc.
  - rewrite map_app. apply NoDup_snoc; [done|]. rewrite existsb_filter, filter_nil_iff in E.
    intros (v & Ev & Hv)%list_elem_of_fmap. specialize (E v Hv). rewrite <- Ev, String.eqb_refl in E. done.
  - intros v [Hv|Hv]%elem_of_app; [auto|]. by apply list_elem_of_singleton in Hv as ->.
Qed.

Lemma signup_ok db r now new_id salt token email password name :
  auth_ok db -> new_id ∉ map u_id (users db) -> new_id <> ""%string ->
  auth_ok (after db fst (signup mail db now new_id salt token email password name r)).1.
Proof.
  intros Hok Hid Hne. unfold signup. rewrite bind_lift.
  destruct (user_by_email db (lower email)) as [[u|]|]; [done| |done]. rewrite bind_lift.
  destruct (insert_user _ _) as [rows|] eqn:E; [|done]. rewrite bind_update, bind_lift.
  destruct (send_verification_email _ _ _); [|done]. cbn [after mret lift fst].
  destruct Hok as [H1' H2' H3 H4 H5 H6 H7]. unfold insert_user in E. case_match eqn:Ex; [done|]. inv_res.
  split; cbn [users sessions]; try done.
  - rewrite map_app. by apply NoDup_snoc.
  - rewrite map_app. apply NoDup_snoc; [done|]. rewrite existsb_filter, filter_nil_iff in Ex.
    intros (v & Ev & Hv)%list_elem_of_fmap. specialize (Ex v Hv). rewrite <- Ev, String.eqb_refl in Ex. done.
  - intros v [Hv|Hv]%elem_of_app; [auto|]. by apply list_elem_of_singleton in Hv as ->.
  - intros v [Hv|Hv]%elem_of_app; [auto|]. apply list_elem_of_singleton in Hv as ->. done.
  - intros s Hs. rewrite map_app. apply elem_of_app. left. auto.
Qed.

Lemma login_ok db now new_id salt token email password code ua ip db' u tok :
  auth_ok db -> new_id ∉ map ss_id (sessions db) ->
  login db now new_id salt token email password code ua ip = Ok (db', u, tok) -> auth_ok db'.
Proof.
  intros Hok Hid E. pose proof (login_inv db now new_id salt token email password code ua ip (ok_emails _ Hok)) as Hl.
  destruct (user_by_email db (lower email)) as [[v|]|] eqn:Ev; [|congruence|done].
  destruct (authenticates _ _ _ _); [|congruence]. destruct Hl as (u' & Hs & Hl). rewrite Hl in E.
  res_step E. inv_res. apply user_by_email_some in Ev as [Hv _]. destruct Hs as (Hi & He & Hse & Hen).
  assert (Ht : totp_ok u) by (unfold totp_ok; rewrite Hse, Hen; by apply (ok_totp _ Hok)).
  apply (put_user_ok _ v) with (u' := u) in Hok as Hok'; [|done..].
  apply (insert_session_ok (mkAuth (put_user u (users db)) (sessions db)) _ _ Hok' E0); [done|].
  cbn [users ss_user_id]. unfold put_user. rewrite put_row_keys. by apply (list_elem_of_fmap_2 u_id).
Qed.

Lemma revoke_ok db user sid cookie x :
  auth_ok db -> revoke_session db user sid cookie = Ok x -> auth_ok x.1.
Proof.
  intros Hok E. unfold revoke_session in E. res_step E. destruct a as [s|]; [|by inv_res].
  case_match; inv_res; [done|]. by apply filter_sessions_ok.
Qed.

(** C16: In every state any history of requests reaches, failed ones included,
    account and session keys, addresses and token hashes are unique, every
    session belongs to an account, and an account with the second factor on has
    its secret. *)
Theorem auth_reachable_ok r0 db r :
  rtc auth_step (mkAuth [] [], r0) (db, r) -> auth_ok db.
Proof.
  intros Hr. change db with ((db, r).1). assert (H0' : auth_ok (mkAuth [] [], r0).1).
  { split; cbn; try constructor; intros u Hu; by apply not_elem_of_nil in Hu. }
  revert H0'. induction Hr as [|x y z Hstep _ IH]; [done|]. intros Hok. apply IH. clear IH.
  destruct Hstep as [db1 r1 now nid salt tok e p nm Hf Hne|db1 r1 now tok|db1 r1 now tok u
    |db1 r1 now nid salt tok e p c ua ip Hf|db1 r1 raw|db1 r1 now ck sid|db1 r1 now ck|db1 r1 now tok e
    |db1 r1 now salt tok p|db1 r1 now sec u|db1 r1 now u c Hu|db1 r1 now u c Hu|db1 r1 u b Hu]; cbn [fst] in Hok.
  - by apply signup_ok.
  - unfold verify_email. rewrite bind_ask. destruct (redis_get _ _ _) as [[|c cs]|]; [done| |done].
    rewrite bind_lift. destruct (user_by_id db1 (String c cs)) as [[u|]|] eqn:Eu; [|done..].
    rewrite bind_update. cbn [after mret lift fst]. apply user_by_id_some in Eu as [Hu _].
    apply (put_user_ok _ u); [done..|]. exact (ok_totp _ Hok u Hu).
  - by destruct (resend_verification_email _ _ _ _ _) as [? [?|?]].
  - unfold login_route, bindM, lift. destruct (is_blocked _ _ _) as [[]|]; [done| |done].
    destruct (login _ _ _ _ _ _ _ _ _ _) as [[[db' u] tok']|ex] eqn:El; [by eapply login_ok|].
    destruct ex; try done. by destruct (record_failure _ _ _) as [? [?|?]].
  - unfold logout, after_db. destruct (scalar_one_or_none _) as [[s|]|]; [|done..]. by apply filter_sessions_ok.
  - unfold revoke_session_route, after_db. destruct (current_user _ _ _) as [u|]; [|done].
    destruct (revoke_session _ _ _ _) as [[db' [rv wc]]|] eqn:E; [|done]. apply revoke_ok in E; [|done]. by destruct rv.
  - unfold revoke_others_route, after_db. destruct (current_user _ _ _) as [u|]; [|done].
    cbn [after revoke_other_sessions fst]. rewrite delete_all. by apply filter_sessions_ok.
  - by destruct (forgot_password _ _ _ _ _ _) as [? [?|?]].
  - unfold reset_password. rewrite bind_ask. destruct (redis_get _ _ _) as [[|c cs]|]; [done| |done].
    rewrite bind_lift. destruct (user_by_id db1 (String c cs)) as [[u|]|] eqn:Eu; [|done..].
    rewrite bind_update. cbn [after mret lift fst]. apply user_by_id_some in Eu as [Hu _].
    set (u' := with_password (ph_hash salt p) u).
    apply (filter_sessions_ok (mkAuth (put_user u' (users db1)) (sessions db1))).
    apply (put_user_ok _ u); [done..|]. exact (ok_totp _ Hok u Hu).
  - done.
  - unfold totp_confirm. rewrite bind_ask. destruct (redis_get _ _ _) as [[|c' cs]|]; [done| |done].
    destruct (totp_verify _ _ _); cbn [negb]; [|done]. rewrite bind_update. cbn [after mret lift fst].
    apply (put_user_ok _ u); [done..|]. intros _. cbn. eauto.
  - unfold totp_disable, after_db. destruct (u_totp_enabled u); [|done]. destruct (u_totp_secret u) as [[|]|]; [done| |done].
    destruct (totp_verify _ _ _); cbn [negb]; [|done]. apply (put_user_ok _ u); [done..|]. done.
  - unfold update_me, after_db. destruct (match up_date_of_birth b with None => _ | _ => _ end); [|done].
    cbn [after fst]. apply (put_user_ok _ u); [done..|]. exact (ok_totp _ Hok u Hu).
Qed.
End tables.

(** ** The theorems at concrete tables *)

Definition sample_auth : AuthRuntime := {|
  sha256 t := ("sha:" +:+ t)%string;
  ph_hash salt p := ("$" +:+ p)%string;
  ph_verify h p := String.eqb h ("$" +:+ p);
  ph_needs_rehash _ := false;
  totp_verify s c _ := String.eqb s c;
  provisioning_uri s a := a;
  smtp_send _ _ _ := Ok tt
|}.
Definition sample_mail : MailSettings := mkMail "http://localhost:3000" "".

Definition sample_user : User :=
  mkUser "u1" "ali@x.pk" None (Some "$pw1") None None None false false None None None None None false None
    (Some "123456"%string) true default_prefs 0.
Definition sample_sessions : list UserSession :=
  [mkSession "s1" "u1" "sha:a" 5000 0 None None; mkSession "s2" "u1" "sha:b" 5000 0 None None].
Definition sample_tables : auth_db := mkAuth [sample_user] sample_sessions.

Lemma sample_keys :
  NoDup (map u_id (users sample_tables)) /\ NoDup (map u_email (users sample_tables))
  /\ NoDup (map ss_id (sessions sample_tables)) /\ NoDup (map ss_token_hash (sessions sample_tables)).
Proof. split_and!; apply (bool_decide_unpack _); vm_compute; exact I. Qed.

Lemma password_reset_flow_witness :
  exists db' r2,
    reset_password (H := sample_auth) (R := ttl_map) sample_tables 3699 "salt" "tok" "new1"
      (forgot_password (H := sample_auth) (R := ttl_map) sample_mail sample_tables 100 "tok" "ALI@x.pk" ∅).1 = (r2, Ok db')
    /\ reset_done (H := sample_auth) sample_tables "salt" "new1" sample_user db'.
Proof.
  destruct (proj1 (password_reset_flow (H := sample_auth) (R := ttl_map) sample_mail sample_tables 100 "tok" "ALI@x.pk" ∅
           (forgot_password (H := sample_auth) (R := ttl_map) sample_mail sample_tables 100 "tok" "ALI@x.pk" ∅).1
           (proj1 sample_keys) ltac:(repeat constructor; discriminate) eq_refl) sample_user eq_refl) as [H1 _].
  destruct (H1 3699 "salt"%string "new1"%string) as (db' & r2 & E & D & _); [unfold RESET_TTL; lia|].
  exists db', r2. split; [exact E|exact D].
Defined.

Lemma login_correct_witness :
  exists db' u' s,
    login (H := sample_auth) sample_tables 7 "s3" "salt" "c" "Ali@X.pk" "pw1" (Some "123456"%string) None None = Ok (db', u', "c"%string) /\
    same_account sample_user u' /\ users db' = put_user u' (users sample_tables) /\
    sessions db' = (sessions sample_tables ++ [s])%list /\
    forall t, get_session_user (H := sample_auth) db' t "c" = Ok (if t <? 7 + 30 * 86400 then Some u' else None).
Proof.
  apply (proj1 (login_correct (H := sample_auth) (R := ttl_map) sample_mail sample_tables 7 "s3" "salt" "c" "Ali@X.pk" "pw1"
           (Some "123456"%string) None None (proj1 sample_keys) (proj1 (proj2 sample_keys))
           (proj2 (proj2 (proj2 sample_keys)))
           ltac:(intros s Hs; cbn in Hs; set_solver)) sample_user).
  - by apply list_elem_of_singleton.
  - reflexivity.
  - reflexivity.
Defined.

Lemma session_removal_correct_witness :
  exists db' n, revoke_other_sessions (H := sample_auth) sample_tables sample_user (Some "b"%string) = (db', n) /\
    users db' = users sample_tables /\
    Z.of_nat (length (sessions sample_tables)) = Z.of_nat (length (sessions db')) + n /\
    forall s, s ∈ sessions db' <->
              s ∈ sessions sample_tables /\
              (ss_user_id s = u_id sample_user -> is_hash (current_hash (H := sample_auth) (Some "b"%string)) s = true).
Proof.
  exact (proj2 (proj2 (session_removal_correct (H := sample_auth) (R := ttl_map) sample_mail sample_tables sample_user "b" "s1"
           (Some "b"%string) (proj1 (proj2 (proj2 sample_keys))) (proj2 (proj2 (proj2 sample_keys)))))).
Defined.

Lemma auth_reachable_ok_witness :
  match signup (H := sample_auth) (R := ttl_map) sample_mail (mkAuth [] []) 0 "u1" "salt" "t" "A@x.pk" "pw1" None ∅ with
  | (_, Ok (db, _)) => auth_ok db
  | _ => False
  end.
Proof.
  destruct (signup _ _ _ _ _ _ _ _ _ _) as [r [[db u]|]] eqn:E; [|vm_compute in E; discriminate E].
  apply (auth_reachable_ok (H := sample_auth) (R := ttl_map) sample_mail ∅ db r).
  eapply rtc_l; [|apply rtc_refl].
  pose proof (step_signup (H := sample_auth) (R := ttl_map) sample_mail (mkAuth [] []) ∅ 0 "u1" "salt" "t" "A@x.pk" "pw1" None) as Hs.
  rewrite E in Hs. apply Hs; [by apply not_elem_of_nil|discriminate].
Defined.
