(* ===== verification/Watchlist.v ===== *)
(** * Watchlist: [psx_api/services/watchlist_service.py]

    The watchlist table with its unique (user, symbol) key and the order column
    the user drags.  [reorder] assigns the columns in the two loops of the code;
    [reorder_correct] says which list the user then sees. *)

From S2P Require Import Prelude Decimal Ledger PyText.

Record WatchlistItem := mkItem {
  wi_id : Z;
  wi_user_id : string;
  wi_symbol : string;
  wi_note : option string;
  wi_sort_order : Z;
  wi_added_at : Z;
}.

Record WatchlistItemResponse := mkItemResponse {
  wr_symbol : string;
  wr_company_name : string;
  wr_sector : string;
  wr_is_kmi_compliant : bool;
  wr_note : option string;
  wr_sort_order : Z;
  wr_added_at : Z;
}.

Record wl_db := mkWl { watchlist : list WatchlistItem; listed : list Security }.

Definition of_user (uid : string) (i : WatchlistItem) : bool := String.eqb (wi_user_id i) uid.
Definition has_key (uid sym : string) (i : WatchlistItem) : bool :=
  (String.eqb (wi_user_id i) uid && String.eqb (wi_symbol i) sym)%bool.

(** [ORDER BY sort_order, added_at] *)
Definition item_le (a b : WatchlistItem) : bool :=
  ((wi_sort_order a <? wi_sort_order b)
   || ((wi_sort_order a =? wi_sort_order b) && (wi_added_at a <=? wi_added_at b)))%bool.

Definition item_response (i : WatchlistItem) (s : Security) : WatchlistItemResponse :=
  mkItemResponse (wi_symbol i) (s_company_name s) (s_sector s) (s_is_kmi_compliant s) (wi_note i)
    (wi_sort_order i) (wi_added_at i).

Definition get_watchlist (db : wl_db) (uid : string) : list WatchlistItemResponse :=
  map (fun p => item_response p.1 p.2)
    (sort_by (fun a b => item_le a.1 b.1)
       (flat_map (fun i => map (fun s => (i, s))
                             (List.filter (fun s => String.eqb (wi_symbol i) (s_symbol s)) (listed db)))
          (List.filter (of_user uid) (watchlist db)))).

(** [SELECT max(sort_order)], and [or 0]. *)
Definition max_order (items : list WatchlistItem) : Z :=
  match items with
  | [] => 0
  | i :: rest => fold_left Z.max (map wi_sort_order rest) (wi_sort_order i)
  end.

Definition add (db : wl_db) (new_id now : Z) (uid symbol : string) (note : option string)
    : res (wl_db * WatchlistItemResponse) :=
  let sym := upper symbol in
  let! security := scalar_one_or_none (List.filter (fun s => String.eqb (s_symbol s) sym) (listed db)) in
  match security with
  | None => Exn (ServiceError 404)
  | Some security =>
      let item := mkItem new_id uid sym note (max_order (List.filter (of_user uid) (watchlist db)) + 1) now in
      if existsb (has_key uid sym) (watchlist db) then Exn (ServiceError 409)
      else Ok (mkWl (watchlist db ++ [item]) (listed db), item_response item security)
  end.

Definition remove (db : wl_db) (uid symbol : string) : res wl_db :=
  let sym := upper symbol in
  let! item := scalar_one_or_none (List.filter (has_key uid sym) (watchlist db)) in
  match item with
  | None => Exn (ServiceError 404)
  | Some item => Ok (mkWl (List.filter (fun j => negb (wi_id j =? wi_id item)) (watchlist db)) (listed db))
  end.

Definition is_watching (db : wl_db) (uid symbol : string) : res bool :=
  let! item := scalar_one_or_none (List.filter (has_key uid (upper symbol)) (watchlist db)) in
  Ok (match item with Some _ => true | None => false end).

Definition with_order (n : Z) (i : WatchlistItem) : WatchlistItem :=
  mkItem (wi_id i) (wi_user_id i) (wi_symbol i) (wi_note i) n (wi_added_at i).

(** [by_symbol[sym].sort_order = n] *)
Definition set_order (uid sym : string) (n : Z) (l : list WatchlistItem) : list WatchlistItem :=
  map (fun i => if has_key uid sym i then with_order n i else i) l.

(** [[s.upper().strip() for s in symbols if s.strip()]] *)
Definition normalise (symbols : list string) : list string :=
  map (fun s => strip (upper s)) (List.filter (fun s => nonempty (strip s)) symbols).

Definition is_in (sym : string) (l : list string) : bool := existsb (String.eqb sym) l.

(** The loop over the requested symbols, from [index] on. *)
Fixpoint assign_requested (uid : string) (symbols : list string) (index : Z) (l : list WatchlistItem)
    : list WatchlistItem :=
  match symbols with
  | [] => l
  | sym :: rest => assign_requested uid rest (index + 1) (set_order uid sym index l)
  end.

(** The loop over the user's items in their present order. *)
Fixpoint assign_rest (uid : string) (normalised : list string) (ordered : list WatchlistItem) (next_order : Z)
    (l : list WatchlistItem) : list WatchlistItem :=
  match ordered with
  | [] => l
  | i :: rest =>
      if is_in (wi_symbol i) normalised then assign_rest uid normalised rest next_order l
      else assign_rest uid normalised rest (next_order + 1) (set_order uid (wi_symbol i) next_order l)
  end.

Definition by_order (l : list WatchlistItem) : list WatchlistItem :=
  sort_by (fun a b => wi_sort_order a <=? wi_sort_order b) l.

Definition reorder (db : wl_db) (uid : string) (symbols : list string)
    : res (wl_db * list WatchlistItemResponse) :=
  let normalised := normalise symbols in
  let items := List.filter (of_user uid) (watchlist db) in
  let unknown := List.filter (fun s => negb (is_in s (map wi_symbol items))) normalised in
  match unknown with
  | _ :: _ => Exn (ServiceError 400)
  | [] =>
      let l1 := assign_requested uid normalised 1 (watchlist db) in
      let l2 := assign_rest uid normalised (by_order (List.filter (of_user uid) l1))
                  (Z.of_nat (length normalised) + 1) l1 in
      let db' := mkWl l2 (listed db) in
      Ok (db', get_watchlist db' uid)
  end.

Definition sample_watchlist : wl_db :=
  mkWl [mkItem 1 "u" "HBL" None 1 0; mkItem 2 "v" "HBL" None 1 0; mkItem 3 "u" "OGDC" None 2 0;
        mkItem 4 "u" "MCB" None 3 0]
    [mkSecurity "HBL" "Habib Bank" "Banks" false; mkSecurity "OGDC" "OGDC" "Oil" true;
     mkSecurity "MCB" "MCB Bank" "Banks" false].
Example reorder_ex :
  match reorder sample_watchlist "u" ["mcb"; " "; "ogdc "]%string with
  | Ok (_, l) => map (fun r => (wr_symbol r, wr_sort_order r)) l
  | Exn _ => []
  end = [("MCB", 1); ("OGDC", 2); ("HBL", 3)]%string.
Proof. vm_compute. reflexivity. Qed.

(** ** The order a list of symbols asks for *)

(** Index of the last occurrence, counting from [k]. *)
Fixpoint last_index (sym : string) (l : list string) (k : Z) : option Z :=
  match l with
  | [] => None
  | x :: xs => match last_index sym xs (k + 1) with
               | Some n => Some n
               | None => if String.eqb sym x then Some k else None
               end
  end.

(** The distinct symbols, in the order of their last occurrences. *)
Fixpoint keep_last (l : list string) : list string :=
  match l with
  | [] => []
  | x :: xs => if is_in x xs then keep_last xs else x :: keep_last xs
  end.

Definition position (l : list string) (sym : string) : Z :=
  match last_index sym l 1 with Some n => n | None => 0 end.

Lemma is_in_spec sym l : is_in sym l = true <-> sym ∈ l.
Proof.
  unfold is_in. rewrite existsb_exists. split.
  - intros (x & Hx & ->%String.eqb_eq). by apply list_elem_of_In.
  - intros Hin. exists sym. split; [by apply list_elem_of_In|apply String.eqb_refl].
Qed.
Lemma is_in_false sym l : is_in sym l = false <-> sym ∉ l.
Proof. rewrite <- not_true_iff_false, is_in_spec. done. Qed.

Lemma last_index_none sym l k : sym ∉ l -> last_index sym l k = None.
Proof.
  revert k; induction l as [|x xs IH]; intros k Hx; cbn [last_index]; [done|].
  apply not_elem_of_cons in Hx as [Hne Hx]. by rewrite IH, (proj2 (String.eqb_neq sym x)).
Qed.

Lemma last_index_some sym l k : sym ∈ l -> exists n, last_index sym l k = Some n /\ k <= n < k + Z.of_nat (length l).
Proof.
  revert k; induction l as [|x xs IH]; intros k Hin; cbn [last_index length]; [by apply not_elem_of_nil in Hin|].
  destruct (decide (sym ∈ xs)) as [Hx|Hx].
  - destruct (IH (k + 1) Hx) as (n & -> & Hn). exists n. split; [done|lia].
  - apply elem_of_cons in Hin as [->|Hin]; [|done]. rewrite String.eqb_refl.
    rewrite last_index_none by done. exists k. split; [done|lia].
Qed.

Lemma keep_last_elem sym l : sym ∈ keep_last l <-> sym ∈ l.
Proof.
  induction l as [|x xs IH]; cbn [keep_last]; [done|]. destruct (is_in x xs) eqn:E.
  - apply is_in_spec in E. rewrite IH, elem_of_cons. split; [auto|]. by intros [->|?].
  - by rewrite !elem_of_cons, IH.
Qed.

Lemma keep_last_nodup l : NoDup (keep_last l).
Proof.
  induction l as [|x xs IH]; cbn [keep_last]; [constructor|]. destruct (is_in x xs) eqn:E; [done|].
  constructor; [|done]. rewrite keep_last_elem. by apply is_in_false.
Qed.

Lemma keep_last_app l1 l2 :
  NoDup l2 -> (forall x, x ∈ l2 -> x ∉ l1) -> keep_last (l1 ++ l2) = (keep_last l1 ++ l2)%list.
Proof.
  intros Hnd Hdis. induction l1 as [|x xs IH]; cbn [app keep_last].
  - induction l2 as [|y ys IHy]; cbn [keep_last]; [done|]. apply list.NoDup_cons in Hnd as [Hy Hnd].
    rewrite (proj2 (is_in_false y ys)) by done. rewrite IHy; [done..|]. intros z Hz. apply not_elem_of_nil.
  - rewrite IH by (intros y Hy; specialize (Hdis y Hy); set_solver).
    destruct (is_in x xs) eqn:E.
    + rewrite (proj2 (is_in_spec x (xs ++ l2))); [done|]. apply elem_of_app. left. by apply is_in_spec.
    + rewrite (proj2 (is_in_false x (xs ++ l2))); [done|]. apply not_elem_of_app. split; [by apply is_in_false|].
      intros Hx. apply (Hdis x Hx). by constructor.
Qed.

(** Positions increase along the distinct symbols. *)
Lemma keep_last_increasing l k :
  increasing (fun s => match last_index s l k with Some n => n | None => 0 end) (keep_last l).
Proof.
  revert k; induction l as [|x xs IH]; intros k; cbn [keep_last]; [constructor|].
  assert (Heq : forall s, s ∈ xs -> match last_index s (x :: xs) k with Some n => n | None => 0 end
                                    = match last_index s xs (k + 1) with Some n => n | None => 0 end).
  { intros s Hs. cbn [last_index]. by destruct (last_index_some s xs (k + 1) Hs) as (n & -> & _). }
  assert (Hinc : increasing (fun s => match last_index s (x :: xs) k with Some n => n | None => 0 end) (keep_last xs)).
  { apply (increasing_ext _ (fun s => match last_index s xs (k + 1) with Some n => n | None => 0 end)); [|apply IH].
    intros s Hs. apply Heq. by apply keep_last_elem. }
  destruct (is_in x xs) eqn:E; [done|]. apply is_in_false in E. constructor; [done|].
  rewrite List.Forall_forall. intros s Hs%list_elem_of_In. rewrite keep_last_elem in Hs. rewrite (Heq s) by done.
  destruct (last_index_some s xs (k + 1) Hs) as (n & -> & Hn). cbn [last_index].
  rewrite last_index_none, String.eqb_refl by done. lia.
Qed.

(** ** The two loops *)

Definition reordered (uid : string) (l : list string) (k : Z) (i : WatchlistItem) : WatchlistItem :=
  if of_user uid i then match last_index (wi_symbol i) l k with Some n => with_order n i | None => i end else i.

Lemma assign_requested_map uid syms k l :
  assign_requested uid syms k l = map (reordered uid syms k) l.
Proof.
  revert k l; induction syms as [|x xs IH]; intros k l; cbn [assign_requested].
  - rewrite <- (map_id l) at 1. apply map_ext. intros i. unfold reordered. by destruct (of_user uid i).
  - rewrite IH. unfold set_order. rewrite map_map. apply map_ext. intros i. unfold reordered, has_key, of_user.
    destruct (String.eqb_spec (wi_user_id i) uid) as [Hu|Hu]; cbn [andb]; [|by rewrite (proj2 (String.eqb_neq _ _) Hu)].
    cbn [last_index]. destruct (String.eqb (wi_symbol i) x); cbn [with_order wi_user_id wi_symbol];
      rewrite Hu, String.eqb_refl; by destruct (last_index (wi_symbol i) xs (k + 1)).
Qed.

Lemma assign_rest_requested uid syms ordered n l :
  assign_rest uid syms ordered n l
  = assign_requested uid (map wi_symbol (List.filter (fun i => negb (is_in (wi_symbol i) syms)) ordered)) n l.
Proof.
  revert n l; induction ordered as [|i is' IH]; intros n l; cbn [assign_rest List.filter]; [done|].
  destruct (is_in (wi_symbol i) syms); cbn [negb map assign_requested]; apply IH.
Qed.

Lemma assign_requested_app uid l1 l2 k l :
  assign_requested uid (l1 ++ l2) k l
  = assign_requested uid l2 (k + Z.of_nat (length l1)) (assign_requested uid l1 k l).
Proof.
  revert k l; induction l1 as [|x xs IH]; intros k l; cbn [app assign_requested length].
  - by rewrite Z.add_0_r.
  - rewrite IH. f_equal. lia.
Qed.

Lemma filter_map_keep {A B} (f : A -> A) (p : A -> bool) (g : A -> B) l :
  (forall x, p (f x) = p x) -> (forall x, g (f x) = g x) ->
  map g (List.filter p (map f l)) = map g (List.filter p l).
Proof.
  intros Hp Hg. induction l as [|x xs IH]; cbn [map List.filter]; [done|]. rewrite Hp.
  destruct (p x); cbn [map]; by rewrite ?Hg, IH.
Qed.

Lemma filter_map {A} (f : A -> A) (p : A -> bool) l :
  (forall x, p (f x) = p x) -> List.filter p (map f l) = map f (List.filter p l).
Proof.
  intros Hp. induction l as [|x xs IH]; cbn [map List.filter]; [done|]. rewrite Hp, IH. by destruct (p x).
Qed.

Lemma reordered_keys uid syms k i :
  wi_id (reordered uid syms k i) = wi_id i /\ wi_user_id (reordered uid syms k i) = wi_user_id i
  /\ wi_symbol (reordered uid syms k i) = wi_symbol i /\ wi_added_at (reordered uid syms k i) = wi_added_at i
  /\ wi_note (reordered uid syms k i) = wi_note i.
Proof. unfold reordered. destruct (of_user uid i) eqn:E; [|done]. by destruct (last_index (wi_symbol i) syms k). Qed.

Lemma reordered_user uid syms k i : of_user uid (reordered uid syms k i) = of_user uid i.
Proof. unfold of_user. by rewrite (proj1 (proj2 (reordered_keys uid syms k i))). Qed.

(** ** What the user sees *)

Definition shown (db : wl_db) (uid : string) : list string := map wr_symbol (get_watchlist db uid).
Definition items_of (db : wl_db) (uid : string) : list WatchlistItem := List.filter (of_user uid) (watchlist db).

Record wl_ok (db : wl_db) : Prop := mkWlOk {
  ok_ids : NoDup (map wi_id (watchlist db));
  ok_symbols : forall uid, NoDup (map wi_symbol (items_of db uid));
  ok_orders : forall uid, NoDup (map wi_sort_order (items_of db uid));
  ok_listed : NoDup (map s_symbol (listed db));
  ok_known : forall i, i ∈ watchlist db -> wi_symbol i ∈ map s_symbol (listed db);
}.

Lemma item_le_total a b : item_le a b = true \/ item_le b a = true.
Proof.
  unfold item_le. destruct (Z.lt_trichotomy (wi_sort_order a) (wi_sort_order b)) as [Hl|[He|Hl]].
  - left. by rewrite (proj2 (Z.ltb_lt _ _) Hl).
  - rewrite He, Z.ltb_irrefl, Z.eqb_refl. cbn. destruct (Z.leb_spec (wi_added_at a) (wi_added_at b)); [by left|].
    right. apply Z.leb_le. lia.
  - right. by rewrite (proj2 (Z.ltb_lt _ _) Hl).
Qed.

Lemma item_le_spec a b :
  item_le a b = true <-> wi_sort_order a < wi_sort_order b
                         \/ (wi_sort_order a = wi_sort_order b /\ wi_added_at a <= wi_added_at b).
Proof. unfold item_le. rewrite orb_true_iff, andb_true_iff, Z.ltb_lt, Z.eqb_eq, Z.leb_le. done. Qed.

Lemma item_le_trans a b c : item_le a b = true -> item_le b c = true -> item_le a c = true.
Proof. rewrite !item_le_spec. lia. Qed.
Lemma item_le_order a b : item_le a b = true -> wi_sort_order a <= wi_sort_order b.
Proof. rewrite item_le_spec. lia. Qed.

Lemma order_total (a b : WatchlistItem) :
  (wi_sort_order a <=? wi_sort_order b) = true \/ (wi_sort_order b <=? wi_sort_order a) = true.
Proof. rewrite !Z.leb_le. lia. Qed.
Lemma order_trans (a b c : WatchlistItem) :
  (wi_sort_order a <=? wi_sort_order b) = true -> (wi_sort_order b <=? wi_sort_order c) = true ->
  (wi_sort_order a <=? wi_sort_order c) = true.
Proof. rewrite !Z.leb_le. lia. Qed.

(** Each item joins with exactly one security. *)
Lemma join_one db l :
  NoDup (map s_symbol (listed db)) -> (forall i, i ∈ l -> wi_symbol i ∈ map s_symbol (listed db)) ->
  map fst (flat_map (fun i => map (fun s => (i, s))
     (List.filter (fun s => String.eqb (wi_symbol i) (s_symbol s)) (listed db))) l) = l.
Proof.
  intros Hnd. induction l as [|i is' IH]; intros Hk; cbn [flat_map]; [done|].
  rewrite map_app, IH by (intros; apply Hk; by constructor).
  pose proof (Hk i ltac:(by constructor)) as (s & Es & Hs)%list_elem_of_fmap.
  rewrite (List.filter_ext _ (fun y => String.eqb (s_symbol y) (s_symbol s)))
    by (intros y; rewrite Es; apply String.eqb_sym).
  by rewrite (filter_unique s_symbol _ s).
Qed.

Lemma shown_sorted db uid :
  NoDup (map s_symbol (listed db)) -> (forall i, i ∈ watchlist db -> wi_symbol i ∈ map s_symbol (listed db)) ->
  shown db uid = map wi_symbol (sort_by item_le (items_of db uid)).
Proof.
  intros Hnd Hk. unfold shown, get_watchlist. rewrite map_map.
  rewrite (map_ext _ (fun p : WatchlistItem * Security => wi_symbol (fst p))) by done.
  rewrite <- (map_map fst wi_symbol), map_sort_by, join_one; [done|done|].
  intros i [Hi _]%elem_of_lfilter. auto.
Qed.

Lemma shown_elem db uid sym : wl_ok db -> sym ∈ shown db uid <-> sym ∈ map wi_symbol (items_of db uid).
Proof.
  intros Hok. rewrite shown_sorted by apply Hok. apply elem_of_Permutation_proper.
  apply Permutation_map, sort_by_perm.
Qed.

(** Items whose orders are the positions of their symbols are seen in that order. *)
Lemma positions_shown (U : list WatchlistItem) all :
  NoDup (map wi_symbol U) -> (forall sym, sym ∈ map wi_symbol U <-> sym ∈ all) ->
  (forall i, i ∈ U -> wi_sort_order i = position all (wi_symbol i)) ->
  map wi_symbol (sort_by item_le U) = keep_last all /\ NoDup (map wi_sort_order U).
Proof.
  intros Hnd Hall Hpos. pose proof (keep_last_increasing all 1) as Hinc. fold (position all) in Hinc.
  change (increasing (position all) (keep_last all)) in Hinc.
  assert (Hperm : map wi_symbol U ≡ₚ keep_last all).
  { apply NoDup_Permutation; [done|apply keep_last_nodup|]. intros sym. by rewrite keep_last_elem. }
  assert (Heq : map wi_sort_order U = map (position all) (map wi_symbol U)).
  { rewrite map_map. apply map_ext_in. intros i Hi. apply Hpos. by apply list_elem_of_In. }
  assert (Hno : NoDup (map wi_sort_order U)).
  { rewrite Heq. eapply NoDup_Permutation_proper; [apply Permutation_map, Hperm|]. by apply increasing_nodup. }
  split; [|done].
  apply (increasing_unique (position all)); [|done|].
  - apply increasing_map. apply (increasing_ext _ wi_sort_order).
    + intros i Hi. symmetry. apply Hpos. by apply (elem_of_sort_by item_le).
    + apply sort_by_increasing; [exact item_le_total|exact item_le_trans|exact item_le_order|done].
  - rewrite <- Hperm. apply Permutation_map, sort_by_perm.
Qed.

(** ** Reordering *)

Definition unrequested (ns : list string) (l : list string) : list string :=
  List.filter (fun s => negb (is_in s ns)) l.

Lemma map_filter_symbol ns (l : list WatchlistItem) :
  map wi_symbol (List.filter (fun i => negb (is_in (wi_symbol i) ns)) l) = unrequested ns (map wi_symbol l).
Proof. unfold unrequested. induction l as [|i is' IH]; cbn; [done|]. destruct (is_in _ _); cbn; by rewrite IH. Qed.

(** Unrequested items keep their place among themselves. *)
Lemma rest_order db uid ns :
  wl_ok db ->
  map wi_symbol (List.filter (fun i => negb (is_in (wi_symbol i) ns))
    (by_order (List.filter (of_user uid) (assign_requested uid ns 1 (watchlist db)))))
  = unrequested ns (shown db uid).
Proof.
  intros Hok. unfold by_order. rewrite filter_sort_by by (apply order_total || apply order_trans).
  rewrite assign_requested_map, (filter_map _ (of_user uid)) by apply reordered_user. fold (items_of db uid).
  set (p := fun i => negb (is_in (wi_symbol i) ns)).
  assert (E : List.filter p (map (reordered uid ns 1) (items_of db uid)) = List.filter p (items_of db uid)).
  { rewrite (filter_map _ p) by (intros i; unfold p; by rewrite (proj1 (proj2 (proj2 (reordered_keys uid ns 1 i))))).
    rewrite <- (map_id (List.filter p (items_of db uid))) at 2. apply map_ext_in. intros i Hi.
    apply filter_In in Hi as [_ Hi]. unfold p in Hi. apply negb_true_iff, is_in_false in Hi.
    unfold reordered. rewrite last_index_none by done. by destruct (of_user uid i). }
  rewrite E, <- filter_sort_by by (apply order_total || apply order_trans).
  unfold p. rewrite map_filter_symbol, shown_sorted by apply Hok. do 2 f_equal.
  apply (increasing_unique wi_sort_order).
  - apply sort_by_increasing; [exact order_total|exact order_trans|intros x y; apply Z.leb_le|by apply ok_orders].
  - apply sort_by_increasing; [exact item_le_total|exact item_le_trans|exact item_le_order|by apply ok_orders].
  - by rewrite !sort_by_perm.
Qed.

Lemma map_reordered_user uid v all k l :
  List.filter (of_user v) (map (reordered uid all k) l)
  = if String.eqb uid v then map (reordered uid all k) (List.filter (of_user v) l) else List.filter (of_user v) l.
Proof.
  rewrite (filter_map _ (of_user v)).
  - destruct (String.eqb_spec uid v) as [|Hne]; [done|].
    rewrite <- (map_id (List.filter _ l)) at 2. apply map_ext_in. intros i [_ Hi]%filter_In.
    unfold of_user in Hi. apply String.eqb_eq in Hi. unfold reordered, of_user.
    rewrite Hi, (proj2 (String.eqb_neq v uid)) by done. done.
  - intros i. unfold of_user. by rewrite (proj1 (proj2 (reordered_keys uid all k i))).
Qed.

(** The table after a reordering the user may ask for. *)
Section reordering.
Variables (db : wl_db) (uid : string) (ns : list string).
Hypothesis Hok : wl_ok db.
Hypothesis Hin : forall s, s ∈ ns -> s ∈ shown db uid.

Abbreviation os := (unrequested ns (shown db uid)).
Abbreviation all := (ns ++ os)%list.
Abbreviation db' := (mkWl (map (reordered uid all 1) (watchlist db)) (listed db)).

Lemma reordered_rows :
  assign_rest uid ns (by_order (List.filter (of_user uid) (assign_requested uid ns 1 (watchlist db))))
    (Z.of_nat (length ns) + 1) (assign_requested uid ns 1 (watchlist db)) = watchlist db'.
Proof using Hok.
  rewrite assign_rest_requested, rest_order by done.
  replace (Z.of_nat (length ns) + 1) with (1 + Z.of_nat (length ns)) by lia.
  by rewrite <- assign_requested_app, assign_requested_map.
Qed.

Lemma reordered_own : items_of db' uid = map (reordered uid all 1) (items_of db uid).
Proof using Type. unfold items_of. cbn [watchlist]. by rewrite map_reordered_user, String.eqb_refl. Qed.

Lemma reordered_other v : v <> uid -> items_of db' v = items_of db v.
Proof using Type.
  intros Hv. unfold items_of. cbn [watchlist]. rewrite map_reordered_user. by rewrite (proj2 (String.eqb_neq uid v)).
Qed.

Lemma reordered_symbols : map wi_symbol (items_of db' uid) = map wi_symbol (items_of db uid).
Proof using Type. rewrite reordered_own, map_map. apply map_ext. intros i. apply (reordered_keys uid all 1 i). Qed.

Lemma reordered_member s : s ∈ map wi_symbol (items_of db' uid) <-> s ∈ all.
Proof using All.
  rewrite reordered_symbols, <- shown_elem by done. rewrite elem_of_app. split.
  - intros Hs. destruct (is_in s ns) eqn:E; [left; by apply is_in_spec|right]. apply elem_of_lfilter. by rewrite E.
  - intros [Hs|Hs]; [auto|]. by apply elem_of_lfilter in Hs as [Hs _].
Qed.

Lemma reordered_positions :
  map wi_symbol (sort_by item_le (items_of db' uid)) = keep_last all /\ NoDup (map wi_sort_order (items_of db' uid)).
Proof using All.
  apply positions_shown; [rewrite reordered_symbols; apply Hok|exact reordered_member|].
  rewrite reordered_own. intros i' (i & -> & Hi)%list_elem_of_fmap. apply elem_of_lfilter in Hi as [Hi Hu].
  rewrite (proj1 (proj2 (proj2 (reordered_keys uid all 1 i)))). unfold reordered, position. rewrite Hu.
  destruct (last_index_some (wi_symbol i) all 1) as (n & -> & _); [|done].
  apply reordered_member. rewrite reordered_symbols. apply list_elem_of_fmap_2. by apply elem_of_lfilter.
Qed.

Lemma reordered_columns :
  map (fun i => (wi_id i, wi_user_id i, wi_symbol i, wi_note i, wi_added_at i)) (watchlist db')
  = map (fun i => (wi_id i, wi_user_id i, wi_symbol i, wi_note i, wi_added_at i)) (watchlist db).
Proof using Type.
  cbn [watchlist]. rewrite map_map. apply map_ext. intros i.
  by destruct (reordered_keys uid all 1 i) as (-> & -> & -> & -> & ->).
Qed.

Lemma reordered_ok : wl_ok db'.
Proof using All.
  destruct Hok as [Hids Hsy Hor Hli Hkn]. split; cbn [watchlist listed].
  - rewrite map_map. by rewrite (map_ext _ wi_id) by (intros i; apply (reordered_keys uid all 1 i)).
  - intros v. destruct (decide (v = uid)) as [->|Hv]; [by rewrite reordered_symbols|by rewrite reordered_other].
  - intros v. destruct (decide (v = uid)) as [->|Hv]; [apply reordered_positions|by rewrite reordered_other].
  - done.
  - intros i' (i & -> & Hi)%list_elem_of_fmap. rewrite (proj1 (proj2 (proj2 (reordered_keys uid all 1 i)))). auto.
Qed.

Lemma reordered_shown : shown db' uid = (keep_last ns ++ os)%list.
Proof using All.
  rewrite shown_sorted by apply reordered_ok. rewrite (proj1 reordered_positions). apply keep_last_app.
  - apply NoDup_lfilter. rewrite shown_sorted by apply Hok.
    eapply NoDup_Permutation_proper; [apply Permutation_map, sort_by_perm|]. apply Hok.
  - intros s [_ Hs]%elem_of_lfilter. by apply negb_true_iff, is_in_false in Hs.
Qed.
End reordering.

Lemma reorder_spec db uid symbols :
  wl_ok db ->
  let ns := normalise symbols in
  if forallb (fun s => is_in s (shown db uid)) ns then
    exists db' l, reorder db uid symbols = Ok (db', l) /\ l = get_watchlist db' uid /\
      shown db' uid = (keep_last ns ++ unrequested ns (shown db uid))%list /\
      (forall v, v <> uid -> items_of db' v = items_of db v) /\
      map (fun i => (wi_id i, wi_user_id i, wi_symbol i, wi_note i, wi_added_at i)) (watchlist db')
      = map (fun i => (wi_id i, wi_user_id i, wi_symbol i, wi_note i, wi_added_at i)) (watchlist db) /\
      wl_ok db'
  else reorder db uid symbols = Exn (ServiceError 400).
Proof.
  intros Hok ns. unfold reorder. fold ns. fold (items_of db uid).
  rewrite (List.filter_ext _ (fun s => negb (is_in s (shown db uid))))
    by (intros s; f_equal; apply eq_true_iff_eq; by rewrite !is_in_spec, shown_elem).
  destruct (forallb (fun s => is_in s (shown db uid)) ns) eqn:Eall; cycle 1.
  { destruct (List.filter _ ns) eqn:E; [|done]. rewrite <- not_true_iff_false, forallb_forall in Eall.
    exfalso. apply Eall. intros s Hs. rewrite filter_nil_iff in E. apply negb_false_iff, E. by apply list_elem_of_In. }
  assert (Hin : forall s, s ∈ ns -> s ∈ shown db uid).
  { intros s Hs. apply is_in_spec. rewrite forallb_forall in Eall. apply Eall. by apply list_elem_of_In. }
  rewrite (proj2 (filter_nil_iff _ ns)) by (intros s Hs; apply negb_false_iff, is_in_spec; auto).
  rewrite (reordered_rows db uid ns Hok). eexists _, _. split; [done|]. split; [done|]. split_and!.
  - by apply reordered_shown.
  - by apply reordered_other.
  - by apply reordered_columns.
  - by apply reordered_ok.
Qed.

(** C17: [reorder] with symbols the user watches puts them first, in the order
    asked for (a symbol asked for twice stands at its last place), and the other
    items after them in the order they had.  No item is added, lost or changed
    otherwise, other users' lists stay as they are, and the order numbers of a
    user are distinct again.  A symbol the user does not watch is refused with
    400. *)
Theorem reorder_correct db uid symbols :
  wl_ok db ->
  let ns := normalise symbols in
  if forallb (fun s => is_in s (shown db uid)) ns then
    exists db' l, reorder db uid symbols = Ok (db', l) /\ l = get_watchlist db' uid /\
      shown db' uid = (keep_last ns ++ unrequested ns (shown db uid))%list /\
      (forall v, v <> uid -> items_of db' v = items_of db v) /\
      map (fun i => (wi_id i, wi_user_id i, wi_symbol i, wi_note i, wi_added_at i)) (watchlist db')
      = map (fun i => (wi_id i, wi_user_id i, wi_symbol i, wi_note i, wi_added_at i)) (watchlist db) /\
      wl_ok db'
  else reorder db uid symbols = Exn (ServiceError 400).
Proof. apply reorder_spec. Qed.

(** ** Adding and removing *)

Lemma max_order_ge items i : i ∈ items -> wi_sort_order i <= max_order items.
Proof.
  assert (Hf : forall l a, a <= fold_left Z.max l a /\ forall x, In x l -> x <= fold_left Z.max l a).
  { induction l as [|y ys IH]; intros a; cbn [fold_left]; [split; [lia|done]|].
    destruct (IH (Z.max a y)) as [H1 H2]. split; [lia|]. intros x [->|Hx]; [lia|auto]. }
  destruct items as [|j js]; intros Hi; [by apply not_elem_of_nil in Hi|]. cbn [max_order].
  destruct (Hf (map wi_sort_order js) (wi_sort_order j)) as [H1 H2].
  apply elem_of_cons in Hi as [->|Hi]; [done|]. apply H2, in_map. by apply list_elem_of_In.
Qed.

Lemma increasing_snoc {A} (key : A -> Z) l x :
  increasing key l -> (forall y, y ∈ l -> key y < key x) -> increasing key (l ++ [x]).
Proof.
  induction 1 as [|y ys Hs IH Hy]; intros Hx; cbn [app].
  - constructor; constructor.
  - constructor; [apply IH; intros; apply Hx; by constructor|].
    apply List.Forall_app. split; [done|]. constructor; [apply Hx; by constructor|constructor].
Qed.

Lemma items_of_snoc db i v :
  items_of (mkWl (watchlist db ++ [i]) (listed db)) v
  = (items_of db v ++ if of_user v i then [i] else [])%list.
Proof. unfold items_of. cbn [watchlist]. rewrite List.filter_app. cbn [List.filter]. by destruct (of_user v i). Qed.

Lemma has_key_elem db uid sym :
  existsb (has_key uid sym) (watchlist db) = is_in sym (map wi_symbol (items_of db uid)).
Proof.
  apply eq_true_iff_eq. rewrite is_in_spec, existsb_exists. split.
  - intros (i & Hi%list_elem_of_In & Hk). unfold has_key in Hk. zbool.
    apply String.eqb_eq in H, H0. subst. apply list_elem_of_fmap_2. apply elem_of_lfilter.
    split; [done|]. apply String.eqb_refl.
  - intros (i & -> & [Hi Hu]%elem_of_lfilter)%list_elem_of_fmap. exists i. split; [by apply list_elem_of_In|].
    unfold has_key. unfold of_user in Hu. by rewrite Hu, String.eqb_refl.
Qed.

(** A row of the user appended to the table, after everything he has. *)
Section appended.
Variables (db : wl_db) (uid : string) (i : WatchlistItem).
Hypothesis Hok : wl_ok db.
Hypothesis Huser : wi_user_id i = uid.
Hypothesis Hid : wi_id i ∉ map wi_id (watchlist db).
Hypothesis Hsym : wi_symbol i ∉ map wi_symbol (items_of db uid).
Hypothesis Hlisted : wi_symbol i ∈ map s_symbol (listed db).
Hypothesis Hmax : forall j, j ∈ items_of db uid -> wi_sort_order j < wi_sort_order i.

Abbreviation db' := (mkWl (watchlist db ++ [i])%list (listed db)).

Lemma appended_own : items_of db' uid = (items_of db uid ++ [i])%list.
Proof using Huser. rewrite items_of_snoc. unfold of_user. by rewrite Huser, String.eqb_refl. Qed.

Lemma appended_other v : v <> uid -> items_of db' v = items_of db v.
Proof using Huser.
  intros Hv. rewrite items_of_snoc. unfold of_user. rewrite Huser, (proj2 (String.eqb_neq uid v)) by done.
  by rewrite app_nil_r.
Qed.

Lemma appended_ok : wl_ok db'.
Proof using All.
  destruct Hok as [Hids Hsy Hor Hli Hkn]. split; cbn [watchlist listed].
  - rewrite map_app. by apply NoDup_snoc.
  - intros v. destruct (decide (v = uid)) as [->|Hv]; [|by rewrite appended_other].
    rewrite appended_own, map_app. by apply NoDup_snoc.
  - intros v. destruct (decide (v = uid)) as [->|Hv]; [|by rewrite appended_other].
    rewrite appended_own, map_app. apply NoDup_snoc; [done|]. intros (j & Ej & Hj)%list_elem_of_fmap.
    specialize (Hmax j Hj). lia.
  - done.
  - intros j [Hj|Hj]%elem_of_app; [auto|]. by apply list_elem_of_singleton in Hj as ->.
Qed.

Lemma appended_shown : shown db' uid = (shown db uid ++ [wi_symbol i])%list.
Proof using All.
  rewrite !shown_sorted by (apply Hok || apply appended_ok). rewrite appended_own.
  enough (sort_by item_le (items_of db uid ++ [i]) = (sort_by item_le (items_of db uid) ++ [i])%list) as ->
    by by rewrite map_app.
  apply (increasing_unique wi_sort_order).
  - apply sort_by_increasing; [exact item_le_total|exact item_le_trans|exact item_le_order|].
    rewrite <- appended_own. apply (ok_orders _ appended_ok).
  - apply increasing_snoc.
    + apply sort_by_increasing; [exact item_le_total|exact item_le_trans|exact item_le_order|apply (ok_orders _ Hok)].
    + intros j Hj. apply Hmax. by apply (elem_of_sort_by item_le).
  - by rewrite !sort_by_perm.
Qed.

Lemma appended_removed symbol : upper symbol = wi_symbol i -> remove db' uid symbol = Ok db.
Proof using All.
  intros Es. unfold remove. rewrite Es.
  assert (Hnone : List.filter (has_key uid (wi_symbol i)) (watchlist db) = []).
  { apply existsb_filter. rewrite has_key_elem. by apply is_in_false. }
  cbn [watchlist listed]. rewrite List.filter_app, Hnone. cbn [List.filter app].
  unfold has_key at 1. rewrite Huser, !String.eqb_refl. cbn [andb scalar_one_or_none].
  rewrite List.filter_app. cbn [List.filter]. rewrite Z.eqb_refl. cbn [negb]. rewrite app_nil_r.
  rewrite lfilter_all; [by destruct db|]. intros j Hj. apply negb_true_iff, Z.eqb_neq. intros Ej.
  apply Hid. rewrite <- Ej. by apply list_elem_of_fmap_2.
Qed.
End appended.

(** [add] puts a listed security that the user does not watch yet at the end
    of what the user sees, and keeps the table well formed; an unlisted one is
    404, a watched one 409.  Removing the symbol just added gives back the very
    table there was. *)
Lemma add_spec db new_id now uid symbol note :
  wl_ok db -> new_id ∉ map wi_id (watchlist db) ->
  let sym := upper symbol in
  if is_in sym (map s_symbol (listed db)) then
    if is_in sym (shown db uid) then add db new_id now uid symbol note = Exn (ServiceError 409)
    else exists db' r, add db new_id now uid symbol note = Ok (db', r) /\ wr_symbol r = sym /\
           shown db' uid = (shown db uid ++ [sym])%list /\
           (forall v, v <> uid -> items_of db' v = items_of db v) /\ wl_ok db' /\
           remove db' uid symbol = Ok db
  else add db new_id now uid symbol note = Exn (ServiceError 404).
Proof.
  intros Hok Hid sym. unfold add. fold sym.
  destruct (scalar_by_key s_symbol (listed db) sym (ok_listed _ Hok)) as [(s & Hs & Es & E)|[Hno E]]; rewrite E.
  2:{ rewrite (proj2 (is_in_false _ _)); [done|]. intros (s & -> & Hs)%list_elem_of_fmap. by apply (Hno s). }
  assert (Hls : sym ∈ map s_symbol (listed db)) by (rewrite <- Es; by apply list_elem_of_fmap_2).
  rewrite (proj2 (is_in_spec _ _) Hls), has_key_elem.
  replace (is_in sym (map wi_symbol (items_of db uid))) with (is_in sym (shown db uid))
    by (apply eq_true_iff_eq; by rewrite !is_in_spec, shown_elem).
  destruct (is_in sym (shown db uid)) eqn:Ein; [done|].
  apply is_in_false in Ein. rewrite shown_elem in Ein by done. fold (items_of db uid).
  set (i := mkItem _ _ _ _ _ _).
  assert (Hmax : forall j, j ∈ items_of db uid -> wi_sort_order j < wi_sort_order i).
  { intros j Hj. apply max_order_ge in Hj. cbn [i wi_sort_order]. lia. }
  eexists _, (item_response i s). split; [done|]. split; [done|]. split; [|split; [|split]].
  - by apply (appended_shown db uid i).
  - intros v. by apply (appended_other db uid i).
  - by apply (appended_ok db uid i).
  - by apply (appended_removed db uid i).
Qed.


(** ** Any request *)

(** What a request of a user leaves behind: the constraints hold and the items of
    the others are as they were. *)
Definition kept (uid : string) (db db' : wl_db) : Prop :=
  wl_ok db' /\ listed db' = listed db /\ forall v, v <> uid -> items_of db' v = items_of db v.

Lemma add_kept db new_id now uid symbol note db' r :
  wl_ok db -> new_id ∉ map wi_id (watchlist db) -> add db new_id now uid symbol note = Ok (db', r) -> kept uid db db'.
Proof.
  intros Hok Hid H. pose proof (add_spec db new_id now uid symbol note Hok Hid) as Hs. cbv zeta in Hs.
  destruct (is_in _ _); [|congruence]. destruct (is_in _ _); [congruence|].
  destruct Hs as (d & r' & E & _ & _ & Ho & Hk & _). rewrite E in H. injection H as <- <-. split; [done|]. split; [|done].
  unfold add in E. res_step E. destruct a; [|discriminate]. destruct (existsb _ _); [discriminate|]. by injection E as <- <-.
Qed.

Lemma reorder_kept db uid symbols db' l : wl_ok db -> reorder db uid symbols = Ok (db', l) -> kept uid db db'.
Proof.
  intros Hok H. pose proof (reorder_spec db uid symbols Hok) as Hs. cbv zeta in Hs.
  destruct (forallb _ _); [|congruence]. destruct Hs as (d & r' & E & _ & _ & Ho & _ & Hk). rewrite E in H. injection H as <- <-.
  split; [done|]. split; [|done]. unfold reorder in E. destruct (List.filter _ _); [|discriminate]. by injection E as <- <-.
Qed.

Lemma remove_kept db uid symbol db' : wl_ok db -> remove db uid symbol = Ok db' -> kept uid db db'.
Proof.
  intros [Hids Hsy Hor Hli Hkn] H. unfold remove in H. res_step H. destruct a as [item|]; [|discriminate]. injection H as <-.
  apply scalar_one_some, filter_one_elem in E as [Hin Hk]. unfold has_key in Hk. zbool. apply String.eqb_eq in H as Hu.
  set (keep := fun j => negb (wi_id j =? wi_id item)).
  assert (Hf : forall v, items_of (mkWl (List.filter keep (watchlist db)) (listed db)) v = List.filter keep (items_of db v)).
  { intros v. apply lfilter_swap. }
  split; [|split; [done|]].
  - split; cbn [watchlist listed]; [by apply NoDup_map_filter|intros v; rewrite Hf; by apply NoDup_map_filter..|done|].
    intros i [Hi _]%elem_of_lfilter. by apply Hkn.
  - intros v Hv. rewrite Hf. apply lfilter_all. intros j [Hj Huj]%elem_of_lfilter. apply negb_true_iff, Z.eqb_neq. intros Ej.
    apply (nodup_id_inj wi_id _ _ _ Hids Hj Hin) in Ej as ->. unfold of_user in Huj. apply String.eqb_eq in Huj. congruence.
Qed.



Lemma sample_watchlist_ok : wl_ok sample_watchlist.
Proof.
  split.
  - apply (bool_decide_unpack _). vm_compute. exact I.
  - intros uid. unfold items_of, of_user. cbn [sample_watchlist watchlist List.filter wi_user_id].
    destruct (String.eqb_spec "u" uid) as [<-|]; [|destruct (String.eqb "v" uid)]; cbn [map wi_symbol];
      apply (bool_decide_unpack _); vm_compute; exact I.
  - intros uid. unfold items_of, of_user. cbn [sample_watchlist watchlist List.filter wi_user_id].
    destruct (String.eqb_spec "u" uid) as [<-|]; [|destruct (String.eqb "v" uid)]; cbn [map wi_sort_order];
      apply (bool_decide_unpack _); vm_compute; exact I.
  - apply (bool_decide_unpack _). vm_compute. exact I.
  - intros i Hi. cbn in Hi |- *. set_solver.
Qed.

Lemma reorder_correct_witness :
  exists db' l, reorder sample_watchlist "u" ["mcb"; "ogdc "]%string = Ok (db', l) /\ l = get_watchlist db' "u" /\
    shown db' "u" = (keep_last ["MCB"%string; "OGDC"%string] ++ unrequested ["MCB"%string; "OGDC"%string] (shown sample_watchlist "u"))%list /\
    (forall v, v <> "u"%string -> items_of db' v = items_of sample_watchlist v) /\
    map (fun i => (wi_id i, wi_user_id i, wi_symbol i, wi_note i, wi_added_at i)) (watchlist db')
    = map (fun i => (wi_id i, wi_user_id i, wi_symbol i, wi_note i, wi_added_at i)) (watchlist sample_watchlist) /\
    wl_ok db'.
Proof. exact (reorder_correct sample_watchlist "u" ["mcb"; "ogdc "]%string sample_watchlist_ok). Defined.

Lemma add_spec_example :
  exists db' r, add sample_watchlist 9 5 "v" "mcb" None = Ok (db', r) /\ wr_symbol r = "MCB"%string /\
    shown db' "v" = (shown sample_watchlist "v" ++ ["MCB"%string])%list /\
    (forall u, u <> "v"%string -> items_of db' u = items_of sample_watchlist u) /\ wl_ok db' /\
    remove db' "v" "mcb" = Ok sample_watchlist.
Proof.
  refine (add_spec sample_watchlist 9 5 "v" "mcb" None sample_watchlist_ok _). cbn. set_solver.
Defined.
