(* ===== verification/Portfolios.v ===== *)
(** * Portfolios: [psx_api/services/portfolio_service.py]

    The portfolios of a user: at most one default (a partial unique index) and
    unique names.  The service relies on the database for both; the statements
    are checked as the index would check them, row by row, and a violation is
    the [IntegrityError] the service turns into its 409, or not.

    [portfolio_reachable_ok] is the invariant; [default_creation_fails] a state
    the service itself reaches in which [get_or_create_default] raises. *)

From S2P Require Import Prelude Decimal Cgt Ledger.

Record PortfolioCreate := mkCreate {
  pc_name : string;
  pc_description : option string;
  pc_base_currency : string;
  pc_is_default : bool;
}.

Record PortfolioUpdate := mkPortfolioUpdate {
  pu_name : option string;
  pu_description : option string;
  pu_is_default : option bool;
}.

Definition set_portfolios (db : database) (l : list Portfolio) : database :=
  mkDb l (transactions db) (holdings db) (securities db) (tax_rules db) (ohlcv db).

Definition of_owner (uid : string) (p : Portfolio) : bool := String.eqb (p_user_id p) uid.
Definition default_of (uid : string) (p : Portfolio) : bool := (of_owner uid p && p_is_default p)%bool.
Definition same_name (p q : Portfolio) : bool :=
  (String.eqb (p_user_id p) (p_user_id q) && String.eqb (p_name p) (p_name q))%bool.

(** [ORDER BY is_default DESC, created_at] *)
Definition portfolio_le (a b : Portfolio) : bool :=
  match p_is_default a, p_is_default b with
  | true, false => true
  | false, true => false
  | _, _ => p_created_at a <=? p_created_at b
  end.

Definition list_for_user (db : database) (uid : string) : list Portfolio :=
  sort_by portfolio_le (List.filter (of_owner uid) (portfolios db)).

Definition get (db : database) (uid pid : string) : res Portfolio :=
  let! found := scalar_one_or_none
    (List.filter (fun p => (String.eqb (p_id p) pid && of_owner uid p)%bool) (portfolios db)) in
  match found with Some p => Ok p | None => Exn (ServiceError 404) end.

(** What the unique constraints say of a new or changed row among the others. *)
Definition admissible (p : Portfolio) (others : list Portfolio) : bool :=
  negb (existsb (same_name p) others || (p_is_default p && existsb (default_of (p_user_id p)) others))%bool.

Definition insert_portfolio (p : Portfolio) (l : list Portfolio) : res (list Portfolio) :=
  if admissible p l then Ok (l ++ [p])%list else Exn IntegrityError.
Definition update_portfolio (p : Portfolio) (l : list Portfolio) : res (list Portfolio) :=
  if admissible p (List.filter (fun q => negb (String.eqb (p_id q) (p_id p))) l)
  then Ok (put_row p_id p l) else Exn IntegrityError.

Definition get_or_create_default (db : database) (new_id : string) (now : Z) (uid : string)
    : res (database * Portfolio) :=
  let! existing := scalar_one_or_none (List.filter (default_of uid) (portfolios db)) in
  match existing with
  | Some p => Ok (db, p)
  | None =>
      let p := mkPortfolio new_id uid "Main" (Some "Default portfolio"%string) "PKR" true now in
      let! rows := insert_portfolio p (portfolios db) in
      Ok (set_portfolios db rows, p)
  end.

Definition with_default (b : bool) (p : Portfolio) : Portfolio :=
  mkPortfolio (p_id p) (p_user_id p) (p_name p) (p_description p) (p_base_currency p) b (p_created_at p).

(** [update(Portfolio).where(user_id, is_default).values(is_default=False)] *)
Definition unset_default (uid : string) (l : list Portfolio) : list Portfolio :=
  map (fun p => if default_of uid p then with_default false p else p) l.

(** [except IntegrityError: raise PortfolioError(..., 409)] *)
Definition conflict {A} (r : res A) : res A :=
  match r with Exn IntegrityError => Exn (ServiceError 409) | _ => r end.

Definition create (db : database) (new_id : string) (now : Z) (uid : string) (body : PortfolioCreate)
    : res (database * Portfolio) :=
  let rows := if pc_is_default body then unset_default uid (portfolios db) else portfolios db in
  let p := mkPortfolio new_id uid (pc_name body) (pc_description body) (pc_base_currency body)
             (pc_is_default body) now in
  let! rows := conflict (insert_portfolio p rows) in
  Ok (set_portfolios db rows, p).

Definition update (db : database) (uid pid : string) (body : PortfolioUpdate) : res (database * Portfolio) :=
  let! p := get db uid pid in
  let rows :=
    match pu_is_default body with
    | Some true => if p_is_default p then portfolios db else unset_default uid (portfolios db)
    | _ => portfolios db
    end in
  let p' :=
    mkPortfolio (p_id p) (p_user_id p)
      (match pu_name body with Some n => n | None => p_name p end)
      (match pu_description body with Some d => Some d | None => p_description p end)
      (p_base_currency p)
      (match pu_is_default body with Some b => b | None => p_is_default p end)
      (p_created_at p) in
  let! rows := conflict (update_portfolio p' rows) in
  Ok (set_portfolios db rows, p').

(** The foreign keys cascade: transactions and holdings go with the portfolio. *)
Definition delete (db : database) (uid pid : string) : res database :=
  let! p := get db uid pid in
  if p_is_default p then Exn (ServiceError 400)
  else Ok (mkDb (List.filter (fun q => negb (String.eqb (p_id q) (p_id p))) (portfolios db))
             (List.filter (fun t => negb (String.eqb (t_portfolio_id t) (p_id p))) (transactions db))
             (List.filter (fun h => negb (String.eqb (h_portfolio_id h) (p_id p))) (holdings db))
             (securities db) (tax_rules db) (ohlcv db)).

(** ** The constraints *)

Definition key_of (p : Portfolio) : string * string := (p_user_id p, p_name p).

Record portfolios_ok (db : database) : Prop := mkPortfoliosOk {
  ok_ids : NoDup (map p_id (portfolios db));
  ok_names : NoDup (map key_of (portfolios db));
  ok_default : forall uid, (length (List.filter (default_of uid) (portfolios db)) <= 1)%nat;
  ok_txns : forall t, t ∈ transactions db -> t_portfolio_id t ∈ map p_id (portfolios db);
  ok_holdings : forall h, h ∈ holdings db -> h_portfolio_id h ∈ map p_id (portfolios db);
}.

(** Rows that satisfy the constraints among themselves. *)
Definition rows_ok (l : list Portfolio) : Prop :=
  NoDup (map p_id l) /\ NoDup (map key_of l) /\ forall uid, (length (List.filter (default_of uid) l) <= 1)%nat.

Lemma same_name_spec p q : same_name p q = true <-> key_of q = key_of p.
Proof.
  unfold same_name, key_of. rewrite andb_true_iff, !String.eqb_eq. split; [by intros [-> ->]|].
  intros E. injection E as -> ->. done.
Qed.

Lemma admissible_spec p l :
  admissible p l = true <->
  key_of p ∉ map key_of l /\ (p_is_default p = true -> List.filter (default_of (p_user_id p)) l = []).
Proof.
  unfold admissible.
  rewrite negb_true_iff, orb_false_iff, andb_false_iff, existsb_filter, filter_nil_iff, existsb_filter.
  assert (Hk : (forall x, x ∈ l -> same_name p x = false) <-> key_of p ∉ map key_of l).
  { split.
    - intros Hn (q & E & Hq)%list_elem_of_fmap. specialize (Hn q Hq).
      rewrite (proj2 (same_name_spec p q)) in Hn; done.
    - intros Hn q Hq. apply not_true_iff_false. rewrite same_name_spec. intros E. apply Hn. rewrite <- E.
      by apply list_elem_of_fmap_2. }
  rewrite Hk. destruct (p_is_default p); naive_solver.
Qed.

Lemma insert_rows_ok p l l' :
  rows_ok l -> p_id p ∉ map p_id l -> insert_portfolio p l = Ok l' -> l' = (l ++ [p])%list /\ rows_ok l'.
Proof.
  intros (H1 & H2 & H3) Hid. unfold insert_portfolio. destruct (admissible p l) eqn:E; [|discriminate].
  intros; inv_res. apply admissible_spec in E as [Hk Hd]. split; [done|]. split_and!.
  - rewrite map_app. by apply NoDup_snoc.
  - rewrite map_app. by apply NoDup_snoc.
  - intros uid. rewrite List.filter_app, length_app. cbn [List.filter].
    destruct (default_of uid p) eqn:Ed; cbn [length]; [|specialize (H3 uid); lia].
    unfold default_of, of_owner in Ed. zbool. apply String.eqb_eq in H as <-. by rewrite Hd.
Qed.

Lemma rows_ok_perm l l' : l ≡ₚ l' -> rows_ok l -> rows_ok l'.
Proof.
  intros Hp (H1 & H2 & H3). split_and!.
  - by rewrite <- (Permutation_map p_id Hp).
  - by rewrite <- (Permutation_map key_of Hp).
  - intros uid. specialize (H3 uid).
    rewrite <- (Permutation_length (lfilter_perm (default_of uid) _ _ Hp)). done.
Qed.

Lemma rows_ok_filter f l : rows_ok l -> rows_ok (List.filter f l).
Proof.
  intros (H1 & H2 & H3). split_and!; [by apply NoDup_map_filter..|]. intros uid.
  specialize (H3 uid). rewrite <- filter_and.
  rewrite (List.filter_ext _ (fun x => (default_of uid x && f x)%bool)) by (intros; apply andb_comm).
  rewrite filter_and. etransitivity; [apply List.filter_length_le|done].
Qed.

Lemma update_rows_ok p p0 l l' :
  rows_ok l -> p0 ∈ l -> p_id p0 = p_id p -> update_portfolio p l = Ok l' -> l' = put_row p_id p l /\ rows_ok l'.
Proof.
  intros Hok Hin Hid. unfold update_portfolio. set (rest := List.filter _ l).
  destruct (admissible p rest) eqn:E; [|discriminate]. intros; inv_res. split; [done|].
  assert (Hi : insert_portfolio p rest = Ok (rest ++ [p])%list) by (unfold insert_portfolio; by rewrite E).
  apply insert_rows_ok in Hi as [_ Hi]; [|by apply rows_ok_filter|].
  - eapply rows_ok_perm; [|exact Hi]. rewrite (put_row_perm p_id p p0) by (done || apply Hok).
    symmetry. apply Permutation_cons_append.
  - intros (q & Eq & Hq)%list_elem_of_fmap. unfold rest in Hq. apply elem_of_lfilter in Hq as [_ Hq].
    apply negb_true_iff, String.eqb_neq in Hq. by apply Hq.
Qed.

Lemma unset_columns uid l :
  map p_id (unset_default uid l) = map p_id l /\ map key_of (unset_default uid l) = map key_of l.
Proof.
  unfold unset_default. rewrite !map_map. split; apply map_ext; intros p; by destruct (default_of uid p).
Qed.

Lemma unset_filter uid v l :
  List.filter (default_of v) (unset_default uid l)
  = if String.eqb uid v then [] else List.filter (default_of v) l.
Proof.
  unfold unset_default. induction l as [|p ps IH]; cbn [map List.filter]; [by destruct (String.eqb uid v)|].
  destruct (default_of uid p) eqn:E.
  - assert (Hv : default_of v (with_default false p) = false) by (unfold default_of; cbn; apply andb_false_r).
    rewrite Hv, IH. destruct (String.eqb_spec uid v) as [|Hne]; [done|].
    unfold default_of, of_owner in *. zbool. apply String.eqb_eq in H as ->.
    by rewrite (proj2 (String.eqb_neq _ _) Hne).
  - rewrite IH. destruct (String.eqb_spec uid v) as [->|]; [by rewrite E|done].
Qed.

Lemma unset_rows_ok uid l : rows_ok l -> rows_ok (unset_default uid l).
Proof.
  intros (H1 & H2 & H3). destruct (unset_columns uid l) as [E1 E2]. split_and!; [by rewrite E1|by rewrite E2|].
  intros v. rewrite unset_filter. destruct (String.eqb uid v); cbn; [lia|apply H3].
Qed.

(** The row of the same portfolio after the bulk update. *)
Lemma unset_elem uid p l : p ∈ l -> exists p', p' ∈ unset_default uid l /\ p_id p' = p_id p.
Proof.
  intros Hp. exists (if default_of uid p then with_default false p else p). split.
  - unfold unset_default. by apply (list_elem_of_fmap_2 (fun p => if default_of uid p then with_default false p else p)).
  - by destruct (default_of uid p).
Qed.

Lemma get_some db uid pid p : get db uid pid = Ok p -> p ∈ portfolios db /\ p_id p = pid /\ p_user_id p = uid.
Proof.
  unfold get. intros H. res_step H. destruct a as [q|]; [|discriminate H]. inv_res.
  apply scalar_one_some, filter_one_elem in E as [Hin Hf]. unfold of_owner in Hf. zbool.
  by apply String.eqb_eq in H, H0.
Qed.

(** ** The operations *)

Definition same_elsewhere (db db' : database) : Prop :=
  transactions db' = transactions db /\ holdings db' = holdings db /\ securities db' = securities db
  /\ tax_rules db' = tax_rules db /\ ohlcv db' = ohlcv db.

Lemma create_inv db new_id now uid body db' p :
  rows_ok (portfolios db) -> new_id ∉ map p_id (portfolios db) ->
  create db new_id now uid body = Ok (db', p) ->
  p = mkPortfolio new_id uid (pc_name body) (pc_description body) (pc_base_currency body) (pc_is_default body) now /\
  portfolios db' = ((if pc_is_default body then unset_default uid (portfolios db) else portfolios db) ++ [p])%list /\
  rows_ok (portfolios db') /\ same_elsewhere db db'.
Proof.
  intros Hok Hid Hc. unfold create in Hc. res_step Hc. unfold conflict in E.
  destruct (insert_portfolio _ _) as [l|[]] eqn:Ei; try discriminate E. inv_res.
  apply insert_rows_ok in Ei as [-> Hl]; [done|..].
  - destruct (pc_is_default body); [by apply unset_rows_ok|done].
  - destruct (pc_is_default body); [by rewrite (proj1 (unset_columns uid _))|done].
Qed.

Lemma update_inv db uid pid body db' p' :
  rows_ok (portfolios db) -> update db uid pid body = Ok (db', p') ->
  exists p, p ∈ portfolios db /\ p_id p = pid /\ p_user_id p = uid /\
    p' = mkPortfolio pid uid (default (p_name p) (pu_name body))
           (match pu_description body with Some d => Some d | None => p_description p end)
           (p_base_currency p) (default (p_is_default p) (pu_is_default body)) (p_created_at p) /\
    portfolios db' = put_row p_id p'
      (match pu_is_default body with
       | Some true => if p_is_default p then portfolios db else unset_default uid (portfolios db)
       | _ => portfolios db end) /\
    rows_ok (portfolios db') /\ same_elsewhere db db'.
Proof.
  intros Hok Hu. unfold update in Hu. res_step Hu. apply get_some in E as (Hin & Hid & Huid).
  set (rows := match pu_is_default body with Some true => _ | _ => _ end) in *.
  set (q := mkPortfolio _ _ _ _ _ _ _) in *. cbv zeta in Hu. res_step Hu. inv_res. unfold conflict in E.
  destruct (update_portfolio q rows) as [l|[]] eqn:Ei; try discriminate E. inv_res.
  assert (Hrows : rows_ok rows /\ exists r, r ∈ rows /\ p_id r = p_id a).
  { unfold rows. destruct (pu_is_default body) as [[]|]; [destruct (p_is_default a)|..]; eauto.
    split; [by apply unset_rows_ok|]. by apply unset_elem. }
  destruct Hrows as (Hrows & r & Hr & Hrid).
  apply (update_rows_ok q r) in Ei as [-> Hl]; [|done|done|done]. exists a. done.
Qed.

Inductive portfolio_step : database -> database -> Prop :=
| step_create db new_id now uid body db' p :
    new_id ∉ map p_id (portfolios db) -> create db new_id now uid body = Ok (db', p) -> portfolio_step db db'
| step_default db new_id now uid db' p :
    new_id ∉ map p_id (portfolios db) -> get_or_create_default db new_id now uid = Ok (db', p) -> portfolio_step db db'
| step_update db uid pid body db' p :
    update db uid pid body = Ok (db', p) -> portfolio_step db db'
| step_delete db uid pid db' :
    delete db uid pid = Ok db' -> portfolio_step db db'.

Lemma portfolios_ok_rows db : portfolios_ok db -> rows_ok (portfolios db).
Proof. by intros [H1 H2 H3 _ _]. Qed.

(** New rows under the constraints, nothing else changed but new keys. *)
Lemma portfolios_ok_keep db db' :
  portfolios_ok db -> rows_ok (portfolios db') -> same_elsewhere db db' ->
  (forall k, k ∈ map p_id (portfolios db) -> k ∈ map p_id (portfolios db')) -> portfolios_ok db'.
Proof.
  intros [_ _ _ Ht Hh] (H1 & H2 & H3) (E1 & E2 & _) Hk. split; [done..| |]; rewrite ?E1, ?E2; auto.
Qed.

Lemma portfolio_step_ok db db' : portfolios_ok db -> portfolio_step db db' -> portfolios_ok db'.
Proof.
  intros Hok Hstep. pose proof (portfolios_ok_rows _ Hok) as Hrows.
  destruct Hstep as [db new_id now uid body db' p Hf Hs|db new_id now uid db' p Hf Hs|db uid pid body db' p Hs|db uid pid db' Hs].
  - apply create_inv in Hs as (-> & El & Hr & Hsame); [|done|done]. apply (portfolios_ok_keep db); [done..|].
    intros k Hk. rewrite El, map_app. apply elem_of_app. left.
    destruct (pc_is_default body); [by rewrite (proj1 (unset_columns uid _))|done].
  - unfold get_or_create_default in Hs. res_step Hs. destruct a as [q|]; [by inv_res|]. res_step Hs. inv_res.
    apply insert_rows_ok in E0 as [-> Hr]; [|done|done]. apply (portfolios_ok_keep db); [done..|].
    intros k Hk. cbn [set_portfolios portfolios]. rewrite map_app. apply elem_of_app. by left.
  - apply update_inv in Hs as (q & Hq & Hid & Huid & -> & El & Hr & Hsame); [|done].
    apply (portfolios_ok_keep db); [done..|]. intros k Hk. rewrite El, put_row_keys.
    destruct (pu_is_default body) as [[]|]; [destruct (p_is_default q)|..]; try done.
    by rewrite (proj1 (unset_columns uid _)).
  - unfold delete in Hs. res_step Hs. case_match; [discriminate Hs|]. inv_res.
    destruct Hok as [H1 H2 H3 Ht Hh]. apply (rows_ok_filter (fun q => negb (String.eqb (p_id q) (p_id a)))) in Hrows as (R1 & R2 & R3).
    assert (Hk : forall k, k ∈ map p_id (portfolios db) -> k <> p_id a ->
      k ∈ map p_id (List.filter (fun q => negb (String.eqb (p_id q) (p_id a))) (portfolios db))).
    { intros k (q & -> & Hq)%list_elem_of_fmap Hne. apply list_elem_of_fmap_2, elem_of_lfilter.
      split; [done|]. by apply negb_true_iff, String.eqb_neq. }
    split; cbn [portfolios transactions holdings]; [done..| |].
    + intros t [Hin Hne]%elem_of_lfilter. apply negb_true_iff, String.eqb_neq in Hne. auto.
    + intros h [Hin Hne]%elem_of_lfilter. apply negb_true_iff, String.eqb_neq in Hne. auto.
Qed.


(** ** The default portfolio *)

Lemma one_default uid l p : rows_ok l -> p ∈ l -> default_of uid p = true -> List.filter (default_of uid) l = [p].
Proof.
  intros (_ & _ & H3) Hin Hd. specialize (H3 uid).
  assert (Hp : p ∈ List.filter (default_of uid) l) by by apply elem_of_lfilter.
  destruct (List.filter (default_of uid) l) as [|q [|]]; [by apply not_elem_of_nil in Hp| |cbn in H3; lia].
  by apply list_elem_of_singleton in Hp as ->.
Qed.

Lemma unset_owner uid v l : uid <> v -> List.filter (of_owner v) (unset_default uid l) = List.filter (of_owner v) l.
Proof.
  intros Hne. unfold unset_default. induction l as [|p ps IH]; cbn [map List.filter]; [done|].
  destruct (default_of uid p) eqn:E; [|by rewrite IH]. unfold default_of, of_owner in *. cbn [with_default p_user_id].
  zbool. apply String.eqb_eq in H as ->. by rewrite (proj2 (String.eqb_neq _ _) Hne).
Qed.

Lemma put_row_owner p r v l :
  NoDup (map p_id l) -> r ∈ l -> p_id r = p_id p -> p_user_id r = p_user_id p -> p_user_id p <> v ->
  List.filter (of_owner v) (put_row p_id p l) = List.filter (of_owner v) l.
Proof.
  intros Hnd Hr Hid Hu Hne. rewrite (filter_put_row p_id (of_owner v) p r); [|done..|].
  - unfold put_row. rewrite <- (map_id (List.filter _ l)) at 2. apply map_ext_in.
    intros q [Hq%list_elem_of_In Ho]%filter_In. destruct (String.eqb_spec (p_id q) (p_id p)) as [E|]; [|done].
    exfalso. apply Hne. unfold of_owner in Ho. apply String.eqb_eq in Ho as <-. rewrite <- Hu.
    f_equal. eapply nodup_id_inj; [done..|congruence].
  - unfold of_owner. by rewrite Hu.
Qed.

(** A user's portfolio made the default, by either operation. *)
Inductive made_default (db : database) (uid : string) : database -> Portfolio -> Prop :=
| made_by_create new_id now body db' p :
    new_id ∉ map p_id (portfolios db) -> pc_is_default body = true ->
    create db new_id now uid body = Ok (db', p) -> made_default db uid db' p
| made_by_update pid body db' p :
    pu_is_default body = Some true -> update db uid pid body = Ok (db', p) -> made_default db uid db' p.

Lemma made_default_inv db uid db' p :
  portfolios_ok db -> made_default db uid db' p ->
  rows_ok (portfolios db') /\ p ∈ portfolios db' /\ p_user_id p = uid /\ p_is_default p = true /\
  forall v, v <> uid -> List.filter (of_owner v) (portfolios db') = List.filter (of_owner v) (portfolios db).
Proof.
  intros Hok%portfolios_ok_rows [new_id now body db2 q Hf Hb Hc|pid body db2 q Hb Hu].
  - apply create_inv in Hc as (-> & El & Hr & _); [|done|done]. rewrite Hb in El |- *. rewrite El. cbn.
    split_and!; [by rewrite <- El|apply elem_of_app; right; by constructor|done..|].
    intros v Hv. rewrite List.filter_app, unset_owner by done. cbn [List.filter]. unfold of_owner at 2. cbn.
    by rewrite (proj2 (String.eqb_neq uid v)), app_nil_r.
  - apply update_inv in Hu as (r & Hin & Hid & Huid & -> & El & Hr & _); [|done]. rewrite Hb in El |- *.
    set (l := if p_is_default r then _ else _) in El.
    assert (Hl : map p_id l = map p_id (portfolios db) /\
      (forall v, v <> uid -> List.filter (of_owner v) l = List.filter (of_owner v) (portfolios db)) /\
      exists r', r' ∈ l /\ p_id r' = pid /\ p_user_id r' = uid).
    { unfold l. destruct (p_is_default r); [by split_and!; [..|exists r]|]. split_and!.
      - apply unset_columns.
      - intros v Hv. by apply unset_owner.
      - exists (if default_of uid r then with_default false r else r). split.
        + unfold unset_default. by apply (list_elem_of_fmap_2 (fun p => if default_of uid p then with_default false p else p)).
        + by destruct (default_of uid r). }
    destruct Hl as (Hk & Hv & r' & Hr' & Hid' & Hu'). rewrite El.
    split_and!; [by rewrite <- El| |done..|].
    + apply elem_of_put_row_same. cbn [p_id]. rewrite Hk, <- Hid. by apply list_elem_of_fmap_2.
    + intros v Hne. rewrite (put_row_owner _ r'); [by apply Hv| |done..|by apply not_eq_sym].
      rewrite Hk. apply Hok.
Qed.

(** Making a portfolio the default, at creation or later, replaces the
    user's default: the portfolio becomes the only default row of the user, the
    one every request without a portfolio id is served from, it cannot be
    deleted, and no row of another user changes. *)
Theorem set_default_correct db uid db' p :
  portfolios_ok db -> made_default db uid db' p ->
  List.filter (default_of uid) (portfolios db') = [p] /\
  (forall new_id now, get_or_create_default db' new_id now uid = Ok (db', p)) /\
  delete db' uid (p_id p) = Exn (ServiceError 400) /\
  forall v, v <> uid -> List.filter (of_owner v) (portfolios db') = List.filter (of_owner v) (portfolios db).
Proof.
  intros Hok Hm. apply made_default_inv in Hm as (Hr & Hin & Hu & Hd & Hv); [|done].
  assert (Hdef : default_of uid p = true) by (unfold default_of, of_owner; by rewrite Hd, Hu, String.eqb_refl).
  pose proof (one_default uid _ p Hr Hin Hdef) as H1. split_and!; [done| | |done].
  - intros new_id now. unfold get_or_create_default. by rewrite H1.
  - unfold delete, get. rewrite filter_and.
    rewrite (filter_unique p_id _ p); [|by apply Hr|done]. cbn [List.filter]. unfold of_owner.
    rewrite Hu, String.eqb_refl. cbn. by rewrite Hd.
Qed.

(** ** A default that cannot be created *)

Definition two_users : database :=
  mkDb [mkPortfolio "p1" "u" "Main" (Some "Default portfolio"%string) "PKR" true 10;
        mkPortfolio "p2" "v" "Main" (Some "Default portfolio"%string) "PKR" true 11] [] [] [] [] [].

Definition demote : PortfolioUpdate := mkPortfolioUpdate None None (Some false).

Lemma two_users_ok : portfolios_ok two_users.
Proof.
  split; [apply (bool_decide_unpack _); vm_compute; exact I..| | |].
  - intros uid. cbn [two_users portfolios List.filter]. unfold default_of, of_owner. cbn [p_user_id p_is_default].
    destruct (String.eqb_spec "u" uid) as [<-|]; [by cbn; lia|]. destruct (String.eqb "v" uid); cbn; lia.
  - intros t Ht. cbn in Ht. by apply not_elem_of_nil in Ht.
  - intros h Hh. cbn in Hh. by apply not_elem_of_nil in Hh.
Qed.

(** A user may demote the default portfolio, and is then without one; a
    request that needs it inserts a second portfolio named Main and fails with
    an [IntegrityError], not the 409, whenever it is made. *)
Lemma default_creation_fails :
  exists db p, update two_users "u" "p1" demote = Ok (db, p) /\ portfolios_ok db /\
    forall new_id now, get_or_create_default db new_id now "u" = Exn IntegrityError.
Proof.
  destruct (update two_users "u" "p1" demote) as [[db p]|e] eqn:E; [|discriminate E].
  exists db, p. split; [done|]. split.
  - apply (portfolio_step_ok two_users); [exact two_users_ok|by eapply step_update].
  - vm_compute in E. injection E as <- <-. intros. reflexivity.
Qed.

Definition growth : PortfolioCreate := mkCreate "Growth" None "PKR" true.


Lemma set_default_correct_witness :
  exists db p, create two_users "p3" 12 "u" growth = Ok (db, p) /\
  List.filter (default_of "u") (portfolios db) = [p] /\
  (forall new_id now, get_or_create_default db new_id now "u" = Ok (db, p)) /\
  delete db "u" (p_id p) = Exn (ServiceError 400) /\
  forall v, v <> "u"%string -> List.filter (of_owner v) (portfolios db) = List.filter (of_owner v) (portfolios two_users).
Proof.
  destruct (create two_users "p3" 12 "u" growth) as [[db p]|e] eqn:E; [|discriminate E].
  exists db, p. split; [done|]. apply (set_default_correct two_users); [exact two_users_ok|].
  apply (made_by_create _ _ "p3" 12 growth); [|done..]. apply (bool_decide_unpack _). vm_compute. exact I.
Defined.

(** ** Other users *)

(** What a request of a user on the portfolios leaves behind: the constraints, the
    portfolios of the others, and every other table. *)
Definition keeps (uid : string) (db db' : database) : Prop :=
  portfolios_ok db' /\ same_elsewhere db db' /\
  (forall v, v <> uid -> List.filter (of_owner v) (portfolios db') = List.filter (of_owner v) (portfolios db)) /\
  (forall k, k ∈ map p_id (portfolios db) -> k ∈ map p_id (portfolios db')).

Lemma owner_snoc uid v l p : p_user_id p = uid -> v <> uid -> List.filter (of_owner v) (l ++ [p])%list = List.filter (of_owner v) l.
Proof.
  intros Hu Hv. rewrite List.filter_app. cbn [List.filter]. unfold of_owner at 2.
  by rewrite Hu, (proj2 (String.eqb_neq uid v)), app_nil_r.
Qed.

Lemma create_keeps db new_id now uid body db' p :
  portfolios_ok db -> new_id ∉ map p_id (portfolios db) -> create db new_id now uid body = Ok (db', p) -> keeps uid db db'.
Proof.
  intros Hok Hf Hs. split; [by eapply portfolio_step_ok, step_create|].
  apply create_inv in Hs as (-> & El & _ & Hsame); [|by apply portfolios_ok_rows|done]. split; [done|]. rewrite El. split.
  - intros v Hv. rewrite (owner_snoc uid) by done. destruct (pc_is_default body); [by apply unset_owner, not_eq_sym|done].
  - intros k Hk. rewrite map_app. apply elem_of_app. left.
    destruct (pc_is_default body); [by rewrite (proj1 (unset_columns uid _))|done].
Qed.

Lemma default_keeps db new_id now uid db' p :
  portfolios_ok db -> new_id ∉ map p_id (portfolios db) -> get_or_create_default db new_id now uid = Ok (db', p) -> keeps uid db db'.
Proof.
  intros Hok Hf Hs. split; [by eapply portfolio_step_ok, step_default|].
  unfold get_or_create_default in Hs. res_step Hs. destruct a as [q|]; [by inv_res|]. res_step Hs. inv_res.
  apply insert_rows_ok in E0 as [-> _]; [|by apply portfolios_ok_rows|done]. split; [done|]. cbn [set_portfolios portfolios]. split.
  - intros v Hv. by apply (owner_snoc uid).
  - intros k Hk. rewrite map_app. apply elem_of_app. by left.
Qed.

Lemma update_keeps db uid pid body db' p : portfolios_ok db -> update db uid pid body = Ok (db', p) -> keeps uid db db'.
Proof.
  intros Hok Hs. split; [by eapply portfolio_step_ok, step_update|].
  apply update_inv in Hs as (q & Hq & Hid & Huid & -> & El & _ & Hsame); [|by apply portfolios_ok_rows]. split; [done|].
  set (rows := match pu_is_default body with Some true => _ | _ => _ end) in *.
  assert (Hrows : map p_id rows = map p_id (portfolios db) /\
    (forall v, v <> uid -> List.filter (of_owner v) rows = List.filter (of_owner v) (portfolios db)) /\
    exists r, r ∈ rows /\ p_id r = pid /\ p_user_id r = uid).
  { assert (H0 : map p_id (portfolios db) = map p_id (portfolios db) /\
      (forall v, v <> uid -> List.filter (of_owner v) (portfolios db) = List.filter (of_owner v) (portfolios db)) /\
      exists r, r ∈ portfolios db /\ p_id r = pid /\ p_user_id r = uid) by (split_and!; [done|done|by exists q]).
    unfold rows. destruct (pu_is_default body) as [[]|]; [destruct (p_is_default q)|..]; try done. split_and!.
    - apply unset_columns.
    - intros v Hv. by apply unset_owner, not_eq_sym.
    - exists (if default_of uid q then with_default false q else q). split; [|by destruct (default_of uid q)].
      unfold unset_default. by apply (list_elem_of_fmap_2 (fun p => if default_of uid p then with_default false p else p)). }
  destruct Hrows as (Hk & Hv & r & Hr & Hrid & Hru). rewrite El. split.
  - intros v Hne. rewrite (put_row_owner _ r); [by apply Hv| |done..|by apply not_eq_sym]. rewrite Hk. apply Hok.
  - intros k. by rewrite put_row_keys, Hk.
Qed.
