(* ===== verification/Benchmark.v ===== *)
(** * Benchmark: anonymous peer comparison

    [psx_ingest/benchmark/aggregate.py], the nightly job that writes one row of
    [peer_aggregates] per bucket of opted-in users, and the read side of the API:
    [psx_api/benchmark/buckets.py] and [psx_api/services/benchmark_service.py].

    Market values and returns are floats ([PyFloat]); the queries compute exact
    numerics first.  PostgreSQL sorts NULL first in descending order; rows SQL
    leaves unordered keep the order of the table. *)

From Stdlib Require Import Ascii.
From S2P Require Import Prelude Dicts Dates Decimal Cgt Ledger PortfolioSummary PyText PyFloat Redis Auth.

(** JSON values of the aggregate columns, and objects with their keys in order. *)
Inductive json := JStr (s : string) | JInt (n : Z) | JNum (x : float).
Abbreviation object := (list (string * json)).

Record PeerAggregate := mkPeer {
  pa_archetype : string;
  pa_age_bucket : string;
  pa_size_bucket : string;
  pa_sample_count : Z;
  pa_median_ytd : option dec;
  pa_top_holdings : list object;
  pa_sector_allocation : list object;
  pa_computed_at : Z;
}.

Record bench_db := mkBench {
  bn_ledger : database;
  bn_users : list User;
  bn_peers : list PeerAggregate;
}.

Definition MIN_BUCKET_SAMPLES : Z := 5.

(** ** Buckets *)

Definition age_years (dob today : Z) : Z :=
  let '(ty, tm, td) := ymd_of today in
  let '(dy, dm, dd) := ymd_of dob in
  ty - dy - (if ((tm <? dm) || ((tm =? dm) && (td <? dd)))%bool then 1 else 0).

Definition _age_bucket (dob : option Z) (today : Z) : string :=
  match dob with
  | None => "unknown"
  | Some dob =>
      let years := age_years dob today in
      if years <? 25 then "18-24" else if years <? 35 then "25-34" else if years <? 45 then "35-44"
      else if years <? 55 then "45-54" else "55+"
  end.

Definition _size_bucket (value : option float) : string :=
  match value with
  | None => "unknown"
  | Some v =>
      if (v <? lit 100000 0)%float then "<100K" else if (v <? lit 500000 0)%float then "100K-500K"
      else if (v <? lit 2000000 0)%float then "500K-2M" else if (v <? lit 10000000 0)%float then "2M-10M"
      else "10M+"
  end.

(** The API's copies. *)
Definition age_bucket (dob : option Z) (today : Z) : string :=
  match dob with
  | None => "unknown"
  | Some dob =>
      let years := age_years dob today in
      if years <? 25 then "18-24" else if years <? 35 then "25-34" else if years <? 45 then "35-44"
      else if years <? 55 then "45-54" else "55+"
  end.

Definition size_bucket (value : option dec) : string :=
  match value with
  | None => "unknown"
  | Some d =>
      let v := float_of_dec d in
      if (v <? lit 100000 0)%float then "<100K" else if (v <? lit 500000 0)%float then "100K-500K"
      else if (v <? lit 2000000 0)%float then "500K-2M" else if (v <? lit 10000000 0)%float then "2M-10M"
      else "10M+"
  end.

Definition archetype_bucket (archetype : option string) : string :=
  match archetype with None | Some EmptyString => "unknown" | Some a => a end.

(** ** The portfolio of a user, as the job sees it *)

(** [JOIN LATERAL (SELECT close ... ORDER BY date DESC LIMIT 1) ON TRUE]: no
    row, the holding drops out; a row without a close, NULL. *)
Definition lateral_close (db : database) (until : option Z) (symbol : string) : option (option dec) :=
  match sort_by (fun a b => o_date b <=? o_date a)
          (List.filter (fun o => (String.eqb (o_symbol o) symbol
             && match until with Some d => o_date o <=? d | None => true end)%bool) (ohlcv db)) with
  | [] => None
  | o :: _ => Some (o_close o)
  end.

Definition user_holdings (db : database) (uid : string) : list HoldingsSnapshot :=
  flat_map (fun h => map (fun _ => h)
     (List.filter (fun p => (String.eqb (p_id p) (h_portfolio_id h) && String.eqb (p_user_id p) uid)%bool)
        (portfolios db))) (holdings db).

Definition valued (db : database) (until : option Z) (hs : list HoldingsSnapshot)
    : list (HoldingsSnapshot * option dec) :=
  flat_map (fun h => match lateral_close db until (h_symbol h) with
                     | Some c => [(h, option_map (sql_mul (h_quantity h)) c)]
                     | None => []
                     end) hs.

(** [COALESCE(SUM(h.quantity * o.close), 0)] *)
Definition market_total (vs : list (HoldingsSnapshot * option dec)) : dec := sql_sum (omap snd vs).

(** [ORDER BY mv DESC] *)
Definition mv_desc (a b : string * string * option dec) : bool :=
  match a.2, b.2 with
  | None, _ => true
  | Some _, None => false
  | Some x, Some y => (y <=? x)%dec
  end.

Definition holding_rows (db : database) (vs : list (HoldingsSnapshot * option dec))
    : list (string * string * option dec) :=
  sort_by mv_desc
    (flat_map (fun v => map (fun s => (h_symbol v.1, s_sector s, v.2))
       (List.filter (fun s => String.eqb (s_symbol s) (h_symbol v.1)) (securities db))) vs).

Record portfolio_shape := mkShape {
  sh_market_value : option float;
  sh_ytd_return : option float;
  sh_top_holdings : list string;
  sh_sector_allocation : list (string * float);
}.

(** [sector_mv[sector or "unknown"] += float(mv or 0.0)] *)
Definition sector_mv (rows : list (string * string * option dec)) : list (string * float) :=
  fold_left (fun d r =>
    dict_alter (fun o => (default fzero o + match r.2 with Some mv => float_of_dec mv | None => fzero end)%float)
      (match r.1.2 with EmptyString => "unknown"%string | s => s end) d) rows [].

Definition _summarise_portfolio (db : database) (uid : string) (today : Z) : res portfolio_shape :=
  let vs := valued db None (user_holdings db uid) in
  let market_value := float_of_dec (market_total vs) in
  if (market_value <=? fzero)%float then Ok (mkShape None None [] []) else
  let jan1 := first_of_year (year_of today) in
  let jan1_value := float_of_dec (market_total (valued db (Some jan1) (user_holdings db uid))) in
  let! ytd_return :=
    if (fzero <? jan1_value)%float then
      let! q := fdiv (market_value - jan1_value)%float jan1_value in Ok (Some (q * lit 100 0)%float)
    else Ok None in
  let rows := holding_rows db vs in
  let! allocation :=
    map_res (fun p => let! q := fdiv p.2 market_value in Ok (p.1, fround 2 (q * lit 100 0)%float)) (sector_mv rows) in
  Ok (mkShape (Some market_value) (option_map (fround 4) ytd_return) (take 10 (map (fun r => r.1.1) rows)) allocation).

(** ** Samples of the opted-in users *)

Record UserSample := mkSample {
  us_user_id : string;
  us_archetype : string;
  us_age_bucket : string;
  us_size_bucket : string;
  us_ytd_return_pct : option float;
  us_top_holdings : list string;
  us_sector_allocation : list (string * float);
}.

Definition sample_of (db : database) (today : Z) (u : User) : res UserSample :=
  let! portfolio := _summarise_portfolio db (u_id u) today in
  Ok (mkSample (u_id u) (default "unknown"%string (u_risk_archetype u))
        (_age_bucket (u_date_of_birth u) today) (_size_bucket (sh_market_value portfolio))
        (sh_ytd_return portfolio) (sh_top_holdings portfolio) (sh_sector_allocation portfolio)).

Definition opted_in (db : bench_db) : list User := List.filter u_share_anonymously (bn_users db).

Definition _load_samples (db : bench_db) (today : Z) : res (list UserSample) :=
  map_res (sample_of (bn_ledger db) today) (opted_in db).

(** ** One bucket *)

(** [statistics.median] of a non-empty list. *)
Definition median (l : list float) : float :=
  let s := sort_by fleb l in
  let n := length l in
  if Nat.odd n then nth (n / 2)%nat s fzero
  else fdiv_ieee (nth (n / 2 - 1)%nat s fzero + nth (n / 2)%nat s fzero)%float (lit 2 0).

Record bucket_payload := mkPayload {
  bp_sample_count : Z;
  bp_median_ytd : option float;
  bp_top_holdings : list object;
  bp_sector_allocation : list object;
}.

(** [Counter.most_common(10)]: the largest counts, first seen first. *)
Definition most_common (counter : list (string * Z)) : list (string * Z) :=
  take 10 (sort_by (fun a b => b.2 <=? a.2) counter).

Definition count_holdings (samples : list UserSample) : list (string * Z) :=
  fold_left (fun c sym => dict_alter (fun o => default 0 o + 1) sym c)
    (flat_map us_top_holdings samples) [].

Definition sector_weights (samples : list UserSample) : list (string * list float) :=
  fold_left (fun d p => dict_alter (fun o => (default [] o ++ [p.2])%list) p.1 d)
    (flat_map us_sector_allocation samples) [].

Definition _aggregate_bucket (samples : list UserSample) : bucket_payload :=
  let ytd := omap us_ytd_return_pct samples in
  mkPayload (Z.of_nat (length samples))
    (match ytd with [] => None | _ => Some (fround 4 (median ytd)) end)
    (map (fun p => [("symbol"%string, JStr p.1); ("frequency"%string, JInt p.2)])
       (most_common (count_holdings samples)))
    (map (fun p => [("sector"%string, JStr p.1); ("median_pct"%string, JNum (fround 2 (median p.2)))])
       (sort_by (fun a b => String.leb a.1 b.1) (sector_weights samples))).

(** ** Persistence *)

Definition bucket_key : Type := string * string * string.
Definition key_of_sample (s : UserSample) : bucket_key := (us_archetype s, us_age_bucket s, us_size_bucket s).
Definition key_of_peer (r : PeerAggregate) : bucket_key := (pa_archetype r, pa_age_bucket r, pa_size_bucket r).

(** INSERT ... ON CONFLICT DO UPDATE. *)
Definition _upsert_bucket (now : Z) (key : bucket_key) (payload : bucket_payload) (peers : list PeerAggregate)
    : res (list PeerAggregate) :=
  let! median := match bp_median_ytd payload with
                 | None => Ok None
                 | Some x => let! d := numeric_of_float 10 4 x in Ok (Some d)
                 end in
  let r := mkPeer key.1.1 key.1.2 key.2 (bp_sample_count payload) median
             (bp_top_holdings payload) (bp_sector_allocation payload) now in
  Ok (if existsb (fun q => bool_decide (key_of_peer q = key)) peers
      then map (fun q => if bool_decide (key_of_peer q = key) then r else q) peers
      else peers ++ [r])%list.

Record AggregateSummary := mkSummary {
  users_considered : Z;
  buckets_written : Z;
  buckets_suppressed : Z;
}.

Definition grouped (samples : list UserSample) : list (bucket_key * list UserSample) :=
  fold_left (fun d s => dict_alter (fun o => (default [] o ++ [s])%list) (key_of_sample s) d) samples [].

Definition aggregate_step (now : Z) (st : list PeerAggregate * AggregateSummary)
    (g : bucket_key * list UserSample) : res (list PeerAggregate * AggregateSummary) :=
  let '(peers, sm) := st in
  let payload := _aggregate_bucket g.2 in
  if bp_sample_count payload <? MIN_BUCKET_SAMPLES then
    Ok (peers, mkSummary (users_considered sm) (buckets_written sm) (buckets_suppressed sm + 1))
  else
    let! peers := _upsert_bucket now g.1 payload peers in
    Ok (peers, mkSummary (users_considered sm) (buckets_written sm + 1) (buckets_suppressed sm)).

Definition run_aggregation (db : bench_db) (today now : Z) : res (list PeerAggregate * AggregateSummary) :=
  let! samples := _load_samples db today in
  fold_res (aggregate_step now) (bn_peers db, mkSummary (Z.of_nat (length samples)) 0 0) (grouped samples).

(** ** The panel *)

(** [str.title] after [replace("_", " ")], ASCII. *)
Fixpoint title_chars (start : bool) (l : list ascii) : list ascii :=
  match l with
  | [] => []
  | c :: rest =>
      let c := if bool_decide (c = "_"%char) then " "%char else c in
      let letter := negb (bool_decide (lower_char c = upper_char c)) in
      (if start then upper_char c else lower_char c) :: title_chars (negb letter) rest
  end.

Definition bucket_label (archetype age size : string) : string :=
  let pretty_arche := if String.eqb archetype "unknown" then "Unspecified profile"%string
                      else text (title_chars true (chars archetype)) in
  let age_str := if String.eqb age "unknown" then "Unknown age"%string else age in
  let size_str := if String.eqb size "unknown" then "Unknown portfolio size"%string else (size +:+ " PKR")%string in
  (pretty_arche +:+ " · " +:+ age_str +:+ " · " +:+ size_str)%string.

(** [percentile_rank]: how many percent of the values lie below. *)
Definition percentile_rank (value : float) (distribution : list float) : res Z :=
  match distribution with
  | [] => Ok 50
  | _ =>
      let below := Z.of_nat (length (List.filter (fun v => (v <? value)%float) distribution)) in
      let! q := fdiv (float_of_Z below) (float_of_Z (Z.of_nat (length distribution))) in
      round_int (q * lit 100 0)%float
  end.

Inductive panel_result :=
| NoPortfolio
| Unavailable (bucket_label : string) (sample_count : Z) (user_ytd_return_pct : float)
    (user_top_sector : option (string * float))
| Available (bucket_label : string) (sample_count : Z) (user_ytd_return_pct : float)
    (median_ytd_return_pct : option float) (percentile_rank : option Z)
    (user_top_sector : option (string * float)) (peer_top_sector : option (json * float))
    (peer_top_holdings : list object).

Record panel_totals := mkTotals {
  tot_value : dec;
  tot_invested : dec;
  tot_return : dec;
  tot_sectors : list (string * dec);
}.

Definition panel_step (db : database) (is_filer : bool) (today : Z) (t : panel_totals) (p : Portfolio)
    : res panel_totals :=
  let! data := summary db (p_id p) is_filer today in
  Ok (mkTotals (tot_value t + ps_current_value data)%dec (tot_invested t + ps_total_invested data)%dec
        (tot_return t + ps_unrealized data)%dec
        (fold_left (fun d row => dict_add (sa_sector row) (sa_value row) d) (ps_sectors data) (tot_sectors t))).

(** [max(d.items(), key=...)]: the first of the largest. *)
Definition top_entry (d : list (string * dec)) : option (string * dec) :=
  match d with
  | [] => None
  | p :: rest => Some (fold_left (fun best q => if (best.2 <? q.2)%dec then q else best) rest p)
  end.

Definition field (k : string) (o : object) : option json :=
  option_map snd (List.find (fun p => String.eqb p.1 k) o).

(** [r.get("pct", 0)] as a sort key; a string is not comparable with a number. *)
Definition sector_key (o : object) : res float :=
  match field "pct" o with
  | None => Ok fzero
  | Some (JInt n) => Ok (float_of_Z n)
  | Some (JNum x) => Ok x
  | Some (JStr _) => Exn TypeError
  end.

Definition peer_sectors (rows : list object) : res (list object) :=
  let! keyed := map_res (fun o => let! k := sector_key o in Ok (k, o)) rows in
  Ok (map snd (sort_by (fun a b => fleb b.1 a.1) keyed)).

(** [peer_sectors[0]["sector"]], [float(peer_sectors[0]["pct"])] *)
Definition top_peer_sector (rows : list object) : res (option (json * float)) :=
  let! sorted := peer_sectors rows in
  match sorted with
  | [] => Ok None
  | o :: _ =>
      match field "sector" o, field "pct" o with
      | Some s, Some _ => let! pct := sector_key o in Ok (Some (s, pct))
      | _, _ => Exn KeyError
      end
  end.

Definition percentile (ytd median : float) : res Z :=
  if (median <? ytd)%float then
    let! d := int_of_float (fabs (ytd - median)%float) in Ok (60 + Z.min 35 d)
  else
    let! d := int_of_float (fabs (median - ytd)%float) in Ok (Z.max 5 (40 - d)).

Definition panel (db : bench_db) (user : User) (today : Z) : res panel_result :=
  match List.filter (fun p => String.eqb (p_user_id p) (u_id user)) (portfolios (bn_ledger db)) with
  | [] => Ok NoPortfolio
  | portfolios =>
      let! t := fold_res (panel_step (bn_ledger db) (u_is_filer user) today)
                  (mkTotals dzero dzero dzero []) portfolios in
      let! ytd_pct :=
        if (dzero <? tot_invested t)%dec then
          let! q := ddiv (tot_return t) (tot_invested t) in Ok (q * mkdec 100 0)%dec
        else Ok dzero in
      let! top :=
        match top_entry (tot_sectors t) with
        | Some (s, v) =>
            if (dzero <? tot_value t)%dec then
              let! q := ddiv v (tot_value t) in Ok (Some (s, float_of_dec (q * mkdec 100 0)%dec))
            else Ok None
        | None => Ok None
        end in
      let arch := archetype_bucket (u_risk_archetype user) in
      let age := age_bucket (u_date_of_birth user) today in
      let size := size_bucket (Some (tot_value t)) in
      let label := bucket_label arch age size in
      let ytd := float_of_dec ytd_pct in
      let! agg := scalar_one_or_none
        (List.filter (fun r => bool_decide (key_of_peer r = (arch, age, size))) (bn_peers db)) in
      match agg with
      | None => Ok (Unavailable label 0 ytd top)
      | Some agg =>
          if pa_sample_count agg <? MIN_BUCKET_SAMPLES then Ok (Unavailable label (pa_sample_count agg) ytd top)
          else
            let median_ytd := option_map float_of_dec (pa_median_ytd agg) in
            let! pct_rank := match median_ytd with
                             | Some m => let! r := percentile ytd m in Ok (Some r)
                             | None => Ok None
                             end in
            let! peer := top_peer_sector (pa_sector_allocation agg) in
            Ok (Available label (pa_sample_count agg) ytd median_ytd pct_rank top peer (pa_top_holdings agg))
      end
  end.
