(* ===== verification/BenchmarkCorrect.v ===== *)
(** * BenchmarkCorrect: the privacy floor of the aggregates, and their reader

    [aggregation_correct]: what a run of the nightly job writes, for whom, and
    on whose data it depends.  [panel_never_available]: the job and the panel
    disagree on the name of a JSON field, so that no comparison is ever shown. *)

From S2P Require Import Prelude Dicts Dates Decimal Cgt Ledger PortfolioSummary PyText PyFloat Redis Auth Benchmark.

(** Grouping values by a key. *)
Section group.
Context {A K V : Type} `{EqDecision K} (key : A -> K) (val : A -> V).

Definition group (l : list A) : list (K * list V) :=
  fold_left (fun d x => dict_alter (fun o => (default [] o ++ [val x])%list) (key x) d) l [].

Definition values_of (k : K) (l : list A) : list V := map val (List.filter (fun x => bool_decide (key x = k)) l).

Lemma group_spec l :
  NoDup (map fst (group l)) /\
  forall k, dict_get k (group l) = match values_of k l with [] => None | vs => Some vs end.
Proof.
  induction l as [|x l [IH1 IH2]] using rev_ind; [split; [apply NoDup_nil_2|done]|].
  unfold group. rewrite fold_left_app. cbn [fold_left]. fold (group l). split; [by apply dict_alter_nodup|].
  intros k. rewrite dict_alter_get. unfold values_of. rewrite List.filter_app, map_app. cbn [List.filter].
  fold (values_of k l). rewrite !IH2. destruct (decide (k = key x)) as [->|Hne].
  - rewrite bool_decide_true by done. cbn [map]. destruct (values_of (key x) l); cbn; done.
  - rewrite bool_decide_false by done. cbn [map]. rewrite app_nil_r. done.
Qed.

Lemma group_elem l k vs : (k, vs) ∈ group l <-> vs = values_of k l /\ vs <> [].
Proof.
  destruct (group_spec l) as [Hnd Hget]. rewrite <- dict_get_elem, Hget by done.
  destruct (values_of k l) as [|v ws]; split; [done|by intros [-> ?]|by intros [= <-]|by intros [-> _]].
Qed.
End group.

Lemma values_of_id {A K} `{EqDecision K} (key : A -> K) k l :
  values_of key (fun x => x) k l = List.filter (fun x => bool_decide (key x = k)) l.
Proof. apply map_id. Qed.

(** ** Writing one bucket *)

Definition bucket_rows (k : bucket_key) (ps : list PeerAggregate) : list PeerAggregate :=
  List.filter (fun r => bool_decide (key_of_peer r = k)) ps.

(** The row the payload of [members] makes. *)
Definition row_of (now : Z) (k : bucket_key) (members : list UserSample) (r : PeerAggregate) : Prop :=
  let payload := _aggregate_bucket members in
  key_of_peer r = k /\ pa_sample_count r = Z.of_nat (length members) /\
  pa_top_holdings r = bp_top_holdings payload /\ pa_sector_allocation r = bp_sector_allocation payload /\
  pa_computed_at r = now /\
  match bp_median_ytd payload with
  | None => pa_median_ytd r = None
  | Some x => exists d, numeric_of_float 10 4 x = Ok d /\ pa_median_ytd r = Some d
  end.

Lemma bucket_rows_nodup k ps r :
  NoDup (map key_of_peer ps) -> r ∈ ps -> key_of_peer r = k -> bucket_rows k ps = [r].
Proof.
  unfold bucket_rows. induction ps as [|q ps IH]; cbn [map List.filter]; intros Hnd Hr Hk; [by apply not_elem_of_nil in Hr|].
  apply list.NoDup_cons in Hnd as [Hq Hnd]. apply elem_of_cons in Hr as [->|Hr].
  - rewrite bool_decide_true by done. f_equal. apply filter_nil_iff. intros q' Hq'.
    apply bool_decide_false. intros E. apply Hq. rewrite Hk, <- E. by apply list_elem_of_fmap_2.
  - rewrite bool_decide_false; [by apply IH|]. intros E. apply Hq. rewrite E, <- Hk. by apply list_elem_of_fmap_2.
Qed.

Lemma upsert_spec now k members ps ps' :
  NoDup (map key_of_peer ps) -> _upsert_bucket now k (_aggregate_bucket members) ps = Ok ps' ->
  NoDup (map key_of_peer ps') /\ (exists r, bucket_rows k ps' = [r] /\ row_of now k members r) /\
  forall k', k' <> k -> bucket_rows k' ps' = bucket_rows k' ps.
Proof.
  intros Hnd. unfold _upsert_bucket. intros H. res_step H. inv_res.
  set (r := mkPeer _ _ _ _ _ _ _ _).
  assert (Hk : key_of_peer r = k) by (destruct k as [[? ?] ?]; done).
  assert (Hrow : row_of now k members r).
  { unfold row_of. split_and!; [done..|]. cbn [r pa_median_ytd].
    destruct (bp_median_ytd _); [|congruence]. res_step E. injection E as <-. eauto. }
  destruct (existsb _ ps) eqn:Ex.
  - apply existsb_exists in Ex as (q & Hq%list_elem_of_In & Eq%bool_decide_eq_true).
    set (put := fun q => if bool_decide (key_of_peer q = k) then r else q).
    assert (Hkeys : forall l, map key_of_peer (map put l) = map key_of_peer l).
    { intros l. rewrite map_map. apply map_ext. intros x. unfold put. case_bool_decide; congruence. }
    assert (Hnd' : NoDup (map key_of_peer (map put ps))) by by rewrite Hkeys.
    split_and!; [done| |].
    + exists r. split; [|done]. apply bucket_rows_nodup; [done| |done].
      assert (Er : r = put q) by (unfold put; by rewrite bool_decide_true).
      rewrite Er. by apply (list_elem_of_fmap_2 put).
    + intros k' Hne. unfold bucket_rows. clear Hnd Hq Hnd'. induction ps as [|x xs IH]; cbn [map List.filter]; [done|].
      rewrite IH. destruct (decide (key_of_peer x = k')) as [E'|E'].
      * assert (Ep : put x = x) by (unfold put; rewrite bool_decide_false; congruence). by rewrite Ep.
      * assert (Ep : key_of_peer (put x) = key_of_peer x) by (specialize (Hkeys [x]); cbn in Hkeys; congruence).
        rewrite Ep. by rewrite bool_decide_false.
  - apply existsb_filter in Ex. split_and!.
    + rewrite map_app. apply NoDup_snoc; [done|]. rewrite Hk. intros (q & Eq & Hq)%list_elem_of_fmap.
      assert (Hin : q ∈ List.filter (fun q => bool_decide (key_of_peer q = k)) ps).
      { apply elem_of_lfilter. split; [done|]. by apply bool_decide_true. }
      rewrite Ex in Hin. by apply not_elem_of_nil in Hin.
    + exists r. split; [|done]. unfold bucket_rows. rewrite List.filter_app, Ex. cbn [List.filter app].
      by rewrite bool_decide_true.
    + intros k' Hne. unfold bucket_rows. rewrite List.filter_app. cbn [List.filter].
      rewrite bool_decide_false by congruence. apply app_nil_r.
Qed.

Lemma run_fold now gs ps sm ps' sm' :
  NoDup (map fst gs) -> NoDup (map key_of_peer ps) ->
  fold_res (aggregate_step now) (ps, sm) gs = Ok (ps', sm') ->
  NoDup (map key_of_peer ps') /\
  (forall k ms, (k, ms) ∈ gs -> MIN_BUCKET_SAMPLES <= Z.of_nat (length ms) ->
     exists r, bucket_rows k ps' = [r] /\ row_of now k ms r) /\
  (forall k, (forall ms, (k, ms) ∈ gs -> Z.of_nat (length ms) < MIN_BUCKET_SAMPLES) ->
     bucket_rows k ps' = bucket_rows k ps) /\
  users_considered sm' = users_considered sm /\
  buckets_written sm' + buckets_suppressed sm' = buckets_written sm + buckets_suppressed sm + Z.of_nat (length gs).
Proof.
  revert ps sm; induction gs as [|[k0 ms0] gs IH]; intros ps sm Hg Hnd H; cbn [fold_res] in H.
  - inv_res. split_and!; [done| |done|done|cbn; lia]. intros k ms Hin. by apply not_elem_of_nil in Hin.
  - cbn [map fst] in Hg. apply list.NoDup_cons in Hg as [Hk0 Hg]. res_step H. destruct a as [ps1 sm1].
    assert (Hother : forall k ms, (k, ms) ∈ gs -> k <> k0).
    { intros k ms Hin ->. apply Hk0. by apply (list_elem_of_fmap_2 fst) in Hin. }
    unfold aggregate_step in E. cbn [fst snd bp_sample_count _aggregate_bucket] in E.
    destruct (Z.ltb_spec (Z.of_nat (length ms0)) MIN_BUCKET_SAMPLES) as [Hlt|Hge].
    + inv_res. apply IH in H as (H1 & H2 & H3 & H4 & H5); [|done..]. split_and!; [done| | |done|cbn in *; lia].
      * intros k ms [[= -> ->]|Hin]%elem_of_cons Hl; [lia|by apply H2].
      * intros k Hsmall. apply H3. intros ms Hin. apply Hsmall. by right.
    + res_step E. inv_res. apply upsert_spec in E0 as (Hnd1 & (r & Hr & Hrow) & Hkeep); [|done].
      apply IH in H as (H1 & H2 & H3 & H4 & H5); [|done..]. split_and!; [done| | |done|cbn in *; lia].
      * intros k ms [[= -> ->]|Hin]%elem_of_cons Hl; [|by apply H2]. exists r. split; [|done].
        rewrite H3; [done|]. intros ms Hin. by apply Hother in Hin.
      * intros k Hsmall. rewrite H3; [|intros ms Hin; apply Hsmall; by right].
        apply Hkeep. intros ->. specialize (Hsmall ms0 ltac:(by left)). lia.
Qed.

(** ** Whose data a run depends on *)

(** Databases that agree on the opted-in users and on the market. *)
Record same_for_opted_in (db db2 : bench_db) : Prop := mkSame {
  same_peers : bn_peers db2 = bn_peers db;
  same_users : opted_in db2 = opted_in db;
  same_holdings : forall u, u ∈ opted_in db ->
    user_holdings (bn_ledger db2) (u_id u) = user_holdings (bn_ledger db) (u_id u);
  same_securities : securities (bn_ledger db2) = securities (bn_ledger db);
  same_ohlcv : ohlcv (bn_ledger db2) = ohlcv (bn_ledger db);
}.

Lemma map_res_ext {A B} (f g : A -> res B) l : (forall x, x ∈ l -> f x = g x) -> map_res f l = map_res g l.
Proof.
  induction l as [|x xs IH]; intros Hf; cbn [map_res]; [done|].
  rewrite (Hf x) by (by left). rewrite IH; [done|]. intros y Hy. apply Hf. by right.
Qed.

Lemma same_samples db db2 today : same_for_opted_in db db2 -> _load_samples db2 today = _load_samples db today.
Proof.
  intros [_ Hu Hh Hs Ho]. unfold _load_samples. rewrite Hu. apply map_res_ext. intros u Hin.
  unfold sample_of, _summarise_portfolio. rewrite (Hh u Hin).
  assert (Hv : forall until hs, valued (bn_ledger db2) until hs = valued (bn_ledger db) until hs)
    by (intros; unfold valued, lateral_close; by rewrite Ho).
  rewrite !Hv. unfold holding_rows. by rewrite Hs.
Qed.

Definition members (k : bucket_key) (samples : list UserSample) : list UserSample :=
  List.filter (fun s => bool_decide (key_of_sample s = k)) samples.

Lemma aggregation_facts db today now ps sm :
  NoDup (map key_of_peer (bn_peers db)) -> run_aggregation db today now = Ok (ps, sm) ->
  exists samples, _load_samples db today = Ok samples /\ NoDup (map key_of_peer ps) /\
    (forall k, if MIN_BUCKET_SAMPLES <=? Z.of_nat (length (members k samples))
               then exists r, bucket_rows k ps = [r] /\ row_of now k (members k samples) r
               else bucket_rows k ps = bucket_rows k (bn_peers db)) /\
    users_considered sm = Z.of_nat (length (opted_in db)) /\
    buckets_written sm + buckets_suppressed sm = Z.of_nat (length (grouped samples)).
Proof.
  intros Hnd H. unfold run_aggregation in H. res_step H. rename a into samples.
  pose proof (group_spec key_of_sample (fun s => s) samples) as [Hg _].
  assert (Hmem : forall k ms, (k, ms) ∈ grouped samples <-> ms = members k samples /\ ms <> []).
  { intros k ms. unfold members. rewrite <- values_of_id. apply (group_elem key_of_sample (fun s => s)). }
  apply run_fold in H as (H1 & H2 & H3 & H4 & H5); [|done..].
  exists samples. split_and!; [done|done| | |].
  - intros k. destruct (Z.leb_spec MIN_BUCKET_SAMPLES (Z.of_nat (length (members k samples)))) as [Hl|Hl].
    + apply H2; [|done]. apply Hmem. split; [done|]. intros En. rewrite En in Hl. cbn in Hl. unfold MIN_BUCKET_SAMPLES in Hl. lia.
    + apply H3. by intros ms [-> _]%Hmem.
  - rewrite H4. cbn [users_considered]. unfold _load_samples in E. by rewrite (map_res_length _ _ _ E).
  - rewrite H5. cbn. lia.
Qed.

(** C19: A run of the aggregation writes, for every bucket with at least five
    opted-in members, the one row computed from exactly these members, and
    leaves every other bucket's row alone; every group is counted as written or
    suppressed; and the result does not depend on any user who has not opted
    in, nor on the holdings of one. *)
Theorem aggregation_correct db today now ps sm :
  NoDup (map key_of_peer (bn_peers db)) -> run_aggregation db today now = Ok (ps, sm) ->
  exists samples, _load_samples db today = Ok samples /\ NoDup (map key_of_peer ps) /\
    (forall k, if MIN_BUCKET_SAMPLES <=? Z.of_nat (length (members k samples))
               then exists r, bucket_rows k ps = [r] /\ row_of now k (members k samples) r
               else bucket_rows k ps = bucket_rows k (bn_peers db)) /\
    users_considered sm = Z.of_nat (length (opted_in db)) /\
    buckets_written sm + buckets_suppressed sm = Z.of_nat (length (grouped samples)) /\
    forall db2, same_for_opted_in db db2 -> run_aggregation db2 today now = Ok (ps, sm).
Proof.
  intros Hnd H. pose proof (aggregation_facts _ _ _ _ _ Hnd H) as (samples & Hs & H1 & H2 & H3 & H4).
  exists samples. split_and!; [done..|]. intros db2 Hsame. unfold run_aggregation in *.
  rewrite (same_samples db) by done. destruct Hsame as [-> _ _ _ _]. done.
Qed.

(** ** The panel over the rows the job writes *)

(** The foreign key of [holdings_snapshot.symbol]. *)
Definition fk_ok (db : database) : Prop :=
  forall h, h ∈ holdings db -> exists s, s ∈ securities db /\ s_symbol s = h_symbol h.

(** The tables successive runs can leave, starting from an empty one. *)
Inductive aggregated : list PeerAggregate -> Prop :=
| agg_none : aggregated []
| agg_run db today now ps sm :
    fk_ok (bn_ledger db) -> aggregated (bn_peers db) ->
    run_aggregation db today now = Ok (ps, sm) -> aggregated ps.

Lemma dict_fold_nonempty {A K V} `{EqDecision K} (key : A -> K) (f : A -> option V -> V) (l : list A) d :
  l <> [] -> fold_left (fun d x => dict_alter (f x) (key x) d) l d <> [].
Proof.
  destruct l as [|x l _] using rev_ind; [done|]. intros _. rewrite fold_left_app. cbn [fold_left].
  destruct (fold_left _ l d) as [|[k v] r]; cbn [dict_alter]; [done|]. by destruct (decide (k = key x)).
Qed.

Lemma sort_by_nonempty {A} (le : A -> A -> bool) l : l <> [] -> sort_by le l <> [].
Proof. intros Hl E. apply Hl, Permutation_nil. rewrite <- E. apply sort_by_perm. Qed.

Lemma valued_holdings db until hs v : v ∈ valued db until hs -> v.1 ∈ hs.
Proof.
  unfold valued. intros Hv%list_elem_of_In. apply in_flat_map in Hv as (h & Hh & Hv).
  destruct (lateral_close db until (h_symbol h)); [|done]. destruct Hv as [<-|[]]. by apply list_elem_of_In.
Qed.

Lemma user_holdings_elem db uid h : h ∈ user_holdings db uid -> h ∈ holdings db.
Proof.
  unfold user_holdings. intros Hh%list_elem_of_In. apply in_flat_map in Hh as (h' & Hh' & Hin).
  apply in_map_iff in Hin as (p & <- & _). by apply list_elem_of_In.
Qed.

Lemma holding_rows_nonempty db vs :
  vs <> [] -> (forall v, v ∈ vs -> exists s, s ∈ securities db /\ s_symbol s = h_symbol v.1) -> holding_rows db vs <> [].
Proof.
  intros Hvs Hfk. apply sort_by_nonempty. destruct vs as [|v vs]; [done|]. cbn [flat_map].
  destruct (Hfk v ltac:(by left)) as (s & Hs & Es). intros [Hnil _]%app_eq_nil. apply map_eq_nil in Hnil.
  assert (Hin : s ∈ List.filter (fun s => String.eqb (s_symbol s) (h_symbol v.1)) (securities db)).
  { apply elem_of_lfilter. split; [done|]. by apply String.eqb_eq. }
  rewrite Hnil in Hin. by apply not_elem_of_nil in Hin.
Qed.

(** A known size means priced holdings, and these a sector. *)
Lemma summarise_sectors db uid today sh :
  fk_ok db -> _summarise_portfolio db uid today = Ok sh -> sh_market_value sh <> None -> sh_sector_allocation sh <> [].
Proof.
  intros Hfk. unfold _summarise_portfolio. set (vs := valued db None (user_holdings db uid)).
  destruct (float_of_dec (market_total vs) <=? fzero)%float eqn:Em; [intros [= <-]; done|].
  assert (Hvs : vs <> []).
  { intros Hn. rewrite Hn in Em. discriminate Em. }
  assert (Hrows : holding_rows db vs <> []).
  { apply holding_rows_nonempty; [done|]. intros v Hv. apply Hfk. eapply user_holdings_elem. by eapply valued_holdings. }
  intros H _. res_step H. res_step H. injection H as <-. cbn [sh_sector_allocation].
  apply map_res_length in E0. intros ->. cbn in E0. unfold sector_mv in E0.
  match type of E0 with _ = length (fold_left ?g ?l ?d) => set (r := fold_left g l d) in E0; assert (Hr : r <> []) end.
  { apply (dict_fold_nonempty (fun r => match r.1.2 with EmptyString => "unknown"%string | s => s end)
      (fun r o => (default fzero o + match r.2 with Some mv => float_of_dec mv | None => fzero end)%float)). done. }
  by destruct r.
Qed.

(** Rows of a known size have sectors, under a key the panel does not know. *)
Definition row_wf (r : PeerAggregate) : Prop :=
  pa_size_bucket r <> "unknown"%string ->
  pa_sector_allocation r <> [] /\ forall o, o ∈ pa_sector_allocation r -> field "pct" o = None.

Lemma size_known db today u s :
  fk_ok db -> sample_of db today u = Ok s -> us_size_bucket s <> "unknown"%string -> us_sector_allocation s <> [].
Proof.
  intros Hfk H Hs. unfold sample_of in H. res_step H. inv_res. cbn in *.
  apply (summarise_sectors db (u_id u) today); [done..|]. by intros En; rewrite En in Hs.
Qed.

Lemma aggregate_wf ms :
  (exists s, s ∈ ms /\ us_sector_allocation s <> []) ->
  bp_sector_allocation (_aggregate_bucket ms) <> [] /\
  forall o, o ∈ bp_sector_allocation (_aggregate_bucket ms) -> field "pct" o = None.
Proof.
  intros (s & Hs & Hne). cbn [_aggregate_bucket bp_sector_allocation]. split.
  - intros En%map_eq_nil. revert En. apply sort_by_nonempty.
    apply (dict_fold_nonempty fst (fun (p : string * float) o => (default [] o ++ [p.2])%list)).
    intros En. apply Hne. destruct (us_sector_allocation s) as [|p rest] eqn:E; [done|]. exfalso.
    assert (Hp : In p (flat_map us_sector_allocation ms)).
    { apply in_flat_map. exists s. split; [by apply list_elem_of_In|]. rewrite E. by left. }
    by rewrite En in Hp.
  - by intros o (p & -> & _)%list_elem_of_fmap.
Qed.

Lemma run_wf db today now ps sm :
  fk_ok (bn_ledger db) -> NoDup (map key_of_peer (bn_peers db)) -> Forall row_wf (bn_peers db) ->
  run_aggregation db today now = Ok (ps, sm) -> NoDup (map key_of_peer ps) /\ Forall row_wf ps.
Proof.
  intros Hfk Hnd Hwf H. apply aggregation_facts in H as (samples & Hs & Hnd' & Hk & _); [|done].
  split; [done|]. apply list.Forall_forall. intros r Hr. specialize (Hk (key_of_peer r)).
  assert (Hin : r ∈ bucket_rows (key_of_peer r) ps)
    by (apply elem_of_lfilter; split; [done|by apply bool_decide_true]).
  destruct (Z.leb_spec MIN_BUCKET_SAMPLES (Z.of_nat (length (members (key_of_peer r) samples)))) as [Hl|Hl].
  - destruct Hk as (r' & Er & _ & _ & _ & Esec & _). rewrite Er in Hin. apply list_elem_of_singleton in Hin as ->.
    intros Hsize. rewrite Esec. apply aggregate_wf.
    destruct (members (key_of_peer r') samples) as [|s ms] eqn:Em; [cbn in Hl; unfold MIN_BUCKET_SAMPLES in Hl; lia|].
    exists s. split; [by left|]. assert (Hsin : s ∈ members (key_of_peer r') samples) by (rewrite Em; by left).
    apply elem_of_lfilter in Hsin as [Hsin Ek%bool_decide_eq_true].
    apply map_res_Forall2 in Hs. apply list_elem_of_lookup in Hsin as [i Hi].
    eapply Forall2_lookup_r in Hs as (u & _ & Hu); [|done]. apply (size_known _ _ _ _ Hfk Hu).
    injection Ek as _ _ Esz. congruence.
  - rewrite Hk in Hin. apply elem_of_lfilter in Hin as [Hin _]. rewrite list.Forall_forall in Hwf. by apply Hwf.
Qed.

Lemma aggregated_wf ps : aggregated ps -> NoDup (map key_of_peer ps) /\ Forall row_wf ps.
Proof.
  induction 1 as [|db today now ps sm Hfk _ [IH1 IH2] H]; [split; constructor|]. by eapply run_wf.
Qed.

Lemma sector_keys_zero rows :
  (forall o, o ∈ rows -> field "pct" o = None) ->
  map_res (fun o => let! k := sector_key o in Ok (k, o)) rows = Ok (map (fun o => (fzero, o)) rows).
Proof. intros Hf. apply map_res_ok. intros o Ho. unfold sector_key. by rewrite Hf. Qed.

Lemma no_pct_key_error rows :
  rows <> [] -> (forall o, o ∈ rows -> field "pct" o = None) -> top_peer_sector rows = Exn KeyError.
Proof.
  intros Hne Hf. unfold top_peer_sector, peer_sectors. rewrite sector_keys_zero by done. cbn [map].
  set (sorted := sort_by _ _).
  assert (Hp : map snd sorted ≡ₚ rows).
  { unfold sorted. rewrite sort_by_perm, map_map. cbn [snd]. by rewrite map_id. }
  destruct (map snd sorted) as [|o l] eqn:E; [by apply Permutation_nil in Hp|].
  assert (Ho : o ∈ rows) by (rewrite <- Hp; by left). rewrite (Hf o Ho).
  by destruct (field "sector" o).
Qed.

Lemma size_bucket_known d : size_bucket (Some d) <> "unknown"%string.
Proof. cbn [size_bucket]. repeat case_match; discriminate. Qed.

Definition is_available (r : panel_result) : bool := match r with Available _ _ _ _ _ _ _ _ => true | _ => false end.

(** Over the rows the aggregation writes, the panel never shows a
    comparison, to any user on any day: the job stores a sector's weight under
    [median_pct] and the panel reads [pct], so that each row of a known
    portfolio size ends in a [KeyError], and the panel asks for no other. *)
Theorem panel_never_available db user today :
  aggregated (bn_peers db) ->
  (forall r, panel db user today = Ok r -> is_available r = false) /\
  forall r, r ∈ bn_peers db -> pa_size_bucket r <> "unknown"%string ->
    top_peer_sector (pa_sector_allocation r) = Exn KeyError.
Proof.
  intros [_ Hwf]%aggregated_wf. rewrite list.Forall_forall in Hwf.
  assert (Hkey : forall r, r ∈ bn_peers db -> pa_size_bucket r <> "unknown"%string ->
    top_peer_sector (pa_sector_allocation r) = Exn KeyError).
  { intros r Hr Hsz. destruct (Hwf r Hr Hsz). by apply no_pct_key_error. }
  split; [|done]. intros r H. unfold panel in H.
  destruct (List.filter _ (portfolios _)) as [|p0 rest]; [by injection H as <-|].
  res_step H. res_step H. res_step H. res_step H. destruct a2 as [agg|]; [|by injection H as <-].
  destruct (pa_sample_count agg <? MIN_BUCKET_SAMPLES); [by injection H as <-|]. res_step H.
  apply scalar_one_some, filter_one_elem in E2 as [Hin Hk]. apply bool_decide_eq_true in Hk.
  rewrite Hkey in H; [discriminate H|done|]. injection Hk as _ _ ->. apply size_bucket_known.
Qed.

(** ** Examples *)

Definition ex_user (uid : string) (share : bool) : User :=
  mkUser uid (uid +:+ "@x.pk") None None None None None true false (Some "growth_seeker"%string)
    None None None None share (Some 726468) None false ∅ 0.

Definition ex_names : list string := ["u1"; "u2"; "u3"; "u4"; "u5"; "u6"]%string.

Definition ex_ledger : database :=
  mkDb (map (fun u => mkPortfolio ("p" +:+ u) u "Main" None "PKR" true 0) ex_names) []
    (map (fun u => mkHolding ("p" +:+ u) "OGDC" (mkdec 100000 (-4)) (mkdec 900000 (-4)) (mkdec 90000 (-2)) dzero dzero) ex_names)
    [mkSecurity "OGDC" "Oil and Gas Development" "Energy" true] []
    [mkOhlcv "OGDC" 739200 (Some (mkdec 1000000 (-4))); mkOhlcv "OGDC" 739300 (Some (mkdec 1250000 (-4)))].

(** Five users share their data, the sixth does not. *)
Definition ex_bench : bench_db :=
  mkBench ex_ledger (map (fun u => ex_user u (negb (String.eqb u "u6"))) ex_names) [].

Definition ex_peer : PeerAggregate :=
  mkPeer "growth_seeker" "35-44" "<100K" 5 (Some (mkdec 250000 (-4)))
    [[("symbol", JStr "OGDC"); ("frequency", JInt 5)]]%string
    [[("sector", JStr "Energy"); ("median_pct", JNum (lit 100 0))]]%string 7.

Example ex_run : run_aggregation ex_bench 739301 7 = Ok ([ex_peer], mkSummary 5 1 0).
Proof. vm_compute. reflexivity. Qed.

(** When a member leaves and four remain, the row with the data of five stays. *)
Example stale_bucket :
  run_aggregation (mkBench ex_ledger (map (fun u => ex_user u (negb (bool_decide (u ∈ ["u5"; "u6"]%string)))) ex_names) [ex_peer])
    739301 8 = Ok ([ex_peer], mkSummary 4 0 1).
Proof. vm_compute. reflexivity. Qed.

Lemma ex_fk : fk_ok ex_ledger.
Proof.
  intros h Hh. exists (mkSecurity "OGDC" "Oil and Gas Development" "Energy" true). split; [by left|].
  cbn in Hh. apply list_elem_of_In in Hh. cbn in Hh. naive_solver.
Qed.

Lemma aggregation_correct_witness :
  exists samples, _load_samples ex_bench 739301 = Ok samples /\
    bucket_rows ("growth_seeker", "35-44", "<100K")%string [ex_peer] = [ex_peer] /\
    row_of 7 ("growth_seeker", "35-44", "<100K")%string (members ("growth_seeker", "35-44", "<100K")%string samples) ex_peer /\
    forall db2, same_for_opted_in ex_bench db2 -> run_aggregation db2 739301 7 = Ok ([ex_peer], mkSummary 5 1 0).
Proof.
  destruct (aggregation_correct ex_bench 739301 7 [ex_peer] (mkSummary 5 1 0)) as (samples & Hs & _ & Hk & _ & _ & Hsame).
  - apply NoDup_nil_2.
  - exact ex_run.
  - exists samples. split; [done|]. specialize (Hk ("growth_seeker", "35-44", "<100K")%string).
    assert (Hl : length (members ("growth_seeker", "35-44", "<100K")%string samples) = 5%nat).
    { vm_compute in Hs. injection Hs as <-. vm_compute. reflexivity. }
    rewrite Hl in Hk. destruct Hk as (r & Er & Hrow). cbn in Er. injection Er as <-. split; [reflexivity|]. split; [exact Hrow|exact Hsame].
Defined.

Lemma panel_never_available_witness :
  aggregated [ex_peer] /\
  panel (mkBench ex_ledger (bn_users ex_bench) [ex_peer]) (ex_user "u1" true) 739301 = Exn KeyError /\
  (forall r, panel (mkBench ex_ledger (bn_users ex_bench) [ex_peer]) (ex_user "u1" true) 739301 = Ok r -> is_available r = false).
Proof.
  assert (Ha : aggregated [ex_peer]).
  { apply (agg_run ex_bench 739301 7 _ (mkSummary 5 1 0)); [exact ex_fk|apply agg_none|exact ex_run]. }
  split; [exact Ha|]. split; [vm_compute; reflexivity|].
  apply (panel_never_available (mkBench ex_ledger (bn_users ex_bench) [ex_peer])). exact Ha.
Defined.
