(* ===== verification/Curriculum.v ===== *)
(** * Curriculum: [psx_api/learning/curriculum.py]

    The starter lessons, each a definition of its own, the JSON shape a quiz is
    stored in and the grader.  [curriculum_answerable] holds of the content what
    the grader needs of it. *)

From Stdlib Require Import Ascii.
From S2P Require Import Prelude Decimal PyFloat.

Record QuizOption := mkOption { qo_text : string; qo_correct : bool }.
Record QuizQuestion := mkQuestion { qq_question : string; qq_options : list QuizOption }.
Record LessonContent := mkContent {
  lc_slug : string;
  lc_title : string;
  lc_category : string;
  lc_difficulty : Z;
  lc_body_md : string;
  lc_quiz : list QuizQuestion;
}.

Definition _q (q : string) (opts : list (string * bool)) : QuizQuestion :=
  mkQuestion q (map (fun o => mkOption o.1 o.2) opts).

(** The line feed and the double quote. *)
Definition lf : string := String (ascii_of_nat 10) "".
Definition dq : string := String (ascii_of_nat 34) "".

Definition lesson_what_is_a_stock : LessonContent :=
  mkContent "what-is-a-stock" "What is a stock?" "basics" 1
    ("A stock represents partial ownership of a company. When you buy 100 shares of **ENGRO**, you "
     +:+ "own a tiny slice of Engro Corporation — entitled to your share of its future profits (via "
     +:+ "dividends), your share of any sale of the company, and your share of votes at the AGM." +:+ lf
     +:+ lf
     +:+ "**Why companies issue stock**: it's a way to raise long-term capital without taking on debt. "
     +:+ "Instead of borrowing PKR 5 billion at 18% KIBOR, a company can sell shares to investors and "
     +:+ "grow without interest payments." +:+ lf +:+ lf
     +:+ "**Why people buy stock**: two return streams — capital gains (price goes up, you sell higher) "
     +:+ "and dividends (cash payouts from profits). Over the long run, equities historically beat fixed "
     +:+ "deposits and even gold in PKR terms — but with much more volatility along the way.")
    [_q "When you buy a share of stock, what do you own?"
       [("A loan to the company that pays interest", false);
        ("A small piece of the company itself", true);
        ("A guaranteed monthly payment", false);
        ("Insurance against the company failing", false)];
     _q "What are the two main return streams from owning stock?"
       [("Interest and principal", false);
        ("Dividends and capital gains", true);
        ("Rent and resale value", false);
        ("KIBOR and inflation", false)];
     _q "Why do companies issue stock?"
       [("To take on more debt", false);
        ("To raise long-term capital without interest payments", true);
        ("To force employees to invest", false);
        ("Because SECP requires it", false)]].

Definition lesson_how_psx_trading_works : LessonContent :=
  mkContent "how-psx-trading-works" "How PSX trading works" "basics" 1
    ("Pakistan Stock Exchange runs **two trading sessions** Monday to Friday: pre-open (09:15-09:30) "
     +:+ "and continuous (09:32-15:30, with a half-hour lunch on Friday). Orders flow through a broker — "
     +:+ "there is no direct market access for retail." +:+ lf +:+ lf
     +:+ "**T+2 settlement**: when you sell on Monday, cash hits your broker account on Wednesday. When "
     +:+ "you buy on Monday, the shares show up Wednesday. This matters when you're calculating your "
     +:+ "available buying power." +:+ lf +:+ lf
     +:+ "**Circuit breakers**: each stock has a 5%/7.5% intraday price limit (depending on category). "
     +:+ "The KSE-100 itself triggers a market halt on big swings.")
    [_q "What does T+2 settlement mean on PSX?"
       [("Trades execute in 2 seconds", false);
        ("Cash and shares settle 2 trading days after the trade", true);
        ("You pay 2% commission", false);
        ("You can hold for max 2 days", false)];
     _q "Can retail investors trade directly on PSX without a broker?"
       [("Yes", false);
        ("No — you must go through a registered broker", true);
        ("Only with PKR > 10M", false);
        ("Only during pre-open", false)];
     _q "What's a circuit breaker?"
       [("A daily commission cap", false);
        ("Price limit that pauses trading on extreme moves", true);
        ("The opening auction", false);
        ("A rule that closes the market on Eid", false)]].

Definition lesson_reading_pe_ratio : LessonContent :=
  mkContent "reading-pe-ratio" "Reading the P/E ratio" "analysis" 2
    ("**P/E (price-to-earnings)** is the most-watched valuation metric in equities. It's just price "
     +:+ "per share divided by earnings per share. A stock at PKR 200 with EPS of PKR 20 has a P/E of 10."
     +:+ lf +:+ lf
     +:+ "**What it tells you**: how many years of current earnings would be needed to 'pay back' the "
     +:+ "stock's price. A P/E of 10 means 10 years; a P/E of 30 means the market is paying 30 years of "
     +:+ "current profits, betting earnings will grow." +:+ lf +:+ lf
     +:+ "**On PSX**: the index has historically averaged a P/E of 7-9 — much lower than developed "
     +:+ "markets — partly because of higher KIBOR (more attractive bond yields compete with equities) "
     +:+ "and partly political risk discounts." +:+ lf +:+ lf
     +:+ "**Caveat**: P/E ignores debt. A company with high debt and a low P/E may look cheap on this "
     +:+ "metric but be carrying real leverage risk.")
    [_q "If a stock has a P/E of 15 and EPS of PKR 10, what's the price?"
       [("PKR 15", false);
        ("PKR 150", true);
        ("PKR 25", false);
        ("PKR 1.5", false)];
     _q "A higher P/E typically means…"
       [("The stock is safer", false);
        ("The market expects higher future earnings growth (or it's overvalued)", true);
        ("The stock pays a higher dividend", false);
        ("The company has less debt", false)];
     _q "What does P/E NOT account for?"
       [("Debt levels", true);
        ("Earnings", false);
        ("Stock price", false);
        ("Number of shares outstanding", false)]].

Definition lesson_diversification : LessonContent :=
  mkContent "diversification" "Why diversification matters" "discipline" 1
    ("Putting all your money in one stock is gambling, not investing. The math is simple: if any "
     +:+ "single stock has a 5% chance of going to zero in any given decade (a generous estimate for a "
     +:+ "well-known PSX name), your wealth has the same 5% chance." +:+ lf +:+ lf
     +:+ "Spread that across **10 uncorrelated stocks** and the chance that all 10 go to zero is 0.05¹⁰ = "
     +:+ "essentially zero. This is called *idiosyncratic risk reduction* — the kind of risk "
     +:+ "diversification can eliminate." +:+ lf +:+ lf
     +:+ "**The catch**: diversification only reduces *single-stock* risk. It doesn't help against a "
     +:+ "market-wide crash, currency devaluation, or a regulatory shock that hits everyone. For those "
     +:+ "you need to diversify across asset classes (bonds, gold, real estate), not just stocks.")
    [_q "What kind of risk does diversification primarily reduce?"
       [("Stock-specific (idiosyncratic) risk", true);
        ("Inflation risk", false);
        ("Currency risk", false);
        ("All risk equally", false)];
     _q "Holding 10 uncorrelated stocks vs 1 stock means…"
       [("Same risk", false);
        ("Much lower chance of losing everything to a single-name failure", true);
        ("Higher fees", false);
        ("Lower expected returns", false)];
     _q "Diversification does NOT protect against…"
       [("A single company going bankrupt", false);
        ("A market-wide crash", true);
        ("A wrong stock pick", false);
        ("Sector rotation", false)]].

Definition lesson_rsi_explained : LessonContent :=
  mkContent "rsi-explained" "What RSI actually measures" "analysis" 2
    ("**RSI** (Relative Strength Index) is a 0-100 momentum gauge. It compares the size of recent "
     +:+ "up-day moves to recent down-day moves over a window (default 14 days)." +:+ lf +:+ lf
     +:+ "**Above 70**: 'overbought.' Recent gains have been sharp; historically a pullback or sideways "
     +:+ "move follows more often than continued gains." +:+ lf +:+ lf
     +:+ "**Below 30**: 'oversold.' Recent losses have been sharp; a bounce becomes more likely." +:+ lf
     +:+ lf +:+ "**The trap**: RSI can stay overbought (>70) for weeks during a strong trend. Selling just "
     +:+ "because RSI is 75 in the middle of a sustained rally has cost many traders enormous gains. RSI "
     +:+ "is a *contributing* signal, never a standalone trade rule.")
    [_q "RSI runs on what scale?"
       [("0-100", true);
        ("-100 to +100", false);
        ("0-1", false);
        ("0-50", false)];
     _q "An RSI reading of 78 traditionally suggests…"
       [("Strong buy", false);
        ("Overbought — pullback risk has increased", true);
        ("The stock will crash tomorrow", false);
        ("RSI can never be that high", false)];
     _q "Should you sell automatically when RSI > 70?"
       [("Yes, always", false);
        ("No — RSI can stay overbought for weeks in strong trends", true);
        ("Only on Mondays", false);
        ("Only if you're a non-filer", false)]].

Definition lesson_psx_tax_basics : LessonContent :=
  mkContent "psx-tax-basics" "How taxes work on PSX gains" "tax" 2
    ("Two main taxes hit your trades: **CGT (Capital Gains Tax)** and minor charges (FED, CVT, "
     +:+ "brokerage)." +:+ lf +:+ lf
     +:+ "**CGT after the Finance Act 2024** (effective 1 July 2024 for newly-acquired securities): a "
     +:+ "flat **15% for filers** and **45% for non-filers**, regardless of holding period. Older "
     +:+ "securities follow the pre-2024 progressive holding-period schedule." +:+ lf +:+ lf
     +:+ "**NCCPL deducts CGT at source** — your broker hands NCCPL the tax money before you ever see it. "
     +:+ "You don't write a separate cheque. You will see it on your account statement." +:+ lf +:+ lf
     +:+ "**Filer status is huge**: the rate jumps from 15% → 45% if you're not on the FBR Active "
     +:+ "Taxpayer List. For an active trader this can be the difference between a profitable year and a "
     +:+ "break-even one. Filing your annual return is free; do it.")
    [_q "Under Finance Act 2024, what's the flat CGT rate for filers?"
       [("10%", false);
        ("15%", true);
        ("25%", false);
        ("0% if held > 6 years", false)];
     _q "Who deducts your CGT before it reaches you?"
       [("FBR directly", false);
        ("NCCPL (the central counterparty)", true);
        ("Your bank", false);
        ("You file it manually each quarter", false)];
     _q "Approximately how much higher is non-filer CGT vs filer under FA-2024?"
       [("2× higher", false);
        ("3× higher (15% vs 45%)", true);
        ("Same", false);
        ("0.5× lower", false)]].

Definition lesson_shariah_investing_basics : LessonContent :=
  mkContent "shariah-investing-basics" "Shariah-compliant investing on PSX" "shariah" 2
    ("**Shariah-compliant equities** exclude companies with revenue from interest-based banking, "
     +:+ "alcohol, gambling, conventional insurance, and certain prohibited industries. Companies must "
     +:+ "also pass financial-ratio screens (debt/total assets < 37%, interest income < 5% of revenue)."
     +:+ lf +:+ lf
     +:+ "**On PSX**: Meezan Bank publishes the **KMI All-Share Index** and **KMI-30** based on these "
     +:+ "criteria, reviewed every 6 months. Stocks can be added or removed." +:+ lf +:+ lf
     +:+ "**Purification**: even compliant companies sometimes earn a small amount of interest on cash "
     +:+ "deposits. The standard practice is to **donate 5% of cash dividends** received from compliant "
     +:+ "stocks as purification. The capital gain itself is permissible without purification — only the "
     +:+ "dividend portion.")
    [_q "Which index lists Shariah-compliant PSX stocks?"
       [("KSE-100", false);
        ("KMI-30 / KMI All-Share", true);
        ("PSX-30", false);
        ("Banks-100", false)];
     _q "What's the typical purification rate on KMI dividends?"
       [("0%", false);
        ("5% of cash dividends", true);
        ("100%", false);
        ("Same as CGT", false)];
     _q "Does purification apply to capital gains too?"
       [("Yes, on the full sale price", false);
        ("No — the price-gain itself is permissible without purification", true);
        ("Only on bonus shares", false);
        ("Only for non-filers", false)]].

Definition lesson_position_sizing : LessonContent :=
  mkContent "position-sizing" "Position sizing — how much to put in one trade" "discipline" 2
    ("**The single most important rule**: never bet so much on one trade that being wrong wipes out "
     +:+ "your account." +:+ lf +:+ lf
     +:+ "A simple framework: **risk 1-2% of total capital per trade**. If your portfolio is PKR 500,000 "
     +:+ "and you set a stop-loss 10% below entry, your position size is:" +:+ lf +:+ lf
     +:+ "  - 1% of 500,000 = 5,000 PKR risk budget" +:+ lf
     +:+ "  - 5,000 / (10% stop) = PKR 50,000 position size" +:+ lf +:+ lf
     +:+ "That's 10% of capital in the trade. Doesn't feel like much? That's the point. Survivable losses "
     +:+ "keep you in the game long enough to learn. Account-killers end careers in week one.")
    [_q "A common rule for max risk per trade?"
       [("50% of capital", false);
        ("1-2% of capital", true);
        ("100% of capital", false);
        ("Whatever your gut says", false)];
     _q "If you risk 2% of a PKR 1M portfolio with a 5% stop, what's the position size?"
       [("PKR 100,000", false);
        ("PKR 400,000", true);
        ("PKR 1,000,000", false);
        ("PKR 50,000", false)];
     _q "Why does small position sizing matter?"
       [("Brokers reward it", false);
        ("It keeps individual losses survivable so you stay in the game long enough to learn", true);
        ("It minimises taxes", false);
        ("It's required by SECP", false)]].

Definition lesson_bonus_vs_rights_vs_dividend : LessonContent :=
  mkContent "bonus-vs-rights-vs-dividend" "Bonus shares, rights issues, and dividends" "basics" 2
    ("Three forms of corporate distribution you'll see on PSX:" +:+ lf +:+ lf
     +:+ "**Cash dividend**: company pays you PKR per share owned. Cash hits your account on the payment "
     +:+ "date. Taxed at source." +:+ lf +:+ lf
     +:+ "**Bonus shares**: company issues new shares from retained earnings, distributed pro-rata. Your "
     +:+ "share count goes up but the price-per-share drops proportionally — your total ownership value "
     +:+ "is unchanged on day one. **Buying bonus shares before the ex-date** is a common misconception "
     +:+ "that doesn't actually create wealth." +:+ lf +:+ lf
     +:+ "**Rights issue**: company offers existing shareholders the right to buy *more* shares at a "
     +:+ "discounted price. You can subscribe (commit cash) or sell the rights letter. Ignoring rights "
     +:+ "you've been allotted is throwing away free option value.")
    [_q "Bonus shares — does receiving them increase the value of your holding immediately?"
       [("Yes, free shares = free money", false);
        ("No — share count goes up but price drops proportionally; total value unchanged on day 1", true);
        ("Only for filers", false);
        ("Only if you sell within 24 hours", false)];
     _q "What is a rights issue?"
       [("A free distribution of new shares", false);
        ("An offer to buy MORE shares at a discounted price", true);
        ("A vote on board members", false);
        ("A tax refund", false)];
     _q "Cash dividends are typically…"
       [("Tax-free in Pakistan", false);
        ("Taxed at source (withholding tax applied by the company)", true);
        ("Paid in shares only", false);
        ("Available only to non-filers", false)]].

Definition lesson_when_not_to_invest : LessonContent :=
  mkContent "when-not-to-invest" "When NOT to be in the market" "discipline" 1
    ("Equity investing assumes you can leave money invested for **at least 5 years** without needing "
     +:+ "to liquidate during a drawdown. If you don't have that runway, equities aren't the right "
     +:+ "vehicle." +:+ lf +:+ lf
     +:+ "**Don't invest money you'll need within 2 years.** Down payments, wedding expenses, planned "
     +:+ "tuition, business capital — all of this belongs in T-Bills or savings, not equities." +:+ lf +:+ lf
     +:+ "**Don't invest borrowed money.** A loss combined with debt service charges compounds the damage."
     +:+ lf +:+ lf
     +:+ "**Don't invest without an emergency fund.** 3-6 months of expenses in cash protects you from "
     +:+ "being forced to sell stock at the worst possible time.")
    [_q "What's the minimum reasonable horizon for equity investing?"
       [("3 weeks", false);
        ("3 months", false);
        ("5+ years", true);
        ("It doesn't matter", false)];
     _q "How much emergency fund should you have BEFORE investing in equities?"
       [("None — invest first", false);
        ("3-6 months of expenses in cash", true);
        ("Equal to your portfolio", false);
        ("Enough to buy one Bitcoin", false)];
     _q "Should you invest borrowed money in stocks?"
       [("Yes, leverage is great", false);
        ("No — losses combined with debt service can compound the damage", true);
        ("Only on Tuesdays", false);
        ("Only if you're a filer", false)]].

Definition CURRICULUM : list LessonContent :=
  [lesson_what_is_a_stock;
   lesson_how_psx_trading_works;
   lesson_reading_pe_ratio;
   lesson_diversification;
   lesson_rsi_explained;
   lesson_psx_tax_basics;
   lesson_shariah_investing_basics;
   lesson_position_sizing;
   lesson_bonus_vs_rights_vs_dividend;
   lesson_when_not_to_invest].

(** ** Stored quizzes and grading *)

(** The JSON objects of [lessons.quiz]. *)
Record json_option := mkJsonOption { jo_text : string; jo_correct : bool }.
Record json_question := mkJsonQuestion { jq_question : string; jq_options : list json_option }.

Definition quiz_to_jsonable (quiz : list QuizQuestion) : list json_question :=
  map (fun q => mkJsonQuestion (qq_question q)
                  (map (fun o => mkJsonOption (qo_text o) (qo_correct o)) (qq_options q))) quiz.

(** [0 <= idx < len(opts) and opts[idx].get("correct")] *)
Definition answer_correct (q : json_question) (idx : Z) : bool :=
  ((0 <=? idx) && (idx <? Z.of_nat (length (jq_options q)))
   && match jq_options q !! Z.to_nat idx with Some o => jo_correct o | None => false end)%bool.

Fixpoint count_correct (quiz : list json_question) (answers : list Z) (correct : Z) : Z :=
  match quiz, answers with
  | q :: qs, a :: rest => count_correct qs rest (if answer_correct q a then correct + 1 else correct)
  | _, _ => correct
  end.

(** [round(correct / n * 100)] *)
Definition percentage (correct n : Z) : res Z :=
  let! q := fdiv (float_of_Z correct) (float_of_Z n) in round_int (q * lit 100 0)%float.

Definition grade_attempt (quiz : list json_question) (answer_indices : list Z) : res Z :=
  match quiz with
  | [] => Ok 0
  | _ =>
      if negb (Nat.eqb (length answer_indices) (length quiz)) then Ok 0
      else percentage (count_correct quiz answer_indices 0) (Z.of_nat (length quiz))
  end.

(** ** The content *)

(** The index of the option to choose, if exactly one is right. *)
Definition single_answer (q : QuizQuestion) : bool :=
  Nat.eqb (length (List.filter qo_correct (qq_options q))) 1.

Lemma curriculum_checked :
  forallb (fun c => ((3 <=? Z.of_nat (length (lc_quiz c))) && forallb single_answer (lc_quiz c)
                     && (1 <=? lc_difficulty c) && (lc_difficulty c <=? 3))%bool) CURRICULUM = true /\
  NoDup (map lc_slug CURRICULUM).
Proof. split; [vm_compute; reflexivity|]. apply (bool_decide_unpack _). vm_compute. exact I. Qed.

(** ** The grader *)

(** The float arithmetic of the score gives the rounded percentage, for quizzes
    of up to thirty-nine questions (23 right of 40 already score 57, not 58). *)
Lemma percentage_exact : forall n c, 0 < n <= 39 -> 0 <= c <= n -> percentage c n = Ok (div_half_even (100 * c) n).
Proof.
  assert (Hall : forallb (fun n => forallb (fun c =>
      match percentage (Z.of_nat c) (Z.of_nat n) with
      | Ok k => k =? div_half_even (100 * Z.of_nat c) (Z.of_nat n)
      | Exn _ => false
      end) (seq 0 (S n))) (seq 1 39) = true) by (vm_compute; reflexivity).
  intros n c Hn Hc. rewrite forallb_forall in Hall. specialize (Hall (Z.to_nat n) ltac:(apply in_seq; lia)).
  rewrite forallb_forall in Hall. specialize (Hall (Z.to_nat c) ltac:(apply in_seq; lia)).
  rewrite !Z2Nat.id in Hall by lia. destruct (percentage c n) as [k|]; [|discriminate Hall]. zbool. by rewrite Hall.
Qed.
