(* ===== verification/Lessons.v ===== *)
(** * Lessons: [psx_api/services/lesson_service.py]

    The lessons and the progress of the users as tables.  Reading a lesson
    starts it; a quiz attempt keeps the best score and the first pass.
    [quiz_history_correct] says what any history of attempts leaves,
    [answers_hidden] that reading a lesson does not reveal its answers. *)

From S2P Require Import Prelude Decimal Ledger PyFloat Curriculum.

Record Lesson := mkLesson {
  ls_id : Z;
  ls_slug : string;
  ls_title : string;
  ls_category : string;
  ls_difficulty : Z;
  ls_body_md : string;
  ls_quiz : list json_question;
  ls_display_order : Z;
}.

Record UserLessonProgress := mkProgress {
  pr_user_id : string;
  pr_lesson_id : Z;
  pr_started_at : option Z;
  pr_completed_at : option Z;
  pr_quiz_score : option Z;
  pr_last_seen_at : Z;
}.

Record lessons_db := mkLessons { lessons : list Lesson; progress : list UserLessonProgress }.

(** ** Seeding *)

Fixpoint seed_rows (existing : list string) (contents : list LessonContent) (i next_id : Z) : list Lesson :=
  match contents with
  | [] => []
  | c :: rest =>
      if existsb (String.eqb (lc_slug c)) existing then seed_rows existing rest (i + 1) next_id
      else mkLesson next_id (lc_slug c) (lc_title c) (lc_category c) (lc_difficulty c) (lc_body_md c)
             (quiz_to_jsonable (lc_quiz c)) i :: seed_rows existing rest (i + 1) (next_id + 1)
  end.

(** The flush checks the unique slug. *)
Definition seed_curriculum (db : lessons_db) (next_id : Z) : res (lessons_db * Z) :=
  let rows := seed_rows (map ls_slug (lessons db)) CURRICULUM 0 next_id in
  if bool_decide (NoDup (map ls_slug (lessons db ++ rows)))
  then Ok (mkLessons (lessons db ++ rows) (progress db), Z.of_nat (length rows))
  else Exn IntegrityError.

(** ** Reading *)

Definition is_progress (uid : string) (lesson_id : Z) (p : UserLessonProgress) : bool :=
  (String.eqb (pr_user_id p) uid && (pr_lesson_id p =? lesson_id))%bool.

Definition find_lesson (db : lessons_db) (slug : string) : res (option Lesson) :=
  scalar_one_or_none (List.filter (fun l => String.eqb (ls_slug l) slug) (lessons db)).
Definition find_progress (db : lessons_db) (uid : string) (lesson_id : Z) : res (option UserLessonProgress) :=
  scalar_one_or_none (List.filter (is_progress uid lesson_id) (progress db)).

(** The row is changed in place, or added under its primary key. *)
Definition store_progress (found : bool) (p : UserLessonProgress) (db : lessons_db) : lessons_db :=
  mkLessons (lessons db)
    (if found then map (fun q => if is_progress (pr_user_id p) (pr_lesson_id p) q then p else q) (progress db)
     else progress db ++ [p]).

Record lesson_summary := mkSummaryRow {
  lr_id : Z;
  lr_slug : string;
  lr_title : string;
  lr_category : string;
  lr_difficulty : Z;
  lr_started : bool;
  lr_completed : bool;
  lr_quiz_score : option Z;
}.

Definition lesson_le (a b : Lesson) : bool :=
  ((ls_display_order a <? ls_display_order b)
   || ((ls_display_order a =? ls_display_order b) && (ls_id a <=? ls_id b)))%bool.

(** [LEFT OUTER JOIN]: one row per match, or one without. *)
Definition list_with_progress (db : lessons_db) (uid : string) : list lesson_summary :=
  flat_map (fun l =>
    let row o := mkSummaryRow (ls_id l) (ls_slug l) (ls_title l) (ls_category l) (ls_difficulty l)
                   (bool_decide (is_Some (o ≫= pr_started_at))) (bool_decide (is_Some (o ≫= pr_completed_at)))
                   (o ≫= pr_quiz_score) in
    match List.filter (is_progress uid (ls_id l)) (progress db) with
    | [] => [row None]
    | ps => map (fun p => row (Some p)) ps
    end) (sort_by lesson_le (lessons db)).

Record lesson_detail := mkDetail {
  ld_id : Z;
  ld_slug : string;
  ld_title : string;
  ld_category : string;
  ld_difficulty : Z;
  ld_body_md : string;
  ld_quiz : list (string * list string);
  ld_started_at : option Z;
  ld_completed_at : option Z;
  ld_quiz_score : option Z;
}.

(** The options without their [correct] flag. *)
Definition scrubbed_quiz (quiz : list json_question) : list (string * list string) :=
  map (fun q => (jq_question q, map jo_text (jq_options q))) quiz.

Definition get_with_progress (db : lessons_db) (now : Z) (uid slug : string)
    : res (lessons_db * option lesson_detail) :=
  let! found := find_lesson db slug in
  match found with
  | None => Ok (db, None)
  | Some lesson =>
      let! existing := find_progress db uid (ls_id lesson) in
      let p := match existing with
               | None => mkProgress uid (ls_id lesson) (Some now) None None now
               | Some p => mkProgress (pr_user_id p) (pr_lesson_id p) (pr_started_at p) (pr_completed_at p)
                             (pr_quiz_score p) now
               end in
      Ok (store_progress (bool_decide (is_Some existing)) p db,
          Some (mkDetail (ls_id lesson) (ls_slug lesson) (ls_title lesson) (ls_category lesson)
                  (ls_difficulty lesson) (ls_body_md lesson) (scrubbed_quiz (ls_quiz lesson))
                  (pr_started_at p) (pr_completed_at p) (pr_quiz_score p)))
  end.

(** ** Attempts *)

Record quiz_result := mkResult { qr_score : Z; qr_completed : bool; qr_correct_indices : list Z }.

(** The index of the first correct option. *)
Fixpoint first_correct (opts : list json_option) (idx : Z) : list Z :=
  match opts with
  | [] => []
  | o :: rest => if jo_correct o then [idx] else first_correct rest (idx + 1)
  end.

Definition correct_indices (quiz : list json_question) : list Z :=
  flat_map (fun q => first_correct (jq_options q) 0) quiz.

(** [None] is the answer with "error", which the route turns into its 404. *)
Definition submit_quiz (db : lessons_db) (now : Z) (uid slug : string) (answers : list Z)
    : res (lessons_db * option quiz_result) :=
  let! found := find_lesson db slug in
  match found with
  | None => Ok (db, None)
  | Some lesson =>
      let! score := grade_attempt (ls_quiz lesson) answers in
      let completed := 70 <=? score in
      let! existing := find_progress db uid (ls_id lesson) in
      let p :=
        match existing with
        | None => mkProgress uid (ls_id lesson) (Some now) (if completed then Some now else None) (Some score) now
        | Some p =>
            let best := match pr_quiz_score p with
                        | None => Some score
                        | Some old => if old <? score then Some score else Some old
                        end in
            let completed_at := match pr_completed_at p with
                                | None => if completed then Some now else None
                                | Some t => Some t
                                end in
            mkProgress (pr_user_id p) (pr_lesson_id p) (pr_started_at p) completed_at best now
        end in
      Ok (store_progress (bool_decide (is_Some existing)) p db,
          Some (mkResult score completed (correct_indices (ls_quiz lesson))))
  end.

(** ** Seeding twice *)

Lemma seed_rows_slugs existing cs i n :
  map ls_slug (seed_rows existing cs i n)
  = List.filter (fun s => negb (existsb (String.eqb s) existing)) (map lc_slug cs).
Proof.
  revert i n; induction cs as [|c cs IH]; intros i n; cbn [seed_rows map List.filter]; [done|].
  destruct (existsb _ existing); cbn [negb map ls_slug]; by rewrite IH.
Qed.

Lemma seed_rows_none existing cs i n :
  (forall c, c ∈ cs -> lc_slug c ∈ existing) -> seed_rows existing cs i n = [].
Proof.
  revert i n; induction cs as [|c cs IH]; intros i n Hin; cbn [seed_rows]; [done|].
  assert (He : existsb (String.eqb (lc_slug c)) existing = true).
  { apply existsb_exists. exists (lc_slug c). split; [|by apply String.eqb_refl].
    apply list_elem_of_In, Hin. by left. }
  rewrite He. apply IH. intros; apply Hin. by right.
Qed.

(** Seeding never fails, keeps the lessons there are and adds the missing
    ones; seeding again adds nothing. *)
Lemma seed_curriculum_correct db n :
  NoDup (map ls_slug (lessons db)) ->
  exists db' k, seed_curriculum db n = Ok (db', k) /\ NoDup (map ls_slug (lessons db')) /\
    lessons db `prefix_of` lessons db' /\
    (forall c, c ∈ CURRICULUM -> lc_slug c ∈ map ls_slug (lessons db')) /\
    forall m, seed_curriculum db' m = Ok (db', 0).
Proof.
  intros Hnd. unfold seed_curriculum. set (rows := seed_rows _ CURRICULUM 0 n).
  assert (Hslugs : map ls_slug rows = List.filter (fun s => negb (existsb (String.eqb s) (map ls_slug (lessons db))))
    (map lc_slug CURRICULUM)) by apply seed_rows_slugs.
  assert (Hmem : forall s x, existsb (String.eqb s) x = true <-> s ∈ x).
  { intros s x. rewrite existsb_exists. split.
    - intros (y & Hy & ->%String.eqb_eq). by apply list_elem_of_In.
    - intros Hs. exists s. split; [by apply list_elem_of_In|by apply String.eqb_refl]. }
  assert (Hall : NoDup (map ls_slug (lessons db ++ rows))).
  { rewrite map_app, Hslugs. apply list.NoDup_app. split; [done|]. split.
    - intros s Hs Hin%elem_of_lfilter. destruct Hin as [_ Hn]. apply negb_true_iff in Hn.
      by rewrite (proj2 (Hmem s _) Hs) in Hn.
    - apply NoDup_lfilter. apply curriculum_checked. }
  assert (Hc : forall c, c ∈ CURRICULUM -> lc_slug c ∈ map ls_slug (lessons db ++ rows)).
  { intros c Hc. rewrite map_app, Hslugs, elem_of_app, elem_of_lfilter.
    destruct (existsb (String.eqb (lc_slug c)) (map ls_slug (lessons db))) eqn:E.
    - left. by apply Hmem.
    - right. split; [by apply list_elem_of_fmap_2|done]. }
  rewrite bool_decide_true by done. eexists _, _. split; [done|]. cbn [lessons progress].
  split_and!; [done|by eexists|done|]. intros m. rewrite seed_rows_none by done. cbn [length].
  by rewrite app_nil_r, bool_decide_true.
Qed.

(** ** A history of attempts *)

(** The score as a rounded percentage. *)
Definition score_of (quiz : list json_question) (answers : list Z) : Z :=
  if (Nat.eqb (length quiz) 0 || negb (Nat.eqb (length answers) (length quiz)))%bool then 0
  else div_half_even (100 * count_correct quiz answers 0) (Z.of_nat (length quiz)).

Lemma count_correct_bounds quiz answers k :
  k <= count_correct quiz answers k <= k + Z.of_nat (length quiz).
Proof.
  revert answers k; induction quiz as [|q qs IH]; intros [|a rest] k; cbn [count_correct length]; [lia..|].
  destruct (answer_correct q a).
  - specialize (IH rest (k + 1)). lia.
  - specialize (IH rest k). lia.
Qed.

Lemma percent_bounds c n : 0 < n -> 0 <= c <= n -> 0 <= div_half_even (100 * c) n <= 100.
Proof.
  intros Hn Hc. unfold div_half_even. pose proof (Z.div_mod (100 * c) n). pose proof (Z.mod_pos_bound (100 * c) n).
  assert (0 <= 100 * c / n) by (apply Z.div_pos; lia). repeat case_match; zbool; nia.
Qed.

Lemma grade_attempt_score quiz answers :
  (length quiz <= 39)%nat -> grade_attempt quiz answers = Ok (score_of quiz answers) /\ 0 <= score_of quiz answers <= 100.
Proof.
  intros Hl. unfold grade_attempt, score_of. pose proof (count_correct_bounds quiz answers 0).
  destruct quiz as [|q qs]; [split; [done|cbn; lia]|]. set (quiz := q :: qs) in *.
  replace (Nat.eqb (length quiz) 0) with false by done. cbn [orb].
  destruct (negb _); [split; [done|lia]|]. assert (0 < Z.of_nat (length quiz)) by (unfold quiz; cbn [length]; lia).
  rewrite percentage_exact by lia. split; [done|]. apply percent_bounds; lia.
Qed.

Definition attempts (db : lessons_db) (uid slug : string) (subs : list (Z * list Z)) : res lessons_db :=
  fold_res (fun db s => let! r := submit_quiz db s.1 uid slug s.2 in Ok r.1) db subs.

Definition passed (quiz : list json_question) (s : Z * list Z) : bool := 70 <=? score_of quiz s.2.
Definition best_score (quiz : list json_question) (subs : list (Z * list Z)) (from : Z) : Z :=
  fold_left (fun m s => Z.max m (score_of quiz s.2)) subs from.

Lemma best_score_bounds quiz subs from :
  (length quiz <= 39)%nat -> 0 <= from <= 100 -> 0 <= best_score quiz subs from <= 100.
Proof.
  intros Hl. revert from; induction subs as [|s subs IH]; intros from Hf; [done|]. cbn [best_score fold_left].
  apply IH. pose proof (grade_attempt_score quiz s.2 Hl). lia.
Qed.

(** The best score is one of the scores, and the largest. *)
Lemma best_score_spec quiz t a subs :
  let b := best_score quiz subs (score_of quiz a) in
  (exists s, s ∈ (t, a) :: subs /\ score_of quiz s.2 = b) /\ forall s, s ∈ (t, a) :: subs -> score_of quiz s.2 <= b.
Proof.
  revert t a; induction subs as [|[t' a'] subs IH]; intros t a b.
  - split; [exists (t, a); split; [by left|done]|]. by intros s ->%list_elem_of_singleton.
  - subst b. cbn [best_score fold_left snd].
    destruct (Z.max_spec (score_of quiz a) (score_of quiz a')) as [[Hlt ->]|[Hge ->]].
    + destruct (IH t' a') as [(s & Hs & Es) Hmax]. split; [exists s; split; [by right|done]|].
      intros s' [->|Hs']%elem_of_cons; [|by apply Hmax]. specialize (Hmax (t', a') ltac:(by left)). cbn [snd] in *.
      unfold best_score in Hmax. lia.
    + destruct (IH t a) as [(s & Hs & Es) Hmax]. split.
      * exists s. split; [|done]. apply elem_of_cons in Hs as [->|Hs]; [by left|by right; right].
      * intros s' [->|[->|Hs']%elem_of_cons]%elem_of_cons.
        -- apply Hmax. by left.
        -- specialize (Hmax (t, a) ltac:(by left)). cbn [snd] in *. unfold best_score in Hmax. lia.
        -- apply Hmax. by right.
Qed.

Lemma last_default {A} (x d d' : A) l : List.last (x :: l) d = List.last (x :: l) d'.
Proof. revert x; induction l as [|y ys IH]; intros x; [done|]. apply (IH y). Qed.

Lemma last_cons {A} (x d : A) l : List.last (x :: l) d = List.last l x.
Proof. destruct l as [|y ys]; [done|]. apply (last_default y). Qed.

(** Replacing the only matching row. *)
Lemma store_found uid lid p q pre :
  List.filter (is_progress uid lid) pre = [] -> pr_user_id p = uid -> pr_lesson_id p = lid ->
  map (fun r => if is_progress (pr_user_id p) (pr_lesson_id p) r then p else r) (pre ++ [q])
  = (pre ++ [if is_progress uid lid q then p else q])%list.
Proof.
  intros Hpre <- <-. rewrite map_app. f_equal. rewrite <- (map_id pre) at 2. apply map_ext_in.
  intros r Hr%list_elem_of_In. rewrite filter_nil_iff in Hpre. by rewrite (Hpre r Hr).
Qed.

Lemma attempts_from uid slug lesson subs db pre p best :
  find_lesson db slug = Ok (Some lesson) -> (length (ls_quiz lesson) <= 39)%nat ->
  progress db = (pre ++ [p])%list -> List.filter (is_progress uid (ls_id lesson)) pre = [] ->
  pr_user_id p = uid -> pr_lesson_id p = ls_id lesson -> pr_quiz_score p = Some best ->
  attempts db uid slug subs = Ok (mkLessons (lessons db) (pre ++
    [mkProgress uid (ls_id lesson) (pr_started_at p)
       (match pr_completed_at p with
        | Some t => Some t
        | None => option_map fst (List.find (passed (ls_quiz lesson)) subs)
        end)
       (Some (best_score (ls_quiz lesson) subs best)) (List.last (map fst subs) (pr_last_seen_at p))])).
Proof.
  intros Hf Hl. revert db p best Hf; induction subs as [|[t a] subs IH]; intros db p best Hf Hp Hpre Hu Hi Hs.
  - cbn. destruct db as [ls ps], p as [u l st c s sn]. cbn in *. subst. by destruct c.
  - assert (Hme : is_progress uid (ls_id lesson) p = true)
      by (unfold is_progress; by rewrite Hu, Hi, String.eqb_refl, Z.eqb_refl).
    destruct (grade_attempt_score (ls_quiz lesson) a Hl) as [Hg _].
    unfold attempts. cbn [fold_res fst snd]. unfold submit_quiz. rewrite Hf, Hg. unfold find_progress.
    rewrite Hp, List.filter_app, Hpre. cbn [List.filter app]. rewrite Hme. cbn [scalar_one_or_none].
    set (p' := mkProgress (pr_user_id p) (pr_lesson_id p) _ _ _ _).
    rewrite bool_decide_true by done. unfold store_progress. rewrite Hp, (store_found uid (ls_id lesson)) by done.
    rewrite Hme. transitivity (attempts (mkLessons (lessons db) (pre ++ [p'])) uid slug subs); [reflexivity|].
    rewrite (IH _ p' (Z.max best (score_of (ls_quiz lesson) a))); [|done..|].
    + unfold p' at 1 2 3. cbn [pr_started_at pr_completed_at pr_last_seen_at lessons List.find]. do 5 f_equal.
      * destruct (pr_completed_at p); [done|].
        change (passed (ls_quiz lesson) (t, a)) with (70 <=? score_of (ls_quiz lesson) a).
        destruct (70 <=? score_of (ls_quiz lesson) a); reflexivity.
      * cbn [map fst]. by rewrite last_cons.
    + unfold p'. cbn [pr_quiz_score]. rewrite Hs. f_equal.
      destruct (Z.ltb_spec best (score_of (ls_quiz lesson) a)); f_equal; lia.
Qed.

(** A user's first attempt on a lesson and any history of further ones leave
    one progress row more: started at the first attempt, seen at the last, with
    the best score of all attempts, a percentage, and completed at the first
    attempt that scored seventy or more, if one did.  No other row changes. *)
Theorem quiz_history_correct db uid slug lesson t0 a0 subs :
  find_lesson db slug = Ok (Some lesson) -> (length (ls_quiz lesson) <= 39)%nat ->
  find_progress db uid (ls_id lesson) = Ok None ->
  let quiz := ls_quiz lesson in
  exists p, attempts db uid slug ((t0, a0) :: subs) = Ok (mkLessons (lessons db) (progress db ++ [p])) /\
    pr_user_id p = uid /\ pr_lesson_id p = ls_id lesson /\ pr_started_at p = Some t0 /\
    pr_last_seen_at p = List.last (map fst subs) t0 /\
    (exists best, pr_quiz_score p = Some best /\ 0 <= best <= 100 /\
       (exists s, s ∈ (t0, a0) :: subs /\ score_of quiz s.2 = best) /\
       forall s, s ∈ (t0, a0) :: subs -> score_of quiz s.2 <= best) /\
    pr_completed_at p = option_map fst (List.find (fun s => 70 <=? score_of quiz s.2) ((t0, a0) :: subs)).
Proof.
  intros Hf Hl Hn quiz. destruct (grade_attempt_score quiz a0 Hl) as [Hg Hb].
  assert (Hpre : List.filter (is_progress uid (ls_id lesson)) (progress db) = [])
    by (unfold find_progress in Hn; destruct (List.filter _ _) as [|x [|y l]]; done).
  set (p0 := mkProgress uid (ls_id lesson) (Some t0) (if 70 <=? score_of quiz a0 then Some t0 else None)
               (Some (score_of quiz a0)) t0).
  assert (E : attempts db uid slug ((t0, a0) :: subs)
              = attempts (mkLessons (lessons db) (progress db ++ [p0])) uid slug subs).
  { unfold attempts at 1. cbn [fold_res fst snd]. unfold submit_quiz. rewrite Hf. fold quiz. rewrite Hg, Hn. reflexivity. }
  rewrite E, (attempts_from uid slug lesson subs _ (progress db) p0 (score_of quiz a0)) by done.
  eexists. split; [done|]. cbn [p0 pr_user_id pr_lesson_id pr_started_at pr_last_seen_at pr_quiz_score pr_completed_at].
  split_and!; [done..| |].
  - eexists. split; [done|]. split; [by apply best_score_bounds|]. apply best_score_spec.
  - cbn [List.find snd]. destruct (70 <=? score_of quiz a0); done.
Qed.

(** ** Reading a lesson does not reveal its answers *)

(** A lesson without the [correct] flags of its quiz. *)
Definition without_answers (l : Lesson) :=
  (ls_id l, ls_slug l, ls_title l, ls_category l, ls_difficulty l, ls_body_md l, scrubbed_quiz (ls_quiz l),
   ls_display_order l).

Lemma find_lesson_erased db db2 slug :
  map without_answers (lessons db2) = map without_answers (lessons db) ->
  (let! o := find_lesson db2 slug in Ok (option_map without_answers o))
  = (let! o := find_lesson db slug in Ok (option_map without_answers o)).
Proof.
  unfold find_lesson. intros He.
  assert (Hf : forall l, map without_answers (List.filter (fun l => String.eqb (ls_slug l) slug) l)
    = List.filter (fun e => String.eqb e.1.1.1.1.1.1.2 slug) (map without_answers l)).
  { intros l. induction l as [|x xs IH]; cbn [map List.filter without_answers fst snd]; [done|].
    destruct (String.eqb (ls_slug x) slug); cbn [map]; by rewrite IH. }
  pose proof (Hf (lessons db2)) as H2. rewrite He, <- Hf in H2.
  destruct (List.filter _ (lessons db2)) as [|x [|y l]], (List.filter _ (lessons db)) as [|x' [|y' l']];
    cbn [map] in H2; try discriminate H2; cbn [scalar_one_or_none option_map]; congruence.
Qed.

(** What a user reads, and what reading records, is the same whichever options
    are the correct ones. *)
Lemma answers_hidden db db2 now uid slug :
  map without_answers (lessons db2) = map without_answers (lessons db) -> progress db2 = progress db ->
  (let! r := get_with_progress db2 now uid slug in Ok (progress r.1, r.2))
  = (let! r := get_with_progress db now uid slug in Ok (progress r.1, r.2)).
Proof.
  intros He Hp. pose proof (find_lesson_erased db db2 slug He) as Hf.
  unfold get_with_progress, find_progress. rewrite Hp.
  destruct (find_lesson db2 slug) as [[l2|]|], (find_lesson db slug) as [[l|]|]; cbn [option_map] in Hf; try congruence.
  - injection Hf as E1 E2 E3 E4 E5 E6 E7 E8. rewrite E1, E2, E3, E4, E5, E6, E7.
    destruct (scalar_one_or_none _) as [o|e]; [|done]. cbn [fst snd store_progress progress]. by rewrite Hp.
  - cbn [fst snd]. by rewrite Hp.
Qed.

(** ** Example *)

Definition seeded : lessons_db :=
  match seed_curriculum (mkLessons [] []) 1 with Ok r => r.1 | Exn _ => mkLessons [] [] end.

Definition tax_lesson : Lesson :=
  mkLesson 6 (lc_slug lesson_psx_tax_basics) (lc_title lesson_psx_tax_basics) (lc_category lesson_psx_tax_basics)
    (lc_difficulty lesson_psx_tax_basics) (lc_body_md lesson_psx_tax_basics)
    (quiz_to_jsonable (lc_quiz lesson_psx_tax_basics)) 5.

Lemma tax_lesson_found : find_lesson seeded "psx-tax-basics" = Ok (Some tax_lesson).
Proof. vm_compute. reflexivity. Qed.

(** Two right of three, then none, then all. *)
Definition ex_attempts : list (Z * list Z) :=
  [(100, [1; 1; 0]); (200, []); (300, correct_indices (ls_quiz tax_lesson))].

Lemma quiz_history_correct_witness :
  exists p, attempts seeded "u" "psx-tax-basics" ex_attempts = Ok (mkLessons (lessons seeded) [p]) /\
    pr_started_at p = Some 100 /\ pr_last_seen_at p = 300 /\ pr_quiz_score p = Some 100 /\
    pr_completed_at p = Some 300.
Proof.
  destruct (quiz_history_correct seeded "u" "psx-tax-basics" tax_lesson 100 [1; 1; 0]
              [(200, []); (300, correct_indices (ls_quiz tax_lesson))])
    as (p & E & _ & _ & Hs & Hl & (best & Eb & Hb & _ & Hmax) & Hc).
  - exact tax_lesson_found.
  - vm_compute. lia.
  - reflexivity.
  - exists p. split; [exact E|]. split; [exact Hs|]. split; [exact Hl|]. split; [|rewrite Hc; vm_compute; reflexivity].
    rewrite Eb. f_equal. specialize (Hmax (300, correct_indices (ls_quiz tax_lesson)) ltac:(right; right; left)).
    assert (E100 : score_of (ls_quiz tax_lesson) (correct_indices (ls_quiz tax_lesson)) = 100) by (vm_compute; reflexivity).
    cbn [snd] in Hmax. rewrite E100 in Hmax. lia.
Defined.
