(* ===== verification/Risk.v ===== *)
(** * Risk: [psx_api/risk/profile.py], [psx_api/routers/risk.py] and [psx_api/goals/allocation.py]

    The risk questionnaire with its weights, the scoring of a set of answers,
    the archetype it leads to, the routes that store the profile, and the target
    allocation per archetype and horizon.  A dict of answers is an association
    list with distinct keys.  The mean of the weights is a float, rounded half
    to even.

    [evaluate_correct] gives the scores as exact rounded means and the errors;
    [archetype_monotone] and [recommend_correct] the shape of the tables. *)

From S2P Require Import Prelude Decimal Ledger PyFloat Redis Auth.

Inductive Axis := risk_tolerance | time_horizon | knowledge.

#[export] Instance axis_eq_dec : EqDecision Axis.
Proof. solve_decision. Defined.

Record Option := mkRiskOption { op_value : string; op_label : string; op_weight : Z }.
Record Question := mkRiskQuestion {
  qu_id : string;
  qu_axis : Axis;
  qu_prompt : string;
  qu_options : list Option;
}.

(** ** Question bank *)

Definition q_rt1 : Question :=
  mkRiskQuestion "rt1" risk_tolerance
    "If your portfolio dropped 30% in a single month, what would you do?"
    [mkRiskOption "sell_all" "Sell everything to stop the bleeding" 1;
     mkRiskOption "sell_some" "Sell some to reduce exposure" 2;
     mkRiskOption "hold" "Hold and wait for recovery" 4;
     mkRiskOption "buy_more" "Buy more — the dip is an opportunity" 5].

Definition q_rt2 : Question :=
  mkRiskQuestion "rt2" risk_tolerance
    "Pick the portfolio you'd be most comfortable owning."
    [mkRiskOption "a" "Average return 4%, worst year ‑2%" 1;
     mkRiskOption "b" "Average return 7%, worst year ‑10%" 2;
     mkRiskOption "c" "Average return 10%, worst year ‑20%" 3;
     mkRiskOption "d" "Average return 14%, worst year ‑35%" 4;
     mkRiskOption "e" "Average return 20%, worst year ‑50%" 5].

Definition q_rt3 : Question :=
  mkRiskQuestion "rt3" risk_tolerance
    "How would you describe your investing experience so far?"
    [mkRiskOption "none" "I haven't invested before" 1;
     mkRiskOption "savings" "Mostly savings accounts and fixed deposits" 2;
     mkRiskOption "mutual_funds" "Mutual funds / Sukuk" 3;
     mkRiskOption "equities" "Direct equities" 4;
     mkRiskOption "active" "Active equities, options, or futures" 5].

Definition q_rt4 : Question :=
  mkRiskQuestion "rt4" risk_tolerance
    "What share of your monthly income could you put at meaningful risk?"
    [mkRiskOption "0_5" "0–5%" 1;
     mkRiskOption "5_10" "5–10%" 2;
     mkRiskOption "10_20" "10–20%" 3;
     mkRiskOption "20_30" "20–30%" 4;
     mkRiskOption "30_plus" "30%+" 5].

Definition q_rt5 : Question :=
  mkRiskQuestion "rt5" risk_tolerance
    "How would you feel checking your portfolio after a -15% week?"
    [mkRiskOption "panic" "Panicked — I'd want out" 1;
     mkRiskOption "uneasy" "Uneasy but I'd hold" 2;
     mkRiskOption "ok" "It's part of the game" 4;
     mkRiskOption "excited" "Excited — time to buy" 5].

Definition q_th1 : Question :=
  mkRiskQuestion "th1" time_horizon
    "When will you most likely need this money?"
    [mkRiskOption "lt2" "Within 2 years" 1;
     mkRiskOption "2_5" "2–5 years" 2;
     mkRiskOption "5_10" "5–10 years" 3;
     mkRiskOption "10_20" "10–20 years" 4;
     mkRiskOption "20_plus" "20+ years (retirement, legacy)" 5].

Definition q_th2 : Question :=
  mkRiskQuestion "th2" time_horizon
    "Could you live without this money for 5+ years if a crash forced you to wait?"
    [mkRiskOption "no" "No, I'd need it sooner" 1;
     mkRiskOption "maybe" "Maybe — would be tight" 3;
     mkRiskOption "yes" "Yes, comfortably" 5].

Definition q_th3 : Question :=
  mkRiskQuestion "th3" time_horizon
    "Are you currently saving toward a specific goal that has a hard deadline?"
    [mkRiskOption "hard_soon" "Yes, within 3 years (down payment, wedding, Hajj)" 1;
     mkRiskOption "medium" "Yes, in 3–10 years" 3;
     mkRiskOption "flexible" "No hard deadline — long-term wealth building" 5].

Definition q_kn1 : Question :=
  mkRiskQuestion "kn1" knowledge
    "What is the KMI-30 index?"
    [mkRiskOption "top30" "The 30 largest stocks on PSX" 1;
     mkRiskOption "kmi" "The 30 largest Shariah-compliant stocks on PSX" 5;
     mkRiskOption "top100" "Same as KSE-100 minus banks" 1;
     mkRiskOption "dontknow" "Not sure" 1].

Definition q_kn2 : Question :=
  mkRiskQuestion "kn2" knowledge
    "What does CGT stand for and when does it apply?"
    [mkRiskOption "right" "Capital Gains Tax — paid on realised profit when you sell" 5;
     mkRiskOption "wrong1" "Capital Growth Tax — paid annually on holdings" 1;
     mkRiskOption "wrong2" "Cumulative Gain Tax — paid on dividends only" 1;
     mkRiskOption "dontknow" "Not sure" 1].

Definition q_kn3 : Question :=
  mkRiskQuestion "kn3" knowledge
    "If a stock's P/E ratio is much higher than its sector average, that usually means…"
    [mkRiskOption "right" "The market is pricing in higher future growth (or it's overvalued)" 5;
     mkRiskOption "wrong1" "It's safer than the rest of the sector" 1;
     mkRiskOption "wrong2" "It pays a higher dividend" 1;
     mkRiskOption "dontknow" "Not sure" 1].

Definition q_kn4 : Question :=
  mkRiskQuestion "kn4" knowledge
    "Diversification primarily reduces which kind of risk?"
    [mkRiskOption "right" "Stock-specific (idiosyncratic) risk" 5;
     mkRiskOption "wrong1" "All risk equally" 1;
     mkRiskOption "wrong2" "Inflation risk" 1;
     mkRiskOption "dontknow" "Not sure" 1].

Definition QUESTIONS : list Question :=
  [q_rt1; q_rt2; q_rt3; q_rt4; q_rt5; q_th1; q_th2; q_th3; q_kn1; q_kn2; q_kn3; q_kn4].

(** ** Scoring *)

Definition question_ids : list string := map qu_id QUESTIONS.
Definition find_question (qid : string) : option Question := List.find (fun q => String.eqb (qu_id q) qid) QUESTIONS.
Definition mem (s : string) (l : list string) : bool := existsb (String.eqb s) l.

Record raw_weights := mkRaw { rw_risk : list Z; rw_time : list Z; rw_knowledge : list Z }.

Definition add_weight (a : Axis) (w : Z) (r : raw_weights) : raw_weights :=
  match a with
  | risk_tolerance => mkRaw (rw_risk r ++ [w]) (rw_time r) (rw_knowledge r)
  | time_horizon => mkRaw (rw_risk r) (rw_time r ++ [w]) (rw_knowledge r)
  | knowledge => mkRaw (rw_risk r) (rw_time r) (rw_knowledge r ++ [w])
  end.

(** The loop over [answers.items()]. *)
Definition answer_step (raw : raw_weights) (answer : string * string) : res raw_weights :=
  match find_question answer.1 with
  | None => Exn KeyError
  | Some q =>
      match List.find (fun o => String.eqb (op_value o) answer.2) (qu_options q) with
      | None => Exn InvalidAnswersError
      | Some opt => Ok (add_weight (qu_axis q) (op_weight opt) raw)
      end
  end.

(** [max(1, min(5, round(sum(weights) / len(weights))))] *)
Definition normalised (weights : list Z) : res Z :=
  let! q := fdiv (float_of_Z (zsum weights)) (float_of_Z (Z.of_nat (length weights))) in
  let! r := round_int q in
  Ok (Z.max 1 (Z.min 5 r)).

Record axis_scores := mkScores { sc_risk : Z; sc_time : Z; sc_knowledge : Z }.

Definition score (answers : list (string * string)) : res axis_scores :=
  let keys := map fst answers in
  if negb (forallb (fun k => mem k question_ids) keys && forallb (fun i => mem i keys) question_ids)
  then Exn InvalidAnswersError
  else
    let! raw := fold_res answer_step (mkRaw [] [] []) answers in
    let! rt := normalised (rw_risk raw) in
    let! th := normalised (rw_time raw) in
    let! kn := normalised (rw_knowledge raw) in
    Ok (mkScores rt th kn).

(** ** Archetypes *)

Definition ARCHETYPES : list string :=
  ["conservative_saver"; "cautious_beginner"; "balanced_builder"; "growth_seeker"; "aggressive_trader"]%string.

Record ArchetypeProfile := mkProfile { ap_key : string; ap_label : string; ap_description : string }.

Definition ARCHETYPE_PROFILES : list (string * ArchetypeProfile) :=
  [("conservative_saver", mkProfile "conservative_saver" "Conservative Saver"
      "Capital preservation first. T-Bills and Sukuk dominate; equities are a small satellite.");
   ("cautious_beginner", mkProfile "cautious_beginner" "Cautious Beginner"
      "Learning the ropes. A meaningful equity allocation backed by a solid fixed-income base.");
   ("balanced_builder", mkProfile "balanced_builder" "Balanced Builder"
      "Steady wealth-building. Equities and fixed income roughly balanced, tilted by horizon.");
   ("growth_seeker", mkProfile "growth_seeker" "Growth Seeker"
      "Wants real returns over inflation. Equity-heavy, comfortable with multi-year drawdowns.");
   ("aggressive_trader", mkProfile "aggressive_trader" "Aggressive Trader"
      "High volatility tolerance, long horizon, active engagement with markets.")]%string.

Definition archetype_base (s : axis_scores) : Z :=
  let rt := sc_risk s in
  let th := sc_time s in
  let kn := sc_knowledge s in
  let base := Z.max 0 (Z.min 4 (rt - 1)) in
  let base := if ((th <=? 2) && (2 <? base))%bool then 2 else base in
  let base := if ((4 <=? th) && (3 <=? kn) && (base <? 4))%bool then base + 1 else base in
  if ((kn <=? 2) && (rt <? 5) && (1 <? base))%bool then 1 else base.

Definition archetype (s : axis_scores) : res string :=
  match ARCHETYPES !! Z.to_nat (archetype_base s) with Some a => Ok a | None => Exn IndexError end.

Record evaluation := mkEvaluation {
  ev_scores : axis_scores;
  ev_archetype : string;
  ev_label : string;
  ev_description : string;
}.

Definition profile_of (key : string) : res ArchetypeProfile :=
  match List.find (fun p => String.eqb p.1 key) ARCHETYPE_PROFILES with Some p => Ok p.2 | None => Exn KeyError end.

Definition evaluate (answers : list (string * string)) : res evaluation :=
  let! sc := score answers in
  let! arch_key := archetype sc in
  let! profile := profile_of arch_key in
  Ok (mkEvaluation sc arch_key (ap_label profile) (ap_description profile)).

(** ** The routes *)

(** [POST /risk/submit]: the profile is stored on the user's row. *)
Definition submit_answers (db : auth_db) (user : User) (now : Z) (answers : list (string * string))
    : res (auth_db * evaluation) :=
  match evaluate answers with
  | Exn InvalidAnswersError => Exn (ServiceError 400)
  | Exn e => Exn e
  | Ok r =>
      let sc := ev_scores r in
      let user' :=
        mkUser (u_id user) (u_email user) (u_email_verified_at user) (u_password_hash user) (u_full_name user)
          (u_phone user) (u_cnic_last4 user) (u_is_filer user) (u_shariah_mode user)
          (Some (ev_archetype r)) (Some (sc_risk sc)) (Some (sc_time sc)) (Some (sc_knowledge sc)) (Some now)
          (u_share_anonymously user) (u_date_of_birth user) (u_totp_secret user) (u_totp_enabled user)
          (u_notification_prefs user) (u_created_at user) in
      Ok (mkAuth (put_user user' (users db)) (sessions db), r)
  end.

(** [GET /risk/profile] *)
Definition get_profile (user : User) : res (option evaluation) :=
  match u_risk_archetype user with
  | None => Ok None
  | Some key =>
      let! profile := profile_of key in
      Ok (Some (mkEvaluation
        (mkScores (default 0 (u_risk_tolerance_score user)) (default 0 (u_time_horizon_score user))
           (default 0 (u_knowledge_score user))) key (ap_label profile) (ap_description profile)))
  end.

(** ** Target allocation *)

Inductive HorizonBucket := short | medium | long | very_long.

Definition horizon_bucket (months : Z) : HorizonBucket :=
  if months <? 24 then short else if months <? 60 then medium else if months <? 120 then long else very_long.

(** (equity, T-Bills, cash), by horizon. *)
Definition allocation_row : Type := (Z * Z * Z) * (Z * Z * Z) * (Z * Z * Z) * (Z * Z * Z).

Definition _TABLE : list (string * allocation_row) :=
  [("conservative_saver", ((0, 90, 10), (30, 65, 5), (50, 47, 3), (60, 37, 3)));
   ("cautious_beginner", ((10, 80, 10), (40, 55, 5), (60, 37, 3), (70, 27, 3)));
   ("balanced_builder", ((30, 60, 10), (50, 47, 3), (70, 27, 3), (80, 17, 3)));
   ("growth_seeker", ((40, 55, 5), (65, 32, 3), (85, 12, 3), (95, 3, 2)));
   ("aggressive_trader", ((50, 45, 5), (70, 27, 3), (90, 8, 2), (100, 0, 0)))]%string.

Definition row_at (b : HorizonBucket) (r : allocation_row) : Z * Z * Z :=
  match b with short => r.1.1.1 | medium => r.1.1.2 | long => r.1.2 | very_long => r.2 end.

Record Allocation := mkAllocation {
  al_archetype : string;
  al_bucket : HorizonBucket;
  al_months : Z;
  al_equity_pct : Z;
  al_tbills_pct : Z;
  al_cash_pct : Z;
}.

Definition table_row (key : string) : option allocation_row :=
  option_map snd (List.find (fun p => String.eqb p.1 key) _TABLE).

(** Without the rationale, a text. *)
Definition recommend (archetype : string) (months_remaining : Z) : res Allocation :=
  let bucket := horizon_bucket months_remaining in
  let archetype := match table_row archetype with Some _ => archetype | None => "balanced_builder"%string end in
  match table_row archetype with
  | None => Exn KeyError
  | Some row =>
      let '(eq, tb, cash) := row_at bucket row in
      Ok (mkAllocation archetype bucket months_remaining eq tb cash)
  end.

(** ** The mean of small weights *)

(** The float mean rounds as the exact one, for sums up to 25. *)
Lemma normalised_exact ws :
  ws <> [] -> (length ws <= 5)%nat -> Forall (fun w => 1 <= w <= 5) ws ->
  normalised ws = Ok (div_half_even (zsum ws) (Z.of_nat (length ws))) /\
  1 <= div_half_even (zsum ws) (Z.of_nat (length ws)) <= 5.
Proof.
  intros Hne Hl Hw.
  assert (Hs : Z.of_nat (length ws) <= zsum ws <= 5 * Z.of_nat (length ws)).
  { clear Hne Hl. induction Hw as [|w ws Hw _ IH]; cbn [length zsum fold_right]; [done|]. fold (zsum ws) in *. lia. }
  assert (Hn : 1 <= Z.of_nat (length ws) <= 5) by (destruct ws; [done|cbn [length] in *; lia]).
  assert (Hall : forallb (fun n => forallb (fun s =>
      match fdiv (float_of_Z (Z.of_nat s)) (float_of_Z (Z.of_nat n)) with
      | Ok q => match round_int q with
                | Ok r => ((r =? div_half_even (Z.of_nat s) (Z.of_nat n)) && (1 <=? r) && (r <=? 5))%bool
                | Exn _ => false
                end
      | Exn _ => false
      end) (seq n (S (4 * n)))) (seq 1 5) = true) by (vm_compute; reflexivity).
  rewrite forallb_forall in Hall. specialize (Hall (length ws) ltac:(apply in_seq; lia)).
  rewrite forallb_forall in Hall. specialize (Hall (Z.to_nat (zsum ws)) ltac:(apply in_seq; lia)).
  rewrite Z2Nat.id in Hall by lia. unfold normalised.
  destruct (fdiv _ _) as [q|]; [|discriminate Hall]. destruct (round_int q) as [r|]; [|discriminate Hall].
  zbool. subst r. split; [|lia]. f_equal. lia.
Qed.

(** ** Valid answers *)

Definition chosen (answer : string * string) : option (Axis * Z) :=
  q ← find_question answer.1;
  o ← List.find (fun o => String.eqb (op_value o) answer.2) (qu_options q);
  Some (qu_axis q, op_weight o).

(** Every question answered, no other, each with one of its options. *)
Definition valid_answers (answers : list (string * string)) : Prop :=
  (forall k, k ∈ map fst answers <-> k ∈ question_ids) /\ Forall (fun a => is_Some (chosen a)) answers.

(** The weights an axis collects. *)
Definition axis_weights (a : Axis) (answers : list (string * string)) : list Z :=
  omap (fun x => c ← chosen x; if decide (c.1 = a) then Some c.2 else None) answers.

Lemma mem_spec s l : mem s l = true <-> s ∈ l.
Proof.
  unfold mem. rewrite existsb_exists. split.
  - intros (y & Hy & ->%String.eqb_eq). by apply list_elem_of_In.
  - intros Hs. exists s. split; [by apply list_elem_of_In|by apply String.eqb_refl].
Qed.

Lemma keys_check keys :
  (forallb (fun k => mem k question_ids) keys && forallb (fun i => mem i keys) question_ids)%bool = true
  <-> forall k, k ∈ keys <-> k ∈ question_ids.
Proof.
  rewrite andb_true_iff, !forallb_forall. setoid_rewrite <- list_elem_of_In. setoid_rewrite mem_spec. naive_solver.
Qed.

Lemma fold_answers answers raw :
  Forall (fun a => is_Some (chosen a)) answers ->
  fold_res answer_step raw answers
  = Ok (mkRaw (rw_risk raw ++ axis_weights risk_tolerance answers)
          (rw_time raw ++ axis_weights time_horizon answers) (rw_knowledge raw ++ axis_weights knowledge answers)).
Proof.
  intros Hv. revert raw. induction Hv as [|x xs [c Hc] _ IH]; intros raw.
  - cbn. rewrite !app_nil_r. by destruct raw.
  - unfold axis_weights in *. cbn [fold_res omap list_omap]. rewrite Hc. cbn [mbind option_bind].
    unfold chosen in Hc. unfold answer_step. destruct (find_question x.1) as [q|]; [|discriminate Hc].
    cbn [mbind option_bind] in Hc. destruct (List.find _ (qu_options q)) as [o|]; [|discriminate Hc].
    injection Hc as <-. cbn [fst snd]. rewrite IH.
    destruct (qu_axis q); cbn [add_weight rw_risk rw_time rw_knowledge decide];
      repeat (case_decide; [|done || idtac]); try done; cbn [axis_eq_dec]; by rewrite <- ?app_assoc.
Qed.

(** *** Facts about the question bank, by computation *)

Lemma bank_ids_nodup : NoDup question_ids.
Proof. apply (bool_decide_unpack _). vm_compute. exact I. Qed.

Lemma bank_weights qid q o :
  find_question qid = Some q -> o ∈ qu_options q -> 1 <= op_weight o <= 5.
Proof.
  intros Hq Ho. assert (Hall : forallb (fun q => forallb (fun o => (1 <=? op_weight o) && (op_weight o <=? 5))%bool
    (qu_options q)) QUESTIONS = true) by reflexivity.
  unfold find_question in Hq. apply List.find_some in Hq as [Hq _].
  rewrite forallb_forall in Hall. specialize (Hall q Hq). rewrite forallb_forall in Hall.
  specialize (Hall o (proj1 (list_elem_of_In _ _) Ho)). zbool. lia.
Qed.

Definition axis_of (qid : string) : option Axis := option_map qu_axis (find_question qid).
Definition on_axis (a : Axis) (qid : string) : bool := bool_decide (axis_of qid = Some a).

Lemma bank_axes :
  length (List.filter (on_axis risk_tolerance) question_ids) = 5%nat /\
  length (List.filter (on_axis time_horizon) question_ids) = 3%nat /\
  length (List.filter (on_axis knowledge) question_ids) = 4%nat.
Proof. repeat split. Qed.

Lemma chosen_inv x a w : chosen x = Some (a, w) -> axis_of x.1 = Some a /\ 1 <= w <= 5.
Proof.
  unfold chosen, axis_of. destruct (find_question x.1) as [q|] eqn:Eq; [|discriminate]. cbn [mbind option_bind option_map].
  destruct (List.find _ (qu_options q)) as [o|] eqn:Eo; [|discriminate]. intros [= <- <-]. split; [done|].
  apply List.find_some in Eo as [Ho _]. eapply bank_weights; [exact Eq|]. by apply list_elem_of_In.
Qed.

Lemma axis_weights_shape a answers :
  Forall (fun a => is_Some (chosen a)) answers ->
  length (axis_weights a answers) = length (List.filter (on_axis a) (map fst answers)) /\
  Forall (fun w => 1 <= w <= 5) (axis_weights a answers).
Proof.
  induction 1 as [|x xs [[b w] Hc] _ [IH1 IH2]]; [by split|]. apply chosen_inv in Hc as Hi. destruct Hi as [Ha Hw].
  unfold axis_weights in *. cbn [omap list_omap map List.filter]. rewrite Hc. cbn [mbind option_bind fst snd].
  unfold on_axis at 1. rewrite Ha. destruct (decide (b = a)) as [->|Hne].
  - rewrite bool_decide_true by done. cbn [length]. split; [by rewrite IH1|by constructor].
  - rewrite bool_decide_false by congruence. by split.
Qed.

Lemma axis_count a answers :
  NoDup (map fst answers) -> valid_answers answers ->
  length (axis_weights a answers) = length (List.filter (on_axis a) question_ids) /\
  Forall (fun w => 1 <= w <= 5) (axis_weights a answers).
Proof.
  intros Hnd [Hk Hv]. destruct (axis_weights_shape a answers Hv) as [-> Hw]. split; [|done].
  apply Permutation_length, lfilter_perm. apply NoDup_Permutation; [done|exact bank_ids_nodup|done].
Qed.

(** The exact mean of an axis, rounded half to even. *)
Definition mean_weight (a : Axis) (answers : list (string * string)) : Z :=
  div_half_even (zsum (axis_weights a answers)) (Z.of_nat (length (List.filter (on_axis a) question_ids))).

Lemma normalised_axis a answers :
  NoDup (map fst answers) -> valid_answers answers ->
  normalised (axis_weights a answers) = Ok (mean_weight a answers) /\ 1 <= mean_weight a answers <= 5.
Proof.
  intros Hnd Hv. destruct (axis_count a answers Hnd Hv) as [Hl Hw]. unfold mean_weight. rewrite <- Hl.
  destruct bank_axes as (E1 & E2 & E3).
  assert (1 <= length (axis_weights a answers) <= 5)%nat by (rewrite Hl; destruct a; lia).
  apply normalised_exact; [|lia|done]. intros En. rewrite En in *. cbn in *. lia.
Qed.

Lemma score_valid answers :
  NoDup (map fst answers) -> valid_answers answers ->
  score answers = Ok (mkScores (mean_weight risk_tolerance answers) (mean_weight time_horizon answers)
                        (mean_weight knowledge answers)).
Proof.
  intros Hnd Hv. unfold score. rewrite (proj2 (keys_check _)) by apply Hv. cbn [negb].
  rewrite fold_answers by apply Hv. cbn [rw_risk rw_time rw_knowledge app].
  rewrite !(proj1 (normalised_axis _ _ Hnd Hv)). done.
Qed.

Lemma fold_answers_bad answers raw :
  (forall k, k ∈ map fst answers -> k ∈ question_ids) -> ~ Forall (fun a => is_Some (chosen a)) answers ->
  fold_res answer_step raw answers = Exn InvalidAnswersError.
Proof.
  revert raw. induction answers as [|x xs IH]; intros raw Hk Hn; [by destruct Hn|].
  cbn [fold_res]. unfold answer_step at 1. destruct (find_question x.1) as [q|] eqn:Eq.
  - destruct (List.find _ (qu_options q)) as [o|] eqn:Eo; [|done]. apply IH.
    + intros k Hin. apply Hk. by right.
    + intros Hall. apply Hn. constructor; [|done]. unfold chosen. rewrite Eq. cbn [mbind option_bind]. by rewrite Eo.
  - exfalso. specialize (Hk x.1 ltac:(by left)). unfold question_ids in Hk.
    apply list_elem_of_In, in_map_iff in Hk as (q & Ei & Hq). unfold find_question in Eq.
    eapply List.find_none in Eq; [|exact Hq]. cbn in Eq. by rewrite Ei, String.eqb_refl in Eq.
Qed.

Lemma score_invalid answers : ~ valid_answers answers -> score answers = Exn InvalidAnswersError.
Proof.
  intros Hn. unfold score. destruct (_ && _)%bool eqn:E; cbn [negb]; [|done].
  rewrite keys_check in E. rewrite fold_answers_bad; [done|by intros k Hk%E|]. intros Hv. by apply Hn.
Qed.

Lemma archetype_base_range s :
  1 <= sc_risk s <= 5 -> 1 <= sc_time s <= 5 -> 1 <= sc_knowledge s <= 5 -> 0 <= archetype_base s <= 4.
Proof. intros. unfold archetype_base. repeat case_match; zbool; lia. Qed.

Lemma archetype_ok s :
  1 <= sc_risk s <= 5 -> 1 <= sc_time s <= 5 -> 1 <= sc_knowledge s <= 5 ->
  exists a p, archetype s = Ok a /\ a ∈ ARCHETYPES /\ profile_of a = Ok p.
Proof.
  intros H1 H2 H3. pose proof (archetype_base_range s H1 H2 H3) as Hb. unfold archetype.
  assert (Hc : Z.to_nat (archetype_base s) = 0%nat \/ Z.to_nat (archetype_base s) = 1%nat \/ Z.to_nat (archetype_base s) = 2%nat
    \/ Z.to_nat (archetype_base s) = 3%nat \/ Z.to_nat (archetype_base s) = 4%nat) by lia.
  destruct Hc as [->|[->|[->|[->| ->]]]]; eexists _, _; (split; [reflexivity|]; split; [|reflexivity]);
    apply (bool_decide_unpack _); vm_compute; exact I.
Qed.

Lemma valid_answers_perm l1 l2 : l1 ≡ₚ l2 -> valid_answers l1 -> valid_answers l2.
Proof.
  intros Hp [Hk Hv]. split.
  - intros k. rewrite <- Hk. by rewrite Hp.
  - by rewrite <- Hp.
Qed.

Lemma axis_weights_perm a l1 l2 : l1 ≡ₚ l2 -> axis_weights a l1 ≡ₚ axis_weights a l2.
Proof. intros Hp. unfold axis_weights. by rewrite Hp. Qed.

(** The questionnaire accepts exactly the complete sets of answers whose
    every answer is an option of its question, in any order, and refuses the
    others with its own error; the score of an axis is the exact mean of the
    weights chosen on it, rounded half to even, always between 1 and 5, and the
    archetype one of the five with its profile. *)
Theorem evaluate_correct answers :
  NoDup (map fst answers) ->
  (valid_answers answers ->
     exists r, evaluate answers = Ok r /\
       ev_scores r = mkScores (mean_weight risk_tolerance answers) (mean_weight time_horizon answers)
                       (mean_weight knowledge answers) /\
       1 <= mean_weight risk_tolerance answers <= 5 /\ 1 <= mean_weight time_horizon answers <= 5 /\
       1 <= mean_weight knowledge answers <= 5 /\ ev_archetype r ∈ ARCHETYPES /\
       forall answers', answers' ≡ₚ answers -> evaluate answers' = Ok r) /\
  (~ valid_answers answers -> evaluate answers = Exn InvalidAnswersError).
Proof.
  intros Hnd. split; [|intros Hn; unfold evaluate; by rewrite score_invalid].
  intros Hv. set (sc := mkScores (mean_weight risk_tolerance answers) (mean_weight time_horizon answers)
    (mean_weight knowledge answers)).
  pose proof (fun a => proj2 (normalised_axis a answers Hnd Hv)) as Hb.
  destruct (archetype_ok sc (Hb _) (Hb _) (Hb _)) as (a & p & Ea & Hin & Ep).
  assert (Hev : forall l, l ≡ₚ answers -> evaluate l = Ok (mkEvaluation sc a (ap_label p) (ap_description p))).
  { intros l Hl. unfold evaluate. rewrite score_valid.
    - unfold mean_weight. rewrite !(zsum_perm _ _ (axis_weights_perm _ _ _ Hl)). fold (mean_weight risk_tolerance answers).
      fold (mean_weight time_horizon answers) (mean_weight knowledge answers). fold sc. by rewrite Ea, Ep.
    - by rewrite (Permutation_map fst Hl).
    - by apply (valid_answers_perm answers). }
  eexists. split; [by apply Hev|]. split_and!; try apply Hb; [done|done|]. intros l Hl. by apply Hev.
Qed.

(** ** The tables are monotone *)

(** More tolerance, a longer horizon or more knowledge never lowers the risk
    class. *)
Lemma archetype_monotone s s' :
  1 <= sc_risk s <= sc_risk s' -> sc_risk s' <= 5 -> 1 <= sc_time s <= sc_time s' -> sc_time s' <= 5 ->
  1 <= sc_knowledge s <= sc_knowledge s' -> sc_knowledge s' <= 5 -> archetype_base s <= archetype_base s'.
Proof.
  intros. unfold archetype_base.
  repeat case_match; repeat match goal with H : (_ && _)%bool = false |- _ => apply andb_false_iff in H end; zbool; lia.
Qed.

(** Two sets of scores that differ in knowledge alone, one aggressive. *)
Example knowledge_elevates :
  archetype (mkScores 4 4 2) = Ok "cautious_beginner"%string /\ archetype (mkScores 4 4 3) = Ok "aggressive_trader"%string.
Proof. split; reflexivity. Qed.

(** The split is complete whatever the archetype, known or not, and equity does
    not fall with the horizon. *)
Lemma recommend_correct key months :
  exists al, recommend key months = Ok al /\ al_months al = months /\
    0 <= al_equity_pct al /\ 0 <= al_tbills_pct al /\ 0 <= al_cash_pct al /\
    al_equity_pct al + al_tbills_pct al + al_cash_pct al = 100 /\
    forall months' al', months <= months' -> recommend key months' = Ok al' -> al_equity_pct al <= al_equity_pct al'.
Proof.
  set (good := fun r : allocation_row => (forallb (fun b => let '(e, t, c) := row_at b r in
    (0 <=? e) && (0 <=? t) && (0 <=? c) && (e + t + c =? 100))%bool [short; medium; long; very_long]
    && (r.1.1.1.1.1 <=? r.1.1.2.1.1) && (r.1.1.2.1.1 <=? r.1.2.1.1) && (r.1.2.1.1 <=? r.2.1.1))%bool).
  set (key' := match table_row key with Some _ => key | None => "balanced_builder"%string end).
  assert (Hrow : exists row, table_row key' = Some row /\ good row = true).
  { destruct (table_row key) as [row|] eqn:E; [|by eexists].
    exists row. split; [done|]. unfold table_row in E. destruct (List.find _ _TABLE) as [p|] eqn:Ef; [|done].
    injection E as <-. apply List.find_some in Ef as [Hp _]. unfold _TABLE in Hp. cbn [In] in Hp.
    repeat destruct Hp as [<-|Hp]; done. }
  destruct Hrow as (row & Er & Hg).
  assert (Hrec : forall m, recommend key m = Ok (let '(e, t, c) := row_at (horizon_bucket m) row in
    mkAllocation key' (horizon_bucket m) m e t c)).
  { intros m. unfold recommend. fold key'. rewrite Er. by destruct (row_at _ row) as [[e t] c]. }
  destruct row as [[[[[e1 t1] c1] [[e2 t2] c2]] [[e3 t3] c3]] [[e4 t4] c4]].
  unfold good in Hg. cbn in Hg. zbool. eexists. split; [apply Hrec|].
  unfold horizon_bucket.
  destruct (Z.ltb_spec months 24), (Z.ltb_spec months 60), (Z.ltb_spec months 120);
    cbn [row_at fst snd al_months al_equity_pct al_tbills_pct al_cash_pct]; (split_and!; [lia..|]);
    intros m al' Hm; rewrite Hrec; unfold horizon_bucket;
    destruct (Z.ltb_spec m 24), (Z.ltb_spec m 60), (Z.ltb_spec m 120); cbn [row_at fst snd]; intros; inv_res; cbn; lia.
Qed.

(** ** Example *)

Definition ex_answers : list (string * string) :=
  [("th1", "10_20"); ("rt1", "hold"); ("rt2", "d"); ("rt3", "equities"); ("rt4", "10_20"); ("rt5", "ok");
   ("th2", "maybe"); ("th3", "flexible"); ("kn1", "kmi"); ("kn2", "right"); ("kn3", "dontknow"); ("kn4", "wrong1")]%string.

Lemma evaluate_correct_witness :
  exists r, evaluate ex_answers = Ok r /\ ev_scores r = mkScores 4 4 3 /\ ev_archetype r ∈ ARCHETYPES /\
    evaluate (rev ex_answers) = Ok r.
Proof.
  destruct (evaluate_correct ex_answers) as [Hok _]; [apply (bool_decide_unpack _); vm_compute; exact I|].
  destruct Hok as (r & E & Es & _ & _ & _ & Hin & Hp).
  - split; [|apply (bool_decide_unpack _); vm_compute; exact I].
    apply keys_check. vm_compute. reflexivity.
  - exists r. split; [exact E|]. split; [rewrite Es; vm_compute; reflexivity|]. split; [exact Hin|].
    apply Hp. symmetry. apply Permutation_rev.
Defined.
