(* ===== verification/Json.v ===== *)
(** * Json: values of a request body

    What [json.loads] makes of a body of type [dict[str, Any]] and what Python
    does with it where the code does not look at its type first: [.get], [in],
    [v[k]], iteration, truth, [int()] and [float()], [==].  An object is a list
    of fields with distinct keys. *)

From Stdlib Require Import Ascii.
From S2P Require Import Prelude Decimal PyText PyFloat.

Inductive json :=
| JNull
| JBool (b : bool)
| JInt (n : Z)
| JFloat (x : float)
| JText (s : string)
| JList (l : list json)
| JObj (fields : list (string * json)).

Definition field (k : string) (fs : list (string * json)) : option json :=
  option_map snd (List.find (fun f => String.eqb f.1 k) fs).

(** [v.get(k)] *)
Definition get (k : string) (v : json) : res (option json) :=
  match v with JObj fs => Ok (field k fs) | _ => Exn AttributeError end.

(** [v.get(k, d)] *)
Definition get_or (k : string) (d v : json) : res json :=
  let! found := get k v in Ok (match found with Some w => w | None => d end).

(** [v[k]] of a text [k] *)
Definition subscript (k : string) (v : json) : res json :=
  match v with
  | JObj fs => match field k fs with Some w => Ok w | None => Exn KeyError end
  | _ => Exn TypeError
  end.

(** [v == s] of a text [s] *)
Definition is_text (s : string) (v : option json) : bool :=
  match v with Some (JText t) => String.eqb t s | _ => false end.

(** [k in v] of a text [k] *)
Definition contains (k : string) (v : json) : res bool :=
  match v with
  | JObj fs => Ok (match field k fs with Some _ => true | None => false end)
  | JList l => Ok (existsb (fun w => is_text k (Some w)) l)
  | JText t => Ok (match String.index 0 k t with Some _ => true | None => false end)
  | _ => Exn TypeError
  end.

(** [for x in v] *)
Definition items (v : json) : res (list json) :=
  match v with
  | JList l => Ok l
  | JObj fs => Ok (map (fun f => JText f.1) fs)
  | JText t => Ok (map (fun c => JText (text [c])) (chars t))
  | _ => Exn TypeError
  end.

(** [bool(v)] *)
Definition json_truthy (v : json) : bool :=
  match v with
  | JNull => false
  | JBool b => b
  | JInt n => negb (n =? 0)
  | JFloat x => negb (x =? fzero)%float
  | JText s => negb (String.eqb s "")
  | JList l => match l with [] => false | _ => true end
  | JObj fs => match fs with [] => false | _ => true end
  end.

(** ** Numbers *)

(** Every underscore stands between two digits. *)
Fixpoint underscores_ok (prev : bool) (l : list ascii) : bool :=
  match l with
  | [] => true
  | c :: rest =>
      if Ascii.eqb c "_" then
        (prev && match rest with d :: _ => is_digit d | [] => false end && underscores_ok false rest)%bool
      else underscores_ok (is_digit c) rest
  end.

(** [float(s)] reads what [Decimal(s)] reads, but underscores only between
    digits and no NaN with a payload. *)
Definition float_of_str (s : string) : res float :=
  if negb (underscores_ok false (chars s)) then Exn ValueError else
  match decimal_of_str s with
  | Ok (Fin d) => Ok (float_of_dec d)
  | Ok (Inf neg) => Ok (S754_infinity neg)
  | Ok NaN =>
      if String.eqb (text (map lower_char (take_sign (strip_chars (chars s))).2)) "nan" then Ok S754_nan
      else Exn ValueError
  | Exn _ => Exn ValueError
  end.

(** [int(v)], [float(v)] *)
Definition to_int (v : json) : res Z :=
  match v with
  | JInt n => Ok n
  | JFloat x => int_of_float x
  | JBool b => Ok (if b then 1 else 0)
  | JText s => int_of_str s
  | _ => Exn TypeError
  end.

(** An integer too large for binary64 is an [OverflowError]. *)
Definition to_float (v : json) : res float :=
  match v with
  | JInt n => match float_of_Z n with S754_infinity _ => Exn OverflowError | x => Ok x end
  | JFloat x => Ok x
  | JBool b => Ok (float_of_Z (if b then 1 else 0))
  | JText s => float_of_str s
  | _ => Exn TypeError
  end.

(** ** Equality

    [a == b]: numbers by value across types, objects whatever the order of
    their fields. *)

(** An integer and a float compare exactly. *)
Definition int_eq_float (n : Z) (x : float) : bool :=
  match x with
  | S754_zero _ => n =? 0
  | S754_finite s m e =>
      if 0 <=? e then n =? sign s (Zpos m * 2 ^ e) else n * 2 ^ (- e) =? sign s (Zpos m)
  | _ => false
  end.

Definition as_int (v : json) : option Z :=
  match v with JInt n => Some n | JBool b => Some (if b then 1 else 0) | _ => None end.

Fixpoint json_eq (a b : json) {struct a} : bool :=
  match a, b with
  | JNull, JNull => true
  | JText s, JText t => String.eqb s t
  | JFloat x, JFloat y => (x =? y)%float
  | JFloat x, _ => match as_int b with Some n => int_eq_float n x | None => false end
  | JInt n, JFloat y => int_eq_float n y
  | JBool c, JFloat y => int_eq_float (if c then 1 else 0) y
  | JInt n, _ => match as_int b with Some k => n =? k | None => false end
  | JBool c, _ => match as_int b with Some k => (if c then 1 else 0) =? k | None => false end
  | JList l, JList r =>
      (fix go l r := match l, r with
                     | [], [] => true
                     | x :: l, y :: r => (json_eq x y && go l r)%bool
                     | _, _ => false
                     end) l r
  | JObj fs, JObj gs =>
      (Nat.eqb (length fs) (length gs)
       && forallb (fun f => match field f.1 gs with Some w => json_eq f.2 w | None => false end) fs)%bool
  | _, _ => false
  end.

(** ** Storing in a JSONB column

    PostgreSQL takes neither NaN nor infinities, nor a NUL character. *)

Definition no_nul (s : string) : bool := forallb (fun c => negb (code c =? 0)) (chars s).

Fixpoint jsonb_ok (v : json) : bool :=
  match v with
  | JFloat x => finite x
  | JText s => no_nul s
  | JList l => forallb jsonb_ok l
  | JObj fs => forallb (fun f => (no_nul f.1 && jsonb_ok f.2)%bool) fs
  | _ => true
  end.

(** ** Short-circuit loops *)

(** [all(f(x) for x in l)], [any(f(x) for x in l)] *)
Fixpoint all_res {A} (f : A -> res bool) (l : list A) : res bool :=
  match l with
  | [] => Ok true
  | x :: l => let! b := f x in if b then all_res f l else Ok false
  end.
Fixpoint any_res {A} (f : A -> res bool) (l : list A) : res bool :=
  match l with
  | [] => Ok false
  | x :: l => let! b := f x in if b then Ok true else any_res f l
  end.

Lemma all_res_ext {A} (f g : A -> res bool) l : (forall x, f x = g x) -> all_res f l = all_res g l.
Proof. intros He. induction l as [|x l IH]; cbn; [done|]. by rewrite He, IH. Qed.
Lemma any_res_ext {A} (f g : A -> res bool) l : (forall x, f x = g x) -> any_res f l = any_res g l.
Proof. intros He. induction l as [|x l IH]; cbn; [done|]. by rewrite He, IH. Qed.

(** ** Examples *)

Example json_numbers :
  (map to_float [JInt 2; JBool true; JText " 1_0.5 "; JText "1__0"; JText "sNaN"; JText "nan1"; JNull],
   map to_int [JFloat (lit (-25) (-1)); JText "7"; JText "7.0"; JFloat (S754_infinity true); JList []])
  = ([Ok (lit 2 0); Ok (lit 1 0); Ok (lit 105 (-1)); Exn ValueError; Exn ValueError; Exn ValueError; Exn TypeError],
     [Ok (-2); Ok 7; Exn ValueError; Exn OverflowError; Exn TypeError]).
Proof. vm_compute. reflexivity. Qed.

Example json_equality :
  map (fun p => json_eq p.1 p.2)
    [(JInt 1, JFloat (lit 1 0)); (JBool true, JInt 1); (JFloat S754_nan, JFloat S754_nan);
     (JObj [("a", JInt 1); ("b", JNull)], JObj [("b", JNull); ("a", JBool true)])%string;
     (JInt (2 ^ 53 + 1), JFloat (float_of_Z (2 ^ 53)))]
  = [true; true; false; true; false].
Proof. vm_compute. reflexivity. Qed.
