(* ===== verification/Indicators.v ===== *)
(** * Indicators: [psx_api/indicators/compute.py]

    The technical indicators over chronological floats: a series has one entry
    per input, [None] during the warm-up.  A loop over indices is a recursion
    over the values it still has to visit and, for windows, the values that
    leave.  [**] is the C library's [pow] ([LibM]). *)

From S2P Require Import Prelude Decimal PyFloat.

Abbreviation Series := (list (option float)).

Definition f100 : float := lit 100 0.
Definition fint (n : Z) : float := float_of_Z n.

Definition warmup (n : nat) : Series := repeat None n.

(** [series[-1]] *)
Definition last_value (s : Series) : res (option float) :=
  match s with [] => Exn IndexError | _ => Ok (List.last s None) end.

(** ** Moving averages *)

(** [running += xs[i] - xs[i - period]; out[i] = running / period] *)
Fixpoint sma_loop (period : Z) (news olds : list float) (running : float) : Series :=
  match news, olds with
  | x :: news, old :: olds =>
      let running := (running + (x - old))%float in
      Some (fdiv_ieee running (fint period)) :: sma_loop period news olds running
  | _, _ => []
  end.

Definition sma (closes : list float) (period : Z) : res Series :=
  if period <=? 0 then Exn ValueError else
  let p := Z.to_nat period in
  if (length closes <? p)%nat then Ok (warmup (length closes)) else
  let running := fsum (take p closes) in
  Ok (warmup (p - 1) ++ Some (fdiv_ieee running (fint period)) :: sma_loop period (drop p closes) closes running)%list.

(** [prev = xs[i] * k + prev * (1 - k); out[i] = prev] *)
Fixpoint ema_loop (k : float) (news : list float) (prev : float) : Series :=
  match news with
  | [] => []
  | x :: news =>
      let prev := (x * k + prev * (lit 1 0 - k))%float in
      Some prev :: ema_loop k news prev
  end.

Definition ema (closes : list float) (period : Z) : res Series :=
  if period <=? 0 then Exn ValueError else
  let p := Z.to_nat period in
  if (length closes <? p)%nat then Ok (warmup (length closes)) else
  let seed := fdiv_ieee (fsum (take p closes)) (fint period) in
  let k := fdiv_ieee (fint 2) (fint (period + 1)) in
  Ok (warmup (p - 1) ++ Some seed :: ema_loop k (drop p closes) seed)%list.

(** ** Momentum *)

(** [100.0 if avg_loss == 0 else 100 - 100 / (1 + avg_gain / avg_loss)] *)
Definition rsi_value (avg_gain avg_loss : float) : res float :=
  if (avg_loss =? fzero)%float then Ok f100 else
  let! rs := fdiv avg_gain avg_loss in
  let! q := fdiv f100 (lit 1 0 + rs)%float in
  Ok (f100 - q)%float.

(** Gains and losses of the first [period] changes. *)
Fixpoint first_changes (prev : float) (xs : list float) (gains losses : float) : float * float :=
  match xs with
  | [] => (gains, losses)
  | x :: xs =>
      let delta := (x - prev)%float in
      if (fzero <=? delta)%float then first_changes x xs (gains + delta)%float losses
      else first_changes x xs gains (losses - delta)%float
  end.

Fixpoint rsi_loop (period : Z) (prev : float) (xs : list float) (avg_gain avg_loss : float) : res Series :=
  match xs with
  | [] => Ok []
  | x :: xs =>
      let delta := (x - prev)%float in
      let gain := fmax delta fzero in
      let loss := fmax (fopp delta) fzero in
      let avg_gain := fdiv_ieee (avg_gain * fint (period - 1) + gain)%float (fint period) in
      let avg_loss := fdiv_ieee (avg_loss * fint (period - 1) + loss)%float (fint period) in
      let! v := rsi_value avg_gain avg_loss in
      let! rest := rsi_loop period x xs avg_gain avg_loss in
      Ok (Some v :: rest)
  end.

Definition rsi (closes : list float) (period : Z) : res Series :=
  if period <=? 0 then Exn ValueError else
  let p := Z.to_nat period in
  if (length closes <=? p)%nat then Ok (warmup (length closes)) else
  match closes with
  | [] => Ok []
  | x0 :: rest =>
      let '(gains, losses) := first_changes x0 (take p rest) fzero fzero in
      let avg_gain := fdiv_ieee gains (fint period) in
      let avg_loss := fdiv_ieee losses (fint period) in
      let! v := rsi_value avg_gain avg_loss in
      let! tail := rsi_loop period (nth p closes fzero) (drop p rest) avg_gain avg_loss in
      Ok (warmup p ++ Some v :: tail)%list
  end.

(** Pointwise difference where both lines have a value. *)
Definition minus_lines (a b : Series) : Series :=
  map (fun p => match p with (Some x, Some y) => Some (x - y)%float | _ => None end) (combine a b).

Definition leading_none (s : Series) : nat :=
  (fix go s := match s with None :: s => S (go s) | _ => O end) s.

(** A line computed on the populated tail of another, in its place among [n]. *)
Definition on_tail (f : list float -> res Series) (line : Series) (n : nat) : res Series :=
  let populated_idx := leading_none line in
  let populated := omap (fun v => v) (drop populated_idx line) in
  match populated with
  | [] => Ok (warmup n)
  | _ => let! tail := f populated in
         Ok (warmup populated_idx ++ tail ++ warmup (n - populated_idx - length tail))%list
  end.

Record macd_lines := mkMacd { mc_macd : Series; mc_signal : Series; mc_histogram : Series }.

Definition macd (closes : list float) (fast slow signal_period : Z) : res macd_lines :=
  let! fast_line := ema closes fast in
  let! slow_line := ema closes slow in
  let macd_line := minus_lines fast_line slow_line in
  let! signal_line := on_tail (fun l => ema l signal_period) macd_line (length closes) in
  Ok (mkMacd macd_line signal_line (minus_lines macd_line signal_line)).

Definition max_of (l : list float) : float := match l with [] => fzero | x :: xs => fold_left fmax xs x end.
Definition min_of (l : list float) : float := match l with [] => fzero | x :: xs => fold_left fmin xs x end.

(** [%K] at the end of a window. *)
Definition stochastic_k (highs lows : list float) (close : float) : res float :=
  let window_high := max_of highs in
  let window_low := min_of lows in
  let denom := (window_high - window_low)%float in
  if (denom =? fzero)%float then Ok (lit 50 0) else fdiv (f100 * (close - window_low))%float denom.

Fixpoint stochastic_loop (k_period : nat) (highs lows closes : list float) : res Series :=
  match closes with
  | [] => Ok []
  | c :: closes' =>
      if (length closes <? k_period)%nat then Ok [] else
      let! v := stochastic_k (take k_period highs) (take k_period lows) (nth (k_period - 1) closes fzero) in
      let! rest := stochastic_loop k_period (tail highs) (tail lows) closes' in
      Ok (Some v :: rest)
  end.

(** Without a positive [k_period] the loop starts before the first bar, and the
    window of index -1, if none before it, is empty: [max] raises. *)
Definition stochastic (highs lows closes : list float) (k_period d_period : Z) : res (Series * Series) :=
  if negb (Nat.eqb (length highs) (length lows) && Nat.eqb (length lows) (length closes)) then Exn ValueError else
  if k_period <=? 0 then Exn ValueError else
  let n := length closes in
  let k := Z.to_nat k_period in
  let! values := stochastic_loop k highs lows closes in
  let k_line := (warmup (Nat.min n (k - 1)) ++ values)%list in
  let! d_line := on_tail (fun l => sma l d_period) k_line n in
  Ok (k_line, d_line).

(** ** Volatility *)

Section libm.
Context `{LibM}.

(** [x ** 2] *)
Definition square (x : float) : res float := fpow x (lit 2 0).

Record bands := mkBands { bb_upper : Series; bb_middle : Series; bb_lower : Series }.

(** The standard deviation of each window of [p] values. *)
Fixpoint deviations (p : nat) (period : Z) (xs : list float) (means : Series) : res Series :=
  match means with
  | [] => Ok []
  | None :: means => let! rest := deviations p period (tail xs) means in Ok (None :: rest)
  | Some mean :: means =>
      let! squares := map_res (fun x => square (x - mean)%float) (take p xs) in
      let! std := fpow (fdiv_ieee (fsum squares) (fint period)) (lit 5 (-1)) in
      let! rest := deviations p period (tail xs) means in
      Ok (Some std :: rest)
  end.

Definition bollinger_bands (closes : list float) (period : Z) (num_std : float) : res bands :=
  let! middle := sma closes period in
  let p := Z.to_nat period in
  let tail_means := drop (p - 1) middle in
  let! stds := deviations p period closes tail_means in
  let line f := (warmup (Nat.min (length closes) (p - 1)) ++
    map (fun q => match q with (Some m, Some s) => Some (f m (num_std * s)%float) | _ => None end)
      (combine tail_means stds))%list in
  Ok (mkBands (line fadd) middle (line fsub)).
End libm.

(** True ranges, from the second bar on. *)
Fixpoint true_ranges (prev_c : float) (highs lows closes : list float) : list float :=
  match highs, lows, closes with
  | h :: highs, lo :: lows, c :: closes =>
      fmax (fmax (h - lo)%float (fabs (h - prev_c)%float)) (fabs (lo - prev_c)%float)
      :: true_ranges c highs lows closes
  | _, _, _ => []
  end.

(** [l[i]]: a negative index counts from the end. *)
Definition index_of {A} (l : list A) (i : Z) : res nat :=
  let j := if i <? 0 then i + Z.of_nat (length l) else i in
  if (0 <=? j) && (j <? Z.of_nat (length l)) then Ok (Z.to_nat j) else Exn IndexError.

(** [out[i] = v] *)
Definition set_at (out : Series) (i : Z) (v : float) : res Series :=
  let! j := index_of out i in Ok (<[j := Some v]> out).

(** [prev = (prev * (period - 1) + trs[i - 1]) / period; out[i] = prev] *)
Definition atr_step (period : Z) (trs : list float) (st : float * Series) (i : Z) : res (float * Series) :=
  let! j := index_of trs (i - 1) in
  let! prev := fdiv (st.1 * fint (period - 1) + nth j trs fzero)%float (fint period) in
  let! out := set_at st.2 i prev in
  Ok (prev, out).

(** [trs[:period]] *)
Definition first_of (period : Z) (trs : list float) : list float :=
  take (Z.to_nat (if period <? 0 then period + Z.of_nat (length trs) else period)) trs.

(** The period is not checked: zero divides by zero, and a negative one indexes
    from the end. *)
Definition atr (highs lows closes : list float) (period : Z) : res Series :=
  if negb (Nat.eqb (length highs) (length lows) && Nat.eqb (length lows) (length closes)) then Exn ValueError else
  let n := Z.of_nat (length closes) in
  if n <? period + 1 then Ok (warmup (length closes)) else
  let trs := match closes with [] => [] | c0 :: rest => true_ranges c0 (tail highs) (tail lows) rest end in
  let! first_atr := fdiv (fsum (first_of period trs)) (fint period) in
  let! out := set_at (warmup (length closes)) period first_atr in
  let! st := fold_res (atr_step period trs) (first_atr, out)
    (map (fun k => period + 1 + Z.of_nat k) (seq 0 (Z.to_nat (n - (period + 1))))) in
  Ok st.2.

(** ** Volume *)

Fixpoint obv_loop (prev : float) (closes volumes : list float) (running : float) : Series :=
  match closes, volumes with
  | c :: closes, v :: volumes =>
      let running := if (prev <? c)%float then (running + v)%float
                     else if (c <? prev)%float then (running - v)%float else running in
      Some running :: obv_loop c closes volumes running
  | _, _ => []
  end.

Definition obv (closes volumes : list float) : res Series :=
  if negb (Nat.eqb (length closes) (length volumes)) then Exn ValueError else
  match closes with
  | [] => Ok []
  | c0 :: rest => Ok (Some fzero :: obv_loop c0 rest (tail volumes) fzero)
  end.

(** ** Examples *)

Example moving_averages :
  (sma (map fint [1; 2; 3; 5]) 2, ema (map fint [1; 2; 3]) 3, sma [] 0)
  = (Ok [None; Some (lit 15 (-1)); Some (lit 25 (-1)); Some (lit 4 0)], Ok [None; None; Some (lit 2 0)], Exn ValueError).
Proof. vm_compute. reflexivity. Qed.

Example rsi_ex : rsi (map fint [1; 2; 1; 1; 1]) 2 = Ok [None; None; Some (lit 50 0); Some (lit 50 0); Some (lit 50 0)].
Proof. vm_compute. reflexivity. Qed.

Example atr_ex :
  let bars p := atr (map fint [2; 3; 4]) (map fint [1; 1; 2]) (map fint [1; 2; 3]) p in
  (bars 1, bars 0, bars (-1), bars 3)
  = (Ok [None; Some (lit 2 0); Some (lit 2 0)], Exn ZeroDivisionError, Ok [Some (lit (-6) 0); Some (lit (-14) 0); Some (lit (-30) 0)],
     Ok [None; None; None]).
Proof. vm_compute. reflexivity. Qed.
