(* ===== verification/IndicatorsCorrect.v ===== *)
(** * IndicatorsCorrect: the shape of the indicator series

    Every indicator of [Indicators] returns one entry per bar, unknown exactly
    during its warm-up ([series_aligned]). *)

From S2P Require Import Prelude Decimal PyFloat Indicators.

(** One entry for each of [n] bars, unknown for the first [w] and known from then on. *)
Definition aligned (n w : nat) (s : Series) : Prop :=
  exists l, s = (warmup (Nat.min w n) ++ map Some l)%list /\ length l = (n - w)%nat.

Lemma aligned_length n w s : aligned n w s -> length s = n.
Proof. intros (l & -> & Hl). unfold warmup. rewrite length_app, repeat_length, length_map. lia. Qed.

Lemma warmup_length k : length (warmup k) = k.
Proof. apply repeat_length. Qed.

Lemma warmup_lookup k i : (i < k)%nat -> warmup k !! i = Some None.
Proof. revert i. induction k as [|k IH]; intros [|i] Hi; try lia; [done|]. cbn. apply IH. lia. Qed.

(** The entries, one by one. *)
Lemma aligned_lookup n w s i :
  aligned n w s -> (i < n)%nat -> if decide (i < w)%nat then s !! i = Some None else exists x, s !! i = Some (Some x).
Proof.
  intros (l & -> & Hl) Hi. destruct (decide (i < w)%nat).
  - rewrite lookup_app_l by (unfold warmup; rewrite repeat_length; lia). apply warmup_lookup. lia.
  - unfold warmup. rewrite lookup_app_r, repeat_length by (rewrite repeat_length; lia). rewrite list.list_lookup_fmap.
    destruct (l !! (i - Nat.min w n)%nat) as [x|] eqn:E; [by exists x|]. apply lookup_ge_None in E. lia.
Qed.

(** [series[-1]] is known once the warm-up is over. *)
Lemma aligned_last n w s :
  aligned n w s -> (0 < n)%nat ->
  if decide (n <= w)%nat then last_value s = Ok None else exists x, last_value s = Ok (Some x).
Proof.
  intros (l & -> & Hl) Hn. unfold last_value, warmup. destruct (decide (n <= w)%nat).
  - replace l with (@nil float) by (symmetry; apply length_zero_iff_nil; lia). rewrite app_nil_r.
    destruct (Nat.min w n) as [|k] eqn:E; [lia|]. cbn [repeat]. f_equal. clear. induction k as [|k IH]; [done|]. cbn in *. by destruct k.
  - destruct l as [|x l _] using rev_ind; [cbn in Hl; lia|]. rewrite map_app, app_assoc. cbn [map].
    exists x. rewrite List.last_last. by destruct (repeat None (Nat.min w n) ++ map Some l)%list.
Qed.

Lemma aligned_none n w : (n <= w)%nat -> aligned n w (warmup n).
Proof. intros H. exists []. rewrite app_nil_r, Nat.min_r by lia. split; [done|]. cbn. lia. Qed.

Lemma warmup_app a b : (warmup a ++ warmup b)%list = warmup (a + b).
Proof. unfold warmup. by rewrite repeat_app. Qed.

(** ** Moving averages *)

Lemma sma_loop_known period news olds running :
  (length news <= length olds)%nat -> exists l, sma_loop period news olds running = map Some l /\ length l = length news.
Proof.
  revert olds running. induction news as [|x news IH]; intros [|old olds] running Hl;
    cbn [sma_loop length] in *; try lia; [by exists []..|].
  destruct (IH olds (running + (x - old))%float) as (l & -> & E); [lia|]. eexists (_ :: l). cbn [map length]. by rewrite E.
Qed.

Lemma sma_aligned closes period s :
  sma closes period = Ok s -> 0 < period /\ aligned (length closes) (Z.to_nat period - 1) s.
Proof.
  unfold sma. destruct (period <=? 0) eqn:Ep; [done|]. zbool. destruct (_ <? _)%nat eqn:En; intros [= <-]; (split; [lia|]).
  - apply Nat.ltb_lt in En. apply aligned_none. lia.
  - apply Nat.ltb_ge in En. destruct (sma_loop_known period (drop (Z.to_nat period) closes) closes (fsum (take (Z.to_nat period) closes)))
      as (l & -> & Hl); [rewrite length_drop; lia|]. eexists (_ :: l). rewrite Nat.min_l by lia. split; [done|].
    cbn. rewrite Hl, length_drop. lia.
Qed.

Lemma ema_loop_known k news prev : exists l, ema_loop k news prev = map Some l /\ length l = length news.
Proof.
  revert prev. induction news as [|x news IH]; intros prev; [by exists []|].
  cbn [ema_loop length]. destruct (IH (x * k + prev * (lit 1 0 - k))%float) as (l & -> & E). eexists (_ :: l).
  cbn [map length]. by rewrite E.
Qed.

Lemma ema_aligned closes period s :
  ema closes period = Ok s -> 0 < period /\ aligned (length closes) (Z.to_nat period - 1) s.
Proof.
  unfold ema. destruct (period <=? 0) eqn:Ep; [done|]. zbool. destruct (_ <? _)%nat eqn:En; intros [= <-]; (split; [lia|]).
  - apply Nat.ltb_lt in En. apply aligned_none. lia.
  - apply Nat.ltb_ge in En. match goal with |- context [ema_loop ?k ?news ?p] => destruct (ema_loop_known k news p) as (l & -> & Hl) end.
    eexists (_ :: l). rewrite Nat.min_l by lia. split; [done|]. cbn. rewrite Hl, length_drop. lia.
Qed.

(** ** Momentum *)

Lemma rsi_loop_known period prev xs g l0 s :
  rsi_loop period prev xs g l0 = Ok s -> exists l, s = map Some l /\ length l = length xs.
Proof.
  revert prev g l0 s. induction xs as [|x xs IH]; intros prev g l0 s; cbn [rsi_loop length]; [intros [= <-]; by exists []|].
  intros K. res_step K. res_step K. injection K as <-. apply IH in E0 as (l & -> & E0). exists (a :: l). cbn [map length]. by rewrite E0.
Qed.

Lemma rsi_aligned closes period s : rsi closes period = Ok s -> 0 < period /\ aligned (length closes) (Z.to_nat period) s.
Proof.
  unfold rsi. destruct (period <=? 0) eqn:Ep; [done|]. zbool. destruct (_ <=? _)%nat eqn:En.
  - intros [= <-]. split; [lia|]. apply Nat.leb_le in En. by apply aligned_none.
  - apply Nat.leb_gt in En. destruct closes as [|x0 rest]; [cbn in En; lia|]. destruct (first_changes _ _ _ _) as [gains losses].
    intros K. res_step K. res_step K. injection K as <-. split; [lia|]. apply rsi_loop_known in E0 as (l & -> & Hl).
    exists (a :: l). cbn [length] in En. rewrite Nat.min_l by (cbn [length]; lia). split; [done|].
    cbn [length]. rewrite Hl, length_drop. lia.
Qed.

(** The entries determine the shape. *)
Lemma aligned_intro n w s :
  length s = n ->
  (forall i, (i < n)%nat -> if decide (i < w)%nat then s !! i = Some None else exists x, s !! i = Some (Some x)) ->
  aligned n w s.
Proof.
  intros <-. revert w. induction s as [|v s IH]; intros w Hs; [exact (aligned_none 0 w (Nat.le_0_l w))|].
  pose proof (Hs 0%nat ltac:(cbn; lia)) as H0. destruct w as [|w]; cbn in H0.
  - destruct H0 as [x [= ->]]. destruct (IH 0%nat) as (l & -> & Hl); [|exists (x :: l); cbn in *; split; [done|lia]].
    intros i Hi. exact (Hs (S i) ltac:(cbn; lia)).
  - injection H0 as ->. destruct (IH w) as (l & Es & Hl); [|exists l; cbn [length Nat.min]; unfold warmup in *; cbn [repeat app]; by rewrite <- Es].
    intros i Hi. specialize (Hs (S i) ltac:(cbn; lia)). destruct (decide (i < w)%nat), (decide (S i < S w)%nat); done || lia.
Qed.

Lemma minus_lines_aligned n w1 w2 a b : aligned n w1 a -> aligned n w2 b -> aligned n (Nat.max w1 w2) (minus_lines a b).
Proof.
  intros Ha Hb. pose proof (aligned_length _ _ _ Ha). pose proof (aligned_length _ _ _ Hb). unfold minus_lines. apply aligned_intro.
  { rewrite length_map, length_combine. lia. }
  intros i Hi. pose proof (aligned_lookup _ _ _ i Ha Hi) as Ia. pose proof (aligned_lookup _ _ _ i Hb Hi) as Ib.
  assert (Hc : forall x y, a !! i = Some x -> b !! i = Some y -> combine a b !! i = Some (x, y)).
  { clear. revert b i. induction a as [|x' a IH]; intros [|y' b] [|i] x y; cbn; try done; [by intros [= ->] [= ->]|]. apply IH. }
  assert (Hl : forall p, combine a b !! i = Some p ->
    map (fun p => match p with (Some x, Some y) => Some (x - y)%float | _ => None end) (combine a b) !! i
    = Some (match p with (Some x, Some y) => Some (x - y)%float | _ => None end)).
  { intros p Hp. rewrite list.list_lookup_fmap, Hp. done. }
  destruct (decide (i < w1)%nat), (decide (i < w2)%nat), (decide (i < Nat.max w1 w2)%nat); try lia.
  - by rewrite (Hl _ (Hc _ _ Ia Ib)).
  - destruct Ib as [y Ib]. by rewrite (Hl _ (Hc _ _ Ia Ib)).
  - destruct Ia as [x Ia]. by rewrite (Hl _ (Hc _ _ Ia Ib)).
  - destruct Ia as [x Ia], Ib as [y Ib]. rewrite (Hl _ (Hc _ _ Ia Ib)). by eexists.
Qed.

Lemma leading_none_warmup k l : leading_none (warmup k ++ map Some l) = k.
Proof. induction k as [|k IH]; [by destruct l|]. change (S (leading_none (warmup k ++ map Some l)) = S k). by rewrite IH. Qed.

Lemma omap_known (l : list float) : omap (fun v => v) (map Some l) = l.
Proof. induction l as [|x l IH]; [done|]. cbn. by rewrite IH. Qed.

(** A line over the known part of another. *)
Lemma on_tail_aligned f n w w' line s :
  (forall l t, f l = Ok t -> aligned (length l) w' t) -> aligned n w line -> on_tail f line n = Ok s -> aligned n (w + w') s.
Proof.
  intros Hf (l & -> & Hl) K. unfold on_tail in K. rewrite leading_none_warmup in K.
  replace (drop (Nat.min w n) (warmup (Nat.min w n) ++ map Some l)) with (map Some l) in K
    by (rewrite drop_app_length' by (unfold warmup; by rewrite repeat_length); done).
  rewrite omap_known in K. destruct l as [|x l]; [injection K as <-; apply aligned_none; cbn in Hl; lia|].
  res_step K. injection K as <-. apply Hf in E. pose proof (aligned_length _ _ _ E) as Ha. destruct E as (m & -> & Hm).
  replace (n - Nat.min w n - _)%nat with O by (rewrite Ha, Hl; lia). cbn [warmup repeat]. rewrite app_nil_r.
  exists m. rewrite app_assoc, warmup_app. split; [|lia]. f_equal. f_equal. lia.
Qed.

Lemma macd_aligned closes fast slow signal_period lines :
  macd closes fast slow signal_period = Ok lines ->
  let n := length closes in let w := (Nat.max (Z.to_nat fast - 1) (Z.to_nat slow - 1))%nat in
  aligned n w (mc_macd lines) /\ aligned n (w + (Z.to_nat signal_period - 1)) (mc_signal lines) /\
  aligned n (w + (Z.to_nat signal_period - 1)) (mc_histogram lines).
Proof.
  unfold macd. intros K. res_step K. res_step K. res_step K. injection K as <-. cbn [mc_macd mc_signal mc_histogram].
  apply ema_aligned in E as [_ E]. apply ema_aligned in E0 as [_ E0]. pose proof (minus_lines_aligned _ _ _ _ _ E E0) as Hm.
  assert (Hs : aligned (length closes) (Nat.max (Z.to_nat fast - 1) (Z.to_nat slow - 1) + (Z.to_nat signal_period - 1)) a1).
  { eapply on_tail_aligned; [|exact Hm|exact E1]. intros l t Ht. by apply ema_aligned in Ht as [_ Ht]. }
  split; [done|]. split; [done|]. pose proof (minus_lines_aligned _ _ _ _ _ Hm Hs) as Hh.
  by rewrite Nat.max_r in Hh by lia.
Qed.

Lemma stochastic_loop_known k highs lows closes s :
  (0 < k)%nat -> stochastic_loop k highs lows closes = Ok s ->
  exists l, s = map Some l /\ length l = (length closes - (k - 1))%nat.
Proof.
  intros Hk. revert highs lows s. induction closes as [|c closes IH]; intros highs lows s; cbn [stochastic_loop];
    [intros [= <-]; exists []; split; [done|cbn; lia]|].
  destruct (_ <? k)%nat eqn:Ek; [intros [= <-]; exists []; apply Nat.ltb_lt in Ek; split; [done|cbn in *; lia]|].
  apply Nat.ltb_ge in Ek. intros K. res_step K. res_step K. injection K as <-. apply IH in E0 as (l & -> & Hl).
  exists (a :: l). split; [done|]. cbn [length] in *. lia.
Qed.

Lemma stochastic_aligned highs lows closes k_period d_period lines :
  stochastic highs lows closes k_period d_period = Ok lines ->
  aligned (length closes) (Z.to_nat k_period - 1) lines.1 /\
  aligned (length closes) (Z.to_nat k_period - 1 + (Z.to_nat d_period - 1)) lines.2.
Proof.
  unfold stochastic. destruct (negb _); [done|]. destruct (k_period <=? 0) eqn:Ek; [done|]. zbool. intros K.
  res_step K. res_step K. injection K as <-. apply stochastic_loop_known in E as (l & -> & Hl); [|lia].
  assert (Hk : aligned (length closes) (Z.to_nat k_period - 1) (warmup (Nat.min (length closes) (Z.to_nat k_period - 1)) ++ map Some l)).
  { exists l. split; [|done]. f_equal. f_equal. lia. }
  split; [done|]. eapply on_tail_aligned; [|exact Hk|exact E0]. intros m t Ht. by apply sma_aligned in Ht as [_ Ht].
Qed.

(** ** Volatility *)

Lemma deviations_known `{LibM} p period xs means s :
  deviations p period xs (map Some means) = Ok s -> exists l, s = map Some l /\ length l = length means.
Proof.
  revert xs s. induction means as [|m means IH]; intros xs s; cbn [deviations map]; [intros [= <-]; by exists []|].
  intros K. res_step K. res_step K. res_step K. injection K as <-. apply IH in E1 as (l & -> & Hl).
  exists (a0 :: l). cbn [length map]. by rewrite Hl.
Qed.

Lemma bollinger_aligned `{LibM} closes period num_std b :
  bollinger_bands closes period num_std = Ok b ->
  let w := (Z.to_nat period - 1)%nat in
  aligned (length closes) w (bb_upper b) /\ aligned (length closes) w (bb_middle b) /\ aligned (length closes) w (bb_lower b).
Proof.
  unfold bollinger_bands. intros K. res_step K. apply sma_aligned in E as [_ E]. pose proof E as (l & -> & Hl).
  set (w := (Z.to_nat period - 1)%nat) in *. set (n := length closes) in *.
  assert (Hd : drop w (warmup (Nat.min w n) ++ map Some l) = map Some l).
  { destruct (decide (w <= n)%nat) as [Hw|Hw].
    - apply drop_app_length'. unfold warmup. rewrite repeat_length. lia.
    - replace l with (@nil float) by (symmetry; apply length_zero_iff_nil; lia). rewrite app_nil_r, drop_ge; [done|].
      unfold warmup. rewrite repeat_length. lia. }
  rewrite Hd in K. res_step K. injection K as <-. apply deviations_known in E0 as (d & -> & Hd').
  assert (Hline : forall f : float -> float -> float, aligned n w (warmup (Nat.min n w) ++ map (fun q =>
    match q with (Some m, Some s) => Some (f m (num_std * s)%float) | _ => None end) (combine (map Some l) (map Some d)))).
  { intros f. exists (map (fun q => f q.1 (num_std * q.2)%float) (combine l d)). rewrite Nat.min_comm. split.
    - f_equal. clear -d l. revert d. induction l as [|x l IH]; intros [|y d]; [done..|]. cbn [map combine]. by rewrite IH.
    - rewrite length_map, length_combine. lia. }
  by split_and!; [apply Hline| |apply Hline].
Qed.

Lemma obv_aligned closes volumes s : obv closes volumes = Ok s -> aligned (length closes) 0 s.
Proof.
  unfold obv. destruct (negb _) eqn:El; [done|]. apply negb_false_iff, Nat.eqb_eq in El.
  destruct closes as [|c closes]; [intros [= <-]; by exists []|]. intros [= <-].
  destruct volumes as [|v volumes]; [done|]. cbn [tail]. injection El as El.
  assert (Hk : forall prev r, exists l, obv_loop prev closes volumes r = map Some l /\ length l = length closes).
  { clear v. revert volumes El. induction closes as [|c' closes IH]; intros [|v volumes] El prev r; try done; [by exists []|].
    cbn [obv_loop]. cbv zeta. injection El as El. match goal with |- context [obv_loop c' closes volumes ?r] =>
      destruct (IH volumes El c' r) as (l & -> & Hl) end. eexists (_ :: l). cbn [map length]. by rewrite Hl. }
  destruct (Hk c fzero) as (l & -> & Hl). exists (fzero :: l). cbn [length map Nat.min]. by rewrite Hl.
Qed.

Lemma set_at_next p m l x n :
  (p + length l < n)%nat -> n = (p + length l + S m)%nat ->
  set_at (warmup p ++ map Some l ++ warmup (S m)) (Z.of_nat (p + length l)) x = Ok (warmup p ++ map Some (l ++ [x]) ++ warmup m)%list.
Proof.
  intros Hn ->. assert (Hlen : length (warmup p ++ map Some l ++ warmup (S m)) = (p + length l + S m)%nat)
    by (rewrite !length_app, length_map, !warmup_length; lia).
  unfold set_at, index_of. rewrite Hlen. rewrite (proj2 (Z.ltb_ge _ 0)) by lia.
  rewrite (proj2 (Z.leb_le 0 _)), (proj2 (Z.ltb_lt _ _)) by lia. cbn [andb].
  rewrite Nat2Z.id. f_equal. rewrite insert_app_r_alt by (rewrite warmup_length; lia). rewrite warmup_length.
  f_equal. rewrite insert_app_r_alt by (rewrite length_map; lia).
  replace (p + length l - p - length (map Some l))%nat with O by (rewrite length_map; lia).
  cbn [warmup repeat]. by rewrite map_app, <- app_assoc.
Qed.

Lemma atr_steps period trs n m l prev st :
  0 < period -> n = (Z.to_nat period + length l + m)%nat ->
  fold_res (atr_step period trs) (prev, warmup (Z.to_nat period) ++ map Some l ++ warmup m)%list
    (map (fun k => period + Z.of_nat (length l) + Z.of_nat k) (seq 0 m)) = Ok st ->
  exists l', st.2 = (warmup (Z.to_nat period) ++ map Some l')%list /\ length l' = (n - Z.to_nat period)%nat.
Proof.
  intros Hp. revert l prev. induction m as [|m IH]; intros l prev Hn; cbn [seq map fold_res].
  - intros [= <-]. exists l. cbn [snd warmup repeat]. rewrite app_nil_r. split; [done|lia].
  - intros K. destruct (atr_step _ _ _ _) as [st1|] eqn:E; [|done]. unfold atr_step in E. cbn [fst snd] in E. res_step E. res_step E.
    replace (period + Z.of_nat (length l) + Z.of_nat 0) with (Z.of_nat (Z.to_nat period + length l)) in E by lia.
    rewrite (set_at_next _ m l _ n) in E by lia. injection E as <-.
    apply (IH (l ++ [a0])%list a0); [rewrite length_app; cbn [length]; lia|]. rewrite <- K, <- seq_shift, map_map. f_equal.
    apply map_ext. intros k. rewrite length_app. cbn [length]. lia.
Qed.

Lemma atr_aligned highs lows closes period s :
  0 < period -> atr highs lows closes period = Ok s -> aligned (length closes) (Z.to_nat period) s.
Proof.
  intros Hp. unfold atr. destruct (negb _); [done|]. destruct (_ <? _) eqn:En; zbool.
  { intros [= <-]. apply aligned_none. lia. }
  intros K. res_step K. res_step K. res_step K. injection K as <-.
  pose proof (set_at_next (Z.to_nat period) (length closes - Z.to_nat period - 1) [] a (length closes)) as Hset.
  cbn [length map app] in Hset. rewrite Nat.add_0_r, warmup_app in Hset.
  replace (Z.to_nat period + S _)%nat with (length closes) in Hset by lia. rewrite Z2Nat.id in Hset by lia.
  rewrite Hset in E0 by lia. injection E0 as <-.
  replace (Z.to_nat (Z.of_nat (length closes) - (period + 1))) with (length closes - Z.to_nat period - 1)%nat in E1 by lia.
  apply (atr_steps period _ (length closes) _ [a] a a1) in E1 as (l & -> & Hl); [|done|cbn [length]; lia].
  exists l. split; [|done]. f_equal. f_equal. lia.
Qed.

(** ** All indicators *)

(** A result, if there is one, has a property; without a positive period it is a
    [ValueError]. *)
Definition yields {A} (period : Z) (P : A -> Prop) (r : res A) : Prop :=
  match r with Ok a => 0 < period /\ P a | Exn e => period <= 0 -> e = ValueError end.


(** ** When a series cannot be computed *)

Lemma fdiv_nonzero x y : (y =? fzero)%float = false -> fdiv x y = Ok (fdiv_ieee x y).
Proof. by destruct y. Qed.

Lemma fdiv_error x y e : fdiv x y = Exn e -> e = ZeroDivisionError.
Proof. unfold fdiv. by destruct y; intros [= <-]. Qed.

Lemma sma_total closes period : 0 < period -> exists s, sma closes period = Ok s.
Proof. intros Hp. unfold sma. rewrite (proj2 (Z.leb_gt _ _) Hp). destruct (_ <? _)%nat; by eexists. Qed.

Lemma ema_total closes period : 0 < period -> exists s, ema closes period = Ok s.
Proof. intros Hp. unfold ema. rewrite (proj2 (Z.leb_gt _ _) Hp). destruct (_ <? _)%nat; by eexists. Qed.

Lemma on_tail_total f line n : (forall l, exists t, f l = Ok t) -> exists s, on_tail f line n = Ok s.
Proof. intros Hf. unfold on_tail. destruct (omap _ _) as [|x l]; [by eexists|]. destruct (Hf (x :: l)) as [t ->]. by eexists. Qed.

Lemma macd_total closes fast slow signal : 0 < fast -> 0 < slow -> 0 < signal -> exists m, macd closes fast slow signal = Ok m.
Proof.
  intros Hf Hs Hg. unfold macd. destruct (ema_total closes fast Hf) as [a ->], (ema_total closes slow Hs) as [b ->].
  destruct (on_tail_total (fun l => ema l signal) (minus_lines a b) (length closes)) as [s ->]; [intros; by apply ema_total|]. by eexists.
Qed.

Lemma stochastic_total highs lows closes k d :
  length highs = length closes -> length lows = length closes -> 0 < k -> 0 < d -> exists s, stochastic highs lows closes k d = Ok s.
Proof.
  intros Hh Hl Hk Hd. unfold stochastic. rewrite Hh, Hl, Nat.eqb_refl. cbn [andb negb]. rewrite (proj2 (Z.leb_gt _ _) Hk).
  assert (Hloop : forall p hs ls cs, exists v, stochastic_loop p hs ls cs = Ok v).
  { clear. intros p hs ls cs. revert hs ls. induction cs as [|c cs IH]; intros hs ls; cbn [stochastic_loop]; [by eexists|].
    destruct (_ <? _)%nat; [by eexists|]. unfold stochastic_k. destruct (_ =? fzero)%float eqn:E.
    - destruct (IH (tail hs) (tail ls)) as [v ->]. by eexists.
    - rewrite (fdiv_nonzero _ _ E). destruct (IH (tail hs) (tail ls)) as [v ->]. by eexists. }
  destruct (Hloop (Z.to_nat k) highs lows closes) as [v ->].
  destruct (on_tail_total (fun l => sma l d) (warmup (Nat.min (length closes) (Z.to_nat k - 1)) ++ v) (length closes)) as [s ->];
    [intros; by apply sma_total|]. by eexists.
Qed.

Lemma obv_total closes volumes : length closes = length volumes -> exists s, obv closes volumes = Ok s.
Proof. intros Hl. unfold obv. rewrite Hl, Nat.eqb_refl. cbn [negb]. destruct closes; by eexists. Qed.

Lemma rsi_value_error g l e : rsi_value g l = Exn e -> e = ZeroDivisionError.
Proof.
  unfold rsi_value. destruct (_ =? _)%float; [done|]. destruct (fdiv g l) eqn:E1; [|intros [= <-]; by apply fdiv_error in E1].
  destruct (fdiv f100 _) eqn:E2; [done|]. intros [= <-]. by apply fdiv_error in E2.
Qed.

Lemma rsi_error closes period e :
  0 < period -> rsi closes period = Exn e -> e = ZeroDivisionError /\ (Z.to_nat period < length closes)%nat.
Proof.
  intros Hp. unfold rsi. rewrite (proj2 (Z.leb_gt _ _) Hp). destruct (_ <=? _)%nat eqn:En; [done|]. apply Nat.leb_gt in En.
  destruct closes as [|x0 rest]; [done|]. intros K. split; [|done]. destruct (first_changes _ _ _ _) as [gains losses].
  destruct (rsi_value _ _) eqn:E; [|injection K as <-; by apply rsi_value_error in E].
  assert (Hl : forall prev xs g l e, rsi_loop period prev xs g l = Exn e -> e = ZeroDivisionError).
  { clear. intros prev xs. revert prev. induction xs as [|x xs IH]; intros prev g l e; cbn [rsi_loop]; [done|].
    destruct (rsi_value _ _) eqn:E; [|intros [= <-]; by apply rsi_value_error in E].
    destruct (rsi_loop _ _ xs _ _) eqn:E'; [done|]. intros [= <-]. by apply IH in E'. }
  destruct (rsi_loop _ _ _ _ _) eqn:E'; [done|]. injection K as <-. by apply Hl in E'.
Qed.

Lemma fpow_error `{LibM} x y e : fpow x y = Exn e -> e = OverflowError.
Proof. unfold fpow. destruct (libm_pow x y); try done. destruct (_ && _)%bool; [|done]. by intros [= <-]. Qed.

Lemma bollinger_error `{LibM} closes period num_std e :
  0 < period -> bollinger_bands closes period num_std = Exn e -> e = OverflowError /\ (Z.to_nat period <= length closes)%nat.
Proof.
  intros Hp. unfold bollinger_bands. destruct (sma_total closes period Hp) as [middle E]. rewrite E. apply sma_aligned in E as [_ Ha].
  intros K. destruct (deviations _ _ _ _) as [stds|e'] eqn:Ed; [done|]. injection K as ->.
  assert (Hd : forall p xs means e, deviations p period xs means = Exn e -> e = OverflowError /\ exists m, Some m ∈ means).
  { clear. intros p xs means. revert xs. induction means as [|[m|] means IH]; intros xs e; cbn [deviations]; [done| |].
    - intros K. split; [|exists m; by left]. destruct (map_res _ _) as [sq|e'] eqn:E.
      + destruct (fpow _ _) eqn:E2; [|injection K as <-; by apply fpow_error in E2].
        destruct (deviations _ _ _ means) eqn:E3; [done|]. injection K as <-. by apply IH in E3 as [-> _].
      + injection K as <-. clear -E. revert e' E. induction (take p xs) as [|x l IHl]; intros e'; cbn [map_res]; [done|].
        destruct (square _) eqn:E1; [|intros [= <-]; by apply fpow_error in E1]. destruct (map_res _ l); [done|]. intros [= <-]. by apply IHl.
    - intros K. destruct (deviations _ _ _ means) eqn:E3; [done|]. injection K as <-. apply IH in E3 as [-> [m Hm]].
      split; [done|]. exists m. by right. }
  apply Hd in Ed as [-> [m Hm]]. split; [done|]. destruct (decide (Z.to_nat period <= length closes)%nat) as [|Hs]; [done|].
  exfalso. destruct Ha as (l & -> & Hl). replace l with (@nil float) in Hm by (symmetry; apply length_zero_iff_nil; lia).
  rewrite app_nil_r in Hm. unfold warmup in Hm.
  assert (Hin : Some m ∈ repeat (@None float) (Nat.min (Z.to_nat period - 1) (length closes))).
  { rewrite <- (take_drop (Z.to_nat period - 1)). apply elem_of_app. by right. }
  apply list_elem_of_In, repeat_spec in Hin. discriminate.
Qed.

Lemma true_ranges_length c highs lows closes :
  length highs = length closes -> length lows = length closes -> length (true_ranges c highs lows closes) = length closes.
Proof.
  revert c highs lows. induction closes as [|x closes IH]; intros c [|h highs] [|l lows] H1 H2; try done.
  cbn [true_ranges length]. f_equal. apply IH; cbn in *; lia.
Qed.

Lemma atr_steps_total period trs n m l prev :
  0 < period -> (forall x, exists q, fdiv x (fint period) = Ok q) ->
  n = (Z.to_nat period + length l + m)%nat -> (0 < length l)%nat -> length trs = (n - 1)%nat ->
  exists st, fold_res (atr_step period trs) (prev, warmup (Z.to_nat period) ++ map Some l ++ warmup m)%list
    (map (fun k => period + Z.of_nat (length l) + Z.of_nat k) (seq 0 m)) = Ok st.
Proof.
  intros Hp Hq. revert l prev. induction m as [|m IH]; intros l prev Hn Hl Ht; [by eexists|].
  cbn [seq map fold_res]. unfold atr_step at 1. cbn [fst snd].
  assert (Hi : exists j, index_of trs (period + Z.of_nat (length l) + Z.of_nat 0 - 1) = Ok j).
  { unfold index_of. rewrite (proj2 (Z.ltb_ge _ 0)) by lia. rewrite (proj2 (Z.leb_le 0 _)), (proj2 (Z.ltb_lt _ _)) by lia. by eexists. }
  destruct Hi as [j ->]. destruct (Hq (prev * fint (period - 1) + nth j trs fzero)%float) as [q ->].
  replace (period + Z.of_nat (length l) + Z.of_nat 0) with (Z.of_nat (Z.to_nat period + length l)) by lia.
  rewrite (set_at_next _ m l _ n) by lia. destruct (IH (l ++ [q])%list q) as [st Hst]; [rewrite ?length_app; cbn [length]; lia..|].
  exists st. rewrite <- Hst, <- seq_shift, map_map. f_equal. apply map_ext. intros k. rewrite length_app. cbn [length]. lia.
Qed.

Lemma atr_total highs lows closes period :
  0 < period -> (forall x, exists q, fdiv x (fint period) = Ok q) ->
  length highs = length closes -> length lows = length closes -> exists s, atr highs lows closes period = Ok s.
Proof.
  intros Hp Hq Hh Hl. unfold atr. rewrite Hh, Hl, Nat.eqb_refl. cbn [andb negb]. destruct (_ <? _) eqn:En; [by eexists|]. zbool.
  destruct (Hq (fsum (first_of period match closes with [] => [] | c0 :: rest => true_ranges c0 (tail highs) (tail lows) rest end)))
    as [first ->].
  pose proof (set_at_next (Z.to_nat period) (length closes - Z.to_nat period - 1) [] first (length closes)) as Hset.
  cbn [length map app] in Hset. rewrite Nat.add_0_r, warmup_app in Hset.
  replace (Z.to_nat period + S _)%nat with (length closes) in Hset by lia. rewrite Z2Nat.id in Hset by lia.
  rewrite Hset by lia.
  replace (Z.to_nat (Z.of_nat (length closes) - (period + 1))) with (length closes - Z.to_nat period - 1)%nat by lia.
  match goal with |- context [fold_res (atr_step period ?trs)] =>
    destruct (atr_steps_total period trs (length closes) (length closes - Z.to_nat period - 1) [first] first) as [st Hst] end;
    [done|done|cbn [length]; lia|cbn; lia| |].
  { destruct closes as [|c0 rest]; [cbn in *; lia|]. destruct highs as [|h hs], lows as [|lo ls]; try done.
    cbn [tail length] in *. rewrite true_ranges_length; lia. }
  cbn [length map app] in Hst. change (Z.of_nat 1) with 1 in Hst. rewrite Hst. by eexists.
Qed.
