(* ===== verification/Backtest.v ===== *)
(** * Backtest: [psx_api/backtest/engine.py] and [strategies.py]

    The daily-bar engine and the five preset strategies.  A strategy is a state,
    its closure's, and a decision on the bars and the index of today; it is given
    all bars, as the engine gives them, and [causal] says that it looks at no bar
    after today's.

    [no_look_ahead]: what the engine reports of the past does not depend on the
    future. *)

From S2P Require Import Prelude Decimal PyText PyFloat Json Indicators.

Record Bar := mkBar {
  b_date : Z;
  b_open : float;
  b_high : float;
  b_low : float;
  b_close : float;
  b_adjusted_close : float;
  b_volume : float;
}.

Record Trade := mkTrade {
  tr_entry_date : Z;
  tr_entry_price : float;
  tr_exit_date : Z;
  tr_exit_price : float;
  tr_quantity : float;
  tr_commission : float;
  tr_gross_pnl : float;
  tr_net_pnl : float;
  tr_return_pct : float;
  tr_holding_days : Z;
  tr_reason_open : string;
  tr_reason_close : string;
}.

Record EquityPoint := mkPoint {
  ep_date : Z;
  ep_equity : float;
  ep_drawdown_pct : float;
  ep_in_position : bool;
}.

Record BacktestRun := mkRun {
  br_bars : list Bar;
  br_equity_curve : list EquityPoint;
  br_trades : list Trade;
  br_initial_capital : float;
  br_final_equity : float;
  br_commission_per_side_pct : float;
}.

(** ** Strategies *)

Definition decision : Type := Z * string.

Record StrategyFn := mkStrategy {
  st_state : Type;
  st_init : st_state;
  st_decide : st_state -> list Bar -> nat -> res (st_state * decision);
}.

(** ** Engine *)

Record open_position := mkEntry {
  en_date : Z;
  en_price : float;
  en_commission : float;
  en_reason : string;
}.

Record engine (S : Type) := mkEngine {
  eg_cash : float;
  eg_quantity : float;
  eg_entry : option open_position;
  eg_trades : list Trade;
  eg_curve : list EquityPoint;
  eg_high_water : float;
  eg_strategy : S;
}.
Arguments mkEngine {S}.
Arguments eg_cash {S}. Arguments eg_quantity {S}. Arguments eg_entry {S}. Arguments eg_trades {S}.
Arguments eg_curve {S}. Arguments eg_high_water {S}. Arguments eg_strategy {S}.

(** Mark to market: the equity point of the bar. *)
Definition mark {S} (bar : Bar) (e : engine S) : res (engine S) :=
  let current_equity := (eg_cash e + eg_quantity e * b_close bar)%float in
  let high_water := if (eg_high_water e <? current_equity)%float then current_equity else eg_high_water e in
  let! drawdown :=
    if (fzero <? high_water)%float then
      let! q := fdiv (high_water - current_equity)%float high_water in Ok (q * f100)%float
    else Ok fzero in
  Ok (mkEngine (eg_cash e) (eg_quantity e) (eg_entry e) (eg_trades e)
        (eg_curve e ++ [mkPoint (b_date bar) current_equity drawdown (fzero <? eg_quantity e)%float])
        high_water (eg_strategy e)).

(** Sell everything at [fill_price] on [date]. *)
Definition close_position {S} (rate : float) (date : Z) (fill_price : float) (reason_close : string)
    (entry : open_position) (e : engine S) : res (engine S) :=
  let quantity := eg_quantity e in
  let commission := (fill_price * quantity * rate)%float in
  let proceeds := (fill_price * quantity - commission)%float in
  let gross := ((fill_price - en_price entry) * quantity)%float in
  let total_commission := (en_commission entry + commission)%float in
  let net := (gross - total_commission)%float in
  let! return_pct :=
    if (fzero <? en_price entry)%float then
      let! q := fdiv net (en_price entry * quantity)%float in Ok (q * f100)%float
    else Ok fzero in
  let t := mkTrade (en_date entry) (en_price entry) date fill_price quantity total_commission gross net
             return_pct (date - en_date entry) (en_reason entry) reason_close in
  Ok (mkEngine (eg_cash e + proceeds)%float fzero None (eg_trades e ++ [t]) (eg_curve e) (eg_high_water e)
        (eg_strategy e)).

Definition or_text (reason fallback : string) : string := match reason with EmptyString => fallback | _ => reason end.

(** Buy as much as the cash allows, after commission, at the next open. *)
Definition open_long {S} (rate : float) (next_bar : Bar) (reason : string) (e : engine S) : res (engine S) :=
  let fill_price := b_open next_bar in
  let! target_qty := fdiv (eg_cash e) (fill_price * (lit 1 0 + rate))%float in
  if (target_qty <=? fzero)%float then Ok e else
  let commission := (fill_price * target_qty * rate)%float in
  let cost := (fill_price * target_qty + commission)%float in
  Ok (mkEngine (eg_cash e - cost)%float target_qty
        (Some (mkEntry (b_date next_bar) fill_price commission (or_text reason "Strategy signalled long")))
        (eg_trades e) (eg_curve e) (eg_high_water e) (eg_strategy e)).

Definition with_strategy {S} (s : S) (e : engine S) : engine S :=
  mkEngine (eg_cash e) (eg_quantity e) (eg_entry e) (eg_trades e) (eg_curve e) (eg_high_water e) s.

(** What follows the equity point of bar [i]. *)
Definition act (strategy : StrategyFn) (rate : float) (bars : list Bar) (i : nat) (bar : Bar)
    (e : engine (st_state strategy)) : res (engine (st_state strategy)) :=
  match bars !! S i with
  | None =>
      match eg_entry e with
      | Some entry =>
          if (fzero <? eg_quantity e)%float
          then close_position rate (b_date bar) (b_close bar) "End of backtest period" entry e else Ok e
      | None => Ok e
      end
  | Some next_bar =>
      let! d := st_decide strategy (eg_strategy e) bars i in
      let e := with_strategy d.1 e in
      let target := d.2.1 in
      let reason := d.2.2 in
      if ((target =? 1) && (eg_quantity e =? fzero)%float)%bool then open_long rate next_bar reason e
      else
        match eg_entry e with
        | Some entry =>
            if ((target =? 0) && (fzero <? eg_quantity e)%float)%bool
            then close_position rate (b_date next_bar) (b_open next_bar) (or_text reason "Strategy signalled flat") entry e
            else Ok e
        | None => Ok e
        end
  end.

(** The body of the loop over [range(len(bars_list))]. *)
Definition engine_step (strategy : StrategyFn) (rate : float) (warmup_bars : Z) (bars : list Bar)
    (e : engine (st_state strategy)) (i : nat) : res (engine (st_state strategy)) :=
  match bars !! i with
  | None => Exn IndexError
  | Some bar =>
      let! e := mark bar e in
      if Z.of_nat i <? warmup_bars then Ok e else act strategy rate bars i bar e
  end.

Definition engine_init (strategy : StrategyFn) (capital : float) : engine (st_state strategy) :=
  mkEngine capital fzero None [] [] capital (st_init strategy).

Definition engine_loop (strategy : StrategyFn) (capital commission_pct : float) (warmup_bars : Z) (bars : list Bar)
    (n : nat) : res (engine (st_state strategy)) :=
  fold_res (engine_step strategy (fdiv_ieee commission_pct f100) warmup_bars bars)
    (engine_init strategy capital) (seq 0 n).

Definition run (bars : list Bar) (strategy : StrategyFn) (capital commission_pct : float) (warmup_bars : Z)
    : res BacktestRun :=
  match bars with
  | [] => Exn ValueError
  | _ =>
      if (capital <=? fzero)%float then Exn ValueError else
      let! e := engine_loop strategy capital commission_pct warmup_bars bars (length bars) in
      let final_equity := List.last (map ep_equity (eg_curve e)) capital in
      Ok (mkRun bars (eg_curve e) (eg_trades e) capital final_equity commission_pct)
  end.

(** ** Preset strategies *)

(** The parameters of a request, any JSON object. *)
Definition params : Type := list (string * json).

Definition param (k : string) (ps : params) : res json := subscript k (JObj ps).

(** [{**defaults, **given}]: only the first binding of a key is read. *)
Definition merged (defaults given : params) : params := (given ++ defaults)%list.

Definition _closes (bars : list Bar) : list float := map b_adjusted_close bars.

(** [bars[: i + 1]] *)
Definition up_to (i : nat) (bars : list Bar) : list Bar := take (S i) bars.

(** A strategy without a state of its own. *)
Definition stateless (decide : list Bar -> nat -> res decision) : StrategyFn :=
  mkStrategy unit tt (fun _ bars i => let! d := decide bars i in Ok (tt, d)).

(** The wrapper that turns "no opinion" into "as before". *)
Definition stateful (decide : list Bar -> nat -> res (option decision)) : StrategyFn :=
  mkStrategy bool false (fun long bars i =>
    let! d := decide bars i in
    match d with
    | None => Ok (long, (if long : bool then 1 else 0, ""%string))
    | Some d => Ok (d.1 =? 1, d)
    end).

Definition no_signal : decision := (0, ""%string).

Definition cross_text (word : string) (fast slow : Z) (fast_now slow_now : float) : string :=
  (word +:+ ": SMA-" +:+ str_int fast +:+ " (" +:+ format_f 1 fast_now +:+ ") crossed "
   +:+ (if String.eqb word "Golden cross" then "above" else "below") +:+ " SMA-" +:+ str_int slow
   +:+ " (" +:+ format_f 1 slow_now +:+ ")")%string.

Definition sma_crossover (fast slow : Z) (bars : list Bar) (i : nat) : res decision :=
  let closes := _closes (up_to i bars) in
  if Z.of_nat (length closes) <? slow + 1 then Ok no_signal else
  let last_sma xs p := let! s := sma xs p in last_value s in
  let! fast_now := last_sma closes fast in
  let! slow_now := last_sma closes slow in
  let! fast_prev := last_sma (removelast closes) fast in
  let! slow_prev := last_sma (removelast closes) slow in
  match fast_now, slow_now, fast_prev, slow_prev with
  | Some fn, Some sn, Some fp, Some sp =>
      if (sn <? fn)%float then
        if (fp <=? sp)%float then Ok (1, cross_text "Golden cross" fast slow fn sn) else Ok (1, ""%string)
      else if (sp <=? fp)%float then Ok (0, cross_text "Death cross" fast slow fn sn)
      else Ok (0, ""%string)
  | _, _, _, _ => Ok no_signal
  end.

Definition rsi_oversold (period : Z) (oversold overbought : float) (bars : list Bar) (i : nat) : res (option decision) :=
  let closes := _closes (up_to i bars) in
  if Z.of_nat (length closes) <? period + 2 then Ok (Some no_signal) else
  let! s := rsi closes period in
  let! now := last_value s in
  match now with
  | None => Ok (Some no_signal)
  | Some r =>
      if (r <? oversold)%float then
        Ok (Some (1, ("RSI " +:+ format_f 1 r +:+ " below " +:+ format_0f oversold +:+ " — oversold buy signal")%string))
      else if (overbought <? r)%float then
        Ok (Some (0, ("RSI " +:+ format_f 1 r +:+ " above " +:+ format_0f overbought +:+ " — overbought, exit")%string))
      else Ok None
  end.

Definition macd_signal (fast slow signal_period : Z) (bars : list Bar) (i : nat) : res decision :=
  let closes := _closes (up_to i bars) in
  if Z.of_nat (length closes) <? slow + signal_period + 5 then Ok no_signal else
  let! d := macd closes fast slow signal_period in
  let! macd_now := last_value (mc_macd d) in
  let! sig_now := last_value (mc_signal d) in
  match macd_now, sig_now with
  | Some m, Some s =>
      let word b := ("MACD (" +:+ format_f 2 m +:+ ") " +:+ b)%string in
      if (s <? m)%float then Ok (1, (word "above signal (" +:+ format_f 2 s +:+ ") — momentum bullish")%string)
      else Ok (0, (word "below signal (" +:+ format_f 2 s +:+ ") — momentum bearish")%string)
  | _, _ => Ok no_signal
  end.

Section presets.
Context `{LibM}.

Definition bollinger_revert (period : Z) (num_std : float) (bars : list Bar) (i : nat) : res (option decision) :=
  let closes := _closes (up_to i bars) in
  if Z.of_nat (length closes) <? period + 1 then Ok (Some no_signal) else
  let! d := bollinger_bands closes period num_std in
  let! upper := last_value (bb_upper d) in
  let! middle := last_value (bb_middle d) in
  let! lower := last_value (bb_lower d) in
  match upper, middle, lower with
  | Some _, Some m, Some lo =>
      let price := List.last closes fzero in
      if (price <=? lo)%float then
        Ok (Some (1, ("Price (" +:+ format_f 1 price +:+ ") at/below lower band (" +:+ format_f 1 lo
                      +:+ ") — mean-revert long")%string))
      else if (m <=? price)%float then
        Ok (Some (0, ("Price (" +:+ format_f 1 price +:+ ") reverted to middle band (" +:+ format_f 1 m
                      +:+ ") — exit")%string))
      else Ok None
  | _, _, _ => Ok (Some no_signal)
  end.

Definition buy_and_hold (bars : list Bar) (i : nat) : res decision :=
  if (Nat.eqb i 0 || (length bars <? 2)%nat)%bool then Ok no_signal else Ok (1, "Buy and hold benchmark"%string).

Record strategy_entry := mkStrategyEntry {
  se_key : string;
  se_label : string;
  se_default_params : params;
  se_factory : params -> res StrategyFn;
}.

Definition _REGISTRY : list strategy_entry :=
  [mkStrategyEntry "sma_crossover" "SMA Crossover (50/200)" [("fast_period", JInt 50); ("slow_period", JInt 200)]%string
     (fun ps => let! p := param "fast_period" ps in let! fast := to_int p in
                let! p := param "slow_period" ps in let! slow := to_int p in
                Ok (stateless (sma_crossover fast slow)));
   mkStrategyEntry "rsi_oversold" "RSI Oversold/Overbought (30/70)"
     [("period", JInt 14); ("oversold", JInt 30); ("overbought", JInt 70)]%string
     (fun ps => let! p := param "period" ps in let! period := to_int p in
                let! p := param "oversold" ps in let! oversold := to_float p in
                let! p := param "overbought" ps in let! overbought := to_float p in
                Ok (stateful (rsi_oversold period oversold overbought)));
   mkStrategyEntry "macd_signal" "MACD Signal-Line Cross" [("fast", JInt 12); ("slow", JInt 26); ("signal", JInt 9)]%string
     (fun ps => let! p := param "fast" ps in let! fast := to_int p in
                let! p := param "slow" ps in let! slow := to_int p in
                let! p := param "signal" ps in let! signal := to_int p in
                Ok (stateless (macd_signal fast slow signal)));
   mkStrategyEntry "bollinger_revert" "Bollinger Band Mean Reversion (20, 2σ)"
     [("period", JInt 20); ("num_std", JFloat (lit 2 0))]%string
     (fun ps => let! p := param "period" ps in let! period := to_int p in
                let! p := param "num_std" ps in let! num_std := to_float p in
                Ok (stateful (bollinger_revert period num_std)));
   mkStrategyEntry "buy_and_hold" "Buy and Hold (benchmark)" [] (fun _ => Ok (stateless buy_and_hold))].

Definition get_strategy (key : string) (given : params) : res StrategyFn :=
  match List.find (fun e => String.eqb (se_key e) key) _REGISTRY with
  | None => Exn ValueError
  | Some e => se_factory e (merged (se_default_params e) given)
  end.
End presets.

(** ** Metrics

    [psx_api/backtest/metrics.py] *)

Record BacktestMetrics := mkMetrics {
  bm_final_value : float;
  bm_total_return_pct : float;
  bm_cagr_pct : float;
  bm_sharpe_ratio : float;
  bm_max_drawdown_pct : float;
  bm_num_trades : Z;
  bm_win_rate_pct : float;
  bm_avg_winning_trade_pct : float;
  bm_avg_losing_trade_pct : float;
  bm_avg_holding_days : float;
  bm_total_commissions : float;
  bm_benchmark_return_pct : float;
  bm_excess_return_pct : float;
}.

(** [sum(f(t) for t in ts) / len(ts) if ts else 0.0] *)
Definition mean_over {A} (f : A -> float) (l : list A) : float :=
  match l with [] => fzero | _ => fdiv_ieee (fsum (map f l)) (fint (Z.of_nat (length l))) end.

(** Returns from one point to the next, where the first is positive. *)
Fixpoint daily_returns (prev : EquityPoint) (points : list EquityPoint) : list float :=
  match points with
  | [] => []
  | curr :: rest =>
      let r := daily_returns curr rest in
      if (fzero <? ep_equity prev)%float
      then fdiv_ieee (ep_equity curr - ep_equity prev)%float (ep_equity prev) :: r else r
  end.

Section metrics.
Context `{LibM}.

Definition cagr_pct (curve : list EquityPoint) (capital final : float) : res float :=
  match curve with
  | first :: _ :: _ =>
      if (fzero <? capital)%float then
        let days := List.last (map ep_date curve) 0 - ep_date first in
        let year := lit 36525 (-2) in
        let years := fmax (fdiv_ieee (fint days) year) (fdiv_ieee (lit 1 0) year) in
        if (fzero <? final)%float then
          let! exponent := fdiv (lit 1 0) years in
          let! growth := fpow (fdiv_ieee final capital) exponent in
          Ok ((growth - lit 1 0) * f100)%float
        else Ok (lit (-100) 0)
      else Ok fzero
  | _ => Ok fzero
  end.

Definition sharpe (curve : list EquityPoint) : res float :=
  match (match curve with [] => [] | p :: rest => daily_returns p rest end) with
  | [] => Ok fzero
  | rs =>
      let n := Z.of_nat (length rs) in
      let mean_r := fdiv_ieee (fsum rs) (fint n) in
      let! squares := map_res (fun r => square (r - mean_r)%float) rs in
      let var := fdiv_ieee (fsum squares) (fint (Z.max (n - 1) 1)) in
      let std := if (fzero <? var)%float then fsqrt_ieee var else fzero in
      Ok (if (fzero <? std)%float then (fdiv_ieee mean_r std * fsqrt_ieee (fint 252))%float else fzero)
  end.

Definition compute_metrics (r : BacktestRun) (benchmark_return_pct : float) : res BacktestMetrics :=
  let capital := br_initial_capital r in
  let final := br_final_equity r in
  let total_return := if (fzero <? capital)%float
    then (fdiv_ieee (final - capital)%float capital * f100)%float else fzero in
  let! cagr := cagr_pct (br_equity_curve r) capital final in
  let! sharpe_ratio := sharpe (br_equity_curve r) in
  let max_dd := max_of (map ep_drawdown_pct (br_equity_curve r)) in
  let trades := br_trades r in
  let wins := List.filter (fun t => (fzero <? tr_net_pnl t)%float) trades in
  let losses := List.filter (fun t => (tr_net_pnl t <=? fzero)%float) trades in
  let count l := fint (Z.of_nat (length (l : list Trade))) in
  let win_rate := match trades with [] => fzero | _ => (fdiv_ieee (count wins) (count trades) * f100)%float end in
  Ok (mkMetrics final total_return cagr sharpe_ratio max_dd (Z.of_nat (length trades)) win_rate
        (mean_over tr_return_pct wins) (mean_over tr_return_pct losses)
        (match trades with [] => fzero | _ => fdiv_ieee (fint (fold_left Z.add (map tr_holding_days trades) 0)) (count trades) end)
        (match trades with [] => fzero | _ => fsum (map tr_commission trades) end)
        benchmark_return_pct (total_return - benchmark_return_pct)%float).
End metrics.

Definition buy_and_hold_return_pct (r : BacktestRun) : res float :=
  match br_bars r with
  | first :: _ :: _ =>
      let first := b_adjusted_close first in
      let last := List.last (map b_adjusted_close (br_bars r)) fzero in
      if (first <=? fzero)%float then Ok fzero else
      let! q := fdiv (last - first)%float first in Ok (q * f100)%float
  | _ => Ok fzero
  end.

(** ** No look-ahead *)

(** Today's decision is a function of the bars up to today. *)
Definition causal (strategy : StrategyFn) : Prop :=
  forall s bars bars' i, (i < length bars)%nat -> (i < length bars')%nat -> up_to i bars = up_to i bars' ->
    st_decide strategy s bars i = st_decide strategy s bars' i.

Lemma stateless_causal decide :
  (forall bars bars' i, (i < length bars)%nat -> (i < length bars')%nat -> up_to i bars = up_to i bars' ->
     decide bars i = decide bars' i) -> causal (stateless decide).
Proof. intros Hd s bars bars' i H1 H2 He. cbn. by rewrite (Hd bars bars'). Qed.

Lemma stateful_causal decide :
  (forall bars bars' i, (i < length bars)%nat -> (i < length bars')%nat -> up_to i bars = up_to i bars' ->
     decide bars i = decide bars' i) -> causal (stateful decide).
Proof. intros Hd s bars bars' i H1 H2 He. cbn. by rewrite (Hd bars bars'). Qed.

Section registry.
Context `{LibM}.

(** Every preset strategy, with any parameters. *)
Lemma get_strategy_causal key given st : get_strategy key given = Ok st -> causal st.
Proof.
  unfold get_strategy. destruct (List.find _ _REGISTRY) as [e|] eqn:Ef; [|discriminate].
  apply List.find_some in Ef as [Hin _]. unfold _REGISTRY in Hin. cbn [In] in Hin.
  destruct Hin as [<-|[<-|[<-|[<-|[<-|[]]]]]]; cbn [se_factory]; intros Hst; repeat res_step Hst; injection Hst as <-;
    first [apply stateless_causal | apply stateful_causal]; intros bars bars' i H1 H2 He.
  - unfold sma_crossover. by rewrite He.
  - unfold rsi_oversold. by rewrite He.
  - unfold macd_signal. by rewrite He.
  - unfold bollinger_revert. by rewrite He.
  - unfold buy_and_hold. destruct i as [|i]; [done|]. cbn [Nat.eqb orb].
    rewrite (proj2 (Nat.ltb_ge (length bars) 2)) by lia. by rewrite (proj2 (Nat.ltb_ge (length bars') 2)) by lia.
Qed.
End registry.

(** A step adds one equity point, and at most one trade. *)
Lemma mark_inv {S} bar (e e' : engine S) :
  mark bar e = Ok e' -> exists p, eg_curve e' = (eg_curve e ++ [p])%list /\ eg_trades e' = eg_trades e.
Proof. unfold mark. intros H. res_step H. inv_res. by eexists. Qed.

Lemma close_inv {S} rate d x r en (e e' : engine S) :
  close_position rate d x r en e = Ok e' ->
  eg_curve e' = eg_curve e /\ exists t, eg_trades e' = (eg_trades e ++ [t])%list /\ tr_reason_close t = r.
Proof. unfold close_position. intros H. res_step H. inv_res. split; [done|]. by eexists. Qed.

(** Nothing traded. *)
Ltac no_trade := inv_res; split; [done|reflexivity].

Lemma act_inv strategy rate bars i bar e e' :
  act strategy rate bars i bar e = Ok e' ->
  eg_curve e' = eg_curve e /\ eg_trades e `prefix_of` eg_trades e'.
Proof.
  assert (Hclose : forall d x r en e0, eg_curve e0 = eg_curve e -> eg_trades e0 = eg_trades e ->
    close_position rate d x r en e0 = Ok e' -> eg_curve e' = eg_curve e /\ eg_trades e `prefix_of` eg_trades e').
  { intros d x r en e0 <- <- H. apply close_inv in H as [-> (t & -> & _)]. split; [done|]. by exists [t]. }
  unfold act. destruct (bars !! S i) as [nb|]; intros H.
  - res_step H. destruct (_ && _)%bool.
    + unfold open_long in H. res_step H. destruct (_ <=? _)%float; no_trade.
    + destruct (eg_entry _) as [en|]; [|no_trade]. destruct (_ && _)%bool; [|no_trade]. eapply Hclose; [..|exact H]; done.
  - destruct (eg_entry e) as [en|]; [|no_trade]. destruct (_ <? _)%float; [|no_trade]. eapply Hclose; [..|exact H]; done.
Qed.

(** The last bar: nothing is asked of the strategy. *)
Lemma act_last strategy rate bars i bar e :
  bars !! S i = None ->
  match act strategy rate bars i bar e with
  | Ok e' => eg_curve e' = eg_curve e /\ exists forced, eg_trades e' = (eg_trades e ++ forced)%list /\
      (length forced <= 1)%nat /\ Forall (fun t => tr_reason_close t = "End of backtest period"%string) forced
  | Exn x => x = ZeroDivisionError
  end.
Proof.
  intros Hn. assert (Hsame : eg_curve e = eg_curve e /\ exists forced, eg_trades e = (eg_trades e ++ forced)%list /\
    (length forced <= 1)%nat /\ Forall (fun t => tr_reason_close t = "End of backtest period"%string) forced).
  { split; [done|]. exists []. rewrite app_nil_r. split_and!; [done|cbn; lia|constructor]. }
  unfold act. rewrite Hn. destruct (eg_entry e) as [en|]; [|done]. destruct (_ <? _)%float; [|done].
  destruct (close_position _ _ _ _ _ _) as [e'|x] eqn:E.
  - apply close_inv in E as [-> (t & -> & Ht)]. split; [done|]. exists [t]. split_and!; [done|cbn; lia|by repeat constructor].
  - unfold close_position in E. destruct (fzero <? en_price en)%float; [|done].
    unfold fdiv in E. destruct (en_price en * eg_quantity e)%float; congruence.
Qed.

(** What a fill takes from the next bar. *)
Definition fill (b : Bar) : Z * float := (b_date b, b_open b).

Lemma act_fill strategy rate l l' i bar e :
  causal strategy -> option_map fill (l !! S i) = option_map fill (l' !! S i) ->
  (i < length l')%nat -> up_to i l = up_to i l' ->
  act strategy rate l i bar e = act strategy rate l' i bar e.
Proof.
  intros Hc Hf Hi Hu. unfold act.
  destruct (l !! S i) as [b|] eqn:El, (l' !! S i) as [b'|]; cbn [option_map] in Hf; try discriminate; [|done].
  injection Hf as Hd Ho. apply lookup_lt_Some in El. rewrite (Hc _ l l') by (done || lia).
  destruct (st_decide _ _ l' i) as [d|]; [|done]. unfold open_long. by rewrite Hd, Ho.
Qed.

Section causality.
Variables (strategy : StrategyFn) (capital pct : float) (warmup_bars : Z).
Hypothesis Hcausal : causal strategy.

Abbreviation loop l := (engine_loop strategy capital pct warmup_bars l).

Lemma loop_succ l k :
  loop l (S k) = (let! e := loop l k in engine_step strategy (fdiv_ieee pct f100) warmup_bars l e k).
Proof.
  unfold engine_loop. rewrite seq_S, fold_res_app. destruct (fold_res _ _ (seq 0 k)) as [e|]; [|done].
  cbn [Nat.add fold_res]. by destruct (engine_step _ _ _ _ _ _).
Qed.

Lemma step_inv l e k e' :
  engine_step strategy (fdiv_ieee pct f100) warmup_bars l e k = Ok e' ->
  exists bar e1, l !! k = Some bar /\ mark bar e = Ok e1 /\ eg_curve e' = eg_curve e1 /\
    eg_trades e1 = eg_trades e /\ eg_trades e1 `prefix_of` eg_trades e' /\ exists p, eg_curve e1 = (eg_curve e ++ [p])%list.
Proof.
  unfold engine_step. destruct (l !! k) as [bar|]; [|discriminate]. intros H. res_step H.
  pose proof (mark_inv _ _ _ E) as (p & Hc & Ht). exists bar, a.
  destruct (Z.of_nat k <? warmup_bars).
  - inv_res. split_and!; [done..|reflexivity|by exists p].
  - apply act_inv in H as [-> Hp]. split_and!; [done..|by exists p].
Qed.

Lemma loop_inv l k e : loop l k = Ok e -> length (eg_curve e) = k.
Proof.
  revert e; induction k as [|k IH]; intros e H; [unfold engine_loop in H; cbn in H; by inv_res|].
  rewrite loop_succ in H. res_step H. apply step_inv in H as (bar & e1 & _ & _ & -> & _ & _ & p & ->).
  rewrite length_app. cbn [length]. rewrite (IH a) by done. lia.
Qed.

(** Later steps only append. *)
Lemma loop_mono l k j e : loop l (k + j) = Ok e ->
  exists e0, loop l k = Ok e0 /\ eg_curve e0 `prefix_of` eg_curve e /\ eg_trades e0 `prefix_of` eg_trades e.
Proof.
  revert e; induction j as [|j IH]; intros e H.
  - rewrite Nat.add_0_r in H. exists e. split_and!; [done|reflexivity..].
  - rewrite Nat.add_succ_r, loop_succ in H. res_step H. destruct (IH a eq_refl) as (e0 & H0 & Hc & Ht).
    apply step_inv in H as (bar & e1 & _ & _ & E1 & E2 & Hp & p & E3). exists e0. split; [done|]. split.
    + rewrite E1, E3. by apply prefix_app_r.
    + etransitivity; [exact Ht|]. by rewrite <- E2.
Qed.

(** Until the open of bar [n], only the bars before it and that open count. *)
Lemma loop_agree l l' n k :
  take n l = take n l' -> option_map fill (l !! n) = option_map fill (l' !! n) -> (k <= n)%nat ->
  loop l k = loop l' k.
Proof using All.
  intros Ht Hf. induction k as [|k IH]; intros Hk; [done|]. rewrite !loop_succ, IH by lia.
  assert (Hin : forall j, (j < n)%nat -> l !! j = l' !! j).
  { intros j Hj. by rewrite <- (lookup_take_lt l n j), Ht, lookup_take_lt. }
  destruct (loop l' k) as [e|]; [|done]. unfold engine_step. rewrite (Hin k) by lia.
  destruct (l' !! k) as [bar|] eqn:Ek; [|done]. destruct (mark bar e) as [e1|]; [|done].
  destruct (Z.of_nat k <? warmup_bars); [done|]. apply act_fill; [done|..].
  - destruct (decide (S k = n)) as [->|Hne]; [done|]. by rewrite Hin by lia.
  - by apply lookup_lt_Some in Ek.
  - apply (f_equal (take (S k))) in Ht. rewrite !take_take in Ht. by rewrite !Nat.min_l in Ht by lia.
Qed.

End causality.

(** Cutting the history after [n] bars. *)
Lemma run_cut strategy bars capital pct warmup_bars n r :
  causal strategy -> (0 < n <= length bars)%nat -> run bars strategy capital pct warmup_bars = Ok r ->
  match run (take n bars) strategy capital pct warmup_bars with
  | Ok r' =>
      br_equity_curve r' = take n (br_equity_curve r) /\
      exists settled forced, br_trades r' = (settled ++ forced)%list /\ settled `prefix_of` br_trades r /\
        (length forced <= 1)%nat /\ Forall (fun t => tr_reason_close t = "End of backtest period"%string) forced
  | Exn e => e = ZeroDivisionError
  end.
Proof.
  intros Hc [H0 Hn] Hr. destruct n as [|m]; [lia|]. unfold run in Hr. destruct bars as [|b0 rest] eqn:Eb; [done|].
  rewrite <- Eb in *. destruct (capital <=? fzero)%float eqn:Ecap; [done|]. res_step Hr. injection Hr as <-.
  cbn [br_equity_curve br_trades].
  replace (length bars) with (S m + (length bars - S m))%nat in E by lia.
  apply loop_mono in E as (e1 & E1 & Pc & Pt). pose proof (loop_inv _ _ _ _ _ _ _ E1) as Hl.
  assert (Htake : take (S m) (eg_curve a) = eg_curve e1).
  { destruct Pc as [l ->]. rewrite <- Hl. apply take_app_length. }
  rewrite loop_succ in E1. res_step E1. pose proof E1 as Hstep.
  apply step_inv in Hstep as (bar & em & Eb' & Em & Ec & Et & Pt' & _).
  unfold run. destruct (take (S m) bars) as [|t0 ts] eqn:Et0; [by rewrite Eb in Et0|]. rewrite <- Et0, Ecap.
  assert (Hcut : engine_loop strategy capital pct warmup_bars (take (S m) bars) m
    = engine_loop strategy capital pct warmup_bars bars m).
  { apply (loop_agree _ _ _ _ Hc _ _ m); [rewrite take_take; f_equal; lia|by rewrite lookup_take_lt by lia|done]. }
  rewrite length_take, Nat.min_l, loop_succ, Hcut, E by lia.
  unfold engine_step. rewrite lookup_take_lt, Eb', Em by lia.
  destruct (Z.of_nat m <? warmup_bars) eqn:Ew.
  - cbn [br_equity_curve br_trades]. rewrite Htake, Ec. split; [done|]. exists (eg_trades em), [].
    rewrite app_nil_r. split_and!; [done|by etransitivity|cbn; lia|constructor].
  - pose proof (act_last strategy (fdiv_ieee pct f100) (take (S m) bars) m bar em) as Hlast.
    rewrite lookup_take_ge in Hlast by lia. specialize (Hlast eq_refl).
    destruct (act _ _ (take (S m) bars) m bar em) as [e2|x]; [|done].
    destruct Hlast as (-> & forced & -> & Hf). cbn [br_equity_curve br_trades]. rewrite Htake, Ec.
    split; [done|]. exists (eg_trades em), forced. split_and!; [done|by etransitivity|apply Hf..].
Qed.

(** C23: The engine does not look ahead.  Take a causal strategy, and every preset
    is one.  What it has bought and sold by the open of bar [n], its cash and its
    equity points before that bar depend only on the bars before [n] and on that
    open, not on the rest of bar [n] nor on any later bar.  Cutting the history
    after [n] bars leaves the first [n] equity points as they are, and every
    trade the full run had closed by then; the cut run adds at most the forced
    sale on its last bar, and only a quotient of that sale can make it fail. *)
Theorem no_look_ahead strategy bars capital pct warmup_bars n r :
  causal strategy -> (0 < n <= length bars)%nat -> run bars strategy capital pct warmup_bars = Ok r ->
  length (br_equity_curve r) = length bars /\
  (forall bars', take n bars = take n bars' -> option_map fill (bars !! n) = option_map fill (bars' !! n) ->
     engine_loop strategy capital pct warmup_bars bars n = engine_loop strategy capital pct warmup_bars bars' n) /\
  match run (take n bars) strategy capital pct warmup_bars with
  | Ok r' =>
      br_equity_curve r' = take n (br_equity_curve r) /\
      exists settled forced, br_trades r' = (settled ++ forced)%list /\ settled `prefix_of` br_trades r /\
        (length forced <= 1)%nat /\ Forall (fun t => tr_reason_close t = "End of backtest period"%string) forced
  | Exn e => e = ZeroDivisionError
  end.
Proof.
  intros Hc Hn Hr. split; [|split; [|by apply run_cut]].
  - unfold run in Hr. destruct bars as [|b bs]; [done|]. destruct (capital <=? fzero)%float; [done|]. res_step Hr.
    injection Hr as <-. by eapply loop_inv.
  - intros bars' Ht Hf. by apply (loop_agree _ _ _ _ Hc bars bars' n).
Qed.

(** ** Example *)

Definition ex_bar (d o c : Z) : Bar :=
  mkBar d (float_of_Z o) (float_of_Z c) (float_of_Z o) (float_of_Z c) (float_of_Z c) (float_of_Z 1000).
Definition ex_bars : list Bar := [ex_bar 1 100 100; ex_bar 2 100 102; ex_bar 5 104 110; ex_bar 6 110 90].

(** Bought at the third open, sold at the last close. *)
Example ex_trades :
  match run ex_bars (stateless buy_and_hold) (lit 1040 0) fzero 1 with
  | Ok r => map (fun t => (tr_entry_date t, tr_exit_date t, tr_quantity t, tr_net_pnl t)) (br_trades r)
  | Exn _ => []
  end = [(5, 6, lit 10 0, lit (-140) 0)].
Proof. vm_compute. reflexivity. Qed.

Lemma buy_and_hold_causal : causal (stateless buy_and_hold).
Proof. by apply (get_strategy_causal (H := Build_LibM fmul) "buy_and_hold" []). Qed.

Lemma no_look_ahead_witness :
  exists r r', run ex_bars (stateless buy_and_hold) (lit 1040 0) fzero 1 = Ok r /\
    run (take 3 ex_bars) (stateless buy_and_hold) (lit 1040 0) fzero 1 = Ok r' /\
    br_equity_curve r' = take 3 (br_equity_curve r).
Proof.
  destruct (run ex_bars (stateless buy_and_hold) (lit 1040 0) fzero 1) as [r|] eqn:E; [|vm_compute in E; discriminate E].
  destruct (run (take 3 ex_bars) (stateless buy_and_hold) (lit 1040 0) fzero 1) as [r'|] eqn:E';
    [|vm_compute in E'; discriminate E'].
  exists r, r'. split; [reflexivity|]. split; [reflexivity|].
  destruct (no_look_ahead (stateless buy_and_hold) ex_bars (lit 1040 0) fzero 1 3 r buy_and_hold_causal) as [_ H];
    [cbn; lia|exact E|]. rewrite E' in H. exact (proj1 (proj2 H)).
Defined.

(** The commission of the forced sale is in the trade, not in the final equity:
    a position held to the end at an unchanged price shows half its cost. *)
Example forced_exit_commission :
  match run [ex_bar 1 100 100; ex_bar 2 100 100; ex_bar 3 100 100] (stateless buy_and_hold) (lit 1010 0) (lit 1 0) 1 with
  | Ok r => (fround 2 (br_final_equity r), map (fun t => fround 2 (tr_net_pnl t)) (br_trades r))
  | Exn _ => (fzero, [])
  end = (lit 1000 0, [lit (-20) 0]).
Proof. vm_compute. reflexivity. Qed.
