(* ===== verification/StrategyBuilder.v ===== *)
(** * StrategyBuilder: [psx_api/strategy_builder/parse.py]

    Strategies written as JSON rules: an entry group and an optional exit group
    of conditions over indicators, evaluated on the bars up to today, and the
    closure [build_strategy] returns for the engine of [Backtest].

    [custom_strategy_correct] says when such a strategy is long; [build_causal]
    makes it a strategy [Backtest.no_look_ahead] applies to. *)

From S2P Require Import Prelude Dates PyText PyFloat Json Indicators Backtest.

(** ** Operands *)

(** [bars[: i + 1]], column by column. *)
Definition closes_to (i : nat) (bars : list Bar) : list float := map b_close (up_to i bars).
Definition highs_to (i : nat) (bars : list Bar) : list float := map b_high (up_to i bars).
Definition lows_to (i : nat) (bars : list Bar) : list float := map b_low (up_to i bars).

(** [except (KeyError, TypeError, ValueError)] *)
Definition bad_value (e : exn) : bool :=
  match e with KeyError | TypeError | ValueError => true | _ => false end.

Definition latest (s : res Series) : res (option float) := let! s := s in last_value s.

Definition eval_indicator (name : string) (period : Z) (bars : list Bar) (i : nat) : res (option float) :=
  let closes := closes_to i bars in
  let named s := String.eqb name s in
  if named "rsi"%string then latest (rsi closes period)
  else if named "sma"%string then latest (sma closes period)
  else if named "ema"%string then latest (ema closes period)
  else if named "macd_histogram"%string then let! d := macd closes 12 26 9 in last_value (mc_histogram d)
  else if named "stochastic_k"%string then
    let! kd := stochastic (highs_to i bars) (lows_to i bars) closes period 3 in last_value kd.1
  else if named "atr"%string then latest (atr (highs_to i bars) (lows_to i bars) closes period)
  else if named "volume"%string then Ok (option_map b_volume (bars !! i))
  else Exn InvalidStrategyError.

Definition _eval_operand (operand : json) (bars : list Bar) (i : nat) : res (option float) :=
  let! kind := get "kind" operand in
  let closes := closes_to i bars in
  if is_text "constant" kind then
    match (let! v := subscript "value" operand in to_float v) with
    | Ok x => Ok (Some x)
    | Exn e => Exn (if bad_value e then InvalidStrategyError else e)
    end
  else if is_text "price" kind then Ok (match closes with [] => None | _ => Some (List.last closes fzero) end)
  else if is_text "indicator" kind then
    let! name := get_or "name" (JText "") operand in
    match name with
    | JText name =>
        let! period := get_or "period" (JInt 14) operand in
        let! period := to_int period in
        eval_indicator (lower name) period bars i
    | _ => Exn AttributeError
    end
  else Exn InvalidStrategyError.

(** ** Conditions *)

(** [_OPS] *)
Definition _OPS : list (string * (float -> float -> bool)) :=
  [("<", fltb); ("<=", fleb); (">", fun a b => fltb b a); (">=", fun a b => fleb b a); ("==", feqb)]%string.

(** [op in _OPS]: lists and objects cannot be hashed. *)
Definition operator_of (op : option json) : res (float -> float -> bool) :=
  match op with
  | Some (JList _ | JObj _) => Exn TypeError
  | Some (JText s) =>
      match List.find (fun e => String.eqb e.1 s) _OPS with Some e => Ok e.2 | None => Exn InvalidStrategyError end
  | _ => Exn InvalidStrategyError
  end.

Definition _eval_condition (cond : json) (bars : list Bar) (i : nat) : res bool :=
  let! kind := get "kind" cond in
  if is_text "holding_days_gt" kind then Ok false else
  let! op := get "operator" cond in
  let! compare := operator_of op in
  let! left_operand := get_or "left" (JObj []) cond in
  let! l := _eval_operand left_operand bars i in
  let! right_operand := get_or "right" (JObj []) cond in
  let! r := _eval_operand right_operand bars i in
  match l, r with
  | Some a, Some b => Ok (compare a b)
  | _, _ => Ok false
  end.

Definition _eval_group (group : json) (bars : list Bar) (i : nat) : res bool :=
  let! all_of := contains "all_of" group in
  if all_of then
    let! conds := subscript "all_of" group in let! l := items conds in
    all_res (fun c => _eval_condition c bars i) l
  else
    let! any_of := contains "any_of" group in
    if any_of then
      let! conds := subscript "any_of" group in let! l := items conds in
      any_res (fun c => _eval_condition c bars i) l
    else
      let! op := contains "operator" group in
      let! kind := if op then Ok true else contains "kind" group in
      if kind then _eval_condition group bars i else Exn InvalidStrategyError.

(** ** Validation *)

(** [[c for c in l if c.get(kind) != holding_days_gt]] *)
Fixpoint without_holding (l : list json) : res (list json) :=
  match l with
  | [] => Ok []
  | c :: l =>
      let! kind := get "kind" c in
      let! kept := without_holding l in
      Ok (if is_text "holding_days_gt" kind then kept else c :: kept)
  end.

(** Drop the [holding_days_gt] clauses; [None] when nothing is left. *)
Definition _strip_meta (group : json) : res (option json) :=
  let! all_of := contains "all_of" group in
  let! any_of := if all_of then Ok false else contains "any_of" group in
  if (all_of || any_of)%bool then
    let key := if all_of then "all_of"%string else "any_of"%string in
    let! conds := subscript key group in
    let! l := items conds in
    let! kept := without_holding l in
    Ok (match kept with [] => None | _ => Some (JObj [(key, JList kept)]) end)
  else
    let! kind := get "kind" group in
    Ok (if is_text "holding_days_gt" kind then None else Some group).

(** The exit conditions other than the time stop. *)
Definition exit_met (exit_group : json) (bars : list Bar) (i : nat) : res bool :=
  let! exit_clean := _strip_meta exit_group in
  match exit_clean with
  | Some g => if json_truthy g then _eval_group g bars i else Ok false
  | None => Ok false
  end.

(** Twenty bars in January 2024. *)
Definition synthetic : list Bar :=
  map (fun k => mkBar (first_of_year 2024 + Z.of_nat k) (fint 100) (fint 101) (fint 99) (fint 100) (fint 100) (fint 1000))
    (seq 0 20).

(** Every exception of the evaluation is reported as an invalid strategy. *)
Definition reported {A} (r : res A) : res unit :=
  match r with Ok _ => Ok tt | Exn _ => Exn InvalidStrategyError end.

Definition validate (rules : json) : res unit :=
  match rules with
  | JObj fs =>
      match field "entry" fs with
      | None => Exn InvalidStrategyError
      | Some entry =>
          let! _ := reported (_eval_group entry synthetic (length synthetic - 1)) in
          match field "exit" fs with
          | None => Ok tt
          | Some exit_group => reported (exit_met exit_group synthetic (length synthetic - 1))
          end
      end
  | _ => Exn InvalidStrategyError
  end.

(** ** The strategy *)

(** [int(n[value])], when there is such a number. *)
Definition stop_value (n : json) : res (option Z) :=
  match (let! v := subscript "value" n in to_int v) with
  | Ok k => Ok (Some k)
  | Exn e => if bad_value e then Ok None else Exn e
  end.

Fixpoint first_stop (nodes : list json) : res (option Z) :=
  match nodes with
  | [] => Ok None
  | n :: nodes =>
      let! kind := get "kind" n in
      if is_text "holding_days_gt" kind then
        let! v := stop_value n in
        match v with Some k => Ok (Some k) | None => first_stop nodes end
      else first_stop nodes
  end.

Definition _holding_days_max (exit_group : option json) : res (option Z) :=
  match exit_group with
  | None => Ok None
  | Some g =>
      if negb (json_truthy g) then Ok None else
      let! all_of := contains "all_of" g in
      if all_of then let! conds := subscript "all_of" g in let! l := items conds in first_stop l
      else
        let! any_of := contains "any_of" g in
        if any_of then let! conds := subscript "any_of" g in let! l := items conds in first_stop l
        else
          let! kind := get "kind" g in
          if is_text "holding_days_gt" kind then stop_value g else Ok None
  end.

(** [state]: whether it is long, and the index of the bar of its fill. *)
Record custom_state := mkCustom { cu_long : bool; cu_entry_index : Z }.

(** The time stop, counted in bars from the fill. *)
Definition expired (holding_days_max : option Z) (entry_index i : Z) : bool :=
  match holding_days_max with
  | Some n => (0 <=? entry_index) && (n <=? i - entry_index)
  | None => false
  end.

Definition custom_decide (entry : json) (exit_group : option json) (holding_days_max : option Z)
    (state : custom_state) (bars : list Bar) (i : nat) : res (custom_state * decision) :=
  if negb (cu_long state) then
    let! met := _eval_group entry bars i in
    if met : bool
    then Ok (mkCustom true (Z.of_nat i + 1), (1, "Custom rules: entry conditions met"%string))
    else Ok (state, no_signal)
  else
    let! met := match exit_group with Some g => exit_met g bars i | None => Ok false end in
    if met : bool
    then Ok (mkCustom false (cu_entry_index state), (0, "Custom rules: exit conditions met"%string))
    else if expired holding_days_max (cu_entry_index state) (Z.of_nat i) then
      Ok (mkCustom false (cu_entry_index state),
          (0, ("Custom rules: max holding period " +:+ str_int (default 0 holding_days_max) +:+ " reached")%string))
    else Ok (state, (1, ""%string)).

Definition rule (k : string) (rules : json) : option json :=
  match rules with JObj fs => field k fs | _ => None end.

Definition build_strategy (rules : json) : res StrategyFn :=
  let! _ := validate rules in
  let! holding_days_max := _holding_days_max (rule "exit" rules) in
  match rule "entry" rules with
  | None => Exn KeyError
  | Some entry =>
      Ok (mkStrategy custom_state (mkCustom false (-1)) (custom_decide entry (rule "exit" rules) holding_days_max))
  end.

(** ** The rules look at the past only *)

Section past.
Variables (bars bars' : list Bar) (i : nat).
Hypothesis Hi : (i < length bars)%nat.
Hypothesis Hi' : (i < length bars')%nat.
Hypothesis Hu : up_to i bars = up_to i bars'.

Lemma today : bars !! i = bars' !! i.
Proof using All. rewrite <- (lookup_take_lt bars (S i) i), <- (lookup_take_lt bars' (S i) i) by lia. by f_equal. Qed.

Lemma operand_past operand : _eval_operand operand bars i = _eval_operand operand bars' i.
Proof using All. unfold _eval_operand, eval_indicator, closes_to, highs_to, lows_to. by rewrite Hu, today. Qed.

Lemma condition_past c : _eval_condition c bars i = _eval_condition c bars' i.
Proof using All.
  unfold _eval_condition. destruct (get "kind" c) as [kind|]; [|done]. destruct (is_text _ _); [done|].
  destruct (get "operator" c); [|done]. destruct (operator_of _); [|done].
  destruct (get_or "left" _ c); [|done]. rewrite operand_past. destruct (_eval_operand _ _ _); [|done].
  destruct (get_or "right" _ c); [|done]. by rewrite operand_past.
Qed.

Lemma group_past g : _eval_group g bars i = _eval_group g bars' i.
Proof using All.
  unfold _eval_group. rewrite condition_past. destruct (contains "all_of" g) as [[]|]; [| |done].
  - destruct (subscript _ g); [|done]. destruct (items _); [|done]. apply all_res_ext. exact condition_past.
  - destruct (contains "any_of" g) as [[]|]; [|done..].
    destruct (subscript _ g); [|done]. destruct (items _); [|done]. apply any_res_ext. exact condition_past.
Qed.

Lemma exit_past g : exit_met g bars i = exit_met g bars' i.
Proof using All. unfold exit_met. destruct (_strip_meta g) as [[]|]; [|done..]. by rewrite group_past. Qed.
End past.

Lemma build_inv rules strategy :
  build_strategy rules = Ok strategy ->
  exists entry hold, rule "entry" rules = Some entry /\ _holding_days_max (rule "exit" rules) = Ok hold /\
    strategy = mkStrategy custom_state (mkCustom false (-1)) (custom_decide entry (rule "exit" rules) hold).
Proof.
  unfold build_strategy. intros H. res_step H. res_step H. destruct (rule "entry" rules) as [entry|]; [|discriminate].
  injection H as <-. by exists entry, a0.
Qed.

(** The engine of [Backtest] applies to custom strategies. *)
Lemma build_causal rules strategy : build_strategy rules = Ok strategy -> causal strategy.
Proof.
  intros H. apply build_inv in H as (entry & hold & _ & _ & ->). intros s bars bars' i H1 H2 Hu.
  cbn [st_decide]. unfold custom_decide. rewrite (group_past bars bars') by done.
  destruct (rule "exit" rules) as [g|]; [|done]. by rewrite (exit_past bars bars').
Qed.

(** ** Valid rules that a JSONB column holds build a strategy *)

Lemma field_jsonb k fs v : jsonb_ok (JObj fs) = true -> field k fs = Some v -> jsonb_ok v = true.
Proof.
  cbn [jsonb_ok]. rewrite forallb_forall. unfold field. intros H.
  destruct (List.find _ fs) as [f|] eqn:E; [|discriminate]. intros [= <-].
  apply List.find_some in E as [Hin _]. apply H in Hin. by apply andb_true_iff in Hin as [_ ?].
Qed.

Lemma subscript_jsonb k v w : jsonb_ok v = true -> subscript k v = Ok w -> jsonb_ok w = true.
Proof.
  intros Hv. destruct v; try discriminate. cbn [subscript]. destruct (field k fields) as [x|] eqn:E; [|discriminate].
  intros [= <-]. by apply (field_jsonb k fields).
Qed.

(** Only objects have a kind, and only the elements of a list are objects. *)
Lemma items_jsonb v l c : jsonb_ok v = true -> items v = Ok l -> c ∈ l -> is_ok (get "kind" c) = true -> jsonb_ok c = true.
Proof.
  intros Hv Hl Hc Hk. destruct v; try discriminate Hl; cbn [items] in Hl; injection Hl as <-.
  - apply list_elem_of_fmap in Hc as (x & -> & _). discriminate Hk.
  - cbn [jsonb_ok] in Hv. rewrite forallb_forall in Hv. by apply Hv, list_elem_of_In.
  - apply list_elem_of_fmap in Hc as (x & -> & _). discriminate Hk.
Qed.

Lemma to_int_jsonb v : jsonb_ok v = true -> match to_int v with Ok _ => True | Exn e => bad_value e = true end.
Proof.
  destruct v as [| | |x|s|l|fs]; try done.
  - by destruct x.
  - intros _. cbn [to_int]. unfold int_of_str. destruct (take_sign _) as [neg body]. by destruct (int_body _ _ _).
Qed.

Lemma stop_value_ok n : jsonb_ok n = true -> is_ok (stop_value n) = true.
Proof.
  intros Hn. unfold stop_value. destruct (subscript "value" n) as [v|e] eqn:E.
  - apply subscript_jsonb, to_int_jsonb in E; [|done]. destruct (to_int v) as [|e]; [done|]. by rewrite E.
  - destruct n; cbn in E; try (injection E as <-; done). destruct (field _ _); [discriminate|]. by injection E as <-.
Qed.

Lemma first_stop_ok l kept :
  (forall c, c ∈ l -> is_ok (get "kind" c) = true -> jsonb_ok c = true) ->
  without_holding l = Ok kept -> is_ok (first_stop l) = true.
Proof.
  revert kept; induction l as [|c l IH]; intros kept Hj H; [done|]. cbn [without_holding first_stop] in *.
  assert (Hc := Hj c (list_elem_of_here c l)). destruct (get "kind" c) as [kind|]; [|discriminate]. res_step H.
  assert (Hr : is_ok (first_stop l) = true) by (eapply IH; [|done]; intros d Hd; apply Hj; by right).
  destruct (is_text _ _); [|done]. specialize (Hc eq_refl). apply stop_value_ok in Hc.
  destruct (stop_value c) as [[k|]|]; done.
Qed.

Lemma holding_days_max_ok g e :
  jsonb_ok g = true -> _strip_meta g = Ok e -> is_ok (_holding_days_max (Some g)) = true.
Proof.
  intros Hg H. unfold _holding_days_max, _strip_meta in *. destruct (json_truthy g); [cbn [negb]|done].
  assert (Hl : forall k v l kept, subscript k g = Ok v -> items v = Ok l -> without_holding l = Ok kept ->
    is_ok (first_stop l) = true).
  { intros k v l kept Hv Hi. apply first_stop_ok. intros c. apply (items_jsonb v); [|done]. by apply (subscript_jsonb k g). }
  destruct (contains "all_of" g) as [all|]; [|discriminate]. destruct all.
  - cbn [orb] in H. destruct (subscript "all_of" g) as [v|] eqn:Ev; [|discriminate].
    destruct (items v) as [l|] eqn:Ei; [|discriminate]. res_step H. by eapply Hl.
  - cbn [orb] in H. destruct (contains "any_of" g) as [any|]; [|discriminate]. destruct any.
    + destruct (subscript "any_of" g) as [v|] eqn:Ev; [|discriminate].
      destruct (items v) as [l|] eqn:Ei; [|discriminate]. res_step H. by eapply Hl.
    + destruct (get "kind" g) as [kind|]; [|discriminate]. destruct (is_text _ kind); [|done]. by apply stop_value_ok.
Qed.

Lemma valid_builds rules :
  validate rules = Ok tt -> jsonb_ok rules = true -> exists strategy, build_strategy rules = Ok strategy.
Proof.
  intros Hv Hj. unfold build_strategy. rewrite Hv. unfold validate in Hv. destruct rules as [| | | | | |fs]; try discriminate Hv.
  cbn [rule]. destruct (field "entry" fs) as [entry|]; [|discriminate]. res_step Hv.
  destruct (field "exit" fs) as [g|] eqn:Eg; [|by eexists]. unfold reported in Hv.
  destruct (exit_met g synthetic _) eqn:Ee; [|discriminate]. unfold exit_met in Ee. res_step Ee.
  pose proof (holding_days_max_ok g _ (field_jsonb "exit" fs g Hj Eg) E0) as Hh.
  destruct (_holding_days_max (Some g)); [by eexists|discriminate].
Qed.

(** ** When a custom strategy is long

    The answers of a strategy asked at the [k] bars from [i0] on, as the engine
    asks it after the warm-up. *)

Definition ask (strategy : StrategyFn) (bars : list Bar) (i0 : nat) (st : st_state strategy * list decision) (j : nat)
    : res (st_state strategy * list decision) :=
  let! d := st_decide strategy st.1 bars (i0 + j) in Ok (d.1, (st.2 ++ [d.2])%list).

Definition asked (strategy : StrategyFn) (bars : list Bar) (i0 k : nat) : res (st_state strategy * list decision) :=
  fold_res (ask strategy bars i0) (st_init strategy, []) (seq 0 k).

Definition answers (strategy : StrategyFn) (bars : list Bar) (i0 k : nat) : res (list decision) :=
  let! st := asked strategy bars i0 k in Ok st.2.

Section rules.
Variables (entry : json) (exit_group : option json) (hold : option Z) (bars : list Bar) (i0 : nat).

(** The entry rule holds at the [j]-th question; a position entered at the
    [e]-th must be left at the [j]-th. *)
Definition enters (j : nat) : Prop := _eval_group entry bars (i0 + j) = Ok true.
Definition leaves (e j : nat) : Prop :=
  (exists g, exit_group = Some g /\ exit_met g bars (i0 + j) = Ok true) \/
  (exists n, hold = Some n /\ n <= Z.of_nat j - Z.of_nat e - 1).

(** The answer before the [e]-th, if any, was flat. *)
Definition flat_before (ds : list decision) (e : nat) : Prop :=
  forall p (d : decision), e = S p -> ds !! p = Some d -> d.1 = 0.

(** At the [j]-th answer, long since the [e]-th. *)
Definition since (ds : list decision) (e j : nat) : Prop :=
  (e <= j)%nat /\ enters e /\ flat_before ds e /\ forall m, (e < m <= j)%nat -> ~ leaves e m.

Definition answered (ds : list decision) : Prop :=
  forall j (d : decision), ds !! j = Some d -> (d.1 = 0 \/ d.1 = 1) /\ (d.1 = 1 <-> exists e, since ds e j).

Definition in_state (st : custom_state) (ds : list decision) : Prop :=
  if cu_long st then
    exists e, (e < length ds)%nat /\ cu_entry_index st = Z.of_nat (i0 + e) + 1 /\ enters e /\ flat_before ds e /\
      (forall m, (e < m < length ds)%nat -> ~ leaves e m) /\
      (forall m (d : decision), (e <= m)%nat -> ds !! m = Some d -> d.1 = 1)
  else flat_before ds (length ds).

Lemma flat_before_app ds x e : (e <= length ds)%nat -> flat_before (ds ++ [x])%list e <-> flat_before ds e.
Proof.
  intros He. unfold flat_before. split; intros H p d -> Hp; apply (H p d eq_refl).
  - by apply lookup_app_l_Some.
  - by rewrite lookup_app_l in Hp by lia.
Qed.

Lemma since_app ds x e j : (j < length ds)%nat -> since (ds ++ [x])%list e j <-> since ds e j.
Proof.
  intros Hj. unfold since. split; intros (H1 & H2 & H3 & H4); (split_and!; [done|done| |done]).
  - by apply (flat_before_app ds x e ltac:(lia)).
  - by apply (flat_before_app ds x e ltac:(lia)).
Qed.

Lemma answered_app ds x :
  answered ds -> (x.1 = 0 \/ x.1 = 1) -> (x.1 = 1 <-> exists e, since (ds ++ [x])%list e (length ds)) ->
  answered (ds ++ [x])%list.
Proof.
  intros Ha H01 Hx j d Hj. destruct (decide (j < length ds)%nat) as [Hlt|Hge].
  - rewrite lookup_app_l in Hj by done. destruct (Ha j d Hj) as [H1 H2]. split; [done|]. rewrite H2.
    split; intros [e He]; exists e; by apply (since_app ds x e j Hlt).
  - rewrite lookup_app_r in Hj by lia. apply list_lookup_singleton_Some in Hj as [Hz <-].
    replace j with (length ds) by lia. done.
Qed.

(** Nothing that was long before can make a flat strategy long. *)
Lemma flat_since ds x e : answered ds -> flat_before ds (length ds) ->
  since (ds ++ [x])%list e (length ds) -> e = length ds.
Proof.
  intros Ha Hf (H1 & H2 & H3 & H4). destruct (decide (e = length ds)) as [|Hne]; [done|exfalso].
  destruct (length ds) as [|p] eqn:El; [lia|]. destruct (lookup_lt_is_Some_2 ds p) as [d Hd]; [lia|].
  pose proof (Hf p d eq_refl Hd) as H0. apply flat_before_app in H3; [|lia].
  assert (d.1 = 1); [|lia]. apply (Ha p d Hd). exists e. split_and!; [lia|done..|]. intros m Hm. apply H4. lia.
Qed.

(** A position has one entry. *)
Lemma one_entry ds x e e' :
  answered ds -> (e < length ds)%nat -> flat_before ds e ->
  (forall m (d : decision), (e <= m)%nat -> ds !! m = Some d -> d.1 = 1) ->
  since (ds ++ [x])%list e' (length ds) -> e' = e.
Proof.
  intros Ha He Hfe Hl (H1 & H2 & H3 & H4). apply flat_before_app in H3; [|lia].
  destruct (lt_eq_lt_dec e' e) as [[Hlt|]|Hgt]; [exfalso|done|exfalso].
  - destruct e as [|p]; [lia|]. destruct (lookup_lt_is_Some_2 ds p) as [d Hd]; [lia|].
    pose proof (Hfe p d eq_refl Hd) as H0. assert (d.1 = 1); [|lia].
    apply (Ha p d Hd). exists e'. split_and!; [lia|done..|]. intros m Hm. apply H4. lia.
  - destruct e' as [|p]; [lia|]. destruct (lookup_lt_is_Some_2 ds p) as [d Hd]; [lia|].
    pose proof (H3 p d eq_refl Hd) as H0. assert (d.1 = 1); [|lia]. by apply (Hl p d); [lia|].
Qed.

Lemma leaves_spec st e j met :
  cu_entry_index st = Z.of_nat (i0 + e) + 1 ->
  match exit_group with Some g => exit_met g bars (i0 + j) | None => Ok false end = Ok met ->
  leaves e j <-> (met || expired hold (cu_entry_index st) (Z.of_nat (i0 + j)))%bool = true.
Proof.
  intros Hi Hm. unfold leaves, expired. rewrite Hi, orb_true_iff.
  enough ((exists g, exit_group = Some g /\ exit_met g bars (i0 + j) = Ok true) <-> met = true) as ->;
    [enough ((exists n, hold = Some n /\ n <= Z.of_nat j - Z.of_nat e - 1) <-> _) as -> by done|].
  - destruct hold as [n|]; [|split; [by intros (? & [=] & _)|discriminate]].
    rewrite andb_true_iff, !Z.leb_le. split; [intros (? & [= <-] & ?); lia|]. intros [_ ?]. exists n. split; [done|lia].
  - destruct exit_group as [g|]; [|split; [by intros (? & [=] & _)|congruence]].
    cbn iota in Hm. split; [intros (? & [= <-] & E); congruence|]. intros ->. by exists g.
Qed.

Lemma flat_snoc (ds : list decision) (d : decision) : d.1 = 0 -> flat_before (ds ++ [d])%list (length (ds ++ [d])).
Proof.
  intros H0 p d' Hp Hd. rewrite length_app in Hp. cbn [length] in Hp.
  replace p with (length ds) in Hd by lia. rewrite list_lookup_middle in Hd by done. by injection Hd as <-.
Qed.

Lemma long_snoc (ds : list decision) (d : decision) e :
  d.1 = 1 -> (forall m (d : decision), (e <= m)%nat -> ds !! m = Some d -> d.1 = 1) ->
  forall m (d' : decision), (e <= m)%nat -> (ds ++ [d])%list !! m = Some d' -> d'.1 = 1.
Proof.
  intros H1 Hl m d' Hm Hd. destruct (decide (m < length ds)%nat) as [Hlt|].
  - rewrite lookup_app_l in Hd by done. by apply (Hl m d').
  - rewrite lookup_app_r in Hd by lia. by apply list_lookup_singleton_Some in Hd as [_ <-].
Qed.

Lemma stays (ds : list decision) e : (forall m, (e < m < length ds)%nat -> ~ leaves e m) -> ~ leaves e (length ds) ->
  forall m, (e < m <= length ds)%nat -> ~ leaves e m.
Proof. intros Hn Hs m Hm. destruct (decide (m = length ds)) as [->|]; [done|]. apply Hn. lia. Qed.

(** One more question. *)
Lemma decide_in_state st ds st' d :
  answered ds -> in_state st ds -> custom_decide entry exit_group hold st bars (i0 + length ds) = Ok (st', d) ->
  answered (ds ++ [d])%list /\ in_state st' (ds ++ [d])%list.
Proof.
  intros Ha Hs H. unfold custom_decide in H. unfold in_state in Hs. destruct (cu_long st) eqn:El; cbn [negb] in H.
  - destruct Hs as (e & He & Hi & Hen & Hf & Hn & Hl). res_step H. rename a into met.
    pose proof (leaves_spec st e (length ds) met Hi E) as Hlv.
    assert (Hgo : leaves e (length ds) -> d.1 = 0 -> cu_long st' = false ->
      answered (ds ++ [d])%list /\ in_state st' (ds ++ [d])%list).
    { intros Hleave Hd Hst. split.
      - apply answered_app; [done|by left|]. rewrite Hd. split; [done|]. intros [e' He']. exfalso.
        pose proof (one_entry ds d e e' Ha He Hf Hl He') as ->. destruct He' as (_ & _ & _ & H4). apply (H4 (length ds)); [lia|done].
      - unfold in_state. rewrite Hst. by apply flat_snoc. }
    destruct met; [injection H as <- <-; apply Hgo; [by apply Hlv|done..]|]. cbn [orb] in Hlv.
    destruct (expired _ _ _); injection H as <- <-; [apply Hgo; [by apply Hlv|done..]|].
    pose proof (stays ds e Hn ltac:(intros Hx; apply Hlv in Hx; discriminate)) as Hstay.
    rewrite <- (flat_before_app ds (1, ""%string)) in Hf by lia. split.
    + apply answered_app; [done|by right|]. split; [intros _|done]. exists e. split_and!; [lia|done..].
    + unfold in_state. rewrite El. exists e. rewrite length_app. cbn [length].
      split_and!; [lia|done|done|done|intros m Hm; apply Hstay; lia|by apply long_snoc].
  - res_step H. rename a into met. destruct met; injection H as <- <-.
    + split.
      * apply answered_app; [done|by right|]. split; [intros _|done]. exists (length ds).
        split_and!; [done|done| |lia]. by apply flat_before_app.
      * unfold in_state. cbn [cu_long cu_entry_index]. exists (length ds). rewrite length_app. cbn [length].
        split_and!; [lia|lia|done|by apply flat_before_app|lia|]. apply long_snoc; [done|].
        intros m d Hm Hd. apply lookup_lt_Some in Hd. lia.
    + split.
      * apply answered_app; [done|by left|]. split; [done|]. intros [e He].
        pose proof (flat_since ds no_signal e Ha Hs He) as ->. destruct He as (_ & Hen & _). unfold enters in Hen. congruence.
      * unfold in_state. rewrite El. by apply flat_snoc.
Qed.

(** The time stop as a bound on a stretch of long answers. *)
Lemma answered_stop ds n j :
  answered ds -> hold = Some n -> (j + Z.to_nat (Z.max 0 n) + 1 < length ds)%nat ->
  exists m (d : decision), (j <= m <= j + Z.to_nat (Z.max 0 n) + 1)%nat /\ ds !! m = Some d /\ d.1 = 0.
Proof using All.
  intros Ha Hh Hj. set (J := (j + Z.to_nat (Z.max 0 n) + 1)%nat) in *.
  destruct (lookup_lt_is_Some_2 ds J Hj) as [d Hd]. destruct (Ha J d Hd) as [[H0|H1] Hi].
  - exists J, d. split_and!; [lia..|done|done].
  - apply Hi in H1 as (e & He & _ & Hf & Hn). destruct (decide (e <= j)%nat) as [Hle|Hgt].
    + destruct (Hn J ltac:(lia)). right. exists n. split; [done|lia].
    + destruct e as [|p]; [lia|]. destruct (lookup_lt_is_Some_2 ds p) as [d' Hd']; [lia|].
      exists p, d'. split_and!; [lia..|done|by apply (Hf p)].
Qed.

End rules.

Lemma asked_inv rules strategy bars i0 k st entry hold :
  strategy = mkStrategy custom_state (mkCustom false (-1)) (custom_decide entry (rule "exit" rules) hold) ->
  asked strategy bars i0 k = Ok st -> length st.2 = k /\ answered entry (rule "exit" rules) hold bars i0 st.2.
Proof.
  intros ->. enough (asked (mkStrategy custom_state (mkCustom false (-1)) (custom_decide entry (rule "exit" rules) hold)) bars i0 k = Ok st ->
    length st.2 = k /\ answered entry (rule "exit" rules) hold bars i0 st.2 /\
    in_state entry (rule "exit" rules) hold bars i0 st.1 st.2) by naive_solver.
  unfold asked. revert st. induction k as [|k IH]; intros st H.
  - cbn in H. injection H as <-. split; [done|]. split; [intros j d Hd; discriminate|]. by intros p d Hp Hd.
  - rewrite seq_S, fold_res_app in H. res_step H. destruct (IH a eq_refl) as (Hl & Ha & Hs).
    cbn [Nat.add fold_res] in H. unfold ask in H. cbn [st_decide] in H. res_step H. injection H as <-.
    res_step E0. injection E0 as <-. destruct a1 as [st' d]. rewrite <- Hl in E1.
    destruct (decide_in_state _ _ _ _ _ _ _ _ _ Ha Hs E1).
    cbn [fst snd]. rewrite length_app. cbn [length]. split; [rewrite <- Hl; apply Nat.add_1_r|done].
Qed.

(** C24: A custom strategy, asked at consecutive bars, answers long at a bar
    exactly if its entry rule held at some bar up to it, before which it was
    flat, and since which neither the exit rule held nor the time stop of [n]
    bars expired; otherwise it answers flat.  With a time stop of [n] bars it is
    never long at more than [n + 1] bars in a row. *)
Theorem custom_strategy_correct rules strategy entry hold bars i0 k ds :
  build_strategy rules = Ok strategy -> rule "entry" rules = Some entry ->
  _holding_days_max (rule "exit" rules) = Ok hold -> answers strategy bars i0 k = Ok ds ->
  length ds = k /\
  (forall j (d : decision), ds !! j = Some d ->
     (d.1 = 0 \/ d.1 = 1) /\ (d.1 = 1 <-> exists e, since entry (rule "exit" rules) hold bars i0 ds e j)) /\
  (forall n j, hold = Some n -> (j + Z.to_nat (Z.max 0 n) + 1 < k)%nat ->
     exists m (d : decision), (j <= m <= j + Z.to_nat (Z.max 0 n) + 1)%nat /\ ds !! m = Some d /\ d.1 = 0).
Proof.
  intros Hb He Hh Ha. apply build_inv in Hb as (entry' & hold' & He' & Hh' & Hs).
  rewrite He in He'. rewrite Hh in Hh'. injection He' as <-. injection Hh' as <-.
  unfold answers in Ha. res_step Ha. injection Ha as <-. destruct (asked_inv _ _ _ _ _ _ _ _ Hs E) as [<- Hin].
  split; [done|]. split; [exact Hin|]. intros n j Hn Hj. by apply (answered_stop _ _ _ _ _ _ _ _ Hin Hn).
Qed.

(** ** Examples *)

Definition price_rule (op : string) (n : Z) : json :=
  JObj [("left", JObj [("kind", JText "price")]); ("operator", JText op);
        ("right", JObj [("kind", JText "constant"); ("value", JInt n)])]%string.
Definition stop_rule (n : Z) : json := JObj [("kind", JText "holding_days_gt"); ("value", JInt n)]%string.

(** Buy above 100, sell below 95 or after two bars. *)
Definition sample_entry : json := JObj [("all_of", JList [price_rule ">" 100])]%string.
Definition sample_exit : json := JObj [("any_of", JList [stop_rule 2; price_rule "<" 95])]%string.
Definition sample_rules : json := JObj [("entry", sample_entry); ("exit", sample_exit)]%string.
Definition sample_strategy : StrategyFn :=
  mkStrategy custom_state (mkCustom false (-1)) (custom_decide sample_entry (Some sample_exit) (Some 2)).
Definition sample_bars : list Bar := map (fun c => ex_bar c c c) [101; 102; 103; 104; 90; 101; 90].

Lemma sample_builds : build_strategy sample_rules = Ok sample_strategy.
Proof.
  unfold build_strategy. replace (validate sample_rules) with (Ok tt : res unit) by (vm_compute; reflexivity).
  replace (_holding_days_max (rule "exit" sample_rules)) with (Ok (Some 2) : res (option Z)) by (vm_compute; reflexivity).
  reflexivity.
Qed.

(** Bought at the second bar, held at the indices 0 to 2, stopped at the third
    after the entry. *)
Example sample_answers :
  match answers sample_strategy sample_bars 0 7 with Ok ds => map fst ds | Exn _ => [] end = [1; 1; 1; 0; 0; 1; 0].
Proof. vm_compute. reflexivity. Qed.

Lemma custom_strategy_correct_witness :
  exists ds, answers sample_strategy sample_bars 0 7 = Ok ds /\ length ds = 7%nat /\
    exists m (d : decision), (0 <= m <= 3)%nat /\ ds !! m = Some d /\ d.1 = 0.
Proof.
  destruct (answers sample_strategy sample_bars 0 7) as [ds|] eqn:E; [|vm_compute in E; discriminate E].
  destruct (custom_strategy_correct sample_rules sample_strategy sample_entry (Some 2) sample_bars 0 7 ds
    sample_builds eq_refl ltac:(vm_compute; reflexivity) E) as (Hl & _ & Hs).
  exists ds. split; [reflexivity|]. split; [exact Hl|]. apply (Hs 2 0%nat eq_refl). cbn. lia.
Defined.

(** Validation evaluates the rules on one bar, and stops at the first condition
    that fails: what follows it may be malformed, and raises in a backtest. *)
Definition malformed_later : json :=
  JObj [("entry", JObj [("all_of", JList [price_rule "<" 50; JObj [("operator", JText "around")]])])]%string.

Example validation_incomplete :
  validate malformed_later = Ok tt /\
  match rule "entry" malformed_later with
  | Some entry => _eval_group entry [ex_bar 1 40 40] 0
  | None => Ok false
  end = Exn InvalidStrategyError.
Proof. split; vm_compute; reflexivity. Qed.

(** A time stop next to another condition of an [all_of] exit ends the position
    on its own. *)
Definition stop_in_all_of : json :=
  JObj [("entry", sample_entry); ("exit", JObj [("all_of", JList [stop_rule 2; price_rule "<" 95])])]%string.

Example all_of_stop_alone :
  match build_strategy stop_in_all_of with
  | Ok s => match answers s sample_bars 0 4 with Ok ds => map fst ds | Exn _ => [] end
  | Exn _ => []
  end = [1; 1; 1; 0].
Proof. vm_compute. reflexivity. Qed.
