(* ===== verification/CustomStrategies.v ===== *)
(** * CustomStrategies: [psx_api/services/custom_strategy_service.py]

    The table of the users' own strategies: create, update, delete, fork and the
    two listings, over the validation and the builder of [StrategyBuilder].

    [strategies_reachable_ok] is the invariant of the table, down to the fact
    that whatever it stores builds a strategy without look-ahead; [fork_correct]
    and [update_correct] say who may do what to which row. *)

From Stdlib Require Import Ascii.
From S2P Require Import Prelude PyText PyFloat Json Ledger Backtest StrategyBuilder.

Record UserStrategy := mkUserStrategy {
  us_id : string;
  us_user_id : string;
  us_name : string;
  us_description : option string;
  us_rules : json;
  us_is_public : bool;
  us_forked_from : option string;
  us_created_at : Z;
  us_updated_at : Z;
}.

Record StrategyCreate := mkStrategyCreate {
  sc_name : string;
  sc_description : option string;
  sc_rules : json;
  sc_is_public : bool;
}.

Record StrategyUpdate := mkStrategyUpdate {
  su_name : option string;
  su_description : option string;
  su_rules : option json;
  su_is_public : option bool;
}.

(** ** Queries *)

Definition list_for_user (db : list UserStrategy) (user_id : string) : list UserStrategy :=
  sort_by (fun a b => us_updated_at b <=? us_updated_at a) (List.filter (fun s => String.eqb (us_user_id s) user_id) db).

Definition list_public (db : list UserStrategy) (limit : nat) : list UserStrategy :=
  take limit (sort_by (fun a b => us_created_at b <=? us_created_at a) (List.filter us_is_public db)).

Definition get_row (db : list UserStrategy) (strategy_id : string) : res (option UserStrategy) :=
  scalar_one_or_none (List.filter (fun s => String.eqb (us_id s) strategy_id) db).

(** ** The flush *)

(** [String(100)], [Text], JSONB *)
Definition storable (s : UserStrategy) : bool :=
  (jsonb_ok (us_rules s) && (Z.of_nat (String.length (us_name s)) <=? 100) && no_nul (us_name s)
   && match us_description s with Some d => no_nul d | None => true end)%bool.

Definition same_name (s t : UserStrategy) : bool :=
  (String.eqb (us_user_id s) (us_user_id t) && String.eqb (us_name s) (us_name t))%bool.

(** A new or changed row among the others: the columns, then
    [uq_user_strategies_user_name]. *)
Definition flush_row (s : UserStrategy) (others : list UserStrategy) : res unit :=
  if negb (storable s) then Exn DataError
  else if existsb (same_name s) others then Exn IntegrityError else Ok tt.

(** [except IntegrityError: raise StrategyError(..., 409)] *)
Definition conflict {A} (r : res A) : res A :=
  match r with Exn IntegrityError => Exn (ServiceError 409) | _ => r end.

(** [except InvalidStrategyError: raise StrategyError(str(exc))] *)
Definition invalid {A} (r : res A) : res A :=
  match r with Exn InvalidStrategyError => Exn (ServiceError 400) | _ => r end.

(** ** Operations *)

Definition insert_strategy (db : list UserStrategy) (s : UserStrategy) : res (list UserStrategy * UserStrategy) :=
  let! _ := conflict (flush_row s db) in Ok ((db ++ [s])%list, s).

Definition create (db : list UserStrategy) (new_id : string) (now : Z) (user_id : string) (body : StrategyCreate)
    : res (list UserStrategy * UserStrategy) :=
  let! _ := invalid (validate (sc_rules body)) in
  insert_strategy db (mkUserStrategy new_id user_id (sc_name body) (sc_description body) (sc_rules body)
                        (sc_is_public body) None now now).

(** The row, if it is the user's. *)
Definition own_row (db : list UserStrategy) (user_id strategy_id : string) : res UserStrategy :=
  let! found := get_row db strategy_id in
  match found with
  | Some s => if String.eqb (us_user_id s) user_id then Ok s else Exn (ServiceError 404)
  | None => Exn (ServiceError 404)
  end.

(** An attribute set to an equal value is no change, and a row without a change
    is not written. *)
Definition changed (s : UserStrategy) (body : StrategyUpdate) : bool :=
  (match su_name body with Some n => negb (String.eqb (us_name s) n) | None => false end
   || match su_description body with Some d => negb (bool_decide (us_description s = Some d)) | None => false end
   || match su_rules body with Some r => negb (json_eq r (us_rules s)) | None => false end
   || match su_is_public body with Some b => negb (eqb (us_is_public s) b) | None => false end)%bool.

Definition updated (s : UserStrategy) (body : StrategyUpdate) (now : Z) : UserStrategy :=
  let rules := match su_rules body with
               | Some r => if json_eq r (us_rules s) then us_rules s else r
               | None => us_rules s
               end in
  mkUserStrategy (us_id s) (us_user_id s) (default (us_name s) (su_name body))
    (match su_description body with Some d => Some d | None => us_description s end)
    rules (default (us_is_public s) (su_is_public body)) (us_forked_from s) (us_created_at s) now.

(** The table and the row it now holds. *)
Definition update (db : list UserStrategy) (now : Z) (user_id strategy_id : string) (body : StrategyUpdate)
    : res (list UserStrategy * UserStrategy) :=
  let! s := own_row db user_id strategy_id in
  let! _ := match su_rules body with Some r => invalid (validate r) | None => Ok tt end in
  let t := updated s body now in
  if negb (changed s body) then Ok (db, s) else
  let! _ := conflict (flush_row t (List.filter (fun o => negb (String.eqb (us_id o) (us_id s))) db)) in
  Ok (put_row us_id t db, t).

(** [ON DELETE SET NULL] *)
Definition unlink (strategy_id : string) (s : UserStrategy) : UserStrategy :=
  if bool_decide (us_forked_from s = Some strategy_id)
  then mkUserStrategy (us_id s) (us_user_id s) (us_name s) (us_description s) (us_rules s) (us_is_public s) None
         (us_created_at s) (us_updated_at s)
  else s.

Definition delete (db : list UserStrategy) (user_id strategy_id : string) : res (list UserStrategy) :=
  let! s := own_row db user_id strategy_id in
  Ok (map (unlink (us_id s)) (List.filter (fun o => negb (String.eqb (us_id o) (us_id s))) db)).

Definition fork (db : list UserStrategy) (new_id : string) (now : Z) (user_id strategy_id : string)
    : res (list UserStrategy * UserStrategy) :=
  let! found := get_row db strategy_id in
  match found with
  | Some source =>
      if us_is_public source then
        insert_strategy db (mkUserStrategy new_id user_id (us_name source +:+ " (forked)") (us_description source)
                              (us_rules source) false (Some (us_id source)) now now)
      else Exn (ServiceError 404)
  | None => Exn (ServiceError 404)
  end.

(** ** The invariant *)

Definition us_key (s : UserStrategy) : string * string := (us_user_id s, us_name s).

Record strategies_ok (db : list UserStrategy) : Prop := mkStrategiesOk {
  so_ids : NoDup (map us_id db);
  so_names : NoDup (map us_key db);
  so_rows : forall s, s ∈ db -> storable s = true /\ validate (us_rules s) = Ok tt;
  so_forks : forall s f, s ∈ db -> us_forked_from s = Some f -> f ∈ map us_id db;
}.

Inductive strategy_step (user_id : string) (db : list UserStrategy) : list UserStrategy -> Prop :=
| step_create new_id now body db' s :
    new_id ∉ map us_id db -> create db new_id now user_id body = Ok (db', s) -> strategy_step user_id db db'
| step_update now strategy_id body db' s :
    update db now user_id strategy_id body = Ok (db', s) -> strategy_step user_id db db'
| step_delete strategy_id db' : delete db user_id strategy_id = Ok db' -> strategy_step user_id db db'
| step_fork new_id now strategy_id db' s :
    new_id ∉ map us_id db -> fork db new_id now user_id strategy_id = Ok (db', s) -> strategy_step user_id db db'.

Lemma strategy_name_spec s t : same_name s t = true <-> us_key t = us_key s.
Proof.
  unfold same_name, us_key. rewrite andb_true_iff, !String.eqb_eq. split; [by intros [-> ->]|].
  intros E. injection E as -> ->. done.
Qed.

Lemma flush_row_cases s others :
  match conflict (flush_row s others) with
  | Ok _ => storable s = true /\ us_key s ∉ map us_key others
  | Exn e => (e = DataError /\ storable s = false) \/
             (e = ServiceError 409 /\ storable s = true /\ us_key s ∈ map us_key others)
  end.
Proof.
  unfold flush_row. destruct (storable s); cbn [negb conflict]; [|by left].
  destruct (existsb (same_name s) others) eqn:E; cbn [conflict].
  - right. split_and!; [done|done|]. apply existsb_exists in E as (o & Ho & Hk%strategy_name_spec).
    rewrite <- Hk. by apply list_elem_of_fmap_2, list_elem_of_In.
  - split; [done|]. intros (o & Hk & Ho)%list_elem_of_fmap. rewrite <- not_true_iff_false in E. apply E.
    apply existsb_exists. exists o. split; [by apply list_elem_of_In|]. by apply strategy_name_spec.
Qed.

Lemma insert_ok db s db' s' :
  strategies_ok db -> us_id s ∉ map us_id db -> validate (us_rules s) = Ok tt ->
  (forall f, us_forked_from s = Some f -> f ∈ map us_id db) ->
  insert_strategy db s = Ok (db', s') -> s' = s /\ db' = (db ++ [s])%list /\ strategies_ok db'.
Proof.
  intros [H1 H2 H3 H4] Hid Hv Hf H. unfold insert_strategy in H. pose proof (flush_row_cases s db) as Hc.
  destruct (conflict _); [|discriminate]. destruct Hc as [Hs Hk]. injection H as <- <-. split; [done|]. split; [done|].
  split; rewrite ?map_app.
  - by apply NoDup_snoc.
  - by apply NoDup_snoc.
  - intros x [Hx| ->%list_elem_of_singleton]%elem_of_app; [by apply H3|done].
  - intros x f [Hx| ->%list_elem_of_singleton]%elem_of_app Hff; apply elem_of_app; left; [by apply (H4 x)|by apply Hf].
Qed.

Lemma own_row_inv db user_id strategy_id s :
  own_row db user_id strategy_id = Ok s -> s ∈ db /\ us_id s = strategy_id /\ us_user_id s = user_id.
Proof.
  unfold own_row. intros H. res_step H. destruct a as [t|]; [|discriminate].
  destruct (String.eqb_spec (us_user_id t) user_id); [|discriminate]. injection H as <-.
  by apply scalar_key_some in E as [? ?].
Qed.

Lemma strategy_update_inv db now user_id strategy_id body db' t :
  strategies_ok db -> update db now user_id strategy_id body = Ok (db', t) ->
  exists s, s ∈ db /\ us_id s = strategy_id /\ us_user_id s = user_id /\
    (db' = db \/
     (db' = put_row us_id t db /\ t = updated s body now /\ storable t = true /\ validate (us_rules t) = Ok tt /\
      us_key t ∉ map us_key (List.filter (fun o => negb (String.eqb (us_id o) (us_id t))) db))).
Proof.
  intros Hok H. unfold update in H. res_step H. apply own_row_inv in E as (Hin & Hid & Hu). exists a.
  split_and!; [done..|]. res_step H. rename E into Hvalid. destruct (changed a body); cbn [negb] in H; [|left; congruence].
  right. pose proof (flush_row_cases (updated a body now) (List.filter (fun o => negb (String.eqb (us_id o) (us_id a))) db)) as Hc.
  destruct (conflict _); [|discriminate]. injection H as <- <-. destruct Hc as [Hs Hk]. split_and!; [done..| |done].
  cbn [updated us_rules]. pose proof (so_rows _ Hok a Hin) as [_ Ha].
  destruct (su_rules body) as [r|]; [|done]. destruct (json_eq _ _); [done|].
  by destruct (validate r) as [[]|[]].
Qed.

Lemma update_ok db now user_id strategy_id body db' t :
  strategies_ok db -> update db now user_id strategy_id body = Ok (db', t) -> strategies_ok db'.
Proof.
  intros Hok H. destruct (strategy_update_inv _ _ _ _ _ _ _ Hok H) as (s & Hin & _ & _ & [->|(-> & Et & Hs & Hv & Hk)]); [done|].
  assert (Hid : us_id s = us_id t) by (by rewrite Et). destruct Hok as [H1 H2 H3 H4].
  pose proof (put_row_perm us_id t s db H1 Hin Hid) as Hp. split; [by rewrite put_row_keys|..].
  - rewrite Hp. cbn [map]. constructor; [done|by apply NoDup_map_filter].
  - intros x [[-> _]|[Hx _]]%elem_of_put_row; [done|by apply H3].
  - intros x f Hx Hf. rewrite put_row_keys. apply elem_of_put_row in Hx as [[-> _]|[Hx _]]; [|by apply (H4 x)].
    apply (H4 s); [done|]. by rewrite Et in Hf.
Qed.

Lemma unlink_columns k s :
  us_id (unlink k s) = us_id s /\ us_key (unlink k s) = us_key s /\ storable (unlink k s) = storable s /\
  us_rules (unlink k s) = us_rules s /\ us_user_id (unlink k s) = us_user_id s /\
  forall f, us_forked_from (unlink k s) = Some f -> us_forked_from s = Some f /\ f <> k.
Proof.
  unfold unlink. case_bool_decide as E; [by split_and!|]. split_and!; try done. intros f Hf. split; [done|]. congruence.
Qed.

Lemma delete_ok db user_id strategy_id db' :
  strategies_ok db -> delete db user_id strategy_id = Ok db' -> strategies_ok db'.
Proof.
  intros [H1 H2 H3 H4] H. unfold delete in H. res_step H. injection H as <-. set (rest := List.filter _ db).
  assert (Ecol : map us_id (map (unlink (us_id a)) rest) = map us_id rest /\ map us_key (map (unlink (us_id a)) rest) = map us_key rest).
  { rewrite !map_map. split; apply map_ext; intros s; apply unlink_columns. }
  destruct Ecol as [E1 E2]. split; rewrite ?E1, ?E2; [by apply NoDup_map_filter..| |].
  - intros x (s & -> & Hs)%list_elem_of_fmap. apply elem_of_lfilter in Hs as [Hs _].
    destruct (unlink_columns (us_id a) s) as (_ & _ & -> & -> & _). by apply H3.
  - intros x f (s & -> & Hs)%list_elem_of_fmap Hf. apply unlink_columns in Hf as [Hf Hne].
    apply elem_of_lfilter in Hs as [Hs _]. apply (H4 s f Hs) in Hf as (o & -> & Ho)%list_elem_of_fmap.
    apply list_elem_of_fmap_2, elem_of_lfilter. split; [done|]. by apply negb_true_iff, String.eqb_neq.
Qed.

Lemma fork_inv db new_id now user_id strategy_id db' t :
  strategies_ok db -> new_id ∉ map us_id db -> fork db new_id now user_id strategy_id = Ok (db', t) ->
  exists s, s ∈ db /\ us_id s = strategy_id /\ us_is_public s = true /\
    t = mkUserStrategy new_id user_id (us_name s +:+ " (forked)") (us_description s) (us_rules s) false (Some strategy_id) now now /\
    db' = (db ++ [t])%list /\ strategies_ok db'.
Proof.
  intros Hok Hid H. unfold fork in H. res_step H. destruct a as [s|]; [|discriminate].
  apply scalar_key_some in E as [Hin Hs]. destruct (us_is_public s) eqn:Ep; [|discriminate]. subst strategy_id.
  apply insert_ok in H as (-> & -> & Hdb'); [|done|done|exact (proj2 (so_rows _ Hok s Hin))|].
  - by exists s.
  - intros f [= <-]. by apply list_elem_of_fmap_2.
Qed.

Lemma strategy_create_inv db new_id now user_id body db' t :
  strategies_ok db -> new_id ∉ map us_id db -> create db new_id now user_id body = Ok (db', t) ->
  us_user_id t = user_id /\ db' = (db ++ [t])%list /\ strategies_ok db'.
Proof.
  intros Hok Hid H. unfold create in H. res_step H.
  apply insert_ok in H as (-> & -> & Hdb'); [done|done|done| |done].
  cbn [us_rules]. by destruct (validate _) as [[]|[]].
Qed.

Lemma strategy_step_ok user_id db db' : strategies_ok db -> strategy_step user_id db db' -> strategies_ok db'.
Proof.
  intros Hok [new_id now body d s Hf H|now sid body d s H|sid d H|new_id now sid d s Hf H].
  - by destruct (strategy_create_inv _ _ _ _ _ _ _ Hok Hf H) as (_ & _ & ?).
  - by eapply update_ok.
  - by eapply delete_ok.
  - by destruct (fork_inv _ _ _ _ _ _ _ Hok Hf H) as (? & _ & _ & _ & _ & _ & ?).
Qed.

(** ** Other users *)

(** A row up to the link to the strategy it was forked from. *)
Definition without_origin (s : UserStrategy) : UserStrategy :=
  mkUserStrategy (us_id s) (us_user_id s) (us_name s) (us_description s) (us_rules s) (us_is_public s) None
    (us_created_at s) (us_updated_at s).

(** The rows of the others, in their order. *)
Definition others (user_id : string) (db : list UserStrategy) : list UserStrategy :=
  map without_origin (List.filter (fun s => negb (String.eqb (us_user_id s) user_id)) db).

Lemma others_app user_id db s : us_user_id s = user_id -> others user_id (db ++ [s])%list = others user_id db.
Proof. intros <-. unfold others. rewrite List.filter_app. cbn. by rewrite String.eqb_refl, app_nil_r. Qed.

Lemma others_put user_id db s t :
  NoDup (map us_id db) -> s ∈ db -> us_id s = us_id t -> us_user_id s = user_id -> us_user_id t = user_id ->
  others user_id (put_row us_id t db) = others user_id db.
Proof.
  intros Hnd Hin Hid Hs Ht. unfold others. f_equal. unfold put_row.
  assert (H : forall x, x ∈ db -> us_id x = us_id t -> us_user_id x = user_id).
  { intros x Hx Ex. rewrite (nodup_id_inj us_id db x s); [done..|congruence]. }
  clear Hnd Hin. induction db as [|x db IH]; [done|]. cbn [map List.filter].
  rewrite IH by (intros y Hy; apply H; by right). destruct (String.eqb_spec (us_id x) (us_id t)) as [E|]; [|done].
  rewrite Ht, (H x (list_elem_of_here x db) E). by rewrite String.eqb_refl.
Qed.

Lemma others_delete user_id db s :
  NoDup (map us_id db) -> s ∈ db -> us_user_id s = user_id ->
  others user_id (map (unlink (us_id s)) (List.filter (fun o => negb (String.eqb (us_id o) (us_id s))) db)) = others user_id db.
Proof.
  intros Hnd Hin Hs. assert (H : forall x, x ∈ db -> us_id x = us_id s -> us_user_id x = user_id).
  { intros x Hx Ex. by rewrite (nodup_id_inj us_id db x s). }
  clear Hnd Hin. unfold others. induction db as [|x db IH]; [done|]. cbn [map List.filter].
  specialize (IH ltac:(intros y Hy; apply H; by right)).
  destruct (String.eqb_spec (us_id x) (us_id s)) as [E|]; cbn [negb map List.filter].
  - by rewrite (H x (list_elem_of_here x db) E), String.eqb_refl.
  - destruct (unlink_columns (us_id s) x) as (_ & _ & _ & _ & -> & _).
    destruct (String.eqb (us_user_id x) user_id); cbn [negb map]; [done|]. rewrite IH. f_equal.
    unfold unlink. by case_bool_decide.
Qed.

Lemma strategy_step_others user_id db db' :
  strategies_ok db -> strategy_step user_id db db' -> others user_id db' = others user_id db.
Proof.
  intros Hok [new_id now body d s Hf H|now sid body d s H|sid d H|new_id now sid d s Hf H].
  - destruct (strategy_create_inv _ _ _ _ _ _ _ Hok Hf H) as (Hu & -> & _). by apply others_app.
  - destruct (strategy_update_inv _ _ _ _ _ _ _ Hok H) as (r & Hin & Hid & Hu & [->|(-> & Et & _)]); [done|].
    apply (others_put _ _ r); [apply Hok|done|by rewrite Et|done|by rewrite Et].
  - unfold delete in H. res_step H. injection H as <-. apply own_row_inv in E as (Hin & _ & Hu).
    apply others_delete; [apply Hok|done..].
  - destruct (fork_inv _ _ _ _ _ _ _ Hok Hf H) as (r & _ & _ & _ & -> & -> & _). by apply others_app.
Qed.

(** Whatever sequence of requests the users make, keys stay unique, names stay
    unique per user, a fork's origin exists, and every stored strategy builds a
    strategy the engine can run without look-ahead: neither the validation nor
    the builder can fail on it again.  A request changes the rows of its own
    user only, but for the link of a fork whose origin is deleted. *)
Theorem strategies_reachable_ok db :
  rtc (fun db db' => exists user_id, strategy_step user_id db db') [] db ->
  strategies_ok db /\
  (forall s, s ∈ db -> exists strategy, build_strategy (us_rules s) = Ok strategy /\ causal strategy) /\
  (forall user_id db', strategy_step user_id db db' -> others user_id db' = others user_id db).
Proof.
  intros Hr. assert (Hok : strategies_ok db).
  { assert (H0 : strategies_ok []) by (split; [constructor..| |]; intros s ?%not_elem_of_nil || intros s f ?%not_elem_of_nil; done).
    revert H0. induction Hr as [|db0 db1 db2 [uid Hs] _ IH]; [done|]. intros H0. apply IH. by eapply strategy_step_ok. }
  split; [done|]. split; [|by intros uid db'; apply strategy_step_others].
  intros s Hs. destruct (so_rows _ Hok s Hs) as [Hst Hv]. destruct (valid_builds (us_rules s) Hv) as [strategy Hb].
  - unfold storable in Hst. by apply andb_true_iff in Hst as [[[? _]%andb_true_iff _]%andb_true_iff _].
  - exists strategy. split; [done|]. by apply (build_causal (us_rules s)).
Qed.

(** ** Forks *)

Lemma fork_storable s new_id user_id k now :
  storable s = true ->
  storable (mkUserStrategy new_id user_id (us_name s +:+ " (forked)") (us_description s) (us_rules s) false k now now)
  = (Z.of_nat (String.length (us_name s)) <=? 91).
Proof.
  unfold storable. cbn [us_rules us_name us_description]. rewrite !andb_true_iff. intros [[[-> _] Hn] ->].
  unfold no_nul in *. rewrite chars_append, forallb_app, Hn, length_append. cbn. rewrite !andb_true_r.
  apply eq_true_iff_eq. rewrite !Z.leb_le. lia.
Qed.

Lemma fork_row_eq db new_id now user_id s :
  strategies_ok db -> s ∈ db -> us_is_public s = true ->
  fork db new_id now user_id (us_id s)
  = insert_strategy db (mkUserStrategy new_id user_id (us_name s +:+ " (forked)") (us_description s) (us_rules s) false
                          (Some (us_id s)) now now).
Proof.
  intros Hok Hin Hp. unfold fork, get_row.
  destruct (scalar_by_key us_id db (us_id s) (so_ids _ Hok)) as [(x & Hx & Hk & ->)|[Hno _]]; [|by destruct (Hno s)].
  rewrite (nodup_id_inj us_id db x s) by (done || apply Hok). by rewrite Hp.
Qed.

(** [fork] on every branch: a public strategy is copied to the caller as a
    private one that names its origin, appended with everything else as it was.
    It is refused with 404 exactly if there is no public strategy with that
    identifier, with 409 exactly if the caller has a strategy of the new name,
    and fails in the database exactly if the name exceeds the 91 characters
    that leave room for the suffix. *)
Theorem fork_correct db new_id now user_id strategy_id :
  strategies_ok db -> new_id ∉ map us_id db ->
  match List.find (fun s => String.eqb (us_id s) strategy_id && us_is_public s)%bool db with
  | None => fork db new_id now user_id strategy_id = Exn (ServiceError 404)
  | Some s =>
      let name := (us_name s +:+ " (forked)")%string in
      if Z.of_nat (String.length (us_name s)) <=? 91 then
        if decide ((user_id, name) ∈ map us_key db)
        then fork db new_id now user_id strategy_id = Exn (ServiceError 409)
        else exists t db', fork db new_id now user_id strategy_id = Ok (db', t) /\ db' = (db ++ [t])%list /\
          us_id t = new_id /\ us_key t = (user_id, name) /\ us_rules t = us_rules s /\
          us_description t = us_description s /\ us_is_public t = false /\ us_forked_from t = Some strategy_id /\
          strategies_ok db'
      else fork db new_id now user_id strategy_id = Exn DataError
  end.
Proof.
  intros Hok Hid. destruct (List.find _ db) as [s|] eqn:Ef; cbv zeta.
  - apply List.find_some in Ef as [Hin%list_elem_of_In [Hs%String.eqb_eq Hp]%andb_true_iff].
    destruct (so_rows _ Hok s Hin) as [Hsto Hv]. pose proof (fork_row_eq db new_id now user_id s Hok Hin Hp) as E.
    rewrite Hs in E. set (t := mkUserStrategy _ _ _ _ _ _ _ _ _) in E. rewrite E.
    pose proof (flush_row_cases t db) as Hc. rewrite <- (fork_storable s new_id user_id (Some strategy_id) now Hsto). fold t.
    destruct (insert_strategy db t) as [[db' t']|e] eqn:Ei.
    + destruct (insert_ok db t db' t' Hok Hid Hv) as (-> & -> & Hok'); [|done|].
      { intros f [= <-]. rewrite <- Hs. by apply list_elem_of_fmap_2. }
      unfold insert_strategy in Ei. destruct (conflict _); [|discriminate]. destruct Hc as [-> Hk].
      destruct (decide _) as [|_]; [done|]. by eexists _, _.
    + unfold insert_strategy in Ei. destruct (conflict _); [discriminate|]. injection Ei as ->.
      destruct Hc as [[-> ->]|(-> & -> & Hk)]; [done|]. by destruct (decide _).
  - unfold fork, get_row. destruct (scalar_by_key us_id db strategy_id (so_ids _ Hok)) as [(x & Hx & Hk & ->)|[_ ->]]; [|done].
    apply (List.find_none _ _) with (x := x) in Ef; [|by apply list_elem_of_In].
    rewrite Hk, String.eqb_refl in Ef. cbn in Ef. by rewrite Ef.
Qed.

(** ** Examples *)

Definition sample_row : UserStrategy :=
  mkUserStrategy "s1" "u1" "Breakout" None sample_rules true None 10 10.

Lemma sample_created :
  create [] "s1" 10 "u1" (mkStrategyCreate "Breakout" None sample_rules true) = Ok ([sample_row], sample_row).
Proof. vm_compute. reflexivity. Qed.

Lemma sample_reachable : rtc (fun db db' => exists user_id, strategy_step user_id db db') [] [sample_row].
Proof.
  apply rtc_once. exists "u1"%string. eapply step_create; [|exact sample_created]. by apply not_elem_of_nil.
Qed.

Lemma strategies_reachable_ok_witness :
  strategies_ok [sample_row] /\ exists strategy, build_strategy sample_rules = Ok strategy /\ causal strategy.
Proof.
  destruct (strategies_reachable_ok [sample_row] sample_reachable) as (Hok & Hb & _).
  split; [exact Hok|]. apply (Hb sample_row). apply list_elem_of_here.
Defined.

Lemma sample_ok : strategies_ok [sample_row].
Proof.
  apply (strategy_step_ok "u1" []); [|by eapply step_create; [apply not_elem_of_nil|exact sample_created]].
  split; [constructor..| |]; [intros s Hs|intros s f Hs]; by apply not_elem_of_nil in Hs.
Qed.

Lemma fork_correct_witness :
  exists t db', fork [sample_row] "s2" 20 "u2" "s1" = Ok (db', t) /\ us_name t = "Breakout (forked)"%string /\
    strategies_ok db'.
Proof.
  destruct (fork [sample_row] "s2" 20 "u2" "s1") as [[db' t]|e] eqn:E; [|vm_compute in E; discriminate E].
  assert (Hid : "s2"%string ∉ map us_id [sample_row])
    by (intros H%list_elem_of_singleton; discriminate H).
  pose proof (fork_correct [sample_row] "s2" 20 "u2" "s1" sample_ok Hid) as H.
  rewrite E in H. cbn in H. destruct (decide _) as [_|_]; [discriminate H|].
  destruct H as (t' & d & Et & _ & _ & Hk & _ & _ & _ & _ & Hok). injection Et as -> ->.
  exists t', d. split; [reflexivity|]. split; [|exact Hok]. unfold us_key in Hk. injection Hk as _ ->. reflexivity.
Defined.

(** A name the schema accepts and a fork cannot carry. *)
Definition long_name : string := text (repeat "x"%char 92).

Example long_name_not_forked :
  let row := mkUserStrategy "s1" "u1" long_name None sample_rules true None 10 10 in
  storable row = true /\ fork [row] "s2" 20 "u2" "s1" = Exn DataError.
Proof. vm_compute. split; reflexivity. Qed.
