(* ===== verification/Owned.v ===== *)
(** * Tables whose rows belong to a user

    What the services over such a table share: a request reads and writes the
    rows of its own user, and the rows of the others stay as they are, in their
    order. *)

From S2P Require Import Prelude Ledger.

(** [LIMIT n] *)
Definition limited {A} (n : Z) (l : list A) : res (list A) :=
  if n <? 0 then Exn DataError else Ok (take (Z.to_nat n) l).

Lemma StronglySorted_weaken {A} (R S : A -> A -> Prop) l :
  (forall x y, R x y -> S x y) -> StronglySorted R l -> StronglySorted S l.
Proof. intros HRS. induction 1 as [|x l Hl IH Hx]; constructor; [done|]. by apply (Forall_impl _ (HRS x)). Qed.

Section owned.
Context {A : Type} (key owner : A -> string).

(** The rows of the other users. *)
Definition foreign (user_id : string) (rows : list A) : list A :=
  List.filter (fun x => negb (String.eqb (owner x) user_id)) rows.

(** [select(...).where(id == row_id, user_id == user_id)] *)
Definition own_rows (user_id row_id : string) (rows : list A) : list A :=
  List.filter (fun x => (String.eqb (key x) row_id && String.eqb (owner x) user_id)%bool) rows.

(** The rows of a user. *)
Definition owned (v : string) (rows : list A) : list A := List.filter (fun x => String.eqb (owner x) v) rows.

Lemma owned_foreign user_id v rows rows' :
  v <> user_id -> foreign user_id rows = foreign user_id rows' -> owned v rows = owned v rows'.
Proof.
  intros Hv. assert (H : forall l, owned v l = owned v (foreign user_id l)).
  { intros l. unfold owned, foreign. rewrite lfilter_swap. symmetry. apply lfilter_all. intros x [_ Hx%String.eqb_eq]%elem_of_lfilter.
    by apply negb_true_iff, String.eqb_neq; rewrite Hx. }
  intros E. by rewrite (H rows), (H rows'), E.
Qed.

Definition without (row_id : string) (rows : list A) : list A :=
  List.filter (fun x => negb (String.eqb (key x) row_id)) rows.

Lemma own_rows_inv user_id row_id rows x :
  scalar_one_or_none (own_rows user_id row_id rows) = Ok (Some x) -> x ∈ rows /\ key x = row_id /\ owner x = user_id.
Proof.
  intros H%scalar_one_some. assert (Hx : x ∈ own_rows user_id row_id rows) by (rewrite H; left).
  apply elem_of_lfilter in Hx as [Hx [Hk%String.eqb_eq Ho%String.eqb_eq]%andb_true_iff]. done.
Qed.

Lemma foreign_app user_id rows x : owner x = user_id -> foreign user_id (rows ++ [x])%list = foreign user_id rows.
Proof. intros <-. unfold foreign. rewrite List.filter_app. cbn. by rewrite String.eqb_refl, app_nil_r. Qed.

Lemma foreign_map user_id (f : A -> A) rows :
  (forall x, owner (f x) = owner x) -> foreign user_id (map f rows) = map f (foreign user_id rows).
Proof.
  intros H. unfold foreign. induction rows as [|x l IH]; [done|]. cbn [map List.filter]. rewrite IH, H.
  by destruct (negb _).
Qed.

(** A change to rows of the user only. *)
Lemma foreign_touch user_id (f : A -> A) rows :
  (forall x, x ∈ rows -> f x = x \/ (owner x = user_id /\ owner (f x) = user_id)) ->
  foreign user_id (map f rows) = foreign user_id rows.
Proof.
  unfold foreign. induction rows as [|x l IH]; [done|]. intros H. cbn [map List.filter].
  rewrite IH by (intros y Hy; apply H; by right). destruct (H x (list_elem_of_here x l)) as [->|[-> ->]]; [done|].
  by rewrite String.eqb_refl.
Qed.

Section unique.
Context (rows : list A) (Hnd : NoDup (map key rows)).

Lemma foreign_put user_id x y :
  x ∈ rows -> key x = key y -> owner x = user_id -> owner y = user_id ->
  foreign user_id (put_row key y rows) = foreign user_id rows.
Proof using All.
  intros Hin Hk Hx Hy. apply foreign_touch. intros z Hz. destruct (String.eqb_spec (key z) (key y)) as [E|]; [right|by left].
  by rewrite (nodup_id_inj key rows z x Hnd Hz Hin (eq_trans E (eq_sym Hk))).
Qed.

Lemma foreign_without user_id x :
  x ∈ rows -> owner x = user_id -> foreign user_id (without (key x) rows) = foreign user_id rows.
Proof using All.
  intros Hin Hx. assert (H : forall z, z ∈ rows -> key z = key x -> owner z = user_id).
  { intros z Hz E. by rewrite (nodup_id_inj key rows z x Hnd Hz Hin E). }
  clear Hnd Hin. unfold foreign, without. induction rows as [|z l IH]; [done|]. cbn [List.filter].
  specialize (IH (fun y Hy => H y (list_elem_of_further _ _ _ Hy))).
  destruct (String.eqb_spec (key z) (key x)) as [E|]; cbn [negb List.filter]; [|by rewrite IH].
  by rewrite (H z (list_elem_of_here z l) E), String.eqb_refl.
Qed.
End unique.

(** A row of the user that is there once is found. *)
Lemma own_rows_found user_id rows x :
  NoDup (map key rows) -> x ∈ rows -> owner x = user_id ->
  scalar_one_or_none (own_rows user_id (key x) rows) = Ok (Some x).
Proof.
  intros Hnd Hin Ho. unfold own_rows.
  assert (E : List.filter (fun y => (String.eqb (key y) (key x) && String.eqb (owner y) user_id)%bool) rows
            = List.filter (fun y => String.eqb (key y) (key x)) rows).
  { apply List.filter_ext_in. intros y Hy%list_elem_of_In. destruct (String.eqb_spec (key y) (key x)) as [E|]; [|done].
    rewrite (nodup_id_inj key rows y x Hnd Hy Hin E), Ho. apply String.eqb_refl. }
  by rewrite E, (filter_unique key _ x).
Qed.

(** A row of another user is not. *)
Lemma own_rows_foreign user_id rows x :
  NoDup (map key rows) -> x ∈ rows -> owner x <> user_id -> own_rows user_id (key x) rows = [].
Proof.
  intros Hnd Hin Ho. apply filter_nil_iff. intros y Hy. apply not_true_iff_false.
  intros [Hk%String.eqb_eq Hu%String.eqb_eq]%andb_true_iff.
  apply Ho. by rewrite <- (nodup_id_inj key rows y x Hnd Hy Hin Hk).
Qed.

Lemma NoDup_without row_id rows : NoDup (map key rows) -> NoDup (map key (without row_id rows)).
Proof. apply NoDup_map_filter. Qed.
End owned.
