(* ===== verification/Market.v ===== *)
(** * Market: the price table

    The rows of [ohlcv_daily] ([psx_api/models/ohlcv.py]) with all the columns
    the alerts and the backtests read, keyed by symbol and date; prices have four
    decimals, any of them may be missing. *)

From S2P Require Import Prelude Dates Decimal PyText PyFloat.

(** [d.isoformat()] *)
Definition isoformat (d : Z) : string :=
  let '(y, m, day) := ymd_of d in (pad 4 y +:+ "-" +:+ pad 2 m +:+ "-" +:+ pad 2 day)%string.

Record DailyRow := mkDaily {
  d_symbol : string;
  d_date : Z;
  d_open : option dec;
  d_high : option dec;
  d_low : option dec;
  d_close : option dec;
  d_volume : option Z;
  d_adjusted_close : option dec;
}.

Definition of_symbol (symbol : string) (r : DailyRow) : bool := String.eqb (d_symbol r) symbol.

(** The rows of a symbol from the newest, or the oldest, on. *)
Definition newest_first (symbol : string) (rows : list DailyRow) : list DailyRow :=
  sort_by (fun a b => d_date b <=? d_date a) (List.filter (of_symbol symbol) rows).
Definition oldest_first (symbol : string) (rows : list DailyRow) : list DailyRow :=
  sort_by (fun a b => d_date a <=? d_date b) (List.filter (of_symbol symbol) rows).

(** [float(v or 0)] of a volume *)
Definition volume_float (r : DailyRow) : float := float_of_Z (default 0 (d_volume r)).

(** The prices of a row that has all four, as floats. *)
Definition four_prices (r : DailyRow) : option (float * float * float * float) :=
  match d_open r, d_high r, d_low r, d_close r with
  | Some o, Some h, Some l, Some c => Some (float_of_dec o, float_of_dec h, float_of_dec l, float_of_dec c)
  | _, _, _, _ => None
  end.

(** [l[-n:]] *)
Definition last_n {A} (n : nat) (l : list A) : list A := drop (length l - n) l.

(** [l[-(n + 1):-1]] *)
Definition before_last {A} (n : nat) (l : list A) : list A := last_n n (removelast l).

(** A test that picks the rows with the key of [x] picks [x] alone. *)
Lemma filter_key {A K} (f : A -> K) (t : A -> bool) (x : A) l :
  NoDup (map f l) -> x ∈ l -> (forall y, t y = true <-> f y = f x) -> List.filter t l = [x].
Proof.
  intros Hnd Hx Ht. induction l as [|y l IH]; [by apply not_elem_of_nil in Hx|].
  cbn [map] in Hnd. apply list.NoDup_cons in Hnd as [Hy Hnd]. cbn [List.filter].
  apply elem_of_cons in Hx as [->|Hx].
  - rewrite (proj2 (Ht y) eq_refl). f_equal. destruct (List.filter t l) as [|z zs] eqn:E; [done|]. exfalso. apply Hy.
    assert (Hz : In z (z :: zs)) by (by left). rewrite <- E in Hz. apply filter_In in Hz as [Hz Htz].
    apply Ht in Htz as <-. by apply list_elem_of_fmap_2, list_elem_of_In.
  - destruct (t y) eqn:E; [|by apply IH]. exfalso. apply Hy. apply Ht in E as ->. by apply list_elem_of_fmap_2.
Qed.

(** The newest row of a symbol. *)
Lemma newest_first_head symbol prices b bs :
  newest_first symbol prices = b :: bs ->
  b ∈ prices /\ d_symbol b = symbol /\ forall r, r ∈ prices -> d_symbol r = symbol -> d_date r <= d_date b.
Proof.
  intros E. assert (Hb : b ∈ List.filter (of_symbol symbol) prices).
  { apply (elem_of_sort_by (fun a b => d_date b <=? d_date a)). fold (newest_first symbol prices). rewrite E. by left. }
  apply elem_of_lfilter in Hb as [Hb Hs%String.eqb_eq]. split; [done|]. split; [done|]. intros r Hr Hrs.
  apply Z.leb_le. eapply (sort_by_head (fun a b => d_date b <=? d_date a)); [..|exact E|].
  - intros x y. rewrite !Z.leb_le. lia.
  - intros x y z. rewrite !Z.leb_le. lia.
  - apply elem_of_lfilter. split; [done|]. by apply String.eqb_eq.
Qed.
