(* ===== verification/Calendar.v ===== *)
(** * Calendar: dates from their parts, and from text

    The constructor of [datetime.date], [date.replace], and [datetime.strptime] with
    the directives the scrapers use.  The regular expression that [strptime] builds
    is read with backtracking: a directive gives the readings of a prefix in the
    order of its alternatives, and the first reading of the whole format counts.

    [strptime_isoformat]: a printed date reads as itself. *)

From Stdlib Require Import Ascii.
From S2P Require Import Prelude Dates Decimal PyText Market.

(** ** date(y, m, d) *)

Definition days_before_month (y m : Z) : Z :=
  zsum (map (fun i => days_in_month y (Z.of_nat i)) (seq 1 (Z.to_nat (m - 1)))).

Definition date_new (y m d : Z) : res Z :=
  if ((1 <=? y) && (y <=? 9999) && (1 <=? m) && (m <=? 12) && (1 <=? d) && (d <=? days_in_month y m))%bool
  then Ok (days_before_year y + days_before_month y m + d) else Exn ValueError.

(** [d.replace(year=y)] and [d.replace(month=m)] *)
Definition replace_year (d y : Z) : res Z := let '(_, m, day) := ymd_of d in date_new y m day.
Definition replace_month (d m : Z) : res Z := let '(y, _, day) := ymd_of d in date_new y m day.

Definition max_date : Z := 3652059.

Example date_new_ex : [date_new 2024 2 29; date_new 2025 2 29; date_new 9999 12 31; date_new 1 1 1]
  = [Ok 738945; Exn ValueError; Ok max_date; Ok 1].
Proof. vm_compute. reflexivity. Qed.

Lemma days_before_month_next y m : 1 <= m -> days_before_month y (m + 1) = days_before_month y m + days_in_month y m.
Proof.
  intros Hm. unfold days_before_month. replace (Z.to_nat (m + 1 - 1)) with (S (Z.to_nat (m - 1))) by lia.
  rewrite seq_S, map_app, zsum_app. cbn [map]. unfold zsum at 2. cbn [fold_right].
  replace (Z.of_nat (1 + Z.to_nat (m - 1))) with m by lia. lia.
Qed.

Lemma days_in_month_pos y m : 28 <= days_in_month y m <= 31.
Proof. unfold days_in_month. repeat case_match; lia. Qed.

(** Where the search for the month ends. *)
Lemma month_day_spec fuel y : forall m day,
  1 <= m -> 1 <= day ->
  let '(m', d) := month_day fuel y m day in
  m <= m' <= m + Z.of_nat fuel /\ 1 <= d /\ days_before_month y m + day = days_before_month y m' + d
  /\ (d <= days_in_month y m' \/ m' = m + Z.of_nat fuel).
Proof.
  induction fuel as [|f IH]; intros m day Hm Hd; cbn [month_day]; [lia|].
  destruct (day <=? days_in_month y m) eqn:E; zbool; [lia|].
  specialize (IH (m + 1) (day - days_in_month y m) ltac:(lia) ltac:(lia)).
  destruct (month_day f y (m + 1) _) as [m' d]. rewrite days_before_month_next in IH by lia. lia.
Qed.

#[local] Ltac euclid := Z.to_euclidean_division_equations; lia.

Lemma div_step y k : k = 4 \/ k = 100 \/ k = 400 -> y / k - (y - 1) / k = if y mod k =? 0 then 1 else 0.
Proof. intros [->|[->| ->]]; destruct (Z.eqb_spec (y mod 4) 0), (Z.eqb_spec (y mod 100) 0), (Z.eqb_spec (y mod 400) 0); euclid. Qed.

Lemma year_days y : days_before_year (y + 1) - days_before_year y = 365 + if is_leap y then 1 else 0.
Proof.
  unfold days_before_year, is_leap. replace (y + 1 - 1) with y by lia.
  pose proof (div_step y 4 ltac:(tauto)) as H4. pose proof (div_step y 100 ltac:(tauto)) as H100. pose proof (div_step y 400 ltac:(tauto)) as H400.
  destruct (Z.eqb_spec (y mod 4) 0), (Z.eqb_spec (y mod 100) 0), (Z.eqb_spec (y mod 400) 0); cbn [andb orb negb]; try lia; exfalso; euclid.
Qed.

Lemma year_length y : days_before_month y 12 + 31 = days_before_year (y + 1) - days_before_year y.
Proof. rewrite year_days. unfold days_before_month, days_in_month. cbn. destruct (is_leap y); reflexivity. Qed.

(** A date is made of its year, month and day. *)
Lemma date_new_ymd ord : 1 <= ord <= max_date -> let '(y, m, d) := ymd_of ord in date_new y m d = Ok ord.
Proof.
  intros [Ho Hmax]. unfold ymd_of. pose proof (year_of_spec ord Ho) as Hy. set (y := year_of ord) in *.
  assert (Hyr : 1 <= y <= 9999).
  { pose proof (year_of_mono ord max_date ltac:(lia)). pose proof (year_of_mono 1 ord ltac:(lia)).
    change (year_of max_date) with 9999 in *. change (year_of 1) with 1 in *. unfold y. lia. }
  pose proof (month_day_spec 11 y 1 (ord - days_before_year y) ltac:(lia) ltac:(lia)) as Hm.
  destruct (month_day 11 y 1 _) as [m d]. change (days_before_month y 1) with 0 in Hm.
  destruct Hm as (Hm & Hd & He & Hlast). unfold date_new.
  assert (Hdm : d <= days_in_month y m).
  { destruct Hlast as [|E]; [done|]. assert (m = 12) as -> by lia. pose proof (year_length y).
    change (days_in_month y 12) with 31. lia. }
  rewrite !(proj2 (Z.leb_le _ _)) by lia. cbn [andb]. f_equal. lia.
Qed.

Lemma days_before_month_mono y a b : 1 <= a <= b -> days_before_month y a <= days_before_month y b.
Proof.
  intros [Ha Hab]. replace b with (a + Z.of_nat (Z.to_nat (b - a))) by lia. induction (Z.to_nat (b - a)) as [|n IH]; [rewrite Z.add_0_r; lia|].
  rewrite Nat2Z.inj_succ. replace (a + Z.succ (Z.of_nat n)) with (a + Z.of_nat n + 1) by lia.
  rewrite days_before_month_next by lia. pose proof (days_in_month_pos y (a + Z.of_nat n)). lia.
Qed.

(** The parts of a date that was made of them. *)
Lemma ymd_of_new y m d ord : date_new y m d = Ok ord -> ymd_of ord = (y, m, d) /\ ord = days_before_year y + days_before_month y m + d.
Proof.
  unfold date_new. destruct (_ && _)%bool eqn:E; [|done]. intros [= <-]. rewrite !andb_true_iff in E. zbool.
  assert (H0 : 0 <= days_before_year y) by (unfold days_before_year; euclid).
  assert (Hm0 : 0 <= days_before_month y m) by (pose proof (days_before_month_mono y 1 m ltac:(lia)) as H; change (days_before_month y 1) with 0 in H; lia).
  assert (Hm1 : days_before_month y m + d <= days_before_month y 12 + 31).
  { destruct (Z.eq_dec m 12) as [->|]; [change (days_in_month y 12) with 31 in *; lia|].
    pose proof (days_before_month_mono y (m + 1) 12 ltac:(lia)). rewrite days_before_month_next in * by lia. lia. }
  split; [|done]. unfold ymd_of. set (ord := days_before_year y + days_before_month y m + d).
  assert (Hy : year_of ord = y).
  { apply year_of_iff; unfold ord; [lia|]. unfold first_of_year. rewrite year_length in Hm1. lia. }
  rewrite Hy. pose proof (month_day_spec 11 y 1 (ord - days_before_year y) ltac:(lia) ltac:(unfold ord; lia)) as Hs.
  destruct (month_day 11 y 1 _) as [m' d']. change (days_before_month y 1) with 0 in Hs. destruct Hs as (Hm' & Hd' & He & Hl).
  assert (Hd1 : d' <= days_in_month y m').
  { destruct Hl as [|Hl]; [done|]. assert (m' = 12) as -> by lia. change (days_in_month y 12) with 31. unfold ord in He. lia. }
  assert (Hmm : m' = m).
  { destruct (Z.lt_trichotomy m' m) as [Hlt|[|Hlt]]; [|done|]; exfalso.
    - pose proof (days_before_month_mono y (m' + 1) m ltac:(lia)). rewrite days_before_month_next in * by lia. unfold ord in He. lia.
    - pose proof (days_before_month_mono y (m + 1) m' ltac:(lia)). rewrite days_before_month_next in * by lia. unfold ord in He. lia. }
  subst m'. f_equal. unfold ord in He. lia.
Qed.

(** ** strptime *)

Inductive directive :=
| dir_Y (* %Y *)
| dir_m (* %m *)
| dir_d (* %d *)
| dir_b (* %b *)
| dir_B (* %B *)
| dir_a (* %a *)
| dir_lit (c : ascii)
| dir_space. (* white space of the format *)

Definition month_names : list string :=
  ["january"; "february"; "march"; "april"; "may"; "june"; "july"; "august"; "september"; "october"; "november"; "december"]%string.
Definition day_names : list string := ["mon"; "tue"; "wed"; "thu"; "fri"; "sat"; "sun"]%string.

(** The parts a format has set so far: year, month, day. *)
Record parts := mkParts { p_year : Z; p_month : Z; p_day : Z }.
Definition no_parts : parts := mkParts 1900 1 1.

Definition digit_value (c : ascii) : Z := code c - 48.

Fixpoint starts_with_ci (pat l : list ascii) : option (list ascii) :=
  match pat, l with
  | [], _ => Some l
  | p :: pat, c :: l => if Ascii.eqb p (lower_char c) then starts_with_ci pat l else None
  | _, [] => None
  end.

(** The alternatives among [names], the first counted as [i]. *)
Fixpoint names_at (i : Z) (names : list string) (l : list ascii) : list (Z * list ascii) :=
  match names with
  | [] => []
  | n :: names =>
      match starts_with_ci (chars n) l with
      | Some rest => (i, rest) :: names_at (i + 1) names l
      | None => names_at (i + 1) names l
      end
  end.

(** Two digits of a value from [lo] to [hi], or one from 1 to 9: the alternatives of
    [%m] and [%d] in their order; [%d] also reads a blank and a digit. *)
Definition two_digits (lo hi : Z) (l : list ascii) : list (Z * list ascii) :=
  match l with
  | a :: b :: rest =>
      if (is_digit a && is_digit b)%bool then
        let v := 10 * digit_value a + digit_value b in
        if ((lo <=? v) && (v <=? hi))%bool then [(v, rest)] else []
      else []
  | _ => []
  end.
Definition one_digit (l : list ascii) : list (Z * list ascii) :=
  match l with
  | a :: rest => if (is_digit a && (1 <=? digit_value a))%bool then [(digit_value a, rest)] else []
  | [] => []
  end.
Definition four_digits (l : list ascii) : list (Z * list ascii) :=
  match l with
  | a :: b :: c :: d :: rest =>
      if (is_digit a && is_digit b && is_digit c && is_digit d)%bool
      then [(1000 * digit_value a + 100 * digit_value b + 10 * digit_value c + digit_value d, rest)] else []
  | _ => []
  end.

(** [\s+], the longest run first. *)
Fixpoint spaces (l : list ascii) : list (list ascii) :=
  match l with
  | c :: l => if is_space c then (spaces l ++ [l])%list else []
  | [] => []
  end.

Definition readings (d : directive) (p : parts) (l : list ascii) : list (parts * list ascii) :=
  match d with
  | dir_Y => map (fun v => (mkParts v.1 (p_month p) (p_day p), v.2)) (four_digits l)
  | dir_m => map (fun v => (mkParts (p_year p) v.1 (p_day p), v.2)) (two_digits 1 12 l ++ one_digit l)
  | dir_d => map (fun v => (mkParts (p_year p) (p_month p) v.1, v.2))
               (two_digits 1 31 l ++ one_digit l ++ match l with " "%char :: l => one_digit l | _ => [] end)
  | dir_b => map (fun v => (mkParts (p_year p) v.1 (p_day p), v.2)) (names_at 1 (map (slice_to 3) month_names) l)
  | dir_B => map (fun v => (mkParts (p_year p) v.1 (p_day p), v.2)) (names_at 1 month_names l)
  | dir_a => map (fun v => (p, v.2)) (names_at 0 day_names l)
  | dir_lit c => match l with x :: l => if Ascii.eqb (lower_char x) (lower_char c) then [(p, l)] else [] | [] => [] end
  | dir_space => map (fun l => (p, l)) (spaces l)
  end.

Fixpoint match_format (fmt : list directive) (p : parts) (l : list ascii) : list (parts * list ascii) :=
  match fmt with
  | [] => [(p, l)]
  | d :: fmt => flat_map (fun r => match_format fmt r.1 r.2) (readings d p l)
  end.

(** [datetime.strptime(s, fmt).date()]; every failure is a [ValueError]. *)
Definition strptime (fmt : list directive) (s : string) : res Z :=
  match match_format fmt no_parts (chars s) with
  | (p, []) :: _ => date_new (p_year p) (p_month p) (p_day p)
  | _ => Exn ValueError
  end.

(** The first format that reads the text. *)
Fixpoint first_format (fmts : list (list directive)) (s : string) : option Z :=
  match fmts with
  | [] => None
  | fmt :: fmts => match strptime fmt s with Ok d => Some d | Exn _ => first_format fmts s end
  end.

Definition lit_dash : directive := dir_lit "-"%char.
Definition lit_slash : directive := dir_lit "/"%char.
Definition lit_comma : directive := dir_lit ","%char.

Definition fmt_Y_m_d : list directive := [dir_Y; lit_dash; dir_m; lit_dash; dir_d].                     (* "%Y-%m-%d" *)
Definition fmt_d_b_Y : list directive := [dir_d; lit_dash; dir_b; lit_dash; dir_Y].                     (* "%d-%b-%Y" *)
Definition fmt_d_m_Y_slash : list directive := [dir_d; lit_slash; dir_m; lit_slash; dir_Y].             (* "%d/%m/%Y" *)
Definition fmt_d_m_Y_dash : list directive := [dir_d; lit_dash; dir_m; lit_dash; dir_Y].                (* "%d-%m-%Y" *)
Definition fmt_d_b_Y_space : list directive := [dir_d; dir_space; dir_b; dir_space; dir_Y].             (* "%d %b %Y" *)
Definition fmt_B_d_Y : list directive := [dir_B; dir_space; dir_d; lit_comma; dir_space; dir_Y].        (* "%B %d, %Y" *)
Definition fmt_b_d_Y : list directive := [dir_b; dir_space; dir_d; lit_comma; dir_space; dir_Y].        (* "%b %d, %Y" *)
Definition fmt_a_d_b_Y : list directive := dir_a :: lit_comma :: dir_space :: fmt_d_b_Y.                (* "%a, %d-%b-%Y" *)

Example strptime_ex :
  [strptime fmt_b_d_Y "Jan 3, 2025"; strptime fmt_B_d_Y "february 29,  2024"; strptime fmt_d_b_Y "31-APR-2025";
   strptime fmt_Y_m_d "2025-1-5"; strptime fmt_a_d_b_Y "Tue, 12-May-2026"; strptime fmt_d_m_Y_slash "3/13/2025";
   strptime fmt_Y_m_d "2025-01-05 "]%string
  = [date_new 2025 1 3; Ok 738945; Exn ValueError; date_new 2025 1 5; date_new 2026 5 12; Exn ValueError; Exn ValueError].
Proof. vm_compute. reflexivity. Qed.

(** ** Printed dates *)

Lemma digits_fuel_length fuel : forall n k acc, 0 <= n < 10 ^ (Z.of_nat k + 1) ->
  (length (digits_fuel fuel n acc) <= S k + length acc)%nat.
Proof.
  induction fuel as [|f IH]; intros n k acc Hn; cbn [digits_fuel]; [cbn [length]; lia|].
  destruct (n <? 10) eqn:E; zbool; [cbn [length]; lia|].
  destruct k as [|k]; [cbn in Hn; lia|]. rewrite Nat2Z.inj_succ, <- Z.add_1_r, Z.pow_add_r in Hn by lia. change (10 ^ 1) with 10 in Hn.
  specialize (IH (n / 10) k (chr (48 + n mod 10) :: acc)). cbn [length] in IH.
  pose proof (Z.div_lt_upper_bound n 10 (10 ^ (Z.of_nat k + 1)) ltac:(lia) ltac:(lia)). pose proof (Z.div_pos n 10 ltac:(lia) ltac:(lia)).
  specialize (IH ltac:(lia)). lia.
Qed.

(** [width] digits of the value. *)
Lemma pad_digits (w : nat) n : 0 <= n < 10 ^ Z.of_nat w -> (0 < w)%nat ->
  Forall (fun c => is_digit c = true) (chars (pad (Z.of_nat w) n)) /\ length (chars (pad (Z.of_nat w) n)) = w
  /\ dvalue 0 (chars (pad (Z.of_nat w) n)) = n.
Proof.
  intros Hn Hw. unfold pad. rewrite chars_text. destruct (digits_spec n ltac:(lia)) as (Hd & _ & Hv).
  assert (Hl : (length (digits n) <= w)%nat).
  { unfold digits. pose proof (digits_fuel_length (Z.to_nat (Z.log2 n)) n (w - 1) []) as H. cbn [length] in H.
    replace (Z.of_nat (w - 1) + 1) with (Z.of_nat w) in H by lia. specialize (H ltac:(lia)). lia. }
  assert (Hz : forall k acc, dvalue acc (repeat "0"%char k) = acc * 10 ^ Z.of_nat k).
  { induction k as [|k IH]; intros acc; [cbn; lia|]. cbn [repeat]. unfold dvalue in *. cbn [fold_left]. rewrite IH.
    change (code "0"%char - 48) with 0. rewrite Nat2Z.inj_succ, Z.pow_succ_r by lia. lia. }
  unfold zeros. split.
  - apply Forall_app. split; [|done]. apply Forall_forall. intros c Hc. apply repeat_spec in Hc as ->. done.
  - rewrite length_app, repeat_length. split; [lia|]. rewrite dvalue_app, Hz, Z.mul_0_l. exact Hv.
Qed.

Lemma two_digits_pad lo hi n rest :
  0 <= n < 100 -> lo <= n <= hi -> two_digits lo hi (chars (pad 2 n) ++ rest) = [(n, rest)].
Proof.
  intros Hn Hr. destruct (pad_digits 2 n ltac:(cbn; lia) ltac:(lia)) as (Hd & Hl & Hv). change (Z.of_nat 2) with 2 in *.
  destruct (chars (pad 2 n)) as [|a [|b [|? ?]]]; try discriminate. inversion_clear Hd as [|? ? Ha Hd']. inversion_clear Hd' as [|? ? Hb _].
  unfold dvalue in Hv. cbn [fold_left] in Hv. cbn [two_digits app]. rewrite Ha, Hb. cbn [andb]. unfold digit_value.
  replace (10 * (code a - 48) + (code b - 48)) with n by lia. by rewrite !(proj2 (Z.leb_le _ _)) by lia.
Qed.

Lemma four_digits_pad n rest : 0 <= n < 10000 -> four_digits (chars (pad 4 n) ++ rest) = [(n, rest)].
Proof.
  intros Hn. destruct (pad_digits 4 n ltac:(cbn; lia) ltac:(lia)) as (Hd & Hl & Hv). change (Z.of_nat 4) with 4 in *.
  destruct (chars (pad 4 n)) as [|a [|b [|c [|d [|? ?]]]]]; try discriminate.
  inversion_clear Hd as [|? ? Ha Hd1]. inversion_clear Hd1 as [|? ? Hb Hd2]. inversion_clear Hd2 as [|? ? Hc Hd3].
  inversion_clear Hd3 as [|? ? Hd' _]. unfold dvalue in Hv. cbn [fold_left] in Hv. cbn [four_digits app].
  rewrite Ha, Hb, Hc, Hd'. cbn [andb]. unfold digit_value. repeat f_equal. lia.
Qed.

Lemma match_first fmt d p l r rs q l' others :
  readings d p l = r :: rs -> match_format fmt r.1 r.2 = (q, l') :: others ->
  exists others', match_format (d :: fmt) p l = (q, l') :: others'.
Proof. intros Hr Hm. cbn [match_format]. rewrite Hr. cbn [flat_map]. rewrite Hm. by eexists. Qed.

(** The month and the day of a date. *)
Lemma ymd_range ord : 1 <= ord <= max_date ->
  let '(y, m, d) := ymd_of ord in 1 <= y <= 9999 /\ 1 <= m <= 12 /\ 1 <= d <= days_in_month y m.
Proof.
  intros Ho. pose proof (date_new_ymd ord Ho) as H. destruct (ymd_of ord) as [[y m] d]. unfold date_new in H.
  destruct (_ && _)%bool eqn:E; [|done]. rewrite !andb_true_iff in E. zbool. lia.
Qed.

(** A date that was printed with [isoformat] is read back. *)
Theorem strptime_isoformat ord : 1 <= ord <= max_date -> strptime fmt_Y_m_d (isoformat ord) = Ok ord.
Proof.
  intros Ho. pose proof (date_new_ymd ord Ho) as Hnew. pose proof (ymd_range ord Ho) as Hr. unfold isoformat, strptime.
  destruct (ymd_of ord) as [[y m] d]. destruct Hr as (Hy & Hm & Hd). pose proof (days_in_month_pos y m).
  rewrite !chars_append. change (chars "-") with ["-"%char]. cbn [app].
  assert (Hlast : exists o, match_format [dir_d] (mkParts y m 1) (chars (pad 2 d)) = (mkParts y m d, []) :: o).
  { cbn [match_format readings]. pose proof (two_digits_pad 1 31 d [] ltac:(lia) ltac:(lia)) as E.
    rewrite app_nil_r in E. rewrite E. by eexists. }
  destruct Hlast as [o1 H1].
  assert (Hdash : forall fmt p l q l' o, match_format fmt p l = (q, l') :: o ->
            exists o', match_format (lit_dash :: fmt) p ("-"%char :: l) = (q, l') :: o').
  { intros fmt p l q l' o H'. by eapply (match_first fmt lit_dash p ("-"%char :: l) (p, l) []). }
  destruct (Hdash _ _ _ _ _ _ H1) as [o2 H2].
  destruct (match_first [lit_dash; dir_d] dir_m (mkParts y 1 1) (chars (pad 2 m) ++ "-"%char :: chars (pad 2 d))%list
              (mkParts y m 1, "-"%char :: chars (pad 2 d)) (map (fun v => (mkParts y v.1 1, v.2)) (one_digit (chars (pad 2 m) ++ "-"%char :: chars (pad 2 d)))) (mkParts y m d) [] o2) as [o3 H3];
    [|exact H2|].
  { cbn [readings]. rewrite two_digits_pad by lia. done. }
  destruct (Hdash _ _ _ _ _ _ H3) as [o4 H4].
  destruct (match_first [lit_dash; dir_m; lit_dash; dir_d] dir_Y no_parts
              (chars (pad 4 y) ++ "-"%char :: chars (pad 2 m) ++ "-"%char :: chars (pad 2 d))%list
              (mkParts y 1 1, "-"%char :: chars (pad 2 m) ++ "-"%char :: chars (pad 2 d))%list [] (mkParts y m d) [] o4) as [o5 H5]; [|exact H4|].
  { cbn [readings]. rewrite four_digits_pad by lia. done. }
  unfold fmt_Y_m_d. rewrite H5. exact Hnew.
Qed.
