(* ===== verification/Regex.v ===== *)
(** * Regex: the regular expressions of [re], by backtracking

    The expressions the scrapers search announcements with: classes of characters,
    greedy runs of a class, sequences, ordered alternatives and numbered groups.
    [run] gives all the ways to match a prefix, in the order in which Python's
    engine tries them, so that the first one is Python's match.

    [run_iff] and [search_correct]: the engine decides the language of the
    expression, and a search finds its leftmost text.  Texts are ASCII. *)

From Stdlib Require Import Ascii.
From S2P Require Import Prelude Decimal PyText.

Inductive re :=
| Nothing                     (* the empty text *)
| One (f : ascii -> bool)     (* a character of a class *)
| Many (f : ascii -> bool)    (* a greedy run of the class, perhaps empty *)
| Then (a b : re)
| Either (a b : re)           (* the first alternative is tried first *)
| Group (n : nat) (a : re).

Declare Scope re_scope.
Delimit Scope re_scope with re.
Bind Scope re_scope with re.
Infix ";;;" := Then (at level 57, right associativity) : re_scope.
Infix "<||>" := Either (at level 58, right associativity) : re_scope.

(** [a?] *)
Definition Maybe (a : re) : re := Either a Nothing.
(** [f+] *)
Definition Some_of (f : ascii -> bool) : re := Then (One f) (Many f).
(** A literal under [re.IGNORECASE]. *)
Fixpoint Literal_chars (l : list ascii) : re :=
  match l with
  | [] => Nothing
  | [c] => One (fun x => Ascii.eqb (lower_char x) (lower_char c))
  | c :: l => Then (One (fun x => Ascii.eqb (lower_char x) (lower_char c))) (Literal_chars l)
  end.
Definition Literal (s : string) : re := Literal_chars (chars s).
(** [[...]] *)
Definition any_of (s : string) (c : ascii) : bool := existsb (Ascii.eqb c) (chars s).

(** A match: what the groups captured, the last first, and what follows it. *)
Definition found : Type := list (nat * list ascii) * list ascii.

(** The rests after a run of the class, the longest run first. *)
Fixpoint rests (f : ascii -> bool) (l : list ascii) : list (list ascii) :=
  match l with
  | c :: cs => if f c then (rests f cs ++ [l])%list else [l]
  | [] => [[]]
  end.

(** The part of [l] before [rest]. *)
Definition consumed (l rest : list ascii) : list ascii := take (length l - length rest) l.

Fixpoint run (r : re) (l : list ascii) : list found :=
  match r with
  | Nothing => [([], l)]
  | One f => match l with c :: cs => if f c then [([], cs)] else [] | [] => [] end
  | Many f => map (fun rest => ([], rest)) (rests f l)
  | Then a b => flat_map (fun m => map (fun n : found => ((n.1 ++ m.1)%list, n.2)) (run b m.2)) (run a l)
  | Either a b => (run a l ++ run b l)%list
  | Group n a => map (fun m : found => ((n, consumed l m.2) :: m.1, m.2)) (run a l)
  end.

(** [re.search]: the first match at the first position with one. *)
Fixpoint search (r : re) (l : list ascii) : option found :=
  match run r l with
  | m :: _ => Some m
  | [] => match l with [] => None | _ :: cs => search r cs end
  end.

(** [match.group(n)], if the group took part in the match. *)
Definition group (n : nat) (m : found) : option string :=
  option_map (fun g => text g.2) (List.find (fun g => Nat.eqb g.1 n) m.1).

(** ** The language *)

Inductive lang : re -> list ascii -> Prop :=
| lang_nothing : lang Nothing []
| lang_one f c : f c = true -> lang (One f) [c]
| lang_many f w : Forall (fun c => f c = true) w -> lang (Many f) w
| lang_then a b v w : lang a v -> lang b w -> lang (Then a b) (v ++ w)
| lang_left a b w : lang a w -> lang (Either a b) w
| lang_right a b w : lang b w -> lang (Either a b) w
| lang_group n a w : lang a w -> lang (Group n a) w.

Lemma rests_iff f l : forall rest, rest ∈ rests f l <-> exists w, l = (w ++ rest)%list /\ Forall (fun c => f c = true) w.
Proof.
  induction l as [|c l IH]; intros rest; cbn [rests].
  - rewrite list_elem_of_singleton. split; [intros ->; by exists []|].
    intros (w & E & _). by destruct w; [rewrite E|].
  - destruct (f c) eqn:Ef.
    + rewrite elem_of_app, list_elem_of_singleton, IH. split.
      * intros [(w & -> & Hw)| ->]; [exists (c :: w); by repeat constructor|by exists []].
      * intros ([|x w] & E & Hw); [right; by rewrite E|]. injection E as -> ->. inversion_clear Hw. left. by exists w.
    + rewrite list_elem_of_singleton. split; [intros ->; by exists []|].
      intros ([|x w] & E & Hw); [by rewrite E|]. injection E as -> ->. inversion_clear Hw. congruence.
Qed.

(** A prefix can be matched when it is in the language. *)
Lemma run_iff r : forall l rest,
  (exists caps, (caps, rest) ∈ run r l) <-> exists w, l = (w ++ rest)%list /\ lang r w.
Proof.
  induction r as [|f|f|a IHa b IHb|a IHa b IHb|n a IHa]; intros l rest; cbn [run].
  - setoid_rewrite list_elem_of_singleton. split.
    + intros [caps [= -> ->]]. by exists []; repeat constructor.
    + intros (w & -> & Hw). inversion Hw. by exists [].
  - destruct l as [|c l].
    + split; [intros [? ?%not_elem_of_nil]; done|]. intros (w & E & Hw). inversion Hw; subst. done.
    + destruct (f c) eqn:Ef.
      * setoid_rewrite list_elem_of_singleton. split.
        -- intros [caps [= -> ->]]. exists [c]. by repeat constructor.
        -- intros (w & E & Hw). inversion Hw; subst. injection E as -> ->. by exists [].
      * split; [intros [? ?%not_elem_of_nil]; done|]. intros (w & E & Hw). inversion Hw; subst. injection E as -> ->. congruence.
  - setoid_rewrite list_elem_of_fmap. split.
    + intros (caps & x & [= -> ->] & Hx). apply rests_iff in Hx as (w & -> & Hw). exists w. by repeat constructor.
    + intros (w & -> & Hw). inversion Hw; subst. exists [], rest. split; [done|]. apply rests_iff. by exists w.
  - setoid_rewrite elem_of_flat_map. setoid_rewrite list_elem_of_fmap. split.
    + intros (caps & m & Hm & n & [= -> ->] & Hn). destruct m as [cm rm], n as [cn rn]. cbn [fst snd] in *.
      destruct (proj1 (IHa l rm) (ex_intro _ cm Hm)) as (v & -> & Hv). destruct (proj1 (IHb rm rn) (ex_intro _ cn Hn)) as (w & -> & Hw).
      exists (v ++ w)%list. rewrite app_assoc. split; [done|by constructor].
    + intros (u & -> & Hu). inversion Hu as [| | |? ? v w Hv Hw| | |]; subst.
      destruct (proj2 (IHa ((v ++ w) ++ rest) (w ++ rest))%list) as [cm Hm]; [exists v; by rewrite app_assoc|].
      destruct (proj2 (IHb (w ++ rest) rest)%list) as [cn Hn]; [by exists w|].
      exists (cn ++ cm)%list, (cm, (w ++ rest)%list). split; [exact Hm|]. by exists (cn, rest).
  - setoid_rewrite elem_of_app. split.
    + intros [caps [H|H]].
      * destruct (proj1 (IHa l rest) (ex_intro _ caps H)) as (w & -> & Hw). exists w. by split; [|apply lang_left].
      * destruct (proj1 (IHb l rest) (ex_intro _ caps H)) as (w & -> & Hw). exists w. by split; [|apply lang_right].
    + intros (w & E & Hw). inversion Hw; subst.
      * destruct (proj2 (IHa (w ++ rest)%list rest)) as [caps H']; [by exists w|]. exists caps. by left.
      * destruct (proj2 (IHb (w ++ rest)%list rest)) as [caps H']; [by exists w|]. exists caps. by right.
  - setoid_rewrite list_elem_of_fmap. split.
    + intros (caps & m & [= -> ->] & Hm). destruct m as [cm rm]. destruct (proj1 (IHa l rm) (ex_intro _ cm Hm)) as (w & -> & Hw).
      exists w. by split; [|constructor].
    + intros (w & -> & Hw). inversion Hw; subst. destruct (proj2 (IHa (w ++ rest)%list rest)) as [caps H']; [by exists w|].
      eexists _, (caps, rest). split; [reflexivity|exact H'].
Qed.

(** A search finds the leftmost text of the language, or there is none. *)
Lemma search_correct r l :
  match search r l with
  | Some (_, rest) =>
      exists before w, l = (before ++ w ++ rest)%list /\ lang r w
        /\ forall before' w' rest', l = (before' ++ w' ++ rest')%list -> lang r w' -> (length before <= length before')%nat
  | None => forall before w rest, l = (before ++ w ++ rest)%list -> ~ lang r w
  end.
Proof.
  induction l as [|c l IH].
  - cbn [search]. destruct (run r []) as [|[caps rest] ms] eqn:E.
    + intros before w rest El Hw. destruct (proj2 (run_iff r [] rest)) as [caps Hc].
      { exists w. split; [|done]. by destruct before. }
      rewrite E in Hc. by apply not_elem_of_nil in Hc.
    + destruct (proj1 (run_iff r [] rest)) as (w & El & Hw); [exists caps; rewrite E; constructor|].
      exists [], w. split; [done|]. split; [done|]. intros. cbn. lia.
  - cbn [search]. destruct (run r (c :: l)) as [|[caps rest] ms] eqn:E.
    + assert (Hno : forall w rest, (c :: l)%list = (w ++ rest)%list -> ~ lang r w).
      { intros w rest El Hw. destruct (proj2 (run_iff r (c :: l) rest)) as [caps Hc]; [by exists w|].
        rewrite E in Hc. by apply not_elem_of_nil in Hc. }
      destruct (search r l) as [[caps rest]|].
      * destruct IH as (before & w & -> & Hw & Hmin). exists (c :: before), w. split; [done|]. split; [done|].
        intros [|x before'] w' rest' El Hw'; [by destruct (Hno w' rest' El Hw')|]. injection El as -> El. cbn [length].
        specialize (Hmin _ _ _ El Hw'). lia.
      * intros [|x before] w rest El Hw; [by destruct (Hno w rest El Hw)|]. injection El as -> El. by destruct (IH _ _ _ El Hw).
    + destruct (proj1 (run_iff r (c :: l) rest)) as (w & El & Hw); [exists caps; rewrite E; constructor|].
      exists [], w. split; [done|]. split; [done|]. intros. cbn. lia.
Qed.

Lemma search_lang r l m : search r l = Some m -> exists before w, l = (before ++ w ++ m.2)%list /\ lang r w.
Proof. intros E. pose proof (search_correct r l) as H. rewrite E in H. destruct m as [caps rest]. destruct H as (b & w & ? & ? & _). by exists b, w. Qed.

(** *** Groups

    What a group of a match captured is in the language of the group. *)

Fixpoint groups_of (r : re) (n : nat) : list re :=
  match r with
  | Then a b | Either a b => (groups_of a n ++ groups_of b n)%list
  | Group k a => if Nat.eqb k n then a :: groups_of a n else groups_of a n
  | _ => []
  end.

Lemma consumed_app w rest : consumed (w ++ rest)%list rest = w.
Proof. unfold consumed. rewrite length_app. replace (length w + length rest - length rest)%nat with (length w) by lia. by rewrite take_app_length. Qed.

Lemma run_groups r : forall l m n g, m ∈ run r l -> (n, g) ∈ m.1 -> exists a, a ∈ groups_of r n /\ lang a g.
Proof.
  induction r as [|f|f|a IHa b IHb|a IHa b IHb|k a IHa]; intros l m n g; cbn [run groups_of].
  - intros ->%list_elem_of_singleton. by intros ?%not_elem_of_nil.
  - destruct l as [|c l]; [by intros ?%not_elem_of_nil|]. destruct (f c); [|by intros ?%not_elem_of_nil].
    intros ->%list_elem_of_singleton. by intros ?%not_elem_of_nil.
  - intros (x & -> & _)%list_elem_of_fmap. by intros ?%not_elem_of_nil.
  - intros (m1 & H1 & (m2 & -> & H2)%list_elem_of_fmap)%elem_of_flat_map. intros [H|H]%elem_of_app.
    + destruct (IHb _ _ _ _ H2 H) as (x & Hx & Hl). exists x. split; [|done]. apply elem_of_app. by right.
    + destruct (IHa _ _ _ _ H1 H) as (x & Hx & Hl). exists x. split; [|done]. apply elem_of_app. by left.
  - intros [H|H]%elem_of_app Hg.
    + destruct (IHa _ _ _ _ H Hg) as (x & Hx & Hl). exists x. split; [|done]. apply elem_of_app. by left.
    + destruct (IHb _ _ _ _ H Hg) as (x & Hx & Hl). exists x. split; [|done]. apply elem_of_app. by right.
  - intros (m1 & -> & H1)%list_elem_of_fmap. cbn [fst]. intros [[= -> ->]|H]%elem_of_cons.
    + rewrite Nat.eqb_refl. exists a. split; [constructor|]. destruct m1 as [c1 r1].
      destruct (proj1 (run_iff a l r1) (ex_intro _ c1 H1)) as (w & -> & Hw). by rewrite consumed_app.
    + destruct (IHa _ _ _ _ H1 H) as (x & Hx & Hl). exists x. split; [|done]. destruct (Nat.eqb k n); [by constructor|done].
Qed.

Lemma search_groups r l m n s : search r l = Some m -> group n m = Some s -> exists a, a ∈ groups_of r n /\ lang a (chars s).
Proof.
  intros Hs Hg. unfold group in Hg. destruct (List.find _ m.1) as [[k g]|] eqn:Ef; [|done]. injection Hg as <-.
  apply find_some in Ef as [Hin Hk]. apply Nat.eqb_eq in Hk. cbn [fst] in Hk. subst k. rewrite <- list_elem_of_In in Hin.
  rewrite chars_text. cbn [snd]. assert (H : exists l', m ∈ run r l').
  { clear -Hs. revert Hs. induction l as [|c l IH]; cbn [search]; destruct (run r _) as [|x xs] eqn:E; try done.
    - intros [= ->]. eexists. rewrite E. constructor.
    - intros [= ->]. eexists. rewrite E. constructor. }
  destruct H as [l' H]. by eapply run_groups.
Qed.

Example search_ex :
  let r := (Group 1 (Some_of is_digit) ;;; Many is_space ;;; Literal "for" ;;; Many is_space ;;; Group 2 (Some_of is_digit))%re in
  option_map (fun m => (group 1 m, group 2 m, text m.2)) (search r (chars "Bonus: 10 FOR 125 held"))
  = Some (Some "10", Some "125", " held")%string.
Proof. vm_compute. reflexivity. Qed.
