(* ===== verification/PyRepr.v ===== *)
(** * PyRepr: [repr] and [str] of Python values

    The text of a float is the shortest one that reads back as the float, and the
    nearest among these; quotes and escapes of texts are those of ASCII texts;
    lists and dicts are those [json.loads] returns. *)

From Stdlib Require Import Ascii.
From S2P Require Import Prelude Decimal PyText PyFloat Json.

(** ** Floats *)

(** [decpt] with [10^(decpt-1) <= m * 2^e < 10^decpt]. *)
Definition decimal_point (m : positive) (e : Z) : Z :=
  if 0 <=? e then ndigits (Zpos m * 2 ^ e) else ndigits (Zpos m * 10 ^ 400 / 2 ^ (- e)) - 400.

(** The decimals [k * 10^q] just below and above. *)
Definition floor_units (m : positive) (e q : Z) : Z :=
  (Zpos m * 2 ^ Z.max 0 e * 10 ^ Z.max 0 (- q)) / (2 ^ Z.max 0 (- e) * 10 ^ Z.max 0 q).

(** Whether [k * 10^q] is nearer than [(k + 1) * 10^q], or as near. *)
Definition nearer (m : positive) (e q k : Z) : bool :=
  2 * (Zpos m * 2 ^ Z.max 0 e * 10 ^ Z.max 0 (- q)) <=? (2 * k + 1) * (2 ^ Z.max 0 (- e) * 10 ^ Z.max 0 q).

Fixpoint shortest (fuel : nat) (m : positive) (e decpt n : Z) : Z * Z :=
  let q := decpt - n in
  let k := floor_units m e q in
  match fuel with
  | O => (k, q)
  | S fuel =>
      let reads k := feqb (float_of_dec (mkdec k q)) (S754_finite false m e) in
      if (reads k && (nearer m e q k || negb (reads (k + 1))))%bool then (k, q)
      else if reads (k + 1) then (k + 1, q)
      else shortest fuel m e decpt (n + 1)
  end.

Definition drop_zeros (l : list ascii) : list ascii := rstrip_by (fun c => Ascii.eqb c "0") l.

(** Format code [r]: the digits and the place of the point. *)
Definition format_repr (ds : list ascii) (decpt : Z) : string :=
  let n := Z.of_nat (length ds) in
  if ((decpt <=? -4) || (16 <? decpt))%bool then
    let ex := decpt - 1 in
    text (take 1 ds ++ (if 1 <? n then "."%char :: drop 1 ds else []) ++ ["e"%char; if ex <? 0 then "-"%char else "+"%char]
          ++ chars (pad 2 (Z.abs ex)))
  else if decpt <=? 0 then text (chars "0." ++ zeros (- decpt) ++ ds)
  else if n <=? decpt then text (ds ++ zeros (decpt - n) ++ chars ".0")
  else text (take (Z.to_nat decpt) ds ++ "."%char :: drop (Z.to_nat decpt) ds).

Definition repr_float (x : float) : string :=
  match x with
  | S754_nan => "nan"
  | S754_infinity s => if s then "-inf" else "inf"
  | S754_zero s => if s then "-0.0" else "0.0"
  | S754_finite s m e =>
      let '(k, q) := shortest 17 m e (decimal_point m e) 1 in
      let all := digits k in
      ((if s then "-" else "") +:+ format_repr (drop_zeros all) (Z.of_nat (length all) + q))%string
  end.

(** ** Texts *)

Definition hex_digit (n : Z) : ascii := if n <? 10 then chr (48 + n) else chr (87 + n).

Definition escape (quote c : ascii) : list ascii :=
  if (Ascii.eqb c quote || Ascii.eqb c "\")%bool then ["\"%char; c]
  else if code c =? 9 then chars "\t"
  else if code c =? 10 then chars "\n"
  else if code c =? 13 then chars "\r"
  else if ((code c <? 32) || (code c =? 127))%bool then (chars "\x" ++ [hex_digit (code c / 16); hex_digit (code c mod 16)])%list
  else [c].

Definition apostrophe : ascii := ascii_of_nat 39.
Definition double_quote : ascii := ascii_of_nat 34.

Definition repr_text (s : string) : string :=
  let l := chars s in
  let quote := if (existsb (Ascii.eqb apostrophe) l && negb (existsb (Ascii.eqb double_quote) l))%bool then double_quote else apostrophe in
  text (quote :: flat_map (escape quote) l ++ [quote]).

(** ** Values *)

Fixpoint repr_json (v : json) : string :=
  match v with
  | JNull => "None"
  | JBool b => if b then "True" else "False"
  | JInt n => str_int n
  | JFloat x => repr_float x
  | JText s => repr_text s
  | JList l => ("[" +:+ String.concat ", " (map repr_json l) +:+ "]")%string
  | JObj fs => ("{" +:+ String.concat ", " (map (fun f => (repr_text f.1 +:+ ": " +:+ repr_json f.2)%string) fs) +:+ "}")%string
  end.

(** [str(v)] *)
Definition str_json (v : json) : string := match v with JText s => s | _ => repr_json v end.

Example repr_float_ex :
  map (fun d => repr_float (float_of_dec d))
    [mkdec 25 (-1); mkdec 1 (-1); mkdec 3 0; mkdec (-5) (-5); mkdec 1 16; mkdec 123456789012345678 0; mkdec 1 (-4); mkdec 5 (-324);
     mkdec 9007199254740993 0; mkdec 30000000000000004 (-17)]
  = ["2.5"; "0.1"; "3.0"; "-5e-05"; "1e+16"; "1.2345678901234568e+17"; "0.0001"; "5e-324"; "9007199254740992.0"; "0.30000000000000004"]%string.
Proof. vm_compute. reflexivity. Qed.

Example repr_json_ex :
  repr_json (JObj [("symbol", JText "ENGRO"); ("amount", JFloat (float_of_dec (mkdec 25 (-1)))); ("x", JList [JNull; JInt (-3); JText "it's"])])%string
  = text (flat_map (fun c => [if Ascii.eqb c "`" then double_quote else c])
            (chars "{'symbol': 'ENGRO', 'amount': 2.5, 'x': [None, -3, `it's`]}")).
Proof. vm_compute. reflexivity. Qed.
