(* ===== verification/Announcements.v ===== *)
(** * Announcements: [psx_ingest/scrapers/pucars.py]

    Announcements of corporate actions, from the exchange's page to rows: the
    category by its text, dates, amounts and ratios by the regular expressions of
    the scraper, and the JSON form some pages come in.  BeautifulSoup's cells and
    [json.loads]'s values are what the page is.

    The kinds of its rows are proved in [ActionsCorrect]. *)

From Stdlib Require Import Ascii.
From S2P Require Import Prelude Decimal PyText PyFloat Json Market Calendar Regex PyRepr.

(** [key in s] of two texts *)
Definition contains_text (key s : string) : bool := match String.index 0 key s with Some _ => true | None => false end.

(** ** The helpers *)

Definition _CATEGORY_MAP : list (string * string) :=
  [("dividend", "dividend_cash"); ("cash dividend", "dividend_cash"); ("final dividend", "dividend_cash"); ("interim dividend", "dividend_cash");
   ("stock dividend", "dividend_stock"); ("bonus shares", "bonus"); ("bonus", "bonus");
   ("right shares", "rights"); ("rights", "rights");
   ("agm", "agm"); ("annual general meeting", "agm"); ("extraordinary general meeting", "agm"); ("egm", "agm");
   ("stock split", "split"); ("split", "split")]%string.

Definition _map_category (s : string) : option string :=
  let normalized := strip (lower s) in
  match List.find (fun kv => String.eqb kv.1 normalized) _CATEGORY_MAP with
  | Some kv => Some kv.2
  | None => option_map snd (List.find (fun kv => contains_text kv.1 normalized) _CATEGORY_MAP)
  end.

Definition flexible_formats : list (list directive) := [fmt_Y_m_d; fmt_d_b_Y; fmt_d_m_Y_slash; fmt_d_b_Y_space; fmt_B_d_Y].

Definition _parse_date_flexible (s : string) : option Z :=
  if (negb (nonempty s) || negb (nonempty (strip s)))%bool then None else first_format flexible_formats (strip s).

(** The text without the characters of [[^0-9.]]. *)
Definition digits_and_dots (s : string) : string :=
  text (List.filter (fun c => (is_digit c || Ascii.eqb c ".")%bool) (chars s)).

Definition _parse_decimal (s : string) : option dec :=
  let cleaned := digits_and_dots s in
  if negb (nonempty cleaned) then None else
  match decimal_of_str cleaned with Ok (Fin d) => Some d | _ => None end.

(** *** Dates after a label

    The label's text is spliced into the pattern: when it has a top-level [|], what
    follows it belongs to its last alternative. *)
Fixpoint spliced (label : list re) (tail : re) : re :=
  match label with
  | [] => tail
  | [a] => Then a tail
  | a :: label => Either a (spliced label tail)
  end.

Definition digit : re := One is_digit.
Definition blanks : re := Many is_space.
Definition date_separator : re := One (any_of "-/ ").

(** [[\d]{1,2}[-/ ]{1}(?:\w+|\d{2})[-/ ]{1}\d{2,4}|\d{4}-\d{2}-\d{2}] *)
Definition date_shape : re :=
  ((digit ;;; Maybe digit ;;; date_separator ;;; (Some_of is_word <||> digit ;;; digit) ;;; date_separator
    ;;; digit ;;; digit ;;; Maybe (digit ;;; Maybe digit))
   <||> (digit ;;; digit ;;; digit ;;; digit ;;; Literal "-" ;;; digit ;;; digit ;;; Literal "-" ;;; digit ;;; digit))%re.

Definition date_after (label : list re) : re :=
  spliced label (blanks ;;; Maybe (One (any_of ":-")) ;;; blanks ;;; Group 1 date_shape)%re.

(** [group(1)] is [None] when the group took no part in the match. *)
Definition _extract_date_by_label (s : string) (label : list re) : option Z :=
  match search (date_after label) (chars s) with
  | Some m => match group 1 m with Some t => _parse_date_flexible t | None => None end
  | None => None
  end.

(** [[-\s]?] *)
Definition hyphen_or_space : re := Maybe (One (fun c => (Ascii.eqb c "-" || is_space c)%bool)).
Definition ex_date_label : list re := [(Literal "ex" ;;; hyphen_or_space ;;; Literal "date")%re].
Definition record_date_label : list re := [(Literal "record" ;;; hyphen_or_space ;;; Literal "date")%re].
Definition payment_date_label : list re := [(Literal "payment" ;;; hyphen_or_space ;;; Literal "date")%re; Literal "book closure"].

(** *** Amounts and ratios *)

(** A number after [rs], [pkr] or [@]. *)
Definition amount_pattern : re :=
  ((Literal "rs" ;;; Maybe (Literal ".") <||> Literal "pkr" ;;; Maybe (Literal ".") <||> Literal "@") ;;; blanks
   ;;; Group 1 (Some_of (fun c => (is_digit c || Ascii.eqb c ",")%bool) ;;; Maybe (Literal ".") ;;; Many is_digit)
   ;;; blanks ;;; Maybe (Literal "per" ;;; Some_of is_space ;;; Literal "share") ;;; Maybe (Literal "/") ;;; blanks
   ;;; Maybe (Literal "share"))%re.

Definition _extract_amount (s : string) : option dec :=
  match search amount_pattern (chars s) with
  | Some m => match group 1 m with Some t => _parse_decimal t | None => None end
  | None => None
  end.

(** [(\d+)\s*(?:shares?\s+)?(?:for|:)\s*(?:every\s+)?(\d+)] *)
Definition ratio_pattern : re :=
  (Group 1 (Some_of is_digit) ;;; blanks ;;; Maybe (Literal "share" ;;; Maybe (Literal "s") ;;; Some_of is_space)
   ;;; (Literal "for" <||> Literal ":") ;;; blanks ;;; Maybe (Literal "every" ;;; Some_of is_space) ;;; Group 2 (Some_of is_digit))%re.

(** [(\d+(?:\.\d+)?)\s*%\s*(?:bonus|right)] *)
Definition percent_pattern : re :=
  (Group 1 (Some_of is_digit ;;; Maybe (Literal "." ;;; Some_of is_digit)) ;;; blanks ;;; Literal "%" ;;; blanks
   ;;; (Literal "bonus" <||> Literal "right"))%re.

Definition captured (n : nat) (m : found) : string := default "" (group n m).

Definition _extract_ratio (s : string) : res (option Z * option Z) :=
  match search ratio_pattern (chars s) with
  | Some m =>
      let! n := int_of_str (captured 1 m) in
      let! d := int_of_str (captured 2 m) in
      Ok (Some n, Some d)
  | None =>
      match search percent_pattern (chars s) with
      | Some m =>
          let! pct := float_of_str (captured 1 m) in
          let! numerator := round_int pct in
          Ok (Some numerator, Some 100)
      | None => Ok (None, None)
      end
  end.

(** ** Rows *)

Record CorporateActionRow := mkActionRow {
  symbol : string;
  action_type : string;
  announcement_date : Z;
  ex_date : option Z;
  record_date : option Z;
  payment_date : option Z;
  amount_per_share : option dec;
  ratio_numerator : option Z;
  ratio_denominator : option Z;
  raw_announcement : option string;
}.

Definition _parse_table_row (cols : list string) (fallback_date : Z) : res (option CorporateActionRow) :=
  match cols with
  | c0 :: _ :: c2 :: c3 :: details =>
      let symbol := strip (upper c0) in
      match _map_category (strip (lower c2)) with
      | Some action_type =>
          if negb (nonempty symbol) then Ok None else
          let ann_date := default fallback_date (_parse_date_flexible c3) in
          let details_text := String.concat " | " details in
          let ex_date := _extract_date_by_label details_text ex_date_label in
          let record_date := _extract_date_by_label details_text record_date_label in
          let payment_date := _extract_date_by_label details_text payment_date_label in
          let amount := _extract_amount details_text in
          let! (num, den) := _extract_ratio details_text in
          Ok (Some (mkActionRow symbol action_type ann_date ex_date record_date payment_date amount num den
                      (if nonempty details_text then Some details_text else None)))
      | None => Ok None
      end
  | _ => Ok None
  end.

(** *** The JSON form *)

Definition truthy_value (v : option json) : bool := match v with Some v => json_truthy v | None => false end.

(** [item.get(a) or item.get(b)] *)
Definition get_either (a b : string) (item : json) : res (option json) :=
  let! v := get a item in
  if truthy_value v then Ok v else get b item.

(** [... or] the empty text *)
Definition or_empty (v : option json) : json := match v with Some v => if json_truthy v then v else JText "" | None => JText "" end.

(** A value whose text methods are called. *)
Definition as_text (v : json) : res string := match v with JText s => Ok s | _ => Exn AttributeError end.

Definition date_field (a b : string) (item : json) : res (option Z) :=
  let! v := get_either a b item in
  let! s := as_text (or_empty v) in
  Ok (_parse_date_flexible s).

Definition _parse_json_item (item : json) (fallback_date : Z) : res (option CorporateActionRow) :=
  let! sym := get_either "symbol" "SYMBOL" item in
  let! category := get_either "category" "CATEGORY" item in
  let! category := as_text (or_empty category) in
  match _map_category category, sym with
  | Some action_type, Some sym =>
      if negb (json_truthy sym) then Ok None else
      let! ann_date := date_field "announcement_date" "DATE" item in
      let! ex_date := date_field "ex_date" "EX_DATE" item in
      let! record_date := date_field "record_date" "RECORD_DATE" item in
      let! payment_date := date_field "payment_date" "PAYMENT_DATE" item in
      let! amount := get_either "amount" "AMOUNT" item in
      Ok (Some (mkActionRow (upper (str_json sym)) action_type (default fallback_date ann_date) ex_date record_date payment_date
                  (_parse_decimal (str_json (or_empty amount))) None None (Some (str_json item))))
  | _, _ => Ok None
  end.

(** A page: the texts of the [td] cells of each [tr] of its table, or without a
    table what [json.loads] makes of it, if anything. *)
Inductive page := TablePage (trs : list (list string)) | PlainPage (data : option json).

(** The rows that are not [None]. *)
Fixpoint collect {A} (f : A -> res (option CorporateActionRow)) (l : list A) : res (list CorporateActionRow) :=
  match l with
  | [] => Ok []
  | x :: l =>
      let! row := f x in
      let! rows := collect f l in
      Ok (match row with Some row => row :: rows | None => rows end)
  end.

Definition _parse_json_announcements (data : option json) (fallback_date : Z) : res (list CorporateActionRow) :=
  match data with
  | None => Ok []
  | Some data =>
      let data := match data with JObj fs => default (JList []) (field "data" fs) | _ => data end in
      match data with
      | JList l => collect (fun item => _parse_json_item item fallback_date) l
      | _ => Ok []
      end
  end.

Definition _parse_announcements_page (p : page) (fallback_date : Z) : res (list CorporateActionRow) :=
  match p with
  | TablePage trs =>
      collect (fun tds => if Nat.ltb (length tds) 4 then Ok None else _parse_table_row tds fallback_date) (drop 1 trs)
  | PlainPage data => _parse_json_announcements data fallback_date
  end.

(** The site: its answer to a range of dates and perhaps a symbol. *)
Inductive reply := Replied (p : page) | BadStatus (status : Z) | NoReply.
Definition Site : Type := Z -> Z -> option string -> reply.

Definition fetch_announcements (site : Site) (from_date to_date : Z) (sym : option string) : res (list CorporateActionRow) :=
  match site from_date to_date (match sym with Some s => if nonempty s then Some (upper s) else None | None => None end) with
  | BadStatus _ => Ok []
  | NoReply => Exn HTTPError
  | Replied p => _parse_announcements_page p from_date
  end.

(** ** Examples *)

Example categories :
  map _map_category ["Dividend"; " Final Cash Dividend "; "Stock Dividend"; "EGM notice"; "Face value split"; "earnings release"; ""]%string
  = [Some "dividend_cash"; Some "dividend_cash"; Some "dividend_stock"; Some "agm"; Some "split"; None; None]%string.
Proof. vm_compute. reflexivity. Qed.

(** The key [dividend] comes first among those the text contains. *)
Example stock_dividend_read_as_cash : _map_category "Final Stock Dividend" = Some "dividend_cash"%string.
Proof. vm_compute. reflexivity. Qed.

(** The colon pattern comes first, and reads times and years. *)
Example ratios :
  map _extract_ratio ["1 share for every 5 held"; "10% bonus issue"; "Bonus ratio 2:10"; "Cash dividend of Rs. 5"; "12.5% Bonus";
                      "Rs 5 for 2024"; "EOGM at 11:30"]%string
  = [Ok (Some 1, Some 5); Ok (Some 10, Some 100); Ok (Some 2, Some 10); Ok (None, None); Ok (Some 12, Some 100);
     Ok (Some 5, Some 2024); Ok (Some 11, Some 30)].
Proof. vm_compute. reflexivity. Qed.

Example amounts :
  map _extract_amount ["Cash Dividend @ Rs. 2.50 per share"; "Dividend PKR 5 per share"; "Bonus @10/share"; "Rs. 1,250.5/-";
                       "10 shares to shareholders 7"]%string
  = [Some (mkdec 250 (-2)); Some (mkdec 5 0); Some (mkdec 10 0); Some (mkdec 12505 (-1)); Some (mkdec 7 0)].
Proof. vm_compute. reflexivity. Qed.

Definition details : string := "Ex-Date: 15-Jan-2024. Record Date 16/01/2024; Payment Date: 20-Jan-2024".

(** The payment date after its own label is never read: the group is in the other
    alternative only. *)
Example labelled :
  (map (_extract_date_by_label details) [ex_date_label; record_date_label; payment_date_label],
   _extract_date_by_label "Book Closure: 2024-01-20" payment_date_label)
  = ([Some 738900; Some 738901; None], Some 738905).
Proof. vm_compute. reflexivity. Qed.

(** The dot of the currency stays in the amount of the JSON form. *)
Example json_amounts : map _parse_decimal ["2.5"; "Rs. 5"; "Rs. 2.50"; "1e-05"; ""]%string
  = [Some (mkdec 25 (-1)); Some (mkdec 5 (-1)); None; Some (mkdec 105 0); None].
Proof. vm_compute. reflexivity. Qed.
