(* ===== verification/ActionIngest.v ===== *)
(** * ActionIngest: [psx_ingest/tasks/corporate_actions.py]

    The announcements of a range of days written to [corporate_actions], one row
    per symbol, kind and day of announcement, all in one transaction; what a later
    announcement does not say is kept from the earlier one.

    What a run leaves behind, and that the nightly adjustment can use it, is proved
    in [ActionsCorrect]. *)

From S2P Require Import Prelude Decimal PyText PyFloat Market Calendar Announcements Redis Session.

(** ** The table *)

Record StoredAction := mkStored {
  sa_symbol : string;
  sa_action_type : string;
  sa_announcement_date : Z;
  sa_ex_date : option Z;
  sa_record_date : option Z;
  sa_payment_date : option Z;
  sa_amount_per_share : option dec;
  sa_ratio_numerator : option Z;
  sa_ratio_denominator : option Z;
  sa_raw_announcement : option string;
}.

(** The symbols of [securities], and [corporate_actions]. *)
Record action_db := mkActionDb { ad_securities : list string; ad_actions : list StoredAction }.

Definition VALID_ACTION_TYPES : list string := ["dividend_cash"; "dividend_stock"; "bonus"; "rights"; "agm"; "split"]%string.

(** [x * 10^p], ties away from zero, for [x] given by mantissa and exponent. *)
Definition scaled_half_up (p : Z) (m : positive) (e : Z) : Z :=
  if 0 <=? e then Zpos m * 2 ^ e * 10 ^ p else div_half_up (Zpos m * 10 ^ p) (2 ^ (- e)).

(** A float sent with its exact value to a NUMERIC(p, s) column, where the server
    rounds it. *)
Definition numeric_of_exact (p s : Z) (x : float) : res dec :=
  match x with
  | S754_zero _ => Ok (mkdec 0 (- s))
  | S754_finite sg m e =>
      let k := scaled_half_up s m e in
      if k <? 10 ^ p then Ok (mkdec (sign sg k) (- s)) else Exn DataError
  | _ => Exn DataError
  end.

(** [float(a) if a else None], as the column stores it. *)
Definition amount_column (a : option dec) : res (option dec) :=
  match a with
  | Some d => if deqb d dzero then Ok None else let! x := numeric_of_exact 12 4 (float_of_dec d) in Ok (Some x)
  | None => Ok None
  end.

(** An integer the driver can bind to an INTEGER: it refuses others itself, and
    sends nothing. *)
Definition int4 (o : option Z) : bool :=
  match o with Some n => ((- 2 ^ 31 <=? n) && (n <? 2 ^ 31))%bool | None => true end.
Definition bindable (row : CorporateActionRow) : bool := (int4 (ratio_numerator row) && int4 (ratio_denominator row))%bool.

Definition row_columns (row : CorporateActionRow) : bool :=
  (varchar 20 (symbol row) && varchar 30 (action_type row)
   && match raw_announcement row with Some s => storable s | None => true end)%bool.

Definition stored (row : CorporateActionRow) (amount : option dec) : StoredAction :=
  mkStored (symbol row) (action_type row) (announcement_date row) (ex_date row) (record_date row) (payment_date row) amount
    (ratio_numerator row) (ratio_denominator row) (raw_announcement row).

(** The unique key of the table. *)
Definition same_action (new old : StoredAction) : bool :=
  (String.eqb (sa_symbol old) (sa_symbol new) && String.eqb (sa_action_type old) (sa_action_type new)
   && (sa_announcement_date old =? sa_announcement_date new))%bool.

Definition coalesce {A} (new old : option A) : option A := match new with Some _ => new | None => old end.

(** [DO UPDATE SET]: what the new announcement says, or else what was known. *)
Definition coalesced (new old : StoredAction) : StoredAction :=
  mkStored (sa_symbol old) (sa_action_type old) (sa_announcement_date old)
    (coalesce (sa_ex_date new) (sa_ex_date old)) (coalesce (sa_record_date new) (sa_record_date old))
    (coalesce (sa_payment_date new) (sa_payment_date old)) (coalesce (sa_amount_per_share new) (sa_amount_per_share old))
    (coalesce (sa_ratio_numerator new) (sa_ratio_numerator old)) (coalesce (sa_ratio_denominator new) (sa_ratio_denominator old))
    (coalesce (sa_raw_announcement new) (sa_raw_announcement old)).

Definition merge_action (new : StoredAction) (l : list StoredAction) : list StoredAction :=
  if existsb (same_action new) l then map (fun old => if same_action new old then coalesced new old else old) l else (l ++ [new])%list.

(** ** The statements *)

Definition known_symbol (db : action_db) (s : string) : bool := existsb (String.eqb s) (ad_securities db).

Definition _symbol_is_known (s : string) : M (session action_db) bool :=
  execute (fun db => if storable s then Ok (db, known_symbol db s) else Exn DataError).

(** [RETURNING (xmax = 0)]: whether the row is new. *)
Definition _upsert_action (row : CorporateActionRow) : M (session action_db) bool :=
  if negb (bindable row) then lift (Exn DataError) else
  execute (fun db =>
    let! amount := amount_column (amount_per_share row) in
    let new := stored row amount in
    if negb (row_columns row) then Exn DataError
    else if existsb (same_action new) (ad_actions db) then Ok (mkActionDb (ad_securities db) (merge_action new (ad_actions db)), false)
    else if negb (known_symbol db (symbol row)) then Exn IntegrityError
    else Ok (mkActionDb (ad_securities db) (merge_action new (ad_actions db)), true)).

(** ** The task *)

Record ActionSummary := mkActionSummary { inserted : Z; updated : Z; skipped_unknown : Z; errors : Z; total_fetched : Z }.

Definition inserted_one s := mkActionSummary (inserted s + 1) (updated s) (skipped_unknown s) (errors s) (total_fetched s).
Definition updated_one s := mkActionSummary (inserted s) (updated s + 1) (skipped_unknown s) (errors s) (total_fetched s).
Definition skipped_one s := mkActionSummary (inserted s) (updated s) (skipped_unknown s + 1) (errors s) (total_fetched s).
Definition error_one s := mkActionSummary (inserted s) (updated s) (skipped_unknown s) (errors s + 1) (total_fetched s).

Definition ingest_action (action : CorporateActionRow) : M (ingest action_db ActionSummary) unit :=
  catching
    (let* known := on_session (_symbol_is_known (symbol action)) in
     if negb known then tally skipped_one else
     let* was_inserted := on_session (_upsert_action action) in
     tally (if was_inserted then inserted_one else updated_one))
    (tally error_one).

Definition _run_ingest (site : Site) (from_date to_date : Z) (db : action_db) : res (action_db * ActionSummary) :=
  let! announcements := fetch_announcements site from_date to_date None in
  let '(st, _) := for_each ingest_action announcements
                    (mkIngest (begin_session db) (mkActionSummary 0 0 0 0 (Z.of_nat (length announcements)))) in
  Ok (commit db (in_session st), in_summary st).

Definition _LOOKBACK_DAYS : Z := 30.

(** The task, with the dates it was called with or its own; a failure is retried by
    Celery. *)
Definition ingest_corporate_actions (site : Site) (today : Z) (from_date to_date : option Z) (db : action_db)
    : res (action_db * ActionSummary) :=
  let from_date := match from_date with Some d => d | None => today - _LOOKBACK_DAYS end in
  let to_date := match to_date with Some d => d | None => today end in
  _run_ingest site from_date to_date db.
