(* ===== verification/AdjustTotal.v ===== *)
(** * AdjustTotal: the adjustment of prices returns

    With closes as their column holds them, and events whose ratios and amounts are
    not negative, [compute_adjusted_prices] does not raise: the factors stay between
    zero and one under the rounding of the context, so that no result needs more
    than 28 digits. *)

From S2P Require Import Prelude Decimal Adjustments.

(** A decimal between zero and [10^K], at every scale fine enough. *)
Definition below (K : Z) (d : dec) : Prop :=
  0 <= coef d /\ forall M, 0 <= M -> 0 <= M + expo d -> coef d * 10 ^ (M + expo d) <= 10 ^ (K + M).

Lemma below_intro K d M :
  0 <= K -> 0 <= coef d -> 0 <= M -> 0 <= M + expo d -> coef d * 10 ^ (M + expo d) <= 10 ^ (K + M) -> below K d.
Proof.
  intros HK Hc HM HMe H. split; [done|]. intros N HN HNe. pose proof (pow10_pos M HM). apply (Z.mul_le_mono_pos_r _ _ (10 ^ M)); [done|].
  replace (coef d * 10 ^ (N + expo d) * 10 ^ M) with (coef d * 10 ^ (M + expo d) * 10 ^ N).
  - replace (10 ^ (K + N) * 10 ^ M) with (10 ^ (K + M) * 10 ^ N) by (rewrite !pow10_split by lia; ring).
    apply Z.mul_le_mono_nonneg_r; [|done]. pose proof (pow10_pos N HN). lia.
  - rewrite <- !Z.mul_assoc, <- !pow10_split by lia. do 2 f_equal. lia.
Qed.

Lemma below_le K L d : 0 <= K <= L -> below K d -> below L d.
Proof.
  intros [HK HL] [Hc H]. split; [done|]. intros M HM HMe. etransitivity; [by apply H|]. apply Z.pow_le_mono_r; lia.
Qed.

(** Rounding to 28 digits does not leave the interval, *)
Lemma dfix_below K d : 0 <= K -> below K d -> below K (dfix d).
Proof.
  intros HK [Hc H]. unfold dfix, prec. destruct (ndigits (coef d) <=? 28) eqn:E; [done|]. zbool.
  assert (Hc0 : coef d <> 0) by (intros H0; rewrite H0, ndigits_0 in E; lia).
  destruct (ndigits_spec _ Hc0) as (_ & Hlo & Hhi). rewrite Z.abs_eq in Hlo, Hhi by done. set (n := ndigits (coef d)) in *. set (k := n - 28).
  assert (Hk : 0 < 10 ^ k) by (apply pow10_pos; lia).
  set (c := div_half_even (coef d) (10 ^ k)). set (M := Z.max 0 (- expo d)).
  assert (Hc28 : c <= 10 ^ 28).
  { pose proof (div_half_even_near (coef d) (10 ^ k) Hk) as Hn. fold c in Hn. replace n with (28 + k) in Hhi by lia. rewrite pow10_split in Hhi by lia.
    assert (c < 10 ^ 28 + 1); [|lia]. apply (Z.mul_lt_mono_pos_r (10 ^ k)); [done|]. nia. }
  assert (Hcpos : 0 < c).
  { pose proof (div_half_even_near (coef d) (10 ^ k) Hk) as Hn. fold c in Hn. replace (n - 1) with (27 + k) in Hlo by lia. rewrite pow10_split in Hlo by lia.
    assert (10 ^ 27 - 1 < c); [|lia]. apply (Z.mul_lt_mono_pos_r (10 ^ k)); [done|]. nia. }
  specialize (H M ltac:(lia) ltac:(lia)).
  assert (Hval : c * 10 ^ (M + expo d + k) <= 10 ^ (K + M)).
  { destruct (Z.le_gt_cases (n + expo d) K) as [HA|HB].
    - transitivity (10 ^ 28 * 10 ^ (M + expo d + k)); [apply Z.mul_le_mono_nonneg_r; [apply Z.pow_nonneg; lia|done]|].
      rewrite <- pow10_split by lia. apply Z.pow_le_mono_r; lia.
    - assert (Hle : 10 ^ (n - 1) * 10 ^ (M + expo d) <= 10 ^ (K + M)).
      { etransitivity; [|exact H]. apply Z.mul_le_mono_nonneg_r; [apply Z.pow_nonneg; lia|done]. }
      rewrite <- pow10_split in Hle by lia. apply (proj2 (Z.pow_le_mono_r_iff 10 (n - 1 + (M + expo d)) (K + M) ltac:(lia) ltac:(lia))) in Hle.
      assert (HKM : K + M = (n - 1) + (M + expo d)) by lia. rewrite HKM, (pow10_split (n - 1) (M + expo d)) in H by lia.
      apply Z.mul_le_mono_pos_r in H; [|apply pow10_pos; lia]. assert (He : coef d = 10 ^ 27 * 10 ^ k).
      { rewrite <- pow10_split by lia. replace (27 + k) with (n - 1) by lia. lia. }
      unfold c. rewrite He, div_half_even_exact by done. rewrite <- pow10_split by lia. apply Z.pow_le_mono_r; lia. }
  destruct (ndigits c <=? 28) eqn:E2; zbool.
  - apply (below_intro K _ M); cbn [coef expo]; try lia. by replace (M + (expo d + k)) with (M + expo d + k) by lia.
  - assert (c = 10 ^ 28) as Hc'.
    { apply Z.le_antisymm; [done|]. pose proof (ndigits_gt c 28 ltac:(lia) ltac:(lia) ltac:(lia)). lia. }
    apply (below_intro K _ M); cbn [coef expo]; [lia|rewrite Hc'; by vm_compute|lia..|].
    rewrite Hc' in *. change (10 ^ 28 / 10) with (10 ^ 27). etransitivity; [|exact Hval]. apply Z.eq_le_incl.
    rewrite <- !pow10_split by lia. f_equal. lia.
Qed.

(** and keeps the sign. *)
Lemma dfix_nonneg d : 0 <= coef d -> 0 <= coef (dfix d).
Proof.
  intros Hc. destruct (dfix_near d) as [He Hn]. set (f := dfix d) in *.
  pose proof (pow10_pos (expo f - expo d) ltac:(lia)). nia.
Qed.

Lemma dfix_nonpos d : coef d <= 0 -> coef (dfix d) <= 0.
Proof.
  intros Hc. destruct (dfix_near d) as [He Hn]. set (f := dfix d) in *.
  pose proof (pow10_pos (expo f - expo d) ltac:(lia)). nia.
Qed.

Lemma dmul_below K L x y : 0 <= K -> 0 <= L -> below K x -> below L y -> below (K + L) (x * y)%dec.
Proof.
  intros HK HL [Hx Hbx] [Hy Hby]. unfold dmul. apply dfix_below; [lia|].
  set (A := Z.max 0 (- expo x)). set (B := Z.max 0 (- expo y)). specialize (Hbx A ltac:(lia) ltac:(lia)). specialize (Hby B ltac:(lia) ltac:(lia)).
  apply (below_intro _ _ (A + B)); cbn [coef expo]; try lia.
  replace (A + B + (expo x + expo y)) with ((A + expo x) + (B + expo y)) by lia.
  replace (K + L + (A + B)) with ((K + A) + (L + B)) by lia.
  rewrite (pow10_split (A + expo x) (B + expo y)), (pow10_split (K + A) (L + B)) by lia.
  transitivity ((coef x * 10 ^ (A + expo x)) * (coef y * 10 ^ (B + expo y))); [apply Z.eq_le_incl; ring|].
  apply Z.mul_le_mono_nonneg; try done.
  - apply Z.mul_nonneg_nonneg; [done|apply Z.pow_nonneg; lia].
  - apply Z.mul_nonneg_nonneg; [done|apply Z.pow_nonneg; lia].
Qed.

Lemma dmul_nonneg x y : 0 <= coef x -> 0 <= coef y -> 0 <= coef (x * y)%dec.
Proof. intros. apply dfix_nonneg. cbn [coef]. lia. Qed.

Lemma dadd_nonneg x y : 0 <= coef x -> 0 <= coef y -> 0 <= coef (x + y)%dec.
Proof.
  intros. apply dfix_nonneg. cbn [coef]. apply Z.add_nonneg_nonneg; apply Z.mul_nonneg_nonneg; try done; apply Z.pow_nonneg; lia.
Qed.

Lemma ndigits_mono a b : 0 < a <= b -> ndigits a <= ndigits b.
Proof.
  intros Hab. destruct (ndigits_spec b) as (H1 & _ & Hb); [lia|]. apply ndigits_le; [done|]. lia.
Qed.

(** A part of a whole. *)
Lemma ddiv_below a b : 0 < a -> 0 < b -> exists q, ddiv (dec_of_Z a) (dec_of_Z (a + b)) = Ok q /\ below 0 q.
Proof.
  intros Ha Hb. unfold ddiv, dec_of_Z. cbn [coef expo]. rewrite !(proj2 (Z.eqb_neq _ 0)) by lia.
  pose proof (ndigits_mono a (a + b) ltac:(lia)) as Hnd. unfold prec. set (s := ndigits (a + b) - ndigits a + 28 + 1).
  assert (Hs : 29 <= s) by lia. rewrite !Z.abs_eq by lia. rewrite (proj2 (Z.leb_le 0 s)) by lia. rewrite !Z.sgn_pos by lia.
  change (0 - 0 - s) with (- s). set (q := a * 10 ^ s / (a + b)). pose proof (pow10_pos s ltac:(lia)) as Hp.
  assert (Hq0 : 0 <= q) by (apply Z.div_pos; lia).
  assert (Hfin : forall c e, 0 <= c -> - s <= e -> c * 10 ^ (e + s) <= 10 ^ s -> below 0 (dfix (mkdec (1 * 1 * c) e))).
  { intros c e Hc He Hle. apply dfix_below; [lia|]. apply (below_intro 0 _ s); cbn [coef expo]; try lia.
    replace (s + e) with (e + s) by lia. rewrite Z.add_0_l. lia. }
  destruct (_ =? 0) eqn:Er; zbool.
  - pose proof (strip_zeros_le (Z.to_nat (0 - 0 - - s)) q (- s) (0 - 0) Hq0) as Hst.
    destruct (strip_zeros _ q (- s) (0 - 0)) as [c e]. destruct Hst as [He Hst]. eexists. split; [reflexivity|].
    replace (e - - s) with (e + s) in Hst by lia. apply Hfin; [|lia|].
    + pose proof (pow10_pos (e + s) ltac:(lia)). nia.
    + rewrite Hst. apply Z.div_le_upper_bound; [lia|]. nia.
  - eexists. split; [reflexivity|]. replace (- s + s) with 0 by lia. assert (Hlt : q < 10 ^ s) by (apply Z.div_lt_upper_bound; [lia|]; nia).
    apply Hfin; [|lia|]; destruct (q mod 5 =? 0); try lia; replace (- s + s) with 0 by lia; lia.
Qed.

(** ** Events and rows *)

Definition nonneg_part {A} (f : A -> Z) (o : option A) : Prop := match o with Some a => 0 <= f a | None => True end.

(** Ratios and amounts that are not negative. *)
Record event_ok (e : CorporateEvent) : Prop := {
  event_amount : nonneg_part coef (amount_per_share e);
  event_ratio : nonneg_part id (ratio_numerator e) /\ nonneg_part id (ratio_denominator e);
}.

(** A close as NUMERIC(12, 4) holds it. *)
Definition close_ok (c : dec) : Prop := 0 <= coef c < 10 ^ 12 /\ expo c = -4.

Definition factors_ok (f : dec * dec) : Prop := below 0 f.1 /\ 0 <= coef f.2.

Lemma one_below : below 0 d_one.
Proof. by apply (below_intro 0 _ 0). Qed.

Lemma close_below c : close_ok c -> below 8 c.
Proof. intros [Hc He]. apply (below_intro 8 _ 4); rewrite ?He; change (10 ^ (4 + -4)) with 1; change (10 ^ (8 + 4)) with (10 ^ 12); lia. Qed.

Lemma event_adjustment_ok e : event_ok e -> exists a, to_adjustment e = Ok a /\ factors_ok a.2.
Proof.
  intros [Ha [Hn Hd]]. unfold to_adjustment, _event_to_adjustment.
  assert (Hone : factors_ok (d_one, dzero)) by (split; [apply one_below|done]).
  destruct (bool_decide _).
  - destruct (ratio_numerator e) as [num|]; [|by eexists]. destruct (ratio_denominator e) as [den|]; [|by eexists].
    cbn [nonneg_part id] in *. destruct (_ && _)%bool eqn:E; [|by eexists]. rewrite !andb_true_iff, !negb_true_iff in E. zbool.
    destruct (ddiv_below den num) as (q & -> & Hq); [lia..|]. eexists. split; [reflexivity|]. by split.
  - destruct (String.eqb _ _); [|by eexists]. eexists. split; [reflexivity|]. split; [apply one_below|]. cbn [snd].
    by destruct (amount_per_share e).
Qed.

Lemma adjustments_ok events : Forall event_ok events -> exists l, map_res to_adjustment events = Ok l /\ Forall (fun a : adjustment => factors_ok a.2) l.
Proof.
  induction 1 as [|e events He _ (l & El & Hl)]; [by exists []|]. destruct (event_adjustment_ok e He) as (a & Ha & Hf). cbn [map_res]. rewrite Ha, El.
  eexists. split; [reflexivity|]. by constructor.
Qed.

Lemma skip_events_ok d ahead : forall f,
  factors_ok f -> Forall (fun a : adjustment => factors_ok a.2) ahead ->
  factors_ok (skip_events d f ahead).1 /\ Forall (fun a : adjustment => factors_ok a.2) (skip_events d f ahead).2.
Proof.
  induction ahead as [|[ex [m a]] ahead IH]; intros f Hf Ha; cbn [skip_events]; [done|].
  destruct (d <? ex); [|done]. inversion_clear Ha as [|? ? [Hm Hadd] Ha']. cbn [fst snd] in *. apply IH; [|done].
  destruct Hf as [H1 H2]. split; cbn [fst snd]; [by apply (dmul_below 0 0)|]. apply dadd_nonneg; [|done]. apply dmul_nonneg; [done|apply Hm].
Qed.

(** A difference is in the interval or not positive. *)
Lemma dsub_below K x y : 0 <= K -> below K x -> 0 <= coef y -> below K (x - y)%dec \/ coef (x - y)%dec <= 0.
Proof.
  intros HK [Hx Hbx] Hy. unfold dsub, dadd. cbn [coef expo dopp]. set (e := Z.min (expo x) (expo y)). set (t := coef x * _ + _).
  destruct (Z.le_gt_cases t 0) as [Ht|Ht]; [right; by apply dfix_nonpos|]. left. apply dfix_below; [done|].
  set (M := Z.max 0 (- e)). specialize (Hbx M ltac:(lia) ltac:(lia)). apply (below_intro K _ M); cbn [coef expo]; try lia.
  etransitivity; [|exact Hbx]. assert (Hle : t <= coef x * 10 ^ (expo x - e)).
  { unfold t. pose proof (pow10_pos (expo y - e) ltac:(lia)). nia. }
  replace (M + expo x) with ((expo x - e) + (M + e)) by lia. rewrite (pow10_split (expo x - e) (M + e)) by lia.
  rewrite Z.mul_assoc. apply Z.mul_le_mono_nonneg_r; [|done]. apply Z.pow_nonneg; lia.
Qed.

Lemma adjust_row_ok f row : factors_ok f -> close_ok (pr_close row) -> exists r, adjust_row f row = Ok r.
Proof.
  intros [H1 H2] Hc. unfold adjust_row. pose proof (dmul_below 8 0 _ _ ltac:(lia) ltac:(lia) (close_below _ Hc) H1) as Hp.
  set (adj := (pr_close row * f.1 - f.2)%dec).
  assert (Hadj : below 8 (dmax adj min_price)).
  { assert (Hmin : below 8 min_price) by (apply (below_intro 8 _ 2); cbn; lia). unfold dmax.
    pose proof (dsub_below 8 _ _ ltac:(lia) Hp H2) as Hs. fold adj in Hs. destruct Hs as [Hb|Hneg]; [by destruct (dltb adj min_price)|].
    assert (Hlt : dltb adj min_price = true); [|by rewrite Hlt]. unfold dltb, dcompare. cbn [min_price coef expo].
    set (e := Z.min (expo adj) (-2)). pose proof (pow10_pos (expo adj - e) ltac:(lia)). pose proof (pow10_pos (-2 - e) ltac:(lia)).
    destruct (Z.compare_spec (coef adj * 10 ^ (expo adj - e)) (1 * 10 ^ (-2 - e))); [nia|done|nia]. }
  set (x := dmax adj min_price) in *. assert (Hq : Z.abs (quantized ROUND_HALF_UP 4 x) < exact_bound).
  { destruct Hadj as [Hx Hbx]. unfold quantized, exact_bound, prec. destruct (- (4) <=? expo x) eqn:E; zbool.
    - specialize (Hbx 4 ltac:(lia) ltac:(lia)). rewrite (Z.add_comm (expo x)). pose proof (Z.pow_nonneg 10 (4 + expo x)). rewrite Z.abs_eq by nia.
      eapply Z.le_lt_trans; [exact Hbx|]. by vm_compute.
    - cbn [div_round]. set (m := 10 ^ (- (4) - expo x)). assert (Hm : 0 < m) by (apply pow10_pos; lia).
      specialize (Hbx (- expo x) ltac:(lia) ltac:(lia)). replace (- expo x + expo x) with 0 in Hbx by lia.
      assert (Hle : coef x <= 10 ^ 12 * m). { unfold m. rewrite <- pow10_split by lia. replace (12 + (- (4) - expo x)) with (8 + - expo x) by lia. lia. }
      pose proof (div_half_up_mono _ _ m Hm Hle) as H. rewrite div_half_up_exact in H by done.
      pose proof (div_half_up_nonneg (coef x) m Hm Hx). rewrite Z.abs_eq by done. eapply Z.le_lt_trans; [exact H|]. by vm_compute. }
  destruct (dquantize_ok ROUND_HALF_UP 4 x Hq) as [-> _]. by eexists.
Qed.

Lemma backward_pass_ok rows : forall f ahead,
  factors_ok f -> Forall (fun a : adjustment => factors_ok a.2) ahead -> Forall (fun r => close_ok (pr_close r)) rows ->
  exists l, backward_pass rows f ahead = Ok l.
Proof.
  induction rows as [|row rows IH]; intros f ahead Hf Ha Hr; cbn [backward_pass]; [by eexists|]. inversion_clear Hr as [|? ? Hrow Hrows].
  destruct (skip_events_ok (pr_date row) ahead f Hf Ha) as [Hf' Ha']. destruct (skip_events _ f ahead) as [f' ahead']. cbn [fst snd] in *.
  destruct (adjust_row_ok f' row Hf' Hrow) as [r ->]. destruct (IH f' ahead' Hf' Ha' Hrows) as [l ->]. by eexists.
Qed.

(** The adjustment of a symbol's prices returns. *)
Lemma compute_adjusted_total prices events :
  Forall (fun r => close_ok (pr_close r)) prices -> Forall event_ok events -> exists l, compute_adjusted_prices prices events = Ok l.
Proof.
  intros Hp He. unfold compute_adjusted_prices. destruct prices as [|p ps]; [by eexists|]. set (prices := p :: ps) in *.
  destruct (adjustments_ok (sort_by newest_first events)) as (l & -> & Hl); [by apply Forall_sort_by|].
  destruct (backward_pass_ok (rev (sort_by date_le prices)) (d_one, dzero) l) as [r ->]; [split; [apply one_below|done]|done| |by eexists].
  apply List.Forall_rev. by apply Forall_sort_by.
Qed.

(** ** The task *)

Definition closes_ok (ohlcv : list OhlcvRow) : Prop := Forall (fun r => match oh_close r with Some c => close_ok c | None => True end) ohlcv.
Definition action_fine (a : CorporateAction) : Prop :=
  nonneg_part coef (ca_amount_per_share a) /\ nonneg_part id (ca_ratio_numerator a) /\ nonneg_part id (ca_ratio_denominator a).

Lemma fetch_events_ok actions symbol : Forall action_fine actions -> Forall event_ok (_fetch_events actions symbol).
Proof.
  intros H. apply Forall_sort_by. induction H as [|a actions (H1 & H2 & H3) _ IH]; cbn [omap list_omap]; [constructor|].
  change (list_omap ?f ?l) with (omap f l). destruct (relevant_action symbol a) as [e|] eqn:E; [|exact IH]. constructor; [|exact IH].
  unfold relevant_action in E. destruct (_ && _)%bool; [|done]. destruct (match ca_ex_date a with Some d => Some d | None => _ end); [|done].
  injection E as <-. split; cbn [amount_per_share ratio_numerator ratio_denominator].
  - by destruct (truthy_dec _).
  - split; [by destruct (truthy_int (ca_ratio_numerator a))|by destruct (truthy_int (ca_ratio_denominator a))].
Qed.

Lemma fetch_prices_ok ohlcv symbol : closes_ok ohlcv -> Forall (fun r => close_ok (pr_close r)) (_fetch_prices ohlcv symbol).
Proof.
  intros H. apply Forall_sort_by. induction H as [|r ohlcv Hr _ IH]; cbn [omap list_omap]; [constructor|].
  change (list_omap ?f ?l) with (omap f l). destruct (String.eqb (oh_symbol r) symbol); [|exact IH].
  destruct (oh_close r) as [c|]; [|exact IH]. constructor; [exact Hr|exact IH].
Qed.

Lemma only_adjusted_closes touched l l' : Forall2 (only_adjusted touched) l l' -> closes_ok l -> closes_ok l'.
Proof.
  induction 1 as [|r r' l l' (_ & _ & Hc & _) _ IH]; intros Hl; [done|]. inversion_clear Hl. constructor; [by rewrite Hc|by apply IH].
Qed.

Lemma run_recompute_total actions target : Forall action_fine actions -> forall ohlcv s,
  closes_ok ohlcv -> symbols_err (fold_left (recompute_step actions) target (ohlcv, s)).2 = symbols_err s
  /\ symbols_ok (fold_left (recompute_step actions) target (ohlcv, s)).2 = symbols_ok s + Z.of_nat (length target).
Proof.
  intros Ha. induction target as [|x target IH]; intros ohlcv s Hc; cbn [fold_left length snd]; [lia|].
  unfold recompute_step at 2 4. assert (Hok : exists out, _recompute_symbol actions ohlcv x = Ok out).
  { unfold _recompute_symbol. pose proof (fetch_prices_ok ohlcv x Hc) as Hp. destruct (_fetch_prices ohlcv x) as [|p ps]; [by eexists|].
    destruct (compute_adjusted_total (p :: ps) (_fetch_events actions x) Hp) as [l ->]; [by apply fetch_events_ok|]. by eexists. }
  destruct Hok as [[ohlcv' n] E]. rewrite E. destruct (recompute_symbol_only (fun _ => True) actions ohlcv x _ I E) as [Ho _].
  destruct (IH ohlcv' (mkSummary (symbols_ok s + 1) (symbols_err s) (rows_updated s + n))) as [-> ->]; [by eapply only_adjusted_closes|].
  cbn [symbols_err symbols_ok]. lia.
Qed.
