(* ===== verification/ActionsCorrect.v ===== *)
(** * ActionsCorrect: what the announcements leave in the database

    [fetched_rows_ok]: the rows of the scraper are of the kinds the schema
    knows, with dates of the calendar and numbers that are not negative;
    [action_run_refines]: a run merges them into [corporate_actions] one by one and
    forgets nothing, or changes nothing; [adjustment_never_fails]: whatever was
    scraped, the nightly adjustment of the prices returns. *)

From Stdlib Require Import Ascii.
From S2P Require Import Prelude Dates Decimal PyText PyFloat FloatRange Json Adjustments AdjustTotal Market Calendar Regex PyRepr Announcements Redis Session ActionIngest.

(** ** Rows *)

Definition a_date (d : Z) : Prop := 1 <= d <= max_date.
Definition all_of {A} (P : A -> Prop) (o : option A) : Prop := match o with Some a => P a | None => True end.

Record row_ok (row : CorporateActionRow) : Prop := {
  kind_known : action_type row ∈ VALID_ACTION_TYPES;
  announced : a_date (announcement_date row);
  dates_ok : all_of a_date (ex_date row) /\ all_of a_date (record_date row) /\ all_of a_date (payment_date row);
  amount_ok : all_of (fun d => 0 <= coef d) (amount_per_share row);
  ratio_ok : all_of (fun n => 0 <= n) (ratio_numerator row) /\ all_of (fun n => 0 <= n) (ratio_denominator row);
}.

Lemma category_known s t : _map_category s = Some t -> t ∈ VALID_ACTION_TYPES.
Proof.
  assert (H : forall kv, kv ∈ _CATEGORY_MAP -> kv.2 ∈ VALID_ACTION_TYPES).
  { assert (Hall : forallb (fun kv => existsb (String.eqb kv.2) VALID_ACTION_TYPES) _CATEGORY_MAP = true) by reflexivity.
    intros kv Hkv. apply mem_text. apply (proj1 (forallb_forall _ _) Hall). by apply list_elem_of_In. }
  unfold _map_category. destruct (List.find _ _CATEGORY_MAP) as [kv|] eqn:E.
  - intros [= <-]. apply H. apply find_some in E as [Hin _]. by apply list_elem_of_In.
  - destruct (List.find (fun kv => contains_text kv.1 (strip (lower s))) _CATEGORY_MAP) as [kv|] eqn:E2; [|done]. intros [= <-]. apply H.
    apply find_some in E2 as [Hin _]. by apply list_elem_of_In.
Qed.

Lemma date_new_range y m d ord : date_new y m d = Ok ord -> a_date ord.
Proof.
  intros H. destruct (ymd_of_new y m d ord H) as [_ Hord]. unfold date_new in H.
  destruct (_ && _)%bool eqn:E; [|done]. rewrite !andb_true_iff in E. zbool. clear H. unfold a_date, max_date.
  assert (Hb : forall a b, a <= b -> days_before_year a <= days_before_year b).
  { intros a b Hab. unfold days_before_year. Z.to_euclidean_division_equations; lia. }
  pose proof (Hb 1 y ltac:(lia)) as H1. pose proof (Hb (y + 1) 10000 ltac:(lia)) as H2.
  change (days_before_year 1) with 0 in H1. change (days_before_year 10000) with 3652059 in H2.
  pose proof (days_before_month_mono y 1 m ltac:(lia)) as H3. change (days_before_month y 1) with 0 in H3.
  pose proof (year_length y) as H4.
  assert (days_before_month y m + d <= days_before_month y 12 + 31).
  { destruct (Z.eq_dec m 12) as [->|]; [change (days_in_month y 12) with 31 in *; lia|].
    pose proof (days_before_month_mono y (m + 1) 12 ltac:(lia)). rewrite days_before_month_next in * by lia. lia. }
  lia.
Qed.

Lemma first_format_date fmts s d : first_format fmts s = Some d -> a_date d.
Proof.
  induction fmts as [|f fmts IH]; [done|]. cbn [first_format]. destruct (strptime f s) as [d'|] eqn:E; [|exact IH].
  intros [= ->]. unfold strptime in E. destruct (match_format f no_parts (chars s)) as [|[p [|]] ?]; try done. by apply date_new_range in E.
Qed.

Lemma flexible_date s : all_of a_date (_parse_date_flexible s).
Proof.
  unfold _parse_date_flexible. destruct (_ || _)%bool; [done|]. destruct (first_format _ _) eqn:E; [|done]. by apply first_format_date in E.
Qed.

Lemma labelled_date s label : all_of a_date (_extract_date_by_label s label).
Proof.
  unfold _extract_date_by_label. destruct (search _ _); [|done]. destruct (group 1 _); [|done]. apply flexible_date.
Qed.

Lemma span_digits_nonneg l : forall acc n, 0 <= acc -> let '(v, _, _) := span_digits l acc n in 0 <= v.
Proof.
  induction l as [|c l IH]; intros acc n Ha; cbn [span_digits]; [done|]. destruct (is_digit c) eqn:E; [|done].
  apply IH. apply is_digit_code in E. lia.
Qed.

Lemma finite_part_nonneg l d : finite_part l = Some d -> 0 <= coef d.
Proof.
  unfold finite_part. pose proof (span_digits_nonneg l 0 0 ltac:(lia)) as H. destruct (span_digits l 0 0) as [[ip ni] rest].
  set (t := match rest with dot :: rest' => if Ascii.eqb dot "." then span_digits rest' ip 0 else (ip, 0, rest) | [] => (ip, 0, []) end).
  assert (H2 : 0 <= t.1.1).
  { subst t. destruct rest as [|c rest]; [done|]. destruct (Ascii.eqb c "."); [|done]. pose proof (span_digits_nonneg rest ip 0 H) as H'.
    by destruct (span_digits rest ip 0) as [[? ?] ?]. }
  clearbody t. destruct t as [[c nf] rest']. destruct (ni + nf =? 0); [done|]. destruct (exponent_part rest'); [|done].
  by intros [= <-].
Qed.

(** Only digits and dots: there is no sign. *)
Definition unsigned (l : list ascii) : Prop := Forall (fun c => (is_digit c || Ascii.eqb c ".")%bool = true) l.

Lemma drop_while_sub f l x : x ∈ drop_while f l -> x ∈ l.
Proof. induction l as [|y l IH]; [done|]. cbn [drop_while]. destruct (f y); [|done]. intros H%IH. by right. Qed.

Lemma strip_sub l x : x ∈ strip_chars l -> x ∈ l.
Proof.
  unfold strip_chars, rstrip_by. rewrite list_elem_of_In, <- in_rev, <- list_elem_of_In. intros H%drop_while_sub.
  rewrite list_elem_of_In, <- in_rev, <- list_elem_of_In in H. by apply drop_while_sub in H.
Qed.

Lemma unsigned_take_sign l : unsigned l -> take_sign l = (false, l).
Proof.
  intros Hl. destruct l as [|c l]; [done|]. inversion_clear Hl as [|? ? Hc _]. unfold take_sign.
  destruct (Ascii.eqb_spec c "-") as [->|]; [done|]. by destruct (Ascii.eqb_spec c "+") as [->|].
Qed.

Lemma unsigned_decimal s d : unsigned (chars s) -> decimal_of_str s = Ok (Fin d) -> 0 <= coef d.
Proof.
  unfold decimal_of_str. intros Hs. set (body := List.filter _ _).
  assert (Hb : unsigned body).
  { apply list.Forall_forall. intros c [Hc _]%elem_of_lfilter. by apply (proj1 (list.Forall_forall _ _) Hs), strip_sub. }
  rewrite (unsigned_take_sign body Hb). destruct (_ || _)%bool; [done|]. destruct (_ || _)%bool; [done|].
  destruct (finite_part body) as [d'|] eqn:Ef; [|done]. intros [= <-]. by eapply finite_part_nonneg.
Qed.

Lemma parse_decimal_nonneg s : all_of (fun d => 0 <= coef d) (_parse_decimal s).
Proof.
  unfold _parse_decimal. set (cl := digits_and_dots s). destruct (negb (nonempty cl)); [done|].
  destruct (decimal_of_str cl) as [[d|neg|]|e] eqn:E; [|done..]. cbn [all_of]. apply (unsigned_decimal cl); [|exact E].
  unfold cl, digits_and_dots. rewrite chars_text. apply list.Forall_forall. by intros c [_ Hc]%elem_of_lfilter.
Qed.

Lemma extract_amount_nonneg s : all_of (fun d => 0 <= coef d) (_extract_amount s).
Proof. unfold _extract_amount. destruct (search _ _); [|done]. destruct (group 1 _); [|done]. apply parse_decimal_nonneg. Qed.

(** *** Ratios

    A group of digits is an integer that is not negative. *)

Lemma some_of_lang f w : lang (Some_of f) w -> w <> [] /\ Forall (fun c => f c = true) w.
Proof.
  intros H. inversion H as [| | |? ? u v Hu Hv| | |]; subst. inversion Hu; subst. inversion Hv; subst. split; [done|]. by constructor.
Qed.

Lemma int_body_nonneg l : forall b acc n, 0 <= acc -> int_body l b acc = Some n -> 0 <= n.
Proof.
  induction l as [|c l IH]; intros b acc n Ha; cbn [int_body]; [destruct b; [by intros [= <-]|done]|].
  destruct (is_digit c) eqn:Ed; [apply is_digit_code in Ed; apply IH; lia|]. destruct (_ && _)%bool; [|done]. by apply IH.
Qed.

Lemma unsigned_int s n : unsigned (chars s) -> int_of_str s = Ok n -> 0 <= n.
Proof.
  unfold int_of_str. intros Hs. rewrite unsigned_take_sign.
  - destruct (int_body _ false 0) as [k|] eqn:E; [|done]. intros [= <-]. by eapply int_body_nonneg; [|exact E].
  - apply list.Forall_forall. intros c Hc. by apply (proj1 (list.Forall_forall _ _) Hs), strip_sub.
Qed.

Lemma unsigned_digits l : Forall (fun c => is_digit c = true) l -> unsigned l.
Proof. apply Forall_impl. by intros c ->. Qed.

Lemma captured_digits r l m n :
  search r l = Some m -> groups_of r n = [Some_of is_digit] -> unsigned (chars (captured n m)).
Proof.
  intros Hs Hg. unfold captured. destruct (group n m) as [s|] eqn:E; [|constructor].
  destruct (search_groups r l m n s Hs E) as (a & Ha & Hl). rewrite Hg in Ha. apply list_elem_of_singleton in Ha as ->.
  apply unsigned_digits. by apply some_of_lang in Hl as [_ ?].
Qed.

Lemma captured_percent l m : search percent_pattern l = Some m -> unsigned (chars (captured 1 m)).
Proof.
  intros Hs. unfold captured. destruct (group 1 m) as [s|] eqn:E; [|constructor].
  destruct (search_groups percent_pattern l m 1 s Hs E) as (a & Ha & Hl). cbn in Ha. apply list_elem_of_singleton in Ha as ->.
  change (default _ (Some s)) with s. remember (chars s) as w eqn:Ew. clear Ew Hs E.
  inversion Hl as [| | |? ? u v Hu Hv| | |]; subst. apply some_of_lang in Hu as [_ Hu]. apply list.Forall_app. split; [by apply unsigned_digits|].
  inversion Hv as [| | | |? ? ? Hv'|? ? ? Hv'|]; subst; [|inversion Hv'; constructor].
  inversion Hv' as [| | |? ? x y Hx Hy| | |]; subst. apply some_of_lang in Hy as [_ Hy]. apply list.Forall_app. split; [|by apply unsigned_digits].
  inversion Hx as [|? c Hc| | | | |]; subst. repeat constructor. apply Ascii.eqb_eq in Hc. assert (c = "."%char) as ->; [|done].
  clear -Hc. revert Hc. unfold lower_char. destruct (_ && _)%bool eqn:Ec; [|done]. intros H. exfalso.
  assert (Hcode : code (chr (code c + 32)) = code "."%char) by (by rewrite H). rewrite !andb_true_iff in Ec. zbool.
  rewrite code_chr in Hcode by lia. change (code "."%char) with 46 in Hcode. lia.
Qed.

Lemma round_int_nonneg x n : has_sign false x -> round_int x = Ok n -> 0 <= n.
Proof.
  destruct x as [sx|sx| |sx m e]; cbn [has_sign round_int]; [by intros _ [= <-]|done..|]. intros -> [= <-]. by apply scaled_nonneg.
Qed.

Lemma extract_ratio_ok s num den : _extract_ratio s = Ok (num, den) -> all_of (fun n => 0 <= n) num /\ all_of (fun n => 0 <= n) den.
Proof.
  unfold _extract_ratio. destruct (search ratio_pattern (chars s)) as [m|] eqn:E.
  - destruct (int_of_str (captured 1 m)) as [n|] eqn:E1; [|done]. destruct (int_of_str (captured 2 m)) as [d|] eqn:E2; [|done].
    intros [= <- <-]. cbn [all_of]. split; eapply unsigned_int; [|exact E1| |exact E2]; by eapply captured_digits.
  - destruct (search percent_pattern (chars s)) as [m|] eqn:E2; [|by intros [= <- <-]].
    destruct (float_of_str (captured 1 m)) as [x|] eqn:Ex; [|done]. destruct (round_int x) as [n|] eqn:En; [|done].
    intros [= <- <-]. cbn [all_of]. split; [|lia]. unfold float_of_str in Ex. destruct (negb _); [done|].
    destruct (decimal_of_str (captured 1 m)) as [[d|neg|]|e] eqn:Ed; [| |destruct (String.eqb _ _); [|done]|done]; injection Ex as <-; [|done..].
    eapply round_int_nonneg; [|exact En]. apply float_of_dec_sign. eapply unsigned_decimal; [|exact Ed]. by eapply captured_percent.
Qed.

Lemma table_row_ok cols fallback row :
  a_date fallback -> _parse_table_row cols fallback = Ok (Some row) -> row_ok row.
Proof.
  intros Hf. unfold _parse_table_row. destruct cols as [|c0 [|c1 [|c2 [|c3 ds]]]]; try done. set (details_text := String.concat _ ds).
  destruct (_map_category (strip (lower c2))) as [t|] eqn:Et; [|done]. destruct (negb _); [done|].
  destruct (_extract_ratio details_text) as [[num den]|] eqn:Er; [|done]. intros [= <-].
  split; cbn [action_type announcement_date ex_date record_date payment_date amount_per_share ratio_numerator ratio_denominator].
  - by eapply category_known.
  - pose proof (flexible_date c3) as H. by destruct (_parse_date_flexible c3).
  - split; [apply labelled_date|]. split; apply labelled_date.
  - apply extract_amount_nonneg.
  - by eapply extract_ratio_ok.
Qed.

Lemma date_field_ok a b item o : date_field a b item = Ok o -> all_of a_date o.
Proof.
  unfold date_field. destruct (get_either a b item); [|done]. destruct (as_text _); [|done]. intros [= <-]. apply flexible_date.
Qed.

Lemma json_item_ok item fallback row :
  a_date fallback -> _parse_json_item item fallback = Ok (Some row) -> row_ok row.
Proof.
  intros Hf. unfold _parse_json_item. destruct (get_either "symbol" "SYMBOL" item) as [sym|]; [|done].
  destruct (get_either "category" "CATEGORY" item) as [category|]; [|done]. destruct (as_text (or_empty category)) as [c|]; [|done].
  destruct (_map_category c) as [t|] eqn:Et; [|done]. destruct sym as [sym|]; [|done]. destruct (negb _); [done|].
  destruct (date_field "announcement_date" "DATE" item) as [d1|] eqn:E1; [|done].
  destruct (date_field "ex_date" "EX_DATE" item) as [d2|] eqn:E2; [|done].
  destruct (date_field "record_date" "RECORD_DATE" item) as [d3|] eqn:E3; [|done].
  destruct (date_field "payment_date" "PAYMENT_DATE" item) as [d4|] eqn:E4; [|done].
  destruct (get_either "amount" "AMOUNT" item) as [amount|]; [|done]. intros [= <-].
  apply date_field_ok in E1, E2, E3, E4.
  split; cbn [action_type announcement_date ex_date record_date payment_date amount_per_share ratio_numerator ratio_denominator]; try done.
  - by eapply category_known.
  - by destruct d1.
  - apply parse_decimal_nonneg.
Qed.

Lemma collect_ok {A} (f : A -> res (option CorporateActionRow)) l rows :
  (forall x row, f x = Ok (Some row) -> row_ok row) -> collect f l = Ok rows -> Forall row_ok rows.
Proof.
  intros Hf. revert rows. induction l as [|x l IH]; intros rows; cbn [collect]; [intros [= <-]; constructor|].
  destruct (f x) as [o|] eqn:Ex; [|done]. destruct (collect f l) as [rest|]; [|done]. intros [= <-].
  destruct o as [row|]; [constructor; [by eapply Hf|]|]; by apply IH.
Qed.

(** What the scraper returns, whatever the page holds. *)
Lemma fetched_rows_ok site from_date to_date sym rows :
  1 <= from_date <= max_date -> fetch_announcements site from_date to_date sym = Ok rows -> Forall row_ok rows.
Proof.
  intros Hf. unfold fetch_announcements. destruct (site _ _ _) as [p|status|]; [|intros [= <-]; constructor|done].
  destruct p as [trs|data]; cbn [_parse_announcements_page].
  - apply collect_ok. intros tds row. destruct (Nat.ltb _ 4); [done|]. by apply table_row_ok.
  - unfold _parse_json_announcements. destruct data as [data|]; [|intros [= <-]; constructor].
    set (data' := match data with JObj _ => _ | _ => _ end). destruct data'; try (intros [= <-]; constructor).
    apply collect_ok. intros item row. by apply json_item_ok.
Qed.

(** ** The table *)

Definition action_key (a : StoredAction) : string * string * Z := (sa_symbol a, sa_action_type a, sa_announcement_date a).

Definition nonneg_int4 (o : option Z) : Prop := all_of (fun n => 0 <= n < 2 ^ 31) o.

(** A row of the table: what the adjustment of prices counts on. *)
Record stored_ok (a : StoredAction) : Prop := {
  stored_kind : sa_action_type a ∈ VALID_ACTION_TYPES;
  stored_amount : all_of (fun d => 0 <= coef d < 10 ^ 12 /\ expo d = -4) (sa_amount_per_share a);
  stored_ratio : nonneg_int4 (sa_ratio_numerator a) /\ nonneg_int4 (sa_ratio_denominator a);
}.

Record actions_ok (db : action_db) : Prop := {
  once_a_day : NoDup (map action_key (ad_actions db));
  of_known : forall a, a ∈ ad_actions db -> sa_symbol a ∈ ad_securities db;
  each_ok : Forall stored_ok (ad_actions db);
}.

(** What is known of an action stays known. *)
Definition keeps {A} (old new : option A) : Prop := is_Some old -> is_Some new.

Record learns (old new : StoredAction) : Prop := {
  same_key : action_key new = action_key old;
  keeps_dates : keeps (sa_ex_date old) (sa_ex_date new) /\ keeps (sa_record_date old) (sa_record_date new)
                /\ keeps (sa_payment_date old) (sa_payment_date new);
  keeps_terms : keeps (sa_amount_per_share old) (sa_amount_per_share new) /\ keeps (sa_ratio_numerator old) (sa_ratio_numerator new)
                /\ keeps (sa_ratio_denominator old) (sa_ratio_denominator new);
}.

Definition remembers (db db' : action_db) : Prop :=
  ad_securities db' = ad_securities db
  /\ forall a, a ∈ ad_actions db -> exists a', a' ∈ ad_actions db' /\ learns a a'.

Lemma coalesce_keeps {A} (new old : option A) : keeps old (coalesce new old).
Proof. intros H. by destruct new. Qed.

Lemma coalesce_all {A} (P : A -> Prop) new old : all_of P new -> all_of P old -> all_of P (coalesce new old).
Proof. by destruct new. Qed.

Lemma learns_refl a : learns a a.
Proof. split; [done| |]; repeat split; intros H; exact H. Qed.

Lemma learns_trans a b c : learns a b -> learns b c -> learns a c.
Proof.
  intros [K1 (D1 & D2 & D3) (T1 & T2 & T3)] [K1' (D1' & D2' & D3') (T1' & T2' & T3')]. unfold keeps in *.
  split; [congruence|split; [|split]|split; [|split]]; unfold keeps; auto.
Qed.

Lemma coalesced_learns new old : learns old (coalesced new old).
Proof. split; [done| |]; repeat split; apply coalesce_keeps. Qed.

Lemma coalesced_ok new old : stored_ok new -> stored_ok old -> stored_ok (coalesced new old).
Proof.
  intros [K1 A1 [R1 R2]] [K2 A2 [R3 R4]]. split; cbn [coalesced sa_action_type sa_amount_per_share sa_ratio_numerator sa_ratio_denominator].
  - done.
  - by apply coalesce_all.
  - split; by apply coalesce_all.
Qed.

Lemma same_action_key new old : same_action new old = true <-> action_key old = action_key new.
Proof.
  unfold same_action, action_key. rewrite !andb_true_iff, !String.eqb_eq, Z.eqb_eq.
  split; [by intros [[-> ->] ->]|by intros [= -> -> ->]].
Qed.

Lemma merge_ok secs l new :
  actions_ok (mkActionDb secs l) -> stored_ok new -> sa_symbol new ∈ secs -> actions_ok (mkActionDb secs (merge_action new l)).
Proof.
  intros [H1 H2 H3] Hn Hs. cbn [ad_actions ad_securities] in *. unfold merge_action. destruct (existsb (same_action new) l) eqn:E; split; cbn [ad_actions ad_securities].
  - rewrite map_map. erewrite map_ext; [exact H1|]. intros old. by destruct (same_action new old).
  - intros a (old & -> & Hin)%list_elem_of_fmap. apply H2 in Hin. by destruct (same_action new old).
  - apply list.Forall_forall. intros a (old & -> & Hin)%list_elem_of_fmap. pose proof (proj1 (list.Forall_forall _ _) H3 old Hin) as Ho.
    destruct (same_action new old); [by apply coalesced_ok|done].
  - rewrite map_app. apply NoDup_snoc; [done|]. intros (old & Hk & Hin)%list_elem_of_fmap. apply not_true_iff_false in E.
    apply E, existsb_exists. exists old. rewrite <- list_elem_of_In, same_action_key. done.
  - intros a [Ha|Ha]%elem_of_app; [by apply H2|]. by apply list_elem_of_singleton in Ha as ->.
  - apply list.Forall_app. split; [done|by constructor].
Qed.

Lemma merge_remembers secs l new : remembers (mkActionDb secs l) (mkActionDb secs (merge_action new l)).
Proof.
  split; [done|]. cbn [ad_actions]. unfold merge_action. intros a Ha. destruct (existsb _ l).
  - exists (if same_action new a then coalesced new a else a). split; [by apply (list_elem_of_fmap_2 (fun old => if same_action new old then coalesced new old else old))|].
    destruct (same_action new a); [apply coalesced_learns|apply learns_refl].
  - exists a. split; [apply elem_of_app; by left|apply learns_refl].
Qed.

(** ** The run *)

(** One announcement of a transaction that works: what it does to the table and the
    counters, or the error after which the server refuses the rest. *)
Definition action_step (st : action_db * ActionSummary) (row : CorporateActionRow) : res (action_db * ActionSummary) :=
  let '(db, s) := st in
  if negb (storable (symbol row)) then Exn DataError
  else if negb (known_symbol db (symbol row)) then Ok (db, skipped_one s)
  else if negb (bindable row) then Ok (db, error_one s)
  else
    let! amount := amount_column (amount_per_share row) in
    if negb (row_columns row) then Exn DataError else
    let new := stored row amount in
    Ok (mkActionDb (ad_securities db) (merge_action new (ad_actions db)),
        if existsb (same_action new) (ad_actions db) then updated_one s else inserted_one s).

Definition one_error (s s' : ActionSummary) : Prop := s' = error_one s.

Lemma ingest_action_step db s row :
  exists st, ingest_action row (mkIngest (begin_session db) s) = (st, Ok tt) /\
    match action_step (db, s) row with
    | Ok (db', s') => st = mkIngest (begin_session db') s' /\ True
    | Exn _ => aborted (in_session st) = true /\ one_error s (in_summary st)
    end.
Proof.
  unfold ingest_action, catching, bindM, on_session, _symbol_is_known, action_step, one_error. cbn [in_session in_summary].
  unfold execute at 1, begin_session. cbn [aborted view].
  destruct (storable (symbol row)) eqn:Es; cbn [negb]; [|eexists; split; [reflexivity|done]].
  destruct (known_symbol db (symbol row)) eqn:Ek; cbn [negb]; [|eexists; split; [reflexivity|done]].
  cbn [in_session in_summary]. unfold _upsert_action. destruct (bindable row); cbn [negb]; [|eexists; split; [reflexivity|done]].
  unfold execute. cbn [aborted view]. rewrite Ek. cbn [negb].
  destruct (amount_column (amount_per_share row)) as [amount|]; [|eexists; split; [reflexivity|done]].
  destruct (row_columns row); cbn [negb]; [|eexists; split; [reflexivity|done]].
  destruct (existsb _ (ad_actions db)); (eexists; split; [reflexivity|done]).
Qed.

Lemma ingest_action_refused st row :
  aborted (in_session st) = true ->
  exists st', ingest_action row st = (st', Ok tt) /\ aborted (in_session st') = true /\ one_error (in_summary st) (in_summary st').
Proof.
  intros Ha. unfold ingest_action, catching, bindM, on_session, _symbol_is_known, execute. rewrite Ha. by eexists.
Qed.

Definition items_of (s : ActionSummary) : Z := inserted s + updated s + skipped_unknown s + errors s.

Lemma errors_added n : forall s s', nsteps one_error n s s' -> errors s' = errors s + Z.of_nat n /\ items_of s' = items_of s + Z.of_nat n
  /\ total_fetched s' = total_fetched s.
Proof.
  induction n as [|n IH]; intros s s' H; inversion H as [|? ? s1 ? E Hr]; subst; [lia|]. apply IH in Hr. rewrite E in Hr.
  unfold items_of, error_one in *. cbn [inserted updated skipped_unknown errors total_fetched] in *. lia.
Qed.

Lemma int4_range o : int4 o = true -> all_of (fun n => 0 <= n) o -> nonneg_int4 o.
Proof. unfold int4, nonneg_int4. destruct o as [n|]; [|done]. cbn [all_of]. intros H ?. zbool. lia. Qed.

Lemma scaled_half_up_nonneg p m e : 0 <= p -> 0 <= scaled_half_up p m e.
Proof.
  intros Hp. unfold scaled_half_up. pose proof (pow10_pos p Hp). destruct (0 <=? e) eqn:E; zbool.
  - pose proof (Z.pow_nonneg 2 e). nia.
  - apply div_half_up_nonneg; [apply Z.pow_pos_nonneg; lia|nia].
Qed.

Lemma amount_column_ok a o :
  all_of (fun d => 0 <= coef d) a -> amount_column a = Ok o -> all_of (fun d => 0 <= coef d < 10 ^ 12 /\ expo d = -4) o.
Proof.
  unfold amount_column. destruct a as [d|]; [|intros _ [= <-]; done]. cbn [all_of]. intros Hd. destruct (deqb d dzero); [intros [= <-]; done|].
  pose proof (float_of_dec_sign false d Hd) as Hs. destruct (float_of_dec d) as [sg|sg| |sg m e]; cbn [numeric_of_exact]; [|done..|].
  - intros [= <-]. cbn [all_of coef expo]. lia.
  - cbn [has_sign] in Hs. subst sg. destruct (_ <? 10 ^ 12) eqn:E; [|done]. intros [= <-]. cbn [all_of coef expo sign]. zbool.
    pose proof (scaled_half_up_nonneg 4 m e). lia.
Qed.

(** A step keeps the table's invariant and forgets nothing. *)
Lemma action_step_ok db s row db' s' :
  actions_ok db -> row_ok row -> action_step (db, s) row = Ok (db', s') ->
  actions_ok db' /\ remembers db db' /\ items_of s' = items_of s + 1 /\ total_fetched s' = total_fetched s
  /\ errors s <= errors s'.
Proof.
  intros Hdb [K A D M R]. unfold action_step. destruct (negb _); [done|].
  assert (Hsame : remembers db db) by (split; [done|]; intros a Ha; exists a; split; [done|apply learns_refl]).
  destruct (known_symbol db (symbol row)) eqn:Ek; cbn [negb]; [|intros [= <- <-]; unfold items_of; cbn; split; [done|]; split; [done|]; lia].
  destruct (bindable row) eqn:Eb; cbn [negb]; [|intros [= <- <-]; unfold items_of; cbn; split; [done|]; split; [done|]; lia].
  destruct (amount_column (amount_per_share row)) as [amount|] eqn:Ea; [|done]. destruct (negb (row_columns row)); [done|].
  intros [= <- <-]. set (new := stored row amount). destruct db as [secs l]. cbn [ad_securities ad_actions] in *.
  split; [apply merge_ok; [done| |by apply mem_text]|].
  - apply andb_true_iff in Eb as [E1 E2]. split; cbn [new stored sa_action_type sa_amount_per_share sa_ratio_numerator sa_ratio_denominator].
    + done.
    + by eapply amount_column_ok.
    + split; by apply int4_range; try apply R.
  - split; [apply merge_remembers|]. unfold items_of. destruct (existsb _ l); cbn; lia.
Qed.

Lemma remembers_trans a b c : remembers a b -> remembers b c -> remembers a c.
Proof.
  intros [S1 R1] [S2 R2]. split; [congruence|]. intros x (y & Hy & Hxy)%R1. destruct (R2 y Hy) as (z & Hz & Hyz).
  exists z. split; [done|]. by eapply learns_trans.
Qed.

Lemma action_steps_ok rows : forall db s db' s',
  actions_ok db -> Forall row_ok rows -> fold_res action_step (db, s) rows = Ok (db', s') ->
  actions_ok db' /\ remembers db db' /\ items_of s' = items_of s + Z.of_nat (length rows) /\ total_fetched s' = total_fetched s
  /\ errors s <= errors s'.
Proof.
  induction rows as [|row rows IH]; intros db s db' s' Hdb Hr; cbn [fold_res length].
  - intros [= <- <-]. split; [done|]. split; [|lia]. split; [done|]. intros a Ha. exists a. split; [done|apply learns_refl].
  - inversion_clear Hr as [|? ? Hrow Hrows]. destruct (action_step (db, s) row) as [[db1 s1]|] eqn:E; [|done].
    destruct (action_step_ok db s row db1 s1 Hdb Hrow E) as (H1 & H2 & H3 & H4 & H5). intros Hf.
    destruct (IH db1 s1 db' s' H1 Hrows Hf) as (I1 & I2 & I3 & I4 & I5). split; [done|]. split; [by eapply remembers_trans|]. lia.
Qed.

Lemma run_refines site from_date to_date db :
  1 <= from_date <= max_date -> actions_ok db ->
  match fetch_announcements site from_date to_date None with
  | Exn e => _run_ingest site from_date to_date db = Exn e
  | Ok rows =>
      exists db' s, _run_ingest site from_date to_date db = Ok (db', s)
        /\ match fold_res action_step (db, mkActionSummary 0 0 0 0 (Z.of_nat (length rows))) rows with
           | Ok (db1, s1) => db' = db1 /\ s = s1
           | Exn _ => db' = db /\ 0 < errors s
           end
        /\ actions_ok db' /\ remembers db db'
        /\ items_of s = Z.of_nat (length rows) /\ total_fetched s = Z.of_nat (length rows)
  end.
Proof.
  intros Hf Hdb. pose proof (fun rows => fetched_rows_ok site from_date to_date None rows Hf) as Hrows.
  unfold _run_ingest. destruct (fetch_announcements site from_date to_date None) as [rows|]; [|done]. specialize (Hrows rows eq_refl).
  set (s0 := mkActionSummary 0 0 0 0 _).
  destruct (batch_refines ingest_action action_step (fun _ => True) one_error) with (items := rows) (db := db) (s := s0) as (st & E & H);
    [intros; by apply ingest_action_step|by apply ingest_action_refused|done|].
  rewrite E. destruct (fold_res action_step (db, s0) rows) as [[db1 s1]|] eqn:Es.
  - destruct H as [-> _]. destruct (action_steps_ok rows db s0 db1 s1 Hdb Hrows Es) as (H1 & H2 & H3 & H4 & _).
    exists db1, s1. done.
  - destruct H as (Ha & pre & row & later & db1 & s1 & s2 & -> & Hp & He & Hn). apply Forall_app in Hrows as [Hpre _].
    destruct (action_steps_ok pre db s0 db1 s1 Hdb Hpre Hp) as (_ & _ & H3 & H4 & H5). apply errors_added in Hn. rewrite He in Hn.
    exists db, (in_summary st). unfold commit. rewrite Ha. split; [done|].
    unfold items_of, error_one, s0 in *. cbn [inserted updated skipped_unknown errors total_fetched] in *. rewrite length_app in *. cbn [length] in *.
    split; [split; [done|lia]|]. split; [done|]. split; [split; [done|]; intros a Ha'; exists a; split; [done|apply learns_refl]|]. lia.
Qed.

(** C38: A run over the announcements of some days.  Without a page it raises and
    changes nothing.  Otherwise it returns; the table is what the announcements make
    of it one by one, or just what it was, and then errors are reported.  Either way the
    table keeps its invariant (one row per symbol, kind and day, listed symbols,
    ratios and amounts in range), no row loses a date or a term it had, and every
    announcement is counted once. *)
Theorem action_run_refines site from_date to_date db :
  1 <= from_date <= max_date -> actions_ok db ->
  match fetch_announcements site from_date to_date None with
  | Exn e => _run_ingest site from_date to_date db = Exn e
  | Ok rows =>
      exists db' s, _run_ingest site from_date to_date db = Ok (db', s)
        /\ match fold_res action_step (db, mkActionSummary 0 0 0 0 (Z.of_nat (length rows))) rows with
           | Ok (db1, s1) => db' = db1 /\ s = s1
           | Exn _ => db' = db /\ 0 < errors s
           end
        /\ actions_ok db' /\ remembers db db'
        /\ items_of s = Z.of_nat (length rows) /\ total_fetched s = Z.of_nat (length rows)
  end.
Proof. apply run_refines. Qed.

(** ** The nightly adjustment *)

(** A row of the table, as the adjustment reads it. *)
Definition as_action (a : StoredAction) : CorporateAction :=
  mkAction (sa_symbol a) (sa_action_type a) (Some (sa_announcement_date a)) (sa_ex_date a) (sa_amount_per_share a)
    (sa_ratio_numerator a) (sa_ratio_denominator a).

(** C39: Whatever the exchange announced, the adjustment of prices can use what the
    ingestion stored: after any run, recomputing any symbols over a table of closes
    fails for none of them. *)
Theorem adjustment_never_fails site from_date to_date db db' s ohlcv target :
  1 <= from_date <= max_date -> actions_ok db -> _run_ingest site from_date to_date db = Ok (db', s) -> closes_ok ohlcv ->
  let '(_, summary) := _run_recompute (map as_action (ad_actions db')) ohlcv target in
  symbols_err summary = 0 /\ symbols_ok summary = Z.of_nat (length target).
Proof.
  intros Hf Hdb Hrun Hc. pose proof (run_refines site from_date to_date db Hf Hdb) as H.
  assert (Hok : actions_ok db').
  { destruct (fetch_announcements site from_date to_date None); [|congruence]. destruct H as (db1 & s1 & E & _ & Hok & _). congruence. }
  assert (Hfine : Forall action_fine (map as_action (ad_actions db'))).
  { apply list.Forall_forall. intros x (a & -> & Ha)%list_elem_of_fmap. apply (proj1 (list.Forall_forall _ _) (each_ok _ Hok)) in Ha as [_ A [R1 R2]].
    unfold nonneg_int4 in *. split; [|split]; cbn [as_action ca_amount_per_share ca_ratio_numerator ca_ratio_denominator].
    - destruct (sa_amount_per_share a); [|done]. cbn in *. lia.
    - destruct (sa_ratio_numerator a); [|done]. cbn in *. lia.
    - destruct (sa_ratio_denominator a); [|done]. cbn in *. lia. }
  unfold _run_recompute. destruct (run_recompute_total _ target Hfine ohlcv (mkSummary 0 0 0) Hc) as [H1 H2].
  destruct (fold_left _ target _) as [o summary]. cbn [snd symbols_err symbols_ok] in *. split; [done|lia].
Qed.

(** ** Examples *)

Module actions_sample.
Definition trs : list (list string) :=
  [[]; ["ogdc "; "OGDC Limited"; "Cash Dividend"; "2025-01-10"; "Ex-Date: 15-Jan-2025"; "Rs. 2.50 per share"];
   ["LUCK"; "Lucky Cement"; "Bonus Shares"; "n/a"; "10% bonus"]; ["NONE"; "Unknown"; "AGM"; "2025-01-10"]; ["OGDC"; "short"]]%string.
Definition site : Site := fun _ _ _ => Replied (TablePage trs).
Definition known : StoredAction := mkStored "OGDC" "dividend_cash" 739261 None (Some 739270) None None None None None.
Definition db : action_db := mkActionDb ["OGDC"; "LUCK"]%string [known].

Lemma sample_actions_ok : actions_ok db.
Proof.
  split; cbn.
  - apply list.NoDup_cons. split; [by apply not_elem_of_nil|apply NoDup_nil_2].
  - intros a. rewrite list_elem_of_singleton. intros ->. by left.
  - repeat constructor.
Qed.

(** The record date that was known stays, and a cell that is no date is the first day
    of the range. *)
Example two_actions :
  match _run_ingest site 739250 739280 db with
  | Ok (db', s) =>
      ad_actions db' = [mkStored "OGDC" "dividend_cash" 739261 (Some 739266) (Some 739270) None (Some (mkdec 25000 (-4))) None None
                          (Some "Ex-Date: 15-Jan-2025 | Rs. 2.50 per share");
                        mkStored "LUCK" "bonus" 739250 None None None None (Some 10) (Some 100) (Some "10% bonus")]%string
      /\ s = mkActionSummary 1 1 1 0 3
  | _ => False
  end.
Proof. vm_compute. split; reflexivity. Qed.

(** A NUL in one announcement is refused by the server, and with it the whole run. *)
Definition bad_site : Site := fun _ _ _ =>
  Replied (TablePage [[]; ["OGDC"; ""; "Bonus"; "2025-01-10"; "1:10"]; ["LUCK"; ""; "AGM"; ""; String (ascii_of_nat 0) ""]; ["LUCK"; ""; "Rights"; ""; ""]])%string.
Example bad_announcement : match _run_ingest bad_site 739250 739280 db with
                           | Ok (db', s) => db' = db /\ s = mkActionSummary 1 0 0 2 3
                           | _ => False
                           end.
Proof. vm_compute. split; reflexivity. Qed.

(** A ratio no INTEGER holds is not sent, so that the rest is stored. *)
Definition big_site : Site := fun _ _ _ =>
  Replied (TablePage [[]; ["OGDC"; ""; "Bonus"; "2025-01-10"; "4000000000:1"]; ["LUCK"; ""; "AGM"; ""; ""]])%string.
Example big_ratio : match _run_ingest big_site 739250 739280 db with
                    | Ok (db', s) => length (ad_actions db') = 2%nat /\ s = mkActionSummary 1 0 0 1 2
                    | _ => False
                    end.
Proof. vm_compute. split; reflexivity. Qed.

(** A two-for-one split, read as two new shares for one: prices before it are cut to a
    third. *)
Example two_for_one :
  let a := mkStored "LUCK" "split" 739261 None None None None (Some 2) (Some 1) None in
  let ohlcv := [mkOhlcvRow "LUCK" 739260 (Some (mkdec 2000000 (-4))) None; mkOhlcvRow "LUCK" 739261 (Some (mkdec 1000000 (-4))) None] in
  _extract_ratio "Stock split 2:1" = Ok (Some 2, Some 1)
  /\ map oh_adjusted_close (_run_recompute [as_action a] ohlcv ["LUCK"%string]).1 = [Some (mkdec 666667 (-4)); Some (mkdec 1000000 (-4))].
Proof. vm_compute. split; reflexivity. Qed.
End actions_sample.

Lemma action_run_refines_witness : exists db' s, _run_ingest actions_sample.site 739250 739280 actions_sample.db = Ok (db', s)
  /\ actions_ok db' /\ remembers actions_sample.db db'.
Proof.
  pose proof (action_run_refines actions_sample.site 739250 739280 actions_sample.db ltac:(unfold max_date; lia) actions_sample.sample_actions_ok) as K.
  assert (E : is_ok (fetch_announcements actions_sample.site 739250 739280 None) = true) by (vm_compute; reflexivity).
  destruct (fetch_announcements actions_sample.site 739250 739280 None) as [rows|e]; [|discriminate E].
  destruct K as (db' & s & E' & _ & K1 & K2 & _). exists db', s. split; [exact E'|]. split; [exact K1|exact K2].
Defined.

Lemma adjustment_never_fails_witness : exists db' s, _run_ingest actions_sample.site 739250 739280 actions_sample.db = Ok (db', s)
  /\ let '(_, summary) := _run_recompute (map as_action (ad_actions db')) [mkOhlcvRow "OGDC" 739250 (Some (mkdec 1000000 (-4))) None] ["OGDC"%string] in
     symbols_err summary = 0 /\ symbols_ok summary = 1.
Proof.
  assert (E : exists db' s, _run_ingest actions_sample.site 739250 739280 actions_sample.db = Ok (db', s)) by (vm_compute; do 2 eexists; reflexivity).
  destruct E as (db' & s & E). exists db', s. split; [exact E|].
  pose proof (adjustment_never_fails actions_sample.site 739250 739280 actions_sample.db db' s
    [mkOhlcvRow "OGDC" 739250 (Some (mkdec 1000000 (-4))) None] ["OGDC"%string] ltac:(unfold max_date; lia) actions_sample.sample_actions_ok E) as K.
  apply K. constructor; [|constructor]. split; [vm_compute; split; [discriminate|reflexivity]|reflexivity].
Defined.
