(* ===== verification/Macro.v ===== *)
(** * Macro: rates and currencies ([psx_ingest/macro/], [tasks/macro.py],
    [psx_api/services/macro_service.py], [routers/macro.py])

    The central bank's tables and its policy rate, from the cells of the pages to
    points of a series; the points of a day written to [macro_indicators] in one
    transaction; and the series as the API returns it.

    [published]: what the API returns after a run is the points of the run over
    what was there. *)

From Stdlib Require Import Ascii.
From S2P Require Import Prelude Dicts Decimal PyText PyFloat Market Calendar Regex Announcements Redis Session ActionIngest.

(** ** Pages *)

(** A table: the texts of its [th] cells, and of the [td] and [th] cells of each of
    its rows. *)
Record table := mkTable { t_headers : list string; t_rows : list (list string) }.

(** What the central bank's site answers to a GET, if anything: its text and tables. *)
Record document := mkDocument { d_html : string; d_tables : list table }.

Record MacroPoint := mkPoint { mp_indicator : string; mp_date : Z; mp_value : xdec }.

Definition sbp_formats : list (list directive) := [fmt_a_d_b_Y; fmt_d_b_Y; fmt_d_m_Y_slash; fmt_d_m_Y_dash].
Definition _parse_sbp_date (value : string) : option Z := first_format sbp_formats (strip value).
Definition forex_formats : list (list directive) := (sbp_formats ++ [fmt_Y_m_d])%list.
Definition _try_parse_date (value : string) : option Z := first_format forex_formats (strip value).

Definition without (cs : string) (s : string) : string := text (List.filter (fun c => negb (any_of cs c)) (chars s)).

(** The lower-case headers of a table, and whether each of the words is in one of
    them or across two. *)
Definition headers_of (t : table) : list string := map lower (t_headers t).
Definition mentions (words : list string) (t : table) : bool :=
  forallb (fun w => contains_text w (String.concat " " (headers_of t))) words.

(** *** KIBOR *)

Definition _KIBOR_COLUMN_MAP : list (string * string) :=
  [("1-month", "kibor_1m"); ("3-month", "kibor_3m"); ("6-month", "kibor_6m"); ("1-year", "kibor_12m")]%string.

(** The last key a header contains. *)
Definition column_slug (header : string) : option string :=
  fold_left (fun found kv => if contains_text kv.1 header then Some kv.2 else found) _KIBOR_COLUMN_MAP None.

Definition kibor_value (cell : string) : option xdec :=
  match decimal_of_str (strip (without "%," cell)) with Ok v => Some v | Exn _ => None end.

Fixpoint kibor_points (observed : Z) (headers cells : list string) : list MacroPoint :=
  match headers with
  | [] => []
  | h :: headers =>
      let rest := kibor_points observed headers (tl cells) in
      match column_slug h, head cells with
      | Some slug, Some cell => match kibor_value cell with Some v => mkPoint slug observed v :: rest | None => rest end
      | _, _ => rest
      end
  end.

Definition _parse_kibor (doc : document) : list MacroPoint :=
  match List.find (mentions ["date"; "1-month"]%string) (d_tables doc) with
  | None => []
  | Some t =>
      match drop 1 (t_rows t) with
      | [] => []
      | latest :: _ =>
          match latest with
          | [] => []
          | first :: _ =>
              match _parse_sbp_date first with
              | None => []
              | Some observed => kibor_points observed (headers_of t) latest
              end
          end
      end
  end.

Definition _fetch_kibor (doc : option document) : list MacroPoint :=
  match doc with Some doc => if nonempty (d_html doc) then _parse_kibor doc else [] | None => [] end.

(** *** The policy rate *)

Definition policy_pattern : re :=
  (Literal "policy rate" ;;; Many (fun c => (is_space c || Ascii.eqb c ":")%bool)
   ;;; Group 1 (Some_of is_digit ;;; Maybe (Literal ".") ;;; Many is_digit) ;;; Many is_space ;;; Literal "%")%re.

Definition _fetch_policy_rate (today : Z) (doc : option document) : option MacroPoint :=
  match doc with
  | Some doc =>
      match search policy_pattern (chars (d_html doc)) with
      | Some m => match decimal_of_str (captured 1 m) with Ok v => Some (mkPoint "sbp_policy_rate" today v) | Exn _ => None end
      | None => None
      end
  | None => None
  end.

Definition sbp_points (today : Z) (kibor policy : option document) : list MacroPoint :=
  (_fetch_kibor kibor ++ match _fetch_policy_rate today policy with Some p => [p] | None => [] end)%list.

(** *** The dollar *)

(** [a + b] *)
Definition xadd (a b : xdec) : res xdec :=
  match a, b with
  | NaN, _ | _, NaN => Ok NaN
  | Fin x, Fin y => Ok (Fin (x + y)%dec)
  | Inf s, Inf t => if Bool.eqb s t then Ok (Inf s) else Exn InvalidOperation
  | Inf s, _ | _, Inf s => Ok (Inf s)
  end.

(** [(a / Decimal(2)).quantize(Decimal("0.0001"))] *)
Definition half_quantized (a : xdec) : res xdec :=
  match a with
  | NaN => Ok NaN
  | Inf _ => Exn InvalidOperation
  | Fin x =>
      let! h := ddiv x (dec_of_Z 2) in
      let! q := dquantize ROUND_HALF_EVEN 4 h in
      Ok (Fin q)
  end.

(** The first row with three cells, two prices and a date. *)
Fixpoint forex_rows (rows : list (list string)) : res (list MacroPoint) :=
  match rows with
  | [] => Ok []
  | (c0 :: c1 :: c2 :: _) :: rows =>
      match decimal_of_str (without "," c1), decimal_of_str (without "," c2), _try_parse_date c0 with
      | Ok bid, Ok offer, Some observed =>
          let! total := xadd bid offer in
          let! mid := half_quantized total in
          Ok [mkPoint "pkr_usd" observed mid]
      | _, _, _ => forex_rows rows
      end
  | _ :: rows => forex_rows rows
  end.

Definition parse_forex (doc : document) : res (list MacroPoint) :=
  match List.find (mentions ["bid"; "offer"]%string) (d_tables doc) with
  | None => Ok []
  | Some t => forex_rows (drop 1 (t_rows t))
  end.

Definition forex_points (doc : option document) : list MacroPoint :=
  match doc with
  | Some doc => if nonempty (d_html doc) then match parse_forex doc with Ok l => l | Exn _ => [] end else []
  | None => []
  end.

(** ** The table *)

(** A value: NUMERIC(20, 6), which also holds NaN. *)
Record MacroIndicator := mkMacro { mi_date : Z; mi_indicator : string; mi_value : xdec }.

Definition indicator_whitelist : list string :=
  ["kibor_1m"; "kibor_3m"; "kibor_6m"; "kibor_12m"; "sbp_policy_rate"; "pkr_usd"; "brent_usd"; "gold_pkr_per_tola"]%string.

(** [float(point.value)] *)
Definition value_column (v : xdec) : res xdec :=
  match v with
  | NaN => Ok NaN
  | Inf _ => Exn DataError
  | Fin d => let! x := numeric_of_exact 20 6 (float_of_dec d) in Ok (Fin x)
  end.

Definition same_point (new old : MacroIndicator) : bool :=
  (String.eqb (mi_indicator old) (mi_indicator new) && (mi_date old =? mi_date new))%bool.

Definition put_point (new : MacroIndicator) (l : list MacroIndicator) : list MacroIndicator :=
  if existsb (same_point new) l then map (fun old => if same_point new old then new else old) l else (l ++ [new])%list.

Definition _upsert_point (p : MacroPoint) : M (session (list MacroIndicator)) bool :=
  execute (fun db =>
    let! value := value_column (mp_value p) in
    if negb (varchar 40 (mp_indicator p)) then Exn DataError
    else if negb (existsb (String.eqb (mp_indicator p)) indicator_whitelist) then Exn IntegrityError
    else let new := mkMacro (mp_date p) (mp_indicator p) value in
         Ok (put_point new db, negb (existsb (same_point new) db))).

Record MacroSummary := mkMacroSummary { ms_fetched : Z; ms_inserted : Z; ms_updated : Z; ms_errors : Z }.

Definition ingest_point (p : MacroPoint) : M (ingest (list MacroIndicator) MacroSummary) unit :=
  catching
    (let* was_new := on_session (_upsert_point p) in
     tally (fun s => if was_new : bool then mkMacroSummary (ms_fetched s) (ms_inserted s + 1) (ms_updated s) (ms_errors s)
                     else mkMacroSummary (ms_fetched s) (ms_inserted s) (ms_updated s + 1) (ms_errors s)))
    (tally (fun s => mkMacroSummary (ms_fetched s) (ms_inserted s) (ms_updated s) (ms_errors s + 1))).

(** The daily task: the two pages of the bank, then the exchange rates. *)
Definition _run (today : Z) (kibor policy m2m : option document) (db : list MacroIndicator) : list MacroIndicator * MacroSummary :=
  let points := (sbp_points today kibor policy ++ forex_points m2m)%list in
  let '(st, _) := for_each ingest_point points (mkIngest (begin_session db) (mkMacroSummary (Z.of_nat (length points)) 0 0 0)) in
  (commit db (in_session st), in_summary st).

(** ** The API *)

Definition SUPPORTED_INDICATORS : list (string * string * string * string) :=
  [("kibor_1m", "KIBOR 1M", "%", "rates"); ("kibor_3m", "KIBOR 3M", "%", "rates"); ("kibor_6m", "KIBOR 6M", "%", "rates");
   ("kibor_12m", "KIBOR 12M", "%", "rates"); ("sbp_policy_rate", "SBP Policy Rate", "%", "rates"); ("pkr_usd", "PKR/USD", "PKR", "fx");
   ("brent_usd", "Brent Crude (USD)", "USD", "commodities"); ("gold_pkr_per_tola", "Gold (PKR/tola)", "PKR", "commodities")]%string.

Definition float_of_xdec (v : xdec) : float :=
  match v with Fin d => float_of_dec d | Inf s => S754_infinity s | NaN => S754_nan end.

Definition in_range (date_from date_to : option Z) (d : Z) : bool :=
  (match date_from with Some a => a <=? d | None => true end && match date_to with Some b => d <=? b | None => true end)%bool.

Definition series (db : list MacroIndicator) (indicator : string) (date_from date_to : option Z) : list (string * float) :=
  map (fun r => (isoformat (mi_date r), float_of_xdec (mi_value r)))
    (sort_by (fun a b => mi_date a <=? mi_date b)
       (List.filter (fun r => (String.eqb (mi_indicator r) indicator && in_range date_from date_to (mi_date r))%bool) db)).

(** [GET /macro/series/{indicator}] *)
Definition get_series (db : list MacroIndicator) (indicator : string) (date_from date_to : option Z) : res (list (string * float)) :=
  if existsb (String.eqb indicator) (map (fun i => i.1.1.1) SUPPORTED_INDICATORS) then Ok (series db indicator date_from date_to)
  else Exn (ServiceError 400).

(** ** A run *)

Definition point_key (r : MacroIndicator) : string * Z := (mi_indicator r, mi_date r).
Definition series_ok (db : list MacroIndicator) : Prop := NoDup (map point_key db).

(** The value of an indicator on a day. *)
Definition value_at (db : list MacroIndicator) (indicator : string) (d : Z) : option xdec :=
  option_map mi_value (List.find (fun r => (String.eqb (mi_indicator r) indicator && (mi_date r =? d))%bool) db).

Definition stored_point (p : MacroPoint) : res MacroIndicator :=
  let! value := value_column (mp_value p) in Ok (mkMacro (mp_date p) (mp_indicator p) value).

Lemma same_point_key new old : same_point new old = true <-> point_key old = point_key new.
Proof.
  unfold same_point, point_key. rewrite andb_true_iff, String.eqb_eq, Z.eqb_eq. split; [by intros [-> ->]|by intros [= -> ->]].
Qed.

Lemma put_point_ok new db : series_ok db -> series_ok (put_point new db).
Proof.
  unfold series_ok, put_point. intros Hdb. destruct (existsb (same_point new) db) eqn:E.
  - rewrite map_map. erewrite map_ext; [exact Hdb|]. intros old. destruct (same_point new old) eqn:Es; [|done]. by apply same_point_key in Es.
  - rewrite map_app. apply NoDup_snoc; [done|]. intros (old & Hk & Hin)%list_elem_of_fmap. apply not_true_iff_false in E.
    apply E, existsb_exists. exists old. rewrite <- list_elem_of_In, same_point_key. done.
Qed.

Lemma value_at_iff db indicator d v : series_ok db ->
  value_at db indicator d = Some v <-> mkMacro d indicator v ∈ db.
Proof.
  intros Hdb. unfold value_at. split.
  - destruct (List.find _ db) as [r|] eqn:E; [|done]. intros [= <-]. apply find_some in E as [Hin Hk].
    apply andb_true_iff in Hk as [<-%String.eqb_eq <-%Z.eqb_eq]. rewrite list_elem_of_In. by destruct r.
  - intros Hin. assert (E : List.filter (fun r => (String.eqb (mi_indicator r) indicator && (mi_date r =? d))%bool) db = [mkMacro d indicator v]).
    { apply (filter_key point_key); [done|done|]. intros r. unfold point_key. cbn [mi_indicator mi_date].
      rewrite andb_true_iff, String.eqb_eq, Z.eqb_eq. split; [by intros [-> ->]|by intros [= -> ->]]. }
    clear Hdb Hin. induction db as [|r db IH]; [done|]. cbn [List.filter List.find] in *. destruct (_ && _)%bool; [by injection E as -> _|by apply IH].
Qed.

(** A point decides its own day only. *)
Lemma put_value_at new db indicator d : series_ok db ->
  value_at (put_point new db) indicator d
  = if (String.eqb (mi_indicator new) indicator && (mi_date new =? d))%bool then Some (mi_value new) else value_at db indicator d.
Proof.
  intros Hdb. pose proof (put_point_ok new db Hdb) as Hdb'.
  assert (Hin : forall r, r ∈ put_point new db <-> r = new \/ (r ∈ db /\ point_key r <> point_key new)).
  { intros r. unfold put_point. destruct (existsb (same_point new) db) eqn:E.
    - rewrite list_elem_of_fmap. split.
      + intros (old & -> & Ho). destruct (same_point new old) eqn:Es; [by left|right]. split; [done|]. rewrite <- same_point_key. by rewrite Es.
      + intros [->|[Hr Hk]].
        * apply existsb_exists in E as (old & Ho & Hs). exists old. rewrite Hs, list_elem_of_In. done.
        * exists r. split; [|done]. destruct (same_point new r) eqn:Es; [|done]. by apply same_point_key in Es.
    - rewrite elem_of_app, list_elem_of_singleton. split; [|by intros [->|[Hr _]]; [right|left]]. intros [Hr| ->]; [right|by left]. split; [done|].
      intros Hk. apply not_true_iff_false in E. apply E, existsb_exists. exists r. rewrite <- list_elem_of_In, same_point_key. done. }
  destruct (_ && _)%bool eqn:Ek.
  - apply andb_true_iff in Ek as [<-%String.eqb_eq <-%Z.eqb_eq]. apply value_at_iff; [done|]. apply Hin. left. by destruct new.
  - assert (Hne : forall v, point_key (mkMacro d indicator v) <> point_key new).
    { intros v [= E1 E2]. subst. by rewrite String.eqb_refl, Z.eqb_refl in Ek. }
    destruct (value_at db indicator d) as [v|] eqn:Ev.
    + apply value_at_iff in Ev; [|done]. apply value_at_iff; [done|]. apply Hin. by right.
    + destruct (value_at (put_point new db) indicator d) as [v|] eqn:Ev'; [|done]. apply value_at_iff in Ev'; [|done].
      apply Hin in Ev' as [E|[Hr _]]; [by destruct (Hne v); rewrite E|]. apply value_at_iff in Hr; [congruence|done].
Qed.

(** What the scrapers name is on the list. *)
Definition named (p : MacroPoint) : Prop := varchar 40 (mp_indicator p) = true /\ existsb (String.eqb (mp_indicator p)) indicator_whitelist = true.

Lemma kibor_named observed headers : forall cells, Forall named (kibor_points observed headers cells).
Proof.
  induction headers as [|h headers IH]; intros cells; cbn [kibor_points]; [constructor|].
  destruct (column_slug h) as [slug|] eqn:Es; [|apply IH]. destruct (head cells) as [cell|]; [|apply IH].
  destruct (kibor_value cell) as [v|]; [|apply IH]. constructor; [|apply IH]. unfold named. cbn [mp_indicator].
  unfold column_slug, _KIBOR_COLUMN_MAP in Es. cbn [fold_left fst snd] in Es. repeat destruct (contains_text _ _); first [discriminate Es|by injection Es as <-].
Qed.

Lemma forex_named doc : Forall named (forex_points doc).
Proof.
  unfold forex_points. destruct doc as [doc|]; [|constructor]. destruct (nonempty _); [|constructor]. unfold parse_forex.
  destruct (List.find _ _) as [t|]; [|constructor]. induction (drop 1 (t_rows t)) as [|row rows IH]; cbn [forex_rows]; [constructor|].
  destruct row as [|c0 [|c1 [|c2 cs]]]; try exact IH. destruct (decimal_of_str _) as [bid|]; [|exact IH].
  destruct (decimal_of_str _) as [offer|]; [|exact IH]. destruct (_try_parse_date c0) as [o|]; [|exact IH].
  destruct (xadd bid offer); [|constructor]. destruct (half_quantized _); [|constructor]. by repeat constructor.
Qed.

Lemma points_named today kibor policy m2m : Forall named (sbp_points today kibor policy ++ forex_points m2m).
Proof.
  repeat apply list.Forall_app_2; [| |apply forex_named].
  - unfold _fetch_kibor. destruct kibor as [doc|]; [|constructor]. destruct (nonempty _); [|constructor]. unfold _parse_kibor.
    destruct (List.find _ _) as [t|]; [|constructor]. destruct (drop 1 _) as [|[|c cs] ?]; [constructor..|].
    destruct (_parse_sbp_date c); [apply kibor_named|constructor].
  - unfold _fetch_policy_rate. destruct policy as [doc|]; [|constructor]. destruct (search _ _); [|constructor].
    destruct (decimal_of_str _); repeat constructor.
Qed.

Definition counted (was_new : bool) (s : MacroSummary) : MacroSummary :=
  if was_new then mkMacroSummary (ms_fetched s) (ms_inserted s + 1) (ms_updated s) (ms_errors s)
  else mkMacroSummary (ms_fetched s) (ms_inserted s) (ms_updated s + 1) (ms_errors s).
Definition failed (s s' : MacroSummary) : Prop := s' = mkMacroSummary (ms_fetched s) (ms_inserted s) (ms_updated s) (ms_errors s + 1).

Definition point_step (st : list MacroIndicator * MacroSummary) (p : MacroPoint) : res (list MacroIndicator * MacroSummary) :=
  if (varchar 40 (mp_indicator p) && existsb (String.eqb (mp_indicator p)) indicator_whitelist)%bool then
    let! new := stored_point p in
    Ok (put_point new st.1, counted (negb (existsb (same_point new) st.1)) st.2)
  else Exn DataError.

Lemma ingest_point_step db s p :
  exists st, ingest_point p (mkIngest (begin_session db) s) = (st, Ok tt) /\
    match point_step (db, s) p with
    | Ok (db', s') => st = mkIngest (begin_session db') s' /\ True
    | Exn _ => aborted (in_session st) = true /\ failed s (in_summary st)
    end.
Proof.
  unfold ingest_point, catching, bindM, on_session, _upsert_point, execute, begin_session, point_step, stored_point. cbn [in_session in_summary aborted view fst snd].
  destruct (varchar 40 (mp_indicator p)); cbn [andb negb].
  - destruct (existsb _ indicator_whitelist); cbn [negb].
    + destruct (value_column (mp_value p)) as [v|]; [|eexists; split; [reflexivity|done]]. destruct (existsb _ db); (eexists; split; [reflexivity|done]).
    + destruct (value_column (mp_value p)) as [v|]; (eexists; split; [reflexivity|done]).
  - destruct (value_column (mp_value p)) as [v|]; (eexists; split; [reflexivity|done]).
Qed.

Lemma ingest_point_refused st p :
  aborted (in_session st) = true ->
  exists st', ingest_point p st = (st', Ok tt) /\ aborted (in_session st') = true /\ failed (in_summary st) (in_summary st').
Proof. intros Ha. unfold ingest_point, catching, bindM, on_session, _upsert_point, execute. rewrite Ha. by eexists. Qed.

Definition tallied (s : MacroSummary) : Z := ms_inserted s + ms_updated s + ms_errors s.

Lemma failures n : forall s s', nsteps failed n s s' -> ms_errors s' = ms_errors s + Z.of_nat n /\ tallied s' = tallied s + Z.of_nat n
  /\ ms_fetched s' = ms_fetched s.
Proof.
  induction n as [|n IH]; intros s s' H; inversion H as [|? ? s1 ? E Hr]; subst; [lia|]. apply IH in Hr. rewrite E in Hr.
  unfold tallied in *. cbn [ms_fetched ms_inserted ms_updated ms_errors] in *. lia.
Qed.

(** The fold of the steps: the points put one by one. *)
Lemma point_steps points : forall db s, Forall named points ->
  match map_res stored_point points with
  | Ok rows => exists s', fold_res point_step (db, s) points = Ok (fold_left (fun db new => put_point new db) rows db, s')
      /\ tallied s' = tallied s + Z.of_nat (length points) /\ ms_fetched s' = ms_fetched s /\ ms_errors s' = ms_errors s
  | Exn e => fold_res point_step (db, s) points = Exn e
  end.
Proof.
  induction points as [|p points IH]; intros db s Hp; cbn [map_res fold_res]; [exists s; cbn; split; [done|lia]|].
  inversion_clear Hp as [|? ? [H1 H2] Hp']. unfold point_step at 1 3. rewrite H1, H2. cbn [andb fst snd]. destruct (stored_point p) as [new|]; [|done].
  specialize (IH (put_point new db) (counted (negb (existsb (same_point new) db)) s) Hp'). destruct (map_res stored_point points) as [rows|]; [|done].
  destruct IH as (s' & E & It & If & Ie). exists s'. rewrite E. cbn [fold_left length]. split; [done|].
  assert (tallied (counted (negb (existsb (same_point new) db)) s) = tallied s + 1
          /\ ms_fetched (counted (negb (existsb (same_point new) db)) s) = ms_fetched s
          /\ ms_errors (counted (negb (existsb (same_point new) db)) s) = ms_errors s).
  { unfold tallied, counted. destruct (negb _); cbn [ms_fetched ms_inserted ms_updated ms_errors]; lia. }
  lia.
Qed.

(** The last of the points for the day, or else what was there. *)
Definition published_value (rows : list MacroIndicator) (indicator : string) (d : Z) (old : option xdec) : option xdec :=
  fold_left (fun v new => if (String.eqb (mi_indicator new) indicator && (mi_date new =? d))%bool then Some (mi_value new) else v) rows old.

Lemma put_points_values rows : forall db indicator d, series_ok db ->
  series_ok (fold_left (fun db new => put_point new db) rows db)
  /\ value_at (fold_left (fun db new => put_point new db) rows db) indicator d = published_value rows indicator d (value_at db indicator d).
Proof.
  induction rows as [|new rows IH]; intros db indicator d Hdb; cbn [fold_left]; [done|].
  destruct (IH (put_point new db) indicator d (put_point_ok new db Hdb)) as [H1 H2]. split; [done|]. rewrite H2.
  unfold published_value. cbn [fold_left]. by rewrite put_value_at.
Qed.

(** What a run does to the table and its counts. *)
Lemma macro_run_spec today kibor policy m2m db :
  series_ok db ->
  let '(db', s) := _run today kibor policy m2m db in
  let points := (sbp_points today kibor policy ++ forex_points m2m)%list in
  series_ok db' /\ ms_fetched s = Z.of_nat (length points) /\ tallied s = Z.of_nat (length points)
  /\ match map_res stored_point points with
     | Ok rows => ms_errors s = 0 /\ forall indicator d, value_at db' indicator d = published_value rows indicator d (value_at db indicator d)
     | Exn _ => 0 < ms_errors s /\ db' = db
     end.
Proof.
  intros Hdb. unfold _run. pose proof (points_named today kibor policy m2m) as Hn. set (points := (_ ++ _)%list) in *.
  set (s0 := mkMacroSummary _ 0 0 0).
  destruct (batch_refines ingest_point point_step (fun _ => True) failed) with (items := points) (db := db) (s := s0) as (st & E & H);
    [intros; by apply ingest_point_step|by apply ingest_point_refused|done|].
  rewrite E. pose proof (point_steps points db s0 Hn) as Hsteps. destruct (map_res stored_point points) as [rows|e].
  - destruct Hsteps as (s' & E' & Ht & Hf & He). rewrite E' in H. destruct H as [-> _]. unfold commit. cbn [in_session in_summary begin_session aborted view].
    pose proof (fun i d => put_points_values rows db i d Hdb) as Hv. split; [apply (Hv "pkr_usd"%string 0)|]. split; [exact Hf|].
    split; [rewrite Ht; unfold s0, tallied; cbn; lia|]. split; [exact He|]. intros i d. apply Hv.
  - rewrite Hsteps in H. destruct H as (Ha & pre & p & later & db1 & s1 & s2 & Ep & Hpre & Hs2 & Hl). unfold commit. rewrite Ha.
    assert (Hnp : Forall named pre) by (rewrite Ep in Hn; by apply Forall_app in Hn as [? _]).
    pose proof (point_steps pre db s0 Hnp) as Hp. destruct (map_res stored_point pre) as [rows|]; [|congruence].
    destruct Hp as (s' & Ep' & Ht & Hf & He). rewrite Hpre in Ep'. injection Ep' as -> ->. apply failures in Hl. unfold failed in Hs2.
    subst s2. unfold tallied, s0 in *. cbn [ms_fetched ms_inserted ms_updated ms_errors] in *. rewrite Ep, length_app. cbn [length]. 
    split; [done|]. split; [rewrite Ep, length_app in *; cbn [length] in *; lia|]. split; [lia|]. split; [lia|done].
Qed.

(** ** The series *)

(** The rows behind a series: its days in order, each with its value. *)
Lemma series_spec db indicator date_from date_to :
  series_ok db ->
  exists rows, series db indicator date_from date_to = map (fun r => (isoformat r.1, float_of_xdec r.2)) rows
    /\ StronglySorted (fun a b => a.1 < b.1) rows
    /\ forall d v, (d, v) ∈ rows <-> value_at db indicator d = Some v /\ in_range date_from date_to d = true.
Proof.
  intros Hdb. unfold series. set (sel := List.filter _ db). set (rows := sort_by _ sel).
  exists (map (fun r => (mi_date r, mi_value r)) rows). split; [by rewrite map_map|].
  assert (Hsel : forall r, r ∈ rows <-> r ∈ db /\ mi_indicator r = indicator /\ in_range date_from date_to (mi_date r) = true).
  { intros r. unfold rows. rewrite elem_of_sort_by. unfold sel. rewrite elem_of_lfilter, andb_true_iff, String.eqb_eq. done. }
  split.
  - assert (Hs : StronglySorted (fun a b => (mi_date a <=? mi_date b) = true) rows) by (apply sort_by_sorted; intros *; rewrite ?Z.leb_le; lia).
    assert (Hnd : NoDup (map point_key rows)).
    { unfold rows. rewrite sort_by_perm. unfold sel. clear -Hdb. unfold series_ok in Hdb. induction db as [|r db IH]; [constructor|].
      cbn [map] in Hdb. apply list.NoDup_cons in Hdb as [Hr Hdb]. cbn [List.filter]. destruct (_ && _)%bool; [|by apply IH].
      cbn [map]. apply list.NoDup_cons. split; [|by apply IH]. intros (x & E & Hx)%list_elem_of_fmap. apply Hr. rewrite E.
      apply list_elem_of_fmap_2. by apply elem_of_lfilter in Hx as [? _]. }
    assert (Hi : Forall (fun r => mi_indicator r = indicator) rows) by (apply list.Forall_forall; intros r Hr; by apply Hsel in Hr as (_ & ? & _)).
    clear Hsel. clearbody rows. induction Hs as [|r rows Hs IH Hr]; [constructor|]. cbn [map] in *.
    apply list.NoDup_cons in Hnd as [Hnr Hnd]. inversion_clear Hi as [|? ? Hir Hi']. constructor; [by apply IH|].
    apply list.Forall_forall. intros x (y & -> & Hy)%list_elem_of_fmap. cbn [fst].
    pose proof (proj1 (list.Forall_forall _ _) Hr y Hy) as Hle. pose proof (proj1 (list.Forall_forall _ _) Hi' y Hy) as Hiy. cbn beta in Hle, Hiy. zbool.
    destruct (Z.eq_dec (mi_date r) (mi_date y)) as [E|]; [|lia]. exfalso. apply Hnr. replace (point_key r) with (point_key y) by (unfold point_key; congruence).
    by apply list_elem_of_fmap_2.
  - intros d v. rewrite list_elem_of_fmap, value_at_iff by done. split.
    + intros (r & [= -> ->] & (Hr & <- & Hd)%Hsel). split; [by destruct r|done].
    + intros [Hin Hd]. exists (mkMacro d indicator v). split; [done|]. by apply Hsel.
Qed.

(** C40: From the pages to the chart.  A daily run counts every point it read.  When the
    database takes them all, the API's series of an indicator then has its days in
    order, each once, with the last value the pages gave for the day and the old value
    where they gave none; when it refuses one, the series are what they were and an
    error is counted. *)
Theorem published today kibor policy m2m db indicator date_from date_to :
  series_ok db -> indicator ∈ indicator_whitelist ->
  let '(db', s) := _run today kibor policy m2m db in
  let points := (sbp_points today kibor policy ++ forex_points m2m)%list in
  let stored := map_res stored_point points in
  series_ok db' /\ ms_fetched s = Z.of_nat (length points) /\ tallied s = Z.of_nat (length points)
  /\ (ms_errors s = 0 <-> is_ok stored = true)
  /\ exists rows, get_series db' indicator date_from date_to = Ok (map (fun r => (isoformat r.1, float_of_xdec r.2)) rows)
       /\ StronglySorted (fun a b => a.1 < b.1) rows
       /\ forall d v, (d, v) ∈ rows <->
            match stored with Ok new => published_value new indicator d (value_at db indicator d) | Exn _ => value_at db indicator d end = Some v
            /\ in_range date_from date_to d = true.
Proof.
  intros Hdb Hi. pose proof (macro_run_spec today kibor policy m2m db Hdb) as H. destruct (_run today kibor policy m2m db) as [db' s].
  cbv zeta in *. destruct H as (H1 & H2 & H3 & H4). split; [done|]. split; [done|]. split; [done|]. split.
  { destruct (map_res stored_point _) as [new|]; destruct H4 as [He _]; cbn [is_ok]; [done|]. split; [lia|done]. }
  destruct (series_spec db' indicator date_from date_to H1) as (rows & E & Hs & Hv). exists rows. unfold get_series.
  change (map (fun i => i.1.1.1) SUPPORTED_INDICATORS) with indicator_whitelist. rewrite (proj2 (mem_text _ _) Hi), E.
  split; [done|]. split; [done|]. intros d v. rewrite Hv. destruct (map_res stored_point _) as [new|]; destruct H4 as [_ H4]; [by rewrite H4|by rewrite H4].
Qed.

(** ** Examples *)

Module macro_sample.
Definition kibor : document :=
  mkDocument "<html>" [mkTable ["News"]%string []; mkTable ["Date"; "1-Week"; "1-Month"; "3-Month"; "1-Year"]%string
    [[]; ["Tue, 12-May-2026"; "11.10%"; "11.25%"; "n/a"; "11.5"]; ["11-May-2026"; "1"; "2"; "3"; "4"]]%string].
Definition policy : document := mkDocument "<p>Current policy rate : 11.00 % p.a.</p>" [].
Definition m2m : document :=
  mkDocument "<html>" [mkTable ["Date"; "Bid"; "Offer"]%string [[]; ["Total"; "-"; "-"]; ["12-May-2026"; "1,281.50"; "1,281.61"]]%string].

Example a_day :
  _run 739749 (Some kibor) (Some policy) (Some m2m) [mkMacro 739748 "pkr_usd" (Fin (mkdec 1 0)); mkMacro 739748 "kibor_1m" (Fin (mkdec 1 0))]
  = ([mkMacro 739748 "pkr_usd" (Fin (mkdec 1281555000 (-6))); mkMacro 739748 "kibor_1m" (Fin (mkdec 11250000 (-6)));
      mkMacro 739748 "kibor_12m" (Fin (mkdec 11500000 (-6))); mkMacro 739749 "sbp_policy_rate" (Fin (mkdec 11000000 (-6)))],
     mkMacroSummary 4 2 2 0).
Proof. vm_compute. reflexivity. Qed.

(** Without its own page the policy rate is missing, whatever KIBOR is. *)
Example no_policy : map mp_indicator (sbp_points 739749 (Some kibor) None) = ["kibor_1m"; "kibor_12m"]%string.
Proof. vm_compute. reflexivity. Qed.

(** An infinite rate is sent to the server, and with it the day is lost. *)
Definition bad_kibor : document := mkDocument "<html>" [mkTable ["Date"; "1-Month"]%string [[]; ["12-May-2026"; "inf"]]%string].
Example infinite_rate : _run 739749 (Some bad_kibor) (Some policy) (Some m2m) [] = ([], mkMacroSummary 3 0 0 3).
Proof. vm_compute. reflexivity. Qed.
End macro_sample.

Lemma published_witness : exists rows, get_series (_run 739749 (Some macro_sample.kibor) (Some macro_sample.policy) (Some macro_sample.m2m) []).1 "pkr_usd" None None
  = Ok (map (fun r => (isoformat r.1, float_of_xdec r.2)) rows).
Proof.
  pose proof (published 739749 (Some macro_sample.kibor) (Some macro_sample.policy) (Some macro_sample.m2m) [] "pkr_usd" None None
    (NoDup_nil_2) (proj1 (mem_text "pkr_usd" indicator_whitelist) eq_refl)) as K.
  destruct (_run 739749 (Some macro_sample.kibor) (Some macro_sample.policy) (Some macro_sample.m2m) []) as [db' s].
  destruct K as (_ & _ & _ & _ & rows & E & _). exists rows. exact E.
Defined.
