(* ===== verification/IngestCorrect.v ===== *)
(** * IngestCorrect: which days are asked for, and which prices are kept

    [range_correct]: a range of dates is cut into months that follow one another, and
    its rows are those of the months in order, each valid and of a day of its month.
    [eod_correct]: after a night, a symbol's prices are the old ones with the day's
    rows written over them, or the old ones. *)

From S2P Require Import Prelude Dates Decimal PyText Market Calendar Ingest.

(** ** Months *)

Definition month_of (d : Z) : Z * Z := (ymd_of d).1.

(** The first of December 9999: the month after has no date. *)
Definition last_month : Z := 3652029.

Lemma month_day_new y m d ord k :
  date_new y m d = Ok ord -> 1 <= k <= days_in_month y m -> date_new y m k = Ok (ord + (k - d)).
Proof.
  intros H Hk. unfold date_new in *. destruct (_ && _)%bool eqn:E in H; [|done]. injection H as <-.
  rewrite !andb_true_iff in E. zbool. rewrite !(proj2 (Z.leb_le _ _)) by lia. cbn [andb]. f_equal. lia.
Qed.

(** The days from a date to the end of its month, and the day after. *)
Lemma month_end ord : 1 <= ord < last_month ->
  let '(y, m, _) := ymd_of ord in
  exists next, (if m =? 12 then date_new (y + 1) 1 1 else date_new y (m + 1) 1) = Ok next
    /\ ord < next <= last_month /\ (forall d, ord <= d < next -> month_of d = month_of ord) /\ month_of next <> month_of ord.
Proof.
  intros [Ho Hlast]. unfold last_month in *. pose proof (date_new_ymd ord ltac:(unfold max_date; lia)) as Hnew.
  pose proof (ymd_range ord ltac:(unfold max_date; lia)) as Hr. unfold month_of at 2 4.
  destruct (ymd_of ord) as [[y m] d] eqn:E. cbn [fst]. destruct Hr as (Hy & Hm & Hd).
  destruct (ymd_of_new _ _ _ _ Hnew) as [_ Heq].
  set (next := ord - d + days_in_month y m + 1).
  assert (Hnext : (if m =? 12 then date_new (y + 1) 1 1 else date_new y (m + 1) 1) = Ok next).
  { destruct (Z.eqb_spec m 12) as [->|Hm12].
    - assert (y <> 9999). { intros ->. change (days_before_year 9999 + days_before_month 9999 12) with 3652028 in Heq. lia. }
      unfold date_new. rewrite !(proj2 (Z.leb_le _ _)) by (try change (days_in_month (y + 1) 1) with 31; lia). cbn [andb]. f_equal.
      change (days_before_month (y + 1) 1) with 0. pose proof (year_length y). unfold next. change (days_in_month y 12) with 31. lia.
    - unfold date_new. pose proof (days_in_month_pos y (m + 1)). rewrite !(proj2 (Z.leb_le _ _)) by lia. cbn [andb]. f_equal.
      rewrite days_before_month_next by lia. unfold next. lia. }
  exists next. split; [exact Hnext|].
  assert (Hlt : next <= 3652029).
  { destruct (Z.eq_dec y 9999) as [->|]; [|].
    - assert (Hm11 : m <= 11).
      { destruct (Z.eq_dec m 12) as [->|]; [|lia]. change (days_before_year 9999 + days_before_month 9999 12) with 3652028 in Heq. lia. }
      pose proof (days_before_month_mono 9999 (m + 1) 12 ltac:(lia)) as Hmono. rewrite days_before_month_next in Hmono by lia.
      change (days_before_month 9999 12) with 334 in Hmono. change (days_before_year 9999) with 3651694 in Heq. unfold next. lia.
    - pose proof (year_length y). pose proof (days_before_month_mono y m 12 ltac:(lia)).
      assert (Hb : days_before_month y m + days_in_month y m <= days_before_month y 12 + 31).
      { destruct (Z.eq_dec m 12) as [->|]; [change (days_in_month y 12) with 31; lia|].
        pose proof (days_before_month_mono y (m + 1) 12 ltac:(lia)) as Hmono. rewrite days_before_month_next in Hmono by lia. lia. }
      assert (days_before_year (y + 1) <= days_before_year 9999) by (unfold days_before_year; Z.to_euclidean_division_equations; lia).
      change (days_before_year 9999) with 3651694 in *. unfold next. lia. }
  split; [split; [unfold next; lia|exact Hlt]|]. split.
  - intros x Hx. unfold month_of. pose proof (month_day_new _ _ _ _ (d + (x - ord)) Hnew ltac:(unfold next in Hx; lia)) as Hn.
    replace (ord + (d + (x - ord) - d)) with x in Hn by lia. by rewrite (proj1 (ymd_of_new _ _ _ _ Hn)).
  - unfold month_of. destruct (Z.eqb_spec m 12) as [->|]; rewrite (proj1 (ymd_of_new _ _ _ _ Hnext)); cbn [fst]; intros [= ]; lia.
Qed.

(** ** Ranges *)

(** Windows from [a] to [b], each of days of one month, up to the end of the month. *)
Inductive chunked (b : Z) : Z -> list (Z * Z) -> Prop :=
| chunked_end a : b < a -> chunked b a []
| chunked_step a e l :
    a <= e <= b -> (forall d, a <= d <= e -> month_of d = month_of a) -> e = b \/ month_of (e + 1) <> month_of a ->
    chunked b (e + 1) l -> chunked b a ((a, e) :: l).

Lemma chunk_end_spec a b :
  1 <= a <= b -> b < last_month ->
  exists e, chunk_end a b = Ok e /\ a <= e <= b /\ (forall d, a <= d <= e -> month_of d = month_of a)
    /\ (e = b \/ month_of (e + 1) <> month_of a).
Proof.
  intros Ha Hb. pose proof (month_end a ltac:(lia)) as Hm. unfold chunk_end. destruct (ymd_of a) as [[y m] d].
  destruct Hm as (next & -> & Hn & Hsame & Hdiff). exists (Z.min (next - 1) b). split; [done|]. split; [lia|]. split.
  - intros x Hx. apply Hsame. lia.
  - destruct (Z.le_gt_cases (next - 1) b); [|left; lia]. right. rewrite Z.min_l by lia. by replace (next - 1 + 1) with next by lia.
Qed.

Definition windows (server : Server) (symbol : string) (l : list (Z * Z)) : res (list (list OhlcvRow)) :=
  map_res (fun c => fetch_window server symbol c.1 c.2) l.

Lemma range_loop_spec server symbol b : forall fuel a rows,
  1 <= a -> b < last_month -> (Z.to_nat (b - a + 1) <= fuel)%nat ->
  exists l, chunked b a l /\
    range_loop fuel server symbol a b rows = (let! found := windows server symbol l in Ok (rows ++ concat found)%list).
Proof.
  induction fuel as [|fuel IH]; intros a rows Ha Hb Hf; cbn [range_loop].
  - exists []. rewrite (proj2 (Z.ltb_lt b a)) by lia. split; [constructor; lia|]. cbn. by rewrite app_nil_r.
  - destruct (b <? a) eqn:E; zbool.
    + exists []. split; [by constructor|]. cbn. by rewrite app_nil_r.
    + destruct (chunk_end_spec a b ltac:(lia) Hb) as (e & -> & He & Hsame & Hend).
      specialize (IH (e + 1)). destruct (fetch_window server symbol a e) as [found|x] eqn:Ew.
      * destruct (IH (rows ++ found)%list ltac:(lia) Hb ltac:(lia)) as (l & Hl & ->). exists ((a, e) :: l).
        split; [by constructor|]. unfold windows. cbn [map_res fst snd]. rewrite Ew.
        destruct (map_res _ l) as [ll|]; [|done]. cbn [concat]. by rewrite <- app_assoc.
      * destruct (IH rows ltac:(lia) Hb ltac:(lia)) as (l & Hl & _). exists ((a, e) :: l).
        split; [by constructor|]. unfold windows. cbn [map_res fst snd]. by rewrite Ew.
Qed.

(** What a window lets through. *)
Definition valid_row (from_date to_date : Z) (symbol : string) (row : OhlcvRow) : Prop :=
  r_symbol row = upper symbol /\ from_date <= r_date row <= to_date
  /\ (forall v, r_volume row = Some v -> 0 <= v) /\ zero_price (r_open row) = false /\ r_value_pkr row = None.

Lemma validate_ok row : _validate_row row = Ok tt -> (forall v, r_volume row = Some v -> 0 <= v) /\ zero_price (r_open row) = false.
Proof.
  unfold _validate_row. destruct (r_volume row) as [v|] eqn:Ev.
  - destruct (v <? 0) eqn:E; [done|]. zbool. destruct (zero_price _); [done|]. intros _. split; [by intros ? [= <-]|done].
  - destruct (zero_price _); [done|]. by intros _.
Qed.

Lemma parse_row_fields symbol raw row : _parse_row symbol raw = Ok row -> r_symbol row = upper symbol /\ r_value_pkr row = None.
Proof. unfold _parse_row. destruct (row_date raw); [|done]. destruct (_int _); [|done]. by intros [= <-]. Qed.

Lemma parse_and_validate_rows symbol raws a b : forall rows,
  _parse_and_validate symbol raws a b = Ok rows -> Forall (valid_row a b symbol) rows.
Proof.
  induction raws as [|raw raws IH]; intros rows; cbn [_parse_and_validate]; [intros [= <-]; constructor|].
  destruct (_parse_row symbol raw) as [row|e] eqn:Er; [|by destruct (skipped e); [apply IH|]].
  destruct ((a <=? r_date row) && (r_date row <=? b))%bool eqn:Ed; cbn [negb].
  - destruct (_validate_row row) as [[]|e] eqn:Ev; [|by destruct (skipped e); [apply IH|]].
    destruct (_parse_and_validate symbol raws a b) as [rest|]; [|done]. intros [= <-]. constructor; [|by apply IH].
    apply andb_true_iff in Ed as [Ed1 Ed2]. zbool. destruct (validate_ok row Ev). destruct (parse_row_fields _ _ _ Er). done.
  - destruct (_parse_and_validate symbol raws a b) as [rest|]; [|done]. intros [= <-]. by apply IH.
Qed.

Lemma fetch_window_rows server symbol a b rows : fetch_window server symbol a b = Ok rows -> Forall (valid_row a b symbol) rows.
Proof. unfold fetch_window. destruct (_post_historical _ _ _ _); [|done]. apply parse_and_validate_rows. Qed.

(** C37: A range is asked for in windows that follow one another from its first day to
    its last, each of the days of one month: no day is asked for twice or left out.
    The loop ends, and its rows are those of the windows in order; the first window
    that fails is how the range fails.  Each row is of a day of its window, without a
    negative volume or an opening price of zero. *)
Theorem range_correct server symbol from_date to_date :
  1 <= from_date -> to_date < last_month ->
  exists l, chunked to_date from_date l /\
    fetch_ohlcv_range server symbol from_date to_date = (let! found := windows server symbol l in Ok (concat found))
    /\ forall found c rows, windows server symbol l = Ok found -> (c, rows) ∈ combine l found -> Forall (valid_row c.1 c.2 symbol) rows.
Proof.
  intros Hf Ht. destruct (range_loop_spec server symbol to_date (Z.to_nat (to_date - from_date + 1)) from_date [] Hf Ht ltac:(lia)) as (l & Hl & E).
  exists l. split; [exact Hl|]. split; [exact E|]. clear. unfold windows. induction l as [|c l IH]; intros found c' rows'; cbn [map_res].
  - intros [= <-] Hin. by apply not_elem_of_nil in Hin.
  - destruct (fetch_window server symbol c.1 c.2) as [rows|] eqn:Ew; [|done].
    destruct (map_res _ l) as [rest|] eqn:Er; [|done]. intros [= <-]. cbn [combine]. intros [[= -> ->]|Hin]%elem_of_cons.
    + by eapply fetch_window_rows.
    + by eapply IH.
Qed.

(** ** The nightly run *)

Definition price_key (p : PriceRow) : string * Z := (pr_symbol p, pr_date p).
Definition prices_of (symbol : string) (l : list PriceRow) : list PriceRow :=
  List.filter (fun p => String.eqb (pr_symbol p) symbol) l.

(** Listed once, in upper case; one price per day. *)
Record prices_ok (db : price_db) : Prop := {
  listed_once : NoDup (map l_symbol (pd_securities db));
  listed_upper : forall l, l ∈ pd_securities db -> upper (l_symbol l) = l_symbol l;
  one_price_a_day : NoDup (map price_key (pd_prices db));
}.

(** What a night has for a symbol: its rows as they are stored, or nothing. *)
Definition outcome (server : Server) (trade_date : Z) (db : price_db) (symbol : string) : option (list PriceRow) :=
  match (let! rows := fetch_ohlcv server symbol trade_date in map_res (bound_row db) rows) with
  | Ok bound => Some bound
  | Exn _ => None
  end.

Definition written (rows : list PriceRow) (l : list PriceRow) : list PriceRow := fold_left (fun l new => upsert_price new l) rows l.

Lemma same_day_key p q : same_day p q = true <-> price_key p = price_key q.
Proof.
  unfold same_day, price_key. rewrite andb_true_iff, String.eqb_eq, Z.eqb_eq. split; [by intros [-> ->]|by intros [= -> ->]].
Qed.

Lemma replaced_key old new : price_key (replaced old new) = price_key old.
Proof. done. Qed.

Lemma upsert_keys new l :
  map price_key (upsert_price new l)
  = if existsb (fun old => same_day old new) l then map price_key l else (map price_key l ++ [price_key new])%list.
Proof.
  induction l as [|old l IH]; [done|]. cbn [upsert_price existsb]. destruct (same_day old new); [done|]. cbn [map orb].
  rewrite IH. by destruct (existsb _ l).
Qed.

Lemma upsert_once new l : NoDup (map price_key l) -> NoDup (map price_key (upsert_price new l)).
Proof.
  intros Hl. rewrite upsert_keys. destruct (existsb _ l) eqn:E; [done|]. apply NoDup_snoc; [done|].
  intros (old & Hk & Hin)%list_elem_of_fmap. apply not_true_iff_false in E. apply E, existsb_exists. exists old.
  rewrite <- list_elem_of_In, same_day_key. done.
Qed.

(** A price is written among those of its symbol. *)
Lemma upsert_prices_of symbol new l :
  prices_of symbol (upsert_price new l)
  = if String.eqb (pr_symbol new) symbol then upsert_price new (prices_of symbol l) else prices_of symbol l.
Proof.
  unfold prices_of. induction l as [|old l IH]; cbn [upsert_price List.filter].
  - by destruct (String.eqb (pr_symbol new) symbol).
  - destruct (same_day old new) eqn:E.
    + cbn [List.filter replaced pr_symbol]. pose proof (proj1 (same_day_key _ _) E) as [= Hs _]. rewrite Hs.
      destruct (String.eqb (pr_symbol new) symbol) eqn:En; [|done]. cbn [upsert_price]. by rewrite E.
    + cbn [List.filter]. rewrite IH. destruct (String.eqb (pr_symbol new) symbol), (String.eqb (pr_symbol old) symbol); try done.
      cbn [upsert_price]. by rewrite E.
Qed.

Lemma written_prices_of symbol rows : forall l,
  Forall (fun p => pr_symbol p = symbol) rows ->
  prices_of symbol (written rows l) = written rows (prices_of symbol l)
  /\ forall other, other <> symbol -> prices_of other (written rows l) = prices_of other l.
Proof.
  induction rows as [|new rows IH]; intros l Hr; [done|]. inversion_clear Hr as [|? ? Hn Hr']. unfold written in *. cbn [fold_left].
  destruct (IH (upsert_price new l) Hr') as [H1 H2]. rewrite H1, upsert_prices_of, Hn, String.eqb_refl. split; [done|].
  intros other Ho. rewrite H2, upsert_prices_of, Hn by done. by rewrite (proj2 (String.eqb_neq symbol other)) by congruence.
Qed.

Lemma written_once rows : forall l, NoDup (map price_key l) -> NoDup (map price_key (written rows l)).
Proof. induction rows as [|new rows IH]; intros l Hl; [done|]. unfold written in *. cbn [fold_left]. by apply IH, upsert_once. Qed.

(** A price that was there keeps its adjusted close; one that was not is new. *)
Lemma upsert_keeps new l p : p ∈ l -> exists p', p' ∈ upsert_price new l /\ price_key p' = price_key p /\ pr_adjusted_close p' = pr_adjusted_close p.
Proof.
  induction l as [|old l IH]; [by intros ?%not_elem_of_nil|]. cbn [upsert_price]. intros [->|Hin]%elem_of_cons.
  - destruct (same_day old new) eqn:E; [exists (replaced old new)|exists old]; by repeat split; try left.
  - destruct (same_day old new); [exists p; split; [by right|done]|]. destruct (IH Hin) as (p' & Hp & Hk). exists p'. split; [by right|done].
Qed.

Lemma written_keeps rows : forall l p, p ∈ l ->
  exists p', p' ∈ written rows l /\ price_key p' = price_key p /\ pr_adjusted_close p' = pr_adjusted_close p.
Proof.
  induction rows as [|new rows IH]; intros l p Hp; [by exists p|]. unfold written in *. cbn [fold_left].
  destruct (upsert_keeps new l p Hp) as (p1 & H1 & Hk1 & Ha1). destruct (IH _ _ H1) as (p' & H' & Hk' & Ha').
  exists p'. by rewrite Hk', Ha', Hk1, Ha1.
Qed.

Lemma bound_row_key db r p : bound_row db r = Ok p -> price_key p = (r_symbol r, r_date r) /\ pr_adjusted_close p = None.
Proof.
  unfold bound_row. repeat (destruct (numeric _ _ _); [|done]). destruct (bigint _); [|done].
  repeat (destruct (numeric _ _ _); [|done]). destruct (existsb _ _); [|done]. by intros [= <-].
Qed.

(** The rows of a symbol's night are its own, of the day. *)
Lemma outcome_rows server trade_date db symbol bound :
  outcome server trade_date db symbol = Some bound ->
  Forall (fun p => pr_symbol p = upper symbol /\ pr_date p = trade_date /\ pr_adjusted_close p = None) bound.
Proof.
  unfold outcome, fetch_ohlcv. destruct (fetch_window server symbol trade_date trade_date) as [rows|] eqn:Ew; [|done].
  destruct (map_res (bound_row db) rows) as [b|] eqn:Eb; [|done]. intros [= <-].
  apply fetch_window_rows in Ew. apply map_res_Forall2 in Eb. induction Eb as [|r p rows b Hp Hb IH]; constructor.
  - inversion_clear Ew as [|? ? (Hs & Hd & _) _]. destruct (bound_row_key _ _ _ Hp) as [[= -> ->] ->]. rewrite Hs. split; [done|]. split; [lia|done].
  - inversion_clear Ew. by apply IH.
Qed.

(** One symbol of the run. *)
Lemma eod_symbol_spec server trade_date db s symbol :
  eod_symbol server trade_date (db, s) symbol
  = match outcome server trade_date db symbol with
    | Some bound => (mkPriceDb (pd_securities db) (written bound (pd_prices db)),
                     mkEod (symbols_ok s + 1) (symbols_err s) (rows_upserted s + Z.of_nat (length bound)))
    | None => (db, mkEod (symbols_ok s) (symbols_err s + 1) (rows_upserted s))
    end.
Proof.
  unfold eod_symbol, outcome. destruct (fetch_ohlcv server symbol trade_date) as [rows|]; [|done].
  destruct rows as [|r rows]; [by destruct db|]. unfold _upsert_rows, write_rows.
  pose proof (map_res_length (bound_row db) (r :: rows)) as Hl. destruct (map_res (bound_row db) (r :: rows)) as [b|]; [|done].
  by rewrite (Hl b eq_refl).
Qed.

Definition counted (server : Server) (trade_date : Z) (db : price_db) (good : bool) (symbols : list string) : Z :=
  Z.of_nat (length (List.filter (fun symbol => Bool.eqb good (match outcome server trade_date db symbol with Some _ => true | None => false end)) symbols)).

Lemma outcome_securities server trade_date db db' symbol :
  pd_securities db' = pd_securities db -> outcome server trade_date db' symbol = outcome server trade_date db symbol.
Proof. intros E. unfold outcome, bound_row. by rewrite E. Qed.

Lemma eod_fold server trade_date symbols : forall db s,
  NoDup symbols -> Forall (fun x => upper x = x) symbols ->
  let '(db', s') := fold_left (eod_symbol server trade_date) symbols (db, s) in
  pd_securities db' = pd_securities db
  /\ (NoDup (map price_key (pd_prices db)) -> NoDup (map price_key (pd_prices db')))
  /\ (forall symbol, prices_of symbol (pd_prices db')
        = if existsb (String.eqb symbol) symbols then written (default [] (outcome server trade_date db symbol)) (prices_of symbol (pd_prices db))
          else prices_of symbol (pd_prices db))
  /\ symbols_ok s' = symbols_ok s + counted server trade_date db true symbols
  /\ symbols_err s' = symbols_err s + counted server trade_date db false symbols
  /\ (forall p, p ∈ pd_prices db ->
        exists p', p' ∈ pd_prices db' /\ price_key p' = price_key p /\ pr_adjusted_close p' = pr_adjusted_close p).
Proof.
  induction symbols as [|x symbols IH]; intros db s Hnd Hup; cbn [fold_left].
  - unfold counted. cbn. split; [done|]. split; [done|]. split; [done|]. split; [lia|]. split; [lia|]. intros p Hp. by exists p.
  - apply list.NoDup_cons in Hnd as [Hx Hnd]. inversion_clear Hup as [|? ? Hux Hup']. rewrite eod_symbol_spec.
    assert (Hxs : existsb (String.eqb x) symbols = false) by (apply not_true_iff_false; by rewrite mem_text).
    destruct (outcome server trade_date db x) as [bound|] eqn:Eo.
    + set (db1 := mkPriceDb _ _). set (s1 := mkEod _ _ _). specialize (IH db1 s1 Hnd Hup').
      destruct (fold_left _ symbols (db1, s1)) as [db' s']. destruct IH as (I1 & I2 & I3 & I4 & I5 & I6).
      pose proof (outcome_rows _ _ _ _ _ Eo) as Hb. rewrite Hux in Hb.
      destruct (written_prices_of x bound (pd_prices db)) as [W1 W2]; [by eapply Forall_impl; [|exact Hb]; intros ? (? & _)|].
      assert (Ho : forall y, outcome server trade_date db1 y = outcome server trade_date db y) by (intros y; by apply outcome_securities).
      assert (Hcount : forall g, counted server trade_date db1 g symbols = counted server trade_date db g symbols).
      { done. }
      split; [done|]. split; [intros H; by apply I2, written_once|]. split.
      { intros y. rewrite I3, Ho. cbn [existsb]. destruct (String.eqb_spec y x) as [->|Hne]; cbn [orb].
        - rewrite Hxs. by rewrite Eo.
        - cbn [db1 pd_prices]. by rewrite W2. }
      rewrite I4, I5, !Hcount. unfold counted. cbn [List.filter s1 symbols_ok symbols_err]. rewrite Eo. cbn [Bool.eqb length].
      split; [lia|]. split; [lia|]. intros p Hp. destruct (written_keeps bound _ p Hp) as (p1 & Hp1 & Hk & Ha).
      destruct (I6 p1 Hp1) as (p' & Hp' & Hk' & Ha'). exists p'. by rewrite Hk', Ha'.
    + set (s1 := mkEod _ _ _). specialize (IH db s1 Hnd Hup'). destruct (fold_left _ symbols (db, s1)) as [db' s'].
      destruct IH as (I1 & I2 & I3 & I4 & I5 & I6). split; [done|]. split; [done|]. split.
      { intros y. rewrite I3. cbn [existsb]. destruct (String.eqb_spec y x) as [->|Hne]; cbn [orb]; [|done].
        rewrite Hxs. by rewrite Eo. }
      rewrite I4, I5. unfold counted. cbn [List.filter s1 symbols_ok symbols_err]. rewrite Eo. cbn [Bool.eqb length].
      split; [lia|]. split; [lia|done].
Qed.

(** C36: A night's run.  The prices of an active symbol become the old ones with its rows
    of the day written over them, when its page was read and the database takes every
    row, and stay as they were otherwise; the prices of the other symbols stay.  So
    one symbol's failure does not touch another's prices, and it is counted.  There is
    still one price a day, and no adjusted close is lost. *)
Theorem eod_correct server trade_date db :
  prices_ok db ->
  let '(db', s) := _run_ingest server trade_date db in
  prices_ok db'
  /\ (forall symbol, prices_of symbol (pd_prices db')
        = if existsb (String.eqb symbol) (_fetch_active_symbols db)
          then written (default [] (outcome server trade_date db symbol)) (prices_of symbol (pd_prices db))
          else prices_of symbol (pd_prices db))
  /\ symbols_ok s = counted server trade_date db true (_fetch_active_symbols db)
  /\ symbols_err s = counted server trade_date db false (_fetch_active_symbols db)
  /\ (forall p, p ∈ pd_prices db ->
        exists p', p' ∈ pd_prices db' /\ price_key p' = price_key p /\ pr_adjusted_close p' = pr_adjusted_close p).
Proof.
  intros [H1 H2 H3]. unfold _run_ingest.
  assert (Hperm : _fetch_active_symbols db ≡ₚ map l_symbol (List.filter l_is_active (pd_securities db))) by apply sort_by_perm.
  assert (Hnd : NoDup (_fetch_active_symbols db)).
  { rewrite Hperm. clear -H1. induction (pd_securities db) as [|l ls IH]; [constructor|]. cbn [map] in H1.
    apply list.NoDup_cons in H1 as [Hl Hls]. cbn [List.filter]. destruct (l_is_active l); [|by apply IH]. cbn [map]. constructor; [|by apply IH].
    intros (l' & E & Hin)%list_elem_of_fmap. apply Hl. rewrite E. apply list_elem_of_fmap_2. by apply elem_of_lfilter in Hin as [? _]. }
  assert (Hup : Forall (fun x => upper x = x) (_fetch_active_symbols db)).
  { rewrite Hperm. apply list.Forall_forall. intros x (l & -> & Hl)%list_elem_of_fmap. apply elem_of_lfilter in Hl as [Hl _]. by apply H2. }
  pose proof (eod_fold server trade_date (_fetch_active_symbols db) db (mkEod 0 0 0) Hnd Hup) as H.
  destruct (fold_left _ _ _) as [db' s]. destruct H as (E & I2 & I3 & I4 & I5 & I6).
  split; [split; rewrite ?E; auto|]. split; [done|]. split; [done|]. split; [done|done].
Qed.

(** ** The history *)

Lemma insert_appends rows : forall l, NoDup (map price_key l) ->
  exists added, fold_left (fun l new => insert_price new l) rows l = (l ++ added)%list
    /\ NoDup (map price_key (fold_left (fun l new => insert_price new l) rows l)).
Proof.
  induction rows as [|new rows IH]; intros l Hl; cbn [fold_left]; [exists []; by rewrite app_nil_r|].
  unfold insert_price at 2 4. destruct (existsb _ l) eqn:E; [by apply IH|].
  destruct (IH (l ++ [new])%list) as (added & Ha & Hnd).
  { rewrite map_app. apply NoDup_snoc; [done|]. intros (old & Hk & Hin)%list_elem_of_fmap. apply not_true_iff_false in E.
    apply E, existsb_exists. exists old. rewrite <- list_elem_of_In, same_day_key. done. }
  exists (new :: added). split; [|done]. rewrite Ha. by rewrite <- app_assoc.
Qed.

(** The backfill changes no price there is, and keeps one a day. *)
Lemma backfill_keeps server today symbols from_date to_date skip_existing db db' s :
  NoDup (map price_key (pd_prices db)) ->
  _run_backfill server today symbols from_date to_date skip_existing db = Ok (db', s) ->
  exists added, pd_prices db' = (pd_prices db ++ added)%list /\ NoDup (map price_key (pd_prices db')).
Proof.
  intros Hnd. unfold _run_backfill. destruct (_date_range today) as [[df dt]|]; [|done]. set (targets := match symbols with Some _ => _ | None => _ end).
  set (f := backfill_symbol _ _ _ _). intros [= E]. revert E. generalize (mkBackfill 0 0 0 0 (Z.of_nat (length targets))).
  clearbody targets. revert db Hnd. induction targets as [|x targets IH]; intros db Hnd b; cbn [fold_left].
  - intros [= <- <-]. exists []. by rewrite app_nil_r.
  - assert (Hstep : exists b1 added, f (db, b) x = (mkPriceDb (pd_securities db) (pd_prices db ++ added), b1)
                      /\ NoDup (map price_key (pd_prices db ++ added))).
    { unfold f, backfill_symbol. assert (Hsame : db = mkPriceDb (pd_securities db) (pd_prices db ++ [])) by (rewrite app_nil_r; by destruct db).
      destruct (skip_existing && _)%bool; [eexists _, []; rewrite <- Hsame, app_nil_r; done|].
      destruct (fetch_ohlcv_range _ _ _ _) as [rows|]; [|eexists _, []; rewrite <- Hsame, app_nil_r; done].
      destruct rows as [|r rows]; [eexists _, []; rewrite <- Hsame, app_nil_r; done|]. unfold backfill_rows, write_rows.
      destruct (map_res _ _) as [bound|]; [|eexists _, []; rewrite <- Hsame, app_nil_r; done].
      destruct (insert_appends bound (pd_prices db) Hnd) as (added & Ha & Hn). eexists _, added. by rewrite <- Ha. }
    destruct Hstep as (b1 & added & -> & Hn). intros E. destruct (IH (mkPriceDb (pd_securities db) (pd_prices db ++ added)) Hn _ E) as (added' & Ha & Hn'). cbn [pd_prices] in Ha.
    exists (added ++ added')%list. by rewrite Ha, <- app_assoc in *.
Qed.

(** ** Examples *)

Module ingest_sample.
Definition cell (ts : string) (date close volume : string) : Raw := mkRaw (Some ts) date close close close close volume.

(** A page of two days, the first without a timestamp, and a row that is skipped. *)
Definition page : list Raw :=
  [mkRaw None "Jan 3, 2025" "481.99" "490" "480" "485.5" "1234567"; cell "1736121600" "" "486" "100";
   cell "1736208000" "" "0.00" "5"].
Definition server : Server := fun symbol _ _ n => if String.eqb symbol "HALT" then Refused 500 else if Nat.eqb n 1 then NoAnswer else Page page.
Definition db : price_db :=
  mkPriceDb [mkListing "OGDC" true; mkListing "HALT" true; mkListing "GONE" false]
    [mkPriceRow "OGDC" 739254 None None None (Some (Fin (mkdec 1 0))) None None (Some (mkdec 9 0))].

Lemma sample_prices_ok : prices_ok db.
Proof.
  split; cbn.
  - do 3 (apply list.NoDup_cons; split; [rewrite ?not_elem_of_cons; repeat split; first [done|by apply not_elem_of_nil]|]). apply NoDup_nil_2.
  - intros l. rewrite !elem_of_cons, elem_of_nil. intros [->|[->|[->|[]]]]; vm_compute; reflexivity.
  - apply list.NoDup_cons. split; [by apply not_elem_of_nil|apply NoDup_nil_2].
Qed.

(** The second attempt is answered, and the adjusted close stays; [HALT] fails alone. *)
Example night :
  let '(db', s) := _run_ingest server 739254 db in
  map (fun p => (pr_symbol p, pr_close p, pr_volume p, pr_adjusted_close p)) (pd_prices db')
    = [("OGDC"%string, Some (Fin (mkdec 4855000 (-4))), Some 1234567, Some (mkdec 9 0))]
  /\ s = mkEod 1 1 1.
Proof. vm_compute. split; reflexivity. Qed.

(** Three windows. *)
Example quarter : match date_new 2024 12 15, date_new 2025 2 3 with
                  | Ok a, Ok b => chunk_end a b = date_new 2024 12 31 /\ chunk_end (a + 17) b = date_new 2025 1 31
                                  /\ chunk_end (a + 48) b = date_new 2025 2 3
                  | _, _ => False end.
Proof. vm_compute. repeat split. Qed.

(** On a leap day there is no day five years ago, and the backfill does not start,
    not even with dates given. *)
Example leap_day : _run_backfill server 738945 None (Some 738000) (Some 738100) true db = Exn ValueError.
Proof. vm_compute. reflexivity. Qed.

(** A volume no float holds makes the page fail, not the row. *)
Example volume_overflows : _parse_and_validate "OGDC" [mkRaw None "Jan 3, 2025" "1" "1" "1" "1" "1e999"] 1 max_date = Exn OverflowError.
Proof. vm_compute. reflexivity. Qed.
End ingest_sample.

Lemma range_correct_witness : exists l, chunked 739285 739235 l /\ fetch_ohlcv_range ingest_sample.server "OGDC" 739235 739285
  = (let! found := windows ingest_sample.server "OGDC" l in Ok (concat found)).
Proof.
  pose proof (range_correct ingest_sample.server "OGDC" 739235 739285 ltac:(lia) ltac:(unfold last_month; lia)) as K.
  destruct K as (l & Hl & E & _). exists l. split; [exact Hl|exact E].
Defined.

Lemma eod_correct_witness : prices_ok (_run_ingest ingest_sample.server 739254 ingest_sample.db).1.
Proof.
  pose proof (eod_correct ingest_sample.server 739254 ingest_sample.db ingest_sample.sample_prices_ok) as K.
  destruct (_run_ingest ingest_sample.server 739254 ingest_sample.db) as [db' s]. exact (proj1 K).
Defined.
