(* ===== verification/IndicatorService.v ===== *)
(** * IndicatorService: [indicators/interpret.py], [services/indicator_service.py]

    The reading of one indicator of a symbol: the last value of the series in
    plain words, and the cache in front of it ([cache.py], the route of
    [routers/securities.py]).

    [reading_correct] says which signal a symbol gets with how much history;
    [cache_correct] that an answer is never older than an hour. *)

From Stdlib Require Import Ascii.
From S2P Require Import Prelude Dates Decimal PyText PyFloat Redis Indicators IndicatorsCorrect Market.

(** ** Plain words *)

Record reading := mkReading {
  rd_signal : string;
  rd_summary : string;
  rd_explainer : string;
  rd_value : list (string * option float);
}.

Definition _pkg := mkReading.

Definition rsi_explainer : string :=
  ("**RSI (Relative Strength Index)** measures how fast a stock has been rising or falling on a "
   +:+ "0–100 scale. Above 70 is traditionally called *overbought* — recent gains have been sharp and "
   +:+ "a pullback is more likely. Below 30 is *oversold* — a bounce is more likely. RSI is a momentum "
   +:+ "indicator, not a timing tool. Stocks can stay overbought or oversold for a long time, "
   +:+ "especially during strong trends.")%string.

Definition macd_explainer : string :=
  ("**MACD (Moving Average Convergence Divergence)** plots the difference between a fast and slow "
   +:+ "exponential moving average, plus a signal line that's an EMA of that difference. When the MACD "
   +:+ "crosses above its signal line, momentum is turning up. When it crosses below, momentum is "
   +:+ "turning down. The histogram is the gap between the two — bigger bars mean stronger momentum.")%string.

Definition sma_explainer (period : Z) : string :=
  ("**SMA-"
   +:+ str_int period
   +:+ " (Simple Moving Average)** is the average closing price over the last "
   +:+ str_int period
   +:+ " days. It smooths out daily noise and shows the underlying trend. Price above SMA = uptrend, "
   +:+ "price below = downtrend. The 50-day and 200-day SMAs are the two most-watched trend lines on "
   +:+ "the planet.")%string.

Definition ema_explainer (period : Z) : string :=
  ("**EMA-"
   +:+ str_int period
   +:+ " (Exponential Moving Average)** is like SMA but weights recent prices more heavily, so it "
   +:+ "reacts faster to changes. Traders favor EMA over SMA on short timeframes when they want to see "
   +:+ "momentum shifts sooner.")%string.

Definition bollinger_explainer : string :=
  ("**Bollinger Bands** wrap a 20-day moving average with bands two standard deviations above and "
   +:+ "below. Most price action stays inside the bands. Price riding the upper band = strong uptrend "
   +:+ "(or potential exhaustion). Price riding the lower band = strong downtrend (or potential "
   +:+ "bottom). Width tells you about volatility — narrow bands often precede big moves.")%string.

Definition stochastic_explainer : string :=
  ("**Stochastic Oscillator** measures where today's close sits within the recent high–low range, "
   +:+ "on a 0–100 scale. Above 80 is overbought, below 20 is oversold. Like RSI, it's momentum, not "
   +:+ "timing — strong trends can pin %K at the extremes.")%string.

Definition obv_explainer : string :=
  ("**OBV (On-Balance Volume)** adds up volume on up-days and subtracts it on down-days. Rising "
   +:+ "OBV = volume is supporting the uptrend. Falling OBV during a price uptrend = a divergence "
   +:+ "worth watching, since the rally may not have buyer conviction behind it.")%string.

Definition atr_explainer : string :=
  ("**ATR (Average True Range)** measures average daily volatility in PKR. It's not directional — "
   +:+ "it just tells you how much the stock typically moves in a day. Useful for sizing positions: "
   +:+ "divide your risk budget by ATR to figure out a sensible stop-loss distance.")%string.


Definition interpret_rsi (value : option float) : reading :=
  match value with
  | None => _pkg "neutral" "Not enough history to compute RSI yet." rsi_explainer [("rsi", None)]%string
  | Some v =>
      if (lit 70 0 <=? v)%float then
        _pkg "bearish" ("RSI is " +:+ format_f 1 v +:+ ". Above 70 typically suggests the stock is overbought and may pull "
          +:+ "back. This is a cautionary signal, not a sell order.")%string rsi_explainer [("rsi", Some v)]%string
      else if (v <=? lit 30 0)%float then
        _pkg "bullish" ("RSI is " +:+ format_f 1 v +:+ ". Below 30 typically suggests the stock is oversold and may bounce. "
          +:+ "This is a cautionary signal, not a buy order.")%string rsi_explainer [("rsi", Some v)]%string
      else
        _pkg "neutral" ("RSI is " +:+ format_f 1 v +:+ " — a neutral reading. The stock is neither overbought nor oversold.")%string
          rsi_explainer [("rsi", Some v)]%string
  end.

Definition interpret_macd (macd signal_v hist : option float) : reading :=
  let value := [("macd", macd); ("signal", signal_v); ("histogram", hist)]%string in
  match macd, signal_v, hist with
  | Some m, Some s, Some h =>
      if ((fzero <? h)%float && (fzero <? m)%float)%bool then
        _pkg "bullish" ("MACD (" +:+ format_f 2 m +:+ ") is above its signal line (" +:+ format_f 2 s
          +:+ ") — short-term momentum is positive.")%string macd_explainer value
      else if ((h <? fzero)%float && (m <? fzero)%float)%bool then
        _pkg "bearish" ("MACD (" +:+ format_f 2 m +:+ ") is below its signal line (" +:+ format_f 2 s
          +:+ ") — short-term momentum is negative.")%string macd_explainer value
      else
        _pkg "neutral" ("MACD (" +:+ format_f 2 m +:+ ") and signal (" +:+ format_f 2 s
          +:+ ") are crossing — momentum is shifting.")%string macd_explainer value
  | _, _, _ => _pkg "neutral" "Not enough history to compute MACD yet." macd_explainer value
  end.

(** [close] is a float here: the service reads a missing close as NaN. *)
Definition interpret_sma (close : float) (sma_value : option float) (period : Z) : res reading :=
  match sma_value with
  | None =>
      Ok (_pkg "neutral" ("Not enough history to compute SMA-" +:+ str_int period +:+ ".")%string (sma_explainer period)
            [("sma", None); ("close", Some close)]%string)
  | Some v =>
      let! q := fdiv (close - v)%float v in
      let pct := (q * f100)%float in
      let value := [("sma", Some v); ("close", Some close); ("delta_pct", Some pct)]%string in
      Ok (if (v <? close)%float then
            _pkg "bullish" ("Price (" +:+ format_f 2 close +:+ ") is " +:+ format_f 1 pct +:+ "% above its "
              +:+ str_int period +:+ "-day average (" +:+ format_f 2 v +:+ ") — the trend is up.")%string
              (sma_explainer period) value
          else
            _pkg "bearish" ("Price (" +:+ format_f 2 close +:+ ") is " +:+ format_f 1 (fabs pct) +:+ "% below its "
              +:+ str_int period +:+ "-day average (" +:+ format_f 2 v +:+ ") — the trend is down.")%string
              (sma_explainer period) value)
  end.

Definition interpret_ema (close : float) (ema_value : option float) (period : Z) : res reading :=
  let! base := interpret_sma close ema_value period in
  Ok (mkReading (rd_signal base) (rd_summary base) (ema_explainer period) (rd_value base)).

Definition interpret_bollinger (close : float) (upper middle lower : option float) : reading :=
  let value := [("upper", upper); ("middle", middle); ("lower", lower); ("close", Some close)]%string in
  match upper, middle, lower with
  | Some u, Some _, Some l =>
      if (u <=? close)%float then
        _pkg "bearish" ("Price (" +:+ format_f 2 close +:+ ") is at or above the upper band (" +:+ format_f 2 u
          +:+ ") — the stock is statistically extended; a pullback or sideways move is more likely.")%string
          bollinger_explainer value
      else if (close <=? l)%float then
        _pkg "bullish" ("Price (" +:+ format_f 2 close +:+ ") is at or below the lower band (" +:+ format_f 2 l
          +:+ ") — the stock is statistically stretched; a bounce or sideways move is more likely.")%string
          bollinger_explainer value
      else
        _pkg "neutral" ("Price (" +:+ format_f 2 close +:+ ") is inside the bands (" +:+ format_f 2 l +:+ "–"
          +:+ format_f 2 u +:+ "). Normal range.")%string bollinger_explainer value
  | _, _, _ => _pkg "neutral" "Not enough history to compute Bollinger Bands." bollinger_explainer value
  end.

Definition interpret_stochastic (k d : option float) : reading :=
  let value := [("k", k); ("d", d)]%string in
  match k, d with
  | Some v, Some _ =>
      if (lit 80 0 <? v)%float then
        _pkg "bearish" ("Stochastic %K is " +:+ format_f 1 v +:+ ". Above 80 = overbought territory.")%string
          stochastic_explainer value
      else if (v <? lit 20 0)%float then
        _pkg "bullish" ("Stochastic %K is " +:+ format_f 1 v +:+ ". Below 20 = oversold territory.")%string
          stochastic_explainer value
      else
        _pkg "neutral" ("Stochastic %K is " +:+ format_f 1 v +:+ " — neutral.")%string stochastic_explainer value
  | _, _ => _pkg "neutral" "Not enough history to compute Stochastic." stochastic_explainer value
  end.

Definition interpret_obv (latest week_ago : option float) : reading :=
  match latest, week_ago with
  | Some x, Some w =>
      let delta := (x - w)%float in
      let value := [("obv", latest); ("obv_week_ago", week_ago); ("delta", Some delta)]%string in
      if (fzero <? delta)%float then
        _pkg "bullish" "OBV is rising over the past week — buyers have been more active than sellers." obv_explainer value
      else if (delta <? fzero)%float then
        _pkg "bearish" "OBV is falling over the past week — sellers have been more active than buyers." obv_explainer value
      else _pkg "neutral" "OBV is flat — buying and selling pressure are balanced." obv_explainer value
  | _, _ => _pkg "neutral" "Not enough history to read OBV trend." obv_explainer [("obv", latest); ("obv_week_ago", week_ago)]%string
  end.

Definition interpret_atr (atr_value : option float) (close : float) : res reading :=
  match atr_value with
  | None => Ok (_pkg "neutral" "Not enough history to compute ATR." atr_explainer [("atr", None)]%string)
  | Some v =>
      let! q := fdiv v close in
      let pct := (q * f100)%float in
      Ok (_pkg "neutral" ("Average daily range ≈ PKR " +:+ format_f 2 v +:+ " (" +:+ format_f 1 pct
            +:+ "% of current price). Use this to size stop-losses.")%string atr_explainer
            [("atr", Some v); ("atr_pct_of_price", Some pct)]%string)
  end.

(** ** The service *)

Definition SUPPORTED : list (string * string * string) :=
  [("rsi", "RSI (14)", "momentum"); ("macd", "MACD (12, 26, 9)", "momentum"); ("sma50", "SMA 50", "trend");
   ("sma200", "SMA 200", "trend"); ("ema20", "EMA 20", "trend"); ("bbands", "Bollinger Bands (20, 2σ)", "volatility");
   ("stochastic", "Stochastic (14, 3)", "momentum"); ("obv", "OBV", "volume"); ("atr", "ATR (14)", "volatility")]%string.

Definition valid_keys : list string := map (fun s => s.1.1) SUPPORTED.

Record indicator_answer := mkIndicatorAnswer {
  ia_symbol : string;
  ia_indicator : string;
  ia_as_of : option string;
  ia_reading : reading;
}.

Definition _wrap (symbol indicator as_of : string) (r : reading) : indicator_answer :=
  mkIndicatorAnswer symbol indicator (Some as_of) r.

(** [float(v) if v is not None else float(nan)] *)
Definition float_or_nan (v : option dec) : float := match v with Some d => float_of_dec d | None => S754_nan end.

Section service.
Context `{LibM}.

(** The reading of chronological rows. *)
Definition read_indicator (rows : list DailyRow) (indicator : string) : res reading :=
  let highs := map (fun r => float_or_nan (d_high r)) rows in
  let lows := map (fun r => float_or_nan (d_low r)) rows in
  let closes := map (fun r => float_or_nan (d_close r)) rows in
  let volumes := map volume_float rows in
  let last_close := List.last closes S754_nan in
  if String.eqb indicator "rsi" then
    let! series := rsi closes 14 in let! v := last_value series in Ok (interpret_rsi v)
  else if String.eqb indicator "macd" then
    let! d := macd closes 12 26 9 in
    let! m := last_value (mc_macd d) in let! s := last_value (mc_signal d) in let! h := last_value (mc_histogram d) in
    Ok (interpret_macd m s h)
  else if String.eqb indicator "sma50" then
    let! series := sma closes 50 in let! v := last_value series in interpret_sma last_close v 50
  else if String.eqb indicator "sma200" then
    let! series := sma closes 200 in let! v := last_value series in interpret_sma last_close v 200
  else if String.eqb indicator "ema20" then
    let! series := ema closes 20 in let! v := last_value series in interpret_ema last_close v 20
  else if String.eqb indicator "bbands" then
    let! d := bollinger_bands closes 20 (lit 2 0) in
    let! u := last_value (bb_upper d) in let! m := last_value (bb_middle d) in let! l := last_value (bb_lower d) in
    Ok (interpret_bollinger last_close u m l)
  else if String.eqb indicator "stochastic" then
    let! d := stochastic highs lows closes 14 3 in
    let! k := last_value d.1 in let! s := last_value d.2 in Ok (interpret_stochastic k s)
  else if String.eqb indicator "obv" then
    let! series := obv closes volumes in
    let! v := last_value series in
    Ok (interpret_obv v (nth (length series - 6) series None))
  else if String.eqb indicator "atr" then
    let! series := atr highs lows closes 14 in let! v := last_value series in interpret_atr v last_close
  else Exn ValueError.

Definition _compute_uncached (prices : list DailyRow) (symbol indicator : string) : res indicator_answer :=
  match rev (take 260 (newest_first symbol prices)) with
  | [] =>
      Ok (mkIndicatorAnswer symbol indicator None (mkReading "neutral" "No price history available for this symbol yet." "" []))
  | rows =>
      let as_of := isoformat (List.last (map d_date rows) 0) in
      let! r := read_indicator rows indicator in
      Ok (_wrap symbol indicator as_of r)
  end.
End service.

(** ** Enough history *)

(** The bars an indicator needs. *)
Definition needed (indicator : string) : nat :=
  if String.eqb indicator "rsi" then 15 else if String.eqb indicator "macd" then 34
  else if String.eqb indicator "sma50" then 50 else if String.eqb indicator "sma200" then 200
  else if String.eqb indicator "ema20" then 20 else if String.eqb indicator "bbands" then 20
  else if String.eqb indicator "stochastic" then 16 else if String.eqb indicator "atr" then 15 else 1.

(** A neutral reading that says so, or one whose values are all known. *)
Definition reading_ok (indicator : string) (n : nat) (r : reading) : Prop :=
  (rd_signal r ∈ ["bullish"; "bearish"; "neutral"]%string) /\
  if decide (n < needed indicator)%nat
  then rd_signal r = "neutral"%string /\ exists rest, rd_summary r = ("Not enough history to " +:+ rest)%string
  else Forall (fun v => v.2 <> None) (rd_value r).

Definition reading_spec (indicator : string) (n : nat) (r : res reading) : Prop :=
  match r with
  | Ok r => reading_ok indicator n r
  | Exn e => (needed indicator <= n)%nat /\ (e = ZeroDivisionError \/ e = OverflowError)
  end.

(** Tests of literal keys. *)
Ltac eval_keys :=
  repeat match goal with
  | |- context [String.eqb ?a ?b] => let v := eval vm_compute in (String.eqb a b) in change (String.eqb a b) with v
  end; cbv iota.

Ltac known_signal := repeat (first [by left | right]).

Lemma sma_reading close v period n w indicator :
  needed indicator = S w -> (if decide (n <= w)%nat then v = None else exists x, v = Some x) ->
  reading_spec indicator n (interpret_sma close v period).
Proof.
  intros Hn Hv. unfold interpret_sma, reading_spec, reading_ok. rewrite Hn. destruct (decide (n <= w)%nat).
  - subst v. split; [known_signal|]. rewrite decide_True by lia. split; [done|]. by eexists.
  - destruct Hv as [x ->]. destruct (fdiv _ _) as [q|e] eqn:E; [|split; [lia|]; left; by apply fdiv_error in E].
    destruct (x <? close)%float; (split; [known_signal|]); rewrite decide_False by lia; repeat constructor; done.
Qed.

Definition known_from (w n : nat) (v : option float) : Prop := if decide (n <= w)%nat then v = None else exists x, v = Some x.

Lemma last_known n w s : aligned n w s -> (0 < n)%nat -> exists v, last_value s = Ok v /\ known_from w n v.
Proof.
  intros Ha Hn. pose proof (aligned_last _ _ _ Ha Hn) as H. unfold known_from. destruct (decide (n <= w)%nat).
  - by exists None.
  - destruct H as [x Hx]. exists (Some x). split; [done|]. by exists x.
Qed.

(** Splits a reading at its comparisons. *)
Ltac readings :=
  repeat case_match; try lia; (split; [known_signal|]); first [split; [done|by eexists] | by repeat constructor].

Lemma rsi_reading n v : known_from 14 n v -> reading_spec "rsi" n (Ok (interpret_rsi v)).
Proof.
  unfold known_from, reading_spec, reading_ok. change (needed "rsi") with 15%nat. destruct (decide (n <= 14)%nat).
  - intros ->. unfold interpret_rsi. readings.
  - intros [x ->]. unfold interpret_rsi. readings.
Qed.

Lemma macd_reading n m s h :
  known_from 25 n m -> known_from 33 n s -> known_from 33 n h -> reading_spec "macd" n (Ok (interpret_macd m s h)).
Proof.
  unfold known_from, reading_spec, reading_ok. change (needed "macd") with 34%nat. intros Hm Hs Hh. destruct (decide (n <= 33)%nat).
  - subst s h. unfold interpret_macd. destruct m; readings.
  - rewrite decide_False in Hm by lia. destruct Hm as [x ->], Hs as [y ->], Hh as [z ->]. unfold interpret_macd. readings.
Qed.

Lemma bollinger_reading n c u m l :
  known_from 19 n u -> known_from 19 n m -> known_from 19 n l -> reading_spec "bbands" n (Ok (interpret_bollinger c u m l)).
Proof.
  unfold known_from, reading_spec, reading_ok. change (needed "bbands") with 20%nat. intros Hu Hm Hl. destruct (decide (n <= 19)%nat).
  - subst u m l. unfold interpret_bollinger. readings.
  - destruct Hm as [x ->], Hu as [y ->], Hl as [z ->]. unfold interpret_bollinger. readings.
Qed.

Lemma stochastic_reading n k d :
  known_from 13 n k -> known_from 15 n d -> reading_spec "stochastic" n (Ok (interpret_stochastic k d)).
Proof.
  unfold known_from, reading_spec, reading_ok. change (needed "stochastic") with 16%nat. intros Hk Hd. destruct (decide (n <= 15)%nat).
  - subst d. unfold interpret_stochastic. destruct k; readings.
  - rewrite decide_False in Hk by lia. destruct Hk as [x ->], Hd as [y ->]. unfold interpret_stochastic. readings.
Qed.

Lemma obv_reading n x y : (0 < n)%nat -> reading_spec "obv" n (Ok (interpret_obv (Some x) (Some y))).
Proof. intros Hn. unfold reading_spec, reading_ok. change (needed "obv") with 1%nat. unfold interpret_obv. readings. Qed.

Lemma atr_reading n v c : known_from 14 n v -> reading_spec "atr" n (interpret_atr v c).
Proof.
  unfold known_from, interpret_atr, reading_spec, reading_ok. change (needed "atr") with 15%nat. destruct (decide (n <= 14)%nat).
  - intros ->. readings.
  - intros [x ->]. destruct (fdiv x c) as [q|e] eqn:E; [readings|]. split; [lia|]. left. by apply fdiv_error in E.
Qed.

Section correct.
Context `{LibM}.

Lemma read_indicator_spec rows indicator :
  indicator ∈ valid_keys -> (0 < length rows)%nat -> reading_spec indicator (length rows) (read_indicator rows indicator).
Proof.
  intros Hi Hn. set (closes := map (fun r => float_or_nan (d_close r)) rows).
  assert (Hc : length closes = length rows) by apply length_map.
  assert (Hh : forall f : DailyRow -> float, length (map f rows) = length closes) by (intros; by rewrite Hc, length_map).
  rewrite <- Hc in *. cbn in Hi. repeat (apply elem_of_cons in Hi as [->|Hi]); try (by apply not_elem_of_nil in Hi);
    unfold read_indicator; fold closes; eval_keys.
  - destruct (rsi closes 14) as [s|e] eqn:E; [|apply rsi_error in E as [-> E]; [split; [exact E|by left]|lia]].
    apply rsi_aligned in E as [_ E]. destruct (last_known _ _ _ E Hn) as (v & -> & Hv). by apply rsi_reading.
  - destruct (macd_total closes 12 26 9) as [m E]; [lia..|]. rewrite E. apply macd_aligned in E as (E1 & E2 & E3).
    destruct (last_known _ _ _ E1 Hn) as (v1 & -> & H1), (last_known _ _ _ E2 Hn) as (v2 & -> & H2),
      (last_known _ _ _ E3 Hn) as (v3 & -> & H3). by apply macd_reading.
  - destruct (sma_total closes 50) as [s E]; [lia|]. rewrite E. apply sma_aligned in E as [_ E].
    destruct (last_known _ _ _ E Hn) as (v & -> & Hv). by eapply sma_reading.
  - destruct (sma_total closes 200) as [s E]; [lia|]. rewrite E. apply sma_aligned in E as [_ E].
    destruct (last_known _ _ _ E Hn) as (v & -> & Hv). by eapply sma_reading.
  - destruct (ema_total closes 20) as [s E]; [lia|]. rewrite E. apply ema_aligned in E as [_ E].
    destruct (last_known _ _ _ E Hn) as (v & -> & Hv). unfold interpret_ema.
    pose proof (sma_reading (List.last closes S754_nan) v 20 (length closes) 19 "ema20" eq_refl Hv) as Hr.
    by destruct (interpret_sma _ _ _).
  - destruct (bollinger_bands closes 20 (lit 2 0)) as [b|e] eqn:E; [|apply bollinger_error in E as [-> E]; [split; [exact E|by right]|lia]].
    apply bollinger_aligned in E as (E1 & E2 & E3).
    destruct (last_known _ _ _ E1 Hn) as (v1 & -> & H1), (last_known _ _ _ E2 Hn) as (v2 & -> & H2),
      (last_known _ _ _ E3 Hn) as (v3 & -> & H3). by apply bollinger_reading.
  - destruct (stochastic_total (map (fun r => float_or_nan (d_high r)) rows) (map (fun r => float_or_nan (d_low r)) rows) closes 14 3)
      as [s E]; [done..|]. rewrite E. apply stochastic_aligned in E as [E1 E2].
    destruct (last_known _ _ _ E1 Hn) as (v1 & -> & H1), (last_known _ _ _ E2 Hn) as (v2 & -> & H2). by apply stochastic_reading.
  - destruct (obv_total closes (map volume_float rows)) as [s E]; [done|]. rewrite E. apply obv_aligned in E.
    destruct (last_known _ _ _ E Hn) as (v & -> & Hv). unfold known_from in Hv. rewrite decide_False in Hv by lia.
    destruct Hv as [x ->]. pose proof (aligned_length _ _ _ E) as Hs.
    pose proof (aligned_lookup _ _ _ (length s - 6)%nat E ltac:(lia)) as Hw. rewrite decide_False in Hw by lia. destruct Hw as [y Hw].
    rewrite (nth_lookup_Some _ _ None _ Hw). by apply obv_reading.
  - destruct (atr_total (map (fun r => float_or_nan (d_high r)) rows) (map (fun r => float_or_nan (d_low r)) rows) closes 14)
      as [s E]; [done|by eexists|done..|]. rewrite E. apply atr_aligned in E; [|done].
    destruct (last_known _ _ _ E Hn) as (v & -> & Hv). by apply atr_reading.
Qed.
End correct.

(** C30: The reading of an indicator for a symbol: without any price it is neutral
    and undated; otherwise it is dated by the newest row, and with less history
    than the indicator needs it is neutral and says so, with enough every value in
    it is known.  It fails only with enough history, on a quotient by zero or a
    power out of range. *)
Theorem reading_correct `{LibM} prices symbol indicator :
  indicator ∈ valid_keys ->
  let n := Nat.min 260 (length (List.filter (of_symbol symbol) prices)) in
  match _compute_uncached prices symbol indicator with
  | Ok a =>
      ia_symbol a = symbol /\ ia_indicator a = indicator /\
      (n = 0%nat /\ ia_as_of a = None /\ rd_signal (ia_reading a) = "neutral"%string \/
       (exists bar, bar ∈ prices /\ d_symbol bar = symbol /\ ia_as_of a = Some (isoformat (d_date bar)) /\
          forall r, r ∈ prices -> d_symbol r = symbol -> d_date r <= d_date bar) /\
       reading_ok indicator n (ia_reading a))
  | Exn e => (needed indicator <= n)%nat /\ (e = ZeroDivisionError \/ e = OverflowError)
  end.
Proof.
  intros Hi n. unfold _compute_uncached.
  assert (Hl : length (rev (take 260 (newest_first symbol prices))) = n).
  { unfold newest_first. by rewrite length_rev, length_take, sort_by_length. }
  destruct (newest_first symbol prices) as [|b bs] eqn:E.
  - cbn in Hl |- *. split; [done|]. split; [done|]. by left.
  - assert (Hd : List.last (map d_date (rev (take 260 (b :: bs)))) 0 = d_date b).
    { rewrite map_rev. cbn [take map rev]. by rewrite List.last_last. }
    destruct (rev (take 260 (b :: bs))) as [|r rs] eqn:Er; [apply (f_equal length) in Er; rewrite length_rev in Er; done|].
    rewrite <- Er in *. pose proof (read_indicator_spec (rev (take 260 (b :: bs))) indicator Hi) as Hr.
    rewrite Hl in Hr. specialize (Hr ltac:(rewrite <- Hl, Er; cbn; lia)).
    destruct (read_indicator _ _) as [rd|e]; [|done]. cbn [_wrap ia_symbol ia_indicator ia_as_of ia_reading].
    split; [done|]. split; [done|]. right. split; [|done]. exists b. rewrite Hd. apply newest_first_head in E as (H1 & H2 & H3). done.
Qed.

(** ** The cache

    [psx_api/cache.py] over the laws of [Redis]; [dumps] and [loads] are JSON's. *)

Definition TTL_OHLCV : Z := 3600.

Section cache.
Context {R T : Type} `{Redis R} (dumps : T -> string) (loads : string -> res (option T)).

Definition cache_get (now : Z) (key : string) : M R (option T) :=
  let* raw := ask (redis_get now key) in
  match raw with None => mret None | Some raw => lift (loads raw) end.

Definition cache_set (now : Z) (key : string) (value : T) (ttl : Z) : M R unit :=
  update (redis_setex now key ttl (dumps value)).

Definition cached (now : Z) (key : string) (ttl : Z) (loader : res T) : M R T :=
  let* hit := cache_get now key in
  match hit with
  | Some v => mret v
  | None =>
      let* value := lift loader in
      let* _ := cache_set now key value ttl in
      mret value
  end.
End cache.

Definition cache_key (symbol indicator : string) : string := ("indicator:" +:+ symbol +:+ ":" +:+ indicator)%string.

Section cached_service.
Context `{LibM} {R : Type} `{Redis R} (dumps : indicator_answer -> string) (loads : string -> res (option indicator_answer)).

(** [IndicatorService.compute_indicator] with a store. *)
Definition service_compute (now : Z) (prices : list DailyRow) (symbol indicator : string) : M R indicator_answer :=
  cached dumps loads now (cache_key symbol indicator) TTL_OHLCV (_compute_uncached prices symbol indicator).

(** [GET /securities/{symbol}/indicators/{indicator}] *)
Definition compute_indicator (now : Z) (prices : list DailyRow) (symbol indicator : string) : M R indicator_answer :=
  if existsb (String.eqb indicator) valid_keys then service_compute now prices (upper symbol) indicator
  else raise (ServiceError 400).

(** A request: its instant, what the price table holds then, and what is asked. *)
Record visit := mkVisit { vs_now : Z; vs_prices : list DailyRow; vs_symbol : string; vs_indicator : string }.

Fixpoint visits (l : list visit) (r : R) : R * list (res indicator_answer) :=
  match l with
  | [] => (r, [])
  | v :: l =>
      let '(r, answer) := compute_indicator (vs_now v) (vs_prices v) (vs_symbol v) (vs_indicator v) r in
      let '(r, answers) := visits l r in
      (r, answer :: answers)
  end.
End cached_service.

(** Keys tell symbols and indicators apart: no indicator has a colon. *)
Lemma split_last_colon (a1 a2 b1 b2 : list ascii) c :
  c ∉ b1 -> c ∉ b2 -> (a1 ++ c :: b1 = a2 ++ c :: b2)%list -> a1 = a2 /\ b1 = b2.
Proof.
  revert b2. induction b1 as [|x b1 IH] using rev_ind; intros b2 H1 H2 E.
  - destruct b2 as [|y b2 _] using rev_ind; [by apply app_inj_tail in E as [-> _]|].
    change (a2 ++ c :: b2 ++ [y])%list with (a2 ++ (c :: b2) ++ [y])%list in E. rewrite app_assoc in E.
    apply app_inj_tail in E as [_ ->]. destruct H2. apply elem_of_app. right. by left.
  - destruct b2 as [|y b2 _] using rev_ind.
    + change (a1 ++ c :: b1 ++ [x])%list with (a1 ++ (c :: b1) ++ [x])%list in E. rewrite app_assoc in E.
      apply app_inj_tail in E as [_ <-]. destruct H1. apply elem_of_app. right. by left.
    + change (a1 ++ c :: b1 ++ [x])%list with (a1 ++ (c :: b1) ++ [x])%list in E.
      change (a2 ++ c :: b2 ++ [y])%list with (a2 ++ (c :: b2) ++ [y])%list in E. rewrite !app_assoc in E.
      apply app_inj_tail in E as [E ->]. rewrite not_elem_of_app in H1, H2. destruct (IH b2) as [-> ->]; tauto.
Qed.

Lemma chars_inj s t : chars s = chars t -> s = t.
Proof.
  intros E. apply (f_equal text) in E. unfold text, chars in E. by rewrite !Stdlib.Strings.String.string_of_list_ascii_of_string in E.
Qed.

Lemma no_colon indicator : indicator ∈ valid_keys -> ":"%char ∉ chars indicator.
Proof.
  intros Hi. cbn in Hi. repeat (apply elem_of_cons in Hi as [->|Hi]); try (by apply not_elem_of_nil in Hi);
    apply (bool_decide_unpack _); vm_compute; exact I.
Qed.

Lemma cache_key_inj s1 i1 s2 i2 :
  i1 ∈ valid_keys -> i2 ∈ valid_keys -> cache_key s1 i1 = cache_key s2 i2 -> s1 = s2 /\ i1 = i2.
Proof.
  intros H1%no_colon H2%no_colon E. apply (f_equal chars) in E. unfold cache_key in E. rewrite !chars_append in E.
  apply app_inv_head in E. change (chars ":") with [":"%char] in E. cbn [app] in E.
  apply split_last_colon in E as [Hs Hi]; [|done..]. split; by apply chars_inj.
Qed.

Section freshness.
Context `{LibM} {R : Type} `{RedisLaws R} (dumps : indicator_answer -> string) (loads : string -> res (option indicator_answer)).
Hypothesis loads_dumps : forall a, loads (dumps a) = Ok (Some a).

Abbreviation computed v := (_compute_uncached (vs_prices v) (upper (vs_symbol v)) (vs_indicator v)).

(** Every live entry was computed by an earlier request for its key, and lives
    until an hour after it. *)
Definition entries_from (seen : list visit) (now : Z) (r : R) : Prop :=
  forall symbol indicator raw e, indicator ∈ valid_keys -> live now (cache_key symbol indicator) r = Some (raw, e) ->
    exists v a, v ∈ seen /\ upper (vs_symbol v) = symbol /\ vs_indicator v = indicator /\ vs_now v <= now /\
      computed v = Ok a /\ raw = dumps a /\ e = Some (vs_now v + TTL_OHLCV).

(** What a request may be answered. *)
Definition answered_from (seen : list visit) (v : visit) (ans : res indicator_answer) : Prop :=
  match ans with
  | Ok a => vs_indicator v ∈ valid_keys /\
      exists v0, v0 ∈ v :: seen /\ vs_now v - TTL_OHLCV < vs_now v0 <= vs_now v /\
        upper (vs_symbol v0) = upper (vs_symbol v) /\ vs_indicator v0 = vs_indicator v /\ computed v0 = Ok a
  | Exn e => ((vs_indicator v ∉ valid_keys) /\ e = ServiceError 400) \/ computed v = Exn e
  end.

Lemma entries_later seen now t r : now <= t -> entries_from seen now r -> entries_from seen t r.
Proof using All.
  intros Ht He symbol indicator raw e Hi Hl. rewrite (live_later now) in Hl by done. unfold at_time in Hl.
  destruct (live now _ r) as [[raw' [x|]]|] eqn:E; [| |done].
  - destruct (t <? x); [|done]. injection Hl as <- <-. destruct (He _ _ _ _ Hi E) as (v & a & Hv1 & Hv2 & Hv3 & Hv4 & Hv5).
    exists v, a. split; [done|]. split; [done|]. split; [done|]. split; [lia|done].
  - injection Hl as <- <-. destruct (He _ _ _ _ Hi E) as (v & a & _ & _ & _ & _ & _ & _ & [=]).
Qed.

(** One request. *)
Lemma visit_step seen v r :
  entries_from seen (vs_now v) r ->
  let '(r', ans) := compute_indicator dumps loads (vs_now v) (vs_prices v) (vs_symbol v) (vs_indicator v) r in
  answered_from seen v ans /\ entries_from (v :: seen) (vs_now v) r'.
Proof using All.
  intros He. assert (Hmore : entries_from (v :: seen) (vs_now v) r).
  { intros symbol indicator raw e Hi Hl. destruct (He _ _ _ _ Hi Hl) as (v0 & a & Hv0 & Hrest). exists v0, a. split; [by right|done]. }
  unfold compute_indicator. destruct (existsb _ valid_keys) eqn:Ev.
  2: { cbn. split; [|done]. left. split; [|done]. intros Hv%mem_text. exact (eq_true_false_abs _ Hv Ev). }
  apply mem_text in Ev. unfold service_compute, cached, cache_get. cbn.
  unfold bindM at 1 2, ask. rewrite get_live.
  destruct (live (vs_now v) _ r) as [[raw e]|] eqn:El; cbn [option_map fst].
  - destruct (He _ _ _ _ Ev El) as (v0 & a & Hv0 & Hs & Hi & Hn & Ha & -> & ->). unfold lift. rewrite loads_dumps. cbn.
    split; [|done]. split; [done|]. exists v0. split; [by right|]. rewrite <- Hs, <- Hi. split; [|done]. split; [|done].
    pose proof (live_later (vs_now v) (vs_now v) (cache_key (upper (vs_symbol v)) (vs_indicator v)) r (Z.le_refl _)) as Hl.
    rewrite El in Hl. unfold at_time in Hl. destruct (_ <? _) eqn:Et; [|done]. zbool. lia.
  - cbn. unfold bindM, lift, mret, update. destruct (computed v) as [a|e] eqn:Ec; cbn.
    + split; [split; [done|]; exists v; split; [by left|]; unfold TTL_OHLCV; split; [lia|done]|].
      intros symbol indicator raw e Hi. rewrite live_setex by done. destruct (String.eqb_spec (cache_key (upper (vs_symbol v)) (vs_indicator v)) (cache_key symbol indicator)) as [Ek|].
      * intros [= <- <-]. apply cache_key_inj in Ek as [<- <-]; [|done..]. exists v, a. split; [by left|]. split_and!; done || lia.
      * intros Hl. by apply (Hmore symbol indicator).
    + split; [by right|done].
Qed.

(** C31: Whatever is asked over time while the prices change, an answer is the
    reading of the symbol and indicator asked for, computed from the prices of an
    instant less than an hour ago; an indicator that does not exist is refused,
    and an error is one the prices of the moment give. *)
Theorem cache_correct history r0 :
  StronglySorted (fun v w => vs_now v <= vs_now w) history ->
  (forall t symbol indicator, indicator ∈ valid_keys -> live t (cache_key symbol indicator) r0 = None) ->
  forall i v, history !! i = Some v ->
  exists ans, (visits dumps loads history r0).2 !! i = Some ans /\ answered_from (take i history) v ans.
Proof using All.
  intros Hs Hnew.
  assert (Hgen : forall l seen r, StronglySorted (fun v w => vs_now v <= vs_now w) l ->
    match l with [] => True | v :: _ => entries_from seen (vs_now v) r end ->
    forall i v, l !! i = Some v -> exists ans, (visits dumps loads l r).2 !! i = Some ans /\
      answered_from (rev (take i l) ++ seen) v ans).
  { clear Hs Hnew. induction l as [|v l IH]; intros seen r Hs He i w Hi; [done|]. cbn [visits].
    apply StronglySorted_inv in Hs as [Hs Hv]. pose proof (visit_step seen v r He) as Hstep.
    destruct (compute_indicator _ _ _ _ _ _ r) as [r' ans]. destruct Hstep as [Hans He'].
    specialize (IH (v :: seen) r' Hs). destruct (visits dumps loads l r') as [r2 answers] eqn:Er.
    destruct i as [|i]; [injection Hi as <-; by exists ans|]. cbn [lookup list_lookup take rev snd] in *.
    rewrite <- app_assoc. cbn [app]. apply IH; [|done]. destruct l as [|w' l]; [done|].
    apply (entries_later _ (vs_now v)); [|done]. by inversion_clear Hv. }
  intros i v Hi. destruct (Hgen history [] r0 Hs) with (i := i) (v := v) as (ans & Ha & Hans); [|done|].
  - destruct history as [|v0 h]; [done|]. intros symbol indicator raw e Hv Hl. by rewrite Hnew in Hl.
  - exists ans. split; [done|]. rewrite app_nil_r in Hans. unfold answered_from in *. destruct ans; [|done].
    destruct Hans as [Hv (v0 & Hin & Hrest)]. split; [done|]. exists v0. split; [|done].
    apply elem_of_cons in Hin as [->|Hin]; [by left|right]. by apply list_elem_of_In, in_rev, list_elem_of_In.
Qed.
End freshness.

(** ** Examples *)

Module sample.
#[local] Instance sample_pow : LibM := {| libm_pow := fun x _ => x |}.

(** Fifty days of OGDC at 100, the last close as given. *)
Definition day (last : option dec) (k : nat) : DailyRow :=
  let c := if (k <? 49)%nat then Some (mkdec 100 0) else last in
  mkDaily "OGDC" (737000 + Z.of_nat k) c c c c (Some 10) None.
Definition prices (last : option dec) : list DailyRow := map (day last) (seq 0 50).

(** A missing last close counts as a downtrend of no known size. *)
Example missing_close_is_bearish :
  match _compute_uncached (prices None) "OGDC" "sma50" with
  | Ok a => rd_signal (ia_reading a) = "bearish"%string /\
      rd_summary (ia_reading a) = "Price (nan) is nan% below its 50-day average (nan) — the trend is down."%string
  | Exn _ => False
  end.
Proof. by vm_compute. Qed.

Example rising_close :
  match _compute_uncached (prices (Some (mkdec 150 0))) "OGDC" "sma50" with
  | Ok a => ia_as_of a = Some "2018-12-21"%string /\
      rd_summary (ia_reading a) = "Price (150.00) is 48.5% above its 50-day average (101.00) — the trend is up."%string
  | Exn _ => False
  end.
Proof. by vm_compute. Qed.

Lemma reading_correct_witness :
  "rsi"%string ∈ valid_keys /\
  match _compute_uncached [] "OGDC" "rsi" with
  | Ok a => ia_as_of a = None
  | Exn _ => False
  end.
Proof.
  assert (Hi : "rsi"%string ∈ valid_keys) by (apply mem_text; reflexivity). split; [exact Hi|].
  pose proof (reading_correct [] "OGDC" "rsi" Hi) as K. cbv zeta in K.
  destruct (_compute_uncached [] "OGDC" "rsi") as [a|e] eqn:E; [|discriminate E].
  destruct K as (_ & _ & [(_ & K & _)|((bar & Hb & _) & _)]); [exact K|]. by apply not_elem_of_nil in Hb.
Defined.

(** Answers as numbers, to have a text that can be read back. *)
#[local] Instance float_dec : EqDecision spec_float.
Proof. solve_decision. Defined.
#[local] Instance float_countable : Countable spec_float.
Proof.
  refine (inj_countable' (A := bool + bool + unit + bool * positive * Z)
    (fun x => match x with
     | S754_zero s => inl (inl (inl s)) | S754_infinity s => inl (inl (inr s)) | S754_nan => inl (inr tt)
     | S754_finite s m e => inr (s, m, e) end)
    (fun y => match y with
     | inl (inl (inl s)) => S754_zero s | inl (inl (inr s)) => S754_infinity s | inl (inr _) => S754_nan
     | inr (s, m, e) => S754_finite s m e end) _).
  by intros [].
Defined.
#[local] Instance answer_dec : EqDecision indicator_answer.
Proof. pose proof float_dec. assert (EqDecision reading) by solve_decision. solve_decision. Defined.
#[local] Instance answer_countable : Countable indicator_answer.
Proof.
  refine (inj_countable' (A := string * string * option string * (string * string * string * list (string * option spec_float)))
    (fun a => (ia_symbol a, ia_indicator a, ia_as_of a,
       (rd_signal (ia_reading a), rd_summary (ia_reading a), rd_explainer (ia_reading a), rd_value (ia_reading a))))
    (fun t => mkIndicatorAnswer t.1.1.1 t.1.1.2 t.1.2 (mkReading t.2.1.1.1 t.2.1.1.2 t.2.1.2 t.2.2)) _).
  by intros [? ? ? []].
Defined.

Definition dumps (a : indicator_answer) : string := str_int (Zpos (encode a)).
Definition loads (s : string) : res (option indicator_answer) :=
  match int_of_str s with Ok (Zpos p) => Ok (decode p) | _ => Exn ValueError end.

Lemma loads_dumps a : loads (dumps a) = Ok (Some a).
Proof. unfold loads, dumps. by rewrite int_of_str_int, decode_encode. Qed.

(** The price falls out of the table between two requests: the second is answered
    from the first. *)
Definition history : list visit :=
  [mkVisit 0 (prices (Some (mkdec 150 0))) "ogdc" "sma50"; mkVisit 3599 [] "OGDC" "sma50"].

Lemma cache_correct_witness :
  exists ans, (visits dumps loads history (∅ : ttl_map)).2 !! 1%nat = Some ans /\
    answered_from (take 1 history) (mkVisit 3599 [] "OGDC" "sma50") ans.
Proof.
  refine (cache_correct dumps loads loads_dumps history (∅ : ttl_map) _ _ 1 (mkVisit 3599 [] "OGDC" "sma50") eq_refl).
  - repeat constructor. apply Z.leb_le. reflexivity.
  - intros t symbol indicator _. reflexivity.
Defined.
End sample.
