(* ===== verification/BacktestTrades.v ===== *)
(** * BacktestTrades: the trades of a run

    Where and when the engine of [Backtest] trades: after the warm-up, at the
    opens of bars, one position after the other. *)

From S2P Require Import Prelude Decimal PyText PyFloat Json Indicators Backtest.

Lemma increasing_lookup {A} (key : A -> Z) l i j x y :
  increasing key l -> l !! i = Some x -> l !! j = Some y -> (i < j)%nat -> key x < key y.
Proof.
  intros Hs. revert i j. induction Hs as [|z l Hl IH Hz]; intros [|i] [|j] Hx Hy Hij; cbn in *; try done; try lia.
  - injection Hx as <-. rewrite Forall_forall in Hz. apply Hz, list_elem_of_In. by eapply list_elem_of_lookup_2.
  - apply (IH i j); [done..|lia].
Qed.

Lemma StronglySorted_snoc {A} (R : A -> A -> Prop) l x :
  StronglySorted R l -> Forall (fun y => R y x) l -> StronglySorted R (l ++ [x]).
Proof.
  induction 1 as [|y l Hl IH Hy]; cbn [app]; intros Hx; [by repeat constructor|].
  inversion_clear Hx as [|? ? Hyx Hlx]. constructor; [by apply IH|]. apply Forall_app. split; [done|]. by repeat constructor.
Qed.

Section trades.
Variables (strategy : StrategyFn) (rate : float) (warmup_bars : Z) (bars : list Bar).
Hypothesis Hdates : increasing b_date bars.

(** Bought at the open of a bar after the warm-up. *)
Definition bought_at (i : nat) (date : Z) (price : float) : Prop :=
  warmup_bars < Z.of_nat i /\ exists b, bars !! i = Some b /\ date = b_date b /\ price = b_open b.

(** Sold at the open of a later bar, or at the close of the last one. *)
Definition sold_at (i j : nat) (t : Trade) : Prop :=
  exists b, bars !! j = Some b /\ tr_exit_date t = b_date b /\
    (((i < j)%nat /\ tr_exit_price t = b_open b) \/
     ((i <= j)%nat /\ S j = length bars /\ tr_exit_price t = b_close b /\ tr_reason_close t = "End of backtest period"%string)).

Definition trade_ok (t : Trade) : Prop :=
  exists i j, bought_at i (tr_entry_date t) (tr_entry_price t) /\ sold_at i j t.

Definition before (t u : Trade) : Prop := tr_exit_date t < tr_entry_date u.

(** After the steps before bar [n]: fills are at bar [n] at the latest. *)
Definition settled (n : nat) {S} (e : engine S) : Prop :=
  Forall trade_ok (eg_trades e) /\ StronglySorted before (eg_trades e) /\
  Forall (fun t => exists j b, (j <= n)%nat /\ bars !! j = Some b /\ tr_exit_date t = b_date b) (eg_trades e) /\
  match eg_entry e with
  | None => True
  | Some en =>
      (eg_quantity e =? fzero)%float = false /\
      (exists i, (i <= n)%nat /\ bought_at i (en_date en) (en_price en)) /\
      Forall (fun t => tr_exit_date t < en_date en) (eg_trades e)
  end.

Lemma settled_succ n {S} (e : engine S) : settled n e -> settled (Datatypes.S n) e.
Proof.
  intros (H1 & H2 & H3 & H4). split; [done|]. split; [done|]. split.
  - eapply Forall_impl; [|exact H3]. intros t (j & b & Hj & Hb). exists j, b. split; [lia|done].
  - destruct (eg_entry e); [|done]. destruct H4 as (Hq & (i & Hi & Hb) & Hx). split; [done|]. split; [|done].
    exists i. split; [lia|done].
Qed.

Lemma settled_mark n {S} bar (e e' : engine S) : mark bar e = Ok e' -> settled n e -> settled n e'.
Proof. unfold mark. intros K. res_step K. by injection K as <-. Qed.

(** A sale on bar [j]. *)
Lemma settled_close n {S} j b price reason en (e e' : engine S) :
  settled n e -> eg_entry e = Some en -> (j <= Datatypes.S n)%nat -> bars !! j = Some b ->
  (j = Datatypes.S n /\ price = b_open b \/
   j = n /\ Datatypes.S j = length bars /\ price = b_close b /\ reason = "End of backtest period"%string) ->
  close_position rate (b_date b) price reason en e = Ok e' -> settled (Datatypes.S n) e'.
Proof.
  intros (H1 & H2 & H3 & H4) Hen Hj Hb Hp K. rewrite Hen in H4. destruct H4 as (_ & (i & Hi & Hbuy) & Hx).
  unfold close_position in K. res_step K. injection K as <-. unfold settled. cbn [eg_trades eg_entry].
  split; [|split; [|split; [|done]]].
  - apply Forall_app. split; [done|]. repeat constructor. exists i, j. cbn [tr_entry_date tr_entry_price]. split; [done|].
    exists b. cbn [tr_exit_date tr_exit_price tr_reason_close]. split; [done|]. split; [done|].
    destruct Hp as [[-> ->]|(-> & Hl & -> & ->)]; [left; split; [lia|done]|right; by split_and!].
  - apply StronglySorted_snoc; [done|]. exact Hx.
  - apply Forall_app. split; [|by repeat constructor; exists j, b].
    eapply Forall_impl; [|exact H3]. intros t (j' & b' & Hj' & Hb'). exists j', b'. split; [lia|done].
Qed.

(** A purchase on bar [n + 1]. *)
Lemma settled_open n {S} b reason (e e' : engine S) :
  settled n e -> eg_entry e = None -> bars !! Datatypes.S n = Some b -> warmup_bars <= Z.of_nat n ->
  open_long rate b reason e = Ok e' -> settled (Datatypes.S n) e'.
Proof using All.
  intros He Hen Hb Hw K. unfold open_long in K. res_step K. destruct (a <=? fzero)%float eqn:Eq.
  { injection K as <-. by apply settled_succ. }
  injection K as <-. pose proof He as (_ & _ & Hex & _). apply settled_succ in He as (H1 & H2 & H3 & _).
  unfold settled. cbn [eg_trades eg_entry eg_quantity].
  split; [done|]. split; [done|]. split; [done|]. split.
  { unfold fleb, feqb, SFleb, SFeqb in *. by destruct (SFcompare a fzero) as [[]|]. }
  cbn [en_date en_price]. split; [exists (Datatypes.S n); split; [lia|]; split; [lia|by exists b]|].
  eapply Forall_impl; [|exact Hex]. intros t (j & b' & Hj & Hb' & ->). apply (increasing_lookup b_date bars j (Datatypes.S n)); [done..|lia].
Qed.

Lemma settled_step n e e' :
  settled n e -> engine_step strategy rate warmup_bars bars e n = Ok e' -> settled (Datatypes.S n) e'.
Proof using All.
  intros He K. unfold engine_step in K. destruct (bars !! n) as [bar|] eqn:Eb; [|done]. res_step K.
  rename a into e1, E into Em. pose proof (settled_mark _ _ _ _ Em He) as H1. clear He Em.
  destruct (Z.of_nat n <? warmup_bars) eqn:Ew; [injection K as <-; by apply settled_succ|]. zbool.
  unfold act in K. destruct (bars !! Datatypes.S n) as [nb|] eqn:En.
  - res_step K. destruct a as [st [target reason]]. cbn [fst snd] in K.
    assert (H2 : settled n (with_strategy st e1)) by exact H1.
    destruct (_ && _)%bool eqn:Eo.
    + apply andb_true_iff in Eo as [_ Eq]. apply (settled_open n nb reason _ _ H2); [|done|lia|done].
      destruct H2 as (_ & _ & _ & H2). cbn [eg_entry eg_quantity with_strategy] in *. destruct (eg_entry e1); [|done].
      destruct H2 as [H2 _]. congruence.
    + destruct (eg_entry (with_strategy st e1)) as [en|] eqn:Een; [|injection K as <-; by apply settled_succ].
      destruct ((target =? 0) && _)%bool; [|injection K as <-; by apply settled_succ].
      eapply (settled_close n (Datatypes.S n) nb); [exact H2|exact Een|lia|done| |exact K]. by left.
  - destruct (eg_entry e1) as [en|] eqn:Een; [|injection K as <-; by apply settled_succ].
    destruct (_ <? _)%float; [|injection K as <-; by apply settled_succ].
    eapply (settled_close n n bar); [exact H1|exact Een|lia|done| |exact K].
    right. split_and!; [done| |done|done]. apply lookup_ge_None in En. apply lookup_lt_Some in Eb. lia.
Qed.

Lemma settled_loop capital pct n e :
  rate = fdiv_ieee pct f100 -> engine_loop strategy capital pct warmup_bars bars n = Ok e -> settled n e.
Proof using All.
  intros Hr. revert e. induction n as [|n IH]; intros e K.
  - unfold engine_loop in K. cbn in K. injection K as <-. split_and!; constructor.
  - rewrite loop_succ, <- Hr in K. res_step K. by apply (settled_step n a); [apply IH|].
Qed.
End trades.

(** The trades of a run over bars in the order of their dates. *)
Lemma run_trades strategy bars capital pct warmup_bars r :
  increasing b_date bars -> run bars strategy capital pct warmup_bars = Ok r ->
  Forall (trade_ok warmup_bars bars) (br_trades r) /\ StronglySorted before (br_trades r).
Proof.
  intros Hd. unfold run. destruct bars as [|b0 rest] eqn:E; [done|]. rewrite <- E in *. case_match; [done|].
  intros K. res_step K. injection K as <-. cbn [br_trades].
  apply (settled_loop strategy (fdiv_ieee pct f100) warmup_bars bars Hd capital pct) in E0 as (H1 & H2 & _); done.
Qed.

(** The equity points are dated by the bars. *)
Lemma mark_point {S} bar (e e' : engine S) :
  mark bar e = Ok e' -> map ep_date (eg_curve e') = (map ep_date (eg_curve e) ++ [b_date bar])%list.
Proof. unfold mark. intros K. res_step K. injection K as <-. cbn [eg_curve]. by rewrite map_app. Qed.

Lemma run_curve strategy bars capital pct warmup_bars r :
  run bars strategy capital pct warmup_bars = Ok r ->
  map ep_date (br_equity_curve r) = map b_date bars /\ br_bars r = bars /\ br_initial_capital r = capital.
Proof.
  unfold run. destruct bars as [|b0 rest] eqn:E; [done|]. rewrite <- E in *. case_match; [done|].
  intros K. res_step K. injection K as <-. cbn [br_equity_curve br_bars br_initial_capital]. split; [|done].
  assert (Hn : forall n e, (n <= length bars)%nat -> engine_loop strategy capital pct warmup_bars bars n = Ok e ->
    map ep_date (eg_curve e) = map b_date (take n bars)).
  { induction n as [|n IH]; intros e Hn Ke; [unfold engine_loop in Ke; cbn in Ke; by injection Ke as <-|].
    rewrite loop_succ in Ke. res_step Ke. apply step_inv in Ke as (bar & e1 & Hb & Hm & -> & _).
    rewrite (mark_point _ _ _ Hm), (IH a0) by (done || lia). rewrite (take_S_r _ _ _ Hb), map_app. done. }
  rewrite (Hn (length bars)) by (done || lia). by rewrite firstn_all.
Qed.
