(* ===== verification/BacktestService.v ===== *)
(** * BacktestService: [services/backtest_service.py], [backtest/narrate.py]

    A backtest request: the bars of the price table, the engine and the metrics
    of [Backtest], and the sentences about them ([routers/backtest.py],
    [schemas/backtest.py]).

    [run_backtest_correct] says what a request answers, and on which rows it
    depends. *)

From Stdlib Require Import Ascii.
From S2P Require Import Prelude Dates Decimal Ledger PyText PyFloat Json Indicators Backtest BacktestTrades Market.

(** ** Narration *)

Definition _pkr (amount : float) : string :=
  (if (amount <? fzero)%float then "-PKR " +:+ format_comma_0f (fabs amount) else "PKR " +:+ format_comma_0f amount)%string.

Definition narrate_trade (t : Trade) (symbol : string) : string :=
  let gain := (fzero <=? tr_net_pnl t)%float in
  let pnl_word := if gain then "profit" else "loss" in
  let pnl_sign := if gain then "+" else "" in
  ("On " +:+ isoformat (tr_entry_date t) +:+ ", the strategy bought " +:+ format_0f (tr_quantity t) +:+ " shares of "
   +:+ symbol +:+ " at PKR " +:+ format_f 2 (tr_entry_price t) +:+ " (" +:+ tr_reason_open t
   +:+ "). The position was held for " +:+ str_int (tr_holding_days t) +:+ " day"
   +:+ (if (tr_holding_days t =? 1)%Z then "" else "s") +:+ ". On " +:+ isoformat (tr_exit_date t)
   +:+ ", the strategy sold at PKR " +:+ format_f 2 (tr_exit_price t) +:+ " (" +:+ tr_reason_close t
   +:+ ") for a gross " +:+ pnl_word +:+ " of " +:+ _pkr (tr_gross_pnl t) +:+ ", reduced to " +:+ _pkr (tr_net_pnl t)
   +:+ " after " +:+ _pkr (tr_commission t) +:+ " in commissions (" +:+ pnl_sign +:+ format_f 2 (tr_return_pct t) +:+ "%).")%string.

(** What is said of the excess return, the drawdown, the win rate and the Sharpe
    ratio. *)
Definition lesson_benchmark (m : BacktestMetrics) (strategy_label : string) : string :=
  let excess := bm_excess_return_pct m in
  (if (excess <? lit (-2) 0)%float then
     "Buy-and-hold beat **" +:+ strategy_label +:+ "** by " +:+ format_f 1 (fabs excess)
     +:+ "%. Active strategies need to overcome both fees AND the high bar of just holding good companies "
     +:+ "— most of them don't, on most stocks."
   else if (lit 2 0 <? excess)%float then
     "**" +:+ strategy_label +:+ "** beat buy-and-hold by " +:+ format_f 1 excess
     +:+ "% over this period. Be careful: a single backtest is not proof a strategy 'works' — the market regime "
     +:+ "during this window may not repeat."
   else
     "Strategy and buy-and-hold finished within 2% of each other. After fees and effort, that's a wash — passive "
     +:+ "investing was the easier trade here.")%string.

Definition lesson_drawdown (m : BacktestMetrics) : list string :=
  if (lit 30 0 <? bm_max_drawdown_pct m)%float then
    [("Peak-to-trough drawdown was **" +:+ format_f 1 (bm_max_drawdown_pct m)
      +:+ "%**. Could you actually have held through that without panicking? Real-life behaviour is the silent "
      +:+ "killer of backtest results.")%string]
  else [].

Definition lesson_win_rate (m : BacktestMetrics) : list string :=
  if bm_num_trades m <? 5 then []
  else if (bm_win_rate_pct m <? lit 40 0)%float then
    [("Win rate was **" +:+ format_0f (bm_win_rate_pct m) +:+ "%**. Most active strategies have low win rates and "
      +:+ "survive only because their few wins are much bigger than their many losses. Look at average winning vs "
      +:+ "losing trade size to check that pattern.")%string]
  else if (lit 70 0 <? bm_win_rate_pct m)%float then
    [("Win rate was **" +:+ format_0f (bm_win_rate_pct m) +:+ "%**. That's high — but if average wins are smaller "
      +:+ "than average losses, the expectation can still be negative. Check the trade sizes.")%string]
  else [].

Definition lesson_sharpe (m : BacktestMetrics) : list string :=
  if (lit 15 (-1) <? bm_sharpe_ratio m)%float then
    [("Sharpe ratio of " +:+ format_f 2 (bm_sharpe_ratio m)
      +:+ " on this window is high — verify it holds out-of-sample before trusting it.")%string]
  else if (bm_sharpe_ratio m <? fzero)%float then
    [("Sharpe ratio is negative (" +:+ format_f 2 (bm_sharpe_ratio m)
      +:+ ") — the strategy returned less per unit of risk than just holding cash.")%string]
  else [].

Definition lessons (m : BacktestMetrics) (strategy_label : string) : list string :=
  if bm_num_trades m =? 0 then
    [("The strategy never triggered a trade in this window. The signals either weren't met or the warm-up period "
      +:+ "covered the whole range.")%string]
  else
    (lesson_benchmark m strategy_label :: lesson_drawdown m ++ lesson_win_rate m ++ lesson_sharpe m)%list.

(** ** The request *)

Record BacktestRequest := mkRequest {
  rq_symbol : string;
  rq_strategy : string;
  rq_start_date : Z;
  rq_end_date : Z;
  rq_initial_capital_pkr : dec;
  rq_commission_per_side_pct : float;
  rq_parameters : params;
}.

Definition StrategyKey : list string := ["sma_crossover"; "rsi_oversold"; "macd_signal"; "bollinger_revert"; "buy_and_hold"]%string.

Definition request_ok (req : BacktestRequest) : bool :=
  ((1 <=? Z.of_nat (String.length (rq_symbol req))) && (Z.of_nat (String.length (rq_symbol req)) <=? 20)
   && existsb (String.eqb (rq_strategy req)) StrategyKey && (0 <? coef (rq_initial_capital_pkr req))
   && (fzero <=? rq_commission_per_side_pct req)%float && (rq_commission_per_side_pct req <=? lit 5 0)%float)%bool.

(** The answer; [bt_run] holds the capital, the trades and the equity curve. *)
Record BacktestResult := mkBacktestResult {
  bt_symbol : string;
  bt_strategy : string;
  bt_start_date : Z;
  bt_end_date : Z;
  bt_run : BacktestRun;
  bt_metrics : BacktestMetrics;
  bt_narrations : list string;
  bt_lessons : list string;
}.

Record backtest_db := mkBacktestDb { bd_securities : list Security; bd_prices : list DailyRow }.

Definition in_window (start_date end_date : Z) (r : DailyRow) : bool :=
  ((start_date <=? d_date r) && (d_date r <=? end_date))%bool.

(** A row as a bar, unless one of the four prices is missing. *)
Definition bar_of (r : DailyRow) : option Bar :=
  match four_prices r with
  | Some (o, h, l, c) =>
      Some (mkBar (d_date r) o h l c (match d_adjusted_close r with Some a => float_of_dec a | None => c end) (volume_float r))
  | None => None
  end.

Definition _load_bars (db : backtest_db) (symbol : string) (start_date end_date : Z) : res (list Bar) :=
  let! sec := scalar_one_or_none (List.filter (fun s => String.eqb (s_symbol s) symbol) (bd_securities db)) in
  match sec with
  | None => Exn (ServiceError 404)
  | Some _ => Ok (omap bar_of (List.filter (in_window start_date end_date) (oldest_first symbol (bd_prices db))))
  end.

Section service.
Context `{LibM}.

Definition list_strategies : list (string * string * params) :=
  map (fun e => (se_key e, se_label e, se_default_params e)) _REGISTRY.

Definition label_of_strategy (key : string) : string :=
  match List.find (fun s => String.eqb s.1.1 key) list_strategies with
  | Some s => s.1.2
  | None => key
  end.

Definition warmup_of (bars : list Bar) : Z := Z.min 200 (Z.of_nat (length bars) / 2).

Definition service_run (db : backtest_db) (req : BacktestRequest) : res BacktestResult :=
  let symbol := text (strip_chars (chars (upper (rq_symbol req)))) in
  let! bars := _load_bars db symbol (rq_start_date req) (rq_end_date req) in
  if (length bars <? 30)%nat then Exn (ServiceError 400) else
  let! strategy := get_strategy (rq_strategy req) (rq_parameters req) in
  let! bt := run bars strategy (float_of_dec (rq_initial_capital_pkr req)) (rq_commission_per_side_pct req) (warmup_of bars) in
  let! benchmark_pct := buy_and_hold_return_pct bt in
  let! m := compute_metrics bt benchmark_pct in
  Ok (mkBacktestResult symbol (rq_strategy req) (rq_start_date req) (rq_end_date req) bt m
        (map (fun t => narrate_trade t symbol) (br_trades bt)) (lessons m (label_of_strategy (rq_strategy req)))).

(** [POST /backtest] *)
Definition run_backtest (db : backtest_db) (req : BacktestRequest) : res BacktestResult :=
  if request_ok req then service_run db req else Exn HTTPException422.
End service.

(** ** The bars of a request *)

(** The keys of the tables. *)
Definition bd_ok (db : backtest_db) : Prop :=
  NoDup (map s_symbol (bd_securities db)) /\ NoDup (map (fun r => (d_symbol r, d_date r)) (bd_prices db)).

(** The usable rows of a symbol in a window, oldest first. *)
Definition window_bars (db : backtest_db) (symbol : string) (start_date end_date : Z) : list Bar :=
  omap bar_of (List.filter (in_window start_date end_date) (oldest_first symbol (bd_prices db))).

Lemma load_bars_spec db symbol start_date end_date :
  bd_ok db ->
  _load_bars db symbol start_date end_date
  = if existsb (String.eqb symbol) (map s_symbol (bd_securities db)) then Ok (window_bars db symbol start_date end_date)
    else Exn (ServiceError 404).
Proof.
  intros [Hs _]. unfold _load_bars, window_bars.
  destruct (scalar_by_key s_symbol (bd_securities db) symbol Hs) as [(x & Hx & Hk & ->)|[Hn ->]].
  - replace (existsb _ _) with true; [done|]. symmetry. apply mem_text. rewrite <- Hk. by apply list_elem_of_fmap_2.
  - replace (existsb _ _) with false; [done|]. symmetry. apply not_true_iff_false. rewrite mem_text.
    intros (x & -> & Hx)%list_elem_of_fmap. by apply (Hn x).
Qed.

Lemma bar_of_date r b : bar_of r = Some b -> b_date b = d_date r.
Proof. unfold bar_of. by destruct (four_prices r) as [[[[o h] l] c]|]; intros [= <-]. Qed.

Lemma increasing_omap {A B} (f : A -> option B) (key : A -> Z) (key' : B -> Z) l :
  (forall x y, f x = Some y -> key' y = key x) -> increasing key l -> increasing key' (omap f l).
Proof.
  intros Hf. induction 1 as [|x l Hl IH Hx]; cbn; [constructor|]. destruct (f x) as [y|] eqn:E; [|done].
  constructor; [done|]. rewrite Forall_forall in *. intros z Hz%list_elem_of_In.
  apply list_elem_of_omap in Hz as (w & Hw & Ew). rewrite (Hf _ _ E), (Hf _ _ Ew). by apply Hx, list_elem_of_In.
Qed.

Lemma oldest_first_increasing db symbol : bd_ok db -> increasing d_date (oldest_first symbol (bd_prices db)).
Proof.
  intros [_ Hp]. unfold oldest_first. apply sort_by_increasing; [intros *; rewrite ?Z.leb_le; lia..|].
  induction (bd_prices db) as [|r l IH]; cbn [map List.filter] in *; [constructor|].
  apply list.NoDup_cons in Hp as [Hr Hp]. destruct (of_symbol symbol r) eqn:E; [|by apply IH].
  cbn [map]. constructor; [|by apply IH]. intros (q & Eq & Hq)%list_elem_of_fmap. apply Hr.
  apply elem_of_lfilter in Hq as [Hq Hs]. unfold of_symbol in *. apply String.eqb_eq in E, Hs.
  rewrite E, <- Hs, Eq. by apply (list_elem_of_fmap_2 (fun r => (d_symbol r, d_date r))).
Qed.

Lemma window_bars_dates db symbol start_date end_date :
  bd_ok db ->
  increasing b_date (window_bars db symbol start_date end_date) /\
  Forall (fun b => start_date <= b_date b <= end_date) (window_bars db symbol start_date end_date).
Proof.
  intros Hok. split.
  - apply (increasing_omap bar_of d_date); [apply bar_of_date|]. by apply increasing_filter, oldest_first_increasing.
  - apply Forall_forall. intros b Hb%list_elem_of_In. apply list_elem_of_omap in Hb as (r & Hr & Eb).
    apply elem_of_lfilter in Hr as [_ Hw]. unfold in_window in Hw. zbool. by rewrite (bar_of_date _ _ Eb).
Qed.

(** Only the rows of the symbol in the window count. *)
Lemma window_bars_frame db db' symbol start_date end_date :
  (forall r, of_symbol symbol r = true -> in_window start_date end_date r = true -> r ∈ bd_prices db <-> r ∈ bd_prices db') ->
  bd_ok db -> bd_ok db' ->
  window_bars db symbol start_date end_date = window_bars db' symbol start_date end_date.
Proof.
  intros Hr Hok Hok'. unfold window_bars. f_equal. apply (increasing_unique d_date).
  1,2: by apply increasing_filter, oldest_first_increasing.
  apply NoDup_Permutation.
  1,2: apply NoDup_lfilter, (NoDup_fmap_1 d_date), increasing_nodup; by apply oldest_first_increasing.
  intros r. rewrite !elem_of_lfilter. unfold oldest_first. rewrite !elem_of_sort_by, !elem_of_lfilter.
  split; intros [[H1 H2] H3]; (split; [split; [|done]|done]); by apply (Hr r H2 H3).
Qed.

(** An earlier end cuts the list of bars. *)
Lemma window_cut db symbol start_date end1 end2 :
  bd_ok db -> end1 <= end2 ->
  window_bars db symbol start_date end1 `prefix_of` window_bars db symbol start_date end2.
Proof.
  intros Hok Hle. unfold window_bars. pose proof (oldest_first_increasing db symbol Hok) as Hs.
  induction Hs as [|r l Hl IH Hr]; [done|]. cbn [List.filter].
  destruct (in_window start_date end1 r) eqn:E1.
  - replace (in_window start_date end2 r) with true by (unfold in_window in *; zbool; symmetry; apply andb_true_iff; rewrite !Z.leb_le; lia).
    cbn [omap list_omap]. destruct (bar_of r); [by apply prefix_cons|done].
  - destruct (decide (end1 < d_date r)) as [Hlate|Hearly].
    + replace (List.filter (in_window start_date end1) l) with (@nil DailyRow); [apply prefix_nil|].
      symmetry. apply filter_nil_iff. intros x Hx. rewrite Forall_forall in Hr. specialize (Hr x).
      rewrite <- list_elem_of_In in Hr. specialize (Hr Hx). unfold in_window. apply andb_false_iff. right. apply Z.leb_gt. lia.
    + replace (in_window start_date end2 r) with false; [done|]. unfold in_window in *. symmetry.
      apply andb_false_iff in E1 as [E1|E1]; zbool; [|lia]. apply andb_false_iff. left. by apply Z.leb_gt.
Qed.

(** ** What a request answers *)

Lemma lessons_length m label : (1 <= length (lessons m label) <= 4)%nat.
Proof.
  unfold lessons. destruct (bm_num_trades m =? 0); [cbn; lia|]. cbn [length]. rewrite !length_app.
  unfold lesson_drawdown, lesson_win_rate, lesson_sharpe. repeat case_match; cbn; lia.
Qed.

Section correct.
Context `{LibM}.

(** The symbol, the bars and the capital of a request. *)
Definition symbol_of (req : BacktestRequest) : string := text (strip_chars (chars (upper (rq_symbol req)))).
Definition bars_of (db : backtest_db) (req : BacktestRequest) : list Bar :=
  window_bars db (symbol_of req) (rq_start_date req) (rq_end_date req).
Definition engine_run (db : backtest_db) (req : BacktestRequest) (strategy : StrategyFn) : res BacktestRun :=
  run (bars_of db req) strategy (float_of_dec (rq_initial_capital_pkr req)) (rq_commission_per_side_pct req)
    (warmup_of (bars_of db req)).

Definition answer_ok (db : backtest_db) (req : BacktestRequest) (r : BacktestResult) : Prop :=
  let bars := bars_of db req in
  symbol_of req ∈ map s_symbol (bd_securities db) /\ (30 <= length bars)%nat /\
  (exists strategy, get_strategy (rq_strategy req) (rq_parameters req) = Ok strategy /\ causal strategy /\
     engine_run db req strategy = Ok (bt_run r)) /\
  map ep_date (br_equity_curve (bt_run r)) = map b_date bars /\
  increasing b_date bars /\ Forall (fun b => rq_start_date req <= b_date b <= rq_end_date req) bars /\
  Forall (trade_ok (warmup_of bars) bars) (br_trades (bt_run r)) /\ StronglySorted before (br_trades (bt_run r)) /\
  bt_narrations r = map (fun t => narrate_trade t (symbol_of req)) (br_trades (bt_run r)) /\
  (1 <= length (bt_lessons r) <= 4)%nat /\
  bm_num_trades (bt_metrics r) = Z.of_nat (length (br_trades (bt_run r))) /\
  bm_excess_return_pct (bt_metrics r) = (bm_total_return_pct (bt_metrics r) - bm_benchmark_return_pct (bt_metrics r))%float.

(** Why a valid request fails. *)
Definition refused (db : backtest_db) (req : BacktestRequest) (e : exn) : Prop :=
  ((symbol_of req ∉ map s_symbol (bd_securities db)) /\ e = ServiceError 404) \/
  (symbol_of req ∈ map s_symbol (bd_securities db) /\ (length (bars_of db req) < 30)%nat /\ e = ServiceError 400) \/
  ((30 <= length (bars_of db req))%nat /\
   (get_strategy (rq_strategy req) (rq_parameters req) = Exn e \/
    exists strategy, get_strategy (rq_strategy req) (rq_parameters req) = Ok strategy /\
      (engine_run db req strategy = Exn e \/
       exists bt, engine_run db req strategy = Ok bt /\
         (buy_and_hold_return_pct bt = Exn e \/ exists b, buy_and_hold_return_pct bt = Ok b /\ compute_metrics bt b = Exn e)))).

Lemma metrics_fields bt b m :
  compute_metrics bt b = Ok m ->
  bm_num_trades m = Z.of_nat (length (br_trades bt)) /\
  bm_excess_return_pct m = (bm_total_return_pct m - bm_benchmark_return_pct m)%float.
Proof. unfold compute_metrics. intros K. res_step K. res_step K. by injection K as <-. Qed.

(** C28: A backtest request is answered for a known symbol with thirty usable bars
    in the window, refused with 404 or 400 without them; otherwise it fails only
    where the parameters, the engine or the metrics do.  The answer has one
    equity point per bar, in the order of the dates and within the window; each
    trade is bought at the open of a bar after the warm-up and sold at the open
    of a later bar, or at the close of the last, and only then the next one is
    bought; there is a narration for each trade, and one to four lessons.  Rows
    of other symbols or outside the window have no influence. *)
Theorem run_backtest_correct db req :
  bd_ok db -> request_ok req = true ->
  match run_backtest db req with
  | Ok r => answer_ok db req r
  | Exn e => refused db req e
  end /\
  (forall db', bd_ok db' -> bd_securities db' = bd_securities db ->
     (forall r, of_symbol (symbol_of req) r = true -> in_window (rq_start_date req) (rq_end_date req) r = true ->
        r ∈ bd_prices db <-> r ∈ bd_prices db') ->
     run_backtest db' req = run_backtest db req).
Proof.
  intros Hok Hreq. unfold run_backtest. rewrite Hreq. unfold service_run. fold (symbol_of req).
  rewrite load_bars_spec by done. fold (bars_of db req). split.
  - destruct (existsb _ _) eqn:Ek; [apply mem_text in Ek|left; by rewrite <- mem_text, Ek].
    destruct (length (bars_of db req) <? 30)%nat eqn:Hn; [apply Nat.ltb_lt in Hn; right; by left|apply Nat.ltb_ge in Hn].
    destruct (get_strategy _ _) as [strategy|e] eqn:Es; [|right; right; split; [done|by left]].
    fold (engine_run db req strategy).
    destruct (engine_run db req strategy) as [bt|e] eqn:Er; [|right; right; split; [done|right; exists strategy; auto]].
    destruct (buy_and_hold_return_pct bt) as [b|e] eqn:Eb;
      [|right; right; split; [done|right; exists strategy; split; [done|right; exists bt; auto]]].
    destruct (compute_metrics bt b) as [m|e] eqn:Em;
      [|right; right; split; [done|right; exists strategy; split; [done|right; exists bt; split; [done|right; by exists b]]]].
    destruct (window_bars_dates db (symbol_of req) (rq_start_date req) (rq_end_date req) Hok) as [Hinc Hwin].
    unfold answer_ok. cbn [bt_run bt_metrics bt_narrations bt_lessons]. fold (bars_of db req).
    pose proof (get_strategy_causal _ _ _ Es) as Hc. pose proof (metrics_fields _ _ _ Em) as [Hm1 Hm2].
    pose proof (run_trades _ _ _ _ _ _ Hinc Er) as [Ht1 Ht2]. pose proof (run_curve _ _ _ _ _ _ Er) as [Hcv _].
    pose proof (lessons_length m (label_of_strategy (rq_strategy req))).
    split; [done|]. split; [done|]. split; [by exists strategy|]. split_and!; first [assumption | reflexivity | lia].
  - intros db' Hok' Hs Hr. rewrite load_bars_spec, Hs by done.
    by rewrite <- (window_bars_frame db db' _ _ _ Hr Hok Hok').
Qed.

(** The request with another end date. *)
Definition ending (end_date : Z) (req : BacktestRequest) : BacktestRequest :=
  mkRequest (rq_symbol req) (rq_strategy req) (rq_start_date req) end_date (rq_initial_capital_pkr req)
    (rq_commission_per_side_pct req) (rq_parameters req).

(** With four hundred bars or more, a backtest that ends later continues the
    one that ends earlier: the shorter answer's equity curve is the beginning of
    the longer one's, and its trades are, but for the sale that ends it. *)
Theorem later_end_continues db req end_date r1 r2 :
  bd_ok db -> rq_end_date req <= end_date -> (400 <= length (bars_of db req))%nat ->
  run_backtest db req = Ok r1 -> run_backtest db (ending end_date req) = Ok r2 ->
  br_equity_curve (bt_run r1) = take (length (bars_of db req)) (br_equity_curve (bt_run r2)) /\
  exists settled forced, br_trades (bt_run r1) = (settled ++ forced)%list /\ settled `prefix_of` br_trades (bt_run r2) /\
    (length forced <= 1)%nat /\ Forall (fun t => tr_reason_close t = "End of backtest period"%string) forced.
Proof.
  intros Hok Hle Hn. unfold run_backtest. replace (request_ok (ending end_date req)) with (request_ok req) by done.
  destruct (request_ok req); [|done]. unfold service_run. change (rq_symbol (ending end_date req)) with (rq_symbol req).
  fold (symbol_of req). rewrite !load_bars_spec by done. destruct (existsb _ _); [|done]. cbn [rq_start_date rq_end_date ending].
  fold (bars_of db req). pose proof (window_cut db (symbol_of req) (rq_start_date req) _ _ Hok Hle) as Hpre.
  fold (bars_of db req) in Hpre. set (l := window_bars db (symbol_of req) (rq_start_date req) end_date) in *.
  pose proof (prefix_length _ _ Hpre) as Hlen.
  rewrite (proj2 (Nat.ltb_ge (length (bars_of db req)) 30)), (proj2 (Nat.ltb_ge (length l) 30)) by lia.
  cbn [rq_strategy rq_parameters rq_initial_capital_pkr rq_commission_per_side_pct ending].
  destruct (get_strategy _ _) as [strategy|] eqn:Es; [|done]. unfold warmup_of.
  assert (H200 : forall n, (400 <= n)%nat -> Z.min 200 (Z.of_nat n / 2) = 200).
  { intros n H400. apply Z.min_l. apply Z.div_le_lower_bound; lia. }
  rewrite !H200 by lia. intros K1 K2. res_step K1. res_step K1. res_step K1. injection K1 as <-.
  res_step K2. res_step K2. res_step K2. injection K2 as <-. cbn [bt_run].
  pose proof (run_cut strategy l _ _ _ (length (bars_of db req)) _ (get_strategy_causal _ _ _ Es) ltac:(lia) E2) as Hcut.
  destruct Hpre as [rest Hl]. rewrite Hl, take_app_length in Hcut. by rewrite E in Hcut.
Qed.
End correct.

(** ** Examples *)

Module sample.
#[local] Instance sample_pow : LibM := {| libm_pow := fun x _ => x |}.

(** Daily rows of HBL, the close of day [k] given by [f], and their adjusted close. *)
Definition row (f : nat -> Z * option Z) (k : nat) : DailyRow :=
  let c := Some (mkdec (f k).1 0) in
  mkDaily "HBL" (737000 + Z.of_nat k) c c c c (Some 100) (option_map (fun a => mkdec a 0) (f k).2).
Definition db_of (f : nat -> Z * option Z) (n : nat) : backtest_db :=
  mkBacktestDb [mkSecurity "HBL" "Habib Bank" "Banks" true] (map (row f) (seq 0 n)).
Definition held_until (end_date : Z) : BacktestRequest :=
  mkRequest "hbl" "buy_and_hold" 737000 end_date (mkdec 100000 0) fzero [].
Definition rising (k : nat) : Z * option Z := (100 + Z.of_nat k, None).
(** A two-for-one split on day 20. *)
Definition split (k : nat) : Z * option Z := if (k <? 20)%nat then (100, Some 50) else (50, Some 50).

Definition entries (r : res BacktestResult) : option (list Z) :=
  match r with Ok r => Some (map tr_entry_date (br_trades (bt_run r))) | Exn _ => None end.

(** With fewer bars the warm-up is half of them: what a short request bought, the
    longer one has not. *)
Example warm_up_depends_on_end :
  entries (run_backtest (db_of rising 60) (held_until 737029)) = Some [737016] /\
  entries (run_backtest (db_of rising 60) (held_until 737059)) = Some [737031].
Proof. by vm_compute. Qed.

(** The fills take the price of the day, the benchmark the adjusted one: holding
    through a split reads as a loss against holding through a split. *)
Example split_is_a_loss :
  match run_backtest (db_of split 30) (held_until 737029) with
  | Ok r => bm_total_return_pct (bt_metrics r) = lit (-50) 0 /\ bm_benchmark_return_pct (bt_metrics r) = fzero /\
      map tr_gross_pnl (br_trades (bt_run r)) = [lit (-50000) 0]
  | Exn _ => False
  end.
Proof. vm_compute. by split_and!. Qed.

(** The gross result takes its word from the net one. *)
Example gross_loss_of_a_gain :
  narrate_trade (mkTrade 737000 (lit 100 0) 737001 (lit 101 0) (lit 10 0) (lit 30 0) (lit 10 0) (lit (-20) 0) (lit (-2) 0) 1
                   "signal" "signal") "HBL"
  = "On 2018-11-02, the strategy bought 10 shares of HBL at PKR 100.00 (signal). The position was held for 1 day. On 2018-11-03, the strategy sold at PKR 101.00 (signal) for a gross loss of PKR 10, reduced to -PKR 20 after PKR 30 in commissions (-2.00%)."%string.
Proof. by vm_compute. Qed.

(** Parameters that are no numbers are an unhandled error. *)
Example bad_parameters :
  run_backtest (db_of rising 60)
    (mkRequest "HBL" "sma_crossover" 737000 737059 (mkdec 1 0) fzero [("fast_period", JText "ten")]%string) = Exn ValueError.
Proof. by vm_compute. Qed.

Lemma rising_ok n : bd_ok (db_of rising n).
Proof.
  split; [cbn [db_of bd_securities map s_symbol]; apply NoDup_singleton|]. cbn [db_of bd_prices]. rewrite map_map.
  apply (NoDup_fmap_2_strong _), NoDup_seq. intros i j _ _. cbn. intros [= K]. lia.
Qed.

Lemma run_backtest_correct_witness :
  bd_ok (db_of rising 60) /\
  match run_backtest (db_of rising 60) (held_until 737059) with
  | Ok r => answer_ok (db_of rising 60) (held_until 737059) r
  | Exn e => refused (db_of rising 60) (held_until 737059) e
  end.
Proof.
  split; [exact (rising_ok 60)|].
  assert (Hreq : request_ok (held_until 737059) = true) by (vm_compute; reflexivity).
  pose proof (run_backtest_correct (db_of rising 60) (held_until 737059) (rising_ok 60) Hreq) as [K _].
  exact K.
Defined.

Definition is_answer (r : res BacktestResult) : bool := match r with Ok _ => true | Exn _ => false end.

Lemma later_end_continues_witness :
  exists r1 r2, run_backtest (db_of rising 410) (held_until 737399) = Ok r1 /\
    run_backtest (db_of rising 410) (ending 737409 (held_until 737399)) = Ok r2 /\
    br_equity_curve (bt_run r1) = take 400 (br_equity_curve (bt_run r2)).
Proof.
  assert (Hn : length (bars_of (db_of rising 410) (held_until 737399)) = 400%nat) by (vm_compute; reflexivity).
  assert (H1 : is_answer (run_backtest (db_of rising 410) (held_until 737399)) = true) by (vm_compute; reflexivity).
  assert (H2 : is_answer (run_backtest (db_of rising 410) (ending 737409 (held_until 737399))) = true) by (vm_compute; reflexivity).
  destruct (run_backtest (db_of rising 410) (held_until 737399)) as [r1|] eqn:E1; [|discriminate H1].
  destruct (run_backtest (db_of rising 410) (ending 737409 (held_until 737399))) as [r2|] eqn:E2; [|discriminate H2].
  exists r1, r2. split; [reflexivity|]. split; [reflexivity|]. rewrite <- Hn.
  refine (proj1 (later_end_continues (db_of rising 410) (held_until 737399) 737409 r1 r2 (rising_ok 410) _ _ E1 E2)).
  - apply Z.leb_le. reflexivity.
  - rewrite Hn. apply Nat.le_refl.
Defined.
End sample.
