(* ===== verification/NewsTables.v ===== *)
(** * NewsTables: the tables of [psx_api/models/news.py]

    Rows as [psx_ingest/news/persistence.py] writes them and the API's services read
    them.  Instants are microseconds since 1970. *)

From S2P Require Import Prelude Decimal.

(** [news_articles], unique by URL *)
Record NewsArticle := mkArticle {
  na_id : string;
  na_source : string;
  na_url : string;
  na_headline : string;
  na_body : string;
  na_published_at : Z;
  na_scraped_at : Z;
  na_language : string;
}.

(** [article_mentions], keyed by article and symbol *)
Record ArticleMention := mkMention {
  am_article_id : string;
  am_symbol : string;
  am_match_count : Z;
}.

(** [company_aliases], unique by symbol and alias; the key and [is_primary] are not read. *)
Record CompanyAlias := mkCompanyAlias {
  ca_symbol : string;
  ca_alias : string;
}.

(** [article_sentiment], keyed by article and symbol *)
Record ArticleSentiment := mkArticleSentiment {
  as_article_id : string;
  as_symbol : string;
  as_polarity : dec;
  as_event_type : option string;
  as_model_version : string;
  as_scored_at : Z;
}.

(** Midnight of a day in UTC, and the day of an instant: days are ordinals, of
    which 1970-01-01 is 719163. *)
Definition day_start (on : Z) : Z := (on - 719163) * 86400 * 10 ^ 6.
Definition day_of (instant : Z) : Z := instant / (86400 * 10 ^ 6) + 719163.
