(* ===== verification/Alerts.v ===== *)
(** * Alerts: [psx_api/alerts/pump_dump.py] and [services/alert_service.py]

    The pump-and-dump detector: a rule on volume and price, an anomaly score, the
    severity in the light of the news; and the service that evaluates the latest
    day of a symbol, stores what it finds once per day, and lists the alerts of
    a user.

    [evaluate_today_correct] says when a day is flagged, how severely, and that a
    second evaluation changes nothing. *)

From S2P Require Import Prelude Owned Dates Decimal Ledger Transactions PyText PyFloat Indicators Watchlist Market NewsTables.

(** ** Layer 1: the rule *)

Record DailyBar := mkDailyBar {
  bar_open : float;
  bar_high : float;
  bar_low : float;
  bar_close : float;
  bar_volume : float;
  bar_prev_close : option float;
}.

Record RuleResult := mkRule {
  triggered : bool;
  rule_type : option string;
  rule_vol_spike : float;
  rule_price_change_pct : float;
  rule_explanation : string;
}.

Definition _VOL_SPIKE_THRESHOLD : float := lit 4 0.
Definition _PRICE_CHANGE_THRESHOLD : float := lit 3 (-2).

(** [x / y if y > 0 else 0.0] *)
Definition ratio (x y : float) : float := if (fzero <? y)%float then fdiv_ieee x y else fzero.

Definition detect_rule (today : DailyBar) (vol_ma_20 : float) : RuleResult :=
  let vol_spike := ratio (bar_volume today) vol_ma_20 in
  let price_change := ratio (bar_close today - bar_open today)%float (bar_open today) in
  let spike := fround 2 vol_spike in
  let change := fround 2 (price_change * f100)%float in
  if ((_VOL_SPIKE_THRESHOLD <=? vol_spike) && (_PRICE_CHANGE_THRESHOLD <=? price_change))%float%bool then
    mkRule true (Some "pump"%string) spike change
      ("Volume today is " +:+ format_f 1 vol_spike +:+ "× the 20-day average with a "
       +:+ format_f 1 (price_change * f100)%float +:+ "% price increase — the textbook pump pattern.")
  else if ((_VOL_SPIKE_THRESHOLD <=? vol_spike) && (price_change <=? fopp _PRICE_CHANGE_THRESHOLD))%float%bool then
    mkRule true (Some "dump"%string) spike change
      ("Volume today is " +:+ format_f 1 vol_spike +:+ "× the 20-day average with a "
       +:+ format_f 1 (fabs price_change * f100)%float +:+ "% drop — the textbook dump pattern.")
  else mkRule false None spike change "No rule-based pump/dump signal.".

(** ** Layer 2: the anomaly score *)

Record AnomalyFeatures := mkFeatures {
  af_close : float;
  af_volume : float;
  af_vol_spike : float;
  af_price_change_pct : float;
  af_intraday_range_pct : float;
  af_gap_pct : float;
}.

Definition features_from (bar : DailyBar) (vol_ma_20 : float) : AnomalyFeatures :=
  let pct x y := if (fzero <? y)%float then (fdiv_ieee x y * f100)%float else fzero in
  mkFeatures (bar_close bar) (bar_volume bar) (ratio (bar_volume bar) vol_ma_20)
    (pct (bar_close bar - bar_open bar)%float (bar_open bar))
    (pct (bar_high bar - bar_low bar)%float (bar_open bar))
    (match bar_prev_close bar with
     | Some p => if (p =? fzero)%float then fzero else (fdiv_ieee (bar_open bar - p) p * f100)%float
     | None => fzero
     end).

(** [fields], as the attributes they name. *)
Definition fields : list (AnomalyFeatures -> float) :=
  [af_close; af_volume; af_vol_spike; af_price_change_pct; af_intraday_range_pct; af_gap_pct].

Section libm.
Context `{LibM}.

(** The square of the z-score of one feature, unless it does not vary. *)
Definition field_step (today : AnomalyFeatures) (history : list AnomalyFeatures) (sq_sum : float)
    (get : AnomalyFeatures -> float) : res float :=
  let values := map get history in
  let n := Z.of_nat (length values) in
  let mean := fdiv_ieee (fsum values) (fint n) in
  let! squares := map_res (fun v => square (v - mean)%float) values in
  let var := fdiv_ieee (fsum squares) (fint (Z.max (n - 1) 1)) in
  let std := if (fzero <? var)%float then fsqrt_ieee var else fzero in
  if (std =? fzero)%float then Ok sq_sum
  else let z := fdiv_ieee (get today - mean)%float std in Ok (sq_sum + z * z)%float.

Definition anomaly_score (today : AnomalyFeatures) (history : list AnomalyFeatures) : res float :=
  if (length history <? 5)%nat then Ok fzero else
  let! sq_sum := fold_res (field_step today history) fzero fields in
  Ok (fround 4 (fsqrt_ieee sq_sum)).

(** ** Layer 3: the news *)

Definition escalate_severity (rule_triggered : bool) (anomaly_score_value : float)
    (has_announcement_today has_high_impact_news_today : bool) (sentiment_pulse : float) : string :=
  let news_context := (has_announcement_today || has_high_impact_news_today)%bool in
  if (rule_triggered && negb news_context)%bool then
    if (lit 4 0 <=? anomaly_score_value)%float then "high"
    else if (lit 25 (-1) <=? anomaly_score_value)%float then "high"
    else "medium"
  else if (rule_triggered && news_context)%bool then
    if (lit 50 0 <? fabs sentiment_pulse)%float then "low" else "medium"
  else if ((lit 5 0 <=? anomaly_score_value)%float && negb news_context)%bool then "medium"
  else "low".

(** ** The service's tables *)

(** A row of [suspicious_days]. *)
Record SuspiciousDay := mkSuspicious {
  sd_id : string;
  sd_symbol : string;
  sd_alert_date : Z;
  sd_alert_type : string;
  sd_severity : string;
  sd_vol_spike : dec;
  sd_price_change_pct : dec;
  sd_anomaly_score : dec;
  sd_has_news_context : bool;
  sd_explanation : string;
  sd_created_at : Z;
}.

Record Announcement := mkAnnouncement { an_symbol : string; an_date : Z }.

Record alert_db := mkAlertDb {
  prices : list DailyRow;
  announcements : list Announcement;
  articles : list NewsArticle;
  mentions : list ArticleMention;
  sentiments : list ArticleSentiment;
  suspicious_days : list SuspiciousDay;
}.

Definition with_days (db : alert_db) (l : list SuspiciousDay) : alert_db :=
  mkAlertDb (prices db) (announcements db) (articles db) (mentions db) (sentiments db) l.

Definition latest_for_symbol (db : alert_db) (symbol : string) : option SuspiciousDay :=
  head (sort_by (fun a b => sd_alert_date b <=? sd_alert_date a)
          (List.filter (fun s => String.eqb (sd_symbol s) (upper symbol)) (suspicious_days db))).

(** [ORDER BY alert_date DESC, created_at DESC] *)
Definition newer (a b : SuspiciousDay) : bool :=
  if sd_alert_date a =? sd_alert_date b then sd_created_at b <=? sd_created_at a
  else sd_alert_date b <? sd_alert_date a.

(** The symbols a user watches, and those with a row in [holdings_snapshot]. *)
Definition watched (wl : list WatchlistItem) (user_id : string) : list string :=
  map wi_symbol (List.filter (of_user user_id) wl).
Definition held (ledger : database) (user_id : string) : list string :=
  let portfolio_ids := map p_id (List.filter (fun p => String.eqb (p_user_id p) user_id) (portfolios ledger)) in
  map h_symbol (List.filter (fun h => is_in (h_portfolio_id h) portfolio_ids) (holdings ledger)).

Definition for_user (db : alert_db) (wl : list WatchlistItem) (ledger : database) (user_id : string) (limit : Z)
    : res (list SuspiciousDay) :=
  limited limit (sort_by newer
    (List.filter (fun s => (is_in (sd_symbol s) (watched wl user_id) || is_in (sd_symbol s) (held ledger user_id))%bool)
       (suspicious_days db))).

(** ** Evaluation *)

(** [announcement_date] in the three days up to [on]. *)
Definition _has_recent_announcement (db : alert_db) (symbol : string) (on : Z) : bool :=
  existsb (fun a => (String.eqb (an_symbol a) symbol && (on - 3 <=? an_date a) && (an_date a <=? on))%bool)
    (announcements db).

Definition high_impact_events : list string := ["earnings"; "regulatory"; "mna"; "scandal"]%string.

(** The join of sentiments, articles and mentions: all sentiments of an article
    that mentions the symbol. *)
Definition news_rows (db : alert_db) (symbol : string) (on : Z) : list ArticleSentiment :=
  flat_map (fun s =>
    flat_map (fun n =>
      if (String.eqb (na_id n) (as_article_id s) && (day_start on <=? na_published_at n)
          && (na_published_at n <=? day_start (on + 1) - 1))%bool
      then map (fun _ => s) (List.filter (fun m => String.eqb (am_article_id m) (na_id n) && String.eqb (am_symbol m) symbol)%bool
                               (mentions db))
      else []) (articles db)) (sentiments db).

Definition _news_context (db : alert_db) (symbol : string) (on : Z) : bool * float :=
  let rows := news_rows db symbol on in
  let has_high_impact := existsb (fun s => match as_event_type s with Some e => is_in e high_impact_events | None => false end) rows in
  let pulse := match rows with
               | [] => fzero
               | _ => (fdiv_ieee (fsum (map (fun s => float_of_dec (as_polarity s)) rows)) (fint (Z.of_nat (length rows))) * f100)%float
               end in
  (has_high_impact, pulse).

(** The bars of chronological rows; a row that lacks a price is skipped, and yet
    the row before the next one. *)
Fixpoint alert_bars (prev : option DailyRow) (rows : list DailyRow) : list DailyBar :=
  match rows with
  | [] => []
  | r :: rest =>
      match four_prices r with
      | None => alert_bars (Some r) rest
      | Some (o, h, l, c) =>
          let prev_close := match prev with Some p => option_map float_of_dec (d_close p) | None => None end in
          mkDailyBar o h l c (volume_float r) prev_close :: alert_bars (Some r) rest
      end
  end.

(** What the evaluation finds about the latest day. *)
Record assessment := mkAssessment {
  as_date : Z;
  as_rule : RuleResult;
  as_score : float;
  as_announcement : bool;
  as_high_impact : bool;
  as_pulse : float;
}.

(** Everything up to the decision; [None] for fewer than 22 rows or bars. *)
Definition assess (db : alert_db) (symbol : string) : res (option assessment) :=
  let rows := take 70 (newest_first symbol (prices db)) in
  if (length rows <? 22)%nat then Ok None else
  let rows := rev rows in
  let bars := alert_bars None rows in
  if (length bars <? 22)%nat then Ok None else
  match List.last (map Some bars) None, List.last (map Some rows) None with
  | Some today_bar, Some today_row =>
      let today_date := d_date today_row in
      let vol_ma_20 := fdiv_ieee (fsum (map bar_volume (before_last 20 bars))) (fint 20) in
      let rule := detect_rule today_bar vol_ma_20 in
      let feat_history := map (fun b => features_from b vol_ma_20) (before_last 60 bars) in
      let! score := anomaly_score (features_from today_bar vol_ma_20) feat_history in
      let '(high_impact, pulse) := _news_context db symbol today_date in
      Ok (Some (mkAssessment today_date rule score (_has_recent_announcement db symbol today_date) high_impact pulse))
  | _, _ => Exn IndexError
  end.

Definition news_context (a : assessment) : bool := (as_announcement a || as_high_impact a)%bool.
Definition severity_of (a : assessment) : string :=
  escalate_severity (triggered (as_rule a)) (as_score a) (as_announcement a) (as_high_impact a) (as_pulse a).

(** The row of a remarkable day. *)
Definition suspicious_row (symbol new_id : string) (now : Z) (a : assessment) : res SuspiciousDay :=
  let rule := as_rule a in
  let explanation :=
    ((if triggered rule then rule_explanation rule
      else "Statistical anomaly score " +:+ format_f 1 (as_score a) +:+ " (≥5 sigma).")
     +:+ (if news_context a then " Context: announced news today reduced severity."
          else " No announced news context — extra caution."))%string in
  let alert_type := match rule_type rule with
                    | Some t => t
                    | None => if (fzero <=? rule_price_change_pct rule)%float then "pump" else "dump"
                    end%string in
  let! vol_spike := numeric_of_float 10 2 (rule_vol_spike rule) in
  let! price_change_pct := numeric_of_float 10 2 (rule_price_change_pct rule) in
  let! score := numeric_of_float 10 4 (as_score a) in
  Ok (mkSuspicious new_id symbol (as_date a) alert_type (severity_of a) vol_spike price_change_pct score
        (news_context a) explanation now).

(** The row to store, [None] when the day is unremarkable. *)
Definition flagged (symbol new_id : string) (now : Z) (a : assessment) : res (option SuspiciousDay) :=
  let rule_triggered := triggered (as_rule a) in
  if (negb rule_triggered && (as_score a <? lit 5 0)%float)%bool then Ok None else
  if (negb rule_triggered && String.eqb (severity_of a) "low")%bool then Ok None else
  let! row := suspicious_row symbol new_id now a in Ok (Some row).

(** The key of [uq_suspicious_days_symbol_date]. *)
Definition day_key (symbol : string) (date : Z) (s : SuspiciousDay) : bool :=
  (String.eqb (sd_symbol s) symbol && (sd_alert_date s =? date))%bool.

Definition evaluate_today (db : alert_db) (new_id : string) (now : Z) (symbol : string)
    : res (alert_db * option SuspiciousDay) :=
  let symbol := upper symbol in
  let! found := assess db symbol in
  match found with
  | None => Ok (db, None)
  | Some a =>
      let! row := flagged symbol new_id now a in
      match row with
      | None => Ok (db, None)
      | Some row =>
          if existsb (day_key symbol (as_date a)) (suspicious_days db) then
            let! existing := scalar_one_or_none (List.filter (day_key symbol (as_date a)) (suspicious_days db)) in
            Ok (db, existing)
          else Ok (with_days db (suspicious_days db ++ [row])%list, Some row)
      end
  end.

(** ** When a day is flagged *)

(** The rule, or an anomaly without news. *)
Definition remarkable (a : assessment) : bool :=
  (triggered (as_rule a) || ((lit 5 0 <=? as_score a)%float && negb (news_context a)))%bool.

(** Without news, high from a score of 2.5 on; with news, low if the day's
    sentiment is strong; otherwise medium. *)
Definition expected_severity (a : assessment) : string :=
  if news_context a then if (lit 50 0 <? fabs (as_pulse a))%float then "low" else "medium"
  else if (triggered (as_rule a) && (lit 25 (-1) <=? as_score a)%float)%bool then "high" else "medium".

Lemma severity_spec a : remarkable a = true -> severity_of a = expected_severity a.
Proof.
  unfold remarkable, severity_of, expected_severity, escalate_severity, news_context.
  destruct (triggered (as_rule a)), (as_announcement a || as_high_impact a)%bool; cbn [andb orb negb]; try done.
  - destruct (lit 4 0 <=? as_score a)%float eqn:E; [|done]. intros _.
    by rewrite (fleb_trans (lit 25 (-1)) (lit 4 0)).
  - by rewrite andb_false_r.
  - rewrite andb_true_r. by intros ->.
Qed.

Lemma flagged_spec symbol new_id now a :
  flagged symbol new_id now a
  = if remarkable a then (let! row := suspicious_row symbol new_id now a in Ok (Some row)) else Ok None.
Proof.
  unfold flagged, remarkable. destruct (triggered (as_rule a)) eqn:Et; cbn [negb andb orb]; [done|].
  unfold severity_of, escalate_severity. rewrite Et. fold (news_context a). cbn [andb negb].
  destruct (as_score a <? lit 5 0)%float eqn:El.
  - destruct (lit 5 0 <=? as_score a)%float eqn:Eg; [|done].
    destruct (fleb_nan _ _ Eg) as [H1 H2]. rewrite fltb_nlt, Eg in El by done. discriminate.
  - by destruct ((lit 5 0 <=? as_score a)%float && negb (news_context a))%bool.
Qed.

Definition days_ok (db : alert_db) : Prop :=
  NoDup (map (fun s => (sd_symbol s, sd_alert_date s)) (suspicious_days db)).

Lemma day_key_spec symbol date s : day_key symbol date s = true <-> (sd_symbol s, sd_alert_date s) = (symbol, date).
Proof.
  unfold day_key. rewrite andb_true_iff, String.eqb_eq, Z.eqb_eq. split; [by intros [-> ->]|by intros [= -> ->]].
Qed.

(** The row of a day that is in the table already. *)
Lemma existing_day symbol date days :
  NoDup (map (fun s => (sd_symbol s, sd_alert_date s)) days) -> existsb (day_key symbol date) days = true ->
  exists row, row ∈ days /\ sd_symbol row = symbol /\ sd_alert_date row = date /\
    scalar_one_or_none (List.filter (day_key symbol date) days) = Ok (Some row).
Proof.
  intros Hnd (row & Hin%list_elem_of_In & Hk)%existsb_exists. exists row. split; [done|].
  apply day_key_spec in Hk. injection Hk as <- <-. split; [done|]. split; [done|].
  rewrite (filter_key (fun s => (sd_symbol s, sd_alert_date s)) _ row); [done..|].
  intros y. by rewrite day_key_spec.
Qed.

Lemma suspicious_row_inv symbol new_id now a :
  match suspicious_row symbol new_id now a with
  | Ok row => sd_id row = new_id /\ sd_symbol row = symbol /\ sd_alert_date row = as_date a /\
              sd_severity row = severity_of a /\ sd_has_news_context row = news_context a
  | Exn e => e = DataError
  end.
Proof.
  unfold suspicious_row. assert (Hn : forall p k x, match numeric_of_float p k x with Ok _ => True | Exn e => e = DataError end).
  { intros p k [| | |sg m e]; cbn; try done. by destruct (_ <? _). }
  pose proof (Hn 10 2 (rule_vol_spike (as_rule a))) as H1. destruct (numeric_of_float _ _ _); [|done].
  pose proof (Hn 10 2 (rule_price_change_pct (as_rule a))) as H2. destruct (numeric_of_float _ _ _); [|done].
  pose proof (Hn 10 4 (as_score a)) as H3. destruct (numeric_of_float _ _ _); [|done]. by split_and!.
Qed.

(** A remarkable day whose row is in the table. *)
Lemma evaluate_again db days symbol a row other_id later row' :
  assess db (upper symbol) = Ok (Some a) -> remarkable a = true ->
  NoDup (map (fun s => (sd_symbol s, sd_alert_date s)) days) -> row ∈ days ->
  sd_symbol row = upper symbol -> sd_alert_date row = as_date a ->
  suspicious_row (upper symbol) other_id later a = Ok row' ->
  evaluate_today (with_days db days) other_id later symbol = Ok (with_days db days, Some row).
Proof.
  intros Ea Er Hnd Hin Hs Hd Hrow. unfold evaluate_today.
  replace (assess (with_days db days) (upper symbol)) with (assess db (upper symbol)) by done.
  rewrite Ea, flagged_spec, Er, Hrow. cbn [suspicious_days with_days].
  assert (Hex : existsb (day_key (upper symbol) (as_date a)) days = true).
  { apply existsb_exists. exists row. split; [by apply list_elem_of_In|]. apply day_key_spec. congruence. }
  rewrite Hex. rewrite (filter_key (fun s => (sd_symbol s, sd_alert_date s)) _ row); [done..|].
  intros y. rewrite day_key_spec. by rewrite Hs, Hd.
Qed.

(** C20: [evaluate_today] flags the latest day exactly if the volume and price
    rule triggers or the anomaly score reaches 5 on a day without news; a new
    row has the severity of the table, a figure too large for its column is the
    only new error.  There is at most one row per symbol and day, the row
    returned is the one stored, and evaluating the day again returns it and
    changes nothing. *)
Theorem evaluate_today_correct db new_id now symbol :
  days_ok db ->
  match assess db (upper symbol) with
  | Exn e => evaluate_today db new_id now symbol = Exn e
  | Ok None => evaluate_today db new_id now symbol = Ok (db, None)
  | Ok (Some a) =>
      if remarkable a then
        match evaluate_today db new_id now symbol with
        | Exn e => e = DataError
        | Ok (db', found) =>
            exists row, found = Some row /\ row ∈ suspicious_days db' /\ sd_symbol row = upper symbol /\
              sd_alert_date row = as_date a /\ days_ok db' /\
              (db' = db \/
               (db' = with_days db (suspicious_days db ++ [row])%list /\ sd_id row = new_id /\
                sd_severity row = expected_severity a /\ sd_has_news_context row = news_context a)) /\
              forall other_id later row', suspicious_row (upper symbol) other_id later a = Ok row' ->
                evaluate_today db' other_id later symbol = Ok (db', Some row)
        end
      else evaluate_today db new_id now symbol = Ok (db, None)
  end.
Proof.
  intros Hok. destruct (assess db (upper symbol)) as [[a|]|e] eqn:Ea; [|by unfold evaluate_today; rewrite Ea..].
  destruct (remarkable a) eqn:Er; [|by unfold evaluate_today; rewrite Ea, flagged_spec, Er].
  destruct (evaluate_today db new_id now symbol) as [[db' found]|e] eqn:E; unfold evaluate_today in E;
    rewrite Ea, flagged_spec, Er in E; pose proof (suspicious_row_inv (upper symbol) new_id now a) as Hr;
    (destruct (suspicious_row (upper symbol) new_id now a) as [row|e'] eqn:Erow; [|try discriminate]).
  - destruct Hr as (Hid & Hs & Hd & Hsev & Hctx). destruct (existsb _ (suspicious_days db)) eqn:Ex.
    + destruct (existing_day _ _ _ Hok Ex) as (old & Hin & Hos & Hod & Eo). rewrite Eo in E. injection E as <- <-.
      exists old. split_and!; [done..|by left|]. intros other_id later row' Hrow'.
      pose proof (evaluate_again db (suspicious_days db) symbol a old other_id later row' Ea Er Hok Hin Hos Hod Hrow') as H1.
      by destruct db.
    + injection E as <- <-. exists row.
      assert (Hnd : NoDup (map (fun s => (sd_symbol s, sd_alert_date s)) (suspicious_days db ++ [row])%list)).
      { rewrite map_app. apply NoDup_snoc; [done|]. intros (s & Ek & Hin)%list_elem_of_fmap.
        rewrite <- not_true_iff_false in Ex. apply Ex, existsb_exists. exists s. split; [by apply list_elem_of_In|].
        apply day_key_spec. congruence. }
      assert (Hin : row ∈ (suspicious_days db ++ [row])%list) by (apply elem_of_app; right; by left).
      split_and!; [done..| |].
      * right. split_and!; [done..|by rewrite Hsev, severity_spec|done].
      * intros other_id later row'. by apply (evaluate_again db).
  - destruct (existsb _ (suspicious_days db)) eqn:Ex; [|discriminate].
    destruct (existing_day _ _ _ Hok Ex) as (old & _ & _ & _ & Eo). by rewrite Eo in E.
  - congruence.
Qed.
End libm.

(** ** Examples *)

#[local] Instance squares : LibM := { libm_pow := fun x _ => fmul x x }.

Definition cents (n : Z) : option dec := Some (mkdec n (-2)).
Definition day (date open close volume : Z) : DailyRow :=
  mkDaily "ABC" date (cents open) (cents (Z.max open close)) (cents (Z.min open close)) (cents close) (Some volume) None.

(** Twenty-two quiet days. *)
Definition quiet : list DailyRow := map (fun k => day (730000 + Z.of_nat k) 10000 10000 1000) (seq 0 22).
Definition only_prices (rows : list DailyRow) : alert_db := mkAlertDb rows [] [] [] [] [].

Definition pump_day : alert_db := only_prices (quiet ++ [day 730022 10000 11000 10000]).

Definition dates_of (r : res (alert_db * option SuspiciousDay)) : option (Z * string * string) :=
  match r with Ok (_, Some s) => Some (sd_alert_date s, sd_alert_type s, sd_severity s) | _ => None end.

Example pump_flagged : dates_of (evaluate_today pump_day "1" 0 "abc") = Some (730022, "pump", "medium")%string.
Proof. vm_compute. reflexivity. Qed.

(** The row of the next day has no prices yet: the alert of the day before is
    stored once more, under the date of a day on which nothing is known. *)
Example stale_day :
  let next := mkDaily "ABC" 730023 None None None None None None in
  let db := mkAlertDb (prices pump_day ++ [next]) [] [] [] [] [] in
  dates_of (evaluate_today db "2" 0 "abc") = Some (730023, "pump", "medium")%string.
Proof. vm_compute. reflexivity. Qed.

Lemma evaluate_today_correct_witness :
  exists db' row, evaluate_today pump_day "1" 0 "abc" = Ok (db', Some row) /\ sd_alert_date row = 730022 /\ days_ok db'.
Proof.
  pose proof (evaluate_today_correct pump_day "1" 0 "abc" ltac:(constructor)) as H.
  destruct (assess pump_day (upper "abc")) as [[a|]|e] eqn:Ea; [|vm_compute in Ea; discriminate Ea..].
  assert (Er : remarkable a = true /\ as_date a = 730022).
  { vm_compute in Ea. injection Ea as <-. split; vm_compute; reflexivity. }
  destruct Er as [Er Ed]. rewrite Er in H.
  destruct (evaluate_today pump_day "1" 0 "abc") as [[db' found]|e] eqn:E; [|vm_compute in E; discriminate E].
  destruct H as (row & -> & _ & _ & Hd & Hok & _). exists db', row. split; [reflexivity|]. split; [congruence|exact Hok].
Defined.

(** The holdings snapshot keeps the row of a position that was sold, for its
    realised profit: the user is still alerted on the symbol. *)
Example sold_position_still_held :
  match create ex_db "p1" (ex_sell 40 1000000) true "t2" 2000 with
  | Some (Ok (db', _, _)) => (map (fun h => units 4 (h_quantity h)) (holdings db'), held db' "u1")
  | _ => ([], [])
  end = ([0], ["OGDC"%string]).
Proof. vm_compute. reflexivity. Qed.
