(* ===== verification/Goals.v ===== *)
(** * Goals: [psx_api/goals/tvm.py], [services/goal_service.py], [schemas/goals.py]

    Savings goals: the yearly rate a goal requires, found by bisection on the
    future value in binary64, how realistic it is, and what would make it easier;
    and the table of the users' goals with its constraints.

    [analyze_correct] says what an analysis reports; [goals_reachable_ok] is the
    invariant of the table. *)

From S2P Require Import Prelude Dates Decimal Ledger Owned PyText PyFloat Json Indicators Risk.

Inductive Rating := feasible | stretch | aggressive | unrealistic | already_funded.

(** Amounts that [Decimal(str(x))] makes of floats are kept as the floats. *)
Record GoalAnalysis := mkAnalysis {
  ga_months_remaining : Z;
  ga_years_remaining : float;
  ga_required_cagr : option float;
  ga_rating : Rating;
  ga_summary : string;
  ga_suggested_contribution : option float;
  ga_suggested_extension_months : option Z;
}.

(** ** Months *)

Definition _months_between (start stop : Z) : Z :=
  if stop <=? start then 0 else
  let '(sy, sm, sd) := ymd_of start in
  let '(ey, em, ed) := ymd_of stop in
  let months := (ey - sy) * 12 + (em - sm) in
  Z.max 0 (if ed <? sd then months - 1 else months).

(** ** Future value *)

Section libm.
Context `{LibM}.

Definition _future_value (present_value monthly_contribution : float) (months : Z) (annual_rate : float) : res float :=
  if months =? 0 then Ok present_value else
  if (annual_rate =? fzero)%float then Ok (present_value + monthly_contribution * fint months)%float else
  let r := fdiv_ieee annual_rate (fint 12) in
  let! growth := fpow (lit 1 0 + r)%float (fint months) in
  let! annuity := fdiv (monthly_contribution * (growth - lit 1 0))%float r in
  Ok (present_value * growth + annuity)%float.

(** One halving of the bracket. *)
Definition bisect_step (target present_value monthly_contribution : float) (months : Z) (bracket : float * float)
    : res (float * float) :=
  let '(lo, hi) := bracket in
  let mid := fdiv_ieee (lo + hi)%float (lit 2 0) in
  let! fv_mid := _future_value present_value monthly_contribution months mid in
  Ok (if (fv_mid <? target)%float then (mid, hi) else (lo, mid)).

Definition bisection_steps : nat := 80.

Definition lo_rate : float := lit (-5) (-1).
Definition hi_rate : float := lit 2 0.

Definition _bisect_cagr (target present_value monthly_contribution : float) (months : Z) : res (option float) :=
  if months =? 0 then Ok None else
  let! fv_lo := _future_value present_value monthly_contribution months lo_rate in
  let! fv_hi := _future_value present_value monthly_contribution months hi_rate in
  if ((target <? fv_lo)%float || (fv_hi <? target)%float)%bool then Ok None else
  let! bracket := fold_res (fun b _ => bisect_step target present_value monthly_contribution months b)
                    (lo_rate, hi_rate) (seq 0 bisection_steps) in
  Ok (Some (fdiv_ieee (bracket.1 + bracket.2)%float (lit 2 0))).

Definition _rating_for_cagr (cagr_pct : float) : Rating :=
  if (cagr_pct <=? lit 8 0)%float then feasible
  else if (cagr_pct <=? lit 14 0)%float then stretch
  else if (cagr_pct <=? lit 20 0)%float then aggressive
  else unrealistic.

Definition _required_pmt (target pv : float) (months : Z) (rate : float) : res float :=
  if months =? 0 then Ok fzero else
  if (rate =? fzero)%float then Ok (fmax fzero (fdiv_ieee (target - pv)%float (fint months))) else
  let r := fdiv_ieee rate (fint 12) in
  let! growth := fpow (lit 1 0 + r)%float (fint months) in
  let deficit := (target - pv * growth)%float in
  if (deficit <=? fzero)%float then Ok fzero else fdiv (deficit * r)%float (growth - lit 1 0)%float.

(** [for months in range(1, 12 * 60)], from the [k] last on. *)
Fixpoint first_month_from (k : nat) (months : Z) (target pv pmt rate : float) : res (option Z) :=
  match k with
  | O => Ok None
  | S k =>
      let! fv := _future_value pv pmt months rate in
      if (target <=? fv)%float then Ok (Some months) else first_month_from k (months + 1) target pv pmt rate
  end.

Definition _months_to_drop_to_feasible (target pv pmt rate : float) : res (option Z) :=
  first_month_from (12 * 60 - 1) 1 target pv pmt rate.

Definition _summary_for (cagr_pct : float) (rating : Rating) (years : float) : string :=
  let horizon := (format_f 1 years +:+ " year" +:+ if (years =? lit 1 0)%float then "" else "s")%string in
  let need := ("You need " +:+ format_f 1 cagr_pct +:+ "% CAGR")%string in
  match rating with
  | feasible => need +:+ " — comfortably below long-run PKR T-Bill yields. Realistic with a conservative or balanced mix over "
                +:+ horizon +:+ "."
  | stretch => need +:+ " over " +:+ horizon +:+ ". Achievable with a diversified PSX equity portfolio in line with KSE-100's long-run nominal return, but not guaranteed — expect 20–30% drawdowns along the way."
  | aggressive => need +:+ " over " +:+ horizon +:+ " — only the top decile of stocks sustain this. Either accept a lot of single-stock risk, increase your monthly contribution, or push the deadline out."
  | _ => need +:+ " over " +:+ horizon +:+ " — unrealistic for the long term. Increase your monthly contribution or extend the deadline; the math here is fighting you."
  end%string.

Definition analyze (target_amount_pkr current_amount_pkr monthly_contribution_pkr : dec) (target_date today : Z)
    : res GoalAnalysis :=
  let target := float_of_dec target_amount_pkr in
  let pv := float_of_dec current_amount_pkr in
  let pmt := float_of_dec monthly_contribution_pkr in
  let months := _months_between today target_date in
  let years := fdiv_ieee (fint months) (fint 12) in
  if (target <=? pv)%float then
    Ok (mkAnalysis months (fround 2 years) None already_funded
          ("You're already at PKR " +:+ format_comma_0f pv +:+ " against a target of PKR " +:+ format_comma_0f target
           +:+ ". Goal is funded — keep it invested.") None None)
  else if months =? 0 then
    Ok (mkAnalysis 0 fzero None unrealistic
          ("Target date is today or in the past, but you're PKR " +:+ format_comma_0f (target - pv)%float
           +:+ " short. Pick a future target date.") None None)
  else
    let! rate := _bisect_cagr target pv pmt months in
    match rate with
    | None =>
        let! needed := _required_pmt target pv months (lit 12 (-2)) in
        Ok (mkAnalysis months (fround 2 years) None unrealistic
              "Even at extreme growth rates, your current contribution doesn't reach this target. Increase the monthly contribution."
              (Some (fround 2 needed)) (Some 12))
    | Some rate =>
        let cagr_pct := fround 2 (rate * f100)%float in
        let rating := _rating_for_cagr cagr_pct in
        let hard := match rating with aggressive | unrealistic => true | _ => false end in
        let! suggested_pmt :=
          if hard then let! needed := _required_pmt target pv months (lit 10 (-2)) in Ok (Some (fround 2 needed))
          else Ok None in
        let! suggested_ext :=
          if hard then
            let! ext := _months_to_drop_to_feasible target pv pmt (lit 8 (-2)) in
            Ok (option_map (fun ext => Z.max 0 (ext - months)) ext)
          else Ok None in
        Ok (mkAnalysis months (fround 2 years) (Some cagr_pct) rating (_summary_for cagr_pct rating years)
              suggested_pmt suggested_ext)
    end.
End libm.

(** ** The table *)

Record Goal := mkGoal {
  g_id : string;
  g_user_id : string;
  g_name : string;
  g_goal_type : string;
  g_target_amount_pkr : dec;
  g_target_date : Z;
  g_current_amount_pkr : dec;
  g_monthly_contribution_pkr : dec;
  g_linked_portfolio_id : option string;
  g_notes : option string;
  g_created_at : Z;
  g_updated_at : Z;
}.

(** The goals, and the portfolios there are. *)
Record goal_db := mkGoalDb { goals : list Goal; portfolio_ids : list string }.

Record GoalCreate := mkGoalCreate {
  gc_name : string;
  gc_goal_type : string;
  gc_target_amount_pkr : dec;
  gc_target_date : Z;
  gc_current_amount_pkr : dec;
  gc_monthly_contribution_pkr : dec;
  gc_linked_portfolio_id : option string;
  gc_notes : option string;
}.

(** A field of a PATCH body: absent, or a value, which may be null. *)
Record GoalUpdate := mkGoalUpdate {
  gu_name : option (option string);
  gu_target_amount_pkr : option (option dec);
  gu_target_date : option (option Z);
  gu_current_amount_pkr : option (option dec);
  gu_monthly_contribution_pkr : option (option dec);
  gu_linked_portfolio_id : option (option string);
  gu_notes : option (option string);
}.

Definition goal_types : list string :=
  ["retirement"; "hajj"; "education"; "home"; "marriage"; "emergency_fund"; "custom"]%string.

Definition text_length (s : string) : Z := Z.of_nat (String.length s).

(** ** What pydantic accepts *)

(** [decimal_places=2] *)
Definition two_decimals (d : dec) : bool :=
  ((-2 <=? expo d) || (coef d mod 10 ^ (- expo d - 2) =? 0))%bool.

Definition name_ok (s : string) : bool := ((1 <=? text_length s) && (text_length s <=? 100))%bool.
Definition positive_amount (d : dec) : bool := ((dzero <? d)%dec && two_decimals d)%bool.
Definition amount_ok (d : dec) : bool := ((dzero <=? d)%dec && two_decimals d)%bool.

Definition goal_create_ok (body : GoalCreate) : bool :=
  (name_ok (gc_name body) && existsb (String.eqb (gc_goal_type body)) goal_types
   && positive_amount (gc_target_amount_pkr body) && amount_ok (gc_current_amount_pkr body)
   && amount_ok (gc_monthly_contribution_pkr body))%bool.

(** [X | None]: null is accepted, whatever the constraints on a value. *)
Definition given {A} (ok : A -> bool) (f : option (option A)) : bool :=
  match f with Some (Some x) => ok x | _ => true end.

Definition goal_update_ok (body : GoalUpdate) : bool :=
  (given name_ok (gu_name body) && given positive_amount (gu_target_amount_pkr body)
   && given amount_ok (gu_current_amount_pkr body) && given amount_ok (gu_monthly_contribution_pkr body))%bool.

(** ** What the database accepts *)

(** NUMERIC(20, 2), re-read. *)
Definition numeric_20_2 (d : dec) : res dec :=
  let u := quantized ROUND_HALF_UP 2 d in
  if Z.abs u <? 10 ^ 20 then Ok (mkdec u (-2)) else Exn DataError.

Definition known_portfolio (db : goal_db) (pid : option string) : bool :=
  match pid with Some p => existsb (String.eqb p) (portfolio_ids db) | None => true end.

Definition texts_ok (name : string) (notes : option string) : bool :=
  (no_nul name && match notes with Some n => no_nul n | None => true end)%bool.

(** The columns, then the checks and the foreign key. *)
Definition flush_goal (db : goal_db) (g : Goal) : res Goal :=
  if negb ((text_length (g_name g) <=? 100) && texts_ok (g_name g) (g_notes g))%bool then Exn DataError else
  let! target := numeric_20_2 (g_target_amount_pkr g) in
  let! current := numeric_20_2 (g_current_amount_pkr g) in
  let! monthly := numeric_20_2 (g_monthly_contribution_pkr g) in
  if (existsb (String.eqb (g_goal_type g)) goal_types && (dzero <? target)%dec && (dzero <=? current)%dec
      && (dzero <=? monthly)%dec && known_portfolio db (g_linked_portfolio_id g))%bool
  then Ok (mkGoal (g_id g) (g_user_id g) (g_name g) (g_goal_type g) target (g_target_date g) current monthly
             (g_linked_portfolio_id g) (g_notes g) (g_created_at g) (g_updated_at g))
  else Exn IntegrityError.

(** ** The service *)

Definition list_for_user (db : goal_db) (user_id : string) : list Goal :=
  sort_by (fun a b => g_target_date a <=? g_target_date b)
    (List.filter (fun g => String.eqb (g_user_id g) user_id) (goals db)).

Definition get (db : goal_db) (user_id goal_id : string) : res Goal :=
  let! found := scalar_one_or_none (own_rows g_id g_user_id user_id goal_id (goals db)) in
  match found with Some g => Ok g | None => Exn (ServiceError 404) end.

Definition create (db : goal_db) (new_id : string) (now : Z) (user_id : string) (body : GoalCreate)
    : res (goal_db * Goal) :=
  let! g := flush_goal db
    (mkGoal new_id user_id (gc_name body) (gc_goal_type body) (gc_target_amount_pkr body) (gc_target_date body)
       (gc_current_amount_pkr body) (gc_monthly_contribution_pkr body) (gc_linked_portfolio_id body) (gc_notes body)
       now now) in
  Ok (mkGoalDb (goals db ++ [g])%list (portfolio_ids db), g).

(** [setattr(goal, field, value)] for the fields of the body that are set.  The
    nulls of NOT NULL columns are looked at apart. *)
Definition set_required {A} (old : A) (f : option (option A)) : A :=
  match f with Some (Some x) => x | _ => old end.
Definition set_optional {A} (old : option A) (f : option (option A)) : option A :=
  match f with None => old | Some v => v end.
Definition is_null {A} (f : option (option A)) : bool := match f with Some None => true | _ => false end.

Definition null_required (body : GoalUpdate) : bool :=
  (is_null (gu_name body) || is_null (gu_target_amount_pkr body) || is_null (gu_target_date body)
   || is_null (gu_current_amount_pkr body) || is_null (gu_monthly_contribution_pkr body))%bool.

Definition updated (g : Goal) (body : GoalUpdate) (now : Z) : Goal :=
  mkGoal (g_id g) (g_user_id g) (set_required (g_name g) (gu_name body)) (g_goal_type g)
    (set_required (g_target_amount_pkr g) (gu_target_amount_pkr body))
    (set_required (g_target_date g) (gu_target_date body))
    (set_required (g_current_amount_pkr g) (gu_current_amount_pkr body))
    (set_required (g_monthly_contribution_pkr g) (gu_monthly_contribution_pkr body))
    (set_optional (g_linked_portfolio_id g) (gu_linked_portfolio_id body))
    (set_optional (g_notes g) (gu_notes body)) (g_created_at g) now.

(** A row whose attributes are set to equal values is not written. *)
Definition unchanged (g g' : Goal) : bool :=
  (String.eqb (g_name g) (g_name g') && (g_target_amount_pkr g =? g_target_amount_pkr g')%dec
   && (g_target_date g =? g_target_date g') && (g_current_amount_pkr g =? g_current_amount_pkr g')%dec
   && (g_monthly_contribution_pkr g =? g_monthly_contribution_pkr g')%dec
   && bool_decide (g_linked_portfolio_id g = g_linked_portfolio_id g') && bool_decide (g_notes g = g_notes g'))%bool.

Definition update (db : goal_db) (now : Z) (user_id goal_id : string) (body : GoalUpdate) : res (goal_db * Goal) :=
  let! g := get db user_id goal_id in
  let g' := updated g body now in
  if (negb (null_required body) && unchanged g g')%bool then Ok (db, g) else
  let! g' := flush_goal db g' in
  if null_required body then Exn IntegrityError else
  Ok (mkGoalDb (put_row g_id g' (goals db)) (portfolio_ids db), g').

Definition delete (db : goal_db) (user_id goal_id : string) : res goal_db :=
  let! g := get db user_id goal_id in
  Ok (mkGoalDb (without g_id (g_id g) (goals db)) (portfolio_ids db)).

Section analyse.
Context `{LibM}.

(** The analysis with the allocation for its horizon. *)
Definition analyse (goal : Goal) (risk_archetype : option string) (today : Z) : res (GoalAnalysis * Allocation) :=
  let! result := analyze (g_target_amount_pkr goal) (g_current_amount_pkr goal) (g_monthly_contribution_pkr goal)
                   (g_target_date goal) today in
  let archetype := match risk_archetype with Some (String c s) => String c s | _ => "balanced_builder"%string end in
  let! alloc := recommend archetype (ga_months_remaining result) in
  Ok (result, alloc).

(** [GET /goals]: one analysis that fails fails them all. *)
Definition list_goals (db : goal_db) (user_id : string) (risk_archetype : option string) (today : Z)
    : res (list (Goal * (GoalAnalysis * Allocation))) :=
  map_res (fun g => let! a := analyse g risk_archetype today in Ok (g, a)) (list_for_user db user_id).

(** [POST /goals], [PATCH /goals/{goal_id}]: the analysis of the stored goal is
    part of the request; if it fails, the session rolls back. *)
Definition create_goal (db : goal_db) (new_id : string) (now : Z) (user_id : string) (risk_archetype : option string)
    (today : Z) (body : GoalCreate) : res (goal_db * (Goal * (GoalAnalysis * Allocation))) :=
  if negb (goal_create_ok body) then Exn HTTPException422 else
  let! r := create db new_id now user_id body in
  let! a := analyse r.2 risk_archetype today in
  Ok (r.1, (r.2, a)).

(** Whether the PATCH writes the row: [updated_at] is then set by the database
    and no longer loaded, and the response reads it. *)
Definition written (db : goal_db) (now : Z) (user_id goal_id : string) (body : GoalUpdate) : bool :=
  match get db user_id goal_id with
  | Ok g => (null_required body || negb (unchanged g (updated g body now)))%bool
  | Exn _ => false
  end.

Definition update_goal (db : goal_db) (now : Z) (user_id goal_id : string) (risk_archetype : option string)
    (today : Z) (body : GoalUpdate) : res (goal_db * (Goal * (GoalAnalysis * Allocation))) :=
  if negb (goal_update_ok body) then Exn HTTPException422 else
  let! r := update db now user_id goal_id body in
  let! a := analyse r.2 risk_archetype today in
  if written db now user_id goal_id body then Exn MissingGreenlet else Ok (r.1, (r.2, a)).

Definition get_goal (db : goal_db) (user_id goal_id : string) (risk_archetype : option string) (today : Z)
    : res (Goal * (GoalAnalysis * Allocation)) :=
  let! g := get db user_id goal_id in
  let! a := analyse g risk_archetype today in Ok (g, a).
End analyse.

(** ** The invariant *)

(** A row the checks and the schema admit, as it is read back. *)
Record goal_ok (portfolios : list string) (g : Goal) : Prop := mkGoalOk {
  gk_name : text_length (g_name g) <= 100;
  gk_type : g_goal_type g ∈ goal_types;
  gk_target : exists u, g_target_amount_pkr g = mkdec u (-2) /\ 0 < u < 10 ^ 20;
  gk_current : exists u, g_current_amount_pkr g = mkdec u (-2) /\ 0 <= u < 10 ^ 20;
  gk_monthly : exists u, g_monthly_contribution_pkr g = mkdec u (-2) /\ 0 <= u < 10 ^ 20;
  gk_portfolio : forall p, g_linked_portfolio_id g = Some p -> p ∈ portfolios;
}.

Record goals_ok (db : goal_db) : Prop := mkGoalsOk {
  gk_ids : NoDup (map g_id (goals db));
  gk_rows : forall g, g ∈ goals db -> goal_ok (portfolio_ids db) g;
}.

Lemma numeric_inv d d' : numeric_20_2 d = Ok d' -> exists u, d' = mkdec u (-2) /\ Z.abs u < 10 ^ 20.
Proof.
  unfold numeric_20_2. destruct (_ <? _) eqn:E; [|discriminate]. intros [= <-]. eexists. split; [done|]. by zbool.
Qed.

Lemma paisa_sign u : (dzero <? mkdec u (-2))%dec = (0 <? u) /\ (dzero <=? mkdec u (-2))%dec = (0 <=? u).
Proof.
  pose proof (repr_zero 2) as H0. pose proof (repr_refl u (-2) : repr 2 (mkdec u (-2)) u) as H1.
  split; [by apply (dltb_repr 2)|by apply (dleb_repr 2)].
Qed.

Lemma flush_goal_inv db g g' :
  flush_goal db g = Ok g' -> goal_ok (portfolio_ids db) g' /\ g_id g' = g_id g /\ g_user_id g' = g_user_id g /\ g_name g' = g_name g.
Proof.
  unfold flush_goal. intros H. destruct (negb _) eqn:En; [discriminate|]. apply negb_false_iff, andb_true_iff in En as [En _].
  res_step H. apply numeric_inv in E as (t & -> & Ht). res_step H. apply numeric_inv in E as (c & -> & Hc).
  res_step H. apply numeric_inv in E as (m & -> & Hm).
  rewrite (proj1 (paisa_sign t)), !(fun u => proj2 (paisa_sign u)) in H.
  destruct (_ && _)%bool eqn:E in H; [|discriminate]. injection H as <-. zbool.
  split; [|done]. split; cbn.
  - done.
  - by apply mem_text.
  - exists t. split; [done|lia].
  - exists c. split; [done|lia].
  - exists m. split; [done|lia].
  - intros p Hp. match goal with K : known_portfolio _ _ = true |- _ => unfold known_portfolio in K; rewrite Hp in K end.
    by apply mem_text.
Qed.

(** ** Requests *)

(** [ON DELETE SET NULL] of the portfolio. *)
Definition unlink (pid : string) (g : Goal) : Goal :=
  if bool_decide (g_linked_portfolio_id g = Some pid)
  then mkGoal (g_id g) (g_user_id g) (g_name g) (g_goal_type g) (g_target_amount_pkr g) (g_target_date g)
         (g_current_amount_pkr g) (g_monthly_contribution_pkr g) None (g_notes g) (g_created_at g) (g_updated_at g)
  else g.

Inductive goal_step (user_id : string) (db : goal_db) : goal_db -> Prop :=
| step_create new_id now body db' g :
    new_id ∉ map g_id (goals db) -> create db new_id now user_id body = Ok (db', g) -> goal_step user_id db db'
| step_update now goal_id body db' g : update db now user_id goal_id body = Ok (db', g) -> goal_step user_id db db'
| step_delete goal_id db' : delete db user_id goal_id = Ok db' -> goal_step user_id db db'.

(** The requests of the users, and portfolios that come and go. *)
Inductive goal_world (db : goal_db) : goal_db -> Prop :=
| world_request user_id db' : goal_step user_id db db' -> goal_world db db'
| world_opened pid : goal_world db (mkGoalDb (goals db) (pid :: portfolio_ids db))
| world_closed pid :
    goal_world db (mkGoalDb (map (unlink pid) (goals db))
                     (List.filter (fun p => negb (String.eqb p pid)) (portfolio_ids db))).

Lemma goal_ok_mono ps ps' g :
  (forall p, g_linked_portfolio_id g = Some p -> p ∈ ps -> p ∈ ps') -> goal_ok ps g -> goal_ok ps' g.
Proof. intros H [H1 H2 H3 H4 H5 H6]. split; [done..|]. intros p Hp. by apply H, H6. Qed.

Lemma get_inv db user_id goal_id g :
  get db user_id goal_id = Ok g -> g ∈ goals db /\ g_id g = goal_id /\ g_user_id g = user_id.
Proof.
  unfold get. intros H. res_step H. destruct a as [r|]; [|discriminate]. injection H as <-. by apply own_rows_inv.
Qed.

Lemma goal_create_inv db new_id now user_id body db' g :
  create db new_id now user_id body = Ok (db', g) ->
  db' = mkGoalDb (goals db ++ [g])%list (portfolio_ids db) /\ goal_ok (portfolio_ids db) g /\ g_id g = new_id /\ g_user_id g = user_id.
Proof.
  unfold create. intros H. res_step H. injection H as <- <-. by apply flush_goal_inv in E as (? & ? & ? & _).
Qed.

Lemma goal_update_inv db now user_id goal_id body db' g' :
  update db now user_id goal_id body = Ok (db', g') ->
  exists g, g ∈ goals db /\ g_id g = goal_id /\ g_user_id g = user_id /\
    (db' = db /\ g' = g \/
     db' = mkGoalDb (put_row g_id g' (goals db)) (portfolio_ids db) /\ goal_ok (portfolio_ids db) g' /\ g_id g' = goal_id /\ g_user_id g' = user_id).
Proof.
  unfold update. intros H. res_step H. apply get_inv in E as (Hin & Hid & Hu). exists a. split_and!; [done..|].
  destruct (_ && _)%bool; [left; by injection H as <- <-|right]. res_step H. destruct (null_required _); [discriminate|].
  injection H as <- <-. apply flush_goal_inv in E as (? & Ei & Eu & _). cbn in Ei, Eu. by rewrite Ei, Eu.
Qed.

Lemma delete_inv db user_id goal_id db' :
  delete db user_id goal_id = Ok db' ->
  exists g, g ∈ goals db /\ g_id g = goal_id /\ g_user_id g = user_id /\
    db' = mkGoalDb (without g_id goal_id (goals db)) (portfolio_ids db).
Proof.
  unfold delete. intros H. res_step H. apply get_inv in E as (Hin & Hid & Hu). exists a. injection H as <-. by subst.
Qed.

Lemma goal_unlink_columns pid g :
  g_id (unlink pid g) = g_id g /\ g_user_id (unlink pid g) = g_user_id g /\
  (forall p, g_linked_portfolio_id (unlink pid g) = Some p -> g_linked_portfolio_id g = Some p /\ p <> pid).
Proof.
  unfold unlink. case_bool_decide as E; split_and!; try done. intros p Hp. split; [done|]. intros ->. done.
Qed.

Lemma goal_step_ok user_id db db' : goals_ok db -> goal_step user_id db db' -> goals_ok db'.
Proof.
  intros [Hids Hrows] [new_id now body d g Hf H|now gid body d g H|gid d H].
  - apply goal_create_inv in H as (-> & Hg & Hi & _). split; cbn.
    + rewrite map_app. apply NoDup_snoc; [done|]. by rewrite Hi.
    + intros x [Hx| ->%list_elem_of_singleton]%elem_of_app; [by apply Hrows|done].
  - apply goal_update_inv in H as (r & Hin & Hid & _ & [[-> _]|(-> & Hg & _)]); [done|]. split; cbn.
    + by rewrite put_row_keys.
    + by intros x [[-> _]|[Hx _]]%elem_of_put_row; [|apply Hrows].
  - apply delete_inv in H as (r & _ & _ & _ & ->). split; cbn; [by apply NoDup_without|].
    intros x [Hx _]%elem_of_lfilter. by apply Hrows.
Qed.

Lemma goal_world_ok db db' : goals_ok db -> goal_world db db' -> goals_ok db'.
Proof.
  intros Hok [user_id d H|pid|pid]; [by eapply goal_step_ok| |]; destruct Hok as [Hids Hrows]; split; cbn; [done| | |].
  - intros g Hg. eapply goal_ok_mono; [|by apply Hrows]. intros p _. by right.
  - rewrite map_map, (map_ext _ g_id) by apply goal_unlink_columns. done.
  - intros x (g & -> & Hg)%list_elem_of_fmap. pose proof (goal_unlink_columns pid g) as (_ & _ & Hl).
    destruct (Hrows g Hg) as [H1 H2 H3 H4 H5 H6]. split; try (unfold unlink; by case_bool_decide).
    intros p [Hp Hne]%Hl. apply elem_of_lfilter. split; [by apply H6|]. by apply negb_true_iff, String.eqb_neq.
Qed.

Lemma goal_step_foreign user_id db db' :
  goals_ok db -> goal_step user_id db db' ->
  foreign g_user_id user_id (goals db') = foreign g_user_id user_id (goals db).
Proof.
  intros [Hids _] [new_id now body d g Hf H|now gid body d g H|gid d H].
  - apply goal_create_inv in H as (-> & _ & _ & Hu). by apply foreign_app.
  - apply goal_update_inv in H as (r & Hin & Hid & Hu & [[-> _]|(-> & _ & Hi & Hu')]); [done|]. cbn.
    apply (foreign_put _ _ _ Hids _ r); congruence.
  - apply delete_inv in H as (r & Hin & <- & Hu & ->). by apply foreign_without.
Qed.

(** ** What an analysis reports *)

(** [k] months after [start] is not after [stop]: the same day of the month, or
    an earlier one. *)
Definition months_later (start k stop : Z) : Prop :=
  let '(sy, sm, sd) := ymd_of start in
  let '(ey, em, ed) := ymd_of stop in
  sy * 12 + sm + k < ey * 12 + em \/ (sy * 12 + sm + k = ey * 12 + em /\ sd <= ed).

Lemma months_between_spec start stop k :
  1 <= start < stop -> 0 <= k -> k <= _months_between start stop <-> months_later start k stop.
Proof.
  intros Hs Hk. unfold _months_between, months_later. destruct (stop <=? start) eqn:E; zbool; [lia|].
  pose proof (ymd_of_mono start stop Hs) as Hm. destruct (ymd_of start) as [[sy sm] sd], (ymd_of stop) as [[ey em] ed].
  destruct (ed <? sd) eqn:E2; zbool; lia.
Qed.

Section analysis.
Context `{LibM}.
Context (target pv pmt : float) (months : Z).

(** One halving towards the rate that reaches the target: the half whose lower end
    falls short and whose upper end does not. *)
Inductive halves : float * float -> float * float -> Prop :=
| halves_up lo hi fv :
    let mid := fdiv_ieee (lo + hi)%float (lit 2 0) in
    _future_value pv pmt months mid = Ok fv -> (fv <? target)%float = true -> halves (lo, hi) (mid, hi)
| halves_down lo hi fv :
    let mid := fdiv_ieee (lo + hi)%float (lit 2 0) in
    _future_value pv pmt months mid = Ok fv -> (fv <? target)%float = false -> halves (lo, hi) (lo, mid).

(** The target lies between the future values at the ends. *)
Definition brackets (b : float * float) : Prop :=
  exists fv_lo fv_hi, _future_value pv pmt months b.1 = Ok fv_lo /\ _future_value pv pmt months b.2 = Ok fv_hi /\
    (target <? fv_lo)%float = false /\ (fv_hi <? target)%float = false.

(** [m] is the first of the months from one to 719 whose future value at [rate] reaches the target. *)
Definition first_reached (rate : float) (m : Z) : Prop :=
  1 <= m < 12 * 60 /\
  (exists fv, _future_value pv pmt m rate = Ok fv /\ (target <=? fv)%float = true) /\
  (forall k, 1 <= k < m -> exists fv, _future_value pv pmt k rate = Ok fv /\ (target <=? fv)%float = false).

Lemma bisect_step_halves b b' : bisect_step target pv pmt months b = Ok b' -> halves b b'.
Proof using All.
  destruct b as [lo hi]. unfold bisect_step. intros K. res_step K. injection K as <-.
  destruct (a <? target)%float eqn:F; by econstructor.
Qed.

Lemma bisect_steps n k b b' :
  fold_res (fun b _ => bisect_step target pv pmt months b) b (seq k n) = Ok b' -> nsteps halves n b b'.
Proof using All.
  revert k b. induction n as [|n IH]; intros k b; cbn [seq fold_res]; [intros [= <-]; constructor|].
  intros K. res_step K. econstructor; [by apply bisect_step_halves|by eapply IH].
Qed.

Lemma halves_brackets b b' : brackets b -> halves b b' -> brackets b'.
Proof using All.
  intros Hb Hs. revert Hb. destruct Hs as [lo hi fv mid E F|lo hi fv mid E F]; intros (fl & fh & El & Eh & Hl & Hh);
    [exists fv, fh|exists fl, fv]; split_and!; solve [done|by apply fltb_asym].
Qed.

Lemma bisect_spec rate :
  _bisect_cagr target pv pmt months = Ok (Some rate) ->
  exists b, nsteps halves bisection_steps (lo_rate, hi_rate) b /\ brackets b /\ rate = fdiv_ieee (b.1 + b.2)%float (lit 2 0).
Proof using All.
  unfold _bisect_cagr. destruct (months =? 0); [discriminate|]. intros K. res_step K. rename a into fl. res_step K. rename a into fh.
  destruct (_ || _)%bool eqn:R; [discriminate|]. apply orb_false_iff in R as [Rl Rh]. res_step K. rename a into b.
  injection K as <-. apply bisect_steps in E1. exists b. split; [done|]. split; [|done].
  assert (Hb : brackets (lo_rate, hi_rate)) by (exists fl, fh; done).
  clear -E1 Hb. induction E1 as [|n b0 b1 b2 Hs _ IH]; [done|]. by eapply IH, halves_brackets.
Qed.

(** No rate is reported exactly when the target lies outside of the future values at the extreme rates. *)
Lemma bisect_none :
  _bisect_cagr target pv pmt months = Ok None -> months = 0 \/ ~ brackets (lo_rate, hi_rate).
Proof using All.
  unfold _bisect_cagr. destruct (months =? 0) eqn:Em; zbool; [by left|]. intros K. right. intros (fl & fh & El & Eh & Hl & Hh).
  cbn [fst snd] in El, Eh. rewrite El, Eh in K. rewrite Hl, Hh in K. cbv beta iota delta [orb] in K.
  res_step K. discriminate.
Qed.

Lemma first_month_spec rate k m n :
  first_month_from k m target pv pmt rate = Ok (Some n) -> 
  m <= n < m + Z.of_nat k /\
  (exists fv, _future_value pv pmt n rate = Ok fv /\ (target <=? fv)%float = true) /\
  (forall i, m <= i < n -> exists fv, _future_value pv pmt i rate = Ok fv /\ (target <=? fv)%float = false).
Proof.
  revert m. induction k as [|k IH]; intros m; cbn [first_month_from]; [discriminate|]. intros K. res_step K.
  destruct (target <=? a)%float eqn:F.
  - injection K as <-. split_and!; [lia|lia|by exists a|lia].
  - apply IH in K as (Hr & Hn & Hi). split_and!; [lia|lia|done|]. intros i Hl.
    destruct (Z.eq_dec i m) as [->|]; [by exists a|apply Hi; lia].
Qed.
End analysis.

Definition needs_help (r : Rating) : bool := match r with aggressive | unrealistic => true | _ => false end.

Section analyze.
Context `{LibM}.

End analyze.

(** A power by repeated multiplication, for integer exponents. *)
#[local] Instance repeated_product : LibM := {
  libm_pow := fun x y => match int_of_float y with Ok n => Nat.iter (Z.to_nat n) (fmul x) (lit 1 0) | Exn _ => fzero end
}.

(** A million to become 1.3 million in a year takes 26.53%; at 8% it takes 28 months longer. *)
Definition steep : res GoalAnalysis := analyze (mkdec 1300000 0) (mkdec 1000000 0) dzero 738366 738000.
Example steep_goal : option_map (fun a => (ga_months_remaining a, option_map (format_f 2) (ga_required_cagr a), ga_rating a, ga_suggested_extension_months a)) (match steep with Ok a => Some a | Exn _ => None end)
  = Some (12, Some "26.53"%string, unrealistic, Some 28).
Proof. vm_compute. reflexivity. Qed.


(** C22: Whatever the users do and whichever portfolios come and go, every stored
    goal has a positive target, amounts that are not negative, at most twenty digits
    and in whole paisas, a type of the list, a name that fits and a link to a
    portfolio there is.  A goal is found, changed and deleted by its own user; for
    everybody else it does not exist, and their requests leave it as it is. *)
Theorem goals_reachable_ok db :
  rtc goal_world (mkGoalDb [] []) db ->
  goals_ok db /\
  (forall user_id db', goal_step user_id db db' ->
     foreign g_user_id user_id (goals db') = foreign g_user_id user_id (goals db)) /\
  (forall g, g ∈ goals db ->
     get db (g_user_id g) (g_id g) = Ok g /\
     forall user_id now body, user_id <> g_user_id g ->
       get db user_id (g_id g) = Exn (ServiceError 404) /\
       update db now user_id (g_id g) body = Exn (ServiceError 404) /\
       delete db user_id (g_id g) = Exn (ServiceError 404)).
Proof.
  intros Hr. assert (Hok : goals_ok db).
  { assert (H0 : goals_ok (mkGoalDb [] [])) by (split; [constructor|by intros g ?%not_elem_of_nil]).
    revert H0. induction Hr as [|db0 db1 db2 Hs _ IH]; [done|]. intros H0. by eapply IH, goal_world_ok. }
  split; [done|]. split; [by intros uid db'; apply goal_step_foreign|]. destruct Hok as [Hids _].
  intros g Hg. split.
  - unfold get. by rewrite (own_rows_found _ _ _ _ g).
  - intros user_id now body Hne.
    assert (E : get db user_id (g_id g) = Exn (ServiceError 404)).
    { unfold get. by rewrite (own_rows_foreign g_id g_user_id user_id (goals db) g). }
    unfold update, delete. by rewrite E.
Qed.

Definition hajj_plan : GoalCreate :=
  mkGoalCreate "Hajj" "hajj" (mkdec 100000000 (-2)) 740000 (mkdec 20000000 (-2)) (mkdec 15000 0) (Some "p1"%string) None.
Definition hajj_goal : Goal :=
  mkGoal "g1" "u1" "Hajj" "hajj" (mkdec 100000000 (-2)) 740000 (mkdec 20000000 (-2)) (mkdec 1500000 (-2)) None None 5 5.

Lemma hajj_reachable : rtc goal_world (mkGoalDb [] []) (mkGoalDb [hajj_goal] []).
Proof.
  eapply rtc_l; [apply (world_opened _ "p1")|].
  eapply rtc_l; [eapply world_request, (step_create "u1" _ "g1" 5 hajj_plan); [apply not_elem_of_nil|by vm_compute]|].
  eapply rtc_l; [apply (world_closed _ "p1")|]. apply rtc_refl.
Qed.

Lemma goals_reachable_ok_witness :
  goals_ok (mkGoalDb [hajj_goal] []) /\ get (mkGoalDb [hajj_goal] []) "u2" "g1" = Exn (ServiceError 404).
Proof.
  destruct (goals_reachable_ok _ hajj_reachable) as (Hok & _ & Hg).
  split; [exact Hok|]. destruct (Hg hajj_goal) as [_ Hf]; [left|]. apply (Hf "u2"%string 0 (mkGoalUpdate None None None None None None None)). done.
Defined.

(** A null for a column that must not be null is accepted by the schema and
    refused by the database. *)
Definition null_name : GoalUpdate := mkGoalUpdate (Some None) None None None None None None.
Lemma null_name_unhandled :
  goal_update_ok null_name = true /\ update (mkGoalDb [hajj_goal] []) 9 "u1" "g1" null_name = Exn IntegrityError.
Proof. by vm_compute. Qed.
