(* ===== verification/Notifications.v ===== *)
(** * Notifications: [psx_api/services/notification_service.py]

    The inbox: a notification is stored unless its user muted the kind, is read
    once, and belongs to its user.

    [inbox_correct] says what each operation does to the inbox and to its
    unread count. *)

From S2P Require Import Prelude PyText Ledger Owned Json Redis Auth.

Record Notification := mkNotification {
  n_id : string;
  n_user_id : string;
  n_kind : string;
  n_title : string;
  n_body : string;
  n_link_path : option string;
  n_read_at : option Z;
  n_created_at : Z;
}.

Definition VALID_KINDS : list string := ["kmi_delisting"; "pump_dump"; "goal_milestone"; "system"]%string.

Definition is_unread (user_id : string) (n : Notification) : bool :=
  (String.eqb (n_user_id n) user_id && match n_read_at n with None => true | Some _ => false end)%bool.

Definition with_read_at (t : Z) (n : Notification) : Notification :=
  mkNotification (n_id n) (n_user_id n) (n_kind n) (n_title n) (n_body n) (n_link_path n) (Some t) (n_created_at n).

(** The widths of the columns, and what PostgreSQL stores as text. *)
Definition fits (width : Z) (s : string) : bool := ((Z.of_nat (String.length s) <=? width) && no_nul s)%bool.
Definition storable_notification (n : Notification) : bool :=
  (fits 200 (n_title n) && no_nul (n_body n) && match n_link_path n with Some p => fits 500 p | None => true end)%bool.

(** The row of the user may be missing: no preferences, and no row to refer to. *)
Definition send (users : list User) (db : list Notification) (new_id : string) (now : Z)
    (user_id kind title body : string) (link_path : option string) : res (list Notification * option Notification) :=
  if negb (existsb (String.eqb kind) VALID_KINDS) then Exn ValueError else
  let! user := scalar_one_or_none (List.filter (fun u => String.eqb (u_id u) user_id) users) in
  let prefs := match user with Some u => u_notification_prefs u | None => ∅ end in
  match prefs !! kind with
  | Some false => Ok (db, None)
  | _ =>
      let n := mkNotification new_id user_id kind title body link_path None now in
      if negb (storable_notification n) then Exn DataError else
      match user with None => Exn IntegrityError | Some _ => Ok ((db ++ [n])%list, Some n) end
  end.

Definition list_for_user (db : list Notification) (user_id : string) (limit : Z) : res (list Notification) :=
  limited limit (sort_by (fun a b => n_created_at b <=? n_created_at a)
                   (List.filter (fun n => String.eqb (n_user_id n) user_id) db)).

Definition unread_count (db : list Notification) (user_id : string) : Z :=
  Z.of_nat (length (List.filter (is_unread user_id) db)).

(** [UPDATE ... WHERE id = ... AND user_id = ... AND read_at IS NULL] *)
Definition mark_read (db : list Notification) (now : Z) (user_id notification_id : string) : list Notification :=
  map (fun n => if (String.eqb (n_id n) notification_id && is_unread user_id n)%bool then with_read_at now n else n) db.

(** The number of rows the UPDATE matched. *)
Definition mark_all_read (db : list Notification) (now : Z) (user_id : string) : list Notification * Z :=
  (map (fun n => if is_unread user_id n then with_read_at now n else n) db,
   Z.of_nat (length (List.filter (is_unread user_id) db))).

(** ** What the operations do to an inbox *)

(** The rows of a user, the others being [foreign]. *)
Definition inbox (db : list Notification) (user_id : string) : list Notification :=
  List.filter (fun n => String.eqb (n_user_id n) user_id) db.

Lemma is_unread_read user_id t n : is_unread user_id (with_read_at t n) = false.
Proof. unfold is_unread. cbn. apply andb_false_r. Qed.

Lemma mark_read_cases now user_id notification_id n :
  let n' := if (String.eqb (n_id n) notification_id && is_unread user_id n)%bool then with_read_at now n else n in
  n' = n \/ (is_unread user_id n = true /\ exists t, n' = with_read_at t n).
Proof.
  cbv zeta. destruct (String.eqb _ _); [|by left]. destruct (is_unread user_id n) eqn:E; [|by left].
  right. split; [done|]. by exists now.
Qed.

Lemma mark_all_cases now user_id n :
  let n' := if is_unread user_id n then with_read_at now n else n in
  n' = n \/ (is_unread user_id n = true /\ exists t, n' = with_read_at t n).
Proof. cbv zeta. destruct (is_unread user_id n) eqn:E; [right|by left]. split; [done|]. by exists now. Qed.

Lemma touched_foreign user_id (f : Notification -> Notification) db :
  (forall n, f n = n \/ (is_unread user_id n = true /\ exists t, f n = with_read_at t n)) ->
  foreign n_user_id user_id (map f db) = foreign n_user_id user_id db.
Proof.
  intros Hf. apply foreign_touch. intros n _. destruct (Hf n) as [->|[Hu (t & ->)]]; [by left|right].
  unfold is_unread in Hu. apply andb_true_iff in Hu as [Hu%String.eqb_eq _]. done.
Qed.

(** Marking changes at most the rows it is for. *)
Lemma mark_read_other now user_id notification_id db :
  notification_id ∉ map n_id db -> mark_read db now user_id notification_id = db.
Proof.
  unfold mark_read. induction db as [|n l IH]; [done|]. cbn [map]. intros [Hn Hl]%not_elem_of_cons. rewrite IH by done.
  destruct (String.eqb_spec (n_id n) notification_id); [congruence|done].
Qed.

Lemma mark_read_count now user_id notification_id db :
  NoDup (map n_id db) ->
  unread_count (mark_read db now user_id notification_id) user_id
  = unread_count db user_id - (if existsb (fun n => String.eqb (n_id n) notification_id && is_unread user_id n)%bool db then 1 else 0).
Proof.
  unfold unread_count. induction db as [|n l IH]; [done|]. intros [Hn Hl]%list.NoDup_cons. cbn [existsb].
  change (mark_read (n :: l) now user_id notification_id)
    with ((if (String.eqb (n_id n) notification_id && is_unread user_id n)%bool then with_read_at now n else n)
          :: mark_read l now user_id notification_id).
  destruct (String.eqb_spec (n_id n) notification_id) as [E|]; cbn [andb orb].
  - rewrite mark_read_other by (by rewrite <- E). cbn [List.filter]. destruct (is_unread user_id n) eqn:Eu.
    + rewrite is_unread_read. cbn [orb length]. lia.
    + rewrite Eu. cbn [orb]. assert (Hx : existsb (fun n => String.eqb (n_id n) notification_id && is_unread user_id n)%bool l = false).
      { apply not_true_iff_false. intros (m & Hm & [Em%String.eqb_eq _]%andb_true_iff)%existsb_exists. apply Hn. rewrite E, <- Em.
        by apply list_elem_of_fmap_2, list_elem_of_In. }
      rewrite Hx. lia.
  - cbn [List.filter]. destruct (is_unread user_id n); cbn [length]; rewrite ?Nat2Z.inj_succ, IH by done; lia.
Qed.

Lemma mark_read_twice now later user_id notification_id db :
  mark_read (mark_read db now user_id notification_id) later user_id notification_id = mark_read db now user_id notification_id.
Proof.
  unfold mark_read. rewrite map_map. apply map_ext. intros n.
  destruct (String.eqb (n_id n) notification_id) eqn:E; cbn [andb]; [|by rewrite E].
  destruct (is_unread user_id n) eqn:Eu; [by rewrite is_unread_read, andb_false_r|by rewrite Eu, andb_false_r].
Qed.

Lemma mark_all_none now user_id db : unread_count (mark_all_read db now user_id).1 user_id = 0.
Proof.
  unfold unread_count, mark_all_read. cbn [fst].
  assert (E : List.filter (is_unread user_id) (map (fun n => if is_unread user_id n then with_read_at now n else n) db) = []).
  { apply filter_nil_iff. intros x (n & -> & _)%list_elem_of_fmap. destruct (is_unread user_id n) eqn:Eu; [apply is_unread_read|done]. }
  by rewrite E.
Qed.

Lemma mark_all_twice now later user_id db :
  mark_all_read (mark_all_read db now user_id).1 later user_id = ((mark_all_read db now user_id).1, 0).
Proof.
  pose proof (mark_all_none now user_id db) as H0. unfold mark_all_read, unread_count in *. cbn [fst] in *. rewrite H0. f_equal.
  rewrite map_map. apply map_ext. intros n. destruct (is_unread user_id n) eqn:Eu; [by rewrite is_unread_read|by rewrite Eu].
Qed.

Lemma list_newest_first db user_id limit l :
  list_for_user db user_id limit = Ok l ->
  exists rest, l ++ rest ≡ₚ inbox db user_id /\ StronglySorted (fun a b => n_created_at b <= n_created_at a) (l ++ rest) /\
    (rest = [] \/ Z.of_nat (length l) = limit).
Proof.
  unfold list_for_user, limited. destruct (limit <? 0) eqn:E; [discriminate|]. zbool. fold (inbox db user_id).
  set (s := sort_by _ _). intros [= <-]. exists (drop (Z.to_nat limit) s). rewrite take_drop. split; [apply sort_by_perm|].
  split.
  - apply (StronglySorted_weaken (fun a b => (n_created_at b <=? n_created_at a) = true)); [intros; by apply Z.leb_le|].
    apply sort_by_sorted; intros; zbool; lia.
  - destruct (Nat.le_gt_cases (length s) (Z.to_nat limit)); [left; by apply drop_ge|right]. rewrite length_take. lia.
Qed.

(** What the operations do to an inbox.  Sending stores exactly the notifications
    of a known kind that the user has not muted explicitly, unread; anything else
    leaves the table alone.  Marking one as read lowers the unread count by one
    exactly when it was an unread one of that user, marking all lowers it to zero
    and answers what it was; either is done once, a second time changes nothing, so
    the time of the first reading stays.  The inboxes of the others stay as they are.
    The listing is the inbox, the newest first, up to the limit. *)
Theorem inbox_correct users db user_id now :
  NoDup (map u_id users) -> NoDup (map n_id db) ->
  (forall new_id kind title body link_path,
     match send users db new_id now user_id kind title body link_path with
     | Ok (db', Some n) =>
         kind ∈ VALID_KINDS /\ (exists u, u ∈ users /\ u_id u = user_id /\ u_notification_prefs u !! kind <> Some false) /\
         db' = (db ++ [n])%list /\ n_kind n = kind /\ is_unread user_id n = true /\
         unread_count db' user_id = unread_count db user_id + 1 /\
         foreign n_user_id user_id db' = foreign n_user_id user_id db
     | Ok (db', None) =>
         db' = db /\ kind ∈ VALID_KINDS /\ exists u, u ∈ users /\ u_id u = user_id /\ u_notification_prefs u !! kind = Some false
     | Exn e =>
         (e = ValueError /\ kind ∉ VALID_KINDS) \/
         (e = DataError /\ storable_notification (mkNotification new_id user_id kind title body link_path None now) = false) \/
         (e = IntegrityError /\ user_id ∉ map u_id users)
     end) /\
  (forall notification_id later,
     let db' := mark_read db now user_id notification_id in
     unread_count db' user_id
       = unread_count db user_id - (if existsb (fun n => String.eqb (n_id n) notification_id && is_unread user_id n)%bool db then 1 else 0) /\
     mark_read db' later user_id notification_id = db' /\
     foreign n_user_id user_id db' = foreign n_user_id user_id db) /\
  (forall later,
     let '(db', marked) := mark_all_read db now user_id in
     marked = unread_count db user_id /\ unread_count db' user_id = 0 /\
     mark_all_read db' later user_id = (db', 0) /\
     foreign n_user_id user_id db' = foreign n_user_id user_id db) /\
  (forall limit l, list_for_user db user_id limit = Ok l ->
     exists rest, l ++ rest ≡ₚ inbox db user_id /\ StronglySorted (fun a b => n_created_at b <= n_created_at a) (l ++ rest) /\
       (rest = [] \/ Z.of_nat (length l) = limit)).
Proof.
  intros Hu Hn. split_and!.
  - intros new_id kind title body link_path. unfold send.
    destruct (existsb (String.eqb kind) VALID_KINDS) eqn:Ek; cbn [negb].
    2: { left. split; [done|]. intros K%mem_text. congruence. }
    apply mem_text in Ek.
    assert (Hadd : forall n, is_unread user_id n = true -> unread_count (db ++ [n])%list user_id = unread_count db user_id + 1).
    { intros n En. unfold unread_count. rewrite List.filter_app. cbn [List.filter]. rewrite En, length_app. cbn [length]. lia. }
    destruct (scalar_by_key u_id users user_id Hu) as [(u & Hin & Hid & ->)|[Hno ->]].
    + destruct (u_notification_prefs u !! kind) as [[]|] eqn:Ep.
      2: { split_and!; [done|done|]. by exists u. }
      all: destruct (storable_notification _) eqn:Es; cbn [negb]; [|by right; left].
      all: split_and!; [done|exists u; by rewrite Ep|done|done|..].
      all: try (by apply Hadd; unfold is_unread; cbn; rewrite String.eqb_refl).
      all: try (by unfold is_unread; cbn; rewrite String.eqb_refl).
      all: by apply foreign_app.
    + rewrite lookup_empty. destruct (storable_notification _) eqn:Es; cbn [negb]; [|by right; left].
      right. right. split; [done|]. intros (u & -> & Hin)%list_elem_of_fmap. by apply (Hno u).
  - intros nid later. cbv zeta. split_and!; [by apply mark_read_count|apply mark_read_twice|].
    apply touched_foreign. intros n. apply mark_read_cases.
  - intros later. pose proof (mark_all_none now user_id db). pose proof (mark_all_twice now later user_id db).
    destruct (mark_all_read db now user_id) as [db' marked] eqn:E. cbn [fst] in *. unfold mark_all_read in E. injection E as <- <-.
    split_and!; [done..|]. apply touched_foreign. intros n. apply mark_all_cases.
  - intros limit l. apply list_newest_first.
Qed.

Definition reader : User :=
  mkUser "u1" "a@b.pk" None None None None None false false None None None None None false None None false
    (<["pump_dump" := false]> default_prefs)%string 0.

Lemma inbox_correct_witness :
  let db := [mkNotification "n1" "u1" "system" "Hello" "" None None 5]%string in
  send [reader] db "n2" 9 "u1" "pump_dump" "Spike" "" None = Ok (db, None) /\
  unread_count (mark_read db 9 "u1" "n1") "u1" = 0 /\ foreign n_user_id "u2" (mark_all_read db 9 "u2").1 = db.
Proof.
  intros db.
  destruct (inbox_correct [reader] db "u1" 9) as (Hs & Hr & _); [apply NoDup_singleton..|].
  destruct (inbox_correct [reader] db "u2" 9) as (_ & _ & Ha & _); [apply NoDup_singleton..|].
  split; [|split].
  - specialize (Hs "n2" "pump_dump" "Spike" "" None)%string. destruct (send _ _ _ _ _ _ _ _ _) as [[db' [n|]]|e] eqn:E.
    + destruct Hs as (_ & (u & ->%list_elem_of_singleton & _ & Hp) & _). destruct Hp. reflexivity.
    + destruct Hs as [-> _]. reflexivity.
    + vm_compute in E. discriminate E.
  - destruct (Hr "n1"%string 0) as [-> _]. reflexivity.
  - exact (proj2 (proj2 (proj2 (Ha 0)))).
Defined.
