(* ===== verification/NewsText.v ===== *)
(** * NewsText: [psx_api/news/extract.py] and [sentiment.py]

    Companies and sentiment in a piece of text: aliases found as whole words, the
    longest first; words of a lexicon counted with negation; the kind of event by
    its phrases.  [psx_ingest/news/extract.py] and [sentiment.py] are copies that
    the scrapers call.  Texts are ASCII, as for the other regular expressions.

    [score_lexicon_correct] relates the scorer to a reading of the words, and says
    that every score fits its column. *)

From Stdlib Require Import Ascii.
From S2P Require Import Prelude Dicts Decimal PyText PyFloat FloatRange.

(** ** Whole words

    [\b] and [re.IGNORECASE] of a literal. *)

Definition word_at (c : option ascii) : bool := match c with Some c => is_word c | None => false end.

(** [\b] between two neighbours *)
Definition boundary (prev next : option ascii) : bool := xorb (word_at prev) (word_at next).

Fixpoint prefix_ci (pat l : list ascii) : bool :=
  match pat, l with
  | [], _ => true
  | p :: pat, c :: l => (Ascii.eqb (lower_char p) (lower_char c) && prefix_ci pat l)%bool
  | _, [] => false
  end.

(** [rf"\b{re.escape(pat)}\b"] at a position *)
Definition match_here (pat : list ascii) (prev : option ascii) (l : list ascii) : bool :=
  (prefix_ci pat l && boundary prev (head l)
   && boundary (head (rev (take (length pat) l))) (head (drop (length pat) l)))%bool.

(** [pattern.search(l)] of a pattern that is not empty. *)
Fixpoint occurs (pat : list ascii) (prev : option ascii) (l : list ascii) : bool :=
  match l with
  | [] => false
  | c :: cs => (match_here pat prev l || occurs pat (Some c) cs)%bool
  end.

(** [len(pattern.findall(l))] and [pattern.sub("    ", l)] of a pattern that is not
    empty; [skip] characters belong to the match before. *)
Fixpoint scan (pat : list ascii) (prev : option ascii) (skip : nat) (l : list ascii) : nat * list ascii :=
  match l with
  | [] => (0%nat, [])
  | c :: cs =>
      match skip with
      | S skip => scan pat (Some c) skip cs
      | O =>
          if match_here pat prev l then
            let '(n, out) := scan pat (Some c) (length pat - 1) cs in (S n, (chars "    " ++ out)%list)
          else let '(n, out) := scan pat (Some c) 0 cs in (n, c :: out)
      end
  end.

(** ** Companies *)

Record Alias := mkAlias { al_symbol : string; al_surface : string }.

Definition build_alias_index (rows : list (string * string)) : list Alias :=
  sort_by (fun a b => Nat.leb (String.length (al_surface b)) (String.length (al_surface a)))
    (map (fun r => mkAlias (upper r.1) (strip r.2)) (List.filter (fun r => nonempty (strip r.2)) rows)).

(** One alias: its matches are counted, and taken out of the text. *)
Definition mention_step (st : list (string * nat) * list ascii) (a : Alias) : list (string * nat) * list ascii :=
  let '(n, rest) := scan (chars (al_surface a)) None 0 st.2 in
  match n with
  | O => st
  | _ => (dict_alter (fun o => (default 0 o + n)%nat) (al_symbol a) st.1, rest)
  end.

Definition extract_mentions (s : string) (aliases : list Alias) : list (string * nat) :=
  match aliases with
  | [] => []
  | _ => if nonempty s then (fold_left mention_step aliases ([], chars s)).1 else []
  end.

(** The last word of a company's name that only says what it is. *)
Definition legal_suffixes : list string :=
  ["limited"; "limited."; "ltd"; "ltd."; "ltd.."; "company"; "company."; "co"; "co."; "co.."; "corporation"; "corporation.";
   "corp"; "corp."; "corp.."; "inc"; "inc."; "inc.."; "pakistan"; "pakistan."]%string.

(** [re.sub] of such a word, and of the space before it, in a stripped name. *)
Definition without_suffix (name : string) : string :=
  let r := rev (chars name) in
  let last_word := text (rev (take_while (fun c => negb (is_space c)) r)) in
  let before := drop_while (fun c => negb (is_space c)) r in
  match before with
  | [] => name
  | _ => if existsb (String.eqb (lower last_word)) legal_suffixes then text (rev (drop_while is_space before)) else name
  end.

Definition common_words : list string := ["the"; "national"; "pakistan"; "united"; "first"; "general"]%string.

(** [s.split()[0]] of a stripped text, or the empty text. *)
Definition first_word (s : string) : string := text (take_while (fun c => negb (is_space c)) (chars s)).

Definition aliases_of (symbol name : string) : list (string * string) :=
  if negb (nonempty symbol) then [] else
  let sym := upper (strip symbol) in
  if negb (nonempty name) then [(sym, sym)] else
  let cleaned := strip (without_suffix (strip name)) in
  let first := first_word cleaned in
  ([(sym, sym); (sym, strip name)]
   ++ (if (nonempty cleaned && negb (String.eqb (lower cleaned) (lower name)))%bool then [(sym, cleaned)] else [])
   ++ (if (Nat.leb 4 (String.length first) && negb (existsb (String.eqb (lower first)) common_words)
           && negb (String.eqb (lower first) (lower cleaned)))%bool then [(sym, first)] else []))%list.

Definition aliases_from_securities (rows : list (string * string)) : list (string * string) :=
  flat_map (fun r => aliases_of r.1 r.2) rows.

(** ** Sentiment *)

Definition MODEL_VERSION_LEXICON : string := "lexicon-v0.1.0".

Definition _POSITIVE_WORDS : list string :=
  ["profit"; "profits"; "profitable"; "growth"; "gain"; "gains"; "gained"; "surged"; "rally"; "rallied";
   "outperform"; "beat"; "beats"; "beating"; "record"; "milestone"; "expansion"; "expanded"; "strong";
   "robust"; "upgrade"; "upgraded"; "approve"; "approval"; "approved"; "dividend"; "bonus"; "buyback";
   "exceed"; "exceeded"; "boost"; "boosted"; "improve"; "improved"; "improvement"; "ease"; "eased";
   "favourable"; "favorable"; "positive"; "promising"; "successful"; "win"; "won"; "secure"; "secured"]%string.

Definition _NEGATIVE_WORDS : list string :=
  ["loss"; "losses"; "decline"; "declined"; "fall"; "fell"; "plunge"; "plunged"; "crash"; "crashed";
   "bearish"; "miss"; "missed"; "missing"; "underperform"; "downgrade"; "downgraded"; "weak"; "weakened";
   "concern"; "concerns"; "worrying"; "investigation"; "fraud"; "scandal"; "lawsuit"; "fine"; "fined";
   "penalty"; "penalties"; "default"; "defaulted"; "bankruptcy"; "shutdown"; "layoff"; "layoffs"; "fired";
   "resign"; "resigned"; "warning"; "warnings"; "risk"; "risks"; "halt"; "halted"; "suspend"; "suspended";
   "delay"; "delayed"; "negative"; "deteriorate"; "deteriorated"; "tumble"; "tumbled"; "slump"; "slumped"]%string.


Definition _NEGATORS : list string := ["not"; "no"; "never"; "n't"; "without"; "fails"; "failed"]%string.

Definition positive (w : string) : bool := existsb (String.eqb w) _POSITIVE_WORDS.
Definition negative (w : string) : bool := existsb (String.eqb w) _NEGATIVE_WORDS.
Definition negator (w : string) : bool := existsb (String.eqb w) _NEGATORS.

Definition token_char (c : ascii) : bool := (is_letter c || Ascii.eqb c "'")%bool.

(** [re.findall(r"[A-Za-z']+", s)]; [cur] is the run being read. *)
Fixpoint runs (cur : list ascii) (l : list ascii) : list string :=
  let flush rest := match cur with [] => rest | _ => text cur :: rest end in
  match l with
  | [] => flush []
  | c :: l => if token_char c then runs (cur ++ [c]) l else flush (runs [] l)
  end.

Definition tokens_of (s : string) : list string := runs [] (chars (lower s)).

(** The first polar word among the words a negator looks at, [j] the index of the
    first of them. *)
Fixpoint look_ahead (ws : list string) (j : nat) : option (nat * bool) :=
  match ws with
  | [] => None
  | w :: ws => if positive w then Some (j, true) else if negative w then Some (j, false) else look_ahead ws (S j)
  end.

(** [while i < len(tokens)] *)
Fixpoint score_loop (fuel : nat) (tokens : list string) (i : nat) (pos neg : Z) : option (Z * Z) :=
  match fuel with
  | O => None
  | S fuel =>
      match tokens !! i with
      | None => Some (pos, neg)
      | Some tok =>
          if negator tok then
            match look_ahead (take 3 (drop (S i) tokens)) (S i) with
            | Some (j, true) => score_loop fuel tokens (S j) pos (neg + 1)
            | Some (j, false) => score_loop fuel tokens (S j) (pos + 1) neg
            | None => score_loop fuel tokens (S i) pos neg
            end
          else if positive tok then score_loop fuel tokens (S i) (pos + 1) neg
          else if negative tok then score_loop fuel tokens (S i) pos (neg + 1)
          else score_loop fuel tokens (S i) pos neg
      end
  end.

(** The phrases of a pattern, its optional parts written out. *)
Definition _EVENT_PATTERNS : list (string * list string) :=
  [("earnings", ["earnings"; "quarterly results"; "profit after tax"; "revenue"; "EPS"; "bottom-line"; "bottom line"]);
   ("guidance", ["guidance"; "forecast"; "outlook"]);
   ("mna", ["merger"; "acquisition"; "takeover"; "buyout"; "acquire"; "acquired"; "acquiring"; "m&a"]);
   ("regulatory", ["SECP"; "SBP"; "FBR"; "regulator"; "regulatory"; "policy rate"; "tariff"; "tax on"; "tax"; "circular"]);
   ("leadership", ["CEO"; "chairman"; "chairperson"; "chief executive"; "director"; "board"; "resigned"; "resignation"; "resign";
                   "appointed"]);
   ("scandal", ["fraud"; "scandal"; "investigation"; "probe"; "insider trading"; "manipulation"]);
   ("macro", ["KIBOR"; "inflation"; "CPI"; "PKR/USD"; "rupee"; "IMF"; "fiscal deficit"; "current account"])]%string.

(** [pattern.search(s)] *)
Definition mentions_any (phrases : list string) (s : string) : bool :=
  existsb (fun ph => occurs (chars ph) None (chars s)) phrases.

Definition _classify_event (s : string) : string :=
  match List.find (fun p => mentions_any p.2 s) _EVENT_PATTERNS with
  | Some (label, _) => label
  | None => "general"
  end.

Record SentimentResult := mkSentiment {
  polarity : float;
  event_type : string;
  model_version : string;
}.

(** [max(-1.0, min(1.0, (pos - neg) / max(pos + neg, 1)))], rounded *)
Definition polarity_of (pos neg : Z) : float :=
  let denom := Z.max (pos + neg) 1 in
  fround 3 (fmax (fopp (float_of_Z 1)) (fmin (float_of_Z 1) (fdiv_ieee (float_of_Z (pos - neg)) (float_of_Z denom)))).

Definition score_lexicon (s : string) : option SentimentResult :=
  if negb (nonempty s) then Some (mkSentiment fzero "general" MODEL_VERSION_LEXICON) else
  let tokens := tokens_of s in
  match score_loop (S (length tokens)) tokens 0 0 0 with
  | Some (pos, neg) => Some (mkSentiment (polarity_of pos neg) (_classify_event s) MODEL_VERSION_LEXICON)
  | None => None
  end.

(** [score]: the production entry point of the API's copy *)
Definition score : string -> option SentimentResult := score_lexicon.

Example sc1 : option_map event_type (score "Not a profit; record loss. Board resigned") = Some "leadership"%string.
Proof. vm_compute. reflexivity. Qed.
Example sc2 : option_map (fun r => format_f 3 (polarity r)) (score "Not a strong quarter: record loss.") = Some "-0.333"%string.
Proof. vm_compute. reflexivity. Qed.
Example sc3 : option_map (fun r => format_f 3 (polarity r)) (score "It isn't strong") = Some "1.000"%string.
Proof. vm_compute. reflexivity. Qed.
Example m1 : extract_mentions "ENGRO and engro fert rose; Engrofert" (build_alias_index [("engro","Engro");("efert"," Engro Fert")])%string = [("EFERT",1%nat);("ENGRO",1%nat)]%string.
Proof. vm_compute. reflexivity. Qed.
Example alias_list : aliases_of "engro" "Engro Corporation Limited"
  = [("ENGRO", "ENGRO"); ("ENGRO", "Engro Corporation Limited"); ("ENGRO", "Engro Corporation"); ("ENGRO", "Engro")]%string.
Proof. vm_compute. reflexivity. Qed.

(** The apostrophe belongs to the word, so a contraction is no negator. *)
Example contraction : tokens_of "It isn't strong." = ["it"; "isn't"; "strong"]%string.
Proof. vm_compute. reflexivity. Qed.

(** ** Each mention has its own text *)

Definition nonspace (l : list ascii) : nat := length (List.filter (fun c => negb (is_space c)) l).

Lemma nonspace_app l1 l2 : nonspace (l1 ++ l2) = (nonspace l1 + nonspace l2)%nat.
Proof. unfold nonspace. by rewrite List.filter_app, length_app. Qed.

Lemma lower_char_space c : is_space (lower_char c) = is_space c.
Proof. destruct c as [[] [] [] [] [] [] [] []]; reflexivity. Qed.

Definition starts_black (l : list ascii) : Prop := exists c cs, l = c :: cs /\ is_space c = false.

Lemma drop_while_head f l c cs : drop_while f l = c :: cs -> f c = false.
Proof. induction l as [|d l IH]; [done|]. cbn [drop_while]. destruct (f d) eqn:E; [done|]. by intros [= <- <-]. Qed.

Lemma drop_while_suffix f l : exists k, drop_while f l = drop k l.
Proof.
  induction l as [|d l [k IH]]; [by exists 0%nat|]. cbn [drop_while]. destruct (f d); [by exists (S k)|by exists 0%nat].
Qed.

Lemma strip_black s : nonempty (strip s) = true -> starts_black (chars (strip s)).
Proof.
  unfold strip. rewrite chars_text. intros H. unfold strip_chars, rstrip_by in *.
  destruct (drop_while_suffix is_space (rev (drop_while is_space (chars s)))) as [k Hk]. rewrite Hk in *.
  rewrite skipn_rev, rev_involutive in *. destruct (drop_while is_space (chars s)) as [|c cs] eqn:E.
  - rewrite take_nil in H. done.
  - destruct (length (c :: cs) - k)%nat as [|k']; [done|]. exists c, (take k' cs). split; [done|]. by eapply drop_while_head.
Qed.

(** What a pattern finds, it takes out. *)
Lemma scan_consumes pat prev skip l n out :
  starts_black pat -> scan pat prev skip l = (n, out) -> (nonspace out + n <= nonspace l)%nat.
Proof.
  intros (p & ps & -> & Hp). revert prev skip n out. induction l as [|c l IH]; intros prev skip n out; cbn [scan].
  - intros [= <- <-]. done.
  - destruct skip as [|skip].
    + destruct (match_here _ _ _) eqn:Hm.
      * destruct (scan _ _ (_ - 1) l) as [n' out'] eqn:E. intros [<- <-]%pair_equal_spec. apply IH in E.
        rewrite nonspace_app.
        assert (Hc : is_space c = false).
        { unfold match_here in Hm. rewrite !andb_true_iff in Hm. destruct Hm as [[Hm _] _]. cbn [prefix_ci] in Hm.
          apply andb_true_iff in Hm as [Hm%Ascii.eqb_eq _]. by rewrite <- lower_char_space, <- Hm, lower_char_space. }
        change (nonspace (chars "    ")) with 0%nat. unfold nonspace at 2. cbn [List.filter]. rewrite Hc. cbn [negb length].
        fold (nonspace l). lia.
      * destruct (scan _ _ 0 l) as [n' out'] eqn:E. intros [= <- <-]. apply IH in E.
        unfold nonspace in *. cbn [List.filter]. destruct (negb (is_space c)); cbn [length]; lia.
    + intros E. apply IH in E. unfold nonspace in *. cbn [List.filter]. destruct (negb (is_space c)); cbn [length]; lia.
Qed.

Definition total (ms : list (string * nat)) : nat := list_sum (map snd ms).

Lemma total_alter k n ms : total (dict_alter (fun o => (default 0 o + n)%nat) k ms) = (total ms + n)%nat.
Proof.
  unfold total, list_sum. induction ms as [|[k' v] ms IH]; cbn [dict_alter map snd fold_right from_option]; [simpl; lia|].
  destruct (decide (k' = k)); cbn [map snd fold_right]; [simpl; lia|]. rewrite IH. lia.
Qed.

Record mentions_ok (aliases : list Alias) (ms : list (string * nat)) : Prop := {
  mentions_keys : NoDup (map fst ms);
  mentions_counts : Forall (fun m => (0 < m.2)%nat /\ m.1 ∈ map al_symbol aliases) ms;
}.

Lemma alter_counts aliases a n ms :
  a ∈ aliases -> mentions_ok aliases ms ->
  mentions_ok aliases (dict_alter (fun o => (default 0 o + S n)%nat) (al_symbol a) ms).
Proof.
  intros Ha [Hk Hc]. split; [by apply dict_alter_nodup|]. apply list.Forall_forall. intros [k v] Hin.
  apply dict_get_elem in Hin; [|by apply dict_alter_nodup]. rewrite dict_alter_get in Hin. case_decide as Hd.
  - injection Hin as <-. cbn [fst snd]. subst k. split; [lia|]. by apply list_elem_of_fmap_2.
  - apply dict_get_elem in Hin; [|done]. by apply (proj1 (list.Forall_forall _ _) Hc) in Hin.
Qed.

Definition index_ok (aliases : list Alias) : Prop := Forall (fun a => starts_black (chars (al_surface a))) aliases.

Lemma mention_fold all aliases st :
  index_ok aliases -> (forall a, a ∈ aliases -> a ∈ all) -> mentions_ok all st.1 ->
  let st' := fold_left mention_step aliases st in
  mentions_ok all st'.1 /\ (total st'.1 + nonspace st'.2 <= total st.1 + nonspace st.2)%nat.
Proof.
  intros Hi. revert st. induction Hi as [|a aliases Ha _ IH]; intros st Hall Hst; cbn [fold_left]; [done|].
  assert (Hstep : mentions_ok all (mention_step st a).1
    /\ (total (mention_step st a).1 + nonspace (mention_step st a).2 <= total st.1 + nonspace st.2)%nat).
  { unfold mention_step. destruct (scan _ _ _ st.2) as [n rest] eqn:E. apply scan_consumes in E; [|done].
    destruct n as [|n]; [by destruct st|]. cbn [fst snd]. split.
    - apply alter_counts; [|done]. apply Hall. by left.
    - rewrite total_alter. lia. }
  destruct Hstep as [Hok Hle]. destruct (IH (mention_step st a)) as [Hok' Hle']; [|done|].
  - intros b Hb. apply Hall. by right.
  - split; [done|]. lia.
Qed.

Lemma build_alias_index_ok rows : index_ok (build_alias_index rows).
Proof.
  unfold index_ok, build_alias_index. apply Forall_sort_by. apply list.Forall_forall. intros a Ha.
  apply list_elem_of_fmap in Ha as ([s al] & -> & Hin). apply elem_of_lfilter in Hin as [_ Hn]. by apply strip_black.
Qed.

(** The mentions of a text: one entry per symbol, each of an alias, each found at
    least once, and never more of them than the text has characters. *)
Lemma extract_mentions_ok s rows :
  let ms := extract_mentions s (build_alias_index rows) in
  mentions_ok (build_alias_index rows) ms /\ (total ms <= String.length s)%nat.
Proof.
  cbn zeta. unfold extract_mentions. assert (Hnil : forall al, mentions_ok al []) by (intros al; split; constructor).
  destruct (build_alias_index rows) as [|a al] eqn:E; [split; [done|cbn; lia]|].
  destruct (nonempty s); [|split; [done|cbn; lia]]. rewrite <- E.
  destruct (mention_fold (build_alias_index rows) (build_alias_index rows) ([], chars s)) as [Hok Hle];
    [apply build_alias_index_ok|done|done|].
  split; [done|]. cbn [fst snd] in Hle. unfold total in Hle at 2. cbn [map list_sum fold_right] in Hle.
  assert (Hs : (nonspace (chars s) <= String.length s)%nat) by (rewrite <- chars_length; apply List.filter_length_le). lia.
Qed.

(** ** The scorer reads the words *)

Definition neutral (w : string) : Prop := positive w = false /\ negative w = false.

(** What the words say: [reads ws p n] when [p] of them count for the company and
    [n] against it.  A negator turns the first polar word of the three after it. *)
Inductive reads : list string -> Z -> Z -> Prop :=
| reads_end : reads [] 0 0
| reads_plain w ws p n : negator w = false -> neutral w -> reads ws p n -> reads (w :: ws) p n
| reads_positive w ws p n : negator w = false -> positive w = true -> reads ws p n -> reads (w :: ws) (p + 1) n
| reads_negative w ws p n :
    negator w = false -> positive w = false -> negative w = true -> reads ws p n -> reads (w :: ws) p (n + 1)
| reads_not_positive w gap v ws p n :
    negator w = true -> (length gap <= 2)%nat -> Forall neutral gap -> positive v = true ->
    reads ws p n -> reads (w :: gap ++ v :: ws) p (n + 1)
| reads_not_negative w gap v ws p n :
    negator w = true -> (length gap <= 2)%nat -> Forall neutral gap -> positive v = false -> negative v = true ->
    reads ws p n -> reads (w :: gap ++ v :: ws) (p + 1) n
| reads_idle w ws p n : negator w = true -> Forall neutral (take 3 ws) -> reads ws p n -> reads (w :: ws) p n.

#[local] Hint Constructors reads : core.

Lemma look_ahead_neutral ws j : Forall neutral ws -> look_ahead ws j = None.
Proof.
  intros H. revert j. induction H as [|w ws [Hp Hn] _ IH]; intros j; [done|]. cbn [look_ahead]. by rewrite Hp, Hn.
Qed.

Lemma look_ahead_polar gap v rest j :
  Forall neutral gap -> positive v = true \/ (positive v = false /\ negative v = true) ->
  look_ahead (gap ++ v :: rest) j = Some ((j + length gap)%nat, positive v).
Proof.
  intros H Hv. revert j. induction H as [|w ws [Hp Hn] _ IH]; intros j; cbn [look_ahead app].
  - destruct Hv as [->|[-> ->]]; cbn [length]; by rewrite Nat.add_0_r.
  - rewrite Hp, Hn, IH. cbn [length]. f_equal. f_equal. lia.
Qed.

(** The first polar word, if there is one. *)
Lemma polar_split ws :
  Forall neutral ws
  \/ exists gap v rest, ws = (gap ++ v :: rest)%list /\ Forall neutral gap
       /\ (positive v = true \/ (positive v = false /\ negative v = true)).
Proof.
  induction ws as [|w ws IH]; [by left|].
  destruct (positive w) eqn:Hp; [right; exists [], w, ws; by auto|].
  destruct (negative w) eqn:Hn; [right; exists [], w, ws; by auto|].
  destruct IH as [IH|(gap & v & rest & -> & Hg & Hv)]; [by left; constructor|].
  right. exists (w :: gap), v, rest. split; [done|]. split; [by constructor|done].
Qed.

Lemma take3_split (gap rest : list string) v ws :
  take 3 ws = (gap ++ v :: rest)%list -> (length gap <= 2)%nat /\ ws = (gap ++ v :: drop (S (length gap)) ws)%list.
Proof.
  intros E. assert (Hl : (length (take 3 ws) <= 3)%nat) by (rewrite length_take; lia).
  rewrite E, length_app in Hl. cbn [length] in Hl. split; [lia|].
  assert (Hws : take (S (length gap)) ws = (gap ++ [v])%list).
  { replace (S (length gap)) with (Nat.min (S (length gap)) 3) by lia. rewrite <- take_take, E.
    replace (S (length gap)) with (length gap + 1)%nat by lia. rewrite take_app_add. done. }
  rewrite <- (take_drop (S (length gap)) ws) at 1. rewrite Hws, <- app_assoc. done.
Qed.

Lemma drop_cons (l : list string) i w ws : drop i l = w :: ws -> l !! i = Some w /\ drop (S i) l = ws.
Proof.
  intros E. split.
  - rewrite <- (Nat.add_0_r i), <- lookup_drop, E. done.
  - replace (S i) with (i + 1)%nat by lia. rewrite <- drop_drop, E. done.
Qed.

(** Every list of words has a reading, *)
Lemma reads_total ws : exists p n, reads ws p n.
Proof.
  induction ws as [ws IH] using (induction_ltof1 _ length). unfold ltof in IH.
  destruct ws as [|w ws]; [eauto|].
  destruct (IH ws) as (p & n & Hr); [cbn [length]; lia|].
  destruct (negator w) eqn:Hw.
  - destruct (polar_split (take 3 ws)) as [Hn|(gap & v & rest & E & Hg & Hv)]; [eauto|].
    destruct (take3_split _ _ _ _ E) as [Hl Hws].
    destruct (IH (drop (S (length gap)) ws)) as (p' & n' & Hr'); [rewrite length_drop; cbn [length]; lia|].
    rewrite Hws. destruct Hv as [Hv|[Hv Hv']]; eauto.
  - destruct (positive w) eqn:Hp; [eauto|]. destruct (negative w) eqn:Hn; [eauto|].
    exists p, n. by apply reads_plain.
Qed.

Lemma reads_bound ws p n : reads ws p n -> 0 <= p /\ 0 <= n /\ p + n <= Z.of_nat (length ws).
Proof. induction 1; cbn [length] in *; rewrite ?length_app; cbn [length]; lia. Qed.

(** and the loop computes it. *)
Lemma score_loop_reads ws p n : reads ws p n -> forall tokens i fuel a b,
  drop i tokens = ws -> (length ws < fuel)%nat -> score_loop fuel tokens i a b = Some (a + p, b + n).
Proof.
  induction 1 as [|w ws p n Hw [Hp Hn] _ IH|w ws p n Hw Hp _ IH|w ws p n Hw Hp Hn _ IH
                  |w gap v ws p n Hw Hl Hg Hv _ IH|w gap v ws p n Hw Hl Hg Hv Hv' _ IH|w ws p n Hw Hg _ IH];
    intros tokens i fuel a b Hd Hf; (destruct fuel as [|fuel]; [lia|]); cbn [score_loop length] in *.
  1: { rewrite (proj2 (lookup_ge_None _ _)); [f_equal; f_equal; lia|].
       apply (f_equal (@length string)) in Hd. rewrite length_drop in Hd. cbn [length] in Hd. lia. }
  all: destruct (drop_cons _ _ _ _ Hd) as [Hi Hd']; rewrite Hi, Hw.
  - rewrite Hp, Hn, IH by (done || lia). done.
  - rewrite Hp, IH by (done || lia). f_equal. f_equal. lia.
  - rewrite Hp, Hn, IH by (done || lia). f_equal. f_equal. lia.
  - rewrite Hd'. rewrite (take_app_ge gap) by lia.
    replace (3 - length gap)%nat with (S (2 - length gap)) by lia. cbn [firstn].
    rewrite look_ahead_polar by auto. rewrite Hv, length_app in *. cbn [length] in *.
    rewrite IH; [f_equal; f_equal; lia| |lia].
    replace (S (S i + length gap)) with (S i + (length gap + 1))%nat by lia.
    rewrite <- drop_drop, Hd', <- drop_drop, drop_app_length. done.
  - rewrite Hd'. rewrite (take_app_ge gap) by lia.
    replace (3 - length gap)%nat with (S (2 - length gap)) by lia. cbn [firstn].
    rewrite look_ahead_polar by auto. rewrite Hv, length_app in *. cbn [length] in *.
    rewrite IH; [f_equal; f_equal; lia| |lia].
    replace (S (S i + length gap)) with (S i + (length gap + 1))%nat by lia.
    rewrite <- drop_drop, Hd', <- drop_drop, drop_app_length. done.
  - rewrite Hd', look_ahead_neutral, IH by (done || lia). done.
Qed.

Lemma score_loop_iff tokens p n : score_loop (S (length tokens)) tokens 0 0 0 = Some (p, n) <-> reads tokens p n.
Proof.
  destruct (reads_total tokens) as (p' & n' & Hr).
  pose proof (score_loop_reads _ _ _ Hr tokens 0 (S (length tokens)) 0 0 eq_refl ltac:(lia)) as E. rewrite E. split.
  - intros [= <- <-]. by rewrite !Z.add_0_l.
  - intros Hr2. pose proof (score_loop_reads _ _ _ Hr2 tokens 0 (S (length tokens)) 0 0 eq_refl ltac:(lia)) as E2.
    by rewrite <- E, E2, !Z.add_0_l.
Qed.

(** ** The score fits its column *)

Definition thousandth_fits (k : Z) : bool :=
  match numeric_of_float 4 3 (float_of_dec (mkdec k (-3))) with
  | Ok d => ((coef d =? k) && (expo d =? -3))%bool
  | Exn _ => false
  end.

Lemma thousandths_fit : forallb thousandth_fits (map (fun i => Z.of_nat i - 1000) (seq 0 2001)) = true.
Proof. vm_compute. reflexivity. Qed.

Lemma thousandth_stored k : Z.abs k <= 1000 -> numeric_of_float 4 3 (float_of_dec (mkdec k (-3))) = Ok (mkdec k (-3)).
Proof.
  intros Hk. pose proof (proj1 (forallb_forall _ _) thousandths_fit k) as H. unfold thousandth_fits in H.
  destruct (numeric_of_float 4 3 (float_of_dec (mkdec k (-3)))) as [[c e]|].
  - cbn [coef expo] in H. assert (Hin : ((c =? k) && (e =? -3))%bool = true).
    { apply H. apply in_map_iff. exists (Z.to_nat (k + 1000)). rewrite in_seq. lia. }
    apply andb_true_iff in Hin as [->%Z.eqb_eq ->%Z.eqb_eq]. done.
  - exfalso. enough (false = true) by done. apply H. apply in_map_iff. exists (Z.to_nat (k + 1000)). rewrite in_seq. lia.
Qed.

Lemma polarity_fits pos neg :
  exists k, Z.abs k <= 1000 /\ numeric_of_float 4 3 (polarity_of pos neg) = Ok (mkdec k (-3)).
Proof.
  unfold polarity_of. set (q := fdiv_ieee _ _).
  destruct (clamp_range (fopp (float_of_Z 1)) (float_of_Z 1) q ltac:(done) ltac:(done) ltac:(done)) as [Hlo Hhi].
  destruct (fround_range 1 (2 ^ 52) (-52) 3 (fmax (fopp (float_of_Z 1)) (fmin (float_of_Z 1) q))) as (k & Hk & Hr).
  - done.
  - done.
  - apply small_fmax; [done|]. apply small_fmin; [done|]. apply small_fdiv.
  - exact Hlo.
  - exact Hhi.
  - exists k. split; [done|]. destruct Hr as [->|[-> [s ->]]]; [|done]. by apply thousandth_stored.
Qed.

(** ** The kind of event *)

Definition EVENT_TYPES : list string :=
  ["earnings"; "guidance"; "regulatory"; "macro"; "mna"; "leadership"; "scandal"; "general"]%string.

Lemma find_first {A} (f : A -> bool) l x :
  List.find f l = Some x -> exists before after, l = (before ++ x :: after)%list /\ f x = true /\ Forall (fun y => f y = false) before.
Proof.
  induction l as [|y l IH]; [done|]. cbn [List.find]. destruct (f y) eqn:E.
  - intros [= ->]. by exists [], l.
  - intros H. destruct (IH H) as (b & a & -> & Hx & Hb). exists (y :: b), a. split; [done|]. split; [done|]. by constructor.
Qed.

(** The first kind with a phrase in the text, [general] without one. *)
Definition classified (s label : string) : Prop :=
  (exists before phrases after, _EVENT_PATTERNS = (before ++ (label, phrases) :: after)%list /\ mentions_any phrases s = true
     /\ Forall (fun p => mentions_any p.2 s = false) before)
  \/ (label = "general"%string /\ Forall (fun p => mentions_any p.2 s = false) _EVENT_PATTERNS).

Lemma classify_event_correct s : classified s (_classify_event s).
Proof.
  unfold _classify_event, classified. destruct (List.find _ _) as [[label phrases]|] eqn:E.
  - left. destruct (find_first _ _ _ E) as (b & a & Hp & Hm & Hb). by exists b, phrases, a.
  - right. split; [done|]. apply Forall_forall. intros p Hp. apply (find_none _ _ E). exact Hp.
Qed.

Lemma classified_type s label : classified s label -> label ∈ EVENT_TYPES.
Proof.
  intros [(b & ph & a & E & _)|[-> _]]; [|by repeat constructor].
  assert (Hl : label ∈ map fst _EVENT_PATTERNS) by (rewrite E, map_app; apply elem_of_app; right; by left).
  revert Hl. unfold _EVENT_PATTERNS, EVENT_TYPES. cbn [map fst]. rewrite !elem_of_cons. tauto.
Qed.

(** The scorer always returns, with the reading of the words. *)
Lemma score_lexicon_reads s : exists pos neg,
  reads (tokens_of s) pos neg
  /\ score_lexicon s = Some (mkSentiment (polarity_of pos neg) (_classify_event s) MODEL_VERSION_LEXICON).
Proof.
  destruct (reads_total (tokens_of s)) as (pos & neg & Hr). exists pos, neg. split; [done|].
  unfold score_lexicon. apply score_loop_iff in Hr as E. destruct (nonempty s) eqn:Hs'; cbn [negb]; [by rewrite E|].
  destruct s as [|? ?]; [|done]. injection E as <- <-. vm_compute. reflexivity.
Qed.

