(* ===== verification/News.v ===== *)
(** * News: [psx_ingest/news/persistence.py], [news/base.py] and [tasks/news.py]

    From the feed of a source to the news tables: URLs seen before are dropped by a
    key in Redis, articles are fetched, and each is written with the companies it
    mentions and its sentiment, all in one transaction that the task commits at the
    end.

    What a run leaves behind is proved in [NewsCorrect]. *)

From Stdlib Require Import Ascii.
From S2P Require Import Prelude Dicts Decimal PyText PyFloat NewsTables NewsText Redis Session.

(** ** Tables *)

(** The columns of [securities] that the ingestion and its foreign keys need. *)
Record Listed := mkListed { l_symbol : string; l_company_name : string; l_is_active : bool }.

Record news_db := mkNewsDb {
  nd_articles : list NewsArticle;
  nd_mentions : list ArticleMention;
  nd_sentiments : list ArticleSentiment;
  nd_aliases : list CompanyAlias;
  nd_securities : list Listed;
}.

(** ** Persistence *)

Record NewsArticleRow := mkRow {
  source : string;
  url : string;
  headline : string;
  body : string;
  published_at : Z;
  language : string;
}.

Record IngestSummary := mkSummary {
  fetched : Z;
  inserted : Z;
  duplicates : Z;
  errors : Z;
  mentions_total : Z;
  sentiment_rows : Z;
}.

Definition empty_summary : IngestSummary := mkSummary 0 0 0 0 0 0.

Section load.
(** UNION leaves the order of its rows to the server. *)
Variable union : list (string * string) -> list (string * string).

Definition load_alias_index (db : news_db) : list Alias :=
  let rows := union (map (fun s => (l_symbol s, l_company_name s)) (List.filter l_is_active (nd_securities db))
                     ++ map (fun a => (ca_symbol a, ca_alias a)) (nd_aliases db))%list in
  build_alias_index (List.filter (fun r => nonempty r.2) rows ++ map (fun r => (r.1, r.1)) rows)%list.
End load.

Definition row_columns (a : NewsArticleRow) : bool :=
  (varchar 50 (source a) && varchar 1000 (url a) && storable (headline a) && storable (body a) && varchar 10 (language a))%bool.

Definition known_url (db : news_db) (u : string) : bool := existsb (fun n => String.eqb (na_url n) u) (nd_articles db).
Definition known_article (db : news_db) (id : string) : bool := existsb (fun n => String.eqb (na_id n) id) (nd_articles db).
Definition known_symbol (db : news_db) (s : string) : bool := existsb (fun l => String.eqb (l_symbol l) s) (nd_securities db).

Definition stored_row (new_id : string) (now : Z) (a : NewsArticleRow) : NewsArticle :=
  mkArticle new_id (source a) (url a) (headline a) (body a) (published_at a) now (language a).

Definition add_article (db : news_db) (n : NewsArticle) : news_db :=
  mkNewsDb (nd_articles db ++ [n]) (nd_mentions db) (nd_sentiments db) (nd_aliases db) (nd_securities db).
Definition with_mentions (db : news_db) (l : list ArticleMention) : news_db :=
  mkNewsDb (nd_articles db) l (nd_sentiments db) (nd_aliases db) (nd_securities db).
Definition with_sentiments (db : news_db) (l : list ArticleSentiment) : news_db :=
  mkNewsDb (nd_articles db) (nd_mentions db) l (nd_aliases db) (nd_securities db).

(** [INSERT ... ON CONFLICT (url) DO NOTHING RETURNING id], the id drawn by the server. *)
Definition upsert_article (new_id : string) (now : Z) (a : NewsArticleRow) : M (session news_db) (option string) :=
  execute (fun db =>
    if negb (row_columns a) then Exn DataError
    else if known_url db (url a) then Ok (db, None)
    else if known_article db new_id then Exn IntegrityError
    else Ok (add_article db (stored_row new_id now a), Some new_id)).

Definition mention_key (article_id symbol : string) (m : ArticleMention) : bool :=
  (String.eqb (am_article_id m) article_id && String.eqb (am_symbol m) symbol)%bool.

(** [match_count] is a 32-bit integer. *)
Definition insert_mention (article_id symbol : string) (count : Z) : M (session news_db) unit :=
  execute (fun db =>
    if negb (varchar 20 symbol && (count <? 2 ^ 31)) then Exn DataError
    else if existsb (mention_key article_id symbol) (nd_mentions db) then
      Ok (with_mentions db (map (fun m => if mention_key article_id symbol m then mkMention article_id symbol count else m)
                              (nd_mentions db)), tt)
    else if negb (known_article db article_id && known_symbol db symbol) then Exn IntegrityError
    else Ok (with_mentions db (nd_mentions db ++ [mkMention article_id symbol count]), tt)).

Definition sentiment_key (article_id symbol : string) (s : ArticleSentiment) : bool :=
  (String.eqb (as_article_id s) article_id && String.eqb (as_symbol s) symbol)%bool.

(** [ck_article_sentiment_polarity_range], of a value with three places, and
    [ck_article_sentiment_event_type] *)
Definition sentiment_checks (polarity : dec) (event_type : string) : bool :=
  (dleb (mkdec (-1) 0) polarity && dleb polarity (mkdec 1 0) && existsb (String.eqb event_type) EVENT_TYPES)%bool.

(** [INSERT ... ON CONFLICT (article_id, symbol) DO NOTHING] *)
Definition insert_sentiment (now : Z) (article_id symbol : string) (polarity : float) (event_type model_version : string)
    : M (session news_db) unit :=
  execute (fun db =>
    let! p := numeric_of_float 4 3 polarity in
    if negb (varchar 20 symbol && varchar 30 event_type && varchar 20 model_version) then Exn DataError
    else if negb (sentiment_checks p event_type) then Exn IntegrityError
    else if existsb (sentiment_key article_id symbol) (nd_sentiments db) then Ok (db, tt)
    else if negb (known_article db article_id) then Exn IntegrityError
    else Ok (with_sentiments db (nd_sentiments db ++ [mkArticleSentiment article_id symbol p (Some event_type) model_version now]),
             tt)).

(** *** One article *)

Definition fetched_one s := mkSummary (fetched s + 1) (inserted s) (duplicates s) (errors s) (mentions_total s) (sentiment_rows s).
Definition inserted_one s := mkSummary (fetched s) (inserted s + 1) (duplicates s) (errors s) (mentions_total s) (sentiment_rows s).
Definition duplicate_one s := mkSummary (fetched s) (inserted s) (duplicates s + 1) (errors s) (mentions_total s) (sentiment_rows s).
Definition error_one s := mkSummary (fetched s) (inserted s) (duplicates s) (errors s + 1) (mentions_total s) (sentiment_rows s).
Definition mentioned (count : Z) s :=
  mkSummary (fetched s) (inserted s) (duplicates s) (errors s) (mentions_total s + count) (sentiment_rows s + 1).

Fixpoint write_mentions (now : Z) (article_id : string) (r : SentimentResult) (ms : list (string * nat)) : M (ingest news_db IngestSummary) unit :=
  match ms with
  | [] => mret tt
  | (symbol, count) :: ms =>
      let* _ := on_session (insert_mention article_id symbol (Z.of_nat count)) in
      let* _ := on_session (insert_sentiment now article_id symbol (polarity r) (event_type r) (model_version r)) in
      let* _ := tally (mentioned (Z.of_nat count)) in
      write_mentions now article_id r ms
  end.

Definition lf : string := String (ascii_of_nat 10) "".

(** The headline and the beginning of the body. *)
Definition snippet_of (a : NewsArticleRow) : string := slice_to 1000 (headline a +:+ lf +:+ lf +:+ body a)%string.

(** The scorer always returns ([score_lexicon_correct]). *)
Definition scored (s : string) : res SentimentResult :=
  match score_lexicon s with Some r => Ok r | None => Exn ValueError end.

Definition ingest_body (now : Z) (aliases : list Alias) (new_id : string) (a : NewsArticleRow) : M (ingest news_db IngestSummary) unit :=
  let* found := on_session (upsert_article new_id now a) in
  match found with
  | None => tally duplicate_one
  | Some article_id =>
      let* _ := tally inserted_one in
      let snippet := snippet_of a in
      match extract_mentions snippet aliases with
      | [] => mret tt
      | ms => let* r := lift (scored snippet) in write_mentions now article_id r ms
      end
  end.

Definition ingest_article (now : Z) (aliases : list Alias) (new_id : string) (a : NewsArticleRow) : M (ingest news_db IngestSummary) unit :=
  let* _ := tally fetched_one in
  catching (ingest_body now aliases new_id a) (tally error_one).

(** [async for article in ...], each with the id the server would draw for it. *)
Definition ingest_all (now : Z) (aliases : list Alias) : list (string * NewsArticleRow) -> M (ingest news_db IngestSummary) unit :=
  for_each (fun row => ingest_article now aliases row.1 row.2).

(** ** Fetching *)

Record ArticleStub := mkStub { st_url : string; st_headline : string; st_published_at : Z }.

(** A source: its feed and its pages, parsed or not, as the web site serves them
    during a run; [get] has no text for a status of 400 or more, or no answer. *)
Record Scraper := mkScraper {
  source_slug : string;
  list_article_urls : res (list ArticleStub);
  get : string -> option string;
  parse_article_body : string -> res string;
}.

Definition _MAX_ARTICLE_AGE_DAYS : Z := 14.
Definition _DEDUPE_TTL_SECONDS : Z := 60 * 24 * 60 * 60.

Section fetch.
Context {R : Type} `{Redis R}.

Definition dedupe_key (sc : Scraper) (u : string) : string := ("news:dedupe:" +:+ source_slug sc +:+ ":" +:+ u)%string.

(** The Redis client of a task is always there. *)
Definition _should_fetch (sc : Scraper) (t : Z) (u : string) : R -> bool * R :=
  redis_set_nx_ex t (dedupe_key sc u) "1" _DEDUPE_TTL_SECONDS.

(** [(now - published_at).days], in microseconds *)
Definition age_days (now : Z) (stub : ArticleStub) : Z := (now - st_published_at stub) / (86400 * 10 ^ 6).

(** One stub, at the instant [t] of the server's clock in seconds. *)
Definition fetch_one (sc : Scraper) (now t : Z) (stub : ArticleStub) (r : R) : R * option NewsArticleRow :=
  if _MAX_ARTICLE_AGE_DAYS <? age_days now stub then (r, None) else
  let '(fresh, r) := _should_fetch sc t (st_url stub) r in
  if negb fresh then (r, None) else
  match get sc (st_url stub) with
  | None => (r, None)
  | Some html =>
      match parse_article_body sc html with
      | Exn _ => (r, None)
      | Ok text =>
          if (negb (nonempty text) || Nat.ltb (String.length text) 80)%bool then (r, None)
          else (r, Some (mkRow (source_slug sc) (st_url stub) (st_headline stub) text (st_published_at stub) "en"))
      end
  end.

(** The stubs in feed order, the [i]-th looked at at the instant [clock i]. *)
Fixpoint fetch_from (sc : Scraper) (now : Z) (clock : nat -> Z) (i : nat) (stubs : list ArticleStub) (r : R)
    : R * list NewsArticleRow :=
  match stubs with
  | [] => (r, [])
  | stub :: stubs =>
      let '(r, found) := fetch_one sc now (clock i) stub r in
      let '(r, rest) := fetch_from sc now clock (S i) stubs r in
      (r, match found with Some a => a :: rest | None => rest end)
  end.

Definition fetch_articles (sc : Scraper) (now : Z) (clock : nat -> Z) (r : R) : R * list NewsArticleRow :=
  match list_article_urls sc with
  | Exn _ => (r, [])
  | Ok stubs => fetch_from sc now clock 0 stubs r
  end.

(** *** The task of a source: [ids i] is the id drawn for the [i]-th article. *)
Definition _run_one_source (union : list (string * string) -> list (string * string)) (sc : Scraper) (now : Z)
    (clock : nat -> Z) (ids : nat -> string) (r : R) (db : news_db) : R * news_db * IngestSummary :=
  let aliases := load_alias_index union db in
  let '(r, rows) := fetch_articles sc now clock r in
  let '(st, _) := ingest_all now aliases (combine (map ids (seq 0 (length rows))) rows)
                    (mkIngest (begin_session db) empty_summary) in
  (r, commit db (in_session st), in_summary st).
End fetch.
