(* ===== verification/NewsCorrect.v ===== *)
(** * NewsCorrect: what a run of the news ingestion leaves behind

    [article_step] is what one article means for the tables, without a session:
    its row, and one mention and one sentiment for each company its beginning
    names.  [ingest_all] over a session refines the fold of these steps
    ([ingest_refines]), which keeps the tables aligned; a step that fails loses its
    batch ([failed_batch_lost]). *)

From Stdlib Require Import Ascii.
From S2P Require Import Prelude Dicts Decimal PyText PyFloat NewsTables NewsText Redis Session News.

(** ** One article, as a step on the tables *)

Definition stored_polarity (r : SentimentResult) : dec :=
  match numeric_of_float 4 3 (polarity r) with Ok d => d | Exn _ => mkdec 0 (-3) end.

Definition mention_rows (article_id : string) (ms : list (string * nat)) : list ArticleMention :=
  map (fun m => mkMention article_id m.1 (Z.of_nat m.2)) ms.
Definition sentiment_rows_of (now : Z) (article_id : string) (r : SentimentResult) (ms : list (string * nat)) : list ArticleSentiment :=
  map (fun m => mkArticleSentiment article_id m.1 (stored_polarity r) (Some (event_type r)) (model_version r) now) ms.

(** The tables with rows for an article. *)
Definition with_rows (db : news_db) (arts : list NewsArticle) (ms : list ArticleMention) (ss : list ArticleSentiment) : news_db :=
  mkNewsDb (nd_articles db ++ arts) (nd_mentions db ++ ms) (nd_sentiments db ++ ss) (nd_aliases db) (nd_securities db).

Definition symbol_ok (db : news_db) (m : string * nat) : bool := (varchar 20 m.1 && known_symbol db m.1)%bool.

Definition article_step (now : Z) (aliases : list Alias) (db : news_db) (row : string * NewsArticleRow) : res news_db :=
  let '(new_id, a) := row in
  if negb (row_columns a) then Exn DataError
  else if known_url db (url a) then Ok db
  else if known_article db new_id then Exn IntegrityError
  else
    let ms := extract_mentions (snippet_of a) aliases in
    if negb (forallb (symbol_ok db) ms) then Exn IntegrityError
    else
      let! r := scored (snippet_of a) in
      Ok (with_rows db [stored_row new_id now a] (mention_rows new_id ms) (sentiment_rows_of now new_id r ms)).

(** ** Statements *)

Lemma known_article_fresh db id n : na_id n = id -> known_article (add_article db n) id = true.
Proof.
  intros <-. unfold known_article, add_article. cbn [nd_articles]. rewrite existsb_app. cbn [existsb].
  by rewrite String.eqb_refl, orb_true_r.
Qed.

Lemma thousandth_checked k :
  Z.abs k <= 1000 -> dleb (mkdec (-1) 0) (mkdec k (-3)) = true /\ dleb (mkdec k (-3)) (mkdec 1 0) = true.
Proof.
  intros Hk. unfold dleb, dcompare. cbn [coef expo]. change (10 ^ (-3 - Z.min 0 (-3))) with 1. change (10 ^ (-3 - Z.min (-3) 0)) with 1.
  change (10 ^ (0 - Z.min 0 (-3))) with 1000. change (10 ^ (0 - Z.min (-3) 0)) with 1000.
  split; case Z.compare_spec; intros; (done || lia).
Qed.

(** What the scorer returns passes the checks of its table. *)
Lemma scored_ok s : exists r k,
  scored s = Ok r /\ Z.abs k <= 1000 /\ numeric_of_float 4 3 (polarity r) = Ok (mkdec k (-3))
  /\ event_type r ∈ EVENT_TYPES /\ sentiment_checks (mkdec k (-3)) (event_type r) = true
  /\ varchar 30 (event_type r) = true /\ varchar 20 (model_version r) = true /\ model_version r = MODEL_VERSION_LEXICON.
Proof.
  destruct (score_lexicon_reads s) as (pos & neg & _ & Hr). destruct (polarity_fits pos neg) as (k & Hk & Hn).
  pose proof (classified_type _ _ (classify_event_correct s)) as He. eexists _, k. unfold scored. rewrite Hr. split; [reflexivity|].
  cbn [polarity event_type model_version]. split; [done|]. split; [done|]. split; [done|]. split.
  - unfold sentiment_checks. rewrite !andb_true_iff. split; [|by apply mem_text].
    by apply thousandth_checked.
  - split; [|done]. assert (Hall : forallb (varchar 30) EVENT_TYPES = true) by (vm_compute; reflexivity).
    apply (proj1 (forallb_forall _ _) Hall). apply list_elem_of_In. exact He.
Qed.

(** ** One article, over a session *)

(** What the tables owe their keys. *)
Definition article_of (m : ArticleMention) : string * string := (am_article_id m, am_symbol m).
Definition article_of_sentiment (s : ArticleSentiment) : string * string := (as_article_id s, as_symbol s).

Record news_ok (db : news_db) : Prop := {
  ids_unique : NoDup (map na_id (nd_articles db));
  urls_unique : NoDup (map na_url (nd_articles db));
  mentions_unique : NoDup (map article_of (nd_mentions db));
  mentions_known : forall m, m ∈ nd_mentions db ->
    known_article db (am_article_id m) = true /\ known_symbol db (am_symbol m) = true /\ 0 < am_match_count m;
  sentiments_aligned : map article_of_sentiment (nd_sentiments db) = map article_of (nd_mentions db);
  sentiments_checked : forall s, s ∈ nd_sentiments db ->
    (exists k, Z.abs k <= 1000 /\ as_polarity s = mkdec k (-3))
    /\ (exists e, as_event_type s = Some e /\ e ∈ EVENT_TYPES) /\ as_model_version s = MODEL_VERSION_LEXICON;
}.

Lemma existsb_map {A B} (f : A -> B) (t : B -> bool) (l : list A) : existsb (fun x => t (f x)) l = existsb t (map f l).
Proof. induction l as [|x l IH]; [done|]. cbn [existsb map]. by rewrite IH. Qed.

(** No row of an article under the symbols. *)
Definition unmentioned (db : news_db) (id symbol : string) : Prop :=
  existsb (mention_key id symbol) (nd_mentions db) = false /\ existsb (sentiment_key id symbol) (nd_sentiments db) = false.

Lemma new_article_unmentioned db id symbol : news_ok db -> known_article db id = false -> unmentioned db id symbol.
Proof.
  intros Hok Hid. assert (Hno : (id, symbol) ∉ map article_of (nd_mentions db)).
  { intros (m & Hm & Hin)%list_elem_of_fmap. apply (mentions_known db Hok) in Hin as (Hk & _ & _).
    injection Hm as -> _. congruence. }
  split; apply not_true_iff_false; intros (x & Hx & Hk)%existsb_exists; apply Hno; apply andb_true_iff in Hk;
    destruct Hk as [<-%String.eqb_eq <-%String.eqb_eq]; rewrite <- list_elem_of_In in Hx.
  - by apply (list_elem_of_fmap_2 article_of).
  - rewrite <- (sentiments_aligned db Hok). by apply (list_elem_of_fmap_2 article_of_sentiment).
Qed.

Definition add_counts (ms : list (string * nat)) (s : IngestSummary) : IngestSummary :=
  mkSummary (fetched s) (inserted s) (duplicates s) (errors s) (mentions_total s + Z.of_nat (total ms))
    (sentiment_rows s + Z.of_nat (length ms)).

Section article.
Variables (now : Z) (id : string) (r : SentimentResult) (k : Z).
Hypothesis polarity_stored : numeric_of_float 4 3 (polarity r) = Ok (mkdec k (-3)).
Hypothesis checked : sentiment_checks (mkdec k (-3)) (event_type r) = true.
Hypothesis event_fits : varchar 30 (event_type r) = true.
Hypothesis version_fits : varchar 20 (model_version r) = true.

(** One company: its two rows, or an aborted transaction. *)
Lemma mention_statements db symbol count s :
  known_article db id = true -> unmentioned db id symbol -> count < 2 ^ 31 ->
  let st := (let* _ := on_session (S := IngestSummary) (insert_mention id symbol count) in
             on_session (insert_sentiment now id symbol (polarity r) (event_type r) (model_version r)))
            (mkIngest (begin_session db) s) in
  if (varchar 20 symbol && known_symbol db symbol)%bool then
    st = (mkIngest (begin_session (with_rows db [] [mkMention id symbol count]
                     [mkArticleSentiment id symbol (mkdec k (-3)) (Some (event_type r)) (model_version r) now])) s, Ok tt)
  else exists e, st = (mkIngest (mkSession db true) s, Exn e).
Proof using All.
  intros Hid [Hm Hs] Hc st. unfold st, bindM, on_session, begin_session. cbn [in_session in_summary].
  apply Z.ltb_lt in Hc. destruct (varchar 20 symbol) eqn:Hv, (known_symbol db symbol) eqn:Hk; cbn [andb].
  - unfold insert_mention. erewrite execute_ok by (rewrite Hv, Hc, Hm, Hid, Hk; cbn [andb negb]; reflexivity). cbn [in_session in_summary].
    unfold insert_sentiment. erewrite execute_ok; [reflexivity|]. rewrite polarity_stored, Hv, event_fits, version_fits, checked.
    cbn [andb negb nd_sentiments with_mentions]. rewrite Hs. unfold known_article in *. cbn [nd_articles with_mentions].
    rewrite Hid. cbn [negb]. unfold with_rows, with_sentiments, with_mentions. cbn. by rewrite app_nil_r.
  - eexists. unfold insert_mention. erewrite execute_refused by (rewrite Hv, Hc, Hm, Hid, Hk; cbn [andb negb]; reflexivity). reflexivity.
  - eexists. unfold insert_mention. erewrite execute_refused by (rewrite Hv; cbn [andb negb]; reflexivity). reflexivity.
  - eexists. unfold insert_mention. erewrite execute_refused by (rewrite Hv; cbn [andb negb]; reflexivity). reflexivity.
Qed.

(** All companies: the rows of each, or an aborted transaction. *)
Definition same_counts (s s' : IngestSummary) : Prop :=
  fetched s' = fetched s /\ inserted s' = inserted s /\ duplicates s' = duplicates s /\ errors s' = errors s.

Lemma bind_assoc {R A B C} (m : M R A) (f : A -> M R B) (g : B -> M R C) st :
  bindM m (fun a => bindM (f a) g) st = bindM (bindM m f) g st.
Proof. unfold bindM. by destruct (m st) as [st' [a|e]]. Qed.

Lemma unmentioned_after db m s id' symbol :
  am_symbol m <> symbol -> as_symbol s <> symbol -> unmentioned db id' symbol ->
  unmentioned (with_rows db [] [m] [s]) id' symbol.
Proof.
  intros Hm Hs [H1 H2]. unfold unmentioned, with_rows. cbn [nd_mentions nd_sentiments]. rewrite !existsb_app, H1, H2.
  cbn [existsb]. unfold mention_key, sentiment_key. apply String.eqb_neq in Hm as ->, Hs as ->. by rewrite !andb_false_r.
Qed.

Lemma write_mentions_spec ms : forall db s,
  known_article db id = true -> NoDup (map fst ms) -> (forall m, m ∈ ms -> unmentioned db id m.1) ->
  (forall m, m ∈ ms -> Z.of_nat m.2 < 2 ^ 31) ->
  let st := write_mentions now id r ms (mkIngest (begin_session db) s) in
  if forallb (symbol_ok db) ms then
    st = (mkIngest (begin_session (with_rows db [] (mention_rows id ms)
                     (map (fun m => mkArticleSentiment id m.1 (mkdec k (-3)) (Some (event_type r)) (model_version r) now) ms)))
            (add_counts ms s), Ok tt)
  else exists st' e, st = (st', Exn e) /\ aborted (in_session st') = true /\ same_counts s (in_summary st').
Proof using All.
  induction ms as [|[symbol count] ms IH]; intros db s Hid Hnd Hun Hc st; cbn [forallb].
  - unfold st, write_mentions, mret, lift, with_rows, add_counts, begin_session, mention_rows. cbn [map]. rewrite !app_nil_r.
    cbn. rewrite !Z.add_0_r. by destruct db, s.
  - cbn [map fst] in Hnd. apply list.NoDup_cons in Hnd as [Hsym Hnd].
    pose proof (mention_statements db symbol (Z.of_nat count) s Hid (Hun (symbol, count) (list_elem_of_here _ _))
                  (Hc (symbol, count) (list_elem_of_here _ _))) as Hst.
    assert (Est : st = bindM (bindM (on_session (insert_mention id symbol (Z.of_nat count)))
        (fun _ => on_session (insert_sentiment now id symbol (polarity r) (event_type r) (model_version r))))
        (fun _ => bindM (tally (mentioned (Z.of_nat count))) (fun _ => write_mentions now id r ms))
        (mkIngest (begin_session db) s)) by apply bind_assoc.
    clearbody st. unfold bindM at 1 in Est. cbn zeta in Hst, IH. unfold symbol_ok at 1. cbn [fst].
    destruct (varchar 20 symbol && known_symbol db symbol)%bool; cbn [andb].
    + rewrite Hst in Est. unfold tally in Est. rewrite bind_update in Est. cbn [in_session in_summary] in Est.
      set (db1 := with_rows db [] _ _) in Est. rewrite Est.
      assert (Hks : forallb (symbol_ok db) ms = forallb (symbol_ok db1) ms) by done. rewrite Hks.
      specialize (IH db1 (mentioned (Z.of_nat count) s)).
      assert (Hid1 : known_article db1 id = true).
      { unfold db1, known_article, with_rows. cbn [nd_articles]. rewrite existsb_app. unfold known_article in Hid. by rewrite Hid. }
      assert (Hun1 : forall m, m ∈ ms -> unmentioned db1 id m.1).
      { intros m Hm. assert (symbol <> m.1) by (intros ->; apply Hsym; by apply list_elem_of_fmap_2).
        apply unmentioned_after; [done..|]. apply Hun. by right. }
      specialize (IH Hid1 Hnd Hun1 ltac:(intros m Hm; apply Hc; by right)).
      destruct (forallb (symbol_ok db1) ms).
      * rewrite IH. f_equal. f_equal.
        -- unfold db1, with_rows, begin_session. cbn [nd_articles nd_mentions nd_sentiments nd_aliases nd_securities].
           unfold mention_rows. cbn [map fst snd]. by rewrite <- !app_assoc, !app_nil_l.
        -- unfold add_counts, mentioned. cbn [fetched inserted duplicates errors mentions_total sentiment_rows length].
           unfold total, list_sum. cbn [map fold_right snd]. f_equal; lia.
      * destruct IH as (st' & e & E & Ha & Hsc). exists st', e. split; [exact E|]. split; [done|].
        unfold same_counts, mentioned in *. by cbn [fetched inserted duplicates errors] in Hsc.
    + destruct Hst as (e & Hst). rewrite Hst in Est. eexists _, _. split; [exact Est|]. split; [done|]. by unfold same_counts.
Qed.
End article.

Definition matches (db : news_db) : Z := zsum (map am_match_count (nd_mentions db)).

(** The summary of a run from one state of the tables to another: [n] articles. *)
Definition advanced (db db' : news_db) (n : nat) (s : IngestSummary) : IngestSummary :=
  let new := Z.of_nat (length (nd_articles db')) - Z.of_nat (length (nd_articles db)) in
  mkSummary (fetched s + Z.of_nat n) (inserted s + new) (duplicates s + (Z.of_nat n - new)) (errors s)
    (mentions_total s + (matches db' - matches db))
    (sentiment_rows s + (Z.of_nat (length (nd_sentiments db')) - Z.of_nat (length (nd_sentiments db)))).

(** The session is lost, and the article counts as an error. *)
Definition failed (s : IngestSummary) (st : ingest news_db IngestSummary) : Prop :=
  aborted (in_session st) = true /\ errors (in_summary st) = errors s + 1 /\ fetched (in_summary st) = fetched s + 1
  /\ inserted s <= inserted (in_summary st) /\ duplicates (in_summary st) = duplicates s.

Lemma total_counts id ms : zsum (map am_match_count (mention_rows id ms)) = Z.of_nat (total ms).
Proof.
  unfold total, list_sum, mention_rows. induction ms as [|m ms IH]; [done|]. cbn [map fold_right zsum am_match_count].
  fold (zsum (map am_match_count (map (fun m => mkMention id m.1 (Z.of_nat m.2)) ms))). rewrite IH. lia.
Qed.

Lemma count_le_total m ms : m ∈ ms -> (m.2 <= total ms)%nat.
Proof.
  unfold total, list_sum. induction ms as [|x ms IH]; [by intros ?%not_elem_of_nil|].
  intros [->|H]%elem_of_cons; cbn [map fold_right]; [lia|]. specialize (IH H). lia.
Qed.

Lemma snippet_short a : (String.length (snippet_of a) <= 1000)%nat.
Proof. unfold snippet_of, slice_to. rewrite text_length, length_take. lia. Qed.

Lemma upsert_article_spec db new_id now a :
  upsert_article new_id now a (begin_session db)
  = if negb (row_columns a) then (mkSession db true, Exn DataError)
    else if known_url db (url a) then (begin_session db, Ok None)
    else if known_article db new_id then (mkSession db true, Exn IntegrityError)
    else (begin_session (add_article db (stored_row new_id now a)), Ok (Some new_id)).
Proof.
  unfold upsert_article, execute, begin_session. cbn [aborted view].
  destruct (row_columns a), (known_url db (url a)), (known_article db new_id); reflexivity.
Qed.

Lemma stored_polarity_eq r k : numeric_of_float 4 3 (polarity r) = Ok (mkdec k (-3)) -> stored_polarity r = mkdec k (-3).
Proof. unfold stored_polarity. by intros ->. Qed.

(** The body of the [try], with a clean session. *)
Lemma ingest_body_spec now raw db s new_id a :
  news_ok db ->
  let aliases := build_alias_index raw in
  let st := ingest_body now aliases new_id a (mkIngest (begin_session db) (fetched_one s)) in
  match article_step now aliases db (new_id, a) with
  | Ok db' => st = (mkIngest (begin_session db') (advanced db db' 1 s), Ok tt)
  | Exn _ => exists st' e, st = (st', Exn e) /\ failed s (mkIngest (in_session st') (error_one (in_summary st')))
  end.
Proof.
  intros Hok aliases st. destruct (extract_mentions_ok (snippet_of a) raw) as [[Hkeys Hcounts] Htotal].
  fold aliases in Hkeys, Hcounts, Htotal. pose proof (snippet_short a) as Hsn.
  destruct (scored_ok (snippet_of a)) as (r & k & Hr & Hk & Hn & He & Hch & Hv30 & Hv20 & _).
  assert (Est : st = match upsert_article new_id now a (begin_session db) with
    | (s', Ok None) => (mkIngest s' (duplicate_one (fetched_one s)), Ok tt)
    | (s', Ok (Some article_id)) => write_mentions now article_id r (extract_mentions (snippet_of a) aliases)
                                      (mkIngest s' (inserted_one (fetched_one s)))
    | (s', Exn e) => (mkIngest s' (fetched_one s), Exn e)
    end).
  { unfold st, ingest_body, bindM, on_session. cbn [in_session in_summary]. rewrite Hr.
    destruct (upsert_article _ _ _ _) as [s' [[article_id|]|e]]; [|done..].
    unfold tally, update. cbn beta iota. cbn [in_session in_summary]. by destruct (extract_mentions (snippet_of a) aliases). }
  clearbody st. rewrite upsert_article_spec in Est. unfold article_step. rewrite Hr. unfold failed.
  destruct (row_columns a); cbn [negb] in *; [|eexists _, _; split; [exact Est|]; cbn; lia].
  destruct (known_url db (url a)); [|destruct (known_article db new_id) eqn:Hid; [eexists _, _; split; [exact Est|]; cbn; lia|]].
  { rewrite Est. f_equal. unfold advanced, duplicate_one, fetched_one, matches. cbn -[Z.add]. f_equal. f_equal; lia. }
  set (ms := extract_mentions (snippet_of a) aliases) in *. set (db1 := add_article db (stored_row new_id now a)) in *.
  pose proof (write_mentions_spec now new_id r k Hn Hch Hv30 Hv20 ms db1 (inserted_one (fetched_one s))) as Hw.
  rewrite <- Est in Hw. assert (Hsym : forallb (symbol_ok db1) ms = forallb (symbol_ok db) ms) by done. rewrite Hsym in Hw.
  destruct (forallb (symbol_ok db) ms); cbn [negb].
  - rewrite Hw.
    + f_equal. f_equal.
      * unfold begin_session, db1, with_rows, add_article, sentiment_rows_of. rewrite (stored_polarity_eq r k Hn).
        cbn [nd_articles nd_mentions nd_sentiments nd_aliases nd_securities]. by rewrite app_nil_r.
      * unfold add_counts, inserted_one, fetched_one, advanced, matches, with_rows, sentiment_rows_of, mention_rows.
        cbn [fetched inserted duplicates errors mentions_total sentiment_rows nd_articles nd_mentions nd_sentiments].
        rewrite map_app, zsum_app, !length_app, length_map. fold (mention_rows new_id ms). rewrite total_counts. cbn [length].
        f_equal; lia.
    + by apply known_article_fresh.
    + done.
    + intros m _. exact (new_article_unmentioned db new_id m.1 Hok Hid).
    + intros m Hm. apply count_le_total in Hm. lia.
  - destruct Hw as (st' & e & E & Ha & Hf & Hi & Hd & Her).
    + by apply known_article_fresh.
    + done.
    + intros m _. exact (new_article_unmentioned db new_id m.1 Hok Hid).
    + intros m Hm. apply count_le_total in Hm. lia.
    + exists st', e. split; [exact E|]. cbn in *. split; [done|]. lia.
Qed.

(** An article with a clean session: its step, or an aborted transaction, *)
Lemma ingest_article_spec now raw db s new_id a :
  news_ok db ->
  exists st, ingest_article now (build_alias_index raw) new_id a (mkIngest (begin_session db) s) = (st, Ok tt) /\
    match article_step now (build_alias_index raw) db (new_id, a) with
    | Ok db' => st = mkIngest (begin_session db') (advanced db db' 1 s)
    | Exn _ => failed s st
    end.
Proof.
  intros Hok. pose proof (ingest_body_spec now raw db s new_id a Hok) as H. cbn zeta in H.
  unfold ingest_article, tally. rewrite bind_update. cbn [in_session in_summary]. unfold catching.
  destruct (article_step _ _ _ _).
  - rewrite H. by eexists.
  - destruct H as (st' & e' & -> & Hf). by eexists.
Qed.

(** and with an aborted one another error. *)
Lemma ingest_article_aborted now aliases st new_id a :
  aborted (in_session st) = true ->
  exists st', ingest_article now aliases new_id a st = (st', Ok tt) /\ failed (in_summary st) st'.
Proof.
  intros Ha. unfold ingest_article, tally. rewrite bind_update. unfold catching, ingest_body, bindM, on_session, upsert_article, execute.
  cbn [in_session]. rewrite Ha. eexists. split; [reflexivity|]. unfold failed. cbn. split; [exact Ha|lia].
Qed.

(** ** A run *)

Definition steps (now : Z) (aliases : list Alias) (rows : list (string * NewsArticleRow)) (db : news_db) : res news_db :=
  fold_res (article_step now aliases) db rows.

Lemma known_url_spec db u : known_url db u = true <-> u ∈ map na_url (nd_articles db).
Proof.
  unfold known_url. rewrite (existsb_map na_url (fun x => String.eqb x u)), existsb_exists, list_elem_of_In.
  split; [by intros (x & Hx & ->%String.eqb_eq)|]. intros H. exists u. by rewrite String.eqb_refl.
Qed.

Lemma known_article_spec db id : known_article db id = true <-> id ∈ map na_id (nd_articles db).
Proof.
  unfold known_article. rewrite (existsb_map na_id (fun x => String.eqb x id)), existsb_exists, list_elem_of_In.
  split; [by intros (x & Hx & ->%String.eqb_eq)|]. intros H. exists id. by rewrite String.eqb_refl.
Qed.

(** A step keeps the tables well-formed, *)
Lemma article_step_ok now raw db row db' :
  news_ok db -> article_step now (build_alias_index raw) db row = Ok db' -> news_ok db'.
Proof.
  intros Hok. destruct row as [new_id a]. unfold article_step.
  destruct (extract_mentions_ok (snippet_of a) raw) as [[Hkeys Hcounts] _].
  destruct (scored_ok (snippet_of a)) as (r & k & -> & Hk & Hn & He & _ & _ & _ & Hv).
  set (ms := extract_mentions _ _) in *.
  destruct (row_columns a); cbn [negb]; [|done]. destruct (known_url db (url a)) eqn:Hurl; [by intros [= <-]|].
  destruct (known_article db new_id) eqn:Hid; [done|]. destruct (forallb (symbol_ok db) ms) eqn:Hsym; cbn [negb]; [|done].
  intros [= <-]. apply not_true_iff_false in Hurl, Hid. rewrite known_url_spec in Hurl. rewrite known_article_spec in Hid.
  assert (Hfresh : forall x, x ∈ map article_of (nd_mentions db) -> x.1 <> new_id).
  { intros x (m & -> & Hm)%list_elem_of_fmap <-. apply (mentions_known db Hok) in Hm as (Hm & _). by apply Hid, known_article_spec. }
  assert (Hkeys' : map article_of (mention_rows new_id ms) = map (pair new_id) (map fst ms)).
  { unfold mention_rows. by rewrite !map_map. }
  split; unfold with_rows; cbn [nd_articles nd_mentions nd_sentiments].
  - rewrite map_app. apply NoDup_snoc; [apply (ids_unique db Hok)|done].
  - rewrite map_app. apply NoDup_snoc; [apply (urls_unique db Hok)|done].
  - rewrite map_app, Hkeys'. apply list.NoDup_app. split; [apply (mentions_unique db Hok)|]. split.
    + intros x Hx (sym & -> & _)%list_elem_of_fmap. by apply Hfresh in Hx.
    + apply list.NoDup_fmap_2; [|done]. by intros x y [= ->].
  - intros m [Hm|Hm]%elem_of_app.
    + apply (mentions_known db Hok) in Hm as (H1 & H2 & H3). split; [|done].
      unfold known_article in *. cbn [nd_articles]. by rewrite existsb_app, H1.
    + apply list_elem_of_fmap in Hm as (x & -> & Hx). cbn [am_article_id am_symbol am_match_count]. split.
      * unfold known_article. cbn [nd_articles]. rewrite existsb_app. cbn. by rewrite String.eqb_refl, orb_true_r.
      * split; [|apply (proj1 (list.Forall_forall _ _) Hcounts) in Hx; lia].
        apply list_elem_of_In in Hx. apply (proj1 (forallb_forall _ _) Hsym) in Hx. by apply andb_true_iff in Hx as [_ ?].
  - rewrite !map_app, (sentiments_aligned db Hok), Hkeys'. f_equal. unfold sentiment_rows_of. by rewrite !map_map.
  - intros s [Hs|Hs]%elem_of_app; [by apply (sentiments_checked db Hok)|].
    apply list_elem_of_fmap in Hs as (x & -> & Hx). cbn [as_polarity as_event_type as_model_version].
    split; [exists k; by rewrite (stored_polarity_eq r k Hn)|]. split; [by eexists|].
    exact Hv.
Qed.

(** and so does a run, however it ends. *)
Lemma steps_ok now raw rows : forall db db',
  news_ok db -> steps now (build_alias_index raw) rows db = Ok db' -> news_ok db'.
Proof.
  induction rows as [|row rows IH]; intros db db' Hok; unfold steps; cbn [fold_res]; [by intros [= <-]|].
  destruct (article_step _ _ db row) as [db1|] eqn:E; [|done]. apply IH. by eapply article_step_ok.
Qed.

Lemma advanced_trans db db1 db2 n m s : advanced db1 db2 m (advanced db db1 n s) = advanced db db2 (n + m) s.
Proof. unfold advanced. cbn [fetched inserted duplicates errors mentions_total sentiment_rows]. f_equal; lia. Qed.

Lemma advanced_refl db s : advanced db db 0 s = s.
Proof. unfold advanced. destruct s as [f i d e m r]. cbn [fetched inserted duplicates errors mentions_total sentiment_rows]. f_equal; lia. Qed.

(** A step and its count, *)
Definition counted_step (now : Z) (aliases : list Alias) (st : news_db * IngestSummary) (row : string * NewsArticleRow) : res (news_db * IngestSummary) :=
  let! db' := article_step now aliases st.1 row in Ok (db', advanced st.1 db' 1 st.2).

Lemma counted_steps now aliases rows : forall db s,
  fold_res (counted_step now aliases) (db, s) rows
  = (let! db' := steps now aliases rows db in Ok (db', advanced db db' (length rows) s)).
Proof.
  induction rows as [|row rows IH]; intros db s; unfold steps; cbn [fold_res length]; [by rewrite advanced_refl|].
  unfold counted_step at 1. cbn [fst snd]. destruct (article_step now aliases db row) as [db1|]; [|done]. rewrite IH. unfold steps.
  destruct (fold_res _ db1 rows); [|done]. by rewrite advanced_trans.
Qed.

(** and what errors do to the counts. *)
Definition failing (s s' : IngestSummary) : Prop := errors s' = errors s + 1 /\ fetched s' = fetched s + 1 /\ inserted s <= inserted s'.

Lemma failings n : forall s s', nsteps failing n s s' -> errors s' = errors s + Z.of_nat n /\ fetched s' = fetched s + Z.of_nat n.
Proof.
  induction n as [|n IH]; intros s s' H; inversion H as [|? ? s1 ? (He & Hf & _) Hr]; subst; [lia|]. apply IH in Hr. lia.
Qed.

(** The articles of a run one after the other. *)
Lemma ingest_all_spec now raw rows db s :
  news_ok db ->
  exists st, ingest_all now (build_alias_index raw) rows (mkIngest (begin_session db) s) = (st, Ok tt) /\
    match steps now (build_alias_index raw) rows db with
    | Ok db' => st = mkIngest (begin_session db') (advanced db db' (length rows) s)
    | Exn _ => aborted (in_session st) = true /\ errors s < errors (in_summary st)
               /\ fetched (in_summary st) = fetched s + Z.of_nat (length rows)
    end.
Proof.
  intros Hok. destruct (batch_refines (fun row => ingest_article now (build_alias_index raw) row.1 row.2)
    (counted_step now (build_alias_index raw)) news_ok failing) with (items := rows) (db := db) (s := s) as (st & E & H); [| |done|].
  - intros db1 s1 [new_id a] Hok1. destruct (ingest_article_spec now raw db1 s1 new_id a Hok1) as (st & E & H). exists st. split; [exact E|].
    unfold counted_step. cbn [fst snd] in *. destruct (article_step _ _ db1 _) as [db'|] eqn:Es.
    + split; [exact H|]. by eapply article_step_ok.
    + unfold failed in H. unfold failing. split; [apply H|]. lia.
  - intros st [new_id a] Ha. destruct (ingest_article_aborted now (build_alias_index raw) st new_id a Ha) as (st' & E & H).
    exists st'. split; [exact E|]. unfold failed in H. unfold failing. split; [apply H|]. lia.
  - exists st. split; [exact E|]. rewrite counted_steps in H. destruct (steps _ _ rows db) as [db'|]; [apply H|].
    destruct H as (Ha & pre & row & later & db1 & s1 & s2 & -> & Hd & (He & Hf & _) & Hn). apply failings in Hn. split; [exact Ha|].
    rewrite counted_steps in Hd. destruct (steps _ _ pre db) as [db2|]; [|done]. injection Hd as <- <-.
    rewrite length_app. cbn [length advanced errors fetched] in *. lia.
Qed.

(** Rows are only added. *)
Lemma article_step_appends now aliases db row db' :
  article_step now aliases db row = Ok db' -> exists arts ms ss, db' = with_rows db arts ms ss.
Proof.
  assert (Hnil : db = with_rows db [] [] []) by (unfold with_rows; rewrite !app_nil_r; by destruct db).
  destruct row as [new_id a]. unfold article_step. repeat case_match; intros E; inv_res; eauto.
Qed.

Lemma steps_append now aliases rows : forall db db',
  steps now aliases rows db = Ok db' -> exists arts ms ss, db' = with_rows db arts ms ss.
Proof.
  induction rows as [|row rows IH]; intros db db'; unfold steps; cbn [fold_res].
  - intros [= <-]. exists [], [], []. unfold with_rows. rewrite !app_nil_r. by destruct db.
  - destruct (article_step _ _ db row) as [db1|] eqn:E; [|done]. intros H.
    destruct (article_step_appends _ _ _ _ _ E) as (a1 & m1 & s1 & ->). destruct (IH _ _ H) as (a2 & m2 & s2 & ->).
    exists (a1 ++ a2)%list, (m1 ++ m2)%list, (s1 ++ s2)%list. unfold with_rows.
    cbn [nd_articles nd_mentions nd_sentiments nd_aliases nd_securities]. by rewrite <- !app_assoc.
Qed.

(** An article that is there. *)
Definition ingested (db : news_db) (row : string * NewsArticleRow) : Prop :=
  row_columns row.2 = true /\ known_url db (url row.2) = true.

Lemma known_url_appended db arts ms ss u : known_url db u = true -> known_url (with_rows db arts ms ss) u = true.
Proof. unfold known_url, with_rows. cbn [nd_articles]. rewrite existsb_app. by intros ->. Qed.

Lemma article_step_ingests now aliases db row db' : article_step now aliases db row = Ok db' -> ingested db' row.
Proof.
  destruct row as [new_id a]. unfold article_step, ingested. cbn [snd].
  destruct (row_columns a); cbn [negb]; [|done]. destruct (known_url db (url a)) eqn:Hu; [by intros [= <-]|].
  destruct (known_article _ _); [done|]. destruct (negb _); [done|]. destruct (scored _) as [r|]; [|done]. intros [= <-].
  split; [done|]. unfold known_url, with_rows. cbn [nd_articles]. rewrite existsb_app. cbn.
  by rewrite String.eqb_refl, orb_true_r.
Qed.

Lemma steps_ingest now aliases rows : forall db db', steps now aliases rows db = Ok db' -> Forall (ingested db') rows.
Proof.
  induction rows as [|row rows IH]; intros db db'; unfold steps; cbn [fold_res]; [constructor|].
  destruct (article_step _ _ db row) as [db1|] eqn:E; [|done]. intros H. constructor; [|by eapply IH].
  destruct (article_step_ingests _ _ _ _ _ E) as [Hc Hu]. destruct (steps_append _ _ _ _ _ H) as (a & m & ss & ->).
  split; [done|]. by apply known_url_appended.
Qed.

Lemma steps_again now aliases rows db : Forall (ingested db) rows -> steps now aliases rows db = Ok db.
Proof.
  induction 1 as [|[id a] rows [Hc Hu] _ IH]; [done|]. unfold steps, article_step. cbn [fold_res snd] in *.
  rewrite Hc, Hu. exact IH.
Qed.

(** C32: A run stores all its articles or nothing: what it commits is the fold of the
    steps, or the tables as they were.  It never raises, and its summary counts
    every article; errors are counted exactly when nothing is stored, and otherwise
    the counts are those of the rows added.  The tables stay well-formed: unique ids
    and URLs, and for each mention one sentiment, in range and of a known kind.  Rows
    are only added; the same articles once more, under whatever ids, change nothing. *)
Theorem ingest_refines now raw rows db :
  news_ok db ->
  exists st, ingest_all now (build_alias_index raw) rows (mkIngest (begin_session db) empty_summary) = (st, Ok tt) /\
    fetched (in_summary st) = Z.of_nat (length rows) /\
    match steps now (build_alias_index raw) rows db with
    | Ok db' =>
        commit db (in_session st) = db' /\ in_summary st = advanced db db' (length rows) empty_summary
        /\ news_ok db' /\ (exists arts ms ss, db' = with_rows db arts ms ss)
        /\ (forall now' aliases' rows', map snd rows' = map snd rows -> steps now' aliases' rows' db' = Ok db')
    | Exn _ => commit db (in_session st) = db /\ 0 < errors (in_summary st)
    end.
Proof.
  intros Hok. destruct (ingest_all_spec now raw rows db empty_summary Hok) as (st & E & H). exists st. split; [exact E|].
  destruct (steps _ _ rows db) as [db'|] eqn:Es.
  - subst st. repeat (split; [done|]). split; [by eapply steps_ok|]. split; [by eapply steps_append|].
    intros now' aliases' rows' Hrows. apply steps_again.
    apply steps_ingest in Es. apply list.Forall_forall. intros row Hrow.
    apply (list_elem_of_fmap_2 snd) in Hrow. change (snd <$> rows') with (map snd rows') in Hrow. rewrite Hrows in Hrow.
    apply list_elem_of_fmap in Hrow as (row0 & Hr & Hrow0). apply (proj1 (list.Forall_forall _ _) Es) in Hrow0.
    unfold ingested in *. by rewrite Hr.
  - destruct H as (Ha & He & Hf). split; [exact Hf|]. unfold commit. by rewrite Ha.
Qed.

(** ** URLs are handed over once *)

Section dedupe.
Context {R : Type} `{RL : RedisLaws R}.

(** A key that is there until [x] at least. *)
Definition held (k : string) (x t : Z) (r : R) : Prop := exists v x', live t k r = Some (v, Some x') /\ x <= x'.

Lemma held_later k x t t' r : held k x t r -> t <= t' -> t' < x -> held k x t' r.
Proof using All.
  intros (v & x' & Hl & Hx) Ht Htx. exists v, x'. rewrite (live_later t t'), Hl by done. cbn [at_time].
  by rewrite (proj2 (Z.ltb_lt t' x')) by lia.
Qed.

Lemma held_should_fetch sc k x t u r : held k x t r -> held k x t (_should_fetch sc t u r).2.
Proof using All.
  intros (v & x' & Hl & Hx). unfold _should_fetch. rewrite set_nx_result.
  destruct (live t (dedupe_key sc u) r) eqn:E; cbn [snd]; [by exists v, x'|]. exists v, x'. split; [|done].
  rewrite live_setex by done. destruct (String.eqb_spec (dedupe_key sc u) k) as [Ek|]; [rewrite Ek in E; congruence|done].
Qed.

Lemma should_fetch_claims sc t u r :
  (_should_fetch sc t u r).1 = true ->
  held (dedupe_key sc u) (t + _DEDUPE_TTL_SECONDS) t (_should_fetch sc t u r).2.
Proof using All.
  unfold _should_fetch. rewrite set_nx_result. destruct (live t (dedupe_key sc u) r); [done|]. intros _. cbn [snd].
  exists "1"%string, (t + _DEDUPE_TTL_SECONDS). rewrite live_setex by done. rewrite String.eqb_refl. split; [done|lia].
Qed.

Lemma should_fetch_held sc x t u r : held (dedupe_key sc u) x t r -> (_should_fetch sc t u r).1 = false.
Proof using All. intros (v & x' & Hl & _). unfold _should_fetch. by rewrite set_nx_result, Hl. Qed.

(** What a stub that hands over an article has done. *)
Lemma fetch_one_found sc now t stub r r' a :
  fetch_one sc now t stub r = (r', Some a) ->
  url a = st_url stub /\ age_days now stub <= _MAX_ARTICLE_AGE_DAYS /\ (80 <= String.length (body a))%nat
  /\ (_should_fetch sc t (st_url stub) r) = (true, r').
Proof using All.
  unfold fetch_one. destruct (_MAX_ARTICLE_AGE_DAYS <? age_days now stub) eqn:Ea; [done|]. zbool.
  destruct (_should_fetch sc t (st_url stub) r) as [[] r1]; cbn [negb]; [|done].
  destruct (get sc (st_url stub)) as [html|]; [|done]. destruct (parse_article_body sc html) as [txt|]; [|done].
  destruct (negb (nonempty txt) || Nat.ltb (String.length txt) 80)%bool eqn:El; [done|]. intros [= <- <-].
  apply orb_false_iff in El as [_ El%Nat.ltb_ge]. done.
Qed.

Lemma held_fetch_one sc k x now t stub r : held k x t r -> held k x t (fetch_one sc now t stub r).1.
Proof using All.
  intros Hh. unfold fetch_one. destruct (_ <? _); [done|].
  pose proof (held_should_fetch sc k x t (st_url stub) r Hh) as Hs. destruct (_should_fetch sc t (st_url stub) r) as [[] r1]; [|done].
  cbn [negb snd] in *. repeat case_match; done.
Qed.

Definition monotone (clock : nat -> Z) : Prop := forall i j, (i <= j)%nat -> clock i <= clock j.

Lemma held_fetch_from sc k x now clock stubs : forall i r,
  monotone clock -> (forall j, clock j < x) -> held k x (clock i) r ->
  held k x (clock (i + length stubs)%nat) (fetch_from sc now clock i stubs r).1.
Proof using All.
  induction stubs as [|stub stubs IH]; intros i r Hm Hx Hh; cbn [fetch_from length]; [by rewrite Nat.add_0_r|].
  pose proof (held_fetch_one sc k x now (clock i) stub r Hh) as H1. destruct (fetch_one _ _ _ _ _) as [r1 found]. cbn [fst] in H1.
  specialize (IH (S i) r1 Hm Hx (held_later k x (clock i) (clock (S i)) r1 H1 (Hm i (S i) ltac:(lia)) (Hx _))).
  destruct (fetch_from sc now clock (S i) stubs r1) as [r2 rest]. cbn [fst] in *.
  by replace (i + S (length stubs))%nat with (S i + length stubs)%nat by lia.
Qed.

(** A URL handed over is held from then on, *)
Lemma fetch_from_claims sc now clock a stubs : forall i r,
  monotone clock -> (forall j, clock j < clock 0%nat + _DEDUPE_TTL_SECONDS) -> a ∈ (fetch_from sc now clock i stubs r).2 ->
  held (dedupe_key sc (url a)) (clock 0%nat + _DEDUPE_TTL_SECONDS) (clock (i + length stubs)%nat)
    (fetch_from sc now clock i stubs r).1.
Proof using All.
  induction stubs as [|stub stubs IH]; intros i r Hm Hx; cbn [fetch_from length]; [by intros ?%not_elem_of_nil|].
  destruct (fetch_one sc now (clock i) stub r) as [r1 found] eqn:E.
  specialize (IH (S i) r1 Hm Hx). pose proof (held_fetch_from sc (dedupe_key sc (url a)) (clock 0%nat + _DEDUPE_TTL_SECONDS) now clock stubs (S i) r1 Hm Hx) as Hk.
  destruct (fetch_from sc now clock (S i) stubs r1) as [r2 rest]. cbn [fst snd] in *.
  replace (i + S (length stubs))%nat with (S i + length stubs)%nat by lia. intros Hin.
  assert (Hcase : a ∈ rest \/ found = Some a) by (destruct found; [apply elem_of_cons in Hin as [->|]; auto|auto]).
  destruct Hcase as [Hr| ->]; [by apply IH|]. apply Hk. destruct (fetch_one_found _ _ _ _ _ _ _ E) as (-> & _ & _ & Es).
  pose proof (should_fetch_claims sc (clock i) (st_url stub) r) as Hc. rewrite Es in Hc. cbn [fst snd] in Hc.
  destruct (Hc eq_refl) as (v & x' & Hl & Hx'). apply (held_later _ _ (clock i)); [|apply Hm; lia|apply Hx].
  exists v, x'. split; [done|]. pose proof (Hm 0%nat i ltac:(lia)). lia.
Qed.

(** What a feed hands over are its URLs. *)
Lemma fetch_from_urls sc now clock stubs : forall i r a,
  a ∈ (fetch_from sc now clock i stubs r).2 -> url a ∈ map st_url stubs.
Proof using All.
  induction stubs as [|stub stubs IH]; intros i r a; cbn [fetch_from]; [by intros ?%not_elem_of_nil|].
  destruct (fetch_one sc now (clock i) stub r) as [r1 found] eqn:E. specialize (IH (S i) r1 a).
  destruct (fetch_from sc now clock (S i) stubs r1) as [r2 rest]. cbn [snd map] in *. intros Hin.
  destruct found as [b|]; [|right; by apply IH]. apply elem_of_cons in Hin as [->|Hin]; [|right; by apply IH].
  destruct (fetch_one_found _ _ _ _ _ _ _ E) as (-> & _). by left.
Qed.

(** and no URL that is held is handed over. *)
Lemma fetch_from_fresh sc x now clock a stubs : forall i r,
  monotone clock -> (forall j, clock j < x) -> held (dedupe_key sc (url a)) x (clock i) r ->
  a ∉ (fetch_from sc now clock i stubs r).2.
Proof using All.
  induction stubs as [|stub stubs IH]; intros i r Hm Hx Hh; cbn [fetch_from]; [by intros ?%not_elem_of_nil|].
  pose proof (held_fetch_one sc _ x now (clock i) stub r Hh) as H1. destruct (fetch_one sc now (clock i) stub r) as [r1 found] eqn:E.
  cbn [fst] in H1.
  specialize (IH (S i) r1 Hm Hx (held_later _ x (clock i) (clock (S i)) r1 H1 (Hm i (S i) ltac:(lia)) (Hx _))).
  destruct (fetch_from sc now clock (S i) stubs r1) as [r2 rest]. cbn [snd] in *.
  destruct found as [b|]; [|done]. intros [->|Hin]%elem_of_cons; [|done].
  destruct (fetch_one_found _ _ _ _ _ _ _ E) as (Hu & _ & _ & Es). rewrite Hu in Hh.
  apply should_fetch_held in Hh. by rewrite Es in Hh.
Qed.
End dedupe.

(** ** The task *)

Section run.
Context {R : Type} `{RL : RedisLaws R}.
Variable union : list (string * string) -> list (string * string).

(** The rows of a run with the ids drawn for them. *)
Definition drawn (ids : nat -> string) (rows : list NewsArticleRow) : list (string * NewsArticleRow) :=
  combine (map ids (seq 0 (length rows))) rows.

Lemma run_spec sc now clock ids r db :
  news_ok db ->
  let '(r1, rows) := fetch_articles sc now clock r in
  exists summary, _run_one_source union sc now clock ids r db
    = (r1, match steps now (load_alias_index union db) (drawn ids rows) db with Ok db' => db' | Exn _ => db end, summary)
    /\ match steps now (load_alias_index union db) (drawn ids rows) db with
       | Ok _ => errors summary = 0 | Exn _ => 0 < errors summary end.
Proof using All.
  intros Hok. destruct (fetch_articles sc now clock r) as [r1 rows] eqn:Ef. unfold _run_one_source. rewrite Ef.
  unfold load_alias_index. fold (drawn ids rows). set (raw := (_ ++ _)%list).
  destruct (ingest_all_spec now raw (drawn ids rows) db empty_summary Hok) as (st & E & Hst). rewrite E.
  exists (in_summary st). destruct (steps _ _ _ db) as [db'|].
  - subst st. done.
  - destruct Hst as (Ha & He & _). unfold commit. by rewrite Ha.
Qed.

(** A run keeps the tables well-formed. *)
Lemma run_keeps_ok sc now clock ids r db : news_ok db -> news_ok (_run_one_source union sc now clock ids r db).1.2.
Proof using All.
  intros Hok. pose proof (run_spec sc now clock ids r db Hok) as Hrun. destruct (fetch_articles sc now clock r) as [r1 rows].
  destruct Hrun as (summary & -> & _). cbn [fst snd]. destruct (steps _ _ _ db) as [db'|] eqn:E; [by eapply steps_ok|done].
Qed.

End run.

(** ** Examples *)

Module sample.
Definition db0 : news_db := mkNewsDb [] [] [] [mkCompanyAlias "ENGRO" "Engro Corp"] [mkListed "ENGRO" "Engro Corporation Limited" true].
Definition lede : string :=
  "Engro Corp beat estimates and declared a dividend; analysts at Engro expect no decline in the coming quarter.".
Definition story (u : string) : NewsArticleRow := mkRow "dawn" u "ENGRO posts record profit" lede 0 "en".
Definition long_url : string := text (List.repeat "a"%char 1001).

(** A source with two stories, the URL of the second too long for its column. *)
Definition dawn : Scraper :=
  mkScraper "dawn" (Ok [mkStub "https://dawn/1" "ENGRO posts record profit" 0; mkStub long_url "ENGRO posts record profit" 0])
    (fun _ => Some ""%string) (fun _ => Ok lede).
Definition clock (i : nat) : Z := Z.min 60 (3 * Z.of_nat i).
Definition ids (i : nat) : string := str_int (Z.of_nat i).

Lemma db0_ok : news_ok db0.
Proof. split; cbn; first [apply NoDup_nil_2 | by intros ? ?%not_elem_of_nil | reflexivity]. Qed.

Lemma clock_monotone : monotone clock.
Proof. intros i j Hij. unfold clock. lia. Qed.

Lemma clock_short j : clock j < clock 0 + _DEDUPE_TTL_SECONDS.
Proof. unfold clock, _DEDUPE_TTL_SECONDS. lia. Qed.

(** "no decline" counts for the company. *)
Example story_counts :
  match steps 0 (load_alias_index (fun l => l) db0) [("id-1", story "https://dawn/1")]%string db0 with
  | Ok db => map (fun m => (am_symbol m, am_match_count m)) (nd_mentions db) = [("ENGRO", 3)]%string
             /\ map (fun s => (as_polarity s, as_event_type s)) (nd_sentiments db) = [(mkdec 1000 (-3), Some "general"%string)]
  | Exn _ => False
  end.
Proof. vm_compute. split; reflexivity. Qed.

Definition index : list Alias := build_alias_index [("ENGRO", "Engro")]%string.
Definition rows : list (string * NewsArticleRow) := [("id-1", story "https://dawn/1"); ("id-2", story "https://dawn/1")]%string.

Lemma rows_ingested : exists db', steps 0 index rows db0 = Ok db'
  /\ length (nd_articles db') = 1%nat /\ duplicates (advanced db0 db' 2 empty_summary) = 1.
Proof. eexists. split; [vm_compute; reflexivity|]. split; vm_compute; reflexivity. Qed.
End sample.

Lemma ingest_refines_witness :
  exists st, ingest_all 0 sample.index sample.rows (mkIngest (begin_session sample.db0) empty_summary) = (st, Ok tt)
    /\ length (nd_articles (commit sample.db0 (in_session st))) = 1%nat /\ duplicates (in_summary st) = 1.
Proof.
  pose proof (ingest_refines 0 [("ENGRO", "Engro")]%string sample.rows sample.db0 sample.db0_ok) as K.
  fold sample.index in K. destruct K as (st & E & _ & K). exists st. split; [exact E|].
  destruct sample.rows_ingested as (db' & Es & Hl & Hd). rewrite Es in K. destruct K as (-> & -> & _). split; [exact Hl|exact Hd].
Defined.

