(* ===== verification/NewsService.v ===== *)
(** * NewsService: [psx_api/news/pulse.py], [services/news_service.py], [routers/news.py]

    What the API shows of the news tables: the articles about a company, and its
    pulse, the sentiments of two weeks with an exponential decay.

    [pulse_correct] is proved over tables that the ingestion keeps ([news_ok]) and a
    C library whose [exp] takes what is not positive into the unit interval
    ([ExpLaws]). *)

From S2P Require Import Prelude Decimal PyText PyFloat FloatRange Owned Market NewsTables NewsText News NewsCorrect.

(** ** pulse.py *)

Definition _DECAY_TAU_DAYS : Z := 5.
Definition _SATURATION : float := lit 9 0.

Record PulseInput := mkPulseInput { in_polarity : float; published_on : Z }.
Record PulseScore := mkPulse { score : float; article_count : Z; weighted_count : float }.

Section exp.
Context `{LibMExp}.

(** [exp(-days_old / 5)] *)
Definition decay (today : Z) (i : PulseInput) : res float :=
  let days_old := Z.max 0 (today - published_on i) in
  fexp (fdiv_ieee (float_of_Z (- days_old)) (float_of_Z _DECAY_TAU_DAYS)).

Definition pulse_step (today : Z) (acc : float * float) (i : PulseInput) : res (float * float) :=
  let! weight := decay today i in
  Ok ((acc.1 + in_polarity i * weight)%float, (acc.2 + weight)%float).

Definition compute_pulse (items : list PulseInput) (today : Z) : res PulseScore :=
  match items with
  | [] => Ok (mkPulse fzero 0 fzero)
  | _ =>
      let! (weighted_sum, total_weight) := fold_res (pulse_step today) (fzero, fzero) items in
      let raw := (fdiv_ieee weighted_sum _SATURATION * lit 100 0)%float in
      let score := fmax (lit (-100) 0) (fmin (lit 100 0) raw) in
      Ok (mkPulse (fround 1 score) (Z.of_nat (length items)) (fround 2 total_weight))
  end.

(** ** news_service.py *)

Record ArticleView := mkView {
  v_id : string;
  v_source : string;
  v_url : string;
  v_headline : string;
  v_published_at : Z;
  v_polarity : option dec;
  v_event_type : option string;
}.

Definition view_of (n : NewsArticle) (s : option ArticleSentiment) : ArticleView :=
  mkView (na_id n) (na_source n) (na_url n) (na_headline n) (na_published_at n)
    (option_map as_polarity s) (match s with Some s => as_event_type s | None => None end).

(** [ORDER BY published_at DESC] *)
Definition later (a b : ArticleView) : bool := v_published_at b <=? v_published_at a.

(** The sentiments of an article and a company. *)
Definition sentiments_of (db : news_db) (article_id symbol : string) : list ArticleSentiment :=
  List.filter (sentiment_key article_id symbol) (nd_sentiments db).

(** The outer join. *)
Definition mention_views (db : news_db) (n : NewsArticle) (m : ArticleMention) : list ArticleView :=
  match sentiments_of db (na_id n) (am_symbol m) with
  | [] => [view_of n None]
  | l => map (fun s => view_of n (Some s)) l
  end.

Definition articles_for_symbol (db : news_db) (symbol : string) (limit : Z) : res (list ArticleView) :=
  limited limit (sort_by later
    (flat_map (fun n => flat_map (mention_views db n) (List.filter (mention_key (na_id n) (upper symbol)) (nd_mentions db)))
       (nd_articles db))).

(** The rows of the pulse: the inner join from two weeks before [today] on. *)
Definition pulse_rows (db : news_db) (symbol : string) (today : Z) : list (NewsArticle * ArticleSentiment) :=
  sort_by (fun a b => na_published_at b.1 <=? na_published_at a.1)
    (flat_map (fun n => if day_start (today - 14) <=? na_published_at n then map (pair n) (sentiments_of db (na_id n) (upper symbol)) else [])
       (nd_articles db)).

Definition input_of (r : NewsArticle * ArticleSentiment) : PulseInput :=
  mkPulseInput (float_of_dec (as_polarity r.2)) (day_of (na_published_at r.1)).

(** [a["weight"] - a["recency_days"] * 0.05] *)
Definition prominence (today : Z) (r : NewsArticle * ArticleSentiment) : float :=
  let recency_days := Z.max 0 (today - day_of (na_published_at r.1)) in
  (fabs (float_of_dec (as_polarity r.2)) - float_of_Z recency_days * lit 5 (-2))%float.

Definition _explainer (score : float) (count : Z) : string :=
  if count =? 0 then "No tagged news in the last 14 days."
  else if (lit 50 0 <=? score)%float then
    "Strong positive coverage: " +:+ str_int count +:+ " headlines, sentiment +" +:+ format_0f score +:+ " / 100."
  else if (lit 15 0 <=? score)%float then
    "Mildly positive coverage: " +:+ str_int count +:+ " headlines, sentiment +" +:+ format_0f score +:+ " / 100."
  else if (score <=? lit (-50) 0)%float then
    "Strong negative coverage: " +:+ str_int count +:+ " headlines, sentiment " +:+ format_0f score +:+ " / 100."
  else if (score <=? lit (-15) 0)%float then
    "Mildly negative coverage: " +:+ str_int count +:+ " headlines, sentiment " +:+ format_0f score +:+ " / 100."
  else "Mixed / neutral: " +:+ str_int count +:+ " headlines, net sentiment " +:+ format_0f score +:+ " / 100.".

Record NewsPulseResponse := mkPulseResponse {
  pr_symbol : string;
  pr_as_of_date : Z;
  pr_score : float;
  pr_article_count : Z;
  pr_weighted_count : float;
  pr_top_articles : list ArticleView;
  pr_explainer : string;
}.

(** [sort(key=..., reverse=True)] *)
Definition more_prominent (today : Z) (a b : NewsArticle * ArticleSentiment) : bool :=
  (prominence today b <=? prominence today a)%float.

Definition pulse (db : news_db) (symbol : string) (today : Z) : res NewsPulseResponse :=
  let rows := pulse_rows db symbol today in
  let! s := compute_pulse (map input_of rows) today in
  let top := take 3 (sort_by (more_prominent today) rows) in
  Ok (mkPulseResponse (upper symbol) today (score s) (article_count s) (weighted_count s)
        (map (fun r => view_of r.1 (Some r.2)) top) (_explainer (score s) (article_count s))).

(** ** routers/news.py *)

Definition get_pulse (db : news_db) (symbol : string) (today : Z) : res NewsPulseResponse := pulse db (upper symbol) today.
End exp.

Definition get_articles (db : news_db) (symbol : string) (limit : Z) : res (list ArticleView) :=
  if negb ((1 <=? limit) && (limit <=? 100)) then Exn (ServiceError 400) else articles_for_symbol db (upper symbol) limit.

(** ** The pulse *)

(** What the C library promises of [exp]: the unit interval, for what is not
    positive. *)
Class ExpLaws `{LibMExp} := {
  exp_unit : forall x, finite x = true -> fleb x fzero = true ->
    fleb fzero (libm_exp x) = true /\ fleb (libm_exp x) (lit 1 0) = true;
}.

Lemma unit_finite x : fleb fzero x = true -> fleb x (lit 1 0) = true -> finite x = true /\ has_sign false x.
Proof. by destruct x as [s|[]| |[] m e]. Qed.

Lemma sub_not_nan x y : finite x = true -> finite y = true -> float_nan (fsub x y) = false.
Proof.
  intros Hx Hy. assert (Hn : forall m e z, float_nan (binary_normalize 53 1024 m e z) = false).
  { intros m e z. destruct m as [|m|m]; [done|..]; cbn [binary_normalize].
    - pose proof (sign_round false m e) as Hs. by destruct (binary_round _ _ false m e).
    - pose proof (sign_round true m e) as Hs. by destruct (binary_round _ _ true m e). }
  destruct x as [sx|sx| |sx mx ex], y as [sy|sy| |sy my ey]; try done; cbn [fsub SFsub].
  - unfold fsub, SFsub. by destruct sx, sy.
  - apply Hn.
Qed.

Definition in_range (d : dec) : Prop := exists k, Z.abs k <= 1000 /\ d = mkdec k (-3).

Lemma in_range_finite d : in_range d -> finite (float_of_dec d) = true.
Proof. intros (k & Hk & ->). pose proof (thousandth_stored k Hk) as H. by destruct (float_of_dec (mkdec k (-3))). Qed.

Lemma finite_abs x : finite (fabs x) = finite x.
Proof. by destruct x. Qed.

(** The days a row of the pulse can be old. *)
Definition two_weeks (f : Z -> bool) : bool := forallb (fun i => f (Z.of_nat i)) (seq 0 15).

Lemma two_weeks_spec f d : two_weeks f = true -> 0 <= d <= 14 -> f d = true.
Proof.
  intros H Hd. pose proof (proj1 (forallb_forall _ _) H (Z.to_nat d) ltac:(apply in_seq; lia)) as Hf.
  cbn beta in Hf. by rewrite Z2Nat.id in Hf by lia.
Qed.

Lemma exponents_ok : two_weeks (fun d => let x := fdiv_ieee (float_of_Z (- d)) (float_of_Z _DECAY_TAU_DAYS) in
  (finite x && fleb x fzero)%bool) = true.
Proof. vm_compute. reflexivity. Qed.

Lemma recencies_finite : two_weeks (fun d => finite (float_of_Z d * lit 5 (-2))%float) = true.
Proof. vm_compute. reflexivity. Qed.

Definition recent (today : Z) (i : PulseInput) : Prop := today - published_on i <= 14.

Section laws.
Context `{EL : ExpLaws}.

Lemma decay_unit today i : recent today i -> exists w, decay today i = Ok w /\ finite w = true /\ has_sign false w.
Proof using All.
  unfold recent, decay. intros Hr. set (d := Z.max 0 _).
  pose proof (two_weeks_spec _ d exponents_ok ltac:(lia)) as He. cbn beta zeta in He. apply andb_true_iff in He as [H1 H2].
  destruct (exp_unit _ H1 H2) as [H3 H4]. destruct (unit_finite _ H3 H4) as [H5 H6]. unfold fexp.
  eexists. split; [|split; [exact H5|exact H6]]. by destruct (libm_exp _).
Qed.

Lemma pulse_fold today items : forall acc,
  Forall (recent today) items ->
  exists acc', fold_res (pulse_step today) acc items = Ok acc'
    /\ forall s, Forall (fun i => finite (in_polarity i) = true /\ has_sign s (in_polarity i)) items -> has_sign s acc.1 -> has_sign s acc'.1.
Proof using All.
  induction items as [|i items IH]; intros acc Hr; cbn [fold_res]; [by exists acc|].
  inversion_clear Hr as [|? ? Hi Hrest]. destruct (decay_unit today i Hi) as (w & Hw & Hfin & Hsg).
  unfold pulse_step at 1. rewrite Hw. cbn [fst snd].
  destruct (IH ((acc.1 + in_polarity i * w)%float, (acc.2 + w)%float) Hrest) as (acc' & E & Hs). exists acc'. split; [exact E|].
  intros s Hall Hacc. inversion_clear Hall as [|? ? [Hp1 Hp2] Hps]. apply (Hs s Hps). cbn [fst]. apply sign_fadd; [done|].
  rewrite <- (xorb_false_r s). by apply sign_fmul.
Qed.

(** The score of recent sentiments. *)
Lemma compute_pulse_spec today items :
  Forall (recent today) items ->
  exists p, compute_pulse items today = Ok p
    /\ article_count p = Z.of_nat (length items)
    /\ (exists k, Z.abs k <= 1000 /\ (score p = lit k (-1) \/ (k = 0 /\ exists s, score p = S754_zero s)))
    /\ forall s, Forall (fun i => finite (in_polarity i) = true /\ has_sign s (in_polarity i)) items -> has_sign s (score p).
Proof using All.
  intros Hr. unfold compute_pulse. destruct items as [|i items].
  - eexists. split; [reflexivity|]. split; [done|]. split; [|done]. exists 0. split; [lia|]. right. split; [done|]. by exists false.
  - destruct (pulse_fold today (i :: items) (fzero, fzero) Hr) as ([ws tw] & -> & Hs). cbn [fst] in Hs.
    eexists. split; [reflexivity|]. cbn [score article_count]. split; [done|].
    change (lit (-100) 0) with (S754_finite true 7036874417766400 (-46)).
    change (lit 100 0) with (S754_finite false 7036874417766400 (-46)). set (raw := fmul _ _).
    destruct (clamp_range (S754_finite true 7036874417766400 (-46)) (S754_finite false 7036874417766400 (-46)) raw
                ltac:(done) ltac:(done) ltac:(done)) as [Hlo Hhi].
    split.
    + apply (fround_range 100 7036874417766400 (-46) 1); [done..| |exact Hlo|exact Hhi].
      apply small_fmax; [done|]. apply small_fmin; [done|]. apply small_fmul.
    + intros s Hall. apply sign_fround; [done|]. apply sign_clamp. unfold raw.
      apply sign_fmul_pos. change _SATURATION with (S754_finite false 5066549580791808 (-49)). apply sign_fdiv_pos.
      by apply (Hs s Hall).
Qed.
End laws.

(** ** The rows of the tables *)

Lemma sentiment_keys_unique db : news_ok db -> NoDup (map article_of_sentiment (nd_sentiments db)).
Proof. intros Hok. rewrite (sentiments_aligned db Hok). apply (mentions_unique db Hok). Qed.

Lemma keys_aligned db id symbol :
  news_ok db -> existsb (sentiment_key id symbol) (nd_sentiments db) = existsb (mention_key id symbol) (nd_mentions db).
Proof.
  intros Hok. set (t := fun x : string * string => (String.eqb x.1 id && String.eqb x.2 symbol)%bool).
  transitivity (existsb t (map article_of_sentiment (nd_sentiments db))); [exact (existsb_map article_of_sentiment t _)|].
  rewrite (sentiments_aligned db Hok). symmetry. exact (existsb_map article_of t _).
Qed.

(** An article has one sentiment for each company it mentions, and none for another. *)
Lemma sentiments_of_spec db id symbol :
  news_ok db ->
  if existsb (mention_key id symbol) (nd_mentions db) then
    exists s, sentiments_of db id symbol = [s] /\ s ∈ nd_sentiments db /\ in_range (as_polarity s)
  else sentiments_of db id symbol = [].
Proof.
  intros Hok. rewrite <- keys_aligned by done. unfold sentiments_of.
  destruct (existsb _ _) eqn:E.
  - apply existsb_exists in E as (s & Hs & Hk). rewrite <- list_elem_of_In in Hs. exists s.
    split; [|split; [done|by apply (sentiments_checked db Hok) in Hs as (Hp & _)]].
    apply (filter_key article_of_sentiment); [by apply sentiment_keys_unique|done|]. intros y.
    apply andb_true_iff in Hk as [Ha%String.eqb_eq Hb%String.eqb_eq]. unfold sentiment_key, article_of_sentiment.
    rewrite andb_true_iff, !String.eqb_eq, Ha, Hb. split; [by intros [-> ->]|by intros [= -> ->]].
  - destruct (List.filter _ _) as [|s l] eqn:El; [done|]. exfalso. apply not_true_iff_false in E. apply E.
    assert (Hin : In s (s :: l)) by (by left). rewrite <- El in Hin. apply filter_In in Hin as [Hin Hk].
    apply existsb_exists. by exists s.
Qed.

Lemma length_flat_map_if {A B} (f : A -> list B) (t : A -> bool) l :
  (forall x, x ∈ l -> length (f x) = if t x then 1%nat else 0%nat) -> length (flat_map f l) = length (List.filter t l).
Proof.
  induction l as [|x l IH]; intros H; [done|]. cbn [flat_map List.filter]. rewrite length_app, (H x) by (by left).
  rewrite IH by (intros y Hy; apply H; by right). by destruct (t x).
Qed.

(** The articles that count for the pulse. *)
Definition tagged_recently (db : news_db) (symbol : string) (today : Z) (n : NewsArticle) : bool :=
  ((day_start (today - 14) <=? na_published_at n) && existsb (mention_key (na_id n) (upper symbol)) (nd_mentions db))%bool.

Lemma pulse_rows_length db symbol today :
  news_ok db -> length (pulse_rows db symbol today) = length (List.filter (tagged_recently db symbol today) (nd_articles db)).
Proof.
  intros Hok. unfold pulse_rows. rewrite sort_by_length. apply length_flat_map_if. intros n _. unfold tagged_recently.
  destruct (_ <=? na_published_at n); [|done]. rewrite length_map. cbn [andb].
  pose proof (sentiments_of_spec db (na_id n) (upper symbol) Hok) as H.
  destruct (existsb _ _); [by destruct H as (s & -> & _)|by rewrite H].
Qed.

Lemma pulse_rows_elem db symbol today r :
  news_ok db -> r ∈ pulse_rows db symbol today -> in_range (as_polarity r.2) /\ today - day_of (na_published_at r.1) <= 14.
Proof.
  intros Hok Hr. apply elem_of_sort_by, elem_of_flat_map in Hr as (n & _ & Hr).
  destruct (day_start (today - 14) <=? na_published_at n) eqn:E; [|by apply not_elem_of_nil in Hr]. zbool.
  apply list_elem_of_fmap in Hr as (s & -> & Hs). cbn [fst snd].
  pose proof (sentiments_of_spec db (na_id n) (upper symbol) Hok) as H. destruct (existsb _ _).
  - destruct H as (s' & Es & _ & Hp). rewrite Es in Hs. apply list_elem_of_singleton in Hs as ->. split; [done|].
    unfold day_of, day_start in *. pose proof (Z.div_le_lower_bound (na_published_at n) (86400 * 10 ^ 6) (today - 14 - 719163)). lia.
  - rewrite H in Hs. by apply not_elem_of_nil in Hs.
Qed.

Lemma prominence_not_nan db symbol today r :
  news_ok db -> r ∈ pulse_rows db symbol today -> float_nan (prominence today r) = false.
Proof.
  intros Hok Hr. destruct (pulse_rows_elem _ _ _ _ Hok Hr) as [Hp Hd]. unfold prominence. apply sub_not_nan.
  - rewrite finite_abs. by apply in_range_finite.
  - apply (two_weeks_spec _ _ recencies_finite). lia.
Qed.

Lemma sorted_take {A} (R : A -> A -> Prop) k l : StronglySorted R l -> StronglySorted R (take k l).
Proof.
  intros Hs. revert k. induction Hs as [|x l Hl IH Hx]; intros [|k]; cbn [take]; try constructor; [apply IH|].
  rewrite Forall_forall in *. intros y Hy. apply Hx. apply list_elem_of_In in Hy. apply list_elem_of_In.
  by eapply elem_of_take_in.
Qed.

(** C35: The pulse of a company: it always answers; it counts the articles of the last
    two weeks that mention the company, each once; its score has one decimal, from
    -100.0 to 100.0; it is not negative when no headline is, and not positive when
    none is; at most three articles are shown, in order, and none is more prominent
    than they are; and without articles it says so. *)
Theorem pulse_correct `{EL : ExpLaws} db symbol today :
  news_ok db ->
  let rows := pulse_rows db symbol today in
  exists p top, pulse db symbol today = Ok p
    /\ pr_article_count p = Z.of_nat (length (List.filter (tagged_recently db symbol today) (nd_articles db)))
    /\ (exists k, Z.abs k <= 1000 /\ (pr_score p = lit k (-1) \/ (k = 0 /\ exists s, pr_score p = S754_zero s)))
    /\ ((forall r, r ∈ rows -> 0 <= coef (as_polarity r.2)) -> has_sign false (pr_score p))
    /\ ((forall r, r ∈ rows -> coef (as_polarity r.2) <= 0) -> has_sign true (pr_score p))
    /\ pr_top_articles p = map (fun r => view_of r.1 (Some r.2)) top
    /\ (exists rest, top ++ rest ≡ₚ rows /\ length top = Nat.min 3 (length rows)
        /\ StronglySorted (fun a b => more_prominent today a b = true) top
        /\ forall a b, a ∈ top -> b ∈ rest -> more_prominent today a b = true)
    /\ (pr_article_count p = 0 -> pr_explainer p = "No tagged news in the last 14 days."%string).
Proof.
  intros Hok rows. assert (Hrows : forall r, r ∈ rows -> in_range (as_polarity r.2) /\ recent today (input_of r)).
  { intros r Hr. by apply (pulse_rows_elem db symbol). }
  destruct (compute_pulse_spec today (map input_of rows)) as (p & E & Hc & Hk & Hs).
  { apply list.Forall_forall. intros i (r & -> & Hr)%list_elem_of_fmap. by apply Hrows. }
  rewrite length_map in Hc. unfold rows in Hc. rewrite pulse_rows_length in Hc by done.
  assert (Hsign : forall s, (forall r, r ∈ rows -> if s : bool then coef (as_polarity r.2) <= 0 else 0 <= coef (as_polarity r.2)) ->
                    has_sign s (score p)).
  { intros s Hall. apply Hs, list.Forall_forall. intros i (r & -> & Hr)%list_elem_of_fmap. cbn [input_of in_polarity].
    destruct (Hrows r Hr) as [(k & Hk' & Ep) _]. split; [apply in_range_finite; by exists k|]. specialize (Hall r Hr).
    rewrite Ep in *. by apply float_of_dec_sign. }
  assert (Hsorted : StronglySorted (fun a b => more_prominent today a b = true) (sort_by (more_prominent today) rows)).
  { apply (sort_by_sorted_on _ (fun r => float_nan (prominence today r) = false)).
    - intros x y Hx Hy. by apply fleb_total.
    - intros x y z Hxy Hyz. unfold more_prominent in *. by eapply fleb_trans.
    - apply list.Forall_forall. intros r Hr. by apply (prominence_not_nan db symbol). }
  unfold pulse. fold rows. rewrite E. eexists _, _. split; [reflexivity|].
  cbn [pr_article_count pr_score pr_top_articles pr_explainer]. split; [exact Hc|]. split; [exact Hk|].
  split; [apply (Hsign false)|]. split; [apply (Hsign true)|]. split; [reflexivity|]. split.
  - exists (drop 3 (sort_by (more_prominent today) rows)). rewrite take_drop. split; [apply sort_by_perm|].
    split; [by rewrite length_take, sort_by_length|]. split; [by apply sorted_take|].
    intros a b Ha Hb. by eapply (sorted_take_drop (fun a b => more_prominent today a b = true)).
  - intros ->. done.
Qed.

(** ** The articles of a company *)

Lemma mention_views_once db n m :
  news_ok db -> m ∈ nd_mentions db -> mention_key (na_id n) (am_symbol m) m = true ->
  exists s, mention_views db n m = [view_of n (Some s)] /\ s ∈ nd_sentiments db.
Proof.
  intros Hok Hm Hk. unfold mention_views. pose proof (sentiments_of_spec db (na_id n) (am_symbol m) Hok) as H.
  assert (Hx : existsb (mention_key (na_id n) (am_symbol m)) (nd_mentions db) = true).
  { apply existsb_exists. exists m. by rewrite <- list_elem_of_In. }
  rewrite Hx in H. destruct H as (s & -> & Hs & _). by exists s.
Qed.

(** A page of articles: at most as many as asked for, the newest first, each with
    the sentiment of the company asked for. *)
Lemma articles_page db symbol limit l :
  news_ok db -> articles_for_symbol db symbol limit = Ok l ->
  (length l <= Z.to_nat limit)%nat /\ StronglySorted (fun a b => later a b = true) l
  /\ forall v, v ∈ l -> exists n s, n ∈ nd_articles db /\ s ∈ nd_sentiments db /\ v = view_of n (Some s).
Proof.
  intros Hok. unfold articles_for_symbol, limited. destruct (limit <? 0); [done|]. intros [= <-].
  split; [rewrite length_take; lia|]. split.
  - apply sorted_take, sort_by_sorted; unfold later; intros *; rewrite ?Z.leb_le; lia.
  - intros v Hv%elem_of_take_in%elem_of_sort_by. apply elem_of_flat_map in Hv as (n & Hn & Hv).
    apply elem_of_flat_map in Hv as (m & Hm & Hv). apply elem_of_lfilter in Hm as [Hm Hk].
    assert (Hk' : mention_key (na_id n) (am_symbol m) m = true).
    { unfold mention_key in *. apply andb_true_iff in Hk as [-> _]. by rewrite String.eqb_refl. }
    destruct (mention_views_once db n m Hok Hm Hk') as (s & E & Hs). rewrite E in Hv.
    apply list_elem_of_singleton in Hv as ->. by exists n, s.
Qed.

(** ** An example *)

Module pulse_sample.
#[local] Instance halving : LibMExp := {| libm_exp := fun x => if (x <? fzero)%float then lit 5 (-1) else lit 1 0; libm_log := fun _ => fzero |}.
#[local] Instance halving_laws : ExpLaws.
Proof. split. intros x _ _. cbn [libm_exp halving]. by destruct (x <? fzero)%float. Qed.

(** The tables after a good batch. *)
Definition db : news_db := match steps 0 sample.index sample.rows sample.db0 with Ok db => db | Exn _ => sample.db0 end.

Lemma db_ok : news_ok db.
Proof.
  unfold db. pose proof (steps_ok 0 [("ENGRO", "Engro")]%string sample.rows sample.db0) as H. fold sample.index in H.
  destruct (steps 0 sample.index sample.rows sample.db0) as [d|]; [by apply (H d sample.db0_ok)|exact sample.db0_ok].
Qed.

(** Three days later, the score halved: 1 / 9 * 100 * 0.5. *)
Example pulse_of_engro :
  match get_pulse db "engro" 719166 with
  | Ok p => format_f 1 (pr_score p) = "5.6"%string /\ pr_article_count p = 1
            /\ pr_explainer p = "Mixed / neutral: 1 headlines, net sentiment 6 / 100."%string
  | Exn _ => False
  end.
Proof. vm_compute. repeat split. Qed.
Example limits : get_articles db "engro" 0 = Exn (ServiceError 400).
Proof. reflexivity. Qed.
End pulse_sample.

Lemma pulse_correct_witness :
  exists p, pulse (H := pulse_sample.halving) pulse_sample.db "ENGRO" 719166 = Ok p /\ 0 <= pr_article_count p.
Proof.
  pose proof (pulse_correct (EL := pulse_sample.halving_laws) pulse_sample.db "ENGRO" 719166 pulse_sample.db_ok) as K.
  destruct K as (p & top & E & Hc & _). exists p. split; [exact E|]. rewrite Hc. lia.
Defined.
