(* ===== verification/Features.v ===== *)
(** * Features: [psx_api/predictions/features.py]

    The feature vector of the latest bar, from the indicators of [Indicators].
    [log] is the C library's ([LibMExp]). *)

From S2P Require Import Prelude Decimal PyText PyFloat Indicators.

Record MarketContext := mkContext {
  kse100_return_pct : option float;
  sector_return_pct : option float;
  kibor_6m_pct : option float;
  pkr_usd_change_pct : option float;
}.

Record OhlcvBar := mkOhlcvBar { ob_open : float; ob_high : float; ob_low : float; ob_close : float; ob_volume : float }.

(** A dictionary in insertion order. *)
Abbreviation features := (list (string * option float)).

(** [f.get(name)], where a missing feature and [None] are the same. *)
Definition feature (f : features) (name : string) : option float :=
  match List.find (fun e => String.eqb e.1 name) f with Some e => e.2 | None => None end.

(** [l[-k]], [1 <= k <= len(l)] *)
Definition from_end (k : nat) (l : list float) : float := nth (length l - k) l fzero.
(** [l[-k:]] *)
Definition tail_of {A} (k : nat) (l : list A) : list A := drop (length l - k) l.

Section libm.
Context `{LibM} `{LibMExp}.

Definition _safe_log_return (prev curr : float) : res (option float) :=
  if ((prev <=? fzero)%float || (curr <=? fzero)%float)%bool then Ok None else
  let! ratio := fdiv curr prev in
  let! r := flog ratio in Ok (Some r).

Definition _z_score (values : list float) (current : float) : res (option float) :=
  let n := Z.of_nat (length values) in
  if n <? 2 then Ok None else
  let mean := fdiv_ieee (fsum values) (fint n) in
  let! squares := map_res (fun v => square (v - mean)%float) values in
  let var := fdiv_ieee (fsum squares) (fint (Z.max (n - 1) 1)) in
  let std := if (fzero <? var)%float then fsqrt_ieee var else fzero in
  if (std =? fzero)%float then Ok (Some fzero) else
  let! z := fdiv (current - mean)%float std in Ok (Some z).

Definition log_return (closes : list float) (k : nat) : res (option float) :=
  if (k <? length closes)%nat then _safe_log_return (from_end (S k) closes) (from_end 1 closes) else Ok None.

(** [last / average - 1], when there is an average other than zero. *)
Definition disparity (last : float) (average : option float) : res (option float) :=
  match average with
  | Some a => if (a =? fzero)%float then Ok None else let! q := fdiv last a in Ok (Some (q - lit 1 0)%float)
  | None => Ok None
  end.

Definition williams_r (highs lows : list float) (last : float) : res (option float) :=
  if (length highs <? 14)%nat then Ok None else
  let win_high := max_of (tail_of 14 highs) in
  let win_low := min_of (tail_of 14 lows) in
  let denom := (win_high - win_low)%float in
  if (denom =? fzero)%float then Ok (Some fzero) else
  let! w := fdiv (lit (-100) 0 * (win_high - last))%float denom in Ok (Some w).

Definition bollinger_pct_b (closes : list float) (last : float) : res (option float) :=
  let! bb := bollinger_bands closes 20 (lit 2 0) in
  let! upper := last_value (bb_upper bb) in
  let! lower := last_value (bb_lower bb) in
  match upper, lower with
  | Some upper, Some lower =>
      if (upper =? lower)%float then Ok None
      else let! b := fdiv (last - lower)%float (upper - lower)%float in Ok (Some b)
  | _, _ => Ok None
  end.

Definition atr_norm (highs lows closes : list float) (last : float) : res (option float) :=
  let! series := atr highs lows closes 14 in
  let! atr14 := last_value series in
  match atr14 with
  | Some a => if (fzero <? last)%float then let! q := fdiv a last in Ok (Some q) else Ok None
  | None => Ok None
  end.

Definition obv_change (closes volumes : list float) : res (option float) :=
  let! obv_series := obv closes volumes in
  if (length closes <? 6)%nat then Ok None else
  match nth (length obv_series - 1) obv_series None, nth (length obv_series - 6) obv_series None with
  | Some today, Some prev_obv =>
      if (prev_obv =? fzero)%float then Ok (Some fzero)
      else let! q := fdiv (today - prev_obv)%float (fabs prev_obv) in Ok (Some q)
  | _, _ => Ok None
  end.

Definition compute_features (bars : list OhlcvBar) (context : option MarketContext) : res features :=
  match bars with
  | [] => Ok []
  | _ =>
      let closes := map ob_close bars in
      let highs := map ob_high bars in
      let lows := map ob_low bars in
      let volumes := map ob_volume bars in
      let n := length closes in
      let last := from_end 1 closes in
      let! lr1 := log_return closes 1 in
      let! lr5 := log_return closes 5 in
      let! lr10 := log_return closes 10 in
      let! lr20 := log_return closes 20 in
      let! momentum_10 :=
        if ((10 <? n)%nat && (fzero <? from_end 11 closes)%float)%bool
        then let! q := fdiv last (from_end 11 closes) in Ok (Some (q - lit 1 0)%float) else Ok None in
      let! line5 := sma closes 5 in
      let! sma5 := last_value line5 in
      let! line10 := sma closes 10 in
      let! sma10 := last_value line10 in
      let! disparity_5 := disparity last sma5 in
      let! disparity_10 := disparity last sma10 in
      let! rsi_line := rsi closes 14 in
      let! rsi_14 := last_value rsi_line in
      let! stoch := stochastic highs lows closes 14 3 in
      let! stochastic_k := last_value stoch.1 in
      let! stochastic_d := last_value stoch.2 in
      let! williams_r_14 := williams_r highs lows last in
      let! lines := macd closes 12 26 9 in
      let! macd_ := last_value (mc_macd lines) in
      let! macd_signal := last_value (mc_signal lines) in
      let! macd_histogram := last_value (mc_histogram lines) in
      let! bollinger := bollinger_pct_b closes last in
      let! atr_14_norm := atr_norm highs lows closes last in
      let! obv_change_5d := obv_change closes volumes in
      let! volume_z_20 := if (20 <=? n)%nat then _z_score (tail_of 20 volumes) (from_end 1 volumes) else Ok None in
      let! price_z_50 := if (50 <=? n)%nat then _z_score (tail_of 50 closes) last else Ok None in
      let of_context f := match context with Some c => f c | None => None end in
      Ok [("log_return_1d", lr1); ("log_return_5d", lr5); ("log_return_10d", lr10); ("log_return_20d", lr20);
          ("momentum_10", momentum_10); ("disparity_5", disparity_5); ("disparity_10", disparity_10);
          ("rsi_14", rsi_14); ("stochastic_k", stochastic_k); ("stochastic_d", stochastic_d);
          ("williams_r_14", williams_r_14); ("macd", macd_); ("macd_signal", macd_signal);
          ("macd_histogram", macd_histogram); ("bollinger_pct_b", bollinger); ("atr_14_norm", atr_14_norm);
          ("obv_change_5d", obv_change_5d); ("volume_z_20", volume_z_20); ("price_z_50", price_z_50);
          ("kse100_return_pct", of_context kse100_return_pct); ("sector_return_pct", of_context sector_return_pct);
          ("kibor_6m_pct", of_context kibor_6m_pct); ("pkr_usd_change_pct", of_context pkr_usd_change_pct)]%string
  end.
End libm.

Definition FEATURE_NAMES : list string :=
  ["log_return_1d"; "log_return_5d"; "log_return_10d"; "log_return_20d"; "momentum_10"; "disparity_5"; "disparity_10";
   "rsi_14"; "stochastic_k"; "stochastic_d"; "williams_r_14"; "macd"; "macd_signal"; "macd_histogram"; "bollinger_pct_b";
   "atr_14_norm"; "obv_change_5d"; "volume_z_20"; "price_z_50"; "kse100_return_pct"; "sector_return_pct"; "kibor_6m_pct";
   "pkr_usd_change_pct"]%string.

(** The vector has the documented names in the documented order. *)
Lemma features_named `{LibM} `{LibMExp} bars context f :
  compute_features bars context = Ok f -> f = [] /\ bars = [] \/ map fst f = FEATURE_NAMES.
Proof.
  destruct bars as [|b bars]; [by intros [= <-]; left|]. unfold compute_features. intros K. repeat res_step K.
  injection K as <-. by right.
Qed.

(** What the context does not know is not in the vector. *)
Lemma features_context `{LibM} `{LibMExp} b bars context f :
  compute_features (b :: bars) context = Ok f ->
  feature f "kse100_return_pct" = (context ≫= kse100_return_pct) /\ ("kse100_return_pct"%string, context ≫= kse100_return_pct) ∈ f.
Proof.
  unfold compute_features. intros K. repeat res_step K. injection K as <-.
  assert (Hc : match context with Some c => kse100_return_pct c | None => None end = context ≫= kse100_return_pct) by by destruct context.
  rewrite Hc. split; [reflexivity|]. do 19 right. by left.
Qed.
