(* ===== verification/Inference.v ===== *)
(** * Inference: the service with the trained models

    [psx_inference/inference.py] and [routers/predict.py]: what is loaded from the
    directory of models, how a bundle of sub-models is combined, and what the
    endpoint answers.  The models themselves are functions ([run]). *)

From S2P Require Import Prelude Dicts Decimal PyText PyFloat Indicators Features Ensemble.

Record InferenceBundle := mkBundle {
  ib_symbol : string;
  ib_sub_keys : list string;
  ib_feature_names : list string;
  ib_lstm_window : Z;
  ib_sub_sessions : list string;
  ib_meta_session : bool;
}.

Record PredictionResult := mkResult {
  pr_symbol : string;
  pr_prob_up : float;
  pr_confidence : string;
  pr_sub_probabilities : list (string * float);
  pr_predictions_disabled : bool;
  pr_reason : option string;
  pr_model_version : string;
}.

(** ** Loading *)

(** The keys of a manifest the loader reads. *)
Record Manifest := mkManifest {
  mf_symbol : option string;
  mf_sub_keys : option (list string);
  mf_feature_names : option (list string);
  mf_lstm_window : option Z;
}.

Inductive manifest_file := NoManifest | BadManifest | AManifest (m : Manifest).

(** An entry of the directory of models, in the order of their names. *)
Record sym_dir := mkSymDir {
  sy_is_dir : bool;
  sy_manifest : manifest_file;
  sy_files : list string;
}.

(** [manifest[key]] *)
Definition required {A} (v : option A) : res A := match v with Some x => Ok x | None => Exn KeyError end.

Definition bundle_of (d : sym_dir) (m : Manifest) : res (option InferenceBundle) :=
  let! symbol := required (mf_symbol m) in
  let! sub_keys := required (mf_sub_keys m) in
  let! feature_names := required (mf_feature_names m) in
  if forallb (fun key => existsb (String.eqb (key +:+ ".onnx")) (sy_files d)) sub_keys then
    Ok (Some (mkBundle symbol sub_keys feature_names (default 30 (mf_lstm_window m)) sub_keys
                (existsb (String.eqb "meta.onnx") (sy_files d))))
  else Ok None.

Definition load_step (bundles : list (string * InferenceBundle)) (d : sym_dir) : res (list (string * InferenceBundle)) :=
  if negb (sy_is_dir d) then Ok bundles else
  match sy_manifest d with
  | NoManifest | BadManifest => Ok bundles
  | AManifest m =>
      let! bundle := bundle_of d m in
      Ok (match bundle with Some b => dict_set (ib_symbol b) b bundles | None => bundles end)
  end.

(** [None] for a directory that does not exist. *)
Definition load (models_dir : option (list sym_dir)) : res (list (string * InferenceBundle)) :=
  match models_dir with None => Ok [] | Some entries => fold_res load_step [] entries end.

Definition get_bundle (bundles : list (string * InferenceBundle)) (symbol : string) : option InferenceBundle :=
  dict_get (upper symbol) bundles.

(** ** Combining the sub-models *)

(** What a session returns: its first output as a number, and the probabilities
    of the classes, when the model has that second output. *)
Record outputs := mkOutputs { out_first : float; out_classes : option (list float) }.

Definition class_1 (o : outputs) : float :=
  match out_classes o ≫= (fun l => nth_error l 1) with Some p => p | None => out_first o end.

(** [window[-n:]] *)
Definition last_rows {A} (n : Z) (l : list A) : list A :=
  if 0 <? n then drop (length l - Z.to_nat n) l else drop (Z.to_nat (- n)) l.

Section models.
Context `{LibM} `{LibMExp}.
Variable run : string -> string -> list (list float) -> outputs.

Definition _sigmoid_inference (x : float) : res float :=
  let! z := fexp (fopp x) in fdiv (lit 1 0) (lit 1 0 + z)%float.

Definition _confidence_from_subs (probs : list float) : res string :=
  match probs with
  | [] => Ok "low"%string
  | [_] => Ok "medium"%string
  | _ =>
      let n := fint (Z.of_nat (length probs)) in
      let mean := fdiv_ieee (fsum probs) n in
      let! squares := map_res (fun p => square (p - mean)%float) probs in
      let variance := fdiv_ieee (fsum squares) n in
      Ok (if (variance <? lit 25 (-4))%float then "high"
          else if (lit 225 (-4) <? variance)%float then "low" else "medium")%string
  end.

Definition sub_model (bundle : InferenceBundle) (features : list float) (window : option (list (list float)))
    (sub_probs : list (string * float)) (key : string) : res (list (string * float)) :=
  if String.eqb key "lstm" then
    match window with
    | Some rows =>
        if Z.of_nat (length rows) <? ib_lstm_window bundle then Ok sub_probs
        else
          let! p := _sigmoid_inference (out_first (run (ib_symbol bundle) key (last_rows (ib_lstm_window bundle) rows))) in
          Ok (dict_set key p sub_probs)
    | None => Ok sub_probs
    end
  else Ok (dict_set key (class_1 (run (ib_symbol bundle) key [features])) sub_probs).

Definition infer (bundle : InferenceBundle) (features : list float) (window : option (list (list float)))
    : res PredictionResult :=
  let! sub_probs := fold_res (sub_model bundle features window) [] (ib_sub_keys bundle) in
  match sub_probs with
  | [] => Ok (mkResult (ib_symbol bundle) (lit 5 (-1)) "low" [] true (Some "no sub-models available at runtime"%string) "real-v1")
  | (_, first) :: _ =>
      let prob_up :=
        if ib_meta_session bundle then
          class_1 (run (ib_symbol bundle) "meta" [map (fun k => dict_get_or first k sub_probs) (ib_sub_keys bundle)])
        else fdiv_ieee (fsum (map snd sub_probs)) (fint (Z.of_nat (length sub_probs))) in
      let! confidence := _confidence_from_subs (map snd sub_probs) in
      Ok (mkResult (ib_symbol bundle) (fround 4 prob_up) confidence (map (fun kv => (kv.1, fround 4 kv.2)) sub_probs) false
            None "real-v1")
  end.

(** ** The endpoint *)

(** [dict[str, float]]: every value of the body is a number. *)
Definition valid_features (f : features) : option (list (string * float)) :=
  mapM (fun e => match e.2 with Some v => Some (e.1, v) | None => None end) f.

(** The status of [POST /predict] and the body of a success; the API sends no
    window. *)
Definition post_predict (bundles : list (string * InferenceBundle)) (symbol : string) (f : features)
    : Z * option PredictionResult :=
  match valid_features f with
  | None => (422, None)
  | Some fields =>
      match get_bundle bundles symbol with
      | None => (404, None)
      | Some bundle =>
          match infer bundle (map (fun name => dict_get_or fzero name fields) (ib_feature_names bundle)) None with
          | Ok result => (200, Some result)
          | Exn _ => (500, None)
          end
      end
  end.

(** What the API receives: the body of an error is JSON without the fields of an
    answer. *)
Definition answer_of (r : PredictionResult) : answer :=
  mkAnswer (Some (pr_prob_up r)) (Some (pr_confidence r)) (Some (pr_sub_probabilities r)) (pr_predictions_disabled r)
    (Some (pr_model_version r)).

Definition respond (bundles : list (string * InferenceBundle)) (_url symbol : string) (f : features) : http_outcome :=
  let '(status_code, body) := post_predict bundles symbol f in
  Response status_code (option_map answer_of body).
End models.
