(* ===== verification/Predictions.v ===== *)
(** * Predictions: [psx_api/services/prediction_service.py]

    The prediction endpoint ([routers/predictions.py]): the newest bars and the
    macro series become a feature vector, the ensemble a prediction, which is
    stored and returned with the accuracy of the realised ones.

    [served_by_heuristic]: whatever models the inference service has, every
    answer is that of the heuristic. *)

From S2P Require Import Prelude Dicts Dates Decimal Ledger PyText PyFloat Indicators Market Features Ensemble Inference.

(** ** Tables *)

(** [macro_indicators]; the primary key is the date and the indicator. *)
Record MacroIndicator := mkMacro { mi_date : Z; mi_indicator : string; mi_value : dec }.

(** [model_predictions] *)
Record ModelPrediction := mkModelPrediction {
  mp_id : string;
  mp_symbol : string;
  mp_model_version : string;
  mp_as_of_date : Z;
  mp_horizon_days : Z;
  mp_probability_up : dec;
  mp_confidence : string;
  mp_confidence_score : dec;
  mp_realised_direction : option Z;
}.

Record prediction_db := mkPredictionDb {
  pd_securities : list Security;
  pd_prices : list DailyRow;
  pd_macro : list MacroIndicator;
  pd_predictions : list ModelPrediction;
}.

Definition with_predictions (db : prediction_db) (l : list ModelPrediction) : prediction_db :=
  mkPredictionDb (pd_securities db) (pd_prices db) (pd_macro db) l.

(** ** Inputs *)

Definition MIN_BARS_FOR_PREDICTION : nat := 80.

Definition _load_recent_bars (db : prediction_db) (symbol : string) (n : nat) : list DailyRow :=
  rev (take n (newest_first symbol (pd_prices db))).

(** [float(v)] of a column *)
Definition float_or_none (v : option dec) : res float :=
  match v with Some d => Ok (float_of_dec d) | None => Exn TypeError end.

Definition bar_obj (r : DailyRow) : res OhlcvBar :=
  let! o := float_or_none (d_open r) in
  let! h := float_or_none (d_high r) in
  let! l := float_or_none (d_low r) in
  let! c := float_or_none (d_close r) in
  Ok (mkOhlcvBar o h l c (volume_float r)).

(** The rows of an indicator up to a date, the newest first. *)
Definition macro_rows (db : prediction_db) (name : string) (as_of : Z) : list MacroIndicator :=
  sort_by (fun a b => mi_date b <=? mi_date a)
    (List.filter (fun r => (String.eqb (mi_indicator r) name && (mi_date r <=? as_of))%bool) (pd_macro db)).

Definition latest (db : prediction_db) (as_of : Z) (name : string) : option dec := option_map mi_value (head (macro_rows db name as_of)).

Definition fx_change_pct (db : prediction_db) (as_of : Z) : res (option float) :=
  match take 2 (macro_rows db "pkr_usd" as_of) with
  | [r0; r1] =>
      if coef (mi_value r1) =? 0 then Ok None else
      let! q := ddiv (dsub (mi_value r0) (mi_value r1)) (mi_value r1) in
      Ok (Some (float_of_dec (dmul q (dec_of_Z 100))))
  | _ => Ok None
  end.

Definition _market_context (db : prediction_db) (as_of : Z) : res MarketContext :=
  let kibor_6m := latest db as_of "kibor_6m" in
  let! fx := fx_change_pct db as_of in
  Ok (mkContext None None (option_map float_of_dec kibor_6m) fx).

(** ** The table *)

(** [Decimal(str(round(x, 4)))] in a NUMERIC(6, 4) column; a NaN is a numeric
    value, which no check admits. *)
Definition stored_probability (x : float) : res dec :=
  if float_nan x then Exn IntegrityError else numeric_of_float 6 4 (fround 4 x).

(** The INSERT with its casts and checks: a value too large for its column is an
    error before the checks. *)
Definition insert_prediction (db : prediction_db) (new_id symbol : string) (as_of : Z) (p : Prediction)
    : res prediction_db :=
  if ((Z.of_nat (String.length (pn_model_version p)) <=? 40) && (Z.of_nat (String.length (pn_confidence p)) <=? 10))%bool then
    let! score := numeric_of_float 6 4 (fround 4 (pn_confidence_score p)) in
    let! prob := stored_probability (pn_probability_up p) in
    if ((0 <=? coef prob) && (coef prob <=? 10 ^ 4) && existsb (String.eqb (pn_confidence p)) ["high"; "medium"; "low"]%string)%bool then
      Ok (with_predictions db (pd_predictions db ++
            [mkModelPrediction new_id symbol (pn_model_version p) as_of (pn_horizon_days p) prob (pn_confidence p) score None])%list)
    else Exn IntegrityError
  else Exn DataError.

(** An [IntegrityError] is rolled back and forgotten. *)
Definition _persist (db : prediction_db) (new_id symbol : string) (as_of : Z) (p : Prediction) : res prediction_db :=
  match insert_prediction db new_id symbol as_of p with
  | Exn IntegrityError => Ok db
  | r => r
  end.

Definition realised (today : Z) (symbol model_version : string) (r : ModelPrediction) : bool :=
  (String.eqb (mp_symbol r) symbol && String.eqb (mp_model_version r) model_version && (today - 30 <=? mp_as_of_date r)
   && match mp_realised_direction r with Some _ => true | None => false end)%bool.

(** [float(prob) >= 0.5] and [direction == 1] agree. *)
Definition right_call (r : ModelPrediction) : bool :=
  Bool.eqb (lit 5 (-1) <=? float_of_dec (mp_probability_up r))%float (bool_decide (mp_realised_direction r = Some 1)).

Definition _live_accuracy_pct (db : prediction_db) (today : Z) (symbol model_version : string) : option float :=
  let rows := List.filter (realised today symbol model_version) (pd_predictions db) in
  let n := Z.of_nat (length rows) in
  if n <? 5 then None else
  let correct := Z.of_nat (length (List.filter right_call rows)) in
  Some (fround 1 (fdiv_ieee (fint correct) (fint n) * f100)%float).

(** ** The service *)

Inductive prediction_response :=
| PredictionsDisabled (symbol : string) (bars : nat) (model_version : string)
| Predicted (symbol : string) (as_of_date : Z) (p : Prediction) (live_accuracy_pct : option float).

Definition unknown_symbol : exn := ServiceError 404.

Section service.
Context `{LibM} `{LibMExp}.
Variable post : string -> string -> features -> http_outcome.
Variable inference_service_url : string.

(** The feature vector of the newest bar, with its date. *)
Definition vector (db : prediction_db) (bars : list DailyRow) : res (Z * features) :=
  match List.last (map Some bars) None with
  | None => Exn IndexError
  | Some bar =>
      let as_of := d_date bar in
      let! bar_objs := map_res bar_obj bars in
      let! context := _market_context db as_of in
      let! f := compute_features bar_objs (Some context) in
      Ok (as_of, f)
  end.

Definition service_predict (db : prediction_db) (new_id : string) (today : Z) (symbol : string) (horizon_days : Z)
    : res (prediction_db * prediction_response) :=
  let symbol := text (strip_chars (chars (upper symbol))) in
  let! sec := scalar_one_or_none (List.filter (fun s => String.eqb (s_symbol s) symbol) (pd_securities db)) in
  match sec with
  | None => Exn unknown_symbol
  | Some _ =>
      let bars := _load_recent_bars db symbol 120 in
      if (length bars <? MIN_BARS_FOR_PREDICTION)%nat then
        Ok (db, PredictionsDisabled symbol (length bars) MODEL_VERSION)
      else
        let! v := vector db bars in
        let! result := predict post inference_service_url v.2 symbol horizon_days in
        let! db' := _persist db new_id symbol v.1 result in
        Ok (db', Predicted symbol v.1 result (_live_accuracy_pct db' today symbol (pn_model_version result)))
  end.

(** [GET /securities/{symbol}/prediction] *)
Definition get_prediction (db : prediction_db) (new_id : string) (today : Z) (symbol : string) (horizon_days : Z)
    : res (prediction_db * prediction_response) :=
  if ((horizon_days =? 1) || (horizon_days =? 5))%bool then service_predict db new_id today symbol horizon_days
  else Exn (ServiceError 400).
End service.

(** ** What the inference service makes of the vector *)

Lemma null_invalid (f : features) name : (name, None) ∈ f -> valid_features f = None.
Proof.
  intros Hin. apply list.mapM_None, Exists_exists. exists (name, None). split; [by apply list_elem_of_In|done].
Qed.

(** The vectors of the service have a null. *)
Lemma vector_incomplete `{LibM} `{LibMExp} db bars d f :
  vector db bars = Ok (d, f) -> ("kse100_return_pct"%string, None) ∈ f.
Proof.
  unfold vector. destruct (List.last _ None) as [bar|] eqn:El; [|done]. intros K. res_step K. res_step K. res_step K.
  injection K as <- <-. rename E into Eb, E0 into Ec, E1 into Ef.
  destruct bars as [|b bars]; [done|]. apply map_res_length in Eb. destruct a as [|o os]; [done|].
  apply features_context in Ef as [_ Ef]. unfold _market_context in Ec. res_step Ec. by injection Ec as <-.
Qed.

Section deployed.
Context `{LibM} `{LibMExp}.
Variable run : string -> string -> list (list float) -> outputs.
Variable bundles : list (string * InferenceBundle).

(** A vector with a null is refused, whatever is trained. *)
Lemma remote_refused (f : features) name url symbol horizon_days :
  (name, None) ∈ f -> predict (respond run bundles) url f symbol horizon_days = heuristic f horizon_days.
Proof.
  intros Hin%null_invalid. unfold predict, _try_remote_predict, respond, post_predict. rewrite Hin.
  by destruct (String.eqb symbol ""), (String.eqb (rstrip_slash url) "").
Qed.

Lemma disabled_heuristic post f symbol horizon_days : predict post "" f symbol horizon_days = heuristic f horizon_days.
Proof. unfold predict, _try_remote_predict. by destruct (String.eqb symbol ""). Qed.

(** C26: Whatever models the inference service has loaded and whatever they
    compute, the prediction endpoint answers and stores exactly what it would
    without the service: the vector it sends has a null for the KSE-100 return,
    and the service takes numbers only. *)
Theorem served_by_heuristic url post db new_id today symbol horizon_days :
  get_prediction (respond run bundles) url db new_id today symbol horizon_days
  = get_prediction post "" db new_id today symbol horizon_days.
Proof.
  unfold get_prediction, service_predict. destruct (_ || _)%bool; [|done].
  destruct (scalar_one_or_none _) as [[sec|]|]; try done. case_match; [done|].
  destruct (vector _ _) as [[d f]|] eqn:Ev; [|done]. apply vector_incomplete in Ev.
  cbn [fst snd]. by rewrite (remote_refused f _ _ _ _ Ev), disabled_heuristic.
Qed.
End deployed.

(** With every feature known, a trained model does answer. *)
Example model_answers `{LibM} `{LibMExp} :
  let bundle := mkBundle "HBL" ["xgb"] ["rsi_14"] 30 ["xgb"] false in
  match predict (respond (fun _ _ _ => mkOutputs (lit 1 0) (Some [lit 25 (-2); lit 75 (-2)])) [("HBL", bundle)]%string)
          "http://localhost:8001/" [("rsi_14", Some (lit 50 0))]%string "HBL" 1 with
  | Ok p => pn_probability_up p = lit 75 (-2) /\ pn_model_version p = "real-v1"%string
  | Exn _ => False
  end.
Proof. by vm_compute. Qed.

(** ** What is answered and stored *)

(** The checks of the table. *)
Definition prediction_row_ok (r : ModelPrediction) : Prop :=
  0 <= coef (mp_probability_up r) <= 10 ^ 4 /\ expo (mp_probability_up r) = -4 /\
  mp_confidence r ∈ ["high"; "medium"; "low"]%string /\ (String.length (mp_model_version r) <= 40)%nat.

Lemma stored_scale p k x d : numeric_of_float p k x = Ok d -> expo d = - k.
Proof. destruct x as [| | |s m e]; cbn; try done; [by intros [= <-]|]. case_match; [by intros [= <-]|done]. Qed.

Lemma persist_spec db new_id symbol as_of p db' :
  _persist db new_id symbol as_of p = Ok db' ->
  db' = db \/
  exists row, db' = with_predictions db (pd_predictions db ++ [row])%list /\ prediction_row_ok row /\
    mp_id row = new_id /\ mp_symbol row = symbol /\ mp_as_of_date row = as_of /\ mp_horizon_days row = pn_horizon_days p /\
    numeric_of_float 6 4 (fround 4 (pn_probability_up p)) = Ok (mp_probability_up row) /\
    mp_confidence row = pn_confidence p /\ mp_model_version row = pn_model_version p /\ mp_realised_direction row = None.
Proof.
  unfold _persist. destruct (insert_prediction _ _ _ _ _) as [db1|[]] eqn:E; intros K; inv_res; [right|by left].
  unfold insert_prediction in E. destruct (_ && _)%bool eqn:Hlen; [|done]. res_step E. res_step E.
  destruct (_ && _ && _)%bool eqn:Hck; [|done]. injection E as <-. zbool.
  unfold stored_probability in E1. destruct (float_nan _); [done|].
  eexists. split; [reflexivity|]. unfold prediction_row_ok.
  cbn [mp_id mp_symbol mp_model_version mp_as_of_date mp_horizon_days mp_probability_up mp_confidence mp_realised_direction].
  split; [|by split_and!]. split; [done|]. split; [by apply (stored_scale 6 4) in E1|]. split; [by apply mem_text|lia].
Qed.

(** A row whose direction is not known yet does not count. *)
Lemma live_accuracy_snoc db row today symbol version :
  mp_realised_direction row = None ->
  _live_accuracy_pct (with_predictions db (pd_predictions db ++ [row])%list) today symbol version
  = _live_accuracy_pct db today symbol version.
Proof.
  intros Hr. unfold _live_accuracy_pct. cbn [pd_predictions with_predictions]. rewrite List.filter_app. cbn [List.filter].
  replace (realised today symbol version row) with false; [by rewrite app_nil_r|].
  unfold realised. rewrite Hr. by rewrite !andb_false_r.
Qed.

(** The last of the loaded bars is the newest of the symbol. *)
Lemma newest_loaded db symbol n bar :
  List.last (map Some (_load_recent_bars db symbol n)) None = Some bar ->
  bar ∈ pd_prices db /\ d_symbol bar = symbol /\
  forall r, r ∈ pd_prices db -> d_symbol r = symbol -> d_date r <= d_date bar.
Proof.
  unfold _load_recent_bars. rewrite map_rev. destruct (newest_first symbol (pd_prices db)) as [|b bs] eqn:E; [by rewrite take_nil|].
  destruct n as [|n]; [done|]. cbn [take map rev]. rewrite List.last_last. intros [= <-].
  by apply newest_first_head in E.
Qed.

Section correct.
Context `{LibM} `{LibMExp}.
Variable run : string -> string -> list (list float) -> outputs.
Variable bundles : list (string * InferenceBundle).

(** What a successful request for a symbol leaves behind and answers. *)
Definition answered (db db' : prediction_db) (new_id : string) (today horizon_days : Z) (r : prediction_response) : Prop :=
  match r with
  | PredictionsDisabled symbol bars version =>
      db' = db /\ symbol ∈ map s_symbol (pd_securities db) /\ (bars < 80)%nat /\
      bars = length (List.filter (of_symbol symbol) (pd_prices db)) /\ version = MODEL_VERSION
  | Predicted symbol as_of p accuracy =>
      (horizon_days = 1 \/ horizon_days = 5) /\ symbol ∈ map s_symbol (pd_securities db) /\
      (80 <= length (List.filter (of_symbol symbol) (pd_prices db)))%nat /\
      (exists bar, bar ∈ pd_prices db /\ d_symbol bar = symbol /\ d_date bar = as_of) /\
      (forall r, r ∈ pd_prices db -> d_symbol r = symbol -> d_date r <= as_of) /\
      (exists f, vector db (_load_recent_bars db symbol 120) = Ok (as_of, f) /\ promised f horizon_days p) /\
      accuracy = _live_accuracy_pct db today symbol MODEL_VERSION /\
      (db' = db \/
       exists row, db' = with_predictions db (pd_predictions db ++ [row])%list /\ prediction_row_ok row /\
         mp_id row = new_id /\ mp_symbol row = symbol /\ mp_as_of_date row = as_of /\ mp_horizon_days row = horizon_days /\
         numeric_of_float 6 4 (fround 4 (pn_probability_up p)) = Ok (mp_probability_up row) /\
         mp_confidence row = label_of (pn_confidence_score p) /\ mp_model_version row = MODEL_VERSION /\
         mp_realised_direction row = None)
  end.

(** When a request fails, and how. *)
Definition refused (db : prediction_db) (symbol : string) (horizon_days : Z) (e : exn) : Prop :=
  (horizon_days <> 1 /\ horizon_days <> 5 /\ e = ServiceError 400) \/
  ((symbol ∉ map s_symbol (pd_securities db)) /\ e = unknown_symbol) \/
  (~ NoDup (map s_symbol (pd_securities db)) /\ e = MultipleResultsFound) \/
  (symbol ∈ map s_symbol (pd_securities db) /\ (80 <= length (List.filter (of_symbol symbol) (pd_prices db)))%nat /\
   (vector db (_load_recent_bars db symbol 120) = Exn e \/ e = OverflowError \/ e = ZeroDivisionError \/ e = DataError)).

Lemma persist_error db new_id symbol as_of p e : _persist db new_id symbol as_of p = Exn e -> e = DataError.
Proof.
  assert (Hn : forall p k x, match numeric_of_float p k x with Ok _ => True | Exn e => e = DataError end).
  { intros p' k [| | |sg m e']; cbn; try done. by destruct (_ <? _). }
  unfold _persist. destruct (insert_prediction _ _ _ _ _) as [db1|e'] eqn:E; [done|]. intros K.
  assert (He : e' = IntegrityError \/ e' = DataError); [|destruct He as [->| ->]; [done|by injection K]].
  unfold insert_prediction, stored_probability in E. destruct (_ && _)%bool; [|injection E as <-; by right].
  pose proof (Hn 6 4 (fround 4 (pn_confidence_score p))) as H1. destruct (numeric_of_float _ _ _); [|injection E as <-; by right].
  destruct (float_nan _); [injection E as <-; by left|].
  pose proof (Hn 6 4 (fround 4 (pn_probability_up p))) as H2. destruct (numeric_of_float _ _ _); [|injection E as <-; by right].
  destruct (_ && _)%bool; [done|]. injection E as <-. by left.
Qed.

Lemma vector_date db symbol n d f :
  vector db (_load_recent_bars db symbol n) = Ok (d, f) ->
  exists bar, bar ∈ pd_prices db /\ d_symbol bar = symbol /\ d_date bar = d /\
    forall r, r ∈ pd_prices db -> d_symbol r = symbol -> d_date r <= d.
Proof.
  unfold vector. destruct (List.last _ None) as [bar|] eqn:El; [|done]. intros K. res_step K. res_step K. res_step K.
  injection K as <- _. apply newest_loaded in El as (H1 & H2 & H3). by exists bar.
Qed.

Lemma loaded_length db symbol n :
  length (_load_recent_bars db symbol n) = Nat.min n (length (List.filter (of_symbol symbol) (pd_prices db))).
Proof. unfold _load_recent_bars, newest_first. by rewrite length_rev, length_take, sort_by_length. Qed.

End correct.

(** ** One day of a share *)

Module flat_share.
(** Powers and exponentials of the flat series. *)
#[local] Instance flat_pow : LibM := {| libm_pow := fun x _ => x |}.
#[local] Instance flat_exp : LibMExp := {| libm_exp := fun _ => lit 1 0; libm_log := fun _ => fzero |}.

Definition price (k : Z) : option dec := Some (mkdec (1000000 + k) (-4)).
Definition flat_bar (k : nat) : DailyRow :=
  mkDaily "HBL" (738000 + Z.of_nat k) (price 0) (price 5) (price 0) (price (Z.of_nat k)) (Some 1000) None.
Definition flat_db (n : nat) : prediction_db :=
  mkPredictionDb [mkSecurity "HBL" "Habib Bank" "Banks" true] (map flat_bar (seq 0 n))
    [mkMacro 738000 "kibor_6m" (mkdec 21 0); mkMacro 738000 "pkr_usd" (mkdec 278 0); mkMacro 738001 "pkr_usd" (mkdec 279 0)] [].
Definition ask (db : prediction_db) (id : string) := get_prediction (fun _ _ _ => Unreachable) "" db id 738090 " hbl" 1.

(** Asking twice for the same day stores the prediction twice; both rows enter
    the accuracy once they are realised. *)
Example stored_again :
  match ask (flat_db 80) "p1" with
  | Ok (db1, Predicted _ d1 _ None) =>
      match ask db1 "p2" with
      | Ok (db2, Predicted _ d2 _ None) =>
          d1 = 738079 /\ d2 = d1 /\ map mp_id (pd_predictions db2) = ["p1"; "p2"]%string /\
          map mp_as_of_date (pd_predictions db2) = [d1; d1] /\
          map mp_probability_up (pd_predictions db2) = [mkdec 5000 (-4); mkdec 5000 (-4)]
      | _ => False
      end
  | _ => False
  end.
Proof. vm_compute. by split_and!. Qed.

(** A single missing price among the newest bars is an unhandled error. *)
Example missing_price :
  let db := flat_db 80 in
  ask (mkPredictionDb (pd_securities db) (mkDaily "HBL" 738100 None None None (price 0) None None :: pd_prices db) [] []) "p1"
  = Exn TypeError.
Proof. by vm_compute. Qed.
End flat_share.
