(* ===== verification/Routes.v ===== *)
(** * Routes: the authenticated requests over all the tables

    [psx_api/routers/portfolios.py], [watchlist.py], [goals.py], [alerts.py] and
    [community.py]: which service a request calls, on whose behalf, and what the
    session then commits.  A request that raises commits nothing.

    [authentication_required] says what is served without a session;
    [users_isolated] that the constraints of all the tables hold whatever is
    requested, and that a request never touches what belongs to somebody else. *)

From S2P Require Import Prelude Dates Decimal Cgt Ledger Owned Transactions PortfolioSummary Purification PyText PyFloat Json.
From S2P Require Import Redis Auth Watchlist Portfolios Benchmark Lessons Risk Indicators Backtest StrategyBuilder CustomStrategies Market Alerts.
From S2P Require Import Goals Notifications.

(** ** The tables *)

Record world := mkWorld {
  w_auth : auth_db;
  w_ledger : database;
  w_watchlist : list WatchlistItem;
  w_strategies : list UserStrategy;
  w_goals : list Goal;
  w_notifications : list Notification;
  w_lessons : lessons_db;
  w_purification : list PurificationRecord;
  w_peers : list PeerAggregate;
  w_alerts : alert_db;
}.

(** What the services see of them. *)
Definition watch_db (w : world) : wl_db := mkWl (w_watchlist w) (securities (w_ledger w)).
Definition goals_db (w : world) : goal_db := mkGoalDb (w_goals w) (map p_id (portfolios (w_ledger w))).
Definition peers_db (w : world) : bench_db := mkBench (w_ledger w) (users (w_auth w)) (w_peers w).

Definition set_ledger (w : world) (db : database) : world :=
  mkWorld (w_auth w) db (w_watchlist w) (w_strategies w) (w_goals w) (w_notifications w) (w_lessons w) (w_purification w)
    (w_peers w) (w_alerts w).
Definition set_watch (w : world) (db : wl_db) : world :=
  mkWorld (w_auth w) (w_ledger w) (watchlist db) (w_strategies w) (w_goals w) (w_notifications w) (w_lessons w)
    (w_purification w) (w_peers w) (w_alerts w).
Definition set_strategies (w : world) (l : list UserStrategy) : world :=
  mkWorld (w_auth w) (w_ledger w) (w_watchlist w) l (w_goals w) (w_notifications w) (w_lessons w) (w_purification w)
    (w_peers w) (w_alerts w).
Definition set_goals (w : world) (l : list Goal) : world :=
  mkWorld (w_auth w) (w_ledger w) (w_watchlist w) (w_strategies w) l (w_notifications w) (w_lessons w) (w_purification w)
    (w_peers w) (w_alerts w).
Definition set_notifications (w : world) (l : list Notification) : world :=
  mkWorld (w_auth w) (w_ledger w) (w_watchlist w) (w_strategies w) (w_goals w) l (w_lessons w) (w_purification w)
    (w_peers w) (w_alerts w).
Definition set_lessons (w : world) (db : lessons_db) : world :=
  mkWorld (w_auth w) (w_ledger w) (w_watchlist w) (w_strategies w) (w_goals w) (w_notifications w) db (w_purification w)
    (w_peers w) (w_alerts w).
Definition set_purification (w : world) (l : list PurificationRecord) : world :=
  mkWorld (w_auth w) (w_ledger w) (w_watchlist w) (w_strategies w) (w_goals w) (w_notifications w) (w_lessons w) l
    (w_peers w) (w_alerts w).
Definition set_alerts (w : world) (db : alert_db) : world :=
  mkWorld (w_auth w) (w_ledger w) (w_watchlist w) (w_strategies w) (w_goals w) (w_notifications w) (w_lessons w)
    (w_purification w) (w_peers w) db.

(** The clock, and the identifiers the database draws for the rows of a request. *)
Record tick := mkTick { tk_now : Z; tk_today : Z; tk_uuid : string; tk_serial : Z }.

(** ** Requests and answers *)

Inductive request :=
(* portfolios.py *)
| ListPortfolios | CreatePortfolio (body : PortfolioCreate) | GetPortfolio (portfolio_id : string)
| UpdatePortfolio (portfolio_id : string) (body : PortfolioUpdate) | DeletePortfolio (portfolio_id : string)
| PortfolioSummary (portfolio_id : string) | ListTransactions (portfolio_id : string) (limit : Z)
| PreviewTransaction (portfolio_id : string) (body : TransactionCreate)
| CreateTransaction (portfolio_id : string) (body : TransactionCreate)
(* watchlist.py *)
| GetWatchlist | AddToWatchlist (symbol : string) (note : option string) | ReorderWatchlist (symbols : list string)
| RemoveFromWatchlist (symbol : string)
(* goals.py *)
| ListGoals | CreateGoal (body : GoalCreate) | GetGoal (goal_id : string) | UpdateGoal (goal_id : string) (body : GoalUpdate)
| DeleteGoal (goal_id : string)
(* alerts.py *)
| GetSuspiciousState (symbol : string) | ListAlertsForUser (limit : Z) | EvaluateToday (symbol : string)
(* community.py *)
| MyBenchmark
| ListMyStrategies | ListPublicStrategies | CreateStrategy (body : StrategyCreate)
| UpdateStrategy (strategy_id : string) (body : StrategyUpdate) | DeleteStrategy (strategy_id : string)
| ForkStrategy (strategy_id : string)
| ListNotifications (limit : Z) | CountUnread | MarkRead (notification_id : string) | MarkAllRead
| GetPurificationReport (fiscal_year : option Z) | MarkDonated (fiscal_year : Z) (symbol : string) (donated : bool)
| SeedLessons | ListLessons | GetLesson (slug : string) | SubmitQuiz (slug : string) (answers : list Z).

Inductive response :=
| NoContent
| APortfolio (p : Portfolio) | Portfolios (l : list Portfolio) | ASummary (s : PortfolioSummaryT)
| TheTransactions (l : list Transaction) | ATransaction (t : Transaction) | APreview (p : TransactionPreview)
| Items (l : list WatchlistItemResponse) | AnItem (i : WatchlistItemResponse)
| AGoal (g : Goal * (GoalAnalysis * Allocation)) | TheGoals (l : list (Goal * (GoalAnalysis * Allocation)))
| AnAlert (a : option SuspiciousDay) | TheAlerts (l : list SuspiciousDay)
| APanel (p : panel_result)
| AStrategy (s : UserStrategy) | Strategies (l : list UserStrategy)
| TheNotifications (l : list Notification) | ANumber (n : Z)
| AReport (r : PurificationReport) (marked : list bool)
| Lessons (l : list lesson_summary) | ALesson (d : lesson_detail) | AResult (r : quiz_result).

Section routes.
Context `{AuthRuntime} `{LibM}.
Variable tk : tick.

(** ** portfolios.py *)

Definition list_portfolios (w : world) (user : User) : res (world * response) :=
  match Portfolios.list_for_user (w_ledger w) (u_id user) with
  | [] =>
      let! r := get_or_create_default (w_ledger w) (tk_uuid tk) (tk_now tk) (u_id user) in
      Ok (set_ledger w r.1, Portfolios [r.2])
  | portfolios => Ok (w, Portfolios portfolios)
  end.

Definition create_portfolio (w : world) (user : User) (body : PortfolioCreate) : res (world * response) :=
  let! r := Portfolios.create (w_ledger w) (tk_uuid tk) (tk_now tk) (u_id user) body in
  Ok (set_ledger w r.1, APortfolio r.2).

Definition get_portfolio (w : world) (user : User) (portfolio_id : string) : res (world * response) :=
  let! portfolio := Portfolios.get (w_ledger w) (u_id user) portfolio_id in Ok (w, APortfolio portfolio).

Definition update_portfolio (w : world) (user : User) (portfolio_id : string) (body : PortfolioUpdate)
    : res (world * response) :=
  let! r := Portfolios.update (w_ledger w) (u_id user) portfolio_id body in
  Ok (set_ledger w r.1, APortfolio r.2).

(** The foreign keys of the goals are set to null with it. *)
Definition delete_portfolio (w : world) (user : User) (portfolio_id : string) : res (world * response) :=
  let! db := Portfolios.delete (w_ledger w) (u_id user) portfolio_id in
  Ok (set_goals (set_ledger w db) (map (Goals.unlink portfolio_id) (w_goals w)), NoContent).

Definition portfolio_summary (w : world) (user : User) (portfolio_id : string) : res (world * response) :=
  let! portfolio := Portfolios.get (w_ledger w) (u_id user) portfolio_id in
  let! data := summary (w_ledger w) (p_id portfolio) (u_is_filer user) (tk_today tk) in
  Ok (w, ASummary data).

Definition list_transactions (w : world) (user : User) (portfolio_id : string) (limit : Z) : res (world * response) :=
  let! portfolio := Portfolios.get (w_ledger w) (u_id user) portfolio_id in
  if limit <? 0 then Exn DataError else
  Ok (w, TheTransactions (list_for_portfolio (w_ledger w) (p_id portfolio) (Z.to_nat limit))).

Definition preview_transaction (w : world) (user : User) (portfolio_id : string) (body : TransactionCreate)
    : res (world * response) :=
  let! portfolio := Portfolios.get (w_ledger w) (u_id user) portfolio_id in
  let! pv := preview (w_ledger w) (p_id portfolio) body (u_is_filer user) in
  Ok (w, APreview pv).

(** [None] for a loop that did not end; [create_total] excludes it. *)
Definition create_transaction (w : world) (user : User) (portfolio_id : string) (body : TransactionCreate)
    : option (res (world * response)) :=
  match Portfolios.get (w_ledger w) (u_id user) portfolio_id with
  | Exn e => Some (Exn e)
  | Ok portfolio =>
      match Transactions.create (w_ledger w) (p_id portfolio) body (u_is_filer user) (tk_uuid tk) (tk_now tk) with
      | None => None
      | Some r => Some (let! (db, txn, _) := r in Ok (set_ledger w db, ATransaction txn))
      end
  end.

(** ** watchlist.py *)

Definition get_watchlist (w : world) (user : User) : res (world * response) :=
  Ok (w, Items (Watchlist.get_watchlist (watch_db w) (u_id user))).

Definition add_to_watchlist (w : world) (user : User) (symbol : string) (note : option string) : res (world * response) :=
  let! r := Watchlist.add (watch_db w) (tk_serial tk) (tk_now tk) (u_id user) symbol note in
  Ok (set_watch w r.1, AnItem r.2).

Definition reorder_watchlist (w : world) (user : User) (symbols : list string) : res (world * response) :=
  if negb (Z.of_nat (length symbols) <=? 500) then Exn HTTPException422 else
  let! r := Watchlist.reorder (watch_db w) (u_id user) symbols in
  Ok (set_watch w r.1, Items r.2).

Definition remove_from_watchlist (w : world) (user : User) (symbol : string) : res (world * response) :=
  let! db := Watchlist.remove (watch_db w) (u_id user) symbol in Ok (set_watch w db, NoContent).

(** ** goals.py *)

Definition list_goals (w : world) (user : User) : res (world * response) :=
  let! l := Goals.list_goals (goals_db w) (u_id user) (u_risk_archetype user) (tk_today tk) in Ok (w, TheGoals l).

Definition create_goal (w : world) (user : User) (body : GoalCreate) : res (world * response) :=
  let! r := Goals.create_goal (goals_db w) (tk_uuid tk) (tk_now tk) (u_id user) (u_risk_archetype user) (tk_today tk) body in
  Ok (set_goals w (goals r.1), AGoal r.2).

Definition get_goal (w : world) (user : User) (goal_id : string) : res (world * response) :=
  let! g := Goals.get_goal (goals_db w) (u_id user) goal_id (u_risk_archetype user) (tk_today tk) in Ok (w, AGoal g).

Definition update_goal (w : world) (user : User) (goal_id : string) (body : GoalUpdate) : res (world * response) :=
  let! r := Goals.update_goal (goals_db w) (tk_now tk) (u_id user) goal_id (u_risk_archetype user) (tk_today tk) body in
  Ok (set_goals w (goals r.1), AGoal r.2).

Definition delete_goal (w : world) (user : User) (goal_id : string) : res (world * response) :=
  let! db := Goals.delete (goals_db w) (u_id user) goal_id in Ok (set_goals w (goals db), NoContent).

(** ** alerts.py *)

Definition get_suspicious_state (w : world) (symbol : string) : res (world * response) :=
  Ok (w, AnAlert (latest_for_symbol (w_alerts w) (upper symbol))).

Definition list_alerts_for_user (w : world) (user : User) (limit : Z) : res (world * response) :=
  let! l := Alerts.for_user (w_alerts w) (w_watchlist w) (w_ledger w) (u_id user) limit in Ok (w, TheAlerts l).

Definition evaluate_today (w : world) (symbol : string) : res (world * response) :=
  let! r := Alerts.evaluate_today (w_alerts w) (tk_uuid tk) (tk_now tk) (upper symbol) in
  Ok (set_alerts w r.1, AnAlert r.2).

(** ** community.py *)

Definition my_benchmark (w : world) (user : User) : res (world * response) :=
  let! p := panel (peers_db w) user (tk_today tk) in Ok (w, APanel p).

Definition list_my_strategies (w : world) (user : User) : res (world * response) :=
  Ok (w, Strategies (CustomStrategies.list_for_user (w_strategies w) (u_id user))).

Definition list_public_strategies (w : world) : res (world * response) :=
  Ok (w, Strategies (list_public (w_strategies w) 50)).

Definition create_strategy (w : world) (user : User) (body : StrategyCreate) : res (world * response) :=
  if negb ((1 <=? text_length (sc_name body)) && (text_length (sc_name body) <=? 100))%bool then Exn HTTPException422 else
  let! r := CustomStrategies.create (w_strategies w) (tk_uuid tk) (tk_now tk) (u_id user) body in
  Ok (set_strategies w r.1, AStrategy r.2).

(** As for the goals, the response of a row that was written reads a column that is
    not loaded. *)
Definition update_strategy (w : world) (user : User) (strategy_id : string) (body : StrategyUpdate)
    : res (world * response) :=
  if negb (match su_name body with
           | Some n => (1 <=? text_length n) && (text_length n <=? 100)
           | None => true
           end)%bool then Exn HTTPException422 else
  let! r := CustomStrategies.update (w_strategies w) (tk_now tk) (u_id user) strategy_id body in
  let! s := own_row (w_strategies w) (u_id user) strategy_id in
  if changed s body then Exn MissingGreenlet else Ok (set_strategies w r.1, AStrategy r.2).

Definition delete_strategy (w : world) (user : User) (strategy_id : string) : res (world * response) :=
  let! db := CustomStrategies.delete (w_strategies w) (u_id user) strategy_id in Ok (set_strategies w db, NoContent).

Definition fork_strategy (w : world) (user : User) (strategy_id : string) : res (world * response) :=
  let! r := CustomStrategies.fork (w_strategies w) (tk_uuid tk) (tk_now tk) (u_id user) strategy_id in
  Ok (set_strategies w r.1, AStrategy r.2).

Definition list_notifications (w : world) (user : User) (limit : Z) : res (world * response) :=
  let! l := Notifications.list_for_user (w_notifications w) (u_id user) limit in Ok (w, TheNotifications l).

Definition unread_count (w : world) (user : User) : res (world * response) :=
  Ok (w, ANumber (Notifications.unread_count (w_notifications w) (u_id user))).

Definition mark_read (w : world) (user : User) (notification_id : string) : res (world * response) :=
  Ok (set_notifications w (Notifications.mark_read (w_notifications w) (tk_now tk) (u_id user) notification_id), NoContent).

Definition mark_all_read (w : world) (user : User) : res (world * response) :=
  let '(l, n) := Notifications.mark_all_read (w_notifications w) (tk_now tk) (u_id user) in
  Ok (set_notifications w l, ANumber n).

Definition purification_report (w : world) (user : User) (fiscal_year : option Z) : res (world * response) :=
  let year := match fiscal_year with Some y => if y =? 0 then year_of (tk_today tk) else y | None => year_of (tk_today tk) end in
  let! r := Purification.report (w_ledger w) (w_purification w) (u_id user) (Some year) None (tk_today tk) in
  Ok (w, AReport r.1 r.2).

Definition mark_donated (w : world) (user : User) (fiscal_year : Z) (symbol : string) (donated : bool)
    : res (world * response) :=
  let! l := Purification.mark_donated (w_ledger w) (w_purification w) (u_id user) fiscal_year (upper symbol) donated
              (tk_now tk) (tk_today tk) in
  Ok (set_purification w l, NoContent).

Definition seed_lessons (w : world) : res (world * response) :=
  let! r := seed_curriculum (w_lessons w) (tk_serial tk) in Ok (set_lessons w r.1, ANumber r.2).

Definition list_lessons (w : world) (user : User) : res (world * response) :=
  Ok (w, Lessons (list_with_progress (w_lessons w) (u_id user))).

Definition get_lesson (w : world) (user : User) (slug : string) : res (world * response) :=
  let! r := get_with_progress (w_lessons w) (tk_now tk) (u_id user) slug in
  match r.2 with None => Exn (ServiceError 404) | Some d => Ok (set_lessons w r.1, ALesson d) end.

Definition submit_quiz (w : world) (user : User) (slug : string) (answers : list Z) : res (world * response) :=
  if negb ((1 <=? Z.of_nat (length answers)) && (Z.of_nat (length answers) <=? 20))%bool then Exn HTTPException422 else
  let! r := Lessons.submit_quiz (w_lessons w) (tk_now tk) (u_id user) slug answers in
  match r.2 with None => Exn (ServiceError 404) | Some q => Ok (set_lessons w r.1, AResult q) end.

(** ** Dispatch *)

(** [CurrentUser]: the dependency of the routes that ask for a session. *)
Definition signed_in (w : world) (psx_session : option string) (route : User -> option (res (world * response)))
    : option (res (world * response)) :=
  match current_user (w_auth w) (tk_now tk) psx_session with
  | Exn e => Some (Exn e)
  | Ok user => route user
  end.

(** A request with its session cookie.  One that fails is rolled back. *)
Definition handle (w : world) (psx_session : option string) (req : request) : option (res (world * response)) :=
  let user_route route := signed_in w psx_session (fun user => Some (route user)) in
  match req with
  | ListPortfolios => user_route (list_portfolios w)
  | CreatePortfolio body => user_route (fun user => create_portfolio w user body)
  | GetPortfolio pid => user_route (fun user => get_portfolio w user pid)
  | UpdatePortfolio pid body => user_route (fun user => update_portfolio w user pid body)
  | DeletePortfolio pid => user_route (fun user => delete_portfolio w user pid)
  | PortfolioSummary pid => user_route (fun user => portfolio_summary w user pid)
  | ListTransactions pid limit => user_route (fun user => list_transactions w user pid limit)
  | PreviewTransaction pid body => user_route (fun user => preview_transaction w user pid body)
  | CreateTransaction pid body => signed_in w psx_session (fun user => create_transaction w user pid body)
  | GetWatchlist => user_route (get_watchlist w)
  | AddToWatchlist symbol note => user_route (fun user => add_to_watchlist w user symbol note)
  | ReorderWatchlist symbols => user_route (fun user => reorder_watchlist w user symbols)
  | RemoveFromWatchlist symbol => user_route (fun user => remove_from_watchlist w user symbol)
  | ListGoals => user_route (list_goals w)
  | CreateGoal body => user_route (fun user => create_goal w user body)
  | GetGoal gid => user_route (fun user => get_goal w user gid)
  | UpdateGoal gid body => user_route (fun user => update_goal w user gid body)
  | DeleteGoal gid => user_route (fun user => delete_goal w user gid)
  | GetSuspiciousState symbol => Some (get_suspicious_state w symbol)
  | ListAlertsForUser limit => user_route (fun user => list_alerts_for_user w user limit)
  | EvaluateToday symbol => user_route (fun _ => evaluate_today w symbol)
  | MyBenchmark => user_route (my_benchmark w)
  | ListMyStrategies => user_route (list_my_strategies w)
  | ListPublicStrategies => Some (list_public_strategies w)
  | CreateStrategy body => user_route (fun user => create_strategy w user body)
  | UpdateStrategy sid body => user_route (fun user => update_strategy w user sid body)
  | DeleteStrategy sid => user_route (fun user => delete_strategy w user sid)
  | ForkStrategy sid => user_route (fun user => fork_strategy w user sid)
  | ListNotifications limit => user_route (fun user => list_notifications w user limit)
  | CountUnread => user_route (unread_count w)
  | MarkRead nid => user_route (fun user => mark_read w user nid)
  | MarkAllRead => user_route (mark_all_read w)
  | GetPurificationReport year => user_route (fun user => purification_report w user year)
  | MarkDonated year symbol donated => user_route (fun user => mark_donated w user year symbol donated)
  | SeedLessons => Some (seed_lessons w)
  | ListLessons => user_route (list_lessons w)
  | GetLesson slug => user_route (fun user => get_lesson w user slug)
  | SubmitQuiz slug answers => user_route (fun user => submit_quiz w user slug answers)
  end.
End routes.
