(* ===== verification/RoutesCorrect.v ===== *)
(** * RoutesCorrect: what the requests guarantee

    Over [Routes]: [authentication_required] and [users_isolated], from the
    invariants and the frames of the components. *)

From S2P Require Import Prelude Dates Decimal Cgt Ledger Owned Transactions PortfolioSummary Purification PyText PyFloat Json.
From S2P Require Import Redis Auth Watchlist Portfolios Benchmark Lessons Risk Indicators Backtest StrategyBuilder CustomStrategies Market Alerts.
From S2P Require Import Goals Notifications Routes.

(** ** Sessions *)

(** No session the cookie could stand for. *)
Definition no_session `{AuthRuntime} (w : world) (now : Z) (psx_session : option string) : Prop :=
  match psx_session with
  | None => True
  | Some token => token = ""%string \/
      forall s, s ∈ sessions (w_auth w) -> ss_token_hash s = sha256 token -> ss_expires_at s <= now
  end.

(** The routes that ask for no session. *)
Definition public (req : request) : bool :=
  match req with GetSuspiciousState _ | ListPublicStrategies | SeedLessons => true | _ => false end.

Lemma current_user_none `{AuthRuntime} w now cookie :
  no_session w now cookie -> current_user (w_auth w) now cookie = Exn (ServiceError 401).
Proof.
  destruct cookie as [[|c s]|]; [done| |done]. intros [|Hs]; [done|]. set (token := String c s) in *.
  unfold current_user. change (match token with EmptyString => _ | String _ _ => ?x end) with x.
  unfold get_session_user, sessions_by_hash.
  rewrite (proj2 (filter_nil_iff _ _)); [done|]. intros x [Hx Hh%String.eqb_eq]%elem_of_lfilter.
  apply Z.ltb_ge. by apply Hs.
Qed.

Lemma current_user_some `{AuthRuntime} w now cookie user :
  current_user (w_auth w) now cookie = Ok user ->
  exists token s, cookie = Some token /\ s ∈ sessions (w_auth w) /\ ss_token_hash s = sha256 token /\
    now < ss_expires_at s /\ user ∈ users (w_auth w) /\ u_id user = ss_user_id s.
Proof.
  destruct cookie as [[|c t]|]; [done| |done]. set (token := String c t). unfold current_user.
  change (match token with EmptyString => _ | String _ _ => ?x end) with x. intros K. res_step K.
  destruct a as [u|]; [|discriminate]. injection K as <-. unfold get_session_user in E. res_step E. destruct a as [s|]; [|discriminate].
  apply scalar_one_some, filter_one_elem in E0 as [Hin Hl%Z.ltb_lt]. unfold sessions_by_hash in Hin.
  apply elem_of_lfilter in Hin as [Hin Hh%String.eqb_eq]. unfold user_by_id in E.
  apply scalar_one_some, filter_one_elem in E as [Hu Hid%String.eqb_eq]. by exists token, s.
Qed.

Section authentication.
Context `{AuthRuntime} `{LibM}.

Lemma handle_no_session tk w cookie req :
  public req = false -> current_user (w_auth w) (tk_now tk) cookie = Exn (ServiceError 401) ->
  handle tk w cookie req = Some (Exn (ServiceError 401)).
Proof. intros Hp E. destruct req; try discriminate Hp; unfold handle, signed_in; by rewrite E. Qed.
End authentication.

(** ** What belongs to a user *)

Definition portfolio_ids_of (w : world) (v : string) : list string :=
  map p_id (List.filter (of_owner v) (portfolios (w_ledger w))).
Definition in_portfolios (ids : list string) (pid : string) : bool := existsb (String.eqb pid) ids.

(** A goal up to its link: deleting a portfolio sets the links to it to null, also
    those of somebody else's goals. *)
Definition without_link (g : Goal) : Goal :=
  mkGoal (g_id g) (g_user_id g) (g_name g) (g_goal_type g) (g_target_amount_pkr g) (g_target_date g)
    (g_current_amount_pkr g) (g_monthly_contribution_pkr g) None (g_notes g) (g_created_at g) (g_updated_at g).

Record belongings := mkBelongings {
  bl_portfolios : list Portfolio;
  bl_transactions : list Transaction;
  bl_holdings : list HoldingsSnapshot;
  bl_watchlist : list WatchlistItem;
  bl_strategies : list UserStrategy;
  bl_goals : list Goal;
  bl_notifications : list Notification;
  bl_purification : list PurificationRecord;
  bl_progress : list UserLessonProgress;
}.

Definition belongings_of (w : world) (v : string) : belongings :=
  let own := in_portfolios (portfolio_ids_of w v) in
  mkBelongings
    (List.filter (of_owner v) (portfolios (w_ledger w)))
    (List.filter (fun t => own (t_portfolio_id t)) (transactions (w_ledger w)))
    (List.filter (fun h => own (h_portfolio_id h)) (holdings (w_ledger w)))
    (items_of (watch_db w) v)
    (map without_origin (owned us_user_id v (w_strategies w)))
    (map without_link (owned g_user_id v (w_goals w)))
    (owned n_user_id v (w_notifications w))
    (owned pu_user_id v (w_purification w))
    (owned pr_user_id v (progress (w_lessons w))).

(** ** The constraints of all the tables *)

Record world_ok (w : world) : Prop := mkWorldOk {
  wk_portfolios : portfolios_ok (w_ledger w);
  wk_watchlist : wl_ok (watch_db w);
  wk_strategies : strategies_ok (w_strategies w);
  wk_goals : goals_ok (goals_db w);
}.

(** The identifiers drawn for a request are new. *)
Definition fresh (tk : tick) (w : world) : Prop :=
  tk_uuid tk ∉ map p_id (portfolios (w_ledger w)) /\ tk_uuid tk ∉ map us_id (w_strategies w) /\
  tk_uuid tk ∉ map g_id (w_goals w) /\ tk_serial tk ∉ map wi_id (w_watchlist w).

(** What a request of a user, or of nobody, leaves behind. *)
Definition advances (uid : option string) (w w' : world) : Prop :=
  world_ok w' /\ w_auth w' = w_auth w /\ forall v, uid <> Some v -> belongings_of w' v = belongings_of w v.

Lemma advances_refl uid w : world_ok w -> advances uid w w.
Proof. done. Qed.

Lemma advances_watch uid w db : world_ok w -> kept uid (watch_db w) db -> advances (Some uid) w (set_watch w db).
Proof.
  intros [H1 H2 H3 H4] (Hok & Hl & Ho). assert (E : watch_db (set_watch w db) = db) by (unfold watch_db; cbn; destruct db; by cbn in Hl; rewrite Hl).
  split; [split; try done; by rewrite E|]. split; [done|]. intros v Hv. unfold belongings_of. rewrite E.
  rewrite Ho by congruence. done.
Qed.

Lemma advances_strategies uid w l :
  world_ok w -> strategies_ok l -> (forall v, v <> uid -> map without_origin (owned us_user_id v l) = map without_origin (owned us_user_id v (w_strategies w))) ->
  advances (Some uid) w (set_strategies w l).
Proof.
  intros [H1 H2 H3 H4] Hok Ho. split; [by split|]. split; [done|]. intros v Hv. unfold belongings_of. cbn [w_strategies set_strategies].
  rewrite Ho by congruence. done.
Qed.

Lemma advances_goals uid w l :
  world_ok w -> goals_ok (mkGoalDb l (map p_id (portfolios (w_ledger w)))) -> foreign g_user_id uid l = foreign g_user_id uid (w_goals w) ->
  advances (Some uid) w (set_goals w l).
Proof.
  intros [H1 H2 H3 H4] Hok Ho. split; [by split|]. split; [done|]. intros v Hv. unfold belongings_of. cbn [w_goals set_goals].
  rewrite (owned_foreign g_user_id uid v l (w_goals w)) by congruence. done.
Qed.

Lemma advances_notifications uid w l :
  world_ok w -> foreign n_user_id uid l = foreign n_user_id uid (w_notifications w) -> advances (Some uid) w (set_notifications w l).
Proof.
  intros [H1 H2 H3 H4] Ho. split; [by split|]. split; [done|]. intros v Hv. unfold belongings_of. cbn [w_notifications set_notifications].
  rewrite (owned_foreign n_user_id uid v l (w_notifications w)) by congruence. done.
Qed.

Lemma advances_purification uid w l :
  world_ok w -> foreign pu_user_id uid l = foreign pu_user_id uid (w_purification w) -> advances (Some uid) w (set_purification w l).
Proof.
  intros [H1 H2 H3 H4] Ho. split; [by split|]. split; [done|]. intros v Hv. unfold belongings_of. cbn [w_purification set_purification].
  rewrite (owned_foreign pu_user_id uid v l (w_purification w)) by congruence. done.
Qed.

Lemma advances_lessons uid w db :
  world_ok w -> foreign pr_user_id uid (progress db) = foreign pr_user_id uid (progress (w_lessons w)) -> advances (Some uid) w (set_lessons w db).
Proof.
  intros [H1 H2 H3 H4] Ho. split; [by split|]. split; [done|]. intros v Hv. unfold belongings_of. cbn [w_lessons set_lessons].
  rewrite (owned_foreign pr_user_id uid v (progress db) (progress (w_lessons w))) by congruence. done.
Qed.

Lemma advances_alerts uid w db : world_ok w -> advances uid w (set_alerts w db).
Proof. by intros [H1 H2 H3 H4]. Qed.

Lemma owned_strategies v uid l l' :
  v <> uid -> others uid l = others uid l' -> map without_origin (owned us_user_id v l) = map without_origin (owned us_user_id v l').
Proof.
  intros Hv. assert (H : forall l, map without_origin (owned us_user_id v l) = owned us_user_id v (others uid l)).
  { clear l l'. induction l as [|s l IH]; [done|]. unfold owned, others in *. cbn [List.filter].
    destruct (String.eqb_spec (us_user_id s) v) as [E|E], (String.eqb_spec (us_user_id s) uid) as [E'|E'];
      cbn [negb map List.filter without_origin us_user_id].
    - congruence.
    - by rewrite E, String.eqb_refl, IH.
    - by rewrite IH.
    - by rewrite (proj2 (String.eqb_neq _ _) E), IH. }
  intros E. by rewrite !H, E.
Qed.

Lemma advances_strategy uid w l :
  world_ok w -> strategy_step uid (w_strategies w) l -> advances (Some uid) w (set_strategies w l).
Proof.
  intros Hok Hs. apply advances_strategies; [done|by eapply strategy_step_ok, Hs; apply Hok|]. intros v Hv.
  apply (owned_strategies v uid); [done|]. apply strategy_step_others; [apply Hok|done].
Qed.

Lemma goal_step_portfolios uid db db' : goal_step uid db db' -> portfolio_ids db' = portfolio_ids db.
Proof.
  intros [new_id now body d g Hf H|now gid body d g H|gid d H].
  - by apply goal_create_inv in H as (-> & _).
  - by apply goal_update_inv in H as (r & _ & _ & _ & [[-> _]|(-> & _)]).
  - by apply delete_inv in H as (r & _ & _ & _ & ->).
Qed.

Lemma advances_goal uid w db : world_ok w -> goal_step uid (goals_db w) db -> advances (Some uid) w (set_goals w (goals db)).
Proof.
  intros Hok Hs. pose proof (goal_step_ok _ _ _ (wk_goals _ Hok) Hs) as Hg. pose proof (goal_step_foreign _ _ _ (wk_goals _ Hok) Hs) as Hf.
  apply goal_step_portfolios in Hs. apply advances_goals; [done| |done]. cbn in Hs. rewrite <- Hs. by destruct db.
Qed.

(** *** The ledger *)

Lemma goals_more (l : list Goal) ids ids' : (forall k, k ∈ ids -> k ∈ ids') -> goals_ok (mkGoalDb l ids) -> goals_ok (mkGoalDb l ids').
Proof. intros Hk [Hn Hr]. split; [done|]. intros g Hg. eapply goal_ok_mono; [|by apply Hr]. intros p _. apply Hk. Qed.

Lemma advances_portfolios uid w db : world_ok w -> keeps uid (w_ledger w) db -> advances (Some uid) w (set_ledger w db).
Proof.
  intros [H1 H2 H3 H4] (Hok & (Et & Eh & Es & _) & Ho & Hk). split; [split|split; [done|]]; try done.
  - unfold watch_db. cbn. by rewrite Es.
  - by apply (goals_more _ (map p_id (portfolios (w_ledger w)))).
  - intros v Hv. unfold belongings_of, portfolio_ids_of. cbn [w_ledger set_ledger w_strategies w_goals w_notifications w_purification w_lessons].
    rewrite Ho, Et, Eh by congruence. unfold items_of, watch_db. cbn [watchlist w_watchlist set_ledger]. done.
Qed.

(** The portfolios of somebody else are other portfolios. *)
Lemma own_portfolio_apart w uid v p :
  portfolios_ok (w_ledger w) -> p ∈ portfolios (w_ledger w) -> p_user_id p = uid -> v <> uid ->
  in_portfolios (portfolio_ids_of w v) (p_id p) = false.
Proof.
  intros Hok Hp Hu Hv. apply not_true_iff_false. intros (q & Eq & [Hq Ho]%elem_of_lfilter)%mem_text%list_elem_of_fmap.
  unfold of_owner in Ho. apply String.eqb_eq in Ho. apply Hv. rewrite <- Ho, <- Hu. f_equal.
  by apply (nodup_id_inj p_id _ _ _ (ok_ids _ Hok)).
Qed.

Lemma advances_trade tk uid w pid body filer p db t pv :
  world_ok w -> p ∈ portfolios (w_ledger w) -> p_user_id p = uid -> p_id p = pid ->
  Transactions.create (w_ledger w) pid body filer (tk_uuid tk) (tk_now tk) = Some (Ok (db, t, pv)) ->
  advances (Some uid) w (set_ledger w db).
Proof.
  intros [H1 H2 H3 H4] Hp Hu Hpid Hc. apply create_frame in Hc as (hs & -> & Ht & _ & Hh & Hf). split; [split|split; [done|]]; try done.
  - destruct H1 as [P1 P2 P3 P4 P5].
    assert (Hin : pid ∈ map p_id (portfolios (w_ledger w))) by (rewrite <- Hpid; by apply list_elem_of_fmap_2).
    split; cbn [with_holdings with_transactions portfolios transactions holdings set_ledger w_ledger]; try done.
    + intros x [Hx| ->%list_elem_of_singleton]%elem_of_app; [by apply P4|by rewrite Ht].
    + intros h [Hx| ->]%Hh; [by apply P5|done].
  - intros v Hv. assert (Hne : v <> uid) by congruence.
    pose proof (own_portfolio_apart w uid v p H1 Hp Hu Hne) as Hown. rewrite Hpid in Hown.
    unfold belongings_of, portfolio_ids_of in *. cbn [w_ledger set_ledger with_holdings with_transactions portfolios transactions holdings
      w_strategies w_goals w_notifications w_purification w_lessons].
    rewrite List.filter_app. cbn [List.filter]. rewrite Ht, Hown, app_nil_r.
    rewrite Hf; [done|]. by intros h ->.
Qed.

Lemma without_link_unlink pid l : map without_link (map (Goals.unlink pid) l) = map without_link l.
Proof. rewrite map_map. apply map_ext. intros g. unfold Goals.unlink. by case_bool_decide. Qed.

Lemma owned_unlink v pid l : owned g_user_id v (map (Goals.unlink pid) l) = map (Goals.unlink pid) (owned g_user_id v l).
Proof.
  unfold owned. induction l as [|g l IH]; [done|]. cbn [map List.filter].
  rewrite (proj1 (proj2 (goal_unlink_columns pid g))), IH. by destruct (String.eqb _ _).
Qed.

Lemma advances_closed uid w pid db :
  world_ok w -> Portfolios.delete (w_ledger w) uid pid = Ok db ->
  advances (Some uid) w (set_goals (set_ledger w db) (map (Goals.unlink pid) (w_goals w))).
Proof.
  intros [H1 H2 H3 H4] Hd. pose proof (portfolio_step_ok _ _ H1 (Portfolios.step_delete _ _ _ _ Hd)) as Hok.
  unfold Portfolios.delete in Hd. res_step Hd. rename a into p. apply get_some in E as (Hp & Hpid & Hu).
  destruct (p_is_default p); [discriminate|]. injection Hd as <-. rewrite Hpid in *. split; [split|split; [done|]]; try done.
  - pose proof (goal_world_ok _ _ H4 (world_closed _ pid)) as Hg. unfold goals_db in *. cbn in Hg |- *.
    replace (map p_id (List.filter (fun q => negb (String.eqb (p_id q) pid)) (portfolios (w_ledger w))))
      with (List.filter (fun p => negb (String.eqb p pid)) (map p_id (portfolios (w_ledger w)))); [exact Hg|].
    clear. induction (portfolios (w_ledger w)) as [|q l IH]; [done|]. cbn [map List.filter]. rewrite IH. by destruct (negb _).
  - intros v Hv. assert (Hne : v <> uid) by congruence.
    pose proof (own_portfolio_apart w uid v p H1 Hp Hu Hne) as Hown. rewrite Hpid in Hown.
    unfold belongings_of, portfolio_ids_of in *. cbn [w_ledger set_ledger set_goals portfolios transactions holdings
      w_strategies w_goals w_notifications w_purification w_lessons].
    rewrite owned_unlink, without_link_unlink, lfilter_swap.
    rewrite (lfilter_all _ (List.filter (of_owner v) _)).
    2: { intros q Hq. apply negb_true_iff, String.eqb_neq. intros Eq. apply not_true_iff_false in Hown.
         apply Hown, mem_text. rewrite <- Eq. by apply list_elem_of_fmap_2. }
    f_equal; rewrite lfilter_swap; apply lfilter_all; intros x [_ Hx]%elem_of_lfilter; apply negb_true_iff, String.eqb_neq;
      intros Ex; by rewrite Ex, Hown in Hx.
Qed.

(** *** Purification records and lesson progress *)

Lemma mark_donated_foreign db records uid year symbol donated now today records' :
  Purification.mark_donated db records uid year symbol donated now today = Ok records' ->
  foreign pu_user_id uid records' = foreign pu_user_id uid records.
Proof.
  unfold Purification.mark_donated. intros K. res_step K. destruct a.
  - injection K as <-. apply foreign_touch. intros r _. destruct (record_match uid year symbol r) eqn:Em; [|by left].
    unfold record_match, record_key in Em. zbool. apply String.eqb_eq in H. by right.
  - res_step K. destruct (List.find _ _); injection K as <-; [by apply foreign_app|done].
Qed.

Lemma store_progress_foreign uid found p db :
  pr_user_id p = uid -> foreign pr_user_id uid (progress (store_progress found p db)) = foreign pr_user_id uid (progress db).
Proof.
  intros Hp. destruct found; cbn [store_progress progress]; [|by apply foreign_app]. apply foreign_touch. intros q _.
  destruct (is_progress _ _ q) eqn:E; [|by left]. right. unfold is_progress in E. apply andb_true_iff in E as [E%String.eqb_eq _].
  by rewrite E.
Qed.

Lemma find_progress_user db uid lid p : find_progress db uid lid = Ok (Some p) -> pr_user_id p = uid.
Proof.
  unfold find_progress. intros [_ Hp]%scalar_one_some%filter_one_elem. unfold is_progress in Hp.
  by apply andb_true_iff in Hp as [Hp%String.eqb_eq _].
Qed.

Lemma get_with_progress_foreign db now uid slug db' d :
  get_with_progress db now uid slug = Ok (db', d) -> foreign pr_user_id uid (progress db') = foreign pr_user_id uid (progress db).
Proof.
  unfold get_with_progress. intros K. res_step K. destruct a; [|by injection K as <- <-]. res_step K. injection K as <- <-.
  apply store_progress_foreign. destruct a as [p|]; [by apply find_progress_user in E0|done].
Qed.

Lemma submit_quiz_foreign db now uid slug answers db' q :
  Lessons.submit_quiz db now uid slug answers = Ok (db', q) ->
  foreign pr_user_id uid (progress db') = foreign pr_user_id uid (progress db).
Proof.
  unfold Lessons.submit_quiz. intros K. res_step K. destruct a; [|by injection K as <- <-]. res_step K. res_step K. injection K as <- <-.
  apply store_progress_foreign. destruct a0 as [p|]; [by apply find_progress_user in E1|done].
Qed.

(** *** Every request *)

Section requests.
Context `{AuthRuntime} `{LibM}.
Variable tk : tick.

(** Who a request acts for. *)
Definition actor (w : world) (cookie : option string) (req : request) : option string :=
  if public req then None else match current_user (w_auth w) (tk_now tk) cookie with Ok u => Some (u_id u) | Exn _ => None end.

Lemma public_advances w cookie req w' r :
  world_ok w -> public req = true -> handle tk w cookie req = Some (Ok (w', r)) -> advances None w w'.
Proof.
  intros Hok Hp K. destruct req; try discriminate Hp; cbn in K.
  - injection K as <- _. by apply advances_refl.
  - injection K as <- _. by apply advances_refl.
  - unfold seed_lessons in K. injection K as K. res_step K. injection K as <- _. destruct a as [db n]. cbn.
    unfold seed_curriculum in E. cbv zeta in E. case_bool_decide; [|discriminate]. injection E as <- _. by destruct Hok.
Qed.

(** The requests that write, one by one. *)

Lemma list_portfolios_advances w user w' r :
  world_ok w -> fresh tk w -> list_portfolios tk w user = Ok (w', r) -> advances (Some (u_id user)) w w'.
Proof.
  intros Hok (Hf & _) K. unfold list_portfolios in K.
  destruct (Portfolios.list_for_user _ _); [|injection K as <- _; by apply advances_refl].
  res_step K. injection K as <- _. destruct a as [db p]. apply default_keeps in E; [|apply Hok|done]. by apply advances_portfolios.
Qed.

Lemma create_portfolio_advances w user body w' r :
  world_ok w -> fresh tk w -> create_portfolio tk w user body = Ok (w', r) -> advances (Some (u_id user)) w w'.
Proof.
  intros Hok (Hf & _) K. unfold create_portfolio in K. res_step K. injection K as <- _. destruct a as [db p].
  apply create_keeps in E; [|apply Hok|done]. by apply advances_portfolios.
Qed.

Lemma update_portfolio_advances w user pid body w' r :
  world_ok w -> update_portfolio w user pid body = Ok (w', r) -> advances (Some (u_id user)) w w'.
Proof.
  intros Hok K. unfold update_portfolio in K. res_step K. injection K as <- _. destruct a as [db p].
  apply update_keeps in E; [|apply Hok]. by apply advances_portfolios.
Qed.

Lemma delete_portfolio_advances w user pid w' r :
  world_ok w -> delete_portfolio w user pid = Ok (w', r) -> advances (Some (u_id user)) w w'.
Proof. intros Hok K. unfold delete_portfolio in K. res_step K. injection K as <- _. by apply advances_closed. Qed.

Lemma create_transaction_advances w user pid body w' r :
  world_ok w -> create_transaction tk w user pid body = Some (Ok (w', r)) -> advances (Some (u_id user)) w w'.
Proof.
  intros Hok K. unfold create_transaction in K. destruct (Portfolios.get _ _ _) as [p|] eqn:Ep; [|discriminate].
  apply get_some in Ep as (Hp & Hid & Hu). destruct (Transactions.create _ _ _ _ _ _) as [[[[db t] pv]|]|] eqn:Ec; try discriminate.
  injection K as <- _. by apply (advances_trade tk _ w (p_id p) body (u_is_filer user) p db t pv).
Qed.

Lemma add_to_watchlist_advances w user symbol note w' r :
  world_ok w -> fresh tk w -> add_to_watchlist tk w user symbol note = Ok (w', r) -> advances (Some (u_id user)) w w'.
Proof.
  intros Hok (_ & _ & _ & Hf) K. unfold add_to_watchlist in K. res_step K. injection K as <- _. destruct a as [db i].
  apply advances_watch; [done|]. by eapply (add_kept (watch_db w)); [apply (wk_watchlist _ Hok)|exact Hf|exact E].
Qed.

Lemma reorder_watchlist_advances w user symbols w' r :
  world_ok w -> reorder_watchlist w user symbols = Ok (w', r) -> advances (Some (u_id user)) w w'.
Proof.
  intros Hok K. unfold reorder_watchlist in K. destruct (negb _); [discriminate|]. res_step K. injection K as <- _. destruct a as [db i].
  apply advances_watch; [done|]. by eapply (reorder_kept (watch_db w)); [apply (wk_watchlist _ Hok)|exact E].
Qed.

Lemma remove_from_watchlist_advances w user symbol w' r :
  world_ok w -> remove_from_watchlist w user symbol = Ok (w', r) -> advances (Some (u_id user)) w w'.
Proof.
  intros Hok K. unfold remove_from_watchlist in K. res_step K. injection K as <- _.
  apply advances_watch; [done|]. by eapply (remove_kept (watch_db w)); [apply (wk_watchlist _ Hok)|exact E].
Qed.

Lemma create_goal_advances w user body w' r :
  world_ok w -> fresh tk w -> create_goal tk w user body = Ok (w', r) -> advances (Some (u_id user)) w w'.
Proof.
  intros Hok (_ & _ & Hf & _) K. unfold create_goal in K. res_step K. injection K as <- _. unfold Goals.create_goal in E.
  destruct (negb _); [discriminate|]. res_step E. res_step E. injection E as <-. destruct a0 as [db g].
  apply advances_goal; [done|]. by eapply (Goals.step_create _ (goals_db w)); [exact Hf|exact E0].
Qed.

Lemma update_goal_advances w user gid body w' r :
  world_ok w -> update_goal tk w user gid body = Ok (w', r) -> advances (Some (u_id user)) w w'.
Proof.
  intros Hok K. unfold update_goal in K. res_step K. injection K as <- _. unfold Goals.update_goal in E.
  destruct (negb _); [discriminate|]. res_step E. res_step E. destruct (written _ _ _ _ _); [discriminate|]. injection E as <-.
  destruct a0 as [db g]. apply advances_goal; [done|]. by eapply Goals.step_update; exact E0.
Qed.

Lemma delete_goal_advances w user gid w' r :
  world_ok w -> delete_goal w user gid = Ok (w', r) -> advances (Some (u_id user)) w w'.
Proof.
  intros Hok K. unfold delete_goal in K. res_step K. injection K as <- _. apply advances_goal; [done|].
  by eapply Goals.step_delete; exact E.
Qed.

Lemma evaluate_today_advances uid w symbol w' r :
  world_ok w -> evaluate_today tk w symbol = Ok (w', r) -> advances uid w w'.
Proof. intros Hok K. unfold evaluate_today in K. res_step K. injection K as <- _. by apply advances_alerts. Qed.

Lemma create_strategy_advances w user body w' r :
  world_ok w -> fresh tk w -> create_strategy tk w user body = Ok (w', r) -> advances (Some (u_id user)) w w'.
Proof.
  intros Hok (_ & Hf & _) K. unfold create_strategy in K. destruct (negb _); [discriminate|]. res_step K. injection K as <- _.
  destruct a as [db s]. apply advances_strategy; [done|]. by eapply CustomStrategies.step_create; [exact Hf|exact E].
Qed.

Lemma update_strategy_advances w user sid body w' r :
  world_ok w -> update_strategy tk w user sid body = Ok (w', r) -> advances (Some (u_id user)) w w'.
Proof.
  intros Hok K. unfold update_strategy in K. destruct (negb _); [discriminate|]. res_step K. res_step K.
  destruct (changed _ _); [discriminate|]. injection K as <- _. destruct a as [db s]. apply advances_strategy; [done|].
  by eapply CustomStrategies.step_update; exact E.
Qed.

Lemma delete_strategy_advances w user sid w' r :
  world_ok w -> delete_strategy w user sid = Ok (w', r) -> advances (Some (u_id user)) w w'.
Proof.
  intros Hok K. unfold delete_strategy in K. res_step K. injection K as <- _. apply advances_strategy; [done|].
  by eapply CustomStrategies.step_delete; exact E.
Qed.

Lemma fork_strategy_advances w user sid w' r :
  world_ok w -> fresh tk w -> fork_strategy tk w user sid = Ok (w', r) -> advances (Some (u_id user)) w w'.
Proof.
  intros Hok (_ & Hf & _) K. unfold fork_strategy in K. res_step K. injection K as <- _. destruct a as [db s].
  apply advances_strategy; [done|]. by eapply step_fork; [exact Hf|exact E].
Qed.

Lemma mark_read_advances w user nid w' r :
  world_ok w -> mark_read tk w user nid = Ok (w', r) -> advances (Some (u_id user)) w w'.
Proof.
  intros Hok [= <- _]. apply advances_notifications; [done|]. apply touched_foreign. intros n. apply mark_read_cases.
Qed.

Lemma mark_all_read_advances w user w' r :
  world_ok w -> mark_all_read tk w user = Ok (w', r) -> advances (Some (u_id user)) w w'.
Proof. intros Hok [= <- _]. apply advances_notifications; [done|]. apply touched_foreign. intros n. apply mark_all_cases. Qed.

Lemma mark_donated_advances w user year symbol donated w' r :
  world_ok w -> mark_donated tk w user year symbol donated = Ok (w', r) -> advances (Some (u_id user)) w w'.
Proof.
  intros Hok K. unfold mark_donated in K. res_step K. injection K as <- _. apply advances_purification; [done|].
  by apply mark_donated_foreign in E.
Qed.

Lemma get_lesson_advances w user slug w' r :
  world_ok w -> get_lesson tk w user slug = Ok (w', r) -> advances (Some (u_id user)) w w'.
Proof.
  intros Hok K. unfold get_lesson in K. res_step K. destruct a as [db [d|]]; [|discriminate]. injection K as <- _.
  apply advances_lessons; [done|]. by apply get_with_progress_foreign in E.
Qed.

Lemma submit_quiz_advances w user slug answers w' r :
  world_ok w -> submit_quiz tk w user slug answers = Ok (w', r) -> advances (Some (u_id user)) w w'.
Proof.
  intros Hok K. unfold submit_quiz in K. destruct (negb _); [discriminate|]. res_step K. destruct a as [db [q|]]; [|discriminate].
  injection K as <- _. apply advances_lessons; [done|]. by apply submit_quiz_foreign in E.
Qed.

(** The requests that read. *)
Ltac reads K := by (repeat (first [res_step K | destruct (_ <? _); [discriminate K|]]); injection K as <- _; apply advances_refl).

Lemma handle_advances w cookie req w' r :
  world_ok w -> fresh tk w -> handle tk w cookie req = Some (Ok (w', r)) -> advances (actor w cookie req) w w'.
Proof.
  intros Hok Hf K. destruct (public req) eqn:Hp.
  { unfold actor. rewrite Hp. by eapply public_advances. }
  unfold actor. rewrite Hp. destruct (current_user (w_auth w) (tk_now tk) cookie) as [user|e] eqn:Eu.
  2: { exfalso. destruct req; try discriminate Hp; unfold handle, signed_in in K; rewrite Eu in K; discriminate K. }
  assert (Hr : forall route, signed_in tk w cookie route = route user) by (intros route; unfold signed_in; by rewrite Eu).
  destruct req; try discriminate Hp; unfold handle in K; rewrite Hr in K; try apply (inj Some) in K.
  - by eapply list_portfolios_advances.
  - by eapply create_portfolio_advances.
  - unfold get_portfolio in K. reads K.
  - by eapply update_portfolio_advances.
  - by eapply delete_portfolio_advances.
  - unfold portfolio_summary in K. reads K.
  - unfold list_transactions in K. reads K.
  - unfold preview_transaction in K. reads K.
  - by eapply create_transaction_advances.
  - unfold get_watchlist in K. reads K.
  - by eapply add_to_watchlist_advances.
  - by eapply reorder_watchlist_advances.
  - by eapply remove_from_watchlist_advances.
  - unfold list_goals in K. reads K.
  - by eapply create_goal_advances.
  - unfold get_goal in K. reads K.
  - by eapply update_goal_advances.
  - by eapply delete_goal_advances.
  - unfold list_alerts_for_user in K. reads K.
  - by eapply evaluate_today_advances.
  - unfold my_benchmark in K. reads K.
  - unfold list_my_strategies in K. reads K.
  - by eapply create_strategy_advances.
  - by eapply update_strategy_advances.
  - by eapply delete_strategy_advances.
  - by eapply fork_strategy_advances.
  - unfold list_notifications in K. reads K.
  - unfold unread_count in K. reads K.
  - by eapply mark_read_advances.
  - by eapply mark_all_read_advances.
  - unfold purification_report in K. reads K.
  - by eapply mark_donated_advances.
  - unfold list_lessons in K. reads K.
  - by eapply get_lesson_advances.
  - by eapply submit_quiz_advances.
Qed.
End requests.

Section theorems.
Context `{AuthRuntime} `{LibM}.

(** Without a live session for its cookie, a request is answered with 401 and
    changes nothing, whatever it asks for, but for the three public routes, whose
    answers do not depend on the cookie.  Whatever another route answers, it does so
    for the user of a session that the cookie names and that has not expired. *)
Theorem authentication_required tk w cookie req :
  (public req = false -> no_session w (tk_now tk) cookie -> handle tk w cookie req = Some (Exn (ServiceError 401))) /\
  (public req = true -> forall cookie', handle tk w cookie' req = handle tk w cookie req) /\
  (forall w' r, public req = false -> handle tk w cookie req = Some (Ok (w', r)) ->
     exists token s user, cookie = Some token /\ s ∈ sessions (w_auth w) /\ ss_token_hash s = sha256 token /\
       tk_now tk < ss_expires_at s /\ user ∈ users (w_auth w) /\ u_id user = ss_user_id s /\
       actor tk w cookie req = Some (u_id user)).
Proof.
  split_and!.
  - intros Hp Hn. apply handle_no_session; [done|]. by apply current_user_none.
  - intros Hp cookie'. by destruct req; try discriminate Hp.
  - intros w' r Hp K. unfold actor. rewrite Hp.
    destruct (current_user (w_auth w) (tk_now tk) cookie) as [user|e] eqn:Eu.
    + destruct (current_user_some w _ cookie user Eu) as (token & s & ? & ? & ? & ? & ? & ?). by exists token, s, user.
    + exfalso. destruct req; try discriminate Hp; unfold handle, signed_in in K; rewrite Eu in K; discriminate K.
Qed.

(** Requests, and what the account routes and the jobs write, which no route here does. *)
Inductive world_step (w : world) : world -> Prop :=
| world_served tk cookie req w' r :
    fresh tk w -> handle tk w cookie req = Some (Ok (w', r)) -> world_step w w'
| world_elsewhere auth notifications peers alerts :
    world_step w (mkWorld auth (w_ledger w) (w_watchlist w) (w_strategies w) (w_goals w) notifications (w_lessons w)
                    (w_purification w) peers alerts).

(** A new installation: the listed securities, the tax rules and the prices. *)
Definition new_world (auth : auth_db) (listed : list Security) (rules : list TaxRule) (prices : list OhlcvDaily)
    (alerts : alert_db) : world :=
  mkWorld auth (mkDb [] [] [] listed rules prices) [] [] [] [] (mkLessons [] []) [] [] alerts.

Lemma new_world_ok auth listed rules prices alerts :
  NoDup (map s_symbol listed) -> world_ok (new_world auth listed rules prices alerts).
Proof.
  intros Hl. split; split; cbn; try (apply NoDup_nil_2); try (by intros x ?%not_elem_of_nil); try (by intros x y ?%not_elem_of_nil);
    try done; intros v; try apply NoDup_nil_2. lia.
Qed.

Lemma world_step_ok w w' : world_ok w -> world_step w w' -> world_ok w'.
Proof.
  intros Hok [tk cookie req d r Hf K|auth notifications peers alerts].
  - by apply handle_advances in K as [? _].
  - by destruct Hok.
Qed.

Lemma handle_total tk w cookie req : handle tk w cookie req <> None.
Proof.
  assert (Hs : forall route, (forall u, route u <> None) -> signed_in tk w cookie route <> None).
  { intros route Hr. unfold signed_in. by destruct (current_user _ _ _). }
  destruct req; unfold handle; try (by apply Hs); try done. apply Hs. intros u. unfold create_transaction.
  destruct (Portfolios.get _ _ _) as [p|]; [|done]. pose proof (create_total (w_ledger w) (p_id p) body (u_is_filer u) (tk_uuid tk) (tk_now tk)) as Ht.
  by destruct (Transactions.create _ _ _ _ _ _).
Qed.

(** C25: From a new installation, whatever is requested, by whom and in whatever
    order, the constraints of all the tables hold: of portfolios, trades and
    holdings, of the watchlists, the strategies and the goals.  Every request is
    answered.  And what belongs to a user, his portfolios with their trades and
    holdings, his watchlist, strategies, goals, notifications, purification records and
    lesson progress, changes only in requests made with a session of his: the one
    exception is the link of a goal to a portfolio that its owner deletes, and of a
    fork to a strategy its author deletes. *)
Theorem users_isolated auth listed rules prices alerts w :
  NoDup (map s_symbol listed) ->
  rtc world_step (new_world auth listed rules prices alerts) w ->
  world_ok w /\
  forall tk cookie req, fresh tk w ->
    match handle tk w cookie req with
    | None => False
    | Some (Exn _) => True
    | Some (Ok (w', _)) =>
        w_auth w' = w_auth w /\
        forall v, actor tk w cookie req <> Some v -> belongings_of w' v = belongings_of w v
    end.
Proof.
  intros Hl Hr. assert (Hok : world_ok w).
  { pose proof (new_world_ok auth listed rules prices alerts Hl) as H0'. revert H0'.
    induction Hr as [|w0 w1 w2 Hs _ IH]; [done|]. intros H0'. by apply IH, (world_step_ok w0). }
  split; [done|]. intros tk cookie req Hf. pose proof (handle_total tk w cookie req) as Ht.
  destruct (handle tk w cookie req) as [[[w' r]|e]|] eqn:E; [|done|done].
  apply handle_advances in E as (_ & Ha & Hb); [|done|done]. done.
Qed.
End theorems.

(** ** Two users *)

#[local] Instance plain_hashes : AuthRuntime := {|
  sha256 t := ("sha:" +:+ t)%string;
  ph_hash salt p := ("$" +:+ p)%string;
  ph_verify h p := String.eqb h ("$" +:+ p);
  ph_needs_rehash _ := false;
  totp_verify s c _ := String.eqb s c;
  provisioning_uri s a := a;
  smtp_send _ _ _ := Ok tt
|}.
#[local] Instance plain_pow : LibM := { libm_pow := fun x _ => x }.

Definition a_user (id email : string) : User :=
  mkUser id email None None None None None false false None None None None None false None None false default_prefs 0.
Definition two_accounts : auth_db :=
  mkAuth [a_user "u1" "a@x.pk"; a_user "u2" "b@x.pk"]
    [mkSession "s1" "u1" "sha:one" 5000 0 None None; mkSession "s2" "u2" "sha:two" 5000 0 None None].
Definition quiet_alerts : alert_db := mkAlertDb [] [] [] [] [] [].
Definition opening : world := new_world two_accounts [mkSecurity "HBL" "Habib Bank" "Banks" false] [] [] quiet_alerts.

Definition after (r : option (res (world * response))) (w : world) : world :=
  match r with Some (Ok (w', _)) => w' | _ => w end.

(** The first user opens a portfolio and watches a stock. *)
Definition tick1 : tick := mkTick 10 738000 "p1" 1.
Definition tick2 : tick := mkTick 20 738000 "p2" 2.
Definition tick3 : tick := mkTick 30 738000 "p3" 3.
Definition opened : world := after (handle tick1 opening (Some "one"%string) ListPortfolios) opening.
Definition watching : world := after (handle tick2 opened (Some "one"%string) (AddToWatchlist "hbl" None)) opened.

Lemma reach_watching : rtc world_step opening watching.
Proof.
  eapply rtc_l; [|eapply rtc_l; [|apply rtc_refl]].
  - apply (world_served opening tick1 (Some "one"%string) ListPortfolios opened (Portfolios (portfolios (w_ledger opened)))).
    + split_and!; apply not_elem_of_nil.
    + vm_compute. reflexivity.
  - eapply (world_served opened tick2 (Some "one"%string) (AddToWatchlist "hbl" None) watching).
    + split_and!; [|apply not_elem_of_nil..]. apply (bool_decide_unpack _). vm_compute. exact I.
    + vm_compute. reflexivity.
Qed.

(** The second user cannot close the first one's portfolio, and opening his own
    changes nothing of hers; without a session nobody can. *)
Lemma users_isolated_witness :
  handle tick3 watching (Some "two"%string) (DeletePortfolio "p1") = Some (Exn (ServiceError 404)) /\
  exists w', handle tick3 watching (Some "two"%string) ListPortfolios = Some (Ok (w', Portfolios [mkPortfolio "p3" "u2" "Main" (Some "Default portfolio"%string) "PKR" true 30])) /\
    belongings_of w' "u1" = belongings_of watching "u1".
Proof.
  split; [vm_compute; reflexivity|].
  destruct (users_isolated two_accounts [mkSecurity "HBL" "Habib Bank" "Banks" false] [] [] quiet_alerts watching (NoDup_singleton _) reach_watching) as [_ Hi].
  assert (Hf : fresh tick3 watching).
  { split_and!; try apply not_elem_of_nil; apply (bool_decide_unpack _); vm_compute; exact I. }
  eexists. split; [vm_compute; reflexivity|].
  specialize (Hi tick3 (Some "two"%string) ListPortfolios Hf). destruct Hi as [_ Hb]; apply (Hb "u1"%string); vm_compute; discriminate.
Defined.

Lemma authentication_required_witness :
  handle tick3 watching (Some "three"%string) (DeletePortfolio "p1") = Some (Exn (ServiceError 401)) /\
  exists s, s ∈ sessions two_accounts /\ ss_user_id s = "u1"%string /\ tk_now tick3 < ss_expires_at s.
Proof.
  split.
  - apply authentication_required; [reflexivity|]. right. intros s Hs Hh. exfalso.
    apply elem_of_cons in Hs as [->|Hs]; [discriminate Hh|]. apply elem_of_cons in Hs as [->|Hs]; [discriminate Hh|].
    by apply not_elem_of_nil in Hs.
  - destruct (proj2 (proj2 (authentication_required tick3 watching (Some "one"%string) GetWatchlist)) watching
      (Items (Watchlist.get_watchlist (watch_db watching) "u1"))) as (t & s & u & _ & Hs & _ & Hl & _ & Hu & Ha).
    + reflexivity.
    + vm_compute. reflexivity.
    + exists s. split; [exact Hs|]. split; [|exact Hl]. rewrite <- Hu. vm_compute in Ha. by injection Ha.
Defined.
